(* ===== verification/_CoqProject ===== *)
-Q . S2P
Prelude.v
PyDict.v
PyStr.v
PySeq.v
PyRe.v
Config.v
Contracts.v
Correlation.v
ControlPlane.v
RequestPolicy.v
Ledger.v
Runtime.v
RuntimeFrame.v
Scheduler.v
Batching.v
Queue.v
CapacityProfile.v
CapacityContext.v
CapacityController.v
Admission.v
Broker.v
BrokerSteps.v
BrokerInv.v
BrokerProps.v
BrokerSpec.v
TWIndex.v
TWIndexSpec.v
TWIndexProps.v
KVLifecycle.v
LogSafety.v
Registry.v
ModelPath.v
ModelPathProps.v
Routing.v
RoutingProps.v
PyJson.v
TWCompiler.v
TWCompilerProps.v
TWTokens.v
TWTokensProps.v
TWProof.v
TWProofProps.v
TWBackend.v
TWManager.v
TWManagerLogic.v
TWManagerProps.v
Forward.v
ForwardProps.v
Sidecar.v
SidecarLane.v
SidecarProps.v
ModelStore.v
ModelRegister.v
ModelStoreProps.v
ModelRegisterProps.v
ModelInventoryProps.v
Listing.v
ListingProps.v
TWSnap.v
TWSnapProps.v
TWStore.v
TWStoreProps.v
TWAnalysis.v
TWAnalysisProps.v
Continuous.v
ContinuousProps.v
Demux.v
TokenStep.v
TokenStepProps.v
BatchGuard.v
MLXProbe.v
Attestation.v
AttestationProps.v
Surface.v
SurfaceProps.v
InProcess.v
InProcessProps.v
