(* ===== verification/Prelude.v ===== *)
(** * Whoosh'd: a verification development of the broker's control plane

    Whoosh'd is a local inference broker: a FastAPI process in front of several
    inference runtimes (MLX, llama.cpp, a stub).  It admits requests, queues those
    it cannot run yet, grants execution slots, and keeps the lifecycle of every
    request.  This development models that core and proves what it promises.

    ** The parts and how they interact

    A request enters through a handler of [whooshd/app.py].  The handler resolves a
    route, asks admission ([admission.py]), which costs the request
    ([capacity_context.py]) and asks the capacity controller
    ([capacity_controller.py], fed by a measured profile, [capacity_profile.py]) for a
    RUN, QUEUE or REJECT verdict.  It then filters the request for the backend
    ([backend_request_policy.py]), opens a lifecycle record in the runtime
    ([runtime/__init__.py]) and either starts or enters the bounded queue
    ([queue.py]).  The queue selects with the scheduler ([scheduler.py]) and grants a
    slot by reserving it in the runtime; a batch analyzer ([batching.py]) groups
    queued requests.  Settings come from the environment ([config.py]); error bodies
    and version headers follow [control_plane.py], and request correlation
    [correlation.py].

    The route comes from [routing.py]: a configured registry ([registry.py]) decides
    alone which models exist; without one, ids are resolved against the model files
    ([models/resolver.py], [models/inventory.py], [models/routes.py]) and the ids the
    adapters advertise.  A persistent model store ([model_registry/]) keeps inspected and
    registered artifacts with a durable manifest; the model lists of the runtime join
    registry, adapters, store and external routes.  What is logged passes [log_safety.py].

    Beside this path runs ThreadWake ([runtime/threadwake/]), which looks for prompt
    prefixes that could be served from a KV cache.  Its manager ([manager.py]) compiles
    a request to a prompt graph ([compiler.py], [metadata.py], [keys.py]), tokenizes it
    ([tokenization.py], [mlx_tokenizer.py]), records it in the index ([index.py]) and
    the metrics ([metrics.py]), and, in the reusing modes, asks a KV backend
    ([backend.py], [mlx_kv.py]) to continue from a stored prefix or session tip.
    Prefix proofs, candidate selection and the snapshot policy ([prefix_proof.py],
    [candidate_selection.py] and their neighbours) measure what reuse would save; an analysis
    loop ([analysis_loop.py]) plans manifests and artifacts from it, which an optional
    SQLite store ([storage.py]) keeps.

    Below the handlers, three lanes forward to a server of their own: llama.cpp, MLX-LM
    and MLX-VLM ([adapters/llama_cpp.py], [adapters/mlx_lm_server.py],
    [adapters/mlx_vlm.py]).  An adapter probes its server, starts and stops it when it
    manages it, takes a slot of its own semaphore and relays the request over HTTP
    ([http_forwarding.py]).

    Beside all this stand prototypes that decide about work on shared decoding: a scheduler
    with slots and ticks, its stream demultiplexer and its invariant checks
    ([continuous_scheduler.py], [continuous_streaming.py], [continuous_batching.py]), a
    token-step schedule over a deterministic backend ([token_step_scheduler.py],
    [fake_token_step_backend.py]), guarded batch runners ([guarded_adapter_batching.py],
    [continuous_live_prototype.py]) and probes of the MLX packages ([mlx_*.py]).

    ** The files

    - [Prelude] (this file): Python values, rational comparisons, minimum and
      counting lemmas, the hint database [whoosh] and the shared tactics.
    - [PyDict], [PyStr]: insertion-ordered dictionaries; the [str], [int] and [float]
      operations the code uses.
    - [Config]: every setting of [config.py] as a function of the environment.
    - [Contracts], [Correlation], [ControlPlane]: the shared data, correlation
      headers, and the error registry, detail bounding and version negotiation.
    - [RequestPolicy]: the ingress-to-backend boundary.
    - [Ledger]: the class [CapacityLedger], what the queue may assume of the object
      that counts slots; [Runtime] discharges it for [RuntimeState].
    - [Runtime], [RuntimeFrame]: request records, reservations, counters, and frame
      lemmas saying what an operation on one request leaves alone.
    - [Scheduler], [Batching], [Queue]: selection with bounded overtaking, batch
      analysis, and the queue with its wait loop.
    - [CapacityProfile], [CapacityContext], [CapacityController], [Admission]: the
      profile data, request costs and context budgets, the capacity verdict, and its
      translation to an admission result.
    - [Broker]: the handlers as atomic steps; [BrokerSteps]: the transition system
      and its invariant; [BrokerInv], [BrokerProps]: its preservation; [BrokerSpec]:
      the guarantees over every interleaving.
    - [PySeq], [PyRe], [PyJson]: Python sequence and slice operations, the regular
      expressions the code compiles, and [json.dumps] in its canonical form.
    - [TWIndex]: the index with its two containers; [TWIndexSpec]: the LRU list it
      implements; [TWIndexProps]: the refinement and what follows from it.
    - [KVLifecycle]: the event buffer and statistics of [kv_lifecycle.py].
    - [LogSafety], [Registry], [ModelPath] with [ModelPathProps], [Routing] with
      [RoutingProps]: log sanitising, the registry, model files and inventory, and
      resolution with the aggregate endpoints.
    - [TWCompiler], [TWTokens], [TWProof], each with its [Props]: prompt graphs,
      tokenization, and prefix proofs with candidates and snapshot policy.
    - [TWBackend]: KV handles and the KV backends, as a record of operations over a
      world of their own; [TWManager]: the manager in a state and error monad;
      [TWManagerLogic]: its program logic; [TWManagerProps]: its guarantees.
    - [Forward] with [ForwardProps]: the client side of a forwarded request, headers
      and body, the classification of answers and of transport failures, and the
      relay of a stream ([http_forwarding.py]).
    - [Sidecar] with [SidecarProps]: the adapters of the three server lanes, their
      settings, command lines, child processes, health probes and calls; [SidecarLane]:
      the semaphore of a lane as a transition system.

    - [ModelStore] with [ModelStoreProps]: the persistent model store ([model_registry/]),
      its contracts, bootstrap and the inspection of candidates; [ModelRegister] with
      [ModelRegisterProps]: registration, compatibility and inventory;
      [ModelInventoryProps]: the store's operations as a transition system.
    - [TWSnap] with [TWSnapProps]: manifests, artifacts, materials and their validator,
      snapshot creators and materializers ([snapshot_*.py], [artifacts.py],
      [materialization.py]); [TWStore] with [TWStoreProps]: the storage protocol as a class,
      with the storage that stores nothing and the SQLite one as instances; [TWAnalysis] with
      [TWAnalysisProps]: the analyzer, the analysis loop and the life-cycle harness, over any
      instance.
    - [Listing] with [ListingProps]: what the model lists of [runtime/__init__.py] show.
    - [Continuous] with [ContinuousProps]: the prototype scheduler and its checks; [Demux]:
      its stream demultiplexer, alone and fed by the scheduler; [TokenStep] with
      [TokenStepProps]: the token-step schedule and its backend; [BatchGuard]: eligibility,
      the guarded runners, virtual slots and the implementation plan; [MLXProbe]: the probes
      of generators, sampling state, failure scope, decoding primitives and prompt caches.
    - [Surface] with [SurfaceProps]: what surrounds the handlers in [app.py]: the set-up of the
      router, readiness, error envelopes and exception handlers, the header middleware, and
      the execution of a dispatched request with its event stream, which refines the outcomes
      of [Broker].
    - [InProcess] with [InProcessProps]: the stub and the in-process MLX adapter
      ([adapters/stub.py], [adapters/mlx.py]), with the class [StreamContract] of what a
      client may assume of a stream, and its two instances.
    - [Attestation] with [AttestationProps]: the identity document of a target with its digest
      ([qualification_attestation.py]), the collector, and the cache of the vision adapter.

    A definition carries the name of the function or class it translates, without a
    leading underscore; a record field carries the attribute's name, with a prefix
    where two classes share it.

    ** What the theorems show

    - The broker as a whole ([BrokerSpec]): in every reachable state the occupied
      slots are within the operator's and every lane's ceiling and the waiting
      requests within the queue bound; every live request belongs to exactly one
      handler; a broker without handlers in flight holds no slot, reservation or
      queue entry; a request cancelled while queued is answered 409 and never runs;
      a waiter past its deadline leaves with nothing.
    - The queue: a grant is exact and atomic, makes progress, and the wait loop
      terminates at the deadline.
    - The runtime: ending a request releases its slot exactly once, the handover from
      grant to execution leaves no gap, a stopped request is never reported served,
      and requests are conserved.
    - The scheduler: selection is sound and progresses, and overtaking is bounded.
    - Capacity and admission: the verdict refines a priority specification, limits
      stay between one and the operator's ceiling, statuses and decisions agree, the
      profile cache is coherent, costs cover the client's limits, and model identity
      is a partial equivalence.
    - Routing: a configured registry is a boundary, an inventory model never falls
      through to another runtime, and resolutions carry valid provenance; the model
      resolver equals a declarative search, and a configured registry fails closed.
    - The model store: over every history its manifest stays sound, a registration is
      exact and idempotent, the inventory is the entries whose files are in place, and
      vision is claimed on explicit evidence only; the public model lists agree, and what
      they list beside a configured registry is refused by the routing.
    - Logging: two records that differ in unlisted values of equal size sanitise to
      the same record.
    - ThreadWake: the index refines an LRU list, stays within its limits, returns an
      entry only within its scope and keeps balanced books; equal prefix hashes mean
      equal prefixes or a digest collision; tokenization splits without loss; a
      prefix proof reports exactly the longest common prefix; the event buffer is the
      recent history; the manager's counters balance over every history, and whatever
      the KV backend does an execution ends as a full generation, a resumed one or an
      input error.
    - Snapshots: what a store has on disk is the replay of a part of the requested writes that
      contains every acknowledged one, a row is the history of its key, and a store without a
      connection is the one that stores nothing; a run of the analysis counts every ranked
      candidate once, whatever the store, and the registry agrees with the artifact table; the
      life cycle ends valid exactly for well-formed accepted records; nothing ever creates or
      materializes a snapshot.
    - Server lanes: a lane's slots are conserved over every interleaving and no waiter
      is stranded; every running child is the one its wrapper holds; the readiness wait
      terminates; a forwarded body holds exactly the declared fields; a forwarded
      stream is the decodable prefix of the upstream's; forwarding fails in typed ways
      only, and the upstream's text never reaches the client.
    - The prototypes: a slot belongs to exactly the live request that holds it, ticks alone
      finish what has started, outputs are the request's own chunks in order and reach its
      stream followed by one end; a token-step schedule ends, and the result of a request
      depends on that request and the plans alone; a guarded batch answers every request.
    - The surface: a client receives a stream's chunks in order with one proper end and can
      parse them back, a request is completed exactly if its client took everything, every
      execution leaves the state of one of the broker's outcomes, an incompatible request never
      reaches the application, and readiness is stated exactly.
    - In-process adapters: both streams have the shape of the contract, a stop means that all
      texts were sent; the MLX adapter's state and registrations stay consistent over every
      history, and a stream settles the status it set and closes what it opened.
    - Attestations: a digest exists exactly for complete identities and identifies their
      evidence up to an explicit collision; what the adapter serves from its cache agrees with
      the ids asked for and with the upstream model last observed.
    - The edges: settings, correlation headers, error envelopes and details, version
      negotiation and the backend request boundary.
    - Some theorems state behaviour that differs from what the code's comments or
      names suggest: the batch reasons, the pressure override, the pressure levels
      admission never sees, the unreachable live batch, the double count of a queued
      cancellation, the entry that moves between threads, the continued session that
      loses its middle, the reuse that resumes from nothing, the stable prefix that is
      never found, the warming server that gets traffic, the MLX-LM server nobody
      supervises, the sampling settings that generate drops, the models that are listed
      and refused, the failed copy that blocks its retry, the planned artifacts that can never
      validate, the statistics that are null over an empty table, the prototype's slots that
      are never handed out again and its checks that cannot fire or fire without cause, the
      attestation that is never complete, the stub that makes the broker ready.

    ** How the code is read

    - State is passed explicitly.  A coroutine's run between two suspension points is
      one function, so it is atomic, as it is on one event loop; other coroutines run
      between steps.  A read of [time.time()] or [time.monotonic()] is an argument,
      read once per atomic step; a generated id is an argument, assumed new.
    - A [float] is a rational (rounding is not modelled), [inf] and [nan] only occur
      as parsed settings; the timeouts and clocks of the queue are finite.
      An [int] is unbounded, as in Python.  A [str] is a sequence of ASCII or UTF-8
      bytes; [lower] and [strip] act on ASCII.
    - An exception is [None], a sum or a [reply]; logging is not modelled.
    - Parameters: the resolved route and the adapters (the ceiling of each lane is a
      function of the lane), the file systems of the profiles and of the models
      (the model store's is a map from paths to nodes, in which copies and writes may fail), the
      loaders of JSON and YAML, the probe of the host's memory, the rendering of a
      [float] and of arbitrary objects as text, [sha256], the pydantic validators of
      the ThreadWake fields and of upstream answers, a tokenizer, the MLX runtime, the
      HTTP client, and the operating system that runs the child processes (a child is
      its pid with the exit code it may have), and for SQLite the failures of statements and
      commits, the database's time and the order in which a query visits rows.  [asyncio.Semaphore] is modelled from
      the standard library.  For the prototypes: what an adapter's batch method returns or
      raises, a generator (its remaining chunks and how it closes), and which imports and
      attributes of the MLX packages a probe finds.  Statements about digests
      conclude with an explicit collision where a hash could collide.
    - Fuel: [wait_for_execution] counts the wake-ups; [wait_for_execution_terminates]
      gives the number that suffices.  The batch analyzer's loop runs on the length
      of the candidate list, which every round shortens.  The token-step schedule's loop runs on
      [schedule_fuel], the largest token budget of its requests and two more rounds, and
      [schedule_isolates] proves that it ends within it.

    ** What is not modelled

    The web framework; benchmarks and the command line;
    loading, saving and building capacity profiles; symbolic links inside the model store; the body of the live-batch path, which is proved unreachable.  A
    handler that is itself cancelled by the server ([CancelledError]) is outside the
    model. *)

From stdpp Require Export base tactics decidable numbers list strings pretty sets gmap.
From Stdlib Require Export QArith Lqa Lia.

(** QArith opens [Q_scope]; the development writes rationals with [%Q] and
    integers with [%Z], and leaves [nat] as the default. *)
Close Scope Q_scope.
Open Scope nat_scope.

Declare Scope whoosh_scope.
Delimit Scope whoosh_scope with whoosh.
Open Scope whoosh_scope.

(** ** Python values

    The JSON-like values that flow through [details] dictionaries, request
    bodies and headers.  A Python [dict] literal is an association list in
    insertion order, a [float] is an exact rational. *)
#[warnings="-register-all"]
Inductive pyval : Type :=
| PNone
| PBool (b : bool)
| PInt (z : Z)
| PFloat (q : Q)
| PStr (s : string)
| PList (l : list pyval)
| PDict (d : list (string * pyval)).

(** [x if x is not None else None] for the scalar fields of a [details]
    dictionary. *)
Definition opt_str (o : option string) : pyval := from_option PStr PNone o.
Definition opt_int (o : option Z) : pyval := from_option PInt PNone o.

(** Python truthiness of the values that reach a condition. *)
Definition truthy (v : pyval) : bool :=
  match v with
  | PNone => false
  | PBool b => b
  | PInt z => negb (z =? 0)%Z
  | PFloat q => negb (Qeq_bool q 0)
  | PStr s => negb (String.eqb s "")
  | PList l => match l with [] => false | _ => true end
  | PDict d => match d with [] => false | _ => true end
  end.

(** Truthiness of an [Optional[str]]: [None] and the empty string are false. *)
Definition str_truthy (o : option string) : bool :=
  match o with Some s => negb (String.eqb s "") | None => false end.

(** ** Booleans as integers *)
Definition b2z (b : bool) : Z := if b then 1%Z else 0%Z.

(** ** Rational comparisons as booleans *)
Definition Qltb (x y : Q) : bool := negb (Qle_bool y x).

Infix "<?q" := Qltb (at level 70, no associativity) : whoosh_scope.
Infix "<=?q" := Qle_bool (at level 70, no associativity) : whoosh_scope.

Lemma Qltb_spec x y : Qltb x y = true <-> (x < y)%Q.
Proof.
  unfold Qltb. rewrite negb_true_iff, <- not_true_iff_false, Qle_bool_iff.
  split; [apply Qnot_le_lt | apply Qlt_not_le].
Qed.

Lemma Qltb_nspec x y : Qltb x y = false <-> (y <= x)%Q.
Proof.
  rewrite <- not_true_iff_false, Qltb_spec.
  split; [apply Qnot_lt_le | apply Qle_not_lt].
Qed.

Lemma Qleb_nspec x y : Qle_bool x y = false <-> (y < x)%Q.
Proof.
  rewrite <- not_true_iff_false, Qle_bool_iff.
  split; [apply Qnot_le_lt | apply Qlt_not_le].
Qed.

(** Reflects every boolean rational or integer test of the context into a
    proposition [lra] or [lia] can use. *)
Ltac reflect_tests :=
  repeat match goal with
  | H : Qltb _ _ = true |- _ => apply Qltb_spec in H
  | H : Qltb _ _ = false |- _ => apply Qltb_nspec in H
  | H : Qle_bool _ _ = true |- _ => apply Qle_bool_iff in H
  | H : Qle_bool _ _ = false |- _ => apply Qleb_nspec in H
  | H : (_ <? _)%Z = true |- _ => apply Z.ltb_lt in H
  | H : (_ <? _)%Z = false |- _ => apply Z.ltb_ge in H
  | H : (_ <=? _)%Z = true |- _ => apply Z.leb_le in H
  | H : (_ <=? _)%Z = false |- _ => apply Z.leb_gt in H
  | H : (_ =? _)%Z = true |- _ => apply Z.eqb_eq in H
  | H : (_ =? _)%Z = false |- _ => apply Z.eqb_neq in H
  | H : (_ && _) = true |- _ => apply andb_prop in H; destruct H
  | H : (_ || _) = false |- _ => apply orb_false_elim in H; destruct H
  | H : negb _ = true |- _ => apply negb_true_iff in H
  | H : negb _ = false |- _ => apply negb_false_iff in H
  end.

(** Case analysis on the first condition of an [if] in the goal. *)
Ltac split_if :=
  match goal with
  | |- context [if ?b then _ else _] =>
      lazymatch type of b with bool => destruct b eqn:? end
  end.

(** ** Lists *)

(** [min(l, key=...)] of a non-empty list: the first element whose key is
    minimal. *)
Fixpoint min_by {A} (key : A -> Q) (best : A) (l : list A) : A :=
  match l with
  | [] => best
  | x :: l' => min_by key (if key x <?q key best then x else best) l'
  end.

Section min_by.
Context {A : Type} (key : A -> Q).

Lemma min_by_elem best l : min_by key best l ∈ best :: l.
Proof.
  revert best; induction l as [|x l IH]; intros best; simpl.
  - apply list_elem_of_here.
  - destruct (key x <?q key best).
    + apply list_elem_of_further, IH.
    + specialize (IH best). set_unfold. naive_solver.
Qed.

Lemma min_by_le best l x : x ∈ best :: l -> (key (min_by key best l) <= key x)%Q.
Proof.
  revert best x; induction l as [|y l IH]; intros best x Hx; simpl.
  - apply list_elem_of_singleton in Hx as ->. lra.
  - destruct (key y <?q key best) eqn:E; reflect_tests.
    + pose proof (IH y y ltac:(apply list_elem_of_here)).
      apply elem_of_cons in Hx as [-> | Hx]; [lra | by apply IH].
    + pose proof (IH best best ltac:(apply list_elem_of_here)).
      set_unfold in Hx. destruct Hx as [-> | [-> | Hx]]; [lra | lra |].
      apply IH. set_solver.
Qed.

(** When the head is already a minimum, [min] returns the head. *)
Lemma min_by_head best l :
  (forall x, x ∈ l -> key best <= key x)%Q -> min_by key best l = best.
Proof.
  induction l as [|y l IH]; intros Hle; simpl; [done|].
  assert (key y <?q key best = false) as ->.
  { apply Qltb_nspec, Hle. set_solver. }
  apply IH. set_solver.
Qed.
End min_by.

(** Number of elements satisfying a boolean predicate. *)
Definition countb {A} (p : A -> bool) (l : list A) : Z :=
  Z.of_nat (length (List.filter p l)).

Section countb.
Context {A : Type} (p : A -> bool).

Lemma countb_nil : countb p [] = 0%Z.
Proof. done. Qed.

Lemma countb_cons x l : countb p (x :: l) = (b2z (p x) + countb p l)%Z.
Proof. unfold countb; simpl. destruct (p x); simpl; lia. Qed.

Lemma countb_app l1 l2 : countb p (l1 ++ l2) = (countb p l1 + countb p l2)%Z.
Proof. unfold countb. rewrite List.filter_app, length_app. lia. Qed.

Lemma countb_nonneg l : (0 <= countb p l)%Z.
Proof. unfold countb. lia. Qed.

Lemma countb_zero l : (forall x, x ∈ l -> p x = false) -> countb p l = 0%Z.
Proof.
  induction l as [|x l IH]; intros H; [done|].
  rewrite countb_cons, IH by set_solver. by rewrite (H x) by set_solver.
Qed.

Lemma countb_le_length l : (countb p l <= Z.of_nat (length l))%Z.
Proof. induction l; rewrite ?countb_cons; simpl; [done|destruct (p a); simpl; lia]. Qed.
End countb.

Lemma countb_ext {A} (p q : A -> bool) l :
  (forall x, x ∈ l -> p x = q x) -> countb p l = countb q l.
Proof.
  induction l as [|x l IH]; intros H; [done|].
  rewrite !countb_cons, (H x), IH by set_solver. done.
Qed.

Lemma countb_le {A} (p q : A -> bool) l :
  (forall x, x ∈ l -> p x = true -> q x = true) -> (countb p l <= countb q l)%Z.
Proof.
  induction l as [|x l IH]; intros H; [done|].
  rewrite !countb_cons. specialize (IH ltac:(set_solver)).
  specialize (H x ltac:(set_solver)). destruct (p x), (q x); simpl; lia || naive_solver.
Qed.

(** Integer sum of a list, Python's [sum]. *)
Definition sumZ (l : list Z) : Z := foldr Z.add 0%Z l.

Lemma sumZ_app l1 l2 : sumZ (l1 ++ l2) = (sumZ l1 + sumZ l2)%Z.
Proof. unfold sumZ. induction l1; simpl; lia. Qed.

Lemma sumZ_nonneg l : Forall (fun z => 0 <= z)%Z l -> (0 <= sumZ l)%Z.
Proof. unfold sumZ. induction 1; simpl; lia. Qed.

Lemma NoDup_map_inj {A B} (f : A -> B) l x y :
  NoDup (map f l) -> x ∈ l -> y ∈ l -> f x = f y -> x = y.
Proof.
  induction l as [|z l IH]; intros Hnd Hx Hy Hf; [by apply elem_of_nil in Hx|].
  simpl in Hnd. apply NoDup_cons in Hnd as [Hz Hnd].
  assert (Hmap : forall w, w ∈ l -> f w ∈ map f l).
  { intros w Hw. apply list_elem_of_fmap. by exists w. }
  apply elem_of_cons in Hx as [-> | Hx]; apply elem_of_cons in Hy as [-> | Hy]; try done.
  - destruct Hz. rewrite Hf. by apply Hmap.
  - destruct Hz. rewrite <- Hf. by apply Hmap.
  - by apply IH.
Qed.

Lemma elem_of_filter_List {A} (p : A -> bool) l x :
  x ∈ List.filter p l <-> x ∈ l /\ p x = true.
Proof. by rewrite !list_elem_of_In, List.filter_In. Qed.

Lemma filter_List_sublist {A} (p : A -> bool) (l : list A) : List.filter p l `sublist_of` l.
Proof. induction l as [|a l IH]; simpl; [done|]. destruct (p a); by constructor. Qed.

Create HintDb whoosh.
Create Rewrite HintDb whoosh.
Create Rewrite HintDb pydict.
#[export] Hint Resolve min_by_elem min_by_le countb_nonneg sumZ_nonneg : whoosh.
#[export] Hint Rewrite @countb_nil @countb_cons @countb_app : whoosh.
