(* ===== verification/PyDict.v ===== *)
(** * Python dictionaries

    A Python [dict] iterates in insertion order: assigning an existing key
    keeps its position, assigning a new key appends it, [pop] removes it.  The
    broker's tables ([_requests], [_reservations], [_bypass_counts],
    [_entries], [_streams] ...) are all such dictionaries, and several of their
    consumers depend on the iteration order.  They are modelled as association
    lists in insertion order; [to_gmap] relates them to stdpp's finite maps,
    and the [countv] lemmas track the size of a [sum(1 for r in d.values() if
    ...)] across an update. *)

From S2P Require Import Prelude.

Section pydict.
Context {K : Type} `{EqDecision K} {V : Type}.

(** [d.get(k)] *)
Fixpoint dget (k : K) (d : list (K * V)) : option V :=
  match d with
  | [] => None
  | (k', v) :: d' => if decide (k = k') then Some v else dget k d'
  end.

(** [d[k] = v] *)
Fixpoint dset (k : K) (v : V) (d : list (K * V)) : list (K * V) :=
  match d with
  | [] => [(k, v)]
  | (k', v') :: d' =>
      if decide (k = k') then (k', v) :: d' else (k', v') :: dset k v d'
  end.

(** [d.pop(k, None)] *)
Fixpoint ddel (k : K) (d : list (K * V)) : list (K * V) :=
  match d with
  | [] => []
  | (k', v') :: d' => if decide (k = k') then d' else (k', v') :: ddel k d'
  end.

(** [k in d] *)
Definition dmem (k : K) (d : list (K * V)) : bool :=
  match dget k d with Some _ => true | None => false end.

(** [d.get(k, default)] *)
Definition dget_or (k : K) (dflt : V) (d : list (K * V)) : V :=
  default dflt (dget k d).

(** Mutation of the object stored under [k], when there is one:
    [rec = d.get(k); if rec: rec.attr = ...]. *)
Definition dupd (k : K) (f : V -> V) (d : list (K * V)) : list (K * V) :=
  match dget k d with Some v => dset k (f v) d | None => d end.

Definition dkeys (d : list (K * V)) : list K := d.*1.
Definition dvalues (d : list (K * V)) : list V := d.*2.

(** [sum(1 for v in d.values() if p(v))] *)
Definition countv (p : V -> bool) (d : list (K * V)) : Z := countb p (dvalues d).

Implicit Types (d : list (K * V)) (k : K) (v : V).

Lemma dget_dset_eq k v d : dget k (dset k v d) = Some v.
Proof. induction d as [|[k' v'] d IH]; simpl; repeat (case_decide; simpl); naive_solver. Qed.

Lemma dget_dset_ne k k' v d : k <> k' -> dget k (dset k' v d) = dget k d.
Proof.
  intros Hne. induction d as [|[k'' v''] d IH]; simpl;
    repeat (case_decide; simpl); naive_solver.
Qed.

Lemma dget_dset k k' v d :
  dget k (dset k' v d) = if decide (k = k') then Some v else dget k d.
Proof.
  case_decide as E; [subst; apply dget_dset_eq | by apply dget_dset_ne].
Qed.

Lemma dget_ddel_ne k k' d : k <> k' -> dget k (ddel k' d) = dget k d.
Proof.
  intros Hne. induction d as [|[k'' v''] d IH]; simpl;
    repeat (case_decide; simpl); naive_solver.
Qed.

Lemma dget_Some_elem k v d : dget k d = Some v -> (k, v) ∈ d.
Proof.
  induction d as [|[k' v'] d IH]; simpl; [done|].
  case_decide; intros; simplify_eq; set_solver.
Qed.

Lemma dget_None_keys k d : dget k d = None <-> k ∉ dkeys d.
Proof.
  unfold dkeys. induction d as [|[k' v'] d IH]; simpl; [set_solver|].
  case_decide; set_solver.
Qed.

Lemma dget_Some_value k v d : dget k d = Some v -> v ∈ dvalues d.
Proof. intros H%dget_Some_elem. apply list_elem_of_fmap. by exists (k, v). Qed.

Lemma elem_dget k v d : NoDup (dkeys d) -> (k, v) ∈ d -> dget k d = Some v.
Proof.
  unfold dkeys. induction d as [|[k' v'] d IH]; simpl; [set_solver|].
  intros [Hnot Hnd]%NoDup_cons [Heq | Hin]%elem_of_cons; case_decide; simplify_eq; auto.
  destruct Hnot. apply list_elem_of_fmap. by exists (k', v).
Qed.

Lemma dkeys_dset_in k v d : is_Some (dget k d) -> dkeys (dset k v d) = dkeys d.
Proof.
  induction d as [|[k' v'] d IH]; simpl; [by intros []|].
  case_decide; [done|]. intros HS. simpl. f_equal. exact (IH HS).
Qed.

Lemma dkeys_dset_out k v d : dget k d = None -> dset k v d = d ++ [(k, v)].
Proof.
  induction d as [|[k' v'] d IH]; simpl; [done|]. case_decide; [done|].
  intros. by rewrite IH.
Qed.

Lemma dkeys_dset_elem k k' v d : k' ∈ dkeys (dset k v d) <-> k' = k \/ k' ∈ dkeys d.
Proof.
  destruct (dget k d) eqn:E.
  - rewrite dkeys_dset_in by eauto. split; [auto|]. intros [-> |]; [|done].
    destruct (decide (k ∈ dkeys d)) as [|Hn]; [done|].
    apply dget_None_keys in Hn. congruence.
  - rewrite dkeys_dset_out by done. unfold dkeys. rewrite fmap_app. set_solver.
Qed.

Lemma dset_NoDup k v d : NoDup (dkeys d) -> NoDup (dkeys (dset k v d)).
Proof.
  intros Hnd. destruct (dget k d) eqn:E.
  - by rewrite dkeys_dset_in by eauto.
  - rewrite dkeys_dset_out by done. unfold dkeys. rewrite fmap_app. simpl.
    apply NoDup_app. split; [done|]. apply dget_None_keys in E.
    split; [set_solver | apply NoDup_singleton].
Qed.

Lemma ddel_sublist k d : ddel k d `sublist_of` d.
Proof.
  induction d as [|[k' v'] d IH]; simpl; [done|].
  case_decide; by constructor.
Qed.

Lemma ddel_NoDup k d : NoDup (dkeys d) -> NoDup (dkeys (ddel k d)).
Proof. intros. eapply sublist_NoDup; [done|]. apply fmap_sublist, ddel_sublist. Qed.

Lemma dget_ddel_eq k d : NoDup (dkeys d) -> dget k (ddel k d) = None.
Proof.
  unfold dkeys. induction d as [|[k' v'] d IH]; simpl; [done|].
  intros [Hn Hnd]%NoDup_cons. case_decide; subst.
  - by apply dget_None_keys.
  - simpl. rewrite decide_False by done. auto.
Qed.

Lemma dget_ddel k k' d :
  NoDup (dkeys d) ->
  dget k (ddel k' d) = if decide (k = k') then None else dget k d.
Proof.
  intros. case_decide; [subst; by apply dget_ddel_eq | by apply dget_ddel_ne].
Qed.

Lemma ddel_absent k d : dget k d = None -> ddel k d = d.
Proof.
  induction d as [|[k' v'] d IH]; simpl; [done|]. case_decide; [done|].
  intros. by rewrite IH.
Qed.

Lemma dkeys_dget k d : k ∈ dkeys d <-> is_Some (dget k d).
Proof.
  pose proof (dget_None_keys k d) as H. destruct (dget k d) eqn:E; split; intros Hk.
  - eauto.
  - apply list_elem_of_fmap. exists (k, v). split; [done|]. by apply dget_Some_elem.
  - by destruct H as [[] _].
  - by destruct Hk.
Qed.

Lemma dkeys_ddel k k' d : NoDup (dkeys d) -> k' ∈ dkeys (ddel k d) <-> k' <> k /\ k' ∈ dkeys d.
Proof.
  intros Hnd. rewrite !dkeys_dget, dget_ddel by done.
  case_decide; [subst; split; [by intros [] | by intros []] | tauto].
Qed.

(** *** Counting the values that satisfy a predicate *)

(** Contribution of the value currently stored under [k]. *)
Definition weight (p : V -> bool) k d : Z :=
  match dget k d with Some v => b2z (p v) | None => 0%Z end.

Lemma countv_cons p k v d : countv p ((k, v) :: d) = (b2z (p v) + countv p d)%Z.
Proof. apply countb_cons. Qed.

Lemma countv_dset p k v d :
  countv p (dset k v d) = (countv p d - weight p k d + b2z (p v))%Z.
Proof.
  unfold weight. induction d as [|[k' v'] d IH]; simpl.
  - rewrite countv_cons. unfold countv. simpl. lia.
  - case_decide; rewrite !countv_cons; lia.
Qed.

Lemma countv_ddel p k d : countv p (ddel k d) = (countv p d - weight p k d)%Z.
Proof.
  unfold weight. induction d as [|[k' v'] d IH]; simpl; [by unfold countv|].
  case_decide; rewrite ?countv_cons; lia.
Qed.

Lemma countv_nonneg p d : (0 <= countv p d)%Z.
Proof. apply countb_nonneg. Qed.

Lemma weight_bound p k d : (0 <= weight p k d <= 1)%Z.
Proof. unfold weight. destruct (dget k d) as [v|]; [destruct (p v)|]; simpl; lia. Qed.

Lemma countv_ge_weight p k d : (weight p k d <= countv p d)%Z.
Proof.
  unfold weight. induction d as [|[k' v'] d IH]; simpl; [done|].
  pose proof (countv_nonneg p d). rewrite countv_cons.
  case_decide; destruct (p v') eqn:?; simpl; try lia;
    destruct (dget k d) as [v|]; try destruct (p v); simpl in *; lia.
Qed.

Lemma length_dset k v d :
  Z.of_nat (length (dset k v d)) =
  (Z.of_nat (length d) + if dmem k d then 0 else 1)%Z.
Proof.
  unfold dmem. induction d as [|[k' v'] d IH]; simpl; [done|].
  case_decide; simpl; [lia|]. destruct (dget k d); lia.
Qed.

Lemma length_ddel k d :
  Z.of_nat (length (ddel k d)) =
  (Z.of_nat (length d) - if dmem k d then 1 else 0)%Z.
Proof.
  unfold dmem. induction d as [|[k' v'] d IH]; simpl; [done|].
  case_decide; simpl; [lia|]. destruct (dget k d); lia.
Qed.

Lemma dget_dupd k k' f d :
  dget k (dupd k' f d) = if decide (k = k') then f <$> dget k d else dget k d.
Proof.
  unfold dupd. destruct (dget k' d) eqn:E.
  - rewrite dget_dset. case_decide; [subst; by rewrite E | done].
  - case_decide; [subst; by rewrite E | done].
Qed.

Lemma dkeys_dupd k f d : dkeys (dupd k f d) = dkeys d.
Proof. unfold dupd. destruct (dget k d) eqn:E; [apply dkeys_dset_in; eauto | done]. Qed.

Lemma countv_dupd p k f d :
  countv p (dupd k f d) =
  (countv p d - weight p k d + match dget k d with Some v => b2z (p (f v)) | None => 0 end)%Z.
Proof.
  unfold dupd, weight. destruct (dget k d) eqn:E; [|lia].
  rewrite countv_dset. unfold weight. by rewrite E.
Qed.

Lemma dmem_true k d : dmem k d = true <-> k ∈ dkeys d.
Proof.
  unfold dmem. destruct (dget k d) eqn:E.
  - apply dget_Some_elem in E. split; [|done]. intros _.
    apply list_elem_of_fmap. by exists (k, v).
  - apply dget_None_keys in E. naive_solver.
Qed.
End pydict.

#[export] Hint Resolve dset_NoDup ddel_NoDup countv_nonneg : whoosh.
#[export] Hint Rewrite @dget_dset_eq @countv_dset @countv_ddel @countv_dupd
  @dkeys_dupd @length_dset @length_ddel : pydict.

(** ** Refinement to stdpp's finite maps *)
Section to_gmap.
Context {K : Type} `{Countable K} {V : Type}.

Definition to_gmap (d : list (K * V)) : gmap K V := list_to_map d.

Lemma lookup_to_gmap k (d : list (K * V)) : to_gmap d !! k = dget k d.
Proof.
  unfold to_gmap. induction d as [|[k' v] d IH]; simpl; [apply lookup_empty|].
  rewrite lookup_insert. repeat case_decide; naive_solver.
Qed.

Lemma to_gmap_dset k v (d : list (K * V)) : to_gmap (dset k v d) = <[k := v]> (to_gmap d).
Proof.
  apply map_eq. intros k'. rewrite lookup_insert, !lookup_to_gmap, dget_dset.
  repeat case_decide; naive_solver.
Qed.

Lemma to_gmap_ddel k (d : list (K * V)) :
  NoDup (dkeys d) -> to_gmap (ddel k d) = delete k (to_gmap d).
Proof.
  intros. apply map_eq. intros k'.
  rewrite lookup_delete, !lookup_to_gmap, dget_ddel by done.
  repeat case_decide; naive_solver.
Qed.
End to_gmap.
