(* ===== verification/PyStr.v ===== *)
(** * Python strings and number literals

    The parts of [str], [int] and [float] the broker uses, on ASCII strings:
    [lower], [strip], [split], [startswith], [endswith], [in], and the literal
    parsers behind [int(s)] and [float(s)].  A parser returns [None] where
    Python raises [ValueError]. *)

From S2P Require Import Prelude.
From Stdlib Require Import Ascii.

Fixpoint string_forallb (p : ascii -> bool) (s : string) : bool :=
  match s with
  | EmptyString => true
  | String c s' => p c && string_forallb p s'
  end.

Definition in_range (lo hi c : ascii) : bool :=
  (N_of_ascii lo <=? N_of_ascii c)%N && (N_of_ascii c <=? N_of_ascii hi)%N.

(** [s.lower()] *)
Definition ascii_lower (c : ascii) : ascii :=
  if in_range "A" "Z" c then ascii_of_N (N_of_ascii c + 32) else c.

Fixpoint lower (s : string) : string :=
  match s with
  | EmptyString => EmptyString
  | String c s' => String (ascii_lower c) (lower s')
  end.

(** The ASCII characters Python's [str.strip], [str.split], [int] and [float]
    treat as whitespace: 9-13 and 28-32. *)
Definition is_space (c : ascii) : bool :=
  ((9 <=? N_of_ascii c) && (N_of_ascii c <=? 13)
   || (28 <=? N_of_ascii c) && (N_of_ascii c <=? 32))%N.

Fixpoint lstrip (s : string) : string :=
  match s with
  | EmptyString => EmptyString
  | String c s' => if is_space c then lstrip s' else s
  end.

Fixpoint rstrip (s : string) : string :=
  match s with
  | EmptyString => EmptyString
  | String c s' =>
      match rstrip s' with
      | EmptyString => if is_space c then EmptyString else String c EmptyString
      | r => String c r
      end
  end.

(** [s.strip()] *)
Definition strip (s : string) : string := rstrip (lstrip s).

(** [s.startswith(p)] *)
Fixpoint startswith (p s : string) : bool :=
  match p, s with
  | EmptyString, _ => true
  | String c p', String d s' => Ascii.eqb c d && startswith p' s'
  | _, _ => false
  end.

(** [p in s] *)
Fixpoint contains (p s : string) : bool :=
  startswith p s || match s with EmptyString => false | String _ s' => contains p s' end.

(** [s.endswith(p)] *)
Fixpoint endswith (p s : string) : bool :=
  String.eqb p s || match s with EmptyString => false | String _ s' => endswith p s' end.

(** [s.split(sep)] for a one-character separator. *)
Fixpoint split_on (sep : ascii) (s : string) : list string :=
  match s with
  | EmptyString => [EmptyString]
  | String c s' =>
      if Ascii.eqb c sep then EmptyString :: split_on sep s'
      else match split_on sep s' with
           | [] => [String c EmptyString]
           | w :: ws => String c w :: ws
           end
  end.

(** [s.split()]: words separated by runs of whitespace. *)
Fixpoint split_words_go (cur s : string) : list string :=
  match s with
  | EmptyString => if String.eqb cur "" then [] else [cur]
  | String c s' =>
      if is_space c then
        (if String.eqb cur "" then [] else [cur]) ++ split_words_go "" s'
      else split_words_go (cur +:+ String c "")%string s'
  end.

Definition split_words (s : string) : list string := split_words_go "" s.

(** [sep.join(l)] *)
Definition join (sep : string) (l : list string) : string := String.concat sep l.

(** ** Integer literals *)

Definition digit_val (c : ascii) : option N :=
  if in_range "0" "9" c then Some (N_of_ascii c - 48)%N else None.

(** Digits with single underscores between them.  Returns the value and the
    number of digits; [need] says that a digit must come next. *)
Fixpoint digits_go (s : string) (acc : N) (n : N) (need : bool) : option (N * N) :=
  match s with
  | EmptyString => if need then None else Some (acc, n)
  | String c s' =>
      match digit_val c with
      | Some d => digits_go s' (10 * acc + d)%N (n + 1)%N false
      | None => if Ascii.eqb c "_" && negb need then digits_go s' acc n true else None
      end
  end.

Definition py_uint (s : string) : option (N * N) := digits_go s 0 0 true.

(** The sign of a literal and the rest. *)
Definition take_sign (s : string) : bool * string :=
  match s with
  | String c s' =>
      if Ascii.eqb c "-" then (true, s') else if Ascii.eqb c "+" then (false, s') else (false, s)
  | EmptyString => (false, s)
  end.

Definition signed (neg : bool) (n : N) : Z := if neg then Z.opp (Z.of_N n) else Z.of_N n.

(** [int(s)] *)
Definition py_int (s : string) : option Z :=
  let '(neg, body) := take_sign (strip s) in
  match py_uint body with Some (v, _) => Some (signed neg v) | None => None end.

(** ** Float literals *)

Inductive pyfloat := Fin (q : Q) | Inf (neg : bool) | NaN.

(** Splits at the first character satisfying [p]. *)
Fixpoint cut (p : ascii -> bool) (s : string) : string * option string :=
  match s with
  | EmptyString => (EmptyString, None)
  | String c s' =>
      if p c then (EmptyString, Some s')
      else let '(a, b) := cut p s' in (String c a, b)
  end.

Definition scale10 (m : Z) (e : Z) : Q :=
  if (e <? 0)%Z then (m # Pos.pow 10 (Z.to_pos (- e)))%Q else inject_Z (m * 10 ^ e).

Definition py_udecimal (s : string) : option Q :=
  let '(mant, ex) := cut (fun c => Ascii.eqb c "e" || Ascii.eqb c "E") s in
  let '(ip, fp) := cut (fun c => Ascii.eqb c ".") mant in
  let exponent := match ex with None => Some 0%Z | Some t =>
                    let '(neg, body) := take_sign t in
                    match py_uint body with Some (v, _) => Some (signed neg v) | None => None end end in
  let ipart := if String.eqb ip "" then Some (0, 0)%N else py_uint ip in
  let fpart := match fp with
               | None => Some (0, 0)%N
               | Some f => if String.eqb f "" then Some (0, 0)%N else py_uint f
               end in
  match ipart, fpart, exponent with
  | Some (iv, n), Some (fv, k), Some e =>
      if (n + k =? 0)%N then None
      else Some (scale10 (Z.of_N iv * 10 ^ Z.of_N k + Z.of_N fv) (e - Z.of_N k))
  | _, _, _ => None
  end.

(** [float(s)] *)
Definition py_float (s : string) : option pyfloat :=
  let '(neg, body) := take_sign (strip s) in
  let w := lower body in
  if String.eqb w "inf" || String.eqb w "infinity" then Some (Inf neg)
  else if String.eqb w "nan" then Some NaN
  else match py_udecimal body with
       | Some q => Some (Fin (if neg then - q else q)%Q)
       | None => None
       end.

Lemma string_forallb_app p s1 s2 :
  string_forallb p (s1 +:+ s2)%string = string_forallb p s1 && string_forallb p s2.
Proof.
  induction s1 as [|c s1 IH]; simpl; [done|].
  change (String c s1 +:+ s2)%string with (String c (s1 +:+ s2))%string; simpl.
  by rewrite IH, andb_assoc.
Qed.

Lemma string_length_app s1 s2 :
  String.length (s1 +:+ s2)%string = String.length s1 + String.length s2.
Proof. induction s1 as [|c s1 IH]; simpl; [done|]. f_equal. apply IH. Qed.

Lemma string_app_inv_tail a b t : (a +:+ t = b +:+ t)%string -> a = b.
Proof.
  revert b. induction a as [|c a IH]; intros [|d b] H; [done | | |].
  - apply (f_equal String.length) in H. rewrite !string_length_app in H. simpl in H. lia.
  - apply (f_equal String.length) in H. rewrite !string_length_app in H. simpl in H. lia.
  - injection H as -> H. f_equal. by apply IH.
Qed.

(** ** Printing and parsing integers *)

Definition is_digit (c : ascii) : bool := in_range "0" "9" c.

Lemma pretty_N_char_digit x : (x < 10)%N -> digit_val (pretty_N_char x) = Some x.
Proof.
  intros Hx. assert (x = 0 \/ x = 1 \/ x = 2 \/ x = 3 \/ x = 4 \/ x = 5 \/ x = 6 \/ x = 7
    \/ x = 8 \/ x = 9)%N as Hc by lia.
  repeat (destruct Hc as [-> | Hc]; [reflexivity|]). by subst.
Qed.

Lemma digits_go_count s acc n n' need :
  fst <$> digits_go s acc n need = fst <$> digits_go s acc n' need.
Proof.
  revert acc n n' need. induction s as [|c s IH]; intros acc n n' need; simpl.
  - by destruct need.
  - destruct (digit_val c); [apply IH|]. destruct (Ascii.eqb c "_" && negb need); [apply IH | done].
Qed.

(** Parsing a printed number feeds the parser the number itself. *)
Lemma digits_go_pretty x s n need :
  (0 < x)%N ->
  fst <$> digits_go (pretty_N_go x s) 0 n need = fst <$> digits_go s x n false.
Proof.
  revert s n need. induction (N.lt_wf_0 x) as [x _ IH]; intros s n need Hx.
  rewrite pretty_N_go_step by done.
  pose proof (N.mod_lt x 10 ltac:(done)) as Hm.
  pose proof (N.div_mod x 10 ltac:(done)) as Hdm.
  destruct (decide (x / 10 = 0)%N) as [E|E].
  - rewrite E, pretty_N_go_0. cbn [digits_go]. rewrite pretty_N_char_digit by done.
    rewrite (digits_go_count _ _ _ n). repeat f_equal. lia.
  - rewrite IH by (try apply N.div_lt; lia).
    cbn [digits_go]. rewrite pretty_N_char_digit by done.
    rewrite (digits_go_count _ _ _ n). repeat f_equal. lia.
Qed.

Lemma digit_not_space c : is_digit c = true -> is_space c = false.
Proof. unfold is_digit, is_space, in_range. destruct c as [[] [] [] [] [] [] [] []]; done. Qed.

Lemma pretty_N_char_is_digit x : is_digit (pretty_N_char x) = true.
Proof. unfold pretty_N_char. by repeat case_match. Qed.

Lemma pretty_N_go_forallb (p : ascii -> bool) x s :
  (forall y, p (pretty_N_char y) = true) -> string_forallb p s = true ->
  string_forallb p (pretty_N_go x s) = true.
Proof.
  intros Hp. revert s. induction (N.lt_wf_0 x) as [x _ IH]; intros s Hs.
  destruct (decide (x = 0)%N) as [->|]; [by rewrite pretty_N_go_0|].
  rewrite pretty_N_go_step by lia. apply IH; [apply N.div_lt; lia|]. simpl. by rewrite Hp.
Qed.

Lemma pretty_N_digits (x : N) : string_forallb is_digit (pretty x) = true.
Proof.
  unfold pretty, pretty_N. case_decide; [done|].
  by apply pretty_N_go_forallb; [apply pretty_N_char_is_digit|].
Qed.

Lemma lstrip_id s : string_forallb (fun c => negb (is_space c)) s = true -> lstrip s = s.
Proof. destruct s as [|c s]; simpl; [done|]. by destruct (is_space c). Qed.

Lemma rstrip_id s : string_forallb (fun c => negb (is_space c)) s = true -> rstrip s = s.
Proof.
  induction s as [|c s IH]; simpl; [done|]. intros [Hc Hs]%andb_prop. rewrite IH by done.
  destruct s; [|done]. by apply negb_true_iff in Hc as ->.
Qed.

Lemma strip_id s : string_forallb (fun c => negb (is_space c)) s = true -> strip s = s.
Proof. intros H. unfold strip. by rewrite lstrip_id, rstrip_id by (rewrite ?lstrip_id; done). Qed.

Lemma string_forallb_impl (p q : ascii -> bool) s :
  (forall c, p c = true -> q c = true) ->
  string_forallb p s = true -> string_forallb q s = true.
Proof.
  intros Hpq. induction s as [|c s IH]; simpl; [done|].
  intros [H1 H2]%andb_prop. by rewrite Hpq, IH.
Qed.

Lemma digits_not_space s :
  string_forallb is_digit s = true -> string_forallb (fun c => negb (is_space c)) s = true.
Proof. apply string_forallb_impl. intros c Hc. by rewrite digit_not_space. Qed.

Lemma take_sign_digits s : string_forallb is_digit s = true -> take_sign s = (false, s).
Proof.
  destruct s as [|c s]; simpl; [done|]. intros [Hc _]%andb_prop.
  destruct (Ascii.eqb c "-") eqn:E1; [apply Ascii.eqb_eq in E1; by subst|].
  destruct (Ascii.eqb c "+") eqn:E2; [apply Ascii.eqb_eq in E2; by subst | done].
Qed.

Lemma py_uint_pretty (n : N) : fst <$> py_uint (pretty n) = Some n.
Proof.
  unfold py_uint, pretty, pretty_N. case_decide; [by subst|].
  rewrite digits_go_pretty by lia. done.
Qed.

Lemma py_int_pretty_N (n : N) : py_int (pretty n) = Some (Z.of_N n).
Proof.
  unfold py_int. rewrite strip_id by apply digits_not_space, pretty_N_digits.
  rewrite take_sign_digits by apply pretty_N_digits.
  pose proof (py_uint_pretty n) as H. destruct (py_uint (pretty n)) as [[v k]|]; [|done].
  simpl in *. by simplify_eq.
Qed.

Lemma pretty_Z_cases z :
  pretty z = (if (z <? 0)%Z then "-" +:+ pretty (Z.to_N (- z)) else pretty (Z.to_N z))%string.
Proof. by destruct z. Qed.

(** [int(str(z)) == z] *)
Lemma py_int_pretty z : py_int (pretty z) = Some z.
Proof.
  rewrite pretty_Z_cases. destruct (z <? 0)%Z eqn:E; reflect_tests.
  - unfold py_int. rewrite strip_id.
    + change ("-" +:+ pretty (Z.to_N (- z)))%string with (String "-" (pretty (Z.to_N (- z)))).
      cbn [take_sign Ascii.eqb Bool.eqb].
      pose proof (py_uint_pretty (Z.to_N (- z))) as H.
      destruct (py_uint (pretty (Z.to_N (- z)))) as [[v k]|]; [|done].
      simpl in *. simplify_eq. f_equal. lia.
    + change ("-" +:+ pretty (Z.to_N (- z)))%string with (String "-" (pretty (Z.to_N (- z)))).
      simpl. apply digits_not_space, pretty_N_digits.
  - rewrite py_int_pretty_N. f_equal. lia.
Qed.

#[export] Hint Rewrite py_int_pretty : whoosh.

(** ** The order of strings ([x <= y]) *)
Definition string_leb (x y : string) : bool :=
  match String.compare x y with Gt => false | _ => true end.

Lemma string_leb_cons a s b t :
  string_leb (String a s) (String b t)
  = ((N_of_ascii a <? N_of_ascii b)%N || ((N_of_ascii a =? N_of_ascii b)%N && string_leb s t)).
Proof.
  unfold string_leb. simpl. unfold Ascii.compare, N.ltb.
  destruct (N.compare_spec (N_of_ascii a) (N_of_ascii b)) as [H|H|H].
  - rewrite H, N.eqb_refl. done.
  - done.
  - replace (N_of_ascii a =? N_of_ascii b)%N with false; [done|].
    symmetry. apply N.eqb_neq. lia.
Qed.

Lemma string_leb_total x y : string_leb x y = true \/ string_leb y x = true.
Proof.
  revert y. induction x as [|a x IH]; intros [|b y]; rewrite ?string_leb_cons; [by left|by left|by right|].
  destruct (N.lt_trichotomy (N_of_ascii a) (N_of_ascii b)) as [H | [H | H]].
  - left. apply N.ltb_lt in H. by rewrite H.
  - rewrite H, N.ltb_irrefl, N.eqb_refl. apply IH.
  - right. apply N.ltb_lt in H. by rewrite H.
Qed.

Lemma string_leb_trans x y z :
  string_leb x y = true -> string_leb y z = true -> string_leb x z = true.
Proof.
  revert y z. induction x as [|a x IH]; intros [|b y] [|c z]; rewrite ?string_leb_cons;
    try (intros; reflexivity); try (intros; discriminate).
  intros H1 H2. rewrite orb_true_iff, andb_true_iff, N.ltb_lt, N.eqb_eq in *.
  destruct H1 as [H1 | [H1 H1']], H2 as [H2 | [H2 H2']]; try (left; lia).
  right. split; [lia | by apply (IH y)].
Qed.

Lemma string_leb_antisym x y : string_leb x y = true -> string_leb y x = true -> x = y.
Proof.
  revert y. induction x as [|a x IH]; intros [|b y]; rewrite ?string_leb_cons; try done.
  intros H1 H2. rewrite orb_true_iff, andb_true_iff, N.ltb_lt, N.eqb_eq in *.
  destruct H1 as [H1 | [H1 H1']], H2 as [H2 | [H2 H2']]; try lia.
  f_equal; [|by apply IH]. by rewrite <- (ascii_N_embedding a), <- (ascii_N_embedding b), H1.
Qed.

(** ** Splitting what was joined *)

(** [s] has no separator in it. *)
Definition lacks (sep : ascii) (s : string) : Prop := string_forallb (fun c => negb (Ascii.eqb c sep)) s = true.

Lemma split_on_app sep a b : lacks sep a -> split_on sep (a +:+ String sep b)%string = a :: split_on sep b.
Proof.
  unfold lacks. induction a as [|c a IH]; intros H.
  - change (split_on sep (String sep b) = "" :: split_on sep b). simpl. by rewrite Ascii.eqb_refl.
  - change (String c a +:+ String sep b)%string with (String c (a +:+ String sep b))%string.
    simpl in H |- *. apply andb_prop in H as [Hc H]. rewrite IH by done. by destruct (Ascii.eqb c sep).
Qed.

Lemma split_on_word sep s : lacks sep s -> split_on sep s = [s].
Proof.
  unfold lacks. induction s as [|c s IH]; simpl; [done|]. intros [Hc H]%andb_prop.
  rewrite IH by done. by destruct (Ascii.eqb c sep).
Qed.

Lemma join_more sep x l : l <> [] -> join sep (x :: l) = (x +:+ sep +:+ join sep l)%string.
Proof. by destruct l. Qed.

Lemma split_on_join_words sep l :
  l <> [] -> Forall (lacks sep) l -> split_on sep (join (String sep "") l) = l.
Proof.
  intros Hne Hall. induction l as [|x l IH]; [done|]. apply Forall_cons in Hall as [Hx Hl].
  destruct (decide (l = [])) as [-> | Hl'].
  - by apply split_on_word.
  - rewrite join_more by done.
    change (String sep "" +:+ join (String sep "") l)%string with (String sep (join (String sep "") l)).
    rewrite split_on_app by done. by rewrite IH.
Qed.
