(* ===== verification/PySeq.v ===== *)
(** * Python sequences, sorting, rounding and exceptions

    What the components below share of Python's lists and of its error
    handling: slices, [list.remove], the stable [sort], [round], and a result
    type for the operations that raise. *)

From Stdlib Require Import Sorting.Sorted Qround.
From S2P Require Import Prelude.
From S2P Require Import PyDict.

(** ** Exceptions *)

(** The exceptions the modelled operations raise; the argument of a [KeyError]
    is the missing key, that of the others is the message; [Exc] is an exception of
    the named class of the sources or of a library. *)
Inductive pyexc : Type :=
| KeyError (key : string)
| ValueError (msg : string)
| RuntimeError (msg : string)
| IndexError
| Exc (class : string) (msg : string).

(** An operation returns a value or raises. *)
Inductive pyres (A : Type) : Type :=
| Ret (a : A)
| Raise (e : pyexc).
Arguments Ret {A} a.
Arguments Raise {A} e.

Definition rbind {A B} (m : pyres A) (f : A -> pyres B) : pyres B :=
  match m with Ret a => f a | Raise e => Raise e end.

Notation "'let!' x := m 'in' k" := (rbind m (fun x => k))
  (at level 10, x pattern, m at level 100, k at level 200) : whoosh_scope.

Lemma rbind_Ret {A B} (m : pyres A) (f : A -> pyres B) b :
  rbind m f = Ret b <-> exists a, m = Ret a /\ f a = Ret b.
Proof. destruct m; simpl; split; [eauto | by intros (? & [= ->] & ?) | done | by intros (? & ? & ?)]. Qed.

(** ** Slices *)

(** [l[:n]]: a negative bound counts from the end. *)
Definition slice_to {A} (n : Z) (l : list A) : list A :=
  if (n <? 0)%Z then take (Z.to_nat (Z.of_nat (length l) + n)) l else take (Z.to_nat n) l.

(** [l[n:]] *)
Definition slice_from {A} (n : Z) (l : list A) : list A :=
  if (n <? 0)%Z then drop (Z.to_nat (Z.of_nat (length l) + n)) l else drop (Z.to_nat n) l.

Lemma slice_to_nat {A} (n : nat) (l : list A) : slice_to (Z.of_nat n) l = take n l.
Proof. unfold slice_to. destruct (Z.of_nat n <? 0)%Z eqn:E; reflect_tests; [lia|]. by rewrite Nat2Z.id. Qed.

Lemma slice_to_all {A} (n : Z) (l : list A) :
  (Z.of_nat (length l) <= n)%Z -> slice_to n l = l.
Proof.
  intros H. unfold slice_to. destruct (n <? 0)%Z eqn:E; reflect_tests; [lia|].
  apply take_ge. lia.
Qed.

Lemma slice_to_length {A} (n : Z) (l : list A) :
  (0 <= n)%Z -> Z.of_nat (length (slice_to n l)) = Z.min n (Z.of_nat (length l)).
Proof.
  intros H. unfold slice_to. destruct (n <? 0)%Z eqn:E; reflect_tests; [lia|].
  rewrite length_take. lia.
Qed.

(** ** [list.remove] (of an element that is there): drops the first occurrence *)
Fixpoint remove_first {A} `{EqDecision A} (x : A) (l : list A) : list A :=
  match l with
  | [] => []
  | y :: l' => if decide (x = y) then l' else y :: remove_first x l'
  end.

Section remove_first.
Context {A : Type} `{EqDecision A}.
Implicit Types (l : list A).

Lemma remove_first_perm x l : x ∈ l -> l ≡ₚ x :: remove_first x l.
Proof.
  induction l as [|y l IH]; simpl; [by intros ?%elem_of_nil|].
  intros [-> | Hin]%elem_of_cons; case_decide; subst; try done.
  rewrite (IH Hin) at 1. by constructor.
Qed.

Lemma remove_first_absent x l : x ∉ l -> remove_first x l = l.
Proof.
  induction l as [|y l IH]; simpl; [done|]. intros [? ?]%not_elem_of_cons.
  rewrite decide_False by done. by rewrite IH.
Qed.

Lemma remove_first_sublist x l : remove_first x l `sublist_of` l.
Proof. induction l; simpl; [done|]. case_decide; by constructor. Qed.

Lemma remove_first_elem x y l : NoDup l -> y ∈ remove_first x l <-> y ∈ l /\ y <> x.
Proof.
  induction l as [|z l IH]; simpl; [set_solver|]. intros [Hz Hnd]%NoDup_cons.
  case_decide; subst; [set_solver|]. rewrite !elem_of_cons, IH by done. naive_solver.
Qed.

Lemma remove_first_NoDup x l : NoDup l -> NoDup (remove_first x l).
Proof. intros. eapply sublist_NoDup; [done|]. apply remove_first_sublist. Qed.

(** On a list without duplicates, removing one element is filtering. *)
Lemma remove_first_filter x l :
  NoDup l -> remove_first x l = List.filter (fun y => bool_decide (y <> x)) l.
Proof.
  induction l as [|z l IH]; simpl; [done|]. intros [Hz Hnd]%NoDup_cons.
  case_decide; subst.
  - rewrite bool_decide_false by tauto. rewrite <- IH by done.
    by rewrite remove_first_absent.
  - rewrite bool_decide_true by congruence. by rewrite IH.
Qed.
End remove_first.

(** ** Comprehensions with conditions *)

Lemma filter_all {A} (p : A -> bool) (l : list A) :
  (forall x, x ∈ l -> p x = true) -> List.filter p l = l.
Proof.
  induction l as [|x l IH]; simpl; intros H; [done|].
  rewrite H by apply list_elem_of_here. rewrite IH; [done|]. set_solver.
Qed.

Lemma filter_twice {A} (p q : A -> bool) (l : list A) :
  List.filter q (List.filter p l) = List.filter (fun x => p x && q x) l.
Proof.
  induction l as [|x l IH]; simpl; [done|].
  destruct (p x); simpl; [destruct (q x)|]; by rewrite IH.
Qed.

Lemma length_filter_split {A} (p : A -> bool) (l : list A) :
  length (List.filter p l) + length (List.filter (fun x => negb (p x)) l) = length l.
Proof. induction l as [|x l IH]; simpl; [done|]. destruct (p x); simpl; lia. Qed.

(** ** Stable sorting

    [sorted(l, key=k)] with [le x y] the test [k x <= k y]; [reverse=True] keeps
    the order of equal elements, so it is the same function with [le] turned
    round. *)
Fixpoint insert_sorted {A} (le : A -> A -> bool) (x : A) (l : list A) : list A :=
  match l with
  | [] => [x]
  | y :: l' => if le x y then x :: y :: l' else y :: insert_sorted le x l'
  end.

Fixpoint stable_sort {A} (le : A -> A -> bool) (l : list A) : list A :=
  match l with
  | [] => []
  | x :: l' => insert_sorted le x (stable_sort le l')
  end.

Section stable_sort.
Context {A : Type} (le : A -> A -> bool).

Lemma insert_sorted_perm x l : insert_sorted le x l ≡ₚ x :: l.
Proof.
  induction l as [|y l IH]; simpl; [done|]. destruct (le x y); [done|].
  rewrite IH. constructor.
Qed.

Lemma stable_sort_perm l : stable_sort le l ≡ₚ l.
Proof. induction l as [|x l IH]; simpl; [done|]. by rewrite insert_sorted_perm, IH. Qed.

Lemma elem_of_stable_sort x l : x ∈ stable_sort le l <-> x ∈ l.
Proof. by rewrite stable_sort_perm. Qed.

Lemma stable_sort_length l : length (stable_sort le l) = length l.
Proof. by rewrite stable_sort_perm. Qed.

Hypothesis le_total : forall x y, le x y = true \/ le y x = true.
Hypothesis le_trans : forall x y z, le x y = true -> le y z = true -> le x z = true.

Lemma insert_sorted_sorted x l :
  StronglySorted (fun a b => le a b = true) l ->
  StronglySorted (fun a b => le a b = true) (insert_sorted le x l).
Proof.
  induction 1 as [|y l Hs IH Hy]; simpl; [by repeat constructor|].
  destruct (le x y) eqn:E.
  - constructor; [by constructor|]. constructor; [done|].
    eapply List.Forall_impl; [|exact Hy]. eauto.
  - constructor; [done|]. apply Forall_forall. intros z Hz.
    rewrite insert_sorted_perm in Hz. apply elem_of_cons in Hz as [-> | Hz].
    + destruct (le_total x y); congruence.
    + rewrite Forall_forall in Hy. auto.
Qed.

Lemma stable_sort_sorted l : StronglySorted (fun a b => le a b = true) (stable_sort le l).
Proof. induction l; simpl; [constructor | by apply insert_sorted_sorted]. Qed.
End stable_sort.

(** Filtering commutes with the insertion of elements that are kept apart: the
    relative order of the elements that satisfy [p] only depends on them. *)
Lemma stable_sort_map {A B} (f : A -> B) (leA : A -> A -> bool) (leB : B -> B -> bool) l :
  (forall x y, leA x y = leB (f x) (f y)) ->
  map f (stable_sort leA l) = stable_sort leB (map f l).
Proof.
  intros Hle. assert (Hins : forall x l, map f (insert_sorted leA x l)
                             = insert_sorted leB (f x) (map f l)).
  { intros x m. induction m as [|y m IH]; simpl; [done|]. rewrite Hle.
    destruct (leB (f x) (f y)); simpl; [done|]. by rewrite IH. }
  induction l as [|x l IH]; simpl; [done|]. by rewrite Hins, IH.
Qed.

(** ** Rounding

    [round(x, n)] for [n >= 0] decimals, half to even. *)
Definition round_half_even (q : Q) : Z :=
  let f := Qfloor q in
  let d := (q - inject_Z f)%Q in
  if d <?q (1 # 2) then f
  else if (1 # 2) <?q d then (f + 1)%Z
  else if Z.even f then f else (f + 1)%Z.

Definition py_round (n : N) (q : Q) : Q :=
  let s := Z.to_pos (10 ^ Z.of_N n) in
  (round_half_even (q * inject_Z (Z.pos s)) # s)%Q.

(** ** Sums *)

Lemma sumZ_perm (l l' : list Z) : l ≡ₚ l' -> sumZ l = sumZ l'.
Proof. induction 1; unfold sumZ in *; simpl; lia. Qed.

Lemma sumZ_cons x l : sumZ (x :: l) = (x + sumZ l)%Z.
Proof. done. Qed.

(** Counting values is counting the items that carry them. *)
Lemma countv_filter_length {K V} (p : V -> bool) (d : list (K * V)) :
  Z.of_nat (length (List.filter (fun i => p (snd i)) d)) = countv p d.
Proof.
  induction d as [|[k v] d IH]; [done|]. rewrite countv_cons. simpl.
  destruct (p v); simpl; lia.
Qed.

(** ** Counting by a key

    [d[k] = d.get(k, 0) + 1] *)
Definition dincr {K} `{EqDecision K} (k : K) (d : list (K * Z)) : list (K * Z) :=
  dset k (dget_or k 0%Z d + 1)%Z d.

Section dincr.
Context {K : Type} `{EqDecision K}.

Lemma dget_dincr k k' (d : list (K * Z)) :
  dget_or k' 0%Z (dincr k d) = (dget_or k' 0 d + if decide (k' = k) then 1 else 0)%Z.
Proof.
  unfold dincr, dget_or. rewrite dget_dset. case_decide; subst; simpl; [done | lia].
Qed.

Lemma sumZ_dset k v (d : list (K * Z)) :
  sumZ (dvalues (dset k v d)) = (sumZ (dvalues d) - dget_or k 0 d + v)%Z.
Proof.
  unfold dget_or, dvalues, sumZ. induction d as [|[k' v'] d IH]; simpl; [lia|].
  case_decide; csimpl; lia.
Qed.

Lemma sumZ_dincr k (d : list (K * Z)) : sumZ (dvalues (dincr k d)) = (sumZ (dvalues d) + 1)%Z.
Proof. unfold dincr. rewrite sumZ_dset. lia. Qed.
End dincr.

#[export] Hint Resolve remove_first_NoDup : whoosh.
#[export] Hint Rewrite @dget_dincr @sumZ_dincr : pydict.
