(* ===== verification/PyRe.v ===== *)
(** * Regular expressions

    The fragment of Python's [re] the sources use, as a backtracking matcher:
    character sets, sequence, ordered alternative, greedy repetition, the word
    boundary [\b], [$] and the end of a leading group.  [rmatch] tries alternatives in
    Python's order and calls its continuation on every way to match, so that
    [search], [fullmatch] and [sub] find what [re] finds. *)

From S2P Require Import Prelude PyStr.
From Stdlib Require Import Ascii.

Inductive re : Type :=
| REps
| RSet (p : ascii -> bool)
| RSeq (a b : re)
| RAlt (a b : re)
| RStar (a : re)
| RBound
| REnd
| RMark.

Definition RPlus (a : re) : re := RSeq a (RStar a).
Definition ROpt (a : re) : re := RAlt a REps.

Fixpoint RRepeat (n : nat) (a : re) : re :=
  match n with O => REps | S n' => RSeq a (RRepeat n' a) end.

(** [a{0,n}], greedy. *)
Fixpoint RUpTo (n : nat) (a : re) : re :=
  match n with O => REps | S n' => ROpt (RSeq a (RUpTo n' a)) end.

Fixpoint RAlts (l : list re) : re :=
  match l with [] => RSet (fun _ => false) | [r] => r | r :: l' => RAlt r (RAlts l') end.

(** A literal, and one under [re.IGNORECASE]. *)
Fixpoint RLit (s : string) : re :=
  match s with EmptyString => REps | String c s' => RSeq (RSet (Ascii.eqb c)) (RLit s') end.

Definition same_letter (c d : ascii) : bool := Ascii.eqb (ascii_lower c) (ascii_lower d).

Fixpoint RLitI (s : string) : re :=
  match s with EmptyString => REps | String c s' => RSeq (RSet (same_letter c)) (RLitI s') end.

(** [\w] *)
Definition word_char (c : ascii) : bool :=
  in_range "A" "Z" c || in_range "a" "z" c || in_range "0" "9" c || Ascii.eqb c "_".

Definition is_word (o : option ascii) : bool := match o with Some c => word_char c | None => false end.
Definition head_char (s : string) : option ascii :=
  match s with EmptyString => None | String c _ => Some c end.

Definition newline : string := String (ascii_of_N 10) "".

(** What a successful match leaves: the rest of the string, and the rest at the
    mark. *)
Definition rresult : Type := (string * option string)%type.

Fixpoint rmatch (r : re) (prev : option ascii) (s : string) (mark : option string)
    (k : option ascii -> string -> option string -> option rresult) : option rresult :=
  match r with
  | REps => k prev s mark
  | RSet p =>
      match s with
      | String c s' => if p c then k (Some c) s' mark else None
      | EmptyString => None
      end
  | RSeq a b => rmatch a prev s mark (fun prev' s' mark' => rmatch b prev' s' mark' k)
  | RAlt a b =>
      match rmatch a prev s mark k with Some x => Some x | None => rmatch b prev s mark k end
  | RStar a =>
      (fix star (fuel : nat) prev s mark {struct fuel} :=
         match fuel with
         | O => k prev s mark
         | S fuel' =>
             match rmatch a prev s mark
                     (fun prev' s' mark' =>
                        if String.length s' <? String.length s then star fuel' prev' s' mark'
                        else None) with
             | Some x => Some x
             | None => k prev s mark
             end
         end) (String.length s) prev s mark
  | RBound => if Bool.eqb (is_word prev) (is_word (head_char s)) then None else k prev s mark
  | REnd => if String.eqb s "" || String.eqb s newline then k prev s mark else None
  | RMark => k prev s (Some s)
  end.

Definition stop : option ascii -> string -> option string -> option rresult :=
  fun _ s mark => Some (s, mark).

(** [re.match] at a position whose preceding character is [prev]. *)
Definition match_here (r : re) (prev : option ascii) (s : string) : option rresult :=
  rmatch r prev s None stop.

(** [re.fullmatch(r, s) is not None] *)
Definition fullmatch (r : re) (s : string) : bool :=
  match rmatch r None s None (fun _ s' m => if String.eqb s' "" then Some (s', m) else None) with
  | Some _ => true
  | None => false
  end.

(** The first [n] characters. *)
Definition str_take (n : nat) (s : string) : string := String.substring 0 n s.

(** The part of [s] before its suffix [rest]. *)
Definition before (s rest : string) : string := str_take (String.length s - String.length rest) s.

(** [re.search]: the text before the match, the match, and the rest. *)
Fixpoint rsearch (r : re) (prev : option ascii) (s : string) : option (string * string * string) :=
  match match_here r prev s with
  | Some (rest, _) => Some (EmptyString, before s rest, rest)
  | None =>
      match s with
      | EmptyString => None
      | String c s' =>
          match rsearch r (Some c) s' with
          | Some (pre, m, rest) => Some (String c pre, m, rest)
          | None => None
          end
      end
  end.

Definition search (r : re) (s : string) : bool :=
  match rsearch r None s with Some _ => true | None => false end.

(** [finditer]: for every match, the text since the previous one and the match; and the
    text after the last match.  The patterns never match the empty string. *)
Fixpoint rfind_go (fuel : nat) (r : re) (prev : option ascii) (s : string)
    : list (string * string) * string :=
  match fuel with
  | O => ([], s)
  | S fuel' =>
      match rsearch r prev s with
      | None => ([], s)
      | Some (pre, m, rest) =>
          let (l, tail) := rfind_go fuel' r (String.get (String.length m - 1) m) rest in
          ((pre, m) :: l, tail)
      end
  end.

Definition rfinditer (r : re) (s : string) : list (string * string) * string :=
  rfind_go (String.length s) r None s.

(** The leading group of the first match. *)
Fixpoint rsearch_group (r : re) (prev : option ascii) (s : string) : option string :=
  match match_here r prev s with
  | Some (rest, mark) => Some (before s (default rest mark))
  | None => match s with EmptyString => None | String c s' => rsearch_group r (Some c) s' end
  end.

(** [r.sub(repl, s)], where the replacement sees the text of the leading group (up to
    the mark); the patterns never match the empty string. *)
Fixpoint rsub_go (fuel : nat) (r : re) (repl : string -> string) (prev : option ascii) (s : string)
    : string :=
  match fuel, s with
  | O, _ | _, EmptyString => s
  | S fuel', String c s' =>
      match match_here r prev s with
      | Some (rest, mark) =>
          let group := before s (default rest mark) in
          if String.length rest <? String.length s then
            let matched := before s rest in
            let last := String.get (String.length matched - 1) matched in
            repl group +:+ rsub_go fuel' r repl last rest
          else String c (rsub_go fuel' r repl (Some c) s')
      | None => String c (rsub_go fuel' r repl (Some c) s')
      end
  end.

Definition rsub (r : re) (repl : string -> string) (s : string) : string :=
  rsub_go (S (String.length s)) r repl None s.

(** ** Soundness of a match *)

(** Every set of [r] only accepts characters of [p]. *)
Fixpoint only_chars (p : ascii -> Prop) (r : re) : Prop :=
  match r with
  | REps | RBound | REnd | RMark => True
  | RSet q => forall c, q c = true -> p c
  | RSeq a b | RAlt a b => only_chars p a /\ only_chars p b
  | RStar a => only_chars p a
  end.

Fixpoint string_all (p : ascii -> Prop) (s : string) : Prop :=
  match s with EmptyString => True | String c s' => p c /\ string_all p s' end.

Lemma string_all_app p s1 s2 : string_all p (s1 +:+ s2) <-> string_all p s1 /\ string_all p s2.
Proof.
  induction s1 as [|c s1 IH]; simpl; [tauto|].
  change (String c s1 +:+ s2)%string with (String c (s1 +:+ s2))%string. simpl. tauto.
Qed.

Lemma string_app_assoc (a b c : string) : ((a +:+ b) +:+ c = a +:+ (b +:+ c))%string.
Proof.
  induction a as [|x a IH]; [done|].
  change (String x ((a +:+ b) +:+ c) = String x (a +:+ (b +:+ c)))%string. by f_equal.
Qed.

Lemma rmatch_sound p r :
  only_chars p r ->
  forall prev s mark k x, rmatch r prev s mark k = Some x ->
    exists u prev' s' mark', s = (u +:+ s')%string /\ string_all p u /\ k prev' s' mark' = Some x.
Proof.
  induction r as [|q|a IHa b IHb|a IHa b IHb|a IHa| | |]; simpl; intros Hr prev s mark k x H.
  - by exists "", prev, s, mark.
  - destruct s as [|c s]; [done|]. destruct (q c) eqn:Hq; [|done].
    exists (String c ""), (Some c), s, mark. simpl. auto.
  - destruct Hr as [Ha Hb].
    apply (IHa Ha) in H as (u & prev1 & s1 & mark1 & -> & Hu & H).
    apply (IHb Hb) in H as (v & prev2 & s2 & mark2 & -> & Hv & H).
    exists (u +:+ v)%string, prev2, s2, mark2. rewrite string_all_app, string_app_assoc. auto.
  - destruct Hr as [Ha Hb]. destruct (rmatch a prev s mark k) eqn:E; simplify_eq; eauto.
  - revert H. generalize (String.length s). intros n. revert prev s mark.
    induction n as [|n star]; intros prev s mark H.
    + by exists "", prev, s, mark.
    + destruct (rmatch a prev s mark _) eqn:E; simplify_eq.
      * apply (IHa Hr) in E as (u & prev1 & s1 & mark1 & -> & Hu & E).
        destruct (String.length s1 <? _); [|done].
        apply star in E as (v & prev2 & s2 & mark2 & -> & Hv & E).
        exists (u +:+ v)%string, prev2, s2, mark2. rewrite string_all_app, string_app_assoc. auto.
      * by exists "", prev, s, mark.
  - destruct (Bool.eqb _ _); [done|]. by exists "", prev, s, mark.
  - destruct (_ || _); [|done]. by exists "", prev, s, mark.
  - by exists "", prev, s, (Some s).
Qed.

Lemma fullmatch_sound p r s : only_chars p r -> fullmatch r s = true -> string_all p s.
Proof.
  intros Hr. unfold fullmatch. destruct (rmatch _ _ _ _ _) as [x|] eqn:E; [|done]. intros _.
  apply (rmatch_sound p) in E as (u & prev & s' & mark & -> & Hu & E); [|done].
  destruct (String.eqb s' "") eqn:Es; [|done]. apply String.eqb_eq in Es as ->.
  apply string_all_app. by split.
Qed.
