(* ===== verification/Config.v ===== *)
(** * Configuration ([config.py])

    Every setting is read from the environment at each call, with a default for
    an unset or malformed value.  [environ] is [os.environ]; a getter keeps its
    Python name.  [int] and [float] literals are parsed as Python does
    ([PyStr.v]); a [float] setting may be infinite or a NaN, so its getter
    returns a [pyfloat]. *)

From S2P Require Import Prelude PyDict PyStr.

Definition environ : Type := list (string * string).

(** [_env] *)
Definition env_str (key dflt : string) (env : environ) : string := dget_or key dflt env.

(** [_env_bool] *)
Definition env_bool (key : string) (dflt : bool) (env : environ) : bool :=
  let v := lower (dget_or key (if dflt then "true" else "false")%string env) in
  String.eqb v "1" || String.eqb v "true" || String.eqb v "yes".

(** [_env_int] *)
Definition env_int (key : string) (dflt : Z) (env : environ) : Z :=
  match py_int (dget_or key (pretty dflt) env) with
  | Some v => v
  | None => dflt
  end.

(** [try: return float(_env(key, text)) except ValueError: return fallback] *)
Definition env_float (key text : string) (fallback : Q) (env : environ) : pyfloat :=
  match py_float (env_str key text env) with
  | Some f => f
  | None => Fin fallback
  end.

(** [val if val else None] *)
Definition or_none (val : string) : option string := if String.eqb val "" then None else Some val.

Section getters.
Variable env : environ.

Definition get_adapter_backend : string := env_str "WHOOSHD_ADAPTER" "stub" env.

Definition get_mlx_model_path : string :=
  env_str "WHOOSHD_MLX_MODEL" "mlx-community/Llama-3.2-3B-Instruct-4bit" env.

Definition get_mlx_max_tokens_default : Z := env_int "WHOOSHD_MLX_MAX_TOKENS_DEFAULT" 256 env.

Definition get_mlx_trust_remote_code : bool := env_bool "WHOOSHD_MLX_TRUST_REMOTE_CODE" false env.

Definition get_mlx_context_window : Z := env_int "WHOOSHD_MLX_CONTEXT_WINDOW" 0 env.

Definition get_mlx_quantization : option string :=
  or_none (env_str "WHOOSHD_MLX_QUANTIZATION" "" env).

Definition get_enable_queue : bool := env_bool "WHOOSHD_ENABLE_QUEUE" false env.

Definition get_max_queue_depth : Z := env_int "WHOOSHD_MAX_QUEUE_DEPTH" 8 env.

Definition get_queue_timeout_seconds : pyfloat :=
  env_float "WHOOSHD_QUEUE_TIMEOUT_SECONDS" "120" 120 env.

Definition get_queue_poll_interval_ms : Z := env_int "WHOOSHD_QUEUE_POLL_INTERVAL_MS" 25 env.

Definition get_max_active_requests : Z := env_int "WHOOSHD_MAX_ACTIVE_REQUESTS" 2 env.

Definition get_max_prompt_chars : Z := env_int "WHOOSHD_MAX_PROMPT_CHARS" 262144 env.

Definition get_max_messages : Z := env_int "WHOOSHD_MAX_MESSAGES" 128 env.

Definition get_max_request_max_tokens : Z := env_int "WHOOSHD_MAX_REQUEST_MAX_TOKENS" 32768 env.

Definition get_default_max_tokens : Z := env_int "WHOOSHD_DEFAULT_MAX_TOKENS" 256 env.

Definition get_llama_cpp_server_url : option string :=
  or_none (env_str "WHOOSHD_LLAMA_CPP_SERVER_URL" "" env).

Definition get_llama_cpp_binary_path : option string :=
  or_none (env_str "WHOOSHD_LLAMA_CPP_BINARY_PATH" "" env).

Definition get_llama_cpp_host : string := env_str "WHOOSHD_LLAMA_CPP_HOST" "127.0.0.1" env.

Definition get_llama_cpp_port : Z := env_int "WHOOSHD_LLAMA_CPP_PORT" 8080 env.

Definition get_llama_cpp_auto_start : bool := env_bool "WHOOSHD_LLAMA_CPP_AUTO_START" false env.

Definition get_llama_cpp_startup_timeout_seconds : pyfloat :=
  env_float "WHOOSHD_LLAMA_CPP_STARTUP_TIMEOUT_SECONDS" "30.0" 30 env.

Definition get_llama_cpp_health_timeout_seconds : pyfloat :=
  env_float "WHOOSHD_LLAMA_CPP_HEALTH_TIMEOUT_SECONDS" "2.0" 2 env.

Definition get_llama_cpp_model_path : option string :=
  or_none (env_str "WHOOSHD_LLAMA_CPP_MODEL_PATH" "" env).

Definition get_mlx_lm_server_enabled : bool := env_bool "WHOOSHD_MLX_ENABLED" false env.

Definition get_mlx_lm_server_host : string := env_str "WHOOSHD_MLX_HOST" "127.0.0.1" env.

Definition get_mlx_lm_server_port : Z := env_int "WHOOSHD_MLX_PORT" 8081 env.

Definition get_mlx_lm_server_model : option string :=
  or_none (env_str "WHOOSHD_MLX_MODEL" "" env).

Definition get_mlx_lm_server_extra_args : list string :=
  let val := env_str "WHOOSHD_MLX_EXTRA_ARGS" "" env in
  if String.eqb val "" then [] else split_words val.

Definition get_capacity_profile_path : option string :=
  or_none (env_str "WHOOSHD_CAPACITY_PROFILE_PATH" "" env).

Definition get_capacity_model_id : option string :=
  or_none (env_str "WHOOSHD_CAPACITY_MODEL_ID" "" env).

Definition get_capacity_runtime : option string :=
  or_none (env_str "WHOOSHD_CAPACITY_RUNTIME" "" env).

Definition get_capacity_machine_class : option string :=
  or_none (env_str "WHOOSHD_CAPACITY_MACHINE_CLASS" "" env).

Definition get_capacity_memory_pressure_deny : bool :=
  env_bool "WHOOSHD_CAPACITY_MEMORY_PRESSURE_DENY" true env.

Definition get_mlx_lm_server_startup_timeout_seconds : pyfloat :=
  env_float "WHOOSHD_MLX_STARTUP_TIMEOUT_SECONDS" "30.0" 30 env.

Definition get_mlx_lm_server_health_timeout_seconds : pyfloat :=
  env_float "WHOOSHD_MLX_HEALTH_TIMEOUT_SECONDS" "2.0" 2 env.

Definition get_model_registry_path : option string :=
  or_none (env_str "WHOOSHD_MODEL_REGISTRY_PATH" "" env).

Definition get_mlx_max_concurrent_requests : Z :=
  env_int "WHOOSHD_MLX_MAX_CONCURRENT_REQUESTS" 2 env.

Definition get_mlx_vlm_max_concurrent_requests : Z :=
  env_int "WHOOSHD_MLX_VLM_MAX_CONCURRENT_REQUESTS" 1 env.

Definition get_llama_cpp_max_concurrent_requests : Z :=
  env_int "WHOOSHD_LLAMA_CPP_MAX_CONCURRENT_REQUESTS" 2 env.

Definition get_runtime_acquire_timeout_seconds : pyfloat :=
  env_float "WHOOSHD_RUNTIME_ACQUIRE_TIMEOUT_SECONDS" "5.0" 5 env.

Definition get_threadwake_enabled : bool := env_bool "WHOOSHD_THREADWAKE_ENABLED" false env.

Definition get_threadwake_mode : string := env_str "WHOOSHD_THREADWAKE_MODE" "off" env.

Definition get_threadwake_min_prefix_tokens : Z :=
  env_int "WHOOSHD_THREADWAKE_MIN_PREFIX_TOKENS" 1024 env.

Definition get_threadwake_max_entries : Z := env_int "WHOOSHD_THREADWAKE_MAX_ENTRIES" 16 env.

Definition get_threadwake_max_memory_mb : Z :=
  env_int "WHOOSHD_THREADWAKE_MAX_MEMORY_MB" 1024 env.

Definition get_threadwake_bytes_per_token : Z :=
  env_int "WHOOSHD_THREADWAKE_BYTES_PER_TOKEN" 0 env.

Definition get_threadwake_allow_global : bool :=
  env_bool "WHOOSHD_THREADWAKE_ALLOW_GLOBAL" false env.

Definition get_threadwake_mlx_tokenizer_enabled : bool :=
  env_bool "WHOOSHD_THREADWAKE_MLX_TOKENIZER_ENABLED" false env.

Definition get_threadwake_sqlite_enabled : bool :=
  env_bool "WHOOSHD_THREADWAKE_SQLITE_ENABLED" false env.

Definition get_threadwake_sqlite_path : string :=
  env_str "WHOOSHD_THREADWAKE_SQLITE_PATH" ".whooshd/threadwake.sqlite3" env.

Definition get_threadwake_experimental_snapshots_enabled : bool :=
  env_bool "WHOOSHD_THREADWAKE_EXPERIMENTAL_SNAPSHOTS_ENABLED" false env.

Definition get_mlx_vlm_enabled : bool := env_bool "WHOOSHD_MLX_VLM_ENABLED" false env.

Definition get_mlx_vlm_model : option string :=
  or_none (env_str "WHOOSHD_MLX_VLM_MODEL" "" env).

Definition get_mlx_vlm_host : string := env_str "WHOOSHD_MLX_VLM_HOST" "127.0.0.1" env.

Definition get_mlx_vlm_port : Z := env_int "WHOOSHD_MLX_VLM_PORT" 8082 env.

Definition get_mlx_vlm_extra_args : list string :=
  let val := env_str "WHOOSHD_MLX_VLM_EXTRA_ARGS" "" env in
  if String.eqb val "" then [] else split_words val.

Definition get_mlx_vlm_startup_timeout_seconds : pyfloat :=
  env_float "WHOOSHD_MLX_VLM_STARTUP_TIMEOUT_SECONDS" "60.0" 60 env.

Definition get_mlx_vlm_health_timeout_seconds : pyfloat :=
  env_float "WHOOSHD_MLX_VLM_HEALTH_TIMEOUT_SECONDS" "2.0" 2 env.

Definition get_stub_response_delay_seconds : pyfloat :=
  env_float "WHOOSHD_STUB_RESPONSE_DELAY_SECONDS" "0" 0 env.

Definition get_model_store_root : option string :=
  or_none (env_str "WHOOSHD_MODEL_STORE_ROOT" "" env).

Definition get_batch_analysis_enabled : bool :=
  env_bool "WHOOSHD_BATCH_ANALYSIS_ENABLED" false env.

Definition get_batch_max_group_size : Z := env_int "WHOOSHD_BATCH_MAX_GROUP_SIZE" 4 env.

Definition get_batch_max_total_tokens : Z := env_int "WHOOSHD_BATCH_MAX_TOTAL_TOKENS" 8192 env.

Definition get_batch_execution_enabled : bool :=
  env_bool "WHOOSHD_BATCH_EXECUTION_ENABLED" false env.

Definition get_batch_execution_min_size : Z :=
  Z.max (env_int "WHOOSHD_BATCH_EXECUTION_MIN_SIZE" 2 env) 2.

Definition get_batch_execution_max_size : Z :=
  Z.max (env_int "WHOOSHD_BATCH_EXECUTION_MAX_SIZE" 4 env) 2.

Definition get_mlx_batch_execution_enabled : bool :=
  env_bool "WHOOSHD_MLX_BATCH_EXECUTION_ENABLED" false env.

Definition get_continuous_batching_prototype_enabled : bool :=
  env_bool "WHOOSHD_CONTINUOUS_BATCHING_PROTOTYPE_ENABLED" false env.

Definition get_mlx_continuous_batching_prototype_enabled : bool :=
  env_bool "WHOOSHD_MLX_CONTINUOUS_BATCHING_PROTOTYPE_ENABLED" false env.

Definition get_continuous_batching_prototype_min_group_size : Z :=
  Z.max (env_int "WHOOSHD_CONTINUOUS_BATCHING_PROTOTYPE_MIN_GROUP_SIZE" 2 env) 2.

Definition get_continuous_batching_prototype_max_group_size : Z :=
  Z.max (env_int "WHOOSHD_CONTINUOUS_BATCHING_PROTOTYPE_MAX_GROUP_SIZE" 2 env) 2.

Definition get_continuous_batching_prototype_max_tokens : Z :=
  env_int "WHOOSHD_CONTINUOUS_BATCHING_PROTOTYPE_MAX_TOKENS" 128 env.

Definition get_continuous_batching_prototype_timeout_seconds : pyfloat :=
  env_float "WHOOSHD_CONTINUOUS_BATCHING_PROTOTYPE_TIMEOUT_SECONDS" "30" 30 env.

Definition get_advertised_model_id : string :=
  if String.eqb (lower (strip get_adapter_backend)) "mlx" then
    let configured := strip get_mlx_model_path in
    if negb (String.eqb configured "") then configured else "stub-model"%string
  else "stub-model"%string.

Definition get_capacity_mode : string :=
  let val := lower (strip (env_str "WHOOSHD_CAPACITY_MODE" "fixed" env)) in
  if String.eqb val "fixed" || String.eqb val "adaptive" then val else "fixed"%string.

Definition get_threadwake_default_scope : string :=
  let val := env_str "WHOOSHD_THREADWAKE_DEFAULT_SCOPE" "thread" env in
  if bool_decide (val ∈ ["request"; "thread"; "project"; "user"; "global"]%string)
  then val else "thread"%string.

Definition get_threadwake_mlx_kv_reuse_enabled : bool := false.

Definition get_scheduler_policy : string :=
  let val := lower (strip (env_str "WHOOSHD_SCHEDULER_POLICY" "fifo" env)) in
  if String.eqb val "fifo" || String.eqb val "cache_aware_fifo" then val else "fifo"%string.

Definition get_scheduler_max_bypass : Z :=
  let val := env_int "WHOOSHD_SCHEDULER_MAX_BYPASS" 1 env in Z.max val 0.
End getters.

(** ** Lemmas *)

Lemma env_int_unset key d env : dget key env = None -> env_int key d env = d.
Proof. intros H. unfold env_int, dget_or. rewrite H. simpl. by rewrite py_int_pretty. Qed.

Lemma env_int_set key d env t :
  dget key env = Some t -> env_int key d env = default d (py_int t).
Proof. intros H. unfold env_int, dget_or. rewrite H. simpl. by destruct (py_int t). Qed.

(** ** Properties *)

(** An integer setting written in decimal is read back exactly, an unset one
    gives the default and a malformed one gives the default: [_env_int] is total
    and inverse to printing. *)
Theorem env_int_roundtrip key d env z :
  env_int key d (dset key (pretty z) env) = z
  /\ (dget key env = None -> env_int key d env = d)
  /\ (forall t, py_int t = None -> env_int key d (dset key t env) = d).
Proof.
  split; [|split].
  - rewrite (env_int_set key d _ (pretty z)) by apply dget_dset_eq. by rewrite py_int_pretty.
  - apply env_int_unset.
  - intros t Ht. rewrite (env_int_set key d _ t) by apply dget_dset_eq. by rewrite Ht.
Qed.

(** Whatever the environment holds, the clamped settings stay in their
    documented range and the enumerated ones fall back to a valid value:
    fairness bypass is never negative, batch and prototype group sizes are at
    least two, the scheduler policy and the capacity mode are one of the two
    documented names, and KV reuse stays off. *)
Theorem settings_in_range env :
  (0 <= get_scheduler_max_bypass env)%Z
  /\ (2 <= get_batch_execution_min_size env)%Z
  /\ (2 <= get_batch_execution_max_size env)%Z
  /\ (2 <= get_continuous_batching_prototype_min_group_size env)%Z
  /\ (2 <= get_continuous_batching_prototype_max_group_size env)%Z
  /\ get_scheduler_policy env ∈ ["fifo"; "cache_aware_fifo"]%string
  /\ get_capacity_mode env ∈ ["fixed"; "adaptive"]%string
  /\ get_threadwake_default_scope env ∈ ["request"; "thread"; "project"; "user"; "global"]%string
  /\ get_threadwake_mlx_kv_reuse_enabled = false.
Proof.
  unfold get_scheduler_max_bypass, get_batch_execution_min_size, get_batch_execution_max_size,
    get_continuous_batching_prototype_min_group_size,
    get_continuous_batching_prototype_max_group_size.
  split_and!; try lia; try done.
  - unfold get_scheduler_policy.
    case_match eqn:E; [|set_solver]. apply orb_prop in E.
    rewrite !String.eqb_eq in E. set_solver.
  - unfold get_capacity_mode. case_match eqn:E; [|set_solver]. apply orb_prop in E.
    rewrite !String.eqb_eq in E. set_solver.
  - unfold get_threadwake_default_scope. case_bool_decide; [done | set_solver].
Qed.
