(* ===== verification/Contracts.v ===== *)
(** * Shared contracts ([contracts.py], lines 28-82 and 486-583)

    The enumerations every component exchanges, the memory snapshot, the public
    request snapshot and the cooperative cancellation token.  Each enumeration
    is a [str] subclass in Python; its [.value] is the [_value] function here,
    and [_of_value] is the constructor call [Enum(value)], which raises
    [ValueError] ([None]) on an unknown value. *)

From S2P Require Import Prelude.

(** [RunnerStatus] *)
Inductive RunnerStatus :=
| RS_STARTING | RS_WARMING | RS_READY | RS_GENERATING | RS_DEGRADED | RS_OFFLINE.

Definition RunnerStatus_value (s : RunnerStatus) : string :=
  match s with
  | RS_STARTING => "starting" | RS_WARMING => "warming" | RS_READY => "ready"
  | RS_GENERATING => "generating" | RS_DEGRADED => "degraded" | RS_OFFLINE => "offline"
  end.

(** [ModelLifecycleState] *)
Inductive ModelLifecycleState :=
| UNLOADED | WARMING | READY | GENERATING | DEGRADED | MODEL_FAILED.

Definition ModelLifecycleState_value (s : ModelLifecycleState) : string :=
  match s with
  | UNLOADED => "unloaded" | WARMING => "warming" | READY => "ready"
  | GENERATING => "generating" | DEGRADED => "degraded" | MODEL_FAILED => "failed"
  end.

(** [MemoryPressure], the level the runtime's memory snapshot carries. *)
Inductive MemoryPressure := MP_LOW | MP_NORMAL | MP_WARNING | MP_CRITICAL.

Definition MemoryPressure_value (p : MemoryPressure) : string :=
  match p with
  | MP_LOW => "low" | MP_NORMAL => "normal" | MP_WARNING => "warning" | MP_CRITICAL => "critical"
  end.

(** [RequestLifecycleState] *)
Inductive RequestLifecycleState :=
| ACCEPTED | QUEUED | RUNNING | STREAMING | COMPLETED | CANCELLED | FAILED | TIMED_OUT.

Definition RequestLifecycleState_value (s : RequestLifecycleState) : string :=
  match s with
  | ACCEPTED => "accepted" | QUEUED => "queued" | RUNNING => "running"
  | STREAMING => "streaming" | COMPLETED => "completed" | CANCELLED => "cancelled"
  | FAILED => "failed" | TIMED_OUT => "timed_out"
  end.

#[export] Instance RunnerStatus_eq_dec : EqDecision RunnerStatus.
Proof. solve_decision. Defined.
#[export] Instance ModelLifecycleState_eq_dec : EqDecision ModelLifecycleState.
Proof. solve_decision. Defined.
#[export] Instance MemoryPressure_eq_dec : EqDecision MemoryPressure.
Proof. solve_decision. Defined.
#[export] Instance RequestLifecycleState_eq_dec : EqDecision RequestLifecycleState.
Proof. solve_decision. Defined.

(** [MemoryInfo] *)
Record MemoryInfo := mkMemoryInfo {
  pressure : MemoryPressure;
  total_gb : Q;
  used_gb : Q;
  available_gb : Q;
}.

(** [CancellationToken].  The [asyncio.Event] and the [_cancelled] flag are
    two fields in the source, and [cancel] sets both. *)
Record CancellationToken := mkCancellationToken {
  token_request_id : string;
  token_event : bool;
  token_cancelled : bool;
}.

Definition new_token (request_id : string) : CancellationToken :=
  mkCancellationToken request_id false false.

Definition token_cancel (t : CancellationToken) : CancellationToken :=
  mkCancellationToken (token_request_id t) true true.

Definition token_is_cancelled (t : CancellationToken) : bool := token_cancelled t.

(** [RequestSnapshot], the public view of a request record. *)
Record RequestSnapshot := mkRequestSnapshot {
  snap_request_id : string;
  snap_upstream_request_id : option string;
  snap_model : string;
  snap_stream : bool;
  snap_status : RequestLifecycleState;
  snap_cancel_requested : bool;
  snap_started_at : Q;
  snap_ended_at : option Q;
  snap_error_code : option string;
}.

(** The three groups of lifecycle states the runtime tests for. *)
Definition active_status (s : RequestLifecycleState) : bool :=
  match s with ACCEPTED | RUNNING | STREAMING => true | _ => false end.

Definition live_status (s : RequestLifecycleState) : bool :=
  match s with ACCEPTED | QUEUED | RUNNING | STREAMING => true | _ => false end.

Definition terminal_status (s : RequestLifecycleState) : bool :=
  match s with COMPLETED | CANCELLED | FAILED | TIMED_OUT => true | _ => false end.

Lemma terminal_not_live s : terminal_status s = negb (live_status s).
Proof. by destruct s. Qed.

Lemma active_live s : active_status s = true -> live_status s = true.
Proof. by destruct s. Qed.

#[export] Hint Resolve active_live : whoosh.

(** ** Chat requests

    [ChatMessage] and the fields of [ChatCompletionRequest] that admission and
    costing read.  [content], [tools], [tool_choice], [response_format], [stop]
    and [tool_calls] are JSON values; the integers are already validated by the
    request model. *)
Record ChatMessage := mkMessage {
  msg_role : string;
  msg_content : pyval;
  msg_name : option string;
  msg_tool_calls : pyval;
  msg_tool_call_id : option string;
}.

Record ChatCompletionRequest := mkChatRequest {
  req_model : string;
  req_messages : list ChatMessage;
  req_max_tokens : option Z;
  req_max_completion_tokens : option Z;
  req_stream : bool;
  req_stop : pyval;
  req_tools : pyval;
  req_tool_choice : pyval;
  req_response_format : pyval;
}.
