(* ===== verification/Correlation.v ===== *)
(** * Request correlation ([correlation.py])

    Identifiers that come from the network are kept only when they conform to
    the wire contract [^[A-Za-z0-9._:-]{1,128}$]; the module never trims or
    repairs one.  [re.fullmatch] on that character class is [forallb] over the
    characters together with the length bound. *)

From S2P Require Import Prelude PyDict PyStr.
From Stdlib Require Import Ascii.

Definition MAX_IDENTIFIER_LENGTH : nat := 128.
Definition UPSTREAM_REQUEST_ID_HEADER : string := "X-Request-ID".
Definition WHOOSH_REQUEST_ID_HEADER : string := "X-Whoosh-Request-ID".

(** [[A-Za-z0-9._:-]] *)
Definition safe_char (c : ascii) : bool :=
  in_range "A" "Z" c || in_range "a" "z" c || in_range "0" "9" c
  || Ascii.eqb c "." || Ascii.eqb c "_" || Ascii.eqb c ":" || Ascii.eqb c "-".

(** [_SAFE_IDENTIFIER_RE.fullmatch(value)] *)
Definition safe_identifier (s : string) : bool :=
  (1 <=? String.length s) && (String.length s <=? MAX_IDENTIFIER_LENGTH)
  && string_forallb safe_char s.

Definition normalize_identifier (value : pyval) : option string :=
  match value with
  | PStr s => if safe_identifier s then Some s else None
  | _ => None
  end.

Definition is_valid_identifier (value : pyval) : bool :=
  match normalize_identifier value with Some _ => true | None => false end.

(** [hex] is [uuid.uuid4().hex]. *)
Definition generate_whoosh_request_id (hex : string) : string := ("whoosh-" +:+ hex)%string.

Definition correlation_response_headers (upstream_request_id whoosh_request_id : pyval)
    : list (string * string) :=
  let upstream := normalize_identifier upstream_request_id in
  let whoosh := normalize_identifier whoosh_request_id in
  let headers := [] in
  let headers := match upstream with
                 | Some u => dset UPSTREAM_REQUEST_ID_HEADER u headers
                 | None => headers end in
  match whoosh with
  | Some w => dset WHOOSH_REQUEST_ID_HEADER w headers
  | None => headers
  end.

(** ** Lemmas *)

Lemma normalize_identifier_Some v s :
  normalize_identifier v = Some s <-> v = PStr s /\ safe_identifier s = true.
Proof.
  split.
  - destruct v; simpl; try discriminate. case_match eqn:E; intros; by simplify_eq.
  - intros [-> Hs]. simpl. by rewrite Hs.
Qed.

(** ** Properties *)

(** A header value produced by [correlation_response_headers] is always
    one of the two caller-supplied strings, verbatim, and conforms to the
    identifier contract: header injection (CR/LF, spaces, overlong values)
    through an upstream [X-Request-ID] is impossible, and nothing is echoed
    under any other name. *)
Theorem headers_echo_only_safe up wh name value :
  (name, value) ∈ correlation_response_headers up wh ->
  safe_identifier value = true
  /\ ((name = UPSTREAM_REQUEST_ID_HEADER /\ up = PStr value)
      \/ (name = WHOOSH_REQUEST_ID_HEADER /\ wh = PStr value)).
Proof.
  unfold correlation_response_headers.
  destruct (normalize_identifier up) as [u|] eqn:Hu,
    (normalize_identifier wh) as [w|] eqn:Hw; simpl;
    rewrite ?normalize_identifier_Some in *; repeat case_decide; intros Hin;
    rewrite ?elem_of_cons in Hin; destruct_or?; destruct_and?; simplify_eq; eauto;
    by apply elem_of_nil in Hin.
Qed.

Lemma headers_echo_only_safe_witness :
  let up := PStr "req-1" in let wh := PStr "bad id" in
  correlation_response_headers up wh = [("X-Request-ID", "req-1")]%string
  /\ safe_identifier "req-1" = true.
Proof.
  split; [reflexivity|].
  apply (headers_echo_only_safe (PStr "req-1") (PStr "bad id") "X-Request-ID" "req-1").
  apply list_elem_of_here.
Defined.
