(* ===== verification/ControlPlane.v ===== *)
(** * The control-plane contract ([control_plane.py])

    The error vocabulary with its retry semantics and HTTP mapping, the bounding
    of error details, and the version negotiation between the target and the
    legacy header.  The regular expressions are predicates on characters and
    lengths; [re.fullmatch] anchors both ends. *)

From S2P Require Import Prelude PyDict PyStr Correlation.
From Stdlib Require Import Ascii.

Definition CONTROL_PLANE_CONTRACT_VERSION : string := "whooshd.control.v1".
Definition TARGET_CONTRACT_VERSION_VALUE : string := "1".
Definition TARGET_CONTRACT_MAJOR : Z := 1.
Definition LEGACY_CONTROL_PLANE_CONTRACT_VERSION : string := CONTROL_PLANE_CONTRACT_VERSION.
Definition DEFAULT_RETRY_AFTER_SECONDS : Q := 2.

(** The characters of the expressions. *)
Definition is_alpha (c : ascii) : bool := in_range "A" "Z" c || in_range "a" "z" c.
Definition is_alnum (c : ascii) : bool := is_alpha c || is_digit c.
Definition one_of (l : list ascii) (c : ascii) : bool := existsb (Ascii.eqb c) l.

Definition length_between (lo hi : nat) (s : string) : bool :=
  (lo <=? String.length s) && (String.length s <=? hi).

(** [^[A-Za-z][A-Za-z0-9_.:-]{0,96}$] *)
Definition safe_name (s : string) : bool :=
  match s with
  | EmptyString => false
  | String c s' =>
      is_alpha c
      && string_forallb (fun c => is_alnum c || one_of ["_"; "."; ":"; "-"]%char c) s'
      && length_between 0 96 s'
  end.

Definition safe_value_char (c : ascii) : bool :=
  is_alnum c || one_of ["_"; "."; ":"; "/"; " "; "("; ")"; "'"; "="; "-"]%char c.

(** [^[A-Za-z0-9_.:/ ()'=-]{1,160}$] *)
Definition safe_value (s : string) : bool :=
  string_forallb safe_value_char s && length_between 1 160 s.

(** [s] after the prefix [p], when it starts with it. *)
Fixpoint drop_prefix (p s : string) : option string :=
  match p, s with
  | EmptyString, _ => Some s
  | String c p', String d s' => if Ascii.eqb c d then drop_prefix p' s' else None
  | _, _ => None
  end.

(** [^exception_type=[A-Za-z0-9_.-]{1,80} failure_class=[a-z_]{1,40}$] *)
Definition safe_diagnostic (s : string) : bool :=
  match drop_prefix "exception_type=" s with
  | None => false
  | Some t =>
      let '(ty, rest) := cut (fun c => Ascii.eqb c " ") t in
      string_forallb (fun c => is_alnum c || one_of ["_"; "."; "-"]%char c) ty
      && length_between 1 80 ty
      && match rest ≫= drop_prefix "failure_class=" with
         | None => false
         | Some cls => string_forallb (fun c => in_range "a" "z" c || Ascii.eqb c "_") cls
                       && length_between 1 40 cls
         end
  end.

(** [^whooshd\.control\.v[0-9]+$] *)
Definition safe_version (s : string) : bool :=
  match drop_prefix "whooshd.control.v" s with
  | None => false
  | Some d => negb (String.eqb d "") && string_forallb is_digit d
  end.

(** [^[0-9]{1,3}$] *)
Definition safe_target_version (s : string) : bool :=
  string_forallb is_digit s && length_between 1 3 s.

(** ** Error codes *)

Inductive ErrorCode :=
| INVALID_REQUEST | UNSUPPORTED_FIELD | UNSUPPORTED_CAPABILITY | CONTRACT_VERSION_UNSUPPORTED
| MODEL_NOT_FOUND | MODEL_UNAVAILABLE | MODEL_WARMING | MODEL_LOAD_FAILED | RUNTIME_UNAVAILABLE
| RUNTIME_DEGRADED | RUNNER_OVERLOADED | QUEUE_FULL | TIMEOUT | CANCELLED | CONTEXT_OVERFLOW
| UPSTREAM_UNAVAILABLE | UPSTREAM_TIMEOUT | UPSTREAM_PROTOCOL_ERROR | STREAM_INTERRUPTED
| MALFORMED_UPSTREAM_RESPONSE | INTERNAL_ERROR.

Definition ErrorCode_value (c : ErrorCode) : string :=
  match c with
  | INVALID_REQUEST => "invalid_request"
  | UNSUPPORTED_FIELD => "unsupported_field"
  | UNSUPPORTED_CAPABILITY => "unsupported_capability"
  | CONTRACT_VERSION_UNSUPPORTED => "contract_version_unsupported"
  | MODEL_NOT_FOUND => "model_not_found"
  | MODEL_UNAVAILABLE => "model_unavailable"
  | MODEL_WARMING => "model_warming"
  | MODEL_LOAD_FAILED => "model_load_failed"
  | RUNTIME_UNAVAILABLE => "runtime_unavailable"
  | RUNTIME_DEGRADED => "runtime_degraded"
  | RUNNER_OVERLOADED => "runner_overloaded"
  | QUEUE_FULL => "queue_full"
  | TIMEOUT => "timeout"
  | CANCELLED => "cancelled"
  | CONTEXT_OVERFLOW => "context_overflow"
  | UPSTREAM_UNAVAILABLE => "upstream_unavailable"
  | UPSTREAM_TIMEOUT => "upstream_timeout"
  | UPSTREAM_PROTOCOL_ERROR => "upstream_protocol_error"
  | STREAM_INTERRUPTED => "stream_interrupted"
  | MALFORMED_UPSTREAM_RESPONSE => "malformed_upstream_response"
  | INTERNAL_ERROR => "internal_error"
  end.

(** The members of the enumeration, in declaration order. *)
Definition all_error_codes : list ErrorCode :=
  [INVALID_REQUEST; UNSUPPORTED_FIELD; UNSUPPORTED_CAPABILITY; CONTRACT_VERSION_UNSUPPORTED;
   MODEL_NOT_FOUND; MODEL_UNAVAILABLE; MODEL_WARMING; MODEL_LOAD_FAILED; RUNTIME_UNAVAILABLE;
   RUNTIME_DEGRADED; RUNNER_OVERLOADED; QUEUE_FULL; TIMEOUT; CANCELLED; CONTEXT_OVERFLOW;
   UPSTREAM_UNAVAILABLE; UPSTREAM_TIMEOUT; UPSTREAM_PROTOCOL_ERROR; STREAM_INTERRUPTED;
   MALFORMED_UPSTREAM_RESPONSE; INTERNAL_ERROR].

(** [ErrorCode(value)]; [None] is the [ValueError]. *)
Definition ErrorCode_of_value (v : string) : option ErrorCode :=
  List.find (fun c => String.eqb (ErrorCode_value c) v) all_error_codes.

Inductive ErrorCategory :=
| REQUEST_CONTRACT | MODEL_RUNTIME | CAPACITY_EXECUTION | UPSTREAM_PROTOCOL | INTERNAL.

Record ErrorSpec := mkSpec {
  spec_category : ErrorCategory;
  spec_http_status : Z;
  spec_retryable : bool;
  spec_retry_after_seconds : option Q;
}.

(** [ERROR_SPECS], and [error_spec] on a member. *)
Definition error_spec (c : ErrorCode) : ErrorSpec :=
  match c with
  | INVALID_REQUEST => mkSpec REQUEST_CONTRACT 400 false None
  | UNSUPPORTED_FIELD => mkSpec REQUEST_CONTRACT 400 false None
  | UNSUPPORTED_CAPABILITY => mkSpec REQUEST_CONTRACT 422 false None
  | CONTRACT_VERSION_UNSUPPORTED => mkSpec REQUEST_CONTRACT 400 false None
  | MODEL_NOT_FOUND => mkSpec MODEL_RUNTIME 404 false None
  | MODEL_UNAVAILABLE => mkSpec MODEL_RUNTIME 503 true None
  | MODEL_WARMING => mkSpec MODEL_RUNTIME 425 true (Some DEFAULT_RETRY_AFTER_SECONDS)
  | MODEL_LOAD_FAILED => mkSpec MODEL_RUNTIME 500 false None
  | RUNTIME_UNAVAILABLE => mkSpec MODEL_RUNTIME 503 true None
  | RUNTIME_DEGRADED => mkSpec MODEL_RUNTIME 503 true None
  | RUNNER_OVERLOADED => mkSpec CAPACITY_EXECUTION 429 true (Some DEFAULT_RETRY_AFTER_SECONDS)
  | QUEUE_FULL => mkSpec CAPACITY_EXECUTION 429 true (Some DEFAULT_RETRY_AFTER_SECONDS)
  | TIMEOUT => mkSpec CAPACITY_EXECUTION 504 true None
  | CANCELLED => mkSpec CAPACITY_EXECUTION 409 false None
  | CONTEXT_OVERFLOW => mkSpec CAPACITY_EXECUTION 422 false None
  | UPSTREAM_UNAVAILABLE => mkSpec UPSTREAM_PROTOCOL 503 true None
  | UPSTREAM_TIMEOUT => mkSpec UPSTREAM_PROTOCOL 504 true None
  | UPSTREAM_PROTOCOL_ERROR => mkSpec UPSTREAM_PROTOCOL 502 false None
  | STREAM_INTERRUPTED => mkSpec UPSTREAM_PROTOCOL 502 false None
  | MALFORMED_UPSTREAM_RESPONSE => mkSpec UPSTREAM_PROTOCOL 502 false None
  | INTERNAL_ERROR => mkSpec INTERNAL 500 false None
  end.

(** ** Bounded details *)

Definition SAFE_DETAIL_KEYS : list string :=
  ["active_jobs"; "adapter"; "adapter_kind"; "body_bytes"; "body_present"; "content_type";
   "contract_version"; "diagnostic"; "endpoint"; "endpoint_kind"; "error_count"; "error_code";
   "estimated_chars"; "failure_class"; "frame_bytes"; "http_status"; "max_active_requests";
   "max_messages"; "max_prompt_chars"; "max_queue_depth"; "model_alias"; "model_id";
   "output_started"; "parser_failure_class"; "policy_version"; "queue_depth";
   "rejected_field_count"; "request_id"; "received_version"; "runtime_kind"; "status";
   "timeout_seconds"; "transport_class"; "upstream_status"]%string.

Definition SAFE_STRING_KEYS : list string :=
  ["adapter"; "adapter_kind"; "content_type"; "contract_version"; "endpoint"; "endpoint_kind";
   "error_code"; "failure_class"; "model_alias"; "model_id"; "parser_failure_class";
   "policy_version"; "request_id"; "received_version"; "runtime_kind"; "status";
   "transport_class"]%string.

Definition mem (k : string) (l : list string) : bool := existsb (String.eqb k) l.

(** [s[:n]] *)
Definition take_str (n : nat) (s : string) : string := String.substring 0 n s.

(** What one item of [details] contributes: the value kept under its key. *)
Definition bounded_value (key : string) (value : pyval) : option pyval :=
  if negb (mem key SAFE_DETAIL_KEYS) || negb (safe_name key) then None
  else match value with
       | PBool _ | PInt _ | PFloat _ => Some value
       | PStr s =>
           if String.eqb key "diagnostic" then
             if safe_diagnostic (take_str 180 s) then Some (PStr (take_str 180 s)) else None
           else if mem key SAFE_STRING_KEYS then
             if safe_value (take_str 160 s) then Some (PStr (take_str 160 s)) else None
           else if mem key ["body_present"; "output_started"]%string
           then Some (PBool (truthy value)) else None
       | _ =>
           if mem key ["body_present"; "output_started"]%string
           then Some (PBool (truthy value)) else None
       end.

Definition bounded_items (details : list (string * pyval)) : list (string * pyval) :=
  foldl (fun bounded kv =>
           match bounded_value kv.1 kv.2 with
           | Some v => dset kv.1 v bounded
           | None => bounded
           end) [] details.

(** [None] for anything that is not a mapping, and for an empty result. *)
Definition bounded_details (details : option (list (string * pyval)))
    : option (list (string * pyval)) :=
  match details with
  | None => None
  | Some d => match bounded_items d with [] => None | b => Some b end
  end.

(** ** Version negotiation *)

Definition safe_contract_version (value : string) : string :=
  let candidate := strip value in
  if (80 <? String.length candidate) || negb (safe_version candidate) then "invalid" else candidate.

Definition safe_target_contract_version (value : string) : string :=
  if safe_target_version value then value else "invalid".

(** [int(s)] on a string of digits. *)
Definition int_of_digits (s : string) : Z := default 0%Z (py_int s).

Definition legacy_contract_major (value : string) : option Z :=
  let candidate := safe_contract_version value in
  if String.eqb candidate "invalid" then None
  else int_of_digits <$> drop_prefix "whooshd.control.v" candidate.

Record ContractVersionNegotiation := mkNegotiation {
  major : option Z;
  incompatibility : option string;
}.

Definition compatible (n : ContractVersionNegotiation) : bool :=
  match incompatibility n with None => true | Some _ => false end.

Definition negotiate_contract_version (target_value legacy_value : option string)
    : ContractVersionNegotiation :=
  match target_value, legacy_value with
  | None, None => mkNegotiation None None
  | _, _ =>
      let target_major := target_value ≫= fun t =>
        if safe_target_version t then Some (int_of_digits t) else None in
      let legacy_major := legacy_value ≫= legacy_contract_major in
      let conflict := match target_major, legacy_major with
                      | Some t, Some l => negb (t =? l)%Z
                      | _, _ => false
                      end in
      if conflict then mkNegotiation None (Some "conflicting"%string)
      else
        let bad_legacy :=
          match legacy_value with
          | Some l =>
              if negb (String.eqb l LEGACY_CONTROL_PLANE_CONTRACT_VERSION)
              then mkNegotiation None (Some (safe_contract_version l))
              else mkNegotiation (Some TARGET_CONTRACT_MAJOR) None
          | None => mkNegotiation (Some TARGET_CONTRACT_MAJOR) None
          end in
        match target_value with
        | Some t =>
            if negb (String.eqb t TARGET_CONTRACT_VERSION_VALUE)
            then mkNegotiation None (Some (safe_target_contract_version t))
            else bad_legacy
        | None => bad_legacy
        end
  end.

(** ** The error envelope *)

Record ErrorFields := mkErrorFields {
  ef_contract_version : string;
  ef_code : ErrorCode;
  ef_message : string;
  ef_http_status : Z;
  ef_retryable : bool;
  ef_retry_after_seconds : option Q;
  ef_request_id : option string;
  ef_upstream_request_id : option string;
  ef_category : ErrorCategory;
  ef_details : option (list (string * pyval));
}.

Definition clamp_retry (x : Q) : Q :=
  let m := if 60 <?q x then 60%Q else x in if m <?q 0 then 0%Q else m.

Definition error_fields (code : ErrorCode) (message : string) (http_status : option Z)
    (retry_after_seconds : option Q) (request_id upstream_request_id : pyval)
    (details : option (list (string * pyval))) : ErrorFields :=
  let spec := error_spec code in
  mkErrorFields CONTROL_PLANE_CONTRACT_VERSION code
    (take_str 160 (if String.eqb message "" then "Request failed" else message))
    (default (spec_http_status spec) http_status)
    (spec_retryable spec)
    (match retry_after_seconds with None => spec_retry_after_seconds spec
     | Some x => Some (clamp_retry x) end)
    (normalize_identifier request_id) (normalize_identifier upstream_request_id)
    (spec_category spec) (bounded_details details).

Definition code_for_http_status (status : Z) : ErrorCode :=
  if (status =? 404)%Z then MODEL_NOT_FOUND
  else if (status =? 408)%Z || (status =? 504)%Z then UPSTREAM_TIMEOUT
  else if (status =? 425)%Z then MODEL_WARMING
  else if (status =? 429)%Z then RUNNER_OVERLOADED
  else if (status =? 503)%Z then RUNTIME_UNAVAILABLE
  else if (status =? 422)%Z then INVALID_REQUEST
  else if (400 <=? status)%Z && (status <? 500)%Z then INVALID_REQUEST
  else if (status =? 502)%Z then UPSTREAM_PROTOCOL_ERROR
  else INTERNAL_ERROR.

(** ** Properties *)

Lemma ErrorCode_roundtrip c : ErrorCode_of_value (ErrorCode_value c) = Some c.
Proof. by destruct c. Qed.

Lemma safe_contract_version_bounded v :
  safe_contract_version v = "invalid"%string
  \/ safe_version (safe_contract_version v) = true
     /\ String.length (safe_contract_version v) <= 80.
Proof.
  unfold safe_contract_version.
  destruct (80 <? String.length (strip v)) eqn:E1; [by left|].
  destruct (safe_version (strip v)) eqn:E2; [|by left].
  right. cbn [orb negb]. split; [done|]. by apply Nat.ltb_ge in E1.
Qed.

(** Version negotiation accepts exactly the four header combinations of
    contract major 1 (each header absent or equal to its published value), and
    what it reports about a refused header is one of two fixed words or a version
    identifier of bounded length, never the raw header. *)
Theorem negotiation_exact target legacy :
  let n := negotiate_contract_version target legacy in
  (compatible n = true <->
     (target = None \/ target = Some TARGET_CONTRACT_VERSION_VALUE)
     /\ (legacy = None \/ legacy = Some LEGACY_CONTROL_PLANE_CONTRACT_VERSION))
  /\ (compatible n = true -> major n = Some TARGET_CONTRACT_MAJOR
        \/ target = None /\ legacy = None)
  /\ (forall s, incompatibility n = Some s ->
        s = "conflicting"%string \/ s = "invalid"%string
        \/ safe_target_version s = true
        \/ safe_version s = true /\ String.length s <= 80).
Proof.
  cbv zeta. unfold negotiate_contract_version.
  set (conflict := match (target ≫= _) with Some _ => _ | None => false end).
  assert (Hconf : (target = None \/ target = Some TARGET_CONTRACT_VERSION_VALUE) ->
    (legacy = None \/ legacy = Some LEGACY_CONTROL_PLANE_CONTRACT_VERSION) -> conflict = false).
  { unfold conflict. by intros [-> | ->] [-> | ->]. }
  clearbody conflict.
  assert (Hleg : forall l, let n := if negb (String.eqb l LEGACY_CONTROL_PLANE_CONTRACT_VERSION)
      then mkNegotiation None (Some (safe_contract_version l))
      else mkNegotiation (Some TARGET_CONTRACT_MAJOR) None in
    (compatible n = true <-> l = LEGACY_CONTROL_PLANE_CONTRACT_VERSION)
    /\ (compatible n = true -> major n = Some TARGET_CONTRACT_MAJOR)
    /\ (forall s, incompatibility n = Some s -> s = "invalid"%string
        \/ safe_version s = true /\ String.length s <= 80)).
  { intros l. cbv zeta. destruct (String.eqb_spec l LEGACY_CONTROL_PLANE_CONTRACT_VERSION); simpl.
    - split_and!; [done | done | done].
    - split_and!; [by split | done | intros s [= <-]; apply safe_contract_version_bounded]. }
  assert (Htgt : forall t s, safe_target_contract_version t = s ->
    s = "invalid"%string \/ safe_target_version s = true).
  { intros t s <-. unfold safe_target_contract_version.
    destruct (safe_target_version t) eqn:E; [by right | by left]. }
  destruct target as [t|], legacy as [l|]; [| | |simpl; naive_solver].
  all: destruct conflict; [split_and!; [split; [done|]; intros [H1 H2]; by specialize (Hconf H1 H2)
                          | done | intros s [= <-]; by left]|].
  - destruct (String.eqb_spec t TARGET_CONTRACT_VERSION_VALUE) as [->|Ht]; cbn [negb].
    + destruct (Hleg l) as (H1 & H2 & H3). rewrite H1. split_and!.
      * split; [by intros ->; eauto | by intros [_ [|[= ->]]]].
      * intros ->. left. apply H2. by apply H1.
      * intros s Hs. destruct (H3 s Hs); auto.
    + simpl. split_and!; [split; [done | by intros [[|[= ->]] _]] | done |].
      intros s [= Hs]. destruct (Htgt t s Hs); auto.
  - destruct (String.eqb_spec t TARGET_CONTRACT_VERSION_VALUE) as [->|Ht]; simpl.
    + split_and!; [split; auto | by left | done].
    + split_and!; [split; [done | by intros [[|[= ->]] _]] | done |].
      intros s [= Hs]. destruct (Htgt t s Hs); auto.
  - destruct (Hleg l) as (H1 & H2 & H3). rewrite H1. split_and!.
    + split; [by intros ->; auto | by intros [_ [|[= ->]]]].
    + intros ->. left. apply H2. by apply H1.
    + intros s Hs. destruct (H3 s Hs); auto.
Qed.

(** *** Details *)

(** A scalar value that may stand under a detail key. *)
Definition detail_ok (key : string) (v : pyval) : Prop :=
  mem key SAFE_DETAIL_KEYS = true /\
  match v with
  | PBool _ | PInt _ | PFloat _ => True
  | PStr s => String.length s <= 180
              /\ (safe_diagnostic s = true \/ safe_value s = true /\ String.length s <= 160)
  | _ => False
  end.

Lemma length_take_str n s : String.length (take_str n s) <= n.
Proof.
  unfold take_str. revert s. induction n as [|n IH]; intros s; destruct s as [|c s]; simpl; try lia.
  specialize (IH s). lia.
Qed.

Lemma take_str_id n s : String.length s <= n -> take_str n s = s.
Proof.
  unfold take_str. revert s. induction n as [|n IH]; intros s Hs; destruct s as [|c s]; simpl in *;
    try done; try lia. rewrite IH; [done | lia].
Qed.

Lemma bounded_value_ok key v w : bounded_value key v = Some w -> detail_ok key w.
Proof.
  unfold bounded_value, detail_ok.
  destruct (mem key SAFE_DETAIL_KEYS) eqn:E1; [|done].
  destruct (safe_name key); [|done]. cbn [negb orb]. intros H. split; [done|].
  pose proof (length_take_str 180) as H180. pose proof (length_take_str 160) as H160.
  destruct v; simplify_eq/=; try done; repeat case_match; simplify_eq/=; try done.
  - split; [apply H180 | by left].
  - specialize (H160 s). split; [lia | right; auto].
Qed.

(** Bounding a bounded value changes nothing. *)
Lemma bounded_value_idem key v w : bounded_value key v = Some w -> bounded_value key w = Some w.
Proof.
  intros H. pose proof (bounded_value_ok key v w H) as [_ Hok]. unfold bounded_value in *.
  destruct (negb (mem key SAFE_DETAIL_KEYS) || negb (safe_name key)); [done|].
  destruct v; simplify_eq/=; try done; repeat case_match; simplify_eq/=; try done.
  all: rewrite !take_str_id in * by apply length_take_str; congruence.
Qed.

Lemma bounded_items_app d1 d2 :
  bounded_items (d1 ++ d2) =
  foldl (fun bounded kv => match bounded_value kv.1 kv.2 with
                           | Some v => dset kv.1 v bounded | None => bounded end)
    (bounded_items d1) d2.
Proof. unfold bounded_items. by rewrite foldl_app. Qed.

Lemma bounded_items_ok d :
  NoDup (dkeys (bounded_items d))
  /\ forall k v, dget k (bounded_items d) = Some v ->
       detail_ok k v /\ bounded_value k v = Some v.
Proof.
  induction d as [|[k v] d [IH1 IH2]] using rev_ind; [split; [constructor | done]|].
  rewrite bounded_items_app. simpl. destruct (bounded_value k v) as [w|] eqn:E; [|done].
  split; [by apply dset_NoDup|]. intros k' v'. rewrite dget_dset. case_decide; [|apply IH2].
  subst. intros [= <-]. split; [by eapply bounded_value_ok | by eapply bounded_value_idem].
Qed.

(** Inserting entries that are already bounded, with distinct keys, appends them. *)
Lemma bounded_items_fixed d :
  NoDup (dkeys d) -> (forall k v, (k, v) ∈ d -> bounded_value k v = Some v) -> bounded_items d = d.
Proof.
  induction d as [|[k v] d IH] using rev_ind; [done|]. intros Hnd Hb.
  unfold dkeys in Hnd. rewrite fmap_app in Hnd. apply NoDup_app in Hnd as (H1 & H2 & _).
  rewrite bounded_items_app, IH; [|done|intros; apply Hb; set_solver]. simpl.
  rewrite (Hb k v) by set_solver. apply dkeys_dset_out, dget_None_keys. intros Hin.
  apply (H2 k Hin). set_solver.
Qed.

(** Whatever a handler puts into [details], the envelope only carries
    declared keys with numbers, booleans or strings that fit the safe character
    set and length, each key once; bounding is idempotent, so passing an envelope's
    details on loses nothing more. *)
Theorem bounded_details_safe_idempotent details b :
  bounded_details details = Some b ->
  NoDup (dkeys b) /\ (forall k v, (k, v) ∈ b -> detail_ok k v) /\ bounded_details (Some b) = Some b.
Proof.
  intros Hb. assert (exists d, details = Some d /\ bounded_items d = b /\ b <> []) as (d & -> & Hd & Hne).
  { unfold bounded_details in Hb. destruct details as [d|]; [|done].
    exists d. destruct (bounded_items d); [done|]. by simplify_eq. }
  destruct (bounded_items_ok d) as [Hnd Hok]. rewrite Hd in Hnd, Hok.
  assert (Hin : forall k v, (k, v) ∈ b -> detail_ok k v /\ bounded_value k v = Some v).
  { intros k v Hkv. by apply Hok, elem_dget. }
  split_and!; [done | by intros k v Hkv; apply Hin |].
  unfold bounded_details. rewrite bounded_items_fixed; [by destruct b | done |].
  intros k v Hkv. by apply Hin.
Qed.

Lemma bounded_details_safe_idempotent_witness :
  let d := [("prompt", PStr "secret"); ("active_jobs", PInt 2);
            ("model_alias", PStr "org/m"); ("endpoint", PStr "a<b>")]%string in
  let b := [("active_jobs", PInt 2); ("model_alias", PStr "org/m")]%string in
  bounded_details (Some d) = Some b /\ bounded_details (Some b) = Some b.
Proof.
  cbv zeta. split; [vm_compute; reflexivity|].
  eapply (bounded_details_safe_idempotent (Some
    [("prompt", PStr "secret"); ("active_jobs", PInt 2);
     ("model_alias", PStr "org/m"); ("endpoint", PStr "a<b>")]%string)).
  vm_compute. reflexivity.
Defined.

(** Every error envelope is well formed: an error status, a message of at most
    160 characters that is not empty, a back-off between 0 and 60 seconds, safe
    correlation ids, and a code whose wire value parses back to it; a default
    back-off is only suggested for a retryable code. *)
Theorem error_envelope_well_formed code message retry rid urid details :
  let e := error_fields code message None retry rid urid details in
  (400 <= ef_http_status e <= 599)%Z
  /\ 1 <= String.length (ef_message e) <= 160
  /\ (forall x, ef_retry_after_seconds e = Some x -> 0 <= x <= 60)%Q
  /\ (forall s, ef_request_id e = Some s -> safe_identifier s = true)
  /\ ErrorCode_of_value (ErrorCode_value (ef_code e)) = Some code
  /\ (retry = None -> ef_retry_after_seconds e <> None -> ef_retryable e = true).
Proof.
  cbv zeta. unfold error_fields.
  cbn [ef_http_status ef_message ef_retry_after_seconds ef_request_id ef_code ef_retryable default].
  split_and!.
  - by destruct code.
  - by destruct code.
  - destruct message; unfold take_str; simpl; lia.
  - apply length_take_str.
  - intros x. destruct retry as [y|].
    + intros [= <-]. unfold clamp_retry.
      destruct (60 <?q y) eqn:E1; [split; apply Qle_bool_iff; reflexivity|].
      destruct (y <?q 0) eqn:E2; reflect_tests; split; lra.
    + destruct code; intros [= <-]; split; apply Qle_bool_iff; reflexivity.
  - intros s Hs. by apply normalize_identifier_Some in Hs as [_ Hs].
  - apply ErrorCode_roundtrip.
  - intros ->. by destruct code.
Qed.
