(* ===== verification/RequestPolicy.v ===== *)
(** * The ingress-to-backend request boundary ([backend_request_policy.py])

    An ingress request is its canonical fields, its two control fields and the
    extra fields the client sent; the backend request carries the canonical
    fields and the extensions the adapter declares.  Every extra field is
    forwarded, stripped or rejected by its name alone.  [copy.deepcopy] is the
    identity on immutable values, and logging is not modelled. *)

From S2P Require Import Prelude PyDict PyStr Correlation ControlPlane.
From Stdlib Require Import Ascii Sorting.Sorted.

Definition CHAT_CANONICAL_FIELDS : list string :=
  ["model"; "messages"; "stream"; "temperature"; "top_p"; "max_tokens"; "max_completion_tokens";
   "stop"; "user"; "tools"; "tool_choice"; "parallel_tool_calls"; "response_format"; "seed";
   "presence_penalty"; "frequency_penalty"; "logit_bias"; "logprobs"; "top_logprobs";
   "reasoning_effort"]%string.

Definition INTERNAL_CONTROL_FIELDS : list string := ["metadata"; "threadwake"]%string.

Definition ADAPTER_EXTENSIONS : list (string * list string) :=
  [("stub", []); ("mlx_lm", []); ("mlx_lm_server", []); ("mlx_vlm", []);
   ("llama_cpp", ["min_p"; "top_k"; "repeat_penalty"]); ("generic", [])]%string.

Definition ADAPTER_CANONICAL_FIELDS : list (string * list string) :=
  map (fun '(kind, _) => (kind, CHAT_CANONICAL_FIELDS)) ADAPTER_EXTENSIONS.

Definition INTERNAL_EXTRA_PREFIXES : list string :=
  ["codexify_"; "whooshd_"; "threadwake"; "routing_"; "route_"; "queue_"; "admission_"; "cache_";
   "trace_"; "diagnostic_"; "provenance"; "identity_"; "persona_"; "memory_"; "retrieval_";
   "lifecycle_"; "cancel"]%string.

Definition INFERENCE_EXTRA_PREFIXES : list string :=
  ["temperature"; "top_"; "max_"; "min_"; "stop"; "seed"; "presence_"; "frequency_"; "logit_";
   "logprob"; "tool"; "response_"; "reasoning"; "sampling"; "repeat_"; "prompt"; "message";
   "stream"; "model"]%string.

Definition INFERENCE_TOKENS : list string :=
  ["temperature"; "top"; "tokens"; "stop"; "seed"; "tool"; "tools"; "reasoning"; "sampling";
   "prompt"; "message"; "stream"; "model"]%string.

(** [_FIELD_NAME_RE.fullmatch] *)
Definition field_name_char (c : ascii) : bool :=
  is_alnum c || one_of ["_"; "."; "-"]%char c.

Definition field_name_ok (s : string) : bool :=
  match s with
  | String c rest => is_alpha c && string_forallb field_name_char rest && (String.length rest <=? 80)
  | EmptyString => false
  end.

Definition startswith_any (prefixes : list string) (s : string) : bool :=
  existsb (fun p => startswith p s) prefixes.

(** [adapter_kind or "generic"] *)
Definition kind_or_generic (adapter_kind : option string) : string :=
  match adapter_kind with
  | Some k => if String.eqb k "" then "generic"%string else k
  | None => "generic"%string
  end.

(** [_adapter_policy] *)
Definition adapter_policy (adapter_kind : option string) : list string * list string :=
  let kind := kind_or_generic adapter_kind in
  (default (dget_or "generic"%string [] ADAPTER_CANONICAL_FIELDS) (dget kind ADAPTER_CANONICAL_FIELDS),
   default (dget_or "generic"%string [] ADAPTER_EXTENSIONS) (dget kind ADAPTER_EXTENSIONS)).

(** [_is_internal_extra] *)
Definition is_internal_extra (name : string) : bool :=
  let normalized := lower name in
  mem normalized INTERNAL_CONTROL_FIELDS || startswith_any INTERNAL_EXTRA_PREFIXES normalized.

(** [set(filter(None, re.split(r"[^a-z0-9]+", s)))], as the list of the runs *)
Fixpoint alnum_runs (cur s : string) : list string :=
  match s with
  | EmptyString => if String.eqb cur "" then [] else [cur]
  | String c s' =>
      if in_range "a" "z" c || is_digit c then alnum_runs (cur +:+ String c EmptyString)%string s'
      else if String.eqb cur "" then alnum_runs EmptyString s' else cur :: alnum_runs EmptyString s'
  end.

(** [_is_inference_affecting_extra] *)
Definition is_inference_affecting_extra (name : string) : bool :=
  let normalized := lower name in
  if mem normalized CHAT_CANONICAL_FIELDS || startswith_any INFERENCE_EXTRA_PREFIXES normalized
  then true
  else existsb (fun t => mem t INFERENCE_TOKENS) (alnum_runs EmptyString normalized).

(** [_field_names]: [tuple(sorted(set(values)))] *)
Fixpoint insert_name (x : string) (l : list string) : list string :=
  match l with
  | [] => [x]
  | y :: l' =>
      match String.compare x y with
      | Lt => x :: l
      | Eq => l
      | Gt => y :: insert_name x l'
      end
  end.

Definition field_names (values : list string) : list string := foldr insert_name [] values.

(** The attributes of [ChatCompletionRequest] the policy reads. *)
Record IngressRequest := mkIngress {
  ir_field : string -> pyval;
  ir_metadata : pyval;
  ir_threadwake : pyval;
  ir_extra : list (string * pyval);
}.

Record BackendChatRequest := mkBackend {
  br_values : list (string * pyval);
  br_extra_fields : list (string * pyval);
  br_adapter_kind : string;
  br_forwarded : list string;
  br_stripped : list string;
  br_rejected : list string;
}.

Record BackendRequestPolicyError := mkPolicyError {
  pe_adapter_kind : string;
  pe_rejected_fields : list string;
}.

Definition is_none (v : pyval) : bool := match v with PNone => true | _ => false end.

(** The four accumulators of the loop over the extra fields. *)
Record extras_acc := mkAcc {
  acc_allowed : list (string * pyval);
  acc_forwarded : list string;
  acc_stripped : list string;
  acc_rejected : list string;
}.

(** What happens to an extra field. *)
Inductive disposition := Forwarded | Stripped | Rejected.

Definition dispose (extensions : list string) (name : string) : disposition :=
  if mem name extensions && field_name_ok name then Forwarded
  else if is_internal_extra name then Stripped
  else if is_inference_affecting_extra name then Rejected
  else Stripped.

Definition visit_extra (extensions : list string) (a : extras_acc) (item : string * pyval)
    : extras_acc :=
  let '(name, value) := item in
  match dispose extensions name with
  | Forwarded => mkAcc (dset name value (acc_allowed a)) (acc_forwarded a ++ [name])
                   (acc_stripped a) (acc_rejected a)
  | Stripped => mkAcc (acc_allowed a) (acc_forwarded a) (acc_stripped a ++ [name]) (acc_rejected a)
  | Rejected => mkAcc (acc_allowed a) (acc_forwarded a) (acc_stripped a) (acc_rejected a ++ [name])
  end.

Definition initial_forwarded (canonical : list string) (r : IngressRequest) : list string :=
  List.filter (fun name => mem name canonical
                 && (mem name ["model"; "messages"; "stream"]%string || negb (is_none (ir_field r name))))
    CHAT_CANONICAL_FIELDS.

Definition initial_stripped (r : IngressRequest) : list string :=
  (if is_none (ir_metadata r) then [] else ["metadata"%string])
  ++ (if is_none (ir_threadwake r) then [] else ["threadwake"%string]).

Definition sanitize_chat_request (r : IngressRequest + BackendChatRequest)
    (adapter_kind : option string) : BackendRequestPolicyError + BackendChatRequest :=
  match r with
  | inr b => inr b
  | inl r =>
      let kind := kind_or_generic adapter_kind in
      let '(canonical, extensions) := adapter_policy (Some kind) in
      let a := foldl (visit_extra extensions)
                 (mkAcc [] (initial_forwarded canonical r) (initial_stripped r) []) (ir_extra r) in
      let forwarded_names := field_names (acc_forwarded a) in
      let stripped_names := field_names (acc_stripped a) in
      let rejected_names := field_names (acc_rejected a) in
      match rejected_names with
      | _ :: _ => inl (mkPolicyError kind rejected_names)
      | [] =>
          inr (mkBackend (map (fun name => (name, ir_field r name)) CHAT_CANONICAL_FIELDS)
                 (acc_allowed a) kind forwarded_names stripped_names rejected_names)
      end
  end.

Definition ensure_backend_chat_request := sanitize_chat_request.

(** ** Lemmas *)

Lemma mem_elem k l : mem k l = true <-> k ∈ l.
Proof.
  unfold mem. rewrite existsb_exists. setoid_rewrite <- list_elem_of_In.
  setoid_rewrite String.eqb_eq. naive_solver.
Qed.

Lemma insert_name_elem x y l : y ∈ insert_name x l <-> y = x \/ y ∈ l.
Proof.
  induction l as [|z l IH]; simpl; [set_solver|].
  destruct (String.compare x z) eqn:E; [|set_solver..].
  apply String.compare_eq_iff in E. set_solver.
Qed.

Lemma field_names_elem y l : y ∈ field_names l <-> y ∈ l.
Proof.
  unfold field_names. induction l as [|x l IH]; simpl; [done|].
  rewrite insert_name_elem, IH. set_solver.
Qed.

Definition name_lt (x y : string) : Prop := String.compare x y = Lt.

Lemma insert_name_sorted x l : Sorted name_lt l -> Sorted name_lt (insert_name x l).
Proof.
  induction l as [|y l IH]; simpl; [repeat constructor|]. intros Hs.
  destruct (String.compare x y) eqn:E; [done | by constructor; [|constructor] |].
  inversion Hs as [|? ? Hl Hhd]; subst. constructor; [by apply IH|].
  assert (Hyx : name_lt y x).
  { unfold name_lt. rewrite String.compare_antisym, E. done. }
  destruct l as [|z l]; simpl; [by constructor|].
  destruct (String.compare x z); constructor; try done; by inversion Hhd.
Qed.

Lemma field_names_sorted l : Sorted name_lt (field_names l).
Proof. induction l; simpl; [constructor | by apply insert_name_sorted]. Qed.

Lemma field_names_nil l : field_names l = [] <-> l = [].
Proof.
  split; [|by intros ->]. destruct l as [|x l]; [done|]. intros H.
  assert (x ∈ field_names (x :: l)) as Hx by (apply field_names_elem; set_solver).
  rewrite H in Hx. by apply elem_of_nil in Hx.
Qed.

Definition disposed (extensions : list string) (d : disposition) (l : list (string * pyval))
    : list (string * pyval) :=
  List.filter (fun '(name, _) => match dispose extensions name, d with
                         | Forwarded, Forwarded | Stripped, Stripped | Rejected, Rejected => true
                         | _, _ => false
                         end) l.

Lemma disposed_elem ext d l k v : (k, v) ∈ disposed ext d l <-> (k, v) ∈ l /\ dispose ext k = d.
Proof.
  unfold disposed. rewrite elem_of_filter_List. destruct (dispose ext k), d; naive_solver.
Qed.

(** The loop sorts the extra fields into the three groups, in order. *)
Lemma visit_extras ext l a :
  NoDup (dkeys l) -> (forall k, k ∈ dkeys l -> dget k (acc_allowed a) = None) ->
  foldl (visit_extra ext) a l =
  mkAcc (acc_allowed a ++ disposed ext Forwarded l)
    (acc_forwarded a ++ dkeys (disposed ext Forwarded l))
    (acc_stripped a ++ dkeys (disposed ext Stripped l))
    (acc_rejected a ++ dkeys (disposed ext Rejected l)).
Proof.
  revert a. induction l as [|[k v] l IH]; intros a Hnd Hfresh.
  { destruct a. simpl. by rewrite !app_nil_r. }
  unfold dkeys in Hnd. rewrite fmap_cons in Hnd. apply NoDup_cons in Hnd as [Hk Hnd].
  simpl. rewrite IH; [|done|].
  - destruct (dispose ext k) eqn:E; simpl; rewrite <- ?app_assoc; try done.
    rewrite dkeys_dset_out by (apply Hfresh; set_solver). by rewrite <- app_assoc.
  - intros k' Hk'. destruct (dispose ext k) eqn:E; simpl; try (apply Hfresh; set_solver).
    rewrite dget_dset. case_decide; [by subst | apply Hfresh; set_solver].
Qed.

(** The declared extensions are well-formed names, outside every other group. *)
Definition extension_sound (name : string) : bool :=
  field_name_ok name && negb (is_internal_extra name) && negb (mem name CHAT_CANONICAL_FIELDS).

Lemma extensions_sound kind name :
  name ∈ (adapter_policy kind).2 -> extension_sound name = true.
Proof.
  intros Hn.
  assert (Hall : forallb (fun e => forallb extension_sound e.2) ADAPTER_EXTENSIONS = true)
    by (vm_compute; reflexivity).
  rewrite forallb_forall in Hall. unfold adapter_policy in Hn. cbv zeta in Hn. cbn [snd] in Hn.
  destruct (dget (kind_or_generic kind) ADAPTER_EXTENSIONS) as [e|] eqn:E.
  - apply dget_Some_elem in E. specialize (Hall _ (proj1 (list_elem_of_In _ _) E)).
    rewrite forallb_forall in Hall. apply Hall, list_elem_of_In. exact Hn.
  - vm_compute in Hn. by apply elem_of_nil in Hn.
Qed.

Lemma kind_or_generic_idem k : kind_or_generic (Some (kind_or_generic k)) = kind_or_generic k.
Proof.
  unfold kind_or_generic. destruct k as [k|]; [|done]. by destruct (String.eqb k "") eqn:E; rewrite ?E.
Qed.

Lemma adapter_policy_idem k : adapter_policy (Some (kind_or_generic k)) = adapter_policy k.
Proof. unfold adapter_policy. by rewrite kind_or_generic_idem. Qed.

Lemma sanitize_unfold r kind :
  NoDup (dkeys (ir_extra r)) ->
  let ext := (adapter_policy kind).2 in
  sanitize_chat_request (inl r) kind =
  match field_names (dkeys (disposed ext Rejected (ir_extra r))) with
  | (_ :: _) as names => inl (mkPolicyError (kind_or_generic kind) names)
  | [] => inr (mkBackend (map (fun name => (name, ir_field r name)) CHAT_CANONICAL_FIELDS)
                (disposed ext Forwarded (ir_extra r)) (kind_or_generic kind)
                (field_names (initial_forwarded (adapter_policy kind).1 r
                              ++ dkeys (disposed ext Forwarded (ir_extra r))))
                (field_names (initial_stripped r ++ dkeys (disposed ext Stripped (ir_extra r))))
                [])
  end.
Proof.
  intros Hnd ext. unfold sanitize_chat_request. rewrite adapter_policy_idem. subst ext.
  destruct (adapter_policy kind) as [canonical ext]. simpl snd. simpl fst.
  rewrite visit_extras; [|exact Hnd|reflexivity]. cbn [acc_allowed acc_forwarded acc_stripped acc_rejected].
  rewrite !app_nil_l. by destruct (field_names _).
Qed.

(** An extra field is forwarded exactly when the adapter declares its name. *)
Lemma disposed_forwarded kind (l : list (string * pyval)) k v :
  (k, v) ∈ disposed (adapter_policy kind).2 Forwarded l <-> (k, v) ∈ l /\ k ∈ (adapter_policy kind).2.
Proof.
  pose proof (extensions_sound kind) as Hext. unfold extension_sound in Hext.
  rewrite disposed_elem. unfold dispose. destruct (mem k (adapter_policy kind).2) eqn:Em.
  - apply mem_elem in Em. specialize (Hext k Em). rewrite !andb_true_iff in Hext.
    destruct Hext as [[-> _] _]. simpl. tauto.
  - assert (k ∉ (adapter_policy kind).2) by (rewrite <- mem_elem; congruence). simpl.
    destruct (is_internal_extra k); [|destruct (is_inference_affecting_extra k)]; naive_solver.
Qed.

(** A declared extension is neither an internal control name nor a canonical field. *)
Lemma extension_external kind k :
  k ∈ (adapter_policy kind).2 -> is_internal_extra k = false /\ k ∉ CHAT_CANONICAL_FIELDS.
Proof.
  intros Hin. pose proof (extensions_sound kind k Hin) as Hext. unfold extension_sound in Hext.
  rewrite !andb_true_iff, !negb_true_iff in Hext. destruct Hext as [[_ Hi] Hc].
  split; [done|]. rewrite <- mem_elem. congruence.
Qed.

(** ** Properties *)

(** What crosses the boundary.  A backend request carries every canonical
    field verbatim and nothing else except the extensions its adapter declares,
    with the client's values; no internal control name and no second copy of a
    canonical field can come along as an extra, and nothing was rejected. *)
Theorem backend_request_carries_only_declared r kind b :
  NoDup (dkeys (ir_extra r)) -> ensure_backend_chat_request (inl r) kind = inr b ->
  br_values b = map (fun name => (name, ir_field r name)) CHAT_CANONICAL_FIELDS
  /\ (forall k v, (k, v) ∈ br_extra_fields b <->
        (k, v) ∈ ir_extra r /\ k ∈ (adapter_policy kind).2)
  /\ (forall k, k ∈ dkeys (br_extra_fields b) ->
        is_internal_extra k = false /\ k ∉ CHAT_CANONICAL_FIELDS)
  /\ br_rejected b = [].
Proof.
  intros Hnd H. unfold ensure_backend_chat_request in H. rewrite sanitize_unfold in H by done.
  destruct (field_names _); [|done]. injection H as <-. simpl.
  split_and!; [done | intros; apply disposed_forwarded | | done].
  intros k ([k' v] & -> & Hin)%list_elem_of_fmap. apply disposed_forwarded in Hin as [_ Hin].
  by apply extension_external in Hin.
Qed.

Definition sample_ingress (extra : list (string * pyval)) : IngressRequest :=
  mkIngress (fun name => if String.eqb name "model" then PStr "m" else PNone) PNone (PDict [])
    extra.

Lemma backend_request_carries_only_declared_witness :
  exists b, ensure_backend_chat_request
    (inl (sample_ingress [("top_k", PInt 5); ("Queue_hint", PInt 1)]%string)) (Some "llama_cpp"%string)
    = inr b /\ br_extra_fields b = [("top_k", PInt 5)]%string /\ br_rejected b = [].
Proof.
  eexists. split; [vm_compute; reflexivity|]. split; [reflexivity|].
  refine (proj2 (proj2 (proj2 (backend_request_carries_only_declared
    (sample_ingress [("top_k", PInt 5); ("Queue_hint", PInt 1)]%string) (Some "llama_cpp"%string)
    _ _ _)))).
  - by apply (bool_decide_unpack _).
  - vm_compute. reflexivity.
Defined.

(** A request is refused exactly when some extra field affects inference and
    is neither declared by the adapter nor internal; the error names exactly those
    fields, in order, and never a value.  Otherwise every extra field is accounted
    for: forwarded if declared, reported as stripped if not. *)
Theorem policy_rejection_exact r kind :
  NoDup (dkeys (ir_extra r)) ->
  let ext := (adapter_policy kind).2 in
  match ensure_backend_chat_request (inl r) kind with
  | inl e =>
      pe_rejected_fields e <> [] /\ Sorted name_lt (pe_rejected_fields e)
      /\ (forall k, k ∈ pe_rejected_fields e <->
            k ∈ dkeys (ir_extra r) /\ dispose ext k = Rejected)
  | inr b =>
      (forall k, k ∈ dkeys (ir_extra r) ->
        k ∈ dkeys (br_extra_fields b) /\ k ∈ br_forwarded b /\ dispose ext k = Forwarded
        \/ k ∉ dkeys (br_extra_fields b) /\ k ∈ br_stripped b /\ dispose ext k = Stripped)
  end.
Proof.
  intros Hnd. cbv zeta. set (ext := (adapter_policy kind).2).
  unfold ensure_backend_chat_request. rewrite sanitize_unfold by done. fold ext.
  assert (Hkeys : forall d k, k ∈ dkeys (disposed ext d (ir_extra r)) <->
    k ∈ dkeys (ir_extra r) /\ dispose ext k = d).
  { intros d k. unfold dkeys. rewrite !list_elem_of_fmap. split.
    - intros ([k' v] & -> & [Hin Hd]%disposed_elem). simpl. split; [by exists (k', v) | done].
    - intros [([k' v] & -> & Hin) Hd]. exists (k', v). split; [done|]. by apply disposed_elem. }
  destruct (field_names (dkeys (disposed ext Rejected (ir_extra r)))) as [|x l] eqn:E.
  - intros k Hk. cbn [br_extra_fields br_forwarded br_stripped].
    rewrite !field_names_elem, !elem_of_app, !Hkeys.
    apply (proj1 (field_names_nil _)) in E. destruct (dispose ext k) eqn:Ed.
    + left. naive_solver.
    + right. naive_solver.
    + exfalso. assert (k ∈ dkeys (disposed ext Rejected (ir_extra r))) as Hin by by apply Hkeys.
      rewrite E in Hin. by apply elem_of_nil in Hin.
  - cbn [pe_rejected_fields]. rewrite <- E. split; [by rewrite E|].
    split; [apply field_names_sorted|]. intros k. by rewrite field_names_elem, Hkeys.
Qed.

Lemma policy_rejection_exact_witness :
  exists e, ensure_backend_chat_request
    (inl (sample_ingress [("x-Top-k", PInt 5); ("top_k", PInt 1); ("note", PNone)]%string))
    (Some "mlx_lm"%string) = inl e
    /\ pe_rejected_fields e = ["top_k"; "x-Top-k"]%string /\ pe_rejected_fields e <> [].
Proof.
  set (r := sample_ingress [("x-Top-k", PInt 5); ("top_k", PInt 1); ("note", PNone)]%string).
  assert (Hnd : NoDup (dkeys (ir_extra r))) by by apply (bool_decide_unpack _).
  pose proof (policy_rejection_exact r (Some "mlx_lm"%string) Hnd) as H. cbv zeta in H.
  eexists. split; [vm_compute; reflexivity|]. split; [reflexivity|].
  assert (He : ensure_backend_chat_request (inl r) (Some "mlx_lm"%string)
    = inl (mkPolicyError "mlx_lm" ["top_k"; "x-Top-k"]%string)) by (vm_compute; reflexivity).
  rewrite He in H. exact (proj1 H).
Defined.
