(* ===== verification/Ledger.v ===== *)
(** * The capacity ledger interface

    [RequestQueue] never sees [RuntimeState]: the request handler passes it two
    predicates over the live runtime ([capacity_available], [entry_eligible])
    and one action ([reserve]).  [CapacityLedger] is that contract.  The queue
    and the broker's over-admission theorems are proved against it, and
    [Runtime.v] discharges it for [RuntimeState]. *)

From S2P Require Import Prelude.

Class CapacityLedger (R : Type) := {
  (** [runtime.active_jobs] *)
  led_active : R -> Z;
  (** [runtime.active_jobs_for_lane(lane)] *)
  led_lane_active : option string -> R -> Z;
  (** whether a reservation is held for the request *)
  led_held : string -> R -> bool;
  (** [runtime.reserve_capacity(request_id, lane)], its boolean result dropped *)
  led_reserve : string -> option string -> R -> R;

  led_reserve_again id lane r : led_held id r = true -> led_reserve id lane r = r;
  led_reserve_active id lane r :
    led_held id r = false -> led_active (led_reserve id lane r) = (led_active r + 1)%Z;
  led_reserve_lane id lane lane' r :
    led_held id r = false ->
    led_lane_active lane' (led_reserve id lane r) =
    (led_lane_active lane' r
     + b2z (str_truthy lane' && bool_decide (lane = lane')))%Z;
  led_reserve_held id lane r id' :
    led_held id' (led_reserve id lane r) = bool_decide (id' = id) || led_held id' r;
}.
