(* ===== verification/Runtime.v ===== *)
(** * Request lifecycle bookkeeping ([runtime/__init__.py])

    [RuntimeState] keeps one record per request and one reservation per granted
    request, both in insertion-ordered dictionaries, and a counter per
    admission, cancellation and queue event.  Every mutating method is a
    function from state to state; a read of [time.time()] is an argument [now],
    and the request id made by [generate_whoosh_request_id()] is an argument
    too.  The counters are one function indexed by the attribute's name.
    Model inventory building and registry loading are not part of this file. *)

From S2P Require Import Prelude PyDict Contracts Correlation Ledger.

(** [_RequestRecord] *)
Record RequestRecord := mkRequestRecord {
  request_id : string;
  model : string;
  stream : bool;
  upstream_request_id : option string;
  lane : option string;
  status : RequestLifecycleState;
  cancel_requested : bool;
  cancel_token : option CancellationToken;
  started_at : Q;
  ended_at : option Q;
  error_code : option string;
}.

Definition rec_set_status (s : RequestLifecycleState) (r : RequestRecord) : RequestRecord :=
  mkRequestRecord (request_id r) (model r) (stream r) (upstream_request_id r) (lane r)
    s (cancel_requested r) (cancel_token r) (started_at r) (ended_at r) (error_code r).

Definition rec_set_ended (t : Q) (r : RequestRecord) : RequestRecord :=
  mkRequestRecord (request_id r) (model r) (stream r) (upstream_request_id r) (lane r)
    (status r) (cancel_requested r) (cancel_token r) (started_at r) (Some t) (error_code r).

Definition rec_set_error (e : option string) (r : RequestRecord) : RequestRecord :=
  mkRequestRecord (request_id r) (model r) (stream r) (upstream_request_id r) (lane r)
    (status r) (cancel_requested r) (cancel_token r) (started_at r) (ended_at r) e.

Definition rec_request_cancel (r : RequestRecord) : RequestRecord :=
  mkRequestRecord (request_id r) (model r) (stream r) (upstream_request_id r) (lane r)
    (status r) true (token_cancel <$> cancel_token r) (started_at r) (ended_at r) (error_code r).

(** The [total_*] attributes. *)
Inductive counter :=
| total_requests_accepted | total_requests_rejected | total_rejected_overloaded
| total_rejected_prompt_too_large | total_rejected_too_many_messages
| total_rejected_max_tokens | total_rejected_model_not_ready
| total_requests_cancel_requested | total_requests_cancelled | total_stream_disconnects
| total_queued | total_dequeued | total_queue_rejected | total_queue_timeout
| total_queue_cancelled.

#[export] Instance counter_eq_dec : EqDecision counter.
Proof. solve_decision. Defined.

(** The attributes of the model-lifecycle half of [RuntimeState]. *)
Record ModelLifecycle := mkModelLifecycle {
  model_lifecycle : ModelLifecycleState;
  last_load_started_at : option Q;
  last_load_completed_at : option Q;
  last_unloaded_at : option Q;
  last_error_code : option string;
  last_error_message : option string;
}.

Record RuntimeState := mkRuntimeState {
  rt_status : RunnerStatus;
  rt_lifecycle : ModelLifecycle;
  rt_counters : counter -> Z;
  rt_memory : MemoryInfo;
  requests : list (string * RequestRecord);
  reservations : list (string * option string);
  rt_active_model : option string;
}.

(** [RuntimeState.__init__] *)
Definition init_runtime : RuntimeState :=
  mkRuntimeState RS_READY (mkModelLifecycle UNLOADED None None None None None)
    (fun _ => 0%Z) (mkMemoryInfo MP_NORMAL 32 (42 # 10) (278 # 10)) [] [] None.

Definition set_lifecycle (l : ModelLifecycle) (s : RuntimeState) : RuntimeState :=
  mkRuntimeState (rt_status s) l (rt_counters s) (rt_memory s) (requests s) (reservations s)
    (rt_active_model s).

Definition bump (c : counter) (s : RuntimeState) : RuntimeState :=
  mkRuntimeState (rt_status s) (rt_lifecycle s)
    (fun c' => if decide (c' = c) then (rt_counters s c' + 1)%Z else rt_counters s c')
    (rt_memory s) (requests s) (reservations s) (rt_active_model s).

Definition set_requests (d : list (string * RequestRecord)) (s : RuntimeState) : RuntimeState :=
  mkRuntimeState (rt_status s) (rt_lifecycle s) (rt_counters s) (rt_memory s) d (reservations s)
    (rt_active_model s).

Definition set_reservations (d : list (string * option string)) (s : RuntimeState) : RuntimeState :=
  mkRuntimeState (rt_status s) (rt_lifecycle s) (rt_counters s) (rt_memory s) (requests s) d
    (rt_active_model s).

(** ** Computed properties *)

Definition active_jobs (s : RuntimeState) : Z :=
  (countv (fun r => active_status (status r)) (requests s)
   + Z.of_nat (length (reservations s)))%Z.

Definition reserved_slots (s : RuntimeState) : Z := Z.of_nat (length (reservations s)).

Definition reserve_capacity (id : string) (ln : option string) (s : RuntimeState)
    : bool * RuntimeState :=
  if dmem id (reservations s) then (false, s)
  else (true, set_reservations (dset id ln (reservations s)) s).

Definition release_capacity (id : string) (s : RuntimeState) : RuntimeState :=
  set_reservations (ddel id (reservations s)) s.

Definition active_jobs_for_lane (ln : option string) (s : RuntimeState) : Z :=
  if negb (str_truthy ln) then 0%Z
  else (countv (fun r => bool_decide (lane r = ln) && active_status (status r)) (requests s)
        + countv (fun reserved_lane => bool_decide (reserved_lane = ln)) (reservations s))%Z.

Definition is_waiting (s : RuntimeState) (r : RequestRecord) : bool :=
  bool_decide (status r = QUEUED) && negb (dmem (request_id r) (reservations s)).

Definition queue_depth (s : RuntimeState) : Z := countv (is_waiting s) (requests s).

Definition oldest_queued_age_ms (now : Q) (s : RuntimeState) : Q :=
  let oldest :=
    foldl (fun oldest r =>
             if is_waiting s r then
               let age := (now - started_at r)%Q in
               match oldest with
               | None => Some age
               | Some o => if o <?q age then Some age else oldest
               end
             else oldest)
      None (dvalues (requests s)) in
  match oldest with Some o => (o * 1000)%Q | None => 0%Q end.

(** ** Queue lifecycle helpers *)

Definition mark_queued (id : string) (s : RuntimeState) : RuntimeState :=
  match dget id (requests s) with
  | Some rec => bump total_queued (set_requests (dset id (rec_set_status QUEUED rec) (requests s)) s)
  | None => s
  end.

Definition mark_dequeued (id : string) (s : RuntimeState) : RuntimeState := bump total_dequeued s.

Definition mark_timed_out (now : Q) (id : string) (s : RuntimeState) : RuntimeState :=
  let s := match dget id (requests s) with
           | Some rec =>
               bump total_queue_timeout
                 (set_requests (dset id (rec_set_ended now (rec_set_status TIMED_OUT rec)) (requests s)) s)
           | None => s
           end in
  release_capacity id s.

Definition record_queue_rejected (s : RuntimeState) : RuntimeState := bump total_queue_rejected s.
Definition record_queue_cancelled (s : RuntimeState) : RuntimeState := bump total_queue_cancelled s.

(** ** Model lifecycle bookkeeping *)

Definition begin_warmup (now : Q) (s : RuntimeState) : RuntimeState :=
  let l := rt_lifecycle s in
  set_lifecycle (mkModelLifecycle WARMING (Some now) (last_load_completed_at l) (last_unloaded_at l)
    (last_error_code l) (last_error_message l)) s.

Definition complete_warmup (now : Q) (s : RuntimeState) : RuntimeState :=
  let l := rt_lifecycle s in
  set_lifecycle (mkModelLifecycle READY (last_load_started_at l) (Some now) (last_unloaded_at l)
    None None) s.

Definition fail_warmup (code message : option string) (s : RuntimeState) : RuntimeState :=
  let l := rt_lifecycle s in
  set_lifecycle (mkModelLifecycle MODEL_FAILED (last_load_started_at l) (last_load_completed_at l)
    (last_unloaded_at l) code message) s.

Definition complete_unload (now : Q) (s : RuntimeState) : RuntimeState :=
  let l := rt_lifecycle s in
  set_lifecycle (mkModelLifecycle UNLOADED (last_load_started_at l) (last_load_completed_at l)
    (Some now) (last_error_code l) (last_error_message l)) s.

(** ** Admission counters *)

Definition record_accepted (s : RuntimeState) : RuntimeState := bump total_requests_accepted s.

Definition record_rejected (reason : string) (s : RuntimeState) : RuntimeState :=
  let s := bump total_requests_rejected s in
  if String.eqb reason "rejected_overloaded" then bump total_rejected_overloaded s
  else if String.eqb reason "rejected_prompt_too_large" then bump total_rejected_prompt_too_large s
  else if String.eqb reason "rejected_too_many_messages" then bump total_rejected_too_many_messages s
  else if String.eqb reason "rejected_max_tokens_too_high" then bump total_rejected_max_tokens s
  else if String.eqb reason "rejected_model_not_ready" then bump total_rejected_model_not_ready s
  else s.

(** ** Request lifecycle bookkeeping *)

Definition begin_request (now : Q) (new_id : string) (mdl : string) (strm : bool)
    (upstream : pyval) (ln : option string) (s : RuntimeState) : string * RuntimeState :=
  let token := new_token new_id in
  (new_id,
   set_requests
     (dset new_id
        (mkRequestRecord new_id mdl strm (normalize_identifier upstream) ln ACCEPTED false
           (Some token) now None None)
        (requests s)) s).

Definition get_cancellation_token (id : string) (s : RuntimeState) : option CancellationToken :=
  match dget id (requests s) with Some rec => cancel_token rec | None => None end.

Definition request_cancellation (id : string) (s : RuntimeState) : bool * RuntimeState :=
  match dget id (requests s) with
  | None => (false, s)
  | Some rec =>
      if terminal_status (status rec) then (false, s)
      else (true, bump total_requests_cancel_requested
                    (set_requests (dset id (rec_request_cancel rec) (requests s)) s))
  end.

Definition startable (st : RequestLifecycleState) : bool :=
  match st with ACCEPTED | QUEUED => true | _ => false end.

Definition mark_started (target : RequestLifecycleState) (id : string) (s : RuntimeState)
    : RuntimeState :=
  match dget id (requests s) with
  | Some rec =>
      if startable (status rec)
      then release_capacity id (set_requests (dset id (rec_set_status target rec) (requests s)) s)
      else s
  | None => s
  end.

Definition mark_running : string -> RuntimeState -> RuntimeState := mark_started RUNNING.
Definition mark_streaming : string -> RuntimeState -> RuntimeState := mark_started STREAMING.

(** The states [complete_request] leaves alone. *)
Definition completion_blocked (st : RequestLifecycleState) : bool :=
  match st with CANCELLED | FAILED | TIMED_OUT => true | _ => false end.

Definition complete_request (now : Q) (id : string) (s : RuntimeState) : RuntimeState :=
  let s := match dget id (requests s) with
           | Some rec =>
               if completion_blocked (status rec) then s
               else set_requests (dset id (rec_set_ended now (rec_set_status COMPLETED rec)) (requests s)) s
           | None => s
           end in
  release_capacity id s.

Definition cancel_request (now : Q) (id : string) (s : RuntimeState) : RuntimeState :=
  let s := match dget id (requests s) with
           | Some rec =>
               bump total_requests_cancelled
                 (set_requests (dset id (rec_set_ended now (rec_set_status CANCELLED rec)) (requests s)) s)
           | None => s
           end in
  release_capacity id s.

Definition record_stream_disconnect (id : string) (s : RuntimeState) : RuntimeState :=
  bump total_stream_disconnects s.

Definition fail_request (now : Q) (id : string) (code : option string) (s : RuntimeState)
    : RuntimeState :=
  let s := match dget id (requests s) with
           | Some rec =>
               set_requests
                 (dset id (rec_set_error code (rec_set_ended now (rec_set_status FAILED rec)))
                    (requests s)) s
           | None => s
           end in
  release_capacity id s.

(** ** Snapshot queries *)

Definition snapshot_of (r : RequestRecord) : RequestSnapshot :=
  mkRequestSnapshot (request_id r) (upstream_request_id r) (model r) (stream r) (status r)
    (cancel_requested r) (started_at r) (ended_at r) (error_code r).

Definition get_request_snapshot (id : string) (s : RuntimeState) : option RequestSnapshot :=
  match dget id (requests s) with None => None | Some rec => Some (snapshot_of rec) end.

Definition get_active_requests (s : RuntimeState) : list RequestSnapshot :=
  map snapshot_of (List.filter (fun r => live_status (status r)) (dvalues (requests s))).

Definition get_all_requests (s : RuntimeState) : list RequestSnapshot :=
  map snapshot_of (dvalues (requests s)).

Definition build_request_list (s : RuntimeState) : list RequestSnapshot * Z :=
  (get_all_requests s, active_jobs s).

(** ** Slot accounting

    [occupancy id s] is what request [id] contributes to [active_jobs]: one for
    an active record and one for a reservation. *)
Definition held (id : string) (s : RuntimeState) : bool := dmem id (reservations s).

Definition occupancy (id : string) (s : RuntimeState) : Z :=
  (weight (fun r => active_status (status r)) id (requests s) + b2z (held id s))%Z.

Definition lane_occupancy (ln : option string) (id : string) (s : RuntimeState) : Z :=
  (weight (fun r => bool_decide (lane r = ln) && active_status (status r)) id (requests s)
   + weight (fun l => bool_decide (l = ln)) id (reservations s))%Z.

(** *** Well-formedness *)

Record wf (s : RuntimeState) : Prop := {
  wf_requests : NoDup (dkeys (requests s));
  wf_reservations : NoDup (dkeys (reservations s));
  wf_ids : forall id r, dget id (requests s) = Some r -> request_id r = id;
}.

(** The mutating operations of [RuntimeState] on requests and reservations. *)
Inductive rt_op :=
| OpBegin (now : Q) (new_id mdl : string) (strm : bool) (upstream : pyval) (ln : option string)
| OpReserve (id : string) (ln : option string)
| OpRelease (id : string)
| OpQueued (id : string)
| OpDequeued (id : string)
| OpTimedOut (now : Q) (id : string)
| OpRequestCancellation (id : string)
| OpRunning (id : string)
| OpStreaming (id : string)
| OpComplete (now : Q) (id : string)
| OpCancel (now : Q) (id : string)
| OpFail (now : Q) (id : string) (code : option string)
| OpDisconnect (id : string).

Definition rt_apply (o : rt_op) (s : RuntimeState) : RuntimeState :=
  match o with
  | OpBegin now new_id mdl strm up ln => (begin_request now new_id mdl strm up ln s).2
  | OpReserve id ln => (reserve_capacity id ln s).2
  | OpRelease id => release_capacity id s
  | OpQueued id => mark_queued id s
  | OpDequeued id => mark_dequeued id s
  | OpTimedOut now id => mark_timed_out now id s
  | OpRequestCancellation id => (request_cancellation id s).2
  | OpRunning id => mark_running id s
  | OpStreaming id => mark_streaming id s
  | OpComplete now id => complete_request now id s
  | OpCancel now id => cancel_request now id s
  | OpFail now id code => fail_request now id code s
  | OpDisconnect id => record_stream_disconnect id s
  end.

Definition rt_run (ops : list rt_op) (s : RuntimeState) : RuntimeState :=
  foldl (fun s o => rt_apply o s) s ops.

Lemma wf_init : wf init_runtime.
Proof. split; simpl; [constructor | constructor | done]. Qed.

Lemma wf_set_record id rec s :
  wf s -> request_id rec = id -> wf (set_requests (dset id rec (requests s)) s).
Proof.
  intros [H1 H2 H3] Hid. split; simpl; auto with whoosh.
  intros id' r. rewrite dget_dset. case_decide; naive_solver.
Qed.

Lemma wf_upd_record id r rec s :
  wf s -> dget id (requests s) = Some r -> request_id rec = request_id r ->
  wf (set_requests (dset id rec (requests s)) s).
Proof. intros Hwf Hr Hid. apply wf_set_record; [done|]. rewrite Hid. by apply (wf_ids s). Qed.

Lemma wf_set_reservations d s :
  wf s -> NoDup (dkeys d) -> wf (set_reservations d s).
Proof. by intros [H1 H2 H3] Hd; split. Qed.

Lemma wf_bump c s : wf s -> wf (bump c s).
Proof. by intros [H1 H2 H3]; split. Qed.

Lemma wf_release id s : wf s -> wf (release_capacity id s).
Proof. intros H. apply wf_set_reservations; [done|]. apply ddel_NoDup, H. Qed.

#[export] Hint Resolve wf_init wf_set_record wf_upd_record wf_bump wf_release : whoosh.

Ltac destruct_record :=
  repeat match goal with
  | |- context [match dget ?id (requests ?s) with _ => _ end] =>
      destruct (dget id (requests s)) eqn:?
  | |- context [if ?b then _ else _] => destruct b eqn:?
  end.

Lemma wf_apply o s : wf s -> wf (rt_apply o s).
Proof.
  intros Hwf. destruct o; simpl;
    unfold mark_queued, mark_timed_out, request_cancellation, mark_running, mark_streaming,
      mark_started, complete_request, cancel_request, fail_request, mark_dequeued,
      record_stream_disconnect, reserve_capacity;
    destruct_record; simpl; eauto 6 with whoosh.
  apply wf_set_reservations; [done|]. apply dset_NoDup, Hwf.
Qed.

Lemma wf_run ops s : wf s -> wf (rt_run ops s).
Proof.
  revert s. unfold rt_run. induction ops as [|o ops IH]; intros s Hs; simpl; [done|].
  by apply IH, wf_apply.
Qed.

(** *** How the counts move *)

Lemma active_jobs_bump c s : active_jobs (bump c s) = active_jobs s.
Proof. done. Qed.

Lemma active_jobs_set_record id rec s :
  active_jobs (set_requests (dset id rec (requests s)) s) =
  (active_jobs s - weight (fun r => active_status (status r)) id (requests s)
   + b2z (active_status (status rec)))%Z.
Proof. unfold active_jobs. simpl. rewrite countv_dset. lia. Qed.

Lemma active_jobs_release id s :
  active_jobs (release_capacity id s) = (active_jobs s - b2z (held id s))%Z.
Proof.
  unfold active_jobs, held. simpl. rewrite length_ddel. by destruct (dmem id (reservations s)); simpl; lia.
Qed.

Lemma active_jobs_reserve id ln s :
  active_jobs (reserve_capacity id ln s).2 = (active_jobs s + b2z (negb (held id s)))%Z.
Proof.
  unfold reserve_capacity, held, active_jobs. destruct (dmem id (reservations s)) eqn:E; simpl; [lia|].
  rewrite length_dset, E. lia.
Qed.

Lemma active_jobs_nonneg s : (0 <= active_jobs s)%Z.
Proof. unfold active_jobs. pose proof (countv_nonneg (fun r => active_status (status r)) (requests s)). lia. Qed.

Lemma lane_jobs_set_record ln id rec s :
  str_truthy ln = true ->
  active_jobs_for_lane ln (set_requests (dset id rec (requests s)) s) =
  (active_jobs_for_lane ln s
   - weight (fun r => bool_decide (lane r = ln) && active_status (status r)) id (requests s)
   + b2z (bool_decide (lane rec = ln) && active_status (status rec)))%Z.
Proof. intros Hln. unfold active_jobs_for_lane. rewrite Hln. simpl. rewrite countv_dset. lia. Qed.

Lemma lane_jobs_release ln id s :
  str_truthy ln = true ->
  active_jobs_for_lane ln (release_capacity id s) =
  (active_jobs_for_lane ln s - weight (fun l => bool_decide (l = ln)) id (reservations s))%Z.
Proof. intros Hln. unfold active_jobs_for_lane. rewrite Hln. simpl. rewrite countv_ddel. lia. Qed.

Lemma lane_jobs_falsy ln s : str_truthy ln = false -> active_jobs_for_lane ln s = 0%Z.
Proof. intros H. unfold active_jobs_for_lane. by rewrite H. Qed.

#[export] Hint Rewrite active_jobs_bump active_jobs_set_record active_jobs_release
  active_jobs_reserve : whoosh.

(** ** The ledger interface is discharged *)

Lemma held_reserve id ln s id' :
  held id' (reserve_capacity id ln s).2 = bool_decide (id' = id) || held id' s.
Proof.
  unfold reserve_capacity, held. destruct (dmem id (reservations s)) eqn:E; simpl.
  - case_bool_decide; subst; simpl; [done|done].
  - unfold dmem at 1. rewrite dget_dset. case_decide; case_bool_decide; naive_solver.
Qed.

Lemma lane_jobs_reserve id ln ln' s :
  held id s = false ->
  active_jobs_for_lane ln' (reserve_capacity id ln s).2 =
  (active_jobs_for_lane ln' s + b2z (str_truthy ln' && bool_decide (ln = ln')))%Z.
Proof.
  unfold reserve_capacity, held, active_jobs_for_lane. intros E. rewrite E. simpl.
  destruct (str_truthy ln'); simpl; [|done]. rewrite countv_dset.
  unfold weight. unfold dmem in E. destruct (dget id (reservations s)); [done|]. lia.
Qed.

#[export] Instance runtime_ledger : CapacityLedger RuntimeState.
Proof.
  refine {| led_active := active_jobs; led_lane_active := active_jobs_for_lane;
            led_held := held; led_reserve id ln s := (reserve_capacity id ln s).2 |}.
  - intros id ln r H. unfold reserve_capacity, held in *. by rewrite H.
  - intros id ln r H. rewrite active_jobs_reserve, H. done.
  - intros id ln ln' r H. by apply lane_jobs_reserve.
  - intros id ln r id'. apply held_reserve.
Defined.

(** ** Properties *)

(** The operations that end request [id]'s life. *)
Definition terminal_op (o : rt_op) : option string :=
  match o with
  | OpTimedOut _ id | OpComplete _ id | OpCancel _ id | OpFail _ id _ => Some id
  | _ => None
  end.

Lemma held_release id s : wf s -> held id (release_capacity id s) = false.
Proof.
  intros Hwf. unfold held, release_capacity, dmem. simpl.
  by rewrite dget_ddel_eq by apply Hwf.
Qed.

(** A terminal operation is: end the record (or leave it ended), then release. *)
Lemma terminal_op_shape o id s :
  terminal_op o = Some id ->
  exists s', rt_apply o s = release_capacity id s'
    /\ reservations s' = reservations s
    /\ weight (fun r => active_status (status r)) id (requests s') = 0%Z
    /\ (forall p, countv p (requests s') =
         countv p (requests s) - weight p id (requests s) + weight p id (requests s'))%Z
    /\ (wf s -> wf s').
Proof.
  destruct o; intros [= <-]; simpl;
    unfold mark_timed_out, complete_request, cancel_request, fail_request;
    (eexists; split; [reflexivity|]); destruct (dget id0 (requests s)) as [rec|] eqn:E;
    try destruct (completion_blocked (status rec)) eqn:Eb; simpl;
    unfold weight; rewrite ?dget_dset_eq, ?E; simpl;
    (split; [done|]; split; [try done; by destruct (status rec)|]; split;
     [intros p; rewrite ?countv_dset; unfold weight; rewrite ?E; lia | eauto with whoosh]).
Qed.

(** C10: Whichever way a request ends (completion, cancellation, failure, queue
    timeout), the number of occupied execution slots drops by exactly what the
    request occupied (its active record plus its reservation), and the request
    occupies nothing afterwards: a slot is never leaked and never released
    twice. *)
Theorem terminal_ops_release_exactly_once o id s :
  wf s -> terminal_op o = Some id ->
  active_jobs (rt_apply o s) = (active_jobs s - occupancy id s)%Z
  /\ occupancy id (rt_apply o s) = 0%Z
  /\ wf (rt_apply o s).
Proof.
  intros Hwf Ho. destruct (terminal_op_shape o id s Ho) as (s' & Heq & Hres & Hw & Hc & Hwf').
  split; [|split; [|by apply wf_apply]]; rewrite Heq.
  - rewrite active_jobs_release. unfold active_jobs, occupancy, held.
    rewrite Hres, Hc, Hw. lia.
  - unfold occupancy. rewrite held_release by auto. simpl. lia.
Qed.

Lemma terminal_ops_release_exactly_once_witness :
  let s := rt_run [OpBegin 0 "a" "m" false PNone None; OpRunning "a"] init_runtime in
  active_jobs s = 1%Z /\ active_jobs (rt_apply (OpCancel 1 "a") s) = 0%Z.
Proof.
  split; [reflexivity|].
  destruct (terminal_ops_release_exactly_once (OpCancel 1 "a") "a"
    (rt_run [OpBegin 0 "a" "m" false PNone None; OpRunning "a"] init_runtime)) as [-> _].
  - apply wf_run, wf_init.
  - reflexivity.
  - reflexivity.
Defined.

(** A queued request that holds its reservation starts: the slot moves from the
    reservation to the record. *)
Lemma mark_started_handover target s id r :
  active_status target = true ->
  wf s -> dget id (requests s) = Some r -> status r = QUEUED ->
  dget id (reservations s) = Some (lane r) ->
  active_jobs (mark_started target id s) = active_jobs s
  /\ (forall ln, active_jobs_for_lane ln (mark_started target id s) = active_jobs_for_lane ln s)
  /\ held id (mark_started target id s) = false.
Proof.
  intros Ht Hwf Hr Hq Hres. unfold mark_started. rewrite Hr, Hq. simpl.
  split; [|split].
  - rewrite active_jobs_release, active_jobs_set_record. unfold held, dmem, weight. simpl.
    rewrite Hres, Hr, Hq. simpl. rewrite Ht. simpl. lia.
  - intros ln. destruct (str_truthy ln) eqn:E; [|by rewrite !lane_jobs_falsy].
    rewrite lane_jobs_release, lane_jobs_set_record by done. unfold weight. simpl.
    rewrite Hres, Hr, Hq. simpl. rewrite Ht. destruct (bool_decide (lane r = ln)); simpl; lia.
  - apply held_release. eapply wf_upd_record; eauto.
Qed.

(** When a granted request starts executing, its reservation is handed over
    to its record without a gap or a double count: the number of occupied slots
    and every lane's count are the same before and after [mark_running], and the
    reservation is gone. *)
Theorem grant_handover_preserves_capacity s id r :
  wf s -> dget id (requests s) = Some r -> status r = QUEUED ->
  dget id (reservations s) = Some (lane r) ->
  active_jobs (mark_running id s) = active_jobs s
  /\ (forall ln, active_jobs_for_lane ln (mark_running id s) = active_jobs_for_lane ln s)
  /\ held id (mark_running id s) = false.
Proof.
  intros. by eapply mark_started_handover.
Qed.

Lemma grant_handover_preserves_capacity_witness :
  let s := rt_run [OpBegin 0 "a" "m" false PNone (Some "mlx_vlm"); OpQueued "a";
                   OpReserve "a" (Some "mlx_vlm")] init_runtime in
  active_jobs (mark_running "a" s) = 1%Z.
Proof.
  cbv zeta. edestruct (grant_handover_preserves_capacity
    (rt_run [OpBegin 0 "a" "m" false PNone (Some "mlx_vlm"); OpQueued "a";
             OpReserve "a" (Some "mlx_vlm")] init_runtime) "a") as [-> _];
    [apply wf_run, wf_init | reflexivity | reflexivity | reflexivity | reflexivity].
Defined.

(** *** A request that was stopped is never reported as served *)

Definition stopped (id : string) (s : RuntimeState) : Prop :=
  exists r, dget id (requests s) = Some r /\ completion_blocked (status r) = true.

(** The operations that may legitimately revive [id]: a fresh [begin_request]
    with the same id, or enqueueing it again. *)
Definition revives (id : string) (o : rt_op) : bool :=
  match o with
  | OpBegin _ id' _ _ _ _ | OpQueued id' => bool_decide (id' = id)
  | _ => false
  end.

Lemma stopped_dset id id' rec s r :
  stopped id s -> dget id' (requests s) = Some r ->
  (completion_blocked (status r) = true -> completion_blocked (status rec) = true) ->
  stopped id (set_requests (dset id' rec (requests s)) s).
Proof.
  intros (r0 & Hr0 & Hb) Hr Himp. unfold stopped. simpl. rewrite dget_dset.
  case_decide; subst; [|by eauto]. exists rec. rewrite Hr0 in Hr. simplify_eq. auto.
Qed.

Lemma stopped_step id o s :
  revives id o = false -> stopped id s -> stopped id (rt_apply o s).
Proof.
  intros Hrev Hs. destruct o; simpl in *;
    unfold mark_queued, mark_timed_out, request_cancellation, mark_running, mark_streaming,
      mark_started, complete_request, cancel_request, fail_request, reserve_capacity;
    destruct_record; try exact Hs;
    try (eapply stopped_dset; [exact Hs | eassumption |]; simpl; intros; try done;
         by destruct (status _)).
  - destruct Hs as (r & Hr & Hb). exists r. split; [|done]. simpl.
    rewrite dget_dset_ne; [done|]. by case_bool_decide.
  - destruct Hs as (r0 & Hr & Hb). exists r0. split; [|done]. simpl.
    rewrite dget_dset_ne; [done|]. by case_bool_decide.
Qed.

(** Once a request is CANCELLED, FAILED or TIMED_OUT, no sequence of runtime
    operations on any requests ever reports it COMPLETED, RUNNING or STREAMING
    again (unless the request is begun or enqueued anew): an adapter result that
    arrives late is discarded. *)
Theorem stopped_requests_stay_stopped id ops s :
  Forall (fun o => revives id o = false) ops -> stopped id s -> stopped id (rt_run ops s).
Proof.
  revert s. unfold rt_run. induction ops as [|o ops IH]; intros s Hops Hs; simpl; [done|].
  inversion Hops; subst. by apply IH, stopped_step.
Qed.

Lemma stopped_requests_stay_stopped_witness :
  let s := rt_run [OpBegin 0 "a" "m" false PNone None; OpCancel 1 "a"] init_runtime in
  stopped "a" (rt_run [OpRunning "a"; OpComplete 2 "a"; OpFail 3 "a" (Some "e")] s).
Proof.
  apply stopped_requests_stay_stopped.
  - repeat constructor.
  - eexists. split; reflexivity.
Defined.

(** *** Conservation of requests *)

(** Reservations belong to queued requests.  The broker keeps this. *)
Definition accounted (s : RuntimeState) : Prop :=
  wf s /\ forall id, held id s = true ->
    exists r, dget id (requests s) = Some r /\ status r = QUEUED.

Definition granted_waiting (s : RuntimeState) (r : RequestRecord) : bool :=
  bool_decide (status r = QUEUED) && dmem (request_id r) (reservations s).

Lemma countv_keys (p : string -> bool) (d : list (string * RequestRecord)) :
  (forall id r, (id, r) ∈ d -> request_id r = id) ->
  countv (fun r => p (request_id r)) d = countb p (dkeys d).
Proof.
  unfold countv, dvalues, dkeys. induction d as [|[k r] d IH]; intros H; [done|].
  rewrite !fmap_cons, !countb_cons. cbn [fst snd].
  rewrite (H k r) by apply list_elem_of_here. rewrite IH; [done|].
  intros id r' Hin. apply H. by apply list_elem_of_further.
Qed.

Lemma countb_mem_subset (l1 l2 : list string) :
  NoDup l1 -> NoDup l2 -> l2 ⊆ l1 ->
  countb (fun x => bool_decide (x ∈ l2)) l1 = Z.of_nat (length l2).
Proof.
  intros H1 H2 Hsub. unfold countb. f_equal. apply Permutation_length.
  apply NoDup_Permutation; [|done|].
  - apply NoDup_ListNoDup, List.NoDup_filter. by apply NoDup_ListNoDup.
  - intros x. rewrite list_elem_of_In, List.filter_In, <- list_elem_of_In, bool_decide_eq_true.
    set_solver.
Qed.

Lemma granted_waiting_reservations s :
  accounted s -> countv (granted_waiting s) (requests s) = Z.of_nat (length (reservations s)).
Proof.
  intros [Hwf Hacc].
  assert (Hlen : length (reservations s) = length (dkeys (reservations s))).
  { unfold dkeys. by rewrite length_fmap. }
  rewrite Hlen, <- (countb_mem_subset (dkeys (requests s))); [| apply Hwf | apply Hwf |].
  - rewrite <- countv_keys.
    + unfold countv. apply countb_ext. intros r Hr.
      apply list_elem_of_fmap in Hr as ([id r'] & -> & Hin). simpl.
      pose proof (elem_dget id r' _ (wf_requests s Hwf) Hin) as Hget.
      rewrite (wf_ids s Hwf id r' Hget). unfold granted_waiting.
      rewrite (wf_ids s Hwf id r' Hget).
      destruct (dmem id (reservations s)) eqn:E.
      * destruct (Hacc id E) as (r'' & Hr'' & Hq). simplify_eq.
        rewrite (bool_decide_eq_true_2 _ Hq). symmetry.
        by apply bool_decide_eq_true_2, dmem_true.
      * rewrite andb_false_r. symmetry. apply bool_decide_eq_false. intros Hk%dmem_true. congruence.
    + intros id r Hin. apply (wf_ids s Hwf). apply elem_dget; [apply Hwf | done].
  - intros id Hid%dmem_true. destruct (Hacc id Hid) as (r & Hr & _).
    apply dkeys_dget. eauto.
Qed.

(** Every tracked request is accounted for exactly once: it occupies a slot
    ([active_jobs], which includes granted requests), or waits in the queue
    ([queue_depth]), or has ended.  In particular a granted request is counted
    as active and not as queued. *)
Theorem request_conservation s :
  accounted s ->
  Z.of_nat (length (requests s)) =
  (active_jobs s + queue_depth s + countv (fun r => terminal_status (status r)) (requests s))%Z.
Proof.
  intros Hacc. pose proof (granted_waiting_reservations s Hacc) as Hg.
  unfold active_jobs. rewrite <- Hg. unfold queue_depth, countv.
  assert (Hlen : length (requests s) = length (dvalues (requests s))).
  { unfold dvalues. by rewrite length_fmap. }
  rewrite Hlen. clear Hg Hlen. induction (dvalues (requests s)) as [|r l IH]; [done|].
  rewrite !countb_cons. simpl length. rewrite Nat2Z.inj_succ.
  unfold is_waiting, granted_waiting in *.
  destruct (status r) eqn:Es; simpl; rewrite ?Es;
    destruct (dmem (request_id r) (reservations s)); simpl; lia.
Qed.

Lemma request_conservation_witness :
  let s := rt_run [OpBegin 0 "a" "m" false PNone None; OpRunning "a";
                   OpBegin 1 "b" "m" false PNone None; OpQueued "b"; OpReserve "b" None;
                   OpBegin 2 "c" "m" false PNone None; OpQueued "c";
                   OpBegin 3 "d" "m" false PNone None; OpFail 4 "d" None] init_runtime in
  Z.of_nat (length (requests s)) = (2 + 1 + 1)%Z.
Proof.
  cbv zeta. rewrite request_conservation; [reflexivity|]. split; [apply wf_run, wf_init|].
  intros id Hid. exists (mkRequestRecord "b" "m" false None None QUEUED false
    (Some (new_token "b")) 1 None None).
  unfold held, dmem in Hid. simpl in Hid. case_decide; [subst; by split | discriminate].
Defined.
