(* ===== verification/RuntimeFrame.v ===== *)
(** * What one runtime operation leaves alone

    Frame lemmas for [RuntimeState]: an operation on one request changes no other
    request's record or reservation, so the counts move by what that request
    contributes.  The broker's invariants are proved from these. *)

From S2P Require Import Prelude PyDict Contracts Correlation Ledger Runtime.

Section dict.
Context {V : Type}.
Implicit Types (d : list (string * V)).

Lemma dict_perm d d' :
  NoDup (dkeys d) -> NoDup (dkeys d') -> (forall k, dget k d = dget k d') -> d ≡ₚ d'.
Proof.
  intros H1 H2 Hk. apply NoDup_Permutation.
  - by eapply NoDup_fmap_1.
  - by eapply NoDup_fmap_1.
  - intros [k v]. split; intros Hin.
    + apply dget_Some_elem. rewrite <- Hk. by apply elem_dget.
    + apply dget_Some_elem. rewrite Hk. by apply elem_dget.
Qed.

Lemma countv_perm (p : V -> bool) d d' : d ≡ₚ d' -> countv p d = countv p d'.
Proof. induction 1 as [|[k v]|[k v] [k' v']|]; rewrite ?countv_cons; lia. Qed.

Lemma countv_ext_elem (p q : V -> bool) d :
  (forall k v, (k, v) ∈ d -> p v = q v) -> countv p d = countv q d.
Proof.
  intros H. apply countb_ext. intros v ([k v'] & -> & Hin)%list_elem_of_fmap. simpl. eauto.
Qed.
End dict.

(** [s'] differs from [s] at most in the record and reservation of [x]. *)
Definition frame (x : string) (s s' : RuntimeState) : Prop :=
  forall id, id <> x ->
    dget id (requests s') = dget id (requests s)
    /\ dget id (reservations s') = dget id (reservations s).

Lemma frame_refl x s : frame x s s.
Proof. done. Qed.

Lemma frame_trans x s s1 s2 : frame x s s1 -> frame x s1 s2 -> frame x s s2.
Proof. intros H1 H2 id Hid. destruct (H1 id Hid), (H2 id Hid). split; congruence. Qed.

Definition op_target (o : rt_op) : string :=
  match o with
  | OpBegin _ id _ _ _ _ | OpReserve id _ | OpRelease id | OpQueued id | OpDequeued id
  | OpTimedOut _ id | OpRequestCancellation id | OpRunning id | OpStreaming id
  | OpComplete _ id | OpCancel _ id | OpFail _ id _ | OpDisconnect id => id
  end.

Lemma frame_apply o s : frame (op_target o) s (rt_apply o s).
Proof.
  intros id Hid. destruct o; simpl in *;
    unfold mark_queued, mark_timed_out, request_cancellation, mark_running, mark_streaming,
      mark_started, complete_request, cancel_request, fail_request, mark_dequeued,
      record_stream_disconnect, reserve_capacity;
    destruct_record; simpl; rewrite ?dget_dset_ne, ?dget_ddel_ne by done; done.
Qed.

#[export] Hint Resolve frame_refl frame_apply : whoosh.

(** ** Counting up to one request *)

Lemma count_frame (p q : RequestRecord -> bool) x s s' :
  wf s -> wf s' -> frame x s s' ->
  (forall id r, id <> x -> dget id (requests s) = Some r -> p r = q r) ->
  (countv p (requests s') - weight p x (requests s')
   = countv q (requests s) - weight q x (requests s))%Z.
Proof.
  intros Hwf Hwf' Hf Hpq. rewrite <- !countv_ddel.
  pose proof (ddel_NoDup x _ (wf_requests s Hwf)) as Hn.
  pose proof (ddel_NoDup x _ (wf_requests s' Hwf')) as Hn'.
  transitivity (countv p (ddel x (requests s))).
  - apply countv_perm, dict_perm; [done | done |].
    intros id. rewrite !dget_ddel by (apply Hwf || apply Hwf').
    case_decide as E; [done|]. by apply Hf.
  - apply countv_ext_elem. intros id r Hin. apply (elem_dget _ _ _ Hn) in Hin.
    rewrite dget_ddel in Hin by apply Hwf. case_decide as E; [done | eauto].
Qed.

(** What request [x] contributes to [queue_depth]. *)
Definition waiting_at (x : string) (s : RuntimeState) : Z := weight (is_waiting s) x (requests s).

Lemma queue_depth_frame x s s' :
  wf s -> wf s' -> frame x s s' ->
  queue_depth s' = (queue_depth s - waiting_at x s + waiting_at x s')%Z.
Proof.
  intros Hwf Hwf' Hf. unfold queue_depth, waiting_at.
  pose proof (count_frame (is_waiting s') (is_waiting s) x s s' Hwf Hwf' Hf) as H.
  assert (forall id r, id <> x -> dget id (requests s) = Some r ->
    is_waiting s' r = is_waiting s r) as Hw; [|specialize (H Hw); lia].
  intros id r Hid Hr. unfold is_waiting, dmem.
  rewrite (wf_ids s Hwf id r Hr), (proj2 (Hf id Hid)). done.
Qed.

Lemma waiting_at_spec x s :
  wf s ->
  waiting_at x s = match dget x (requests s) with
                   | Some r => b2z (bool_decide (status r = QUEUED) && negb (held x s))
                   | None => 0
                   end%Z.
Proof.
  intros Hwf. unfold waiting_at, weight, is_waiting, held.
  destruct (dget x (requests s)) as [r|] eqn:E; [|done]. by rewrite (wf_ids s Hwf x r E).
Qed.

Lemma waiting_at_bound x s : (0 <= waiting_at x s <= 1)%Z.
Proof. apply weight_bound. Qed.

(** ** Ending a request *)

Lemma terminal_op_target o x : terminal_op o = Some x -> op_target o = x.
Proof. by destruct o; intros [= <-]. Qed.

Lemma terminal_op_record o x s r :
  wf s -> terminal_op o = Some x -> dget x (requests s) = Some r ->
  exists r', dget x (requests (rt_apply o s)) = Some r'
    /\ lane r' = lane r /\ terminal_status (status r') = true
    /\ cancel_token r' = cancel_token r.
Proof.
  intros Hwf. destruct o; intros [= <-]; simpl; intros Hr;
    unfold mark_timed_out, complete_request, cancel_request, fail_request;
    rewrite Hr; try destruct (completion_blocked (status r)) eqn:Eb; simpl;
    rewrite ?dget_dset_eq; try (eexists; split; [reflexivity | done]).
  exists r. split_and!; try done. by destruct (status r).
Qed.

Lemma terminal_op_requests o x s :
  terminal_op o = Some x -> dget x (requests s) = None -> dget x (requests (rt_apply o s)) = None.
Proof.
  destruct o; intros [= <-]; simpl; intros Hr;
    unfold mark_timed_out, complete_request, cancel_request, fail_request; by rewrite Hr.
Qed.

Lemma terminal_op_released o x s :
  wf s -> terminal_op o = Some x -> dget x (reservations (rt_apply o s)) = None.
Proof.
  intros Hwf Ho. destruct (terminal_op_shape o x s Ho) as (s' & -> & _ & _ & _ & Hwf').
  simpl. apply dget_ddel_eq, Hwf', Hwf.
Qed.

(** Ending a request frees capacity and never takes any. *)
Lemma terminal_op_decreases o x s :
  wf s -> terminal_op o = Some x ->
  (active_jobs (rt_apply o s) <= active_jobs s)%Z
  /\ (forall ln, active_jobs_for_lane ln (rt_apply o s) <= active_jobs_for_lane ln s)%Z
  /\ (queue_depth (rt_apply o s) <= queue_depth s)%Z.
Proof.
  intros Hwf Ho. split_and!.
  - destruct (terminal_op_shape o x s Ho) as (s' & Heq & Hres & Hw & Hc & _). rewrite Heq.
    rewrite active_jobs_release. unfold active_jobs, held. rewrite Hres, Hc, Hw.
    pose proof (weight_bound (fun r => active_status (status r)) x (requests s)).
    destruct (dmem x (reservations s)); simpl; lia.
  - intros ln. destruct (str_truthy ln) eqn:E; [|by rewrite !lane_jobs_falsy].
    destruct (terminal_op_shape o x s Ho) as (s' & Heq & Hres & Hw & Hc & _). rewrite Heq.
    rewrite lane_jobs_release by done. unfold active_jobs_for_lane. rewrite E. simpl.
    rewrite Hres, Hc.
    set (p := fun r => bool_decide (lane r = ln) && active_status (status r)).
    pose proof (weight_bound p x (requests s)).
    pose proof (weight_bound (fun l => bool_decide (l = ln)) x (reservations s)).
    assert (weight p x (requests s') = 0%Z) as ->; [|lia].
    unfold weight, p in *. destruct (dget x (requests s')) as [r|]; [|done].
    destruct (active_status (status r)); [done|]. by rewrite andb_false_r.
  - pose proof (frame_apply o s) as Hf. rewrite (terminal_op_target o x Ho) in Hf.
    rewrite (queue_depth_frame x s _ Hwf (wf_apply o s Hwf) Hf).
    pose proof (waiting_at_bound x s).
    assert (waiting_at x (rt_apply o s) = 0%Z) as ->; [|lia].
    rewrite waiting_at_spec by by apply wf_apply.
    destruct (dget x (requests s)) as [r|] eqn:Er.
    + destruct (terminal_op_record o x s r Hwf Ho Er) as (r' & -> & _ & Ht & _).
      rewrite bool_decide_eq_false_2; [done|]. by destruct (status r').
    + by rewrite (terminal_op_requests o x s Ho Er).
Qed.

(** ** Beginning a request *)

Definition started (target : RequestLifecycleState) : Prop := target = RUNNING \/ target = STREAMING.

Lemma started_active target : started target -> active_status target = true.
Proof. by intros [-> | ->]. Qed.

Lemma wf_mark_started target x s : started target -> wf s -> wf (mark_started target x s).
Proof. intros [-> | ->]; [apply (wf_apply (OpRunning x)) | apply (wf_apply (OpStreaming x))]. Qed.

Lemma frame_mark_started target x s : started target -> frame x s (mark_started target x s).
Proof. intros [-> | ->]; [apply (frame_apply (OpRunning x)) | apply (frame_apply (OpStreaming x))]. Qed.

(** The record [begin_request] makes. *)
Definition new_record (now : Q) (x mdl : string) (strm : bool) (up : pyval) (ln : option string)
    : RequestRecord :=
  mkRequestRecord x mdl strm (normalize_identifier up) ln ACCEPTED false (Some (new_token x)) now
    None None.

Lemma held_false_dget x s : held x s = false -> dget x (reservations s) = None.
Proof. unfold held, dmem. by destruct (dget x (reservations s)). Qed.

Section begin.
Context (now : Q) (x mdl : string) (strm : bool) (up : pyval) (ln : option string).
Context (s : RuntimeState) (Hwf : wf s).
Context (Hfresh : dget x (requests s) = None) (Hfree : held x s = false).

Let s1 := (begin_request now x mdl strm up ln s).2.

Lemma begin_facts :
  wf s1 /\ frame x s s1 /\ dget x (requests s1) = Some (new_record now x mdl strm up ln)
  /\ held x s1 = false /\ active_jobs s1 = (active_jobs s + 1)%Z
  /\ (forall l, str_truthy l = true ->
        active_jobs_for_lane l s1 = (active_jobs_for_lane l s + b2z (bool_decide (ln = l)))%Z).
Proof using All.
  split_and!.
  - exact (wf_apply (OpBegin now x mdl strm up ln) s Hwf).
  - exact (frame_apply (OpBegin now x mdl strm up ln) s).
  - apply dget_dset_eq.
  - exact Hfree.
  - unfold s1, begin_request. simpl. rewrite active_jobs_set_record. unfold weight.
    rewrite Hfresh. simpl. lia.
  - intros l Hl. unfold s1, begin_request. simpl. rewrite lane_jobs_set_record by done.
    unfold weight. rewrite Hfresh. simpl. rewrite andb_true_r. lia.
Qed.

(** A request that starts at once takes one slot, globally and in its lane. *)
Lemma begin_started_facts target (Ht : started target) :
  let s' := mark_started target x s1 in
  wf s' /\ frame x s s' /\ held x s' = false
  /\ dget x (requests s') = Some (rec_set_status target (new_record now x mdl strm up ln))
  /\ active_jobs s' = (active_jobs s + 1)%Z
  /\ (forall l, str_truthy l = true ->
        active_jobs_for_lane l s' = (active_jobs_for_lane l s + b2z (bool_decide (ln = l)))%Z)
  /\ queue_depth s' = queue_depth s.
Proof using All.
  destruct begin_facts as (Hw1 & Hf1 & Hr1 & Hh1 & Ha1 & Hl1). clearbody s1. cbv zeta.
  pose proof (wf_mark_started target x s1 Ht Hw1) as Hw.
  pose proof (frame_trans _ _ _ _ Hf1 (frame_mark_started target x s1 Ht)) as Hf.
  assert (Hshape : mark_started target x s1 = release_capacity x
    (set_requests (dset x (rec_set_status target (new_record now x mdl strm up ln)) (requests s1)) s1)).
  { unfold mark_started. by rewrite Hr1. }
  assert (Hr : dget x (requests (mark_started target x s1))
    = Some (rec_set_status target (new_record now x mdl strm up ln))).
  { rewrite Hshape. apply dget_dset_eq. }
  split_and!; try done.
  - rewrite Hshape. apply held_release. eapply wf_upd_record; eauto.
  - rewrite Hshape, active_jobs_release, active_jobs_set_record. unfold weight. rewrite Hr1.
    change (held x (set_requests _ s1)) with (held x s1). rewrite Hh1. simpl.
    rewrite (started_active target Ht). simpl. lia.
  - intros l Hl. rewrite Hshape, lane_jobs_release, lane_jobs_set_record by done. unfold weight.
    rewrite Hr1. simpl reservations. rewrite (held_false_dget x s1 Hh1). rewrite Hl1 by done. simpl.
    rewrite (started_active target Ht). lia.
  - rewrite (queue_depth_frame x s _ Hwf Hw Hf), !waiting_at_spec by done. rewrite Hfresh, Hr.
    simpl. rewrite bool_decide_eq_false_2 by (by destruct Ht as [-> | ->]). simpl. lia.
Qed.

(** A request that is queued takes no slot. *)
Lemma begin_queued_facts :
  let s' := mark_queued x s1 in
  wf s' /\ frame x s s' /\ held x s' = false
  /\ dget x (requests s') = Some (rec_set_status QUEUED (new_record now x mdl strm up ln))
  /\ active_jobs s' = active_jobs s
  /\ (forall l, str_truthy l = true -> active_jobs_for_lane l s' = active_jobs_for_lane l s)
  /\ queue_depth s' = (queue_depth s + 1)%Z.
Proof using All.
  destruct begin_facts as (Hw1 & Hf1 & Hr1 & Hh1 & Ha1 & Hl1). clearbody s1. cbv zeta.
  pose proof (wf_apply (OpQueued x) s1 Hw1) as Hw. simpl in Hw.
  pose proof (frame_trans _ _ _ _ Hf1 (frame_apply (OpQueued x) s1)) as Hf. simpl in Hf.
  assert (Hshape : mark_queued x s1 = bump total_queued
    (set_requests (dset x (rec_set_status QUEUED (new_record now x mdl strm up ln)) (requests s1)) s1)).
  { unfold mark_queued. by rewrite Hr1. }
  assert (Hr : dget x (requests (mark_queued x s1))
    = Some (rec_set_status QUEUED (new_record now x mdl strm up ln))).
  { rewrite Hshape. apply dget_dset_eq. }
  assert (Hh : held x (mark_queued x s1) = false) by (by rewrite Hshape).
  split_and!; try done.
  - rewrite Hshape, active_jobs_bump, active_jobs_set_record. unfold weight. rewrite Hr1. simpl. lia.
  - intros l Hl. rewrite Hshape.
    change (active_jobs_for_lane l (bump total_queued ?s0)) with (active_jobs_for_lane l s0).
    rewrite lane_jobs_set_record, Hl1 by done. unfold weight. rewrite Hr1. simpl.
    rewrite andb_true_r, andb_false_r. simpl. lia.
  - rewrite (queue_depth_frame x s _ Hwf Hw Hf), !waiting_at_spec by done.
    rewrite Hfresh, Hr, Hh. simpl. lia.
Qed.
End begin.

(** ** Granting a request *)

Lemma grant_facts x ln s :
  wf s -> held x s = false ->
  let s' := (reserve_capacity x ln s).2 in
  wf s' /\ frame x s s' /\ requests s' = requests s /\ dget x (reservations s') = Some ln
  /\ active_jobs s' = (active_jobs s + 1)%Z
  /\ (forall l, str_truthy l = true ->
        active_jobs_for_lane l s' = (active_jobs_for_lane l s + b2z (bool_decide (ln = l)))%Z)
  /\ (queue_depth s' <= queue_depth s)%Z.
Proof.
  intros Hwf Hh. cbv zeta.
  pose proof (wf_apply (OpReserve x ln) s Hwf) as Hw. simpl in Hw.
  pose proof (frame_apply (OpReserve x ln) s) as Hf. simpl in Hf.
  assert (Hshape : (reserve_capacity x ln s).2 = set_reservations (dset x ln (reservations s)) s).
  { unfold reserve_capacity. unfold held in Hh. by rewrite Hh. }
  split_and!; try done.
  - by rewrite Hshape.
  - rewrite Hshape. apply dget_dset_eq.
  - rewrite active_jobs_reserve, Hh. done.
  - intros l Hl. rewrite lane_jobs_reserve by done. by rewrite Hl.
  - rewrite (queue_depth_frame x s _ Hwf Hw Hf), !waiting_at_spec by done.
    rewrite held_reserve, bool_decide_eq_true_2, Hh by done. rewrite Hshape. simpl.
    destruct (dget x (requests s)); simpl; [|lia]. rewrite andb_false_r, andb_true_r. simpl.
    case_bool_decide; simpl; lia.
Qed.

(** ** Signalling a cancellation *)

(** Updating a record without touching its lane or status moves no count. *)
Lemma touch_facts x r rec s :
  wf s -> dget x (requests s) = Some r -> request_id rec = request_id r ->
  lane rec = lane r -> status rec = status r ->
  let s' := set_requests (dset x rec (requests s)) s in
  wf s' /\ frame x s s' /\ active_jobs s' = active_jobs s
  /\ (forall l, str_truthy l = true -> active_jobs_for_lane l s' = active_jobs_for_lane l s)
  /\ queue_depth s' = queue_depth s.
Proof.
  intros Hwf Hr Hid Hl Hs. cbv zeta.
  pose proof (wf_upd_record x r rec s Hwf Hr Hid) as Hw.
  assert (Hf : frame x s (set_requests (dset x rec (requests s)) s)).
  { intros id Hne. simpl. by rewrite dget_dset_ne. }
  split_and!; try done.
  - rewrite active_jobs_set_record. unfold weight. rewrite Hr, Hs. lia.
  - intros l Hlt. rewrite lane_jobs_set_record by done. unfold weight. rewrite Hr, Hl, Hs. lia.
  - rewrite (queue_depth_frame x s _ Hwf Hw Hf), !waiting_at_spec by done. simpl.
    rewrite Hr, dget_dset_eq, Hs.
    change (held x (set_requests _ s)) with (held x s). lia.
Qed.
