(* ===== verification/Scheduler.v ===== *)
(** * Scheduling policies over the queue ([scheduler.py])

    [choose_next] is FIFO by default; under [cache_aware_fifo] it may prefer a
    cache-ready request, and counts how often each older request is bypassed so
    that the oldest one runs after [max_bypass] of them.  The two settings come
    from the environment at every call, as in the source. *)

From S2P Require Import Prelude PyDict PyStr Config.

Inductive SchedulerPolicy := FIFO | CACHE_AWARE_FIFO.

Definition SchedulerPolicy_value (p : SchedulerPolicy) : string :=
  match p with FIFO => "fifo" | CACHE_AWARE_FIFO => "cache_aware_fifo" end.

Inductive SchedulerDecisionReason :=
| FIFO_OLDEST | CACHE_AFFINITY | FAIRNESS_FIFO | NO_ELIGIBLE_REQUEST | CAPACITY_UNAVAILABLE.

Definition SchedulerDecisionReason_value (r : SchedulerDecisionReason) : string :=
  match r with
  | FIFO_OLDEST => "fifo_oldest" | CACHE_AFFINITY => "cache_affinity"
  | FAIRNESS_FIFO => "fairness_fifo" | NO_ELIGIBLE_REQUEST => "no_eligible_request"
  | CAPACITY_UNAVAILABLE => "capacity_unavailable"
  end.

#[export] Instance SchedulerPolicy_eq_dec : EqDecision SchedulerPolicy.
Proof. solve_decision. Defined.

(** [SchedulerCandidate] *)
Record SchedulerCandidate := mkCandidate {
  c_request_id : string;
  c_queued_at : Q;
  c_model : option string;
  c_stream : bool;
  c_estimated_tokens : option Z;
  c_threadwake_cache_key : option string;
  c_threadwake_stable_prefix_hash : option string;
  c_threadwake_cache_ready : bool;
  c_bypass_count : Z;
}.

(** [SchedulerDecision] *)
Record SchedulerDecision := mkDecision {
  d_request_id : option string;
  d_policy : SchedulerPolicy;
  d_reason : SchedulerDecisionReason;
  d_eligible_count : Z;
}.

(** [Scheduler] *)
Record Scheduler := mkScheduler {
  last_decision : option SchedulerDecision;
  bypass_counts : list (string * Z);
  cache_affinity_candidates : Z;
  fairness_bypasses : Z;
}.

Definition new_scheduler : Scheduler := mkScheduler None [] 0 0.

Definition policy (env : environ) : SchedulerPolicy :=
  if String.eqb (get_scheduler_policy env) "cache_aware_fifo" then CACHE_AWARE_FIFO else FIFO.

Definition max_bypass (env : environ) : Z := get_scheduler_max_bypass env.

Definition set_last (d : SchedulerDecision) (s : Scheduler) : Scheduler :=
  mkScheduler (Some d) (bypass_counts s) (cache_affinity_candidates s) (fairness_bypasses s).

Definition record_decision (d : SchedulerDecision) (s : Scheduler)
    : SchedulerDecision * Scheduler := (d, set_last d s).

(** [len(candidates)] *)
Definition n_candidates (cs : list SchedulerCandidate) : Z := Z.of_nat (length cs).

(** [min(candidates, key=lambda c: c.queued_at)]; the list is not empty. *)
Definition oldest_of (c : SchedulerCandidate) (cs : list SchedulerCandidate) : SchedulerCandidate :=
  min_by c_queued_at c cs.

Definition choose_fifo (c : SchedulerCandidate) (cs : list SchedulerCandidate) (s : Scheduler)
    : SchedulerDecision * Scheduler :=
  let oldest := oldest_of c cs in
  record_decision (mkDecision (Some (c_request_id oldest)) FIFO FIFO_OLDEST (n_candidates (c :: cs))) s.

(** [self._bypass_counts[id] = self._bypass_counts.get(id, 0) + 1;
    self._fairness_bypasses += 1] *)
Definition count_bypass (s : Scheduler) (c : SchedulerCandidate) : Scheduler :=
  mkScheduler (last_decision s)
    (dset (c_request_id c) (dget_or (c_request_id c) 0%Z (bypass_counts s) + 1)%Z (bypass_counts s))
    (cache_affinity_candidates s) (fairness_bypasses s + 1).

(** The loop over the candidates older than the preferred one. *)
Definition bypass_older (ready : SchedulerCandidate) (cs : list SchedulerCandidate) (s : Scheduler)
    : Scheduler :=
  foldl (fun s c => if c_queued_at c <?q c_queued_at ready then count_bypass s c else s) s cs.

Definition choose_cache_aware (env : environ) (c : SchedulerCandidate)
    (cs : list SchedulerCandidate) (s : Scheduler) : SchedulerDecision * Scheduler :=
  let oldest := oldest_of c cs in
  let n := n_candidates (c :: cs) in
  let bypass_count := dget_or (c_request_id oldest) 0%Z (bypass_counts s) in
  if (max_bypass env <=? bypass_count)%Z then
    record_decision (mkDecision (Some (c_request_id oldest)) CACHE_AWARE_FIFO FAIRNESS_FIFO n) s
  else
    match List.find c_threadwake_cache_ready (c :: cs) with
    | None =>
        record_decision (mkDecision (Some (c_request_id oldest)) CACHE_AWARE_FIFO FIFO_OLDEST n) s
    | Some cache_ready =>
        if String.eqb (c_request_id cache_ready) (c_request_id oldest) then
          record_decision (mkDecision (Some (c_request_id oldest)) CACHE_AWARE_FIFO FIFO_OLDEST n) s
        else
          record_decision
            (mkDecision (Some (c_request_id cache_ready)) CACHE_AWARE_FIFO CACHE_AFFINITY n)
            (bypass_older cache_ready (c :: cs) s)
    end.

Definition choose_next (env : environ) (candidates : list SchedulerCandidate)
    (capacity_available : bool) (s : Scheduler) : SchedulerDecision * Scheduler :=
  if negb capacity_available then
    record_decision (mkDecision None (policy env) CAPACITY_UNAVAILABLE (n_candidates candidates)) s
  else
    match candidates with
    | [] => record_decision (mkDecision None (policy env) NO_ELIGIBLE_REQUEST 0) s
    | c :: cs =>
        let s := mkScheduler (last_decision s) (bypass_counts s)
                   (countb c_threadwake_cache_ready candidates) (fairness_bypasses s) in
        match policy env with
        | FIFO => choose_fifo c cs s
        | CACHE_AWARE_FIFO => choose_cache_aware env c cs s
        end
    end.

Definition remove_request (id : string) (s : Scheduler) : Scheduler :=
  mkScheduler (last_decision s) (ddel id (bypass_counts s)) (cache_affinity_candidates s)
    (fairness_bypasses s).

Definition build_snapshot (env : environ) (s : Scheduler) : list (string * pyval) :=
  let last := last_decision s in
  [("policy", PStr (SchedulerPolicy_value (policy env)));
   ("last_decision_reason",
     match last with Some d => PStr (SchedulerDecisionReason_value (d_reason d)) | None => PNone end);
   ("eligible_count", PInt (match last with Some d => d_eligible_count d | None => 0%Z end));
   ("cache_affinity_candidates", PInt (cache_affinity_candidates s));
   ("fairness_bypasses", PInt (fairness_bypasses s));
   ("max_bypass", PInt (max_bypass env))]%string.

(** ** Lemmas *)

Definition bypassed_count (id : string) (s : Scheduler) : Z := dget_or id 0%Z (bypass_counts s).

Definition counts_nonneg (s : Scheduler) : Prop := forall id, (0 <= bypassed_count id s)%Z.

Lemma bypassed_count_bypass s c id :
  bypassed_count id (count_bypass s c) =
  (bypassed_count id s + b2z (bool_decide (id = c_request_id c)))%Z.
Proof.
  unfold bypassed_count, count_bypass, dget_or. simpl. rewrite dget_dset.
  case_decide; case_bool_decide; subst; simpl; try done; lia.
Qed.

Lemma bypass_older_mono ready cs s id :
  (bypassed_count id s <= bypassed_count id (bypass_older ready cs s))%Z.
Proof.
  unfold bypass_older. revert s. induction cs as [|c cs IH]; intros s; simpl; [lia|].
  etransitivity; [|apply IH]. split_if; [|lia].
  rewrite bypassed_count_bypass. case_bool_decide; simpl; lia.
Qed.

(** The candidate that is older than the preferred one is charged a bypass. *)
Lemma bypass_older_counts ready cs s c :
  c ∈ cs -> (c_queued_at c < c_queued_at ready)%Q ->
  (bypassed_count (c_request_id c) s + 1 <=
   bypassed_count (c_request_id c) (bypass_older ready cs s))%Z.
Proof.
  intros Hin Hlt. revert s. induction cs as [|c' cs IH]; intros s; [by apply elem_of_nil in Hin|].
  unfold bypass_older in *. simpl. apply elem_of_cons in Hin as [<- | Hin].
  - apply Qltb_spec in Hlt. rewrite Hlt.
    etransitivity; [|apply bypass_older_mono].
    rewrite bypassed_count_bypass. rewrite bool_decide_eq_true_2 by done. simpl. lia.
  - specialize (IH Hin). etransitivity; [|apply IH]. split_if; [|lia].
    rewrite bypassed_count_bypass. case_bool_decide; simpl; lia.
Qed.

Lemma oldest_of_elem c cs : oldest_of c cs ∈ c :: cs.
Proof. apply min_by_elem. Qed.

Lemma oldest_of_le c cs x : x ∈ c :: cs -> (c_queued_at (oldest_of c cs) <= c_queued_at x)%Q.
Proof. apply min_by_le. Qed.

Lemma find_elem {A} (p : A -> bool) l x : List.find p l = Some x -> x ∈ l /\ p x = true.
Proof. intros H. apply List.find_some in H as [H1 H2]. by rewrite list_elem_of_In. Qed.

#[export] Hint Resolve oldest_of_elem oldest_of_le : whoosh.

Lemma min_by_split {A} (key : A -> Q) best l :
  exists l1 l2, best :: l = l1 ++ min_by key best l :: l2
    /\ (forall x, x ∈ l1 -> key (min_by key best l) < key x)%Q.
Proof.
  revert best. induction l as [|y l IH]; intros best; simpl.
  - exists [], []. split; [done | set_solver].
  - destruct (key y <?q key best) eqn:E; reflect_tests.
    + destruct (IH y) as (l1 & l2 & Heq & Hlt). exists (best :: l1), l2.
      rewrite Heq. split; [done|]. intros x [-> | Hx]%elem_of_cons; [|by apply Hlt].
      pose proof (min_by_le key y l y (list_elem_of_here _ _)). lra.
    + destruct (IH best) as (l1 & l2 & Heq & Hlt). destruct l1 as [|b l1]; injection Heq as Hb Hl.
      * exists [], (y :: l). rewrite <- Hb. split; [done | set_solver].
      * subst b. exists (best :: y :: l1), l2. simpl. rewrite <- Hl. split; [done|].
        intros x Hx. rewrite !elem_of_cons in Hx. destruct Hx as [-> | [-> | Hx]].
        -- apply Hlt. set_solver.
        -- pose proof (Hlt best (list_elem_of_here _ _)). lra.
        -- apply Hlt. set_solver.
Qed.

(** The decision without the state. *)
Definition decide_next env cs cap s : SchedulerDecision := (choose_next env cs cap s).1.

Lemma choose_next_request env c cs s :
  d_request_id (decide_next env (c :: cs) true s) = Some (c_request_id (oldest_of c cs))
  \/ exists ready, List.find c_threadwake_cache_ready (c :: cs) = Some ready
       /\ policy env = CACHE_AWARE_FIFO
       /\ (bypassed_count (c_request_id (oldest_of c cs)) s < max_bypass env)%Z
       /\ c_request_id ready <> c_request_id (oldest_of c cs)
       /\ d_request_id (decide_next env (c :: cs) true s) = Some (c_request_id ready)
       /\ bypass_counts (choose_next env (c :: cs) true s).2
          = bypass_counts (bypass_older ready (c :: cs)
              (mkScheduler (last_decision s) (bypass_counts s)
                 (countb c_threadwake_cache_ready (c :: cs)) (fairness_bypasses s))).
Proof.
  unfold decide_next, choose_next. cbn [negb].
  destruct (policy env) eqn:Ep; [by left|].
  unfold choose_cache_aware. split_if; [by left|].
  destruct (List.find c_threadwake_cache_ready (c :: cs)) as [ready|] eqn:Ef; [|by left].
  split_if; [by left|]. right. exists ready. reflect_tests. split_and!; try done.
  by apply String.eqb_neq.
Qed.

(** The scheduler only ever selects a request that is a candidate, and only
    with capacity; with capacity and at least one candidate it always selects
    one, so a free slot is never left idle. *)
Theorem choose_next_sound_and_progresses env cs cap s :
  (forall id, d_request_id (decide_next env cs cap s) = Some id ->
     cap = true /\ id ∈ map c_request_id cs)
  /\ (cap = true -> cs <> [] -> exists id, d_request_id (decide_next env cs cap s) = Some id)
  /\ d_eligible_count (decide_next env cs cap s) = Z.of_nat (length cs).
Proof.
  unfold decide_next. destruct cap; [|by split_and!].
  destruct cs as [|c cs]; [by split_and!|].
  destruct (choose_next_request env c cs s) as [Hd | (ready & Hf & _ & _ & _ & Hd & _)];
    unfold decide_next in *; rewrite Hd; split_and!; try (by eauto).
  - intros id [= <-]. split; [done|]. apply list_elem_of_fmap. eauto with whoosh.
  - unfold choose_next. cbn [negb]. destruct (policy env); [done|].
    unfold choose_cache_aware. repeat case_match; done.
  - intros id [= <-]. split; [done|]. apply find_elem in Hf as [Hf _].
    apply list_elem_of_fmap. eauto.
  - unfold choose_next. cbn [negb]. destruct (policy env); [done|].
    unfold choose_cache_aware. repeat case_match; done.
Qed.

(** Under FIFO the selected request is the oldest one, and among equally old
    ones the one closest to the front of the queue; the decision does not depend
    on the scheduler's history and charges no bypass. *)
Theorem fifo_selects_front_oldest env c cs s :
  policy env = FIFO ->
  exists l1 x l2, c :: cs = l1 ++ x :: l2
    /\ d_request_id (decide_next env (c :: cs) true s) = Some (c_request_id x)
    /\ (forall y, y ∈ l1 -> c_queued_at x < c_queued_at y)%Q
    /\ (forall y, y ∈ l2 -> c_queued_at x <= c_queued_at y)%Q
    /\ bypass_counts (choose_next env (c :: cs) true s).2 = bypass_counts s.
Proof.
  intros Hp. destruct (min_by_split c_queued_at c cs) as (l1 & l2 & Heq & Hlt).
  exists l1, (oldest_of c cs), l2. unfold decide_next, choose_next. rewrite Hp. simpl.
  split_and!; [done | done | done | | done].
  intros y Hy. apply oldest_of_le. rewrite Heq. set_solver.
Qed.

Lemma fifo_selects_front_oldest_witness :
  let c id t := mkCandidate id t None false None None None false 0 in
  policy [] = FIFO
  /\ d_request_id (decide_next [] [c "b"%string 2%Q; c "a"%string 1%Q; c "d"%string 1%Q] true new_scheduler)
     = Some "a"%string.
Proof.
  cbv zeta. split; [reflexivity|].
  edestruct (fifo_selects_front_oldest [] (mkCandidate "b" 2 None false None None None false 0)
    [mkCandidate "a" 1 None false None None None false 0;
     mkCandidate "d" 1 None false None None None false 0] new_scheduler)
    as (l1 & x & l2 & _ & Hd & _); [reflexivity|]. reflexivity.
Defined.

(** *** Bounded bypass *)

(** [id] has the smallest queue time of the candidates, and no other candidate
    shares it. *)
Definition strict_oldest (id : string) (cs : list SchedulerCandidate) : Prop :=
  exists c, c ∈ cs /\ c_request_id c = id
    /\ forall c', c' ∈ cs -> c_request_id c' <> id -> (c_queued_at c < c_queued_at c')%Q.

(** What happens to the scheduler while [id] waits: selections over whatever
    candidates are eligible at the time, and other requests leaving. *)
Inductive sched_event :=
| EChoose (cs : list SchedulerCandidate) (cap : bool)
| ERemove (id : string).

Definition sched_step (env : environ) (e : sched_event) (s : Scheduler) : Scheduler :=
  match e with
  | EChoose cs cap => (choose_next env cs cap s).2
  | ERemove id => remove_request id s
  end.

(** In event [e] from state [s], [id] was the strictly oldest candidate and
    another request was selected. *)
Definition overtaken (env : environ) (id : string) (e : sched_event) (s : Scheduler) : Prop :=
  match e with
  | EChoose cs cap =>
      strict_oldest id cs
      /\ exists other, d_request_id (decide_next env cs cap s) = Some other /\ other <> id
  | ERemove _ => False
  end.

(** A run of the scheduler with the number of times [id] was overtaken. *)
Inductive sched_run (env : environ) (id : string) : Scheduler -> Scheduler -> Z -> Prop :=
| run_nil s : sched_run env id s s 0
| run_overtaken s e s' n :
    overtaken env id e s -> e <> ERemove id ->
    sched_run env id (sched_step env e s) s' n -> sched_run env id s s' (n + 1)
| run_other s e s' n :
    ~ overtaken env id e s -> e <> ERemove id ->
    sched_run env id (sched_step env e s) s' n -> sched_run env id s s' n.

Lemma bypassed_count_choose_mono env cs cap s id :
  (bypassed_count id s <= bypassed_count id (choose_next env cs cap s).2)%Z.
Proof.
  destruct cap; [|simpl; reflexivity]. destruct cs as [|c cs]; [simpl; reflexivity|].
  unfold choose_next. cbn [negb].
  destruct (policy env); [simpl; reflexivity|].
  unfold choose_cache_aware.
  repeat (case_match; try (simpl; reflexivity)).
  simpl. unfold bypassed_count at 2. simpl.
  apply (bypass_older_mono _ (c :: cs) (mkScheduler (last_decision s) (bypass_counts s) _ _)).
Qed.

Lemma bypassed_count_remove_ne id id' s :
  id <> id' -> bypassed_count id (remove_request id' s) = bypassed_count id s.
Proof. intros H. unfold bypassed_count, dget_or. simpl. by rewrite dget_ddel_ne. Qed.

Lemma sched_step_mono env id e s :
  e <> ERemove id -> (bypassed_count id s <= bypassed_count id (sched_step env e s))%Z.
Proof.
  destruct e as [cs cap|id']; simpl; intros Hne.
  - apply bypassed_count_choose_mono.
  - rewrite bypassed_count_remove_ne by congruence. lia.
Qed.

(** Overtaking happens below the limit, and is charged. *)
Lemma overtaken_charged env id e s :
  overtaken env id e s ->
  (bypassed_count id s < max_bypass env)%Z
  /\ (bypassed_count id s + 1 <= bypassed_count id (sched_step env e s))%Z.
Proof.
  destruct e as [cs cap|]; [|done]. simpl.
  intros [(c0 & Hc0 & Hid & Hold) (other & Hd & Hne)].
  destruct cap; [|discriminate Hd]. destruct cs as [|c cs]; [discriminate Hd|].
  assert (Ho : c_request_id (oldest_of c cs) = id).
  { destruct (decide (c_request_id (oldest_of c cs) = id)) as [|Hn]; [done|].
    pose proof (Hold _ (oldest_of_elem c cs) Hn). pose proof (oldest_of_le c cs c0 Hc0). lra. }
  destruct (choose_next_request env c cs s) as [Hd' | (ready & Hf & _ & Hlt & Hne' & Hd' & Hb)];
    rewrite Hd' in Hd; [congruence|]. rewrite Ho in Hlt, Hne'. subst id. split; [done|].
  unfold bypassed_count at 2. rewrite Hb.
  apply (bypass_older_counts ready (c :: cs) (mkScheduler _ (bypass_counts s) _ _) c0);
    [done|]. apply Hold; [by apply find_elem in Hf as [? _] | congruence].
Qed.

(** C33: Fairness. However the queue evolves, whichever subsets of it are
    eligible and whatever the cache state, a request that stays queued is
    overtaken while it is the strictly oldest candidate at most [max_bypass]
    times.  (The strictness is needed: an equally old request overtakes without
    being charged.) *)
Theorem bounded_bypass env id s s' n :
  counts_nonneg s -> sched_run env id s s' n -> (n <= max_bypass env)%Z.
Proof.
  intros Hnn Hrun.
  assert (H : n = 0%Z \/ (n <= max_bypass env - bypassed_count id s)%Z).
  { clear Hnn. induction Hrun as [s|s e s' n Hov Hne _ IH|s e s' n Hno Hne _ IH].
    - by left.
    - right. destruct (overtaken_charged env id e s Hov) as [H1 H2].
      destruct IH as [-> | IH]; lia.
    - destruct IH as [-> | IH]; [by left|]. right.
      pose proof (sched_step_mono env id e s Hne). lia. }
  specialize (Hnn id).
  destruct H as [-> | H]; [|lia].
  unfold max_bypass, get_scheduler_max_bypass. lia.
Qed.

Lemma bounded_bypass_witness :
  let env := [("WHOOSHD_SCHEDULER_POLICY", "cache_aware_fifo")]%string in
  let a := mkCandidate "a" 1 None false None None None false 0 in
  let b := mkCandidate "b" 2 None false None None None true 0 in
  let s1 := (choose_next env [a; b] true new_scheduler).2 in
  sched_run env "a" new_scheduler s1 1 /\ (1 <= max_bypass env)%Z.
Proof.
  cbv zeta.
  match goal with |- ?R /\ _ => assert (Hr : R) end.
  { apply (run_overtaken _ _ _ (EChoose
      [mkCandidate "a" 1 None false None None None false 0;
       mkCandidate "b" 2 None false None None None true 0] true) _ 0); [|done | apply run_nil].
    split.
    - eexists. split; [apply list_elem_of_here|]. split; [done|].
      intros c' [-> | [-> | []%elem_of_nil]%elem_of_cons]%elem_of_cons Hne; [done | reflexivity].
    - exists "b"%string. split; [reflexivity | done]. }
  split; [exact Hr|].
  refine (bounded_bypass _ _ _ _ _ _ Hr). intros id. reflexivity || (unfold bypassed_count; simpl; lia).
Defined.
