(* ===== verification/Batching.v ===== *)
(** * Batch feasibility analysis ([batching.py], lines 22-249)

    Groups queued candidates greedily: the first remaining candidate anchors a
    group, and compatible later ones join it up to [max_group_size].  The inner
    loop records the indices to remove and pops them in reverse order, as the
    source does; [greedy] is the reference definition it is proved equal to.
    The group ids ([uuid4]) are an argument, by group position. *)

From S2P Require Import Prelude.

Inductive BatchCapability := BC_UNSUPPORTED | BC_ANALYSIS_ONLY.

Definition BatchCapability_value (c : BatchCapability) : string :=
  match c with BC_UNSUPPORTED => "unsupported" | BC_ANALYSIS_ONLY => "analysis_only" end.

Inductive BatchIncompatibilityReason :=
| DIFFERENT_MODEL | DIFFERENT_BACKEND | STREAMING_UNSUPPORTED | VISION_UNSUPPORTED
| SAMPLING_MISMATCH | TOKEN_BUDGET_EXCEEDED | BACKEND_UNSUPPORTED.

Record BatchCandidate := mkBatchCandidate {
  bc_request_id : string;
  bc_queued_at : Q;
  bc_model : string;
  bc_backend : option string;
  bc_stream : bool;
  bc_estimated_prompt_tokens : option Z;
  bc_max_tokens : option Z;
  bc_sampling_class : option string;
  bc_has_image : bool;
  bc_threadwake_stable_prefix_hash : option string;
  bc_threadwake_cache_ready : bool;
}.

Record BatchGroup := mkBatchGroup {
  bg_group_id : string;
  bg_request_ids : list string;
  bg_model : string;
  bg_backend : option string;
  bg_eligible : bool;
  bg_reasons : list BatchIncompatibilityReason;
  bg_estimated_total_tokens : option Z;
}.

Record BatchAnalysis := mkBatchAnalysis {
  ba_enabled : bool;
  ba_capability : BatchCapability;
  ba_candidate_count : Z;
  ba_group_count : Z;
  ba_eligible_group_count : Z;
  ba_groups : list BatchGroup;
  ba_max_group_size : Z;
  ba_max_total_tokens : Z;
}.

(** [BatchAnalyzer] *)
Record BatchAnalyzer := mkBatchAnalyzer { max_group_size : Z; max_total_tokens : Z }.

Definition check_compatibility (a b : BatchCandidate) : list BatchIncompatibilityReason :=
  if negb (String.eqb (bc_model a) (bc_model b)) then [DIFFERENT_MODEL]
  else if negb (bool_decide (bc_backend a = bc_backend b)) then [DIFFERENT_BACKEND]
  else
    (if bc_stream a || bc_stream b then [STREAMING_UNSUPPORTED] else [])
    ++ (if bc_has_image a || bc_has_image b then [VISION_UNSUPPORTED] else [])
    ++ (if negb (bool_decide (bc_sampling_class a = bc_sampling_class b))
        then [SAMPLING_MISMATCH] else []).

(** The [for i, other in enumerate(remaining)] loop: [compatible] and
    [to_remove] as they grow. *)
Fixpoint scan (limit : Z) (anchor : BatchCandidate) (compatible : list BatchCandidate)
    (to_remove : list nat) (i : nat) (remaining : list BatchCandidate)
    : list BatchCandidate * list nat :=
  match remaining with
  | [] => (compatible, to_remove)
  | other :: rest =>
      if (limit <=? Z.of_nat (length compatible))%Z then (compatible, to_remove)
      else match check_compatibility anchor other with
           | [] => scan limit anchor (compatible ++ [other]) (to_remove ++ [i]) (S i) rest
           | _ => scan limit anchor compatible to_remove (S i) rest
           end
  end.

(** [for i in reversed(to_remove): remaining.pop(i)] *)
Definition pop_all (to_remove : list nat) (remaining : list BatchCandidate)
    : list BatchCandidate :=
  foldl (fun l i => delete i l) remaining (reverse to_remove).

(** [x or 0] *)
Definition or_zero (o : option Z) : Z := default 0%Z o.

Definition token_sum (compatible : list BatchCandidate) : Z :=
  sumZ (map (fun c => (or_zero (bc_estimated_prompt_tokens c) + or_zero (bc_max_tokens c))%Z)
          compatible).

Definition build_group (self : BatchAnalyzer) (gid : string) (anchor : BatchCandidate)
    (compatible : list BatchCandidate) : BatchGroup :=
  let request_ids := map bc_request_id compatible in
  let s := token_sum compatible in
  let total_tokens := if (s =? 0)%Z then None else Some s in
  let eligible := (1 <? Z.of_nat (length compatible))%Z in
  let group_reasons := if negb eligible then [TOKEN_BUDGET_EXCEEDED] else [] in
  mkBatchGroup gid request_ids (bc_model anchor) (bc_backend anchor)
    (eligible && (or_zero total_tokens <=? max_total_tokens self)%Z)
    group_reasons total_tokens.

(** The [while remaining] loop, on [fuel]; each pass takes at least the anchor,
    so the number of candidates is enough.  Returns each group with the
    candidates it was built from. *)
Fixpoint group_loop (self : BatchAnalyzer) (gid : nat -> string) (fuel k : nat)
    (remaining : list BatchCandidate) : list (list BatchCandidate * BatchGroup) :=
  match fuel, remaining with
  | S fuel, anchor :: remaining =>
      let '(compatible, to_remove) := scan (max_group_size self) anchor [anchor] [] 0 remaining in
      (compatible, build_group self (gid k) anchor compatible)
        :: group_loop self gid fuel (S k) (pop_all to_remove remaining)
  | _, _ => []
  end.

Definition grouped (self : BatchAnalyzer) (gid : nat -> string) (candidates : list BatchCandidate)
    : list (list BatchCandidate * BatchGroup) :=
  group_loop self gid (length candidates) 0 candidates.

Definition analyze (self : BatchAnalyzer) (gid : nat -> string)
    (candidates : list BatchCandidate) (enabled : bool) : BatchAnalysis :=
  if negb enabled || (match candidates with [] => true | _ => false end) then
    mkBatchAnalysis enabled BC_ANALYSIS_ONLY (Z.of_nat (length candidates)) 0 0 []
      (max_group_size self) (max_total_tokens self)
  else
    let groups := map snd (grouped self gid candidates) in
    mkBatchAnalysis enabled BC_ANALYSIS_ONLY (Z.of_nat (length candidates))
      (Z.of_nat (length groups)) (countb bg_eligible groups) groups
      (max_group_size self) (max_total_tokens self).

Definition build_snapshot (self : BatchAnalyzer) (analysis : option BatchAnalysis)
    : list (string * pyval) :=
  match analysis with
  | None =>
      [("enabled", PBool false); ("capability", PStr (BatchCapability_value BC_ANALYSIS_ONLY));
       ("candidate_count", PInt 0); ("group_count", PInt 0); ("eligible_group_count", PInt 0);
       ("max_group_size", PInt (max_group_size self))]%string
  | Some a =>
      [("enabled", PBool (ba_enabled a)); ("capability", PStr (BatchCapability_value (ba_capability a)));
       ("candidate_count", PInt (ba_candidate_count a)); ("group_count", PInt (ba_group_count a));
       ("eligible_group_count", PInt (ba_eligible_group_count a));
       ("max_group_size", PInt (ba_max_group_size a))]%string
  end.

(** ** The reference definition of one pass *)

Fixpoint greedy (limit : Z) (anchor : BatchCandidate) (n : Z) (remaining : list BatchCandidate)
    : list BatchCandidate * list BatchCandidate :=
  match remaining with
  | [] => ([], [])
  | other :: rest =>
      if (limit <=? n)%Z then ([], remaining)
      else match check_compatibility anchor other with
           | [] => let '(c, r) := greedy limit anchor (n + 1) rest in (other :: c, r)
           | _ => let '(c, r) := greedy limit anchor n rest in (c, other :: r)
           end
  end.

(** The indices [scan] collects, relative to the start of [remaining]. *)
Lemma scan_greedy limit anchor remaining compatible to_remove i chosen rest :
  greedy limit anchor (Z.of_nat (length compatible)) remaining = (chosen, rest) ->
  exists idx, scan limit anchor compatible to_remove i remaining
              = (compatible ++ chosen, to_remove ++ map (Nat.add i) idx)
    /\ forall pre, length pre = i ->
         pop_all (map (Nat.add i) idx) (pre ++ remaining) = pre ++ rest.
Proof.
  revert compatible to_remove i chosen rest.
  induction remaining as [|other remaining IH]; intros compatible to_remove i chosen rest; simpl.
  - intros [= <- <-]. exists []. simpl. by rewrite !app_nil_r.
  - destruct (limit <=? Z.of_nat (length compatible))%Z.
    { intros [= <- <-]. exists []. simpl. by rewrite !app_nil_r. }
    destruct (check_compatibility anchor other) as [|r rs].
    + destruct (greedy limit anchor (Z.of_nat (length compatible) + 1) remaining) as [c r] eqn:Eg.
      intros [= <- <-].
      destruct (IH (compatible ++ [other]) (to_remove ++ [i]) (S i) c r) as (idx & Hscan & Hpop).
      { rewrite length_app. simpl. rewrite <- Eg. f_equal. lia. }
      exists (0 :: map S idx). rewrite Hscan. simpl. rewrite Nat.add_0_r, <- !app_assoc. simpl.
      split; [do 3 f_equal; rewrite map_map; apply map_ext; intros; lia|].
      intros pre Hpre. unfold pop_all. rewrite reverse_cons, foldl_app. simpl.
      specialize (Hpop (pre ++ [other]) ltac:(rewrite length_app; simpl; lia)). unfold pop_all in Hpop. rewrite <- !app_assoc in Hpop.
      rewrite map_map. erewrite (map_ext _ (Nat.add (S i))) by (intros; lia).
      change ([other] ++ remaining) with (other :: remaining) in Hpop.
      rewrite Hpop. simpl. rewrite <- Hpre. rewrite delete_middle. done.
    + destruct (greedy limit anchor (Z.of_nat (length compatible)) remaining) as [c r'] eqn:Eg.
      intros [= <- <-].
      destruct (IH compatible to_remove (S i) c r' Eg) as (idx & Hscan & Hpop).
      exists (map S idx). rewrite Hscan, map_map.
      rewrite (map_ext (fun x => i + S x) (Nat.add (S i))) by (intros; lia).
      split; [done|]. intros pre Hpre.
      specialize (Hpop (pre ++ [other]) ltac:(rewrite length_app; simpl; lia)). rewrite <- !app_assoc in Hpop. exact Hpop.
Qed.

Lemma pass_greedy limit anchor remaining :
  let '(compatible, to_remove) := scan limit anchor [anchor] [] 0 remaining in
  let '(chosen, rest) := greedy limit anchor 1 remaining in
  compatible = anchor :: chosen /\ pop_all to_remove remaining = rest.
Proof.
  destruct (greedy limit anchor 1 remaining) as [chosen rest] eqn:Eg.
  destruct (scan_greedy limit anchor remaining [anchor] [] 0 chosen rest Eg)
    as (idx & -> & Hpop).
  split; [done|]. simpl. by apply (Hpop []).
Qed.

Lemma greedy_perm limit anchor n remaining chosen rest :
  greedy limit anchor n remaining = (chosen, rest) -> remaining ≡ₚ chosen ++ rest.
Proof.
  revert n chosen rest. induction remaining as [|o rem IH]; intros n chosen rest; simpl.
  - by intros [= <- <-].
  - case_match; [by intros [= <- <-]|].
    case_match; destruct (greedy _ _ _ rem) as [c r] eqn:Eg; intros [= <- <-].
    + simpl. by rewrite (IH _ _ _ Eg).
    + rewrite (IH _ _ _ Eg). by rewrite Permutation_middle.
Qed.

Lemma greedy_chosen limit anchor n remaining chosen rest :
  greedy limit anchor n remaining = (chosen, rest) ->
  Forall (fun c => check_compatibility anchor c = []) chosen
  /\ (Z.of_nat (length chosen) <= Z.max 0 (limit - n))%Z.
Proof.
  revert n chosen rest. induction remaining as [|o rem IH]; intros n chosen rest; simpl.
  - intros [= <- <-]. split; [constructor | simpl; lia].
  - case_match; [intros [= <- <-]; split; [constructor | simpl; lia]|]. reflect_tests.
    case_match eqn:Ec; destruct (greedy _ _ _ rem) as [c r] eqn:Eg; intros [= <- <-];
      destruct (IH _ _ _ Eg) as [H1 H2]; [|done].
    split; [by constructor | simpl; lia].
Qed.

(** ** Properties of the analysis *)

Lemma check_compatibility_nil a b :
  check_compatibility a b = [] ->
  bc_model b = bc_model a /\ bc_backend b = bc_backend a
  /\ bc_sampling_class b = bc_sampling_class a
  /\ bc_stream a = false /\ bc_stream b = false
  /\ bc_has_image a = false /\ bc_has_image b = false.
Proof.
  unfold check_compatibility. destruct (String.eqb_spec (bc_model a) (bc_model b)); [|done]. simpl.
  case_bool_decide; [|done]. simpl. case_bool_decide;
    destruct (bc_stream a), (bc_stream b), (bc_has_image a), (bc_has_image b); try done.
Qed.

(** What [group_loop] promises of each group and the candidates behind it. *)
Definition group_ok (self : BatchAnalyzer) (p : list BatchCandidate * BatchGroup) : Prop :=
  exists gid anchor chosen,
    p = (anchor :: chosen, build_group self gid anchor (anchor :: chosen))
    /\ Forall (fun c => check_compatibility anchor c = []) chosen
    /\ (Z.of_nat (length chosen) <= Z.max 0 (max_group_size self - 1))%Z.

Lemma group_loop_spec self gid fuel k remaining :
  length remaining <= fuel ->
  concat (map fst (group_loop self gid fuel k remaining)) ≡ₚ remaining
  /\ Forall (group_ok self) (group_loop self gid fuel k remaining).
Proof.
  revert k remaining. induction fuel as [|fuel IH]; intros k remaining Hlen.
  { destruct remaining; simpl in *; [by split | lia]. }
  destruct remaining as [|anchor remaining]; [by split|].
  cbn [group_loop]. pose proof (pass_greedy (max_group_size self) anchor remaining) as Hpass.
  destruct (scan _ anchor [anchor] [] 0 remaining) as [compatible to_remove].
  destruct (greedy (max_group_size self) anchor 1 remaining) as [chosen rest] eqn:Eg.
  destruct Hpass as [-> Hrest]. rewrite Hrest.
  pose proof (greedy_perm _ _ _ _ _ _ Eg) as Hperm.
  destruct (greedy_chosen _ _ _ _ _ _ Eg) as [Hc Hl].
  destruct (IH (S k) rest) as [H1 H2].
  { apply Permutation_length in Hperm. rewrite length_app in Hperm. simpl in Hlen. lia. }
  split.
  - simpl. by rewrite H1, Hperm.
  - constructor; [|done]. by exists (gid k), anchor, chosen.
Qed.

(** Batch analysis is a partition of the queue: every candidate is in
    exactly one group, none is invented or lost (whatever the group size limit),
    and the loop terminates within one pass per candidate. *)
Theorem analysis_partitions_candidates self gid candidates :
  concat (map bg_request_ids (ba_groups (analyze self gid candidates true)))
  ≡ₚ map bc_request_id candidates.
Proof.
  unfold analyze. destruct candidates as [|c cs]; [done|]. cbn [negb orb ba_groups].
  destruct (group_loop_spec self gid (length (c :: cs)) 0 (c :: cs)) as [Hp Hok]; [done|].
  fold (grouped self gid (c :: cs)) in Hp, Hok.
  transitivity (map bc_request_id (concat (map fst (grouped self gid (c :: cs)))));
    [|by apply Permutation_map].
  clear Hp. induction Hok as [|p l (g & a & ch & -> & _) _ IH]; [done|].
  simpl. rewrite map_app. by rewrite IH.
Qed.

(** Every group is homogeneous (one model, backend and sampling class, and
    when it has two members no streaming or image request), no larger than the
    limit, and marked eligible exactly when it has at least two members whose
    token estimate fits the budget. *)
Theorem analysis_groups_sound self gid candidates g :
  g ∈ ba_groups (analyze self gid candidates true) ->
  exists members, bg_request_ids g = map bc_request_id members
    /\ members ⊆ candidates
    /\ (1 <= Z.of_nat (length members) <= Z.max 1 (max_group_size self))%Z
    /\ Forall (fun c => bc_model c = bg_model g /\ bc_backend c = bg_backend g) members
    /\ (2 <= length members ->
        Forall (fun c => bc_stream c = false /\ bc_has_image c = false) members)
    /\ (forall a b, a ∈ members -> b ∈ members -> bc_sampling_class a = bc_sampling_class b)
    /\ (bg_eligible g = true <->
        2 <= length members /\ (token_sum members <= max_total_tokens self)%Z).
Proof.
  unfold analyze. destruct candidates as [|c cs]; [simpl; by intros ?%elem_of_nil|].
  cbn [negb orb ba_groups].
  destruct (group_loop_spec self gid (length (c :: cs)) 0 (c :: cs)) as [Hp Hok]; [done|].
  intros (p & -> & Hin)%list_elem_of_fmap. unfold grouped in Hin.
  rewrite Forall_forall in Hok. destruct (Hok p Hin) as (g & a & ch & Heq & Hch & Hlen).
  assert (Hc : forall x, x ∈ ch -> bc_model x = bc_model a /\ bc_backend x = bc_backend a
    /\ bc_sampling_class x = bc_sampling_class a
    /\ bc_stream a = false /\ bc_stream x = false
    /\ bc_has_image a = false /\ bc_has_image x = false).
  { intros x Hx. rewrite Forall_forall in Hch. by apply check_compatibility_nil, Hch. }
  rewrite Heq. exists (a :: ch). cbn [fst snd build_group bg_request_ids bg_model bg_backend bg_eligible].
  split_and!; try (simpl; lia).
  - done.
  - intros x Hx. rewrite <- Hp. apply list_elem_of_In, in_concat.
    exists (a :: ch). rewrite <- !list_elem_of_In. split; [|done].
    apply list_elem_of_fmap. exists p. by rewrite Heq in *.
  - apply Forall_cons. split; [done|]. apply Forall_forall. intros x Hx. apply Hc in Hx. tauto.
  - simpl. intros H2. apply Forall_cons. split.
    + destruct ch as [|y ch]; [simpl in H2; lia|].
      destruct (Hc y (list_elem_of_here _ _)) as (_ & _ & _ & ? & _ & ? & _). done.
    + apply Forall_forall. intros x Hx. apply Hc in Hx. tauto.
  - assert (Hs : forall x, x ∈ a :: ch -> bc_sampling_class x = bc_sampling_class a).
    { intros x [-> | Hx]%elem_of_cons; [done|]. apply Hc in Hx. tauto. }
    intros x y Hx Hy. by rewrite (Hs x), (Hs y).
  - rewrite andb_true_iff, Z.ltb_lt, Z.leb_le.
    replace (or_zero (if (token_sum (a :: ch) =? 0)%Z then None else Some (token_sum (a :: ch))))
      with (token_sum (a :: ch)) by (case_match; reflect_tests; done).
    split; (intros [? ?]; split; [lia | done]).
Qed.

Lemma analysis_groups_sound_witness :
  let c id m := mkBatchCandidate id 0 m None false (Some 10%Z) (Some 5%Z) None false None false in
  let self := mkBatchAnalyzer 2 40 in
  let cs := [c "a" "m"; c "b" "n"; c "d" "m"; c "e" "m"]%string in
  exists g members, g ∈ ba_groups (analyze self pretty cs true)
    /\ bg_request_ids g = map bc_request_id members /\ length members = 2
    /\ bg_eligible g = true.
Proof.
  cbv zeta.
  set (cs := [_; _; _; _]). set (self := mkBatchAnalyzer 2 40).
  pose (g := hd (mkBatchGroup "" [] "" None false [] None) (ba_groups (analyze self pretty cs true))).
  assert (Hg : g ∈ ba_groups (analyze self pretty cs true)) by apply list_elem_of_here.
  destruct (analysis_groups_sound self pretty cs g Hg) as (members & Hids & _ & _ & _ & _ & _ & He).
  exists g, members. split; [exact Hg|]. split; [exact Hids|].
  assert (Hlen : length (bg_request_ids g) = 2) by reflexivity.
  rewrite Hids, length_map in Hlen. split; [exact Hlen | reflexivity].
Defined.

(** A group that is over the token budget is ineligible without any reason,
    and a singleton group is reported as [token_budget_exceeded] however small it
    is: [reasons] does not explain ineligibility. *)
Theorem ineligible_reasons_misreport self gid a b ch :
  bg_reasons (build_group self gid a [a]) = [TOKEN_BUDGET_EXCEEDED]
  /\ bg_reasons (build_group self gid a (a :: b :: ch)) = [].
Proof.
  split; [done|]. simpl.
  assert ((1 <? Z.of_nat (S (S (length ch))))%Z = true) as -> by (apply Z.ltb_lt; lia). done.
Qed.
