(* ===== verification/Queue.v ===== *)
(** * The bounded request queue ([queue.py])

    The deque holds entries by value; an entry that a grant removes is still
    referenced by the coroutine waiting on it, so the objects marked granted are
    kept in [granted_entries].  A call that runs without an [await]
    ([select_and_dequeue], one iteration of [wait_for_execution]) is one
    function, so its atomicity with respect to other coroutines is that of the
    source; [time.monotonic()] is read once per such call ([now]).  The runtime
    is an arbitrary ledger [R]; the callables the handler passes
    ([capacity_available], [entry_eligible], [reserve]) act on it. *)

From S2P Require Import Prelude PyDict PyStr Config Correlation Ledger Scheduler Batching.

(** [asyncio.Future] of a batch result: pending, or resolved. *)
Inductive Future := Pending | Resolved (v : option pyval).

(** [QueueEntry].  [q_cache_ready] is [getattr(e, "cache_ready", False)]: the
    dataclass declares no such attribute, so it is [None] unless code outside
    the module sets it. *)
Record QueueEntry := mkEntry {
  q_request_id : string;
  q_model : string;
  q_stream : bool;
  q_enqueued_at : Q;
  q_upstream_request_id : option string;
  q_batch_claimed : bool;
  q_batch_result_future : option Future;
  q_granted : bool;
  q_lane : option string;
  q_lane_max_concurrent : option Z;
  q_deadline_at : option Q;
  q_cache_ready : option bool;
}.

(** [QueueEntry(...)] with [__post_init__] *)
Definition new_entry (id mdl : string) (strm : bool) (now : Q) (upstream : pyval)
    (ln : option string) (lane_max : option Z) : QueueEntry :=
  mkEntry id mdl strm now (normalize_identifier upstream) false None false ln lane_max None None.

Definition mark_granted (e : QueueEntry) : QueueEntry :=
  mkEntry (q_request_id e) (q_model e) (q_stream e) (q_enqueued_at e) (q_upstream_request_id e)
    (q_batch_claimed e) (q_batch_result_future e) true (q_lane e) (q_lane_max_concurrent e)
    (q_deadline_at e) (q_cache_ready e).

Definition set_deadline (d : Q) (e : QueueEntry) : QueueEntry :=
  mkEntry (q_request_id e) (q_model e) (q_stream e) (q_enqueued_at e) (q_upstream_request_id e)
    (q_batch_claimed e) (q_batch_result_future e) (q_granted e) (q_lane e)
    (q_lane_max_concurrent e) (Some d) (q_cache_ready e).

Definition set_batch (claimed : bool) (f : option Future) (e : QueueEntry) : QueueEntry :=
  mkEntry (q_request_id e) (q_model e) (q_stream e) (q_enqueued_at e) (q_upstream_request_id e)
    claimed f (q_granted e) (q_lane e) (q_lane_max_concurrent e) (q_deadline_at e)
    (q_cache_ready e).

(** [RequestQueue] *)
Record RequestQueue := mkQueue {
  deque : list QueueEntry;
  capacity_event : bool;
  scheduler : Scheduler;
  granted_entries : list QueueEntry;
}.

Definition new_queue : RequestQueue := mkQueue [] false new_scheduler [].

Definition set_scheduler (s : Scheduler) (q : RequestQueue) : RequestQueue :=
  mkQueue (deque q) (capacity_event q) s (granted_entries q).

Definition set_deque (d : list QueueEntry) (q : RequestQueue) : RequestQueue :=
  mkQueue d (capacity_event q) (scheduler q) (granted_entries q).

Definition add_granted (e : QueueEntry) (q : RequestQueue) : RequestQueue :=
  mkQueue (deque q) (capacity_event q) (scheduler q) (granted_entries q ++ [e]).

Definition depth (q : RequestQueue) : Z := Z.of_nat (length (deque q)).
Definition enabled (env : environ) : bool := get_enable_queue env.
Definition max_depth (env : environ) : Z := get_max_queue_depth env.
Definition poll_interval_s (env : environ) : Q := (inject_Z (get_queue_poll_interval_ms env) / 1000)%Q.
Definition is_full (env : environ) (q : RequestQueue) : bool := (max_depth env <=? depth q)%Z.

Definition candidate_of (s : Scheduler) (e : QueueEntry) : SchedulerCandidate :=
  mkCandidate (q_request_id e) (q_enqueued_at e) (Some (q_model e)) (q_stream e) None None None
    (default false (q_cache_ready e)) (dget_or (q_request_id e) 0%Z (bypass_counts s)).

Definition build_candidates (q : RequestQueue) : list SchedulerCandidate :=
  map (candidate_of (scheduler q)) (deque q).

Definition batch_candidate_of (e : QueueEntry) : BatchCandidate :=
  mkBatchCandidate (q_request_id e) (q_enqueued_at e) (q_model e) None (q_stream e) None None None
    false None false.

Definition build_batch_candidates (q : RequestQueue) : list BatchCandidate :=
  map batch_candidate_of (deque q).

(** ** Batch groups and claiming *)

Definition find_batch_group (selected_request_id : string) (analyzer : BatchAnalyzer)
    (gid : nat -> string) (is_enabled : bool) (q : RequestQueue) : option (list QueueEntry) :=
  if negb is_enabled then None
  else
    let analysis := analyze analyzer gid (build_batch_candidates q) is_enabled in
    (fix go (groups : list BatchGroup) : option (list QueueEntry) :=
       match groups with
       | [] => None
       | g :: gs =>
           if bg_eligible g && bool_decide (selected_request_id ∈ bg_request_ids g) then
             let entries := List.filter
               (fun e => bool_decide (q_request_id e ∈ bg_request_ids g)) (deque q) in
             if 2 <=? length entries then Some entries else go gs
           else go gs
       end) (ba_groups analysis).

(** Returns the entries as the call leaves them and the number of futures made. *)
Definition claim_batch_entries (entries : list QueueEntry) : list QueueEntry * nat :=
  (map (fun e => if q_batch_claimed e then e else set_batch true (Some Pending) e) entries,
   length (List.filter (fun e => negb (q_batch_claimed e)) entries)).

Definition resolve_batch_results (entries : list QueueEntry) (results : list (string * pyval))
    : list QueueEntry :=
  let result_map := foldl (fun d '(rid, resp) => dset rid resp d) [] results in
  map (fun e => match q_batch_result_future e with
                | Some Pending =>
                    set_batch (q_batch_claimed e)
                      (Some (Resolved (dget (q_request_id e) result_map))) e
                | _ => e
                end) entries.

(** ** Queue operations *)

Definition is_expired (now : Q) (entry : option QueueEntry) : bool :=
  match entry with
  | None => false
  | Some e => match q_deadline_at e with None => false | Some d => d <=?q now end
  end.

(** The first entry with the id, and the deque without it. *)
Fixpoint take_entry (id : string) (d : list QueueEntry) : option (QueueEntry * list QueueEntry) :=
  match d with
  | [] => None
  | e :: d' =>
      if String.eqb (q_request_id e) id then Some (e, d')
      else match take_entry id d' with
           | Some (x, r) => Some (x, e :: r)
           | None => None
           end
  end.

Definition remove (id : string) (q : RequestQueue) : option QueueEntry * RequestQueue :=
  match take_entry id (deque q) with
  | Some (e, d) => (Some e, set_scheduler (remove_request id (scheduler q)) (set_deque d q))
  | None => (None, q)
  end.

(** Logging aside, [_timeout_entry] is the removal. *)
Definition timeout_entry (e : QueueEntry) (q : RequestQueue) : RequestQueue :=
  (remove (q_request_id e) q).2.

Definition stamp_deadline (timeout_seconds now : Q) (e : QueueEntry) : QueueEntry :=
  match q_deadline_at e with
  | None => set_deadline (now + timeout_seconds)%Q e
  | Some _ => e
  end.

Definition enqueue (timeout_seconds now : Q) (e : QueueEntry) (q : RequestQueue) : RequestQueue :=
  set_deque (deque q ++ [stamp_deadline timeout_seconds now e]) q.

Definition dequeue (q : RequestQueue) : option QueueEntry * RequestQueue :=
  match deque q with
  | e :: d => (Some e, set_scheduler (remove_request (q_request_id e) (scheduler q)) (set_deque d q))
  | [] => (None, q)
  end.

Definition peek (q : RequestQueue) : option QueueEntry := head (deque q).

Definition oldest_age_ms (now : Q) (q : RequestQueue) : Q :=
  match peek q with None => 0 | Some e => (now - q_enqueued_at e) * 1000 end%Q.

Definition notify_capacity (q : RequestQueue) : RequestQueue :=
  mkQueue (deque q) true (scheduler q) (granted_entries q).

Definition clear_capacity_signal (q : RequestQueue) : RequestQueue :=
  mkQueue (deque q) false (scheduler q) (granted_entries q).

(** [{e.request_id: e for e in self._deque}] *)
Definition by_id (q : RequestQueue) : list (string * QueueEntry) :=
  foldl (fun d e => dset (q_request_id e) e d) [] (deque q).

Section selection.
Context {R : Type} (env : environ).

(** The no-op decision recorded when nothing can be granted. *)
Definition record_unavailable (candidates : list SchedulerCandidate) (q : RequestQueue)
    : RequestQueue :=
  set_scheduler (choose_next env candidates false (scheduler q)).2 q.

Definition select_and_dequeue (now : Q) (capacity_available : R -> bool)
    (entry_eligible : option (option QueueEntry -> R -> bool))
    (reserve : option (QueueEntry -> R -> R)) (q : RequestQueue) (r : R)
    : option QueueEntry * RequestQueue * R :=
  let candidates := build_candidates q in
  match candidates with
  | [] => (None, q, r)
  | _ =>
      if negb (capacity_available r) then (None, record_unavailable candidates q, r)
      else
        let by_id := by_id q in
        let live := List.filter (fun c => negb (is_expired now (dget (c_request_id c) by_id)))
                      candidates in
        match live with
        | [] => (None, record_unavailable candidates q, r)
        | _ =>
            let candidates := live in
            let eligible := match entry_eligible with
                            | None => candidates
                            | Some f => List.filter (fun c => f (dget (c_request_id c) by_id) r)
                                          candidates
                            end in
            match eligible with
            | [] => (None, record_unavailable candidates q, r)
            | _ =>
                let '(decision, s) := choose_next env eligible true (scheduler q) in
                let q := set_scheduler s q in
                match d_request_id decision with
                | None => (None, q, r)
                | Some id =>
                    match remove id q with
                    | (None, q) => (None, q, r)
                    | (Some selected, q) =>
                        let r := match reserve with Some f => f selected r | None => r end in
                        let selected := mark_granted selected in
                        (Some selected, add_granted selected q, r)
                    end
                end
            end
        end
  end.

(** *** Waiting *)

(** What one iteration of the loop does: return, or sleep for at most
    [timeout] until a signal, clearing the capacity signal afterwards or not. *)
Inductive wait_outcome := WReturn (b : bool) | WWait (timeout : Q) (clear_after : bool).

(** [entry.granted], read from the object the waiter holds. *)
Definition entry_granted (e : QueueEntry) (q : RequestQueue) : bool :=
  q_granted e || existsb (fun g => String.eqb (q_request_id g) (q_request_id e)) (granted_entries q).

Definition Qmin' (x y : Q) : Q := if y <?q x then y else x.
Definition Qmax' (x y : Q) : Q := if x <?q y then y else x.

(** The part of the loop after the front-of-queue test. *)
Definition wait_timeout_check (now deadline : Q) (e : QueueEntry) (q : RequestQueue) (r : R)
    : wait_outcome * RequestQueue * R :=
  let remaining := (deadline - now)%Q in
  if remaining <=?q 0 then (WReturn false, timeout_entry e q, r)
  else (WWait (Qmin' remaining (poll_interval_s env)) true, q, r).

(** One iteration of the [while True] loop of [wait_for_execution], from one
    [await] to the next.  [cancelled] is [cancel_token.is_cancelled()]. *)
Definition wait_iter (now : Q) (cancelled : bool) (capacity_available : option (R -> bool))
    (entry_eligible : option (option QueueEntry -> R -> bool))
    (reserve : option (QueueEntry -> R -> R)) (deadline : Q) (e : QueueEntry)
    (q : RequestQueue) (r : R) : wait_outcome * RequestQueue * R :=
  if cancelled then (WReturn false, (remove (q_request_id e) q).2, r)
  else if entry_granted e q then
    if is_expired now (Some e) then (WReturn false, (remove (q_request_id e) q).2, r)
    else (WReturn true, q, r)
  else
    let at_front := match peek q with
                    | Some front => String.eqb (q_request_id front) (q_request_id e)
                    | None => false
                    end in
    let room := match capacity_available with None => true | Some f => f r end in
    if at_front && room then
      let '(selected, q, r) :=
        select_and_dequeue now (default (fun _ => true) capacity_available) entry_eligible reserve q r in
      let mine := match selected with
                  | Some s => String.eqb (q_request_id s) (q_request_id e)
                  | None => false
                  end in
      if mine then (WReturn true, q, r)
      else if is_expired now (Some e) then (WReturn false, timeout_entry e q, r)
      else (WWait (Qmin' (Qmax' (deadline - now) 0) (poll_interval_s env)) false, q, r)
    else wait_timeout_check now deadline e q r.

(** What the loop does on waking up. *)
Definition wait_resume (clear_after : bool) (q : RequestQueue) : RequestQueue :=
  if clear_after then clear_capacity_signal q else q.

(** The whole wait, against the states other coroutines leave at each wake-up:
    [world k] is the clock, the cancellation flag, the queue and the ledger the
    [k]-th iteration finds (the other coroutines ran in between). *)
Fixpoint wait_for_execution (fuel : nat) (capacity_available : option (R -> bool))
    (entry_eligible : option (option QueueEntry -> R -> bool))
    (reserve : option (QueueEntry -> R -> R)) (deadline : Q) (e : QueueEntry)
    (k : nat) (world : nat -> Q * bool * RequestQueue * R)
    : option (bool * nat * RequestQueue * R) :=
  match fuel with
  | O => None
  | S fuel =>
      let '(now, cancelled, q, r) := world k in
      match wait_iter now cancelled capacity_available entry_eligible reserve deadline e q r with
      | (WReturn b, q, r) => Some (b, k, q, r)
      | (WWait _ _, _, _) =>
          wait_for_execution fuel capacity_available entry_eligible reserve deadline e (S k) world
      end
  end.
End selection.

(** ** Lemmas *)

Definition ids (q : RequestQueue) : list string := map q_request_id (deque q).

Lemma take_entry_Some id d e d' :
  take_entry id d = Some (e, d') ->
  q_request_id e = id /\ exists l1 l2, d = l1 ++ e :: l2 /\ d' = l1 ++ l2.
Proof.
  revert e d'. induction d as [|x d IH]; intros e d'; simpl; [done|].
  destruct (String.eqb_spec (q_request_id x) id).
  - intros [= <- <-]. split; [done|]. by exists [], d.
  - destruct (take_entry id d) as [[y r]|]; [|done]. intros [= <- <-].
    destruct (IH y r eq_refl) as (Hid & l1 & l2 & -> & ->).
    split; [done|]. by exists (x :: l1), l2.
Qed.

Lemma take_entry_None id d : take_entry id d = None <-> id ∉ map q_request_id d.
Proof.
  induction d as [|x d IH]; simpl; [set_solver|].
  destruct (String.eqb_spec (q_request_id x) id) as [E|E].
  - split; [done|]. intros H. destruct H. rewrite E. apply list_elem_of_here.
  - destruct (take_entry id d) as [[y r]|]; [|set_solver]. split; [done|].
    intros H. exfalso. assert (id ∉ map q_request_id d) as Hn by set_solver.
    apply IH in Hn. done.
Qed.

Lemma remove_Some id q e q' :
  remove id q = (Some e, q') ->
  q_request_id e = id /\ granted_entries q' = granted_entries q
  /\ (exists l1 l2, deque q = l1 ++ e :: l2 /\ deque q' = l1 ++ l2)
  /\ scheduler q' = remove_request id (scheduler q).
Proof.
  unfold remove. destruct (take_entry id (deque q)) as [[x d]|] eqn:E; [|done].
  intros [= <- <-]. destruct (take_entry_Some _ _ _ _ E) as (Hid & l1 & l2 & H1 & H2).
  split_and!; try done. by exists l1, l2.
Qed.

Lemma dget_by_id_go d l id :
  dget id (foldl (fun d e => dset (q_request_id e) e d) d l) =
  match List.find (fun e => bool_decide (q_request_id e = id)) (reverse l) with
  | Some e => Some e
  | None => dget id d
  end.
Proof.
  induction l as [|e l IH] using rev_ind; [done|].
  rewrite foldl_app, reverse_snoc. simpl. rewrite dget_dset.
  case_decide; case_bool_decide; subst; try done.
Qed.

Lemma by_id_unique q e :
  NoDup (ids q) -> e ∈ deque q -> dget (q_request_id e) (by_id q) = Some e.
Proof.
  intros Hnd Hin. unfold by_id. rewrite dget_by_id_go. unfold ids in Hnd.
  destruct (List.find _ (reverse (deque q))) as [x|] eqn:Ef.
  - apply List.find_some in Ef as [Hx Hid]. apply bool_decide_eq_true in Hid.
    rewrite <- list_elem_of_In, elem_of_reverse in Hx. f_equal.
    by apply (NoDup_map_inj q_request_id (deque q)).
  - apply (List.find_none _ _) with (x := e) in Ef.
    + by apply bool_decide_eq_false in Ef.
    + by rewrite <- list_elem_of_In, elem_of_reverse.
Qed.

Lemma candidate_entry q c :
  c ∈ build_candidates q -> exists e, e ∈ deque q /\ c = candidate_of (scheduler q) e.
Proof. intros (e & -> & He)%list_elem_of_fmap. eauto. Qed.

(** What a grant of entry [e] did, whichever callables were passed. *)
Record grants {R} (now : Q) (capacity_available : R -> bool)
    (entry_eligible : option (option QueueEntry -> R -> bool))
    (reserve : option (QueueEntry -> R -> R)) (q : RequestQueue) (r : R)
    (e : QueueEntry) (q' : RequestQueue) (r' : R) : Prop := {
  gr_deque : exists before after, deque q = before ++ e :: after /\ deque q' = before ++ after;
  gr_owned : granted_entries q' = granted_entries q ++ [mark_granted e];
  gr_unexpired : is_expired now (Some e) = false;
  gr_room : capacity_available r = true;
  gr_eligible : forall f, entry_eligible = Some f -> f (Some e) r = true;
  gr_reserved : r' = match reserve with Some f => f e r | None => r end;
}.

Section selection_lemmas.
Context {R : Type} (env : environ).
Context (now : Q) (cap : R -> bool) (elig : option (option QueueEntry -> R -> bool))
  (rsv : option (QueueEntry -> R -> R)).

Definition live_of (q : RequestQueue) : list SchedulerCandidate :=
  List.filter (fun c => negb (is_expired now (dget (c_request_id c) (by_id q)))) (build_candidates q).

Definition eligible_of (q : RequestQueue) (r : R) : list SchedulerCandidate :=
  match elig with
  | None => live_of q
  | Some f => List.filter (fun c => f (dget (c_request_id c) (by_id q)) r) (live_of q)
  end.

Lemma eligible_of_elem q r c :
  c ∈ eligible_of q r <->
  c ∈ build_candidates q
  /\ is_expired now (dget (c_request_id c) (by_id q)) = false
  /\ (forall f, elig = Some f -> f (dget (c_request_id c) (by_id q)) r = true).
Proof using elig now.
  unfold eligible_of, live_of. clear cap rsv.
  destruct elig as [f|]; rewrite ?elem_of_filter_List, negb_true_iff; naive_solver.
Qed.

(** The function, case by case: nothing to grant, or a grant of the entry the
    scheduler names among the eligible candidates. *)
Lemma select_and_dequeue_unfold q r :
  NoDup (ids q) ->
  let res := select_and_dequeue env now cap elig rsv q r in
  (cap r = true /\ eligible_of q r <> []
   /\ exists c q1, c ∈ eligible_of q r
      /\ d_request_id (choose_next env (eligible_of q r) true (scheduler q)).1 = Some (c_request_id c)
      /\ exists e, remove (c_request_id c)
                    (set_scheduler (choose_next env (eligible_of q r) true (scheduler q)).2 q)
                   = (Some e, q1)
         /\ res = (Some (mark_granted e), add_granted (mark_granted e) q1,
                   match rsv with Some f => f e r | None => r end))
  \/ ((cap r = false \/ eligible_of q r = [])
      /\ res = (None, set_scheduler (scheduler res.1.2) q, r)).
Proof.
  intros Hnd. cbv zeta. unfold select_and_dequeue. fold (live_of q).
  fold (live_of q). destruct (build_candidates q) as [|c0 cs0] eqn:Ebc.
  { right. split; [|by destruct q]. right. unfold eligible_of, live_of. rewrite Ebc. by destruct elig. }
  destruct (cap r) eqn:Ecap; cbn [negb]; [|right; split; [by left | done]].
  destruct (live_of q) as [|c1 cs1] eqn:El.
  { right. split; [|done]. right. unfold eligible_of. rewrite El. by destruct elig. }
  rewrite <- El. fold (eligible_of q r).
  destruct (eligible_of q r) as [|c2 cs2] eqn:Ee; [right; split; [by right | done]|].
  rewrite <- Ee.
  left. split; [done|]. rewrite Ee at 1. split; [done|].
  pose proof (choose_next_request env c2 cs2 (scheduler q)) as Hch. unfold decide_next in Hch.
  rewrite <- Ee in Hch.
  destruct (choose_next env (eligible_of q r) true (scheduler q)) as [d s] eqn:Ech. cbn [fst snd] in *.
  assert (Hd : exists c, c ∈ eligible_of q r /\ d_request_id d = Some (c_request_id c)).
  { destruct Hch as [-> | (ready & Hf & _ & _ & _ & -> & _)].
    - exists (oldest_of c2 cs2). split; [|done]. rewrite Ee. apply oldest_of_elem.
    - exists ready. split; [|done]. by apply find_elem in Hf as [Hf _]. }
  destruct Hd as (c & Hc & ->).
  destruct (remove (c_request_id c) (set_scheduler s q)) as [[e|] q1] eqn:Er.
  - exists c, q1. split; [done|]. split; [done|]. by exists e.
  - exfalso. apply eligible_of_elem in Hc as [Hc _].
    apply candidate_entry in Hc as (e & He & ->). unfold remove in Er. simpl in Er.
    destruct (take_entry (q_request_id e) (deque q)) as [[x d']|] eqn:Et; [done|].
    apply take_entry_None in Et. destruct Et. apply list_elem_of_fmap. eauto.
Qed.
End selection_lemmas.

Lemma select_grants {R} env now (cap : R -> bool) elig rsv q r sel q' r' :
  NoDup (ids q) ->
  select_and_dequeue env now cap elig rsv q r = (Some sel, q', r') ->
  exists e, sel = mark_granted e /\ grants now cap elig rsv q r e q' r'.
Proof.
  intros Hnd Hsel.
  destruct (select_and_dequeue_unfold env now cap elig rsv q r Hnd)
    as [(Hcap & _ & c & q1 & Hc & _ & e & Hrem & Hres) | [_ Hres]];
    rewrite Hsel in Hres; [|done].
  injection Hres as -> -> ->. exists e. split; [done|].
  apply remove_Some in Hrem as (Hid & Hg & (l1 & l2 & Hd & Hd') & _). simpl in Hd, Hg.
  apply eligible_of_elem in Hc as (_ & Hexp & Hel).
  assert (He : e ∈ deque q) by (rewrite Hd; set_solver).
  rewrite <- Hid, (by_id_unique q e Hnd He) in Hexp, Hel.
  split; simpl; try done.
  - by exists l1, l2.
  - by rewrite Hg.
Qed.

Lemma select_none {R} env now (cap : R -> bool) elig rsv q r q' r' :
  NoDup (ids q) ->
  select_and_dequeue env now cap elig rsv q r = (None, q', r') ->
  deque q' = deque q /\ granted_entries q' = granted_entries q /\ r' = r
  /\ (cap r = false \/ eligible_of now elig q r = []).
Proof.
  intros Hnd Hsel.
  destruct (select_and_dequeue_unfold env now cap elig rsv q r Hnd)
    as [(_ & _ & c & q1 & _ & _ & e & _ & Hres) | [Hno Hres]];
    rewrite Hsel in Hres; [done|].
  injection Hres as -> ->. done.
Qed.

Lemma eligible_of_nonempty {R} now (elig : option (option QueueEntry -> R -> bool)) q r e :
  NoDup (ids q) -> e ∈ deque q -> is_expired now (Some e) = false ->
  (forall f, elig = Some f -> f (Some e) r = true) -> eligible_of now elig q r <> [].
Proof.
  intros Hnd He Hexp Hel Hnil.
  assert (Hin : candidate_of (scheduler q) e ∈ eligible_of now elig q r).
  { apply eligible_of_elem. simpl. rewrite (by_id_unique q e Hnd He).
    split; [|done]. apply list_elem_of_fmap. eauto. }
  rewrite Hnil in Hin. by apply elem_of_nil in Hin.
Qed.

Lemma grants_ids {R} now (cap : R -> bool) elig rsv q r e q' r' :
  NoDup (ids q) -> grants now cap elig rsv q r e q' r' ->
  NoDup (ids q') /\ q_request_id e ∉ ids q' /\ e ∈ deque q
  /\ (forall x, x ∈ deque q <-> x = e \/ x ∈ deque q').
Proof.
  intros Hnd [(l1 & l2 & Hd & Hd') _ _ _ _ _]. unfold ids in *. rewrite Hd, Hd' in *.
  rewrite map_app in Hnd. simpl in Hnd. apply NoDup_app in Hnd as (H1 & H2 & H3).
  apply NoDup_cons in H3 as [H3 H4]. rewrite map_app. split_and!.
  - apply NoDup_app. split; [done|]. split; [|done]. intros x Hx Hx'. apply (H2 x Hx). set_solver.
  - rewrite elem_of_app. intros [Hx|Hx]; [|done]. apply (H2 _ Hx). set_solver.
  - set_solver.
  - set_solver.
Qed.

(** ** Properties *)

(** C2: A selection is atomic and exact.  With distinct request ids in the
    queue, a granted entry was in the queue, had not passed its own deadline, fits
    its lane, is the only thing removed (the others keep their order), is owned
    exactly once, and its slot is reserved in the same step; when nothing is
    granted, the queue, the ownership record and the ledger are untouched. *)
Theorem select_and_dequeue_exact {R} env now (cap : R -> bool) elig rsv q r :
  NoDup (ids q) ->
  match select_and_dequeue env now cap elig rsv q r with
  | (Some sel, q', r') =>
      exists e, sel = mark_granted e /\ grants now cap elig rsv q r e q' r'
        /\ q_request_id e ∉ ids q' /\ NoDup (ids q')
  | (None, q', r') =>
      deque q' = deque q /\ granted_entries q' = granted_entries q /\ r' = r
  end.
Proof.
  intros Hnd. destruct (select_and_dequeue env now cap elig rsv q r) as [[[sel|] q'] r'] eqn:E.
  - destruct (select_grants _ _ _ _ _ _ _ _ _ _ Hnd E) as (e & -> & Hg).
    exists e. destruct (grants_ids _ _ _ _ _ _ _ _ _ Hnd Hg) as (H1 & H2 & _). done.
  - destruct (select_none _ _ _ _ _ _ _ _ _ Hnd E) as (H1 & H2 & H3 & _). done.
Qed.

Definition sample_entry (id : string) (t d : Q) : QueueEntry :=
  mkEntry id "m" false t None false None false None None (Some d) None.

Lemma select_and_dequeue_exact_witness :
  let q := mkQueue [sample_entry "a" 0 10; sample_entry "b" 1 11]%string false new_scheduler [] in
  exists e, grants 5 (fun n : nat => n <? 2) None (Some (fun _ n => S n)) q 1 e
              (select_and_dequeue [] 5 (fun n : nat => n <? 2) None (Some (fun _ n => S n)) q 1).1.2 2.
Proof.
  cbv zeta.
  destruct (select_and_dequeue_exact [] 5 (fun n : nat => n <? 2) None (Some (fun _ n => S n))
    (mkQueue [sample_entry "a" 0 10; sample_entry "b" 1 11]%string false new_scheduler []) 1)
    as (e & _ & Hg & _ & _); [by apply (bool_decide_unpack _)|].
  exists e. exact Hg.
Defined.

(** A free slot is not left idle: whenever the global predicate holds and
    some queued entry is within its deadline and has lane room, some entry is
    granted. *)
Theorem select_and_dequeue_progress {R} env now (cap : R -> bool) elig rsv q r e :
  NoDup (ids q) -> cap r = true -> e ∈ deque q -> is_expired now (Some e) = false ->
  (forall f, elig = Some f -> f (Some e) r = true) ->
  exists sel q' r', select_and_dequeue env now cap elig rsv q r = (Some sel, q', r').
Proof.
  intros Hnd Hcap He Hexp Hel.
  destruct (select_and_dequeue env now cap elig rsv q r) as [[[sel|] q'] r'] eqn:E; [by eauto|].
  destruct (select_none _ _ _ _ _ _ _ _ _ Hnd E) as (_ & _ & _ & [Hc|Hn]); [congruence|].
  by destruct (eligible_of_nonempty now elig q r e Hnd He Hexp Hel).
Qed.

Lemma select_and_dequeue_progress_witness :
  let e := sample_entry "a" 0 10 in
  exists sel q' r', select_and_dequeue [] 5 (fun n : nat => n <? 2) None None
    (mkQueue [e] false new_scheduler []) 1 = (Some sel, q', r').
Proof.
  cbv zeta. apply (select_and_dequeue_progress _ _ _ _ _ _ _ (sample_entry "a" 0 10)).
  - by apply (bool_decide_unpack _).
  - reflexivity.
  - apply list_elem_of_here.
  - reflexivity.
  - discriminate.
Defined.

(** *** Waiting *)

(** The deque holds the waiter's own object under its id. *)
Definition entry_consistent (e : QueueEntry) (q : RequestQueue) : Prop :=
  forall x, x ∈ deque q -> q_request_id x = q_request_id e -> q_deadline_at x = q_deadline_at e.

#[local] Arguments is_expired : simpl never.

Lemma is_expired_deadline now e d :
  q_deadline_at e = Some d -> is_expired now (Some e) = (d <=?q now).
Proof. intros H. unfold is_expired. by rewrite H. Qed.

Lemma grant_mine_unexpired {R} now (cap : R -> bool) elig rsv q r x e q' r' d :
  NoDup (ids q) -> entry_consistent e q -> q_deadline_at e = Some d ->
  grants now cap elig rsv q r x q' r' -> q_request_id x = q_request_id e ->
  (now < d)%Q.
Proof.
  intros Hnd Hcons Hd Hg Hid.
  destruct (grants_ids _ _ _ _ _ _ _ _ _ Hnd Hg) as (_ & _ & Hin & _).
  pose proof (gr_unexpired _ _ _ _ _ _ _ _ _ Hg) as Hexp.
  specialize (Hcons x Hin Hid). rewrite Hd in Hcons.
  rewrite (is_expired_deadline now x d Hcons) in Hexp. by reflect_tests.
Qed.

Lemma entry_granted_after {R} now (cap : R -> bool) elig rsv q r x e q' r' :
  grants now cap elig rsv q r x q' r' -> q_request_id x = q_request_id e ->
  entry_granted e q' = true.
Proof.
  intros Hg Hid. unfold entry_granted. rewrite (gr_owned _ _ _ _ _ _ _ _ _ Hg).
  rewrite existsb_app. simpl. rewrite Hid, String.eqb_refl. by rewrite !orb_true_r.
Qed.

Lemma Qmin'_le x y : (Qmin' x y <= x)%Q /\ (Qmin' x y <= y)%Q.
Proof. unfold Qmin'. destruct (y <?q x) eqn:E; reflect_tests; split; lra. Qed.

Lemma Qmax'_pos x : (0 <= x)%Q -> (Qmax' x 0 == x)%Q.
Proof. unfold Qmax'. destruct (x <?q 0) eqn:E; reflect_tests; intros; lra. Qed.

(** An iteration is an optional grant (possibly of another entry) followed by the
    waiter's own outcome. *)
Definition same_entries (q q' : RequestQueue) : Prop :=
  deque q' = deque q /\ granted_entries q' = granted_entries q.

Lemma wait_iter_shape {R} env now cancelled (cap : option (R -> bool)) elig rsv d e q r out q' r' :
  NoDup (ids q) ->
  wait_iter env now cancelled cap elig rsv d e q r = (out, q', r') ->
  exists q1,
    (same_entries q q1 /\ r' = r
     \/ exists x, grants now (default (fun _ => true) cap) elig rsv q r x q1 r')
    /\ q' = match out with WReturn false => (remove (q_request_id e) q1).2 | _ => q1 end
    /\ (out = WReturn true -> cancelled = false /\ entry_granted e q1 = true).
Proof.
  intros Hnd. unfold wait_iter.
  destruct cancelled; [intros [= <- <- <-]; exists q; split; [by left | done]|].
  destruct (entry_granted e q) eqn:Eg.
  { destruct (is_expired now (Some e)); intros [= <- <- <-]; exists q; split; by try left. }
  match goal with |- context [if ?b then _ else _] => destruct b end.
  2:{ unfold wait_timeout_check. cbv zeta. case_match; intros [= <- <- <-]; exists q;
        split; by try left. }
  destruct (select_and_dequeue env now (default (fun _ => true) cap) elig rsv q r)
    as [[[sel|] q1] r1] eqn:Es.
  - destruct (select_grants _ _ _ _ _ _ _ _ _ _ Hnd Es) as (x & -> & Hg). simpl.
    destruct (String.eqb_spec (q_request_id x) (q_request_id e)) as [Hid|Hid].
    + intros [= <- <- <-]. exists q1. split; [right; by exists x|]. split; [done|].
      intros _. split; [done|]. exact (entry_granted_after _ _ _ _ _ _ _ _ _ _ Hg Hid).
    + case_match; intros [= <- <- <-]; exists q1; (split; [right; by exists x | done]).
  - destruct (select_none _ _ _ _ _ _ _ _ _ Hnd Es) as (H1 & H2 & -> & _).
    case_match; intros [= <- <- <-]; exists q1; (split; [by left | done]).
Qed.

Section wait_lemmas.
Context {R : Type} (env : environ).
Context (cap : option (R -> bool)) (elig : option (option QueueEntry -> R -> bool))
  (rsv : option (QueueEntry -> R -> R)).
Context (e : QueueEntry) (d : Q) (Hd : q_deadline_at e = Some d).

(** What an iteration that returns [True] saw, and what one that sleeps does. *)
Lemma wait_iter_cases now cancelled q r out q' r' :
  NoDup (ids q) -> entry_consistent e q ->
  wait_iter env now cancelled cap elig rsv d e q r = (out, q', r') ->
  match out with
  | WReturn true => cancelled = false /\ (now < d)%Q /\ entry_granted e q' = true
  | WReturn false => cancelled = true \/ (d <= now)%Q
  | WWait t _ => cancelled = false /\ (now < d)%Q /\ (t <= d - now)%Q
                 /\ (t <= poll_interval_s env)%Q
  end.
Proof.
  intros Hnd Hcons. unfold wait_iter.
  destruct cancelled; [intros [= <- <- <-]; by left|].
  rewrite (is_expired_deadline now e d Hd).
  destruct (entry_granted e q) eqn:Eg.
  { destruct (d <=?q now) eqn:Ex; intros [= <- <- <-]; reflect_tests; [by right | done]. }
  assert (Htail : forall q1 r1,
    wait_timeout_check env now d e q1 r1 = (out, q', r') ->
    match out with
    | WReturn true => False
    | WReturn false => (d <= now)%Q
    | WWait t _ => (now < d)%Q /\ (t <= d - now)%Q /\ (t <= poll_interval_s env)%Q
    end).
  { intros q1 r1. unfold wait_timeout_check. cbv zeta.
    destruct (d - now <=?q 0) eqn:E1; intros [= <- <- <-]; reflect_tests; [lra|].
    destruct (Qmin'_le (d - now) (poll_interval_s env)). split_and!; lra. }
  assert (Hdefer : forall q1 r1,
    (if d <=?q now then (WReturn false, timeout_entry e q1, r1)
     else (WWait (Qmin' (Qmax' (d - now) 0) (poll_interval_s env)) false, q1, r1))
    = (out, q', r') ->
    match out with
    | WReturn true => False
    | WReturn false => (d <= now)%Q
    | WWait t _ => (now < d)%Q /\ (t <= d - now)%Q /\ (t <= poll_interval_s env)%Q
    end).
  { intros q1 r1. destruct (d <=?q now) eqn:E1; intros [= <- <- <-]; reflect_tests; [done|].
    destruct (Qmin'_le (Qmax' (d - now) 0) (poll_interval_s env)).
    pose proof (Qmax'_pos (d - now) ltac:(lra)). split_and!; lra. }
  match goal with |- context [if ?b then _ else _] => destruct b end.
  2:{ intros H. apply Htail in H. destruct out as [[]|]; tauto. }
  destruct (select_and_dequeue env now (default (fun _ => true) cap) elig rsv q r)
    as [[[sel|] q1] r1] eqn:Es.
  - destruct (select_grants _ _ _ _ _ _ _ _ _ _ Hnd Es) as (x & -> & Hg). simpl.
    destruct (String.eqb_spec (q_request_id x) (q_request_id e)) as [Hid|Hid].
    + intros [= <- <- <-]. split_and!; [done | |].
      * exact (grant_mine_unexpired _ _ _ _ _ _ _ _ _ _ _ Hnd Hcons Hd Hg Hid).
      * exact (entry_granted_after _ _ _ _ _ _ _ _ _ _ Hg Hid).
    + intros H. apply Hdefer in H. destruct out as [[]|]; tauto.
  - simpl. intros H. apply Hdefer in H. destruct out as [[]|]; tauto.
Qed.
End wait_lemmas.

(** A waiter that is told to execute owns its entry, was not cancelled, and
    is strictly before its own queue deadline; one that is told not to was
    cancelled or has reached its deadline; one that sleeps does so no longer than
    the poll interval and never past its deadline. *)
Theorem wait_iteration_honours_deadline {R} env (cap : option (R -> bool)) elig rsv e d
    now cancelled q r out q' r' :
  q_deadline_at e = Some d -> NoDup (ids q) -> entry_consistent e q ->
  wait_iter env now cancelled cap elig rsv d e q r = (out, q', r') ->
  match out with
  | WReturn true => cancelled = false /\ (now < d)%Q /\ entry_granted e q' = true
  | WReturn false => cancelled = true \/ (d <= now)%Q
  | WWait t _ => cancelled = false /\ (now < d)%Q /\ (t <= d - now)%Q
                 /\ (t <= poll_interval_s env)%Q
  end.
Proof. intros Hd. exact (wait_iter_cases env cap elig rsv e d Hd now cancelled q r out q' r'). Qed.

Lemma sample_consistent id t d : entry_consistent (sample_entry id t d)
  (mkQueue [sample_entry id t d] false new_scheduler []).
Proof. intros x Hx _. apply list_elem_of_singleton in Hx. by subst. Qed.

Lemma wait_iteration_honours_deadline_witness :
  let e := sample_entry "a" 0 10 in
  let q := mkQueue [e] false new_scheduler [] in
  let res := wait_iter [] 5 false (Some (fun n : nat => n <? 2)) None None 10 e q 1 in
  res.1.1 = WReturn true /\ entry_granted e res.1.2 = true.
Proof.
  cbv zeta. split; [reflexivity|].
  refine (proj2 (proj2 (wait_iteration_honours_deadline [] (Some (fun n : nat => n <? 2)) None None
    (sample_entry "a" 0 10) 10 5 false (mkQueue [sample_entry "a" 0 10] false new_scheduler [])
    1 (WReturn true) _ 1 _ _ _ _))).
  - reflexivity.
  - by apply (bool_decide_unpack _).
  - apply sample_consistent.
  - reflexivity.
Defined.

(** C9: Termination of the wait.  Whatever the other coroutines do to the queue
    and the ledger between the wake-ups, as soon as one wake-up happens at or
    after the deadline the loop has returned: no waiter stays in the queue
    forever. *)
Theorem wait_for_execution_terminates {R} env (cap : option (R -> bool)) elig rsv e d k
    (world : nat -> Q * bool * RequestQueue * R) :
  q_deadline_at e = Some d ->
  (forall i, NoDup (ids (world i).1.2) /\ entry_consistent e (world i).1.2) ->
  (d <= (world k).1.1.1)%Q ->
  exists b j q r, wait_for_execution env (S k) cap elig rsv d e 0 world = Some (b, j, q, r)
    /\ j <= k.
Proof.
  intros Hd Hw Hk.
  assert (Hgen : forall n i, i + n = k ->
    exists b j q r, wait_for_execution env (S n) cap elig rsv d e i world = Some (b, j, q, r)
      /\ j <= k); [|by apply (Hgen k 0)].
  induction n as [|n IH]; intros i Hi.
  - assert (i = k) as -> by lia. simpl. destruct (Hw k) as [Hnd Hc].
    destruct (world k) as [[[now c] q] r] eqn:Ew.
    destruct (wait_iter env now c cap elig rsv d e q r) as [[[b|t cl] q'] r'] eqn:Ei.
    + by exists b, k, q', r'.
    + pose proof (wait_iter_cases env cap elig rsv e d Hd _ _ _ _ _ _ _ Hnd Hc Ei) as H.
      simpl in H, Hk. destruct H as (_ & H & _). lra.
  - cbn [wait_for_execution]. destruct (world i) as [[[now c] q] r].
    destruct (wait_iter env now c cap elig rsv d e q r) as [[[b|t cl] q'] r'].
    + exists b, i, q', r'. split; [done | lia].
    + apply (IH (S i)). lia.
Qed.

Lemma wait_for_execution_terminates_witness :
  let e := sample_entry "a" 0 10 in
  let q := mkQueue [e] false new_scheduler [] in
  exists b j q' r, wait_for_execution [] 3 (Some (fun n : nat => n <? 2)) None None 10 e 0
    (fun i => ((inject_Z (Z.of_nat i) * 5)%Q, false, q, 2)) = Some (b, j, q', r) /\ j <= 2.
Proof.
  cbv zeta. apply (wait_for_execution_terminates [] _ _ _ _ 10 2).
  - reflexivity.
  - intros i. split; [by apply (bool_decide_unpack _) | apply sample_consistent].
  - apply Qle_bool_iff. reflexivity.
Defined.

(** ** Batch groups of the live queue *)

Lemma analyzed_ids analyzer gid cs g id :
  g ∈ ba_groups (analyze analyzer gid cs true) -> id ∈ bg_request_ids g ->
  id ∈ map bc_request_id cs.
Proof.
  unfold analyze. destruct cs as [|c cs]; [simpl; by intros ?%elem_of_nil|].
  cbn [negb orb ba_groups].
  destruct (group_loop_spec analyzer gid (length (c :: cs)) 0 (c :: cs)) as [Hp Hok]; [done|].
  intros (p & -> & Hin)%list_elem_of_fmap Hid. unfold grouped in Hin.
  rewrite Forall_forall in Hok. destruct (Hok p Hin) as (gd & a & ch & Heq & _).
  rewrite Heq in Hid. change (id ∈ map bc_request_id (a :: ch)) in Hid. apply list_elem_of_fmap in Hid as (x & -> & Hx).
  apply list_elem_of_fmap. exists x. split; [done|]. rewrite <- Hp.
  apply list_elem_of_In, in_concat. exists (a :: ch). rewrite <- !list_elem_of_In.
  split; [|done]. apply list_elem_of_fmap. exists p. by rewrite Heq in *.
Qed.

Lemma find_batch_group_absent id analyzer gid is_enabled q :
  id ∉ ids q -> find_batch_group id analyzer gid is_enabled q = None.
Proof.
  intros Hn. unfold find_batch_group. destruct is_enabled; [|done]. cbn [negb].
  assert (Hall : forall g, g ∈ ba_groups (analyze analyzer gid (build_batch_candidates q) true) ->
    id ∉ bg_request_ids g).
  { intros g Hgr Hid. apply Hn. pose proof (analyzed_ids _ _ _ _ _ Hgr Hid) as H.
    unfold build_batch_candidates in H. rewrite map_map in H. exact H. }
  induction (ba_groups _) as [|g gs IH]; [done|].
  rewrite bool_decide_eq_false_2 by (apply Hall; set_solver). rewrite andb_false_r.
  apply IH. intros g' Hg'. apply Hall. set_solver.
Qed.
