(* ===== verification/CapacityProfile.v ===== *)
(** * Capacity profiles ([capacity_profile.py])

    The measured evidence a controller reads: the enumerations, the per-model
    context budgets and the profile.  The JSON loader ([safe_load_profile]) is
    file I/O and schema validation by pydantic; the controller takes it as an
    argument. *)

From S2P Require Import Prelude.

Inductive CapacityMode := FIXED | ADAPTIVE.

Definition CapacityMode_value (m : CapacityMode) : string :=
  match m with FIXED => "fixed" | ADAPTIVE => "adaptive" end.

Inductive MemoryPressureClass := MPC_UNKNOWN | MPC_NORMAL | MPC_ELEVATED | MPC_HIGH | MPC_CRITICAL.

Definition MemoryPressureClass_value (p : MemoryPressureClass) : string :=
  match p with
  | MPC_UNKNOWN => "unknown" | MPC_NORMAL => "normal" | MPC_ELEVATED => "elevated"
  | MPC_HIGH => "high" | MPC_CRITICAL => "critical"
  end.

Inductive CapacityDecisionReason :=
| BELOW_OPERATOR_CEILING | CALIBRATED_LIMIT | OPERATOR_CEILING | MISSING_PROFILE
| INVALID_PROFILE | MEMORY_PRESSURE_HIGH | QUEUE_FULL | CONTEXT_OVERFLOW | LANE_CAPACITY
| RUNTIME_NOT_READY | BATCH_ACTIVE_LIMIT_REACHED.

Definition CapacityDecisionReason_value (r : CapacityDecisionReason) : string :=
  match r with
  | BELOW_OPERATOR_CEILING => "below_operator_ceiling"
  | CALIBRATED_LIMIT => "calibrated_limit"
  | OPERATOR_CEILING => "operator_ceiling"
  | MISSING_PROFILE => "missing_profile"
  | INVALID_PROFILE => "invalid_profile"
  | MEMORY_PRESSURE_HIGH => "memory_pressure_high"
  | QUEUE_FULL => "queue_full"
  | CONTEXT_OVERFLOW => "context_overflow"
  | LANE_CAPACITY => "lane_capacity"
  | RUNTIME_NOT_READY => "runtime_not_ready"
  | BATCH_ACTIVE_LIMIT_REACHED => "batch_active_limit_reached"
  end.

Inductive ContextBudget := HARD | RECOMMENDED | INTERACTIVE | MAX_INPUT | MAX_OUTPUT.

Definition ContextBudget_value (b : ContextBudget) : string :=
  match b with
  | HARD => "hard" | RECOMMENDED => "recommended" | INTERACTIVE => "interactive"
  | MAX_INPUT => "max_input" | MAX_OUTPUT => "max_output"
  end.

Inductive ContextDecisionReason :=
| WITHIN_INTERACTIVE | WITHIN_RECOMMENDED | ABOVE_RECOMMENDED | ABOVE_HARD
| ABOVE_INPUT_LIMIT | ABOVE_OUTPUT_LIMIT | NO_BUDGET.

Definition ContextDecisionReason_value (r : ContextDecisionReason) : string :=
  match r with
  | WITHIN_INTERACTIVE => "within_interactive"
  | WITHIN_RECOMMENDED => "within_recommended"
  | ABOVE_RECOMMENDED => "above_recommended"
  | ABOVE_HARD => "above_hard"
  | ABOVE_INPUT_LIMIT => "above_input_limit"
  | ABOVE_OUTPUT_LIMIT => "above_output_limit"
  | NO_BUDGET => "no_budget"
  end.

#[export] Instance CapacityMode_eq_dec : EqDecision CapacityMode.
Proof. solve_decision. Defined.
#[export] Instance MemoryPressureClass_eq_dec : EqDecision MemoryPressureClass.
Proof. solve_decision. Defined.
#[export] Instance CapacityDecisionReason_eq_dec : EqDecision CapacityDecisionReason.
Proof. solve_decision. Defined.

(** [ContextBudgets] *)
Record ContextBudgets := mkBudgets {
  hard_max_tokens : option Z;
  recommended_max_tokens : option Z;
  interactive_max_tokens : option Z;
  max_output_tokens : option Z;
  max_input_tokens : option Z;
  multimodal_token_estimate : option Z;
}.

Definition budgets_safe_dict (b : ContextBudgets) : list (string * pyval) :=
  [("hard_max_tokens", opt_int (hard_max_tokens b));
   ("recommended_max_tokens", opt_int (recommended_max_tokens b));
   ("interactive_max_tokens", opt_int (interactive_max_tokens b));
   ("max_output_tokens", opt_int (max_output_tokens b));
   ("max_input_tokens", opt_int (max_input_tokens b));
   ("multimodal_token_estimate", opt_int (multimodal_token_estimate b))]%string.

(** [CapacityProfile], without the per-band evidence and the provenance fields
    the controller does not read.  The schema has
    [recommended_active_concurrency >= 1]. *)
Record CapacityProfile := mkProfile {
  prof_model_id : string;
  prof_runtime : string;
  prof_machine_class : string;
  prof_host_memory_bytes : option Z;
  recommended_active_concurrency : Z;
  prof_context_budgets : option ContextBudgets;
}.
