(* ===== verification/CapacityContext.v ===== *)
(** * Request cost and context policy ([capacity_context.py])

    A request is turned into an estimated token cost (input, reserved output,
    multimodal) with a precision status, and compared with the model's budgets.
    [token_counter] is the optional tokenizer callable ([None] as its result is
    an exception); [repr_float] is the interpreter's [repr] of a float, used only
    to size JSON text. *)

From S2P Require Import Prelude PyStr Contracts CapacityProfile.
From Stdlib Require Import Ascii.

Definition CHARS_PER_TOKEN_FALLBACK : Z := 4.
Definition DEFAULT_RESERVED_OUTPUT_TOKENS : Z := 256.

Definition COST_STATUS_EXACT : string := "exact".
Definition COST_STATUS_ESTIMATED : string := "estimated".
Definition COST_STATUS_UNKNOWN : string := "unknown".

(** [RequestCost] *)
Record RequestCost := mkCost {
  input_tokens : Z;
  output_tokens : Z;
  multimodal_tokens : Z;
  total_tokens : Z;
  input_is_exact : bool;
  multimodal_is_exact : bool;
  output_is_exact : bool;
  has_unknown_cost : bool;
  output_limit_source : string;
  structured_prompt_tokens : Z;
  media_parts : Z;
}.

Definition cost_status (c : RequestCost) : string :=
  if has_unknown_cost c then COST_STATUS_UNKNOWN
  else if input_is_exact c && output_is_exact c && multimodal_is_exact c then COST_STATUS_EXACT
  else COST_STATUS_ESTIMATED.

Definition cost_safe_dict (c : RequestCost) : list (string * pyval) :=
  [("input_tokens", PInt (input_tokens c));
   ("output_tokens", PInt (output_tokens c));
   ("multimodal_tokens", PInt (multimodal_tokens c));
   ("total_tokens", PInt (total_tokens c));
   ("input_is_exact", PBool (input_is_exact c));
   ("multimodal_is_exact", PBool (multimodal_is_exact c));
   ("output_is_exact", PBool (output_is_exact c));
   ("has_unknown_cost", PBool (has_unknown_cost c));
   ("output_limit_source", PStr (output_limit_source c));
   ("structured_prompt_tokens", PInt (structured_prompt_tokens c));
   ("media_parts", PInt (media_parts c));
   ("cost_status", PStr (cost_status c))]%string.

(** [ContextEvaluation] *)
Record ContextEvaluation := mkContextEval {
  ce_reason : ContextDecisionReason;
  ce_budget : option ContextBudget;
  ce_total_tokens : Z;
  ce_within_budget : bool;
  ce_over_limit : bool;
  ce_breached_budget : option ContextBudget;
  ce_hard_max_tokens : option Z;
  ce_recommended_max_tokens : option Z;
  ce_interactive_max_tokens : option Z;
  ce_cost : option RequestCost;
  ce_cost_is_exact : bool;
  ce_cost_status : string;
  ce_max_input_tokens : option Z;
  ce_max_output_tokens : option Z;
}.

Definition opt_budget (b : option ContextBudget) : pyval := opt_str (ContextBudget_value <$> b).

Definition evaluation_safe_dict (e : ContextEvaluation) : list (string * pyval) :=
  [("reason", PStr (ContextDecisionReason_value (ce_reason e)));
   ("budget", opt_budget (ce_budget e));
   ("total_tokens", PInt (ce_total_tokens e));
   ("within_budget", PBool (ce_within_budget e));
   ("over_limit", PBool (ce_over_limit e));
   ("breached_budget", opt_budget (ce_breached_budget e));
   ("hard_max_tokens", opt_int (ce_hard_max_tokens e));
   ("recommended_max_tokens", opt_int (ce_recommended_max_tokens e));
   ("interactive_max_tokens", opt_int (ce_interactive_max_tokens e));
   ("cost_is_exact", PBool (ce_cost_is_exact e));
   ("cost_status", PStr (ce_cost_status e));
   ("max_input_tokens", opt_int (ce_max_input_tokens e));
   ("max_output_tokens", opt_int (ce_max_output_tokens e));
   ("cost", match ce_cost e with Some c => PDict (cost_safe_dict c) | None => PNone end)]%string.

(** ** Request inspection *)

(** A lookup in a JSON object: [part.get(k)]. *)
Fixpoint obj_get (k : string) (d : list (string * pyval)) : option pyval :=
  match d with
  | [] => None
  | (k', v) :: d' => if String.eqb k k' then Some v else obj_get k d'
  end.

Definition newline : string := String (ascii_of_N 10) "".

Definition is_text_part (part : list (string * pyval)) : bool :=
  match obj_get "type" part with
  | Some (PStr t) => String.eqb t "text"
  | None | Some PNone => match obj_get "text" part with Some _ => true | None => false end
  | Some _ => false
  end.

(** One content part: the text chunks, text parts and media parts so far. *)
Definition visit_part (acc : list string * Z * Z) (part : pyval) : list string * Z * Z :=
  let '(chunks, text_parts, media) := acc in
  match part with
  | PDict p =>
      if is_text_part p then
        match obj_get "text" p with
        | Some (PStr text) =>
            if negb (String.eqb text "") then (chunks ++ [text], (text_parts + 1)%Z, media) else acc
        | _ => acc
        end
      else (chunks, text_parts, (media + 1)%Z)
  | _ => acc
  end.

Definition visit_message (acc : list string * Z * Z) (m : ChatMessage) : list string * Z * Z :=
  let '(chunks, text_parts, media) := acc in
  match msg_content m with
  | PStr s => if negb (String.eqb s "") then (chunks ++ [s], (text_parts + 1)%Z, media) else acc
  | PList parts => foldl visit_part acc parts
  | _ => acc
  end.

Definition message_text_and_media (messages : list ChatMessage) : string * Z * Z :=
  let '(chunks, text_parts, media) := foldl visit_message ([], 0%Z, 0%Z) messages in
  (join newline chunks, text_parts, media).

(** *** JSON text of a value ([json.dumps(value, default=str, separators=(",", ":"))]) *)

Definition dquote : ascii := ascii_of_N 34.
Definition backslash : ascii := ascii_of_N 92.

Definition hex_digit (n : N) : ascii :=
  if (n <? 10)%N then ascii_of_N (48 + n) else ascii_of_N (87 + n).

(** The escape of one character of a string ([ensure_ascii]). *)
Definition json_char (c : ascii) : string :=
  let n := N_of_ascii c in
  if Ascii.eqb c dquote then String backslash (String dquote "")
  else if Ascii.eqb c backslash then String backslash (String backslash "")
  else if (n =? 10)%N then String backslash "n"
  else if (n =? 13)%N then String backslash "r"
  else if (n =? 9)%N then String backslash "t"
  else if (n =? 12)%N then String backslash "f"
  else if (n =? 8)%N then String backslash "b"
  else if (n <? 32)%N then
    String backslash (String "u" (String "0" (String "0"
      (String (hex_digit (n / 16)) (String (hex_digit (n mod 16)) "")))))
  else String c "".

Fixpoint json_escape (s : string) : string :=
  match s with
  | EmptyString => EmptyString
  | String c s' => (json_char c +:+ json_escape s')%string
  end.

Definition json_string (s : string) : string :=
  String dquote (json_escape s +:+ String dquote "")%string.

Section json.
Variable repr_float : Q -> string.

Fixpoint json_dumps (v : pyval) : string :=
  match v with
  | PNone => "null"
  | PBool true => "true"
  | PBool false => "false"
  | PInt z => pretty z
  | PFloat q => repr_float q
  | PStr s => json_string s
  | PList l => ("[" +:+ join "," (map json_dumps l) +:+ "]")%string
  | PDict d =>
      ("{" +:+ join "," (map (fun kv => json_string (fst kv) +:+ ":" +:+ json_dumps (snd kv))%string d)
       +:+ "}")%string
  end.

(** [_safe_json] *)
Definition safe_json (v : pyval) : string :=
  match v with PNone => "" | _ => json_dumps v end.

Definition chunk_if (v : pyval) : list string := if truthy v then [safe_json v] else [].

Definition structured_prompt_text (r : ChatCompletionRequest) : string :=
  let chunks :=
    chunk_if (req_tools r) ++ chunk_if (req_tool_choice r) ++ chunk_if (req_response_format r)
    ++ chunk_if (req_stop r)
    ++ concat (map (fun m =>
         chunk_if (msg_tool_calls m)
         ++ (if str_truthy (msg_name m) then option_list (msg_name m) else [])
         ++ (if str_truthy (msg_tool_call_id m) then option_list (msg_tool_call_id m) else []))
         (req_messages r)) in
  join newline (List.filter (fun c => negb (String.eqb c "")) chunks).

(** ** Costing *)

Definition strlen (s : string) : Z := Z.of_nat (String.length s).

(** [math.ceil(len(text) / 4)] *)
Definition ceil_div4 (n : Z) : Z := ((n + (CHARS_PER_TOKEN_FALLBACK - 1)) / CHARS_PER_TOKEN_FALLBACK)%Z.

(** [_count_tokens] *)
Definition count_tokens (text : string) (token_counter : option (string -> option Z)) : Z * bool :=
  let fallback := (ceil_div4 (strlen text), false) in
  match token_counter with
  | Some f => match f text with Some n => (Z.max 0 n, true) | None => fallback end
  | None => fallback
  end.

(** [_effective_output_limit] *)
Definition effective_output_limit (r : ChatCompletionRequest) (default_max_tokens : Z)
    : Z * bool * string :=
  match req_max_completion_tokens r with
  | Some mc =>
      let completion := Z.max 0 mc in
      let other := match req_max_tokens r with Some mt => Z.max 0 mt | None => 0%Z end in
      (Z.max completion other, true, "max_completion_tokens"%string)
  | None =>
      match req_max_tokens r with
      | Some mt => (Z.max 0 mt, true, "max_tokens"%string)
      | None => (Z.max 0 default_max_tokens, false, "default"%string)
      end
  end.

Definition estimate_request_cost (r : ChatCompletionRequest)
    (token_counter : option (string -> option Z)) (multimodal_estimate : option Z)
    (default_max_tokens : Z) : RequestCost :=
  let '(text, _text_parts, media) := message_text_and_media (req_messages r) in
  let structured_text := structured_prompt_text r in
  let '(text_tokens, text_is_exact) := count_tokens text token_counter in
  let '(structured_tokens, structured_is_exact) :=
    if negb (String.eqb structured_text "") then count_tokens structured_text token_counter
    else (0%Z, true) in
  let input := (text_tokens + structured_tokens)%Z in
  let in_exact := text_is_exact && structured_is_exact in
  let '(output, out_exact, source) := effective_output_limit r default_max_tokens in
  let mm_exact := (media =? 0)%Z in
  let '(mm, unknown) :=
    match multimodal_estimate with
    | Some u => if negb (media =? 0)%Z && negb (u =? 0)%Z then ((media * u)%Z, false)
                else (0%Z, negb (media =? 0)%Z)
    | None => (0%Z, negb (media =? 0)%Z)
    end in
  mkCost input output mm (input + output + mm) in_exact mm_exact out_exact unknown source
    structured_tokens media.

Definition estimate_prompt_cost (prompt : string) (max_tokens : option Z)
    (token_counter : option (string -> option Z)) (default_max_tokens : Z) : RequestCost :=
  let '(input, in_exact) := count_tokens prompt token_counter in
  let '(output, out_exact, source) :=
    match max_tokens with
    | None => (Z.max 0 default_max_tokens, false, "default"%string)
    | Some mt => (Z.max 0 mt, true, "max_tokens"%string)
    end in
  mkCost input output 0 (input + output) in_exact true out_exact false source 0 0.
End json.

(** ** Budget evaluation *)

Definition exceeds (n : Z) (limit : option Z) : bool :=
  match limit with Some l => (l <? n)%Z | None => false end.

Definition evaluate_context (cost : RequestCost) (budgets : option ContextBudgets)
    : ContextEvaluation :=
  let status := cost_status cost in
  let exact := String.eqb status COST_STATUS_EXACT in
  match budgets with
  | None =>
      mkContextEval NO_BUDGET None (total_tokens cost) true false None None None None (Some cost)
        exact status None None
  | Some b =>
      let result reason budget within over breached :=
        mkContextEval reason (Some budget) (total_tokens cost) within over breached
          (hard_max_tokens b) (recommended_max_tokens b) (interactive_max_tokens b) (Some cost)
          exact status (max_input_tokens b) (max_output_tokens b) in
      if exceeds (output_tokens cost) (max_output_tokens b) then
        result ABOVE_OUTPUT_LIMIT MAX_OUTPUT false true (Some MAX_OUTPUT)
      else
        let total_input_tokens := (input_tokens cost + multimodal_tokens cost)%Z in
        if exceeds total_input_tokens (max_input_tokens b) then
          result ABOVE_INPUT_LIMIT MAX_INPUT false true (Some MAX_INPUT)
        else if exceeds (total_tokens cost) (hard_max_tokens b) then
          result ABOVE_HARD HARD false true (Some HARD)
        else if exceeds (total_tokens cost) (recommended_max_tokens b) then
          result ABOVE_RECOMMENDED RECOMMENDED true false None
        else if exceeds (total_tokens cost) (interactive_max_tokens b) then
          result WITHIN_RECOMMENDED RECOMMENDED true false None
        else result WITHIN_INTERACTIVE INTERACTIVE true false None
  end.

(** ** Properties *)

(** A request is refused by the context policy exactly when a declared limit
    is exceeded: its reserved output above the output maximum, its whole input
    (text, structured fields and media) above the input maximum, or its total
    above the hard maximum; the reported reason is the first breach in that
    order, and without budgets nothing is refused. *)
Theorem over_limit_characterised cost budgets :
  let e := evaluate_context cost budgets in
  (ce_over_limit e = true <->
     exists b, budgets = Some b
       /\ (exceeds (output_tokens cost) (max_output_tokens b) = true
           \/ exceeds (input_tokens cost + multimodal_tokens cost) (max_input_tokens b) = true
           \/ exceeds (total_tokens cost) (hard_max_tokens b) = true))
  /\ ce_within_budget e = negb (ce_over_limit e)
  /\ (ce_over_limit e = true <-> ce_breached_budget e <> None)
  /\ (ce_reason e = ABOVE_HARD <->
     exists b, budgets = Some b
       /\ exceeds (output_tokens cost) (max_output_tokens b) = false
       /\ exceeds (input_tokens cost + multimodal_tokens cost) (max_input_tokens b) = false
       /\ exceeds (total_tokens cost) (hard_max_tokens b) = true).
Proof.
  cbv zeta. unfold evaluate_context.
  destruct budgets as [b|]; [|simpl; split_and!; try done; by split; [|intros (? & ? & _)]].
  destruct (exceeds (output_tokens cost) (max_output_tokens b)) eqn:E1; simpl;
    [|destruct (exceeds (input_tokens cost + multimodal_tokens cost) (max_input_tokens b)) eqn:E2;
      simpl; [|destruct (exceeds (total_tokens cost) (hard_max_tokens b)) eqn:E3; simpl;
        [|repeat case_match; simpl]]];
    (split_and!; [| done | done |]);
    (split; [intros Hy; try discriminate Hy; exists b; tauto
            | intros (b' & [= <-] & Hx);
              try done; destruct_or? Hx; destruct_and? Hx; congruence]).
Qed.

(** The reserved output covers whatever limit the client stated under either
    name, the totals add up, every count is non-negative and media without a
    per-unit price is flagged as unknown cost, never as free. *)
Theorem request_cost_covers repr_float r token_counter mm default_max :
  (forall u, mm = Some u -> 0 <= u)%Z ->
  let c := estimate_request_cost repr_float r token_counter mm default_max in
  (forall n, req_max_tokens r = Some n -> n <= output_tokens c)%Z
  /\ (forall n, req_max_completion_tokens r = Some n -> n <= output_tokens c)%Z
  /\ (0 <= input_tokens c)%Z /\ (0 <= output_tokens c)%Z
  /\ total_tokens c = (input_tokens c + output_tokens c + multimodal_tokens c)%Z
  /\ (has_unknown_cost c = true <-> media_parts c <> 0%Z /\ multimodal_tokens c = 0%Z)
  /\ (cost_status c = COST_STATUS_UNKNOWN <-> has_unknown_cost c = true).
Proof.
  intros Hmm. cbv zeta. unfold estimate_request_cost.
  destruct (message_text_and_media (req_messages r)) as [[text tp] media].
  assert (Hcount : forall t, (0 <= (count_tokens t token_counter).1)%Z).
  { intros t. assert (0 <= ceil_div4 (strlen t))%Z.
    { unfold ceil_div4, CHARS_PER_TOKEN_FALLBACK, strlen. apply Z.div_pos; lia. }
    unfold count_tokens. destruct token_counter as [f|]; [destruct (f t)|]; simpl; lia. }
  pose proof (Hcount text) as H1. destruct (count_tokens text token_counter) as [tt te].
  set (st := structured_prompt_text repr_float r). pose proof (Hcount st) as H2.
  destruct (if negb (String.eqb st "") then count_tokens st token_counter else (0%Z, true))
    as [sn se] eqn:Es.
  assert (0 <= sn)%Z.
  { destruct (negb (String.eqb st "")); [|by simplify_eq]. rewrite Es in H2. done. }
  unfold effective_output_limit. simpl in H1.
  assert (Hlast : forall c, cost_status c = COST_STATUS_UNKNOWN <-> has_unknown_cost c = true).
  { intros c. unfold cost_status. destruct (has_unknown_cost c); [done|].
    unfold COST_STATUS_EXACT, COST_STATUS_ESTIMATED, COST_STATUS_UNKNOWN.
    destruct (input_is_exact c && output_is_exact c && multimodal_is_exact c);
      split; intros Hz; discriminate Hz. }
  destruct (req_max_completion_tokens r) as [mc|] eqn:Emc, (req_max_tokens r) as [mt|] eqn:Emt;
    (destruct mm as [u|]; [specialize (Hmm u eq_refl);
       destruct (media =? 0)%Z eqn:E0, (u =? 0)%Z eqn:Eu|destruct (media =? 0)%Z eqn:E0]);
    cbn [negb andb]; reflect_tests; cbn [output_tokens input_tokens total_tokens has_unknown_cost
      media_parts multimodal_tokens];
    (split_and!; [intros ? [= <-] || done | intros ? [= <-] || done | lia | lia | done | | apply Hlast]);
    try lia; split; intros; destruct_and?; try done; try (split; [done | lia]); nia.
Qed.

Lemma request_cost_covers_witness :
  let m := mkMessage "user" (PList [PDict [("type", PStr "image_url")]]) None PNone None in
  let r := mkChatRequest "m" [m] (Some 256%Z) (Some 4096%Z) false PNone PNone PNone PNone in
  let c := estimate_request_cost (fun _ => ""%string) r None None 256 in
  (4096 <= output_tokens c)%Z /\ has_unknown_cost c = true.
Proof.
  cbv zeta. split; [|reflexivity].
  eapply (request_cost_covers (fun _ => ""%string) _ None None 256); [discriminate | reflexivity].
Defined.
