(* ===== verification/CapacityController.v ===== *)
(** * The capacity controller ([capacity_controller.py])

    Answers how many requests may execute: the effective limit from the operator
    ceiling, the mode, a measured profile and memory pressure, and the RUN, QUEUE
    or REJECT verdict for one request.  The controller's only state is its
    profile cache.  The file system is a [ProfileFS]: the modification time of a
    path and what loading it gives ([safe_load_profile], file I/O and pydantic
    validation); the physical memory size is an argument. *)

From S2P Require Import Prelude PyStr Config CapacityProfile CapacityContext.
From Stdlib Require Import Ascii.

Inductive CapacityAction := RUN | QUEUE | REJECT.

Definition CapacityAction_value (a : CapacityAction) : string :=
  match a with RUN => "run" | QUEUE => "queue" | REJECT => "reject" end.

#[export] Instance CapacityAction_eq_dec : EqDecision CapacityAction.
Proof. solve_decision. Defined.

(** ** Model identities *)

(** [s.rstrip("/")] *)
Fixpoint rstrip_slash (s : string) : string :=
  match s with
  | EmptyString => EmptyString
  | String c s' =>
      match rstrip_slash s' with
      | EmptyString => if Ascii.eqb c "/" then EmptyString else String c EmptyString
      | r => String c r
      end
  end.

(** [re.compile(r"/snapshots/[^/]+$").sub("", text)]: a non-empty last segment
    after a [snapshots] directory is dropped with it. *)
Definition strip_snapshot (text : string) : string :=
  match reverse (split_on "/" text) with
  | rev :: dir :: (_ :: _) as r =>
      if negb (String.eqb rev "") && String.eqb dir "snapshots"
      then join "/" (reverse (tail (tail r))) else text
  | _ => text
  end.

(** The text after the last occurrence of [p]: [s.rsplit(p, 1)[1]] when [p in s]. *)
Fixpoint after_last (p s : string) : option string :=
  match s with
  | EmptyString => None
  | String _ s' =>
      match after_last p s' with
      | Some t => Some t
      | None => if startswith p s then Some (String.substring (String.length p) (String.length s) s) else None
      end
  end.

(** [s.partition("--")] as the parts around the first occurrence. *)
Fixpoint partition_dashes (s : string) : string * option string :=
  match s with
  | EmptyString => (EmptyString, None)
  | String c s' =>
      if startswith "--" s then (EmptyString, Some (String.substring 2 (String.length s) s))
      else let '(a, b) := partition_dashes s' in (String c a, b)
  end.

(** [text.rsplit("/", 1)[-1]] *)
Definition last_segment (s : string) : string := default ""%string (last (split_on "/" s)).

(** [text.split("/", 1)[0]] *)
Definition first_segment (s : string) : string := default ""%string (head (split_on "/" s)).

Definition canonical_model_identity (value : string) : option string * string :=
  let text := rstrip_slash (strip value) in
  if String.eqb text "" then (None, ""%string)
  else
    let text := strip_snapshot text in
    match after_last "models--" text with
    | Some tail =>
        let head := first_segment tail in
        match partition_dashes head with
        | (org, Some name) =>
            if negb (String.eqb org "") && negb (String.eqb name "")
            then (Some (lower org +:+ "/" +:+ lower name)%string, lower name)
            else (None, lower head)
        | (_, None) => (None, lower head)
        end
    | None =>
        if startswith "/" text || startswith "./" text || startswith "../" text
           || startswith "~" text
        then (None, lower (last_segment text))
        else if contains "/" text then (Some (lower text), lower (last_segment text))
        else (None, lower text)
    end.

Definition model_identity_matches (profile_model_id candidate : string) : bool :=
  let '(left_repo, left_name) := canonical_model_identity profile_model_id in
  let '(right_repo, right_name) := canonical_model_identity candidate in
  if String.eqb left_name "" || String.eqb right_name "" then false
  else if str_truthy left_repo && str_truthy right_repo then bool_decide (left_repo = right_repo)
  else if str_truthy left_repo || str_truthy right_repo then false
  else String.eqb left_name right_name.

(** ** Evaluations and inputs *)

Record CapacityEvaluation := mkEvaluation {
  ev_action : CapacityAction;
  ev_effective_active_limit : Z;
  ev_operator_ceiling : Z;
  ev_mode : CapacityMode;
  ev_reason : CapacityDecisionReason;
  ev_calibrated_concurrency : option Z;
  ev_memory_pressure : MemoryPressureClass;
  ev_profile_loaded : bool;
  ev_profile_eligible : bool;
  ev_profile_rejection_reason : option string;
  ev_context_reason : option string;
  ev_context_budget : option string;
  ev_context_total_tokens : option Z;
  ev_context_breached_budget : option string;
  ev_lane : option string;
  ev_lane_max_concurrent : option Z;
  ev_lane_active_jobs : option Z;
  ev_lane_limited : bool;
}.

Definition evaluation_snapshot (e : CapacityEvaluation) : list (string * pyval) :=
  [("action", PStr (CapacityAction_value (ev_action e)));
   ("effective_active_limit", PInt (ev_effective_active_limit e));
   ("operator_ceiling", PInt (ev_operator_ceiling e));
   ("mode", PStr (CapacityMode_value (ev_mode e)));
   ("reason", PStr (CapacityDecisionReason_value (ev_reason e)));
   ("calibrated_concurrency", opt_int (ev_calibrated_concurrency e));
   ("memory_pressure", PStr (MemoryPressureClass_value (ev_memory_pressure e)));
   ("profile_loaded", PBool (ev_profile_loaded e));
   ("profile_eligible", PBool (ev_profile_eligible e));
   ("profile_rejection_reason", opt_str (ev_profile_rejection_reason e));
   ("context_reason", opt_str (ev_context_reason e));
   ("context_budget", opt_str (ev_context_budget e));
   ("context_breached_budget", opt_str (ev_context_breached_budget e));
   ("lane", opt_str (ev_lane e));
   ("lane_max_concurrent", opt_int (ev_lane_max_concurrent e));
   ("lane_active_jobs", opt_int (ev_lane_active_jobs e));
   ("lane_limited", PBool (ev_lane_limited e))]%string.

(** [CapacityContext] *)
Record CapacityContext := mkContext {
  cx_active_jobs : Z;
  cx_queue_depth : Z;
  cx_max_queue_depth : Z;
  cx_runtime_ready : bool;
  cx_memory_pressure : MemoryPressureClass;
  cx_requested_estimated_tokens : option Z;
  cx_request_cost : option RequestCost;
  cx_context_budgets : option ContextBudgets;
  cx_lane : option string;
  cx_lane_max_concurrent : option Z;
  cx_lane_active_jobs : Z;
}.

(** ** The controller *)

(** The files a controller may read. *)
Record ProfileFS := mkFS {
  fs_mtime : string -> option Q;
  fs_load : string -> option CapacityProfile;
}.

Definition signature : Type := string * option Q.

Definition mtime_eqb (a b : option Q) : bool :=
  match a, b with
  | Some x, Some y => Qeq_bool x y
  | None, None => true
  | _, _ => false
  end.

Definition sig_is (cached : option signature) (sig : signature) : bool :=
  match cached with
  | Some (p, m) => String.eqb p sig.1 && mtime_eqb m sig.2
  | None => false
  end.

Record CapacityController := mkController {
  profile_path : option string;
  cached_profile : option CapacityProfile;
  cached_profile_signature : option signature;
  cached_profile_failure_signature : option signature;
}.

Definition new_controller (path : option string) : CapacityController :=
  mkController path None None None.

Definition invalidate_profile_cache (c : CapacityController) : CapacityController :=
  mkController (profile_path c) None None None.

Section controller.
Variables (env : environ) (fs : ProfileFS) (host_memory : option Z).

(** The path the controller reads: [self._profile_path or get_capacity_profile_path()]. *)
Definition effective_path (c : CapacityController) : option string :=
  if str_truthy (profile_path c) then profile_path c
  else if str_truthy (get_capacity_profile_path env) then get_capacity_profile_path env
  else None.

Definition get_profile (c : CapacityController) : option CapacityProfile * CapacityController :=
  match effective_path c with
  | None => (None, c)
  | Some path =>
      let sig := (path, fs_mtime fs path) in
      if sig_is (cached_profile_signature c) sig
         && match cached_profile c with Some _ => true | None => false end
      then (cached_profile c, c)
      else if sig_is (cached_profile_failure_signature c) sig then (None, c)
      else
        let profile := fs_load fs path in
        (profile,
         mkController (profile_path c) profile (Some sig)
           match profile with Some _ => None | None => Some sig end)
  end.

(** Whether [get_profile] reads the file. *)
Definition reads_disk (c : CapacityController) : bool :=
  match effective_path c with
  | None => false
  | Some path =>
      let sig := (path, fs_mtime fs path) in
      negb (sig_is (cached_profile_signature c) sig
            && match cached_profile c with Some _ => true | None => false end)
      && negb (sig_is (cached_profile_failure_signature c) sig)
  end.

Definition host_status (p : CapacityProfile) : bool * option string :=
  match get_capacity_runtime env, get_capacity_machine_class env with
  | Some runtime, Some machine_class =>
      if negb (String.eqb (prof_runtime p) runtime) then (false, Some "runtime_mismatch"%string)
      else if negb (String.eqb (prof_machine_class p) machine_class)
      then (false, Some "machine_mismatch"%string)
      else
        match prof_host_memory_bytes p, host_memory with
        | Some pm, Some hm =>
            if negb (pm =? hm)%Z then (false, Some "host_memory_mismatch"%string) else (true, None)
        | Some _, None => (false, Some "host_memory_unavailable"%string)
        | None, _ => (true, None)
        end
  | _, _ => (false, Some "identity_unavailable"%string)
  end.

Definition context_budgets (model_id : option string) (c : CapacityController)
    : option ContextBudgets * CapacityController :=
  let '(profile, c) := get_profile c in
  match profile with
  | None => (None, c)
  | Some p =>
      match prof_context_budgets p with
      | None => (None, c)
      | Some budgets =>
          let same :=
            match model_id with
            | None => match get_capacity_model_id env with
                      | None => false
                      | Some configured => model_identity_matches (prof_model_id p) configured
                      end
            | Some m => model_identity_matches (prof_model_id p) m
            end in
          if negb same then (None, c)
          else if negb (host_status p).1 then (None, c) else (Some budgets, c)
      end
  end.

Definition profile_status (c : CapacityController)
    : (option CapacityProfile * bool * option string) * CapacityController :=
  let '(profile, c) := get_profile c in
  match profile with
  | None => ((None, false, Some "missing_profile"%string), c)
  | Some p =>
      match get_capacity_model_id env, get_capacity_runtime env, get_capacity_machine_class env with
      | Some model_id, Some _, Some _ =>
          if negb (String.eqb (prof_model_id p) model_id)
          then ((Some p, false, Some "model_mismatch"%string), c)
          else
            let '(eligible, reason) := host_status p in
            if negb eligible then ((Some p, false, reason), c) else ((Some p, true, None), c)
      | _, _, _ => ((Some p, false, Some "identity_unavailable"%string), c)
      end
  end.

Definition mode : CapacityMode :=
  if String.eqb (get_capacity_mode env) "adaptive" then ADAPTIVE else FIXED.

Definition operator_ceiling : Z := Z.max (get_max_active_requests env) 1.

Definition high_or_critical (p : MemoryPressureClass) : bool :=
  match p with MPC_HIGH | MPC_CRITICAL => true | _ => false end.

Definition effective_active_limit (pressure : MemoryPressureClass) (c : CapacityController)
    : Z * CapacityController :=
  let ceiling := operator_ceiling in
  match mode with
  | FIXED => (ceiling, c)
  | ADAPTIVE =>
      let '((profile, eligible, _), c) := profile_status c in
      match profile with
      | None => (ceiling, c)
      | Some p =>
          if negb eligible then (ceiling, c)
          else
            let calibrated := recommended_active_concurrency p in
            let limit := Z.min ceiling calibrated in
            let limit :=
              if get_capacity_memory_pressure_deny env && high_or_critical pressure
                 && (1 <? limit)%Z
              then Z.max (limit / 2) 1 else limit in
            (Z.max limit 1, c)
      end
  end.
End controller.

(** ** The decision *)

(** The fields [evaluate] computes before it decides, and every verdict shares. *)
Record verdict_fields := mkFields {
  vf_calibrated : option Z;
  vf_loaded : bool;
  vf_eligible : bool;
  vf_rejection : option string;
  vf_context_reason : option string;
  vf_context_budget : option string;
  vf_context_total : option Z;
  vf_context_breached : option string;
}.

Definition verdict (ctx : CapacityContext) (m : CapacityMode) (ceiling : Z) (f : verdict_fields)
    (lane_limited : bool) (action : CapacityAction) (limit : Z) (reason : CapacityDecisionReason)
    : CapacityEvaluation :=
  mkEvaluation action limit ceiling m reason (vf_calibrated f) (cx_memory_pressure ctx)
    (vf_loaded f) (vf_eligible f) (vf_rejection f) (vf_context_reason f) (vf_context_budget f)
    (vf_context_total f) (vf_context_breached f) (cx_lane ctx) (cx_lane_max_concurrent ctx)
    (Some (cx_lane_active_jobs ctx)) lane_limited.

(** The cost compared with the budgets: the request's own when admission has
    computed it, otherwise a bare total. *)
Definition context_cost (ctx : CapacityContext) : RequestCost :=
  match cx_request_cost ctx with
  | Some c => c
  | None =>
      mkCost 0 0 0 (default 0%Z (cx_requested_estimated_tokens ctx)) false false false false
        "default" 0 0
  end.

Definition lane_available (ctx : CapacityContext) : bool :=
  match cx_lane_max_concurrent ctx with
  | None => true
  | Some m => (cx_lane_active_jobs ctx <? Z.max m 1)%Z
  end.

Section evaluate.
Variables (env : environ) (fs : ProfileFS) (host_memory : option Z).

Definition evaluate (ctx : CapacityContext) (c : CapacityController)
    : CapacityEvaluation * CapacityController :=
  let ceiling := operator_ceiling env in
  let m := mode env in
  let '((profile, profile_eligible, profile_rejection_reason), c) :=
    match m with
    | ADAPTIVE => profile_status env fs host_memory c
    | FIXED => ((None, false, None), c)
    end in
  let profile_loaded := match profile with Some _ => true | None => false end in
  let calibrated := if profile_eligible then recommended_active_concurrency <$> profile else None in
  let context_eval :=
    match cx_context_budgets ctx with
    | None => None
    | Some b => Some (evaluate_context (context_cost ctx) (Some b))
    end in
  let f := mkFields calibrated profile_loaded profile_eligible profile_rejection_reason
             (ContextDecisionReason_value ∘ ce_reason <$> context_eval)
             (context_eval ≫= fun e => ContextBudget_value <$> ce_budget e)
             (ce_total_tokens <$> context_eval)
             (context_eval ≫= fun e => ContextBudget_value <$> ce_breached_budget e) in
  let over := match context_eval with Some e => ce_over_limit e | None => false end in
  let '(limit, c) := effective_active_limit env fs host_memory (cx_memory_pressure ctx) c in
  let result lane_limited action reason := verdict ctx m ceiling f lane_limited action limit reason in
  if over then (result false REJECT CONTEXT_OVERFLOW, c)
  else if negb (cx_runtime_ready ctx) then (result false REJECT RUNTIME_NOT_READY, c)
  else
    let global_available := (cx_active_jobs ctx <? limit)%Z in
    if global_available && lane_available ctx then
      if get_capacity_memory_pressure_deny env
         && bool_decide (cx_memory_pressure ctx = MPC_HIGH)
         && (limit <=? cx_active_jobs ctx + 1)%Z
      then (result false QUEUE MEMORY_PRESSURE_HIGH, c)
      else
        let reason :=
          match m, calibrated with
          | ADAPTIVE, Some n => if (n <? ceiling)%Z then CALIBRATED_LIMIT else OPERATOR_CEILING
          | _, _ => BELOW_OPERATOR_CEILING
          end in
        (result false RUN reason, c)
    else
      let queue_has_room := (cx_queue_depth ctx <? cx_max_queue_depth ctx)%Z in
      if negb (lane_available ctx) then
        (result true (if queue_has_room then QUEUE else REJECT) LANE_CAPACITY, c)
      else if negb queue_has_room then (result false REJECT QUEUE_FULL, c)
      else
        let reason :=
          match m, calibrated with
          | ADAPTIVE, Some _ => CALIBRATED_LIMIT
          | _, _ => OPERATOR_CEILING
          end in
        (result false QUEUE reason, c).

Definition snapshot (active_jobs queue_depth max_queue_depth : Z) (runtime_ready : bool)
    (pressure : MemoryPressureClass) (c : CapacityController)
    : list (string * pyval) * CapacityController :=
  let '(e, c) :=
    evaluate (mkContext active_jobs queue_depth max_queue_depth runtime_ready pressure None None None
                None None 0) c in
  let '((profile, _, _), c) :=
    match mode env with
    | ADAPTIVE => profile_status env fs host_memory c
    | FIXED => ((None, false, None), c)
    end in
  (evaluation_snapshot e ++
   [("capacity_mode", PStr (CapacityMode_value (ev_mode e)));
    ("capacity_reason", PStr (CapacityDecisionReason_value (ev_reason e)));
    ("active_jobs", PInt active_jobs);
    ("queue_depth", PInt queue_depth);
    ("max_queue_depth", PInt max_queue_depth);
    ("runtime_ready", PBool runtime_ready);
    ("profile_model_id", opt_str (prof_model_id <$> profile));
    ("profile_runtime", opt_str (prof_runtime <$> profile));
    ("profile_machine_class", opt_str (prof_machine_class <$> profile));
    ("configured_capacity_model_id", opt_str (get_capacity_model_id env));
    ("configured_capacity_runtime", opt_str (get_capacity_runtime env));
    ("configured_capacity_machine_class", opt_str (get_capacity_machine_class env))]%string, c).
End evaluate.

(** ** Lemmas *)

Section limits.
Context (env : environ) (fs : ProfileFS) (host_memory : option Z).

(** The limit without the controller's cache. *)
Definition limit_of (pressure : MemoryPressureClass) (c : CapacityController) : Z :=
  (effective_active_limit env fs host_memory pressure c).1.

Lemma operator_ceiling_pos : (1 <= operator_ceiling env)%Z.
Proof. unfold operator_ceiling. lia. Qed.

Lemma limit_bounds pressure c : (1 <= limit_of pressure c <= operator_ceiling env)%Z.
Proof.
  pose proof operator_ceiling_pos. unfold limit_of, effective_active_limit.
  destruct (mode env); [simpl; lia|].
  destruct (profile_status env fs host_memory c) as [[[profile eligible] r] c'].
  destruct profile as [p|]; [|simpl; lia]. destruct eligible; [|simpl; lia]. cbn [negb fst].
  set (lim := Z.min _ _).
  assert (lim <= operator_ceiling env)%Z by (unfold lim; lia).
  split_if; [|lia].
  assert (1 < lim)%Z by (reflect_tests; lia).
  pose proof (Z.div_le_upper_bound lim 2 lim ltac:(lia) ltac:(lia)). lia.
Qed.
End limits.

#[export] Hint Resolve limit_bounds operator_ceiling_pos : whoosh.

(** ** Properties *)

(** The effective limit is always between one and the operator ceiling;
    fixed mode and adaptive mode without an eligible profile give exactly the
    ceiling, and an eligible profile can only lower it. *)
Theorem effective_limit_bounded env fs host_memory pressure c :
  let limit := (effective_active_limit env fs host_memory pressure c).1 in
  (1 <= limit <= operator_ceiling env)%Z
  /\ (mode env = FIXED -> limit = operator_ceiling env)
  /\ (forall p eligible r, (profile_status env fs host_memory c).1 = (p, eligible, r) ->
        (p = None \/ eligible = false -> limit = operator_ceiling env)
        /\ (forall pr, p = Some pr -> eligible = true -> mode env = ADAPTIVE ->
              limit <= Z.max 1 (recommended_active_concurrency pr))%Z).
Proof.
  cbv zeta. split; [apply limit_bounds|]. split.
  - intros H. unfold effective_active_limit. by rewrite H.
  - intros p eligible r Hs. unfold effective_active_limit.
    destruct (mode env); [split; [done | by intros]|].
    destruct (profile_status env fs host_memory c) as [s c']. simpl in Hs. subst s. split.
    + intros [-> | ->]; [done|]. by destruct p.
    + intros pr -> -> _. cbn [negb fst]. set (lim := Z.min _ _).
      assert (lim <= recommended_active_concurrency pr)%Z by (unfold lim; lia).
      split_if; [|lia]. reflect_tests.
      pose proof (Z.div_le_upper_bound lim 2 lim ltac:(lia) ltac:(lia)). lia.
Qed.

Definition sample_env : environ :=
  [("WHOOSHD_CAPACITY_MODE", "adaptive"); ("WHOOSHD_MAX_ACTIVE_REQUESTS", "8");
   ("WHOOSHD_CAPACITY_MODEL_ID", "org/model"); ("WHOOSHD_CAPACITY_RUNTIME", "stub");
   ("WHOOSHD_CAPACITY_MACHINE_CLASS", "mac"); ("WHOOSHD_CAPACITY_PROFILE_PATH", "/p.json")]%string.

Definition sample_profile : CapacityProfile :=
  mkProfile "org/model" "stub" "mac" None 4
    (Some (mkBudgets (Some 1000%Z) None None None None None)).

Definition sample_fs : ProfileFS := mkFS (fun _ => Some 1%Q) (fun _ => Some sample_profile).

Lemma effective_limit_bounded_witness :
  let limit := (effective_active_limit sample_env sample_fs None MPC_HIGH (new_controller None)).1 in
  limit = 2%Z /\ (limit <= Z.max 1 4)%Z.
Proof.
  cbv zeta. split; [vm_compute; reflexivity|].
  destruct (effective_limit_bounded sample_env sample_fs None MPC_HIGH (new_controller None))
    as (_ & _ & H).
  destruct (H (Some sample_profile) true None) as [_ H2]; [vm_compute; reflexivity|].
  apply (H2 sample_profile); vm_compute; reflexivity.
Defined.

(** The context verdict of a request. *)
Definition over_budget (ctx : CapacityContext) : bool :=
  match cx_context_budgets ctx with
  | None => false
  | Some b => ce_over_limit (evaluate_context (context_cost ctx) (Some b))
  end.

(** The last free slot is held back under high memory pressure. *)
Definition pressure_holds (env : environ) (ctx : CapacityContext) (limit : Z) : bool :=
  get_capacity_memory_pressure_deny env && bool_decide (cx_memory_pressure ctx = MPC_HIGH)
  && (limit <=? cx_active_jobs ctx + 1)%Z.

(** A specification of the verdict by priority, without the bookkeeping. *)
Definition verdict_spec (env : environ) (ctx : CapacityContext) (limit : Z) : CapacityAction :=
  if over_budget ctx || negb (cx_runtime_ready ctx) then REJECT
  else if (cx_active_jobs ctx <? limit)%Z && lane_available ctx then
    if pressure_holds env ctx limit then QUEUE else RUN
  else if (cx_queue_depth ctx <? cx_max_queue_depth ctx)%Z then QUEUE else REJECT.

Lemma evaluate_refines_spec env fs host_memory ctx c :
  exists c', let e := (evaluate env fs host_memory ctx c).1 in
    let limit := limit_of env fs host_memory (cx_memory_pressure ctx) c' in
    ev_effective_active_limit e = limit
    /\ ev_action e = verdict_spec env ctx limit
    /\ (ev_reason e = CONTEXT_OVERFLOW <-> over_budget ctx = true)
    /\ (ev_reason e = MEMORY_PRESSURE_HIGH -> pressure_holds env ctx limit = true
          /\ (cx_active_jobs ctx < limit)%Z)
    /\ (ev_lane_limited e = true -> lane_available ctx = false).
Proof.
  unfold evaluate, verdict_spec, over_budget, limit_of, pressure_holds.
  set (ps := match mode env with FIXED => _ | ADAPTIVE => _ end).
  destruct ps as [[[profile el] rr] c']. exists c'. cbv zeta.
  set (cx := match cx_context_budgets ctx with None => None | Some b => Some _ end).
  assert (Hov : match cx with Some e => ce_over_limit e | None => false end
    = match cx_context_budgets ctx with
      | None => false
      | Some b => ce_over_limit (evaluate_context (context_cost ctx) (Some b)) end)
    by (unfold cx; by destruct (cx_context_budgets ctx)).
  rewrite <- Hov. clearbody cx.
  destruct (effective_active_limit env fs host_memory (cx_memory_pressure ctx) c') as [limit c''].
  cbn [fst snd].
  destruct (match cx with Some e => ce_over_limit e | None => false end); [by split_and!|].
  destruct (cx_runtime_ready ctx); [cbn [negb orb]|by split_and!].
  destruct (cx_active_jobs ctx <? limit)%Z eqn:Ea, (lane_available ctx) eqn:El; cbn [andb negb];
    repeat match goal with
    | |- context [if ?b then _ else _] =>
        lazymatch b with
        | el => fail
        | (_ <? operator_ceiling _)%Z => fail
        | _ => destruct b eqn:?
        end
    end; cbn; reflect_tests; split_and!; try done;
    repeat case_match; try done; intros; reflect_tests; done || (by split) || lia.
Qed.

(** C34: The verdict refines its priority specification: context overflow and an
    unready runtime reject, otherwise both the global and the lane budget must
    have room to run, otherwise the request queues while the queue has room.  A
    RUN verdict therefore never takes the broker over the operator ceiling nor
    the lane over its own ceiling. *)
Theorem evaluate_refines_verdict env fs host_memory ctx c :
  let e := (evaluate env fs host_memory ctx c).1 in
  let limit := ev_effective_active_limit e in
  (1 <= limit <= operator_ceiling env)%Z
  /\ ev_action e = verdict_spec env ctx limit
  /\ (ev_action e = RUN -> (cx_active_jobs ctx + 1 <= operator_ceiling env)%Z
        /\ forall m, cx_lane_max_concurrent ctx = Some m ->
             (cx_lane_active_jobs ctx + 1 <= Z.max m 1)%Z)
  /\ (ev_reason e = CONTEXT_OVERFLOW <-> over_budget ctx = true).
Proof.
  cbv zeta. destruct (evaluate_refines_spec env fs host_memory ctx c)
    as (c' & Hlim & Hact & Hov & _ & _). cbv zeta in *.
  rewrite Hlim, Hact. pose proof (limit_bounds env fs host_memory (cx_memory_pressure ctx) c').
  split_and!; [lia.. | done | | done]. unfold verdict_spec. intros Hr.
  destruct (over_budget ctx || negb (cx_runtime_ready ctx)); [done|].
  destruct (cx_active_jobs ctx <? _)%Z eqn:Ea; cbn [andb] in Hr; [|by case_match].
  destruct (lane_available ctx) eqn:El; [|by case_match]. reflect_tests.
  split; [lia|]. intros m Hm. unfold lane_available in El. rewrite Hm in El. reflect_tests. lia.
Qed.

(** The memory-pressure override queues whatever the queue's occupancy: with
    the last slot held back, a full queue still yields QUEUE and not REJECT. *)
Theorem pressure_override_ignores_queue_bound env fs host_memory ctx c :
  let e := (evaluate env fs host_memory ctx c).1 in
  over_budget ctx = false -> cx_runtime_ready ctx = true -> lane_available ctx = true ->
  (cx_active_jobs ctx < ev_effective_active_limit e)%Z ->
  pressure_holds env ctx (ev_effective_active_limit e) = true ->
  ev_action e = QUEUE.
Proof.
  cbv zeta. destruct (evaluate_refines_spec env fs host_memory ctx c)
    as (c' & Hlim & Hact & _). cbv zeta in *.
  intros H1 H2 H3 H4 H5. rewrite Hact. unfold verdict_spec. rewrite Hlim in *.
  rewrite H1, H2, H3. simpl. apply Z.ltb_lt in H4. rewrite H4. simpl. by rewrite H5.
Qed.

Lemma pressure_override_ignores_queue_bound_witness :
  let ctx := mkContext 1 8 8 true MPC_HIGH None None None None None 0 in
  ev_action (evaluate [] sample_fs None ctx (new_controller None)).1 = QUEUE.
Proof.
  cbv zeta. apply (pressure_override_ignores_queue_bound [] sample_fs None
    (mkContext 1 8 8 true MPC_HIGH None None None None None 0) (new_controller None));
    vm_compute; reflexivity.
Defined.

(** *** Model identity *)

(** What an identity is compared by: its repository, or its bare name. *)
Definition identity_key (value : string) : option string * string :=
  let '(repo, name) := canonical_model_identity value in
  if str_truthy repo then (repo, ""%string) else (None, name).

Lemma identity_matches_key a b :
  model_identity_matches a b = true <->
  (canonical_model_identity a).2 <> ""%string /\ (canonical_model_identity b).2 <> ""%string
  /\ identity_key a = identity_key b.
Proof.
  unfold model_identity_matches, identity_key.
  destruct (canonical_model_identity a) as [ra na], (canonical_model_identity b) as [rb nb]. simpl.
  destruct (String.eqb_spec na ""), (String.eqb_spec nb ""); simpl; try naive_solver.
  destruct (str_truthy ra) eqn:Ea, (str_truthy rb) eqn:Eb; simpl.
  - rewrite bool_decide_eq_true. naive_solver.
  - split; [done|]. intros (_ & _ & [= ->]). done.
  - split; [done|]. intros (_ & _ & [= <-]). done.
  - rewrite String.eqb_eq. naive_solver.
Qed.

Lemma startswith_before_slash p a b :
  string_forallb (fun c => negb (Ascii.eqb c "/")) p = true ->
  startswith p (a +:+ String "/" b)%string = true -> startswith p a = true.
Proof.
  revert a. induction p as [|c p IH]; intros a; [done|].
  simpl. intros [Hc Hp]%andb_prop. destruct a as [|d a]; simpl.
  - intros [He _]%andb_prop. by rewrite He in Hc.
  - intros [He Hs]%andb_prop. rewrite He. simpl. by apply IH.
Qed.

Lemma after_last_slash p a b :
  string_forallb (fun c => negb (Ascii.eqb c "/")) p = true -> p <> ""%string ->
  after_last p a = None -> after_last p b = None ->
  after_last p (a +:+ String "/" b)%string = None.
Proof.
  intros Hp Hne. induction a as [|c a IH]; intros Ha Hb.
  - simpl. rewrite Hb. destruct p as [|d p]; [done|]. simpl in *.
    apply andb_prop in Hp as [Hd _]. by destruct (Ascii.eqb d "/").
  - change (String c a +:+ String "/" b)%string with (String c (a +:+ String "/" b))%string.
    cbn [after_last] in *. destruct (after_last p a) eqn:Ea; [done|].
    rewrite IH by done. destruct (startswith p (String c (a +:+ String "/" b))) eqn:Es; [|done].
    change (String c (a +:+ String "/" b))%string with (String c a +:+ String "/" b)%string in Es.
    apply startswith_before_slash in Es; [|done]. by rewrite Es in Ha.
Qed.

(** A path segment that is an ordinary organisation or model name. *)
Definition plain_char (c : ascii) : bool := negb (is_space c) && negb (Ascii.eqb c "/").

Definition plain_segment (s : string) : bool :=
  string_forallb plain_char s
  && match s with
     | EmptyString => false
     | String c _ => negb (Ascii.eqb c ".") && negb (Ascii.eqb c "~")
     end
  && match after_last "models--" s with None => true | Some _ => false end.

Lemma rstrip_slash_app a s :
  s <> ""%string -> rstrip_slash s = s -> rstrip_slash (a +:+ s)%string = (a +:+ s)%string.
Proof.
  intros Hne Hs. induction a as [|c a IH]; [done|].
  change (String c a +:+ s)%string with (String c (a +:+ s))%string. simpl. rewrite IH.
  by destruct a as [|d a]; [destruct s|].
Qed.

Lemma rstrip_slash_plain s : string_forallb plain_char s = true -> rstrip_slash s = s.
Proof.
  induction s as [|c s IH]; simpl; [done|]. intros [Hc Hs]%andb_prop. rewrite IH by done.
  destruct s; [|done]. unfold plain_char in Hc. by apply andb_prop in Hc as [_ ->%negb_true_iff].
Qed.

Lemma plain_lacks_slash s : string_forallb plain_char s = true -> lacks "/" s.
Proof. apply string_forallb_impl. unfold plain_char. by intros c [_ ?]%andb_prop. Qed.

Lemma split_on_join a b :
  string_forallb plain_char a = true -> string_forallb plain_char b = true ->
  split_on "/" (a +:+ String "/" b)%string = [a; b].
Proof. intros Ha Hb. by rewrite split_on_app, split_on_word by by apply plain_lacks_slash. Qed.

Lemma lower_app a b : lower (a +:+ b)%string = (lower a +:+ lower b)%string.
Proof.
  induction a as [|c a IH]; [done|].
  change (String c a +:+ b)%string with (String c (a +:+ b))%string. simpl. by rewrite IH.
Qed.

Lemma contains_slash a b : contains "/" (a +:+ String "/" b)%string = true.
Proof.
  induction a as [|c a IH]; [done|].
  change (String c a +:+ String "/" b)%string with (String c (a +:+ String "/" b))%string.
  cbn [contains]. by rewrite IH, orb_true_r.
Qed.

Lemma is_none_true {A} (o : option A) :
  match o with None => true | Some _ => false end = true -> o = None.
Proof. by destruct o. Qed.

Lemma plain_not_space s :
  string_forallb plain_char s = true -> string_forallb (fun c => negb (is_space c)) s = true.
Proof. apply string_forallb_impl. intros c Hc. by apply andb_prop in Hc as [? _]. Qed.

Lemma canonical_repo_id org name :
  plain_segment org = true -> plain_segment name = true ->
  canonical_model_identity (org +:+ String "/" name)%string
  = (Some (lower (org +:+ String "/" name)%string), lower name).
Proof.
  unfold plain_segment. intros [[Ho1 Ho2]%andb_prop Ho3]%andb_prop.
  intros [[Hn1 Hn2]%andb_prop Hn3]%andb_prop.
  destruct org as [|o org]; [done|]. destruct name as [|n name]; [done|].
  unfold canonical_model_identity.
  rewrite strip_id.
  2:{ rewrite string_forallb_app, (plain_not_space (String o org)) by done.
      change (String "/" (String n name)) with ("/" +:+ String n name)%string.
      rewrite string_forallb_app, (plain_not_space (String n name)) by done. done. }
  change (String o org +:+ String "/" (String n name))%string
    with (String o (org +:+ String "/" (String n name)))%string.
  assert (Hrs : rstrip_slash (String o (org +:+ String "/" (String n name)))%string
    = String o (org +:+ String "/" (String n name))%string).
  { apply (rstrip_slash_app (String o org) (String "/" (String n name))); [done|].
    apply (rstrip_slash_app (String "/" "") (String n name)); [done|].
    by apply rstrip_slash_plain. }
  rewrite Hrs. cbn [String.eqb].
  pose proof (split_on_join (String o org) (String n name) Ho1 Hn1) as Hsp.
  change (String o org +:+ String "/" (String n name))%string
    with (String o (org +:+ String "/" (String n name)))%string in Hsp.
  assert (Hss : strip_snapshot (String o (org +:+ String "/" (String n name)))%string
    = String o (org +:+ String "/" (String n name))%string).
  { unfold strip_snapshot. by rewrite Hsp. }
  rewrite Hss.
  assert (Hal : after_last "models--" (String o (org +:+ String "/" (String n name)))%string = None).
  { apply (after_last_slash "models--" (String o org) (String n name));
      [done | done | by apply is_none_true | by apply is_none_true]. }
  rewrite Hal. apply andb_prop in Ho2 as [Hd Ht]. simpl in Ho1. apply andb_prop in Ho1 as [Ho1 _].
  unfold plain_char in Ho1. apply andb_prop in Ho1 as [_ Hs].
  assert (Hpre : startswith "/" (String o (org +:+ String "/" (String n name)))
    || startswith "./" (String o (org +:+ String "/" (String n name)))
    || startswith "../" (String o (org +:+ String "/" (String n name)))
    || startswith "~" (String o (org +:+ String "/" (String n name))) = false).
  { cbn [startswith]. rewrite !(Ascii.eqb_sym _ o).
    apply negb_true_iff in Hd, Ht, Hs. rewrite Hd, Ht, Hs. done. }
  rewrite Hpre.
  pose proof (contains_slash (String o org) (String n name)) as Hc.
  change (String o org +:+ String "/" (String n name))%string
    with (String o (org +:+ String "/" (String n name)))%string in Hc.
  rewrite Hc. unfold last_segment. by rewrite Hsp.
Qed.

(** Asserting that two identities name the same model is symmetric and
    transitive, and reflexive on every identity that names something; two
    repository ids match only when they are equal up to letter case, so two
    organisations' models with the same base name are never conflated, whatever
    their names. *)
Theorem model_identity_partial_equivalence :
  (forall a b, model_identity_matches a b = model_identity_matches b a)
  /\ (forall a b c, model_identity_matches a b = true -> model_identity_matches b c = true ->
        model_identity_matches a c = true)
  /\ (forall a, model_identity_matches a a = true <-> (canonical_model_identity a).2 <> ""%string)
  /\ (forall org org' name, plain_segment org = true -> plain_segment org' = true ->
        plain_segment name = true ->
        model_identity_matches (org +:+ String "/" name)%string (org' +:+ String "/" name)%string
          = true ->
        lower org = lower org').
Proof.
  split_and!.
  - intros a b. apply eq_bool_prop_intro. rewrite !Is_true_true, !identity_matches_key. naive_solver.
  - intros a b c. rewrite !identity_matches_key. naive_solver congruence.
  - intros a. rewrite identity_matches_key. naive_solver.
  - intros org org' name Ho Ho' Hn. rewrite identity_matches_key. unfold identity_key.
    rewrite !canonical_repo_id by done.
    assert (Ht : forall x, str_truthy (Some (lower (x +:+ String "/" name)%string)) = true).
    { intros x. rewrite lower_app. simpl. by destruct (lower x). }
    rewrite !Ht. intros (_ & _ & Heq). injection Heq as Heq. rewrite !lower_app in Heq.
    by apply string_app_inv_tail in Heq.
Qed.

(** *** The profile cache *)

(** What the cache remembers is what loading the file would give, for the states
    of the file it was taken from. *)
Definition cache_coherent (fs : ProfileFS) (c : CapacityController) : Prop :=
  (forall p m pr, cached_profile_signature c = Some (p, m) -> cached_profile c = Some pr ->
     mtime_eqb m (fs_mtime fs p) = true -> fs_load fs p = Some pr)
  /\ (forall p m, cached_profile_failure_signature c = Some (p, m) ->
     mtime_eqb m (fs_mtime fs p) = true -> fs_load fs p = None).

Lemma sig_is_Some cached p m :
  sig_is cached (p, m) = true -> exists m', cached = Some (p, m') /\ mtime_eqb m' m = true.
Proof.
  destruct cached as [[p' m']|]; [|done]. simpl. intros [H1 H2]%andb_prop.
  apply String.eqb_eq in H1 as ->. eauto.
Qed.

Lemma mtime_eqb_refl m : mtime_eqb m m = true.
Proof. destruct m; [apply Qeq_bool_refl | done]. Qed.

Lemma mtime_eqb_trans a b c :
  mtime_eqb a b = true -> mtime_eqb b c = true -> mtime_eqb a c = true.
Proof.
  destruct a, b, c; simpl; try done. rewrite !Qeq_bool_iff. intros -> ->. reflexivity.
Qed.

Lemma get_profile_spec env fs c :
  cache_coherent fs c ->
  (get_profile env fs c).1 = (effective_path env c ≫= fs_load fs)
  /\ cache_coherent fs (get_profile env fs c).2
  /\ profile_path (get_profile env fs c).2 = profile_path c
  /\ reads_disk env fs (get_profile env fs c).2 = false.
Proof.
  intros [Hc1 Hc2]. unfold get_profile, reads_disk.
  destruct (effective_path env c) as [path|] eqn:Ep; [|cbn [fst snd]; by rewrite Ep].
  destruct (sig_is (cached_profile_signature c) (path, fs_mtime fs path)
            && match cached_profile c with Some _ => true | None => false end) eqn:E1.
  { cbn [fst snd]. rewrite Ep, E1. split_and!; try done.
    apply andb_prop in E1 as [E1 E2]. apply sig_is_Some in E1 as (m' & Hs & Hm).
    destruct (cached_profile c) as [pr|] eqn:Ecp; [|done]. simpl. symmetry. by eapply Hc1. }
  destruct (sig_is (cached_profile_failure_signature c) (path, fs_mtime fs path)) eqn:E2.
  { cbn [fst snd]. rewrite Ep, E1, E2. split_and!; try done.
    apply sig_is_Some in E2 as (m' & Hs & Hm). simpl. symmetry. by eapply Hc2. }
  cbn [fst snd profile_path]. unfold effective_path in *. cbn [profile_path].
  rewrite Ep. cbn [cached_profile cached_profile_signature cached_profile_failure_signature].
  split_and!; [done | | done |].
  - split; simpl.
    + intros p m pr [= <- <-] H _. done.
    + intros p m. by destruct (fs_load fs path) eqn:El; intros [= <- <-].
  - simpl. rewrite String.eqb_refl, mtime_eqb_refl. simpl.
    destruct (fs_load fs path); simpl; [done|]. by rewrite String.eqb_refl, mtime_eqb_refl.
Qed.

(** The profile cache is coherent.  As long as a file's content only changes
    together with its modification time, [get_profile] returns what loading the
    current file would give, also after the file system has changed, and a second
    call on an unchanged file reads nothing, whether the load succeeded or
    failed. *)
Theorem profile_cache_coherent env fs fs' c :
  cache_coherent fs c ->
  (forall p, mtime_eqb (fs_mtime fs p) (fs_mtime fs' p) = true -> fs_load fs' p = fs_load fs p) ->
  (forall p m, cached_profile_signature c = Some (p, m)
     \/ cached_profile_failure_signature c = Some (p, m) -> mtime_eqb m (fs_mtime fs p) = true) ->
  (get_profile env fs' c).1 = (effective_path env c ≫= fs_load fs')
  /\ reads_disk env fs' (get_profile env fs' c).2 = false.
Proof.
  intros [Hc1 Hc2] Hfs Hcur.
  destruct (get_profile_spec env fs' c) as (H1 & _ & _ & H2); [|done].
  assert (Hsame : forall p m, mtime_eqb m (fs_mtime fs p) = true ->
    mtime_eqb m (fs_mtime fs' p) = true -> fs_load fs' p = fs_load fs p).
  { intros p m Hm Hm'. apply Hfs. eapply mtime_eqb_trans; [|exact Hm'].
    destruct m, (fs_mtime fs p); simpl in *; try done. by rewrite Qeq_bool_sym. }
  split.
  - intros p m pr Hs Hp Hm. pose proof (Hcur p m (or_introl Hs)) as Hm0.
    rewrite (Hsame p m Hm0 Hm). by eapply Hc1.
  - intros p m Hs Hm. pose proof (Hcur p m (or_intror Hs)) as Hm0.
    rewrite (Hsame p m Hm0 Hm). by eapply Hc2.
Qed.

Lemma profile_cache_coherent_witness :
  let c := (get_profile sample_env sample_fs (new_controller None)).2 in
  let fs' := mkFS (fun _ => Some 2%Q) (fun _ => None) in
  (get_profile sample_env fs' c).1 = None
  /\ reads_disk sample_env fs' (get_profile sample_env fs' c).2 = false.
Proof.
  cbv zeta. apply (profile_cache_coherent sample_env sample_fs
    (mkFS (fun _ => Some 2%Q) (fun _ => None))
    (get_profile sample_env sample_fs (new_controller None)).2).
  - apply get_profile_spec. by split.
  - intros p H. discriminate H.
  - intros p m [[= <- <-]|H]; [reflexivity | discriminate H].
Defined.
