(* ===== verification/Admission.v ===== *)
(** * Admission control ([admission.py])

    The structural rules (message count, prompt size, [max_tokens] cap) reject
    first; everything else is the capacity controller's verdict, translated into
    an [AdmissionResult] with its HTTP status.  The process-wide controller is
    threaded explicitly, because evaluating a request may fill its profile cache. *)

From S2P Require Import Prelude PyStr Config Contracts CapacityProfile CapacityContext.
From S2P Require Import CapacityController ControlPlane Runtime.

Inductive AdmissionDecision :=
| AD_ACCEPTED | AD_QUEUED | REJECTED_OVERLOADED | REJECTED_QUEUE_FULL | REJECTED_PROMPT_TOO_LARGE
| REJECTED_TOO_MANY_MESSAGES | REJECTED_MAX_TOKENS_TOO_HIGH | REJECTED_MODEL_NOT_READY
| REJECTED_CONTEXT_OVERFLOW.

Definition AdmissionDecision_value (d : AdmissionDecision) : string :=
  match d with
  | AD_ACCEPTED => "accepted"
  | AD_QUEUED => "queued"
  | REJECTED_OVERLOADED => "rejected_overloaded"
  | REJECTED_QUEUE_FULL => "rejected_queue_full"
  | REJECTED_PROMPT_TOO_LARGE => "rejected_prompt_too_large"
  | REJECTED_TOO_MANY_MESSAGES => "rejected_too_many_messages"
  | REJECTED_MAX_TOKENS_TOO_HIGH => "rejected_max_tokens_too_high"
  | REJECTED_MODEL_NOT_READY => "rejected_model_not_ready"
  | REJECTED_CONTEXT_OVERFLOW => "rejected_context_overflow"
  end.

#[export] Instance AdmissionDecision_eq_dec : EqDecision AdmissionDecision.
Proof. solve_decision. Defined.

Record AdmissionResult := mkAdmission {
  ar_accepted : bool;
  ar_reason : AdmissionDecision;
  ar_error_code : option ErrorCode;
  ar_message : option string;
  ar_details : list (string * pyval);
  ar_http_status : Z;
}.

(** [len(part.get("text", ""))]; [None] is the [TypeError] of a value without a
    length, such as [null]. *)
Definition text_len (v : option pyval) : option Z :=
  match v with
  | None => Some 0%Z
  | Some (PStr s) => Some (strlen s)
  | Some (PList l) => Some (Z.of_nat (length l))
  | Some (PDict d) => Some (Z.of_nat (length d))
  | Some _ => None
  end.

Definition part_chars (part : pyval) : option Z :=
  match part with
  | PDict p =>
      match obj_get "type" p with
      | Some (PStr t) => if String.eqb t "text" then text_len (obj_get "text" p) else Some 0%Z
      | _ => Some 0%Z
      end
  | _ => Some 0%Z
  end.

Definition message_chars (m : ChatMessage) : option Z :=
  match msg_content m with
  | PStr s => Some (strlen s)
  | PList parts => sumZ <$> mapM part_chars parts
  | _ => Some 0%Z
  end.

(** [_estimade_prompt_chars] *)
Definition estimade_prompt_chars (r : ChatCompletionRequest) : option Z :=
  sumZ <$> mapM message_chars (req_messages r).

Definition memory_pressure_from_runtime (rt : RuntimeState) : MemoryPressureClass :=
  let val := lower (MemoryPressure_value (pressure (rt_memory rt))) in
  if String.eqb val "normal" then MPC_NORMAL
  else if String.eqb val "elevated" then MPC_ELEVATED
  else if String.eqb val "high" then MPC_HIGH
  else if String.eqb val "critical" then MPC_CRITICAL
  else MPC_UNKNOWN.

(** The details shared by the accepted and the queued result. *)
Definition context_details (cost : RequestCost) (ce : ContextEvaluation) (ev : CapacityEvaluation)
    : list (string * pyval) :=
  [("estimated_tokens", PInt (total_tokens cost));
   ("context_reason", PStr (ContextDecisionReason_value (ce_reason ce)));
   ("context_cost_is_exact", PBool (ce_cost_is_exact ce));
   ("context_cost_status", PStr (ce_cost_status ce));
   ("context_cost_has_unknown", PBool (has_unknown_cost cost));
   ("context_budget", opt_budget (ce_budget ce));
   ("context_max_input_tokens", opt_int (ce_max_input_tokens ce));
   ("context_max_output_tokens", opt_int (ce_max_output_tokens ce));
   ("lane", opt_str (ev_lane ev));
   ("lane_max_concurrent", opt_int (ev_lane_max_concurrent ev));
   ("lane_active_jobs", opt_int (ev_lane_active_jobs ev));
   ("lane_limited", PBool (ev_lane_limited ev))]%string.

Definition context_overflow_result (cost : RequestCost) (ce : ContextEvaluation)
    : AdmissionResult :=
  mkAdmission false REJECTED_CONTEXT_OVERFLOW (Some CONTEXT_OVERFLOW)
    (Some ("Request exceeds the model's hard context budget (" +:+ pretty (total_tokens cost)
           +:+ " tokens).")%string)
    [("estimated_tokens", PInt (total_tokens cost));
     ("input_tokens", PInt (input_tokens cost));
     ("output_tokens", PInt (output_tokens cost));
     ("multimodal_tokens", PInt (multimodal_tokens cost));
     ("input_is_exact", PBool (input_is_exact cost));
     ("context_reason", PStr (ContextDecisionReason_value (ce_reason ce)));
     ("context_cost_is_exact", PBool (ce_cost_is_exact ce));
     ("context_cost_status", PStr (ce_cost_status ce));
     ("context_cost_has_unknown", PBool (has_unknown_cost cost));
     ("context_budget", opt_budget (ce_budget ce));
     ("context_breached_budget", opt_budget (ce_breached_budget ce));
     ("hard_max_tokens", opt_int (ce_hard_max_tokens ce));
     ("recommended_max_tokens", opt_int (ce_recommended_max_tokens ce));
     ("interactive_max_tokens", opt_int (ce_interactive_max_tokens ce));
     ("context_max_input_tokens", opt_int (ce_max_input_tokens ce));
     ("context_max_output_tokens", opt_int (ce_max_output_tokens ce))]%string 422.

(** [_capacity_context] *)
Definition capacity_context (rt : RuntimeState) (max_queue : Z) (mp : MemoryPressureClass)
    (tokens : option Z) (cost : option RequestCost) (budgets : option ContextBudgets)
    (ln : option string) (lane_max : option Z) (lane_active : Z) : CapacityContext :=
  mkContext (active_jobs rt) (queue_depth rt) max_queue true mp tokens cost budgets ln lane_max
    lane_active.

Section admission.
Variables (repr_float : Q -> string) (env : environ) (fs : ProfileFS) (host_memory : option Z).

(** The structural rules: [None] is an exception, [Some None] a request that
    passes them. *)
Definition structural_rejection (r : ChatCompletionRequest) : option (option AdmissionResult) :=
  let n := Z.of_nat (length (req_messages r)) in
  let max_msgs := get_max_messages env in
  let max_chars := get_max_prompt_chars env in
  let max_tok := get_max_request_max_tokens env in
  if (max_msgs <? n)%Z then
    Some (Some (mkAdmission false REJECTED_TOO_MANY_MESSAGES (Some INVALID_REQUEST)
      (Some ("Too many messages: " +:+ pretty n +:+ " (max " +:+ pretty max_msgs +:+ ").")%string)
      [("message_count", PInt n); ("max_messages", PInt max_msgs)]%string 400))
  else
    match estimade_prompt_chars r with
    | None => None
    | Some prompt_chars =>
        if (max_chars <? prompt_chars)%Z then
          Some (Some (mkAdmission false REJECTED_PROMPT_TOO_LARGE (Some CONTEXT_OVERFLOW)
            (Some ("Prompt too large: ~" +:+ pretty prompt_chars +:+ " chars estimated (max "
                   +:+ pretty max_chars +:+ ").")%string)
            [("estimated_chars", PInt prompt_chars); ("max_prompt_chars", PInt max_chars)]%string
            400))
        else
          match req_max_tokens r with
          | Some mt =>
              if (max_tok <? mt)%Z then
                Some (Some (mkAdmission false REJECTED_MAX_TOKENS_TOO_HIGH (Some INVALID_REQUEST)
                  (Some ("max_tokens " +:+ pretty mt +:+ " exceeds server cap " +:+ pretty max_tok
                         +:+ ".")%string)
                  [("request_max_tokens", PInt mt); ("server_cap", PInt max_tok)]%string 400))
              else Some None
          | None => Some None
          end
    end.

(** The translation of the controller's verdict. *)
Definition translate_verdict (rt : RuntimeState) (max_active max_queue : Z) (cost : RequestCost)
    (ce : ContextEvaluation) (ev : CapacityEvaluation) : AdmissionResult :=
  let reason := CapacityDecisionReason_value (ev_reason ev) in
  let capacity :=
    [("capacity_reason", PStr reason); ("capacity_mode", PStr (CapacityMode_value (ev_mode ev)));
     ("effective_active_limit", PInt (ev_effective_active_limit ev))]%string in
  let occupancy :=
    [("active_jobs", PInt (active_jobs rt)); ("max_active_requests", PInt max_active)]%string in
  let queue :=
    [("queue_depth", PInt (queue_depth rt)); ("max_queue_depth", PInt max_queue)]%string in
  match ev_action ev with
  | RUN => mkAdmission true AD_ACCEPTED None None (context_details cost ce ev) 200
  | REJECT =>
      if String.eqb reason "context_overflow" then context_overflow_result cost ce
      else if String.eqb reason "runtime_not_ready" then
        mkAdmission false REJECTED_MODEL_NOT_READY (Some MODEL_UNAVAILABLE)
          (Some "Runtime is not ready."%string) [("capacity_reason", PStr reason)]%string 503
      else
        mkAdmission false REJECTED_QUEUE_FULL (Some ControlPlane.QUEUE_FULL)
          (Some ("Whoosh'd is at capacity and the queue is full (depth " +:+ pretty (queue_depth rt)
                 +:+ "/" +:+ pretty max_queue +:+ ").")%string)
          (occupancy ++ queue ++ capacity) 429
  | QUEUE =>
      if negb (get_enable_queue env) then
        mkAdmission false REJECTED_OVERLOADED (Some RUNNER_OVERLOADED)
          (Some ("Whoosh'd is at its active request limit (" +:+ pretty max_active +:+ ").")%string)
          (occupancy ++ capacity) 429
      else
        mkAdmission false AD_QUEUED None None
          (occupancy ++ queue ++ capacity ++ context_details cost ce ev) 202
  end.

(** [None] is an uncaught exception. *)
Definition evaluate_chat_request (r : ChatCompletionRequest) (rt : RuntimeState)
    (ln : option string) (lane_max_concurrent : option Z) (model_id : option string)
    (controller : CapacityController) : option (AdmissionResult * CapacityController) :=
  match structural_rejection r with
  | None => None
  | Some (Some result) => Some (result, controller)
  | Some None =>
      let max_active := get_max_active_requests env in
      let max_queue := get_max_queue_depth env in
      let mp := memory_pressure_from_runtime rt in
      let '(budgets, controller) := context_budgets env fs host_memory model_id controller in
      let cost := estimate_request_cost repr_float r None
                    (budgets ≫= multimodal_token_estimate) (get_default_max_tokens env) in
      let context_eval := evaluate_context cost budgets in
      let lane_active := if str_truthy ln then active_jobs_for_lane ln rt else 0%Z in
      let '(evaluation, controller) :=
        evaluate env fs host_memory
          (capacity_context rt max_queue mp (Some (total_tokens cost)) (Some cost) budgets ln
             lane_max_concurrent lane_active) controller in
      Some (translate_verdict rt max_active max_queue cost context_eval evaluation, controller)
  end.

Definition active_capacity_available (rt : RuntimeState) (ln : option string)
    (lane_max_concurrent : option Z) (controller : CapacityController) : bool :=
  let limit := (effective_active_limit env fs host_memory (memory_pressure_from_runtime rt)
                  controller).1 in
  if (limit <=? active_jobs rt)%Z then false
  else
    match lane_max_concurrent with
    | Some m =>
        if str_truthy ln then
          if (Z.max m 1 <=? active_jobs_for_lane ln rt)%Z then false else true
        else true
    | None => true
    end.

Definition build_capacity_snapshot (rt : RuntimeState) (max_queue : Z)
    (controller : CapacityController) : list (string * pyval) * CapacityController :=
  let '(snap, controller) :=
    snapshot env fs host_memory (active_jobs rt) (queue_depth rt) max_queue
      (String.eqb (ModelLifecycleState_value (model_lifecycle (rt_lifecycle rt))) "ready")
      (memory_pressure_from_runtime rt) controller in
  let model_id := if str_truthy (rt_active_model rt) then default ""%string (rt_active_model rt)
                  else default ""%string (get_capacity_model_id env) in
  (snap ++ [("model", PStr model_id);
            ("runtime", PStr (default "stub" (get_capacity_runtime env)))]%string, controller).
End admission.

(** ** Lemmas *)

Lemma memory_pressure_cases rt :
  memory_pressure_from_runtime rt =
  match pressure (rt_memory rt) with
  | MP_NORMAL => MPC_NORMAL
  | MP_CRITICAL => MPC_CRITICAL
  | MP_LOW | MP_WARNING => MPC_UNKNOWN
  end.
Proof. unfold memory_pressure_from_runtime. by destruct (pressure (rt_memory rt)). Qed.

(** The verdict admission asks for, made explicit. *)
Lemma evaluate_chat_request_inv repr_float env fs host_memory r rt ln lm mid ctl res ctl' :
  evaluate_chat_request repr_float env fs host_memory r rt ln lm mid ctl = Some (res, ctl') ->
  structural_rejection env r = Some (Some res)
  \/ structural_rejection env r = Some None
     /\ exists budgets c cost,
          let ctx := capacity_context rt (get_max_queue_depth env) (memory_pressure_from_runtime rt)
            (Some (total_tokens cost)) (Some cost) budgets ln lm
            (if str_truthy ln then active_jobs_for_lane ln rt else 0%Z) in
          res = translate_verdict env rt (get_max_active_requests env) (get_max_queue_depth env) cost
                  (evaluate_context cost budgets) (evaluate env fs host_memory ctx c).1.
Proof.
  unfold evaluate_chat_request.
  destruct (structural_rejection env r) as [[res0|]|] eqn:Es; [intros [= -> _]; by left | | done].
  destruct (context_budgets env fs host_memory mid ctl) as [budgets c].
  set (cost := estimate_request_cost _ _ _ _ _). cbv zeta.
  destruct (evaluate env fs host_memory _ c) as [ev c'] eqn:Ev. intros [= <- _]. right.
  split; [done|]. exists budgets, c, cost. by rewrite Ev.
Qed.

Lemma structural_rejection_status env r res :
  structural_rejection env r = Some (Some res) ->
  ar_accepted res = false /\ ar_http_status res = 400%Z
  /\ (ar_reason res = REJECTED_TOO_MANY_MESSAGES \/ ar_reason res = REJECTED_PROMPT_TOO_LARGE
      \/ ar_reason res = REJECTED_MAX_TOKENS_TOO_HIGH).
Proof.
  unfold structural_rejection. repeat case_match; intros; simplify_eq/=; auto 10.
Qed.

(** ** Properties *)

(** The HTTP status the broker answers with, by decision. *)
Definition status_of (d : AdmissionDecision) : Z :=
  match d with
  | AD_ACCEPTED => 200
  | AD_QUEUED => 202
  | REJECTED_OVERLOADED | REJECTED_QUEUE_FULL => 429
  | REJECTED_PROMPT_TOO_LARGE | REJECTED_TOO_MANY_MESSAGES | REJECTED_MAX_TOKENS_TOO_HIGH => 400
  | REJECTED_MODEL_NOT_READY => 503
  | REJECTED_CONTEXT_OVERFLOW => 422
  end.

Lemma translate_verdict_facts env rt ma mq cost ce ev :
  let res := translate_verdict env rt ma mq cost ce ev in
  ar_http_status res = status_of (ar_reason res)
  /\ (ar_accepted res = true <-> ar_reason res = AD_ACCEPTED)
  /\ (ar_reason res = AD_ACCEPTED <-> ev_action ev = RUN)
  /\ (ar_reason res = AD_QUEUED <-> ev_action ev = QUEUE /\ get_enable_queue env = true)
  /\ (ar_reason res = REJECTED_MODEL_NOT_READY -> ev_reason ev = RUNTIME_NOT_READY).
Proof.
  cbv zeta. unfold translate_verdict. destruct (ev_action ev) eqn:Ea.
  - simpl. split_and!; try done; by split; [|intros []].
  - destruct (get_enable_queue env); simpl; split_and!; try done;
      (split; [done | by intros []]) || by split.
  - destruct (ev_reason ev) eqn:Er; simpl; split_and!; try done; by split; [|intros []].
Qed.

Lemma evaluate_not_unready env fs host_memory ctx c :
  cx_runtime_ready ctx = true ->
  ev_reason (evaluate env fs host_memory ctx c).1 <> RUNTIME_NOT_READY.
Proof.
  intros Hr. unfold evaluate. rewrite Hr.
  destruct (match mode env with FIXED => _ | ADAPTIVE => _ end) as [[[p el] rr] c'].
  destruct (effective_active_limit _ _ _ _ c') as [limit c'']. cbv zeta. cbn [negb].
  repeat (case_match; try (cbn; discriminate)).
Qed.

Lemma pressure_never_high rt : memory_pressure_from_runtime rt <> MPC_HIGH.
Proof. rewrite memory_pressure_cases. by destruct (pressure (rt_memory rt)). Qed.

(** What the verdict behind an admission answer was. *)
Lemma admitted_verdict repr_float env fs host_memory r rt ln lm mid ctl res ctl' :
  evaluate_chat_request repr_float env fs host_memory r rt ln lm mid ctl = Some (res, ctl') ->
  ar_reason res = AD_ACCEPTED \/ ar_reason res = AD_QUEUED ->
  exists tokens cost budgets limit,
    let ctx := capacity_context rt (get_max_queue_depth env) (memory_pressure_from_runtime rt)
      tokens cost budgets ln lm (if str_truthy ln then active_jobs_for_lane ln rt else 0%Z) in
    (1 <= limit <= operator_ceiling env)%Z
    /\ verdict_spec env ctx limit = (if bool_decide (ar_reason res = AD_ACCEPTED) then RUN else QUEUE).
Proof.
  intros H Hr. apply evaluate_chat_request_inv in H as [Hs | (Hs & budgets & c & cost & Hres)].
  { apply structural_rejection_status in Hs as (_ & _ & H3).
    destruct Hr as [Hr|Hr]; rewrite Hr in H3; naive_solver. }
  cbv zeta in Hres. set (ctx := capacity_context _ _ _ _ _ _ _ _ _) in Hres.
  destruct (translate_verdict_facts env rt (get_max_active_requests env)
    (get_max_queue_depth env) cost (evaluate_context cost budgets)
    (evaluate env fs host_memory ctx c).1) as (_ & _ & H3 & H4 & _).
  rewrite <- Hres in H3, H4.
  destruct (evaluate_refines_spec env fs host_memory ctx c) as (c' & _ & Hact & _).
  cbv zeta in Hact. exists (Some (total_tokens cost)), (Some cost), budgets,
    (limit_of env fs host_memory (cx_memory_pressure ctx) c').
  cbv zeta. split; [apply limit_bounds|]. fold ctx. rewrite <- Hact.
  destruct Hr as [Hr|Hr]; rewrite Hr; [by apply H3 | by apply H4].
Qed.

Lemma accepted_within repr_float env fs host_memory r rt ln lm mid ctl res ctl' :
  evaluate_chat_request repr_float env fs host_memory r rt ln lm mid ctl = Some (res, ctl') ->
  ar_accepted res = true ->
  (active_jobs rt + 1 <= operator_ceiling env)%Z
  /\ (forall m, lm = Some m -> str_truthy ln = true ->
        active_jobs_for_lane ln rt + 1 <= Z.max m 1)%Z.
Proof.
  intros H Hacc.
  assert (Hr : ar_reason res = AD_ACCEPTED).
  { apply evaluate_chat_request_inv in H as [Hs | (Hs & budgets & c & cost & Hres)].
    - apply structural_rejection_status in Hs as [Hs _]. congruence.
    - cbv zeta in Hres. subst res. revert Hacc. apply translate_verdict_facts. }
  destruct (admitted_verdict _ _ _ _ _ _ _ _ _ _ _ _ H (or_introl Hr))
    as (tokens & cost & budgets & limit & Hb & Hv).
  rewrite (bool_decide_eq_true_2 _ Hr) in Hv. unfold verdict_spec in Hv.
  set (ctx := capacity_context _ _ _ _ _ _ _ _ _) in Hv.
  destruct (over_budget ctx || negb (cx_runtime_ready ctx)); [done|].
  destruct (cx_active_jobs ctx <? limit)%Z eqn:Ea; cbn [andb] in Hv; [|by case_match].
  destruct (lane_available ctx) eqn:El; [|by case_match]. reflect_tests. simpl in Ea.
  split; [lia|]. intros m -> Hln. unfold lane_available in El. simpl in El. rewrite Hln in El.
  reflect_tests. lia.
Qed.

(** A request is only queued while the queue has room. *)
Lemma queued_within repr_float env fs host_memory r rt ln lm mid ctl res ctl' :
  evaluate_chat_request repr_float env fs host_memory r rt ln lm mid ctl = Some (res, ctl') ->
  ar_reason res = AD_QUEUED -> (queue_depth rt + 1 <= get_max_queue_depth env)%Z.
Proof.
  intros H Hr. destruct (admitted_verdict _ _ _ _ _ _ _ _ _ _ _ _ H (or_intror Hr))
    as (tokens & cost & budgets & limit & Hb & Hv).
  rewrite Hr in Hv. rewrite bool_decide_eq_false_2 in Hv by done. unfold verdict_spec in Hv.
  set (ctx := capacity_context _ _ _ _ _ _ _ _ _) in Hv.
  assert (Hp : pressure_holds env ctx limit = false).
  { unfold pressure_holds. simpl. rewrite (bool_decide_eq_false_2 _ (pressure_never_high rt)).
    by rewrite andb_false_r. }
  rewrite Hp in Hv. simpl in Hv. repeat case_match; try done. reflect_tests. lia.
Qed.

(** The live capacity predicate. *)
Lemma available_within env fs host_memory rt ln lm ctl :
  active_capacity_available env fs host_memory rt ln lm ctl = true ->
  (active_jobs rt + 1 <= operator_ceiling env)%Z
  /\ (forall m, lm = Some m -> str_truthy ln = true ->
        active_jobs_for_lane ln rt + 1 <= Z.max m 1)%Z.
Proof.
  unfold active_capacity_available. cbv zeta.
  fold (limit_of env fs host_memory (memory_pressure_from_runtime rt) ctl).
  pose proof (limit_bounds env fs host_memory (memory_pressure_from_runtime rt) ctl) as Hb.
  destruct (limit_of _ _ _ _ _ <=? active_jobs rt)%Z eqn:Ea; [done|]. reflect_tests. intros H.
  split; [lia|]. intros m -> Hln. rewrite Hln in H.
  destruct (Z.max m 1 <=? active_jobs_for_lane ln rt)%Z eqn:E; [done|]. reflect_tests. lia.
Qed.

(** Admission's answer is consistent: the HTTP status is a function of the
    decision, [accepted] means ACCEPTED, a request is only queued when the queue is
    enabled, the structural limits always win over capacity, and the
    runtime-not-ready branch is unreachable from here. *)
Theorem admission_decision_consistent repr_float env fs host_memory r rt ln lm mid ctl res ctl' :
  evaluate_chat_request repr_float env fs host_memory r rt ln lm mid ctl = Some (res, ctl') ->
  ar_http_status res = status_of (ar_reason res)
  /\ (ar_accepted res = true <-> ar_reason res = AD_ACCEPTED)
  /\ (ar_reason res = AD_QUEUED -> get_enable_queue env = true)
  /\ ar_reason res <> REJECTED_MODEL_NOT_READY
  /\ (ar_accepted res = true \/ ar_reason res = AD_QUEUED ->
      structural_rejection env r = Some None).
Proof.
  intros H. apply evaluate_chat_request_inv in H as [Hs | (Hs & budgets & c & cost & ->)].
  - destruct (structural_rejection_status env r res Hs) as (H1 & H2 & H3). rewrite H1, H2.
    destruct H3 as [-> | [-> | ->]]; split_and!; try done; by intros [].
  - cbv zeta. set (ctx := capacity_context _ _ _ _ _ _ _ _ _).
    pose proof (evaluate_not_unready env fs host_memory ctx c eq_refl) as Hready.
    destruct (translate_verdict_facts env rt (get_max_active_requests env)
      (get_max_queue_depth env) cost (evaluate_context cost budgets)
      (evaluate env fs host_memory ctx c).1) as (H1 & H2 & H3 & H4 & H5).
    split_and!; [done | done | by intros Hq; apply H4 in Hq as [_ ?] | by intros Hn; apply Hready, H5
                | done].
Qed.

Definition sample_request : ChatCompletionRequest :=
  mkChatRequest "m" [mkMessage "user" (PStr "hello") None PNone None] (Some 16%Z) None false
    PNone PNone PNone PNone.

Lemma admission_decision_consistent_witness :
  exists res ctl', evaluate_chat_request (fun _ => ""%string) [] sample_fs None sample_request
    init_runtime None None None (new_controller None) = Some (res, ctl')
    /\ ar_reason res = AD_ACCEPTED /\ ar_http_status res = status_of AD_ACCEPTED.
Proof.
  set (out := evaluate_chat_request (fun _ => ""%string) [] sample_fs None sample_request
    init_runtime None None None (new_controller None)).
  assert (Hr : exists res ctl', out = Some (res, ctl') /\ ar_reason res = AD_ACCEPTED).
  { do 2 eexists. split; [vm_compute; reflexivity | reflexivity]. }
  destruct Hr as (res & ctl' & Ho & Ha). exists res, ctl'. split; [exact Ho|]. split; [exact Ha|].
  rewrite <- Ha. exact (proj1 (admission_decision_consistent _ _ _ _ _ _ _ _ _ _ res ctl' Ho)).
Defined.

(** A request that is accepted for immediate execution leaves the broker
    within the operator ceiling and its lane within the lane's own ceiling,
    whatever the mode, the profile and the memory pressure. *)
Theorem admission_accepts_within_capacity repr_float env fs host_memory r rt ln lm mid ctl res ctl' :
  evaluate_chat_request repr_float env fs host_memory r rt ln lm mid ctl = Some (res, ctl') ->
  ar_accepted res = true ->
  (active_jobs rt + 1 <= operator_ceiling env)%Z
  /\ (forall m, lm = Some m -> str_truthy ln = true ->
        active_jobs_for_lane ln rt + 1 <= Z.max m 1)%Z.
Proof.
  apply accepted_within.
Qed.

Lemma admission_accepts_within_capacity_witness :
  exists res ctl', evaluate_chat_request (fun _ => ""%string) [] sample_fs None sample_request
    init_runtime (Some "stub"%string) (Some 1%Z) None (new_controller None) = Some (res, ctl')
    /\ (active_jobs init_runtime + 1 <= operator_ceiling [])%Z.
Proof.
  set (out := evaluate_chat_request (fun _ => ""%string) [] sample_fs None sample_request
    init_runtime (Some "stub"%string) (Some 1%Z) None (new_controller None)).
  assert (Hr : exists res ctl', out = Some (res, ctl') /\ ar_accepted res = true).
  { do 2 eexists. split; [vm_compute; reflexivity | reflexivity]. }
  destruct Hr as (res & ctl' & Ho & Ha). exists res, ctl'. split; [exact Ho|].
  exact (proj1 (admission_accepts_within_capacity _ _ _ _ _ _ _ _ _ _ res ctl' Ho Ha)).
Defined.

(** The pressure levels [elevated] and [high] cannot reach the controller
    through admission: the runtime reports [low], [normal], [warning] or
    [critical], and [low] and [warning] are both read as unknown.  Hence the
    memory-pressure override never decides a chat request. *)
Theorem admission_never_sees_high_pressure rt :
  memory_pressure_from_runtime rt <> MPC_HIGH
  /\ memory_pressure_from_runtime rt <> MPC_ELEVATED
  /\ (pressure (rt_memory rt) = MP_WARNING -> memory_pressure_from_runtime rt = MPC_UNKNOWN)
  /\ (forall env fs host_memory mq t cost b ln lm la c,
        ev_reason (evaluate env fs host_memory
          (capacity_context rt mq (memory_pressure_from_runtime rt) t cost b ln lm la) c).1
        <> MEMORY_PRESSURE_HIGH).
Proof.
  pose proof (pressure_never_high rt) as Hnh.
  split_and!; [done | | |].
  - rewrite memory_pressure_cases. by destruct (pressure (rt_memory rt)).
  - intros Hw. by rewrite memory_pressure_cases, Hw.
  - intros env fs hm mq t cost b ln lm la c Hr.
    destruct (evaluate_refines_spec env fs hm (capacity_context rt mq
      (memory_pressure_from_runtime rt) t cost b ln lm la) c) as (c' & _ & _ & _ & Hp & _).
    destruct (Hp Hr) as [Hph _]. unfold pressure_holds in Hph. simpl in Hph.
    rewrite (bool_decide_eq_false_2 _ Hnh) in Hph. by rewrite andb_false_r in Hph.
Qed.
