(* ===== verification/Broker.v ===== *)
(** * The request handlers of the broker ([app.py])

    The handlers as atomic steps: what a coroutine does between two [await]s that
    can suspend it.  A chat request arrives (route resolved, admission decided,
    record begun and possibly enqueued), waits (one iteration of the queue loop
    and, when it returns, everything up to the adapter call), and finishes (the
    adapter has answered).  The broker state is the runtime, the queue, the
    capacity controller, and the handlers in flight.

    Arguments of the steps: the wall clock and the monotonic clock, the id made
    for a new request, the profile file system, the resolved route (the outcome of
    [RuntimeRouter.resolve_model_runtime], [None] for [ModelResolutionError]) and
    the adapter's outcome.  The ThreadWake observation changes none of this state.
    The live-batch attempt is the call to [find_batch_group]; the batch path
    behind it is not modelled, and [live_batch_never_runs] shows that it is never
    entered. *)

From S2P Require Import Prelude PyDict PyStr Config Contracts Correlation ControlPlane.
From S2P Require Import RequestPolicy Ledger Runtime RuntimeFrame Scheduler Batching Queue.
From S2P Require Import CapacityProfile CapacityContext CapacityController Admission.

(** The fields of [RuntimeResolution] and of its adapter the handlers read. *)
Record RuntimeResolution := mkResolution {
  res_lane : option string;
  res_lane_max_concurrent : option Z;
  res_resolved_model_id : string;
  res_kind : option string;
  res_supports_streaming : bool;
}.

Record GenerateRequest := mkGenerate {
  gen_prompt : string;
  gen_model_id : option string;
  gen_max_tokens : Z;
}.

(** A coroutine inside [wait_for_execution]: its entry and its adapter. *)
Record Waiter := mkWaiter {
  w_entry : QueueEntry;
  w_supports_streaming : bool;
}.

Definition w_id (w : Waiter) : string := q_request_id (w_entry w).

(** [b_executing]: the requests handed to an adapter, with their streaming flag. *)
Record Broker := mkBroker {
  b_rt : RuntimeState;
  b_queue : RequestQueue;
  b_ctl : CapacityController;
  b_waiting : list Waiter;
  b_executing : list (string * bool);
}.

Definition initial_broker (path : option string) : Broker :=
  mkBroker init_runtime new_queue (new_controller path) [] [].

Definition with_rt (rt : RuntimeState) (b : Broker) : Broker :=
  mkBroker rt (b_queue b) (b_ctl b) (b_waiting b) (b_executing b).

Definition with_ctl (c : CapacityController) (b : Broker) : Broker :=
  mkBroker (b_rt b) (b_queue b) c (b_waiting b) (b_executing b).

Definition start_executing (id : string) (strm : bool) (b : Broker) : Broker :=
  mkBroker (b_rt b) (b_queue b) (b_ctl b) (b_waiting b) (b_executing b ++ [(id, strm)]).

Definition start_waiting (w : Waiter) (b : Broker) : Broker :=
  mkBroker (b_rt b) (b_queue b) (b_ctl b) (b_waiting b ++ [w]) (b_executing b).

Definition stop_waiting (id : string) (b : Broker) : Broker :=
  mkBroker (b_rt b) (b_queue b) (b_ctl b)
    (List.filter (fun w => negb (String.eqb (w_id w) id)) (b_waiting b)) (b_executing b).

Definition stop_executing (id : string) (b : Broker) : Broker :=
  mkBroker (b_rt b) (b_queue b) (b_ctl b) (b_waiting b)
    (List.filter (fun x => negb (String.eqb x.1 id)) (b_executing b)).

(** What a step does for its client. *)
Inductive reply :=
| Refused (http_status : Z) (code : ErrorCode)
| StreamingNotSupported
| UncaughtTypeError
| Sleeping
| Dispatched
| Answered.

(** [_request_has_image_content] *)
Definition is_image_part (part : pyval) : bool :=
  match part with
  | PDict d => match obj_get "type" d with
               | Some (PStr t) => String.eqb t "image_url"
               | _ => false
               end
  | _ => false
  end.

Definition request_has_image_content (r : ChatCompletionRequest) : bool :=
  existsb (fun m => match msg_content m with PList parts => existsb is_image_part parts | _ => false end)
    (req_messages r).

(** [_adapter_supports_vision] *)
Definition adapter_supports_vision (res : RuntimeResolution) : bool :=
  match res_kind res with Some k => String.eqb k "mlx_vlm" | None => false end.

Section handlers.
Variables (repr_float : Q -> string) (env : environ) (queue_timeout : Q).

(** The callables the chat handler passes to the queue. *)
Definition capacity_available (fs : ProfileFS) (host_memory : option Z) (c : CapacityController)
    (rt : RuntimeState) : bool :=
  active_capacity_available env fs host_memory rt None None c.

Definition entry_eligible (fs : ProfileFS) (host_memory : option Z) (c : CapacityController)
    (candidate : option QueueEntry) (rt : RuntimeState) : bool :=
  match candidate with
  | Some e => active_capacity_available env fs host_memory rt (q_lane e) (q_lane_max_concurrent e) c
  | None => false
  end.

Definition reserve (granted : QueueEntry) (rt : RuntimeState) : RuntimeState :=
  (reserve_capacity (q_request_id granted) (q_lane granted) rt).2.

Definition or_default (o : option ErrorCode) (dflt : ErrorCode) : ErrorCode := default dflt o.

(** ** [POST /v1/chat/completions], up to the queue wait or the adapter call *)

(** The record, the token and the queue entry of a request that must wait. *)
Definition start_queued (wall mono : Q) (new_id : string) (res : RuntimeResolution)
    (r : ChatCompletionRequest) (upstream : pyval) (b : Broker) : reply * Broker :=
  let '(id, rt) :=
    begin_request wall new_id (req_model r) (req_stream r) upstream (res_lane res) (b_rt b) in
  let rt := mark_queued id rt in
  let entry := stamp_deadline queue_timeout mono
                 (new_entry id (req_model r) (req_stream r) mono upstream (res_lane res)
                    (res_lane_max_concurrent res)) in
  let q := enqueue queue_timeout mono entry (b_queue b) in
  (Sleeping,
   start_waiting (mkWaiter entry (res_supports_streaming res))
     (mkBroker rt q (b_ctl b) (b_waiting b) (b_executing b))).

(** The immediate path, streaming or not. *)
Definition start_immediate (wall : Q) (new_id : string) (res : RuntimeResolution)
    (r : ChatCompletionRequest) (upstream : pyval) (b : Broker) : reply * Broker :=
  if negb (req_stream r) then
    let '(id, rt) :=
      begin_request wall new_id (req_model r) false upstream (res_lane res) (b_rt b) in
    (Dispatched, start_executing id false (with_rt (mark_running id rt) b))
  else if negb (res_supports_streaming res) then (StreamingNotSupported, b)
  else
    let '(id, rt) :=
      begin_request wall new_id (req_model r) true upstream (res_lane res) (b_rt b) in
    (Dispatched, start_executing id true (with_rt (mark_streaming id rt) b)).

(** From [rt.record_accepted()] on. *)
Definition dispatch_admitted (wall mono : Q) (new_id : string) (res : RuntimeResolution)
    (r : ChatCompletionRequest) (ingress : IngressRequest) (upstream : pyval) (is_queued : bool)
    (b : Broker) : reply * Broker :=
  let rt := record_accepted (b_rt b) in
  if request_has_image_content r && negb (adapter_supports_vision res) then
    (Refused 422 ControlPlane.UNSUPPORTED_CAPABILITY, with_rt (record_rejected "rejected_model_not_ready" rt) b)
  else
    match ensure_backend_chat_request (inl ingress) (res_kind res) with
    | inl _ =>
        (Refused 400 ControlPlane.UNSUPPORTED_FIELD, with_rt (record_rejected "rejected_unsupported_fields" rt) b)
    | inr _ =>
        let b := with_rt rt b in
        if is_queued then start_queued wall mono new_id res r upstream b
        else start_immediate wall new_id res r upstream b
    end.

Definition chat_completions (fs : ProfileFS) (host_memory : option Z) (wall mono : Q)
    (new_id : string) (resolution : option RuntimeResolution) (r : ChatCompletionRequest)
    (ingress : IngressRequest) (upstream : pyval) (b : Broker) : reply * Broker :=
  match resolution with
  | None =>
      (Refused 404 ControlPlane.MODEL_NOT_FOUND,
       with_rt (record_rejected "rejected_model_not_ready" (b_rt b)) b)
  | Some res =>
      let model_id := if String.eqb (res_resolved_model_id res) "" then req_model r
                      else res_resolved_model_id res in
      match evaluate_chat_request repr_float env fs host_memory r (b_rt b) (res_lane res)
              (res_lane_max_concurrent res) (Some model_id) (b_ctl b) with
      | None => (UncaughtTypeError, b)
      | Some (admission, ctl) =>
          let b := with_ctl ctl b in
          let reason := ar_reason admission in
          if bool_decide (reason = REJECTED_QUEUE_FULL) then
            (Refused (ar_http_status admission) (or_default (ar_error_code admission) ControlPlane.QUEUE_FULL),
             with_rt (record_rejected (AdmissionDecision_value reason)
                        (record_queue_rejected (b_rt b))) b)
          else if negb (ar_accepted admission) && negb (bool_decide (reason = AD_QUEUED)) then
            (Refused (ar_http_status admission) (or_default (ar_error_code admission) ControlPlane.INVALID_REQUEST),
             with_rt (record_rejected (AdmissionDecision_value reason) (b_rt b)) b)
          else
            dispatch_admitted wall mono new_id res r ingress upstream
              (bool_decide (reason = AD_QUEUED)) b
      end
  end.

(** ** The queue wait, and what the handler does when it returns *)

Definition is_cancelled (id : string) (rt : RuntimeState) : bool :=
  match get_cancellation_token id rt with Some t => token_is_cancelled t | None => false end.

(** [ready] was [False]. *)
Definition not_ready (wall : Q) (id : string) (rt : RuntimeState) : reply * RuntimeState :=
  if is_cancelled id rt then
    (Refused 409 ControlPlane.CANCELLED, record_queue_cancelled (cancel_request wall id rt))
  else (Refused 504 ControlPlane.TIMEOUT, mark_timed_out wall id rt).

(** [ready] was [True] and no live batch was formed. *)
Definition dequeued (wall : Q) (w : Waiter) (rt : RuntimeState) : reply * RuntimeState :=
  let id := w_id w in
  let rt := mark_dequeued id rt in
  if negb (q_stream (w_entry w)) then (Dispatched, mark_running id rt)
  else if negb (w_supports_streaming w) then (StreamingNotSupported, fail_request wall id None rt)
  else (Dispatched, mark_streaming id rt).

Definition chat_wait (fs : ProfileFS) (host_memory : option Z) (wall mono : Q) (w : Waiter)
    (b : Broker) : reply * Broker :=
  let id := w_id w in
  let deadline := default (mono + queue_timeout)%Q (q_deadline_at (w_entry w)) in
  let '(out, q, rt) :=
    wait_iter env mono (is_cancelled id (b_rt b))
      (Some (capacity_available fs host_memory (b_ctl b)))
      (Some (entry_eligible fs host_memory (b_ctl b))) (Some reserve)
      deadline (w_entry w) (b_queue b) (b_rt b) in
  let b := mkBroker rt q (b_ctl b) (b_waiting b) (b_executing b) in
  match out with
  | WWait _ _ => (Sleeping, b)
  | WReturn false =>
      let '(rep, rt) := not_ready wall id rt in (rep, stop_waiting id (with_rt rt b))
  | WReturn true =>
      let '(rep, rt) := dequeued wall w rt in
      let b := stop_waiting id (with_rt rt b) in
      match rep with
      | Dispatched => (rep, start_executing id (q_stream (w_entry w)) b)
      | _ => (rep, b)
      end
  end.

(** The group [_try_execute_live_batch] would claim for the request it runs for. *)
Definition try_execute_live_batch (id : string) (gid : nat -> string) (b : Broker)
    : option (list QueueEntry) :=
  if negb (get_batch_execution_enabled env) then None
  else find_batch_group id (mkBatchAnalyzer (get_batch_execution_max_size env)
                              (get_batch_max_total_tokens env))
         gid (get_batch_analysis_enabled env) (b_queue b).

(** ** The end of an execution *)

(** [_execute_non_streaming]: the adapter answered or raised. *)
Definition execute_non_streaming (wall : Q) (id : string) (answered : bool) (rt : RuntimeState)
    : RuntimeState :=
  if answered then complete_request wall id rt else fail_request wall id None rt.

(** [_execute_streaming] before any output: [StopAsyncIteration] or an error. *)
Definition execute_streaming_first (wall : Q) (id : string) (empty : bool) (rt : RuntimeState)
    : RuntimeState :=
  if empty then complete_request wall id rt else fail_request wall id None rt.

(** The [finally] of [_sse_stream]. *)
Definition sse_stream_end (wall : Q) (id : string) (finished_normally : bool) (rt : RuntimeState)
    : RuntimeState :=
  if finished_normally then complete_request wall id rt
  else cancel_request wall id (record_stream_disconnect id rt).

(** How an execution ends: an answer, an error before any output, a stream without
    a chunk, a stream read to its end, or one that stopped after output started
    (the client left, or the adapter raised). *)
Inductive outcome := Served | AdapterError | StreamEmpty | StreamDone | StreamAborted.

(** The outcomes a streaming, respectively non-streaming, execution can have. *)
Definition outcome_of (strm : bool) (o : outcome) : bool :=
  match o with
  | Served => negb strm
  | AdapterError => true
  | StreamEmpty | StreamDone | StreamAborted => strm
  end.

Definition finish (wall : Q) (id : string) (strm : bool) (o : outcome) (b : Broker) : Broker :=
  let rt := b_rt b in
  let rt := match o with
            | Served => execute_non_streaming wall id true rt
            | AdapterError =>
                if strm then execute_streaming_first wall id false rt
                else execute_non_streaming wall id false rt
            | StreamEmpty => execute_streaming_first wall id true rt
            | StreamDone => sse_stream_end wall id true rt
            | StreamAborted => sse_stream_end wall id false rt
            end in
  stop_executing id (with_rt rt b).

(** ** [POST /v1/generate] up to the adapter call *)

Definition generate (fs : ProfileFS) (host_memory : option Z) (wall : Q) (new_id : string)
    (resolution : option RuntimeResolution) (r : GenerateRequest) (upstream : pyval) (b : Broker)
    : reply * Broker :=
  let model := match gen_model_id r with
               | Some m => if String.eqb m "" then "stub-model"%string else m
               | None => "stub-model"%string
               end in
  match resolution with
  | None =>
      (Refused 404 ControlPlane.MODEL_NOT_FOUND, with_rt (record_rejected "rejected_model_not_ready" (b_rt b)) b)
  | Some res =>
      let resolved := if String.eqb (res_resolved_model_id res) "" then model
                      else res_resolved_model_id res in
      let '(budgets, ctl) := context_budgets env fs host_memory (Some resolved) (b_ctl b) in
      let b := with_ctl ctl b in
      let cost := estimate_prompt_cost (gen_prompt r) (Some (gen_max_tokens r)) None
                    (get_default_max_tokens env) in
      let context_eval := evaluate_context cost budgets in
      if ce_over_limit context_eval then
        let overflow := context_overflow_result cost context_eval in
        (Refused (ar_http_status overflow) (or_default (ar_error_code overflow) ControlPlane.CONTEXT_OVERFLOW),
         with_rt (record_rejected (AdmissionDecision_value (ar_reason overflow)) (b_rt b)) b)
      else if negb (active_capacity_available env fs host_memory (b_rt b) (res_lane res)
                      (res_lane_max_concurrent res) (b_ctl b)) then
        (Refused 429 ControlPlane.RUNNER_OVERLOADED, with_rt (record_rejected "rejected_overloaded" (b_rt b)) b)
      else
        let rt := record_accepted (b_rt b) in
        let '(id, rt) := begin_request wall new_id model false upstream (res_lane res) rt in
        (Dispatched, start_executing id false (with_rt (mark_running id rt) b))
  end.

(** ** [POST /runtime/requests/{request_id}/cancel] *)

Definition runtime_cancel_request (wall : Q) (id : string) (b : Broker) : reply * Broker :=
  match get_request_snapshot id (b_rt b) with
  | None => (Refused 404 ControlPlane.INTERNAL_ERROR, b)
  | Some snap =>
      if terminal_status (snap_status snap) then (Refused 409 ControlPlane.CANCELLED, b)
      else
        let '(signalled, rt) := request_cancellation id (b_rt b) in
        let rt := if signalled then cancel_request wall id rt else rt in
        (Answered, with_rt rt b)
  end.

(** ** Model lifecycle endpoints *)

Definition warmup_begin (wall : Q) (b : Broker) : Broker := with_rt (begin_warmup wall (b_rt b)) b.

(** [results] are the per-runtime warmup results; [error] an exception. *)
Definition warmup_end (wall : Q) (results : list (string * string)) (error : option string)
    (b : Broker) : reply * Broker :=
  match error with
  | Some message =>
      (Refused 500 ControlPlane.MODEL_LOAD_FAILED,
       with_rt (fail_warmup (Some "MODEL_LOAD_FAILED"%string) (Some message) (b_rt b)) b)
  | None =>
      let real := List.filter (fun kv => negb (String.eqb kv.1 "stub")) results in
      if negb (bool_decide (real = []))
         && negb (existsb (fun kv => String.eqb kv.2 "ready") real) then
        (Answered,
         with_rt (fail_warmup (Some "MODEL_LOAD_FAILED"%string)
                    (Some "All non-stub adapters failed warmup."%string) (b_rt b)) b)
      else (Answered, with_rt (complete_warmup wall (b_rt b)) b)
  end.

(** Before [await router.unload_all()]: refuse while requests are active. *)
Definition unload_refused (b : Broker) : option reply :=
  if (0 <? active_jobs (b_rt b))%Z then Some (Refused 409 ControlPlane.CANCELLED) else None.

Definition unload_end (wall : Q) (b : Broker) : Broker := with_rt (complete_unload wall (b_rt b)) b.
End handlers.
