(* ===== verification/BrokerSteps.v ===== *)
(** * The broker as a transition system

    The handlers of [Broker.v] as a step relation over every interleaving of
    requests, waiters, adapter outcomes and cancellations, and the invariant its
    reachable states satisfy.  Every registered adapter declares one concurrency
    ceiling ([lane_cap]); a new request's id is new. *)

From S2P Require Import Prelude PyDict PyStr Config Contracts Correlation ControlPlane.
From S2P Require Import RequestPolicy Ledger Runtime RuntimeFrame Scheduler Batching Queue.
From S2P Require Import CapacityProfile CapacityContext CapacityController Admission Broker.

Section steps.
Context (repr_float : Q -> string) (env : environ) (queue_timeout : Q).
Context (lane_cap : option string -> option Z).

Definition fresh (id : string) (b : Broker) : Prop := dget id (requests (b_rt b)) = None.

Definition route_ok (resolution : option RuntimeResolution) : Prop :=
  forall res, resolution = Some res -> res_lane_max_concurrent res = lane_cap (res_lane res).

Inductive step (b : Broker) : Broker -> Prop :=
| step_chat fs hm wall mono id res r ingress up :
    fresh id b -> route_ok res ->
    step b (chat_completions repr_float env queue_timeout fs hm wall mono id res r ingress up b).2
| step_wait fs hm wall mono w :
    w ∈ b_waiting b -> step b (chat_wait env queue_timeout fs hm wall mono w b).2
| step_generate fs hm wall id res r up :
    fresh id b -> route_ok res -> step b (generate env fs hm wall id res r up b).2
| step_finish wall id strm o :
    (id, strm) ∈ b_executing b -> outcome_of strm o = true ->
    step b (finish wall id strm o b)
| step_cancel wall id : step b (runtime_cancel_request wall id b).2
| step_wake :
    step b (mkBroker (b_rt b) (clear_capacity_signal (b_queue b)) (b_ctl b) (b_waiting b)
              (b_executing b))
| step_warmup_begin wall : step b (warmup_begin wall b)
| step_warmup_end wall results error : step b (warmup_end wall results error b).2
| step_unload_end wall : step b (unload_end wall b).

Definition reachable (b : Broker) : Prop := exists path, rtc step (initial_broker path) b.

End steps.

Section invariant.
Context (env : environ) (lane_cap : option string -> option Z).

(** ** The invariant *)

(** Requests that are in flight, by the handler that owns them. *)
Definition waiting_ids (b : Broker) : list string := map w_id (b_waiting b).
Definition executing_ids (b : Broker) : list string := map fst (b_executing b).

Definition rec_cancelled (r : RequestRecord) : bool :=
  match cancel_token r with Some t => token_is_cancelled t | None => false end.

(** A waiting request's record is queued, or was ended by the cancel endpoint; it
    holds no reservation while its entry is in the deque, and once the entry has
    been granted a queued request holds exactly its own lane's reservation. *)
Definition waiter_ok (b : Broker) (w : Waiter) : Prop :=
  let e := w_entry w in
  q_granted e = false /\ is_Some (q_deadline_at e)
  /\ q_lane_max_concurrent e = lane_cap (q_lane e)
  /\ exists r, dget (w_id w) (requests (b_rt b)) = Some r /\ lane r = q_lane e
     /\ (status r = QUEUED /\ is_Some (cancel_token r)
         \/ terminal_status (status r) = true /\ rec_cancelled r = true)
     /\ (w_id w ∈ ids (b_queue b) -> e ∈ deque (b_queue b) /\ held (w_id w) (b_rt b) = false)
     /\ (w_id w ∉ ids (b_queue b) -> status r = QUEUED ->
         dget (w_id w) (reservations (b_rt b)) = Some (q_lane e)).

Definition ended (o : option RequestRecord) : Prop :=
  forall r, o = Some r -> terminal_status (status r) = true.

Record local_ok (b : Broker) (x : string) : Prop := {
  lo_waiter : forall w, w ∈ b_waiting b -> w_id w = x -> waiter_ok b w;
  lo_executing : x ∈ executing_ids b ->
    exists r, dget x (requests (b_rt b)) = Some r /\ status r <> QUEUED;
  lo_idle : x ∉ waiting_ids b ->
    held x (b_rt b) = false
    /\ (x ∈ executing_ids b \/ ended (dget x (requests (b_rt b))));
}.

Definition cap_ok (rt : RuntimeState) : Prop :=
  (active_jobs rt <= operator_ceiling env)%Z
  /\ (forall ln m, str_truthy ln = true -> lane_cap ln = Some m ->
        active_jobs_for_lane ln rt <= Z.max m 1)%Z
  /\ (queue_depth rt <= Z.max 0 (get_max_queue_depth env))%Z.

Record inv (b : Broker) : Prop := {
  inv_wf : wf (b_rt b);
  inv_ids : NoDup (ids (b_queue b));
  inv_handlers : NoDup (waiting_ids b ++ executing_ids b);
  inv_deque : forall e, e ∈ deque (b_queue b) -> exists w, w ∈ b_waiting b /\ w_entry w = e;
  inv_granted : forall g, g ∈ granted_entries (b_queue b) ->
    q_request_id g ∉ ids (b_queue b) /\ is_Some (dget (q_request_id g) (requests (b_rt b)));
  inv_local : forall x, local_ok b x;
  inv_cap : cap_ok (b_rt b);
}.

(** ** Changes at one request *)

(** [b'] differs from [b] only in what concerns request [x]. *)
Record agree_off (x : string) (b b' : Broker) : Prop := {
  ao_frame : frame x (b_rt b) (b_rt b');
  ao_waiting : forall w, w_id w <> x -> w ∈ b_waiting b' <-> w ∈ b_waiting b;
  ao_executing : forall p, p.1 <> x -> p ∈ b_executing b' <-> p ∈ b_executing b;
  ao_deque : forall e, q_request_id e <> x -> e ∈ deque (b_queue b') <-> e ∈ deque (b_queue b);
}.

Lemma elem_ids q y : y ∈ ids q <-> exists e, e ∈ deque q /\ q_request_id e = y.
Proof. unfold ids. rewrite list_elem_of_fmap. naive_solver. Qed.

Lemma elem_waiting_ids b y : y ∈ waiting_ids b <-> exists w, w ∈ b_waiting b /\ w_id w = y.
Proof. unfold waiting_ids. rewrite list_elem_of_fmap. naive_solver. Qed.

Lemma elem_executing_ids b y : y ∈ executing_ids b <-> exists s, (y, s) ∈ b_executing b.
Proof.
  unfold executing_ids. rewrite list_elem_of_fmap. split.
  - intros ([i s] & -> & H). by exists s.
  - intros [s H]. by exists (y, s).
Qed.

Section agree.
Context (x : string) (b b' : Broker) (Hag : agree_off x b b').

Lemma agree_ids y : y <> x -> y ∈ ids (b_queue b') <-> y ∈ ids (b_queue b).
Proof using Hag.
  intros Hy. rewrite !elem_ids. split; intros (e & He & <-); exists e; (split; [|done]);
    by apply (ao_deque _ _ _ Hag).
Qed.

Lemma agree_waiting y : y <> x -> y ∈ waiting_ids b' <-> y ∈ waiting_ids b.
Proof using Hag.
  intros Hy. rewrite !elem_waiting_ids. split; intros (w & Hw & <-); exists w; (split; [|done]);
    by apply (ao_waiting _ _ _ Hag).
Qed.

Lemma agree_executing y : y <> x -> y ∈ executing_ids b' <-> y ∈ executing_ids b.
Proof using Hag.
  intros Hy. rewrite !elem_executing_ids. split; intros [s Hs]; exists s;
    by apply (ao_executing _ _ _ Hag).
Qed.

Lemma agree_held y : y <> x -> held y (b_rt b') = held y (b_rt b).
Proof using Hag. intros Hy. unfold held, dmem. by rewrite (proj2 (ao_frame _ _ _ Hag y Hy)). Qed.

Lemma local_agree y : y <> x -> local_ok b y -> local_ok b' y.
Proof using Hag.
  intros Hy [H1 H2 H3]. destruct (ao_frame _ _ _ Hag y Hy) as [Hreq Hres]. split.
  - intros w Hw <-. apply (ao_waiting _ _ _ Hag) in Hw; [|done].
    specialize (H1 w Hw eq_refl). unfold waiter_ok in *.
    destruct H1 as (Hg & Hd & Hl & r & Hr & Hrl & Hs & Hin & Hout).
    split_and!; [done..|]. exists r. rewrite Hreq, Hres, agree_held by done.
    rewrite (agree_ids (w_id w) Hy).
    split_and!; try done. intros Hq.
    destruct (Hin Hq) as [He Hh]. split; [|done]. by apply (ao_deque _ _ _ Hag).
  - rewrite agree_executing, Hreq by done. exact H2.
  - rewrite agree_waiting, agree_executing, agree_held, Hreq by done. exact H3.
Qed.
End agree.

Lemma inv_update x b b' :
  inv b -> agree_off x b b' -> wf (b_rt b') -> NoDup (ids (b_queue b')) ->
  NoDup (waiting_ids b' ++ executing_ids b') ->
  (forall e, e ∈ deque (b_queue b') -> q_request_id e = x ->
     exists w, w ∈ b_waiting b' /\ w_entry w = e) ->
  (forall g, g ∈ granted_entries (b_queue b') ->
     g ∈ granted_entries (b_queue b) /\ q_request_id g <> x
     \/ q_request_id g = x /\ x ∉ ids (b_queue b') /\ is_Some (dget x (requests (b_rt b')))) ->
  local_ok b' x -> cap_ok (b_rt b') -> inv b'.
Proof.
  intros Hinv Hag Hwf Hids Hh Hdq Hgr Hx Hcap. split; try done.
  - intros e He. destruct (decide (q_request_id e = x)) as [Heq|Hne]; [by apply Hdq|].
    apply (ao_deque _ _ _ Hag e Hne) in He. destruct (inv_deque b Hinv e He) as (w & Hw & <-).
    exists w. split; [|done]. by apply (ao_waiting _ _ _ Hag).
  - intros g Hg. destruct (Hgr g Hg) as [[Hg' Hne] | (-> & H1 & H2)]; [|done].
    destruct (inv_granted b Hinv g Hg') as [H1 H2].
    rewrite (agree_ids x b b' Hag) by done. by rewrite (proj1 (ao_frame _ _ _ Hag _ Hne)).
  - intros y. destruct (decide (y = x)) as [->|Hne]; [done|].
    apply (local_agree x b b' Hag y Hne), Hinv.
Qed.

(** A change of counters, of the model lifecycle, of the controller's cache or of
    the capacity signal. *)
Lemma inv_same b b' :
  inv b -> requests (b_rt b') = requests (b_rt b) ->
  reservations (b_rt b') = reservations (b_rt b) ->
  deque (b_queue b') = deque (b_queue b) ->
  granted_entries (b_queue b') = granted_entries (b_queue b) ->
  b_waiting b' = b_waiting b -> b_executing b' = b_executing b -> inv b'.
Proof.
  intros [Hwf H1 H2 H3 H4 H5 H6] Er Es Ed Eg Ew Ee.
  assert (Hq : queue_depth (b_rt b') = queue_depth (b_rt b)).
  { unfold queue_depth, is_waiting. by rewrite Er, Es. }
  split; unfold ids, waiting_ids, executing_ids in *; rewrite ?Ed, ?Eg, ?Ew, ?Ee, ?Er; try done.
  - destruct Hwf as [W1 W2 W3]. split; by rewrite ?Er, ?Es.
  - intros y. destruct (H5 y) as [L1 L2 L3].
    split; unfold waiter_ok, held, ids, waiting_ids, executing_ids in *;
      rewrite ?Ed, ?Ew, ?Ee, ?Er, ?Es; done.
  - unfold cap_ok, active_jobs, active_jobs_for_lane. rewrite Er, Es, Hq. exact H6.
Qed.
End invariant.
