(* ===== verification/BrokerInv.v ===== *)
(** * Every handler preserves the broker invariant

    Each kind of change a handler makes (starting a request, queueing it, granting
    it, starting it after its grant, ending it) preserves [inv]; the handlers are
    compositions of them. *)

From S2P Require Import Prelude PyDict PyStr Config Contracts Correlation ControlPlane.
From S2P Require Import RequestPolicy Ledger Runtime RuntimeFrame Scheduler Batching Queue.
From S2P Require Import CapacityProfile CapacityContext CapacityController Admission Broker.
From S2P Require Import BrokerSteps.

Lemma stop_waiting_elem w x b : w ∈ b_waiting (stop_waiting x b) <-> w ∈ b_waiting b /\ w_id w <> x.
Proof. simpl. rewrite elem_of_filter_List, negb_true_iff, String.eqb_neq. done. Qed.

Lemma stop_executing_elem p x b : p ∈ b_executing (stop_executing x b) <-> p ∈ b_executing b /\ p.1 <> x.
Proof. simpl. rewrite elem_of_filter_List, negb_true_iff, String.eqb_neq. done. Qed.

Lemma remove_facts x q :
  let q' := (remove x q).2 in
  granted_entries q' = granted_entries q /\ ids q' `sublist_of` ids q
  /\ (forall e, q_request_id e <> x -> e ∈ deque q' <-> e ∈ deque q)
  /\ (NoDup (ids q) -> x ∉ ids q').
Proof.
  cbv zeta. destruct (remove x q) as [[e|] q'] eqn:E; simpl.
  - destruct (remove_Some x q e q' E) as (Hid & Hg & (l1 & l2 & Hd & Hd') & _).
    unfold ids. rewrite Hd, Hd', !map_app. simpl. split_and!; [done | | |].
    + apply sublist_app; [done | by apply sublist_cons].
    + intros y Hy. rewrite !elem_of_app, elem_of_cons. naive_solver.
    + intros (H1 & H2 & H3)%NoDup_app. apply NoDup_cons in H3 as [H3 _].
      rewrite elem_of_app, <- Hid. intros [H|H]; [|done]. apply (H2 _ H). rewrite Hid. set_solver.
  - unfold remove in E. destruct (take_entry x (deque q)) as [[??]|] eqn:Et; [done|].
    injection E as <-. split_and!; try done. intros _. by apply take_entry_None.
Qed.

Section preservation.
Context (env : environ) (lane_cap : option string -> option Z).
Abbreviation inv := (inv env lane_cap).
Abbreviation cap_ok := (cap_ok env lane_cap).
Abbreviation local_ok := (local_ok lane_cap).

(** Room for one more active request, globally and in lane [ln]. *)
Definition room (ln : option string) (rt : RuntimeState) : Prop :=
  (active_jobs rt + 1 <= operator_ceiling env)%Z
  /\ (forall m, lane_cap ln = Some m -> str_truthy ln = true ->
        active_jobs_for_lane ln rt + 1 <= Z.max m 1)%Z.

Lemma cap_ok_take ln rt rt' :
  cap_ok rt -> room ln rt -> active_jobs rt' = (active_jobs rt + 1)%Z ->
  (forall l, str_truthy l = true ->
     active_jobs_for_lane l rt' = (active_jobs_for_lane l rt + b2z (bool_decide (ln = l)))%Z) ->
  (queue_depth rt' <= queue_depth rt)%Z -> cap_ok rt'.
Proof.
  intros (C1 & C2 & C3) [R1 R2] Ha Hl Hq. split_and!; [lia | | lia].
  intros l m Hlt Hm. rewrite Hl by done. case_bool_decide as E; simpl.
  - subst. by apply R2.
  - specialize (C2 l m Hlt Hm). lia.
Qed.

Lemma fresh_unowned x b :
  inv b -> fresh x b ->
  x ∉ waiting_ids b /\ x ∉ executing_ids b /\ held x (b_rt b) = false /\ x ∉ ids (b_queue b).
Proof.
  intros Hinv Hf. unfold fresh in Hf. destruct (inv_local _ _ b Hinv x) as [L1 L2 L3].
  assert (Hw : x ∉ waiting_ids b).
  { intros (w & Hw & Hid)%elem_waiting_ids.
    destruct (L1 w Hw Hid) as (_ & _ & _ & r & Hr & _). rewrite Hid in Hr. congruence. }
  split_and!; [done | | by apply L3 |].
  - intros He. destruct (L2 He) as (r & Hr & _). congruence.
  - intros (e & He & <-)%elem_ids. destruct (inv_deque _ _ b Hinv e He) as (w & Hw' & <-).
    apply Hw, elem_waiting_ids. by exists w.
Qed.

Lemma granted_known b x :
  inv b -> forall g, g ∈ granted_entries (b_queue b) -> fresh x b -> q_request_id g <> x.
Proof.
  intros Hinv g Hg Hf Hid. destruct (inv_granted _ _ b Hinv g Hg) as [_ [r Hr]].
  unfold fresh in Hf. rewrite Hid in Hr. congruence.
Qed.

(** An immediate request starts. *)
Lemma inv_start target now x mdl strm up ln b :
  inv b -> fresh x b -> started target -> room ln (b_rt b) ->
  inv (start_executing x strm
        (with_rt (mark_started target x (begin_request now x mdl strm up ln (b_rt b)).2) b)).
Proof.
  intros Hinv Hf Ht Hroom. destruct (fresh_unowned x b Hinv Hf) as (Hw & He & Hh & Hq).
  destruct (begin_started_facts now x mdl strm up ln (b_rt b) (inv_wf _ _ b Hinv) Hf Hh target Ht)
    as (Wf & Fr & Hh' & Hr & Ha & Hl & Hd).
  eapply (inv_update env lane_cap x b _ Hinv); simpl; try done.
  - split; simpl; try done. intros [y s] Hy. simpl in Hy. rewrite elem_of_app.
    rewrite list_elem_of_singleton. naive_solver.
  - apply Hinv.
  - unfold executing_ids, waiting_ids. simpl. rewrite map_app. simpl. rewrite (assoc (++)).
    apply NoDup_app. split; [apply Hinv|]. split; [|apply NoDup_singleton].
    intros y Hy Hx. apply list_elem_of_singleton in Hx. subst. apply elem_of_app in Hy. tauto.
  - intros e Hin <-. destruct Hq. apply elem_ids. by exists e.
  - intros g Hg. left. split; [done|]. by eapply granted_known.
  - split; simpl.
    + intros w Hin <-. destruct Hw. apply elem_waiting_ids. by exists w.
    + intros _. eexists. split; [exact Hr|]. simpl. by destruct Ht as [-> | ->].
    + intros _. split; [done|]. left. apply elem_executing_ids. exists strm. simpl. set_solver.
  - eapply cap_ok_take; [apply Hinv | exact Hroom | exact Ha | exact Hl |].
    exact (Z.eq_le_incl _ _ Hd).
Qed.

(** A request is queued. *)
Lemma inv_enqueue now mono timeout x mdl strm up ln ss b :
  let rt := b_rt b in
  let e := stamp_deadline timeout mono (new_entry x mdl strm mono up ln (lane_cap ln)) in
  inv b -> fresh x b -> (queue_depth rt + 1 <= get_max_queue_depth env)%Z ->
  inv (start_waiting (mkWaiter e ss)
        (mkBroker (mark_queued x (begin_request now x mdl strm up ln rt).2)
           (enqueue timeout mono e (b_queue b)) (b_ctl b) (b_waiting b) (b_executing b))).
Proof.
  intros rt e Hinv Hf Hroom. destruct (fresh_unowned x b Hinv Hf) as (Hw & He & Hh & Hq).
  destruct (begin_queued_facts now x mdl strm up ln rt (inv_wf _ _ b Hinv) Hf Hh)
    as (Wf & Fr & Hh' & Hr & Ha & Hl & Hd).
  assert (Hcap : cap_ok (mark_queued x (begin_request now x mdl strm up ln rt).2)).
  { destruct (inv_cap _ _ b Hinv) as (C1 & C2 & C3). split_and!.
    - by rewrite Ha.
    - intros l m Hlt Hm. rewrite Hl by done. by apply C2.
    - rewrite Hd. subst rt. lia. }
  assert (Hdq : deque (enqueue timeout mono e (b_queue b)) = deque (b_queue b) ++ [e]) by reflexivity.
  eapply (inv_update env lane_cap x b _ Hinv); simpl; try done.
  - split; simpl; try done.
    + intros w Hid. rewrite elem_of_app, list_elem_of_singleton. split; [|tauto].
      intros [|Heq]; [done|]. by subst w.
    + intros y Hid. rewrite elem_of_app, list_elem_of_singleton. split; [|tauto].
      intros [|Heq]; [done|]. by subst y.
  - unfold ids. rewrite Hdq, map_app. apply NoDup_app. split; [apply Hinv|].
    split; [|apply NoDup_singleton]. intros y Hy Hx. apply list_elem_of_singleton in Hx.
    subst. done.
  - unfold executing_ids, waiting_ids. simpl. rewrite map_app, <- (assoc (++)). simpl.
    rewrite <- Permutation_middle. apply NoDup_cons. split; [|apply Hinv].
    rewrite elem_of_app. tauto.
  - intros y Hin Hid. apply elem_of_app in Hin as [Hin|Hin].
    + destruct Hq. apply elem_ids. by exists y.
    + apply list_elem_of_singleton in Hin as ->. eexists.
      split; [apply elem_of_app; right; apply list_elem_of_here | reflexivity].
  - intros g Hg. left. split; [done|]. by eapply granted_known.
  - split; simpl.
    + intros w Hin Hid. apply elem_of_app in Hin as [Hin|Hin].
      { destruct Hw. apply elem_waiting_ids. by exists w. }
      apply list_elem_of_singleton in Hin as ->. split_and!; [done | by eexists | done |].
      eexists. split; [exact Hr|]. split; [done|]. split; [by left; split; [|eexists]|]. simpl. split.
      * intros _. split; [|done]. apply elem_of_app. right.
        apply list_elem_of_singleton. reflexivity.
      * intros Hn. destruct Hn. apply elem_ids. exists e. split; [|done].
        apply elem_of_app. right. apply list_elem_of_singleton. reflexivity.
    + intros Hx. done.
    + intros Hn. destruct Hn. apply elem_waiting_ids. eexists. split; [apply elem_of_app; right;
        apply list_elem_of_here | done].
Qed.

(** The queue grants an entry, reserving its slot. *)
Lemma inv_grant now cap elig q1 rt1 e b :
  inv b -> grants now cap elig (Some reserve) (b_queue b) (b_rt b) e q1 rt1 ->
  (cap (b_rt b) = true -> (forall f, elig = Some f -> f (Some e) (b_rt b) = true) ->
   room (q_lane e) (b_rt b)) ->
  inv (mkBroker rt1 q1 (b_ctl b) (b_waiting b) (b_executing b)).
Proof.
  intros Hinv Hg Hroom. pose proof (inv_ids _ _ b Hinv) as Hids.
  destruct (grants_ids _ _ _ _ _ _ _ _ _ Hids Hg) as (Hids1 & Hout & Hin & Hiff).
  destruct Hg as [_ Hown _ Hcap Helig Hrt]. specialize (Hroom Hcap Helig). subst rt1.
  destruct (inv_deque _ _ b Hinv e Hin) as (w & Hw & He). subst e.
  destruct (lo_waiter _ _ _ (inv_local _ _ b Hinv (w_id w)) w Hw eq_refl)
    as (Hqg & Hdl & Hlm & r & Hr & Hrl & Hst & Hwin & _).
  destruct Hwin as [_ Hfree]; [apply elem_ids; by exists (w_entry w)|].
  destruct (grant_facts (w_id w) (q_lane (w_entry w)) (b_rt b) (inv_wf _ _ b Hinv) Hfree)
    as (Wf & Fr & Hreq & Hres & Ha & Hl & Hd).
  change (reserve (w_entry w) (b_rt b))
    with (reserve_capacity (w_id w) (q_lane (w_entry w)) (b_rt b)).2.
  assert (Hcap' : cap_ok (reserve_capacity (w_id w) (q_lane (w_entry w)) (b_rt b)).2).
  { eapply cap_ok_take; [apply Hinv | exact Hroom | exact Ha | exact Hl | exact Hd]. }
  eapply (inv_update env lane_cap (w_id w) b _ Hinv); try done.
  - split; simpl; try done. intros y Hy. rewrite Hiff. split; [by right | intros [->|?]]; done.
  - apply Hinv.
  - intros y Hy Hid. destruct Hout. apply elem_ids. by exists y.
  - intros g Hgr. cbn [b_queue] in Hgr. rewrite Hown in Hgr.
    apply elem_of_app in Hgr as [Hgr | Hgr%list_elem_of_singleton].
    + left. split; [done|]. intros Hid. destruct (inv_granted _ _ b Hinv g Hgr) as [Hn _].
      apply Hn. rewrite Hid. apply elem_ids. by exists (w_entry w).
    + right. subst g. split; [done|]. split; [exact Hout|]. cbn [b_rt]. rewrite Hreq. by exists r.
  - destruct (inv_local _ _ b Hinv (w_id w)) as [L1 L2 L3]. split.
    + intros w' Hw' Hid. destruct (L1 w' Hw' Hid) as (G1 & G2 & G3 & r' & G4 & G5 & G6 & G7 & _).
      split_and!; [done..|]. exists r'. cbn [b_rt b_queue]. rewrite Hreq.
      split_and!; try done.
      * intros Hx. destruct Hout. by rewrite Hid in Hx.
      * intros _ _. rewrite Hid. destruct G7 as [Hd' _]; [rewrite Hid; apply elem_ids;
          by exists (w_entry w)|].
        rewrite (NoDup_map_inj q_request_id _ _ _ Hids Hd' Hin Hid). exact Hres.
    + cbn [b_rt]. rewrite Hreq. exact L2.
    + intros Hn. destruct Hn. apply elem_waiting_ids. by exists w.
Qed.

Lemma end_local o x b b' :
  inv b -> terminal_op o = Some x -> b_rt b' = rt_apply o (b_rt b) ->
  held x (b_rt b') = false ->
  (waiting_ids b' `sublist_of` waiting_ids b) ->
  (executing_ids b' `sublist_of` executing_ids b) ->
  (b_waiting b' = b_waiting b /\ b_queue b' = b_queue b
   /\ (x ∈ waiting_ids b -> is_cancelled x (b_rt b) = true) \/ x ∉ waiting_ids b') ->
  local_ok b' x.
Proof.
  intros Hinv Ho Hrt Hrel Sw Se Hq. pose proof (inv_wf _ _ b Hinv) as Hwf.
  destruct (inv_local _ _ b Hinv x) as [L1 L2 L3]. split.
  - intros w Hin Hid. destruct Hq as [(Ew & Eq & Hca) | Hn].
    2:{ destruct Hn. apply elem_waiting_ids. by exists w. }
    rewrite Ew in Hin. destruct (L1 w Hin Hid) as (G1 & G2 & G3 & r & G4 & G5 & G6 & G7 & _).
    rewrite Hid in G4. destruct (terminal_op_record o x (b_rt b) r Hwf Ho G4) as (r' & Hr' & Hl' & Ht' & Htok).
    assert (Hca' : rec_cancelled r' = true).
    { unfold rec_cancelled. rewrite Htok. unfold is_cancelled, get_cancellation_token in Hca.
      rewrite G4 in Hca. apply Hca, elem_waiting_ids. by exists w. }
    unfold waiter_ok. split_and!; [done..|]. exists r'. rewrite Hrt, Hid, Eq in *.
    split_and!; try done; [congruence | by right | |].
    + intros Hx. split; [by apply G7 | done].
    + intros _ Hqd. by rewrite Hqd in Ht'.
  - intros Hx. assert (Hx' : x ∈ executing_ids b) by by eapply elem_of_submseteq, sublist_submseteq.
    destruct (L2 Hx') as (r & Hr & _).
    destruct (terminal_op_record o x (b_rt b) r Hwf Ho Hr) as (r' & Hr' & _ & Ht' & _).
    rewrite Hrt. exists r'. split; [done|]. intros Hqd. by rewrite Hqd in Ht'.
  - intros _. split; [done|]. right. intros r' Hr'. rewrite Hrt in Hr'.
    destruct (dget x (requests (b_rt b))) as [r|] eqn:Er.
    + destruct (terminal_op_record o x (b_rt b) r Hwf Ho Er) as (r2 & Hr2 & _ & Ht2 & _). congruence.
    + rewrite (terminal_op_requests o x (b_rt b) Ho Er) in Hr'. done.
Qed.

(** A handler ends request [x]: its record and slot are given up, its waiter, its
    execution and its queue entry may go. *)
Lemma inv_end o x b b' :
  inv b -> terminal_op o = Some x -> b_rt b' = rt_apply o (b_rt b) ->
  (forall w, w_id w <> x -> w ∈ b_waiting b' <-> w ∈ b_waiting b) ->
  (forall p, p.1 <> x -> p ∈ b_executing b' <-> p ∈ b_executing b) ->
  (waiting_ids b' `sublist_of` waiting_ids b) ->
  (executing_ids b' `sublist_of` executing_ids b) ->
  (b_waiting b' = b_waiting b /\ b_queue b' = b_queue b
      /\ (x ∈ waiting_ids b -> is_cancelled x (b_rt b) = true)
   \/ x ∉ waiting_ids b' /\ x ∉ ids (b_queue b')
      /\ (b_queue b' = (remove x (b_queue b)).2 \/ b_queue b' = b_queue b)) ->
  inv b'.
Proof.
  intros Hinv Ho Hrt Hw He Sw Se Hq. pose proof (inv_wf _ _ b Hinv) as Hwf.
  pose proof (frame_apply o (b_rt b)) as Hf. rewrite (terminal_op_target o x Ho) in Hf.
  destruct (terminal_op_decreases o x (b_rt b) Hwf Ho) as (D1 & D2 & D3).
  destruct (inv_cap _ _ b Hinv) as (C1 & C2 & C3).
  destruct (remove_facts x (b_queue b)) as (R1 & R2 & R3 & R4).
  assert (Hrel : held x (b_rt b') = false).
  { rewrite Hrt. unfold held, dmem. by rewrite (terminal_op_released o x (b_rt b) Hwf Ho). }
  assert (Hqe : b_queue b' = (remove x (b_queue b)).2 \/ b_queue b' = b_queue b) by tauto.
  assert (Hgr : granted_entries (b_queue b') = granted_entries (b_queue b))
    by by destruct Hqe as [-> | ->].
  assert (Hsub : ids (b_queue b') `sublist_of` ids (b_queue b)) by by destruct Hqe as [-> | ->].
  eapply (inv_update env lane_cap x b _ Hinv).
  - split; [by rewrite Hrt | done | done |]. intros e Hid.
    destruct Hqe as [-> | ->]; [by apply R3 | done].
  - rewrite Hrt. by apply wf_apply.
  - eapply sublist_NoDup; [exact (inv_ids _ _ b Hinv) | exact Hsub].
  - eapply sublist_NoDup; [exact (inv_handlers _ _ b Hinv) | by apply sublist_app].
  - intros e Hin Hid. destruct Hq as [(-> & Eq & _) | (_ & Hn & _)].
    + rewrite Eq in Hin. by apply (inv_deque _ _ b Hinv).
    + destruct Hn. apply elem_ids. by exists e.
  - rewrite Hgr. intros g Hg. destruct (decide (q_request_id g = x)) as [Hid|]; [right|by left].
    destruct (inv_granted _ _ b Hinv g Hg) as [Hn [r Hr]]. rewrite Hid in Hn, Hr.
    split; [done|]. split.
    + intros Hx. apply Hn. by eapply elem_of_submseteq, sublist_submseteq.
    + destruct (terminal_op_record o x (b_rt b) r Hwf Ho Hr) as (r' & Hr' & _).
      rewrite Hrt. by exists r'.
  - eapply (end_local o x b b'); try done. tauto.
  - rewrite Hrt. split_and!; [lia | | lia]. intros l m Hlt Hm. specialize (D2 l).
    specialize (C2 l m Hlt Hm). lia.
Qed.
(** The cancel endpoint signals a live request's token. *)
Lemma inv_signal x b :
  inv b -> inv (with_rt (request_cancellation x (b_rt b)).2 b).
Proof.
  intros Hinv. unfold request_cancellation.
  destruct (dget x (requests (b_rt b))) as [r|] eqn:Er; [|by destruct b].
  destruct (terminal_status (status r)) eqn:Et; [by destruct b|]. cbn [snd].
  destruct (touch_facts x r (rec_request_cancel r) (b_rt b) (inv_wf _ _ b Hinv) Er eq_refl eq_refl
    eq_refl) as (Wf & Fr & Ha & Hl & Hd).
  set (rt := set_requests _ (b_rt b)) in *.
  assert (Hr : dget x (requests rt) = Some (rec_request_cancel r)) by apply dget_dset_eq.
  assert (Hcap : cap_ok (bump total_requests_cancel_requested rt)).
  { destruct (inv_cap _ _ b Hinv) as (C1 & C2 & C3).
    split_and!; [by rewrite active_jobs_bump, Ha | | exact (eq_ind_r (fun z => (z <= _)%Z) C3 Hd)].
    intros l m Hlt Hm. specialize (Hl l Hlt). specialize (C2 l m Hlt Hm). rewrite <- Hl in C2.
    exact C2. }
  eapply (inv_update env lane_cap x b _ Hinv); try done.
  - apply wf_bump, Wf.
  - apply Hinv.
  - apply Hinv.
  - intros e He _. by apply (inv_deque _ _ b Hinv).
  - intros g Hg. destruct (decide (q_request_id g = x)) as [Hid|]; [right | by left].
    destruct (inv_granted _ _ b Hinv g Hg) as [Hn _]. rewrite Hid in Hn. split_and!; [done..|].
    by exists (rec_request_cancel r).
  - destruct (inv_local _ _ b Hinv x) as [L1 L2 L3]. split.
    + intros w Hw Hid. destruct (L1 w Hw Hid) as (G1 & G2 & G3 & r' & G4 & G5 & G6 & G7 & G8).
      unfold waiter_ok. split_and!; [done..|]. rewrite Hid in *. rewrite Er in G4.
      injection G4 as <-. exists (rec_request_cancel r). cbn [b_rt with_rt]. split_and!; try done.
      left. destruct G6 as [[G6 [t Htok]]|[G6 _]]; [|congruence]. split; [done|]. simpl.
      rewrite Htok. by eexists.
    + intros Hx. destruct (L2 Hx) as (r' & Hr' & Hs). rewrite Er in Hr'. injection Hr' as <-.
      by exists (rec_request_cancel r).
    + intros Hx. destruct (L3 Hx) as [H1 H2]. split; [done|]. destruct H2 as [H2|H2]; [by left|].
      specialize (H2 r Er). congruence.
Qed.

(** A granted request takes over its reservation. *)
Lemma dispatch_facts target w b :
  inv b -> w ∈ b_waiting b -> w_id w ∉ ids (b_queue b) ->
  is_cancelled (w_id w) (b_rt b) = false -> started target ->
  let rt := mark_started target (w_id w) (b_rt b) in
  cap_ok rt /\ held (w_id w) rt = false
  /\ exists r, dget (w_id w) (requests rt) = Some r /\ status r = target.
Proof.
  intros Hinv Hw Hq Hnc Ht. pose proof (inv_wf _ _ b Hinv) as Hwf.
  destruct (lo_waiter _ _ _ (inv_local _ _ b Hinv (w_id w)) w Hw eq_refl)
    as (Hqg & Hdl & Hlm & r & Hr & Hrl & Hst & _ & Hres).
  assert (Hqd : status r = QUEUED).
  { destruct Hst as [[? _]|[_ Hc]]; [done|]. unfold is_cancelled, get_cancellation_token in Hnc.
    rewrite Hr in Hnc. unfold rec_cancelled in Hc. congruence. }
  specialize (Hres Hq Hqd). rewrite <- Hrl in Hres. set (x := w_id w) in *.
  destruct (mark_started_handover target (b_rt b) x r (started_active target Ht) Hwf Hr Hqd Hres)
    as (Ha & Hl & Hh).
  assert (Hr' : dget x (requests (mark_started target x (b_rt b))) = Some (rec_set_status target r)).
  { unfold mark_started. rewrite Hr, Hqd. simpl. apply dget_dset_eq. }
  assert (Hnq : target <> QUEUED) by by destruct Ht as [-> | ->].
  cbv zeta. split; [|split; [done | by exists (rec_set_status target r)]].
  destruct (inv_cap _ _ b Hinv) as (C1 & C2 & C3). split_and!.
  - by rewrite Ha.
  - intros l m Hlt Hm. rewrite Hl. by apply C2.
  - rewrite (queue_depth_frame x (b_rt b)), !waiting_at_spec; auto using wf_mark_started,
      frame_mark_started.
    rewrite Hr, Hr', Hh. unfold held, dmem. rewrite Hres. simpl.
    rewrite andb_false_r, bool_decide_eq_false_2 by done. simpl. lia.
Qed.

(** A granted request starts. *)
Lemma inv_dispatch target w strm b :
  inv b -> w ∈ b_waiting b -> w_id w ∉ ids (b_queue b) ->
  is_cancelled (w_id w) (b_rt b) = false -> started target ->
  inv (start_executing (w_id w) strm
        (stop_waiting (w_id w) (with_rt (mark_started target (w_id w) (b_rt b)) b))).
Proof.
  intros Hinv Hw Hq Hnc Ht.
  destruct (dispatch_facts target w b Hinv Hw Hq Hnc Ht) as (Hcap & Hh & r & Hr & Hs).
  set (x := w_id w) in *. set (b1 := stop_waiting x (with_rt _ b)).
  pose proof (frame_mark_started target x (b_rt b) Ht) as Hf.
  pose proof (wf_mark_started target x (b_rt b) Ht (inv_wf _ _ b Hinv)) as Hwf.
  assert (Hx1 : x ∉ waiting_ids b1).
  { intros (w' & Hw' & Hid)%elem_waiting_ids. by apply stop_waiting_elem in Hw' as [_ []]. }
  assert (Hx2 : x ∉ executing_ids b).
  { pose proof (inv_handlers _ _ b Hinv) as Hnd. apply NoDup_app in Hnd as (_ & H & _).
    apply H, elem_waiting_ids. by exists w. }
  assert (Hsub : waiting_ids b1 `sublist_of` waiting_ids b).
  { unfold waiting_ids, b1. simpl. apply fmap_sublist, filter_List_sublist. }
  eapply (inv_update env lane_cap x b _ Hinv); try done.
  - split; simpl; try done.
    + intros w' Hid. rewrite elem_of_filter_List, negb_true_iff, String.eqb_neq. tauto.
    + intros [y s] Hy. simpl in Hy. rewrite elem_of_app, list_elem_of_singleton. naive_solver.
  - apply Hinv.
  - unfold executing_ids, waiting_ids. simpl. rewrite map_app. simpl. rewrite (assoc (++)).
    apply NoDup_app. split; [|split; [|apply NoDup_singleton]].
    + eapply sublist_NoDup; [exact (inv_handlers _ _ b Hinv)|]. by apply sublist_app.
    + intros y Hy Hyx. apply list_elem_of_singleton in Hyx. subst y.
      apply elem_of_app in Hy as [Hy|Hy]; [by apply Hx1 | by apply Hx2].
  - intros e He Hid. destruct Hq. apply elem_ids. by exists e.
  - intros g Hg. destruct (decide (q_request_id g = x)) as [Hid|]; [right | by left].
    split_and!; [done..|]. by exists r.
  - split; simpl.
    + intros w' Hin Hid. destruct Hx1. apply elem_waiting_ids. by exists w'.
    + intros _. exists r. split; [done|]. rewrite Hs. by destruct Ht as [-> | ->].
    + intros _. split; [done|]. left. apply elem_executing_ids. exists strm. simpl. set_solver.
Qed.
End preservation.
