(* ===== verification/BrokerProps.v ===== *)
(** * What the broker guarantees

    Every reachable state satisfies the invariant, hence the capacity, queue and
    ownership guarantees of the broker as a whole. *)

From S2P Require Import Prelude PyDict PyStr Config Contracts Correlation ControlPlane.
From S2P Require Import RequestPolicy Ledger Runtime RuntimeFrame Scheduler Batching Queue.
From S2P Require Import CapacityProfile CapacityContext CapacityController Admission Broker.
From S2P Require Import BrokerSteps BrokerInv.

Section broker.
Context (repr_float : Q -> string) (env : environ) (queue_timeout : Q).
Context (lane_cap : option string -> option Z).

Lemma record_rejected_keeps reason s :
  requests (record_rejected reason s) = requests s
  /\ reservations (record_rejected reason s) = reservations s.
Proof. unfold record_rejected. by repeat case_match. Qed.

(** Counting a rejection changes nothing the invariant reads. *)
Lemma inv_reject reason b rt :
  inv env lane_cap b -> requests rt = requests (b_rt b) -> reservations rt = reservations (b_rt b) ->
  forall ctl, inv env lane_cap (with_rt (record_rejected reason rt) (with_ctl ctl b)).
Proof.
  intros Hinv H1 H2 ctl. destruct (record_rejected_keeps reason rt) as [E1 E2].
  apply (inv_same env lane_cap b); simpl; congruence.
Qed.

Lemma inv_initial path : inv env lane_cap (initial_broker path).
Proof.
  pose proof (operator_ceiling_pos env) as Hc. split; simpl.
  - apply wf_init.
  - constructor.
  - constructor.
  - intros e He. by apply elem_of_nil in He.
  - intros g Hg. by apply elem_of_nil in Hg.
  - intros x. split; simpl.
    + intros w Hw. by apply elem_of_nil in Hw.
    + intros Hx. by apply elem_of_nil in Hx.
    + intros _. split; [done|]. by right.
  - split_and!.
    + change (active_jobs init_runtime) with 0%Z. lia.
    + intros ln m Hl _. unfold active_jobs_for_lane. rewrite Hl. simpl.
      change (countv _ []) with 0%Z. lia.
    + change (queue_depth init_runtime) with 0%Z. lia.
Qed.

Lemma inv_dispatch_admitted wall mono id res r ingress up queued b :
  inv env lane_cap b -> fresh id b -> res_lane_max_concurrent res = lane_cap (res_lane res) ->
  (queued = false -> room env lane_cap (res_lane res) (b_rt b)) ->
  (queued = true -> (queue_depth (b_rt b) + 1 <= get_max_queue_depth env)%Z) ->
  inv env lane_cap (dispatch_admitted queue_timeout wall mono id res r ingress up queued b).2.
Proof.
  intros Hinv Hf Hlane Hrun Hq. unfold dispatch_admitted.
  set (b1 := with_rt (record_accepted (b_rt b)) b).
  assert (Hinv1 : inv env lane_cap b1) by by apply (inv_same env lane_cap b).
  destruct (request_has_image_content r && negb (adapter_supports_vision res));
    [by apply (inv_same env lane_cap b)|].
  destruct (ensure_backend_chat_request _ _); [by apply (inv_same env lane_cap b)|].
  fold b1. destruct queued.
  - unfold start_queued. rewrite Hlane. cbn [snd].
    apply (inv_enqueue env lane_cap wall mono queue_timeout id (req_model r) (req_stream r) up
      (res_lane res) (res_supports_streaming res) b1 Hinv1 Hf). by apply Hq.
  - specialize (Hrun eq_refl). unfold start_immediate. destruct (req_stream r); cbn [negb].
    + destruct (res_supports_streaming res); cbn [negb]; [|done].
      exact (inv_start env lane_cap STREAMING wall id (req_model r) true up (res_lane res) b1 Hinv1
        Hf (or_intror eq_refl) Hrun).
    + exact (inv_start env lane_cap RUNNING wall id (req_model r) false up (res_lane res) b1 Hinv1
        Hf (or_introl eq_refl) Hrun).
Qed.

Lemma inv_chat_completions fs hm wall mono id res r ingress up b :
  inv env lane_cap b -> fresh id b -> route_ok lane_cap res ->
  inv env lane_cap
    (chat_completions repr_float env queue_timeout fs hm wall mono id res r ingress up b).2.
Proof.
  intros Hinv Hf Hroute. unfold chat_completions.
  destruct res as [res|]; [|by apply (inv_same env lane_cap b)].
  specialize (Hroute res eq_refl).
  set (mid := if String.eqb (res_resolved_model_id res) "" then _ else _).
  destruct (evaluate_chat_request _ _ _ _ _ _ _ _ _ _) as [[adm ctl]|] eqn:Ead; [|done].
  case_bool_decide; [by apply inv_reject|].
  destruct (negb (ar_accepted adm) && negb (bool_decide (ar_reason adm = AD_QUEUED))) eqn:Erej;
    [by apply inv_reject|].
  apply inv_dispatch_admitted; [by apply (inv_same env lane_cap b) | done | done | |].
  - intros Hnq. rewrite Hnq, andb_true_r, negb_false_iff in Erej.
    destruct (accepted_within _ _ _ _ _ _ _ _ _ _ _ _ Ead Erej) as [H1 H2].
    split; [done|]. intros m Hm Hl. apply H2; [congruence | done].
  - intros Hq. apply bool_decide_eq_true in Hq. exact (queued_within _ _ _ _ _ _ _ _ _ _ _ _ Ead Hq).
Qed.

Lemma inv_generate fs hm wall id res r up b :
  inv env lane_cap b -> fresh id b -> route_ok lane_cap res ->
  inv env lane_cap (generate env fs hm wall id res r up b).2.
Proof.
  intros Hinv Hf Hroute. unfold generate.
  destruct res as [res|]; [|by apply (inv_same env lane_cap b)].
  specialize (Hroute res eq_refl).
  destruct (context_budgets _ _ _ _ _) as [budgets ctl].
  destruct (ce_over_limit _); [by apply inv_reject|].
  destruct (active_capacity_available _ _ _ _ _ _ _) eqn:Ecap; cbn [negb];
    [|by apply inv_reject].
  destruct (available_within _ _ _ _ _ _ _ Ecap) as [H1 H2].
  set (b1 := with_rt (record_accepted (b_rt b)) (with_ctl ctl b)).
  assert (Hinv1 : inv env lane_cap b1) by by apply (inv_same env lane_cap b).
  refine (inv_start env lane_cap RUNNING wall id _ false up (res_lane res) b1 Hinv1 Hf
    (or_introl eq_refl) _).
  split; [done|]. intros m Hm Hl. apply H2; [congruence | done].
Qed.

Lemma inv_finish wall id strm o b :
  inv env lane_cap b -> (id, strm) ∈ b_executing b -> inv env lane_cap (finish wall id strm o b).
Proof.
  clear repr_float queue_timeout.
  intros Hinv Hin.
  assert (Hx : id ∈ executing_ids b) by (apply elem_executing_ids; eauto).
  assert (Hnw : id ∉ waiting_ids b).
  { intros Hw. pose proof (inv_handlers _ _ b Hinv) as Hnd.
    apply NoDup_app in Hnd as (_ & H & _). by apply (H id). }
  assert (Hgen : forall (b0 : Broker) op, inv env lane_cap b0 -> b_waiting b0 = b_waiting b ->
    terminal_op op = Some id ->
    inv env lane_cap (stop_executing id (with_rt (rt_apply op (b_rt b0)) b0))).
  { intros b0 op H0 Hw0 Hop. apply (inv_end env lane_cap op id b0); try done.
    - intros p Hp. rewrite stop_executing_elem. simpl. tauto.
    - apply fmap_sublist, filter_List_sublist.
    - left. split_and!; [done..|]. unfold waiting_ids. rewrite Hw0. done. }
  unfold finish. destruct o; [ | destruct strm | | |].
  - exact (Hgen b (OpComplete wall id) Hinv eq_refl eq_refl).
  - exact (Hgen b (OpFail wall id None) Hinv eq_refl eq_refl).
  - exact (Hgen b (OpFail wall id None) Hinv eq_refl eq_refl).
  - exact (Hgen b (OpComplete wall id) Hinv eq_refl eq_refl).
  - exact (Hgen b (OpComplete wall id) Hinv eq_refl eq_refl).
  - refine (Hgen (with_rt (record_stream_disconnect id (b_rt b)) b) (OpCancel wall id) _ eq_refl
      eq_refl). by apply (inv_same env lane_cap b).
Qed.

Lemma inv_cancel wall id b :
  inv env lane_cap b -> inv env lane_cap (runtime_cancel_request wall id b).2.
Proof.
  intros Hinv. unfold runtime_cancel_request.
  destruct (get_request_snapshot id (b_rt b)) as [snap|] eqn:Es; [|done].
  destruct (terminal_status (snap_status snap)) eqn:Et; [done|].
  pose proof (inv_signal env lane_cap id b Hinv) as Hsig.
  destruct (request_cancellation id (b_rt b)) as [[] rt] eqn:Er; [|exact Hsig]. cbn [snd] in *.
  apply (inv_end env lane_cap (OpCancel wall id) id (with_rt rt b)); try done.
  left. split_and!; [done..|]. intros (w & Hw & <-)%elem_waiting_ids. cbn [b_rt with_rt] in *.
  destruct (lo_waiter _ _ _ (inv_local _ _ b Hinv (w_id w)) w Hw eq_refl)
    as (_ & _ & _ & r & Hr & _ & Hst & _).
  destruct Hst as [[Hqd [t Htok]]|[Ht _]].
  2:{ unfold get_request_snapshot in Es. rewrite Hr in Es. injection Es as <-. simpl in Et.
      congruence. }
  unfold request_cancellation in Er. rewrite Hr, Hqd in Er. injection Er as <-.
  unfold is_cancelled, get_cancellation_token. cbn [requests bump set_requests].
  rewrite dget_dset_eq. simpl. by rewrite Htok.
Qed.

(** One queue iteration on behalf of [w]: at most a grant, before the outcome. *)
Lemma inv_iteration fs hm mono w b d out q rt :
  inv env lane_cap b -> w ∈ b_waiting b ->
  wait_iter env mono (is_cancelled (w_id w) (b_rt b))
    (Some (capacity_available env fs hm (b_ctl b))) (Some (entry_eligible env fs hm (b_ctl b)))
    (Some reserve) d (w_entry w) (b_queue b) (b_rt b) = (out, q, rt) ->
  exists q1,
    let b1 := mkBroker rt q1 (b_ctl b) (b_waiting b) (b_executing b) in
    inv env lane_cap b1 /\ requests rt = requests (b_rt b)
    /\ q = match out with WReturn false => (remove (w_id w) q1).2 | _ => q1 end
    /\ (out = WReturn true ->
        is_cancelled (w_id w) (b_rt b) = false /\ w_id w ∉ ids q1).
Proof.
  intros Hinv Hw E.
  destruct (wait_iter_shape _ _ _ _ _ _ _ _ _ _ _ _ _ (inv_ids _ _ b Hinv) E)
    as (q1 & Hg & Hq & Htrue).
  exists q1. cbv zeta.
  assert (Hinv1 : inv env lane_cap (mkBroker rt q1 (b_ctl b) (b_waiting b) (b_executing b))
                  /\ requests rt = requests (b_rt b)).
  { destruct Hg as [[[Hd Hgr] ->] | [x Hx]]; [split; [by apply (inv_same env lane_cap b) | done]|].
    split.
    - eapply (inv_grant env lane_cap); [exact Hinv | exact Hx |]. simpl. intros Hcap Hel.
      specialize (Hel _ eq_refl). simpl in Hel.
      destruct (available_within _ _ _ _ _ _ _ Hel) as [H1 H2]. split; [done|].
      intros m Hm Hl. apply H2; [|done]. rewrite <- Hm.
      destruct (grants_ids _ _ _ _ _ _ _ _ _ (inv_ids _ _ b Hinv) Hx) as (_ & _ & Hin & _).
      destruct (inv_deque _ _ b Hinv x Hin) as (w' & Hw' & <-).
      by destruct (lo_waiter _ _ _ (inv_local _ _ b Hinv (w_id w')) w' Hw' eq_refl) as (_ & _ & -> & _).
    - rewrite (gr_reserved _ _ _ _ _ _ _ _ _ Hx). unfold reserve, reserve_capacity.
      by destruct (dmem _ _). }
  destruct Hinv1 as [Hinv1 Hreq]. split_and!; [done..|].
  intros Ho. destruct (Htrue Ho) as [Hc Hgr]. split; [done|].
  unfold entry_granted in Hgr.
  destruct (lo_waiter _ _ _ (inv_local _ _ b Hinv (w_id w)) w Hw eq_refl) as (Hg0 & _).
  rewrite Hg0 in Hgr. simpl in Hgr. apply existsb_exists in Hgr as (g & Hin & Hid).
  apply String.eqb_eq in Hid. rewrite <- list_elem_of_In in Hin.
  destruct (inv_granted _ _ _ Hinv1 g Hin) as [Hn _]. by rewrite Hid in Hn.
Qed.

Lemma inv_not_ready wall w q1 rt b :
  let b1 := mkBroker rt q1 (b_ctl b) (b_waiting b) (b_executing b) in
  inv env lane_cap b1 ->
  inv env lane_cap
    (stop_waiting (w_id w)
       (mkBroker (not_ready wall (w_id w) rt).2 (remove (w_id w) q1).2 (b_ctl b) (b_waiting b)
          (b_executing b))).
Proof.
  clear repr_float queue_timeout.
  intros b1 Hinv.
  assert (Hgen : forall op, terminal_op op = Some (w_id w) ->
    inv env lane_cap (stop_waiting (w_id w)
       (mkBroker (rt_apply op rt) (remove (w_id w) q1).2 (b_ctl b) (b_waiting b) (b_executing b)))).
  { intros op Hop. apply (inv_end env lane_cap op (w_id w) b1); try done.
    - intros w' Hid. rewrite stop_waiting_elem. simpl. tauto.
    - apply fmap_sublist, filter_List_sublist.
    - right. split_and!.
      + intros (w' & Hw' & Hid)%elem_waiting_ids. by apply stop_waiting_elem in Hw' as [_ []].
      + apply remove_facts, (inv_ids _ _ _ Hinv).
      + by left. }
  unfold not_ready. destruct (is_cancelled (w_id w) rt); cbn [snd].
  - eapply inv_same; [exact (Hgen (OpCancel wall (w_id w)) eq_refl) | done..].
  - exact (Hgen (OpTimedOut wall (w_id w)) eq_refl).
Qed.

Lemma inv_chat_wait fs hm wall mono w b :
  inv env lane_cap b -> w ∈ b_waiting b ->
  inv env lane_cap (chat_wait env queue_timeout fs hm wall mono w b).2.
Proof.
  clear repr_float.
  intros Hinv Hw. unfold chat_wait.
  destruct (wait_iter _ _ _ _ _ _ _ _ _ _) as [[out q] rt] eqn:E.
  destruct (inv_iteration _ _ _ _ _ _ _ _ _ Hinv Hw E) as (q1 & Hinv1 & Hreq & -> & Htrue).
  cbv zeta in Hinv1. destruct out as [[]|]; [| |exact Hinv1].
  - destruct (Htrue eq_refl) as [Hc Hn].
    set (b1 := mkBroker rt q1 (b_ctl b) (b_waiting b) (b_executing b)) in *.
    set (b2 := with_rt (mark_dequeued (w_id w) rt) b1).
    assert (Hinv2 : inv env lane_cap b2) by by apply (inv_same env lane_cap b1).
    assert (Hc2 : is_cancelled (w_id w) (b_rt b2) = false).
    { unfold is_cancelled, get_cancellation_token in *. cbn. by rewrite Hreq. }
    unfold dequeued. destruct (q_stream (w_entry w)); cbn [negb];
      [destruct (w_supports_streaming w); cbn [negb]|].
    + exact (inv_dispatch env lane_cap STREAMING w true b2 Hinv2 Hw Hn Hc2 (or_intror eq_refl)).
    + cbn [snd]. apply (inv_end env lane_cap (OpFail wall (w_id w) None) (w_id w) b2); try done.
      * intros w' Hid. rewrite stop_waiting_elem. simpl. tauto.
      * apply fmap_sublist, filter_List_sublist.
      * right. split_and!; [|done|by right].
        intros (w' & Hw' & Hid)%elem_waiting_ids. by apply stop_waiting_elem in Hw' as [_ []].
    + exact (inv_dispatch env lane_cap RUNNING w false b2 Hinv2 Hw Hn Hc2 (or_introl eq_refl)).
  - pose proof (inv_not_ready wall w q1 rt b Hinv1) as H.
    destruct (not_ready wall (w_id w) rt) as [rep rt']. exact H.
Qed.

Lemma inv_step b b' :
  inv env lane_cap b -> step repr_float env queue_timeout lane_cap b b' -> inv env lane_cap b'.
Proof.
  intros Hinv [ | | | | | | | wall results error | ]; try by apply (inv_same env lane_cap b).
  - by apply inv_chat_completions.
  - by apply inv_chat_wait.
  - by apply inv_generate.
  - by eapply inv_finish.
  - by apply inv_cancel.
  - apply (inv_same env lane_cap b); try done; unfold warmup_end; by repeat case_match.
Qed.

Lemma inv_reachable b :
  reachable repr_float env queue_timeout lane_cap b -> inv env lane_cap b.
Proof.
  intros [path H]. assert (Hi : inv env lane_cap (initial_broker path)) by apply inv_initial.
  revert Hi. induction H as [|b b1 b2 Hs _ IH]; [done|]. intros Hi. by apply IH, (inv_step b).
Qed.
End broker.

(** ** Cancellation signals are never lost *)

Definition keeps_cancel (s s' : RuntimeState) : Prop :=
  forall id, is_cancelled id s = true -> is_cancelled id s' = true.

Lemma keeps_cancel_trans s s1 s2 : keeps_cancel s s1 -> keeps_cancel s1 s2 -> keeps_cancel s s2.
Proof. unfold keeps_cancel. auto. Qed.

Lemma keeps_cancel_requests s s' : requests s' = requests s -> keeps_cancel s s'.
Proof. intros E id. unfold is_cancelled, get_cancellation_token. by rewrite E. Qed.

Lemma keeps_cancel_dset x r rec s :
  dget x (requests s) = Some r -> (rec_cancelled r = true -> rec_cancelled rec = true) ->
  keeps_cancel s (set_requests (dset x rec (requests s)) s).
Proof.
  intros Hr Himp id. unfold is_cancelled, get_cancellation_token. simpl. rewrite dget_dset.
  case_decide as E; [|done]. subst. by rewrite Hr.
Qed.

Definition begins (o : rt_op) : bool := match o with OpBegin _ _ _ _ _ _ => true | _ => false end.

Lemma keeps_cancel_apply o s : begins o = false -> keeps_cancel s (rt_apply o s).
Proof.
  intros Hb. destruct o; simpl in *; try discriminate;
    unfold mark_queued, mark_timed_out, request_cancellation, mark_running, mark_streaming,
      mark_started, complete_request, cancel_request, fail_request, reserve_capacity;
    destruct_record; try (by apply keeps_cancel_requests);
    (eapply keeps_cancel_trans; [eapply keeps_cancel_dset; [eassumption|] |
       by apply keeps_cancel_requests]); try done.
  unfold rec_cancelled. simpl. by destruct (cancel_token _).
Qed.

Lemma keeps_cancel_begin now x mdl strm up ln s :
  dget x (requests s) = None -> keeps_cancel s (begin_request now x mdl strm up ln s).2.
Proof.
  intros Hr id. unfold is_cancelled, get_cancellation_token. simpl. rewrite dget_dset.
  case_decide as E; [|done]. subst. by rewrite Hr.
Qed.

Lemma keeps_cancel_started target x s s' :
  started target -> keeps_cancel s s' -> keeps_cancel s (mark_started target x s').
Proof.
  intros [-> | ->] H; (eapply keeps_cancel_trans; [exact H|]);
    [apply (keeps_cancel_apply (OpRunning x)) | apply (keeps_cancel_apply (OpStreaming x))]; done.
Qed.

#[local] Hint Resolve keeps_cancel_begin keeps_cancel_requests keeps_cancel_started : whoosh.

Section broker_cancel.
Context (repr_float : Q -> string) (env : environ) (queue_timeout : Q).
Context (lane_cap : option string -> option Z).

Lemma keeps_cancel_reject reason s s' :
  requests s' = requests s -> keeps_cancel s (record_rejected reason s').
Proof.
  intros H. apply keeps_cancel_requests. destruct (record_rejected_keeps reason s') as [-> _]. done.
Qed.

Lemma keeps_cancel_dispatch_admitted wall mono id res r ingress up queued b :
  fresh id b ->
  keeps_cancel (b_rt b)
    (b_rt (dispatch_admitted queue_timeout wall mono id res r ingress up queued b).2).
Proof.
  intros Hf. unfold dispatch_admitted.
  assert (H0 : forall mdl strm ln, keeps_cancel (b_rt b)
    (begin_request wall id mdl strm up ln (record_accepted (b_rt b))).2).
  { intros. eapply keeps_cancel_trans; [|by apply keeps_cancel_begin]. by apply keeps_cancel_requests. }
  destruct (_ && negb _); [by apply keeps_cancel_reject|].
  destruct (ensure_backend_chat_request _ _); [by apply keeps_cancel_reject|].
  destruct queued; [unfold start_queued|unfold start_immediate; destruct (req_stream r); cbn [negb];
    [destruct (res_supports_streaming res); cbn [negb]|]].
  - cbn [snd b_rt start_waiting]. eapply keeps_cancel_trans; [apply H0|].
    by apply (keeps_cancel_apply (OpQueued id)).
  - apply (keeps_cancel_started STREAMING); [by right | apply H0].
  - by apply keeps_cancel_requests.
  - apply (keeps_cancel_started RUNNING); [by left | apply H0].
Qed.

Lemma keeps_cancel_wait fs hm wall mono w b :
  inv env lane_cap b -> w ∈ b_waiting b ->
  keeps_cancel (b_rt b) (b_rt (chat_wait env queue_timeout fs hm wall mono w b).2).
Proof.
  intros Hinv Hw. unfold chat_wait.
  destruct (wait_iter _ _ _ _ _ _ _ _ _ _) as [[out q] rt] eqn:E.
  destruct (inv_iteration _ _ _ _ _ _ _ _ _ _ _ Hinv Hw E) as (q1 & _ & Hreq & _ & _).
  apply keeps_cancel_requests in Hreq. destruct out as [[]|]; [| |exact Hreq].
  - unfold dequeued.
    assert (H1 : keeps_cancel (b_rt b) (mark_dequeued (w_id w) rt)).
    { eapply keeps_cancel_trans; [exact Hreq | by apply keeps_cancel_requests]. }
    destruct (q_stream (w_entry w)); cbn [negb]; [destruct (w_supports_streaming w); cbn [negb]|].
    + apply (keeps_cancel_started STREAMING); [by right | exact H1].
    + eapply keeps_cancel_trans; [exact H1|].
      by apply (keeps_cancel_apply (OpFail wall (w_id w) None)).
    + apply (keeps_cancel_started RUNNING); [by left | exact H1].
  - unfold not_ready. destruct (is_cancelled (w_id w) rt).
    + eapply keeps_cancel_trans; [exact Hreq|].
      eapply keeps_cancel_trans; [by apply (keeps_cancel_apply (OpCancel wall (w_id w)))|].
      by apply keeps_cancel_requests.
    + eapply keeps_cancel_trans; [exact Hreq|].
      by apply (keeps_cancel_apply (OpTimedOut wall (w_id w))).
Qed.

Lemma keeps_cancel_step b b' :
  inv env lane_cap b -> step repr_float env queue_timeout lane_cap b b' ->
  keeps_cancel (b_rt b) (b_rt b').
Proof.
  intros Hinv [fs hm wall mono id res r ingress up Hf Hroute | fs hm wall mono w Hw
    | fs hm wall id res r up Hf Hroute | wall id strm o Hin Hs | wall id | | wall
    | wall results error | wall]; try by apply keeps_cancel_requests.
  - unfold chat_completions. destruct res as [res|]; [|by apply keeps_cancel_reject].
    destruct (evaluate_chat_request _ _ _ _ _ _ _ _ _ _) as [[adm ctl]|]; [|by apply keeps_cancel_requests].
    repeat (case_match; [by apply keeps_cancel_reject|]).
    by apply (keeps_cancel_dispatch_admitted _ _ _ _ _ _ _ _ (with_ctl ctl b)).
  - by apply keeps_cancel_wait.
  - unfold generate. destruct res as [res|]; [|by apply keeps_cancel_reject].
    destruct (context_budgets _ _ _ _ _) as [budgets ctl].
    repeat (case_match; [by apply keeps_cancel_reject|]).
    apply (keeps_cancel_started RUNNING); [by left|].
    eapply keeps_cancel_trans; [|by apply keeps_cancel_begin]. by apply keeps_cancel_requests.
  - destruct o; [ | destruct strm | | |]; cbn.
    + by apply (keeps_cancel_apply (OpComplete wall id)).
    + by apply (keeps_cancel_apply (OpFail wall id None)).
    + by apply (keeps_cancel_apply (OpFail wall id None)).
    + by apply (keeps_cancel_apply (OpComplete wall id)).
    + by apply (keeps_cancel_apply (OpComplete wall id)).
    + eapply keeps_cancel_trans; [|by apply (keeps_cancel_apply (OpCancel wall id))].
      by apply keeps_cancel_requests.
  - unfold runtime_cancel_request. case_match; [|by apply keeps_cancel_requests].
    case_match; [by apply keeps_cancel_requests|].
    pose proof (keeps_cancel_apply (OpRequestCancellation id) (b_rt b) eq_refl) as H1. simpl in H1.
    destruct (request_cancellation id (b_rt b)) as [[] rt]; [|exact H1].
    eapply keeps_cancel_trans; [exact H1|]. by apply (keeps_cancel_apply (OpCancel wall id)).
  - apply keeps_cancel_requests. unfold warmup_end. by repeat case_match.
Qed.

Lemma keeps_cancel_steps b b' :
  inv env lane_cap b -> rtc (step repr_float env queue_timeout lane_cap) b b' ->
  inv env lane_cap b' /\ keeps_cancel (b_rt b) (b_rt b').
Proof.
  intros Hinv H. induction H as [b|b b1 b2 Hs _ IH]; [split; [done | by apply keeps_cancel_requests]|].
  destruct (IH (inv_step _ _ _ _ _ _ Hinv Hs)) as [H1 H2]. split; [done|].
  eapply keeps_cancel_trans; [by eapply keeps_cancel_step | exact H2].
Qed.
End broker_cancel.
