(* ===== verification/BrokerSpec.v ===== *)
(** * The broker's guarantees over every interleaving

    The properties of the whole broker: capacity, queue bound, ownership,
    idleness, cancellation, deadlines, and two consequences of how the handlers
    are composed. *)

From S2P Require Import Prelude PyDict PyStr Config Contracts Correlation ControlPlane.
From S2P Require Import RequestPolicy Ledger Runtime RuntimeFrame Scheduler Batching Queue.
From S2P Require Import CapacityProfile CapacityContext CapacityController Admission Broker.
From S2P Require Import BrokerSteps BrokerInv BrokerProps.

(** ** A concrete run: one slot, two chat requests *)

Definition run_env : environ :=
  [("WHOOSHD_ENABLE_QUEUE", "true"); ("WHOOSHD_MAX_ACTIVE_REQUESTS", "1")]%string.
Definition run_fs : ProfileFS := mkFS (fun _ => None) (fun _ => None).
Definition run_cap (ln : option string) : option Z := Some 1%Z.
Definition run_route : RuntimeResolution :=
  mkResolution (Some "mlx_lm"%string) (Some 1%Z) "m" (Some "mlx_lm"%string) true.
Definition run_chat (id : string) (t : Q) : Broker -> reply * Broker :=
  chat_completions (fun _ => ""%string) run_env 10 run_fs None t t id (Some run_route)
    sample_request (sample_ingress []) PNone.

Definition run_1 : Broker := (run_chat "a" 0 (initial_broker None)).2.
Definition run_2 : Broker := (run_chat "b" 1 run_1).2.
Definition run_waiter : Waiter :=
  mkWaiter (set_deadline (1 + 10) (new_entry "b" "m" false 1 PNone (Some "mlx_lm"%string)
                                     (Some 1%Z))) true.
Definition run_3 : Broker := finish 2 "a" false Served run_2.
Definition run_4 : Broker := (chat_wait run_env 10 run_fs None 3 3 run_waiter run_3).2.

Abbreviation run_step := (step (fun _ => ""%string) run_env 10 run_cap).
Abbreviation run_reachable := (reachable (fun _ => ""%string) run_env 10 run_cap).

Example run_2_shape :
  map w_id (b_waiting run_2) = ["b"%string] /\ b_executing run_2 = [("a"%string, false)].
Proof. split; vm_compute; reflexivity. Qed.

Example run_waiter_waits : b_waiting run_2 = [run_waiter].
Proof. vm_compute. reflexivity. Qed.

Example run_4_shape : b_waiting run_4 = [] /\ b_executing run_4 = [("b"%string, false)].
Proof. split; vm_compute; reflexivity. Qed.

Lemma run_reachable_2 : run_reachable run_2.
Proof.
  exists None. eapply rtc_l; [|eapply rtc_l; [|apply rtc_refl]].
  - refine (step_chat _ _ _ _ _ run_fs None 0 0 "a" (Some run_route) sample_request
      (sample_ingress []) PNone _ _); [reflexivity | by intros ? [= <-]].
  - refine (step_chat _ _ _ _ _ run_fs None 1 1 "b" (Some run_route) sample_request
      (sample_ingress []) PNone _ _); [vm_compute; reflexivity | by intros ? [= <-]].
Qed.

Lemma run_reachable_3 : run_reachable run_3.
Proof.
  destruct run_reachable_2 as [path H]. exists path. eapply rtc_r; [exact H|].
  refine (step_finish _ _ _ _ _ 2 "a" false Served _ _); [|done].
  rewrite (proj2 run_2_shape). apply list_elem_of_here.
Qed.

Lemma run_reachable_4 : run_reachable run_4.
Proof.
  destruct run_reachable_3 as [path H]. exists path. eapply rtc_r; [exact H|].
  refine (step_wait _ _ _ _ _ run_fs None 3 3 run_waiter _).
  change (b_waiting run_3) with (b_waiting run_2). rewrite run_waiter_waits.
  apply list_elem_of_here.
Qed.

Section spec.
Context (repr_float : Q -> string) (env : environ) (queue_timeout : Q).
Context (lane_cap : option string -> option Z).

(** C1: Capacity is never exceeded.  In every state any interleaving of requests,
    queue waits, grants, adapter outcomes and cancellations can reach, the number of
    occupied execution slots (running requests and granted ones) is at most the
    operator's ceiling, no lane is above its own ceiling, and the number of waiting
    requests is at most the queue bound. *)
Theorem capacity_never_exceeded b :
  reachable repr_float env queue_timeout lane_cap b ->
  (active_jobs (b_rt b) <= operator_ceiling env)%Z
  /\ (forall ln m, str_truthy ln = true -> lane_cap ln = Some m ->
        active_jobs_for_lane ln (b_rt b) <= Z.max m 1)%Z
  /\ (queue_depth (b_rt b) <= Z.max 0 (get_max_queue_depth env))%Z.
Proof. intros H. exact (inv_cap _ _ b (inv_reachable _ _ _ _ b H)). Qed.

(** C4: Ownership.  Every live request belongs to exactly one handler: a queued one
    to the coroutine waiting for it, an active one to the coroutine executing it; no
    request is executed by two coroutines, and every queue entry has its waiter. *)
Theorem live_requests_owned_once b :
  reachable repr_float env queue_timeout lane_cap b ->
  NoDup (waiting_ids b ++ executing_ids b)
  /\ (forall id r, dget id (requests (b_rt b)) = Some r -> live_status (status r) = true ->
        if bool_decide (status r = QUEUED) then id ∈ waiting_ids b else id ∈ executing_ids b)
  /\ (forall id, id ∈ ids (b_queue b) -> id ∈ waiting_ids b /\ held id (b_rt b) = false).
Proof.
  intros H. pose proof (inv_reachable _ _ _ _ b H) as Hinv. split_and!; [apply Hinv | |].
  - intros id r Hr Hlive. destruct (inv_local _ _ b Hinv id) as [L1 L2 L3].
    destruct (decide (id ∈ waiting_ids b)) as [Hw|Hw].
    + case_bool_decide as Hq; [done|]. exfalso. apply elem_waiting_ids in Hw as (w & Hw & Hid).
      destruct (L1 w Hw Hid) as (_ & _ & _ & r' & Hr' & _ & Hs & _). rewrite Hid in Hr'.
      simplify_eq. destruct Hs as [[Hs _]|[Hs _]]; [done|]. by rewrite terminal_not_live, Hlive in Hs.
    + destruct (L3 Hw) as [_ [He|He]].
      * destruct (L2 He) as (r' & Hr' & Hs). simplify_eq. by rewrite bool_decide_eq_false_2.
      * specialize (He r Hr). by rewrite terminal_not_live, Hlive in He.
  - intros id Hid. pose proof Hid as (e & He & <-)%elem_ids.
    destruct (inv_deque _ _ b Hinv e He) as (w & Hw & <-).
    destruct (lo_waiter _ _ _ (inv_local _ _ b Hinv _) w Hw eq_refl)
      as (_ & _ & _ & r & _ & _ & _ & Hin & _).
    split; [apply elem_waiting_ids; by exists w | by apply Hin].
Qed.

Lemma no_reservations rt : (forall id, held id rt = false) -> reservations rt = [].
Proof.
  intros H. destruct (reservations rt) as [|[k v] l] eqn:E; [done|]. specialize (H k).
  unfold held, dmem in H. rewrite E in H. simpl in H. by rewrite decide_True in H.
Qed.

(** C5: No slot leaks.  Whatever happened before, once no handler is waiting or
    executing, no slot is occupied, no reservation is left, the queue is empty and
    every request has ended. *)
Theorem idle_broker_is_empty b :
  reachable repr_float env queue_timeout lane_cap b ->
  b_waiting b = [] -> b_executing b = [] ->
  active_jobs (b_rt b) = 0%Z /\ reservations (b_rt b) = [] /\ deque (b_queue b) = []
  /\ queue_depth (b_rt b) = 0%Z
  /\ forall id r, dget id (requests (b_rt b)) = Some r -> terminal_status (status r) = true.
Proof.
  intros H Hw He. pose proof (inv_reachable _ _ _ _ b H) as Hinv.
  assert (Hidle : forall id, held id (b_rt b) = false /\ ended (dget id (requests (b_rt b)))).
  { intros id. destruct (lo_idle _ _ _ (inv_local _ _ b Hinv id)) as [H1 H2].
    - unfold waiting_ids. rewrite Hw. apply not_elem_of_nil.
    - split; [done|]. destruct H2 as [H2|]; [|done].
      unfold executing_ids in H2. rewrite He in H2. by apply elem_of_nil in H2. }
  assert (Hres : reservations (b_rt b) = []) by by apply no_reservations; intros id; apply Hidle.
  assert (Hend : forall id r, dget id (requests (b_rt b)) = Some r ->
    terminal_status (status r) = true) by (intros id r; apply (proj2 (Hidle id))).
  assert (Hval : forall p, (forall r, terminal_status (status r) = true -> p r = false) ->
    countv p (requests (b_rt b)) = 0%Z).
  { intros p Hp. apply countb_zero. intros r ([id r'] & -> & Hin)%list_elem_of_fmap. simpl.
    apply Hp, (Hend id), elem_dget; [apply Hinv | done]. }
  split_and!; try done.
  - unfold active_jobs. rewrite Hres, Hval; [done|]. intros r Hr. by destruct (status r).
  - destruct (deque (b_queue b)) as [|e l] eqn:Ed; [done|].
    destruct (inv_deque _ _ b Hinv e) as (w & Hin & _); [rewrite Ed; apply list_elem_of_here|].
    rewrite Hw in Hin. by apply elem_of_nil in Hin.
  - apply Hval. intros r Hr. unfold is_waiting. rewrite bool_decide_eq_false_2; [done|].
    by destruct (status r).
Qed.
(** The iteration the chat handler runs for [w]. *)
Definition iteration fs hm mono (w : Waiter) (b : Broker) : wait_outcome * RequestQueue * RuntimeState :=
  wait_iter env mono (is_cancelled (w_id w) (b_rt b))
    (Some (capacity_available env fs hm (b_ctl b))) (Some (entry_eligible env fs hm (b_ctl b)))
    (Some reserve) (default (mono + queue_timeout)%Q (q_deadline_at (w_entry w))) (w_entry w)
    (b_queue b) (b_rt b).

Lemma waiter_by_id b w w' :
  inv env lane_cap b -> w ∈ b_waiting b -> w' ∈ b_waiting b -> w_id w = w_id w' -> w = w'.
Proof.
  intros Hinv Hw Hw' Hid. pose proof (inv_handlers _ _ b Hinv) as Hnd.
  apply NoDup_app in Hnd as [Hnd _]. by apply (NoDup_map_inj w_id (b_waiting b)).
Qed.

Lemma waiter_not_executing b w :
  inv env lane_cap b -> w ∈ b_waiting b -> w_id w ∉ executing_ids b.
Proof.
  intros Hinv Hw. pose proof (inv_handlers _ _ b Hinv) as Hnd.
  apply NoDup_app in Hnd as (_ & H & _). apply H, elem_waiting_ids. by exists w.
Qed.

Lemma chat_wait_refused fs hm wall mono w b q rt :
  iteration fs hm mono w b = (WReturn false, q, rt) ->
  chat_wait env queue_timeout fs hm wall mono w b =
  ((not_ready wall (w_id w) rt).1,
   stop_waiting (w_id w)
     (mkBroker (not_ready wall (w_id w) rt).2 q (b_ctl b) (b_waiting b) (b_executing b))).
Proof.
  unfold iteration, chat_wait. intros ->. by destruct (not_ready wall (w_id w) rt).
Qed.

(** What is left of a request whose wait was refused. *)
Lemma refused_gone fs hm wall mono w b q rt :
  inv env lane_cap b -> w ∈ b_waiting b -> iteration fs hm mono w b = (WReturn false, q, rt) ->
  let b' := (chat_wait env queue_timeout fs hm wall mono w b).2 in
  w_id w ∉ waiting_ids b' /\ w_id w ∉ executing_ids b' /\ held (w_id w) (b_rt b') = false.
Proof.
  intros Hinv Hw E. pose proof (inv_chat_wait env queue_timeout lane_cap fs hm wall mono w b Hinv Hw) as Hinv'.
  cbv zeta. rewrite (chat_wait_refused _ _ wall _ _ _ _ _ E) in *. cbn [snd] in *.
  set (b' := stop_waiting _ _) in *.
  assert (Hn : w_id w ∉ waiting_ids b').
  { intros (w' & Hw' & Hid)%elem_waiting_ids. by apply stop_waiting_elem in Hw' as [_ []]. }
  split_and!; [done | by apply (waiter_not_executing b) |].
  by apply (lo_idle _ _ _ (inv_local _ _ b' Hinv' (w_id w)) Hn).
Qed.

(** C3: A request cancelled while it waits is never executed.  Once the cancel
    endpoint has accepted the cancellation, then after any further activity of the
    broker (including a grant of the very entry) the waiting coroutine answers 409,
    the request is in no adapter's hands and holds no slot. *)
Theorem cancelled_waiter_never_runs b b' fs hm t wall mono w :
  reachable repr_float env queue_timeout lane_cap b ->
  w ∈ b_waiting b -> (runtime_cancel_request t (w_id w) b).1 = Answered ->
  rtc (step repr_float env queue_timeout lane_cap) (runtime_cancel_request t (w_id w) b).2 b' ->
  w ∈ b_waiting b' ->
  let out := chat_wait env queue_timeout fs hm wall mono w b' in
  out.1 = Refused 409 ControlPlane.CANCELLED
  /\ w_id w ∉ waiting_ids out.2 /\ w_id w ∉ executing_ids out.2
  /\ held (w_id w) (b_rt out.2) = false.
Proof.
  intros H Hw Hans Hsteps Hw'. pose proof (inv_reachable _ _ _ _ b H) as Hinv.
  destruct (keeps_cancel_steps _ _ _ _ _ _ (inv_cancel env lane_cap t (w_id w) b Hinv) Hsteps)
    as [Hinv' Hkeep].
  assert (Hc : is_cancelled (w_id w) (b_rt b') = true).
  { apply Hkeep. destruct (lo_waiter _ _ _ (inv_local _ _ b Hinv (w_id w)) w Hw eq_refl)
      as (_ & _ & _ & r & Hr & _ & Hst & _).
    unfold runtime_cancel_request, get_request_snapshot in *. rewrite Hr in *. simpl in *.
    destruct (terminal_status (status r)) eqn:Et; [done|].
    destruct Hst as [[_ [k Hk]]|[]]; [|congruence].
    unfold request_cancellation. rewrite Hr, Et. cbn [b_rt with_rt snd].
    apply (keeps_cancel_apply (OpCancel t (w_id w))); [done|].
    unfold is_cancelled, get_cancellation_token. cbn. rewrite dget_dset_eq. simpl. by rewrite Hk. }
  assert (E : iteration fs hm mono w b' = (WReturn false, (remove (w_id w) (b_queue b')).2, b_rt b')).
  { unfold iteration, wait_iter. by rewrite Hc. }
  cbv zeta. split; [|by eapply refused_gone].
  rewrite (chat_wait_refused _ _ _ _ _ _ _ _ E). cbn [fst]. unfold not_ready. by rewrite Hc.
Qed.

(** C6: The queue deadline binds.  When a waiting coroutine runs at or after its
    deadline it answers 504 (or 409 if it was cancelled meanwhile), even if it had
    been granted in time: the request leaves the queue, is not executed and keeps no
    reservation. *)
Theorem expired_waiter_leaves b fs hm wall mono w d :
  reachable repr_float env queue_timeout lane_cap b ->
  w ∈ b_waiting b -> q_deadline_at (w_entry w) = Some d -> (d <= mono)%Q ->
  let out := chat_wait env queue_timeout fs hm wall mono w b in
  (out.1 = Refused 504 ControlPlane.TIMEOUT \/ out.1 = Refused 409 ControlPlane.CANCELLED)
  /\ w_id w ∉ waiting_ids out.2 /\ w_id w ∉ executing_ids out.2
  /\ held (w_id w) (b_rt out.2) = false.
Proof.
  intros H Hw Hd Hle. pose proof (inv_reachable _ _ _ _ b H) as Hinv. cbv zeta.
  destruct (iteration fs hm mono w b) as [[o q] rt] eqn:E.
  assert (Hcons : entry_consistent (w_entry w) (b_queue b)).
  { intros x Hx Hid. destruct (inv_deque _ _ b Hinv x Hx) as (w' & Hw' & <-).
    by rewrite (waiter_by_id b w' w Hinv Hw' Hw Hid). }
  pose proof E as E'. unfold iteration in E'. rewrite Hd in E'.
  pose proof (wait_iter_cases env _ _ _ _ d Hd _ _ _ _ _ _ _ (inv_ids _ _ b Hinv) Hcons E') as Hcase.
  destruct o as [[]|]; [lra | | lra].
  split; [|by eapply refused_gone].
  rewrite (chat_wait_refused _ _ _ _ _ _ _ _ E). cbn [fst]. unfold not_ready.
  destruct (is_cancelled (w_id w) rt); [by right | by left].
Qed.

Lemma queued_not_granted b w :
  inv env lane_cap b -> w ∈ b_waiting b -> w_id w ∈ ids (b_queue b) ->
  entry_granted (w_entry w) (b_queue b) = false.
Proof.
  intros Hinv Hw Hin. apply not_true_is_false. intros Hg. unfold entry_granted in Hg.
  destruct (lo_waiter _ _ _ (inv_local _ _ b Hinv (w_id w)) w Hw eq_refl) as (Hg0 & _).
  rewrite Hg0 in Hg. apply existsb_exists in Hg as (g & Hgin & Hid).
  apply String.eqb_eq in Hid. rewrite <- list_elem_of_In in Hgin.
  destruct (inv_granted _ _ b Hinv g Hgin) as [Hn _]. by rewrite Hid in Hn.
Qed.

(** The iteration of the coroutine at the front, when there is something to grant. *)
Lemma front_iteration fs hm mono w e b :
  inv env lane_cap b -> w ∈ b_waiting b -> peek (b_queue b) = Some (w_entry w) ->
  is_cancelled (w_id w) (b_rt b) = false ->
  e ∈ deque (b_queue b) -> is_expired mono (Some e) = false ->
  capacity_available env fs hm (b_ctl b) (b_rt b) = true ->
  entry_eligible env fs hm (b_ctl b) (Some e) (b_rt b) = true ->
  exists x q1 rt1,
    grants mono (capacity_available env fs hm (b_ctl b))
      (Some (entry_eligible env fs hm (b_ctl b))) (Some reserve) (b_queue b) (b_rt b) x q1 rt1
    /\ iteration fs hm mono w b =
      if String.eqb (q_request_id x) (w_id w) then (WReturn true, q1, rt1)
      else if is_expired mono (Some (w_entry w))
      then (WReturn false, timeout_entry (w_entry w) q1, rt1)
      else (WWait (Qmin' (Qmax' (default (mono + queue_timeout)%Q (q_deadline_at (w_entry w)) - mono) 0)
                         (poll_interval_s env)) false, q1, rt1).
Proof.
  intros Hinv Hw Hpeek Hnc He Hexp Hcap Hel. pose proof (inv_ids _ _ b Hinv) as Hnd.
  assert (Hng : entry_granted (w_entry w) (b_queue b) = false).
  { apply queued_not_granted; [done..|]. apply elem_ids. exists (w_entry w). split; [|done].
    unfold peek in Hpeek. destruct (deque (b_queue b)); simplify_eq/=. apply list_elem_of_here. }
  destruct (select_and_dequeue env mono (capacity_available env fs hm (b_ctl b))
    (Some (entry_eligible env fs hm (b_ctl b))) (Some reserve) (b_queue b) (b_rt b))
    as [[[sel|] q1] rt1] eqn:Es.
  2:{ destruct (select_none _ _ _ _ _ _ _ _ _ Hnd Es) as (_ & _ & _ & [Hc|Hn]); [congruence|].
      refine (False_ind _ (eligible_of_nonempty mono _ _ _ e Hnd He Hexp _ Hn)).
      intros f Hf. injection Hf as <-. exact Hel. }
  destruct (select_grants _ _ _ _ _ _ _ _ _ _ Hnd Es) as (x & -> & Hg).
  exists x, q1, rt1. split; [done|].
  unfold iteration, wait_iter. rewrite Hnc, Hng, Hpeek. fold (w_id w). rewrite String.eqb_refl.
  simpl. rewrite Hcap. simpl. by rewrite Es.
Qed.

(** Refusing one request leaves another's reservation alone. *)
Lemma not_ready_held wall x y rt : y <> x -> held y (not_ready wall x rt).2 = held y rt.
Proof.
  intros Hne. unfold held, dmem, not_ready. destruct (is_cancelled x rt); cbn [snd].
  - change (reservations (record_queue_cancelled ?s0)) with (reservations s0).
    change (cancel_request wall x rt) with (rt_apply (OpCancel wall x) rt).
    by rewrite (proj2 (frame_apply (OpCancel wall x) rt y Hne)).
  - change (mark_timed_out wall x rt) with (rt_apply (OpTimedOut wall x) rt).
    by rewrite (proj2 (frame_apply (OpTimedOut wall x) rt y Hne)).
Qed.

(** C7: A free slot is handed out.  When the coroutine whose entry is at the front
    of the queue runs, and some queued entry is before its deadline with room both
    globally and in its lane, then that step grants an entry: either the coroutine's
    own, and its request goes to the adapter (or is refused because its runtime
    cannot stream), or another waiter's, whose slot is then reserved. *)
Theorem front_waiter_hands_out_capacity b fs hm wall mono w e :
  reachable repr_float env queue_timeout lane_cap b ->
  w ∈ b_waiting b -> peek (b_queue b) = Some (w_entry w) ->
  is_cancelled (w_id w) (b_rt b) = false ->
  e ∈ deque (b_queue b) -> is_expired mono (Some e) = false ->
  capacity_available env fs hm (b_ctl b) (b_rt b) = true ->
  entry_eligible env fs hm (b_ctl b) (Some e) (b_rt b) = true ->
  let out := chat_wait env queue_timeout fs hm wall mono w b in
  exists x, x ∈ deque (b_queue b) /\ is_expired mono (Some x) = false
    /\ q_request_id x ∉ ids (b_queue out.2)
    /\ (x = w_entry w /\ (out.1 = Dispatched /\ w_id w ∈ executing_ids out.2
                          \/ out.1 = StreamingNotSupported)
        \/ x <> w_entry w /\ held (q_request_id x) (b_rt out.2) = true).
Proof.
  intros H Hw Hpeek Hnc He Hexp Hcap Hel. pose proof (inv_reachable _ _ _ _ b H) as Hinv.
  pose proof (inv_ids _ _ b Hinv) as Hnd.
  assert (Hfront : w_entry w ∈ deque (b_queue b)).
  { unfold peek in Hpeek. destruct (deque (b_queue b)); simplify_eq/=. apply list_elem_of_here. }
  destruct (front_iteration _ _ _ _ _ _ Hinv Hw Hpeek Hnc He Hexp Hcap Hel)
    as (x & q1 & rt1 & Hg & Hit).
  destruct (grants_ids _ _ _ _ _ _ _ _ _ Hnd Hg) as (_ & Hxn & Hx & _).
  exists x. split; [done|]. split; [exact (gr_unexpired _ _ _ _ _ _ _ _ _ Hg)|].
  destruct (String.eqb_spec (q_request_id x) (w_id w)) as [Hid|Hid].
  - assert (x = w_entry w) as -> by by apply (NoDup_map_inj q_request_id (deque (b_queue b))).
    unfold chat_wait. fold (iteration fs hm mono w b). rewrite Hit. unfold dequeued.
    destruct (q_stream (w_entry w)); cbn [negb];
      [destruct (w_supports_streaming w); cbn [negb]|]; (split; [exact Hxn|]); left;
      (split; [done|]); [left | by right | left]; (split; [done|]);
      apply elem_executing_ids; eexists; cbn; apply elem_of_app; right; apply list_elem_of_here.
  - assert (Hne : x <> w_entry w) by by intros ->.
    assert (Hheld : held (q_request_id x) rt1 = true).
    { rewrite (gr_reserved _ _ _ _ _ _ _ _ _ Hg). unfold reserve.
      rewrite held_reserve. by rewrite bool_decide_eq_true_2. }
    destruct (is_expired mono (Some (w_entry w))).
    + rewrite (chat_wait_refused _ _ wall _ _ _ _ _ Hit). cbn [snd fst b_queue b_rt stop_waiting].
      split; [|right; split; [done | by rewrite not_ready_held]].
      intros Hin. apply Hxn. eapply elem_of_submseteq; [exact Hin|].
      apply sublist_submseteq, remove_facts.
    + unfold chat_wait. fold (iteration fs hm mono w b). rewrite Hit.
      split; [exact Hxn|]. right. by split.
Qed.

(** Live batching is unreachable from the chat handler.  In any reachable
    state, when a wait succeeds, the batch attempt that follows finds no group,
    whatever the configuration: the request has just left the queue, and only queued
    requests are grouped. *)
Theorem live_batch_never_runs b fs hm mono w gid q rt :
  reachable repr_float env queue_timeout lane_cap b ->
  w ∈ b_waiting b -> iteration fs hm mono w b = (WReturn true, q, rt) ->
  try_execute_live_batch env (w_id w) gid
    (mkBroker (mark_dequeued (w_id w) rt) q (b_ctl b) (b_waiting b) (b_executing b)) = None.
Proof.
  intros H Hw E. pose proof (inv_reachable _ _ _ _ b H) as Hinv.
  destruct (inv_iteration _ _ _ _ _ _ _ _ _ _ _ Hinv Hw E) as (q1 & _ & _ & -> & Htrue).
  unfold try_execute_live_batch. destruct (negb _); [done|].
  apply find_batch_group_absent. by apply Htrue.
Qed.

(** Cancelling a queued request counts it twice.  The cancel endpoint ends the
    request, and the waiting coroutine ends it again when it wakes up: one
    cancellation raises [total_requests_cancelled] by two. *)
Theorem queued_cancellation_counted_twice b fs hm t wall mono w :
  reachable repr_float env queue_timeout lane_cap b -> w ∈ b_waiting b ->
  (runtime_cancel_request t (w_id w) b).1 = Answered ->
  let b1 := (runtime_cancel_request t (w_id w) b).2 in
  let b2 := (chat_wait env queue_timeout fs hm wall mono w b1).2 in
  rt_counters (b_rt b2) total_requests_cancelled
  = (rt_counters (b_rt b) total_requests_cancelled + 2)%Z.
Proof.
  intros H Hw Hans. pose proof (inv_reachable _ _ _ _ b H) as Hinv.
  destruct (lo_waiter _ _ _ (inv_local _ _ b Hinv (w_id w)) w Hw eq_refl)
    as (_ & _ & _ & r & Hr & _ & Hst & _). cbv zeta.
  unfold runtime_cancel_request, get_request_snapshot in *. rewrite Hr in *. simpl in *.
  destruct (terminal_status (status r)) eqn:Et; [done|].
  destruct Hst as [[_ [k Hk]]|[]]; [|congruence].
  unfold request_cancellation. rewrite Hr, Et. cbn [snd].
  set (b1 := with_rt _ b).
  assert (Hr1 : exists r1, dget (w_id w) (requests (b_rt b1)) = Some r1 /\ rec_cancelled r1 = true).
  { unfold b1, cancel_request. cbn. rewrite dget_dset_eq. cbn. rewrite dget_dset_eq.
    eexists. split; [reflexivity|]. unfold rec_cancelled. simpl. by rewrite Hk. }
  assert (Hn1 : rt_counters (b_rt b1) total_requests_cancelled
    = (rt_counters (b_rt b) total_requests_cancelled + 1)%Z).
  { unfold b1, cancel_request. cbn. rewrite dget_dset_eq. done. }
  clearbody b1. destruct Hr1 as (r1 & Hr1 & Hc1).
  assert (Hc : is_cancelled (w_id w) (b_rt b1) = true).
  { unfold is_cancelled, get_cancellation_token. rewrite Hr1. exact Hc1. }
  rewrite (chat_wait_refused fs hm wall mono w b1 (remove (w_id w) (b_queue b1)).2 (b_rt b1)).
  - cbn. unfold not_ready. rewrite Hc. unfold cancel_request. rewrite Hr1. cbn.
    rewrite decide_False, decide_True, Hn1 by done. lia.
  - unfold iteration, wait_iter. by rewrite Hc.
Qed.
End spec.

Lemma capacity_never_exceeded_witness :
  active_jobs (b_rt run_4) = 1%Z /\ (active_jobs (b_rt run_4) <= operator_ceiling run_env)%Z.
Proof.
  split; [vm_compute; reflexivity|].
  exact (proj1 (capacity_never_exceeded _ _ _ _ run_4 run_reachable_4)).
Defined.

Lemma live_requests_owned_once_witness :
  waiting_ids run_2 = ["b"%string] /\ NoDup (waiting_ids run_2 ++ executing_ids run_2).
Proof.
  split; [vm_compute; reflexivity|].
  exact (proj1 (live_requests_owned_once _ _ _ _ run_2 run_reachable_2)).
Defined.

Definition run_5 : Broker := finish 4 "b" false AdapterError run_4.

Lemma run_reachable_5 : run_reachable run_5.
Proof.
  destruct run_reachable_4 as [path H]. exists path. eapply rtc_r; [exact H|].
  refine (step_finish _ _ _ _ _ 4 "b" false AdapterError _ _); [|done].
  rewrite (proj2 run_4_shape). apply list_elem_of_here.
Qed.

Lemma idle_broker_is_empty_witness :
  length (requests (b_rt run_5)) = 2 /\ active_jobs (b_rt run_5) = 0%Z.
Proof.
  split; [vm_compute; reflexivity|].
  refine (proj1 (idle_broker_is_empty _ _ _ _ run_5 run_reachable_5 _ _));
    vm_compute; reflexivity.
Defined.

Lemma cancelled_waiter_never_runs_witness :
  (runtime_cancel_request 2 "b" run_2).1 = Answered
  /\ (chat_wait run_env 10 run_fs None 3 3 run_waiter (runtime_cancel_request 2 "b" run_2).2).1
     = Refused 409 ControlPlane.CANCELLED.
Proof.
  assert (Hans : (runtime_cancel_request 2 "b" run_2).1 = Answered) by (vm_compute; reflexivity).
  assert (Hin : run_waiter ∈ b_waiting run_2) by (rewrite run_waiter_waits; apply list_elem_of_here).
  split; [exact Hans|].
  refine (proj1 (cancelled_waiter_never_runs _ run_env 10 run_cap run_2
    (runtime_cancel_request 2 "b" run_2).2 run_fs None 2 3 3 run_waiter run_reachable_2 Hin Hans
    (rtc_refl _ _) _)).
  assert (Hw : b_waiting (runtime_cancel_request 2 "b" run_2).2 = [run_waiter])
    by (vm_compute; reflexivity).
  rewrite Hw. apply list_elem_of_here.
Defined.

Lemma expired_waiter_leaves_witness :
  w_id run_waiter ∉ waiting_ids (chat_wait run_env 10 run_fs None 20 20 run_waiter run_3).2.
Proof.
  refine (proj1 (proj2 (expired_waiter_leaves _ run_env 10 run_cap run_3 run_fs None 20 20
    run_waiter (1 + 10) run_reachable_3 _ eq_refl _))).
  - change (b_waiting run_3) with (b_waiting run_2). rewrite run_waiter_waits.
    apply list_elem_of_here.
  - apply Qle_bool_iff. reflexivity.
Defined.

Lemma live_batch_never_runs_witness :
  let it := iteration run_env 10 run_fs None 3 run_waiter run_3 in
  it.1.1 = WReturn true
  /\ try_execute_live_batch run_env "b" pretty
       (mkBroker (mark_dequeued "b" it.2) it.1.2 (b_ctl run_3) (b_waiting run_3) (b_executing run_3))
     = None.
Proof.
  cbv zeta. set (it := iteration _ _ _ _ _ _ _).
  assert (Hit : it = (WReturn true, it.1.2, it.2)) by (vm_compute; reflexivity).
  split; [rewrite Hit; reflexivity|].
  refine (live_batch_never_runs _ run_env 10 run_cap run_3 run_fs None 3 run_waiter pretty it.1.2
    it.2 run_reachable_3 _ Hit).
  change (b_waiting run_3) with (b_waiting run_2). rewrite run_waiter_waits.
  apply list_elem_of_here.
Defined.

Lemma queued_cancellation_counted_twice_witness :
  rt_counters (b_rt (chat_wait run_env 10 run_fs None 3 3 run_waiter
    (runtime_cancel_request 2 "b" run_2).2).2) total_requests_cancelled
  = (rt_counters (b_rt run_2) total_requests_cancelled + 2)%Z.
Proof.
  apply (queued_cancellation_counted_twice (fun _ => ""%string) run_env 10 run_cap run_2 run_fs None
    2 3 3 run_waiter run_reachable_2).
  - rewrite run_waiter_waits. apply list_elem_of_here.
  - vm_compute. reflexivity.
Defined.

Lemma front_waiter_hands_out_capacity_witness :
  exists x, x ∈ deque (b_queue run_3)
    /\ q_request_id x ∉ ids (b_queue (chat_wait run_env 10 run_fs None 3 3 run_waiter run_3).2).
Proof.
  assert (Hw : run_waiter ∈ b_waiting run_3).
  { change (b_waiting run_3) with (b_waiting run_2). rewrite run_waiter_waits.
    apply list_elem_of_here. }
  assert (Hq : deque (b_queue run_3) = [w_entry run_waiter]) by (vm_compute; reflexivity).
  edestruct (front_waiter_hands_out_capacity _ run_env 10 run_cap run_3 run_fs None 3 3 run_waiter
    (w_entry run_waiter) run_reachable_3 Hw) as (x & Hx & _ & Hn & _).
  - unfold peek. rewrite Hq. reflexivity.
  - vm_compute. reflexivity.
  - rewrite Hq. apply list_elem_of_here.
  - vm_compute. reflexivity.
  - vm_compute. reflexivity.
  - vm_compute. reflexivity.
  - exists x. split; [exact Hx | exact Hn].
Defined.
