(* ===== verification/TWIndex.v ===== *)
(** * The ThreadWake metadata index ([runtime/threadwake/index.py])

    [ThreadWakeIndex] maps cache keys to entries, keeps the keys in
    least-recently-used order, evicts from the front of that order when a new
    entry exceeds the entry or memory bound, answers lookups only in a matching
    scope, and keeps one tip per thread for session continuation.

    - The state is the record [ThreadWakeIndex]; [_entries] and [_thread_tips] are
      dictionaries, [_lru] a list of keys.  The lock makes every operation one
      atomic step.
    - [datetime.now] is an argument [now], read once per operation; [isoformat] and
      the digest [sha256_hex] of [keys.py] are functions the operations take.
    - An entry is an object that its caller and the dictionary share.  The
      operations return the entry as it is when they return; an entry that the
      eviction of its own insertion removes is returned with status [EVICTED], as
      the shared object would show.
    - [_evict_if_needed] indexes [_entries] with the key it takes from [_lru] and
      would raise [KeyError] on a key it does not find; the theorems show that the
      two never disagree. *)

From S2P Require Import Prelude PyDict PyStr PySeq.

(** ** Data *)

Inductive EntryStatus := OBSERVED | WARMING | READY | STALE | EVICTED.

#[export] Instance EntryStatus_eq_dec : EqDecision EntryStatus.
Proof. solve_decision. Defined.

Definition EntryStatus_value (s : EntryStatus) : string :=
  match s with
  | OBSERVED => "observed" | WARMING => "warming" | READY => "ready"
  | STALE => "stale" | EVICTED => "evicted"
  end.

Record ScopeContext := mkScopeContext {
  sc_thread_id : option string;
  sc_user_id : option string;
  sc_project_id : option string;
}.

Definition DEFAULT_SCOPE_CONTEXT : ScopeContext := mkScopeContext None None None.

(** [f"{x}"] of an optional string. *)
Definition format_opt (o : option string) : string := default "None" o.

Definition fingerprint (sha256_hex : string -> string) (c : ScopeContext) : string :=
  sha256_hex ("thread=" +:+ format_opt (sc_thread_id c) +:+ "|user=" +:+ format_opt (sc_user_id c)
              +:+ "|project=" +:+ format_opt (sc_project_id c)).

Definition scope_to_dict (c : ScopeContext) : list (string * pyval) :=
  [("thread_id", opt_str (sc_thread_id c)); ("user_id", opt_str (sc_user_id c));
   ("project_id", opt_str (sc_project_id c))].

Record ThreadWakeIndexEntry := mkEntry {
  te_cache_key : string;
  te_model_id : string;
  te_backend : string;
  te_prompt_prefix_hash : string;
  te_token_count : Z;
  te_status : EntryStatus;
  te_scope : string;
  te_scope_id : option string;
  te_kv_handle_id : option string;
  te_created_at : Q;
  te_last_used_at : Q;
  te_hit_count : Z;
  te_memory : Z;
  te_candidate_score : option Q;
  te_candidate_confidence : option string;
  te_candidate_selected_at : option Q;
  te_selection_reason : option string;
  te_saved_tokens : option Z;
  te_saved_ratio : option Q;
  te_seen_count : Z;
  te_last_seen_at : option Q;
  te_tokenizer_hash : option string;
  te_chat_template_hash : option string;
}.

(** The entry [put_observation] creates; the remaining fields have their
    defaults. *)
Definition fresh_entry (cache_key model_id backend prefix_hash : string) (token_count : Z)
    (scope : string) (scope_id kv_handle_id : option string) (memory : Z) (now : Q)
    : ThreadWakeIndexEntry :=
  mkEntry cache_key model_id backend prefix_hash token_count OBSERVED scope scope_id kv_handle_id
    now now 0 memory None None None None None None 0 None
    None None.

(** Field assignments. *)
Definition set_status (st : EntryStatus) (e : ThreadWakeIndexEntry) : ThreadWakeIndexEntry :=
  mkEntry (te_cache_key e) (te_model_id e) (te_backend e) (te_prompt_prefix_hash e)
    (te_token_count e) st (te_scope e) (te_scope_id e) (te_kv_handle_id e) (te_created_at e)
    (te_last_used_at e) (te_hit_count e) (te_memory e) (te_candidate_score e)
    (te_candidate_confidence e) (te_candidate_selected_at e) (te_selection_reason e)
    (te_saved_tokens e) (te_saved_ratio e) (te_seen_count e) (te_last_seen_at e)
    (te_tokenizer_hash e) (te_chat_template_hash e).

(** [ThreadWakeIndexEntry.touch] *)
Definition touch (now : Q) (e : ThreadWakeIndexEntry) : ThreadWakeIndexEntry :=
  mkEntry (te_cache_key e) (te_model_id e) (te_backend e) (te_prompt_prefix_hash e)
    (te_token_count e) (te_status e) (te_scope e) (te_scope_id e) (te_kv_handle_id e)
    (te_created_at e) now (te_hit_count e + 1) (te_memory e) (te_candidate_score e)
    (te_candidate_confidence e) (te_candidate_selected_at e) (te_selection_reason e)
    (te_saved_tokens e) (te_saved_ratio e) (te_seen_count e) (te_last_seen_at e)
    (te_tokenizer_hash e) (te_chat_template_hash e).

(** The assignments [put_observation] makes to an entry it already has. *)
Definition reobserve (token_count memory : Z) (kv_handle_id : option string) (scope : string)
    (scope_id : option string) (e : ThreadWakeIndexEntry) : ThreadWakeIndexEntry :=
  mkEntry (te_cache_key e) (te_model_id e) (te_backend e) (te_prompt_prefix_hash e)
    token_count (te_status e) scope scope_id
    (match kv_handle_id with Some h => Some h | None => te_kv_handle_id e end)
    (te_created_at e) (te_last_used_at e) (te_hit_count e) memory (te_candidate_score e)
    (te_candidate_confidence e) (te_candidate_selected_at e) (te_selection_reason e)
    (te_saved_tokens e) (te_saved_ratio e) (te_seen_count e) (te_last_seen_at e)
    (te_tokenizer_hash e) (te_chat_template_hash e).

(** The assignments of [mark_candidate_selected]. *)
Definition select_candidate (score : Q) (confidence reason : string) (saved_tokens : Z)
    (saved_ratio : Q) (selected_at : option Q) (now : Q) (e : ThreadWakeIndexEntry)
    : ThreadWakeIndexEntry :=
  mkEntry (te_cache_key e) (te_model_id e) (te_backend e) (te_prompt_prefix_hash e)
    (te_token_count e) (te_status e) (te_scope e) (te_scope_id e) (te_kv_handle_id e)
    (te_created_at e) (te_last_used_at e) (te_hit_count e) (te_memory e) (Some score)
    (Some confidence) (Some (default now selected_at)) (Some reason) (Some saved_tokens)
    (Some saved_ratio) (te_seen_count e + 1) (Some now) (te_tokenizer_hash e)
    (te_chat_template_hash e).

(** [ThreadWakeIndexEntry.public_snapshot] *)
Definition opt_float (o : option Q) : pyval := from_option PFloat PNone o.

Definition public_snapshot (isoformat : Q -> string) (e : ThreadWakeIndexEntry)
    : list (string * pyval) :=
  [("cache_key", PStr (te_cache_key e)); ("model_id", PStr (te_model_id e));
   ("backend", PStr (te_backend e)); ("prompt_prefix_hash", PStr (te_prompt_prefix_hash e));
   ("token_count", PInt (te_token_count e)); ("status", PStr (EntryStatus_value (te_status e)));
   ("scope", PStr (te_scope e)); ("kv_handle_id", opt_str (te_kv_handle_id e));
   ("created_at", PStr (isoformat (te_created_at e)));
   ("last_used_at", PStr (isoformat (te_last_used_at e)));
   ("hit_count", PInt (te_hit_count e)); ("estimated_memory_bytes", PInt (te_memory e));
   ("candidate_score", opt_float (te_candidate_score e));
   ("candidate_confidence", opt_str (te_candidate_confidence e));
   ("selection_reason", opt_str (te_selection_reason e));
   ("potential_saved_tokens", opt_int (te_saved_tokens e));
   ("potential_saved_ratio", opt_float (te_saved_ratio e));
   ("candidate_seen_count", PInt (te_seen_count e));
   ("candidate_last_seen_at", opt_str (isoformat <$> te_last_seen_at e))].

Record ThreadWakeStats := mkTWStats {
  ts_entry_count : Z;
  ts_max_entries : Z;
  ts_memory : Z;
  ts_max_memory_bytes : Z;
  ts_hit_count : Z;
  ts_miss_count : Z;
  ts_evictions : Z;
  ts_global_allowed : bool;
  ts_entries_by_status : list (string * Z);
  ts_entries_by_scope : list (string * Z);
}.

(** [ThreadWakeStats.to_dict] *)
Definition stats_to_dict (s : ThreadWakeStats) : list (string * pyval) :=
  [("entry_count", PInt (ts_entry_count s)); ("max_entries", PInt (ts_max_entries s));
   ("estimated_memory_bytes", PInt (ts_memory s));
   ("max_memory_bytes", PInt (ts_max_memory_bytes s)); ("hit_count", PInt (ts_hit_count s));
   ("miss_count", PInt (ts_miss_count s)); ("evictions", PInt (ts_evictions s));
   ("global_allowed", PBool (ts_global_allowed s));
   ("entries_by_status", PDict (prod_map id PInt <$> ts_entries_by_status s));
   ("entries_by_scope", PDict (prod_map id PInt <$> ts_entries_by_scope s))].

Record ThreadTip := mkTip {
  tt_thread_id_hash : string;
  tt_model_id : string;
  tt_backend : string;
  tt_chain_hash : string;
  tt_segment_count : Z;
  tt_hashes : list string;
  tt_kv_handle_id : option string;
  tt_created_at : Q;
  tt_updated_at : Q;
}.

Record ThreadWakeIndex := mkIndex {
  tx_entries : list (string * ThreadWakeIndexEntry);
  tx_lru : list string;
  tx_max_entries : Z;
  tx_max_memory : Z;
  tx_bytes_per_token : Z;
  tx_allow_global : bool;
  tx_hits : Z;
  tx_misses : Z;
  tx_evictions : Z;
  tx_tips : list (string * ThreadTip);
}.

(** [ThreadWakeIndex.__init__] *)
Definition new_index (max_entries max_memory bytes_per_token : Z) (allow_global : bool)
    : ThreadWakeIndex :=
  mkIndex [] [] max_entries max_memory bytes_per_token allow_global 0 0 0 [].

Definition set_store (ents : list (string * ThreadWakeIndexEntry)) (lru : list string)
    (evictions : Z) (x : ThreadWakeIndex) : ThreadWakeIndex :=
  mkIndex ents lru (tx_max_entries x) (tx_max_memory x) (tx_bytes_per_token x)
    (tx_allow_global x) (tx_hits x) (tx_misses x) evictions (tx_tips x).

Definition set_entry (key : string) (e : ThreadWakeIndexEntry) (x : ThreadWakeIndex)
    : ThreadWakeIndex :=
  set_store (dset key e (tx_entries x)) (tx_lru x) (tx_evictions x) x.

Definition count_hit (x : ThreadWakeIndex) : ThreadWakeIndex :=
  mkIndex (tx_entries x) (tx_lru x) (tx_max_entries x) (tx_max_memory x) (tx_bytes_per_token x)
    (tx_allow_global x) (tx_hits x + 1) (tx_misses x) (tx_evictions x) (tx_tips x).

Definition count_miss (x : ThreadWakeIndex) : ThreadWakeIndex :=
  mkIndex (tx_entries x) (tx_lru x) (tx_max_entries x) (tx_max_memory x) (tx_bytes_per_token x)
    (tx_allow_global x) (tx_hits x) (tx_misses x + 1) (tx_evictions x) (tx_tips x).

Definition set_tips (tips : list (string * ThreadTip)) (x : ThreadWakeIndex) : ThreadWakeIndex :=
  mkIndex (tx_entries x) (tx_lru x) (tx_max_entries x) (tx_max_memory x) (tx_bytes_per_token x)
    (tx_allow_global x) (tx_hits x) (tx_misses x) (tx_evictions x) tips.

(** ** Internal operations *)

(** [_promote_lru] *)
Definition promote (key : string) (lru : list string) : list string :=
  (if decide (key ∈ lru) then remove_first key lru else lru) ++ [key].

Definition promote_lru (key : string) (x : ThreadWakeIndex) : ThreadWakeIndex :=
  set_store (tx_entries x) (promote key (tx_lru x)) (tx_evictions x) x.

Definition total_memory (ents : list (string * ThreadWakeIndexEntry)) : Z :=
  sumZ (map te_memory (dvalues ents)).

(** [over_entries or over_memory] of [_evict_if_needed] *)
Definition over_limits (max_entries max_memory : Z) (ents : list (string * ThreadWakeIndexEntry))
    : bool :=
  (max_entries <? Z.of_nat (length ents))%Z
  || ((0 <? max_memory)%Z && (max_memory <? total_memory ents)%Z).

(** The loop of [_evict_if_needed]: every iteration pops the head of [_lru], so the
    loop is structural on it.  Returns the two containers, the number of
    evictions and the evicted entries with the status the loop gives them. *)
Fixpoint evict_loop (max_entries max_memory : Z) (ents : list (string * ThreadWakeIndexEntry))
    (lru : list string)
    : pyres (list (string * ThreadWakeIndexEntry) * list string
             * list (string * ThreadWakeIndexEntry)) :=
  if over_limits max_entries max_memory ents then
    match lru with
    | [] => Ret (ents, [], [])
    | key :: lru' =>
        match dget key ents with
        | None => Raise (KeyError key)
        | Some e =>
            let! (ents', lru'', gone) := evict_loop max_entries max_memory (ddel key ents) lru' in
            Ret (ents', lru'', (key, set_status EVICTED e) :: gone)
        end
    end
  else Ret (ents, lru, []).

Definition evict_if_needed (x : ThreadWakeIndex)
    : pyres (ThreadWakeIndex * list (string * ThreadWakeIndexEntry)) :=
  let! (ents, lru, gone) :=
    evict_loop (tx_max_entries x) (tx_max_memory x) (tx_entries x) (tx_lru x) in
  Ret (set_store ents lru (tx_evictions x + Z.of_nat (length gone)) x, gone).

(** [_estimate_memory] *)
Definition estimate_memory (x : ThreadWakeIndex) (token_count : Z) : Z :=
  if (tx_bytes_per_token x <=? 0)%Z then 0%Z else (token_count * tx_bytes_per_token x)%Z.

(** [_ids_match] *)
Definition ids_match (lookup_id entry_scope_id : option string) : bool :=
  match lookup_id, entry_scope_id with
  | Some a, Some b => String.eqb a b
  | _, _ => false
  end.

(** ** Operations *)

(** The defaulted keyword arguments of [put_observation] are all given. *)
Record observation := mkObservation {
  ob_cache_key : string;
  ob_model_id : string;
  ob_backend : string;
  ob_prompt_prefix_hash : string;
  ob_token_count : Z;
  ob_scope : string;
  ob_context : ScopeContext;
  ob_kv_handle_id : option string;
}.

Section operations.
Context (sha256_hex : string -> string).

(** [_scope_id_for] *)
Definition scope_id_for (scope : string) (c : ScopeContext) : option string :=
  if String.eqb scope "request" then None
  else
    let raw :=
      if String.eqb scope "thread" then sc_thread_id c
      else if String.eqb scope "user" then sc_user_id c
      else if String.eqb scope "project" then sc_project_id c
      else if String.eqb scope "global" then Some "global"
      else None in
    sha256_hex <$> raw.

(** [sha256_hex(v) if v else None] *)
Definition lookup_id (v : option string) : option string :=
  if str_truthy v then sha256_hex <$> v else None.

(** [_scope_matches] *)
Definition scope_matches (x : ThreadWakeIndex) (e : ThreadWakeIndexEntry) (c : ScopeContext)
    : bool :=
  if String.eqb (te_scope e) "request" then true
  else if String.eqb (te_scope e) "global" then tx_allow_global x
  else if String.eqb (te_scope e) "thread" then
    ids_match (lookup_id (sc_thread_id c)) (te_scope_id e)
  else if String.eqb (te_scope e) "project" then
    ids_match (lookup_id (sc_project_id c)) (te_scope_id e)
  else if String.eqb (te_scope e) "user" then
    ids_match (lookup_id (sc_user_id c)) (te_scope_id e)
  else false.

(** [put_observation]: the new index and the entry the caller gets. *)
Definition put_observation (now : Q) (o : observation) (x : ThreadWakeIndex)
    : pyres (ThreadWakeIndex * ThreadWakeIndexEntry) :=
  if String.eqb (ob_scope o) "global" && negb (tx_allow_global x) then
    Raise (ValueError "Global scope is not allowed")
  else
    let memory := estimate_memory x (ob_token_count o) in
    let scope_id := scope_id_for (ob_scope o) (ob_context o) in
    let key := ob_cache_key o in
    match dget key (tx_entries x) with
    | Some existing =>
        let e := reobserve (ob_token_count o) memory (ob_kv_handle_id o) (ob_scope o) scope_id
                   (touch now existing) in
        Ret (promote_lru key (set_entry key e x), e)
    | None =>
        let e := fresh_entry key (ob_model_id o) (ob_backend o) (ob_prompt_prefix_hash o)
                   (ob_token_count o) (ob_scope o) scope_id (ob_kv_handle_id o) memory now in
        let x1 := set_store (dset key e (tx_entries x)) (tx_lru x ++ [key]) (tx_evictions x) x in
        let! (x2, gone) := evict_if_needed x1 in
        Ret (x2, dget_or key e gone)
    end.

(** [get] *)
Definition index_get (now : Q) (key : string) (c : ScopeContext) (x : ThreadWakeIndex)
    : ThreadWakeIndex * option ThreadWakeIndexEntry :=
  match dget key (tx_entries x) with
  | None => (count_miss x, None)
  | Some e =>
      if decide (te_status e = EVICTED) then (count_miss x, None)
      else if negb (scope_matches x e c) then (count_miss x, None)
      else if decide (te_status e = STALE) then (count_miss x, None)
      else
        let e' := touch now e in
        (count_hit (promote_lru key (set_entry key e' x)), Some e')
  end.

Definition mark_ready (key : string) (x : ThreadWakeIndex) : ThreadWakeIndex :=
  match dget key (tx_entries x) with
  | Some e => promote_lru key (set_entry key (set_status READY e) x)
  | None => x
  end.

Definition mark_stale (key : string) (x : ThreadWakeIndex) : ThreadWakeIndex :=
  match dget key (tx_entries x) with
  | Some e => set_entry key (set_status STALE e) x
  | None => x
  end.

Definition evict (key : string) (x : ThreadWakeIndex) : ThreadWakeIndex :=
  match dget key (tx_entries x) with
  | Some e =>
      set_store (ddel key (tx_entries x))
        (if decide (key ∈ tx_lru x) then remove_first key (tx_lru x) else tx_lru x)
        (tx_evictions x + 1) x
  | None => x
  end.

(** [flush]: the entries that every given filter selects. *)
Definition flush_selects (scope model_id scope_id_hashed : option string)
    (e : ThreadWakeIndexEntry) : bool :=
  match scope with Some s => String.eqb (te_scope e) s | None => true end
  && match model_id with Some m => String.eqb (te_model_id e) m | None => true end
  && match scope_id_hashed with Some h => bool_decide (te_scope_id e = Some h) | None => true end.

Definition flush_one (x : ThreadWakeIndex) (key : string) : ThreadWakeIndex :=
  set_store (ddel key (tx_entries x))
    (if decide (key ∈ tx_lru x) then remove_first key (tx_lru x) else tx_lru x)
    (tx_evictions x) x.

Definition flush (scope model_id scope_id_hashed : option string) (x : ThreadWakeIndex)
    : ThreadWakeIndex * Z :=
  match scope, model_id, scope_id_hashed with
  | None, None, None =>
      let count := Z.of_nat (length (tx_entries x)) in
      (set_store [] [] (tx_evictions x + count) x, count)
  | _, _, _ =>
      let to_remove :=
        map fst (List.filter (fun p => flush_selects scope model_id scope_id_hashed (snd p))
                   (tx_entries x)) in
      let count := Z.of_nat (length to_remove) in
      let x' := fold_left flush_one to_remove x in
      (set_store (tx_entries x') (tx_lru x') (tx_evictions x' + count) x', count)
  end.

Definition live (e : ThreadWakeIndexEntry) : bool := negb (bool_decide (te_status e = EVICTED)).

Definition index_stats (x : ThreadWakeIndex) : ThreadWakeStats :=
  let present := List.filter live (dvalues (tx_entries x)) in
  mkTWStats (Z.of_nat (length (tx_entries x))) (tx_max_entries x) (sumZ (map te_memory present))
    (tx_max_memory x) (tx_hits x) (tx_misses x) (tx_evictions x) (tx_allow_global x)
    (fold_left (fun d e => dincr (EntryStatus_value (te_status e)) d) present [])
    (fold_left (fun d e => dincr (te_scope e) d) present []).

Definition list_entries (isoformat : Q -> string) (limit : Z) (x : ThreadWakeIndex)
    : list (list (string * pyval)) :=
  let entries := List.filter live (dvalues (tx_entries x)) in
  map (public_snapshot isoformat)
    (slice_to limit (stable_sort (fun a b => te_last_used_at b <=?q te_last_used_at a) entries)).

(** *** Session tips *)

Definition tip_key (thread_id model_id backend : string) : string :=
  sha256_hex thread_id +:+ ":" +:+ model_id +:+ ":" +:+ backend.

Definition get_latest_for_thread (thread_id model_id backend : string) (x : ThreadWakeIndex)
    : option ThreadTip := dget (tip_key thread_id model_id backend) (tx_tips x).

Definition store_thread_tip (now : Q) (thread_id model_id backend chain_hash : string)
    (ordered_segment_hashes : list string) (kv_handle_id : option string) (x : ThreadWakeIndex)
    : ThreadWakeIndex * ThreadTip :=
  let key := tip_key thread_id model_id backend in
  let count := Z.of_nat (length ordered_segment_hashes) in
  let tip :=
    match dget key (tx_tips x) with
    | Some t => mkTip (tt_thread_id_hash t) (tt_model_id t) (tt_backend t) chain_hash count
                  ordered_segment_hashes kv_handle_id (tt_created_at t) now
    | None => mkTip (sha256_hex thread_id) model_id backend chain_hash count
                ordered_segment_hashes kv_handle_id now now
    end in
  (set_tips (dset key tip (tx_tips x)) x, tip).

Definition validate_monotonic_append (previous_hashes new_ordered_hashes : list string) : bool :=
  let prev_count := Z.of_nat (length previous_hashes) in
  if (prev_count =? 0)%Z then true
  else if (Z.of_nat (length new_ordered_hashes) <? prev_count)%Z then false
  else bool_decide (slice_to prev_count new_ordered_hashes = previous_hashes).

Definition clear_thread_tip (thread_id model_id backend : string) (x : ThreadWakeIndex)
    : ThreadWakeIndex :=
  set_tips (ddel (tip_key thread_id model_id backend) (tx_tips x)) x.

Definition thread_tip_count (x : ThreadWakeIndex) : Z := Z.of_nat (length (tx_tips x)).

(** *** Candidate selection metadata *)

Definition mark_candidate_selected (now : Q) (key : string) (score : Q) (confidence reason : string)
    (saved_tokens : Z) (saved_ratio : Q) (selected_at : option Q) (x : ThreadWakeIndex)
    : ThreadWakeIndex * bool :=
  match dget key (tx_entries x) with
  | None => (x, false)
  | Some e =>
      (promote_lru key
         (set_entry key
            (select_candidate score confidence reason saved_tokens saved_ratio selected_at now e) x),
       true)
  end.

Definition is_candidate (e : ThreadWakeIndexEntry) : bool :=
  match te_candidate_score e with Some _ => live e | None => false end.

(** [<=] on the sort keys [(-(score or 0), -seen_count, -(last_seen or 0))]. *)
Definition candidate_le (a b : ThreadWakeIndexEntry) : bool :=
  let sa := default 0%Q (te_candidate_score a) in
  let sb := default 0%Q (te_candidate_score b) in
  let la := default 0%Q (te_last_seen_at a) in
  let lb := default 0%Q (te_last_seen_at b) in
  (sb <?q sa)
  || (Qeq_bool sa sb
      && ((te_seen_count b <? te_seen_count a)%Z
          || ((te_seen_count a =? te_seen_count b)%Z && (lb <=?q la)))).

Definition list_candidates (isoformat : Q -> string) (limit : Z)
    (min_confidence backend : option string) (x : ThreadWakeIndex)
    : list (list (string * pyval)) :=
  let limit := Z.max 1 (Z.min limit 500) in
  let candidates := List.filter is_candidate (dvalues (tx_entries x)) in
  let candidates :=
    if str_truthy min_confidence
    then List.filter (fun c => bool_decide (te_candidate_confidence c = min_confidence)) candidates
    else candidates in
  let candidates :=
    if str_truthy backend
    then List.filter (fun c => bool_decide (Some (te_backend c) = backend)) candidates
    else candidates in
  map (public_snapshot isoformat) (slice_to limit (stable_sort candidate_le candidates)).

Definition sumQ (l : list Q) : Q := foldr Qplus 0%Q l.

Definition candidate_stats (x : ThreadWakeIndex) : list (string * pyval) :=
  let candidates := List.filter is_candidate (dvalues (tx_entries x)) in
  let total := Z.of_nat (length candidates) in
  let with_confidence c :=
    countb (fun e => bool_decide (te_candidate_confidence e = Some c)) candidates in
  let avg_score :=
    if (0 <? total)%Z
    then (sumQ (map (fun e => default 0%Q (te_candidate_score e)) candidates) / inject_Z total)%Q
    else 0%Q in
  [("total_candidates", PInt total); ("high_confidence", PInt (with_confidence "high"));
   ("medium_confidence", PInt (with_confidence "medium"));
   ("low_confidence", PInt (with_confidence "low"));
   ("candidate_seen_total", PInt (sumZ (map te_seen_count candidates)));
   ("potential_saved_tokens_total",
     PInt (sumZ (map (fun e => default 0%Z (te_saved_tokens e)) candidates)));
   ("average_candidate_score", PFloat (py_round 4 avg_score))].

(** ** Histories: a sequence of the public mutating operations *)
Inductive index_op :=
| TPut (now : Q) (o : observation)
| TGet (now : Q) (key : string) (c : ScopeContext)
| TReady (key : string)
| TStale (key : string)
| TEvict (key : string)
| TFlush (scope model_id scope_id_hashed : option string)
| TStoreTip (now : Q) (thread_id model_id backend chain_hash : string) (hashes : list string)
    (kv_handle_id : option string)
| TClearTip (thread_id model_id backend : string)
| TCandidate (now : Q) (key : string) (score : Q) (confidence reason : string)
    (saved_tokens : Z) (saved_ratio : Q) (selected_at : option Q).

(** A raised [ValueError] leaves the index as it was. *)
Definition index_apply (op : index_op) (x : ThreadWakeIndex) : ThreadWakeIndex :=
  match op with
  | TPut now o => match put_observation now o x with Ret (x', _) => x' | Raise _ => x end
  | TGet now key c => fst (index_get now key c x)
  | TReady key => mark_ready key x
  | TStale key => mark_stale key x
  | TEvict key => evict key x
  | TFlush s m h => fst (flush s m h x)
  | TStoreTip now t m b ch hs kv => fst (store_thread_tip now t m b ch hs kv x)
  | TClearTip t m b => clear_thread_tip t m b x
  | TCandidate now key sc cf r st sr sa =>
      fst (mark_candidate_selected now key sc cf r st sr sa x)
  end.

Definition index_run (ops : list index_op) (x : ThreadWakeIndex) : ThreadWakeIndex :=
  fold_left (fun x op => index_apply op x) ops x.

End operations.
