(* ===== verification/TWIndexSpec.v ===== *)
(** * The index as a least-recently-used list: specification and refinement

    [spec_apply] says what each operation of [TWIndex] does to one list of
    entries, oldest first; [index_apply_steps] shows that the two containers of the
    implementation always agree and stand for that list. *)

From S2P Require Import Prelude PyDict PyStr PySeq.
From S2P Require Import RuntimeFrame TWIndex.

(** ** Specification: a list of entries in least-recently-used order

    The index is specified by one list, oldest first.  Using an entry moves it to
    the end; inserting one appends it and drops entries from the front until the
    rest fits. *)

Abbreviation lru_list := (list (string * ThreadWakeIndexEntry)) (only parsing).

(** The longest suffix within the limits. *)
Fixpoint evict_front (max_entries max_memory : Z) (l : lru_list) : lru_list :=
  if over_limits max_entries max_memory l then
    match l with [] => [] | _ :: l' => evict_front max_entries max_memory l' end
  else l.

Definition spec_use (key : string) (e : ThreadWakeIndexEntry) (l : lru_list) : lru_list :=
  ddel key l ++ [(key, e)].

Section spec.
Context (sha256_hex : string -> string).

(** The configuration of [x] is used, its store is not. *)
Definition spec_apply (x : ThreadWakeIndex) (op : index_op) (l : lru_list) : lru_list :=
  match op with
  | TPut now o =>
      if String.eqb (ob_scope o) "global" && negb (tx_allow_global x) then l
      else
        let key := ob_cache_key o in
        let memory := estimate_memory x (ob_token_count o) in
        let scope_id := scope_id_for sha256_hex (ob_scope o) (ob_context o) in
        match dget key l with
        | Some e => spec_use key (reobserve (ob_token_count o) memory (ob_kv_handle_id o)
                                    (ob_scope o) scope_id (touch now e)) l
        | None =>
            evict_front (tx_max_entries x) (tx_max_memory x)
              (l ++ [(key, fresh_entry key (ob_model_id o) (ob_backend o) (ob_prompt_prefix_hash o)
                             (ob_token_count o) (ob_scope o) scope_id (ob_kv_handle_id o) memory
                             now)])
        end
  | TGet now key c =>
      match dget key l with
      | Some e =>
          if scope_matches sha256_hex x e c && negb (bool_decide (te_status e = STALE))
          then spec_use key (touch now e) l else l
      | None => l
      end
  | TReady key =>
      match dget key l with Some e => spec_use key (set_status READY e) l | None => l end
  | TStale key => dupd key (set_status STALE) l
  | TEvict key => ddel key l
  | TFlush s m h => List.filter (fun p => negb (flush_selects s m h (snd p))) l
  | TStoreTip _ _ _ _ _ _ _ | TClearTip _ _ _ => l
  | TCandidate now key sc cf r st sr sa =>
      match dget key l with
      | Some e => spec_use key (select_candidate sc cf r st sr sa now e) l
      | None => l
      end
  end.
End spec.

(** The list an index stands for. *)
Fixpoint lru_view (ents : lru_list) (lru : list string) : lru_list :=
  match lru with
  | [] => []
  | k :: lru' =>
      match dget k ents with
      | Some e => (k, e) :: lru_view ents lru'
      | None => lru_view ents lru'
      end
  end.

Definition index_view (x : ThreadWakeIndex) : lru_list := lru_view (tx_entries x) (tx_lru x).

(** ** Well-formedness *)

(** What every stored entry satisfies: it is filed under its own key, it is not
    marked evicted, its memory estimate is that of its token count, and a
    global entry is only there when global scope is allowed. *)
Record entry_ok (x : ThreadWakeIndex) (key : string) (e : ThreadWakeIndexEntry) : Prop := {
  eo_key : te_cache_key e = key;
  eo_live : te_status e <> EVICTED;
  eo_memory : te_memory e = estimate_memory x (te_token_count e);
  eo_global : te_scope e = "global" -> tx_allow_global x = true;
}.

(** The dictionary and the order list hold the same keys, once each. *)
Record store_ok (ents : lru_list) (lru : list string) : Prop := {
  so_nodup : NoDup (dkeys ents);
  so_lru : lru ≡ₚ dkeys ents;
}.

Record index_wf (x : ThreadWakeIndex) : Prop := {
  iw_store : store_ok (tx_entries x) (tx_lru x);
  iw_entries : forall key e, dget key (tx_entries x) = Some e -> entry_ok x key e;
}.

(** ** Lemmas on the two containers *)
Section store.
Implicit Types (ents : lru_list) (lru : list string) (key : string).

Lemma so_lru_NoDup ents lru : store_ok ents lru -> NoDup lru.
Proof. intros [Hnd Hp]. by rewrite Hp. Qed.

Lemma so_elem ents lru key : store_ok ents lru -> key ∈ lru <-> is_Some (dget key ents).
Proof. intros [Hnd Hp]. by rewrite Hp, dkeys_dget. Qed.

Lemma dkeys_lru_view ents lru : store_ok ents lru -> dkeys (lru_view ents lru) = lru.
Proof.
  intros H. assert (Hin : forall k, k ∈ lru -> is_Some (dget k ents)).
  { intros k. by apply so_elem. }
  clear H. unfold dkeys. induction lru as [|k lru IH]; simpl; [done|].
  destruct (Hin k) as [e He]; [apply list_elem_of_here|]. rewrite He. csimpl.
  f_equal. apply IH. intros; apply Hin; set_solver.
Qed.

Lemma dget_lru_view ents lru key :
  dget key (lru_view ents lru) = if decide (key ∈ lru) then dget key ents else None.
Proof.
  induction lru as [|k lru IH]; simpl; [done|].
  destruct (dget k ents) eqn:E; csimpl; rewrite ?IH; repeat case_decide; set_solver.
Qed.

Lemma dget_view ents lru key : store_ok ents lru -> dget key (lru_view ents lru) = dget key ents.
Proof.
  intros H. rewrite dget_lru_view. case_decide as Hin; [done|].
  destruct (dget key ents) eqn:E; [|done]. destruct Hin. apply (so_elem _ _ _ H). eauto.
Qed.

Lemma lru_view_NoDup ents lru : store_ok ents lru -> NoDup (dkeys (lru_view ents lru)).
Proof. intros H. rewrite dkeys_lru_view by done. by eapply so_lru_NoDup. Qed.

(** The view is a reordering of the dictionary. *)
Lemma lru_view_perm ents lru : store_ok ents lru -> lru_view ents lru ≡ₚ ents.
Proof.
  intros H. apply dict_perm; [by apply lru_view_NoDup | apply H |].
  intros. by apply dget_view.
Qed.

Lemma lru_view_ext ents ents' lru :
  (forall k, k ∈ lru -> dget k ents = dget k ents') -> lru_view ents lru = lru_view ents' lru.
Proof.
  induction lru as [|k lru IH]; simpl; intros H; [done|].
  rewrite (H k) by apply list_elem_of_here. rewrite IH; [done|]. set_solver.
Qed.

Lemma lru_view_app ents lru1 lru2 : lru_view ents (lru1 ++ lru2) = lru_view ents lru1 ++ lru_view ents lru2.
Proof. induction lru1 as [|k lru1 IH]; simpl; [done|]. destruct (dget k ents); by rewrite IH. Qed.

Lemma lru_view_remove ents lru key :
  NoDup lru -> lru_view ents (remove_first key lru) = ddel key (lru_view ents lru).
Proof.
  induction lru as [|k lru IH]; simpl; [done|]. intros [Hk Hnd]%NoDup_cons.
  case_decide; subst.
  - destruct (dget k ents) eqn:E; csimpl; [by rewrite decide_True|].
    rewrite ddel_absent; [done|]. rewrite dget_lru_view. by case_decide.
  - destruct (dget k ents) eqn:E; csimpl; rewrite E, IH by done; [by case_decide|done].
Qed.

Lemma lru_view_dset ents lru key e :
  NoDup lru -> key ∈ lru -> is_Some (dget key ents) ->
  lru_view (dset key e ents) lru = dset key e (lru_view ents lru).
Proof.
  intros Hnd Hin [e0 He0]. induction lru as [|k lru IH]; simpl.
  - by apply elem_of_nil in Hin.
  - apply NoDup_cons in Hnd as [Hk Hnd]. destruct (decide (key = k)) as [<-|Hne].
    + rewrite dget_dset_eq, He0. csimpl. rewrite decide_True by done. f_equal.
      apply lru_view_ext. intros k' Hk'. rewrite dget_dset_ne; [done|congruence].
    + rewrite dget_dset_ne by congruence. apply elem_of_cons in Hin as [|Hin]; [done|].
      destruct (dget k ents) eqn:E; csimpl; [rewrite decide_False by done|]; by rewrite IH.
Qed.

(** *** Preservation *)
Lemma store_ok_set ents lru key e :
  store_ok ents lru -> is_Some (dget key ents) -> store_ok (dset key e ents) lru.
Proof. intros [Hnd Hp] Hs. split; rewrite dkeys_dset_in; auto. Qed.

Lemma promote_perm key lru : key ∈ lru -> promote key lru ≡ₚ lru.
Proof.
  intros Hin. unfold promote. rewrite decide_True by done.
  rewrite <- Permutation_cons_append. symmetry. by apply remove_first_perm.
Qed.

Lemma store_ok_promote ents lru key :
  store_ok ents lru -> is_Some (dget key ents) -> store_ok ents (promote key lru).
Proof.
  intros H Hs. destruct (so_elem _ _ key H) as [_ Hin]. split; [apply H|].
  rewrite promote_perm by auto. apply H.
Qed.

Lemma store_ok_insert ents lru key e :
  store_ok ents lru -> dget key ents = None -> store_ok (dset key e ents) (lru ++ [key]).
Proof.
  intros [Hnd Hp] Hn. split; [by apply dset_NoDup|].
  rewrite dkeys_dset_out by done. unfold dkeys. rewrite fmap_app, Hp. done.
Qed.

Lemma store_ok_delete ents lru key :
  store_ok ents lru ->
  store_ok (ddel key ents) (if decide (key ∈ lru) then remove_first key lru else lru).
Proof.
  intros H. assert (Hlru : NoDup lru) by by eapply so_lru_NoDup.
  split; [apply ddel_NoDup, H|].
  apply NoDup_Permutation; [case_decide; auto with whoosh | apply ddel_NoDup, H |].
  intros k. rewrite dkeys_ddel by apply H. destruct H as [Hnd Hp]. rewrite <- Hp.
  case_decide as Hin; [rewrite remove_first_elem by done; tauto|].
  split; [intros Hk; split; [congruence|done] | tauto].
Qed.

Lemma view_use ents lru key e :
  store_ok ents lru -> is_Some (dget key ents) ->
  lru_view (dset key e ents) (promote key lru) = spec_use key e (lru_view ents lru).
Proof.
  intros H Hs. assert (Hnd := so_lru_NoDup _ _ H). assert (Hin : key ∈ lru) by by apply (so_elem _ _ _ H).
  unfold promote, spec_use. rewrite decide_True by done. rewrite lru_view_app. f_equal.
  - rewrite <- lru_view_remove by done. apply lru_view_ext. intros k Hk.
    apply remove_first_elem in Hk as [_ Hk]; [|done]. by rewrite dget_dset_ne.
  - simpl. by rewrite dget_dset_eq.
Qed.

Lemma view_delete ents lru key :
  store_ok ents lru ->
  lru_view (ddel key ents) (if decide (key ∈ lru) then remove_first key lru else lru)
  = ddel key (lru_view ents lru).
Proof.
  intros H. assert (Hnd := so_lru_NoDup _ _ H).
  case_decide as Hin.
  - rewrite <- lru_view_remove by done. apply lru_view_ext. intros k Hk.
    apply remove_first_elem in Hk as [_ Hk]; [|done]. by apply dget_ddel_ne.
  - rewrite (ddel_absent key (lru_view ents lru)) by (rewrite dget_lru_view; by case_decide).
    apply lru_view_ext. intros k Hk. apply dget_ddel_ne. congruence.
Qed.

Lemma view_insert ents lru key e :
  store_ok ents lru -> dget key ents = None ->
  lru_view (dset key e ents) (lru ++ [key]) = lru_view ents lru ++ [(key, e)].
Proof.
  intros H Hn. rewrite lru_view_app. simpl. rewrite dget_dset_eq. f_equal.
  apply lru_view_ext. intros k Hk. rewrite dget_dset_ne; [done|].
  intros ->. apply (so_elem _ _ _ H) in Hk as [? ?]. congruence.
Qed.
End store.

(** ** Eviction *)
Section eviction.
Context (max_entries max_memory : Z).
Implicit Types (ents l : list (string * ThreadWakeIndexEntry)) (lru : list string) (key : string).

Lemma over_limits_perm l l' :
  l ≡ₚ l' -> over_limits max_entries max_memory l = over_limits max_entries max_memory l'.
Proof.
  intros Hp. unfold over_limits, total_memory, dvalues.
  rewrite (Permutation_length Hp), (sumZ_perm _ (map te_memory l'.*2)); [done|].
  change (map te_memory) with (fmap te_memory : list _ -> list _). by rewrite Hp.
Qed.

Lemma evict_front_split l :
  exists gone, l = gone ++ evict_front max_entries max_memory l.
Proof.
  induction l as [|p l [gone IH]]; simpl.
  - exists []. by destruct (over_limits _ _ _).
  - destruct (over_limits _ _ _); [exists (p :: gone); simpl; by f_equal | by exists []].
Qed.

Lemma evict_front_fits l :
  (0 <= max_entries)%Z ->
  over_limits max_entries max_memory (evict_front max_entries max_memory l) = false.
Proof.
  intros Hm. assert (Hnil : over_limits max_entries max_memory [] = false).
  { unfold over_limits, total_memory, dvalues, sumZ. simpl.
    apply orb_false_intro; [by apply Z.ltb_ge|].
    apply andb_false_iff. rewrite !Z.ltb_ge. lia. }
  induction l as [|p l IH]; simpl; [by rewrite Hnil|].
  destruct (over_limits _ _ (p :: l)) eqn:E; done.
Qed.

Lemma evict_front_longest l p s :
  l = p ++ s -> over_limits max_entries max_memory s = false ->
  length s <= length (evict_front max_entries max_memory l).
Proof.
  revert p. induction l as [|x l IH]; intros p Heq Hs.
  - symmetry in Heq. apply app_eq_nil in Heq as [_ ->]. simpl. lia.
  - simpl. destruct p as [|y p]; simplify_eq/=; [by rewrite Hs|].
    destruct (over_limits _ _ (y :: p ++ s)); [by apply (IH p)|]. simpl. rewrite length_app. lia.
Qed.

(** The loop removes the front of the LRU order, and never misses a key. *)
Lemma evict_loop_spec ents lru :
  store_ok ents lru ->
  exists ents' lru' gone,
    evict_loop max_entries max_memory ents lru
      = Ret (ents', lru', prod_map id (set_status EVICTED) <$> gone)
    /\ store_ok ents' lru'
    /\ lru_view ents' lru' = evict_front max_entries max_memory (lru_view ents lru)
    /\ lru_view ents lru = gone ++ lru_view ents' lru'
    /\ (forall k e, dget k ents' = Some e -> dget k ents = Some e).
Proof.
  revert ents. induction lru as [|key lru IH]; intros ents H; simpl.
  - exists ents, [], []. assert (ents = []) as ->.
    { destruct H as [_ Hp%Permutation_nil_l]. by destruct ents. }
    destruct (over_limits _ _ _); simpl; auto 10.
  - destruct (so_elem _ _ key H) as [[e He] _]; [apply list_elem_of_here|]. rewrite He. simpl.
    rewrite (over_limits_perm ents ((key, e) :: lru_view ents lru)).
    2:{ symmetry. generalize (lru_view_perm _ _ H). simpl. by rewrite He. }
    destruct (over_limits _ _ ((key, e) :: lru_view ents lru)) eqn:Hover.
    + assert (Hdel := store_ok_delete _ _ key H). assert (Hview := view_delete _ _ key H).
      rewrite decide_True in Hdel by apply list_elem_of_here.
      rewrite decide_True in Hview by apply list_elem_of_here.
      simpl in Hdel, Hview. rewrite He in Hview. simpl in Hview.
      rewrite !decide_True in Hdel by done. rewrite !decide_True in Hview by done.
      destruct (IH _ Hdel) as (ents' & lru' & gone & -> & Hok & Hv & Hsplit & Hsub). simpl.
      rewrite Hview in Hv, Hsplit. exists ents', lru', ((key, e) :: gone). split; [done|].
      split; [done|]. split; [done|]. split; [simpl; by rewrite <- Hsplit|].
      intros k e' Hk%Hsub. destruct (decide (k = key)) as [->|Hne].
      * rewrite dget_ddel_eq in Hk by apply H. done.
      * by rewrite dget_ddel_ne in Hk.
    + exists ents, (key :: lru), []. simpl. rewrite He. auto 10.
Qed.
End eviction.

(** ** Every operation is the specified one, and keeps the index well-formed *)

(** [y] is an index with the configuration of [x]. *)
Definition same_config (x y : ThreadWakeIndex) : Prop :=
  tx_max_entries y = tx_max_entries x /\ tx_max_memory y = tx_max_memory x
  /\ tx_bytes_per_token y = tx_bytes_per_token x /\ tx_allow_global y = tx_allow_global x.

Lemma estimate_memory_config x y n :
  same_config x y -> estimate_memory y n = estimate_memory x n.
Proof. intros (_ & _ & Hb & _). unfold estimate_memory. by rewrite Hb. Qed.

Lemma entry_ok_config x y key e : same_config x y -> entry_ok x key e -> entry_ok y key e.
Proof.
  intros Hc [Hk Hl Hm Hg]. assert (Hc' := Hc). destruct Hc' as (_ & _ & _ & Ha).
  split; rewrite ?(estimate_memory_config x y), ?Ha; auto.
Qed.

Section refinement.
Context (sha256_hex : string -> string).
Implicit Types (x : ThreadWakeIndex) (key : string) (e : ThreadWakeIndexEntry).

(** [x'] is well-formed and stands for [l]. *)
Definition steps_to (x x' : ThreadWakeIndex)
    (l : list (string * ThreadWakeIndexEntry)) : Prop :=
  index_wf x' /\ index_view x' = l /\ same_config x x'.

Lemma view_get x key : index_wf x -> dget key (index_view x) = dget key (tx_entries x).
Proof. intros [H _]. by apply dget_view. Qed.

Lemma stays x x' :
  index_wf x -> tx_entries x' = tx_entries x -> tx_lru x' = tx_lru x -> same_config x x' ->
  steps_to x x' (index_view x).
Proof.
  intros [Hs He] Hents Hlru Hc. split; [|split; [|done]].
  - split; rewrite Hents, ?Hlru; [done|]. intros k e Hk. eapply entry_ok_config; eauto.
  - unfold index_view. by rewrite Hents, Hlru.
Qed.

Lemma use_steps x key e e' :
  index_wf x -> dget key (tx_entries x) = Some e -> entry_ok x key e' ->
  steps_to x (promote_lru key (set_entry key e' x)) (spec_use key e' (index_view x)).
Proof using.
  clear sha256_hex. intros [Hs He] Hk Hok. split; [|split; [|by repeat split]].
  - split; simpl.
    + apply store_ok_promote; [by apply store_ok_set; eauto|]. rewrite dget_dset_eq. eauto.
    + intros k e'' Hk'. apply (entry_ok_config x); [by repeat split|].
      rewrite dget_dset in Hk'. case_decide; naive_solver.
  - apply view_use; eauto.
Qed.

Lemma touch_ok x key e now : entry_ok x key e -> entry_ok x key (touch now e).
Proof. by intros []. Qed.

Lemma reobserve_ok x key e n h s i :
  entry_ok x key e -> (s = "global" -> tx_allow_global x = true) ->
  entry_ok x key (reobserve n (estimate_memory x n) h s i e).
Proof. by intros []. Qed.

Lemma put_new_steps x key e :
  index_wf x -> dget key (tx_entries x) = None -> entry_ok x key e ->
  exists x' gone,
    evict_if_needed (set_store (dset key e (tx_entries x)) (tx_lru x ++ [key]) (tx_evictions x) x)
      = Ret (x', prod_map id (set_status EVICTED) <$> gone)
    /\ steps_to x x'
         (evict_front (tx_max_entries x) (tx_max_memory x) (index_view x ++ [(key, e)]))
    /\ index_view x ++ [(key, e)] = gone ++ index_view x'
    /\ tx_evictions x' = (tx_evictions x + Z.of_nat (length gone))%Z
    /\ tx_hits x' = tx_hits x /\ tx_misses x' = tx_misses x.
Proof using.
  clear sha256_hex. intros [Hs He] Hk Hok. unfold evict_if_needed. simpl.
  assert (Hi := store_ok_insert _ _ _ e Hs Hk).
  destruct (evict_loop_spec (tx_max_entries x) (tx_max_memory x) _ _ Hi)
    as (ents & lru & gone & -> & Hok' & Hv & Hsplit & Hsub). simpl.
  rewrite view_insert in Hv, Hsplit by done.
  eexists _, gone. split; [done|]. split; [split; [|split; [exact Hv|by repeat split]]|].
  - split; [done|]. simpl. intros k e' Hk'%Hsub. apply (entry_ok_config x); [by repeat split|].
    rewrite dget_dset in Hk'. case_decide; naive_solver.
  - simpl. rewrite length_fmap. auto.
Qed.

(** [put_observation] in either branch. *)
Lemma put_observation_steps now o x :
  index_wf x ->
  steps_to x (index_apply sha256_hex (TPut now o) x)
    (spec_apply sha256_hex x (TPut now o) (index_view x)).
Proof.
  intros Hwf. simpl. unfold put_observation.
  destruct (String.eqb (ob_scope o) "global" && negb (tx_allow_global x)) eqn:Hg;
    [by apply stays|].
  assert (Hglobal : ob_scope o = "global" -> tx_allow_global x = true).
  { intros Ho. rewrite Ho in Hg. by destruct (tx_allow_global x). }
  rewrite view_get by done. destruct (dget (ob_cache_key o) (tx_entries x)) as [e|] eqn:Hk.
  - eapply use_steps; [done|done|]. apply reobserve_ok; [|done].
    apply touch_ok. by apply Hwf.
  - edestruct (put_new_steps x) as (x' & gone & -> & Hst & _); [done|done| |exact Hst].
    by split.
Qed.

Lemma index_get_steps now key c x :
  index_wf x ->
  steps_to x (index_apply sha256_hex (TGet now key c) x)
    (spec_apply sha256_hex x (TGet now key c) (index_view x)).
Proof.
  intros Hwf. simpl. unfold index_get. rewrite view_get by done.
  destruct (dget key (tx_entries x)) as [e|] eqn:Hk; [|by apply stays].
  assert (Hok := iw_entries _ Hwf _ _ Hk).
  rewrite decide_False by apply Hok.
  destruct (scope_matches sha256_hex x e c); simpl; [|by apply stays].
  case_decide as Hst; simpl.
  - rewrite bool_decide_true by done. by apply stays.
  - rewrite bool_decide_false by done.
    destruct (use_steps x key e (touch now e) Hwf Hk (touch_ok _ _ _ _ Hok)) as (Hwf' & Hv & Hc).
    destruct (stays _ (count_hit (promote_lru key (set_entry key (touch now e) x))) Hwf')
      as (Hwf2 & Hv2 & Hc2); [done|done|by repeat split|].
    split; [done|]. split; [by rewrite Hv2|done].
Qed.

Lemma mark_ready_steps key x :
  index_wf x ->
  steps_to x (mark_ready key x) (spec_apply sha256_hex x (TReady key) (index_view x)).
Proof.
  intros Hwf. simpl. unfold mark_ready. rewrite view_get by done.
  destruct (dget key (tx_entries x)) as [e|] eqn:Hk; [|by apply stays].
  eapply use_steps; [done|done|]. by destruct (iw_entries _ Hwf _ _ Hk).
Qed.

Lemma mark_stale_steps key x :
  index_wf x ->
  steps_to x (mark_stale key x) (spec_apply sha256_hex x (TStale key) (index_view x)).
Proof.
  intros Hwf. simpl. unfold mark_stale, dupd. rewrite view_get by done.
  destruct (dget key (tx_entries x)) as [e|] eqn:Hk; [|by apply stays].
  destruct Hwf as [Hs He]. split; [|split; [|by repeat split]].
  - split; simpl; [apply store_ok_set; eauto|]. intros k e' Hk'.
    apply (entry_ok_config x); [by repeat split|]. rewrite dget_dset in Hk'.
    case_decide; simplify_eq; [by destruct (He _ _ Hk) | by apply He].
  - unfold index_view. simpl. apply lru_view_dset; eauto; [by eapply so_lru_NoDup|].
    apply (so_elem _ _ _ Hs). eauto.
Qed.

Lemma candidate_steps now key sc cf r st sr sa x :
  index_wf x ->
  steps_to x (fst (mark_candidate_selected now key sc cf r st sr sa x))
    (spec_apply sha256_hex x (TCandidate now key sc cf r st sr sa) (index_view x)).
Proof.
  intros Hwf. simpl. unfold mark_candidate_selected. rewrite view_get by done.
  destruct (dget key (tx_entries x)) as [e|] eqn:Hk; simpl; [|by apply stays].
  eapply use_steps; [done|done|]. by destruct (iw_entries _ Hwf _ _ Hk).
Qed.

(** Removing a key from both containers, the step [evict] and [flush] share. *)
Lemma flush_one_steps x key :
  index_wf x -> steps_to x (flush_one x key) (ddel key (index_view x)).
Proof.
  intros [Hs He]. split; [|split; [by apply view_delete | by repeat split]].
  split; [by apply store_ok_delete|]. simpl. intros k e Hk.
  apply (entry_ok_config x); [by repeat split|]. apply He.
  destruct (decide (k = key)) as [->|Hne].
  - by rewrite dget_ddel_eq in Hk by apply Hs.
  - by rewrite dget_ddel_ne in Hk.
Qed.

Lemma steps_to_trans x y z l l' : steps_to x y l -> steps_to y z l' -> steps_to x z l'.
Proof.
  intros (_ & _ & H1) (Hw & Hv & H2). split; [done|]. split; [done|].
  unfold same_config in *. intuition congruence.
Qed.

Lemma evict_steps key x :
  index_wf x -> steps_to x (evict key x) (ddel key (index_view x)).
Proof.
  intros Hwf. unfold evict. destruct (dget key (tx_entries x)) as [e|] eqn:Hk.
  - destruct (flush_one_steps x key Hwf) as (Hw & Hv & Hc).
    eapply steps_to_trans; [by split|]. rewrite <- Hv. by apply stays.
  - rewrite ddel_absent by by rewrite view_get. by apply stays.
Qed.
End refinement.

(** *** [flush] removes exactly the selected entries *)
Section flush.
Implicit Types (x : ThreadWakeIndex) (l : list (string * ThreadWakeIndexEntry)).

Lemma ddel_filter key l :
  NoDup (dkeys l) -> ddel key l = List.filter (fun p => negb (bool_decide (fst p = key))) l.
Proof.
  unfold dkeys. induction l as [|[k e] l IH]; simpl; [done|]. intros [Hk Hnd]%NoDup_cons.
  case_decide; subst.
  - rewrite bool_decide_true by done. simpl. rewrite <- IH by done.
    rewrite ddel_absent; [done|]. by apply dget_None_keys.
  - rewrite bool_decide_false by congruence. simpl. by rewrite IH.
Qed.

Lemma flush_fold_steps keys x :
  index_wf x ->
  steps_to x (fold_left flush_one keys x)
    (List.filter (fun p => negb (bool_decide (fst p ∈ keys))) (index_view x)).
Proof.
  revert x. induction keys as [|key keys IH]; intros x Hwf; cbn [fold_left].
  - rewrite filter_all; [by apply stays|]. intros p _. by rewrite bool_decide_false by set_solver.
  - assert (H1 := flush_one_steps x key Hwf). eapply steps_to_trans; [exact H1|].
    destruct H1 as (Hw & Hv & _). destruct (IH _ Hw) as (Hw' & Hv' & Hc').
    split; [done|]. split; [|done]. rewrite Hv', Hv.
    rewrite ddel_filter by (eapply lru_view_NoDup, Hwf).
    rewrite filter_twice. apply List.filter_ext. intros [k e]. cbn [fst].
    rewrite <- negb_orb, <- bool_decide_or. f_equal. apply bool_decide_ext. set_solver.
Qed.

Lemma flush_all_steps x :
  index_wf x ->
  steps_to x (fst (flush None None None x))
    (List.filter (fun p => negb (flush_selects None None None (snd p))) (index_view x))
  /\ snd (flush None None None x) = countv (flush_selects None None None) (tx_entries x)
  /\ tx_evictions (fst (flush None None None x))
     = (tx_evictions x + snd (flush None None None x))%Z.
Proof.
  intros Hwf. split; [|split; [|done]].
  - split; [split; [split; [constructor|done] | done]|]. split; [|by repeat split].
    unfold index_view. simpl. by induction (lru_view _ _).
  - rewrite <- countv_filter_length, filter_all by done. done.
Qed.

(** Every branch of [flush]: what stays, and the number it returns. *)
Lemma flush_steps s m h x :
  index_wf x ->
  steps_to x (fst (flush s m h x))
    (List.filter (fun p => negb (flush_selects s m h (snd p))) (index_view x))
  /\ snd (flush s m h x) = countv (flush_selects s m h) (tx_entries x)
  /\ tx_evictions (fst (flush s m h x)) = (tx_evictions x + snd (flush s m h x))%Z.
Proof.
  intros Hwf.
  set (sel := flush_selects s m h).
  set (keys := map fst (List.filter (fun p => sel (snd p)) (tx_entries x))).
  assert (Hkeys : forall p, p ∈ index_view x ->
                    negb (bool_decide (fst p ∈ keys)) = negb (sel (snd p))).
  { intros [k e] Hp. f_equal. unfold index_view in Hp.
    rewrite (lru_view_perm _ _ (iw_store _ Hwf)) in Hp. simpl.
    destruct (sel e) eqn:Hs; [apply bool_decide_true | apply bool_decide_false].
    - apply list_elem_of_fmap. exists (k, e). split; [done|]. by apply elem_of_filter_List.
    - intros ([k' e'] & -> & [Hin Hs']%elem_of_filter_List)%list_elem_of_fmap. simpl in *.
      apply elem_dget in Hin; [|apply Hwf]. apply elem_dget in Hp; [|apply Hwf].
      congruence. }
  assert (Hcount : Z.of_nat (length keys) = countv sel (tx_entries x)).
  { unfold keys. rewrite length_map. apply countv_filter_length. }
  assert (Hev : forall ks y, tx_evictions (fold_left flush_one ks y) = tx_evictions y).
  { induction ks; intros; simpl; [done|]. by rewrite IHks. }
  destruct (flush_fold_steps keys x Hwf) as (Hw & Hv & Hc).
  assert (Hflush : (s, m, h) <> (None, None, None) ->
            flush s m h x
            = (set_store (tx_entries (fold_left flush_one keys x))
                 (tx_lru (fold_left flush_one keys x))
                 (tx_evictions (fold_left flush_one keys x) + Z.of_nat (length keys))
                 (fold_left flush_one keys x), Z.of_nat (length keys))).
  { unfold keys, sel. by destruct s, m, h. }
  destruct (decide ((s, m, h) = (None, None, None))) as [Hnone|Hsome].
  - simplify_eq. by apply flush_all_steps.
  - rewrite Hflush by done. cbn [fst snd tx_evictions set_store]. rewrite Hev. split; [|done].
    eapply steps_to_trans; [by split|].
    replace (List.filter _ _) with (index_view (fold_left flush_one keys x)).
    + by apply stays.
    + rewrite Hv. apply List.filter_ext_in. intros p Hp. apply Hkeys. by apply list_elem_of_In.
Qed.

Lemma flush_counters s m h x :
  tx_hits (fst (flush s m h x)) = tx_hits x /\ tx_misses (fst (flush s m h x)) = tx_misses x.
Proof.
  assert (H : forall ks y, tx_hits (fold_left flush_one ks y) = tx_hits y
                           /\ tx_misses (fold_left flush_one ks y) = tx_misses y).
  { induction ks as [|k ks IH]; intros; simpl; [done|]. destruct (IH (flush_one y k)). done. }
  unfold flush. destruct s, m, h; simpl; split; try done; apply H.
Qed.
End flush.

(** One operation of a history. *)
Lemma index_apply_steps sha256_hex op x :
  index_wf x ->
  steps_to x (index_apply sha256_hex op x) (spec_apply sha256_hex x op (index_view x)).
Proof.
  intros Hwf. destruct op.
  - by apply put_observation_steps.
  - by apply index_get_steps.
  - by apply mark_ready_steps.
  - by apply mark_stale_steps.
  - by apply evict_steps.
  - by apply flush_steps.
  - by apply stays.
  - by apply stays.
  - by apply candidate_steps.
Qed.

Lemma new_index_wf me mm bpt g : index_wf (new_index me mm bpt g).
Proof. split; [split; [constructor|done]|done]. Qed.

Lemma index_run_wf sha256_hex ops x : index_wf x -> index_wf (index_run sha256_hex ops x).
Proof.
  revert x. induction ops as [|op ops IH]; intros x Hwf; [done|].
  apply IH. by apply index_apply_steps.
Qed.

Lemma index_run_config sha256_hex ops x :
  index_wf x -> same_config x (index_run sha256_hex ops x).
Proof.
  revert x. induction ops as [|op ops IH]; intros x Hwf; [by repeat split|].
  destruct (index_apply_steps sha256_hex op x Hwf) as (Hw & _ & Hc).
  specialize (IH _ Hw). simpl. unfold same_config in *. intuition congruence.
Qed.
