(* ===== verification/TWIndexProps.v ===== *)
(** * What the ThreadWake index guarantees

    Bounds and minimality of eviction, the type invariant, scope isolation and its
    limit, conservation of entries, session tips and the privacy of listings, each
    over arbitrary histories of operations. *)

From S2P Require Import Prelude PyDict PyStr PySeq.
From S2P Require Import RuntimeFrame TWIndex TWIndexSpec.

(** ** Theorems: the index as an LRU cache *)

Lemma dget_set_evicted key (l : list (string * ThreadWakeIndexEntry)) :
  dget key (prod_map id (set_status EVICTED) <$> l) = set_status EVICTED <$> dget key l.
Proof. induction l as [|[k e] l IH]; csimpl; [done|]. by case_decide. Qed.

Lemma spec_apply_config sha256_hex x y op l :
  same_config x y -> spec_apply sha256_hex x op l = spec_apply sha256_hex y op l.
Proof.
  intros Hc. assert (Hm := fun n => estimate_memory_config x y n Hc).
  destruct Hc as (He & Hmm & Hb & Ha).
  destruct op; simpl; rewrite ?Ha, ?Hm, ?He, ?Hmm; try done.
  unfold scope_matches. by rewrite Ha.
Qed.

Lemma index_run_app sha256_hex ops1 ops2 x :
  index_run sha256_hex (ops1 ++ ops2) x = index_run sha256_hex ops2 (index_run sha256_hex ops1 x).
Proof. apply fold_left_app. Qed.

Lemma index_run_view sha256_hex ops x y :
  same_config x y -> index_wf y ->
  index_view (index_run sha256_hex ops y)
  = fold_left (fun l op => spec_apply sha256_hex x op l) ops (index_view y).
Proof.
  revert y. induction ops as [|op ops IH]; intros y Hc Hy; [done|].
  destruct (index_apply_steps sha256_hex op y Hy) as (Hw & Hv & Hc').
  simpl. rewrite IH; [|unfold same_config in *; intuition congruence|done].
  by rewrite Hv, (spec_apply_config _ x y).
Qed.

(** The only exception an operation on a well-formed index raises is the refusal of
    global scope. *)
Lemma put_observation_raises sha256_hex now o x e :
  index_wf x -> put_observation sha256_hex now o x = Raise e ->
  e = ValueError "Global scope is not allowed"
  /\ ob_scope o = "global" /\ tx_allow_global x = false.
Proof.
  intros Hwf. unfold put_observation.
  destruct (String.eqb (ob_scope o) "global" && negb (tx_allow_global x)) eqn:Hg.
  - reflect_tests. intros [= <-]. split; [done|]. split; [by apply String.eqb_eq|done].
  - destruct (dget (ob_cache_key o) (tx_entries x)) as [e0|] eqn:Hk; [done|].
    edestruct (put_new_steps x) as (x' & gone & -> & _); [done|done| |done].
    split; simpl; [done|done|done|]. intros Ho. rewrite Ho in Hg.
    by destruct (tx_allow_global x).
Qed.

(** C21: From any sequence of operations on a fresh index, the entries taken in the order of
    [_lru] are the list the specification computes: a lookup or a re-observation
    moves its entry to the end, a new entry is appended and the front is dropped
    until the limits hold, [flush] keeps exactly the entries its filters do not
    select.  No operation ever raises [KeyError]: the two containers agree. *)
Theorem index_refines_lru_list sha256_hex me mm bpt g ops now o key :
  let x0 := new_index me mm bpt g in
  let x := index_run sha256_hex ops x0 in
  index_view x = fold_left (fun l op => spec_apply sha256_hex x0 op l) ops []
  /\ put_observation sha256_hex now o x <> Raise (KeyError key).
Proof.
  intros x0 x. split.
  - apply (index_run_view _ ops x0 x0); [by repeat split | apply new_index_wf].
  - intros H. apply put_observation_raises in H as [? _]; [done|].
    apply index_run_wf, new_index_wf.
Qed.

(** C22: Type invariant of the index.  Whatever the history, no key is stored twice, [_lru]
    lists exactly the stored keys, every entry is filed under its own cache key, is
    not marked evicted, carries the memory estimate of its current token count,
    and is global only if global scope is allowed. *)
Theorem index_well_typed sha256_hex me mm bpt g ops :
  let x := index_run sha256_hex ops (new_index me mm bpt g) in
  NoDup (dkeys (tx_entries x))
  /\ tx_lru x ≡ₚ dkeys (tx_entries x)
  /\ forall key e, dget key (tx_entries x) = Some e ->
       te_cache_key e = key /\ te_status e <> EVICTED
       /\ te_memory e = (if (bpt <=? 0)%Z then 0 else te_token_count e * bpt)%Z
       /\ (te_scope e = "global" -> g = true).
Proof.
  intros x. assert (H0 := new_index_wf me mm bpt g).
  assert (Hwf : index_wf x) by by apply index_run_wf.
  destruct (index_run_config sha256_hex ops _ H0) as (_ & _ & Hb & Ha).
  split; [apply Hwf|]. split; [apply Hwf|]. intros key e He.
  destruct (iw_entries _ Hwf _ _ He) as [Hk Hl Hm Hg].
  split; [done|]. split; [done|]. fold x in Hb, Ha. simpl in *.
  rewrite Hm. unfold estimate_memory. rewrite Hb, <- Ha. done.
Qed.

(** C23: Inserting a new key leaves both limits satisfied, drops nothing that could have
    stayed (the survivors are the longest run of most recently used entries
    within the limits), counts each dropped entry once, and the caller gets an
    entry marked [EVICTED] exactly when the new entry itself did not survive. *)
Theorem insertion_evicts_minimally sha256_hex now o x x' e :
  index_wf x -> (0 <= tx_max_entries x)%Z ->
  dget (ob_cache_key o) (tx_entries x) = None ->
  put_observation sha256_hex now o x = Ret (x', e) ->
  over_limits (tx_max_entries x) (tx_max_memory x) (tx_entries x') = false
  /\ (exists gone new, index_view x ++ [(ob_cache_key o, new)] = gone ++ index_view x'
        /\ tx_evictions x' = (tx_evictions x + Z.of_nat (length gone))%Z
        /\ forall p s, index_view x ++ [(ob_cache_key o, new)] = p ++ s ->
             over_limits (tx_max_entries x) (tx_max_memory x) s = false ->
             length s <= length (tx_entries x'))
  /\ (te_status e = EVICTED <-> dget (ob_cache_key o) (tx_entries x') = None).
Proof.
  intros Hwf Hmax Hk. unfold put_observation. rewrite Hk.
  destruct (String.eqb (ob_scope o) "global" && negb (tx_allow_global x)) eqn:Hg; [done|].
  set (new := fresh_entry _ _ _ _ _ _ _ _ _ _).
  destruct (put_new_steps x (ob_cache_key o) new Hwf Hk) as (y & gone & -> & Hst & Hsplit & Hev & _).
  { split; simpl; [done|done|done|]. intros Ho. rewrite Ho in Hg. by destruct (tx_allow_global x). }
  simpl. intros [= <- <-]. destruct Hst as (Hwy & Hvy & _).
  assert (Hp := lru_view_perm _ _ (iw_store _ Hwy)). fold (index_view y) in Hp.
  split; [|split].
  - rewrite <- (over_limits_perm _ _ _ _ Hp), Hvy. by apply evict_front_fits.
  - exists gone, new. split; [done|]. split; [done|]. intros p s Hps Hs.
    rewrite <- (Permutation_length Hp), Hvy. by eapply evict_front_longest.
  - assert (Hkeys : dkeys (index_view x ++ [(ob_cache_key o, new)])
                    = dkeys gone ++ dkeys (index_view y)).
    { rewrite Hsplit. apply fmap_app. }
    assert (Hnd : NoDup (dkeys gone ++ dkeys (index_view y))).
    { rewrite <- Hkeys. unfold dkeys. rewrite fmap_app. apply NoDup_app.
      split; [eapply lru_view_NoDup, Hwf|]. split; [|apply NoDup_singleton].
      intros k Hin ->%list_elem_of_singleton. apply dkeys_dget in Hin.
      simpl in Hin. rewrite view_get, Hk in Hin by done. by destruct Hin. }
    apply NoDup_app in Hnd as (_ & Hdisj & _).
    rewrite <- view_get by done. unfold dget_or.
    assert (Hin : ob_cache_key o ∈ dkeys gone \/ ob_cache_key o ∈ dkeys (index_view y)).
    { apply elem_of_app. rewrite <- Hkeys. unfold dkeys. rewrite fmap_app. set_solver. }
    rewrite dget_set_evicted. destruct (dget (ob_cache_key o) gone) as [e0|] eqn:Hgone; simpl.
    + split; [|done]. intros _. apply dget_None_keys, Hdisj, dkeys_dget. eauto.
    + split; [done|]. intros Hnone%dget_None_keys. apply dget_None_keys in Hgone. tauto.
Qed.

(** ** Theorems: scopes *)

Definition is_refused (g : bool) (o : observation) : bool :=
  String.eqb (ob_scope o) "global" && negb g.

(** The latest observation of [key] in a history that was not refused. *)
Fixpoint last_observation (g : bool) (key : string) (ops : list index_op)
    (acc : option observation) : option observation :=
  match ops with
  | [] => acc
  | TPut _ o :: ops' =>
      last_observation g key ops'
        (if negb (is_refused g o) && String.eqb (ob_cache_key o) key then Some o else acc)
  | _ :: ops' => last_observation g key ops' acc
  end.

(** The identity a scope compares. *)
Definition scope_identity (scope : string) (c : ScopeContext) : option string :=
  if String.eqb scope "thread" then sc_thread_id c
  else if String.eqb scope "project" then sc_project_id c
  else if String.eqb scope "user" then sc_user_id c
  else None.

Section scopes.
Context (sha256_hex : string -> string).
Implicit Types (l : list (string * ThreadWakeIndexEntry)) (x : ThreadWakeIndex).

(** [e] is filed under the scope and scope id of [o]. *)
Definition scoped_by (o : observation) (e : ThreadWakeIndexEntry) : Prop :=
  te_scope e = ob_scope o
  /\ te_scope_id e = scope_id_for sha256_hex (ob_scope o) (ob_context o).

(** Only an observation changes the scope of an entry. *)
Definition keeps_scope (e e' : ThreadWakeIndexEntry) : Prop :=
  te_scope e' = te_scope e /\ te_scope_id e' = te_scope_id e.

Lemma dget_spec_use k key e l :
  NoDup (dkeys l) -> dget k (spec_use key e l) = if decide (k = key) then Some e else dget k l.
Proof.
  clear sha256_hex. intros Hnd. unfold spec_use.
  assert (Hn : dget key (ddel key l) = None) by by apply dget_ddel_eq.
  rewrite <- dkeys_dset_out by done. rewrite dget_dset. case_decide; [done|].
  by apply dget_ddel_ne.
Qed.

Lemma dget_of_sublist k e l l' :
  NoDup (dkeys l) -> l' `sublist_of` l -> dget k l' = Some e -> dget k l = Some e.
Proof.
  clear sha256_hex. intros Hnd Hsub Hk%dget_Some_elem. apply elem_dget; [done|].
  by eapply elem_of_sublist.
Qed.

Lemma dget_evict_front k e me mm l :
  NoDup (dkeys l) -> dget k (evict_front me mm l) = Some e -> dget k l = Some e.
Proof.
  clear sha256_hex. intros Hnd. apply dget_of_sublist; [done|].
  destruct (evict_front_split me mm l) as [gone Hl]. rewrite Hl at 2. by apply sublist_inserts_l.
Qed.

Lemma spec_use_keeps k key e e' e1 l :
  NoDup (dkeys l) -> dget key l = Some e -> keeps_scope e e' ->
  dget k (spec_use key e' l) = Some e1 -> exists e0, dget k l = Some e0 /\ keeps_scope e0 e1.
Proof.
  clear sha256_hex. intros Hnd Hk Hkeep. rewrite dget_spec_use by done.
  case_decide; intros; simplify_eq; eauto. eexists. split; [done|]. done.
Qed.

Lemma spec_apply_keeps x op k e l :
  NoDup (dkeys l) -> dget k (spec_apply sha256_hex x op l) = Some e ->
  (exists now o, op = TPut now o /\ is_refused (tx_allow_global x) o = false
     /\ ob_cache_key o = k /\ scoped_by o e)
  \/ (exists e0, dget k l = Some e0 /\ keeps_scope e0 e
      /\ forall now o, op = TPut now o ->
           is_refused (tx_allow_global x) o = true \/ ob_cache_key o <> k).
Proof.
  intros Hnd. assert (Hsame : dget k l = Some e -> exists e0, dget k l = Some e0 /\ keeps_scope e0 e)
    by (intros; by exists e).
  destruct op as [now o|now key c|key|key|key|s m h| | |now key sc cf r st sr sa]; simpl.
  - unfold is_refused. destruct (String.eqb _ _ && _) eqn:Hr.
    { intros (e0 & ? & ?)%Hsame. right. exists e0. naive_solver. }
    destruct (dget (ob_cache_key o) l) as [e0|] eqn:Hk.
    + rewrite dget_spec_use by done. case_decide as Heq; intros; simplify_eq.
      * left. by exists now, o.
      * right. exists e. split; [done|]. split; [done|]. naive_solver.
    + rewrite <- dkeys_dset_out by done. intros He%dget_evict_front; [|by apply dset_NoDup].
      rewrite dget_dset in He. case_decide as Heq; simplify_eq.
      * left. by exists now, o.
      * right. exists e. split; [done|]. split; [done|]. naive_solver.
  - intros H. right. destruct (dget key l) as [e0|] eqn:Hk; [|naive_solver].
    destruct (_ && _); [|naive_solver].
    eapply spec_use_keeps in H as (e1 & ? & ?); [|done|done|done]. exists e1. naive_solver.
  - intros H. right. destruct (dget key l) as [e0|] eqn:Hk; [|naive_solver].
    eapply spec_use_keeps in H as (e1 & ? & ?); [|done|done|done]. exists e1. naive_solver.
  - rewrite dget_dupd. case_decide; intros Hd; right; [|naive_solver].
    clear Hsame. destruct (dget k l) as [e0|] eqn:Hk; simplify_eq/=. by exists e0.
  - intros H. right. apply dget_of_sublist with (l := l) in H; [|done|apply ddel_sublist].
    naive_solver.
  - intros H. right. apply dget_of_sublist with (l := l) in H; [|done|apply filter_List_sublist].
    naive_solver.
  - intros H. right. naive_solver.
  - intros H. right. naive_solver.
  - intros H. right. destruct (dget key l) as [e0|] eqn:Hk; [|naive_solver].
    eapply spec_use_keeps in H as (e1 & ? & ?); [|done|done|done]. exists e1. naive_solver.
Qed.

(** The scope of a stored entry is that of the latest accepted observation. *)
Lemma entry_scope_provenance ops x acc k :
  index_wf x ->
  (forall e, dget k (tx_entries x) = Some e -> exists o, acc = Some o /\ scoped_by o e) ->
  forall e, dget k (tx_entries (index_run sha256_hex ops x)) = Some e ->
    exists o, last_observation (tx_allow_global x) k ops acc = Some o /\ scoped_by o e.
Proof.
  revert x acc. induction ops as [|op ops IH]; intros x acc Hwf Hacc; [done|].
  destruct (index_apply_steps sha256_hex op x Hwf) as (Hw & Hv & (_ & _ & _ & Hg)).
  simpl. intros e He.
  assert (Hnext : forall e, dget k (tx_entries (index_apply sha256_hex op x)) = Some e ->
    exists o, match op with
              | TPut _ o => if negb (is_refused (tx_allow_global x) o)
                               && String.eqb (ob_cache_key o) k then Some o else acc
              | _ => acc end = Some o /\ scoped_by o e).
  { intros e1. rewrite <- view_get, Hv by done.
    intros [(now & o & -> & Hr & Hk & Hsc)|(e0 & He0 & [Hk1 Hk2] & Hno)]%spec_apply_keeps;
      [| |eapply lru_view_NoDup, Hwf].
    - exists o. by rewrite Hr, (proj2 (String.eqb_eq _ _) Hk).
    - rewrite view_get in He0 by done. destruct (Hacc _ He0) as (o & Ho & Hs1 & Hs2).
      exists o. split; [|split; congruence]. destruct op as [now o'| | | | | | | |]; try done.
      destruct (Hno _ _ eq_refl) as [Hr|Hne]; [by rewrite Hr|].
      rewrite (proj2 (String.eqb_neq _ _) Hne). by rewrite andb_false_r. }
  destruct (IH _ _ Hw Hnext e He) as (o & Ho & Hs). rewrite Hg in Ho. exists o.
  split; [|done]. by destruct op.
Qed.
End scopes.

Section hits.
Context (sha256_hex : string -> string).

Lemma ids_match_true a b : ids_match a b = true <-> exists h, a = Some h /\ b = Some h.
Proof.
  clear sha256_hex. unfold ids_match. destruct a, b; rewrite ?String.eqb_eq; naive_solver.
Qed.

Lemma lookup_id_Some v h :
  lookup_id sha256_hex v = Some h <-> exists s, v = Some s /\ s <> "" /\ sha256_hex s = h.
Proof.
  unfold lookup_id, str_truthy. destruct v as [s|]; [|naive_solver].
  destruct (String.eqb s "") eqn:E; simpl.
  - apply String.eqb_eq in E as ->. naive_solver.
  - apply String.eqb_neq in E. naive_solver.
Qed.

(** When an entry filed by [o] matches the context [c]. *)
Lemma scoped_match x e o c :
  scoped_by sha256_hex o e -> scope_matches sha256_hex x e c = true ->
  ob_scope o = "request"
  \/ (ob_scope o = "global" /\ tx_allow_global x = true)
  \/ exists a b, scope_identity (ob_scope o) (ob_context o) = Some a
       /\ scope_identity (ob_scope o) c = Some b /\ b <> "" /\ sha256_hex a = sha256_hex b.
Proof.
  intros [Hs Hi]. unfold scope_matches, scope_id_for, scope_identity in *. rewrite Hs.
  destruct (String.eqb (ob_scope o) "request") eqn:E1; [apply String.eqb_eq in E1; auto|].
  destruct (String.eqb (ob_scope o) "global") eqn:E2; [apply String.eqb_eq in E2; auto|].
  intros H. right; right.
  repeat match type of H with
  | (if ?b then _ else _) = true => destruct b eqn:?
  end; try done;
  repeat match goal with E : String.eqb (ob_scope o) _ = true |- _ => apply String.eqb_eq in E end;
  apply ids_match_true in H as (h & (b & Hb & Hne & Hh)%lookup_id_Some & Hid);
  rewrite Hid in Hi; try congruence;
  repeat match goal with E : ob_scope o = _ |- _ => rewrite E in * end; simpl in *;
  match type of Hi with Some _ = sha256_hex <$> ?v => destruct v as [a|]; simplify_eq/= end;
  exists a, b; auto.
Qed.
End hits.

(** C24: Scope isolation.  When a lookup in context [c] returns an entry, the latest accepted
    observation of that key filed it with request scope, with global scope while
    global scope is allowed, or with a thread, project or user identity whose
    digest equals that of the non-empty identity in [c]; an entry whose identity
    is missing is never returned. *)
Theorem lookup_respects_scope sha256_hex me mm bpt g ops now key c x' e :
  index_get sha256_hex now key c (index_run sha256_hex ops (new_index me mm bpt g)) = (x', Some e) ->
  exists o, last_observation g key ops None = Some o /\ te_scope e = ob_scope o
    /\ (ob_scope o = "request"
        \/ (ob_scope o = "global" /\ g = true)
        \/ exists a b, scope_identity (ob_scope o) (ob_context o) = Some a
             /\ scope_identity (ob_scope o) c = Some b /\ b <> ""
             /\ sha256_hex a = sha256_hex b).
Proof.
  set (x0 := new_index me mm bpt g). assert (H0 : index_wf x0) by apply new_index_wf.
  destruct (index_run_config sha256_hex ops x0 H0) as (_ & _ & _ & Ha).
  unfold index_get. destruct (dget key _) as [e0|] eqn:Hk; [|done].
  destruct (entry_scope_provenance sha256_hex ops x0 None key H0) with (e := e0) as (o & Ho & Hs);
    [done|done|].
  case_decide; [done|]. destruct (scope_matches _ _ _ _) eqn:Hm; [|done]. simpl.
  case_decide; [done|]. intros [= _ <-].
  exists o. split; [done|]. split; [apply Hs|].
  eapply scoped_match in Hm; [|done]. by rewrite Ha in Hm.
Qed.

Definition demo_sha (s : string) : string := "h" +:+ s.
Definition demo_obs (thread : string) (handle : option string) : observation :=
  mkObservation "key" "model" "stub" "prefix" 10 "thread" (mkScopeContext (Some thread) None None)
    handle.
Definition demo_ops : list index_op := [TPut 0 (demo_obs "t1" (Some "kv1")); TReady "key"].

Lemma lookup_respects_scope_witness :
  exists x' e,
    index_get demo_sha 1 "key" (mkScopeContext (Some "t1") None None)
      (index_run demo_sha demo_ops (new_index 4 0 0 false)) = (x', Some e)
    /\ exists o, last_observation false "key" demo_ops None = Some o /\ te_scope e = ob_scope o
      /\ (ob_scope o = "request"
          \/ (ob_scope o = "global" /\ false = true)
          \/ exists a b, scope_identity (ob_scope o) (ob_context o) = Some a
               /\ scope_identity (ob_scope o) (mkScopeContext (Some "t1") None None) = Some b
               /\ b <> "" /\ demo_sha a = demo_sha b).
Proof.
  eexists _, _. split; [vm_compute; reflexivity|].
  eapply (lookup_respects_scope demo_sha 4 0 0 false demo_ops 1 "key").
  vm_compute. reflexivity.
Defined.

(** A key that two threads share changes hands.  When a key is stored for one thread with
    a KV handle and another thread observes the same key without a handle of its
    own, the entry is re-filed under the second thread and keeps the first
    thread's handle: the second thread's lookup returns it and the first thread's
    lookup misses, if their digests differ. *)
Theorem reobservation_transfers_handle sha256_hex now now' x key e a b h o :
  index_wf x ->
  dget key (tx_entries x) = Some e -> te_status e = READY -> te_kv_handle_id e = Some h ->
  ob_cache_key o = key -> ob_scope o = "thread" -> ob_kv_handle_id o = None ->
  sc_thread_id (ob_context o) = Some b -> b <> "" -> sha256_hex a <> sha256_hex b ->
  let x' := index_apply sha256_hex (TPut now o) x in
  (exists e', snd (index_get sha256_hex now' key (mkScopeContext (Some b) None None) x') = Some e'
     /\ te_kv_handle_id e' = Some h /\ te_status e' = READY)
  /\ snd (index_get sha256_hex now' key (mkScopeContext (Some a) None None) x') = None.
Proof.
  intros Hwf Hk Hst Hh Hkey Hsc Hno Hb Hne Hab. simpl. unfold put_observation.
  rewrite Hsc. simpl. rewrite Hkey, Hk, Hno. unfold index_get. simpl.
  rewrite dget_dset_eq. simpl. rewrite Hst. unfold scope_matches. simpl.
  unfold scope_id_for. simpl. rewrite Hb. simpl.
  assert (Hlb : lookup_id sha256_hex (Some b) = Some (sha256_hex b)).
  { apply lookup_id_Some. eauto. }
  rewrite Hlb. unfold ids_match. rewrite String.eqb_refl. simpl. split.
  - eexists. split; [done|]. done.
  - destruct (lookup_id sha256_hex (Some a)) as [ha|] eqn:Hla; [|done].
    apply lookup_id_Some in Hla as (a' & [= <-] & _ & <-).
    by rewrite (proj2 (String.eqb_neq _ _) Hab).
Qed.

Lemma reobservation_transfers_handle_witness :
  let x := index_run demo_sha demo_ops (new_index 4 0 0 false) in
  let x' := index_apply demo_sha (TPut 2 (demo_obs "t2" None)) x in
  (exists e', snd (index_get demo_sha 3 "key" (mkScopeContext (Some "t2") None None) x') = Some e'
     /\ te_kv_handle_id e' = Some "kv1" /\ te_status e' = READY)
  /\ snd (index_get demo_sha 3 "key" (mkScopeContext (Some "t1") None None) x') = None.
Proof.
  eapply (reobservation_transfers_handle demo_sha 2 3
            (index_run demo_sha demo_ops (new_index 4 0 0 false)) "key" _ "t1" "t2" "kv1").
  - apply index_run_wf, new_index_wf.
  - vm_compute. reflexivity.
  - reflexivity.
  - reflexivity.
  - reflexivity.
  - reflexivity.
  - reflexivity.
  - reflexivity.
  - discriminate.
  - discriminate.
Defined.

Lemma insertion_evicts_minimally_witness :
  let x := index_run demo_sha demo_ops (new_index 1 100 10 false) in
  let o := mkObservation "other" "model" "stub" "prefix" 4 "thread" DEFAULT_SCOPE_CONTEXT None in
  exists x' e, put_observation demo_sha 2 o x = Ret (x', e)
    /\ over_limits 1 100 (tx_entries x') = false
    /\ (te_status e = EVICTED <-> dget "other" (tx_entries x') = None).
Proof.
  intros x o. eexists _, _. split; [vm_compute; reflexivity|].
  assert (Hwf : index_wf x) by apply index_run_wf, new_index_wf.
  destruct (insertion_evicts_minimally demo_sha 2 o x _ _ Hwf ltac:(vm_compute; discriminate)
              eq_refl eq_refl) as (H1 & _ & H2).
  split; [exact H1 | exact H2].
Defined.

(** ** Theorems: accounting *)

Definition is_lookup (op : index_op) : bool := match op with TGet _ _ _ => true | _ => false end.

(** Does this operation create an entry? *)
Definition inserts (x : ThreadWakeIndex) (op : index_op) : bool :=
  match op with
  | TPut _ o =>
      negb (is_refused (tx_allow_global x) o) && negb (dmem (ob_cache_key o) (tx_entries x))
  | _ => false
  end.

Fixpoint insertions (sha256_hex : string -> string) (ops : list index_op) (x : ThreadWakeIndex) : Z :=
  match ops with
  | [] => 0
  | op :: ops' => b2z (inserts x op) + insertions sha256_hex ops' (index_apply sha256_hex op x)
  end.

Section accounting.
Context (sha256_hex : string -> string).
Implicit Types (x : ThreadWakeIndex).

Definition entry_count x : Z := Z.of_nat (length (tx_entries x)).

(** What one operation adds to the two balances. *)
Definition balanced x op x' : Prop :=
  (tx_hits x' + tx_misses x' = tx_hits x + tx_misses x + b2z (is_lookup op))%Z
  /\ (tx_evictions x' + entry_count x' = tx_evictions x + entry_count x + b2z (inserts x op))%Z.

Lemma count_present key x e e' :
  dget key (tx_entries x) = Some e ->
  Z.of_nat (length (dset key e' (tx_entries x))) = Z.of_nat (length (tx_entries x)).
Proof using. clear sha256_hex. intros Hk. rewrite length_dset. unfold dmem. rewrite Hk. lia. Qed.

Lemma view_count x : index_wf x -> entry_count x = Z.of_nat (length (index_view x)).
Proof using.
  clear sha256_hex. intros Hwf. unfold entry_count.
  by rewrite <- (Permutation_length (lru_view_perm _ _ (iw_store _ Hwf))).
Qed.

Lemma put_balanced now o x :
  index_wf x -> balanced x (TPut now o) (index_apply sha256_hex (TPut now o) x).
Proof.
  intros Hwf. unfold balanced. simpl. unfold put_observation, is_refused.
  destruct (String.eqb (ob_scope o) "global" && negb (tx_allow_global x)) eqn:Hr; simpl; [lia|].
  unfold dmem. destruct (dget (ob_cache_key o) (tx_entries x)) as [e|] eqn:Hk; simpl.
  - unfold entry_count. simpl. erewrite count_present by done. lia.
  - edestruct (put_new_steps x (ob_cache_key o)) as (x' & gone & -> & Hst & Hsp & Hev & Hh & Hm);
      [done|done| |].
    2:{ simpl. destruct Hst as (Hw & _ & _). rewrite !view_count, Hev, Hh, Hm by done.
        apply (f_equal length) in Hsp. rewrite !length_app in Hsp. simpl in Hsp. lia. }
    split; simpl; [done|done|done|]. intros Ho. rewrite Ho in Hr. by destruct (tx_allow_global x).
Qed.

Ltac solve_balance := unfold entry_count; simpl; try lia.

Lemma apply_balanced op x :
  index_wf x -> balanced x op (index_apply sha256_hex op x).
Proof.
  intros Hwf. destruct op as [now o|now key c|key|key|key|s m h| | |now key sc cf r st sr sa];
    [by apply put_balanced| | | | | | | |]; unfold balanced; simpl.
  - unfold index_get. destruct (dget key (tx_entries x)) as [e|] eqn:Hk; [|by solve_balance].
    repeat (case_decide || split_if); solve_balance; rewrite ?(count_present key x e) by done; lia.
  - unfold mark_ready. destruct (dget key (tx_entries x)) as [e|] eqn:Hk; solve_balance;
      rewrite ?(count_present key x e) by done; lia.
  - unfold mark_stale. destruct (dget key (tx_entries x)) as [e|] eqn:Hk; solve_balance;
      rewrite ?(count_present key x e) by done; lia.
  - unfold evict. destruct (dget key (tx_entries x)) as [e|] eqn:Hk; solve_balance.
    rewrite length_ddel. unfold dmem. rewrite Hk. lia.
  - destruct (flush_steps s m h x Hwf) as ((Hw & Hv & _) & Hc & He).
    rewrite He, Hc, !view_count, Hv by done.
    rewrite <- (countv_perm _ _ _ (lru_view_perm _ _ (iw_store _ Hwf))).
    fold (index_view x). destruct (flush_counters s m h x) as [-> ->].
    rewrite <- countv_filter_length. split; [lia|].
    rewrite <- (length_filter_split (fun p => flush_selects s m h (snd p)) (index_view x)). lia.
  - solve_balance.
  - solve_balance.
  - unfold mark_candidate_selected.
    destruct (dget key (tx_entries x)) as [e|] eqn:Hk; solve_balance;
      rewrite ?(count_present key x e) by done; lia.
Qed.
End accounting.

(** Conservation.  Over any history on a fresh index, hits and misses add up to the lookups,
    and every entry ever created is either still stored or counted once as an
    eviction, whichever of insertion pressure, [evict] or [flush] removed it. *)
Theorem index_accounting sha256_hex me mm bpt g ops :
  let x := index_run sha256_hex ops (new_index me mm bpt g) in
  (tx_hits x + tx_misses x = countb is_lookup ops)%Z
  /\ (tx_evictions x + Z.of_nat (length (tx_entries x))
      = insertions sha256_hex ops (new_index me mm bpt g))%Z.
Proof.
  assert (H : forall y, index_wf y ->
    let x := index_run sha256_hex ops y in
    (tx_hits x + tx_misses x = tx_hits y + tx_misses y + countb is_lookup ops)%Z
    /\ (tx_evictions x + entry_count x
        = tx_evictions y + entry_count y + insertions sha256_hex ops y)%Z).
  { induction ops as [|op ops IH]; intros y Hy; simpl; [unfold countb; simpl; lia|].
    destruct (apply_balanced sha256_hex op y Hy) as [H1 H2].
    assert (Hw : index_wf (index_apply sha256_hex op y)) by by apply index_apply_steps.
    destruct (IH _ Hw) as [H3 H4]. rewrite countb_cons. simpl in *. lia. }
  destruct (H (new_index me mm bpt g)) as [H1 H2]; [apply new_index_wf|]. split; [done|].
  unfold entry_count in H2. simpl in H2. exact H2.
Qed.

(** ** Theorems: session tips *)

(** A continuation is valid exactly when the stored segments are a prefix of the new
    ones. *)
Lemma validate_monotonic_append_prefix prev new :
  validate_monotonic_append prev new = true <-> prev `prefix_of` new.
Proof.
  unfold validate_monotonic_append.
  destruct (Z.of_nat (length prev) =? 0)%Z eqn:E0; reflect_tests.
  { destruct prev; [|simpl in E0; lia]. split; [|done]. intros _. apply prefix_nil. }
  destruct (Z.of_nat (length new) <? Z.of_nat (length prev))%Z eqn:E1; reflect_tests.
  { split; [done|]. intros Hl%prefix_length. lia. }
  rewrite slice_to_nat, bool_decide_eq_true. split.
  - intros H. rewrite <- H. apply prefix_take.
  - intros [rest ->]. apply take_app_length.
Qed.

(** C38: Session continuation.  After a tip is stored, the same thread, model and backend read
    back exactly the stored chain hash, segment hashes, count and handle; every
    other key reads what it read before; a later request is accepted as a
    continuation of that tip exactly when the stored segments are a prefix of its
    own; and clearing the tip makes the thread start fresh. *)
Theorem session_tip_roundtrip sha256_hex now tid m b chain hashes kv x :
  NoDup (dkeys (tx_tips x)) ->
  let x' := fst (store_thread_tip sha256_hex now tid m b chain hashes kv x) in
  (exists t, get_latest_for_thread sha256_hex tid m b x' = Some t
     /\ tt_chain_hash t = chain /\ tt_hashes t = hashes /\ tt_kv_handle_id t = kv
     /\ tt_segment_count t = Z.of_nat (length hashes) /\ tt_updated_at t = now
     /\ forall new, validate_monotonic_append (tt_hashes t) new = true <-> hashes `prefix_of` new)
  /\ (forall tid2 m2 b2, tip_key sha256_hex tid2 m2 b2 <> tip_key sha256_hex tid m b ->
        get_latest_for_thread sha256_hex tid2 m2 b2 x' = get_latest_for_thread sha256_hex tid2 m2 b2 x)
  /\ get_latest_for_thread sha256_hex tid m b (clear_thread_tip sha256_hex tid m b x') = None
  /\ NoDup (dkeys (tx_tips x')).
Proof.
  intros Hnd x'. unfold get_latest_for_thread, clear_thread_tip.
  assert (Hx : exists t, tx_tips x' = dset (tip_key sha256_hex tid m b) t (tx_tips x)
     /\ tt_chain_hash t = chain /\ tt_hashes t = hashes /\ tt_kv_handle_id t = kv
     /\ tt_segment_count t = Z.of_nat (length hashes) /\ tt_updated_at t = now).
  { eexists. split; [reflexivity|]. by destruct (dget _ (tx_tips x)). }
  destruct Hx as (t & Ht & H1 & H2 & H3 & H4 & H5). rewrite Ht. split; [|split; [|split]].
  - exists t. rewrite dget_dset_eq, H2. repeat split; try done.
    + by rewrite validate_monotonic_append_prefix.
    + by rewrite validate_monotonic_append_prefix.
  - intros tid2 m2 b2 Hne. by rewrite dget_dset_ne.
  - apply dget_ddel_eq. by apply dset_NoDup.
  - by apply dset_NoDup.
Qed.

Lemma session_tip_roundtrip_witness :
  let x' := fst (store_thread_tip demo_sha 5 "t" "m" "b" "c" ["s1"; "s2"] (Some "kv")
                   (new_index 4 0 0 false)) in
  exists t, get_latest_for_thread demo_sha "t" "m" "b" x' = Some t
    /\ validate_monotonic_append (tt_hashes t) ["s1"; "s2"; "s3"] = true
    /\ validate_monotonic_append (tt_hashes t) ["s1"; "s3"] = false.
Proof.
  destruct (session_tip_roundtrip demo_sha 5 "t" "m" "b" "c" ["s1"; "s2"] (Some "kv")
              (new_index 4 0 0 false) (NoDup_nil_2)) as [(t & Ht & _ & Hh & _) _].
  exists t. split; [exact Ht|]. rewrite Hh. split; reflexivity.
Defined.

(** ** Theorems: what leaves the index *)

(** Two indexes that differ only in the scope ids of their entries. *)
Definition same_but_scope_ids (x y : ThreadWakeIndex) : Prop :=
  Forall2 (fun p q => fst p = fst q
             /\ snd q = reobserve (te_token_count (snd p)) (te_memory (snd p))
                          (te_kv_handle_id (snd p)) (te_scope (snd p)) (te_scope_id (snd q)) (snd p))
    (tx_entries x) (tx_entries y).

Section hiding.
Context (isoformat : Q -> string).

(** An entry without its scope id. *)
Definition strip_scope_id (e : ThreadWakeIndexEntry) : ThreadWakeIndexEntry :=
  reobserve (te_token_count e) (te_memory e) (te_kv_handle_id e) (te_scope e) None e.

Lemma same_strip x y :
  same_but_scope_ids x y ->
  map strip_scope_id (dvalues (tx_entries x)) = map strip_scope_id (dvalues (tx_entries y)).
Proof using.
  clear isoformat. unfold same_but_scope_ids, dvalues.
  induction 1 as [|[k e] [k' e'] l l' [_ He] _ IH]; [done|]. csimpl. rewrite IH. f_equal.
  simpl in He. rewrite He. unfold strip_scope_id. simpl. by destruct (te_kv_handle_id e).
Qed.

Lemma map_filter_strip (p : ThreadWakeIndexEntry -> bool) l :
  (forall e, p (strip_scope_id e) = p e) ->
  map strip_scope_id (List.filter p l) = List.filter p (map strip_scope_id l).
Proof using.
  clear isoformat. intros Hp. induction l as [|e l IH]; simpl; [done|].
  rewrite Hp. destruct (p e); simpl; by rewrite IH.
Qed.

Lemma map_slice {A B} (f : A -> B) n l : map f (slice_to n l) = slice_to n (map f l).
Proof using.
  clear isoformat. unfold slice_to. rewrite length_map.
  by destruct (n <? 0)%Z; rewrite firstn_map.
Qed.

Lemma snapshot_strip e : public_snapshot isoformat (strip_scope_id e) = public_snapshot isoformat e.
Proof. unfold public_snapshot. simpl. by destruct (te_kv_handle_id e). Qed.

(** Each output is a function of the stripped entries. *)
Lemma fold_incr_strip (f : ThreadWakeIndexEntry -> string) l acc :
  (forall e, f (strip_scope_id e) = f e) ->
  fold_left (fun d e => dincr (f e) d) (map strip_scope_id l) acc
  = fold_left (fun d e => dincr (f e) d) l acc.
Proof using.
  clear isoformat. intros Hf. revert acc. induction l as [|e l IH]; intros acc; simpl; [done|].
  by rewrite Hf, IH.
Qed.

Lemma map_strip_eq {B} (f : ThreadWakeIndexEntry -> B) l l' :
  (forall e, f (strip_scope_id e) = f e) ->
  map strip_scope_id l = map strip_scope_id l' -> map f l = map f l'.
Proof using.
  clear isoformat. intros Hf Hl.
  rewrite <- (List.map_ext _ _ Hf l), <- (List.map_ext _ _ Hf l').
  rewrite <- (List.map_map strip_scope_id f l), <- (List.map_map strip_scope_id f l').
  by rewrite Hl.
Qed.

Lemma filter_strip_eq (p : ThreadWakeIndexEntry -> bool) l l' :
  (forall e, p (strip_scope_id e) = p e) ->
  map strip_scope_id l = map strip_scope_id l' ->
  map strip_scope_id (List.filter p l) = map strip_scope_id (List.filter p l').
Proof using. clear isoformat. intros Hp Hl. by rewrite !map_filter_strip, Hl. Qed.

Lemma sort_strip_eq (le : ThreadWakeIndexEntry -> ThreadWakeIndexEntry -> bool) n l l' :
  (forall a b, le a b = le (strip_scope_id a) (strip_scope_id b)) ->
  map strip_scope_id l = map strip_scope_id l' ->
  map (public_snapshot isoformat) (slice_to n (stable_sort le l))
  = map (public_snapshot isoformat) (slice_to n (stable_sort le l')).
Proof.
  intros Hle Hl. apply map_strip_eq; [apply snapshot_strip|].
  by rewrite !map_slice, !(stable_sort_map strip_scope_id le le), Hl.
Qed.

End hiding.

(** Privacy of the listings.  [list_entries], [list_candidates], [candidate_stats] and
    [stats] give the same result on two indexes that differ only in the scope ids
    of their entries: no output depends on a thread, user or project identity. *)
Theorem listings_hide_scope_ids isoformat limit conf backend x y :
  same_but_scope_ids x y ->
  list_entries isoformat limit x = list_entries isoformat limit y
  /\ list_candidates isoformat limit conf backend x = list_candidates isoformat limit conf backend y
  /\ candidate_stats x = candidate_stats y
  /\ ts_entries_by_status (index_stats x) = ts_entries_by_status (index_stats y)
  /\ ts_entries_by_scope (index_stats x) = ts_entries_by_scope (index_stats y).
Proof.
  intros Hxy%same_strip.
  assert (Hc : forall p, (forall e, p (strip_scope_id e) = p e) ->
    map strip_scope_id (List.filter p (dvalues (tx_entries x)))
    = map strip_scope_id (List.filter p (dvalues (tx_entries y))))
    by (intros; by apply filter_strip_eq).
  assert (Hlive := Hc live ltac:(done)). assert (Hcand := Hc is_candidate ltac:(done)).
  split; [by apply sort_strip_eq|]. split; [|split; [|split]].
  - unfold list_candidates. apply sort_strip_eq; [done|].
    destruct (str_truthy conf), (str_truthy backend); repeat apply filter_strip_eq; done.
  - assert (Hlen := f_equal length Hcand). rewrite !length_map in Hlen.
    unfold candidate_stats, countb. rewrite Hlen.
    assert (Hf : forall p, (forall e, p (strip_scope_id e) = p e) ->
      length (List.filter p (List.filter is_candidate (dvalues (tx_entries x))))
      = length (List.filter p (List.filter is_candidate (dvalues (tx_entries y))))).
    { intros p Hp. assert (H := f_equal length (filter_strip_eq p _ _ Hp Hcand)).
      by rewrite !length_map in H. }
    rewrite !Hf by done.
    by rewrite (map_strip_eq te_seen_count _ _ (fun e => eq_refl) Hcand),
      (map_strip_eq (fun e => default 0%Z (te_saved_tokens e)) _ _ (fun e => eq_refl) Hcand),
      (map_strip_eq (fun e => default 0%Q (te_candidate_score e)) _ _ (fun e => eq_refl) Hcand).
  - unfold index_stats. simpl. rewrite <- (fold_incr_strip _ (List.filter _ (dvalues (tx_entries x)))) by done.
    rewrite Hlive. by apply fold_incr_strip.
  - unfold index_stats. simpl. rewrite <- (fold_incr_strip _ (List.filter _ (dvalues (tx_entries x)))) by done.
    rewrite Hlive. by apply fold_incr_strip.
Qed.

Lemma listings_hide_scope_ids_witness :
  let x := index_run demo_sha demo_ops (new_index 4 0 0 false) in
  let y := index_run demo_sha [TPut 0 (demo_obs "t9" (Some "kv1")); TReady "key"]
             (new_index 4 0 0 false) in
  index_view x <> index_view y
  /\ list_entries (fun _ => "t") 10 x = list_entries (fun _ => "t") 10 y.
Proof.
  split; [vm_compute; discriminate|].
  refine (proj1 (listings_hide_scope_ids (fun _ => "t") 10 None None _ _ _)).
  vm_compute. repeat constructor.
Defined.
