(* ===== verification/KVLifecycle.v ===== *)
(** * KV lifecycle observability ([runtime/threadwake/kv_lifecycle.py])

    [KVLifecycleObserver] keeps the most recent events in a circular buffer and
    running totals over all of them.  The lock makes each method one step; the
    clock, the event ids and the digest are arguments.  [record] writes the buffer
    by index and would raise [IndexError] outside it; the theorems show that it
    does not, that the buffer is the recent history, and that the totals are
    counts of the whole history since the last [clear]. *)

From stdpp Require Import sorting.
From Stdlib Require Import Sorting.Sorted.
From S2P Require Import Prelude PyDict PyStr PySeq.

(** ** Events *)

(** The value of the annotation [KVEventType]; Python does not enforce it, so the
    field is a string. *)
Definition KVEventType : list string :=
  ["capability_reported"; "kv_created"; "kv_reused"; "kv_cloned"; "kv_released";
   "kv_invalidated"; "kv_evicted"; "kv_error"; "generation_started"; "generation_completed";
   "generation_cancelled"].

(** [_hash_id]: the first sixteen digits of the digest. *)
Definition hash_id (sha256_hex : string -> string) (value : option string) : option string :=
  (fun v => String.substring 0 16 (sha256_hex v)) <$> value.

Record KVEvent := mkKVEvent {
  ke_event_id : string;
  ke_event_type : string;
  ke_backend : option string;
  ke_model_id : option string;
  ke_capability : option string;
  ke_request_id_hash : option string;
  ke_thread_id_hash : option string;
  ke_cache_key_hash : option string;
  ke_kv_handle_id_hash : option string;
  ke_token_start : option Z;
  ke_token_end : option Z;
  ke_token_count : option Z;
  ke_reason : option string;
  ke_timestamp : Q;
}.

(** The keyword arguments of [KVEvent.create]. *)
Record kv_args := mkKVArgs {
  ka_backend : option string;
  ka_model_id : option string;
  ka_capability : option string;
  ka_request_id : option string;
  ka_thread_id : option string;
  ka_cache_key : option string;
  ka_kv_handle_id : option string;
  ka_token_start : option Z;
  ka_token_end : option Z;
  ka_token_count : option Z;
  ka_reason : option string;
}.

(** [KVEvent.create]; [uuid_hex] is [uuid.uuid4().hex] and [now] is [time.time()]. *)
Definition kv_event_create (sha256_hex : string -> string) (uuid_hex : string) (now : Q)
    (event_type : string) (a : kv_args) : KVEvent :=
  mkKVEvent (String.substring 0 12 uuid_hex) event_type (ka_backend a) (ka_model_id a)
    (ka_capability a) (hash_id sha256_hex (ka_request_id a)) (hash_id sha256_hex (ka_thread_id a))
    (hash_id sha256_hex (ka_cache_key a)) (hash_id sha256_hex (ka_kv_handle_id a))
    (ka_token_start a) (ka_token_end a) (ka_token_count a) (ka_reason a) now.

Definition kv_safe_dict (e : KVEvent) : list (string * pyval) :=
  [("event_id", PStr (ke_event_id e)); ("event_type", PStr (ke_event_type e));
   ("backend", opt_str (ke_backend e)); ("model_id", opt_str (ke_model_id e));
   ("capability", opt_str (ke_capability e));
   ("request_id_hash", opt_str (ke_request_id_hash e));
   ("thread_id_hash", opt_str (ke_thread_id_hash e));
   ("cache_key_hash", opt_str (ke_cache_key_hash e));
   ("kv_handle_id_hash", opt_str (ke_kv_handle_id_hash e));
   ("token_start", opt_int (ke_token_start e)); ("token_end", opt_int (ke_token_end e));
   ("token_count", opt_int (ke_token_count e)); ("reason", opt_str (ke_reason e));
   ("timestamp", PFloat (ke_timestamp e))].

(** ** Statistics *)
Record KVLifecycleStats := mkKVStats {
  ks_events_total : Z;
  ks_events_by_type : list (string * Z);
  ks_events_by_backend : list (string * Z);
  ks_active_handles_estimate : Z;
  ks_created_total : Z;
  ks_cloned_total : Z;
  ks_reused_total : Z;
  ks_released_total : Z;
  ks_invalidated_total : Z;
  ks_evicted_total : Z;
  ks_errors_total : Z;
  ks_last_event_at : option Q;
}.

Definition empty_kv_stats : KVLifecycleStats := mkKVStats 0 [] [] 0 0 0 0 0 0 0 0 None.

Definition kv_stats_to_dict (s : KVLifecycleStats) : list (string * pyval) :=
  [("events_total", PInt (ks_events_total s));
   ("events_by_type", PDict (prod_map id PInt <$> ks_events_by_type s));
   ("events_by_backend", PDict (prod_map id PInt <$> ks_events_by_backend s));
   ("active_handles_estimate", PInt (ks_active_handles_estimate s));
   ("created_total", PInt (ks_created_total s)); ("cloned_total", PInt (ks_cloned_total s));
   ("reused_total", PInt (ks_reused_total s)); ("released_total", PInt (ks_released_total s));
   ("invalidated_total", PInt (ks_invalidated_total s));
   ("evicted_total", PInt (ks_evicted_total s)); ("errors_total", PInt (ks_errors_total s));
   ("last_event_at", from_option PFloat PNone (ks_last_event_at s))].

(** ** The observer *)
Record KVLifecycleObserver := mkKVObserver {
  ko_enabled : bool;
  ko_max_events : Z;
  ko_events : list KVEvent;
  ko_cursor : Z;
  ko_active_handles : Z;
  ko_stats : KVLifecycleStats;
}.

(** [KVLifecycleObserver.__init__] *)
Definition new_kv_observer (enabled : bool) (max_events : Z) : KVLifecycleObserver :=
  mkKVObserver enabled (Z.max max_events 1) [] 0 0 empty_kv_stats.

(** [_update_stats]: the branch of the event type on the running handle count. *)
Definition active_after (etype : string) (active : Z) : Z :=
  if String.eqb etype "kv_created" then (active + 1)%Z
  else if String.eqb etype "kv_cloned" then (active + 1)%Z
  else if String.eqb etype "kv_reused" then active
  else if String.eqb etype "kv_released" then Z.max 0 (active - 1)
  else if String.eqb etype "kv_invalidated" then active
  else if String.eqb etype "kv_evicted" then Z.max 0 (active - 1)
  else active.

(** [_update_stats] *)
Definition update_stats (event : KVEvent) (active : Z) (s : KVLifecycleStats)
    : Z * KVLifecycleStats :=
  let etype := ke_event_type event in
  let one t := b2z (String.eqb etype t) in
  let active' := active_after etype active in
  (active',
   mkKVStats (ks_events_total s + 1) (dincr etype (ks_events_by_type s))
     (if str_truthy (ke_backend event)
      then dincr (default "" (ke_backend event)) (ks_events_by_backend s)
      else ks_events_by_backend s)
     active' (ks_created_total s + one "kv_created") (ks_cloned_total s + one "kv_cloned")
     (ks_reused_total s + one "kv_reused") (ks_released_total s + one "kv_released")
     (ks_invalidated_total s + one "kv_invalidated") (ks_evicted_total s + one "kv_evicted")
     (ks_errors_total s + one "kv_error") (Some (ke_timestamp event))).

(** [l[i] = x] for a non-negative index. *)
Definition list_assign {A} (i : Z) (x : A) (l : list A) : pyres (list A) :=
  if (i <? Z.of_nat (length l))%Z then Ret (<[Z.to_nat i := x]> l) else Raise IndexError.

Definition record (event : KVEvent) (o : KVLifecycleObserver) : pyres KVLifecycleObserver :=
  if negb (ko_enabled o) then Ret o
  else
    let! events :=
      if (Z.of_nat (length (ko_events o)) <? ko_max_events o)%Z then Ret (ko_events o ++ [event])
      else list_assign (ko_cursor o mod ko_max_events o) event (ko_events o) in
    let (active, stats) := update_stats event (ko_active_handles o) (ko_stats o) in
    Ret (mkKVObserver (ko_enabled o) (ko_max_events o) events (ko_cursor o + 1) active stats).

Definition no_kv_args : kv_args :=
  mkKVArgs None None None None None None None None None None None.

(** *** Convenience recorders *)
Section recorders.
Context (sha256_hex : string -> string) (uuid_hex : string) (now : Q).

Definition record_event (event_type : string) (a : kv_args) (o : KVLifecycleObserver)
    : pyres KVLifecycleObserver :=
  record (kv_event_create sha256_hex uuid_hex now event_type a) o.

Definition record_capability (backend capability : string) (model_id : option string) :=
  record_event "capability_reported"
    (mkKVArgs (Some backend) model_id (Some capability) None None None None None None None None).

Definition record_created (backend model_id : string) (token_count : option Z)
    (kv_handle_id cache_key : option string) :=
  record_event "kv_created"
    (mkKVArgs (Some backend) (Some model_id) None None None cache_key kv_handle_id None None
       token_count None).

Definition record_cloned (backend model_id : string) (kv_handle_id : option string) :=
  record_event "kv_cloned"
    (mkKVArgs (Some backend) (Some model_id) None None None None kv_handle_id None None None None).

Definition record_reused (backend model_id : string) (token_count : option Z) :=
  record_event "kv_reused"
    (mkKVArgs (Some backend) (Some model_id) None None None None None None None token_count None).

Definition record_released (backend model_id : string) (kv_handle_id : option string) :=
  record_event "kv_released"
    (mkKVArgs (Some backend) (Some model_id) None None None None kv_handle_id None None None None).

Definition record_invalidated (backend model_id : string) (reason : option string) :=
  record_event "kv_invalidated"
    (mkKVArgs (Some backend) (Some model_id) None None None None None None None None reason).

Definition record_evicted (backend model_id : string) (reason : option string) :=
  record_event "kv_evicted"
    (mkKVArgs (Some backend) (Some model_id) None None None None None None None None reason).

Definition record_error (backend model_id reason event_type : string) :=
  record_event event_type
    (mkKVArgs (Some backend) (Some model_id) None None None None None None None None (Some reason)).
End recorders.

(** *** Queries *)

Definition recent_events (limit : Z) (event_type backend : option string)
    (o : KVLifecycleObserver) : list KVEvent :=
  let events := ko_events o in
  let events :=
    if str_truthy event_type
    then List.filter (fun e => bool_decide (Some (ke_event_type e) = event_type)) events
    else events in
  let events :=
    if str_truthy backend
    then List.filter (fun e => bool_decide (ke_backend e = backend)) events
    else events in
  slice_to limit (stable_sort (fun a b => ke_timestamp b <=?q ke_timestamp a) events).

Definition list_events (limit : Z) (event_type backend : option string) (o : KVLifecycleObserver)
    : list (list (string * pyval)) :=
  map kv_safe_dict (recent_events limit event_type backend o).

(** [stats] returns a copy. *)
Definition kv_stats (o : KVLifecycleObserver) : KVLifecycleStats := ko_stats o.

Definition clear (o : KVLifecycleObserver) : KVLifecycleObserver * Z :=
  (mkKVObserver (ko_enabled o) (ko_max_events o) [] 0 0 empty_kv_stats,
   Z.of_nat (length (ko_events o))).

(** ** Histories *)
Inductive kv_op :=
| KRecord (e : KVEvent)
| KClear.

Definition kv_step (op : kv_op) (o : KVLifecycleObserver) : pyres KVLifecycleObserver :=
  match op with KRecord e => record e o | KClear => Ret (fst (clear o)) end.

Fixpoint kv_run (ops : list kv_op) (o : KVLifecycleObserver) : pyres KVLifecycleObserver :=
  match ops with
  | [] => Ret o
  | op :: ops' => let! o' := kv_step op o in kv_run ops' o'
  end.

(** ** Specification: the events since the last [clear] *)
Fixpoint since_clear (ops : list kv_op) (acc : list KVEvent) : list KVEvent :=
  match ops with
  | [] => acc
  | KRecord e :: ops' => since_clear ops' (acc ++ [e])
  | KClear :: ops' => since_clear ops' []
  end.

(** The last [n] elements. *)
Definition lastn {A} (n : nat) (l : list A) : list A := drop (length l - n) l.

(** The buffer, oldest event first. *)
Definition chronological (o : KVLifecycleObserver) : list KVEvent :=
  let k := Z.to_nat (ko_cursor o mod ko_max_events o) in
  if (Z.of_nat (length (ko_events o)) <? ko_max_events o)%Z then ko_events o
  else drop k (ko_events o) ++ take k (ko_events o).

Definition of_type (t : string) (e : KVEvent) : bool := String.eqb (ke_event_type e) t.

(** The totals of a history. *)
Definition stats_of (hist : list KVEvent) (s : KVLifecycleStats) : Prop :=
  ks_events_total s = Z.of_nat (length hist)
  /\ (forall t, dget_or t 0%Z (ks_events_by_type s) = countb (of_type t) hist)
  /\ (forall b, b <> "" -> dget_or b 0%Z (ks_events_by_backend s)
        = countb (fun e => bool_decide (ke_backend e = Some b)) hist)
  /\ sumZ (dvalues (ks_events_by_type s)) = Z.of_nat (length hist)
  /\ ks_created_total s = countb (of_type "kv_created") hist
  /\ ks_cloned_total s = countb (of_type "kv_cloned") hist
  /\ ks_reused_total s = countb (of_type "kv_reused") hist
  /\ ks_released_total s = countb (of_type "kv_released") hist
  /\ ks_invalidated_total s = countb (of_type "kv_invalidated") hist
  /\ ks_evicted_total s = countb (of_type "kv_evicted") hist
  /\ ks_errors_total s = countb (of_type "kv_error") hist
  /\ ks_last_event_at s = ke_timestamp <$> last hist
  /\ ks_active_handles_estimate s
     = fold_left (fun a e => active_after (ke_event_type e) a) hist 0%Z.

(** The observer stands for the history [hist]. *)
Record represents (o : KVLifecycleObserver) (hist : list KVEvent) : Prop := {
  rp_enabled : ko_enabled o = true;
  rp_max : (1 <= ko_max_events o)%Z;
  rp_cursor : ko_cursor o = Z.of_nat (length hist);
  rp_length : Z.of_nat (length (ko_events o)) = Z.min (ko_max_events o) (Z.of_nat (length hist));
  rp_recent : chronological o = lastn (Z.to_nat (ko_max_events o)) hist;
  rp_active : ko_active_handles o = ks_active_handles_estimate (ko_stats o);
  rp_stats : stats_of hist (ko_stats o);
}.

(** ** The ring *)
Section ring.
Context {A : Type}.
Implicit Types (l : list A).

Lemma lastn_all n l : length l <= n -> lastn n l = l.
Proof. intros H. unfold lastn. by replace (length l - n) with 0 by lia. Qed.

Lemma drop_S_tail n l : drop (S n) l = tail (drop n l).
Proof. revert n. induction l as [|y l IH]; intros [|n]; try done. apply IH. Qed.

Lemma lastn_snoc n l x :
  0 < n -> n <= length l -> lastn n (l ++ [x]) = tail (lastn n l) ++ [x].
Proof.
  intros Hn Hl. unfold lastn. rewrite length_app. simpl. rewrite drop_app_le by lia. f_equal.
  replace (length l + 1 - n) with (S (length l - n)) by lia. apply drop_S_tail.
Qed.

(** Overwriting slot [k] of a full ring and advancing the start drops the oldest
    element and appends the new one. *)
Lemma ring_write k x l :
  k < length l ->
  let k' := if decide (S k = length l) then 0 else S k in
  drop k' (<[k := x]> l) ++ take k' (<[k := x]> l) = tail (drop k l ++ take k l) ++ [x].
Proof.
  intros Hk k'. destruct (lookup_lt_is_Some_2 l k Hk) as [y Hy].
  assert (Hl : l = take k l ++ y :: drop (S k) l) by by rewrite take_drop_middle.
  assert (Ha : length (take k l) = k) by (rewrite length_take; lia).
  rewrite (insert_take_drop l k x) by done.
  assert (Hd : drop k l = y :: drop (S k) l).
  { rewrite Hl at 1. rewrite <- Ha at 1. by rewrite drop_app_length. }
  rewrite Hd. simpl. subst k'. case_decide as Hend.
  - rewrite (drop_ge l (S k)) by lia. simpl. by rewrite app_nil_r.
  - assert (Hs : take k l ++ x :: drop (S k) l = (take k l ++ [x]) ++ drop (S k) l)
      by by rewrite <- app_assoc.
    rewrite Hs. replace (S k) with (length (take k l ++ [x])) at 1 3
      by (rewrite length_app; simpl; lia).
    rewrite drop_app_length, take_app_length. by rewrite app_assoc.
Qed.
End ring.

(** The cursor of a full ring of [n] slots after one more write. *)
Lemma mod_succ c n :
  (0 < n)%Z ->
  Z.to_nat ((c + 1) mod n) =
    if decide (S (Z.to_nat (c mod n)) = Z.to_nat n) then 0 else S (Z.to_nat (c mod n)).
Proof.
  intros Hn. pose proof (Z.mod_pos_bound c n Hn).
  case_decide as E.
  - rewrite <- Z.add_mod_idemp_l by lia. replace (c mod n + 1)%Z with n by lia.
    by rewrite Z.mod_same by lia.
  - rewrite <- Z.add_mod_idemp_l by lia. rewrite Z.mod_small by lia. lia.
Qed.

(** ** One step *)

Lemma represents_new max_events : represents (new_kv_observer true max_events) [].
Proof.
  split; simpl; try done; try lia. unfold chronological. simpl. by split_if.
Qed.

Lemma stats_of_snoc hist e s :
  stats_of hist s ->
  stats_of (hist ++ [e]) (snd (update_stats e (ks_active_handles_estimate s) s)).
Proof.
  intros (H1 & H2 & H3 & H4 & H5 & H6 & H7 & H8 & H9 & H10 & H11 & H12 & H13).
  unfold stats_of, update_stats, of_type in *. cbn [snd ks_events_total ks_events_by_type
    ks_events_by_backend ks_active_handles_estimate ks_created_total ks_cloned_total
    ks_reused_total ks_released_total ks_invalidated_total ks_evicted_total ks_errors_total
    ks_last_event_at].
  rewrite !countb_app, !countb_cons, !countb_nil, !length_app, last_snoc, fold_left_app, H13.
  cbn [length fold_left]. split; [lia|]. split; [|split; [|split]].
  - intros t. rewrite dget_dincr, countb_app, countb_cons, countb_nil, H2.
    case_decide as E; [subst; by rewrite String.eqb_refl|].
    rewrite (proj2 (String.eqb_neq _ _)) by congruence. simpl. lia.
  - intros b Hb. rewrite countb_app, countb_cons, countb_nil. specialize (H3 b Hb).
    destruct (ke_backend e) as [b'|]; simpl.
    + destruct (String.eqb b' "") eqn:E; simpl.
      * apply String.eqb_eq in E as ->. rewrite bool_decide_false by congruence. simpl. lia.
      * rewrite dget_dincr, H3. case_decide as E2.
        -- subst. by rewrite bool_decide_true.
        -- rewrite bool_decide_false by congruence. simpl. lia.
    + lia.
  - rewrite sumZ_dincr. lia.
  - repeat split; lia || done.
Qed.

Lemma record_represents e o hist :
  represents o hist -> exists o', record e o = Ret o' /\ represents o' (hist ++ [e])
                                 /\ ko_max_events o' = ko_max_events o.
Proof.
  intros [Hen Hmax Hcur Hlen Hrec Hact Hst]. unfold record. rewrite Hen. cbn [negb].
  assert (Hst' := stats_of_snoc hist e _ Hst). rewrite <- Hact in Hst'.
  destruct (update_stats e (ko_active_handles o) (ko_stats o)) as [active stats] eqn:Hup.
  assert (Hactive : active = ks_active_handles_estimate stats) by by injection Hup as <- <-.
  assert (Hbuf : exists events,
    (if (Z.of_nat (length (ko_events o)) <? ko_max_events o)%Z then Ret (ko_events o ++ [e])
     else list_assign (ko_cursor o mod ko_max_events o) e (ko_events o)) = Ret events
    /\ let o' := mkKVObserver true (ko_max_events o) events (ko_cursor o + 1) active stats in
       Z.of_nat (length events) = Z.min (ko_max_events o) (Z.of_nat (length (hist ++ [e])))
       /\ chronological o' = lastn (Z.to_nat (ko_max_events o)) (hist ++ [e])).
  { destruct (Z.of_nat (length (ko_events o)) <? ko_max_events o)%Z eqn:Hfull; reflect_tests.
    - exists (ko_events o ++ [e]). split; [done|].
      assert (Hev : ko_events o = hist).
      { unfold chronological in Hrec. rewrite (proj2 (Z.ltb_lt _ _) Hfull) in Hrec.
        rewrite Hrec. apply lastn_all. lia. }
      assert (Hlast : lastn (Z.to_nat (ko_max_events o)) (hist ++ [e]) = hist ++ [e]).
      { apply lastn_all. rewrite length_app. rewrite Hev in Hfull. simpl. lia. }
      rewrite Hlast, Hev in *. split; [rewrite length_app; simpl; lia|].
      unfold chronological. simpl. split_if; reflect_tests; [done|].
      rewrite length_app in *. simpl in *. rewrite Hcur.
      replace (Z.of_nat (length hist) + 1)%Z with (ko_max_events o) by lia.
      rewrite Z.mod_same by lia. simpl. by rewrite app_nil_r.
    - assert (Hk := Z.mod_pos_bound (ko_cursor o) (ko_max_events o) ltac:(lia)).
      assert (Hn : Z.to_nat (ko_max_events o) = length (ko_events o)) by lia.
      exists (<[Z.to_nat (ko_cursor o mod ko_max_events o) := e]> (ko_events o)).
      unfold list_assign. rewrite (proj2 (Z.ltb_lt _ _)) by lia. split; [done|]. simpl.
      rewrite length_insert, length_app. simpl length. split; [lia|].
      unfold chronological in Hrec |- *. simpl. rewrite length_insert.
      rewrite (proj2 (Z.ltb_ge _ _)) in Hrec |- * by lia.
      rewrite mod_succ, Hn by lia. rewrite ring_write by lia. rewrite Hrec, Hn.
      symmetry. apply lastn_snoc; lia. }
  destruct Hbuf as (events & -> & Hl & Hc). simpl. eexists. split; [done|]. split; [|done].
  split; simpl; try done.
  rewrite Hcur, length_app. simpl. lia.
Qed.

Lemma clear_represents o hist :
  represents o hist -> represents (fst (clear o)) [] /\ ko_max_events (fst (clear o)) = ko_max_events o.
Proof.
  intros [Hen Hmax _ _ _ _ _]. split; [|done]. split; simpl; try done; try lia.
  unfold chronological. simpl. by split_if.
Qed.

Lemma kv_run_represents ops o hist :
  represents o hist ->
  exists o', kv_run ops o = Ret o' /\ represents o' (since_clear ops hist)
             /\ ko_max_events o' = ko_max_events o.
Proof.
  revert o hist. induction ops as [|[e|] ops IH]; intros o hist Hr; simpl; [eauto| |].
  - destruct (record_represents e o hist Hr) as (o1 & -> & Hr1 & Hm1). simpl.
    destruct (IH _ _ Hr1) as (o2 & ? & ? & Hm2). exists o2. rewrite Hm2. auto.
  - destruct (clear_represents o hist Hr) as [Hr1 Hm1].
    destruct (IH _ _ Hr1) as (o2 & ? & ? & Hm2). exists o2. rewrite Hm2. auto.
Qed.

(** ** Theorems *)

(** The circular buffer is the recent history.  Any sequence of records and clears runs without
    [IndexError]; read from the cursor, the buffer is exactly the last
    [max(max_events, 1)] events recorded since the last [clear], in order; the
    statistics are the counts of that whole history, not only of the retained
    events; and a disabled observer never changes. *)
Theorem kv_buffer_is_recent_history max_events ops :
  (exists o, kv_run ops (new_kv_observer true max_events) = Ret o
     /\ chronological o = lastn (Z.to_nat (Z.max max_events 1)) (since_clear ops [])
     /\ (Z.of_nat (length (ko_events o)) <= Z.max max_events 1)%Z
     /\ stats_of (since_clear ops []) (kv_stats o))
  /\ kv_run ops (new_kv_observer false max_events) = Ret (new_kv_observer false max_events).
Proof.
  split.
  - destruct (kv_run_represents ops _ _ (represents_new max_events)) as (o & Hrun & Hr & Hm).
    exists o. simpl in Hm. destruct Hr as [_ _ _ Hl Hrec _ Hst]. rewrite Hm in Hl, Hrec.
    repeat split; try done; lia || apply Hst.
  - induction ops as [|[e|] ops IH]; simpl; done.
Qed.

(** The clamped count of handles that are thought to be live. *)
Definition active_run (hist : list KVEvent) (a : Z) : Z :=
  fold_left (fun a e => active_after (ke_event_type e) a) hist a.

Definition acquired (hist : list KVEvent) : Z :=
  (countb (of_type "kv_created") hist + countb (of_type "kv_cloned") hist)%Z.
Definition disposed (hist : list KVEvent) : Z :=
  (countb (of_type "kv_released") hist + countb (of_type "kv_evicted") hist)%Z.

Lemma active_after_cases e a :
  active_after (ke_event_type e) a
  = if of_type "kv_created" e || of_type "kv_cloned" e then (a + 1)%Z
    else if of_type "kv_released" e || of_type "kv_evicted" e then Z.max 0 (a - 1) else a.
Proof.
  unfold active_after, of_type.
  repeat match goal with |- context [String.eqb (ke_event_type e) ?t] =>
    destruct (String.eqb (ke_event_type e) t) eqn:?; simpl end; try done;
  repeat match goal with H : String.eqb (ke_event_type e) _ = true |- _ =>
    apply String.eqb_eq in H; try congruence end.
Qed.

Lemma active_run_snoc hist e a :
  active_run (hist ++ [e]) a = active_after (ke_event_type e) (active_run hist a).
Proof. unfold active_run. by rewrite fold_left_app. Qed.

Lemma of_type_excl s t e : s <> t -> of_type s e = true -> of_type t e = false.
Proof.
  unfold of_type. intros Hne H%String.eqb_eq. apply String.eqb_neq. congruence.
Qed.

(** The live-handle estimate.  Over any history it stays between zero and the number of
    created and cloned handles, never below the exact difference of acquisitions
    and releases, and equals that difference when no prefix of the history
    releases more handles than it acquired. *)
Theorem active_handles_estimate_bounds hist :
  (0 <= active_run hist 0 <= acquired hist)%Z
  /\ (acquired hist - disposed hist <= active_run hist 0)%Z
  /\ ((forall p, p `prefix_of` hist -> disposed p <= acquired p)%Z ->
      active_run hist 0 = (acquired hist - disposed hist)%Z).
Proof.
  induction hist as [|e hist (H1 & H2 & H3)] using rev_ind.
  { unfold active_run, acquired, disposed, countb. simpl. lia. }
  assert (Hstep : exists da dd, acquired (hist ++ [e]) = (acquired hist + da)%Z
    /\ disposed (hist ++ [e]) = (disposed hist + dd)%Z
    /\ ((da = 1 /\ dd = 0 /\ active_run (hist ++ [e]) 0 = active_run hist 0 + 1)
        \/ (da = 0 /\ dd = 1 /\ active_run (hist ++ [e]) 0 = Z.max 0 (active_run hist 0 - 1))
        \/ (da = 0 /\ dd = 0 /\ active_run (hist ++ [e]) 0 = active_run hist 0))%Z).
  { rewrite active_run_snoc, active_after_cases.
    exists (b2z (of_type "kv_created" e) + b2z (of_type "kv_cloned" e))%Z,
           (b2z (of_type "kv_released" e) + b2z (of_type "kv_evicted" e))%Z.
    unfold acquired, disposed. rewrite !countb_app, !countb_cons, !countb_nil.
    split; [lia|]. split; [lia|].
    assert (Hx := fun s t H => of_type_excl s t e H).
    destruct (of_type "kv_created" e) eqn:E1.
    { rewrite (Hx "kv_created" "kv_cloned"), (Hx "kv_created" "kv_released"),
        (Hx "kv_created" "kv_evicted") by done. simpl. lia. }
    destruct (of_type "kv_cloned" e) eqn:E2.
    { rewrite (Hx "kv_cloned" "kv_released"), (Hx "kv_cloned" "kv_evicted") by done. simpl. lia. }
    destruct (of_type "kv_released" e) eqn:E3.
    { rewrite (Hx "kv_released" "kv_evicted") by done. simpl. lia. }
    destruct (of_type "kv_evicted" e); simpl; lia. }
  destruct Hstep as (da & dd & Ha & Hd & Hcases). rewrite Ha, Hd.
  split; [lia|]. split; [lia|]. intros Hp.
  assert (Hp1 := Hp (hist ++ [e]) ltac:(done)). rewrite Ha, Hd in Hp1.
  assert (Heq : active_run hist 0 = (acquired hist - disposed hist)%Z); [|lia].
  apply H3. intros p Hpre. apply Hp. by apply prefix_app_r.
Qed.

Lemma active_handles_estimate_bounds_witness :
  let ev t := kv_event_create (fun s => s) "u" 0 t no_kv_args in
  (0 <= active_run [ev "kv_created"; ev "kv_released"; ev "kv_released"] 0 <= 1)%Z.
Proof.
  exact (proj1 (active_handles_estimate_bounds
    (map (fun t => kv_event_create (fun s => s) "u" 0 t no_kv_args)
       ["kv_created"; "kv_released"; "kv_released"]))).
Defined.

(** *** Listings *)

Section newest_first.
Implicit Types (l : list KVEvent) (x y : KVEvent).

Abbreviation newer_eq := (fun a b => ke_timestamp b <=?q ke_timestamp a) (only parsing).
Abbreviation older := (fun a b => ke_timestamp a < ke_timestamp b)%Q (only parsing).

Lemma increasing_inj l x y :
  StronglySorted older l -> x ∈ l -> y ∈ l ->
  newer_eq x y = true -> newer_eq y x = true -> x = y.
Proof.
  intros Hs Hx Hy H1 H2. cbv beta in *. reflect_tests.
  induction Hs as [|z l Hs IH Hz]; [by apply elem_of_nil in Hx|]. rewrite Forall_forall in Hz.
  apply elem_of_cons in Hx as [-> | Hx]; apply elem_of_cons in Hy as [-> | Hy]; auto.
  - specialize (Hz _ Hy). cbv beta in *. exfalso. lra.
  - specialize (Hz _ Hx). cbv beta in *. exfalso. lra.
Qed.

Lemma increasing_rev l :
  StronglySorted older l -> StronglySorted (fun a b => newer_eq a b = true) (rev l).
Proof.
  induction 1 as [|z l Hs IH Hz]; simpl; [constructor|]. rewrite Forall_forall in Hz.
  apply StronglySorted_app. split; [|split; [done|by repeat constructor]].
  intros x1 x2 H1 ->%list_elem_of_singleton. apply Qle_bool_iff, Qlt_le_weak, Hz.
  rewrite list_elem_of_In in *. by apply in_rev.
Qed.

(** Sorting any permutation of a strictly increasing history, newest first. *)
Lemma newest_first_sort l l' :
  StronglySorted older l -> l' ≡ₚ l -> stable_sort newer_eq l' = rev l.
Proof.
  intros Hs Hp. assert (Hp2 : stable_sort newer_eq l' ≡ₚ rev l).
  { rewrite stable_sort_perm, Hp. apply Permutation_rev. }
  apply StronglySorted_unique_strong with (R := fun a b => newer_eq a b = true); [| | |done].
  - intros x1 x2 H1 H2. apply (increasing_inj l); [done| |].
    + by rewrite stable_sort_perm, Hp in H1.
    + rewrite list_elem_of_In in *. by apply in_rev.
  - apply stable_sort_sorted.
    + intros x y. rewrite !Qle_bool_iff.
      destruct (Qlt_le_dec (ke_timestamp x) (ke_timestamp y)); [right | left]; lra.
    + intros x y z. rewrite !Qle_bool_iff. lra.
  - by apply increasing_rev.
Qed.
End newest_first.

(** Listing.  When the timestamps of the retained events increase strictly, the unfiltered
    listing is the retained history newest first, cut at the limit, wherever the
    cursor stands in the ring. *)
Theorem listing_is_newest_first limit o hist :
  represents o hist ->
  StronglySorted (fun a b => ke_timestamp a < ke_timestamp b)%Q
    (lastn (Z.to_nat (ko_max_events o)) hist) ->
  list_events limit None None o
  = map kv_safe_dict (slice_to limit (rev (lastn (Z.to_nat (ko_max_events o)) hist))).
Proof.
  intros Hr Hs. unfold list_events, recent_events. simpl. rewrite <- (rp_recent _ _ Hr) in Hs |- *.
  rewrite (newest_first_sort (chronological o)); [done|done|].
  unfold chronological. split_if; [done|].
  rewrite <- (take_drop (Z.to_nat (ko_cursor o mod ko_max_events o)) (ko_events o)) at 1.
  apply Permutation_app_comm.
Qed.

Definition demo_event (i : Z) : KVEvent :=
  kv_event_create (fun s => s) "0123456789abcdef" (inject_Z i) "kv_created" no_kv_args.

Lemma listing_is_newest_first_witness :
  exists o, kv_run (map (fun i => KRecord (demo_event i)) [1; 2; 3]%Z) (new_kv_observer true 2) = Ret o
    /\ list_events 5 None None o = map kv_safe_dict [demo_event 3; demo_event 2].
Proof.
  destruct (kv_run_represents (map (fun i => KRecord (demo_event i)) [1; 2; 3]%Z) _ _
              (represents_new 2)) as (o & Hrun & Hr & Hm).
  exists o. split; [exact Hrun|].
  rewrite (listing_is_newest_first 5 o _ Hr); rewrite Hm; [reflexivity|].
  simpl. repeat constructor.
Defined.
