(* ===== verification/LogSafety.v ===== *)
(** * Content-safe logging ([log_safety.py])

    Every log record passes through [sanitize_record], which keeps the values of
    allowlisted fields in bounded form and replaces everything else by its size.

    - A logged value is a [log_value]: what the code distinguishes by
      [isinstance], with the class name and text of an exception and the length of
      a container.  [str(v)] of a value that is not a string is the argument
      [py_str].
    - [urlsplit] is an argument ([None] when it or the [port] property raises); the
      regular expressions run on the matcher of [PyRe].
    - Installing the filter on the logging framework is not modelled. *)

From S2P Require Import Prelude PyDict PyStr PySeq PyRe.
From Stdlib Require Import Ascii.

Definition REDACTED : string := "<redacted>".

(** ** Values *)
Inductive log_value :=
| LNone
| LBool (b : bool)
| LInt (z : Z)
| LFloat (q : Q)
| LStr (s : string)
| LBytes (n : Z)
| LMapping (n : Z)
| LSequence (n : Z)
| LExc (class text : string)
| LOther (text : string)
| LItems (n : Z).

Definition mem_str (s : string) (l : list string) : bool := bool_decide (s ∈ l).

Definition _SAFE_FIELDS : list string :=
  ["active_jobs"; "adapter"; "adapter_type"; "adapter_kind"; "actual_request_id"; "backend";
   "binary_path_present"; "body_bytes"; "body_present"; "cache_key"; "cache_scope"; "chain_hash";
   "bytes"; "content_type"; "duration_ms"; "dynamic_tokens"; "eligible"; "endpoint_kind";
   "expected_request_id"; "exception_type"; "error_code"; "event"; "failure_class";
   "failure_kind"; "forwarded_field_names"; "frame_bytes"; "frame_count"; "host"; "http_status";
   "item_count"; "kind"; "lifecycle"; "mode"; "model"; "model_alias"; "model_id";
   "model_path_present"; "output_begun"; "output_started"; "prev_segments"; "new_segments";
   "parser_failure_class"; "pid"; "port"; "queue_depth"; "request_id"; "request_count";
   "policy_version"; "rejected_field_names"; "runtime"; "runtime_kind"; "reason"; "scope";
   "status"; "status_code"; "stripped_field_names"; "timeout_class"; "timeout_seconds";
   "token_count"; "transport"; "transport_class"; "stable_prefix_hash"; "stable_prefix_tokens";
   "estimated_prefill_reuse_tokens"; "appended_tokens"; "thread"; "thread_id"; "task_id";
   "turn_id"; "diagnostic"; "type"; "name"].

(** ** Patterns *)
Definition alnum (c : ascii) : bool := in_range "A" "Z" c || in_range "a" "z" c || in_range "0" "9" c.
Definition letter (c : ascii) : bool := in_range "A" "Z" c || in_range "a" "z" c.
Definition one_of (s : string) (c : ascii) : bool := negb (string_forallb (fun d => negb (Ascii.eqb c d)) s).
Definition spaces : re := RStar (RSet is_space).
(** [[_-]?] between the two words of a key name. *)
Definition key_name (a b : string) : re :=
  RSeq (RLitI a) (RSeq (ROpt (RSet (one_of "_-"))) (RLitI b)).

Definition _UNSAFE_FIELD_RE : re :=
  RAlts (map RLitI
    ["prompt"; "message"; "content"; "completion"; "response"; "request"; "body"; "payload";
     "output"; "generated"; "assistant"; "text"; "media"; "image"; "base64"; "stream"; "frame";
     "line"; "token"; "cookie"; "authorization"; "bearer"]
   ++ [key_name "api" "key"]
   ++ map RLitI
    ["secret"; "password"; "header"; "tool"; "argument"; "args"; "result"; "stderr"; "stdout";
     "exception"; "error"; "detail"; "path"; "cwd"; "argv"; "command"; "url"; "query"]).

Definition digits : re := RStar (RSet is_digit).

Definition _PLACEHOLDER_RE : re :=
  RSeq (RLit "%")
    (RSeq (ROpt (RSeq (RLit "(") (RSeq (RPlus (RSet (fun c => negb (Ascii.eqb c ")")))) (RLit ")"))))
      (RSeq (ROpt (RSet (one_of "#0- +")))
        (RSeq digits
          (RSeq (ROpt (RSeq (RLit ".") (RPlus (RSet is_digit))))
            (RSet (one_of "diouxXeEfFgGcrsa%")))))).

Definition name_char (c : ascii) : bool := alnum c || one_of "_.-" c.

Definition _FIELD_RE : re :=
  RSeq (RSet letter) (RSeq (RStar (RSet name_char))
    (RSeq RMark (RSeq spaces (RSeq (RSet (one_of "=:")) (RSeq spaces REnd))))).

Definition field_name_re : re := RSeq (RSet letter) (RStar (RSet name_char)).

(** Under [fullmatch] the anchors [^] and [$] are implied. *)
Definition _FIELD_NAMES_VALUE_RE : re := RSeq field_name_re (RStar (RSeq (RLit ",") field_name_re)).

Definition not_sep (c : ascii) : bool := negb (is_space c || one_of ",;" c).

Definition _AUTH_RE : re :=
  RSeq RBound
    (RSeq (RAlt (RSeq (RLitI "authorization")
                   (RSeq spaces (RSeq (RLit ":") (RSeq spaces (RAlt (RLitI "bearer") (RLitI "basic"))))))
             (RLitI "bearer"))
      (RSeq (RPlus (RSet is_space)) (RSeq RMark (RPlus (RSet not_sep))))).

Definition not_line_end (c : ascii) : bool :=
  negb ((N_of_ascii c =? 13)%N || (N_of_ascii c =? 10)%N).

Definition _COOKIE_RE : re :=
  RSeq RBound (RSeq (RLitI "cookie")
    (RSeq spaces (RSeq (RLit ":") (RSeq spaces (RSeq RMark (RPlus (RSet not_line_end))))))).

Definition _QUERY_RE : re :=
  RSeq (RSet (one_of "?&"))
    (RSeq (RAlts (key_name "api" "key"
                  :: map RLitI ["token"; "secret"; "code"; "auth"; "signature"; "session"]))
      (RSeq (RLit "=") (RPlus (RSet (fun c => negb (is_space c || one_of "&#" c)))))).

Definition _SECRET_ASSIGNMENT_RE : re :=
  RSeq RBound
    (RSeq (RAlts [key_name "api" "key"; key_name "access" "token"; key_name "refresh" "token";
                  key_name "session" "secret"; RLitI "password"; key_name "client" "secret"])
      (RSeq spaces (RSeq (RSet (one_of "=:")) (RSeq spaces (RSeq RMark (RPlus (RSet not_sep))))))).

(** [exception_type=[A-Za-z0-9_.-]{1,80} failure_class=[a-z_]{1,40}] *)
Definition class_char (c : ascii) : bool := in_range "a" "z" c || Ascii.eqb c "_".

Definition _SAFE_DIAGNOSTIC_RE : re :=
  RSeq (RLit "exception_type=")
    (RSeq (RSeq (RSet name_char) (RUpTo 79 (RSet name_char)))
      (RSeq (RLit " failure_class=") (RSeq (RSet class_char) (RUpTo 39 (RSet class_char))))).

(** ** Exceptions *)

(** [type(e).__name__] and [str(e)] *)
Definition failure_class (e : option (string * string)) : string :=
  match e with
  | None => "unknown"
  | Some (class, text) =>
      let name := lower class in
      let text := lower text in
      if contains "timeout" name || contains "timeout" text then "timeout"
      else if contains "connect" name || contains "connection" text then "connection"
      else if contains "json" name || contains "parse" name || contains "decode" text then "parse"
      else if contains "permission" name || contains "auth" name then "authorization"
      else if contains "validation" name || contains "value" name then "validation"
      else if contains "http" name || contains "status" name then "http"
      else "runtime"
  end.

Definition exception_metadata (e : option (string * string)) : string :=
  match e with
  | None => "exception_type=unknown failure_class=unknown"
  | Some (class, _) =>
      "exception_type=" +:+ str_take 80 class +:+ " failure_class=" +:+ failure_class e
  end.

Definition safe_exception_message (e : option (string * string)) (dflt : string) : string :=
  match e with
  | None => dflt
  | Some (class, _) => class +:+ " failure (" +:+ failure_class e +:+ ")"
  end.

(** ** Bounded values *)

(** [^[A-Za-z]:[\\/]] *)
Definition drive_path (s : string) : bool :=
  match s with
  | String c (String d (String f _)) =>
      letter c && Ascii.eqb d ":" && (Ascii.eqb f "/" || (N_of_ascii f =? 92)%N)
  | _ => false
  end.

Definition startswith_any (l : list string) (s : string) : bool := existsb (fun p => startswith p s) l.
Definition endswith_any (l : list string) (s : string) : bool := existsb (fun p => endswith p s) l.

Definition has_control (s : string) : bool :=
  negb (string_forallb (fun c => negb (N_of_ascii c <? 32)%N) s).

(** The refusal test of [safe_model_alias]. *)
Definition unsafe_alias (text : string) : bool :=
  String.eqb text "" || (128 <? String.length text)
  || startswith_any ["/"; "~/"; "./"; "../"] text
  || drive_path text
  || contains "://" text || contains "@" text || contains "?" text
  || endswith_any [".gguf"; ".safetensors"; ".bin"] text
  || startswith_any ["models/"; "private/"; "secret/"] text
  || has_control text.

(** On a string; [None] and the empty string are both redacted. *)
Definition safe_model_alias (value : string) : string :=
  if unsafe_alias value then REDACTED else value.

(** What [safe_url] reads of [urlsplit(value)]. *)
Record split_url := mkSplitUrl {
  su_scheme : string;
  su_hostname : option string;
  su_port : option Z;
  su_path : string;
}.

(** [urlunsplit((scheme, netloc, path, "", ""))] for a non-empty [netloc]. *)
Definition urlunsplit (scheme netloc path : string) : string :=
  let path := if negb (String.eqb path "") && negb (startswith "/" path) then "/" +:+ path else path in
  scheme +:+ "://" +:+ netloc +:+ path.

Definition url_path_char (c : ascii) : bool := alnum c || one_of "/._~-" c.

Definition safe_url (urlsplit : string -> option split_url) (value : string) : string :=
  match urlsplit value with
  | None => REDACTED
  | Some p =>
      let host := default "" (su_hostname p) in
      if String.eqb (su_scheme p) "" || String.eqb host "" then REDACTED
      else
        let port := match su_port p with Some n => ":" +:+ pretty n | None => "" end in
        let path := if (128 <? String.length (su_path p)) || negb (string_forallb url_path_char (su_path p))
                    then "" else su_path p in
        str_take 256 (urlunsplit (su_scheme p) (host +:+ port) path)
  end.

(** [os.sep] is [/] and [os.altsep] is [None]. *)
Definition looks_like_private_path (value : string) : bool :=
  startswith_any ["/"; "~/"; "./"; "../"] value || contains "/" value || drive_path value.

Definition str_len (s : string) : Z := Z.of_nat (String.length s).

Definition summary (v : log_value) : string :=
  match v with
  | LBytes n => REDACTED +:+ " bytes=" +:+ pretty n
  | LStr s => REDACTED +:+ " chars=" +:+ pretty (str_len s)
  | LItems _ => REDACTED +:+ " items=" +:+ pretty 1%Z
  | LMapping n | LSequence n => REDACTED +:+ " items=" +:+ pretty n
  | _ => REDACTED
  end.

Fixpoint string_map (f : ascii -> ascii) (s : string) : string :=
  match s with EmptyString => EmptyString | String c s' => String (f c) (string_map f s') end.

(** [s.replace("\n", " ").replace("\r", " ")] *)
Definition one_line (s : string) : string :=
  string_map (fun c => if not_line_end c then c else " "%char) s.

Definition URL_FIELDS : list string := ["url"; "endpoint"; "server_url"; "base_url"].
Definition FIELD_NAME_FIELDS : list string :=
  ["forwarded_field_names"; "rejected_field_names"; "stripped_field_names"].
Definition MODEL_FIELDS : list string := ["model"; "model_id"; "model_alias"].

Section sanitize.
Context (urlsplit : string -> option split_url) (py_str : log_value -> string).

(** [str(value)] *)
Definition str_of (v : log_value) : string :=
  match v with LStr s => s | LOther t => t | _ => py_str v end.

(** A string in an allowlisted field. *)
Definition sanitize_safe_string (normalized value : string) : string :=
  if String.eqb normalized "diagnostic" && negb (fullmatch _SAFE_DIAGNOSTIC_RE value) then
    summary (LStr value)
  else if mem_str normalized FIELD_NAME_FIELDS then
    if String.eqb value "" then ""
    else if negb (fullmatch _FIELD_NAMES_VALUE_RE value) then summary (LStr value)
    else str_take 256 (join "," (take 32 (split_on "," value)))
  else if mem_str normalized MODEL_FIELDS then safe_model_alias value
  else if looks_like_private_path value then REDACTED +:+ " path_present=True"
  else str_take 160 (one_line value).

(** [_sanitize_value] *)
Definition sanitize_value (value : log_value) (field : option string) : log_value :=
  let normalized := if str_truthy field then lower <$> field else None in
  let is_in l := match normalized with Some n => mem_str n l | None => false end in
  match value with
  | LExc class text => LStr (exception_metadata (Some (class, text)))
  | _ =>
      if is_in URL_FIELDS then LStr (safe_url urlsplit (str_of value))
      else if is_in _SAFE_FIELDS then
        match value with
        | LNone | LBool _ | LInt _ | LFloat _ => value
        | LStr s => LStr (sanitize_safe_string (default "" normalized) s)
        | LMapping n | LSequence n => LItems n
        | LItems _ => LItems 1
        | _ => LStr (str_take 80 (str_of value))
        end
      else if match normalized with Some n => search _UNSAFE_FIELD_RE n | None => false end then
        LStr (summary value)
      else
        match value with
        | LStr _ | LBytes _ | LMapping _ | LSequence _ | LItems _ => LStr (summary value)
        | _ => value
        end
  end.

(** ** Messages *)

Definition sanitize_log_text (text : string) : string :=
  let output := rsub _AUTH_RE (fun g => g +:+ REDACTED) text in
  let output := rsub _COOKIE_RE (fun g => g +:+ REDACTED) output in
  let output := rsub _QUERY_RE (fun _ => "<redacted-query>") output in
  rsub _SECRET_ASSIGNMENT_RE (fun g => g +:+ REDACTED) output.

Definition UNSAFE_MARKERS : list string :=
  ["prompt"; "message"; "content"; "completion"; "response"; "payload"; "output"; "generated";
   "assistant"; "media"; "tool"; "image"; "base64"; "stderr"; "stdout"; "raw"].

Definition token_char (c : ascii) : bool := alnum c || one_of "_.:-" c.

Definition event_re : re := RPlus (RSet token_char).
Definition status_re : re :=
  RSeq (RLit "[") (RSeq (RPlus (RSet token_char)) (RSeq (RLit "]")
    (RSeq (RPlus (RSet is_space))
      (RAlts (map RLitI ["started"; "stopped"; "failed"; "ready"; "available"; "disabled";
                         "enabled"; "cancelled"]))))).

Definition redacted_event (message : string) : string :=
  "log_event=" +:+ REDACTED +:+ " chars=" +:+ pretty (str_len message).

(** [_sanitize_freeform] of a string. *)
Definition sanitize_text (message : string) : string :=
  let scrubbed := sanitize_log_text message in
  let lowered := lower scrubbed in
  if (200 <? String.length scrubbed) || existsb (fun m => contains m lowered) UNSAFE_MARKERS then
    redacted_event message
  else if fullmatch event_re scrubbed || fullmatch status_re scrubbed then scrubbed
  else redacted_event message.

(** [_sanitize_freeform] *)
Definition sanitize_freeform (message : log_value) : string :=
  match message with LStr s => sanitize_text s | _ => summary message end.

(** [_placeholder_fields] *)
Definition placeholder_fields (template : string) : list (option string) :=
  map (fun '(prefix, _) => lower <$> rsearch_group _FIELD_RE None prefix)
    (fst (rfinditer _PLACEHOLDER_RE template)).

(** [_sanitize_format_template] *)
Definition sanitize_format_template (message : string) : string :=
  let (matches, tail) := rfinditer _PLACEHOLDER_RE message in
  match matches with
  | [] => sanitize_text message
  | _ => String.concat "" (map (fun '(prefix, m) => sanitize_text prefix +:+ m) matches
                           ++ [sanitize_text tail])
  end.

(** ** Records *)

(** [record.args]: a mapping, or a tuple (empty when there are none). *)
Inductive log_args :=
| ArgsMapping (items : list (string * log_value))
| ArgsTuple (items : list log_value).

Record LogRecord := mkLogRecord {
  lr_msg : log_value;
  lr_args : log_args;
  lr_exc_info : option (option (string * string));
  lr_extra : list (string * log_value);
  lr_sanitized : bool;
}.

Definition sanitize_args (msg : log_value) (args : log_args) : log_value * log_args :=
  match args with
  | ArgsMapping items => (msg, ArgsMapping (map (fun '(k, v) => (k, sanitize_value v (Some k))) items))
  | ArgsTuple [] => (LStr (sanitize_freeform msg), args)
  | ArgsTuple items =>
      let fields := placeholder_fields (str_of msg) in
      (msg, ArgsTuple (imap (fun i v => sanitize_value v (default None (fields !! i))) items))
  end.

(** [_STANDARD_FIELDS] is a property of the logging library. *)
Definition sanitize_extra (standard_field : string -> bool) (item : string * log_value)
    : string * log_value :=
  let (key, value) := item in
  if standard_field key || startswith "_" key then item
  else
    match value with
    | LStr s => if String.eqb key "color_message" then (key, LStr (sanitize_format_template s))
                else (key, sanitize_value value (Some key))
    | _ => (key, sanitize_value value (Some key))
    end.

Definition sanitize_record (standard_field : string -> bool) (force : bool) (record : LogRecord)
    : LogRecord :=
  if lr_sanitized record && negb force then record
  else
    let (msg, args) := sanitize_args (lr_msg record) (lr_args record) in
    let '(msg, args, exc) :=
      match lr_exc_info record with
      | Some e => (LStr (str_of msg +:+ " " +:+ exception_metadata e), ArgsTuple [], None)
      | None => (msg, args, None)
      end in
    mkLogRecord msg args exc (map (sanitize_extra standard_field) (lr_extra record)) true.

End sanitize.

(** ** Lemmas on strings *)

Lemma forallb_string_all p s : string_forallb p s = true <-> string_all (fun c => p c = true) s.
Proof. induction s as [|c s IH]; simpl; [done|]. by rewrite andb_true_iff, IH. Qed.

Lemma string_all_impl (p q : ascii -> Prop) s :
  (forall c, p c -> q c) -> string_all p s -> string_all q s.
Proof. intros H. induction s as [|c s IH]; simpl; [done|]. intros [? ?]. auto. Qed.

Lemma str_take_all p n s : string_all p s -> string_all p (str_take n s).
Proof.
  unfold str_take. revert n. induction s as [|c s IH]; intros [|n]; simpl; try done.
  intros [? ?]. auto.
Qed.

Lemma str_take_length n s : String.length (str_take n s) <= n.
Proof.
  unfold str_take. revert n. induction s as [|c s IH]; intros [|n]; simpl; try lia.
  specialize (IH n). lia.
Qed.

Lemma str_take_short n s : String.length s <= n -> str_take n s = s.
Proof.
  unfold str_take. revert n. induction s as [|c s IH]; intros [|n]; simpl; try done; try lia.
  intros H. f_equal. apply IH. lia.
Qed.

Lemma split_on_all p sep s : string_all p s -> Forall (string_all p) (split_on sep s).
Proof.
  induction s as [|c s IH]; simpl; [by repeat constructor|]. intros [Hc Hs]. specialize (IH Hs).
  destruct (Ascii.eqb c sep); [by constructor|].
  destruct (split_on sep s) as [|w ws]; [by repeat constructor|].
  inversion IH; subst. by repeat constructor.
Qed.

Lemma join_all p sep l : string_all p sep -> Forall (string_all p) l -> string_all p (join sep l).
Proof.
  intros Hsep. unfold join. induction 1 as [|w l Hw Hl IH]; [done|]. simpl.
  destruct l as [|w2 l]; [done|]. rewrite !string_all_app. auto.
Qed.

Abbreviation single_line := (string_all (fun c => not_line_end c = true)) (only parsing).

Lemma pretty_N_line (n : N) : single_line (pretty n).
Proof.
  apply string_all_impl with (p := fun c => is_digit c = true);
    [|apply forallb_string_all, pretty_N_digits].
  intros c. by destruct c as [[] [] [] [] [] [] [] []].
Qed.

Lemma pretty_Z_line (z : Z) : single_line (pretty z).
Proof.
  rewrite pretty_Z_cases. destruct (z <? 0)%Z; [|apply pretty_N_line].
  apply string_all_app. split; [by split|apply pretty_N_line].
Qed.

Lemma summary_line v : single_line (summary v).
Proof.
  destruct v; simpl; rewrite ?string_all_app; repeat split; apply pretty_Z_line.
Qed.

Lemma one_line_line s : single_line (one_line s).
Proof.
  unfold one_line. induction s as [|c s IH]; simpl; [done|]. split; [|done].
  by destruct (not_line_end c) eqn:E.
Qed.

Lemma safe_model_alias_line s : single_line (safe_model_alias s) /\ String.length (safe_model_alias s) <= 128.
Proof.
  unfold safe_model_alias. destruct (unsafe_alias s) eqn:E; [by repeat split; simpl; try lia|].
  unfold unsafe_alias in E. repeat (apply orb_false_elim in E as [E ?]).
  match goal with H : has_control s = false |- _ => unfold has_control in H; apply negb_false_iff in H;
    apply forallb_string_all in H; rename H into Hc end.
  split.
  - revert Hc. apply string_all_impl. intros c. unfold not_line_end.
    rewrite !negb_true_iff, orb_false_iff, N.ltb_ge, !N.eqb_neq. lia.
  - match goal with H : (128 <? _) = false |- _ => apply Nat.ltb_ge in H; exact H end.
Qed.

Lemma field_names_line s :
  fullmatch _FIELD_NAMES_VALUE_RE s = true -> single_line s.
Proof.
  apply fullmatch_sound. simpl.
  assert (H : forall c, name_char c = true -> not_line_end c = true).
  { intros c. by destruct c as [[] [] [] [] [] [] [] []]. }
  assert (H' : forall c, letter c = true -> not_line_end c = true).
  { intros c. by destruct c as [[] [] [] [] [] [] [] []]. }
  repeat split; auto. intros c. by destruct c as [[] [] [] [] [] [] [] []].
Qed.

(** ** Theorems *)

Definition normalized_field (field : option string) : option string :=
  if str_truthy field then lower <$> field else None.

(** A field whose values are never copied. *)
Definition unlisted (field : option string) : bool :=
  match normalized_field field with
  | Some n => negb (mem_str n URL_FIELDS) && negb (mem_str n _SAFE_FIELDS)
  | None => true
  end.

Definition url_field (field : option string) : bool :=
  match normalized_field field with Some n => mem_str n URL_FIELDS | None => false end.

Section sanitized.
Context (urlsplit : string -> option split_url) (py_str : log_value -> string).

Lemma sanitize_unlisted v field :
  unlisted field = true ->
  match v with LStr _ | LBytes _ | LMapping _ | LSequence _ => True | _ => False end ->
  sanitize_value urlsplit py_str v field = LStr (summary v).
Proof.
  unfold unlisted, normalized_field, sanitize_value. intros H Hv.
  destruct (str_truthy field); simpl in *.
  - destruct field as [f|]; simpl in *; [|destruct v; done].
    apply andb_prop in H as [H1 H2]. apply negb_true_iff in H1, H2. rewrite H1, H2.
    destruct v; try done; by destruct (search _ _).
  - by destruct v.
Qed.

Lemma sanitize_exception class text field :
  sanitize_value urlsplit py_str (LExc class text) field
  = LStr (exception_metadata (Some (class, text))).
Proof. done. Qed.

Lemma summary_same_length s s' :
  String.length s = String.length s' -> summary (LStr s) = summary (LStr s').
Proof. intros H. unfold summary, str_len. by rewrite H. Qed.
End sanitized.

(** Content hiding.  In a field that is neither allowlisted nor a URL, a string is logged as
    its length, a container as its size; and an exception is logged, in any field,
    by its class name and one of seven failure classes, whatever its text. *)
Theorem unlisted_values_reveal_only_size urlsplit py_str field :
  unlisted field = true ->
  (forall s, sanitize_value urlsplit py_str (LStr s) field
             = LStr (REDACTED +:+ " chars=" +:+ pretty (str_len s)))
  /\ (forall n, sanitize_value urlsplit py_str (LBytes n) field
                = LStr (REDACTED +:+ " bytes=" +:+ pretty n))
  /\ (forall n, sanitize_value urlsplit py_str (LMapping n) field
                = LStr (REDACTED +:+ " items=" +:+ pretty n))
  /\ forall class text f, exists fc,
       fc ∈ ["timeout"; "connection"; "parse"; "authorization"; "validation"; "http"; "runtime"]
       /\ sanitize_value urlsplit py_str (LExc class text) f
          = LStr ("exception_type=" +:+ str_take 80 class +:+ " failure_class=" +:+ fc).
Proof.
  intros Hf. split; [intros; by rewrite sanitize_unlisted|].
  split; [intros; by rewrite sanitize_unlisted|]. split; [intros; by rewrite sanitize_unlisted|].
  intros class text f. exists (failure_class (Some (class, text))).
  split; [|by rewrite sanitize_exception]. unfold failure_class. repeat case_match; set_solver.
Qed.

Lemma unlisted_values_reveal_only_size_witness :
  sanitize_value (fun _ => None) (fun _ => "") (LStr "my secret") (Some "prompt")
  = LStr (REDACTED +:+ " chars=" +:+ pretty (str_len "my secret")).
Proof.
  exact (proj1 (unlisted_values_reveal_only_size (fun _ => None) (fun _ => "") (Some "prompt")
                  ltac:(vm_compute; reflexivity)) "my secret").
Defined.

(** Bounded, single-line log values.  Outside the URL fields, a string value is logged as a
    string without line breaks, so that a value cannot forge a log line, and one
    that is not a size summary is at most 256 characters long. *)
Theorem logged_strings_are_bounded_lines urlsplit py_str s field :
  url_field field = false ->
  exists r, sanitize_value urlsplit py_str (LStr s) field = LStr r
    /\ string_forallb not_line_end r = true
    /\ (r = summary (LStr s) \/ String.length r <= 256).
Proof.
  intros Hurl. destruct (unlisted field) eqn:Hun.
  { exists (summary (LStr s)). rewrite sanitize_unlisted by done.
    split; [done|]. split; [apply forallb_string_all, summary_line|by left]. }
  unfold unlisted, url_field, normalized_field, sanitize_value in *.
  destruct (str_truthy field); [|done]. destruct field as [f|]; [|done]. simpl in *.
  rewrite Hurl in *. simpl in Hun. apply negb_false_iff in Hun. rewrite Hun.
  eexists. split; [done|]. rewrite forallb_string_all. unfold sanitize_safe_string.
  destruct (_ && negb (fullmatch _SAFE_DIAGNOSTIC_RE s)); [split; [apply summary_line|by left]|].
  destruct (mem_str _ FIELD_NAME_FIELDS).
  { destruct (String.eqb s ""); [split; [done|right; simpl; lia]|].
    destruct (fullmatch _FIELD_NAMES_VALUE_RE s) eqn:Hm; cbn [negb];
      [|split; [apply summary_line|by left]].
    split; [|right; apply str_take_length].
    apply str_take_all, join_all; [by split|]. apply Forall_take, split_on_all.
    by apply field_names_line. }
  destruct (mem_str _ MODEL_FIELDS).
  { destruct (safe_model_alias_line s). split; [done|right; lia]. }
  destruct (looks_like_private_path s); [by split; [repeat split|right; simpl; lia]|].
  split; [apply str_take_all, one_line_line|].
  right. pose proof (str_take_length 160 (one_line s)). lia.
Qed.

Lemma logged_strings_are_bounded_lines_witness :
  exists r, sanitize_value (fun _ => None) (fun _ => "") (LStr ("a" +:+ newline +:+ "b")) (Some "reason")
            = LStr r
    /\ string_forallb not_line_end r = true
    /\ (r = summary (LStr ("a" +:+ newline +:+ "b")) \/ String.length r <= 256).
Proof. apply logged_strings_are_bounded_lines. vm_compute. reflexivity. Defined.

(** Model aliases.  [safe_model_alias] returns its argument or the redaction mark; an alias
    it returns is non-empty, at most 128 characters, has no control character, no
    absolute or relative path prefix, drive letter, URL scheme, user info, query
    or weight-file suffix; and applying it twice changes nothing. *)
Theorem safe_model_alias_exact value :
  (safe_model_alias value = value \/ safe_model_alias value = REDACTED)
  /\ safe_model_alias (safe_model_alias value) = safe_model_alias value
  /\ (safe_model_alias value <> REDACTED ->
       value <> "" /\ String.length value <= 128
       /\ (forall p, p ∈ ["/"; "~/"; "./"; "../"; "models/"; "private/"; "secret/"] ->
             startswith p value = false)
       /\ drive_path value = false
       /\ (forall m, m ∈ ["://"; "@"; "?"] -> contains m value = false)
       /\ (forall x, x ∈ [".gguf"; ".safetensors"; ".bin"] -> endswith x value = false)
       /\ has_control value = false).
Proof.
  destruct (unsafe_alias value) eqn:E.
  - assert (Hv : safe_model_alias value = REDACTED) by (unfold safe_model_alias; by rewrite E).
    rewrite Hv. split; [by right|]. split; [done|]. by intros [].
  - assert (Hv : safe_model_alias value = value) by (unfold safe_model_alias; by rewrite E).
    rewrite !Hv. split; [by left|]. split; [done|]. intros _.
    unfold unsafe_alias in E. repeat (apply orb_false_elim in E as [E ?]).
    assert (Hany : forall l f, existsb f l = false -> forall p : string, p ∈ l -> f p = false).
    { intros l f Hl p Hp. destruct (f p) eqn:Ep; [|done].
      rewrite <- Hl. symmetry. apply existsb_exists. exists p. by rewrite <- list_elem_of_In. }
    split; [by apply String.eqb_neq|]. split; [by apply Nat.ltb_ge|].
    split; [|split; [done|split; [|split; [|done]]]].
    + intros p Hp. change ["/"; "~/"; "./"; "../"; "models/"; "private/"; "secret/"]
        with (["/"; "~/"; "./"; "../"] ++ ["models/"; "private/"; "secret/"]) in Hp.
      apply elem_of_app in Hp as [Hp|Hp]; (apply (Hany _ (fun q => startswith q value)) in Hp; [exact Hp|assumption]).
    + intros m Hm. set_unfold. naive_solver.
    + intros x Hx. apply (Hany _ (fun q => endswith q value)) in Hx; [exact Hx|assumption].
Qed.

Lemma safe_model_alias_exact_witness :
  safe_model_alias "qwen/qwen3" <> REDACTED /\ "qwen/qwen3" <> ""
  /\ safe_model_alias "/Users/me/model" = REDACTED.
Proof.
  split; [discriminate|]. split; [|reflexivity].
  apply (safe_model_alias_exact "qwen/qwen3"). discriminate.
Defined.

(** Free-form messages.  What is logged for a message is either a redaction that depends
    only on its length, or its scrubbed text, which is then at most 200
    characters, contains none of the content markers, and consists of token
    characters, brackets and white space only. *)
Theorem free_text_is_token_or_redacted message :
  sanitize_text message = redacted_event message
  \/ (sanitize_text message = sanitize_log_text message
      /\ String.length (sanitize_text message) <= 200
      /\ (forall m, m ∈ UNSAFE_MARKERS -> contains m (lower (sanitize_text message)) = false)
      /\ string_all (fun c => token_char c = true \/ one_of "[]" c = true \/ is_space c = true)
           (sanitize_text message)).
Proof.
  unfold sanitize_text. destruct (_ || existsb _ _) eqn:E; [by left|].
  apply orb_false_elim in E as [Hlen Hmark].
  destruct (fullmatch event_re _ || fullmatch status_re _) eqn:Hm; [right|by left].
  split; [done|]. split; [by apply Nat.ltb_ge in Hlen|]. split.
  - intros m Hin. destruct (contains m _) eqn:Ec; [|done]. rewrite <- Hmark. symmetry.
    apply existsb_exists. exists m. by rewrite <- list_elem_of_In.
  - apply orb_true_iff in Hm as [Hm|Hm]; (eapply fullmatch_sound; [|exact Hm]).
    + simpl. by split; left.
    + unfold status_re. cbn [only_chars RPlus RLit map RLitI RAlts].
      assert (Hb : forall c d, Ascii.eqb c d = true -> one_of "[]" c = true ->
                one_of "[]" d = true) by (intros c d ->%Ascii.eqb_eq; done).
      assert (Hl : forall c d, same_letter c d = true -> letter c = true ->
                token_char d = true).
      { intros c d. unfold same_letter. intros Hcd%Ascii.eqb_eq Hc.
        revert Hcd Hc. unfold token_char, alnum, letter.
        destruct (in_range "A" "Z" d) eqn:E1; [done|]. destruct (in_range "a" "z" d) eqn:E2; [by rewrite orb_true_r|].
        intros Hcd Hc. exfalso. unfold ascii_lower in Hcd. rewrite E1 in Hcd. subst d.
        clear -Hc E2. revert Hc E2. by destruct c as [[] [] [] [] [] [] [] []]. }
      repeat split; intros c Hc; eauto.
      all: left; by eapply Hl.
Qed.

(** *** Records *)

(** Two values that a field does not distinguish. *)
Definition log_equiv (field : option string) (v w : log_value) : Prop :=
  v = w
  \/ (unlisted field = true
      /\ exists s t, v = LStr s /\ w = LStr t /\ String.length s = String.length t)
  \/ (exists class s t, v = LExc class s /\ w = LExc class t
        /\ failure_class (Some (class, s)) = failure_class (Some (class, t))).

Definition exc_equiv (a b : option (option (string * string))) : Prop :=
  a = b
  \/ exists class s t, a = Some (Some (class, s)) /\ b = Some (Some (class, t))
       /\ failure_class (Some (class, s)) = failure_class (Some (class, t)).

(** Two records with the same template, whose arguments and extra fields agree up to
    [log_equiv]; [color_message] is compared as it is. *)
Record record_equiv (a b : LogRecord) : Prop := {
  re_msg : lr_msg a = lr_msg b;
  re_args : match lr_args a, lr_args b with
            | ArgsMapping l, ArgsMapping m =>
                Forall2 (fun p q => fst p = fst q /\ log_equiv (Some (fst p)) (snd p) (snd q)) l m
            | _, _ => lr_args a = lr_args b
            end;
  re_exc : exc_equiv (lr_exc_info a) (lr_exc_info b);
  re_extra : Forall2 (fun p q => fst p = fst q
                        /\ (snd p = snd q
                            \/ (fst p <> "color_message" /\ startswith "_" (fst p) = false
                                /\ log_equiv (Some (fst p)) (snd p) (snd q))))
               (lr_extra a) (lr_extra b);
  re_sanitized : lr_sanitized a = lr_sanitized b;
}.

Section noninterference.
Context (urlsplit : string -> option split_url) (py_str : log_value -> string).
Context (standard_field : string -> bool).

Lemma log_equiv_sanitize field v w :
  log_equiv field v w ->
  sanitize_value urlsplit py_str v field = sanitize_value urlsplit py_str w field.
Proof.
  intros [-> | [(Hu & s & t & -> & -> & Hl)|(class & s & t & -> & -> & Hf)]]; [done| |].
  - rewrite !sanitize_unlisted by done. f_equal. by apply summary_same_length.
  - rewrite !sanitize_exception. unfold exception_metadata. by rewrite Hf.
Qed.

End noninterference.



Example sanitize_text_token : sanitize_text "router.registered" = "router.registered".
Proof. vm_compute. reflexivity. Qed.
Example sanitize_log_text_bearer :
  sanitize_log_text "call Authorization: Bearer abc123; x" = "call Authorization: Bearer <redacted>; x".
Proof. vm_compute. reflexivity. Qed.
Example placeholder_fields_demo :
  placeholder_fields "router.x kind=%s error: %(e)s 100%%" = [Some "kind"; Some "error"; None].
Proof. vm_compute. reflexivity. Qed.
Example sanitize_text_query : sanitize_log_text "GET /x?api_key=zz&a=b" = "GET /x<redacted-query>&a=b".
Proof. vm_compute. reflexivity. Qed.
