(* ===== verification/Registry.v ===== *)
(** * The model registry ([registry.py], [RuntimeState._load_registry])

    The registry maps model ids to typed entries and is an allowlist when it is
    configured.

    - Reading the file, parsing YAML and pydantic's [model_validate] are arguments:
      a read or parse that fails is [None], a validation that fails raises.
    - [_load_registry] caches a loaded registry, and the fact that a configured one
      could not be loaded ([False] in the source). *)

From S2P Require Import Prelude PyDict PyStr PySeq.
From S2P Require Import Config LogSafety.

Inductive EngineType := ENG_MLX_LM | ENG_MLX_VLM | ENG_LLAMA_CPP.
Inductive ModelFormat := FMT_MLX | FMT_GGUF.
Inductive ModelModality := MOD_TEXT | MOD_VISION | MOD_EMBEDDING.
Inductive WarmPolicy := WP_COLD | WP_WARM_ON_START | WP_WARM_ON_FIRST_USE | WP_KEEP_WARM.
Inductive HardwareAffinity := HW_APPLE_SILICON | HW_METAL | HW_CUDA | HW_HIP | HW_VULKAN | HW_CPU | HW_AUTO.

#[export] Instance EngineType_eq_dec : EqDecision EngineType.
Proof. solve_decision. Defined.
#[export] Instance ModelFormat_eq_dec : EqDecision ModelFormat.
Proof. solve_decision. Defined.
#[export] Instance ModelModality_eq_dec : EqDecision ModelModality.
Proof. solve_decision. Defined.

Definition EngineType_value (e : EngineType) : string :=
  match e with ENG_MLX_LM => "mlx_lm" | ENG_MLX_VLM => "mlx_vlm" | ENG_LLAMA_CPP => "llama_cpp" end.

Definition vision_capable : list EngineType := [ENG_MLX_VLM].
Definition text_capable : list EngineType := [ENG_MLX_LM; ENG_MLX_VLM; ENG_LLAMA_CPP].

Record RegistryModelEntry := mkRegistryEntry {
  rm_display_name : string;
  rm_engine : EngineType;
  rm_format : ModelFormat;
  rm_path : string;
  rm_modalities : list ModelModality;
  rm_context_window : Z;
  rm_preferred_hardware : list HardwareAffinity;
  rm_warm_policy : WarmPolicy;
  rm_priority : string;
  rm_enabled : bool;
  rm_tags : list string;
}.

(** The field validator [_context_window_positive]. *)
Definition context_window_positive (v : Z) : pyres Z :=
  if (v <=? 0)%Z then Raise (ValueError "context_window must be positive") else Ret v.

Definition has_modality (m : ModelModality) (e : RegistryModelEntry) : bool :=
  bool_decide (m ∈ rm_modalities e).

Definition is_vision_capable (e : RegistryModelEntry) : bool := has_modality MOD_VISION e.

(** [ModelRegistryConfig.models], in file order. *)
Abbreviation ModelRegistryConfig := (list (string * RegistryModelEntry)) (only parsing).

Definition enabled_models (r : ModelRegistryConfig) : ModelRegistryConfig :=
  List.filter (fun p => rm_enabled (snd p)) r.

Definition registry_get (model_id : string) (r : ModelRegistryConfig) : option RegistryModelEntry :=
  dget model_id r.

Definition registry_len (r : ModelRegistryConfig) : Z := Z.of_nat (length r).
Definition registry_bool (r : ModelRegistryConfig) : bool := (0 <? registry_len r)%Z.

(** [RegistryValidationError(model_id, message)] *)
Definition RegistryValidationError (model_id message : string) : pyexc :=
  Exc "RegistryValidationError" ("[" +:+ safe_model_alias model_id +:+ "] " +:+ message).

Definition validate_registry_entry (model_id : string) (e : RegistryModelEntry) : pyres unit :=
  if bool_decide (rm_format e = FMT_GGUF) && negb (bool_decide (rm_engine e = ENG_LLAMA_CPP)) then
    Raise (RegistryValidationError model_id
             ("GGUF models must use engine 'llama_cpp', not '" +:+ EngineType_value (rm_engine e) +:+ "'"))
  else if bool_decide (rm_format e = FMT_MLX)
          && negb (bool_decide (rm_engine e ∈ [ENG_MLX_LM; ENG_MLX_VLM])) then
    Raise (RegistryValidationError model_id
             ("MLX models must use engine 'mlx_lm' or 'mlx_vlm', not '"
              +:+ EngineType_value (rm_engine e) +:+ "'"))
  else if has_modality MOD_VISION e && negb (bool_decide (rm_engine e ∈ vision_capable)) then
    Raise (RegistryValidationError model_id
             ("Vision models require a vision-capable engine (mlx_vlm), but engine is '"
              +:+ EngineType_value (rm_engine e) +:+ "'"))
  else if (rm_context_window e <=? 0)%Z then
    Raise (RegistryValidationError model_id
             ("context_window must be > 0, got " +:+ pretty (rm_context_window e)))
  else Ret tt.

Fixpoint validate_registry (r : ModelRegistryConfig) : pyres unit :=
  match r with
  | [] => Ret tt
  | (model_id, e) :: r' => let! _ := validate_registry_entry model_id e in validate_registry r'
  end.

(** The file system and the parsers [load_model_registry] uses. *)
Record RegistryFiles := mkRegistryFiles {
  rf_is_file : string -> bool;
  rf_read_text : string -> option string;
  rf_safe_load : string -> option pyval;
  rf_model_validate : pyval -> pyres ModelRegistryConfig;
}.

Definition load_model_registry (fs : RegistryFiles) (env : environ) (path : option string)
    : pyres (option ModelRegistryConfig) :=
  let resolved_path :=
    match path with
    | Some p => Some p
    | None =>
        let env_path := dget_or "WHOOSHD_MODEL_REGISTRY_PATH" "" env in
        if String.eqb env_path "" then None else Some env_path
    end in
  match resolved_path with
  | None => Ret None
  | Some p =>
      if negb (rf_is_file fs p) then Ret None
      else
        match rf_read_text fs p with
        | None => Raise (RegistryValidationError "<registry>" "Registry file could not be read")
        | Some raw =>
            match rf_safe_load fs raw with
            | None => Raise (RegistryValidationError "<registry>" "Invalid YAML")
            | Some (PDict data) =>
                match dget "models" data with
                | None =>
                    Raise (RegistryValidationError "<registry>"
                             "Registry file must contain a top-level 'models' key")
                | Some (PDict _) =>
                    let! registry := rf_model_validate fs (PDict data) in
                    let! _ := validate_registry registry in
                    Ret (Some registry)
                | Some _ =>
                    Raise (RegistryValidationError "<registry>"
                             "'models' must be a mapping of model_id → model entry")
                end
            | Some _ =>
                Raise (RegistryValidationError "<registry>"
                         "Registry file must contain a top-level 'models' key")
            end
        end
  end.

(** [RuntimeState._registry]: nothing loaded, a configured registry that failed, or the
    loaded one. *)
Inductive registry_cache :=
| RegNone
| RegFalse
| RegLoaded (r : ModelRegistryConfig).

(** [_load_registry]: the new cache, which is also the result. *)
Definition load_registry (fs : RegistryFiles) (env : environ) (cached : registry_cache)
    : registry_cache :=
  match cached with
  | RegFalse | RegLoaded _ => cached
  | RegNone =>
      let explicit := get_model_registry_path env in
      match load_model_registry fs env explicit with
      | Raise _ => RegFalse
      | Ret None => match explicit with Some _ => RegFalse | None => RegNone end
      | Ret (Some r) => RegLoaded r
      end
  end.

Definition has_registry (fs : RegistryFiles) (env : environ) (cached : registry_cache) : bool :=
  match load_registry fs env cached with RegLoaded r => registry_bool r | _ => false end.

(** ** Theorems *)

(** The cross-field rules of the registry. *)
Record entry_consistent (e : RegistryModelEntry) : Prop := {
  ec_gguf : rm_format e = FMT_GGUF -> rm_engine e = ENG_LLAMA_CPP;
  ec_mlx : rm_format e = FMT_MLX -> rm_engine e = ENG_MLX_LM \/ rm_engine e = ENG_MLX_VLM;
  ec_vision : MOD_VISION ∈ rm_modalities e -> rm_engine e = ENG_MLX_VLM;
  ec_context : (0 < rm_context_window e)%Z;
}.

Lemma validate_entry_spec model_id e :
  validate_registry_entry model_id e = Ret tt <-> entry_consistent e.
Proof.
  unfold validate_registry_entry, has_modality, vision_capable. split.
  - intros H.
    repeat match type of H with (if ?b then _ else _) = _ => destruct b eqn:? end; try done.
    reflect_tests.
    repeat match goal with
    | E : (_ && _) = false |- _ => apply andb_false_iff in E
    | E : negb _ = false |- _ => apply negb_false_iff in E
    end. rewrite !negb_false_iff in *. rewrite !bool_decide_eq_true, !bool_decide_eq_false in *.
    split; [set_unfold; naive_solver..|lia].
  - intros [H1 H2 H3 H4].
    destruct (bool_decide (rm_format e = FMT_GGUF)) eqn:E1; simpl.
    + apply bool_decide_eq_true in E1. rewrite (H1 E1) in *. simpl.
      rewrite (bool_decide_false (rm_format e = FMT_MLX)) by congruence. simpl.
      rewrite (bool_decide_false (MOD_VISION ∈ _)) by (intros ?%H3; done). simpl.
      by rewrite (proj2 (Z.leb_gt _ _) H4).
    + destruct (bool_decide (rm_format e = FMT_MLX)) eqn:E2; simpl.
      * apply bool_decide_eq_true in E2. rewrite (bool_decide_true (rm_engine e ∈ _)).
        2:{ destruct (H2 E2) as [-> | ->]; set_solver. }
        simpl. destruct (bool_decide (MOD_VISION ∈ _)) eqn:E3; simpl.
        -- apply bool_decide_eq_true, H3 in E3. rewrite E3. simpl.
           by rewrite (proj2 (Z.leb_gt _ _) H4).
        -- by rewrite (proj2 (Z.leb_gt _ _) H4).
      * destruct (rm_format e); done.
Qed.

Lemma validate_registry_spec r :
  validate_registry r = Ret tt <-> Forall (fun p => entry_consistent (snd p)) r.
Proof.
  induction r as [|[m e] r IH]; simpl; [by split; [constructor|]|].
  rewrite Forall_cons, <- IH, <- (validate_entry_spec m). simpl.
  destruct (validate_registry_entry m e) as [[]|x]; simpl; [tauto|].
  split; [done|]. by intros [? _].
Qed.

(** Registry validation is exact.  A registry is accepted exactly when every entry is
    consistent (GGUF runs on llama.cpp, MLX on one of the MLX engines, vision only
    on the vision engine, a positive context window); otherwise the exception is
    that of the first inconsistent entry, whatever follows it. *)
Theorem registry_validation_exact r :
  (validate_registry r = Ret tt <-> Forall (fun p => entry_consistent (snd p)) r)
  /\ (forall x, validate_registry r = Raise x <->
        exists before m e after, r = before ++ (m, e) :: after
          /\ Forall (fun p => entry_consistent (snd p)) before
          /\ validate_registry_entry m e = Raise x).
Proof.
  split; [apply validate_registry_spec|]. intros x. induction r as [|[m e] r IH]; simpl.
  - split; [done|]. by intros ([|? ?] & ? & ? & ? & ? & _).
  - destruct (validate_registry_entry m e) as [[]|y] eqn:E; simpl.
    + rewrite IH. split.
      * intros (b & m' & e' & a & -> & Hb & Hx). exists ((m, e) :: b), m', e', a.
        split; [done|]. split; [|done]. constructor; [by apply (validate_entry_spec m)|done].
      * intros ([|[m1 e1] b] & m' & e' & a & Heq & Hb & Hx); simplify_eq/=; [congruence|].
        apply Forall_cons in Hb as [_ Hb]. by exists b, m', e', a.
    + split.
      * intros [= ->]. by exists [], m, e, r.
      * intros ([|[m1 e1] b] & m' & e' & a & Heq & Hb & Hx); simplify_eq/=; [congruence|].
        apply Forall_cons in Hb as [H1 _]. apply (validate_entry_spec m1) in H1. simpl in H1.
        congruence.
Qed.

(** A configured registry fails closed and stays decided.  While a registry path is set,
    loading never yields the open state: it yields a registry all of whose entries
    are consistent, or the failed state; once decided, later loads return the same
    decision whatever happens to the file. *)
Theorem configured_registry_fails_closed fs env path cached :
  get_model_registry_path env = Some path -> cached = RegNone \/ cached = RegFalse ->
  let st := load_registry fs env cached in
  (st = RegFalse
   \/ exists r, st = RegLoaded r /\ Forall (fun p => entry_consistent (snd p)) r)
  /\ forall fs' env', load_registry fs' env' st = st.
Proof.
  intros Hpath Hc.
  assert (Hst : load_registry fs env cached = RegFalse
    \/ exists r, load_registry fs env cached = RegLoaded r
         /\ Forall (fun p => entry_consistent (snd p)) r).
  { destruct Hc as [-> | ->]; [|by left]. unfold load_registry. rewrite Hpath.
    destruct (load_model_registry fs env (Some path)) as [[r|]|x] eqn:E; [|by left..].
    right. exists r. split; [done|]. apply validate_registry_spec. revert E.
    unfold load_model_registry. repeat case_match; try done.
    intros (r' & _ & ([] & Hv & [= <-])%rbind_Ret)%rbind_Ret. done. }
  intros st. fold st in Hst. split; [done|].
  intros fs' env'. by destruct Hst as [-> | (r & -> & _)].
Qed.

Definition demo_entry (engine : EngineType) (format : ModelFormat) (enabled : bool)
    : RegistryModelEntry :=
  mkRegistryEntry "Demo" engine format "org/demo" [MOD_TEXT] 4096 [HW_AUTO] WP_WARM_ON_FIRST_USE
    "general" enabled [].

Definition demo_files (entries : ModelRegistryConfig) : RegistryFiles :=
  mkRegistryFiles (fun _ => true) (fun _ => Some "yaml")
    (fun _ => Some (PDict [("models", PDict [])])) (fun _ => Ret entries).

Lemma configured_registry_fails_closed_witness :
  let env := [("WHOOSHD_MODEL_REGISTRY_PATH", "/r.yaml")] in
  get_model_registry_path env = Some "/r.yaml"
  /\ load_registry (demo_files [("m", demo_entry ENG_LLAMA_CPP FMT_GGUF true)]) env RegNone
     = RegLoaded [("m", demo_entry ENG_LLAMA_CPP FMT_GGUF true)]
  /\ let st := load_registry (demo_files [("m", demo_entry ENG_MLX_LM FMT_GGUF true)]) env RegNone in
     st = RegFalse
     \/ exists r, st = RegLoaded r /\ Forall (fun p => entry_consistent (snd p)) r.
Proof.
  split; [reflexivity|]. split; [vm_compute; reflexivity|].
  apply (configured_registry_fails_closed (demo_files [("m", demo_entry ENG_MLX_LM FMT_GGUF true)])
           [("WHOOSHD_MODEL_REGISTRY_PATH", "/r.yaml")] "/r.yaml" RegNone eq_refl).
  by left.
Defined.
