(* ===== verification/ModelPath.v ===== *)
(** * Model files on disk: resolver, external routes and inventory
      ([models/resolver.py], [models/routes.py], [models/inventory.py], [models/types.py])

    A model id is resolved against an ordered list of roots with the layout
    [<root>/<format>/<publisher>/<repo>]; external routes supply the roots, and the
    inventory scans them.

    - The file system is the record [FS]: what [pathlib] answers.  A path is the list of
      its parts ([Path.parts]).  Listings come in any order; the sources sort them.
    - [json.loads] is an argument that gives the parsed value, or [None] when it raises.
    - [_KNOWN_QUANTS] is a Python set of three strings; its iteration order is the
      argument [known_quants]. *)

From S2P Require Import Prelude PyDict PyStr PySeq PyRe.
From Stdlib Require Import Ascii.

(** ** Paths and the file system *)
Abbreviation path := (list string).

Record FS := mkFS {
  fs_resolve : path -> path;
  fs_expanduser : path -> path;
  fs_exists : path -> bool;
  fs_is_dir : path -> bool;
  fs_is_file : path -> bool;
  fs_listdir : path -> list string;
}.

(** [p / name] for a name without slashes. *)
Definition path_join (p : path) (name : string) : path :=
  if String.eqb name "" || String.eqb name "." then p else p ++ [name].

(** [str(p)] *)
Definition str_path (p : path) : string :=
  match p with
  | [] => "."
  | root :: rest =>
      if String.eqb root "/" || String.eqb root "//" then root +:+ join "/" rest else join "/" p
  end.

(** [Path(s)] *)
Definition path_of (s : string) : path :=
  let root :=
    if startswith "///" s then ["/"] else if startswith "//" s then ["//"]
    else if startswith "/" s then ["/"] else [] in
  root ++ List.filter (fun w => negb (String.eqb w "" || String.eqb w ".")) (split_on "/" s).

(** [sorted(names)] *)
Definition sorted_names (l : list string) : list string := stable_sort string_leb l.

(** [sorted(directory.glob("*" + suffix))], as names. *)
Definition sorted_glob (fs : FS) (directory : path) (suffix : string) : list string :=
  sorted_names (List.filter (endswith suffix) (fs_listdir fs directory)).

(** [Path(name).stem] *)
Definition path_stem (name : string) : string :=
  let pieces := split_on "." name in
  let prefix := join "." (removelast pieces) in
  let suffix := List.last pieces "" in
  if String.eqb prefix "" || String.eqb suffix "" then name else prefix.

Definition ascii_upper (c : ascii) : ascii :=
  if in_range "a" "z" c then ascii_of_N (N_of_ascii c - 32) else c.

Fixpoint upper (s : string) : string :=
  match s with EmptyString => EmptyString | String c s' => String (ascii_upper c) (upper s') end.

(** ** Data ([models/types.py]) *)

Inductive ResolutionStatus := FOUND | MISSING | INVALID_LAYOUT | UNSUPPORTED_FORMAT.

#[export] Instance ResolutionStatus_eq_dec : EqDecision ResolutionStatus.
Proof. solve_decision. Defined.

Definition ResolutionStatus_value (s : ResolutionStatus) : string :=
  match s with
  | FOUND => "found" | MISSING => "missing" | INVALID_LAYOUT => "invalid_layout"
  | UNSUPPORTED_FORMAT => "unsupported_format"
  end.

Record ModelResolutionRequest := mkResolutionRequest {
  mq_model_id : string;
  mq_format : option string;
  mq_quant : option string;
  mq_search_paths : list path;
}.

Record ModelResolutionResult := mkResolutionResult {
  mr_status : ResolutionStatus;
  mr_model_id : string;
  mr_format : option string;
  mr_path : option string;
  mr_source : option string;
  mr_runtime : option string;
  mr_reason : option string;
  mr_metadata : list (string * pyval);
}.

Inductive ExternalRouteStatus := AVAILABLE | DISABLED | MOUNT_UNAVAILABLE | INVALID_PATH.

Definition ExternalRouteStatus_value (s : ExternalRouteStatus) : string :=
  match s with
  | AVAILABLE => "available" | DISABLED => "disabled"
  | MOUNT_UNAVAILABLE => "mount_unavailable" | INVALID_PATH => "invalid_path"
  end.

Record ExternalWeightRoute := mkRoute {
  xr_id : string;
  xr_path : path;
  xr_enabled : bool;
  xr_read_only : bool;
  xr_priority : Z;
}.

Record ExternalWeightRouteStatus := mkRouteStatus {
  xs_id : string;
  xs_path : path;
  xs_enabled : bool;
  xs_available : bool;
  xs_status : ExternalRouteStatus;
  xs_reason : option string;
}.

Record ExternalModelInventoryEntry := mkInventoryEntry {
  xe_id : string;
  xe_model_id : string;
  xe_route_id : string;
  xe_format : string;
  xe_runtime : string;
  xe_path : string;
  xe_servable : bool;
  xe_metadata : list (string * pyval);
}.

Record ExternalRuntimeResolution := mkExternalResolution {
  xx_found : bool;
  xx_servable : bool;
  xx_model_id : string;
  xx_public_id : string;
  xx_format : option string;
  xx_runtime : option string;
  xx_path : option string;
  xx_route_id : option string;
  xx_reason : option string;
  xx_metadata : list (string * pyval);
}.

(** ** Resolver ([models/resolver.py]) *)

Definition _SUPPORTED_FORMATS : list string := ["gguf"; "mlx"; "safetensors"].

Definition runtime_map (fmt : string) : string :=
  if String.eqb fmt "gguf" then "llama_cpp" else if String.eqb fmt "mlx" then "mlx_lm"
  else "unsupported".

(** [_detect_format] *)
Definition detect_format (model_id : string) : string :=
  if endswith "-GGUF" (upper model_id) || contains "GGUF" (upper model_id) then "gguf"
  else if startswith "mlx-community/" (lower model_id) || endswith "-mlx" (lower model_id) then "mlx"
  else "safetensors".

(** [_resolve_format] *)
Definition resolve_format (explicit_format : option string) (model_id : string) : option string :=
  match explicit_format with
  | Some f =>
      let explicit := lower (strip f) in
      if bool_decide (explicit ∈ _SUPPORTED_FORMATS) then Some explicit else None
  | None => Some (detect_format model_id)
  end.

(** [_split_model_id] *)
Definition split_model_id (model_id : string) : option (string * string) :=
  match split_on "/" model_id with
  | [publisher; repo] =>
      if String.eqb publisher "" || String.eqb repo "" then None else Some (publisher, repo)
  | _ => None
  end.

(** [repr(s)] of an ASCII string. *)
Definition hex_char (n : N) : ascii :=
  ascii_of_N (if (n <? 10)%N then 48 + n else 87 + n).

Definition single_quote : ascii := ascii_of_N 39.
Definition double_quote : ascii := ascii_of_N 34.

Definition repr_char (quote c : ascii) : string :=
  let n := N_of_ascii c in
  if Ascii.eqb c quote || (n =? 92)%N then String (ascii_of_N 92) (String c "")
  else if (n =? 10)%N then "\n" else if (n =? 13)%N then "\r" else if (n =? 9)%N then "\t"
  else if (n <? 32)%N || (n =? 127)%N then
    "\x" +:+ String (hex_char (n / 16)) (String (hex_char (n mod 16)) "")
  else String c "".

Definition repr_str (s : string) : string :=
  let quote := if contains (String single_quote "") s && negb (contains (String double_quote "") s)
               then double_quote else single_quote in
  String quote (String.concat "" (map (repr_char quote) (String.list_ascii_of_string s)) +:+ String quote "").

Definition repr_opt (o : option string) : string :=
  match o with Some s => repr_str s | None => "None" end.

Section resolver.
Context (fs : FS).

Definition layout_failure (model_id fmt runtime reason : string) (metadata : list (string * pyval))
    : ModelResolutionResult :=
  mkResolutionResult INVALID_LAYOUT model_id (Some fmt) None None (Some runtime) (Some reason) metadata.

(** [_validate_gguf] *)
Definition validate_gguf (directory : path) (quant : option string) (model_id runtime : string)
    (metadata : list (string * pyval)) : ModelResolutionResult :=
  let gguf_files := sorted_glob fs directory ".gguf" in
  match gguf_files with
  | [] => layout_failure model_id "gguf" runtime "directory exists but contains no .gguf files" metadata
  | first :: _ =>
      let matched :=
        match quant with
        | Some q =>
            if String.eqb (strip q) "" then None
            else List.find (fun name => contains (lower (strip q)) (lower name)) gguf_files
        | None => None
        end in
      let found name :=
        mkResolutionResult FOUND model_id (Some "gguf")
          (Some (str_path (fs_resolve fs (path_join directory name)))) (Some "local_filesystem")
          (Some runtime) None
          (metadata ++ [("matched_file", PStr name); ("quant", opt_str quant)]) in
      match matched with
      | Some name => found name
      | None =>
          match quant with
          | Some _ =>
              mkResolutionResult MISSING model_id (Some "gguf") None None (Some runtime)
                (Some ("no .gguf file matching quant " +:+ repr_opt quant))
                (metadata ++ [("quant_requested", opt_str quant)])
          | None => found first
          end
      end
  end.

(** [_validate_mlx] *)
Definition validate_mlx (directory : path) (model_id runtime : string)
    (metadata : list (string * pyval)) : ModelResolutionResult :=
  if negb (fs_is_file fs (path_join directory "config.json")) then
    layout_failure model_id "mlx" runtime "directory exists but lacks config.json" metadata
  else
    mkResolutionResult FOUND model_id (Some "mlx") (Some (str_path (fs_resolve fs directory)))
      (Some "local_filesystem") (Some runtime) None
      (metadata ++ [("matched_file", PStr "config.json")]).

Definition has_config (directory : path) : bool := fs_is_file fs (path_join directory "config.json").
Definition has_safetensors (directory : path) : bool :=
  existsb (endswith ".safetensors") (fs_listdir fs directory).

(** [_validate_safetensors] *)
Definition validate_safetensors (directory : path) (model_id runtime : string)
    (metadata : list (string * pyval)) : ModelResolutionResult :=
  if negb (has_config directory) && negb (has_safetensors directory) then
    layout_failure model_id "safetensors" runtime
      "directory exists but lacks config.json or .safetensors files" metadata
  else
    mkResolutionResult FOUND model_id (Some "safetensors")
      (Some (str_path (fs_resolve fs directory))) (Some "local_filesystem") (Some runtime) None
      (metadata ++ [("matched_file",
                      PStr (if has_config directory then "config.json" else "*.safetensors"))]).

Definition checked_metadata (checked_paths : list string) : list (string * pyval) :=
  [("checked_paths", PList (map PStr checked_paths))].

(** [_validate_directory] *)
Definition validate_directory (candidate_dir : path) (fmt : string) (quant : option string)
    (model_id runtime : string) (checked_paths : list string) : option ModelResolutionResult :=
  if negb (fs_is_dir fs candidate_dir) then None
  else
    let metadata := checked_metadata checked_paths in
    if String.eqb fmt "gguf" then Some (validate_gguf candidate_dir quant model_id runtime metadata)
    else if String.eqb fmt "mlx" then Some (validate_mlx candidate_dir model_id runtime metadata)
    else if String.eqb fmt "safetensors" then
      Some (validate_safetensors candidate_dir model_id runtime metadata)
    else None.

(** [<root>/<format>/<publisher>/<repo>] *)
Definition candidate (root : path) (fmt publisher repo : string) : path :=
  path_join (path_join (path_join (fs_resolve fs (fs_expanduser fs root)) fmt) publisher) repo.

(** The search loop: the first result, or the checked paths. *)
Fixpoint search_roots (roots : list path) (fmt publisher repo : string) (quant : option string)
    (model_id runtime : string) (checked_paths : list string)
    : option ModelResolutionResult * list string :=
  match roots with
  | [] => (None, checked_paths)
  | root :: roots' =>
      let dir := candidate root fmt publisher repo in
      let checked_paths := checked_paths ++ [str_path dir] in
      match validate_directory dir fmt quant model_id runtime checked_paths with
      | Some r => (Some r, checked_paths)
      | None => search_roots roots' fmt publisher repo quant model_id runtime checked_paths
      end
  end.

Definition resolve_model (request : ModelResolutionRequest) : ModelResolutionResult :=
  let model_id := mq_model_id request in
  match resolve_format (mq_format request) model_id with
  | None =>
      mkResolutionResult UNSUPPORTED_FORMAT model_id (mq_format request) None None None
        (Some ("unsupported format: " +:+ repr_opt (mq_format request))) []
  | Some fmt =>
      let runtime := runtime_map fmt in
      match split_model_id model_id with
      | None =>
          mkResolutionResult MISSING model_id (Some fmt) None None (Some runtime)
            (Some ("malformed model_id: " +:+ repr_opt (Some model_id))) (checked_metadata [])
      | Some (publisher, repo) =>
          match search_roots (mq_search_paths request) fmt publisher repo (mq_quant request)
                  model_id runtime [] with
          | (Some r, _) => r
          | (None, checked_paths) =>
              mkResolutionResult MISSING model_id (Some fmt) None None (Some runtime)
                (Some "model not found in any search path") (checked_metadata checked_paths)
          end
      end
  end.
End resolver.

(** ** External routes ([models/routes.py]) *)

(** [int(v)] *)
Definition py_int_of (v : pyval) : pyres Z :=
  match v with
  | PInt z => Ret z
  | PBool b => Ret (b2z b)
  | PFloat q => Ret (Z.quot (Qnum q) (Z.pos (Qden q)))
  | PStr s => match py_int s with
              | Some z => Ret z
              | None => Raise (ValueError ("invalid literal for int() with base 10: " +:+ repr_str s))
              end
  | _ => Raise (Exc "TypeError" "int() argument must be a string, a bytes-like object or a real number")
  end.

Section routes.
Context (fs : FS).

(** One element of the configured array. *)
Definition load_route (entry : pyval) : pyres (option ExternalWeightRoute) :=
  match entry with
  | PDict d =>
      match dget_or "id" PNone d, dget_or "path" PNone d with
      | PStr rid, PStr rpath =>
          if String.eqb rid "" || String.eqb rpath "" then Ret None
          else
            let! priority := py_int_of (dget_or "priority" (PInt 100) d) in
            Ret (Some (mkRoute (strip rid) (fs_expanduser fs (path_of (strip rpath)))
                         (truthy (dget_or "enabled" (PBool true) d))
                         (truthy (dget_or "read_only" (PBool true) d)) priority))
      | _, _ => Ret None
      end
  | _ => Ret None
  end.

Fixpoint load_routes (entries : list pyval) : pyres (list ExternalWeightRoute) :=
  match entries with
  | [] => Ret []
  | e :: entries' =>
      let! r := load_route e in
      let! rs := load_routes entries' in
      Ret (match r with Some r => r :: rs | None => rs end)
  end.

(** [env] is [os.environ.get(_ENV_EXTERNAL_ROUTES, "")]. *)
Definition load_external_weight_routes (json_loads : string -> option pyval) (env : string)
    : pyres (list ExternalWeightRoute) :=
  let raw := strip env in
  if String.eqb raw "" then Ret []
  else match json_loads raw with Some (PList data) => load_routes data | _ => Ret [] end.

(** [_is_mount_unavailable], [_mount_point] *)
Definition volume_mount (p : path) : option path :=
  match p with
  | root :: volumes :: name :: _ =>
      if String.eqb root "/" && String.eqb volumes "Volumes" then Some [root; volumes; name] else None
  | _ => None
  end.

Definition is_mount_unavailable (p : path) : bool :=
  match volume_mount p with Some m => negb (fs_exists fs m) | None => false end.

Definition mount_point (p : path) : string := str_path (default p (volume_mount p)).

Definition validate_route_status (r : ExternalWeightRoute) : ExternalWeightRouteStatus :=
  if negb (xr_enabled r) then
    mkRouteStatus (xr_id r) (xr_path r) false false DISABLED (Some "route is disabled")
  else
    let rpath := fs_resolve fs (fs_expanduser fs (xr_path r)) in
    if fs_exists fs rpath then
      if fs_is_dir fs rpath then mkRouteStatus (xr_id r) rpath true true AVAILABLE None
      else mkRouteStatus (xr_id r) rpath true false INVALID_PATH
             (Some "path exists but is not a directory")
    else if is_mount_unavailable rpath then
      mkRouteStatus (xr_id r) rpath true false MOUNT_UNAVAILABLE
        (Some ("mount point unavailable: " +:+ mount_point rpath))
    else mkRouteStatus (xr_id r) rpath true false INVALID_PATH (Some "path does not exist").

Definition validate_all_routes (routes : list ExternalWeightRoute) : list ExternalWeightRouteStatus :=
  map validate_route_status routes.

(** [{r.id: r for r in routes}] *)
Definition rid_to_route (routes : list ExternalWeightRoute) : list (string * ExternalWeightRoute) :=
  fold_left (fun d r => dset (xr_id r) r d) routes [].

(** The first component of the sort key. *)
Definition status_priority (routes : list ExternalWeightRoute) (s : ExternalWeightRouteStatus) : Z :=
  match dget (xs_id s) (rid_to_route routes) with Some r => xr_priority r | None => 100%Z end.

Definition status_le (routes : list ExternalWeightRoute) (a b : ExternalWeightRouteStatus) : bool :=
  (status_priority routes a <? status_priority routes b)%Z
  || ((status_priority routes a =? status_priority routes b)%Z && string_leb (xs_id a) (xs_id b)).

(** The available statuses in search order. *)
Definition available_statuses (routes : list ExternalWeightRoute) : list ExternalWeightRouteStatus :=
  stable_sort (status_le routes)
    (List.filter xs_available (map validate_route_status (List.filter xr_enabled routes))).

Definition get_available_route_paths (routes : list ExternalWeightRoute) : list path :=
  map xs_path (available_statuses routes).

Definition unavailable_dict (s : ExternalWeightRouteStatus) : pyval :=
  PDict [("id", PStr (xs_id s)); ("status", PStr (ExternalRouteStatus_value (xs_status s)));
         ("path", PStr (str_path (xs_path s))); ("reason", opt_str (xs_reason s))].

Definition resolve_model_from_routes (request : ModelResolutionRequest)
    (routes : list ExternalWeightRoute) : ModelResolutionResult :=
  let statuses := validate_all_routes routes in
  let route_metadata :=
    [("route_ids_checked", PList (map (fun s => PStr (xs_id s)) statuses));
     ("available_route_ids",
       PList (map (fun s => PStr (xs_id s)) (List.filter xs_available statuses)));
     ("unavailable_routes",
       PList (map unavailable_dict (List.filter (fun s => negb (xs_available s)) statuses)))] in
  match get_available_route_paths routes with
  | [] =>
      mkResolutionResult MISSING (mq_model_id request) (mq_format request) None None None
        (Some "no external weight routes are available") route_metadata
  | available_paths =>
      let result := resolve_model fs (mkResolutionRequest (mq_model_id request) (mq_format request)
                                        (mq_quant request) available_paths) in
      let meta := mr_metadata result ++ route_metadata in
      if decide (mr_status result = FOUND) then
        mkResolutionResult (mr_status result) (mr_model_id result) (mr_format result)
          (mr_path result) (Some "external") (mr_runtime result) (mr_reason result) meta
      else
        mkResolutionResult (mr_status result) (mr_model_id result) (mr_format result)
          (mr_path result) (mr_source result) (mr_runtime result)
          (if str_truthy (mr_reason result) then mr_reason result
           else Some "model not found in any external weight route") meta
  end.

End routes.

(** ** Inventory ([models/inventory.py]) *)

Definition _SKIP_DIRS : list string := [".cache"; ".huggingface"; ".git"; ".DS_Store"; "__pycache__"].

Definition class_of (s : string) : re := RSet (fun c => existsb (same_letter c) (String.list_ascii_of_string s)).
Definition digit_re : re := RSet is_digit.

Definition _QUANT_RE : re :=
  RAlts
    [RSeq (RLitI "Q") (RSeq digit_re (RSeq (RLit "_") (class_of "KLM0")));
     RSeq (RLitI "Q") (RSeq digit_re (RSeq (RLit "_") digit_re));
     RLitI "f16"; RLitI "f32"; RLitI "bf16";
     RSeq (RLitI "IQ") (RSeq digit_re (RSeq (RLit "_")
       (RStar (RSet (fun c => negb (Ascii.eqb c "/" || Ascii.eqb c "."))))))].

(** [_safe_id_component] *)
Definition id_char (c : ascii) : bool :=
  in_range "a" "z" c || in_range "A" "Z" c || in_range "0" "9" c
  || Ascii.eqb c "." || Ascii.eqb c "_" || Ascii.eqb c "-".

Fixpoint map_string (f : ascii -> ascii) (s : string) : string :=
  match s with EmptyString => EmptyString | String c s' => String (f c) (map_string f s') end.

Fixpoint lstrip_chars (p : ascii -> bool) (s : string) : string :=
  match s with EmptyString => EmptyString | String c s' => if p c then lstrip_chars p s' else s end.

Fixpoint rstrip_chars (p : ascii -> bool) (s : string) : string :=
  match s with
  | EmptyString => EmptyString
  | String c s' =>
      match rstrip_chars p s' with
      | EmptyString => if p c then EmptyString else String c EmptyString
      | r => String c r
      end
  end.

Definition safe_id_component (name : string) : string :=
  let trim c := Ascii.eqb c "-" || Ascii.eqb c "." in
  let safe := rstrip_chars trim (lstrip_chars trim
                (str_take 64 (map_string (fun c => if id_char c then c else "-"%char) name))) in
  if String.eqb safe "" then "unknown" else safe.

(** [_is_hidden] *)
Definition is_hidden (name : string) : bool :=
  startswith "." name || bool_decide (name ∈ _SKIP_DIRS).

(** [model.rsplit(":", 1)] of a string that contains a colon. *)
Definition rsplit_colon (s : string) : string * string :=
  let pieces := split_on ":" s in (join ":" (removelast pieces), List.last pieces "").

(** [parse_external_model_public_id]: model id, format and quant. *)
Definition parse_external_model_public_id (model : string) : string * string * option string :=
  let model := strip model in
  let (candidate_id, suffix) := rsplit_colon model in
  if contains ":" model && contains "/" model && contains "GGUF" (upper candidate_id) then
    (candidate_id, "gguf", Some suffix)
  else if startswith "mlx-community/" (lower model) || endswith "-mlx" (lower model) then
    (model, "mlx", None)
  else (model, "safetensors", None).

Section inventory.
Context (fs : FS) (known_quants : list string).

(** [_extract_quant] *)
Definition extract_quant (stem : string) : option string :=
  match List.find (fun kq => contains kq (upper stem)) known_quants with
  | Some kq => Some kq
  | None =>
      match rsearch _QUANT_RE None stem with Some (_, m, _) => Some (upper m) | None => None end
  end.

(** The public id of a GGUF file. *)
Definition gguf_public_id (model_id name : string) : string :=
  model_id +:+ ":" +:+
  (let quant := extract_quant (path_stem name) in
   if str_truthy quant then default "" quant else safe_id_component (path_stem name)).

Definition inventory_state : Type := (list ExternalModelInventoryEntry * list string)%type.

Definition add_entry (e : ExternalModelInventoryEntry) (st : inventory_state) : inventory_state :=
  let (entries, seen_ids) := st in
  if bool_decide (xe_id e ∈ seen_ids) then st else (entries ++ [e], xe_id e :: seen_ids).

(** [_scan_gguf_dir] *)
Definition scan_gguf_dir (model_id : string) (directory : path) (route_id : string)
    (st : inventory_state) : inventory_state :=
  fold_left (fun st name =>
    if startswith "." name then st
    else add_entry (mkInventoryEntry (gguf_public_id model_id name) model_id route_id "gguf"
                      "llama_cpp" (str_path (fs_resolve fs (path_join directory name))) true
                      [("matched_file", PStr name);
                       ("quant", opt_str (extract_quant (path_stem name)))]) st)
    (sorted_glob fs directory ".gguf") st.

(** [_build_mlx_entry] *)
Definition build_mlx_entry (model_id : string) (directory : path) (route_id : string)
    : option ExternalModelInventoryEntry :=
  if negb (has_config fs directory) then None
  else Some (mkInventoryEntry model_id model_id route_id "mlx" "mlx_lm"
               (str_path (fs_resolve fs directory)) true [("matched_file", PStr "config.json")]).

(** [_build_safetensors_entry] *)
Definition build_safetensors_entry (model_id : string) (directory : path) (route_id : string)
    : option ExternalModelInventoryEntry :=
  if negb (has_config fs directory) && negb (has_safetensors fs directory) then None
  else Some (mkInventoryEntry model_id model_id route_id "safetensors" "unsupported"
               (str_path (fs_resolve fs directory)) false
               [("matched_file",
                  PStr (if has_config fs directory then "config.json" else "*.safetensors"))]).

(** [_build_entry], for the formats [_scan_route] passes to it. *)
Definition build_entry (model_id fmt : string) (directory : path) (route_id : string)
    : option ExternalModelInventoryEntry :=
  if String.eqb fmt "mlx" then build_mlx_entry model_id directory route_id
  else if String.eqb fmt "safetensors" then build_safetensors_entry model_id directory route_id
  else None.

(** One repository directory of [_scan_route]. *)
Definition scan_repo (fmt model_id : string) (repo_path : path) (route_id : string)
    (st : inventory_state) : inventory_state :=
  if String.eqb fmt "gguf" then scan_gguf_dir model_id repo_path route_id st
  else match build_entry model_id fmt repo_path route_id with
       | Some e => add_entry e st
       | None => st
       end.

Definition visible_dirs (p : path) : list string :=
  List.filter (fun name => fs_is_dir fs (path_join p name) && negb (is_hidden name))
    (sorted_names (fs_listdir fs p)).

(** [_scan_route] *)
Definition scan_route (root : path) (route_id : string) (st : inventory_state) : inventory_state :=
  fold_left (fun st fmt =>
    let fmt_root := path_join root fmt in
    if negb (fs_is_dir fs fmt_root) then st
    else
      fold_left (fun st publisher =>
        let publisher_path := path_join fmt_root publisher in
        fold_left (fun st repo =>
          scan_repo fmt (publisher +:+ "/" +:+ repo) (path_join publisher_path repo) route_id st)
          (visible_dirs publisher_path) st)
        (visible_dirs fmt_root) st)
    _SUPPORTED_FORMATS st.

(** [path_to_route]: resolved root to route id; a later route overrides. *)
Definition path_to_route (routes : list ExternalWeightRoute) : list (string * string) :=
  fold_left (fun d s =>
    if xs_available s then dset (str_path (fs_resolve fs (xs_path s))) (xs_id s) d else d)
    (validate_all_routes fs routes) [].

Definition list_external_model_inventory (routes : list ExternalWeightRoute)
    : list ExternalModelInventoryEntry :=
  fst (fold_left (fun st root =>
         scan_route root
           (dget_or (str_path (fs_resolve fs root)) "unknown" (path_to_route routes)) st)
         (get_available_route_paths fs routes) ([], [])).

Definition unresolved (e : ExternalModelInventoryEntry) (requested_model reason : string)
    (metadata : list (string * pyval)) : ExternalRuntimeResolution :=
  mkExternalResolution true false (xe_model_id e) requested_model (Some (xe_format e))
    (Some (xe_runtime e)) None (Some (xe_route_id e)) (Some reason) metadata.

Definition resolve_external_runtime_model (requested_model : string)
    (routes : list ExternalWeightRoute) : ExternalRuntimeResolution :=
  let '(_, fmt, quant) := parse_external_model_public_id requested_model in
  match List.find (fun e => String.eqb (xe_id e) requested_model)
          (list_external_model_inventory routes) with
  | None =>
      mkExternalResolution false false "" requested_model (Some fmt) None None None
        (Some "not_external") []
  | Some e =>
      if negb (xe_servable e) then unresolved e requested_model "not_servable" []
      else
        match get_available_route_paths fs routes with
        | [] => unresolved e requested_model "route_unavailable" []
        | available_paths =>
            let result :=
              resolve_model fs
                (mkResolutionRequest
                   (if String.eqb (xe_model_id e) "" then requested_model else xe_model_id e)
                   (Some (xe_format e)) (if str_truthy quant then quant else None) available_paths) in
            if decide (mr_status result = FOUND) then
              mkExternalResolution true true (xe_model_id e) requested_model (Some (xe_format e))
                (Some (xe_runtime e)) (mr_path result) (Some (xe_route_id e)) None
                [("quant", opt_str quant);
                 ("matched_file", dget_or "matched_file" PNone (mr_metadata result))]
            else
              unresolved e requested_model "invalid_layout"
                [("resolution_status", PStr (ResolutionStatus_value (mr_status result)));
                 ("reason", opt_str (mr_reason result))]
        end
  end.

End inventory.
