(* ===== verification/ModelPathProps.v ===== *)
(** * What model resolution guarantees

    The search order of the resolver, the order of the routes, the inventory, and
    the hand-off of an inventory entry to a runtime, with two concrete file systems
    on which the hand-off picks the wrong file or refuses an advertised model. *)

From S2P Require Import Prelude PyDict PyStr PySeq PyRe.
From S2P Require Import ModelPath.
From Stdlib Require Import Ascii Sorting.Sorted.

(** A file system given by its directories and files. *)
Definition parent (p : path) : path := removelast p.
Definition base (p : path) : string := List.last p "".

Definition tree_fs (dirs files : list path) : FS :=
  mkFS id id (fun p => bool_decide (p ∈ dirs ++ files)) (fun p => bool_decide (p ∈ dirs))
    (fun p => bool_decide (p ∈ files))
    (fun p => map base (List.filter (fun q => bool_decide (parent q = p)) (dirs ++ files))).

(** ** The search *)
Section search.
Context (fs : FS) (fmt publisher repo : string) (quant : option string) (model_id runtime : string).

Definition is_candidate_dir (root : path) : bool := fs_is_dir fs (candidate fs root fmt publisher repo).

Lemma validate_directory_some dir checked :
  fmt ∈ _SUPPORTED_FORMATS ->
  validate_directory fs dir fmt quant model_id runtime checked = None <-> fs_is_dir fs dir = false.
Proof.
  intros Hf. unfold validate_directory. destruct (fs_is_dir fs dir); [|done].
  cbn [negb]. unfold _SUPPORTED_FORMATS in Hf. rewrite !elem_of_cons, elem_of_nil in Hf.
  destruct Hf as [-> | [-> | [-> | []]]]; split; cbn; discriminate.
Qed.

(** Roots without the directory are passed over; the first root with it decides. *)
Lemma search_roots_first before root after checked :
  fmt ∈ _SUPPORTED_FORMATS ->
  (forall r, r ∈ before -> is_candidate_dir r = false) -> is_candidate_dir root = true ->
  exists paths,
    search_roots fs (before ++ root :: after) fmt publisher repo quant model_id runtime checked
    = (validate_directory fs (candidate fs root fmt publisher repo) fmt quant model_id runtime paths,
       paths).
Proof.
  intros Hf. revert checked. induction before as [|r before IH]; intros checked Hb Hr; simpl.
  - destruct (validate_directory _ _ _ _ _ _ _) eqn:E; [eexists; by rewrite <- E|].
    apply validate_directory_some in E; [|done]. unfold is_candidate_dir in Hr. congruence.
  - rewrite (proj2 (validate_directory_some _ _ Hf)).
    2:{ apply (Hb r), list_elem_of_here. }
    apply IH; [|done]. intros; apply Hb; set_solver.
Qed.

Lemma search_roots_none roots checked :
  fmt ∈ _SUPPORTED_FORMATS ->
  (forall r, r ∈ roots -> is_candidate_dir r = false) ->
  fst (search_roots fs roots fmt publisher repo quant model_id runtime checked) = None.
Proof.
  intros Hf. revert checked. induction roots as [|r roots IH]; intros checked Hb; simpl; [done|].
  rewrite (proj2 (validate_directory_some _ _ Hf)); [|apply (Hb r), list_elem_of_here].
  apply IH. intros; apply Hb; set_solver.
Qed.
End search.

(** ** Sorted statuses *)
Lemma status_le_total routes a b : status_le routes a b = true \/ status_le routes b a = true.
Proof.
  unfold status_le. rewrite !orb_true_iff, !andb_true_iff, !Z.ltb_lt, !Z.eqb_eq.
  destruct (Z.lt_trichotomy (status_priority routes a) (status_priority routes b)) as [H | [H | H]].
  - by left; left.
  - destruct (string_leb_total (xs_id a) (xs_id b)); [left | right]; by right.
  - by right; left.
Qed.

Lemma status_le_trans routes a b c :
  status_le routes a b = true -> status_le routes b c = true -> status_le routes a c = true.
Proof.
  unfold status_le. rewrite !orb_true_iff, !andb_true_iff, !Z.ltb_lt, !Z.eqb_eq.
  intros [H1 | [H1 H1']] [H2 | [H2 H2']]; try (left; lia).
  right. split; [lia | by apply (string_leb_trans _ (xs_id b))].
Qed.

(** ** The route order *)

(** Exactly the enabled routes whose directory exists are searched, by ascending
    priority and, for equal priorities, by id. *)
Lemma available_statuses_ordered fs routes :
  available_statuses fs routes
    ≡ₚ List.filter xs_available (map (validate_route_status fs) (List.filter xr_enabled routes))
  /\ StronglySorted (fun a b => status_le routes a b = true) (available_statuses fs routes).
Proof.
  split; [apply stable_sort_perm|].
  apply stable_sort_sorted; [apply status_le_total | apply status_le_trans].
Qed.

Lemma available_is_dir fs r :
  xs_available (validate_route_status fs r) = true <->
  xr_enabled r = true /\ fs_exists fs (fs_resolve fs (fs_expanduser fs (xr_path r))) = true
  /\ fs_is_dir fs (fs_resolve fs (fs_expanduser fs (xr_path r))) = true.
Proof.
  unfold validate_route_status. destruct (xr_enabled r); simpl; [|naive_solver].
  destruct (fs_exists fs _) eqn:E1; [destruct (fs_is_dir fs _) eqn:E2 | destruct (is_mount_unavailable _ _)];
    simpl; naive_solver.
Qed.

(** ** Resolution *)
Section resolution.
Context (fs : FS).

(** The entry of a model directory that serves a request: for GGUF the first file, in
    alphabetical order, whose name contains the requested quantization. *)
Definition pick (dir : path) (fmt : string) (quant : option string) : option string :=
  if String.eqb fmt "gguf" then
    name ← match quant with
           | None => head (sorted_glob fs dir ".gguf")
           | Some q =>
               if String.eqb (strip q) "" then None
               else List.find (fun name => contains (lower (strip q)) (lower name))
                      (sorted_glob fs dir ".gguf")
           end;
    Some (str_path (fs_resolve fs (path_join dir name)))
  else if String.eqb fmt "mlx" then
    if has_config fs dir then Some (str_path (fs_resolve fs dir)) else None
  else if has_config fs dir || has_safetensors fs dir then Some (str_path (fs_resolve fs dir))
  else None.

(** A result that carries a path exactly when it says found. *)
Definition found_with (r : ModelResolutionResult) (p : option string) : Prop :=
  mr_path r = p /\ (mr_status r = FOUND <-> is_Some p).

Lemma found_with_None r : mr_path r = None -> mr_status r <> FOUND -> found_with r None.
Proof. intros H1 H2. split; [done|]. split; [done | by intros []]. Qed.

Lemma found_with_Some r p : mr_path r = Some p -> mr_status r = FOUND -> found_with r (Some p).
Proof. intros H1 H2. split; [done|]. split; [by eexists | done]. Qed.

Lemma validate_gguf_found dir quant model_id runtime metadata :
  found_with (validate_gguf fs dir quant model_id runtime metadata) (pick dir "gguf" quant).
Proof.
  unfold validate_gguf, pick. simpl String.eqb. cbv iota.
  destruct (sorted_glob fs dir ".gguf") as [|first l].
  { destruct quant as [q|]; simpl; [destruct (String.eqb (strip q) "")|]; simpl; by apply found_with_None. }
  destruct quant as [q|]; [|by apply found_with_Some].
  destruct (String.eqb (strip q) ""); [by apply found_with_None|].
  destruct (List.find _ _) as [name|]; [by apply found_with_Some | by apply found_with_None].
Qed.

Lemma validate_directory_found dir fmt quant model_id runtime checked r :
  validate_directory fs dir fmt quant model_id runtime checked = Some r ->
  found_with r (pick dir fmt quant).
Proof.
  unfold validate_directory. destruct (fs_is_dir fs dir); [|done]. cbn [negb].
  destruct (String.eqb fmt "gguf") eqn:E1.
  { apply String.eqb_eq in E1 as ->. intros [= <-]. apply validate_gguf_found. }
  unfold pick. rewrite E1. destruct (String.eqb fmt "mlx") eqn:E2.
  { intros [= <-]. unfold validate_mlx, has_config.
    destruct (fs_is_file _ _); [by apply found_with_Some | by apply found_with_None]. }
  destruct (String.eqb fmt "safetensors"); [|done]. intros [= <-].
  unfold validate_safetensors. destruct (has_config fs dir), (has_safetensors fs dir);
    (by apply found_with_Some) || (by apply found_with_None).
Qed.

Lemma resolve_format_supported f model_id fmt :
  resolve_format f model_id = Some fmt -> fmt ∈ _SUPPORTED_FORMATS.
Proof.
  unfold resolve_format, detect_format. destruct f as [f|].
  - case_bool_decide as H; [by intros [= <-] | done].
  - intros [= <-]. destruct (_ || _); [|destruct (_ || _)]; by apply (bool_decide_unpack _).
Qed.

(** Where a request is served from: the first root, in the given order, that has the
    model's directory. *)
Definition located (request : ModelResolutionRequest) : option string :=
  fmt ← resolve_format (mq_format request) (mq_model_id request);
  '(publisher, repo) ← split_model_id (mq_model_id request);
  root ← List.find (is_candidate_dir fs fmt publisher repo) (mq_search_paths request);
  pick (candidate fs root fmt publisher repo) fmt (mq_quant request).

Lemma find_split {A} (p : A -> bool) l :
  match List.find p l with
  | Some x => exists before after, l = before ++ x :: after /\ p x = true
                /\ forall y, y ∈ before -> p y = false
  | None => forall y, y ∈ l -> p y = false
  end.
Proof.
  induction l as [|a l IH]; simpl; [set_solver|]. destruct (p a) eqn:E.
  - exists [], l. repeat split; [done|set_solver].
  - destruct (List.find p l) as [x|].
    + destruct IH as (before & after & -> & Hx & Hb). exists (a :: before), after.
      repeat split; [done|]. intros y [-> | Hy]%elem_of_cons; auto.
    + intros y [-> | Hy]%elem_of_cons; auto.
Qed.

Lemma resolve_model_located request : found_with (resolve_model fs request) (located request).
Proof.
  unfold resolve_model, located.
  destruct (resolve_format _ _) as [fmt|] eqn:Hfmt; [|by apply found_with_None].
  apply resolve_format_supported in Hfmt. csimpl.
  destruct (split_model_id _) as [[publisher repo]|]; [|by apply found_with_None]. csimpl.
  pose proof (find_split (is_candidate_dir fs fmt publisher repo) (mq_search_paths request)) as Hs.
  destruct (List.find _ _) as [root|]; csimpl.
  - destruct Hs as (before & after & -> & Hr & Hb).
    edestruct (search_roots_first fs fmt publisher repo) as (paths & ->); [done..|].
    destruct (validate_directory _ _ _ _ _ _ _) as [r|] eqn:E.
    + by eapply validate_directory_found.
    + apply validate_directory_some in E; [|done]. unfold is_candidate_dir in Hr. congruence.
  - destruct (search_roots _ _ _ _ _ _ _ _ _) as [o l] eqn:E.
    pose proof (search_roots_none fs fmt publisher repo (mq_quant request) (mq_model_id request)
                  (runtime_map fmt) (mq_search_paths request) [] Hfmt Hs) as Hn.
    rewrite E in Hn. simpl in Hn. subst o. by apply found_with_None.
Qed.

End resolution.

(** ** The inventory *)
Section inventory_props.
Context (fs : FS) (known_quants : list string).

(** What an inventory entry promises: a format with its runtime, servable exactly when
    that runtime exists, and the id of an enabled route whose directory exists. *)
Definition entry_ok (routes : list ExternalWeightRoute) (e : ExternalModelInventoryEntry) : Prop :=
  xe_format e ∈ _SUPPORTED_FORMATS /\ xe_runtime e = runtime_map (xe_format e)
  /\ xe_servable e = negb (String.eqb (xe_runtime e) "unsupported")
  /\ exists r, r ∈ routes /\ xr_id r = xe_route_id e /\ xr_enabled r = true
       /\ fs_is_dir fs (fs_resolve fs (fs_expanduser fs (xr_path r))) = true.

Definition inventory_inv (P : ExternalModelInventoryEntry -> Prop) (st : inventory_state) : Prop :=
  NoDup (map xe_id (fst st)) /\ (forall i, i ∈ snd st <-> i ∈ map xe_id (fst st))
  /\ forall e, e ∈ fst st -> P e.

Lemma add_entry_inv P e st : P e -> inventory_inv P st -> inventory_inv P (add_entry e st).
Proof.
  intros He (Hn & Hs & Hall). destruct st as [entries seen]. unfold add_entry, inventory_inv in *. simpl in *.
  case_bool_decide as Hin; [done|]. simpl. rewrite map_app. simpl. repeat split.
  - apply NoDup_app. split; [done|]. split; [|apply NoDup_singleton].
    intros i Hi ->%list_elem_of_singleton. by apply Hin, Hs.
  - rewrite elem_of_cons, elem_of_app, list_elem_of_singleton, Hs. tauto.
  - rewrite elem_of_cons, elem_of_app, list_elem_of_singleton, Hs. tauto.
  - intros e' [H | ->%list_elem_of_singleton]%elem_of_app; auto.
Qed.

Lemma fold_inv {A S} (I : S -> Prop) (f : S -> A -> S) (l : list A) (s : S) :
  (forall s x, x ∈ l -> I s -> I (f s x)) -> I s -> I (fold_left f l s).
Proof.
  revert s. induction l as [|x l IH]; intros s Hf Hs; simpl; [done|].
  apply IH; [intros; apply Hf; [by apply list_elem_of_further | done]|].
  apply Hf; [apply list_elem_of_here | done].
Qed.

Definition kind_ok (route_id : string) (e : ExternalModelInventoryEntry) : Prop :=
  xe_format e ∈ _SUPPORTED_FORMATS /\ xe_runtime e = runtime_map (xe_format e)
  /\ xe_servable e = negb (String.eqb (xe_runtime e) "unsupported") /\ xe_route_id e = route_id.

Lemma scan_repo_inv (P : ExternalModelInventoryEntry -> Prop) fmt model_id repo route_id st :
  (forall e, kind_ok route_id e -> P e) ->
  inventory_inv P st -> inventory_inv P (scan_repo fs known_quants fmt model_id repo route_id st).
Proof.
  intros HP Hst. unfold scan_repo. destruct (String.eqb fmt "gguf").
  - unfold scan_gguf_dir. apply fold_inv; [|done]. intros s name _ Hs.
    destruct (startswith "." name); [done|]. apply add_entry_inv; [|done].
    apply HP. split; [by apply (bool_decide_unpack _)|done].
  - destruct (build_entry _ _ _ _ _) as [e|] eqn:E; [|done]. apply add_entry_inv; [|done]. apply HP.
    unfold build_entry, build_mlx_entry, build_safetensors_entry in E.
    destruct (String.eqb fmt "mlx"); [|destruct (String.eqb fmt "safetensors"); [|done]];
      [destruct (negb _) | destruct (_ && _)]; simplify_eq;
      (split; [by apply (bool_decide_unpack _) | done]).
Qed.

Lemma scan_route_inv (P : ExternalModelInventoryEntry -> Prop) root route_id st :
  (forall e, kind_ok route_id e -> P e) ->
  inventory_inv P st -> inventory_inv P (scan_route fs known_quants root route_id st).
Proof.
  intros HP. unfold scan_route. apply fold_inv. intros s fmt _ Hs.
  destruct (negb _); [done|]. revert Hs. apply fold_inv. intros s2 publisher _ Hs2.
  revert Hs2. apply fold_inv. intros s3 repo _. by apply scan_repo_inv.
Qed.

Lemma path_to_route_some_gen l s d :
  s ∈ l -> xs_available s = true ->
  exists s', (s' ∈ l) /\ xs_available s' = true /\
    dget (str_path (fs_resolve fs (xs_path s)))
      (fold_left (fun d s => if xs_available s
                             then dset (str_path (fs_resolve fs (xs_path s))) (xs_id s) d else d) l d)
    = Some (xs_id s').
Proof.
  revert d. induction l as [|t l IH] using rev_ind; intros d Hs Ha; [by apply elem_of_nil in Hs|].
  rewrite fold_left_app. simpl.
  destruct (xs_available t) eqn:Et.
  - destruct (decide (str_path (fs_resolve fs (xs_path s)) = str_path (fs_resolve fs (xs_path t)))) as [Hk|Hk].
    + exists t. rewrite Hk, dget_dset_eq. split; [apply elem_of_app; right; by apply list_elem_of_singleton|done].
    + rewrite dget_dset_ne by done. apply elem_of_app in Hs as [Hs | ->%list_elem_of_singleton]; [|done].
      destruct (IH d Hs Ha) as (s' & ? & ? & ?). exists s'. split; [apply elem_of_app; by left|done].
  - apply elem_of_app in Hs as [Hs | ->%list_elem_of_singleton]; [|congruence].
    destruct (IH d Hs Ha) as (s' & ? & ? & ?). exists s'. split; [apply elem_of_app; by left|done].
Qed.

Lemma status_id r : xs_id (validate_route_status fs r) = xr_id r.
Proof.
  unfold validate_route_status. destruct (negb (xr_enabled r)); [done|].
  destruct (fs_exists _ _); [destruct (fs_is_dir _ _)|destruct (is_mount_unavailable _ _)]; done.
Qed.

Lemma inventory_inv_holds routes :
  inventory_inv (entry_ok routes)
    (fold_left (fun st root =>
         scan_route fs known_quants root
           (dget_or (str_path (fs_resolve fs root)) "unknown" (path_to_route fs routes)) st)
         (get_available_route_paths fs routes) ([], [])).
Proof.
  apply fold_inv.
  2:{ repeat split; [constructor | simpl; set_solver.. ]. }
  intros st root Hroot. apply scan_route_inv. intros e (Hf & Hr & Hs & Hid).
  repeat split; [done..|]. unfold get_available_route_paths in Hroot.
  apply list_elem_of_fmap in Hroot as (s & -> & Hin). unfold available_statuses in Hin.
  apply elem_of_stable_sort, elem_of_filter_List in Hin as [Hin Ha].
  apply list_elem_of_fmap in Hin as (r & -> & [Hr' He]%elem_of_filter_List).
  destruct (path_to_route_some_gen (validate_all_routes fs routes) (validate_route_status fs r) [])
    as (s' & Hs' & Ha' & Hg); [by apply list_elem_of_fmap; eauto | done |].
  apply list_elem_of_fmap in Hs' as (r' & -> & Hr'').
  exists r'. apply available_is_dir in Ha' as (He' & _ & Hd'). repeat split; [done| |done..].
  rewrite Hid. unfold dget_or, path_to_route. rewrite Hg. simpl. by rewrite status_id.
Qed.
End inventory_props.

Lemma StronglySorted_impl {A} (R S : A -> A -> Prop) (l : list A) :
  (forall a b, R a b -> S a b) -> StronglySorted R l -> StronglySorted S l.
Proof.
  intros H. induction 1 as [|a l _ IH Hall]; constructor; [done|].
  eapply List.Forall_impl; [|exact Hall]. auto.
Qed.

(** ** Properties *)

(** The external roots are searched by ascending route priority, ties by route id, and
    they are exactly the resolved directories of the enabled routes that exist. *)
Theorem routes_searched_in_priority_order (fs : FS) (routes : list ExternalWeightRoute) :
  (exists statuses,
    get_available_route_paths fs routes = map xs_path statuses
    /\ statuses ≡ₚ List.filter xs_available (map (validate_route_status fs) routes)
    /\ StronglySorted (fun a b =>
         (status_priority routes a < status_priority routes b)%Z
         \/ (status_priority routes a = status_priority routes b /\ string_leb (xs_id a) (xs_id b) = true))
         statuses)
  /\ forall p, p ∈ get_available_route_paths fs routes <->
       exists r, r ∈ routes /\ xr_enabled r = true /\ p = fs_resolve fs (fs_expanduser fs (xr_path r))
                 /\ fs_exists fs p = true /\ fs_is_dir fs p = true.
Proof.
  destruct (available_statuses_ordered fs routes) as [Hp Hs].
  assert (Hp' : available_statuses fs routes
                ≡ₚ List.filter xs_available (map (validate_route_status fs) routes)).
  { rewrite Hp. clear. induction routes as [|r routes IH]; [done|].
    pose proof (available_is_dir fs r) as Hr. simpl.
    destruct (xr_enabled r); simpl; destruct (xs_available (validate_route_status fs r)) eqn:E; simpl;
      rewrite ?IH; try done. by destruct (proj1 Hr eq_refl). }
  split.
  - exists (available_statuses fs routes). repeat split; [done|].
    eapply StronglySorted_impl; [|exact Hs]. intros a b. unfold status_le.
    by rewrite orb_true_iff, andb_true_iff, Z.ltb_lt, Z.eqb_eq.
  - intros p. unfold get_available_route_paths. rewrite list_elem_of_fmap.
    assert (Hpath : forall r, xr_enabled r = true ->
      xs_path (validate_route_status fs r) = fs_resolve fs (fs_expanduser fs (xr_path r))).
    { intros r E. unfold validate_route_status. rewrite E. simpl.
      destruct (fs_exists _ _); [destruct (fs_is_dir _ _)|destruct (is_mount_unavailable _ _)]; done. }
    split.
    + intros (s & -> & Hin). rewrite Hp' in Hin. apply elem_of_filter_List in Hin as [Hin Ha].
      apply list_elem_of_fmap in Hin as (r & -> & Hr).
      destruct (proj1 (available_is_dir fs r) Ha) as (He & Hx & Hd).
      exists r. by rewrite Hpath.
    + intros (r & Hr & He & -> & Hx & Hd). exists (validate_route_status fs r).
      split; [by rewrite Hpath|]. rewrite Hp'. apply elem_of_filter_List. split.
      * apply list_elem_of_fmap. by exists r.
      * by apply available_is_dir.
Qed.

(** C36: A request resolves exactly when its format is supported, its id is
    [publisher/repo], and the first root that has the directory
    [root/format/publisher/repo] holds a file or configuration that satisfies it; the
    returned path is that one, and the roots after that root are never consulted. *)
Theorem resolve_model_exact (fs : FS) (request : ModelResolutionRequest) :
  mr_path (resolve_model fs request) = located fs request
  /\ (mr_status (resolve_model fs request) = FOUND <-> is_Some (located fs request))
  /\ forall root later fmt publisher repo,
       resolve_format (mq_format request) (mq_model_id request) = Some fmt ->
       split_model_id (mq_model_id request) = Some (publisher, repo) ->
       root ∈ mq_search_paths request -> is_candidate_dir fs fmt publisher repo root = true ->
       mr_path (resolve_model fs (mkResolutionRequest (mq_model_id request) (mq_format request)
                 (mq_quant request) (mq_search_paths request ++ later)))
       = mr_path (resolve_model fs request).
Proof.
  destruct (resolve_model_located fs request) as [H1 H2]. split; [done|]. split; [done|].
  intros root later fmt publisher repo Hf Hsp Hin Hd. rewrite H1.
  rewrite (proj1 (resolve_model_located fs _)). unfold located. simpl. rewrite Hf. csimpl. rewrite Hsp.
  csimpl. f_equal. clear H1 H2. induction (mq_search_paths request) as [|r l IH]; [by apply elem_of_nil in Hin|].
  simpl. destruct (is_candidate_dir fs fmt publisher repo r) eqn:E; [done|].
  apply elem_of_cons in Hin as [-> | Hin]; [congruence | by apply IH].
Qed.

(** Public ids are unique in the inventory, and every entry names a supported format
    with the runtime of that format, is servable exactly when that runtime exists, and
    belongs to an enabled route whose directory exists. *)
Theorem inventory_well_formed (fs : FS) (known_quants : list string)
    (routes : list ExternalWeightRoute) :
  NoDup (map xe_id (list_external_model_inventory fs known_quants routes))
  /\ forall e, e ∈ list_external_model_inventory fs known_quants routes -> entry_ok fs routes e.
Proof. destruct (inventory_inv_holds fs known_quants routes) as (Hn & _ & Hall). by split. Qed.

(** The hand-off of a requested id succeeds only for an id the inventory lists; the
    runtime, format and route are that entry's, and the path is the one the resolver
    locates for the entry's model under the available roots. *)
Theorem external_resolution_sound (fs : FS) (known_quants : list string)
    (routes : list ExternalWeightRoute) (m : string) :
  (xx_found (resolve_external_runtime_model fs known_quants m routes) = true <->
   m ∈ map xe_id (list_external_model_inventory fs known_quants routes))
  /\ (xx_servable (resolve_external_runtime_model fs known_quants m routes) = true ->
      exists e, e ∈ list_external_model_inventory fs known_quants routes
        /\ xe_id e = m /\ entry_ok fs routes e /\ xe_format e <> "safetensors"
        /\ xx_format (resolve_external_runtime_model fs known_quants m routes) = Some (xe_format e)
        /\ xx_runtime (resolve_external_runtime_model fs known_quants m routes)
           = Some (runtime_map (xe_format e))
        /\ xx_route_id (resolve_external_runtime_model fs known_quants m routes)
           = Some (xe_route_id e)
        /\ is_Some (xx_path (resolve_external_runtime_model fs known_quants m routes))
        /\ exists quant,
           xx_path (resolve_external_runtime_model fs known_quants m routes)
           = located fs (mkResolutionRequest
               (if String.eqb (xe_model_id e) "" then m else xe_model_id e)
               (Some (xe_format e)) quant (get_available_route_paths fs routes))).
Proof.
  destruct (inventory_inv_holds fs known_quants routes) as (_ & _ & Hall).
  change (fst _) with (list_external_model_inventory fs known_quants routes) in Hall.
  unfold resolve_external_runtime_model.
  destruct (parse_external_model_public_id m) as [[mid fmt] quant].
  pose proof (find_split (fun e => String.eqb (xe_id e) m)
                (list_external_model_inventory fs known_quants routes)) as Hs.
  destruct (List.find _ _) as [e|].
  - destruct Hs as (before & after & Hl & He & _). apply String.eqb_eq in He.
    assert (Hin : e ∈ list_external_model_inventory fs known_quants routes).
    { rewrite Hl. apply elem_of_app; right; apply list_elem_of_here. }
    assert (Hm : m ∈ map xe_id (list_external_model_inventory fs known_quants routes)).
    { apply list_elem_of_fmap. by exists e. }
    destruct (xe_servable e) eqn:Hserv; simpl; [|done].
    destruct (get_available_route_paths fs routes) as [|root roots] eqn:Hroots; [done|].
    set (request := mkResolutionRequest _ _ _ _).
    destruct (resolve_model_located fs request) as [Hp Hst].
    case_decide as Hf; [|done]. split; [done|]. intros _. simpl.
    destruct (Hall e Hin) as (Hfmt & Hrt & Hsv & Hr).
    exists e. repeat split; [done..| |by rewrite Hrt|rewrite Hp; by apply Hst|by eexists].
    intros Hns. rewrite Hsv, Hrt, Hns in Hserv. done.
  - simpl. split; [|done]. split; [done|]. intros (e & He & Hin)%list_elem_of_fmap.
    specialize (Hs e Hin). simpl in Hs. subst m. by rewrite String.eqb_refl in Hs.
Qed.

(** Two external drives.  The first holds an empty directory for [acme/m-GGUF] and two
    quantizations of [acme/chat]; the second holds the model [acme/m-GGUF]. *)
Definition demo_dirs : list path :=
  [["/"; "a"]; ["/"; "a"; "gguf"]; ["/"; "a"; "gguf"; "acme"]; ["/"; "a"; "gguf"; "acme"; "chat"];
   ["/"; "a"; "gguf"; "acme"; "m-GGUF"];
   ["/"; "b"]; ["/"; "b"; "gguf"]; ["/"; "b"; "gguf"; "acme"]; ["/"; "b"; "gguf"; "acme"; "m-GGUF"]].

Definition demo_weights : list path :=
  [["/"; "a"; "gguf"; "acme"; "chat"; "chat.Q8_0.gguf"];
   ["/"; "a"; "gguf"; "acme"; "chat"; "chat.Q4_K_M.gguf"];
   ["/"; "b"; "gguf"; "acme"; "m-GGUF"; "m.Q4_K_M.gguf"]].

Definition demo_fs : FS := tree_fs demo_dirs demo_weights.
Definition demo_route (id name : string) (priority : Z) : ExternalWeightRoute :=
  mkRoute id ["/"; name] true true priority.
Definition demo_routes : list ExternalWeightRoute := [demo_route "slow" "b" 200; demo_route "fast" "a" 10].
Definition demo_quants : list string := ["Q4_K_M"; "Q5_K_M"; "Q8_0"].

Lemma external_resolution_sound_witness :
  exists e, e ∈ list_external_model_inventory demo_fs demo_quants [demo_route "slow" "b" 200]
    /\ xe_id e = "acme/m-GGUF:Q4_K_M".
Proof.
  destruct (proj2 (external_resolution_sound demo_fs demo_quants [demo_route "slow" "b" 200]
    "acme/m-GGUF:Q4_K_M") ltac:(vm_compute; reflexivity)) as (e & H1 & H2 & _). by exists e.
Defined.

Lemma resolve_model_exact_witness :
  mr_path (resolve_model demo_fs (mkResolutionRequest "acme/chat" (Some "gguf") (Some "q8_0")
    ([["/"; "b"]; ["/"; "a"]] ++ [["/"; "c"]]))) = Some "/a/gguf/acme/chat/chat.Q8_0.gguf".
Proof.
  rewrite (proj2 (proj2 (resolve_model_exact demo_fs (mkResolutionRequest "acme/chat" (Some "gguf")
    (Some "q8_0") [["/"; "b"]; ["/"; "a"]]))) ["/"; "a"] _ "gguf" "acme" "chat");
    [vm_compute; reflexivity.. | apply list_elem_of_further, list_elem_of_here | vm_compute; reflexivity].
Defined.

(** An id the inventory advertises need not be handed off as advertised. The quant
    suffix is honoured only when the repository's name contains [GGUF]: asked for
    [acme/chat:Q8_0] the hand-off serves the alphabetically first file, of another
    quantization. And the resolver stops at the first root that has the model's directory
    even when that directory is empty: a servable entry of a later route is refused. *)
Theorem advertised_id_served_wrongly_or_refused :
  map xe_id (list_external_model_inventory demo_fs demo_quants demo_routes)
    = ["acme/chat:Q4_K_M"; "acme/chat:Q8_0"; "acme/m-GGUF:Q4_K_M"]
  /\ (let r := resolve_external_runtime_model demo_fs demo_quants "acme/chat:Q8_0" demo_routes in
      xx_servable r = true /\ xx_path r = Some "/a/gguf/acme/chat/chat.Q4_K_M.gguf")
  /\ (let r := resolve_external_runtime_model demo_fs demo_quants "acme/m-GGUF:Q4_K_M" demo_routes in
      xx_servable r = false /\ xx_reason r = Some "invalid_layout")
  /\ (let r := resolve_external_runtime_model demo_fs demo_quants "acme/m-GGUF:Q4_K_M"
                 [demo_route "slow" "b" 200] in
      xx_servable r = true /\ xx_path r = Some "/b/gguf/acme/m-GGUF/m.Q4_K_M.gguf").
Proof. vm_compute. repeat split; reflexivity. Qed.
