(* ===== verification/Routing.v ===== *)
(** * The runtime router ([routing.py])

    One adapter per runtime kind; a model id is resolved to an adapter by the model
    registry, the external routes, and then heuristics.

    - An adapter is the record [Adapter] of what the router reads and calls: its
      attributes and the outcomes of its methods.  Its attestation producer, when it has
      one, is a function that may raise; a result that is not an attestation is [None].
    - The world of a resolution is the registry cache of the runtime state and the
      external-path bindings [set_external_model_path] makes in the request's context.
    - The environment, the file system and the parsers are the record [Inputs]. *)

From S2P Require Import Prelude PyDict PyStr PySeq PyRe.
From S2P Require Import Correlation Config RequestPolicy LogSafety Registry ModelPath.
From Stdlib Require Import Ascii.

(** ** Contracts *)

(** [contracts.RuntimeKind] *)
Inductive RuntimeKind := STUB | MLX_LM | MLX_LM_SERVER | MLX_VLM | LLAMA_CPP.

Definition RuntimeKind_value (k : RuntimeKind) : string :=
  match k with
  | STUB => "stub" | MLX_LM => "mlx_lm" | MLX_LM_SERVER => "mlx_lm_server"
  | MLX_VLM => "mlx_vlm" | LLAMA_CPP => "llama_cpp"
  end.

Definition _EXECUTION_MODES : list (string * string) :=
  [(RuntimeKind_value STUB, "stub"); (RuntimeKind_value MLX_LM, "in_process");
   (RuntimeKind_value MLX_LM_SERVER, "managed_sidecar"); (RuntimeKind_value MLX_VLM, "managed_sidecar");
   (RuntimeKind_value LLAMA_CPP, "external_sidecar")].

Definition _ADAPTER_NAMES : list (string * string) :=
  [(RuntimeKind_value STUB, "stub"); (RuntimeKind_value MLX_LM, "mlx-lm");
   (RuntimeKind_value MLX_LM_SERVER, "mlx-lm-server"); (RuntimeKind_value MLX_VLM, "mlx-vlm");
   (RuntimeKind_value LLAMA_CPP, "llama-cpp")].

Definition execution_mode_of (kind : string) : string :=
  dget_or kind "external_sidecar" _EXECUTION_MODES.

(** [contracts.RuntimeHealthState] *)
Inductive RuntimeHealthState :=
| HS_OFFLINE | HS_STARTING | HS_RUNTIME_AVAILABLE | HS_MODEL_WARMING | HS_READY | HS_GENERATING
| HS_DEGRADED | HS_ERROR.

#[export] Instance RuntimeHealthState_eq_dec : EqDecision RuntimeHealthState.
Proof. solve_decision. Defined.

Record RuntimeHealth := mkHealth {
  rh_kind : string;
  rh_enabled : bool;
  rh_state : RuntimeHealthState;
  rh_active_model : option string;
  rh_configured_model : option string;
  rh_detail : option string;
}.

Record RuntimeModel := mkRuntimeModel {
  md_id : string;
  md_display_name : string;
  md_runtime : string;
  md_format : string;
  md_path : option string;
  md_context_window : option Z;
  md_supports_tools : option bool;
  md_supports_vision : option bool;
  md_supports_reasoning : option bool;
  md_loaded : bool;
  md_state : string;
}.

(** ** Exceptions of this component *)
Definition exc_class (e : pyexc) : string :=
  match e with
  | KeyError _ => "KeyError" | ValueError _ => "ValueError" | RuntimeError _ => "RuntimeError"
  | IndexError => "IndexError" | Exc class _ => class
  end.

Definition exc_text (e : pyexc) : string :=
  match e with
  | KeyError k => repr_str k | ValueError m | RuntimeError m | Exc _ m => m
  | IndexError => "list index out of range"
  end.

Definition exc_metadata (e : pyexc) : string := exception_metadata (Some (exc_class e, exc_text e)).

(** [ModelResolutionError(model_id, detail)] *)
Definition ModelResolutionError (model_id detail : string) : pyexc :=
  Exc "ModelResolutionError"
    (strip ("Cannot resolve model '" +:+ safe_model_alias model_id +:+ "' to a runtime. "
            +:+ detail)).

(** ** Requests and responses *)

(** [backend_request_policy.BackendGenerateRequest]; the floats are kept as values. *)
Record BackendGenerateRequest := mkBackendGenerate {
  bg_prompt : string;
  bg_model_id : option string;
  bg_max_tokens : Z;
  bg_temperature : pyval;
  bg_top_p : pyval;
  bg_stop : option (list string);
  bg_request_id : option string;
  bg_adapter_kind : string;
}.

(** [contracts.GenerateRequest] *)
Record GenerateRequest := mkGenerate {
  gq_prompt : string;
  gq_model_id : option string;
  gq_max_tokens : Z;
  gq_temperature : pyval;
  gq_top_p : pyval;
  gq_stop : option (list string);
  gq_client_request_id : option string;
}.

(** [sanitize_generate_request] of a public request. *)
Definition ensure_backend_generate_request (r : GenerateRequest) (adapter_kind : string)
    : BackendGenerateRequest :=
  mkBackendGenerate (gq_prompt r) (gq_model_id r) (gq_max_tokens r) (gq_temperature r) (gq_top_p r)
    (gq_stop r) (gq_client_request_id r)
    (if String.eqb adapter_kind "" then "generic" else adapter_kind).

(** [contracts.RuntimeProvenance]; [R] is the type of attestation references. *)
Record RuntimeProvenance {R : Type} := mkProvenance {
  pv_request_id : option string;
  pv_upstream_request_id : option string;
  pv_requested_model_id : string;
  pv_advertised_model_id : string;
  pv_resolved_model_id : string;
  pv_backend_reported_model_id : option string;
  pv_runtime_kind : string;
  pv_adapter_name : string;
  pv_resolution_source : string;
  pv_execution_mode : string;
  pv_streaming : bool;
  pv_queued : bool;
  pv_batched : bool;
  pv_model_lifecycle : option string;
  pv_whooshd_version : string;
  pv_qualification_attestation : option R;
}.
Arguments RuntimeProvenance : clear implicits.
Arguments mkProvenance {R}.

(** A response or a chunk: the model the backend reports, the provenance, and the fields
    the router copies unread. *)
Record Response {R : Type} := mkResponse {
  rs_request_id : string;
  rs_model : option string;
  rs_provenance : option (RuntimeProvenance R);
  rs_rest : pyval;
}.
Arguments Response : clear implicits.
Arguments mkResponse {R}.

(** ** Adapters *)
Record Adapter {R : Type} := mkAdapter {
  ad_name : string;
  ad_kind : string;
  ad_supports_streaming : bool;
  ad_model_id : pyres (option string);
  ad_max_concurrent_requests : pyres (option Z);
  ad_accepts_external_path : bool;
  ad_attestation : option (string -> string -> pyres (option R));
  ad_generate : BackendGenerateRequest -> pyres (Response R);
  ad_chat_completion : BackendChatRequest -> pyres (Response R);
  ad_chat_completion_stream : BackendChatRequest -> list (Response R) * option pyexc;
  ad_list_models : pyres (list RuntimeModel);
  ad_health : pyres RuntimeHealth;
  ad_warmup : pyres unit;
  ad_unload : pyres unit;
}.
Arguments Adapter : clear implicits.
Arguments mkAdapter {R}.

Record RuntimeRouter {R : Type} := mkRouter {
  rr_adapters : list (string * Adapter R);
  rr_model_runtime_map : list (string * string);
  rr_session : list (string * pyval);
}.
Arguments RuntimeRouter : clear implicits.
Arguments mkRouter {R}.

Record RuntimeResolution {R : Type} := mkResolution {
  rn_adapter : Adapter R;
  rn_requested_model_id : string;
  rn_resolution_source : string;
  rn_advertised_model_id : string;
  rn_resolved_model_id : string;
  rn_execution_mode : string;
  rn_qualification_attestation : option R;
  rn_lane : option string;
  rn_lane_max_concurrent : option Z;
}.
Arguments RuntimeResolution : clear implicits.
Arguments mkResolution {R}.

(** Where the router reads from. *)
Record Inputs := mkInputs {
  in_env : environ;
  in_registry_files : RegistryFiles;
  in_fs : FS;
  in_known_quants : list string;
  in_json_loads : string -> option pyval;
  in_version : string;
}.

Record World := mkWorld {
  wd_registry : registry_cache;
  wd_external_paths : list (string * string);
}.

(** ** Provenance and attestation *)
Section routing.
Context {R : Type}.

(** [text or None] *)
Definition or_none (o : option string) : option string := if str_truthy o then o else None.

Definition inventory_provenance (version model_id runtime_kind resolution_source : string)
    (loaded : bool) (adapter_name : option string) (qualification_attestation : option R)
    : RuntimeProvenance R :=
  mkProvenance None None (safe_model_alias model_id) (safe_model_alias model_id)
    (safe_model_alias model_id) None (str_take 64 runtime_kind)
    (str_take 64 (default (dget_or runtime_kind runtime_kind _ADAPTER_NAMES) (or_none adapter_name)))
    resolution_source (execution_mode_of runtime_kind) false false false
    (Some (if loaded then "ready" else "unloaded")) (str_take 64 version) qualification_attestation.

(** [target_attestation_reference]: a producer that raises has no evidence. *)
Definition target_attestation_reference (adapter : Adapter R)
    (invocation_model_id resolved_model_id : string) : option R :=
  match ad_attestation adapter with
  | None => None
  | Some producer =>
      match producer invocation_model_id resolved_model_id with Ret r => r | Raise _ => None end
  end.

(** [RuntimeResolution.for_model] *)
Definition for_model (r : RuntimeResolution R) (model_id : string) : RuntimeResolution R :=
  mkResolution (rn_adapter r) model_id (rn_resolution_source r) model_id (rn_resolved_model_id r)
    (rn_execution_mode r)
    (target_attestation_reference (rn_adapter r) model_id (rn_resolved_model_id r))
    (rn_lane r) (rn_lane_max_concurrent r).

(** [RuntimeResolution.provenance] *)
Definition provenance (version : string) (r : RuntimeResolution R)
    (request_id upstream_request_id : pyval) (backend_reported_model_id : option string)
    (streaming queued batched : bool) (model_lifecycle : option string) : RuntimeProvenance R :=
  mkProvenance (normalize_identifier request_id) (normalize_identifier upstream_request_id)
    (safe_model_alias (rn_requested_model_id r)) (safe_model_alias (rn_advertised_model_id r))
    (safe_model_alias (rn_resolved_model_id r))
    (option_map safe_model_alias (or_none backend_reported_model_id))
    (str_take 64 (ad_kind (rn_adapter r))) (str_take 64 (ad_name (rn_adapter r)))
    (rn_resolution_source r) (rn_execution_mode r) streaming queued batched model_lifecycle
    (str_take 64 version) (rn_qualification_attestation r).

(** ** Registration *)
Definition empty_router (session : list (string * pyval)) : RuntimeRouter R := mkRouter [] [] session.

Definition register (adapter : Adapter R) (rr : RuntimeRouter R) : RuntimeRouter R :=
  mkRouter (dset (ad_kind adapter) adapter (rr_adapters rr)) (rr_model_runtime_map rr) (rr_session rr).

Definition unregister (kind : string) (rr : RuntimeRouter R) : RuntimeRouter R :=
  mkRouter (ddel kind (rr_adapters rr)) [] (rr_session rr).

Definition get_adapter (kind : string) (rr : RuntimeRouter R) : option (Adapter R) :=
  dget kind (rr_adapters rr).

Definition registered_kinds (rr : RuntimeRouter R) : list string := dkeys (rr_adapters rr).

(** [str(list)] of strings *)
Definition str_list (l : list string) : string := "[" +:+ join ", " (map repr_str l) +:+ "]".

(** ** Resolution *)

(** [_resolution] *)
Definition resolution (adapter : Adapter R) (model_id source : string) : RuntimeResolution R :=
  let loaded_model_id := match ad_model_id adapter with Ret m => m | Raise _ => None end in
  let resolved := default model_id (or_none loaded_model_id) in
  mkResolution adapter model_id source model_id resolved (execution_mode_of (ad_kind adapter))
    (target_attestation_reference adapter model_id resolved)
    (Some (str_take 64 (ad_kind adapter)))
    (match ad_max_concurrent_requests adapter with Ret m => m | Raise _ => None end).

Definition engine_kind_map (engine : EngineType) : string :=
  match engine with
  | ENG_LLAMA_CPP => RuntimeKind_value LLAMA_CPP
  | ENG_MLX_LM => RuntimeKind_value MLX_LM_SERVER
  | ENG_MLX_VLM => RuntimeKind_value MLX_VLM
  end.

(** Step 1: a decision ([Some]) or the fall-through ([None]); every engine has a kind. *)
Definition registry_step (authoritative : bool) (reg : registry_cache) (rr : RuntimeRouter R)
    (model_id : string) : option (pyres (RuntimeResolution R)) :=
  match reg with
  | RegNone | RegFalse =>
      if authoritative then
        Some (Raise (ModelResolutionError model_id "The configured runtime registry is unavailable."))
      else None
  | RegLoaded registry =>
      match registry_get model_id registry with
      | None =>
          if authoritative then
            Some (Raise (ModelResolutionError model_id
                           "Model is not allowed by the active runtime registry."))
          else None
      | Some entry =>
          if negb (rm_enabled entry) then
            if authoritative then
              Some (Raise (ModelResolutionError model_id
                             "Model is disabled by the active runtime registry."))
            else None
          else
            let kind := engine_kind_map (rm_engine entry) in
            match get_adapter kind rr with
            | Some adapter => Some (Ret (resolution adapter model_id "authoritative_registry"))
            | None =>
                Some (Raise (ModelResolutionError model_id
                  ("Model '" +:+ model_id +:+ "' needs the '" +:+ kind +:+
                   "' runtime, which is not enabled. Available: " +:+ str_list (registered_kinds rr))))
            end
      end
  end.

Definition external_kind_map (runtime : string) : option string :=
  if String.eqb runtime "llama_cpp" then Some (RuntimeKind_value LLAMA_CPP)
  else if String.eqb runtime "mlx_lm" then Some (RuntimeKind_value MLX_LM_SERVER)
  else None.

(** [_resolve_external_model]: the adapter and the path to bind on it. *)
Definition resolve_external_model (inp : Inputs) (rr : RuntimeRouter R) (model_id : string)
    : pyres (option (Adapter R * option string)) :=
  match load_external_weight_routes (in_fs inp) (in_json_loads inp)
          (dget_or "WHOOSHD_EXTERNAL_ROUTES" "" (in_env inp)) with
  | Raise _ => Ret None
  | Ret [] => Ret None
  | Ret routes =>
      let x := resolve_external_runtime_model (in_fs inp) (in_known_quants inp) model_id routes in
      if negb (xx_found x) then Ret None
      else if negb (xx_servable x) then
        let reason := default "not_servable" (or_none (xx_reason x)) in
        Raise (ModelResolutionError model_id
          (if String.eqb reason "route_unavailable" then "External model route is unavailable."
           else if String.eqb reason "not_servable" then
             "External model is visible but not servable by the current runtime configuration."
           else "External model cannot be served: " +:+ reason))
      else
        match kind ← external_kind_map (default "" (xx_runtime x)); get_adapter kind rr with
        | None =>
            Raise (ModelResolutionError model_id
              ("External model runtime '" +:+ default "None" (xx_runtime x) +:+ "' is not available."))
        | Some adapter =>
            Ret (Some (adapter,
                       if ad_accepts_external_path adapter then or_none (xx_path x) else None))
        end
  end.

(** Step 3: the first adapter that has the model loaded. *)
Fixpoint loaded_match (adapters : list (string * Adapter R)) (model_id : string)
    : pyres (option (Adapter R)) :=
  match adapters with
  | [] => Ret None
  | (_, adapter) :: adapters' =>
      let! loaded_id := ad_model_id adapter in
      if str_truthy loaded_id && bool_decide (loaded_id = Some model_id) then Ret (Some adapter)
      else loaded_match adapters' model_id
  end.

Definition non_stub (rr : RuntimeRouter R) : list (Adapter R) :=
  map snd (List.filter (fun p => negb (String.eqb (fst p) (RuntimeKind_value STUB))) (rr_adapters rr)).

(** Steps 2 to 5. *)
Definition heuristic_step (inp : Inputs) (rr : RuntimeRouter R) (model_id : string)
    : pyres (RuntimeResolution R) :=
  if endswith ".gguf" model_id then
    match get_adapter (RuntimeKind_value LLAMA_CPP) rr with
    | Some adapter => Ret (resolution adapter model_id "format_heuristic")
    | None => Raise (ModelResolutionError model_id
                "GGUF model detected but llama_cpp runtime is not registered.")
    end
  else
    let! loaded := loaded_match (rr_adapters rr) model_id in
    match loaded with
    | Some adapter => Ret (resolution adapter model_id "loaded_model_match")
    | None =>
        let stub := get_adapter (RuntimeKind_value STUB) rr in
        match (if String.eqb (get_adapter_backend (in_env inp)) "stub" then stub else None) with
        | Some stub_adapter => Ret (resolution stub_adapter model_id "configured_stub")
        | None =>
            match non_stub rr with
            | [only] => Ret (resolution only model_id "single_runtime_compatibility")
            | _ =>
                match (if length (rr_adapters rr) =? 1 then stub else None) with
                | Some stub_adapter => Ret (resolution stub_adapter model_id "stub_only_compatibility")
                | None =>
                    Raise (ModelResolutionError model_id
                      ("Model '" +:+ model_id +:+ "' does not match any registered runtime. " +:+
                       "Available runtimes: " +:+ str_list (registered_kinds rr)))
                end
            end
        end
    end.

Definition resolve_model_runtime (inp : Inputs) (rr : RuntimeRouter R) (w : World) (model_id : string)
    : pyres (RuntimeResolution R) * World :=
  let authoritative := match get_model_registry_path (in_env inp) with Some _ => true | None => false end in
  let reg := load_registry (in_registry_files inp) (in_env inp) (wd_registry w) in
  let w := mkWorld reg (wd_external_paths w) in
  match registry_step authoritative reg rr model_id with
  | Some decision => (decision, w)
  | None =>
      match resolve_external_model inp rr model_id with
      | Raise e => (Raise e, w)
      | Ret (Some (adapter, path)) =>
          (Ret (resolution adapter model_id "external_route"),
           match path with
           | Some p => mkWorld reg (dset (ad_kind adapter) p (wd_external_paths w))
           | None => w
           end)
      | Ret None => (heuristic_step inp rr model_id, w)
      end
  end.

(** ** Dispatch *)

(** The identifiers of the execution context; [None] is no context. *)
Definition context_ids (context : option (pyval * pyval)) : pyval * pyval :=
  default (PNone, PNone) context.

Definition policy_error (e : BackendRequestPolicyError) : pyexc :=
  Exc "BackendRequestPolicyError" (join ", " (pe_rejected_fields e)).

(** [ensure_backend_chat_request] for the selected adapter. *)
Definition backend_chat (request : IngressRequest) (r : RuntimeResolution R) : pyres BackendChatRequest :=
  match ensure_backend_chat_request (inl request) (Some (ad_kind (rn_adapter r))) with
  | inl e => Raise (policy_error e)
  | inr b => Ret b
  end.

Definition request_model (request : IngressRequest) : string :=
  match ir_field request "model" with PStr m => m | _ => "" end.

Definition with_provenance (p : RuntimeProvenance R) (r : Response R) : Response R :=
  mkResponse (rs_request_id r) (rs_model r) (Some p) (rs_rest r).

(** [generate], with the resolution of the caller when it has one. *)
Definition generate (inp : Inputs) (rr : RuntimeRouter R) (w : World) (request : GenerateRequest)
    (request_id : option string) (given : option (RuntimeResolution R)) : pyres (Response R) * World :=
  let model_id := default "stub-model" (or_none (gq_model_id request)) in
  let (r, w) := match given with
                | Some r => (Ret r, w)
                | None => resolve_model_runtime inp rr w model_id
                end in
  (let! r := r in
   let! result := ad_generate (rn_adapter r)
                    (ensure_backend_generate_request request (ad_kind (rn_adapter r))) in
   let rid := default (rs_request_id result)
                (or_none (if str_truthy request_id then request_id else gq_client_request_id request)) in
   Ret (with_provenance (provenance (in_version inp) r (PStr rid) PNone (rs_model result)
                           false false false None) result), w).

(** [chat_completion] *)
Definition chat_completion (inp : Inputs) (rr : RuntimeRouter R) (w : World)
    (request : IngressRequest) (context : option (pyval * pyval)) : pyres (Response R) * World :=
  let (r, w) := resolve_model_runtime inp rr w (request_model request) in
  (let! r := r in
   let! b := backend_chat request r in
   let! result := ad_chat_completion (rn_adapter r) b in
   let (rid, upstream) := context_ids context in
   Ret (with_provenance (provenance (in_version inp) r rid upstream (rs_model result)
                           false false false None) result), w).

(** The chunks of a stream, the first one marked. *)
Definition mark_first (p : Response R -> RuntimeProvenance R) (chunks : list (Response R))
    : list (Response R) :=
  match chunks with
  | [] => []
  | chunk :: rest => with_provenance (p chunk) chunk :: rest
  end.

(** [chat_completion_stream]: the chunks yielded and the exception that ends them. *)
Definition chat_completion_stream (inp : Inputs) (rr : RuntimeRouter R) (w : World)
    (request : IngressRequest) (context : option (pyval * pyval))
    : (list (Response R) * option pyexc) * World :=
  let (r, w) := resolve_model_runtime inp rr w (request_model request) in
  (match r with
   | Raise e => ([], Some e)
   | Ret r =>
       if negb (ad_supports_streaming (rn_adapter r)) then
         ([], Some (Exc "StreamingNotSupportedError"
                ("Runtime '" +:+ ad_kind (rn_adapter r) +:+ "' does not support streaming.")))
       else
         match backend_chat request r with
         | Raise e => ([], Some e)
         | Ret b =>
             let (chunks, ending) := ad_chat_completion_stream (rn_adapter r) b in
             let (rid, upstream) := context_ids context in
             (mark_first (fun chunk => provenance (in_version inp) r rid upstream (rs_model chunk)
                                         true false false None) chunks, ending)
         end
   end, w).

(** ** Aggregation over the adapters *)
Definition adapters_of (rr : RuntimeRouter R) : list (Adapter R) := dvalues (rr_adapters rr).

(** [list_models]: an adapter that raises contributes nothing. *)
Definition list_models (rr : RuntimeRouter R) : list RuntimeModel :=
  concat (map (fun a => match ad_list_models a with Ret ms => ms | Raise _ => [] end) (adapters_of rr)).

Definition unhealthy (s : RuntimeHealthState) : bool :=
  match s with HS_ERROR | HS_DEGRADED => true | _ => false end.

(** The [try] block of [health] for one adapter. *)
Definition adapter_health (a : Adapter R) : pyres RuntimeHealth :=
  let! h := ad_health a in
  let! configured := ad_model_id a in
  Ret (if str_truthy configured && bool_decide (rh_configured_model h = None) then
         mkHealth (rh_kind h) (rh_enabled h) (rh_state h) (rh_active_model h) configured (rh_detail h)
       else h).

Definition health_step (acc : list (string * RuntimeHealth) * string) (a : Adapter R)
    : list (string * RuntimeHealth) * string :=
  let (runtimes, status) := acc in
  match adapter_health a with
  | Ret h =>
      (dset (ad_kind a) h runtimes,
       if unhealthy (rh_state h) && String.eqb status "ok" then "degraded" else status)
  | Raise e =>
      (dset (ad_kind a) (mkHealth (ad_kind a) true HS_ERROR None None (Some (exc_metadata e))) runtimes,
       "degraded")
  end.

(** [health]: the aggregate status, the runtimes and the session. *)
Definition health (rr : RuntimeRouter R)
    : string * list (string * RuntimeHealth) * list (string * pyval) :=
  let (runtimes, status) := fold_left health_step (adapters_of rr) ([], "ok") in
  (status, runtimes,
   dset "registered_runtime_kinds" (PList (map PStr (sorted_names (dkeys runtimes)))) (rr_session rr)).

(** [warmup_all], [unload_all] *)
Definition lifecycle_all (op : Adapter R -> pyres unit) (done : string) (rr : RuntimeRouter R)
    : list (string * string) :=
  fold_left (fun d a =>
    dset (ad_kind a) (match op a with Ret _ => done | Raise e => "failed: " +:+ exc_class e end) d)
    (adapters_of rr) [].

Definition warmup_all : RuntimeRouter R -> list (string * string) := lifecycle_all ad_warmup "ready".
Definition unload_all : RuntimeRouter R -> list (string * string) := lifecycle_all ad_unload "unloaded".
End routing.
