(* ===== verification/RoutingProps.v ===== *)
(** * What the router guarantees

    The registry boundary, the external hand-off, the well-formedness of resolutions and
    of their provenance, streaming, the errors, and the aggregate health. *)

From S2P Require Import Prelude PyDict PyStr PySeq PyRe.
From S2P Require Import Correlation Config RequestPolicy LogSafety Registry ModelPath ModelPathProps Routing.
From Stdlib Require Import Ascii.

Section routing_props.
Context {R : Type}.

(** ** The registered adapters *)

(** One adapter per kind, stored under its own kind. *)
Definition router_ok (rr : RuntimeRouter R) : Prop :=
  NoDup (dkeys (rr_adapters rr)) /\ forall k a, get_adapter k rr = Some a -> ad_kind a = k.

Inductive router_op := Register (a : Adapter R) | Unregister (kind : string).

Definition router_apply (rr : RuntimeRouter R) (op : router_op) : RuntimeRouter R :=
  match op with Register a => register a rr | Unregister k => unregister k rr end.

Lemma router_apply_ok rr op : router_ok rr -> router_ok (router_apply rr op).
Proof.
  intros [Hn Hk]. unfold router_ok, get_adapter in *. destruct op as [a|kind]; simpl.
  - split; [by apply dset_NoDup|]. intros k b. rewrite dget_dset. case_decide; [naive_solver | by apply Hk].
  - split; [by apply ddel_NoDup|]. intros k b. rewrite dget_ddel by done. case_decide; [done | by apply Hk].
Qed.

Lemma reachable_router_ok session ops : router_ok (fold_left router_apply ops (empty_router session)).
Proof.
  assert (H0 : router_ok (empty_router (R := R) session)) by (split; [constructor | done]).
  revert H0. generalize (empty_router (R := R) session). induction ops as [|op ops IH]; intros rr H; [done|].
  apply IH, router_apply_ok, H.
Qed.

Lemma get_adapter_elem k rr (a : Adapter R) : get_adapter k rr = Some a -> a ∈ adapters_of rr.
Proof. apply dget_Some_value. Qed.

(** ** Where a resolution comes from *)
Definition SOURCES : list string :=
  ["authoritative_registry"; "external_route"; "format_heuristic"; "loaded_model_match";
   "configured_stub"; "single_runtime_compatibility"; "stub_only_compatibility"].

Definition MODES : list string := ["in_process"; "managed_sidecar"; "external_sidecar"; "stub"].

(** A resolution built by [resolution] from a registered adapter. *)
Definition resolved_by (rr : RuntimeRouter R) (model_id : string) (r : RuntimeResolution R) : Prop :=
  exists adapter source, adapter ∈ adapters_of rr /\ source ∈ SOURCES /\ r = resolution adapter model_id source.

Lemma resolved_by_intro rr model_id adapter source :
  adapter ∈ adapters_of rr -> source ∈ SOURCES ->
  resolved_by rr model_id (resolution adapter model_id source).
Proof. by exists adapter, source. Qed.

(** The error of a failed resolution: its own class, or what a [model_id()] call raised. *)
Definition resolution_error (rr : RuntimeRouter R) (model_id : string) (e : pyexc) : Prop :=
  (exists detail, e = ModelResolutionError model_id detail)
  \/ exists a, a ∈ adapters_of rr /\ ad_model_id a = Raise e.

Definition outcome_ok (rr : RuntimeRouter R) (model_id : string) (m : pyres (RuntimeResolution R)) : Prop :=
  match m with Ret r => resolved_by rr model_id r | Raise e => resolution_error rr model_id e end.

Ltac in_sources := by apply (bool_decide_unpack _).
Ltac own_error := by left; eexists.

Lemma registry_step_ok authoritative reg rr model_id m :
  registry_step authoritative reg rr model_id = Some m -> outcome_ok rr model_id m.
Proof.
  unfold registry_step. destruct reg as [| |registry]; [destruct authoritative; [intros [= <-]|done]; own_error..|].
  destruct (registry_get model_id registry) as [entry|]; [|destruct authoritative; [intros [= <-]|done]; own_error].
  destruct (negb _); [destruct authoritative; [intros [= <-]|done]; own_error|].
  destruct (get_adapter _ rr) as [a|] eqn:E; intros [= <-]; [|own_error].
  apply resolved_by_intro; [by eapply get_adapter_elem | in_sources].
Qed.

Lemma external_ok inp rr model_id :
  match resolve_external_model inp rr model_id with
  | Ret (Some (a, _)) => a ∈ adapters_of rr
  | Ret None => True
  | Raise e => resolution_error rr model_id e
  end.
Proof.
  unfold resolve_external_model. destruct (load_external_weight_routes _ _ _) as [[|r rs]|]; [done| |done].
  destruct (negb (xx_found _)); [done|]. destruct (negb (xx_servable _)); [own_error|].
  destruct (external_kind_map _) as [k|]; csimpl; [|own_error].
  destruct (get_adapter k rr) as [a|] eqn:E; [by eapply get_adapter_elem|own_error].
Qed.

Lemma loaded_match_ok (adapters : list (string * Adapter R)) model_id :
  match loaded_match adapters model_id with
  | Ret (Some a) => a ∈ dvalues adapters /\ ad_model_id a = Ret (Some model_id)
  | Ret None => forall a, a ∈ dvalues adapters -> exists m, ad_model_id a = Ret m
  | Raise e => exists a, a ∈ dvalues adapters /\ ad_model_id a = Raise e
  end.
Proof.
  unfold dvalues. induction adapters as [|[k a] adapters IH]; simpl; [set_solver|].
  destruct (ad_model_id a) as [m|e] eqn:Ea; simpl; [|exists a; split; [apply list_elem_of_here|done]].
  destruct (str_truthy m && _) eqn:Em.
  - apply andb_true_iff in Em as [_ ->%bool_decide_eq_true]. split; [apply list_elem_of_here|done].
  - destruct (loaded_match adapters model_id) as [[b|]|e].
    + destruct IH. split; [by apply list_elem_of_further|done].
    + intros b [-> | Hb]%elem_of_cons; eauto.
    + destruct IH as (b & ? & ?). exists b. split; [by apply list_elem_of_further|done].
Qed.

Lemma non_stub_elem rr (a : Adapter R) : a ∈ non_stub rr -> a ∈ adapters_of rr.
Proof.
  unfold non_stub, adapters_of, dvalues. intros ([k b] & -> & [Hb _]%elem_of_filter_List)%list_elem_of_fmap.
  apply list_elem_of_fmap. by exists (k, b).
Qed.

Lemma heuristic_step_ok inp rr model_id : outcome_ok rr model_id (heuristic_step inp rr model_id).
Proof.
  unfold heuristic_step. destruct (endswith ".gguf" model_id).
  { destruct (get_adapter _ rr) as [a|] eqn:E; [|own_error].
    apply resolved_by_intro; [by eapply get_adapter_elem | in_sources]. }
  pose proof (loaded_match_ok (rr_adapters rr) model_id) as Hl.
  destruct (loaded_match _ _) as [[a|]|e]; cbn [rbind]; [|  |by right].
  { apply resolved_by_intro; [apply Hl | in_sources]. }
  assert (Hstub : forall a, get_adapter (RuntimeKind_value STUB) rr = Some a -> a ∈ adapters_of rr)
    by (intros a; apply get_adapter_elem).
  destruct (get_adapter (RuntimeKind_value STUB) rr) as [s|].
  - destruct (String.eqb _ "stub"); [apply resolved_by_intro; [by apply Hstub | in_sources]|].
    destruct (non_stub rr) as [|only [|? ?]] eqn:En; [destruct (_ =? 1)| |destruct (_ =? 1)]; try own_error.
    + apply resolved_by_intro; [by apply Hstub | in_sources].
    + apply resolved_by_intro; [apply non_stub_elem; rewrite En; apply list_elem_of_here | in_sources].
    + apply resolved_by_intro; [by apply Hstub | in_sources].
  - assert (Hnone : forall b : bool, (if b then None else None) = @None (Adapter R)) by by intros [].
    rewrite !Hnone.
    destruct (non_stub rr) as [|only [|? ?]] eqn:En; [own_error| |own_error].
    apply resolved_by_intro; [apply non_stub_elem; rewrite En; apply list_elem_of_here | in_sources].
Qed.

Lemma resolve_outcome_ok inp rr w model_id :
  outcome_ok rr model_id (fst (resolve_model_runtime inp rr w model_id)).
Proof.
  unfold resolve_model_runtime.
  destruct (registry_step _ _ rr model_id) as [m|] eqn:E; [by apply registry_step_ok in E|].
  pose proof (external_ok inp rr model_id) as Hx.
  destruct (resolve_external_model inp rr model_id) as [[[a p]|]|e]; simpl; [| |done].
  - apply resolved_by_intro; [done | in_sources].
  - apply heuristic_step_ok.
Qed.

(** ** Properties *)

(** C25: With a configured registry path, a model resolves exactly when the registry loads,
    lists it, has it enabled, and its engine's runtime is registered; the adapter is then
    that runtime's.  Every other outcome is a [ModelResolutionError], no heuristic is
    consulted, and no external path is bound. *)
Theorem configured_registry_is_a_boundary inp (rr : RuntimeRouter R) w model_id path :
  get_model_registry_path (in_env inp) = Some path ->
  let out := resolve_model_runtime inp rr w model_id in
  (forall r, fst out = Ret r <->
     exists registry entry adapter,
       load_registry (in_registry_files inp) (in_env inp) (wd_registry w) = RegLoaded registry
       /\ registry_get model_id registry = Some entry /\ rm_enabled entry = true
       /\ get_adapter (engine_kind_map (rm_engine entry)) rr = Some adapter
       /\ r = resolution adapter model_id "authoritative_registry")
  /\ (forall e, fst out = Raise e -> exists detail, e = ModelResolutionError model_id detail)
  /\ wd_external_paths (snd out) = wd_external_paths w.
Proof.
  intros Hp. unfold resolve_model_runtime. rewrite Hp.
  set (reg := load_registry _ _ _). unfold registry_step.
  destruct reg as [| |registry]; simpl; [split; [by split; [|intros (? & ? & ? & ? & _)]|by split; [intros e [= <-]; eexists|]]..|].
  destruct (registry_get model_id registry) as [entry|] eqn:Eg.
  2:{ split; [|by split; [intros e [= <-]; eexists|]]. split; [done|].
      intros (? & ? & ? & [= <-] & ? & _). congruence. }
  destruct (rm_enabled entry) eqn:Ee; simpl.
  2:{ split; [|by split; [intros e [= <-]; eexists|]]. split; [done|].
      intros (? & ? & ? & [= <-] & ? & ? & _). congruence. }
  destruct (get_adapter _ rr) as [a|] eqn:Ea; simpl.
  - split; [|by split]. intros r. split.
    + intros [= <-]. by exists registry, entry, a.
    + intros (? & ? & ? & [= <-] & ? & _ & ? & ->). congruence.
  - split; [|by split; [intros e [= <-]; eexists|]]. split; [done|].
    intros (? & ? & ? & [= <-] & ? & _ & ? & _). congruence.
Qed.

(** C26: Without a configured registry, a model the external inventory lists is served by the
    registered runtime of its format with its resolved path bound, or it is refused; it
    never falls through to the heuristics. *)
Theorem external_model_never_falls_through inp (rr : RuntimeRouter R) w model_id route routes :
  load_registry (in_registry_files inp) (in_env inp) (wd_registry w) = RegNone ->
  get_model_registry_path (in_env inp) = None ->
  load_external_weight_routes (in_fs inp) (in_json_loads inp)
    (dget_or "WHOOSHD_EXTERNAL_ROUTES" "" (in_env inp)) = Ret (route :: routes) ->
  let x := resolve_external_runtime_model (in_fs inp) (in_known_quants inp) model_id (route :: routes) in
  xx_found x = true ->
  let out := resolve_model_runtime inp rr w model_id in
  (forall r, fst out = Ret r <->
     exists kind adapter, xx_servable x = true /\ external_kind_map (default "" (xx_runtime x)) = Some kind
       /\ get_adapter kind rr = Some adapter /\ r = resolution adapter model_id "external_route")
  /\ (forall r p, fst out = Ret r -> ad_accepts_external_path (rn_adapter r) = true ->
       xx_path x = Some p -> p <> "" ->
       dget (ad_kind (rn_adapter r)) (wd_external_paths (snd out)) = Some p)
  /\ (forall e, fst out = Raise e -> exists detail, e = ModelResolutionError model_id detail).
Proof.
  intros Hreg Hpath Hroutes x Hfound. unfold resolve_model_runtime. rewrite Hreg, Hpath. cbn [registry_step].
  unfold resolve_external_model. rewrite Hroutes. fold x. rewrite Hfound. cbn [negb].
  destruct (xx_servable x) eqn:Es; cbn [negb].
  2:{ simpl. split; [by split; [|intros (? & ? & ? & _)]|]. split; [done|]. intros e [= <-]. by eexists. }
  destruct (external_kind_map _) as [kind|] eqn:Ek; csimpl.
  2:{ split; [by split; [|intros (? & ? & ? & ? & _)]|]. split; [done|]. intros e [= <-]. by eexists. }
  destruct (get_adapter kind rr) as [a|] eqn:Ea; csimpl.
  2:{ split; [|split; [done|intros e [= <-]; by eexists]].
      split; [done|]. intros (k & b & _ & ? & ? & _). congruence. }
  repeat split; [| |intros r p [= <-] Hacc Hp Hne|done].
  - intros [= <-]. by exists kind, a.
  - intros (k & b & _ & ? & ? & ->). congruence.
  - simpl in Hacc. rewrite Hacc, Hp. unfold or_none. cbn [str_truthy].
    destruct p as [|c p]; [done|]. simpl. apply dget_dset_eq.
Qed.

(** What [contracts.RuntimeProvenance] demands, with the bounds of its aliases. *)
Definition alias_ok (s : string) : Prop :=
  s = REDACTED \/ (unsafe_alias s = false /\ String.length s <= 128).

Definition identifier_ok (o : option string) : Prop :=
  forall s, o = Some s -> safe_identifier s = true.

Record provenance_valid (p : RuntimeProvenance R) : Prop := {
  pvv_request : identifier_ok (pv_request_id p);
  pvv_upstream : identifier_ok (pv_upstream_request_id p);
  pvv_requested : alias_ok (pv_requested_model_id p);
  pvv_advertised : alias_ok (pv_advertised_model_id p);
  pvv_resolved : alias_ok (pv_resolved_model_id p);
  pvv_reported : forall s, pv_backend_reported_model_id p = Some s -> alias_ok s;
  pvv_kind : String.length (pv_runtime_kind p) <= 64;
  pvv_adapter : String.length (pv_adapter_name p) <= 64;
  pvv_source : pv_resolution_source p ∈ SOURCES;
  pvv_mode : pv_execution_mode p ∈ MODES;
  pvv_version : String.length (pv_whooshd_version p) <= 64;
}.

Lemma safe_model_alias_ok s : alias_ok (safe_model_alias s).
Proof.
  unfold safe_model_alias, alias_ok. destruct (unsafe_alias s) eqn:E; [by left|]. right. split; [done|].
  unfold unsafe_alias in E. rewrite !orb_false_iff in E. destruct E as [[[[[[[[[_ E] _] _] _] _] _] _] _] _].
  apply Nat.ltb_ge in E. done.
Qed.

Lemma normalize_identifier_ok v : identifier_ok (normalize_identifier v).
Proof. intros s Hs. by apply normalize_identifier_Some in Hs as [_ ?]. Qed.

Lemma execution_mode_ok kind : execution_mode_of kind ∈ MODES.
Proof.
  unfold execution_mode_of, _EXECUTION_MODES, dget_or. simpl.
  repeat (case_decide; [by apply (bool_decide_unpack _)|]). by apply (bool_decide_unpack _).
Qed.

(** Every resolution names a registered adapter, and the provenance it produces, for
    the request or for another member of its batch, always satisfies the published
    contract, whatever the request, the adapter and the backend report: valid or absent
    request ids, model ids redacted or bounded, a known source and execution mode. *)
Theorem resolved_provenance_is_valid inp (rr : RuntimeRouter R) w model_id r :
  fst (resolve_model_runtime inp rr w model_id) = Ret r ->
  rn_adapter r ∈ adapters_of rr
  /\ forall version rid upstream reported streaming queued batched lifecycle,
       provenance_valid (provenance version r rid upstream reported streaming queued batched lifecycle)
       /\ forall member,
            rn_adapter (for_model r member) = rn_adapter r
            /\ provenance_valid (provenance version (for_model r member) rid upstream reported
                                  streaming queued batched lifecycle).
Proof.
  intros Hr. pose proof (resolve_outcome_ok inp rr w model_id) as Ho. rewrite Hr in Ho.
  destruct Ho as (a & source & Ha & Hs & ->). split; [done|]. intros.
  assert (Hrep : forall s, option_map safe_model_alias (or_none reported) = Some s -> alias_ok s).
  { destruct (or_none reported) as [m|]; simpl; [|done]. intros x [= <-]. apply safe_model_alias_ok. }
  split; [|intros member; split; [done|]]; split; simpl;
    auto using normalize_identifier_ok, safe_model_alias_ok, str_take_length, execution_mode_ok.
Qed.

(** A resolution fails only with [ModelResolutionError], or with the exception that some
    registered adapter's [model_id()] raised while the loaded models were compared. *)
Theorem resolution_errors_are_classified inp (rr : RuntimeRouter R) w model_id e :
  fst (resolve_model_runtime inp rr w model_id) = Raise e ->
  (exists detail, e = ModelResolutionError model_id detail)
  \/ (endswith ".gguf" model_id = false
      /\ exists a, a ∈ adapters_of rr /\ ad_model_id a = Raise e).
Proof.
  intros He. pose proof (resolve_outcome_ok inp rr w model_id) as Ho. rewrite He in Ho.
  destruct Ho as [H | (a & Ha & Hae)]; [by left|].
  destruct (endswith ".gguf" model_id) eqn:Eg; [|right; eauto]. left. revert He.
  unfold resolve_model_runtime, registry_step, resolve_external_model, heuristic_step. rewrite Eg.
  repeat case_match; simplify_eq/=; try (intros; simplify_eq; by eexists); done.
Qed.

(** A streamed completion is the adapter's stream, unchanged but for its first chunk,
    which carries the provenance of the resolution with the model that chunk reports;
    when the model does not resolve, the adapter does not stream, or the request is
    refused at the backend boundary, nothing is yielded and the stream ends in that error. *)
Theorem stream_is_adapters_stream_marked_once inp (rr : RuntimeRouter R) w request context :
  let '((chunks, ending), _) := chat_completion_stream inp rr w request context in
  match fst (resolve_model_runtime inp rr w (request_model request)) with
  | Raise e => chunks = [] /\ ending = Some e
  | Ret r =>
      match ad_supports_streaming (rn_adapter r), backend_chat request r with
      | false, _ => chunks = [] /\ exists m, ending = Some (Exc "StreamingNotSupportedError" m)
      | true, Raise e => chunks = [] /\ ending = Some e
      | true, Ret b =>
          let (sent, e) := ad_chat_completion_stream (rn_adapter r) b in
          ending = e /\ length chunks = length sent /\ tail chunks = tail sent
          /\ (forall c s, head chunks = Some c -> head sent = Some s ->
                rs_model c = rs_model s /\ rs_rest c = rs_rest s
                /\ exists p, rs_provenance c = Some p /\ pv_streaming p = true
                     /\ pv_backend_reported_model_id p = option_map safe_model_alias (or_none (rs_model s)))
      end
  end.
Proof.
  unfold chat_completion_stream.
  destruct (resolve_model_runtime inp rr w (request_model request)) as [[r|e] w']; simpl; [|done].
  destruct (ad_supports_streaming (rn_adapter r)); simpl; [|split; [done|by eexists]].
  destruct (backend_chat request r) as [b|e]; [|done].
  destruct (ad_chat_completion_stream (rn_adapter r) b) as [sent e].
  destruct (context_ids context) as [rid upstream].
  destruct sent as [|s sent]; simpl; [done|].
  repeat split; [by simplify_eq..|]. simplify_eq. by eexists.
Qed.

(** ** Aggregate health *)
Lemma health_fold (l : list (Adapter R)) runtimes status :
  status = "ok" \/ status = "degraded" ->
  let out := fold_left health_step l (runtimes, status) in
  (snd out = "ok" \/ snd out = "degraded")
  /\ (snd out = "ok" <-> status = "ok" /\ forall a, a ∈ l -> exists h, adapter_health a = Ret h /\ unhealthy (rh_state h) = false).
Proof.
  revert runtimes status. induction l as [|a l IH]; intros runtimes status Hs; simpl.
  { split; [done|]. split; [by split; [|set_solver]|tauto]. }
  assert (Hd : forall P : Prop, "degraded" = "ok" /\ P <-> False) by (intros; split; [intros [? _]; done | done]).
  destruct (adapter_health a) as [h|e] eqn:Ea.
  - destruct (IH (dset (ad_kind a) h runtimes)
      (if unhealthy (rh_state h) && String.eqb status "ok" then "degraded" else status)) as [H1 H2].
    { destruct (_ && _); [by right|done]. }
    split; [done|]. rewrite H2. destruct (unhealthy (rh_state h)) eqn:Eu; simpl.
    + destruct Hs as [-> | ->]; simpl; rewrite Hd; [|by rewrite Hd].
      split; [done|]. intros [_ H]. destruct (H a) as (h' & ? & ?); [apply list_elem_of_here|]. congruence.
    + split; intros [? H]; (split; [done|]); intros b Hb.
      * apply elem_of_cons in Hb as [-> | Hb]; [by exists h | auto].
      * apply H. by apply list_elem_of_further.
  - destruct (IH (dset (ad_kind a) (mkHealth (ad_kind a) true HS_ERROR None None (Some (exc_metadata e))) runtimes)
      "degraded") as [H1 H2]; [by right|].
    split; [done|]. rewrite H2, Hd. split; [done|]. intros [_ H].
    destruct (H a) as (h' & ? & ?); [apply list_elem_of_here|]. congruence.
Qed.

(** The aggregate health is [ok] exactly when every registered adapter answers and
    reports neither an error nor a degraded state, and is otherwise [degraded]: the
    documented third value, [error], is never reported. *)
Theorem aggregate_health_exact (rr : RuntimeRouter R) :
  let '(status, _, _) := health rr in
  (status = "ok" <-> forall a, a ∈ adapters_of rr ->
     exists h, adapter_health a = Ret h /\ rh_state h <> HS_ERROR /\ rh_state h <> HS_DEGRADED)
  /\ (status <> "ok" -> status = "degraded").
Proof.
  unfold health. pose proof (health_fold (adapters_of rr) [] "ok" ltac:(by left)) as [H1 H2].
  destruct (fold_left health_step _ _) as [runtimes status]. simpl in *. rewrite H2. split; [|tauto].
  split.
  - intros [_ H] a Ha. destruct (H a Ha) as (h & ? & Hu). exists h. split; [done|].
    by destruct (rh_state h).
  - intros H. split; [done|]. intros a Ha. destruct (H a Ha) as (h & ? & ? & ?). exists h.
    split; [done|]. by destruct (rh_state h).
Qed.
End routing_props.

(** ** Concrete runs *)

Definition demo_response : Response unit := mkResponse "r" (Some "backend-model") None PNone.

Definition demo_adapter (kind : string) (loaded : pyres (option string)) : Adapter unit :=
  mkAdapter kind kind true loaded (Ret (Some 1%Z)) true None (fun _ => Ret demo_response)
    (fun _ => Ret demo_response) (fun _ => ([demo_response; demo_response], None)) (Ret [])
    (Ret (mkHealth kind true HS_READY None None None)) (Ret tt) (Ret tt).

Definition demo_router (adapters : list (Adapter unit)) : RuntimeRouter unit :=
  fold_left (fun rr a => register a rr) adapters (empty_router []).

Definition llama : Adapter unit := demo_adapter "llama_cpp" (Ret None).
Definition mlx_in_process : Adapter unit := demo_adapter "mlx_lm" (Ret None).

Definition demo_inputs (env : environ) (entries : list (string * RegistryModelEntry)) : Inputs :=
  mkInputs env (demo_files entries) demo_fs demo_quants
    (fun _ => Some (PList [PDict [("id", PStr "slow"); ("path", PStr "/b")]])) "1.0".

Definition registry_env : environ := [("WHOOSHD_MODEL_REGISTRY_PATH", "/r.yaml")].
Definition routes_env : environ := [("WHOOSHD_EXTERNAL_ROUTES", "[{...}]")].
Definition fresh_world : World := mkWorld RegNone [].

Lemma configured_registry_is_a_boundary_witness :
  let inp := demo_inputs registry_env [("m", demo_entry ENG_LLAMA_CPP FMT_GGUF true)] in
  fst (resolve_model_runtime inp (demo_router [llama]) fresh_world "m")
    = Ret (resolution llama "m" "authoritative_registry")
  /\ exists detail, fst (resolve_model_runtime inp (demo_router [llama]) fresh_world "other.gguf")
                    = Raise (ModelResolutionError "other.gguf" detail).
Proof.
  split.
  - apply (proj1 (configured_registry_is_a_boundary
      (demo_inputs registry_env [("m", demo_entry ENG_LLAMA_CPP FMT_GGUF true)]) (demo_router [llama])
      fresh_world "m" "/r.yaml" eq_refl)).
    exists [("m", demo_entry ENG_LLAMA_CPP FMT_GGUF true)], (demo_entry ENG_LLAMA_CPP FMT_GGUF true), llama.
    vm_compute. repeat split.
  - destruct (fst (resolve_model_runtime (demo_inputs registry_env [("m", demo_entry ENG_LLAMA_CPP FMT_GGUF true)])
      (demo_router [llama]) fresh_world "other.gguf")) as [r|e] eqn:E; [vm_compute in E; discriminate|].
    destruct (proj1 (proj2 (configured_registry_is_a_boundary
      (demo_inputs registry_env [("m", demo_entry ENG_LLAMA_CPP FMT_GGUF true)]) (demo_router [llama])
      fresh_world "other.gguf" "/r.yaml" eq_refl)) e E) as [d ->]. by exists d.
Defined.

Lemma external_model_never_falls_through_witness :
  let inp := demo_inputs routes_env [] in
  dget "llama_cpp" (wd_external_paths (snd (resolve_model_runtime inp (demo_router [llama; mlx_in_process])
                                              fresh_world "acme/m-GGUF:Q4_K_M")))
    = Some "/b/gguf/acme/m-GGUF/m.Q4_K_M.gguf".
Proof.
  apply (proj1 (proj2 (external_model_never_falls_through (demo_inputs routes_env [])
    (demo_router [llama; mlx_in_process]) fresh_world "acme/m-GGUF:Q4_K_M"
    (mkRoute "slow" ["/"; "b"] true true 100) [] eq_refl eq_refl
    ltac:(vm_compute; reflexivity) ltac:(vm_compute; reflexivity)))
    (resolution llama "acme/m-GGUF:Q4_K_M" "external_route") _); vm_compute; [reflexivity..|discriminate].
Defined.

Lemma resolved_provenance_is_valid_witness :
  provenance_valid (provenance "1.0" (resolution llama "x.gguf" "format_heuristic")
    (PStr "bad id") (PStr "up-1") (Some "/home/me/w.gguf") false false false None).
Proof.
  apply (resolved_provenance_is_valid (demo_inputs [] []) (demo_router [llama; mlx_in_process])
           fresh_world "x.gguf"). vm_compute. reflexivity.
Defined.

Lemma resolution_errors_are_classified_witness :
  let rr := demo_router [demo_adapter "llama_cpp" (Raise (RuntimeError "boom"))] in
  fst (resolve_model_runtime (demo_inputs [] []) rr fresh_world "m") = Raise (RuntimeError "boom")
  /\ ((exists detail, RuntimeError "boom" = ModelResolutionError "m" detail)
      \/ (endswith ".gguf" "m" = false
          /\ exists a, a ∈ adapters_of rr /\ ad_model_id a = Raise (RuntimeError "boom"))).
Proof.
  split; [vm_compute; reflexivity|].
  apply (resolution_errors_are_classified (demo_inputs [] [])
    (demo_router [demo_adapter "llama_cpp" (Raise (RuntimeError "boom"))]) fresh_world "m").
  vm_compute. reflexivity.
Defined.

(** An enabled MLX entry of the registry needs the server runtime: the in-process MLX
    runtime is not used in its place. *)
Lemma mlx_entry_has_no_in_process_fallback :
  exists detail,
    fst (resolve_model_runtime (demo_inputs registry_env [("m", demo_entry ENG_MLX_LM FMT_MLX true)])
           (demo_router [mlx_in_process]) fresh_world "m")
    = Raise (ModelResolutionError "m" detail).
Proof.
  exists "Model 'm' needs the 'mlx_lm_server' runtime, which is not enabled. Available: ['mlx_lm']".
  vm_compute. reflexivity.
Qed.

(** The message of a resolution error redacts the model id once and then repeats it. *)
Lemma resolution_error_repeats_the_model_id :
  fst (resolve_model_runtime (demo_inputs [] []) (demo_router [])
         fresh_world "/private/weights") =
  Raise (Exc "ModelResolutionError"
    ("Cannot resolve model '<redacted>' to a runtime. " +:+
     "Model '/private/weights' does not match any registered runtime. Available runtimes: []")).
Proof. vm_compute. reflexivity. Qed.
