(* ===== verification/PyJson.v ===== *)
(** * JSON text is unambiguous

    [json.dumps] with sorted keys and compact separators, over [json_dumps] of
    CapacityContext.v, and the theorem the hashes of ThreadWake rest on: two values
    without floats that print to the same text are the same value, whatever
    follows the text. *)

From Stdlib Require Import Ascii Sorting.Sorted.
From stdpp Require Import sorting.
From S2P Require Import Prelude PyDict PyStr PySeq CapacityContext.

(** Induction on a value, through its lists and dictionaries. *)
Section pyval_ind.
Context (P : pyval -> Prop).
Hypothesis Hnone : P PNone.
Hypothesis Hbool : forall b, P (PBool b).
Hypothesis Hint : forall z, P (PInt z).
Hypothesis Hfloat : forall q, P (PFloat q).
Hypothesis Hstr : forall s, P (PStr s).
Hypothesis Hlist : forall l, Forall P l -> P (PList l).
Hypothesis Hdict : forall d, Forall (fun kv => P (snd kv)) d -> P (PDict d).

Fixpoint pyval_nested_ind (v : pyval) : P v :=
  match v with
  | PNone => Hnone
  | PBool b => Hbool b
  | PInt z => Hint z
  | PFloat q => Hfloat q
  | PStr s => Hstr s
  | PList l =>
      Hlist l ((fix go (l : list pyval) : Forall P l :=
                  match l with
                  | [] => Forall_nil_2 P
                  | x :: l' => Forall_cons_2 P x l' (pyval_nested_ind x) (go l')
                  end) l)
  | PDict d =>
      Hdict d ((fix go (d : list (string * pyval)) : Forall (fun kv => P (snd kv)) d :=
                  match d with
                  | [] => Forall_nil_2 _
                  | (k, x) :: d' => Forall_cons_2 (fun kv => P (snd kv)) (k, x) d' (pyval_nested_ind x) (go d')
                  end) d)
  end.
End pyval_ind.

(** No float anywhere inside. *)
Fixpoint float_free (v : pyval) : bool :=
  match v with
  | PFloat _ => false
  | PList l => forallb float_free l
  | PDict d => forallb (fun kv => float_free (snd kv)) d
  | _ => true
  end.

(** ** Sorted keys *)

Definition key_leb (x y : string * pyval) : bool :=
  string_leb (fst x) (fst y).

(** What [sort_keys=True] prints: every dictionary with its items ordered by key. *)
Fixpoint sort_keys (v : pyval) : pyval :=
  match v with
  | PList l => PList (map sort_keys l)
  | PDict d => PDict (stable_sort key_leb (map (fun kv => (fst kv, sort_keys (snd kv))) d))
  | _ => v
  end.

(** ** Characters *)

(** Reads one character of a JSON string back. *)
Definition json_unchar (s : string) : option (ascii * string) :=
  match s with
  | EmptyString => None
  | String c s' =>
      if Ascii.eqb c dquote then None
      else if Ascii.eqb c backslash then
        match s' with
        | String d s'' =>
            if Ascii.eqb d "n" then Some (ascii_of_N 10, s'')
            else if Ascii.eqb d "r" then Some (ascii_of_N 13, s'')
            else if Ascii.eqb d "t" then Some (ascii_of_N 9, s'')
            else if Ascii.eqb d "f" then Some (ascii_of_N 12, s'')
            else if Ascii.eqb d "b" then Some (ascii_of_N 8, s'')
            else if Ascii.eqb d "u" then
              match s'' with
              | String _ (String _ (String h (String l r))) =>
                  let hex x := if (N_of_ascii x <? 58)%N then (N_of_ascii x - 48)%N else (N_of_ascii x - 87)%N in
                  Some (ascii_of_N (16 * hex h + hex l), r)
              | _ => None
              end
            else Some (d, s'')
        | EmptyString => None
        end
      else Some (c, s')
  end.

Lemma json_unchar_char c s : json_unchar (json_char c +:+ s) = Some (c, s).
Proof. by destruct c as [[] [] [] [] [] [] [] []]. Qed.

Lemma string_app_cons c a b : (String c a +:+ b = String c (a +:+ b))%string.
Proof. done. Qed.

Lemma string_app_nil_l b : ("" +:+ b = b)%string.
Proof. done. Qed.

Lemma string_app_assoc' a b c : ((a +:+ b) +:+ c = a +:+ (b +:+ c))%string.
Proof. induction a as [|x a IH]; [done|]. rewrite !string_app_cons. by rewrite IH. Qed.

Lemma json_escape_inj s t r r' :
  (json_escape s +:+ String dquote r = json_escape t +:+ String dquote r')%string -> s = t /\ r = r'.
Proof.
  revert t. induction s as [|c s IH]; intros [|d t] H; cbn [json_escape] in H;
    rewrite ?string_app_assoc', ?string_app_nil_l in H.
  - injection H as ->. done.
  - apply (f_equal json_unchar) in H. rewrite json_unchar_char in H. discriminate H.
  - apply (f_equal json_unchar) in H. rewrite json_unchar_char in H. discriminate H.
  - apply (f_equal json_unchar) in H. rewrite !json_unchar_char in H. injection H as -> H.
    by destruct (IH _ H) as [-> ->].
Qed.

Lemma json_string_inj s t r r' :
  (json_string s +:+ r = json_string t +:+ r')%string -> s = t /\ r = r'.
Proof.
  unfold json_string. rewrite !string_app_cons, !string_app_assoc'. intros H. injection H as H.
  by apply json_escape_inj in H.
Qed.

(** ** Numbers *)
Definition int_char (c : ascii) : bool := is_digit c || Ascii.eqb c "-".

(** Text that cannot extend a number. *)
Definition stops (r : string) : Prop :=
  match r with EmptyString => True | String c _ => int_char c = false end.

Lemma span_inj (p : ascii -> bool) a b r r' :
  string_forallb p a = true -> string_forallb p b = true ->
  match r with EmptyString => True | String c _ => p c = false end ->
  match r' with EmptyString => True | String c _ => p c = false end ->
  (a +:+ r = b +:+ r')%string -> a = b /\ r = r'.
Proof.
  revert b. induction a as [|c a IH]; intros [|d b] Ha Hb Hr Hr' H; simpl in Ha, Hb;
    rewrite ?string_app_nil_l, ?string_app_cons in H.
  - done.
  - apply andb_prop in Hb as [Hd _]. subst r. simpl in Hr. congruence.
  - apply andb_prop in Ha as [Hc _]. subst r'. simpl in Hr'. congruence.
  - injection H as -> H. apply andb_prop in Ha as [_ Ha]. apply andb_prop in Hb as [_ Hb].
    by destruct (IH b Ha Hb Hr Hr' H) as [-> ->].
Qed.

Lemma pretty_Z_chars (z : Z) : string_forallb int_char (pretty z) = true.
Proof.
  assert (Hn : forall n : N, string_forallb int_char (pretty n) = true).
  { intros n. eapply string_forallb_impl; [|apply pretty_N_digits]. intros c Hc. unfold int_char. by rewrite Hc. }
  rewrite pretty_Z_cases. destruct (z <? 0)%Z; [|apply Hn].
  rewrite string_app_cons, string_app_nil_l. simpl. apply Hn.
Qed.

Lemma pretty_Z_inj (z w : Z) : pretty z = pretty w -> z = w.
Proof. intros H. apply (f_equal py_int) in H. rewrite !py_int_pretty in H. congruence. Qed.

Lemma pretty_Z_nonempty (z : Z) : exists c s, pretty z = String c s /\ int_char c = true.
Proof.
  pose proof (pretty_Z_chars z) as H. pose proof (py_int_pretty z) as Hp.
  destruct (pretty z) as [|c s]; [discriminate Hp|]. simpl in H. apply andb_prop in H as [Hc _]. eauto.
Qed.

(** ** Sequences *)
Section joined.
Context {A : Type} (g : A -> string) (ok : A -> Prop) (close : ascii).
Hypothesis close_stops : int_char close = false.
Hypothesis close_comma : close <> ","%char.
Hypothesis item_head : forall y, ok y -> match g y with EmptyString => False | String c _ => c <> close end.

Definition item_inj (x : A) : Prop :=
  forall y r r', ok y -> stops r -> stops r' -> (g x +:+ r = g y +:+ r')%string -> x = y /\ r = r'.

(** What follows the first item. *)
Fixpoint join_tail (l : list A) : string :=
  match l with [] => "" | x :: l' => ("," +:+ (g x +:+ join_tail l'))%string end.

Lemma join_cons x l : join "," (map g (x :: l)) = (g x +:+ join_tail l)%string.
Proof.
  unfold join. revert x. induction l as [|y l IH]; intros x; simpl.
  - induction (g x) as [|c s IHs]; [done|]. rewrite string_app_cons. by rewrite <- IHs.
  - specialize (IH y). simpl in IH. by rewrite IH.
Qed.

Lemma join_tail_stops l r : stops (join_tail l +:+ String close r)%string.
Proof. by destruct l. Qed.

Lemma join_tail_inj l l' r r' :
  Forall item_inj l -> Forall ok l' ->
  (join_tail l +:+ String close r = join_tail l' +:+ String close r')%string -> l = l' /\ r = r'.
Proof.
  intros Hl. revert l'. induction Hl as [|x l Hx Hl IH]; intros l' Hok H.
  - destruct l' as [|y l']; [by injection H as ->|]. injection H as H _. by destruct close_comma.
  - destruct Hok as [|y l' Hy Hok]; [injection H as H _; by destruct close_comma|].
    cbn [join_tail] in H. rewrite !string_app_cons, !string_app_nil_l, !string_app_assoc' in H.
    injection H as H. apply Hx in H as [-> H]; [|done|apply join_tail_stops..].
    by destruct (IH l' Hok H) as [-> ->].
Qed.

Lemma join_inj l l' r r' :
  Forall item_inj l -> Forall ok l -> Forall ok l' ->
  (join "," (map g l) +:+ String close r = join "," (map g l') +:+ String close r')%string ->
  l = l' /\ r = r'.
Proof.
  intros Hl Hk Hok H.
  assert (Hhead : forall y s t, ok y -> (g y +:+ s)%string <> String close t).
  { intros y s t Hy. pose proof (item_head y Hy) as Hh. destruct (g y) as [|c u]; [done|].
    rewrite string_app_cons. congruence. }
  destruct Hl as [|x l Hx Hl], Hok as [|y l' Hy Hok]; rewrite ?join_cons, ?string_app_assoc' in H.
  - by injection H as ->.
  - symmetry in H. by apply Hhead in H.
  - apply Forall_cons in Hk as [Hkx _]. by apply Hhead in H.
  - apply Hx in H as [-> H]; [|done|apply join_tail_stops..].
    by destruct (join_tail_inj l l' r r' Hl Hok H) as [-> ->].
Qed.
End joined.

(** ** Values *)
Section json_inj.
Variable repr_float : Q -> string.

Local Abbreviation dumps := (json_dumps repr_float).

Definition value_inj (v : pyval) : Prop :=
  forall w r r', float_free v = true -> float_free w = true -> stops r -> stops r' ->
    (dumps v +:+ r = dumps w +:+ r')%string -> v = w /\ r = r'.

(** The first character of a value's text tells its kind. *)
Definition json_kind (v : pyval) (c : ascii) : Prop :=
  match v with
  | PNone => c = "n"%char | PBool true => c = "t"%char | PBool false => c = "f"%char
  | PInt _ => int_char c = true | PFloat _ => True | PStr _ => c = dquote
  | PList _ => c = "["%char | PDict _ => c = "{"%char
  end.

Lemma json_head v : float_free v = true -> exists c s, dumps v = String c s /\ json_kind v c.
Proof.
  destruct v as [|[]|z|q|s|l|d]; intros Hf; try discriminate Hf; try by do 2 eexists.
  exact (pretty_Z_nonempty z).
Qed.

Lemma json_kind_same v w c : json_kind v c -> json_kind w c ->
  match v, w with
  | PNone, PNone | PInt _, PInt _ | PStr _, PStr _ | PList _, PList _ | PDict _, PDict _ => True
  | PBool b, PBool b' => b = b'
  | PFloat _, _ | _, PFloat _ => True
  | _, _ => False
  end.
Proof.
  destruct v as [|[]|?|?|?|?|?], w as [|[]|?|?|?|?|?]; simpl; try done; intros H1 H2; subst;
    discriminate.
Qed.

Lemma forallb_Forall {A} (p : A -> bool) l : forallb p l = true <-> Forall (fun x => p x = true) l.
Proof. induction l; simpl; [by split|]. by rewrite andb_true_iff, Forall_cons, IHl. Qed.

Lemma list_inj l : Forall value_inj l -> value_inj (PList l).
Proof.
  intros IH w r r' Hv Hw Hr Hr' H.
  destruct (json_head w Hw) as (c & s & Es & Hk).
  assert (c = "["%char) as -> by (rewrite Es in H; by injection H as <-).
  pose proof (json_kind_same (PList l) w _ eq_refl Hk) as Hs.
  destruct w as [|?|?|?|?|l'|?]; try done.
  cbn [json_dumps float_free] in *. rewrite !string_app_cons, !string_app_nil_l, !string_app_assoc' in H.
  injection H as H. apply forallb_Forall in Hv, Hw.
  edestruct (join_inj dumps (fun v => float_free v = true) "]") as [-> ->]; [..|exact H|done]; try done.
  - intros y Hy. destruct (json_head y Hy) as (c & t & -> & Hc). intros ->.
    by destruct y as [|[]|?|?|?|?|?].
  - clear -IH Hv. induction IH as [|x l Hx Hl IHl]; constructor.
    + apply Forall_cons in Hv as [Hxv _]. intros y s s' Hy. by apply Hx.
    + apply IHl. by apply Forall_cons in Hv as [_ ?].
Qed.

Lemma dict_inj d : Forall (fun kv => value_inj (snd kv)) d -> value_inj (PDict d).
Proof.
  intros IH w r r' Hv Hw Hr Hr' H.
  destruct (json_head w Hw) as (c & s & Es & Hk).
  assert (c = "{"%char) as -> by (rewrite Es in H; by injection H as <-).
  pose proof (json_kind_same (PDict d) w _ eq_refl Hk) as Hs.
  destruct w as [|?|?|?|?|?|d']; try done.
  cbn [json_dumps float_free] in *. rewrite !string_app_cons, !string_app_nil_l, !string_app_assoc' in H.
  injection H as H. apply forallb_Forall in Hv, Hw.
  set (g := fun kv : string * pyval => (json_string (fst kv) +:+ ":" +:+ dumps (snd kv))%string) in H.
  edestruct (join_inj g (fun kv => float_free (snd kv) = true) "}") as [-> ->]; [..|exact H|done]; try done.
  clear -IH Hv. induction IH as [|[k x] l Hx Hl IHl]; constructor.
  - apply Forall_cons in Hv as [Hxv _]. intros [k' y] s s' Hy Hs Hs' He. unfold g in He. simpl in *.
    rewrite !string_app_assoc' in He. apply json_string_inj in He as [-> He].
    rewrite !string_app_cons in He. injection He as He.
    by destruct (Hx y s s' Hxv Hy Hs Hs' He) as [-> ->].
  - apply IHl. by apply Forall_cons in Hv as [_ ?].
Qed.

(** A value's text, followed by text that cannot extend a number, determines the value
    and what follows. *)
Lemma json_dumps_inj v : value_inj v.
Proof.
  induction v as [|b|z|q|s|l IH|d IH] using pyval_nested_ind;
    [| | | | |by apply list_inj|by apply dict_inj]; intros w r r' Hv Hw Hr Hr' H;
    (destruct (json_head w Hw) as (c & t & Es & Hk)).
  - rewrite Es in H. injection H as <- H. pose proof (json_kind_same PNone w _ eq_refl Hk) as Hs.
    destruct w; try done. injection Es as <-. split; [done|]. injection H; done.
  - destruct b; rewrite Es in H; injection H as <- H;
      [pose proof (json_kind_same (PBool true) w _ eq_refl Hk) as Hs
      |pose proof (json_kind_same (PBool false) w _ eq_refl Hk) as Hs];
      destruct w as [|[]|?|?|?|?|?]; try done; injection Es as <-; (split; [done|]); injection H; done.
  - destruct (pretty_Z_nonempty z) as (c' & t' & Ez & Hc). cbn [json_dumps] in H.
    assert (c = c') as -> by (rewrite Es, Ez in H; by injection H).
    pose proof (json_kind_same (PInt z) w c' Hc Hk) as Hs.
    destruct w as [|?|z'|?|?|?|?]; try done. cbn [json_dumps] in H.
    apply (span_inj int_char) in H as [E ->]; [|apply pretty_Z_chars..|done|done].
    apply pretty_Z_inj in E. by subst.
  - done.
  - assert (c = dquote) as -> by (rewrite Es in H; by injection H as <-).
    pose proof (json_kind_same (PStr s) w _ eq_refl Hk) as Hs. destruct w as [|?|?|?|s'|?|?]; try done.
    cbn [json_dumps] in H. by apply json_string_inj in H as [-> ->].
Qed.

(** [canonical_json] of [keys.py]. *)
Definition canonical_json (v : pyval) : string := dumps (sort_keys v).

Lemma float_free_sort v : float_free (sort_keys v) = float_free v.
Proof.
  induction v as [|b|z|q|s|l IH|d IH] using pyval_nested_ind; try done; simpl.
  - induction IH as [|x l Hx _ IHl]; simpl; [done|]. by rewrite Hx, IHl.
  - transitivity (forallb (fun kv => float_free (snd kv)) (map (fun kv => (fst kv, sort_keys (snd kv))) d)).
    + apply eq_true_iff_eq. by rewrite !forallb_Forall, stable_sort_perm.
    + induction IH as [|[k x] d Hx _ IHd]; simpl; [done|]. simpl in Hx. by rewrite Hx, IHd.
Qed.

Lemma canonical_json_inj v w :
  float_free v = true -> float_free w = true ->
  canonical_json v = canonical_json w -> sort_keys v = sort_keys w.
Proof.
  intros Hv Hw H. unfold canonical_json in H.
  assert (H' : (dumps (sort_keys v) +:+ "" = dumps (sort_keys w) +:+ "")%string) by by rewrite H.
  apply json_dumps_inj in H' as [E _]; rewrite ?float_free_sort; done.
Qed.
End json_inj.

(** The text does not depend on the order in which a dictionary was filled. *)
Lemma sorted_items_unique (d d' : list (string * pyval)) :
  NoDup (dkeys d) -> d ≡ₚ d' -> stable_sort key_leb d = stable_sort key_leb d'.
Proof.
  intros Hn Hp.
  assert (Hs : forall l, StronglySorted (fun a b => key_leb a b = true) (stable_sort key_leb l)).
  { apply stable_sort_sorted; unfold key_leb; [intros; apply string_leb_total | intros ? ? ?; apply string_leb_trans]. }
  eapply StronglySorted_unique_strong; [|apply Hs|apply Hs|by rewrite !stable_sort_perm].
  intros [k v] [k' v'] H1 H2 L1 L2. apply elem_of_stable_sort in H1, H2. rewrite <- Hp in H2.
  pose proof (string_leb_antisym _ _ L1 L2) as E. simpl in E. subst k'.
  apply (elem_dget k) in H1, H2; [|done..]. congruence.
Qed.
