(* ===== verification/TWCompiler.v ===== *)
(** * Prompt graphs of ThreadWake
      ([runtime/threadwake/keys.py], [types.py], [metadata.py], [compiler.py], and the
      observe-mode policy of [policy.py])

    A chat request is compiled into a graph of hashed segments; the leading stable and
    semi-stable segments form the prefix whose hash, with the model, the backend and the
    scope, gives the cache key.

    - [sha256_hex] is the digest of a text; [repr_float] prints a float.
    - A message is the record [ChatMessage]; the dictionary form of a message carries the
      same fields.
    - Pydantic's [model_validate] of segment metadata is an argument; [None] is a
      validation error. *)

From S2P Require Import Prelude PyDict PyStr PySeq Contracts CapacityContext PyJson.
From Stdlib Require Import Ascii.

(** ** Data ([types.py]) *)

Inductive ThreadWakeMode := MODE_OFF | MODE_OBSERVE | MODE_EPHEMERAL | MODE_SESSION | MODE_ADVANCED.

#[export] Instance ThreadWakeMode_eq_dec : EqDecision ThreadWakeMode.
Proof. solve_decision. Defined.

Definition ThreadWakeMode_value (m : ThreadWakeMode) : string :=
  match m with
  | MODE_OFF => "off" | MODE_OBSERVE => "observe" | MODE_EPHEMERAL => "ephemeral"
  | MODE_SESSION => "session" | MODE_ADVANCED => "advanced"
  end.

Inductive Stability := Stable | SemiStable | Dynamic.

#[export] Instance Stability_eq_dec : EqDecision Stability.
Proof. solve_decision. Defined.

Definition Stability_value (s : Stability) : string :=
  match s with Stable => "stable" | SemiStable => "semi_stable" | Dynamic => "dynamic" end.

Record CodexifySegmentMeta := mkMeta {
  cm_name : string;
  cm_message_index : Z;
  cm_content_path : option string;
  cm_segment_type : string;
  cm_stability : option Stability;
  cm_scope : string;
  cm_content_hash : option string;
  cm_cacheable : option bool;
}.

Record PromptSegment := mkSegment {
  ps_name : string;
  ps_role : string;
  ps_content_hash : string;
  ps_segment_type : string;
  ps_stability : Stability;
  ps_token_count : Z;
  ps_scope : string;
  ps_multimodal : bool;
  ps_in_stable_prefix : bool;
}.

Record PromptGraph := mkGraph {
  pg_model_id : option string;
  pg_backend : option string;
  pg_chat_template_hash : string;
  pg_tokenizer_hash : option string;
  pg_segments : list PromptSegment;
  pg_stable_prefix_hash : string;
  pg_full_prompt_hash : string;
  pg_stable_prefix_tokens : Z;
  pg_dynamic_tokens : Z;
  pg_ordered_segment_hashes : list string;
  pg_full_prefix_chain_hash : string;
  pg_continuation_candidate : bool;
}.

Record ThreadWakeRequestConfig := mkTWConfig {
  tc_enabled : option bool;
  tc_mode : option ThreadWakeMode;
  tc_scope : option string;
  tc_min_stable_prefix_tokens : option Z;
}.

Record ThreadWakeObservation := mkObservation {
  ob_enabled : bool;
  ob_mode : ThreadWakeMode;
  ob_eligible : bool;
  ob_reason : option string;
  ob_stable_prefix_hash : option string;
  ob_stable_prefix_tokens : Z;
  ob_dynamic_tokens : Z;
  ob_estimated_prefill_reuse_tokens : Z;
  ob_cache_hit : bool;
  ob_cache_scope : string;
  ob_backend_kv_capability : option string;
  ob_can_reuse_kv : bool;
  ob_kv_reuse_reason : option string;
  ob_tokenizer_capability : option string;
  ob_real_tokenization_available : bool;
  ob_tokenization_reason : option string;
  ob_stable_prefix_token_count_real : option Z;
  ob_dynamic_tail_token_count_real : option Z;
}.

(** An observation whose backend and tokenizer fields have their defaults. *)
Definition plain_observation (enabled : bool) (mode : ThreadWakeMode) (eligible : bool)
    (reason stable_prefix_hash : option string) (stable_prefix_tokens dynamic_tokens reuse : Z)
    (cache_hit : bool) (cache_scope : string) : ThreadWakeObservation :=
  mkObservation enabled mode eligible reason stable_prefix_hash stable_prefix_tokens dynamic_tokens reuse
    cache_hit cache_scope None false None None false None None None.

(** ** Keys ([keys.py]) *)

Definition THREADWAKE_KEY_VERSION : string := "threadwake-v0-phase-a".

Definition CR : ascii := ascii_of_N 13.
Definition LF : ascii := ascii_of_N 10.

(** [value.replace("\r\n", "\n")] *)
Fixpoint replace_crlf (s : string) : string :=
  match s with
  | String c (String d s'' as s') =>
      if Ascii.eqb c CR && Ascii.eqb d LF then String LF (replace_crlf s'')
      else String c (replace_crlf s')
  | _ => s
  end.

(** [value.replace("\r", "\n")] *)
Fixpoint replace_cr (s : string) : string :=
  match s with
  | EmptyString => EmptyString
  | String c s' => String (if Ascii.eqb c CR then LF else c) (replace_cr s')
  end.

Definition normalize_text (value : string) : string := replace_cr (replace_crlf value).

Fixpoint normalize_value (v : pyval) : pyval :=
  match v with
  | PStr s => PStr (normalize_text s)
  | PList l => PList (map normalize_value l)
  | PDict d => PDict (stable_sort key_leb (map (fun kv => (fst kv, normalize_value (snd kv))) d))
  | _ => v
  end.

(** ** Policy ([policy.py]) *)

Definition DEFAULT_MIN_STABLE_PREFIX_TOKENS : Z := 1024.

Definition observation_base (mode : ThreadWakeMode) (scope : string) (g : PromptGraph)
    (eligible : bool) (reason : option string) (reuse : Z) : ThreadWakeObservation :=
  plain_observation true mode eligible reason (Some (pg_stable_prefix_hash g)) (pg_stable_prefix_tokens g)
    (pg_dynamic_tokens g) reuse false scope.

Definition evaluate_threadwake_policy (graph : option PromptGraph) (config : ThreadWakeRequestConfig)
    : ThreadWakeObservation :=
  let mode := default MODE_OFF (tc_mode config) in
  let scope := if str_truthy (tc_scope config) then default "" (tc_scope config) else "thread" in
  let enabled := default false (tc_enabled config) && negb (bool_decide (mode = MODE_OFF)) in
  let min_tokens := default DEFAULT_MIN_STABLE_PREFIX_TOKENS (tc_min_stable_prefix_tokens config) in
  if negb enabled then
    plain_observation false MODE_OFF false (Some "threadwake_disabled") None 0 0 0 false scope
  else
    match graph with
    | None => plain_observation true mode false (Some "prompt_graph_missing") None 0 0 0 false scope
    | Some g =>
        let refuse reason := observation_base mode scope g false (Some reason) 0 in
        if negb (str_truthy (pg_model_id g)) then refuse "model_id_missing"
        else if negb (str_truthy (pg_backend g)) then refuse "backend_missing"
        else if negb (bool_decide (mode ∈ [MODE_OBSERVE; MODE_EPHEMERAL; MODE_SESSION])) then
          refuse ("mode_not_supported: " +:+ ThreadWakeMode_value mode)
        else if existsb (fun s => ps_in_stable_prefix s && ps_multimodal s) (pg_segments g) then
          refuse "stable_prefix_contains_multimodal"
        else if (pg_stable_prefix_tokens g <? min_tokens)%Z then refuse "stable_prefix_below_min_tokens"
        else observation_base mode scope g true None (pg_stable_prefix_tokens g)
    end.

(** ** Compilation *)

Section compiler.
Context (sha256_hex : string -> string) (repr_float : Q -> string).

Definition canonicalize_content (content : pyval) : string :=
  match normalize_value content with
  | PStr s => s
  | v => canonical_json repr_float v
  end.

Definition hash_json (v : pyval) : string := sha256_hex (canonical_json repr_float v).

Definition cache_key_payload (g : PromptGraph) (scope : string) (model_revision quantization : option string)
    (version : string) : pyval :=
  PDict [("version", PStr version); ("backend", opt_str (pg_backend g));
         ("model_id", opt_str (pg_model_id g)); ("model_revision", opt_str model_revision);
         ("quantization", opt_str quantization); ("tokenizer_hash", opt_str (pg_tokenizer_hash g));
         ("chat_template_hash", PStr (pg_chat_template_hash g));
         ("stable_prefix_hash", PStr (pg_stable_prefix_hash g)); ("scope", PStr scope)].

Definition build_threadwake_cache_key (g : PromptGraph) (scope : string)
    (model_revision quantization : option string) (version : string) : string :=
  hash_json (cache_key_payload g scope model_revision quantization version).

(** *** Segment metadata ([metadata.py]) *)

Definition _CODEXIFY_TYPE_DEFAULTS : list (string * (Stability * string)) :=
  [("system", (Stable, "system")); ("persona", (Stable, "persona")); ("tools", (Stable, "tool_schema"));
   ("project", (Stable, "project_context")); ("retrieval", (SemiStable, "retrieval"));
   ("thread", (SemiStable, "thread_history")); ("user", (Dynamic, "user_message"));
   ("tool_output", (Dynamic, "tool_output")); ("unknown", (Dynamic, "unknown"))].

(** [_validate_single_meta] *)
Definition validate_single_meta (meta : CodexifySegmentMeta) (messages : list ChatMessage)
    (allow_global : bool) : option string :=
  if (cm_message_index meta <? 0)%Z then Some "invalid_message_index: negative"
  else
    match messages !! Z.to_nat (cm_message_index meta) with
    | None =>
        Some ("message_index_out_of_range: " +:+ pretty (cm_message_index meta) +:+ " >= "
              +:+ pretty (Z.of_nat (length messages)))
    | Some msg =>
        let computed := sha256_hex (canonicalize_content (msg_content msg)) in
        match (if str_truthy (cm_content_hash meta) then cm_content_hash meta else None) with
        | Some provided =>
            if negb (String.eqb computed provided) then
              Some ("content_hash_mismatch: provided=" +:+ String.substring 0 12 provided +:+ "... computed="
                    +:+ String.substring 0 12 computed +:+ "...")
            else if String.eqb (cm_scope meta) "global" && negb allow_global then
              Some "global_scope_not_allowed"
            else None
        | None =>
            if String.eqb (cm_scope meta) "global" && negb allow_global then
              Some "global_scope_not_allowed"
            else None
        end
    end.

(** The stability and the type [_apply_meta] gives a segment. *)
Definition meta_stability (meta : CodexifySegmentMeta) (seg : PromptSegment) : Stability :=
  let dflt := match dget (cm_segment_type meta) _CODEXIFY_TYPE_DEFAULTS with
              | Some (st, _) => st | None => ps_stability seg end in
  let stability := default dflt (cm_stability meta) in
  let stability :=
    if String.eqb (cm_segment_type meta) "user" then Dynamic
    else if String.eqb (cm_segment_type meta) "tool_output" then Dynamic
    else if String.eqb (cm_segment_type meta) "retrieval" then
      if bool_decide (stability = Stable) && negb (str_truthy (cm_content_hash meta)) then SemiStable
      else stability
    else stability in
  match cm_cacheable meta with Some false => Dynamic | _ => stability end.

Definition meta_type (meta : CodexifySegmentMeta) (seg : PromptSegment) : string :=
  let dflt := match dget (cm_segment_type meta) _CODEXIFY_TYPE_DEFAULTS with
              | Some (_, t) => t | None => ps_segment_type seg end in
  if String.eqb (cm_segment_type meta) "user" then "user_message"
  else if String.eqb (cm_segment_type meta) "tool_output" then "tool_output"
  else dflt.

(** [_apply_meta] *)
Definition apply_meta (meta : CodexifySegmentMeta) (seg : PromptSegment) (default_scope : string)
    : PromptSegment :=
  mkSegment (if String.eqb (cm_name meta) "" then ps_name seg else cm_name meta) (ps_role seg)
    (ps_content_hash seg) (meta_type meta seg) (meta_stability meta seg) (ps_token_count seg)
    (if String.eqb (cm_scope meta) "" then default_scope else cm_scope meta) (ps_multimodal seg) false.

(** The metadata by message index, first entry wins, and the errors of the others. *)
Fixpoint index_meta (metas : list CodexifySegmentMeta) (by_index : list (Z * CodexifySegmentMeta))
    (errors : list string) : list (Z * CodexifySegmentMeta) * list string :=
  match metas with
  | [] => (by_index, errors)
  | meta :: metas' =>
      if dmem (cm_message_index meta) by_index then
        index_meta metas' by_index
          (errors ++ ["duplicate_message_index: " +:+ pretty (cm_message_index meta)])
      else index_meta metas' (dset (cm_message_index meta) meta by_index) errors
  end.

(** The merge of one segment. *)
Definition merge_segment (by_index : list (Z * CodexifySegmentMeta)) (messages : list ChatMessage)
    (default_scope : string) (allow_global : bool) (i : nat) (seg : PromptSegment)
    : PromptSegment * list string :=
  match dget (Z.of_nat i) by_index with
  | None => (seg, [])
  | Some meta =>
      match validate_single_meta meta messages allow_global with
      | Some error => (seg, ["segment[" +:+ pretty (Z.of_nat i) +:+ "]: " +:+ error])
      | None => (apply_meta meta seg default_scope, [])
      end
  end.

Definition validate_and_merge_segments (inferred : list PromptSegment)
    (metas : list CodexifySegmentMeta) (messages : list ChatMessage) (default_scope : string)
    (allow_global : bool) : list PromptSegment * list string :=
  match metas with
  | [] => (inferred, [])
  | _ =>
      let (by_index, errors) := index_meta metas [] [] in
      let merged := imap (merge_segment by_index messages default_scope allow_global) inferred in
      (map fst merged, errors ++ concat (map snd merged))
  end.

(** The forms [threadwake_segments] can take. *)
Inductive RawSegments :=
| RawMissing
| RawTyped (metas : list CodexifySegmentMeta)
| RawValue (v : pyval).

Definition parse_codexify_segments (validate_metadata : pyval -> option (list CodexifySegmentMeta))
    (validate_meta : pyval -> option CodexifySegmentMeta) (raw : RawSegments)
    : option (list CodexifySegmentMeta) :=
  match raw with
  | RawMissing => None
  | RawTyped metas => Some metas
  | RawValue (PDict d) => validate_metadata (PDict d)
  | RawValue (PList l) => mapM validate_meta l
  | RawValue _ => None
  end.

(** *** Messages ([compiler.py]) *)

Definition DEFAULT_CHAT_TEMPLATE_HASH : string := sha256_hex "openai-chat-completions-v1".

Definition multimodal_part (part : pyval) : bool :=
  match part with
  | PDict p =>
      let part_type := dget_or "type" PNone p in
      (truthy part_type && negb (match part_type with PStr t => String.eqb t "text" | _ => false end))
      || dmem "image_url" p
  | _ => false
  end.

Definition contains_multimodal_content (content : pyval) : bool :=
  match content with PList parts => existsb multimodal_part parts | _ => false end.

(** [len(re.findall(r"\S+", text))] *)
Definition estimate_token_count (canonical_payload : string) : Z :=
  if String.eqb canonical_payload "" then 0 else Z.of_nat (length (split_words canonical_payload)).

(** [_message_payload] *)
Definition message_payload (m : ChatMessage) : list (string * pyval) :=
  [("role", PStr (msg_role m)); ("content", msg_content m)]
  ++ match msg_name m with Some n => [("name", PStr n)] | None => [] end
  ++ match msg_tool_calls m with PNone => [] | v => [("tool_calls", v)] end
  ++ match msg_tool_call_id m with Some i => [("tool_call_id", PStr i)] | None => [] end.

(** [_latest_user_index] from index [i]. *)
Fixpoint latest_user_from (i : nat) (messages : list ChatMessage) (latest : option nat) : option nat :=
  match messages with
  | [] => latest
  | m :: messages' =>
      latest_user_from (S i) messages' (if String.eqb (msg_role m) "user" then Some i else latest)
  end.

Definition latest_user_index (messages : list ChatMessage) : option nat :=
  latest_user_from 0 messages None.

(** [_message_stability] *)
Definition message_stability (m : ChatMessage) (idx : nat) (latest_user_idx : option nat) : Stability :=
  let role := msg_role m in
  if bool_decide (role ∈ ["system"; "developer"]) then Stable
  else if String.eqb role "tool" then Dynamic
  else if String.eqb role "user" && bool_decide (Some idx = latest_user_idx) then Dynamic
  else if bool_decide (role ∈ ["user"; "assistant"]) then SemiStable
  else Dynamic.

(** [_segment_hash_payload] *)
Definition segment_hash_payload (s : PromptSegment) : pyval :=
  PDict [("name", PStr (ps_name s)); ("role", PStr (ps_role s));
         ("content_hash", PStr (ps_content_hash s)); ("segment_type", PStr (ps_segment_type s));
         ("stability", PStr (Stability_value (ps_stability s)));
         ("token_count", PInt (ps_token_count s)); ("scope", PStr (ps_scope s));
         ("multimodal", PBool (ps_multimodal s))].

(** The segment of the tools or of the tool choice. *)
Definition control_segment (name role segment_type scope : string) (content : pyval) : PromptSegment :=
  let canonical := canonicalize_content content in
  mkSegment name role (sha256_hex canonical) segment_type Stable (estimate_token_count canonical) scope
    false false.

Definition message_segment (scope : string) (latest : option nat) (idx : nat) (m : ChatMessage)
    : PromptSegment :=
  let canonical := canonicalize_content (PDict (message_payload m)) in
  let multimodal := contains_multimodal_content (msg_content m) in
  mkSegment ("message:" +:+ pretty (Z.of_nat idx) +:+ ":" +:+ msg_role m) (msg_role m)
    (sha256_hex canonical) (if multimodal then "multimodal_message" else "message")
    (message_stability m idx latest) (estimate_token_count canonical) scope multimodal false.

(** The segments before the metadata is merged. *)
Definition inferred_segments (messages : list ChatMessage) (tools tool_choice : pyval) (scope : string)
    : list PromptSegment :=
  (match tools with
   | PNone => []
   | _ => [control_segment "tools" "tool_schema" "tool_schema" scope (PDict [("tools", tools)])]
   end)
  ++ (match tool_choice with
      | PNone => []
      | _ => [control_segment "tool_choice" "tool_instruction" "tool_instruction" scope
                (PDict [("tool_choice", tool_choice)])]
      end)
  ++ imap (message_segment scope (latest_user_index messages)) messages.

(** The prefix loop: marks the leading stable and semi-stable segments. *)
Definition in_prefix (s : PromptSegment) : bool := negb (bool_decide (ps_stability s = Dynamic)).

Definition mark (s : PromptSegment) : PromptSegment :=
  mkSegment (ps_name s) (ps_role s) (ps_content_hash s) (ps_segment_type s) (ps_stability s)
    (ps_token_count s) (ps_scope s) (ps_multimodal s) true.

Fixpoint prefix_loop (segments : list PromptSegment) (prefix_open : bool)
    : list PromptSegment * Z * list pyval :=
  match segments with
  | [] => ([], 0%Z, [])
  | s :: segments' =>
      if prefix_open && in_prefix s then
        let '(rest, tokens, payload) := prefix_loop segments' true in
        (mark s :: rest, (ps_token_count s + tokens)%Z, segment_hash_payload s :: payload)
      else
        let '(rest, tokens, payload) := prefix_loop segments' false in (s :: rest, tokens, payload)
  end.

(** [chain = sha256_hex(chain + h)] over the ordered hashes. *)
Definition chain_hash (hashes : list string) : string :=
  fold_left (fun chain h => sha256_hex (chain +:+ h)) hashes "".

Definition compile_prompt_graph (messages : list ChatMessage) (model_id backend : option string)
    (tools tool_choice : pyval) (tokenizer_hash chat_template_hash : option string) (scope : string)
    (codexify_segments : option (list CodexifySegmentMeta)) (allow_global : bool) : PromptGraph :=
  let segments := inferred_segments messages tools tool_choice scope in
  let segments :=
    match codexify_segments with
    | Some (meta :: metas) =>
        fst (validate_and_merge_segments segments (meta :: metas) messages scope allow_global)
    | _ => segments
    end in
  let '(segments, stable_prefix_tokens, stable_payload) := prefix_loop segments true in
  let full_payload := map segment_hash_payload segments in
  let total_tokens := sumZ (map ps_token_count segments) in
  let ordered_hashes := map ps_content_hash segments in
  mkGraph model_id backend
    (if str_truthy chat_template_hash then default "" chat_template_hash else DEFAULT_CHAT_TEMPLATE_HASH)
    tokenizer_hash segments (hash_json (PList stable_payload)) (hash_json (PList full_payload))
    stable_prefix_tokens (Z.max 0 (total_tokens - stable_prefix_tokens)) ordered_hashes
    (chain_hash ordered_hashes) (0 <? length segments).
End compiler.
