(* ===== verification/TWCompilerProps.v ===== *)
(** * What the ThreadWake hashes identify

    Texts are compared through a digest, so an equality of keys or prefix hashes is
    turned either into the equality of what was hashed or into two explicit texts,
    printed by these very computations, on which the digest collides. *)

From S2P Require Import Prelude PyDict PyStr PySeq Contracts CapacityContext PyJson TWCompiler.

Section props.
Context (sha256_hex : string -> string) (repr_float : Q -> string).

(** Two different texts with the same digest. *)
Definition collision (x y : string) : Prop := x <> y /\ sha256_hex x = sha256_hex y.

Lemma same_or_collision x y : sha256_hex x = sha256_hex y -> x = y \/ collision x y.
Proof. intros H. destruct (decide (x = y)); [by left | by right]. Qed.

Lemma opt_str_inj a b : opt_str a = opt_str b -> a = b.
Proof. destruct a, b; simpl; congruence. Qed.

Lemma opt_str_float_free o : float_free (opt_str o) = true.
Proof. by destruct o. Qed.

Lemma sort_keys_opt_str o : sort_keys (opt_str o) = opt_str o.
Proof. by destruct o. Qed.

(** ** Canonical JSON *)

(** The canonical JSON text is exact.  For values without floats, two values have the
    same text exactly when they agree up to the order of dictionary keys; and filling a
    dictionary in another order does not change the text. *)
Theorem canonical_json_exact :
  (forall v w, float_free v = true -> float_free w = true ->
     (canonical_json repr_float v = canonical_json repr_float w <-> sort_keys v = sort_keys w))
  /\ (forall d d', NoDup (dkeys d) -> d ≡ₚ d' ->
       canonical_json repr_float (PDict d) = canonical_json repr_float (PDict d')).
Proof.
  split.
  - intros v w Hv Hw. split; [by apply canonical_json_inj|]. unfold canonical_json. by intros ->.
  - intros d d' Hn Hp. unfold canonical_json. f_equal. cbn [sort_keys]. f_equal.
    apply sorted_items_unique; [|by rewrite Hp].
    clear Hp. revert Hn. unfold dkeys. induction d as [|[k v] d IH]; [done|]. csimpl.
    rewrite !NoDup_cons. intros [Hk Hn]. split; [|by apply IH]. intros Hin. apply Hk.
    clear -Hin. induction d as [|[k' v'] d IH]; [done|]. csimpl in *. set_solver.
Qed.

(** ** Cache keys *)

Definition key_text (g : PromptGraph) (scope : string) (rev quant : option string) (version : string)
    : string := canonical_json repr_float (cache_key_payload g scope rev quant version).

(** The cache key identifies its inputs.  Two equal keys come from the same backend,
    model, revision, quantization, tokenizer, chat template, stable prefix, scope and key
    version, or the digest collides on the two printed payloads. *)
Theorem cache_key_identifies g scope rev quant version g' scope' rev' quant' version' :
  build_threadwake_cache_key sha256_hex repr_float g scope rev quant version
  = build_threadwake_cache_key sha256_hex repr_float g' scope' rev' quant' version' ->
  (pg_backend g = pg_backend g' /\ pg_model_id g = pg_model_id g' /\ rev = rev' /\ quant = quant'
   /\ pg_tokenizer_hash g = pg_tokenizer_hash g' /\ pg_chat_template_hash g = pg_chat_template_hash g'
   /\ pg_stable_prefix_hash g = pg_stable_prefix_hash g' /\ scope = scope' /\ version = version')
  \/ collision (key_text g scope rev quant version) (key_text g' scope' rev' quant' version').
Proof.
  intros H. apply same_or_collision in H as [H|H]; [left|by right].
  apply canonical_json_inj in H; [|simpl; by rewrite !opt_str_float_free..].
  unfold cache_key_payload in H. cbn [sort_keys map fst snd] in H. rewrite !sort_keys_opt_str in H.
  cbn -[opt_str] in H. injection H as ? ? ? ? ? ? ? ? ?.
  repeat match goal with E : opt_str _ = opt_str _ |- _ => apply opt_str_inj in E end.
  done.
Qed.

(** ** The stable prefix *)

Lemma prefix_loop_closed segs : prefix_loop segs false = (segs, 0%Z, []).
Proof. induction segs as [|s segs IH]; simpl; [done|]. by rewrite IH. Qed.

(** The longest leading run of segments that are not dynamic. *)
Fixpoint run (segs : list PromptSegment) : nat :=
  match segs with s :: segs' => if in_prefix s then S (run segs') else 0 | [] => 0 end.

Lemma prefix_loop_spec segs :
  prefix_loop segs true =
  (map mark (take (run segs) segs) ++ drop (run segs) segs,
   sumZ (map ps_token_count (take (run segs) segs)),
   map segment_hash_payload (take (run segs) segs)).
Proof.
  induction segs as [|s segs IH]; simpl; [done|]. destruct (in_prefix s); simpl.
  - by rewrite IH.
  - by rewrite prefix_loop_closed.
Qed.

Lemma run_le segs : run segs <= length segs.
Proof. induction segs as [|s segs IH]; simpl; [lia|]. destruct (in_prefix s); simpl; lia. Qed.

Lemma run_prefix segs i s : segs !! i = Some s -> i < run segs -> in_prefix s = true.
Proof.
  revert i. induction segs as [|t segs IH]; intros i Hi Hr; [done|]. simpl in Hr.
  destruct (in_prefix t) eqn:E; [|lia]. destruct i as [|i]; simpl in Hi; [by simplify_eq|].
  apply (IH i); [done|lia].
Qed.

Lemma run_stops segs s : segs !! run segs = Some s -> in_prefix s = false.
Proof.
  induction segs as [|t segs IH]; simpl; [done|]. destruct (in_prefix t) eqn:E; simpl; [done|].
  by intros [= ->].
Qed.

(** The segments the graph is built from. *)
Definition merged_segments (messages : list ChatMessage) (tools tool_choice : pyval) (scope : string)
    (codexify : option (list CodexifySegmentMeta)) (allow_global : bool) : list PromptSegment :=
  let segments := inferred_segments sha256_hex repr_float messages tools tool_choice scope in
  match codexify with
  | Some (meta :: metas) =>
      fst (validate_and_merge_segments sha256_hex repr_float segments (meta :: metas) messages scope allow_global)
  | _ => segments
  end.

Lemma inferred_counts messages tools tool_choice scope s :
  s ∈ inferred_segments sha256_hex repr_float messages tools tool_choice scope ->
  (0 <= ps_token_count s)%Z /\ ps_in_stable_prefix s = false.
Proof.
  assert (Hc : forall text, (0 <= estimate_token_count text)%Z).
  { intros text. unfold estimate_token_count. destruct (String.eqb text ""); lia. }
  unfold inferred_segments. rewrite !elem_of_app. intros [H | [H | H]].
  - destruct tools; set_unfold; naive_solver.
  - destruct tool_choice; set_unfold; naive_solver.
  - apply elem_of_lookup_imap in H as (i & m & -> & _). split; [apply Hc | done].
Qed.

(** ** Merging metadata *)

Lemma index_meta_sound metas by_index errors i meta :
  dget i (fst (index_meta metas by_index errors)) = Some meta ->
  dget i by_index = Some meta \/ (meta ∈ metas /\ cm_message_index meta = i).
Proof.
  revert by_index errors. induction metas as [|m metas IH]; intros by_index errors H; [by left|].
  cbn [index_meta] in H. destruct (dmem (cm_message_index m) by_index).
  - apply IH in H as [H | [H1 H2]]; [by left | right; split; [by apply list_elem_of_further|done]].
  - apply IH in H as [H | [H1 H2]]; [|right; split; [by apply list_elem_of_further|done]].
    rewrite dget_dset in H. case_decide as E; [|by left]. simplify_eq.
    right. split; [apply list_elem_of_here|done].
Qed.

(** Each merged segment is the inferred one, or the inferred one with the metadata that
    names its position and passed validation. *)
Lemma merge_pointwise inferred metas messages scope allow_global i s' :
  fst (validate_and_merge_segments sha256_hex repr_float inferred metas messages scope allow_global) !! i
    = Some s' ->
  exists s, inferred !! i = Some s
    /\ (s' = s \/ exists meta, meta ∈ metas /\ cm_message_index meta = Z.of_nat i
         /\ validate_single_meta sha256_hex repr_float meta messages allow_global = None
         /\ s' = apply_meta meta s scope).
Proof.
  unfold validate_and_merge_segments. destruct metas as [|m metas]; [by exists s'; split; [|left]|].
  pose proof (index_meta_sound (m :: metas) [] []) as Hs.
  destruct (index_meta (m :: metas) [] []) as [by_index errors]. simpl fst in *.
  rewrite list_lookup_fmap, list_lookup_imap. destruct (inferred !! i) as [s|]; csimpl; [|done].
  intros [= <-]. exists s. split; [done|]. unfold merge_segment.
  destruct (dget (Z.of_nat i) by_index) as [meta|] eqn:E; [|by left].
  apply Hs in E as [E | [Hin Hi]]; [done|].
  destruct (validate_single_meta _ _ _ _ _) eqn:Ev; [by left|]. right. by exists meta.
Qed.

Lemma merge_length inferred metas messages scope allow_global :
  length (fst (validate_and_merge_segments sha256_hex repr_float inferred metas messages scope allow_global))
  = length inferred.
Proof.
  unfold validate_and_merge_segments. destruct metas; [done|].
  destruct (index_meta _ _ _). simpl. by rewrite length_fmap, length_imap.
Qed.

Lemma apply_meta_keeps meta s scope :
  ps_content_hash (apply_meta meta s scope) = ps_content_hash s
  /\ ps_token_count (apply_meta meta s scope) = ps_token_count s
  /\ ps_role (apply_meta meta s scope) = ps_role s
  /\ ps_multimodal (apply_meta meta s scope) = ps_multimodal s.
Proof. done. Qed.

(** The merged segments agree with the inferred ones on what is hashed and counted. *)
Lemma merged_same (f : PromptSegment -> Z + string) messages tools tool_choice scope codexify allow_global :
  (forall meta s sc, f (apply_meta meta s sc) = f s) ->
  map f (merged_segments messages tools tool_choice scope codexify allow_global)
  = map f (inferred_segments sha256_hex repr_float messages tools tool_choice scope).
Proof.
  intros Hf. unfold merged_segments. destruct codexify as [[|meta metas]|]; try done.
  apply list_eq. intros i. rewrite !list_lookup_fmap.
  destruct (fst (validate_and_merge_segments _ _ _ _ _ _ _) !! i) as [s'|] eqn:E.
  - apply merge_pointwise in E as (s & -> & [-> | (m & _ & _ & _ & ->)]); csimpl; by rewrite ?Hf.
  - apply lookup_ge_None in E. rewrite merge_length in E. by rewrite (proj2 (lookup_ge_None _ _) E).
Qed.

Lemma merged_hashes messages tools tool_choice scope codexify allow_global :
  map ps_content_hash (merged_segments messages tools tool_choice scope codexify allow_global)
  = map ps_content_hash (inferred_segments sha256_hex repr_float messages tools tool_choice scope).
Proof.
  pose proof (merged_same (fun s => inr (ps_content_hash s)) messages tools tool_choice scope codexify
    allow_global ltac:(done)) as H.
  apply (f_equal (map (fun v : Z + string => match v with inr h => h | _ => "" end))) in H.
  by rewrite !map_map in H.
Qed.

Lemma merged_counts messages tools tool_choice scope codexify allow_global s :
  s ∈ merged_segments messages tools tool_choice scope codexify allow_global -> (0 <= ps_token_count s)%Z.
Proof.
  intros Hs. pose proof (merged_same (fun s => inl (ps_token_count s)) messages tools tool_choice scope codexify
    allow_global ltac:(done)) as H.
  assert (Hin : inl (ps_token_count s) ∈ map (fun s => inl (ps_token_count s) : Z + string)
    (merged_segments messages tools tool_choice scope codexify allow_global))
    by (apply list_elem_of_fmap; by exists s).
  rewrite H in Hin. apply list_elem_of_fmap in Hin as (s0 & [= ->] & Hin). by apply inferred_counts in Hin as [? _].
Qed.

Lemma compile_segments messages model_id backend tools tool_choice th ch scope codexify allow_global :
  let segs := merged_segments messages tools tool_choice scope codexify allow_global in
  let g := compile_prompt_graph sha256_hex repr_float messages model_id backend tools tool_choice th ch
             scope codexify allow_global in
  pg_segments g = map mark (take (run segs) segs) ++ drop (run segs) segs
  /\ pg_stable_prefix_tokens g = sumZ (map ps_token_count (take (run segs) segs))
  /\ pg_stable_prefix_hash g = hash_json sha256_hex repr_float (PList (map segment_hash_payload (take (run segs) segs)))
  /\ pg_ordered_segment_hashes g = map ps_content_hash segs
  /\ pg_full_prefix_chain_hash g = chain_hash sha256_hex (map ps_content_hash segs)
  /\ pg_dynamic_tokens g = sumZ (map ps_token_count (drop (run segs) segs)).
Proof.
  intros segs g. subst g. unfold compile_prompt_graph. fold (merged_segments messages tools tool_choice scope codexify allow_global).
  fold segs. rewrite prefix_loop_spec. cbn.
  assert (Hmark : forall {A} (f : PromptSegment -> A), (forall s, f (mark s) = f s) ->
    map f (map mark (take (run segs) segs) ++ drop (run segs) segs) = map f segs).
  { intros A f Hf. rewrite map_app, map_map, (map_ext _ f) by done. by rewrite <- map_app, take_drop. }
  rewrite !Hmark by done. repeat split.
  rewrite <- (take_drop (run segs) segs) at 1. rewrite map_app, sumZ_app.
  assert (0 <= sumZ (map ps_token_count (drop (run segs) segs)))%Z; [|lia].
  assert (Hall : forall s, s ∈ drop (run segs) segs -> (0 <= ps_token_count s)%Z).
  { intros s Hs. eapply merged_counts, elem_of_sublist; [exact Hs|apply sublist_drop]. }
  clear -Hall. induction (drop (run segs) segs) as [|s l IH]; [done|]. cbn [map]. rewrite sumZ_cons.
  pose proof (Hall s (list_elem_of_here s l)). assert (forall s, s ∈ l -> (0 <= ps_token_count s)%Z).
  { intros. by apply Hall, list_elem_of_further. } specialize (IH H0). lia.
Qed.

(** ** Properties of the graph *)

Lemma latest_user_from_ge i messages latest j :
  latest_user_from i messages latest = Some j -> latest = Some j \/ i <= j.
Proof.
  revert i latest. induction messages as [|m messages IH]; intros i latest H; [by left|].
  apply IH in H as [H | H]; [|right; lia]. destruct (String.eqb (msg_role m) "user"); [|by left].
  simplify_eq. by right.
Qed.

Lemma latest_user_from_spec i messages latest j :
  latest_user_from i messages latest = Some j ->
  latest = Some j \/ exists m, messages !! (j - i) = Some m /\ i <= j /\ msg_role m = "user".
Proof.
  revert i latest. induction messages as [|m messages IH]; intros i latest H; [by left|].
  apply IH in H as [H | (m' & Hm & Hle & Hr)].
  - destruct (String.eqb (msg_role m) "user") eqn:E; [|by left]. apply String.eqb_eq in E. simplify_eq.
    right. exists m. by rewrite Nat.sub_diag.
  - right. exists m'. replace (j - i) with (S (j - S i)) by lia. repeat split; [done|lia|done].
Qed.

(** The number of segments before those of the messages. *)
Definition control_count (tools tool_choice : pyval) : nat :=
  (match tools with PNone => 0 | _ => 1 end) + (match tool_choice with PNone => 0 | _ => 1 end).

Lemma inferred_message_segment messages tools tool_choice scope j m :
  messages !! j = Some m ->
  inferred_segments sha256_hex repr_float messages tools tool_choice scope !! (control_count tools tool_choice + j)
  = Some (message_segment sha256_hex repr_float scope (latest_user_index messages) j m).
Proof.
  intros Hm. unfold inferred_segments, control_count.
  destruct tools, tool_choice; simpl; rewrite list_lookup_imap, Hm; done.
Qed.

(** The stable prefix of a compiled prompt is exactly its longest leading run of segments
    that are not dynamic; its hash is that of this run alone, the two token counts split
    the total, and without segment metadata the latest user message and everything after
    it stay outside. *)
Theorem stable_prefix_exact messages model_id backend tools tool_choice th ch scope codexify allow_global :
  let segs := merged_segments messages tools tool_choice scope codexify allow_global in
  let k := run segs in
  let g := compile_prompt_graph sha256_hex repr_float messages model_id backend tools tool_choice th ch
             scope codexify allow_global in
  pg_segments g = map mark (take k segs) ++ drop k segs
  /\ (forall i s, segs !! i = Some s -> i < k -> ps_stability s <> Dynamic)
  /\ (forall s, segs !! k = Some s -> ps_stability s = Dynamic)
  /\ pg_stable_prefix_hash g
     = hash_json sha256_hex repr_float (PList (map segment_hash_payload (take k segs)))
  /\ (pg_stable_prefix_tokens g + pg_dynamic_tokens g = sumZ (map ps_token_count segs))%Z
  /\ (codexify = None -> forall j, latest_user_index messages = Some j -> k <= control_count tools tool_choice + j).
Proof.
  intros segs k g. destruct (compile_segments messages model_id backend tools tool_choice th ch scope codexify allow_global)
    as (H1 & H2 & H3 & _ & _ & H4). fold segs in H1, H2, H3, H4. fold g in H1, H2, H3, H4. fold k in H1, H2, H3, H4.
  repeat split; [done| | |done| |].
  - intros i s Hi Hk Hd. apply run_prefix in Hi; [|done]. unfold in_prefix in Hi. by rewrite Hd in Hi.
  - intros s Hs. apply run_stops in Hs. unfold in_prefix in Hs. apply negb_false_iff in Hs.
    by apply bool_decide_eq_true in Hs.
  - rewrite H2, H4, <- sumZ_app, <- map_app. by rewrite take_drop.
  - intros Hc j Hj. destruct (decide (k <= control_count tools tool_choice + j)) as [|Hn]; [done|exfalso].
    pose proof Hj as Hj'. apply latest_user_from_spec in Hj' as [Hj' | (m & Hm & _ & Hrole)]; [done|].
    rewrite Nat.sub_0_r in Hm. subst codexify.
    pose proof (inferred_message_segment messages tools tool_choice scope j m Hm) as Hseg.
    apply run_prefix in Hseg; [|unfold k, segs, merged_segments in Hn; simpl in Hn; lia].
    unfold in_prefix, message_segment, message_stability in Hseg. simpl in Hseg. rewrite Hj, Hrole in Hseg.
    by rewrite (bool_decide_true (Some j = Some j)) in Hseg.
Qed.

(** The canonical texts whose digests the segments carry, in order. *)
Definition segment_texts (messages : list ChatMessage) (tools tool_choice : pyval) : list string :=
  (match tools with PNone => [] | _ => [canonicalize_content repr_float (PDict [("tools", tools)])] end)
  ++ (match tool_choice with PNone => []
      | _ => [canonicalize_content repr_float (PDict [("tool_choice", tool_choice)])] end)
  ++ map (fun m => canonicalize_content repr_float (PDict (message_payload m))) messages.

Lemma inferred_texts messages tools tool_choice scope :
  map ps_content_hash (inferred_segments sha256_hex repr_float messages tools tool_choice scope)
  = map sha256_hex (segment_texts messages tools tool_choice).
Proof.
  assert (Hm : forall latest i, map ps_content_hash (imap (fun j => message_segment sha256_hex repr_float scope latest (i + j)) messages)
    = map sha256_hex (map (fun m => canonicalize_content repr_float (PDict (message_payload m))) messages)).
  { intros latest. induction messages as [|m messages IH]; intros i; [done|]. csimpl. f_equal.
    rewrite <- (IH (S i)). f_equal. apply imap_ext. intros j x _. simpl. by rewrite Nat.add_succ_r. }
  specialize (Hm (latest_user_index messages) 0). unfold inferred_segments, segment_texts. rewrite !map_app.
  rewrite <- Hm. f_equal; [by destruct tools|]. f_equal. by destruct tool_choice.
Qed.

Definition content_of (v : pyval) : string :=
  match v with
  | PDict d => match dget "content_hash" d with Some (PStr h) => h | _ => "" end
  | _ => ""
  end.

Lemma payloads_hashes l :
  map content_of (map sort_keys (map segment_hash_payload l)) = map ps_content_hash l.
Proof. rewrite !map_map. by apply map_ext. Qed.

Lemma payload_float_free l : float_free (PList (map segment_hash_payload l)) = true.
Proof. simpl. induction l; simpl; [done|]. done. Qed.

Lemma hashes_same_or_collide xs ys :
  map sha256_hex xs = map sha256_hex ys ->
  xs = ys \/ exists x y, x ∈ xs /\ y ∈ ys /\ collision x y.
Proof.
  revert ys. induction xs as [|x xs IH]; intros [|y ys] H; [by left|done..|].
  injection H as Hx H. apply same_or_collision in Hx as [-> | Hc].
  - destruct (IH ys H) as [-> | (a & b & Ha & Hb & Hc)]; [by left|]. right. exists a, b.
    repeat split; [by apply list_elem_of_further.. | apply Hc | apply Hc].
  - right. exists x, y. repeat split; [apply list_elem_of_here..| apply Hc | apply Hc].
Qed.

(** The text whose digest is the stable-prefix hash. *)
Definition prefix_text (segs : list PromptSegment) : string :=
  canonical_json repr_float (PList (map segment_hash_payload (take (run segs) segs))).


(** ** The prefix chain *)

(** The texts hashed along the chain from [chain]. *)
Fixpoint chain_inputs (chain : string) (hashes : list string) : list string :=
  match hashes with
  | [] => []
  | h :: hashes' => (chain +:+ h) :: chain_inputs (sha256_hex (chain +:+ h)) hashes'
  end.

Lemma chain_hash_snoc hashes h :
  chain_hash sha256_hex (hashes ++ [h]) = sha256_hex (chain_hash sha256_hex hashes +:+ h).
Proof. unfold chain_hash. by rewrite fold_left_app. Qed.

Lemma chain_inputs_snoc hashes h :
  chain_inputs "" (hashes ++ [h]) = chain_inputs "" hashes ++ [chain_hash sha256_hex hashes +:+ h].
Proof.
  unfold chain_hash. generalize ""%string. induction hashes as [|x hashes IH]; intros c; [done|].
  simpl. by rewrite IH.
Qed.

Lemma string_app_inj a b c d :
  String.length a = String.length b -> (a +:+ c = b +:+ d)%string -> a = b /\ c = d.
Proof.
  revert b. induction a as [|x a IH]; intros [|y b] Hl H; [done..|].
  rewrite !string_app_cons in H. injection H as -> H. injection Hl as Hl. by destruct (IH b Hl H) as [-> ->].
Qed.

Section chain.
Hypothesis digest_length : forall x, String.length (sha256_hex x) = 64.

Lemma chain_hash_length hashes :
  String.length (chain_hash sha256_hex hashes) = if decide (hashes = []) then 0 else 64.
Proof.
  destruct hashes as [|h hashes _] using rev_ind; [done|]. rewrite chain_hash_snoc, digest_length.
  case_decide as E; [by destruct hashes | done].
Qed.

Lemma chain_same_or_collides hashes hashes' :
  Forall (fun h => String.length h = 64) hashes -> Forall (fun h => String.length h = 64) hashes' ->
  chain_hash sha256_hex hashes = chain_hash sha256_hex hashes' ->
  hashes = hashes' \/ exists x y, x ∈ chain_inputs "" hashes /\ y ∈ chain_inputs "" hashes' /\ collision x y.
Proof.
  revert hashes'. induction hashes as [|h hashes IH] using rev_ind; intros hashes' H H' E;
    destruct hashes' as [|h' hashes' _] using rev_ind; [by left| | |].
  1,2: apply (f_equal String.length) in E; rewrite !chain_hash_length in E;
       repeat case_decide; try discriminate E; by destruct hashes || by destruct hashes'.
  apply Forall_app in H as [H [Hh _]%Forall_cons]. apply Forall_app in H' as [H' [Hh' _]%Forall_cons].
  rewrite !chain_hash_snoc in E. rewrite !chain_inputs_snoc.
  apply same_or_collision in E as [E | Hc].
  2:{ right. eexists _, _. split; [apply elem_of_app; right; by apply list_elem_of_singleton|].
      split; [apply elem_of_app; right; by apply list_elem_of_singleton|done]. }
  assert (Hl : String.length (chain_hash sha256_hex hashes) = String.length (chain_hash sha256_hex hashes')).
  { apply (f_equal String.length) in E. rewrite !string_length_app in E. lia. }
  apply string_app_inj in E as [E ->]; [|done].
  destruct (IH hashes' H H' E) as [-> | (x & y & Hx & Hy & Hc)]; [by left|].
  right. exists x, y. split; [apply elem_of_app; by left|]. split; [apply elem_of_app; by left|done].
Qed.

(** The chain hash identifies the whole prompt.  With digests of 64 characters, two
    prompts with the same chain hash have the same segment hashes in the same order, or
    the digest collides on two texts hashed along the two chains: a chain neither hides
    a dropped or reordered segment nor confuses where one ends. *)
Theorem chain_hash_identifies_prompt messages model_id backend tools tool_choice th ch scope cdx ag
    messages' model_id' backend' tools' tool_choice' th' ch' scope' cdx' ag' :
  let g := compile_prompt_graph sha256_hex repr_float messages model_id backend tools tool_choice th ch scope cdx ag in
  let g' := compile_prompt_graph sha256_hex repr_float messages' model_id' backend' tools' tool_choice' th' ch' scope' cdx' ag' in
  pg_full_prefix_chain_hash g = pg_full_prefix_chain_hash g' ->
  pg_ordered_segment_hashes g = pg_ordered_segment_hashes g'
  \/ exists x y, x ∈ chain_inputs "" (pg_ordered_segment_hashes g)
       /\ y ∈ chain_inputs "" (pg_ordered_segment_hashes g') /\ collision x y.
Proof.
  intros g g'.
  assert (Hlen : forall ms t tc sc cd a,
    Forall (fun h => String.length h = 64) (map ps_content_hash (merged_segments ms t tc sc cd a))).
  { intros. rewrite merged_hashes, inferred_texts. apply Forall_forall.
    intros h (x & -> & _)%list_elem_of_fmap. apply digest_length. }
  destruct (compile_segments messages model_id backend tools tool_choice th ch scope cdx ag) as (_ & _ & _ & E1 & E2 & _).
  destruct (compile_segments messages' model_id' backend' tools' tool_choice' th' ch' scope' cdx' ag') as (_ & _ & _ & E3 & E4 & _).
  unfold g, g'. rewrite E1, E2, E3, E4. by apply chain_same_or_collides.
Qed.
End chain.

(** ** Metadata *)

(** Merging client metadata keeps every segment in place with its role, digest, token
    count and modality; a segment declared user content, tool output or not cacheable
    becomes dynamic, and a retrieval segment becomes stable only under a hash that was
    compared with the content of the message the metadata names. *)
Theorem merge_preserves_content inferred metas messages scope allow_global i s' :
  fst (validate_and_merge_segments sha256_hex repr_float inferred metas messages scope allow_global) !! i
    = Some s' ->
  exists s, inferred !! i = Some s
    /\ ps_content_hash s' = ps_content_hash s /\ ps_role s' = ps_role s
    /\ ps_token_count s' = ps_token_count s /\ ps_multimodal s' = ps_multimodal s
    /\ (s' <> s -> exists meta msg, meta ∈ metas /\ cm_message_index meta = Z.of_nat i /\ messages !! i = Some msg
          /\ (cm_scope meta = "global" -> allow_global = true)
          /\ (forall h, cm_content_hash meta = Some h -> h <> "" ->
                h = sha256_hex (canonicalize_content repr_float (msg_content msg)))
          /\ (cm_segment_type meta ∈ ["user"; "tool_output"] \/ cm_cacheable meta = Some false ->
                ps_stability s' = Dynamic)
          /\ (cm_segment_type meta = "retrieval" -> ps_stability s' = Stable ->
                str_truthy (cm_content_hash meta) = true)).
Proof.
  intros H. apply merge_pointwise in H as (s & Hs & [-> | (meta & Hin & Hi & Hv & ->)]); exists s;
    [by repeat split|]. repeat split; [done|]. intros _.
  unfold validate_single_meta in Hv. rewrite Hi in Hv. rewrite (proj2 (Z.ltb_ge _ _)) in Hv by lia.
  rewrite Nat2Z.id in Hv. destruct (messages !! i) as [msg|] eqn:Em; [|done].
  exists meta, msg. repeat split; [done|done|..].
  - intros Hg. rewrite Hg in Hv. destruct allow_global; [done|]. simpl in Hv.
    by repeat case_match.
  - intros h Hh Hne. rewrite Hh in Hv. simpl in Hv. rewrite (proj2 (String.eqb_neq h "") Hne) in Hv. simpl in Hv.
    destruct (String.eqb _ h) eqn:E; simpl in Hv; [|done]. by apply String.eqb_eq in E.
  - unfold apply_meta, meta_stability. simpl. intros [Hu | ->]; [|done].
    set_unfold in Hu. destruct Hu as [-> | [-> | []]]; simpl; by destruct (cm_cacheable meta) as [[]|].
  - intros Hr. unfold apply_meta, meta_stability. simpl. rewrite Hr. simpl.
    destruct (str_truthy (cm_content_hash meta)); [done|]. rewrite andb_true_r.
    case_bool_decide; destruct (cm_cacheable meta) as [[]|]; congruence.
Qed.

(** ** Policy *)

(** A prompt is eligible for reuse exactly when the feature is enabled in a supported
    mode, model and backend are known, no multimodal segment lies in the stable prefix,
    and the prefix reaches the minimum; only then are reusable tokens reported, and they
    are exactly the prefix. *)
Theorem policy_eligibility_exact graph config :
  let o := evaluate_threadwake_policy graph config in
  (ob_eligible o = true <->
     tc_enabled config = Some true
     /\ default MODE_OFF (tc_mode config) ∈ [MODE_OBSERVE; MODE_EPHEMERAL; MODE_SESSION]
     /\ exists g, graph = Some g
        /\ str_truthy (pg_model_id g) = true /\ str_truthy (pg_backend g) = true
        /\ (forall s, s ∈ pg_segments g -> ps_in_stable_prefix s = true -> ps_multimodal s = false)
        /\ (default DEFAULT_MIN_STABLE_PREFIX_TOKENS (tc_min_stable_prefix_tokens config)
             <= pg_stable_prefix_tokens g)%Z
        /\ ob_estimated_prefill_reuse_tokens o = pg_stable_prefix_tokens g)
  /\ (ob_eligible o = false -> is_Some (ob_reason o) /\ ob_estimated_prefill_reuse_tokens o = 0%Z)
  /\ ob_cache_hit o = false.
Proof.
  unfold evaluate_threadwake_policy.
  set (mode := default MODE_OFF (tc_mode config)).
  destruct (default false (tc_enabled config) && negb (bool_decide (mode = MODE_OFF))) eqn:Een; cbn [negb].
  2:{ simpl. split; [|done]. split; [done|]. intros (He & Hm & _). rewrite He in Een. simpl in Een.
      apply negb_false_iff, bool_decide_eq_true in Een. rewrite Een in Hm. set_unfold in Hm. naive_solver. }
  apply andb_true_iff in Een as [Hen _].
  assert (Hen' : tc_enabled config = Some true) by by destruct (tc_enabled config) as [[]|].
  destruct graph as [g|]; [|simpl; split; [split; [done|intros (_ & _ & g & ? & _); done]|done]].
  destruct (str_truthy (pg_model_id g)) eqn:E1; cbn [negb];
    [|simpl; split; [split; [done|intros (_ & _ & ? & [= <-] & ? & _); congruence]|done]].
  destruct (str_truthy (pg_backend g)) eqn:E2; cbn [negb];
    [|simpl; split; [split; [done|intros (_ & _ & ? & [= <-] & _ & ? & _); congruence]|done]].
  case_bool_decide as E3; cbn [negb]; [|simpl; split; [split; [done|by intros (_ & ? & _)]|done]].
  destruct (existsb _ (pg_segments g)) eqn:E4.
  { simpl. split; [split; [done|]|done]. intros (_ & _ & ? & [= <-] & _ & _ & Hall & _).
    apply existsb_exists in E4 as (s & Hin & [H1 H2]%andb_true_iff). apply list_elem_of_In in Hin.
    specialize (Hall s Hin H1). congruence. }
  destruct (_ <? _)%Z eqn:E5; reflect_tests.
  { simpl. split; [split; [done|]|done]. intros (_ & _ & ? & [= <-] & _ & _ & _ & ? & _). lia. }
  simpl. split; [|done]. split; [|done]. intros _. split; [done|]. split; [done|]. exists g.
  repeat split; [done|done| |done]. intros s Hs Hp. destruct (ps_multimodal s) eqn:Em; [|done].
  assert (existsb (fun s => ps_in_stable_prefix s && ps_multimodal s) (pg_segments g) = true); [|congruence].
  apply existsb_exists. exists s. rewrite Hp, Em. split; [by apply list_elem_of_In | done].
Qed.

(** ** Metadata by message index, segments by position *)

Definition shift_messages : list ChatMessage :=
  [mkMessage "system" (PStr "be brief") None PNone None; mkMessage "user" (PStr "my secret question") None PNone None;
   mkMessage "system" (PStr "project notes") None PNone None].

(** Metadata that describes message 2, with the digest of its content. *)
Definition shift_meta : CodexifySegmentMeta :=
  mkMeta "project" 2 None "project" (Some Stable) "thread"
    (Some (sha256_hex (canonicalize_content repr_float (PStr "project notes")))) None.

Definition shift_graph (tools : pyval) : PromptGraph :=
  compile_prompt_graph sha256_hex repr_float shift_messages (Some "m") (Some "mlx") tools PNone None None
    "thread" (Some [shift_meta]) false.

Lemma shift_valid : validate_single_meta sha256_hex repr_float shift_meta shift_messages false = None.
Proof.
  unfold validate_single_meta, shift_meta, shift_messages. cbn [cm_message_index Z.ltb Z.compare Z.to_nat].
  simpl lookup. cbn [cm_content_hash msg_content]. destruct (str_truthy _); [|done].
  by rewrite String.eqb_refl.
Qed.

Lemma shift_merge segs :
  fst (validate_and_merge_segments sha256_hex repr_float segs [shift_meta] shift_messages "thread" false)
  = imap (fun i s => if i =? 2 then apply_meta shift_meta s "thread" else s) segs.
Proof.
  unfold validate_and_merge_segments. cbn [index_meta dmem dget cm_message_index shift_meta dset fst].
  rewrite fmap_imap. apply imap_ext. intros i s _. unfold merge_segment. simpl.
  destruct (decide (Z.of_nat i = 2%Z)) as [E|E].
  - rewrite shift_valid. by rewrite (proj2 (Nat.eqb_eq i 2)) by lia.
  - by rewrite (proj2 (Nat.eqb_neq i 2)) by lia.
Qed.

(** Metadata names messages, but it is merged by segment position: with tools in the
    request, metadata verified against message 2 is applied to message 1, and the latest
    user message enters the stable prefix; without tools it lands on message 2 and the
    user message stays out. *)
Theorem metadata_lands_on_wrong_segment :
  map (fun s => (ps_role s, ps_stability s, ps_in_stable_prefix s)) (pg_segments (shift_graph (PList [])))
    = [("tool_schema", Stable, true); ("system", Stable, true); ("user", Stable, true); ("system", Stable, true)]
  /\ map (fun s => (ps_role s, ps_stability s, ps_in_stable_prefix s)) (pg_segments (shift_graph PNone))
    = [("system", Stable, true); ("user", Dynamic, false); ("system", Stable, false)].
Proof.
  unfold shift_graph, compile_prompt_graph. rewrite !shift_merge. split; vm_compute; reflexivity.
Qed.
End props.

(** ** Concrete runs *)

(** A digest of 64 characters: the text padded and cut. *)
Definition padding : string := "................................................................".
Definition pad_digest (s : string) : string := String.substring 0 64 (s +:+ padding).

Lemma substring_length n s : n <= String.length s -> String.length (String.substring 0 n s) = n.
Proof. revert s. induction n as [|n IH]; intros [|c s] H; simpl in *; [done|done|lia|]. rewrite IH; lia. Qed.

Lemma pad_digest_length s : String.length (pad_digest s) = 64.
Proof. apply substring_length. rewrite string_length_app. simpl. lia. Qed.

Definition no_floats (q : Q) : string := "".

Definition demo_graph (question : string) : PromptGraph :=
  compile_prompt_graph pad_digest no_floats
    [mkMessage "system" (PStr "be brief") None PNone None; mkMessage "user" (PStr question) None PNone None]
    (Some "m") (Some "mlx") PNone PNone None None "thread" None false.

Lemma cache_key_identifies_witness :
  (pg_backend (demo_graph "a") = pg_backend (demo_graph "b") /\ pg_stable_prefix_hash (demo_graph "a") = pg_stable_prefix_hash (demo_graph "b"))
  \/ collision pad_digest (key_text no_floats (demo_graph "a") "thread" None None "v")
       (key_text no_floats (demo_graph "b") "thread" None None "v").
Proof.
  destruct (cache_key_identifies pad_digest no_floats (demo_graph "a") "thread" None None "v"
              (demo_graph "b") "thread" None None "v" ltac:(vm_compute; reflexivity))
    as [(H1 & _ & _ & _ & _ & _ & H2 & _) | H]; [left; by split | by right].
Defined.


Lemma chain_hash_identifies_prompt_witness :
  pg_ordered_segment_hashes (demo_graph "a") = pg_ordered_segment_hashes (demo_graph "a")
  \/ exists x y, x ∈ chain_inputs pad_digest "" (pg_ordered_segment_hashes (demo_graph "a"))
       /\ y ∈ chain_inputs pad_digest "" (pg_ordered_segment_hashes (demo_graph "a")) /\ collision pad_digest x y.
Proof.
  apply (chain_hash_identifies_prompt pad_digest no_floats pad_digest_length
    [mkMessage "system" (PStr "be brief") None PNone None; mkMessage "user" (PStr "a") None PNone None]
    (Some "m") (Some "mlx") PNone PNone None None "thread" None false
    [mkMessage "system" (PStr "be brief") None PNone None; mkMessage "user" (PStr "a") None PNone None]
    (Some "m") (Some "mlx") PNone PNone None None "thread" None false). reflexivity.
Defined.

Lemma merge_preserves_content_witness :
  let meta := mkMeta "s" 0 None "user" (Some Stable) "thread" None None in
  let seg := mkSegment "n" "system" "h" "message" Stable 3 "thread" false false in
  exists s', fst (validate_and_merge_segments pad_digest no_floats [seg] [meta]
                    [mkMessage "system" (PStr "x") None PNone None] "thread" false) !! 0 = Some s'
    /\ ps_content_hash s' = "h" /\ ps_stability s' = Dynamic.
Proof.
  eexists. split; [vm_compute; reflexivity|]. split; [|reflexivity].
  destruct (merge_preserves_content pad_digest no_floats [mkSegment "n" "system" "h" "message" Stable 3 "thread" false false]
    [mkMeta "s" 0 None "user" (Some Stable) "thread" None None] [mkMessage "system" (PStr "x") None PNone None]
    "thread" false 0 _ ltac:(vm_compute; reflexivity)) as (s & Hs & Hh & _).
  simpl in Hs. injection Hs as <-. exact Hh.
Defined.
