(* ===== verification/TWTokens.v ===== *)
(** * Tokenization for ThreadWake
      ([runtime/threadwake/tokenization.py], [mlx_tokenizer.py] and
      [adapters/mlx_prompt.py])

    A backend's tokenizer adapter turns a request and its prompt graph into token ids,
    split into a stable prefix and a dynamic tail.  The adapters are values of the record
    [TokenizerAdapter]; a registry maps backend names to them and falls back to the
    adapter that tokenizes nothing.

    - A request carries the fields ThreadWake reads.  A message is a [ChatMessage].
    - The tokenizer object of MLX is the record [MLXTokenizer]: its name, vocabulary size
      and template as it reports them, [encode] with the [None] of [_tokenize], and its
      [apply_chat_template] when it has one.  [py_str] is [str] of a message content.
    - [int(chunk, 16)] is read on hexadecimal digits, which is what a digest consists of;
      any other text raises.  The diagnostics of exceptions are not modelled. *)

From S2P Require Import Prelude PyDict PyStr PySeq Contracts CapacityContext PyJson TWCompiler.
From Stdlib Require Import Ascii.

(** ** Data *)

Inductive ThreadWakeTokenizerCapability :=
| TOK_UNSUPPORTED | ESTIMATES_ONLY | TOKEN_IDS | TOKEN_IDS_WITH_SPANS.

#[export] Instance ThreadWakeTokenizerCapability_eq_dec : EqDecision ThreadWakeTokenizerCapability.
Proof. solve_decision. Defined.

Definition ThreadWakeTokenizerCapability_value (c : ThreadWakeTokenizerCapability) : string :=
  match c with
  | TOK_UNSUPPORTED => "unsupported" | ESTIMATES_ONLY => "estimates_only"
  | TOKEN_IDS => "token_ids" | TOKEN_IDS_WITH_SPANS => "token_ids_with_spans"
  end.

Record TokenSpan := mkSpan {
  sp_segment_name : string;
  sp_segment_index : Z;
  sp_start : Z;
  sp_end : Z;
  sp_token_count : Z;
  sp_segment_type : string;
  sp_stability : string;
  sp_scope : string;
  sp_content_hash : string;
}.

Record TokenizedPrompt := mkTokenized {
  tp_model_id : string;
  tp_backend : string;
  tp_tokenizer_hash : option string;
  tp_chat_template_hash : option string;
  tp_token_ids : list Z;
  tp_stable_prefix_token_ids : list Z;
  tp_dynamic_tail_token_ids : list Z;
  tp_spans : list TokenSpan;
  tp_stable_prefix_token_count : Z;
  tp_dynamic_tail_token_count : Z;
  tp_real_tokenization : bool;
  tp_unavailable_reason : option string;
}.

(** A prompt without real token ids. *)
Definition unavailable (model_id backend : string) (tok_hash tmpl_hash : option string) (reason : string)
    : TokenizedPrompt :=
  mkTokenized model_id backend tok_hash tmpl_hash [] [] [] [] 0 0 false (Some reason).

(** The forms the request's [threadwake] field can take. *)
Inductive RawConfig :=
| ConfigMissing
| ConfigTyped (c : ThreadWakeRequestConfig)
| ConfigValue (v : pyval).

(** The fields of a chat request ThreadWake reads; the ids are extra fields. *)
Record TWRequest := mkTWRequest {
  rq_messages : list ChatMessage;
  rq_model : option string;
  rq_tools : pyval;
  rq_tool_choice : pyval;
  rq_threadwake : RawConfig;
  rq_threadwake_segments : RawSegments;
  rq_thread_id : option string;
  rq_user_id : option string;
  rq_project_id : option string;
}.

(** [BackendTokenizerAdapter]: [tokenize_prompt] may raise or return [None]. *)
Record TokenizerAdapter := mkTokenizerAdapter {
  ta_supports_tokenization : ThreadWakeTokenizerCapability;
  ta_tokenize_prompt : PromptGraph -> TWRequest -> string -> pyres (option TokenizedPrompt);
}.

(** ** The adapters without a tokenizer *)

(** An adapter that answers every request with the same reason. *)
Definition reason_adapter (cap : ThreadWakeTokenizerCapability) (reason : string) : TokenizerAdapter :=
  mkTokenizerAdapter cap (fun _ _ model_id => Ret (Some (unavailable model_id "" None None reason))).

Definition NoOpTokenizerAdapter := reason_adapter TOK_UNSUPPORTED "backend_tokenizer_unsupported".
Definition MLXTokenizerAdapterStub := reason_adapter ESTIMATES_ONLY "mlx_real_tokenization_not_implemented".
Definition LlamaCppTokenizerAdapterStub := reason_adapter TOK_UNSUPPORTED "llama_cpp_no_local_tokenizer".
Definition MlxLmServerTokenizerAdapterStub :=
  reason_adapter TOK_UNSUPPORTED "mlx_lm_server_no_local_tokenizer".
Definition MlxVlmTokenizerAdapterStub := reason_adapter TOK_UNSUPPORTED "mlx_vlm_no_local_tokenizer".
Definition ForwardingTokenizerAdapterStub := reason_adapter TOK_UNSUPPORTED "forwarding_no_tokenizer_access".

(** ** The fake adapter *)

Definition hex_digit (c : ascii) : option Z :=
  let n := Z.of_N (N_of_ascii c) in
  if in_range "0" "9" c then Some (n - 48)%Z
  else if in_range "a" "f" c then Some (n - 87)%Z
  else if in_range "A" "F" c then Some (n - 55)%Z
  else None.

Fixpoint hex_value (s : string) (acc : Z) : option Z :=
  match s with
  | EmptyString => Some acc
  | String c s' => d ← hex_digit c; hex_value s' (16 * acc + d)%Z
  end.

(** The [j]-th token id of a segment whose content hash is [h]. *)
Definition fake_token_id (h : string) (j : nat) : pyres Z :=
  if (String.length h =? 0) then Raise (Exc "ZeroDivisionError" "integer modulo by zero")
  else
    let chunk := String.substring ((j * 4) mod String.length h) 4 h in
    let chunk := if String.eqb chunk "" then "0000" else chunk in
    match hex_value chunk 0 with
    | Some v => Ret (v mod 65536)%Z
    | None => Raise (ValueError "invalid literal for int() with base 16")
    end.

(** [for j in js: seg_ids.append(...)] *)
Fixpoint fake_ids (h : string) (js : list nat) : pyres (list Z) :=
  match js with
  | [] => Ret []
  | j :: js' => let! x := fake_token_id h j in let! xs := fake_ids h js' in Ret (x :: xs)
  end.

Definition segment_ids (seg : PromptSegment) : pyres (list Z) :=
  let! ids := fake_ids (ps_content_hash seg) (seq 0 (Z.to_nat (Z.min (ps_token_count seg) 64))) in
  Ret (match ids with [] => [0%Z] | _ => ids end).

Definition segment_span (i : nat) (seg : PromptSegment) (start count : Z) : TokenSpan :=
  mkSpan (ps_name seg) (Z.of_nat i) start (start + count) count (ps_segment_type seg)
    (Stability_value (ps_stability seg)) (ps_scope seg) (ps_content_hash seg).

(** The first loop: the ids of every segment and their spans. *)
Fixpoint fake_spans (i : nat) (cursor : Z) (segments : list PromptSegment)
    : pyres (list Z * list TokenSpan) :=
  match segments with
  | [] => Ret ([], [])
  | seg :: segments' =>
      let! ids := segment_ids seg in
      let count := Z.of_nat (length ids) in
      let! (rest, spans) := fake_spans (S i) (cursor + count) segments' in
      Ret (ids ++ rest, segment_span i seg cursor count :: spans)
  end.

(** The second loop: the slices of the ids, into the prefix or into the tail. *)
Fixpoint fake_split (all_ids : list Z) (segments : list PromptSegment) (spans : list TokenSpan)
    : list Z * list Z :=
  match segments, spans with
  | seg :: segments', span :: spans' =>
      let (stable, dynamic) := fake_split all_ids segments' spans' in
      let ids := take (Z.to_nat (sp_end span - sp_start span)) (drop (Z.to_nat (sp_start span)) all_ids) in
      if ps_in_stable_prefix seg then (ids ++ stable, dynamic) else (stable, ids ++ dynamic)
  | _, _ => ([], [])
  end.

Definition fake_tokenize (graph : PromptGraph) (request : TWRequest) (model_id : string)
    : pyres (option TokenizedPrompt) :=
  let! (all_ids, spans) := fake_spans 0 0 (pg_segments graph) in
  let (stable_ids, dynamic_ids) := fake_split all_ids (pg_segments graph) spans in
  Ret (Some (mkTokenized model_id (default "" (pg_backend graph)) None None all_ids stable_ids dynamic_ids spans
               (Z.of_nat (length stable_ids)) (Z.of_nat (length dynamic_ids)) true None)).

Definition FakeTokenizerAdapter : TokenizerAdapter := mkTokenizerAdapter TOKEN_IDS_WITH_SPANS fake_tokenize.

(** ** The MLX adapter *)

Section mlx.
Context (sha256_hex : string -> string) (py_str : pyval -> string).

Record MLXTokenizer := mkMLXTokenizer {
  mt_name_or_path : string;
  mt_vocab_size : Z;
  mt_chat_template : option string;
  mt_apply_chat_template : option (list (string * string) -> pyres string);
  mt_encode : string -> option (list Z);
}.

Definition tokenizer_hash (t : MLXTokenizer) : option string :=
  Some (sha256_hex (mt_name_or_path t +:+ ":" +:+ pretty (mt_vocab_size t))).

Definition chat_template_hash (t : MLXTokenizer) : option string := sha256_hex <$> mt_chat_template t.

Definition extract_chat_messages (request : TWRequest) : list (string * string) :=
  map (fun m => (msg_role m, py_str (msg_content m))) (rq_messages request).

(** One line of the fallback transcript. *)
Definition transcript_line (m : string * string) : string :=
  (if String.eqb (fst m) "system" then "System: "
   else if String.eqb (fst m) "assistant" then "Assistant: " else "User: ") +:+ snd m.

Definition render_mlx_chat_prompt (t : MLXTokenizer) (messages : list (string * string)) : pyres string :=
  match mt_apply_chat_template t with
  | Some apply => apply messages
  | None => Ret (join (String LF "") (map transcript_line messages ++ ["Assistant: "]))
  end.

(** [messages[i] for i, seg in enumerate(graph.segments) if seg.in_stable_prefix and
    i < len(messages)] *)
Definition stable_messages (graph : PromptGraph) (messages : list (string * string))
    : list (string * string) :=
  omap id (imap (fun i seg => if ps_in_stable_prefix seg then messages !! i else None) (pg_segments graph)).

(** The split of [all_ids] into the stable prefix and the dynamic tail. *)
Definition stable_split (t : MLXTokenizer) (graph : PromptGraph) (messages : list (string * string))
    (all_ids : list Z) : pyres (list Z * list Z) :=
  let stable := stable_messages graph messages in
  if (0 <? length stable) && (length stable <? length messages) then
    let! prompt := render_mlx_chat_prompt t stable in
    match mt_encode t prompt with
    | Some stable_ids =>
        if (length stable_ids <=? length all_ids) && bool_decide (take (length stable_ids) all_ids = stable_ids)
        then Ret (stable_ids, drop (length stable_ids) all_ids)
        else Ret ([], all_ids)
    | None => Ret ([], all_ids)
    end
  else Ret ([], all_ids).

Definition mlx_span (i : nat) (seg : PromptSegment) : TokenSpan :=
  mkSpan (ps_name seg) (Z.of_nat i) 0 0 (ps_token_count seg) (ps_segment_type seg)
    (Stability_value (ps_stability seg)) (ps_scope seg) (ps_content_hash seg).

Definition mlx_tokenize (tokenizer : option MLXTokenizer) (graph : PromptGraph) (request : TWRequest)
    (model_id : string) : pyres (option TokenizedPrompt) :=
  match tokenizer with
  | None => Ret (Some (unavailable model_id "" None None "mlx_tokenizer_not_available"))
  | Some t =>
      let refuse reason := unavailable model_id "mlx" (tokenizer_hash t) (chat_template_hash t) reason in
      let messages := extract_chat_messages request in
      match messages with
      | [] => Ret (Some (refuse "no_messages_to_tokenize"))
      | _ =>
          let attempt :=
            let! full_prompt := render_mlx_chat_prompt t messages in
            match mt_encode t full_prompt with
            | None => Ret (refuse "tokenization_failed")
            | Some all_ids =>
                let! (stable_ids, dynamic_ids) := stable_split t graph messages all_ids in
                Ret (mkTokenized model_id "mlx" (tokenizer_hash t) (chat_template_hash t) all_ids stable_ids
                       dynamic_ids (imap mlx_span (pg_segments graph)) (Z.of_nat (length stable_ids))
                       (Z.of_nat (length dynamic_ids)) true None)
            end in
          Ret (Some (match attempt with Ret p => p | Raise _ => refuse "mlx_tokenizer_error" end))
      end
  end.

Definition MLXInProcessTokenizerAdapter (tokenizer : option MLXTokenizer) : TokenizerAdapter :=
  mkTokenizerAdapter (match tokenizer with Some _ => TOKEN_IDS | None => ESTIMATES_ONLY end)
    (mlx_tokenize tokenizer).
End mlx.

(** ** The registry *)

Definition tokenizer_registry := list (string * TokenizerAdapter).

Definition register_tokenizer (backend : string) (a : TokenizerAdapter) (r : tokenizer_registry)
    : tokenizer_registry := dset backend a r.

Definition unregister_tokenizer (backend : string) (r : tokenizer_registry) : tokenizer_registry :=
  ddel backend r.

Definition get_tokenizer (backend : string) (r : tokenizer_registry) : TokenizerAdapter :=
  dget_or backend NoOpTokenizerAdapter r.

Definition tokenizer_capability (backend : string) (r : tokenizer_registry) : ThreadWakeTokenizerCapability :=
  ta_supports_tokenization (get_tokenizer backend r).

Definition has_real_tokenization (backend : string) (r : tokenizer_registry) : bool :=
  bool_decide (tokenizer_capability backend r ∈ [TOKEN_IDS; TOKEN_IDS_WITH_SPANS]).
