(* ===== verification/TWTokensProps.v ===== *)
(** * What the tokenizer adapters guarantee

    A real tokenization is split without loss: the stable prefix and the dynamic tail are
    the prompt.  And the transcript that MLX falls back to never yields a stable prefix. *)

From S2P Require Import Prelude PyDict PyStr PySeq Contracts CapacityContext PyJson TWCompiler TWCompilerProps TWTokens.
From Stdlib Require Import Ascii.

(** ** The flags of a compiled graph *)

(** The segments of the prefix come first. *)
Fixpoint leading (segs : list PromptSegment) : Prop :=
  match segs with
  | [] => True
  | s :: segs' =>
      if ps_in_stable_prefix s then leading segs' else Forall (fun t => ps_in_stable_prefix t = false) segs'
  end.

Lemma leading_marked n segs :
  Forall (fun t => ps_in_stable_prefix t = false) segs -> leading (map mark (take n segs) ++ drop n segs).
Proof.
  revert n. induction segs as [|s segs IH]; intros n Hf; [by destruct n|].
  apply Forall_cons in Hf as [Hs Hf]. destruct n as [|n]; simpl; [by rewrite Hs | by apply IH].
Qed.

Section graph.
Context (sha256_hex : string -> string) (repr_float : Q -> string).

Lemma merged_unmarked messages tools tool_choice scope codexify ag :
  Forall (fun t => ps_in_stable_prefix t = false)
    (merged_segments sha256_hex repr_float messages tools tool_choice scope codexify ag).
Proof.
  apply Forall_forall. intros s Hs. unfold merged_segments in Hs.
  assert (Hinf : forall t, t ∈ inferred_segments sha256_hex repr_float messages tools tool_choice scope ->
    ps_in_stable_prefix t = false) by (intros t Ht; by apply inferred_counts in Ht as [_ ?]).
  destruct codexify as [[|meta metas]|]; auto.
  apply list_elem_of_lookup in Hs as [i Hi]. apply merge_pointwise in Hi as (s0 & H0 & [-> | (m & _ & _ & _ & ->)]).
  - eapply Hinf, list_elem_of_lookup_2, H0.
  - done.
Qed.

Lemma compiled_leading messages model_id backend tools tool_choice th ch scope codexify ag :
  leading (pg_segments (compile_prompt_graph sha256_hex repr_float messages model_id backend tools tool_choice
                          th ch scope codexify ag)).
Proof.
  destruct (compile_segments sha256_hex repr_float messages model_id backend tools tool_choice th ch scope codexify ag)
    as [-> _]. apply leading_marked, merged_unmarked.
Qed.
End graph.

(** ** The split *)

Lemma fake_split_false all segs spans :
  Forall (fun t => ps_in_stable_prefix t = false) segs -> fst (fake_split all segs spans) = [].
Proof.
  revert spans. induction segs as [|s segs IH]; intros [|p spans] Hf; try done.
  apply Forall_cons in Hf as [Hs Hf]. simpl. specialize (IH spans Hf).
  destruct (fake_split all segs spans). by rewrite Hs.
Qed.

Lemma fake_split_all i pre rest segs spans :
  leading segs -> fake_spans i (Z.of_nat (length pre)) segs = Ret (rest, spans) ->
  let (stable, dynamic) := fake_split (pre ++ rest) segs spans in stable ++ dynamic = rest.
Proof.
  revert i pre rest spans. induction segs as [|s segs IH]; intros i pre rest spans Hl H.
  { simpl in *. by simplify_eq. }
  cbn [fake_spans] in H. apply rbind_Ret in H as (ids & _ & H).
  apply rbind_Ret in H as ([rest' spans'] & H & [= <- <-]).
  replace (Z.of_nat (length pre) + Z.of_nat (length ids))%Z with (Z.of_nat (length (pre ++ ids))) in H
    by (rewrite length_app; lia).
  assert (Hall : pre ++ ids ++ rest' = (pre ++ ids) ++ rest') by by rewrite app_assoc.
  cbn [fake_split segment_span sp_start sp_end].
  replace (Z.of_nat (length pre) + Z.of_nat (length ids) - Z.of_nat (length pre))%Z with (Z.of_nat (length ids)) by lia.
  rewrite !Nat2Z.id, drop_app_length, take_app_length, Hall.
  cbn [leading] in Hl. destruct (ps_in_stable_prefix s).
  - specialize (IH _ _ _ _ Hl H). destruct (fake_split _ segs spans'). by rewrite <- app_assoc, IH.
  - assert (Hl' : leading segs) by (destruct segs; [done|]; apply Forall_cons in Hl as [Hs Hl]; simpl; by rewrite Hs).
    specialize (IH _ _ _ _ Hl' H). pose proof (fake_split_false ((pre ++ ids) ++ rest') segs spans' Hl) as Hf.
    destruct (fake_split _ segs spans') as [stable dynamic]. simpl in *. by subst.
Qed.

(** A prompt whose parts are its tokens. *)
Definition split_ok (p : TokenizedPrompt) : Prop :=
  tp_stable_prefix_token_ids p ++ tp_dynamic_tail_token_ids p = tp_token_ids p
  /\ tp_stable_prefix_token_count p = Z.of_nat (length (tp_stable_prefix_token_ids p))
  /\ tp_dynamic_tail_token_count p = Z.of_nat (length (tp_dynamic_tail_token_ids p)).

Lemma stable_split_ok t graph messages ids stable dynamic :
  stable_split t graph messages ids = Ret (stable, dynamic) -> stable ++ dynamic = ids.
Proof.
  unfold stable_split. destruct (_ && _); [|by intros [= <- <-]].
  intros H. apply rbind_Ret in H as (prompt & _ & H). destruct (mt_encode t prompt) as [sids|]; [|by simplify_eq].
  destruct (_ && bool_decide _) eqn:E; [|by simplify_eq]. apply andb_true_iff in E as [_ E].
  apply bool_decide_eq_true in E. injection H as <- <-. rewrite <- E at 1. apply take_drop.
Qed.

(** Tokenization splits without loss.  Whatever the request and the tokenizer object, a
    prompt that the fake adapter or the MLX adapter returns for a compiled graph is the
    concatenation of its stable prefix and its dynamic tail, with their lengths as counts;
    a prompt without real tokens has none and says why; and the MLX adapter never raises. *)
Theorem tokenization_splits_without_loss sha256_hex repr_float py_str tokenizer r m
    messages model_id backend tools tool_choice th ch scope codexify ag :
  let g := compile_prompt_graph sha256_hex repr_float messages model_id backend tools tool_choice th ch scope
             codexify ag in
  (forall p, fake_tokenize g r m = Ret (Some p) -> split_ok p /\ tp_real_tokenization p = true)
  /\ exists p, mlx_tokenize sha256_hex py_str tokenizer g r m = Ret (Some p) /\ split_ok p
       /\ (tp_real_tokenization p = false -> tp_token_ids p = [] /\ is_Some (tp_unavailable_reason p)).
Proof.
  intros g. split.
  - intros p. unfold fake_tokenize. intros H. apply rbind_Ret in H as ([ids spans] & Hs & H).
    pose proof (fake_split_all 0 [] ids _ spans (compiled_leading _ _ _ _ _ _ _ _ _ _ _ _) Hs) as Hsplit.
    simpl in Hsplit. fold g in H, Hsplit. destruct (fake_split ids (pg_segments g) spans) as [stable dynamic].
    injection H as <-. by repeat split.
  - unfold mlx_tokenize. destruct tokenizer as [t|]; [|by eexists; repeat split].
    destruct (extract_chat_messages py_str r) as [|x l]; [by eexists; repeat split|].
    eexists. split; [done|]. destruct (render_mlx_chat_prompt t (x :: l)) as [prompt|]; simpl; [|by repeat split].
    destruct (mt_encode t prompt) as [ids|]; simpl; [|by repeat split].
    destruct (stable_split t g (x :: l) ids) as [[stable dynamic]|] eqn:E; simpl; [|by repeat split].
    apply stable_split_ok in E. by repeat split.
Qed.

(** ** The fallback transcript *)

(** [s] begins with [p]. *)
Definition begins (p s : string) : Prop := exists rest, s = p +:+ rest.

Lemma begins_app a b s : begins (a +:+ b) (a +:+ s) -> begins b s.
Proof.
  intros [rest H]. exists rest. rewrite string_app_assoc' in H.
  induction a as [|c a IH]; [done|]. rewrite !string_app_cons in H. injection H as H. by apply IH.
Qed.

(** Two joined lists with a common part differ where the rest begins. *)
Lemma begins_join sep l a b r : begins (join sep (l ++ [a])) (join sep (l ++ b :: r)) -> begins a (join sep (b :: r)).
Proof.
  induction l as [|x l IH]; [done|]. rewrite <- !app_comm_cons.
  rewrite !join_more by by destruct l. rewrite <- !string_app_assoc'. intros H%begins_app. by apply IH.
Qed.

Lemma join_begins sep b r : begins b (join sep (b :: r)).
Proof.
  destruct r as [|x r]; [exists ""; simpl|by eexists; apply join_more].
  induction b as [|c b IH]; [done|]. rewrite string_app_cons. by rewrite <- IH.
Qed.

Lemma begins_trans a b c : begins a b -> begins b c -> begins a c.
Proof. intros [r ->] [r' ->]. exists (r +:+ r'). apply string_app_assoc'. Qed.

Lemma user_not_assistant text s : begins ("User: " +:+ text) s -> ~ begins "Assistant: " s.
Proof. by intros [r ->] [r' H]. Qed.

Lemma stable_messages_take A B pre (msgs : list (string * string)) :
  Forall (fun t => ps_in_stable_prefix t = false) B -> length A + length B = length msgs ->
  omap id (imap (fun i seg => if ps_in_stable_prefix seg then (pre ++ msgs) !! (length pre + i) else None)
             (map mark A ++ B)) = take (length A) msgs.
Proof.
  revert pre msgs. induction A as [|a A IH]; intros pre msgs Hb Hlen.
  - simpl. clear Hlen. assert (Hnone : forall k, omap id (imap (fun i seg => if ps_in_stable_prefix seg then
      (pre ++ msgs) !! (k + i) else None) B) = []).
    { induction Hb as [|s B Hs _ IHb]; intros k; [done|]. simpl. rewrite Hs. simpl. rewrite <- (IHb (S k)).
      f_equal. apply imap_ext. intros i x _. simpl. by rewrite Nat.add_succ_r. }
    apply Hnone.
  - destruct msgs as [|m msgs]; [done|]. cbn [map app]. rewrite imap_cons. simpl ps_in_stable_prefix. cbv iota.
    rewrite Nat.add_0_r, list_lookup_middle by done. cbn [length take]. simpl. f_equal.
    rewrite <- (IH (pre ++ [m]) msgs Hb) by (simpl in Hlen; lia).
    f_equal. apply imap_ext. intros i x _. simpl. rewrite length_app, <- app_assoc. simpl.
    by replace (length pre + 1 + i) with (length pre + S i) by lia.
Qed.

Lemma dynamic_line m i latest text :
  in_prefix (mkSegment "" "" "" "" (message_stability m i latest) 0 "" false false) = false ->
  begins "User: " (transcript_line (msg_role m, text)).
Proof.
  unfold in_prefix. cbn [ps_stability]. intros H%negb_false_iff%bool_decide_eq_true. revert H.
  unfold message_stability, transcript_line. simpl fst.
  destruct (String.eqb_spec (msg_role m) "system") as [->|_]; [done|].
  destruct (String.eqb_spec (msg_role m) "assistant") as [->|_]; [done|]. by exists text.
Qed.

(** Codes of texts reflect prefixes: what [decode] of a lossless tokenizer gives. *)
Definition prefix_reflecting (encode : string -> option (list Z)) : Prop :=
  forall a b ia ib, encode a = Some ia -> encode b = Some ib -> take (length ia) ib = ia -> begins a b.

(** The messages of the prefix of a chat without tools or metadata. *)
Lemma chat_stable_messages sha256_hex repr_float py_str r model_id backend th ch scope ag :
  let g := compile_prompt_graph sha256_hex repr_float (rq_messages r) model_id backend PNone PNone th ch scope None ag in
  let msgs := extract_chat_messages py_str r in
  exists n, stable_messages g msgs = take n msgs
    /\ forall x, msgs !! n = Some x -> begins "User: " (transcript_line x).
Proof.
  intros g msgs.
  pose proof (compile_segments sha256_hex repr_float (rq_messages r) model_id backend PNone PNone th ch scope None ag) as [Hseg _].
  fold g in Hseg. cbv zeta in Hseg. unfold merged_segments in Hseg.
  set (segs := inferred_segments _ _ _ _ _ _) in Hseg.
  assert (Hlen : length segs = length msgs).
  { unfold segs, msgs, inferred_segments, extract_chat_messages. simpl. by rewrite length_imap, length_fmap. }
  pose proof (run_le segs) as Hn. exists (run segs). split.
  - unfold stable_messages. rewrite Hseg.
    pose proof (stable_messages_take (take (run segs) segs) (drop (run segs) segs) [] msgs) as Ht. simpl in Ht.
    rewrite Ht, length_take_le; [done|lia| |rewrite length_take_le, length_drop by lia; lia].
    apply Forall_drop, (merged_unmarked sha256_hex repr_float (rq_messages r) PNone PNone scope None ag).
  - intros x. unfold msgs, extract_chat_messages. rewrite list_lookup_fmap.
    destruct (rq_messages r !! run segs) as [mn|] eqn:Hmn; csimpl; [|done]. intros [= <-].
    assert (Hsn : segs !! run segs
      = Some (message_segment sha256_hex repr_float scope (latest_user_index (rq_messages r)) (run segs) mn))
      by (unfold segs at 2; unfold inferred_segments; cbn [app]; by rewrite list_lookup_imap, Hmn).
    apply run_stops in Hsn.
    exact (dynamic_line mn (run segs) (latest_user_index (rq_messages r)) (py_str (msg_content mn)) Hsn).
Qed.

Lemma transcript_no_split t g msgs n ids :
  mt_apply_chat_template t = None -> prefix_reflecting (mt_encode t) ->
  stable_messages g msgs = take n msgs ->
  (forall x, msgs !! n = Some x -> begins "User: " (transcript_line x)) ->
  mt_encode t (join (String LF "") (map transcript_line msgs ++ ["Assistant: "])) = Some ids ->
  stable_split t g msgs ids = Ret ([], ids).
Proof.
  intros Hnone Hrefl Hstable Huser Efull. unfold stable_split. rewrite Hstable. destruct (_ && _) eqn:Econd; [|done].
  apply andb_true_iff in Econd as [_ Hlt%Nat.ltb_lt]. rewrite length_take in Hlt.
  unfold render_mlx_chat_prompt. rewrite Hnone. simpl.
  destruct (mt_encode t (join _ (map transcript_line (take n msgs) ++ _))) as [sids|] eqn:Es; [|done].
  destruct (_ && bool_decide _) eqn:E; [|done]. apply andb_true_iff in E as [_ E%bool_decide_eq_true].
  exfalso. pose proof (Hrefl _ _ _ _ Es Efull E) as Hb.
  destruct (lookup_lt_is_Some_2 msgs n) as [x Hx]; [lia|].
  rewrite <- (take_drop_middle _ _ _ Hx) in Hb at 2. rewrite map_app, <- app_assoc in Hb.
  apply begins_join in Hb. revert Hb. eapply user_not_assistant with (text := "").
  eapply begins_trans; [by apply Huser | apply join_begins].
Qed.

(** The fallback transcript never splits.  For a tokenizer without a chat template whose
    codes reflect prefixes, a chat without tools or metadata never gets a stable prefix:
    the rendering of the stable messages ends in the generation prompt, which the full
    transcript does not have there.  The whole prompt is dynamic, so nothing is ever
    prefilled for reuse. *)
Theorem fallback_transcript_never_splits sha256_hex repr_float py_str t r m model_id backend th ch scope ag p :
  mt_apply_chat_template t = None -> prefix_reflecting (mt_encode t) ->
  let g := compile_prompt_graph sha256_hex repr_float (rq_messages r) model_id backend PNone PNone th ch scope None ag in
  mlx_tokenize sha256_hex py_str (Some t) g r m = Ret (Some p) ->
  tp_stable_prefix_token_ids p = [] /\ tp_dynamic_tail_token_ids p = tp_token_ids p.
Proof.
  intros Hnone Hrefl g. unfold mlx_tokenize.
  destruct (chat_stable_messages sha256_hex repr_float py_str r model_id backend th ch scope ag) as (n & Hst & Hu).
  fold g in Hst. destruct (extract_chat_messages py_str r) as [|x l]; [by intros [= <-]|].
  unfold render_mlx_chat_prompt. rewrite Hnone. simpl rbind.
  destruct (mt_encode t _) as [ids|] eqn:Efull; [|by intros [= <-]].
  rewrite (transcript_no_split t g _ n ids) by done. simpl. by intros [= <-].
Qed.

(** A tokenizer with one code per character. *)
Definition char_encode (s : string) : option (list Z) :=
  Some (map (fun c => Z.of_N (N_of_ascii c)) (String.list_ascii_of_string s)).

Lemma char_encode_reflects : prefix_reflecting char_encode.
Proof.
  intros a b ia ib [= <-] [= <-]. revert b. induction a as [|c a IH]; intros b H; [by exists b|].
  destruct b as [|d b]; [done|]. simpl in H. injection H as H1 H2.
  apply N2Z.inj, (f_equal ascii_of_N) in H1. rewrite !ascii_N_embedding in H1. subst d.
  destruct (IH b H2) as [rest ->]. by exists rest.
Qed.

Definition demo_mlx_tokenizer : MLXTokenizer := mkMLXTokenizer "demo" 256 None None char_encode.

Definition demo_chat : TWRequest :=
  mkTWRequest [mkMessage "system" (PStr "be brief") None PNone None; mkMessage "user" (PStr "hi") None PNone None]
    (Some "m") PNone PNone ConfigMissing RawMissing None None None.

Definition demo_py_str (v : pyval) : string := match v with PStr s => s | _ => "" end.

Lemma fallback_transcript_never_splits_witness :
  exists p, mlx_tokenize id demo_py_str (Some demo_mlx_tokenizer)
      (compile_prompt_graph id (fun _ => "") (rq_messages demo_chat) (Some "m") (Some "mlx") PNone PNone None None
         "thread" None false) demo_chat "m" = Ret (Some p)
    /\ tp_real_tokenization p = true /\ tp_stable_prefix_token_ids p = [].
Proof.
  eexists. split; [reflexivity|]. split; [vm_compute; reflexivity|].
  apply (fallback_transcript_never_splits id (fun _ => "") demo_py_str demo_mlx_tokenizer demo_chat "m" (Some "m")
           (Some "mlx") None None "thread" false); [reflexivity | apply char_encode_reflects | reflexivity].
Defined.
