(* ===== verification/TWProof.v ===== *)
(** * Prefix proofs, snapshot candidates and their policy
      ([runtime/threadwake/prefix_proof.py], [candidate_selection.py],
      [replay_analysis.py] and the snapshot policy engine of [policy.py])

    Two tokenized prompts are compared for an exact shared prefix; a compatible proof of
    sufficient length becomes a scored candidate; observed candidates are ranked; a policy
    decides which would be eligible for a snapshot.  Everything is metadata: nothing is
    reused.

    - Token ids are integers, scores and ratios exact rationals.  [log2] is [math.log2],
      [sha256_hex] the digest, [age_days] the age of an ISO date in whole days ([None]
      when the date cannot be parsed or compared).
    - A counter record is threaded through the operations as the instance's statistics. *)

From S2P Require Import Prelude PyDict PyStr PySeq PyJson TWTokens.

(** ** Prefix proofs ([prefix_proof.py]) *)

Inductive PrefixMismatchReason :=
| REAL_TOKENIZATION_UNAVAILABLE | TOKENIZER_CHANGED | CHAT_TEMPLATE_CHANGED | MODEL_CHANGED
| BACKEND_CHANGED | TOKEN_SEQUENCE_CHANGED | EMPTY_PROMPT | UNSUPPORTED_BACKEND.

Definition PrefixMismatchReason_value (r : PrefixMismatchReason) : string :=
  match r with
  | REAL_TOKENIZATION_UNAVAILABLE => "real_tokenization_unavailable"
  | TOKENIZER_CHANGED => "tokenizer_changed" | CHAT_TEMPLATE_CHANGED => "chat_template_changed"
  | MODEL_CHANGED => "model_changed" | BACKEND_CHANGED => "backend_changed"
  | TOKEN_SEQUENCE_CHANGED => "token_sequence_changed" | EMPTY_PROMPT => "empty_prompt"
  | UNSUPPORTED_BACKEND => "unsupported_backend"
  end.

Record PrefixProof := mkProof {
  pp_compatible : bool;
  pp_shared_prefix_tokens : Z;
  pp_divergence_index : option Z;
  pp_prefix_hash : option string;
  pp_tokenizer_hash : option string;
  pp_chat_template_hash : option string;
  pp_model_id : option string;
  pp_backend : option string;
  pp_reason : option string;
}.

Definition proof_safe_dict (p : PrefixProof) : list (string * pyval) :=
  [("compatible", PBool (pp_compatible p)); ("shared_prefix_tokens", PInt (pp_shared_prefix_tokens p));
   ("divergence_index", opt_int (pp_divergence_index p)); ("prefix_hash", opt_str (pp_prefix_hash p));
   ("tokenizer_hash", opt_str (pp_tokenizer_hash p)); ("chat_template_hash", opt_str (pp_chat_template_hash p));
   ("model_id", opt_str (pp_model_id p)); ("backend", opt_str (pp_backend p));
   ("reason", opt_str (pp_reason p))].

Record EngineStats := mkEngineStats { es_comparisons : Z; es_matches : Z; es_mismatches : Z }.

Definition engine_reset : EngineStats := mkEngineStats 0 0 0.

(** [shared_prefix_length] *)
Fixpoint shared_prefix_length (a b : list Z) : nat :=
  match a, b with
  | x :: a', y :: b' => if (x =? y)%Z then S (shared_prefix_length a' b') else 0
  | _, _ => 0
  end.

Section engine.
Context (sha256_hex : string -> string).

Definition hash_prefix (token_ids : list Z) : string := sha256_hex (join "," (map pretty token_ids)).

(** The proof of [compare], without the counters. *)
Definition compare_proof (a b : TokenizedPrompt) : PrefixProof :=
  let refuse reason model backend tok tmpl :=
    mkProof false 0 None None tok tmpl model backend (Some (PrefixMismatchReason_value reason)) in
  if negb (tp_real_tokenization a) || negb (tp_real_tokenization b) then
    refuse REAL_TOKENIZATION_UNAVAILABLE None None None None
  else if negb (String.eqb (tp_model_id a) (tp_model_id b)) then
    refuse MODEL_CHANGED (Some (tp_model_id a)) None None None
  else if negb (String.eqb (tp_backend a) (tp_backend b)) then
    refuse BACKEND_CHANGED None (Some (tp_backend a)) None None
  else if negb (bool_decide (tp_tokenizer_hash a = tp_tokenizer_hash b)) then
    refuse TOKENIZER_CHANGED None None (tp_tokenizer_hash a) None
  else if negb (bool_decide (tp_chat_template_hash a = tp_chat_template_hash b)) then
    refuse CHAT_TEMPLATE_CHANGED None None None (tp_chat_template_hash a)
  else if (length (tp_token_ids a) =? 0) || (length (tp_token_ids b) =? 0) then
    refuse EMPTY_PROMPT None None None None
  else
    let shared := shared_prefix_length (tp_token_ids a) (tp_token_ids b) in
    if shared =? 0 then
      mkProof false 0 (Some 0%Z) None (tp_tokenizer_hash a) (tp_chat_template_hash a)
        (Some (tp_model_id a)) (Some (tp_backend a))
        (Some (PrefixMismatchReason_value TOKEN_SEQUENCE_CHANGED))
    else
      mkProof true (Z.of_nat shared)
        (if shared <? Nat.max (length (tp_token_ids a)) (length (tp_token_ids b)) then Some (Z.of_nat shared)
         else None)
        (Some (hash_prefix (take shared (tp_token_ids a)))) (tp_tokenizer_hash a) (tp_chat_template_hash a)
        (Some (tp_model_id a)) (Some (tp_backend a)) None.

Definition compare (st : EngineStats) (a b : TokenizedPrompt) : PrefixProof * EngineStats :=
  let p := compare_proof a b in
  (p, mkEngineStats (es_comparisons st + 1)
        (es_matches st + b2z (pp_compatible p)) (es_mismatches st + b2z (negb (pp_compatible p)))).
End engine.

(** ** Candidate selection ([candidate_selection.py]) *)

Inductive CandidateConfidence := CONF_HIGH | CONF_MEDIUM | CONF_LOW.

Definition CandidateConfidence_value (c : CandidateConfidence) : string :=
  match c with CONF_HIGH => "high" | CONF_MEDIUM => "medium" | CONF_LOW => "low" end.

Inductive CandidateSelectionReason :=
| PROOF_COMPATIBLE | SHARED_PREFIX_BELOW_THRESHOLD | INCOMPATIBLE_PROOF | MISSING_PROOF
| SEL_EMPTY_PROMPT | INSUFFICIENT_SAVINGS | SEL_REAL_TOKENIZATION_UNAVAILABLE.

Definition CandidateSelectionReason_value (r : CandidateSelectionReason) : string :=
  match r with
  | PROOF_COMPATIBLE => "proof_compatible"
  | SHARED_PREFIX_BELOW_THRESHOLD => "shared_prefix_below_threshold"
  | INCOMPATIBLE_PROOF => "incompatible_proof" | MISSING_PROOF => "missing_proof"
  | SEL_EMPTY_PROMPT => "empty_prompt" | INSUFFICIENT_SAVINGS => "insufficient_savings"
  | SEL_REAL_TOKENIZATION_UNAVAILABLE => "real_tokenization_unavailable"
  end.

Record SnapshotCandidate := mkCandidate {
  cd_candidate_id : string;
  cd_prefix_hash : string;
  cd_shared_prefix_tokens : Z;
  cd_total_tokens : Z;
  cd_dynamic_tail_tokens : Z;
  cd_potential_saved_tokens : Z;
  cd_potential_saved_ratio : Q;
  cd_model_id : option string;
  cd_backend : option string;
  cd_tokenizer_hash : option string;
  cd_chat_template_hash : option string;
  cd_compatible : bool;
  cd_reason : option string;
}.

Record CandidateScore := mkScore {
  sr_score : Q;
  sr_potential_saved_tokens : Z;
  sr_potential_saved_ratio : Q;
  sr_confidence : string;
  sr_selection_reason : string;
}.

Record SnapshotSelectionResult := mkSelection {
  sl_selected : bool;
  sl_candidate : option SnapshotCandidate;
  sl_score : option CandidateScore;
  sl_reason : option string;
}.

Record SelectionStats := mkSelectionStats {
  ss_evaluations : Z;
  ss_selected : Z;
  ss_rejected : Z;
  ss_potential_saved_tokens_total : Z;
}.

Definition selection_reset : SelectionStats := mkSelectionStats 0 0 0 0.

Definition Qmin_b (x y : Q) : Q := if y <?q x then y else x.

Section selection.
Context (log2 : Z -> Q).

Definition confidence_of (shared : Z) (ratio : Q) : CandidateConfidence :=
  if (4096 <=? shared)%Z && ((3 # 4) <=?q ratio) then CONF_HIGH
  else if (1024 <=? shared)%Z && ((1 # 2) <=?q ratio) then CONF_MEDIUM
  else CONF_LOW.

Definition score_candidate (c : SnapshotCandidate) : CandidateScore :=
  let ratio := cd_potential_saved_ratio c in
  let shared := cd_shared_prefix_tokens c in
  let raw_score := (ratio * log2 (1 + shared))%Q in
  let score := Qmin_b (raw_score / 12)%Q 1 in
  mkScore (py_round 4 score) shared (py_round 4 ratio)
    (CandidateConfidence_value (confidence_of shared ratio))
    (CandidateSelectionReason_value PROOF_COMPATIBLE).

(** [evaluate]; [hex] is the uuid's hexadecimal form and [None] is a missing proof. *)
Definition evaluate (min_prefix_tokens : Z) (hex : string) (st : SelectionStats)
    (proof : option PrefixProof) (total_tokens : Z) : SnapshotSelectionResult * SelectionStats :=
  let min_prefix := Z.max min_prefix_tokens 1 in
  let reject reason :=
    (mkSelection false None None (Some (CandidateSelectionReason_value reason)),
     mkSelectionStats (ss_evaluations st + 1) (ss_selected st) (ss_rejected st + 1)
       (ss_potential_saved_tokens_total st)) in
  match proof with
  | None => reject MISSING_PROOF
  | Some p =>
      let shared := pp_shared_prefix_tokens p in
      if negb (pp_compatible p) then reject INCOMPATIBLE_PROOF
      else if (total_tokens <=? 0)%Z then reject SEL_EMPTY_PROMPT
      else if (shared <? min_prefix)%Z then reject SHARED_PREFIX_BELOW_THRESHOLD
      else
        let candidate :=
          mkCandidate ("cand-" +:+ String.substring 0 12 hex) (default "" (pp_prefix_hash p)) shared
            total_tokens (Z.max (total_tokens - shared) 0) shared (shared # Z.to_pos total_tokens)
            (pp_model_id p) (pp_backend p) (pp_tokenizer_hash p) (pp_chat_template_hash p) true None in
        (mkSelection true (Some candidate) (Some (score_candidate candidate))
           (Some (CandidateSelectionReason_value PROOF_COMPATIBLE)),
         mkSelectionStats (ss_evaluations st + 1) (ss_selected st + 1) (ss_rejected st)
           (ss_potential_saved_tokens_total st + shared))
  end.
End selection.

(** ** Replay analysis ([replay_analysis.py]) *)

(** A candidate row of the index or of the store. *)
Record CandidateRow := mkRow {
  cr_prefix_hash : string;
  cr_backend : option string;
  cr_model_id : option string;
  cr_tokenizer_hash : option string;
  cr_chat_template_hash : option string;
  cr_seen_count : Z;
  cr_saved_tokens : Z;
  cr_score : Q;
  cr_saved_ratio : Q;
  cr_confidence : option string;
  cr_first_seen_at : option string;
  cr_last_seen_at : option string;
}.

Record CandidateReplaySummary := mkSummary {
  su_total_candidates : Z;
  su_total_seen_count : Z;
  su_total_potential_saved_tokens : Z;
  su_high : Z;
  su_medium : Z;
  su_low : Z;
  su_top : list CandidateRow;
}.

(** The composite rank. *)
Definition row_rank (r : CandidateRow) : Q :=
  (inject_Z (cr_seen_count r * 10000) + inject_Z (cr_saved_tokens r) * (1 # 100) + cr_score r * 10)%Q.

Definition row_le (a b : CandidateRow) : bool := row_rank b <=?q row_rank a.

Definition rank_candidates (records : list CandidateRow) (limit : Z) : list CandidateRow :=
  slice_to (Z.max 1 (Z.min limit 100)) (stable_sort row_le records).

Definition has_confidence (c : string) (r : CandidateRow) : bool :=
  String.eqb (default "low" (cr_confidence r)) c.

Definition build_summary (raw : list CandidateRow) (limit : Z) : CandidateReplaySummary :=
  match raw with
  | [] => mkSummary 0 0 0 0 0 0 []
  | _ =>
      let count p := Z.of_nat (length (List.filter p raw)) in
      mkSummary (Z.of_nat (length raw)) (sumZ (map cr_seen_count raw)) (sumZ (map cr_saved_tokens raw))
        (count (has_confidence "high")) (count (has_confidence "medium"))
        (count (fun r => negb (has_confidence "high" r) && negb (has_confidence "medium" r)))
        (rank_candidates raw limit)
  end.

(** ** Snapshot policy engine ([policy.py]) *)

Inductive SnapshotEligibilityReason :=
| HIGH_FREQUENCY_HIGH_SAVINGS | HIGH_FREQUENCY | HIGH_SAVINGS | RECENTLY_REUSED
| INSUFFICIENT_OBSERVATIONS | LOW_CONFIDENCE | LOW_VALUE | EXPIRED | POLICY_UNSUPPORTED_BACKEND
| POLICY_DISABLED.

Definition SnapshotEligibilityReason_value (r : SnapshotEligibilityReason) : string :=
  match r with
  | HIGH_FREQUENCY_HIGH_SAVINGS => "high_frequency_high_savings" | HIGH_FREQUENCY => "high_frequency"
  | HIGH_SAVINGS => "high_savings" | RECENTLY_REUSED => "recently_reused"
  | INSUFFICIENT_OBSERVATIONS => "insufficient_observations" | LOW_CONFIDENCE => "low_confidence"
  | LOW_VALUE => "low_value" | EXPIRED => "expired"
  | POLICY_UNSUPPORTED_BACKEND => "unsupported_backend" | POLICY_DISABLED => "policy_disabled"
  end.

Record SnapshotPolicyConfig := mkPolicyConfig {
  po_enabled : bool;
  po_minimum_seen_count : Z;
  po_minimum_candidate_score : Q;
  po_minimum_saved_ratio : Q;
  po_maximum_candidate_age_days : Z;
  po_supported_backends : list string;
}.

Definition default_policy : SnapshotPolicyConfig := mkPolicyConfig true 5 (4 # 5) (1 # 2) 30 ["mlx"].

Record SnapshotEligibility := mkEligibility {
  el_eligible : bool;
  el_reason : string;
  el_candidate_score : Q;
  el_policy_version : string;
}.

Record PolicyStats := mkPolicyStats {
  pl_evaluations_total : Z;
  pl_eligible_total : Z;
  pl_rejected_total : Z;
  pl_rejection_reasons : list (string * Z);
}.

Definition POLICY_VERSION : string := "1".

Section policy.
Context (age_days : string -> option Z) (config : SnapshotPolicyConfig).

(** The decision of [evaluate_candidate]: the refusal with its score, or the reason of the
    acceptance. *)
Definition policy_decision (r : CandidateRow)
    : (SnapshotEligibilityReason * Q) + SnapshotEligibilityReason :=
  let seen := cr_seen_count r in
  let saved := cr_saved_tokens r in
  if negb (po_enabled config) then inl (POLICY_DISABLED, 0%Q)
  else if str_truthy (cr_backend r)
          && negb (bool_decide (default "" (cr_backend r) ∈ po_supported_backends config)) then
    inl (POLICY_UNSUPPORTED_BACKEND, 0%Q)
  else if (seen <? po_minimum_seen_count config)%Z then inl (INSUFFICIENT_OBSERVATIONS, cr_score r)
  else if cr_score r <?q po_minimum_candidate_score config then inl (LOW_VALUE, cr_score r)
  else if cr_saved_ratio r <?q po_minimum_saved_ratio config then inl (LOW_VALUE, cr_score r)
  else if str_truthy (cr_last_seen_at r)
          && match age_days (default "" (cr_last_seen_at r)) with
             | Some days => (po_maximum_candidate_age_days config <? days)%Z
             | None => false
             end then inl (EXPIRED, cr_score r)
  else if (10 <=? seen)%Z && (2000 <=? saved)%Z then inr HIGH_FREQUENCY_HIGH_SAVINGS
  else if (10 <=? seen)%Z then inr HIGH_FREQUENCY
  else if (2000 <=? saved)%Z then inr HIGH_SAVINGS
  else inr RECENTLY_REUSED.

Definition evaluate_candidate (st : PolicyStats) (r : CandidateRow) : SnapshotEligibility * PolicyStats :=
  match policy_decision r with
  | inl (reason, score) =>
      (mkEligibility false (SnapshotEligibilityReason_value reason) score POLICY_VERSION,
       mkPolicyStats (pl_evaluations_total st + 1) (pl_eligible_total st) (pl_rejected_total st + 1)
         (dincr (SnapshotEligibilityReason_value reason) (pl_rejection_reasons st)))
  | inr reason =>
      (mkEligibility true (SnapshotEligibilityReason_value reason) (cr_score r) POLICY_VERSION,
       mkPolicyStats (pl_evaluations_total st + 1) (pl_eligible_total st + 1) (pl_rejected_total st)
         (pl_rejection_reasons st))
  end.

(** [evaluate_replay_summary] *)
Fixpoint evaluate_all (st : PolicyStats) (top : list CandidateRow) : list SnapshotEligibility * PolicyStats :=
  match top with
  | [] => ([], st)
  | r :: top' =>
      let (e, st) := evaluate_candidate st r in
      let (es, st) := evaluate_all st top' in (e :: es, st)
  end.

Definition evaluate_replay_summary (st : PolicyStats) (s : CandidateReplaySummary)
    : list SnapshotEligibility * PolicyStats := evaluate_all st (su_top s).
End policy.
