(* ===== verification/TWProofProps.v ===== *)
(** * What prefix proofs, selection, ranking and policy guarantee *)

From Stdlib Require Import Ascii Sorting.Sorted.
From S2P Require Import Prelude PyDict PyStr PySeq CapacityContext PyJson TWTokens TWProof.

(** ** The shared prefix *)

Lemma shared_prefix_take a b :
  take (shared_prefix_length a b) a = take (shared_prefix_length a b) b
  /\ shared_prefix_length a b <= length a /\ shared_prefix_length a b <= length b.
Proof.
  revert b. induction a as [|x a IH]; intros [|y b]; simpl; try (split; [done|lia]).
  destruct (x =? y)%Z eqn:E; simpl; [|split; [done|lia]]. apply Z.eqb_eq in E as ->.
  destruct (IH b) as (-> & ? & ?). split; [done|lia].
Qed.

Lemma shared_prefix_max a b n :
  take n a = take n b -> n <= length a -> n <= length b -> n <= shared_prefix_length a b.
Proof.
  revert b n. induction a as [|x a IH]; intros [|y b] [|n] H Ha Hb; simpl in *; try lia.
  injection H as -> H. rewrite Z.eqb_refl. specialize (IH b n H). lia.
Qed.

Lemma shared_prefix_sym a b : shared_prefix_length a b = shared_prefix_length b a.
Proof.
  revert b. induction a as [|x a IH]; intros [|y b]; simpl; [done..|].
  rewrite Z.eqb_sym. destruct (y =? x)%Z; [by rewrite IH|done].
Qed.

(** Everything but the tokens agrees. *)
Definition same_context (a b : TokenizedPrompt) : Prop :=
  tp_real_tokenization a = true /\ tp_real_tokenization b = true
  /\ tp_model_id a = tp_model_id b /\ tp_backend a = tp_backend b
  /\ tp_tokenizer_hash a = tp_tokenizer_hash b /\ tp_chat_template_hash a = tp_chat_template_hash b.

Section engine_props.
Context (sha256_hex : string -> string).

Lemma compare_proof_cases a b :
  (same_context a b /\ shared_prefix_length (tp_token_ids a) (tp_token_ids b) <> 0
   /\ compare_proof sha256_hex a b =
      let n := shared_prefix_length (tp_token_ids a) (tp_token_ids b) in
      mkProof true (Z.of_nat n)
        (if n <? Nat.max (length (tp_token_ids a)) (length (tp_token_ids b)) then Some (Z.of_nat n) else None)
        (Some (hash_prefix sha256_hex (take n (tp_token_ids a)))) (tp_tokenizer_hash a)
        (tp_chat_template_hash a) (Some (tp_model_id a)) (Some (tp_backend a)) None)
  \/ (~ (same_context a b /\ shared_prefix_length (tp_token_ids a) (tp_token_ids b) <> 0)
      /\ pp_compatible (compare_proof sha256_hex a b) = false
      /\ pp_shared_prefix_tokens (compare_proof sha256_hex a b) = 0%Z
      /\ pp_prefix_hash (compare_proof sha256_hex a b) = None
      /\ is_Some (pp_reason (compare_proof sha256_hex a b))).
Proof.
  unfold compare_proof, same_context.
  destruct (tp_real_tokenization a) eqn:E1; simpl; [|right; repeat split; [naive_solver|done]].
  destruct (tp_real_tokenization b) eqn:E2; simpl; [|right; repeat split; [naive_solver|done]].
  destruct (String.eqb_spec (tp_model_id a) (tp_model_id b)) as [E3|E3]; simpl; [|right; repeat split; [naive_solver|done]].
  destruct (String.eqb_spec (tp_backend a) (tp_backend b)) as [E4|E4]; simpl; [|right; repeat split; [naive_solver|done]].
  case_bool_decide as E5; simpl; [|right; repeat split; [naive_solver|done]].
  case_bool_decide as E6; simpl; [|right; repeat split; [naive_solver|done]].
  destruct (shared_prefix_take (tp_token_ids a) (tp_token_ids b)) as (_ & Ha & Hb).
  destruct (length (tp_token_ids a) =? 0) eqn:E7; simpl.
  { apply Nat.eqb_eq in E7. right. repeat split; [intros [_ H]; lia|done]. }
  destruct (length (tp_token_ids b) =? 0) eqn:E8; simpl.
  { apply Nat.eqb_eq in E8. right. repeat split; [intros [_ H]; lia|done]. }
  destruct (shared_prefix_length _ _ =? 0) eqn:E9.
  { apply Nat.eqb_eq in E9. right. repeat split; [intros [_ H]; lia|done]. }
  apply Nat.eqb_neq in E9. left. done.
Qed.

(** A prefix proof is exact and symmetric.  It is compatible exactly when both prompts
    are really tokenized, agree on model, backend, tokenizer and template, and start with
    the same token; it then reports the longest common prefix, nothing shorter or longer,
    with its hash; an incompatible proof reports no tokens and a reason; and swapping the
    prompts changes neither the verdict, the length, nor the hash. *)
Theorem prefix_proof_exact a b :
  let p := compare_proof sha256_hex a b in
  let n := Z.to_nat (pp_shared_prefix_tokens p) in
  (pp_compatible p = true <-> same_context a b /\ exists t, head (tp_token_ids a) = Some t /\ head (tp_token_ids b) = Some t)
  /\ take n (tp_token_ids a) = take n (tp_token_ids b)
  /\ (pp_compatible p = true ->
       (forall m, take m (tp_token_ids a) = take m (tp_token_ids b) -> m <= length (tp_token_ids a) ->
          m <= length (tp_token_ids b) -> m <= n)
       /\ pp_prefix_hash p = Some (hash_prefix sha256_hex (take n (tp_token_ids a)))
       /\ (pp_divergence_index p = None <-> tp_token_ids a = tp_token_ids b))
  /\ (pp_compatible p = false -> n = 0 /\ pp_prefix_hash p = None /\ is_Some (pp_reason p))
  /\ pp_compatible (compare_proof sha256_hex b a) = pp_compatible p
  /\ pp_shared_prefix_tokens (compare_proof sha256_hex b a) = pp_shared_prefix_tokens p
  /\ pp_prefix_hash (compare_proof sha256_hex b a) = pp_prefix_hash p.
Proof.
  assert (Hhead : forall u v, shared_prefix_length u v <> 0 <-> exists t, head u = Some t /\ head v = Some t).
  { intros [|x u] [|y v]; simpl; [by split; [|intros (? & ? & ?)]..|].
    destruct (Z.eqb_spec x y) as [->|Hne]; [split; [by exists y|done]|].
    split; [done|]. intros (t & [= <-] & [= ->]). done. }
  assert (Hsym : same_context a b <-> same_context b a) by (unfold same_context; naive_solver).
  intros p n. destruct (shared_prefix_take (tp_token_ids a) (tp_token_ids b)) as (Ht & Hla & Hlb).
  destruct (compare_proof_cases a b) as [(Hc & Hn & E) | (Hno & E1 & E2 & E3 & E4)].
  - assert (Hnn : n = shared_prefix_length (tp_token_ids a) (tp_token_ids b)).
    { unfold n, p. rewrite E. simpl. by rewrite Nat2Z.id. }
    destruct (compare_proof_cases b a) as [(_ & _ & E') | (Hno' & _)].
    2:{ destruct Hno'. rewrite shared_prefix_sym. by rewrite <- Hsym. }
    rewrite shared_prefix_sym in E'. unfold p. rewrite E, E', Hnn. simpl.
    split; [split; [intros _; split; [done|by apply Hhead]|done]|]. split; [done|].
    split; [|split; [done|]; split; [done|]; split; [done|]; by rewrite Ht].
    intros _. split; [by intros; apply shared_prefix_max|]. split; [done|]. split.
    + destruct (_ <? _) eqn:Elt; [done|]. intros _. apply Nat.ltb_ge in Elt.
      rewrite <- (take_ge (tp_token_ids a) (shared_prefix_length (tp_token_ids a) (tp_token_ids b))) by lia.
      rewrite Ht. apply take_ge. lia.
    + intros He. rewrite <- He. destruct (_ <? _) eqn:Elt; [|done]. apply Nat.ltb_lt in Elt.
      pose proof (shared_prefix_max (tp_token_ids a) (tp_token_ids a) (length (tp_token_ids a))
                    eq_refl ltac:(lia) ltac:(lia)). lia.
  - assert (Hnn : n = 0) by (unfold n, p; by rewrite E2).
    destruct (compare_proof_cases b a) as [(Hc & Hn & _) | (_ & E1' & E2' & E3' & _)].
    { destruct Hno. rewrite shared_prefix_sym in Hn. by rewrite Hsym. }
    unfold p. rewrite E1, E2, E3, E1', E2', E3'. fold p. rewrite Hnn.
    repeat split; try done. intros [Hc Hh]. destruct Hno. split; [done|]. by apply Hhead.
Qed.

(** ** Prefix hashes *)

Lemma join_ints_inj xs ys :
  join "," (map pretty xs) = join "," (map (pretty (A := Z)) ys) -> xs = ys.
Proof.
  intros H.
  assert (H' : (join "," (map pretty xs) +:+ "]" = join "," (map (pretty (A := Z)) ys) +:+ "]")%string) by by rewrite H.
  edestruct (join_inj (pretty (A := Z)) (fun _ => True) "]"%char) as [E _]; [..|exact H'|exact E]; try done.
  - intros y _. destruct (pretty_Z_nonempty y) as (c & s & -> & Hc). by intros ->.
  - apply Forall_forall. intros x _ y r r' _ Hr Hr' He.
    apply (span_inj int_char) in He as [E ->]; [|apply pretty_Z_chars..|done|done].
    by apply pretty_Z_inj in E.
  - by apply Forall_forall.
  - by apply Forall_forall.
Qed.

(** A prefix hash identifies its tokens: two token sequences with the same hash are
    equal, or the digest collides on their two decimal renderings. *)
Theorem prefix_hash_identifies_tokens xs ys :
  hash_prefix sha256_hex xs = hash_prefix sha256_hex ys ->
  xs = ys
  \/ (join "," (map pretty xs) <> join "," (map pretty ys)
      /\ sha256_hex (join "," (map pretty xs)) = sha256_hex (join "," (map pretty ys))).
Proof.
  intros H. destruct (decide (join "," (map pretty xs) = join "," (map pretty ys))) as [E|E]; [|by right].
  left. by apply join_ints_inj.
Qed.
End engine_props.

Lemma prefix_hash_identifies_tokens_witness :
  hash_prefix id [12; 3]%Z = hash_prefix id [12; 3]%Z /\ hash_prefix id [12; 3]%Z <> hash_prefix id [1; 23]%Z
  /\ ([12; 3]%Z = [12; 3]%Z
      \/ (join "," (map pretty [12; 3]%Z) <> join "," (map pretty [12; 3]%Z)
          /\ id (join "," (map pretty [12; 3]%Z)) = id (join "," (map pretty [12; 3]%Z)))).
Proof.
  split; [done|]. split; [vm_compute; discriminate|].
  by apply (prefix_hash_identifies_tokens id [12; 3]%Z [12; 3]%Z).
Defined.

(** ** Ranking *)

Lemma row_le_total a b : row_le a b = true \/ row_le b a = true.
Proof. unfold row_le. rewrite !Qle_bool_iff. destruct (Qlt_le_dec (row_rank a) (row_rank b)); [right|left]; [by apply Qlt_le_weak|done]. Qed.

Lemma row_le_trans a b c : row_le a b = true -> row_le b c = true -> row_le a c = true.
Proof. unfold row_le. rewrite !Qle_bool_iff. intros H1 H2. by eapply Qle_trans. Qed.

Lemma sorted_split {A} (R : A -> A -> Prop) l1 l2 x y :
  StronglySorted R (l1 ++ l2) -> x ∈ l1 -> y ∈ l2 -> R x y.
Proof.
  intros Hs Hx Hy. induction l1 as [|a l1 IH]; [by apply elem_of_nil in Hx|].
  simpl in Hs. apply StronglySorted_inv in Hs as [Hs Ha].
  apply elem_of_cons in Hx as [-> | Hx]; [|by apply IH].
  rewrite Forall_forall in Ha. apply Ha. apply elem_of_app. by right.
Qed.

(** The ranking keeps the best candidates: at most the requested number, bounded by
    one hundred, in descending composite rank, and no candidate left out outranks one that
    is kept.  But the rank does not order by seen count, then saved tokens, then score as
    documented: a candidate that would save more tokens can rank below one with a better
    score. *)
Theorem ranking_keeps_the_best records limit :
  (exists rest, rank_candidates records limit ++ rest ≡ₚ records
     /\ StronglySorted (fun a b => row_le a b = true) (rank_candidates records limit)
     /\ forall kept left_out, kept ∈ rank_candidates records limit -> left_out ∈ rest ->
          (row_rank left_out <= row_rank kept)%Q)
  /\ (Z.of_nat (length (rank_candidates records limit)) <= 100
      /\ (1 <= limit <= 100 -> Z.of_nat (length (rank_candidates records limit)) <= limit))%Z
  /\ exists a b, cr_seen_count a = cr_seen_count b /\ (cr_saved_tokens b < cr_saved_tokens a)%Z
       /\ rank_candidates [a; b] 1 = [b].
Proof.
  set (m := Z.max 1 (Z.min limit 100)).
  assert (Hm : (1 <= m <= 100)%Z) by lia.
  assert (Ht : rank_candidates records limit = take (Z.to_nat m) (stable_sort row_le records)).
  { unfold rank_candidates, slice_to. fold m. by rewrite (proj2 (Z.ltb_ge m 0)) by lia. }
  pose proof (stable_sort_sorted row_le row_le_total row_le_trans records) as Hs.
  rewrite <- (take_drop (Z.to_nat m) (stable_sort row_le records)) in Hs.
  split; [|split].
  - exists (drop (Z.to_nat m) (stable_sort row_le records)). rewrite Ht, take_drop.
    split; [apply stable_sort_perm|]. split.
    + clear -Hs. induction (take (Z.to_nat m) (stable_sort row_le records)) as [|x l IH]; [constructor|].
      simpl in Hs. apply StronglySorted_inv in Hs as [Hs Hx]. apply Forall_app in Hx as [Hx _].
      constructor; auto.
    + intros x y Hx Hy. pose proof (sorted_split _ _ _ _ _ Hs Hx Hy) as H. by apply Qle_bool_iff in H.
  - rewrite Ht, length_take. lia.
  - exists (mkRow "a" None None None None 1 60 0 0 None None None), (mkRow "b" None None None None 1 10 1 0 None None None).
    repeat split; vm_compute; reflexivity.
Qed.

(** ** Policy *)
Section policy_props.
Context (age_days : string -> option Z) (config : SnapshotPolicyConfig).

Definition stats_ok (st : PolicyStats) : Prop :=
  (pl_evaluations_total st = pl_eligible_total st + pl_rejected_total st
   /\ sumZ (dvalues (pl_rejection_reasons st)) = pl_rejected_total st)%Z.

Lemma evaluate_candidate_ok st r :
  stats_ok st -> stats_ok (snd (evaluate_candidate age_days config st r)).
Proof.
  intros [H1 H2]. unfold evaluate_candidate, stats_ok in *.
  destruct (policy_decision age_days config r) as [[reason score]|reason]; simpl; [|split; [lia|done]].
  rewrite sumZ_dincr. lia.
Qed.

(** What [evaluate_candidate] accepts. *)
Definition acceptable (r : CandidateRow) : Prop :=
  po_enabled config = true
  /\ (forall b, cr_backend r = Some b -> b <> "" -> b ∈ po_supported_backends config)
  /\ (po_minimum_seen_count config <= cr_seen_count r)%Z
  /\ (po_minimum_candidate_score config <= cr_score r)%Q
  /\ (po_minimum_saved_ratio config <= cr_saved_ratio r)%Q
  /\ (forall d n, cr_last_seen_at r = Some d -> d <> "" -> age_days d = Some n ->
        (n <= po_maximum_candidate_age_days config)%Z).

Lemma policy_decision_exact r :
  (exists x, policy_decision age_days config r = inr x) <-> acceptable r.
Proof.
  unfold acceptable. unfold policy_decision.
    assert (Hno : forall (P : Prop) (x : SnapshotEligibilityReason * Q), ~ P -> (exists y : SnapshotEligibilityReason, inl x = inr y) <-> P).
    { intros P x HP. split; [by intros [? ?]|done]. }
    destruct (po_enabled config); cbn [negb]; [|apply Hno; naive_solver].
    destruct (str_truthy (cr_backend r) && _) eqn:E1.
    { apply Hno. intros (_ & Hb & _). apply andb_true_iff in E1 as [E1 E2].
      destruct (cr_backend r) as [b|]; [|done]. simpl in *. apply negb_true_iff in E1, E2.
      apply String.eqb_neq in E1. apply bool_decide_eq_false in E2. by destruct E2; apply Hb. }
    destruct (_ <? _)%Z eqn:E2; reflect_tests; [apply Hno; intros (_ & _ & ? & _); lia|].
    destruct (cr_score r <?q _) eqn:E3; reflect_tests;
      [apply Hno; intros (_ & _ & _ & ? & _); by apply (Qlt_not_le _ _ E3)|].
    destruct (cr_saved_ratio r <?q _) eqn:E4; reflect_tests;
      [apply Hno; intros (_ & _ & _ & _ & ? & _); by apply (Qlt_not_le _ _ E4)|].
    destruct (str_truthy (cr_last_seen_at r) && _) eqn:E5.
    { apply Hno. intros (_ & _ & _ & _ & _ & Hd). apply andb_true_iff in E5 as [E5 E6].
      destruct (cr_last_seen_at r) as [d|]; [|done]. simpl in *. apply negb_true_iff, String.eqb_neq in E5.
      destruct (age_days d) as [n|] eqn:Ed; [|done]. apply Z.ltb_lt in E6. specialize (Hd d n eq_refl E5 Ed). lia. }
    split.
    - intros _. repeat split; [|done..|].
      + intros b Hb Hne. rewrite Hb in E1. simpl in E1. rewrite (proj2 (String.eqb_neq b "") Hne) in E1. simpl in E1.
        apply negb_false_iff, bool_decide_eq_true in E1. done.
      + intros d n Hd Hne Hn. rewrite Hd in E5. simpl in E5. rewrite (proj2 (String.eqb_neq d "") Hne), Hn in E5.
        simpl in E5. by apply Z.ltb_ge in E5.
    - intros _. repeat split_if; by eexists.
Qed.

(** A candidate is eligible for a snapshot exactly when the policy is enabled, its
    backend is unnamed or supported, it was seen often enough, its score and saved ratio
    reach their minimums, and it is not known to be too old; and over any sequence of
    evaluations the counters balance, reason by reason. *)
Theorem snapshot_policy_exact st records :
  stats_ok st ->
  stats_ok (snd (evaluate_all age_days config st records))
  /\ length (fst (evaluate_all age_days config st records)) = length records
  /\ forall i r e, records !! i = Some r -> fst (evaluate_all age_days config st records) !! i = Some e ->
       (el_eligible e = true <-> acceptable r).
Proof.
  pose proof policy_decision_exact as Hdec.
  revert st. induction records as [|r records IH]; intros st Hst.
  { split; [done|]. split; [done|]. intros i r e Hi. by rewrite lookup_nil in Hi. }
  cbn [evaluate_all]. pose proof (evaluate_candidate_ok st r Hst) as Hst'.
  destruct (evaluate_candidate age_days config st r) as [e st'] eqn:Ee. simpl in Hst'.
  destruct (IH st' Hst') as (H1 & H2 & H3).
  destruct (evaluate_all age_days config st' records) as [es st'']. simpl in *.
  split; [done|]. split; [by rewrite H2|]. intros [|i] x y Hx Hy; simpl in Hx, Hy; [|by apply (H3 i)].
  injection Hx as <-. injection Hy as <-. rewrite <- Hdec. unfold evaluate_candidate in Ee.
  destruct (policy_decision age_days config r) as [[? ?]|reason]; injection Ee as <- _; simpl.
  - split; [done|by intros [? ?]].
  - split; [by eexists|done].
Qed.
End policy_props.

Lemma snapshot_policy_exact_witness :
  let row := mkRow "h" (Some "mlx") None None None 12 2500 (9 # 10) (6 # 10) (Some "high") None None in
  stats_ok (mkPolicyStats 0 0 0 [])
  /\ stats_ok (snd (evaluate_all (fun _ => None) default_policy (mkPolicyStats 0 0 0 []) [row]))
  /\ map el_eligible (fst (evaluate_all (fun _ => None) default_policy (mkPolicyStats 0 0 0 []) [row])) = [true].
Proof.
  split; [done|]. split; [|vm_compute; reflexivity].
  apply (snapshot_policy_exact (fun _ => None) default_policy (mkPolicyStats 0 0 0 [])
    [mkRow "h" (Some "mlx") None None None 12 2500 (9 # 10) (6 # 10) (Some "high") None None]). done.
Defined.
