(* ===== verification/TWBackend.v ===== *)
(** * KV backends of ThreadWake ([runtime/threadwake/handles.py], [backend.py], [mlx_kv.py])

    A KV adapter prefills a context into a handle, clones handles and generates from
    them.  An adapter is a value of the record [KVAdapter] over the state [W] its
    operations change; the registry maps backend names to adapters and falls back to the
    adapter that supports nothing.

    - A call's new uuid and the time are arguments.  [opaque_ref] is a dictionary whose
      values are strings or a reference to a prompt cache of MLX.
    - [generate_from_kv] is consumed as a list, as its only caller does; an exception it
      raises after yielding is its result.
    - The prompt-cache API of MLX-LM is a pair of functions of the section. *)

From S2P Require Import Prelude PyDict PyStr PySeq.

(** ** Handles ([handles.py]) *)

Inductive KVCapability := KV_UNSUPPORTED | EXPERIMENTAL | PREFILL_ONLY | RESUMABLE | CLONEABLE | SERIALIZABLE.

#[export] Instance KVCapability_eq_dec : EqDecision KVCapability.
Proof. solve_decision. Defined.

Definition KVCapability_value (c : KVCapability) : string :=
  match c with
  | KV_UNSUPPORTED => "unsupported" | EXPERIMENTAL => "experimental" | PREFILL_ONLY => "prefill_only"
  | RESUMABLE => "resumable" | CLONEABLE => "cloneable" | SERIALIZABLE => "serializable"
  end.

Inductive opaque_item :=
| OStr (s : option string)
| OCache (reference : nat).

Record KVHandle := mkKVHandle {
  kh_id : string;
  kh_backend : string;
  kh_model_id : string;
  kh_token_count : Z;
  kh_created_at : Q;
  kh_last_used_at : Q;
  kh_scope : string;
  kh_metadata : list (string * pyval);
  kh_opaque_ref : option (list (string * opaque_item));
}.

(** [KVHandle(...)]: the id and the times are generated. *)
Definition make_handle (uuid_hex : string) (now : Q) (backend model_id : string) (token_count : Z)
    (metadata : list (string * pyval)) (opaque : option (list (string * opaque_item))) : KVHandle :=
  mkKVHandle ("kv-" +:+ String.substring 0 12 uuid_hex) backend model_id token_count now now "thread" metadata
    opaque.

(** [KVHandle.touch] *)
Definition handle_touch (now : Q) (h : KVHandle) : KVHandle :=
  mkKVHandle (kh_id h) (kh_backend h) (kh_model_id h) (kh_token_count h) (kh_created_at h) now (kh_scope h)
    (kh_metadata h) (kh_opaque_ref h).

(** [KVHandle.public_snapshot]: every field but [opaque_ref]. *)
Definition handle_snapshot (isoformat : Q -> string) (h : KVHandle) : list (string * pyval) :=
  [("id", PStr (kh_id h)); ("backend", PStr (kh_backend h)); ("model_id", PStr (kh_model_id h));
   ("token_count", PInt (kh_token_count h)); ("created_at", PStr (isoformat (kh_created_at h)));
   ("last_used_at", PStr (isoformat (kh_last_used_at h))); ("scope", PStr (kh_scope h));
   ("metadata", PDict (kh_metadata h))].

(** ** The protocol *)

Record KVAdapter (W : Type) := mkKVAdapter {
  kb_supports_kv_cache : W -> KVCapability;
  kb_prefill_to_kv : string -> Q -> list string -> string -> W -> pyres KVHandle * W;
  kb_generate_from_kv : KVHandle -> list string -> list (string * pyval) -> W -> pyres (list string) * W;
  kb_clone_kv : string -> Q -> KVHandle -> W -> pyres KVHandle * W;
  kb_release_kv : KVHandle -> W -> KVHandle * W;
}.
Arguments mkKVAdapter {W}.
Arguments kb_supports_kv_cache {W}.
Arguments kb_prefill_to_kv {W}.
Arguments kb_generate_from_kv {W}.
Arguments kb_clone_kv {W}.
Arguments kb_release_kv {W}.

(** ** The adapter without KV support *)

Definition NoOpKVBackendAdapter {W} : KVAdapter W :=
  mkKVAdapter (fun _ => KV_UNSUPPORTED)
    (fun _ _ _ _ w => (Raise (RuntimeError ("prefill_to_kv is not supported by this backend; "
                               +:+ "use the standard full-prefill generation path")), w))
    (fun _ _ _ w => (Raise (RuntimeError ("generate_from_kv is not supported by this backend; "
                             +:+ "use the standard generation path")), w))
    (fun _ _ _ w => (Raise (RuntimeError ("clone_kv is not supported by this backend; "
                             +:+ "use the standard full-prefill generation path")), w))
    (fun h w => (h, w)).

(** ** The fake backend *)

Record FakeKVBackend := mkFake {
  fk_store : list (string * list string);
  fk_prefill_calls : list (Z * string);
  fk_generate_from_kv_calls : list (Z * Z * list (string * pyval));
  fk_clone_calls : Z;
  fk_release_calls : Z;
}.

Definition new_fake : FakeKVBackend := mkFake [] [] [] 0 0.

(** [reset] *)
Definition fake_reset (f : FakeKVBackend) : FakeKVBackend := mkFake [] [] [] 0 0.

Definition opaque_get (key : string) (h : KVHandle) : option opaque_item :=
  dget key (default [] (kh_opaque_ref h)).

(** [(kv_handle.opaque_ref or {}).get("store_key", "")]; a value that is not a key of the
    store finds nothing. *)
Definition store_key_of (h : KVHandle) : string :=
  match opaque_get "store_key" h with Some (OStr (Some s)) => s | _ => "" end.

Definition fake_prefill (uuid_hex : string) (now : Q) (tokens : list string) (model_id : string)
    (f : FakeKVBackend) : pyres KVHandle * FakeKVBackend :=
  let count := Z.of_nat (length tokens) in
  let store_key := model_id +:+ ":prefill" in
  (Ret (make_handle uuid_hex now "fake" model_id count []
          (Some [("store_key", OStr (Some store_key)); ("model_id", OStr (Some model_id))])),
   mkFake (dset store_key tokens (fk_store f)) (fk_prefill_calls f ++ [(count, model_id)])
     (fk_generate_from_kv_calls f) (fk_clone_calls f) (fk_release_calls f)).

(** [min(max_tokens, 256)] as the bound of [range]. *)
Definition range_bound (max_tokens : pyval) : pyres Z :=
  match max_tokens with
  | PInt z => Ret (Z.min z 256)
  | PBool b => Ret (b2z b)
  | PFloat q => if 256 <?q q then Ret 256%Z else Raise (Exc "TypeError" "'float' object cannot be interpreted as an integer")
  | _ => Raise (Exc "TypeError" "'<' not supported between these instances")
  end.

(** The context length a handle resumes from. *)
Definition fake_prefix_len (h : KVHandle) (f : FakeKVBackend) : Z :=
  match dget (store_key_of h) (fk_store f) with Some tokens => Z.of_nat (length tokens) | None => 0 end.

Definition fake_generate (h : KVHandle) (new_tokens : list string) (params : list (string * pyval))
    (f : FakeKVBackend) : pyres (list string) * FakeKVBackend :=
  let f' := mkFake (fk_store f) (fk_prefill_calls f)
              (fk_generate_from_kv_calls f ++ [(fake_prefix_len h f, Z.of_nat (length new_tokens), params)])
              (fk_clone_calls f) (fk_release_calls f) in
  (let! n := range_bound (dget_or "max_tokens" (PInt 16) params) in
   Ret (map (fun i => "tk_" +:+ pretty (Z.of_nat i)) (seq 0 (Z.to_nat n))), f').

Definition fake_clone (uuid_hex : string) (now : Q) (h : KVHandle) (f : FakeKVBackend)
    : pyres KVHandle * FakeKVBackend :=
  let copy := make_handle uuid_hex now (kh_backend h) (kh_model_id h) (kh_token_count h) (kh_metadata h)
                (match kh_opaque_ref h with Some [] => None | o => o end) in
  (Ret (mkKVHandle (kh_id copy) (kh_backend copy) (kh_model_id copy) (kh_token_count copy)
          (kh_created_at copy) (kh_last_used_at copy) (kh_scope h) (kh_metadata copy) (kh_opaque_ref copy)),
   mkFake (fk_store f) (fk_prefill_calls f) (fk_generate_from_kv_calls f) (fk_clone_calls f + 1)
     (fk_release_calls f)).

Definition fake_release (h : KVHandle) (f : FakeKVBackend) : KVHandle * FakeKVBackend :=
  (h, mkFake (ddel (store_key_of h) (fk_store f)) (fk_prefill_calls f) (fk_generate_from_kv_calls f)
        (fk_clone_calls f) (fk_release_calls f + 1)).

Definition FakeKVAdapter : KVAdapter FakeKVBackend :=
  mkKVAdapter (fun _ => RESUMABLE) fake_prefill fake_generate fake_clone fake_release.

(** ** The MLX backend ([mlx_kv.py]) *)

Section mlx.
Context {W : Type}.

(** What the adapter reads of its surroundings: the experimental flag, whether the
    prompt-cache API is there, which of the two objects it holds, and the API itself:
    a cache populated by running the model on tokens, and the stream generated from one. *)
Record MLXRuntime := mkMLXRuntime {
  mx_experimental_enabled : bool;
  mx_feasible : bool;
  mx_model : bool;
  mx_tokenizer : bool;
  mx_populate : list string -> W -> pyres nat * W;
  mx_stream : nat -> list string -> pyval -> W -> pyres (list string) * W;
}.

Definition mlx_supports (m : MLXRuntime) : KVCapability :=
  if mx_experimental_enabled m && mx_feasible m then EXPERIMENTAL else KV_UNSUPPORTED.

Definition mlx_prefill (m : MLXRuntime) (uuid_hex : string) (now : Q) (tokens : list string)
    (model_id : string) (w : W) : pyres KVHandle * W :=
  if negb (mx_model m) then
    (Raise (RuntimeError ("MLX KV prefill: model not loaded " +:+ "— cannot populate prompt cache")), w)
  else
    match tokens with
    | [] => (Raise (RuntimeError "MLX KV prefill failed"), w)
    | _ =>
        match mx_populate m tokens w with
        | (Ret cache, w') =>
            (Ret (make_handle uuid_hex now "mlx" model_id (Z.of_nat (length tokens)) []
                    (Some [("prompt_cache", OCache cache)])), w')
        | (Raise _, w') => (Raise (RuntimeError "MLX KV prefill failed"), w')
        end
    end.

Definition mlx_generate (m : MLXRuntime) (h : KVHandle) (new_tokens : list string)
    (params : list (string * pyval)) (w : W) : pyres (list string) * W :=
  if negb (mx_model m) || negb (mx_tokenizer m) then
    (Raise (RuntimeError "MLX KV generate: model or tokenizer not loaded"), w)
  else
    match opaque_get "prompt_cache" h with
    | Some (OCache cache) =>
        match mx_stream m cache new_tokens (dget_or "max_tokens" (PInt 256) params) w with
        | (Ret texts, w') => (Ret (List.filter (fun t => negb (String.eqb t "")) texts), w')
        | (Raise e, w') => (Raise e, w')
        end
    | _ => (Raise (RuntimeError "MLX KV generate: KV handle has no prompt_cache"), w)
    end.

Definition mlx_clone (uuid_hex : string) (now : Q) (h : KVHandle) (w : W) : pyres KVHandle * W :=
  (Raise (RuntimeError "MLX KV clone is not implemented yet; use the standard full-prefill path"), w).

(** [opaque.pop("prompt_cache", None)] on the handle's own dictionary. *)
Definition mlx_release (h : KVHandle) (w : W) : KVHandle * W :=
  (mkKVHandle (kh_id h) (kh_backend h) (kh_model_id h) (kh_token_count h) (kh_created_at h)
     (kh_last_used_at h) (kh_scope h) (kh_metadata h) (ddel "prompt_cache" <$> kh_opaque_ref h), w).

Definition MLXKVBackendAdapter (m : MLXRuntime) : KVAdapter W :=
  mkKVAdapter (fun _ => mlx_supports m) (mlx_prefill m) (mlx_generate m) mlx_clone mlx_release.
End mlx.

(** ** The registry *)

Definition kv_registry (W : Type) := list (string * KVAdapter W).

Section registry.
Context {W : Type}.

Definition register_kv (backend : string) (a : KVAdapter W) (r : kv_registry W) : kv_registry W :=
  dset backend a r.

Definition get_kv (backend : string) (r : kv_registry W) : KVAdapter W :=
  dget_or backend NoOpKVBackendAdapter r.

Definition kv_capability (backend : string) (r : kv_registry W) (w : W) : KVCapability :=
  kb_supports_kv_cache (get_kv backend r) w.

Definition is_kv_capable (backend : string) (r : kv_registry W) (w : W) : bool :=
  negb (bool_decide (kv_capability backend r w = KV_UNSUPPORTED)).

(** [sorted(self._adapters.keys())] *)
Definition kv_registered_backends (r : kv_registry W) : list string := stable_sort string_leb (dkeys r).
End registry.
