(* ===== verification/TWManager.v ===== *)
(** * The ThreadWake manager ([runtime/threadwake/manager.py] and [metrics.py])

    The manager resolves a request's ThreadWake configuration, compiles and observes its
    prompt, and in the ephemeral and session modes runs it from a cached prefix when the
    index holds one, or in full while filling the cache.

    - The state is the metrics, the index, the lifecycle observer and the state [W] of the
      backends; operations are written in a monad of that state with exceptions.  An
      exception keeps the changes made before it, and [try_except] is Python's.
    - The observation is an object the code annotates; it is passed along as a value, and
      no annotation precedes a call of its [try] block that can raise.
    - One operation reads the clock as one value; its uuids are numbered.  Logging is not
      modelled.  [generate_fn] is a function of the backends' state.
    - The registries, the environment, the digest, the printing of floats and pydantic's
      validation of raw configuration and metadata are parameters. *)

From S2P Require Import Prelude PyDict PyStr PySeq Config Contracts CapacityContext PyJson TWCompiler TWTokens TWProof TWIndex KVLifecycle TWBackend.

(** ** Metrics ([metrics.py]) *)

Definition metric_label := (string * string * string * string * string)%type.

Record ThreadWakeMetrics := mkMetrics {
  mt_counters : list (string * Z);
  mt_labeled : list (metric_label * Z);
}.

Definition COUNTERS : list string :=
  ["threadwake_observations_total"; "threadwake_eligible_total"; "threadwake_ineligible_total";
   "threadwake_estimated_reuse_tokens_total"; "threadwake_cache_hits_total";
   "threadwake_cache_misses_total"; "threadwake_cache_evictions_total";
   "threadwake_prefix_tokens_matched_total"; "threadwake_kv_events_total"; "threadwake_kv_errors_total";
   "threadwake_kv_active_handles_estimate"; "threadwake_candidate_selections_total";
   "threadwake_candidate_high_confidence_total"; "threadwake_candidate_medium_confidence_total";
   "threadwake_candidate_low_confidence_total"; "threadwake_candidate_potential_saved_tokens_total"].

Definition new_metrics : ThreadWakeMetrics := mkMetrics (map (fun k => (k, 0%Z)) COUNTERS) [].

(** [self.counters[key] += n] *)
Definition count (key : string) (n : Z) (m : ThreadWakeMetrics) : ThreadWakeMetrics :=
  mkMetrics (dupd key (fun v => (v + n)%Z) (mt_counters m)) (mt_labeled m).

Definition _REASON_MAP : list (string * string) :=
  [("threadwake_disabled", "threadwake_disabled"); ("prompt_graph_missing", "prompt_graph_missing");
   ("model_id_missing", "model_id_missing"); ("backend_missing", "backend_missing");
   ("backend_capable_but_ineligible", "backend_missing"); ("mode_not_supported", "mode_not_supported");
   ("stable_prefix_contains_multimodal", "stable_prefix_contains_multimodal");
   ("stable_prefix_below_min_tokens", "stable_prefix_below_min_tokens");
   ("backend_unsupported", "backend_unsupported"); ("backend_unknown", "backend_unknown");
   ("observe_mode_not_reusing", "mode_not_supported"); ("scope_not_compatible", "scope_not_compatible");
   ("backend_failure", "backend_failure")].

(** [_coerce_reason] *)
Definition coerce_reason (raw_reason : option string) : string :=
  match raw_reason with
  | None => "eligible"
  | Some r =>
      match dget r _REASON_MAP with
      | Some v => v
      | None =>
          match List.filter (fun p => startswith (fst p) r) _REASON_MAP with
          | (_, v) :: _ => v
          | [] => "other"
          end
      end
  end.

(** [_inc_labeled] *)
Definition inc_labeled (outcome : string) (o : ThreadWakeObservation) (reason : string)
    (m : ThreadWakeMetrics) : ThreadWakeMetrics :=
  let backend := if str_truthy (ob_backend_kv_capability o) then default "" (ob_backend_kv_capability o)
                 else "unknown" in
  mkMetrics (mt_counters m)
    (dincr ("threadwake_" +:+ outcome +:+ "_total", ThreadWakeMode_value (ob_mode o), ob_cache_scope o,
            backend, reason) (mt_labeled m)).

Definition metrics_record (o : ThreadWakeObservation) (m : ThreadWakeMetrics) : ThreadWakeMetrics :=
  let m := count "threadwake_observations_total" 1 m in
  if ob_eligible o then
    let m := count "threadwake_eligible_total" 1 m in
    let m := count "threadwake_estimated_reuse_tokens_total" (ob_estimated_prefill_reuse_tokens o) m in
    let m :=
      if ob_cache_hit o then
        count "threadwake_prefix_tokens_matched_total" (ob_estimated_prefill_reuse_tokens o)
          (count "threadwake_cache_hits_total" 1 m)
      else count "threadwake_cache_misses_total" 1 m in
    inc_labeled "hits" o "eligible" m
  else
    inc_labeled "misses" o (coerce_reason (ob_reason o)) (count "threadwake_ineligible_total" 1 m).

Definition record_eviction (n : Z) (m : ThreadWakeMetrics) : ThreadWakeMetrics :=
  count "threadwake_cache_evictions_total" n m.

Definition metrics_reset (m : ThreadWakeMetrics) : ThreadWakeMetrics :=
  mkMetrics (map (fun p => (fst p, 0%Z)) (mt_counters m)) [].

(** ** Annotations of an observation *)

Definition set_kv_status (capability : option string) (can_reuse : bool) (reason : option string)
    (o : ThreadWakeObservation) : ThreadWakeObservation :=
  TWCompiler.mkObservation (ob_enabled o) (ob_mode o) (ob_eligible o) (ob_reason o) (ob_stable_prefix_hash o)
    (ob_stable_prefix_tokens o) (ob_dynamic_tokens o) (ob_estimated_prefill_reuse_tokens o) (ob_cache_hit o)
    (ob_cache_scope o) capability can_reuse reason (ob_tokenizer_capability o)
    (ob_real_tokenization_available o) (ob_tokenization_reason o) (ob_stable_prefix_token_count_real o)
    (ob_dynamic_tail_token_count_real o).

Definition set_tokenizer_status (capability : option string) (available : bool) (reason : option string)
    (o : ThreadWakeObservation) : ThreadWakeObservation :=
  TWCompiler.mkObservation (ob_enabled o) (ob_mode o) (ob_eligible o) (ob_reason o) (ob_stable_prefix_hash o)
    (ob_stable_prefix_tokens o) (ob_dynamic_tokens o) (ob_estimated_prefill_reuse_tokens o) (ob_cache_hit o)
    (ob_cache_scope o) (ob_backend_kv_capability o) (ob_can_reuse_kv o) (ob_kv_reuse_reason o) capability
    available reason (ob_stable_prefix_token_count_real o) (ob_dynamic_tail_token_count_real o).

Definition set_real_counts (stable dynamic : option Z) (o : ThreadWakeObservation) : ThreadWakeObservation :=
  TWCompiler.mkObservation (ob_enabled o) (ob_mode o) (ob_eligible o) (ob_reason o) (ob_stable_prefix_hash o)
    (ob_stable_prefix_tokens o) (ob_dynamic_tokens o) (ob_estimated_prefill_reuse_tokens o) (ob_cache_hit o)
    (ob_cache_scope o) (ob_backend_kv_capability o) (ob_can_reuse_kv o) (ob_kv_reuse_reason o)
    (ob_tokenizer_capability o) (ob_real_tokenization_available o) (ob_tokenization_reason o) stable dynamic.

(** [observation.cache_hit = True] with the reused tokens. *)
Definition set_hit (reuse : Z) (o : ThreadWakeObservation) : ThreadWakeObservation :=
  TWCompiler.mkObservation (ob_enabled o) (ob_mode o) (ob_eligible o) (ob_reason o) (ob_stable_prefix_hash o)
    (ob_stable_prefix_tokens o) (ob_dynamic_tokens o) reuse true (ob_cache_scope o)
    (ob_backend_kv_capability o) (ob_can_reuse_kv o) (ob_kv_reuse_reason o) (ob_tokenizer_capability o)
    (ob_real_tokenization_available o) (ob_tokenization_reason o) (ob_stable_prefix_token_count_real o)
    (ob_dynamic_tail_token_count_real o).

(** ** Results ([types.py]) *)

Record ThreadWakeMetadata := mkMetadata {
  md_cache_hit : bool;
  md_matched_tokens : Z;
  md_mode : option string;
  md_scope : option string;
  md_backend_kv_capability : option string;
}.

Record EphemeralResult := mkResult {
  er_output_tokens : list string;
  er_cache_hit : bool;
  er_matched_tokens : Z;
  er_observation : ThreadWakeObservation;
  er_metadata : ThreadWakeMetadata;
}.

(** The response the bridge builds for a cache hit. *)
Record CachedResponse := mkCachedResponse {
  ca_id : string;
  ca_created : Z;
  ca_model : string;
  ca_text : string;
  ca_prompt_tokens : Z;
  ca_completion_tokens : Z;
}.

(** ** The state and its monad *)

Section manager.
Context {W : Type}.

Record ManagerState := mkManager {
  ms_metrics : ThreadWakeMetrics;
  ms_index : ThreadWakeIndex;
  ms_observer : KVLifecycleObserver;
  ms_world : W;
}.

Definition M (A : Type) : Type := ManagerState -> pyres A * ManagerState.

Definition ret {A} (a : A) : M A := fun s => (Ret a, s).
Definition raise {A} (e : pyexc) : M A := fun s => (Raise e, s).
Definition bind {A B} (m : M A) (f : A -> M B) : M B := fun s =>
  match m s with
  | (Ret a, s') => f a s'
  | (Raise e, s') => (Raise e, s')
  end.

(** [try: m except Exception: handler] *)
Definition try_except {A} (m handler : M A) : M A := fun s =>
  match m s with
  | (Ret a, s') => (Ret a, s')
  | (Raise _, s') => handler s'
  end.

Definition lift {A} (r : pyres A) : M A := fun s => (r, s).

Local Notation "'do' x <- m ; k" := (bind m (fun x => k)) (at level 10, x pattern, m at level 100, k at level 200).
Local Notation "m ;; k" := (bind m (fun _ => k)) (at level 100, k at level 200, right associativity).

Definition with_metrics (f : ThreadWakeMetrics -> ThreadWakeMetrics) : M () := fun s =>
  (Ret (), mkManager (f (ms_metrics s)) (ms_index s) (ms_observer s) (ms_world s)).

Definition with_index {A} (f : ThreadWakeIndex -> ThreadWakeIndex * A) : M A := fun s =>
  let (x, a) := f (ms_index s) in (Ret a, mkManager (ms_metrics s) x (ms_observer s) (ms_world s)).

(** An index operation that may raise leaves the index as it was. *)
Definition with_index_res {A} (f : ThreadWakeIndex -> pyres (ThreadWakeIndex * A)) : M A := fun s =>
  match f (ms_index s) with
  | Ret (x, a) => (Ret a, mkManager (ms_metrics s) x (ms_observer s) (ms_world s))
  | Raise e => (Raise e, s)
  end.

Definition with_observer (f : KVLifecycleObserver -> pyres KVLifecycleObserver) : M () := fun s =>
  match f (ms_observer s) with
  | Ret o => (Ret (), mkManager (ms_metrics s) (ms_index s) o (ms_world s))
  | Raise e => (Raise e, s)
  end.

Definition with_world {A} (f : W -> pyres A * W) : M A := fun s =>
  let (r, w) := f (ms_world s) in (r, mkManager (ms_metrics s) (ms_index s) (ms_observer s) w).

Definition get_world : M W := fun s => (Ret (ms_world s), s).

(** ** Operations *)

Context (sha256_hex : string -> string) (repr_float : Q -> string) (env : environ).
Context (validate_config : pyval -> pyres ThreadWakeRequestConfig).
Context (validate_metadata : pyval -> option (list CodexifySegmentMeta)).
Context (validate_meta : pyval -> option CodexifySegmentMeta).
Context (backends : kv_registry W) (tokenizers : tokenizer_registry).
Context (now : Q) (uuid : nat -> string).

(** [ThreadWakeManager.__init__] with [_build_default_index]. *)
Definition default_index : ThreadWakeIndex :=
  new_index (get_threadwake_max_entries env) (get_threadwake_max_memory_mb env * 1024 * 1024)
    (get_threadwake_bytes_per_token env) (get_threadwake_allow_global env).

Definition init_manager (w : W) : ManagerState :=
  mkManager new_metrics default_index (new_kv_observer false 512) w.

(** [_coerce_mode] *)
Definition coerce_mode (value : string) : ThreadWakeMode :=
  let v := if String.eqb value "" then "off" else value in
  if String.eqb v "observe" then MODE_OBSERVE
  else if String.eqb v "ephemeral" then MODE_EPHEMERAL
  else if String.eqb v "session" then MODE_SESSION
  else if String.eqb v "advanced" then MODE_ADVANCED
  else MODE_OFF.

(** The merge of a provided configuration with the environment. *)
Definition merge_config (provided : ThreadWakeRequestConfig) : ThreadWakeRequestConfig :=
  let env_mode := coerce_mode (get_threadwake_mode env) in
  let requested_mode :=
    match tc_mode provided with
    | Some m => m
    | None => if default false (tc_enabled provided) then MODE_OBSERVE else env_mode
    end in
  let enabled :=
    match tc_enabled provided with
    | Some e => e
    | None =>
        match tc_mode provided with
        | Some m => negb (bool_decide (m = MODE_OFF))
        | None => get_threadwake_enabled env
        end
    end in
  mkTWConfig (Some enabled) (Some requested_mode)
    (Some (if str_truthy (tc_scope provided) then default "" (tc_scope provided)
           else get_threadwake_default_scope env))
    (Some (default (get_threadwake_min_prefix_tokens env) (tc_min_stable_prefix_tokens provided))).

(** [_resolve_config] *)
Definition resolve_config (raw : RawConfig) : pyres ThreadWakeRequestConfig :=
  match raw with
  | ConfigMissing =>
      Ret (mkTWConfig (Some (get_threadwake_enabled env)) (Some (coerce_mode (get_threadwake_mode env)))
             (Some (get_threadwake_default_scope env)) (Some (get_threadwake_min_prefix_tokens env)))
  | ConfigTyped c => Ret (merge_config c)
  | ConfigValue v => let! c := validate_config v in Ret (merge_config c)
  end.

(** [_extract_scope_context] *)
Definition extract_scope_context (r : TWRequest) : ScopeContext :=
  mkScopeContext (rq_thread_id r) (rq_user_id r) (rq_project_id r).

(** [config.scope or "thread"] *)
Definition config_scope (c : ThreadWakeRequestConfig) : string :=
  if str_truthy (tc_scope c) then default "" (tc_scope c) else "thread".

(** [compile_prompt_graph] of the manager. *)
Definition compile_graph (r : TWRequest) (backend tok_hash tmpl_hash : option string) (scope : string)
    (allow_global : bool) : PromptGraph :=
  compile_prompt_graph sha256_hex repr_float (rq_messages r) (rq_model r) backend (rq_tools r)
    (rq_tool_choice r) tok_hash tmpl_hash scope
    (parse_codexify_segments validate_metadata validate_meta (rq_threadwake_segments r)) allow_global.

(** [_attach_tokenizer_status] *)
Definition attach_tokenizer_status (o : ThreadWakeObservation) (backend : option string)
    (tokenized : option TokenizedPrompt) : ThreadWakeObservation :=
  match backend with
  | None => set_tokenizer_status None false (Some "backend_unknown") o
  | Some b =>
      let cap := tokenizer_capability b tokenizers in
      let value := Some (ThreadWakeTokenizerCapability_value cap) in
      match cap, tokenized with
      | TOK_UNSUPPORTED, _ => set_tokenizer_status value false (Some "tokenizer_unsupported") o
      | ESTIMATES_ONLY, _ => set_tokenizer_status value false (Some "tokenizer_estimates_only") o
      | _, Some t =>
          let o := set_tokenizer_status value true None o in
          if tp_real_tokenization t then
            set_real_counts
              (if (tp_stable_prefix_token_count t =? 0)%Z then ob_stable_prefix_token_count_real o
               else Some (tp_stable_prefix_token_count t))
              (if (tp_dynamic_tail_token_count t =? 0)%Z then ob_dynamic_tail_token_count_real o
               else Some (tp_dynamic_tail_token_count t)) o
          else o
      | _, None => set_tokenizer_status value true None o
      end
  end.

(** The reuse verdict of [_attach_backend_kv_status] for a known backend. *)
Definition kv_verdict (capability : KVCapability) (o : ThreadWakeObservation)
    (tokenized : option TokenizedPrompt) : ThreadWakeObservation :=
  let value := Some (KVCapability_value capability) in
  if bool_decide (capability = KV_UNSUPPORTED) then set_kv_status value false (Some "backend_unsupported") o
  else if negb (ob_eligible o) then
    set_kv_status value false
      (Some ("backend_capable_but_ineligible: " +:+ default "None" (ob_reason o))) o
  else if bool_decide (ob_mode o ∈ [MODE_EPHEMERAL; MODE_SESSION]) then
    match tokenized with
    | Some t =>
        if tp_real_tokenization t then
          set_real_counts (Some (tp_stable_prefix_token_count t)) (Some (tp_dynamic_tail_token_count t))
            (set_kv_status value true None o)
        else set_kv_status value false (Some "real_tokenization_unavailable") o
    | None => set_kv_status value false (Some "real_tokenization_unavailable") o
    end
  else set_kv_status value false (Some "observe_mode_not_reusing") o.

(** [_attach_backend_kv_status] *)
Definition attach_backend_kv_status (o : ThreadWakeObservation) (backend : option string)
    (tokenized : option TokenizedPrompt) : M ThreadWakeObservation :=
  match backend with
  | None => ret (attach_tokenizer_status (set_kv_status None false (Some "backend_unknown") o) None None)
  | Some b =>
      do w <- get_world;
      let capability := kv_capability b backends w in
      with_observer (record_capability sha256_hex (uuid 0) now b (KVCapability_value capability) None);;
      ret (attach_tokenizer_status (kv_verdict capability o tokenized) backend tokenized)
  end.

Definition cache_key_of (g : PromptGraph) (scope : string) (revision quantization : option string) : string :=
  build_threadwake_cache_key sha256_hex repr_float g scope revision quantization THREADWAKE_KEY_VERSION.

(** What is put into the index for a graph. *)
Definition index_observation (g : PromptGraph) (key backend scope : string) (c : ScopeContext)
    (kv_handle_id : option string) : observation :=
  TWIndex.mkObservation key (default "" (pg_model_id g)) backend (pg_stable_prefix_hash g)
    (pg_stable_prefix_tokens g) scope c kv_handle_id.

Definition index_put (o : observation) : M ThreadWakeIndexEntry :=
  with_index_res (put_observation sha256_hex now o).

(** [_record_index_observation] *)
Definition record_index_observation (g : PromptGraph) (o : ThreadWakeObservation) (backend : option string)
    (revision quantization : option string) (c : ScopeContext) : M () :=
  match backend with
  | Some b =>
      if ob_eligible o then
        let scope := ob_cache_scope o in
        let key := cache_key_of g scope revision quantization in
        fun s =>
          match bind (index_put (index_observation g key b scope c None)) (fun _ => ret ()) s with
          | (Raise (ValueError _), s') => (Ret (), s')
          | r => r
          end
      else ret ()
  | None => ret ()
  end.

Definition observe_request (r : TWRequest) (backend revision quantization tok_hash tmpl_hash : option string)
    : M ThreadWakeObservation :=
  do config <- lift (resolve_config (rq_threadwake r));
  if negb (default false (tc_enabled config)) || bool_decide (tc_mode config = Some MODE_OFF) then
    do o <- attach_backend_kv_status (evaluate_threadwake_policy None config) backend None;
    with_metrics (metrics_record o);; ret o
  else
    do x <- with_index (fun x => (x, x));
    let g := compile_graph r backend tok_hash tmpl_hash (config_scope config) (tx_allow_global x) in
    do o <- attach_backend_kv_status (evaluate_threadwake_policy (Some g) config) backend None;
    record_index_observation g o backend revision quantization (extract_scope_context r);;
    with_metrics (metrics_record o);; ret o.

(** *** Ephemeral execution *)

Context (generate_fn : W -> pyres (list string) * W) (gen_params : list (string * pyval)).

(** [_full_generation_result] *)
Definition full_generation_result (o : ThreadWakeObservation) : M EphemeralResult :=
  do output <- with_world generate_fn;
  with_metrics (metrics_record o);;
  ret (mkResult output false 0 o
         (mkMetadata false 0 (Some (ThreadWakeMode_value (ob_mode o))) (Some (ob_cache_scope o))
            (ob_backend_kv_capability o))).

(** [[str(t) for t in ids]] *)
Definition str_tokens (ids : list Z) : list string := map pretty ids.

Definition hit_result (output : list string) (mode : string) (matched : Z) (o : ThreadWakeObservation)
    : EphemeralResult :=
  mkResult output true matched o
    (mkMetadata true matched (Some mode) (Some (ob_cache_scope o)) (ob_backend_kv_capability o)).

(** [clone_kv] and the consumed [generate_from_kv]. *)
Definition generate_from_clone (kv : KVAdapter W) (handle : KVHandle) (tokens : list Z) : M (list string) :=
  do cloned <- with_world (kb_clone_kv kv (uuid 2) now handle);
  with_world (kb_generate_from_kv kv cloned (str_tokens tokens) gen_params).

(** The handle [_ephemeral_hit] builds from an entry. *)
Definition entry_handle (key : string) (e : ThreadWakeIndexEntry) : KVHandle :=
  make_handle (uuid 1) now (te_backend e) (te_model_id e) (te_token_count e) []
    (Some [("index_key", OStr (Some key)); ("handle_id", OStr (te_kv_handle_id e))]).

Definition ephemeral_hit (g : PromptGraph) (key : string) (e : ThreadWakeIndexEntry) (kv : KVAdapter W)
    (o : ThreadWakeObservation) (t : TokenizedPrompt) : M EphemeralResult :=
  if negb (tp_real_tokenization t) then
    raise (RuntimeError "BUG: _ephemeral_hit called without real tokenization")
  else
    try_except
      (do output <- generate_from_clone kv (entry_handle key e) (tp_dynamic_tail_token_ids t);
       with_observer (record_cloned sha256_hex (uuid 3) now (te_backend e) (te_model_id e)
                        (te_kv_handle_id e));;
       with_observer (record_reused sha256_hex (uuid 4) now (te_backend e) (te_model_id e)
                        (Some (Z.of_nat (length (tp_dynamic_tail_token_ids t)))));;
       let o := set_hit (pg_stable_prefix_tokens g) o in
       with_metrics (metrics_record o);;
       ret (hit_result output "ephemeral" (pg_stable_prefix_tokens g) o))
      (with_index (fun x => (mark_stale key x, ()));; full_generation_result o).

(** What a miss stores once it has generated. *)
Definition store_prefix (g : PromptGraph) (key scope : string) (c : ScopeContext) (kv : KVAdapter W)
    (backend : string) (t : TokenizedPrompt) : M () :=
  match tp_stable_prefix_token_ids t with
  | [] => ret ()
  | ids =>
      let model_id := default "" (pg_model_id g) in
      do handle <- with_world (kb_prefill_to_kv kv (uuid 5) now (str_tokens ids) model_id);
      index_put (index_observation g key backend scope c (Some (kh_id handle)));;
      with_index (fun x => (mark_ready key x, ()));;
      with_observer (record_created sha256_hex (uuid 6) now backend model_id
                       (Some (Z.of_nat (length ids))) (Some (kh_id handle)) (Some key));;
      match sc_thread_id c with
      | Some thread_id =>
          if negb (String.eqb thread_id "") && pg_continuation_candidate g then
            with_index (fun x =>
              (fst (store_thread_tip sha256_hex now thread_id model_id backend (pg_full_prefix_chain_hash g)
                      (pg_ordered_segment_hashes g) (Some (kh_id handle)) x), ()))
          else ret ()
      | None => ret ()
      end
  end.

Definition ephemeral_miss (g : PromptGraph) (key scope : string) (c : ScopeContext) (kv : KVAdapter W)
    (o : ThreadWakeObservation) (backend : string) (t : TokenizedPrompt) : M EphemeralResult :=
  do result <- full_generation_result o;
  if negb (tp_real_tokenization t) then ret result
  else
    try_except (store_prefix g key scope c kv backend t) (ret ());; ret result.

(** The handle [_try_session_continuation] builds from a tip. *)
Definition tip_handle (backend model_id : string) (tip : ThreadTip) : KVHandle :=
  make_handle (uuid 1) now backend model_id (tt_segment_count tip) []
    (Some [("tip_key", OStr (Some (tt_chain_hash tip))); ("handle_id", OStr (tt_kv_handle_id tip))]).

(** [_try_session_continuation]: the result, or the observation as it was left. *)
Definition try_session_continuation (g : PromptGraph) (thread_id : string) (kv : KVAdapter W)
    (backend : string) (o : ThreadWakeObservation) (t : TokenizedPrompt)
    : M (EphemeralResult + ThreadWakeObservation) :=
  if negb (tp_real_tokenization t) then ret (inr o)
  else
    let model_id := default "" (pg_model_id g) in
    do tip <- with_index (fun x => (x, get_latest_for_thread sha256_hex thread_id model_id backend x));
    match tip with
    | None => ret (inr o)
    | Some tip =>
        if negb (validate_monotonic_append (tt_hashes tip) (pg_ordered_segment_hashes g)) then
          with_index (fun x => (clear_thread_tip sha256_hex thread_id model_id backend x, ()));;
          ret (inr (set_kv_status (ob_backend_kv_capability o) (ob_can_reuse_kv o)
                      (Some "non_monotonic_or_changed_prefix") o))
        else
          try_except
            (do output <- generate_from_clone kv (tip_handle backend model_id tip)
                            (tp_dynamic_tail_token_ids t);
             let reuse := sumZ (map ps_token_count (slice_to (tt_segment_count tip) (pg_segments g))) in
             let o := set_hit reuse o in
             with_metrics (metrics_record o);;
             with_index (fun x =>
               (fst (store_thread_tip sha256_hex now thread_id model_id backend (pg_full_prefix_chain_hash g)
                       (pg_ordered_segment_hashes g) (tt_kv_handle_id tip) x), ()));;
             ret (inl (hit_result output "session" reuse o)))
            (with_index (fun x => (clear_thread_tip sha256_hex thread_id model_id backend x, ()));;
             ret (inr o))
    end.

Definition reusable (c : KVCapability) : bool :=
  bool_decide (c ∈ [EXPERIMENTAL; RESUMABLE; CLONEABLE; SERIALIZABLE]).

(** The part of [execute_ephemeral] after session continuation: hit or miss. *)
Definition execute_exact_prefix (g : PromptGraph) (key scope : string) (c : ScopeContext)
    (kv : KVAdapter W) (o : ThreadWakeObservation) (backend : string) (t : TokenizedPrompt)
    : M EphemeralResult :=
  do entry <- with_index (index_get sha256_hex now key c);
  match entry with
  | Some e =>
      if bool_decide (te_status e = READY) then ephemeral_hit g key e kv o t
      else ephemeral_miss g key scope c kv o backend t
  | None => ephemeral_miss g key scope c kv o backend t
  end.

Definition execute_ephemeral (r : TWRequest) (backend : string)
    (revision quantization tok_hash tmpl_hash : option string) : M EphemeralResult :=
  let c := extract_scope_context r in
  do config <- lift (resolve_config (rq_threadwake r));
  do x <- with_index (fun x => (x, x));
  let g := compile_graph r (Some backend) tok_hash tmpl_hash (config_scope config) (tx_allow_global x) in
  do tokenized <- lift (ta_tokenize_prompt (get_tokenizer backend tokenizers) g r (default "" (pg_model_id g)));
  let t := default (unavailable "" "" None None "tokenizer_returned_none") tokenized in
  do o <- attach_backend_kv_status (evaluate_threadwake_policy (Some g) config) (Some backend) (Some t);
  if negb (bool_decide (default MODE_OFF (tc_mode config) ∈ [MODE_EPHEMERAL; MODE_SESSION]))
     || negb (ob_eligible o) then
    with_metrics (metrics_record o);; full_generation_result o
  else
    let scope := ob_cache_scope o in
    let key := cache_key_of g scope revision quantization in
    let kv := get_kv backend backends in
    do w <- get_world;
    if negb (reusable (kb_supports_kv_cache kv w)) || negb (tp_real_tokenization t) then
      let o :=
        if tp_real_tokenization t then o
        else set_kv_status (ob_backend_kv_capability o) false
               (Some (if str_truthy (tp_unavailable_reason t) then default "" (tp_unavailable_reason t)
                      else "real_tokenization_unavailable")) o in
      with_metrics (metrics_record o);; full_generation_result o
    else
      match sc_thread_id c with
      | Some thread_id =>
          if negb (String.eqb thread_id "") && pg_continuation_candidate g then
            do outcome <- try_session_continuation g thread_id kv backend o t;
            match outcome with
            | inl result => ret result
            | inr o => execute_exact_prefix g key scope c kv o backend t
            end
          else execute_exact_prefix g key scope c kv o backend t
      | None => execute_exact_prefix g key scope c kv o backend t
      end.

(** *** Health and administration *)

(** [_compute_status] *)
Definition compute_status (mode : string) (stats : ThreadWakeStats) : string :=
  if (ts_entry_count stats =? 0)%Z then if String.eqb mode "off" then "off" else "observing"
  else
    let ready := dget_or "ready" 0%Z (ts_entries_by_status stats) in
    let stale := dget_or "stale" 0%Z (ts_entries_by_status stats) in
    if (ready <? stale)%Z && (0 <? stale)%Z then "degraded"
    else if (0 <? ready)%Z then "ready"
    else "observing".

(** [has_ready_entry] *)
Definition has_ready_entry (cache_key : option string) : M bool :=
  match cache_key with
  | None => ret false
  | Some key =>
      do entry <- with_index (index_get sha256_hex now key DEFAULT_SCOPE_CONTEXT);
      ret (match entry with Some e => bool_decide (te_status e = READY) | None => false end)
  end.

(** [flush_cache]: the removed and the remaining entries. *)
Definition flush_cache (scope model_id scope_id : option string) : M (Z * Z) :=
  do removed <- with_index (flush scope model_id (sha256_hex <$> scope_id));
  do stats <- with_index (fun x => (x, index_stats x));
  ret (removed, ts_entry_count stats).

(** [POST /runtime/threadwake/flush] of [app.py]. *)
Definition runtime_threadwake_flush (scope model_id scope_id : option string) : M (Z * Z) :=
  do result <- flush_cache (if bool_decide (scope = Some "all") then None else scope) model_id scope_id;
  with_metrics (record_eviction (fst result));; ret result.
End manager.
Arguments ManagerState : clear implicits.
Arguments M : clear implicits.

(** ** The asynchronous bridge *)

Section bridge.
Context {W : Type}.
Context (sha256_hex : string -> string) (repr_float : Q -> string) (env : environ).
Context (validate_config : pyval -> pyres ThreadWakeRequestConfig).
Context (validate_metadata : pyval -> option (list CodexifySegmentMeta)).
Context (validate_meta : pyval -> option CodexifySegmentMeta).
Context (backends : kv_registry W) (tokenizers : tokenizer_registry).
Context (now : Q) (uuid : nat -> string).

(** [_sync_gen] *)
Definition sync_gen (w : W) : pyres (list string) * W := (Ret ["__tw_fallback__"], w).

(** [" ".join(m.content ...)]: a content that is not a string raises. *)
Definition prompt_text (messages : list ChatMessage) : option string :=
  join " " <$> mapM (fun m => match msg_content m with PStr s => Some s | _ => None end) messages.

(** The response built from a hit. *)
Definition cached_response (r : TWRequest) (output : list string) : option CachedResponse :=
  let text := String.concat "" output in
  let text := if String.eqb text "" then "[ThreadWake cached response]" else text in
  match rq_model r with
  | None => None
  | Some model =>
      prompt ← prompt_text (rq_messages r);
      Some (mkCachedResponse ("chatcmpl-tw-" +:+ String.substring 0 12 (uuid 7)) (Qround.Qfloor now) model text
              (Z.max 1 (Z.of_nat (length (split_words prompt)))) (Z.of_nat (length (split_words text))))
  end.

(** [execute_ephemeral_chat_completion] *)
Definition execute_ephemeral_chat_completion (r : TWRequest) (backend : string)
    (revision quantization tok_hash tmpl_hash : option string) (gen_params : list (string * pyval))
    : M W (option CachedResponse) := fun s =>
  match resolve_config env validate_config (rq_threadwake r) with
  | Raise e => (Raise e, s)
  | Ret config =>
      if negb (bool_decide (default MODE_OFF (tc_mode config) ∈ [MODE_EPHEMERAL; MODE_SESSION])) then
        (Ret None, s)
      else if bool_decide (kv_capability backend backends (ms_world s) = KV_UNSUPPORTED) then (Ret None, s)
      else if bool_decide (tokenizer_capability backend tokenizers ∈ [TOK_UNSUPPORTED; ESTIMATES_ONLY]) then
        (Ret None, s)
      else
        match execute_ephemeral sha256_hex repr_float env validate_config validate_metadata validate_meta
                backends tokenizers now uuid sync_gen gen_params r backend revision quantization tok_hash
                tmpl_hash s with
        | (Raise _, s') => (Ret None, s')
        | (Ret result, s') =>
            if er_cache_hit result then (Ret (cached_response r (er_output_tokens result)), s')
            else (Ret None, s')
        end
  end.
End bridge.
