(* ===== verification/TWManagerLogic.v ===== *)
(** * A program logic for the ThreadWake manager

    Every operation of the manager is run under one invariant, which is a conjunction of
    invariants of the four parts of its state.  [run_ok I m Q E] says that [m] keeps [I],
    ends in a value that satisfies [Q] or in an exception that satisfies [E].  The master
    lemmas at the end establish it for the operations from what the parts guarantee; the
    theorems of TWManagerProps.v instantiate the invariants. *)

From S2P Require Import Prelude PyDict PyStr PySeq Config Contracts CapacityContext PyJson TWCompiler TWTokens TWProof TWIndex TWIndexSpec TWIndexProps KVLifecycle TWBackend TWManager.

Section logic.
Context {W : Type}.
Implicit Types (s : ManagerState W) (I : ManagerState W -> Prop) (E : pyexc -> Prop).

Definition run_ok I {A} (m : M W A) (Q : A -> Prop) E : Prop := forall s,
  I s -> I (snd (m s)) /\ match fst (m s) with Ret a => Q a | Raise e => E e end.

Lemma ok_ret I {A} (a : A) (Q : A -> Prop) E : Q a -> run_ok I (ret a) Q E.
Proof. intros HQ s Hs. by split. Qed.

Lemma ok_raise I {A} e (Q : A -> Prop) E : E e -> run_ok I (raise e) Q E.
Proof. intros HE s Hs. by split. Qed.

Lemma ok_lift I {A} (r : pyres A) (Q : A -> Prop) E :
  match r with Ret a => Q a | Raise e => E e end -> run_ok I (lift r) Q E.
Proof. intros H s Hs. by split. Qed.

Lemma ok_bind I {A B} (m : M W A) (f : A -> M W B) (P : A -> Prop) (Q : B -> Prop) E :
  run_ok I m P E -> (forall a, P a -> run_ok I (f a) Q E) -> run_ok I (bind m f) Q E.
Proof.
  intros Hm Hf s Hs. unfold bind. destruct (Hm s Hs) as [Hi Hr].
  destruct (m s) as [[a|e] s']; simpl in *; [by apply Hf | done].
Qed.

Lemma ok_try I {A} (m h : M W A) (Q : A -> Prop) E E' :
  run_ok I m Q E' -> run_ok I h Q E -> run_ok I (try_except m h) Q E.
Proof.
  intros Hm Hh s Hs. unfold try_except. destruct (Hm s Hs) as [Hi Hr].
  destruct (m s) as [[a|e] s']; simpl in *; [done | by apply Hh].
Qed.

Lemma ok_mono I {A} (m : M W A) (P Q : A -> Prop) (E E' : pyexc -> Prop) :
  run_ok I m P E -> (forall a, P a -> Q a) -> (forall e, E e -> E' e) -> run_ok I m Q E'.
Proof.
  intros Hm HQ HE s Hs. destruct (Hm s Hs) as [Hi Hr]. split; [done|].
  destruct (fst (m s)); auto.
Qed.

(** ** One invariant for each part of the state *)

Context (Im : ThreadWakeMetrics -> Prop) (Ix : ThreadWakeIndex -> Prop) (Io : KVLifecycleObserver -> Prop)
  (Iw : W -> Prop).

Definition inv (s : ManagerState W) : Prop :=
  Im (ms_metrics s) /\ Ix (ms_index s) /\ Io (ms_observer s) /\ Iw (ms_world s).

Lemma ok_metrics f E : (forall m, Im m -> Im (f m)) -> run_ok inv (with_metrics f) (fun _ => True) E.
Proof. intros H s (? & ? & ? & ?). repeat split; simpl; auto. Qed.

Lemma ok_index {A} (f : ThreadWakeIndex -> ThreadWakeIndex * A) (Q : A -> Prop) E :
  (forall x, Ix x -> Ix (fst (f x)) /\ Q (snd (f x))) -> run_ok inv (with_index f) Q E.
Proof.
  intros H s (? & Hx & ? & ?). unfold with_index. specialize (H _ Hx).
  destruct (f (ms_index s)) as [x a]. simpl in *. destruct H. repeat split; simpl; auto.
Qed.

Lemma ok_index_res {A} (f : ThreadWakeIndex -> pyres (ThreadWakeIndex * A)) E :
  (forall x, Ix x -> match f x with Ret (x', _) => Ix x' | Raise e => E e end) ->
  run_ok inv (with_index_res f) (fun _ => True) E.
Proof.
  intros H s (? & Hx & ? & ?). unfold with_index_res. specialize (H _ Hx).
  destruct (f (ms_index s)) as [[x a]|e]; repeat split; simpl; auto.
Qed.

Lemma ok_observer f E :
  (forall o, Io o -> exists o', f o = Ret o' /\ Io o') -> run_ok inv (with_observer f) (fun _ => True) E.
Proof.
  intros H s (? & ? & Ho & ?). unfold with_observer. destruct (H _ Ho) as (o' & -> & ?).
  repeat split; simpl; auto.
Qed.

Lemma ok_world {A} (f : W -> pyres A * W) (Q : A -> Prop) E :
  (forall w, Iw w -> Iw (snd (f w)) /\ match fst (f w) with Ret a => Q a | Raise e => E e end) ->
  run_ok inv (with_world f) Q E.
Proof.
  intros H s (? & ? & ? & Hw). unfold with_world. specialize (H _ Hw).
  destruct (f (ms_world s)) as [r w]. simpl in *. destruct H. repeat split; simpl; auto.
Qed.

Lemma ok_get_world E : run_ok inv get_world Iw E.
Proof. intros s Hs. split; [done|]. apply Hs. Qed.
End logic.

(** Runs a bind, a branch, or a primitive whose side condition is known. *)
Ltac ok_step :=
  match goal with
  | |- run_ok _ (bind _ _) _ _ => eapply ok_bind; [|intros ? ?]
  | |- run_ok _ (if ?b then _ else _) _ _ => destruct b eqn:?
  | |- run_ok _ (ret _) _ _ => apply ok_ret
  | |- run_ok _ (with_metrics _) _ _ => apply ok_metrics
  | |- run_ok _ get_world _ _ => apply ok_get_world
  end.

(** ** What the parts guarantee *)

Definition SCOPES : list string := ["request"; "thread"; "project"; "user"; "global"].

Definition MODES_ : list ThreadWakeMode := [MODE_OFF; MODE_OBSERVE; MODE_EPHEMERAL; MODE_SESSION; MODE_ADVANCED].

Definition CAPABILITIES : list string :=
  ["unsupported"; "experimental"; "prefill_only"; "resumable"; "cloneable"; "serializable"].

(** The labels of an observation are drawn from their enumerations. *)
Definition obs_ok (o : ThreadWakeObservation) : Prop :=
  ob_cache_scope o ∈ SCOPES
  /\ match ob_backend_kv_capability o with Some c => c ∈ CAPABILITIES | None => True end.

(** The scope of a configuration that pydantic has accepted. *)
Definition config_ok (c : ThreadWakeRequestConfig) : Prop :=
  match tc_scope c with Some s => s ∈ SCOPES | None => True end.

Lemma capability_in c : KVCapability_value c ∈ CAPABILITIES.
Proof. by destruct c; apply (bool_decide_unpack _). Qed.

Lemma scopes_nonempty sc : sc ∈ SCOPES -> String.eqb sc "" = false.
Proof. intros H. repeat (apply elem_of_cons in H as [-> | H]; [done|]). by apply elem_of_nil in H. Qed.

Lemma config_scope_ok c : config_ok c -> config_scope c ∈ SCOPES.
Proof.
  unfold config_ok, config_scope. destruct (tc_scope c) as [sc|]; simpl; [|by intros _; apply (bool_decide_unpack _)].
  intros H. by rewrite (scopes_nonempty sc).
Qed.

Lemma policy_scope g c : ob_cache_scope (evaluate_threadwake_policy g c) = config_scope c.
Proof. unfold evaluate_threadwake_policy, config_scope. repeat case_match; done. Qed.

Lemma policy_capability g c : ob_backend_kv_capability (evaluate_threadwake_policy g c) = None.
Proof. unfold evaluate_threadwake_policy. repeat case_match; done. Qed.

Lemma policy_obs_ok g c : config_ok c -> obs_ok (evaluate_threadwake_policy g c).
Proof. intros H. unfold obs_ok. rewrite policy_scope, policy_capability. split; [by apply config_scope_ok|done]. Qed.

Lemma env_scope_ok env : get_threadwake_default_scope env ∈ SCOPES.
Proof. unfold get_threadwake_default_scope. case_bool_decide; [done|by apply (bool_decide_unpack _)]. Qed.

Lemma merge_config_ok env c : config_ok c -> config_ok (merge_config env c).
Proof.
  unfold config_ok, merge_config. simpl. destruct (tc_scope c) as [sc|]; simpl; [|by intros _; apply env_scope_ok].
  intros H. by rewrite (scopes_nonempty sc).
Qed.

Section parts.
Context {W : Type}.
Context (sha256_hex : string -> string) (repr_float : Q -> string) (env : environ).
Context (validate_config : pyval -> pyres ThreadWakeRequestConfig).
Context (validate_metadata : pyval -> option (list CodexifySegmentMeta)).
Context (validate_meta : pyval -> option CodexifySegmentMeta).
Context (backends : kv_registry W) (tokenizers : tokenizer_registry).
Context (now : Q) (uuid : nat -> string).
Context (generate_fn : W -> pyres (list string) * W) (gen_params : list (string * pyval)).

Context (Im : ThreadWakeMetrics -> Prop) (Ix : ThreadWakeIndex -> Prop) (Io : KVLifecycleObserver -> Prop)
  (Iw : W -> Prop) (Err : pyexc -> Prop).

Local Abbreviation keeps := (run_ok (inv Im Ix Io Iw)) (only parsing).

Hypothesis metrics_closed : forall o m, obs_ok o -> Im m -> Im (metrics_record o m).
Hypothesis index_closed : forall op x, Ix x -> Ix (index_apply sha256_hex op x).
Hypothesis index_ok : forall x, Ix x -> index_wf x.
Hypothesis observer_closed : forall e o, Io o -> exists o', record e o = Ret o' /\ Io o'.
Hypothesis config_closed : forall v,
  match validate_config v with Ret c => config_ok c | Raise e => Err e end.

Definition raw_ok (raw : RawConfig) : Prop :=
  match raw with ConfigTyped c => config_ok c | _ => True end.

Lemma resolve_config_ok raw : raw_ok raw ->
  match resolve_config env validate_config raw with Ret c => config_ok c | Raise e => Err e end.
Proof.
  destruct raw as [|c|v]; simpl; intros H.
  - apply env_scope_ok.
  - by apply merge_config_ok.
  - specialize (config_closed v). destruct (validate_config v); simpl; [|done]. by apply merge_config_ok.
Qed.

Lemma ok_record_metrics o E : obs_ok o -> keeps (with_metrics (metrics_record o)) (fun _ => True) E.
Proof. intros Ho. apply ok_metrics. auto. Qed.

Lemma ok_event (f : KVLifecycleObserver -> pyres KVLifecycleObserver) e E :
  (forall o, f o = record e o) -> keeps (with_observer f) (fun _ => True) E.
Proof. intros Hf. apply ok_observer. intros o Ho. rewrite Hf. by apply observer_closed. Qed.

(** An index operation of the interface, with any value computed from the index. *)
Lemma ok_index_op {A} (f : ThreadWakeIndex -> ThreadWakeIndex * A) op E :
  (forall x, fst (f x) = index_apply sha256_hex op x) -> keeps (with_index f) (fun _ => True) E.
Proof. intros Hf. apply ok_index. intros x Hx. rewrite Hf. split; [by apply index_closed|done]. Qed.

Lemma ok_index_read {A} (f : ThreadWakeIndex -> A) (Q : A -> Prop) E :
  (forall x, Ix x -> Q (f x)) -> keeps (with_index (fun x => (x, f x))) Q E.
Proof. intros Hf. apply ok_index. simpl. auto. Qed.

(** Putting raises nothing but the refusal of the global scope. *)
Lemma ok_put o :
  keeps (index_put sha256_hex now o) (fun _ => True)
    (fun e => e = ValueError "Global scope is not allowed").
Proof.
  apply ok_index_res. intros x Hx. pose proof (index_closed (TPut now o) x Hx) as Hc. simpl in Hc.
  destruct (put_observation sha256_hex now o x) as [[x' e]|e] eqn:Hp; [done|].
  by apply put_observation_raises in Hp as [-> _]; [|apply index_ok].
Qed.

Lemma attach_tokenizer_ok o b t : obs_ok o -> obs_ok (attach_tokenizer_status tokenizers o b t).
Proof. unfold attach_tokenizer_status. repeat case_match; done. Qed.

Lemma kv_verdict_ok c o t : obs_ok o -> obs_ok (kv_verdict c o t).
Proof.
  intros [Hs _]. unfold kv_verdict. repeat case_match; split; try done; simpl; apply capability_in.
Qed.

Lemma ok_attach o b t E :
  obs_ok o -> keeps (attach_backend_kv_status sha256_hex backends tokenizers now uuid o b t) obs_ok E.
Proof.
  intros Ho. unfold attach_backend_kv_status. destruct b as [b|].
  - ok_step; [ok_step|]. ok_step; [by eapply ok_event|]. ok_step.
    by apply attach_tokenizer_ok, kv_verdict_ok.
  - ok_step. apply attach_tokenizer_ok. by destruct Ho.
Qed.

Lemma ok_record_index g o b rev quant c E :
  keeps (record_index_observation sha256_hex repr_float now g o b rev quant c) (fun _ => True) E.
Proof.
  unfold record_index_observation. destruct b as [b|]; [|by ok_step].
  destruct (ob_eligible o); [|by ok_step]. intros s Hs.
  set (m := bind _ _). assert (Hm : keeps m (fun _ => True) (fun e => e = ValueError "Global scope is not allowed")).
  { unfold m. ok_step; [apply ok_put | by ok_step]. }
  destruct (Hm s Hs) as [Hi He]. destruct (m s) as [[a|e] s']; simpl in *; [done|]. by subst e.
Qed.

Lemma ok_observe r b rev quant tok tmpl :
  raw_ok (rq_threadwake r) ->
  keeps (observe_request sha256_hex repr_float env validate_config validate_metadata validate_meta
           backends tokenizers now uuid r b rev quant tok tmpl) obs_ok Err.
Proof.
  intros Hr. unfold observe_request.
  ok_step; [apply ok_lift, (resolve_config_ok _ Hr) |]. simpl in *. ok_step.
  - ok_step; [by apply ok_attach, policy_obs_ok|]. ok_step; [by apply ok_record_metrics|]. by ok_step.
  - ok_step; [apply ok_index_read with (Q := fun _ => True); done|].
    ok_step; [by apply ok_attach, policy_obs_ok|]. ok_step; [apply ok_record_index|].
    ok_step; [by apply ok_record_metrics|]. by ok_step.
Qed.

(** *** Execution *)

(** The handles the manager builds carry a key and a handle id. *)
Definition manager_handle (h : KVHandle) : Prop :=
  exists k a id, kh_opaque_ref h = Some [(k, a); ("handle_id", id)] /\ k ∈ ["index_key"; "tip_key"].

(** What the parts allow: outputs of [generate_fn], clones of the manager's handles, and
    outputs generated from such clones. *)
Context (Gen Kv : list string -> Prop) (Cl : KVHandle -> Prop) (kv : KVAdapter W).

Hypothesis generate_closed : forall w, Iw w ->
  Iw (snd (generate_fn w)) /\ match fst (generate_fn w) with Ret l => Gen l | Raise e => Err e end.
Hypothesis clone_closed : forall h w, manager_handle h -> Iw w ->
  Iw (snd (kb_clone_kv kv (uuid 2) now h w))
  /\ forall c, fst (kb_clone_kv kv (uuid 2) now h w) = Ret c -> Cl c.
Hypothesis resume_closed : forall c tokens w, Cl c -> Iw w ->
  Iw (snd (kb_generate_from_kv kv c tokens gen_params w))
  /\ forall l, fst (kb_generate_from_kv kv c tokens gen_params w) = Ret l -> Kv l.
Hypothesis prefill_closed : forall tokens model w, Iw w ->
  Iw (snd (kb_prefill_to_kv kv (uuid 5) now tokens model w)).

(** A result served in full, or from a cached prefix. *)
Definition result_ok (r : EphemeralResult) : Prop :=
  obs_ok (er_observation r)
  /\ if er_cache_hit r then Kv (er_output_tokens r)
     else Gen (er_output_tokens r) /\ er_matched_tokens r = 0%Z.

Lemma ok_full o :
  obs_ok o -> keeps (full_generation_result generate_fn o) result_ok Err.
Proof.
  intros Ho. unfold full_generation_result.
  ok_step; [apply (ok_world _ _ _ _ _ Gen), generate_closed|]. simpl in *.
  ok_step; [by apply ok_record_metrics|]. by ok_step.
Qed.

Lemma ok_generate_from_clone h tokens :
  manager_handle h ->
  keeps (generate_from_clone now uuid gen_params kv h tokens) Kv (fun _ => True).
Proof.
  intros Hh. unfold generate_from_clone.
  eapply ok_bind with (P := Cl).
  - apply ok_world. intros w Hw. destruct (clone_closed h w Hh Hw) as [? Hc]. split; [done|].
    destruct (fst _) eqn:E; [by apply Hc | done].
  - intros c Hc. apply ok_world. intros w Hw. destruct (resume_closed c (str_tokens tokens) w Hc Hw) as [? Hl].
    split; [done|]. destruct (fst _) eqn:E; [by apply Hl | done].
Qed.

Lemma entry_handle_manager key e : manager_handle (entry_handle now uuid key e).
Proof. eexists _, _, _. split; [done|]. by apply (bool_decide_unpack _). Qed.

Lemma tip_handle_manager b m t : manager_handle (tip_handle now uuid b m t).
Proof. eexists _, _, _. split; [done|]. by apply (bool_decide_unpack _). Qed.

Lemma set_hit_ok n o : obs_ok o -> obs_ok (set_hit n o).
Proof. done. Qed.

Lemma ok_hit g key e o t :
  obs_ok o -> tp_real_tokenization t = true ->
  keeps (ephemeral_hit sha256_hex now uuid generate_fn gen_params g key e kv o t) result_ok Err.
Proof.
  intros Ho Ht. unfold ephemeral_hit. rewrite Ht. simpl. eapply ok_try with (E' := fun _ => True).
  - eapply ok_bind; [apply ok_generate_from_clone, entry_handle_manager|]. intros out Hout.
    ok_step; [by eapply ok_event|]. ok_step; [by eapply ok_event|].
    ok_step; [by apply ok_record_metrics|]. ok_step. by split.
  - ok_step; [by apply (ok_index_op _ (TStale key))|]. by apply ok_full.
Qed.

Lemma ok_store g key scope c b t :
  keeps (store_prefix sha256_hex now uuid g key scope c kv b t) (fun _ => True) (fun _ => True).
Proof.
  unfold store_prefix. destruct (tp_stable_prefix_token_ids t) as [|i ids]; [by ok_step|].
  ok_step.
  { apply (ok_world _ _ _ _ _ (fun _ => True)). intros w Hw. split; [by apply prefill_closed|].
    by destruct (fst _). }
  ok_step; [by eapply ok_mono; [apply ok_put|..]|].
  ok_step; [by apply (ok_index_op _ (TReady key))|].
  ok_step; [by eapply ok_event|].
  destruct (sc_thread_id c) as [tid|]; [|by ok_step]. ok_step; [|by ok_step].
  by eapply (ok_index_op _ (TStoreTip now _ _ _ _ _ _)).
Qed.

Lemma ok_miss g key scope c o b t :
  obs_ok o ->
  keeps (ephemeral_miss sha256_hex now uuid generate_fn g key scope c kv o b t) result_ok Err.
Proof.
  intros Ho. unfold ephemeral_miss. ok_step; [by apply ok_full|]. ok_step; [by ok_step|].
  ok_step; [|by ok_step]. eapply ok_try; [apply ok_store | by ok_step].
Qed.

Definition continuation_ok (r : EphemeralResult + ThreadWakeObservation) : Prop :=
  match r with inl r => result_ok r /\ er_cache_hit r = true | inr o => obs_ok o end.

Lemma ok_continuation g tid b o t :
  obs_ok o ->
  keeps (try_session_continuation sha256_hex now uuid gen_params g tid kv b o t) continuation_ok Err.
Proof.
  intros Ho. unfold try_session_continuation. ok_step; [by ok_step|].
  ok_step; [by apply ok_index_read with (Q := fun _ => True)|].
  match goal with x : option ThreadTip |- _ => destruct x as [tip|] end; [|by ok_step]. ok_step.
  - ok_step; [by eapply (ok_index_op _ (TClearTip _ _ _))|]. by ok_step.
  - eapply ok_try with (E' := fun _ => True).
    + eapply ok_bind; [apply ok_generate_from_clone, tip_handle_manager|]. intros out Hout.
      ok_step; [by apply ok_record_metrics|].
      ok_step; [by eapply (ok_index_op _ (TStoreTip now _ _ _ _ _ _))|]. by ok_step.
    + ok_step; [by eapply (ok_index_op _ (TClearTip _ _ _))|]. by ok_step.
Qed.

Lemma ok_exact_prefix g key scope c o b t :
  obs_ok o -> tp_real_tokenization t = true ->
  keeps (execute_exact_prefix sha256_hex now uuid generate_fn gen_params g key scope c kv o b t) result_ok Err.
Proof.
  intros Ho Ht. unfold execute_exact_prefix. ok_step; [by eapply (ok_index_op _ (TGet now key c))|].
  match goal with x : option ThreadWakeIndexEntry |- _ => destruct x as [e|] end; [|by apply ok_miss].
  ok_step; [by apply ok_hit | by apply ok_miss].
Qed.

Lemma ok_execute r b rev quant tok tmpl :
  raw_ok (rq_threadwake r) -> kv = get_kv b backends ->
  (forall g, match ta_tokenize_prompt (get_tokenizer b tokenizers) g r (default "" (pg_model_id g)) with
             | Ret _ => True | Raise e => Err e end) ->
  keeps (execute_ephemeral sha256_hex repr_float env validate_config validate_metadata validate_meta
           backends tokenizers now uuid generate_fn gen_params r b rev quant tok tmpl) result_ok Err.
Proof.
  intros Hr Hkv Htok. unfold execute_ephemeral.
  eapply ok_bind; [apply ok_lift, (resolve_config_ok _ Hr) |]. intros config Hc.
  ok_step; [by apply ok_index_read with (Q := fun _ => True)|].
  eapply ok_bind; [apply ok_lift with (Q := fun _ => True), Htok|]. intros tokenized _.
  eapply ok_bind with (P := obs_ok); [apply ok_attach, policy_obs_ok, Hc|]. intros o Ho. rewrite <- Hkv.
  ok_step; [ok_step; [by apply ok_record_metrics | by apply ok_full]|].
  ok_step; [ok_step|]. destruct (_ || negb (tp_real_tokenization _)) eqn:Hreal.
  { assert (Ho' : forall x, obs_ok (if tp_real_tokenization x then o
      else set_kv_status (ob_backend_kv_capability o) false
             (Some (if str_truthy (tp_unavailable_reason x) then default "" (tp_unavailable_reason x)
                    else "real_tokenization_unavailable")) o)) by (intros x; by destruct (tp_real_tokenization x)).
    ok_step; [by apply ok_record_metrics | by apply ok_full]. }
  apply orb_false_iff in Hreal as [_ Hreal]. apply negb_false_iff in Hreal.
  destruct (sc_thread_id _) as [tid|]; [|by apply ok_exact_prefix].
  ok_step; [|by apply ok_exact_prefix].
  eapply ok_bind with (P := continuation_ok); [by apply ok_continuation|]. intros [res|o'] Hres.
  - ok_step. apply Hres.
  - by apply ok_exact_prefix.
Qed.
End parts.
