(* ===== verification/TWManagerProps.v ===== *)
(** * What the ThreadWake manager guarantees, and what its reuse does

    The reachable states keep balanced books and a well-formed index; an execution is
    served in full or from a clone, and fails only where its inputs fail; with the
    backends of the repository a reported reuse resumes from nothing (the fake backend)
    or never happens (MLX); and a continued session feeds only the newest message. *)

From S2P Require Import Prelude PyDict PyStr PySeq Config Contracts CapacityContext PyJson TWCompiler TWTokens TWProof TWIndex TWIndexSpec TWIndexProps KVLifecycle TWBackend TWManager TWManagerLogic.

(** ** Metrics *)

Definition METRIC_REASONS : list string :=
  ["eligible"; "threadwake_disabled"; "prompt_graph_missing"; "model_id_missing"; "backend_missing";
   "mode_not_supported"; "stable_prefix_contains_multimodal"; "stable_prefix_below_min_tokens";
   "scope_not_compatible"; "backend_unsupported"; "backend_unknown"; "backend_failure"; "other"].

(** Every label tuple the metrics can hold. *)
Definition LABELS : list metric_label :=
  list_prod (list_prod (list_prod (list_prod ["threadwake_hits_total"; "threadwake_misses_total"]
    (map ThreadWakeMode_value MODES_)) SCOPES) (CAPABILITIES ++ ["unknown"])) METRIC_REASONS.

Definition counter_of (key : string) (m : ThreadWakeMetrics) : Z := dget_or key 0%Z (mt_counters m).

Record metrics_ok (m : ThreadWakeMetrics) : Prop := {
  mk_keys : dkeys (mt_counters m) = COUNTERS;
  mk_total : (counter_of "threadwake_observations_total" m
              = counter_of "threadwake_eligible_total" m + counter_of "threadwake_ineligible_total" m)%Z;
  mk_eligible : (counter_of "threadwake_eligible_total" m
                 = counter_of "threadwake_cache_hits_total" m + counter_of "threadwake_cache_misses_total" m)%Z;
  mk_labels : (sumZ (dvalues (mt_labeled m)) = counter_of "threadwake_observations_total" m)%Z;
  mk_distinct : NoDup (dkeys (mt_labeled m));
  mk_bounded : Forall (fun l => l ∈ LABELS) (dkeys (mt_labeled m));
}.

Lemma coerce_reason_bounded r : coerce_reason r ∈ METRIC_REASONS.
Proof.
  assert (Hmap : Forall (fun p => snd p ∈ METRIC_REASONS) _REASON_MAP) by by apply (bool_decide_unpack _).
  assert (Hin : forall p, p ∈ _REASON_MAP -> snd p ∈ METRIC_REASONS) by by apply Forall_forall.
  unfold coerce_reason. destruct r as [r|]; [|by apply (bool_decide_unpack _)].
  destruct (dget r _REASON_MAP) as [v|] eqn:E; [by apply dget_Some_elem, Hin in E|].
  destruct (List.filter _ _) as [|[k v] l] eqn:F; [by apply (bool_decide_unpack _)|].
  assert (H : (k, v) ∈ (k, v) :: l) by apply list_elem_of_here.
  rewrite <- F in H. by apply elem_of_filter_List in H as [H _]; apply Hin in H.
Qed.

Lemma keys_count key n m : dkeys (mt_counters (count key n m)) = dkeys (mt_counters m).
Proof. apply dkeys_dupd. Qed.

Lemma counter_count key key' n m :
  dkeys (mt_counters m) = COUNTERS -> existsb (String.eqb key') COUNTERS = true ->
  counter_of key (count key' n m) = (counter_of key m + if String.eqb key key' then n else 0)%Z.
Proof.
  intros Hk Hin. unfold counter_of, count, dget_or. simpl. rewrite dget_dupd.
  destruct (String.eqb_spec key key') as [->|Hne]; case_decide; try done; [|lia].
  assert (Hs : is_Some (dget key' (mt_counters m))).
  { rewrite <- dkeys_dget, Hk. apply existsb_exists in Hin as (k & Hin & ->%String.eqb_eq).
    by apply list_elem_of_In. }
  destruct Hs as [v ->]. simpl. lia.
Qed.

Lemma labeled_count key n m : mt_labeled (count key n m) = mt_labeled m.
Proof. done. Qed.

Lemma elem_list_prod {A B} (x : A) (y : B) l k : x ∈ l -> y ∈ k -> (x, y) ∈ list_prod l k.
Proof. rewrite !list_elem_of_In. intros Hx Hy. by apply in_prod. Qed.

Lemma label_in outcome o reason :
  outcome ∈ ["threadwake_hits_total"; "threadwake_misses_total"] -> obs_ok o -> reason ∈ METRIC_REASONS ->
  (outcome, ThreadWakeMode_value (ob_mode o), ob_cache_scope o,
   (if str_truthy (ob_backend_kv_capability o) then default "" (ob_backend_kv_capability o) else "unknown"),
   reason) ∈ LABELS.
Proof.
  intros Ho [Hs Hc] Hr. repeat apply elem_list_prod; try done.
  - apply list_elem_of_fmap. exists (ob_mode o). split; [done|]. by destruct (ob_mode o); apply (bool_decide_unpack _).
  - apply elem_of_app. destruct (ob_backend_kv_capability o) as [c|]; simpl;
      [destruct (negb _)|]; [by left|right; by apply (bool_decide_unpack _)..].
Qed.

(** The labels after an increment. *)
Lemma inc_labeled_ok outcome o reason m :
  outcome ∈ ["hits"; "misses"] -> obs_ok o -> reason ∈ METRIC_REASONS ->
  NoDup (dkeys (mt_labeled m)) -> Forall (fun l => l ∈ LABELS) (dkeys (mt_labeled m)) ->
  let m' := inc_labeled outcome o reason m in
  mt_counters m' = mt_counters m /\ sumZ (dvalues (mt_labeled m')) = (sumZ (dvalues (mt_labeled m)) + 1)%Z
  /\ NoDup (dkeys (mt_labeled m')) /\ Forall (fun l => l ∈ LABELS) (dkeys (mt_labeled m')).
Proof.
  intros Hout Ho Hr Hn Hf m'. split; [done|]. unfold m', inc_labeled, dincr. simpl.
  split; [apply sumZ_dincr|]. split; [by apply dset_NoDup|].
  apply Forall_forall. intros l [-> | Hl]%dkeys_dset_elem; [|by eapply Forall_forall in Hf].
  apply label_in; [|done..].
  repeat (apply elem_of_cons in Hout as [-> | Hout]; [by apply (bool_decide_unpack _)|]).
  by apply elem_of_nil in Hout.
Qed.

Lemma counter_inc key outcome o reason m : counter_of key (inc_labeled outcome o reason m) = counter_of key m.
Proof. done. Qed.

Ltac in_counters := by apply (bool_decide_unpack _).

(** Evaluates the counters after increments. *)
Ltac eval_counters :=
  rewrite ?counter_inc;
  rewrite ?counter_count by (rewrite ?keys_count; done || reflexivity);
  cbn [String.eqb Ascii.eqb Bool.eqb].

Lemma metrics_record_ok o m : obs_ok o -> metrics_ok m -> metrics_ok (metrics_record o m).
Proof.
  intros Ho [Hk Ht He Hl Hd Hb]. unfold metrics_record. destruct (ob_eligible o).
  - set (m1 := if ob_cache_hit o then _ else _).
    assert (Hl1 : mt_labeled m1 = mt_labeled m) by (unfold m1; by destruct (ob_cache_hit o)).
    destruct (inc_labeled_ok "hits" o "eligible" m1) as (Hc & Hs & Hn & Hf);
      [in_counters|done|in_counters|by rewrite Hl1..|].
    rewrite Hl1 in Hs. split; [|rewrite ?Hs; unfold m1; destruct (ob_cache_hit o); eval_counters; lia..|done|done].
    rewrite Hc. unfold m1. destruct (ob_cache_hit o); by rewrite !keys_count.
  - set (m1 := count "threadwake_ineligible_total" 1 _).
    destruct (inc_labeled_ok "misses" o (coerce_reason (ob_reason o)) m1) as (Hc & Hs & Hn & Hf);
      [in_counters|done|by apply coerce_reason_bounded|done|done|].
    change (mt_labeled m1) with (mt_labeled m) in Hs.
    split; [|rewrite ?Hs; unfold m1; eval_counters; lia..|done|done].
    rewrite Hc. unfold m1. by rewrite !keys_count.
Qed.

Lemma record_eviction_ok n m : metrics_ok m -> metrics_ok (record_eviction n m).
Proof.
  intros [Hk Ht He Hl Hd Hb]. unfold record_eviction.
  split; [by rewrite keys_count | eval_counters; simpl; rewrite ?labeled_count; lia..| done | done].
Qed.

Lemma new_metrics_ok : metrics_ok new_metrics.
Proof. split; try reflexivity; [apply NoDup_nil_2 | by constructor]. Qed.

(** ** Reachable states *)

Lemma record_closed e o :
  ko_enabled o = false \/ (exists hist, represents o hist) ->
  exists o', record e o = Ret o' /\ (ko_enabled o' = false \/ exists hist, represents o' hist).
Proof.
  intros [Hd | [hist Hr]].
  - exists o. unfold record. rewrite Hd. auto.
  - destruct (record_represents e o hist Hr) as (o' & ? & ? & _). eauto.
Qed.

(** The observer is disabled or holds a history. *)
Definition observer_ok (o : KVLifecycleObserver) : Prop := ko_enabled o = false \/ exists hist, represents o hist.

Section reach.
Context {W : Type}.
Context (sha256_hex : string -> string) (repr_float : Q -> string) (env : environ).
Context (validate_config : pyval -> pyres ThreadWakeRequestConfig).
Context (validate_metadata : pyval -> option (list CodexifySegmentMeta)).
Context (validate_meta : pyval -> option CodexifySegmentMeta).
Context (backends : kv_registry W) (tokenizers : tokenizer_registry).

(** One call of the manager's interface, with any request, clock, uuids and result of
    the full generation, which does not touch the KV backends. *)
Inductive mstep : ManagerState W -> ManagerState W -> Prop :=
| step_observe now uuid r b rev quant tok tmpl s :
    raw_ok (rq_threadwake r) ->
    mstep s (snd (observe_request sha256_hex repr_float env validate_config validate_metadata validate_meta
                    backends tokenizers now uuid r b rev quant tok tmpl s))
| step_execute now uuid full params r b rev quant tok tmpl s :
    raw_ok (rq_threadwake r) ->
    mstep s (snd (execute_ephemeral sha256_hex repr_float env validate_config validate_metadata validate_meta
                    backends tokenizers now uuid (fun w => (full, w)) params r b rev quant tok tmpl s))
| step_has_ready now key s : mstep s (snd (has_ready_entry sha256_hex now key s))
| step_flush scope model_id scope_id s :
    mstep s (snd (runtime_threadwake_flush sha256_hex scope model_id scope_id s)).

Definition reachable : ManagerState W -> ManagerState W -> Prop := rtc mstep.

(** The parts of a state that has evolved from [x0]. *)
Definition index_history (x0 x : ThreadWakeIndex) : Prop :=
  index_wf x /\ exists ops, x = index_run sha256_hex ops x0.

Lemma index_history_step x0 op x : index_history x0 x -> index_history x0 (index_apply sha256_hex op x).
Proof.
  intros [Hwf [ops ->]]. split; [by apply index_apply_steps|]. exists (ops ++ [op]).
  unfold index_run. by rewrite fold_left_app.
Qed.

Definition state_ok (Iw : W -> Prop) (x0 : ThreadWakeIndex) : ManagerState W -> Prop :=
  inv metrics_ok (index_history x0) observer_ok Iw.

(** Every call keeps the invariants of the parts, and those of the backends' state that
    the backends keep on the handles the manager builds. *)
Lemma mstep_keeps (Iw : W -> Prop) (Cl : KVHandle -> Prop) x0 s s' :
  (forall v c, validate_config v = Ret c -> config_ok c) ->
  (forall b now uuid h w, manager_handle h -> Iw w ->
     Iw (snd (kb_clone_kv (get_kv b backends) uuid now h w))
     /\ forall c, fst (kb_clone_kv (get_kv b backends) uuid now h w) = Ret c -> Cl c) ->
  (forall b c tokens params w, Cl c -> Iw w ->
     Iw (snd (kb_generate_from_kv (get_kv b backends) c tokens params w))) ->
  (forall b now uuid tokens model w, Iw w ->
     Iw (snd (kb_prefill_to_kv (get_kv b backends) uuid now tokens model w))) ->
  mstep s s' -> state_ok Iw x0 s -> state_ok Iw x0 s'.
Proof.
  intros Hcfg Hcl Hgen Hpre Hstep Hs.
  assert (Hcfg' : forall v, match validate_config v with Ret c => config_ok c | Raise _ => True end).
  { intros v. destruct (validate_config v) eqn:E; [by eapply Hcfg|done]. }
  assert (Hm := metrics_record_ok). assert (Hi := index_history_step x0).
  assert (Hw : forall x, index_history x0 x -> index_wf x) by by intros x [? _].
  destruct Hstep as [????????? Hraw|?????????? s Hraw|now key s|?? scope_id s].
  - refine (proj1 (ok_observe _ _ _ _ _ _ _ _ _ _ _ _ _ _ (fun _ => True) Hm Hi Hw record_closed Hcfg'
                     _ _ _ _ _ _ Hraw _ Hs)).
  - refine (proj1 (ok_execute _ _ _ _ _ _ _ _ _ _ _ _ _ _ _ Iw (fun _ => True) Hm Hi Hw record_closed Hcfg'
                     (fun _ => True) (fun _ => True) Cl (get_kv b backends) _ _ _ _
                     _ _ _ _ _ _ Hraw eq_refl _ _ Hs)); eauto.
    + intros w ?. split; [done|]. by destruct full.
    + intros g. by destruct (ta_tokenize_prompt _ _ _ _).
  - assert (Hk : run_ok (state_ok Iw x0) (has_ready_entry sha256_hex now key) (fun _ => True) (fun _ => True)).
    { unfold has_ready_entry. destruct key as [k|]; [|by ok_step].
      ok_step; [|by ok_step]. by eapply ok_index_op with (op := TGet now k DEFAULT_SCOPE_CONTEXT). }
    by apply Hk.
  - assert (Hk : run_ok (state_ok Iw x0) (runtime_threadwake_flush sha256_hex scope model_id scope_id)
                   (fun _ => True) (fun _ => True)).
    { unfold runtime_threadwake_flush, flush_cache.
      ok_step; [ok_step; [by eapply ok_index_op with (op := TFlush _ _ _)|]|].
      - ok_step; [by apply ok_index_read with (Q := fun _ => True)|]. by apply ok_ret with (Q := fun _ => True).
      - ok_step; [apply ok_metrics; intros; by apply record_eviction_ok|]. by ok_step. }
    by apply Hk.
Qed.
End reach.

(** ** The books *)

Lemma labels_bound l : NoDup l -> Forall (fun x => x ∈ LABELS) l -> length l <= 4550.
Proof.
  intros Hn Hf. change 4550 with (length LABELS). apply submseteq_length, NoDup_submseteq; [done|].
  intros x Hx. by eapply Forall_forall in Hf.
Qed.

(** C40: The manager's books balance.  In every state the interface can reach from a fresh
    manager, every observation is counted as eligible or not, every eligible one as a hit
    or a miss, the labelled counters add up to the observations and number at most 4550,
    and the index is the result of a history of its own operations, so that the theorems
    about the index hold of the manager's. *)
Theorem manager_books_balance {W} sha256_hex repr_float env validate_config validate_metadata validate_meta
    (backends : kv_registry W) tokenizers w s :
  (forall v c, validate_config v = Ret c -> config_ok c) ->
  reachable sha256_hex repr_float env validate_config validate_metadata validate_meta backends tokenizers
    (init_manager env w) s ->
  let c key := counter_of key (ms_metrics s) in
  c "threadwake_observations_total" = (c "threadwake_eligible_total" + c "threadwake_ineligible_total")%Z
  /\ c "threadwake_eligible_total" = (c "threadwake_cache_hits_total" + c "threadwake_cache_misses_total")%Z
  /\ sumZ (dvalues (mt_labeled (ms_metrics s))) = c "threadwake_observations_total"
  /\ length (mt_labeled (ms_metrics s)) <= 4550
  /\ index_wf (ms_index s)
  /\ exists ops, ms_index s = index_run sha256_hex ops (default_index env).
Proof.
  intros Hcfg Hreach.
  assert (Hok : state_ok sha256_hex (fun _ => True) (default_index env) s).
  { revert Hreach. apply (rtc_ind_r (fun s => state_ok sha256_hex (fun _ => True) (default_index env) s)).
    - split; [apply new_metrics_ok|]. split; [|by split; [left|]].
      split; [apply new_index_wf | by exists []].
    - intros y z _ Hyz Hy. eapply (mstep_keeps _ _ _ _ _ _ _ _ _ (fun _ => True)); eauto. }
  destruct Hok as ([_ Ht He Hl Hd Hb] & [Hwf Hops] & _). split; [done|]. split; [done|]. split; [done|].
  split; [|by split]. rewrite <- (length_map fst). by apply labels_bound.
Qed.

(** ** What a reuse resumes from *)

(** No recorded generation resumed from a context, and no store key is empty. *)
Definition resumed_from_nothing (f : FakeKVBackend) : Prop :=
  Forall (fun call => fst (fst call) = 0%Z) (fk_generate_from_kv_calls f) /\ dget "" (fk_store f) = None.

Lemma manager_handle_no_store_key h : manager_handle h -> store_key_of h = "".
Proof.
  intros (k & a & id & Ho & Hk). unfold store_key_of, opaque_get. rewrite Ho. simpl.
  repeat (apply elem_of_cons in Hk as [-> | Hk]; [done|]). by apply elem_of_nil in Hk.
Qed.

Lemma fake_clone_key uuid now h f c :
  fst (fake_clone uuid now h f) = Ret c -> store_key_of c = store_key_of h.
Proof.
  intros [= <-]. unfold store_key_of, opaque_get. simpl. by destruct (kh_opaque_ref h) as [[|]|].
Qed.

Lemma prefill_key_nonempty model : "" <> model +:+ ":prefill".
Proof. by destruct model. Qed.

Lemma fake_generate_resumes c tokens params f :
  store_key_of c = "" -> resumed_from_nothing f -> resumed_from_nothing (snd (fake_generate c tokens params f)).
Proof.
  intros Hc [Hf Hs]. split; [|done]. simpl. apply Forall_app. split; [done|]. constructor; [|done].
  simpl. unfold fake_prefix_len. by rewrite Hc, Hs.
Qed.

(** Reuse with the fake backend is empty.  Whatever requests, tokenizers and operations,
    every generation the manager asks of the repository's fake KV backend resumes from
    no context at all: the handle it builds carries its own keys, not the reference the
    prefill returned. *)
Theorem fake_reuse_resumes_from_nothing sha256_hex repr_float env validate_config validate_metadata validate_meta
    backends tokenizers s :
  (forall v c, validate_config v = Ret c -> config_ok c) ->
  (forall b, get_kv b backends = FakeKVAdapter \/ get_kv b backends = NoOpKVBackendAdapter) ->
  reachable sha256_hex repr_float env validate_config validate_metadata validate_meta backends tokenizers
    (init_manager env new_fake) s ->
  Forall (fun call => fst (fst call) = 0%Z) (fk_generate_from_kv_calls (ms_world s)).
Proof.
  intros Hcfg Hback Hreach.
  assert (Hok : state_ok sha256_hex resumed_from_nothing (default_index env) s).
  { revert Hreach. apply (rtc_ind_r (fun s => state_ok sha256_hex resumed_from_nothing (default_index env) s)).
    - split; [apply new_metrics_ok|]. split; [split; [apply new_index_wf | by exists []]|].
      split; [by left|]. split; [by constructor|done].
    - intros y z _ Hyz Hy.
      eapply (mstep_keeps _ _ _ _ _ _ _ _ _ (fun c => store_key_of c = "")); [..|exact Hyz|exact Hy]; [done|..].
      + intros b now uuid h w Hh Hw. destruct (Hback b) as [-> | ->]; [|by split].
        split; [by destruct Hw|]. intros c Hc.
        apply (fake_clone_key uuid now h w) in Hc. by rewrite Hc, manager_handle_no_store_key.
      + intros b c tokens params w Hc Hw. destruct (Hback b) as [-> | ->]; [|done].
        by apply fake_generate_resumes.
      + intros b now uuid tokens model w [Hf Hs]. destruct (Hback b) as [-> | ->]; [|done].
        split; [done|]. simpl. rewrite dget_dset_ne by apply prefill_key_nonempty. done. }
  by destruct Hok as (_ & _ & _ & Hf & _).
Qed.

(** ** How an execution ends *)

Section outcomes.
Context {W : Type}.
Context (sha256_hex : string -> string) (repr_float : Q -> string) (env : environ).
Context (validate_config : pyval -> pyres ThreadWakeRequestConfig).
Context (validate_metadata : pyval -> option (list CodexifySegmentMeta)).
Context (validate_meta : pyval -> option CodexifySegmentMeta).
Context (backends : kv_registry W) (tokenizers : tokenizer_registry).
Context (now : Q) (uuid : nat -> string) (params : list (string * pyval)).

Local Abbreviation execute := (execute_ephemeral sha256_hex repr_float env validate_config validate_metadata
  validate_meta backends tokenizers now uuid) (only parsing).

(** The output of a generation from a clone of a handle the manager built. *)
Definition resumed_output (b : string) (output : list string) : Prop :=
  exists h c w0 w1 tokens, manager_handle h
    /\ fst (kb_clone_kv (get_kv b backends) (uuid 2) now h w0) = Ret c
    /\ fst (kb_generate_from_kv (get_kv b backends) c tokens params w1) = Ret output.

(** The exceptions of the inputs of an execution. *)
Definition input_error (generate_fn : W -> pyres (list string) * W) (b : string) (r : TWRequest) (e : pyexc) : Prop :=
  (exists v, validate_config v = Raise e)
  \/ (exists g, ta_tokenize_prompt (get_tokenizer b tokenizers) g r (default "" (pg_model_id g)) = Raise e)
  \/ exists w, fst (generate_fn w) = Raise e.

Lemma execute_outcome generate_fn r b rev quant tok tmpl (s : ManagerState W) :
  (forall v c, validate_config v = Ret c -> config_ok c) -> raw_ok (rq_threadwake r) ->
  index_wf (ms_index s) -> observer_ok (ms_observer s) ->
  let out := execute generate_fn params r b rev quant tok tmpl s in
  index_wf (ms_index (snd out))
  /\ match fst out with
     | Ret res =>
         if er_cache_hit res then resumed_output b (er_output_tokens res)
         else (exists w, fst (generate_fn w) = Ret (er_output_tokens res)) /\ er_matched_tokens res = 0%Z
     | Raise e => input_error generate_fn b r e
     end.
Proof.
  intros Hcfg Hraw Hwf Hobs.
  assert (Hcfg' : forall v, match validate_config v with Ret c => config_ok c
                            | Raise e => input_error generate_fn b r e end).
  { intros v. destruct (validate_config v) eqn:E; [by eapply Hcfg|]. left. eauto. }
  pose (Cl := fun c => exists h w0, manager_handle h /\ fst (kb_clone_kv (get_kv b backends) (uuid 2) now h w0) = Ret c).
  pose proof (ok_execute sha256_hex repr_float env validate_config validate_metadata validate_meta backends tokenizers
    now uuid generate_fn params (fun _ => True) index_wf observer_ok (fun _ => True)
    (input_error generate_fn b r) ltac:(done) ltac:(intros; by apply index_apply_steps) ltac:(done) record_closed Hcfg'
    (fun l => exists w, fst (generate_fn w) = Ret l) (resumed_output b) Cl (get_kv b backends)) as Hexec.
  destruct (fun H1 H2 H3 H4 H5 => Hexec H1 H2 H3 H4 r b rev quant tok tmpl Hraw eq_refl H5 s) as [Hi Hr].
  - intros w _. split; [done|]. destruct (fst (generate_fn w)) eqn:E; [by exists w | right; right; by exists w].
  - intros h w Hh _. split; [done|]. intros c Hc. by exists h, w.
  - intros c tokens w (h & w0 & Hh & Hc) _. split; [done|]. intros l Hl. by exists h, c, w0, w, tokens.
  - done.
  - intros g. destruct (ta_tokenize_prompt _ _ _ _) eqn:E; [done|]. right; left. by exists g.
  - split; [done|]. split; [done|]. by split.
  - split; [apply Hi|]. destruct (fst (execute _ _ _ _ _ _ _ _ _)); [|done]. destruct Hr as [_ Hr].
    by destruct (er_cache_hit a).
Qed.

(** C39: Executions fail safe and never mix sources.  Whatever the KV backend does, an execution
    raises only what the validation of the configuration, the tokenizer or the full
    generation raised; otherwise its output is exactly what the full generation returned,
    with no tokens reported as reused, or exactly what the backend generated from a clone
    of a handle the manager built; and the index stays well formed. *)
Theorem execution_is_full_or_resumed generate_fn r b rev quant tok tmpl (s : ManagerState W) :
  (forall v c, validate_config v = Ret c -> config_ok c) -> raw_ok (rq_threadwake r) ->
  index_wf (ms_index s) -> observer_ok (ms_observer s) ->
  let out := execute generate_fn params r b rev quant tok tmpl s in
  index_wf (ms_index (snd out))
  /\ match fst out with
     | Ret res =>
         if er_cache_hit res then resumed_output b (er_output_tokens res)
         else (exists w, fst (generate_fn w) = Ret (er_output_tokens res)) /\ er_matched_tokens res = 0%Z
     | Raise e => input_error generate_fn b r e
     end.
Proof. apply execute_outcome. Qed.

Local Abbreviation bridge := (execute_ephemeral_chat_completion sha256_hex repr_float env validate_config
  validate_metadata validate_meta backends tokenizers now uuid) (only parsing).

Lemma bridge_outcome r b rev quant tok tmpl (s : ManagerState W) resp :
  (forall v c, validate_config v = Ret c -> config_ok c) -> raw_ok (rq_threadwake r) ->
  index_wf (ms_index s) -> observer_ok (ms_observer s) ->
  fst (bridge r b rev quant tok tmpl params s) = Ret (Some resp) ->
  exists output, resumed_output b output
    /\ ca_text resp = (if String.eqb (String.concat "" output) "" then "[ThreadWake cached response]"
                       else String.concat "" output)
    /\ Some (ca_model resp) = rq_model r.
Proof.
  intros Hcfg Hraw Hwf Hobs. unfold execute_ephemeral_chat_completion.
  destruct (resolve_config _ _ _) as [config|e]; [|done].
  repeat (destruct (bool_decide _) || destruct (negb _)); try done.
  all: pose proof (execute_outcome sync_gen r b rev quant tok tmpl s Hcfg Hraw Hwf Hobs) as [_ Ho];
    destruct (execute _ _ _ _ _ _ _ _ s) as [[res|e] s']; simpl in *; [|done];
    destruct (er_cache_hit res); [|done]; intros [= Hresp]; exists (er_output_tokens res); split; [done|];
    unfold cached_response in Hresp; destruct (rq_model r) as [model|]; [|done];
    destruct (prompt_text _) as [prompt|]; [|done]; simpl in Hresp; by injection Hresp as <-.
Qed.

(** MLX never serves from the cache.  With the repository's MLX adapter, whatever MLX
    supports and whatever the index and the tips hold, every execution is served by the
    full generation and the bridge never answers: cloning is not implemented, so every
    attempt at reuse fails and falls back. *)
Theorem mlx_reuse_never_serves m generate_fn r b rev quant tok tmpl (s : ManagerState W) :
  (forall v c, validate_config v = Ret c -> config_ok c) -> raw_ok (rq_threadwake r) ->
  index_wf (ms_index s) -> observer_ok (ms_observer s) ->
  get_kv b backends = MLXKVBackendAdapter m ->
  (forall res, fst (execute generate_fn params r b rev quant tok tmpl s) = Ret res ->
     er_cache_hit res = false /\ exists w, fst (generate_fn w) = Ret (er_output_tokens res))
  /\ forall resp, fst (bridge r b rev quant tok tmpl params s) <> Ret (Some resp).
Proof.
  intros Hcfg Hraw Hwf Hobs Hmlx.
  assert (Hno : forall output, ~ resumed_output b output).
  { intros output (h & c & w0 & w1 & tokens & _ & Hc & _). by rewrite Hmlx in Hc. }
  split.
  - intros res Hres. destruct (execute_outcome generate_fn r b rev quant tok tmpl s Hcfg Hraw Hwf Hobs) as [_ Ho].
    rewrite Hres in Ho. destruct (er_cache_hit res); [by apply Hno in Ho | by destruct Ho].
  - intros resp Hresp. destruct (bridge_outcome r b rev quant tok tmpl s resp Hcfg Hraw Hwf Hobs Hresp) as (o & Ho & _).
    by apply Hno in Ho.
Qed.
End outcomes.

(** Readiness is reported for open scopes only.  [has_ready_entry] answers true exactly
    when the key is stored, ready, and filed with request scope or an allowed global one: it
    looks the key up in an empty context, so an entry of the default thread scope, or of a
    user or project, is never reported; and every question is itself counted as a lookup. *)
Theorem ready_reported_for_open_scopes_only {W} sha256_hex now key (s : ManagerState W) :
  let '(answer, s') := has_ready_entry sha256_hex now (Some key) s in
  (answer = Ret true <-> exists e, dget key (tx_entries (ms_index s)) = Some e /\ te_status e = READY
     /\ (te_scope e = "request" \/ (te_scope e = "global" /\ tx_allow_global (ms_index s) = true)))
  /\ (answer = Ret true \/ answer = Ret false)
  /\ (tx_hits (ms_index s') + tx_misses (ms_index s')
      = tx_hits (ms_index s) + tx_misses (ms_index s) + 1)%Z.
Proof.
  unfold has_ready_entry, bind, with_index, index_get, ret.
  destruct (dget key (tx_entries (ms_index s))) as [e|] eqn:Hk; simpl.
  2:{ split; [|split; [by right|lia]]. split; [done|]. by intros (? & ? & _). }
  assert (Hm : scope_matches sha256_hex (ms_index s) e DEFAULT_SCOPE_CONTEXT = true <->
    te_scope e = "request" \/ (te_scope e = "global" /\ tx_allow_global (ms_index s) = true)).
  { unfold scope_matches. destruct (String.eqb_spec (te_scope e) "request") as [E|E]; [by split; [left|]|].
    destruct (String.eqb_spec (te_scope e) "global") as [E'|E']; [naive_solver|].
    repeat destruct (String.eqb _ _); simpl; naive_solver. }
  destruct (decide (te_status e = EVICTED)) as [Ev|Ev]; simpl.
  { split; [|split; [by right|lia]]. split; [done|]. intros (? & [= <-] & ? & _). congruence. }
  destruct (scope_matches _ _ _ _) eqn:Hs; simpl.
  2:{ split; [|split; [by right|lia]]. split; [done|]. intros (? & [= <-] & _ & H). by apply Hm in H. }
  destruct (decide (te_status e = STALE)) as [Est|Est]; simpl.
  { split; [|split; [by right|lia]]. split; [done|]. intros (? & [= <-] & ? & _). congruence. }
  split; [|split; [by case_bool_decide; [left|right]|lia]].
  split; [intros [= H%bool_decide_eq_true] | intros (? & [= <-] & H & _); by rewrite bool_decide_true].
  exists e. split; [done|]. split; [done|]. by apply Hm.
Qed.

(** ** A session of two turns *)

Definition demo_env : environ :=
  [("WHOOSHD_THREADWAKE_ENABLED", "true"); ("WHOOSHD_THREADWAKE_MODE", "session");
   ("WHOOSHD_THREADWAKE_MIN_PREFIX_TOKENS", "0")].

Definition demo_message (role text : string) : ChatMessage := mkMessage role (PStr text) None PNone None.

Definition demo_request (messages : list ChatMessage) : TWRequest :=
  mkTWRequest messages (Some "m") PNone PNone ConfigMissing RawMissing (Some "thread-1") None None.

Definition turn1 : TWRequest := demo_request [demo_message "system" "be brief"; demo_message "user" "first question"].

Definition turn2 : TWRequest :=
  demo_request [demo_message "system" "be brief"; demo_message "user" "first question";
                demo_message "assistant" "answer"; demo_message "user" "next"].

(** A tokenizer that gives every segment one token, the length of its content hash. *)
Definition demo_ids (p : PromptSegment -> bool) (g : PromptGraph) : list Z :=
  map (fun seg => Z.of_nat (String.length (ps_content_hash seg))) (List.filter p (pg_segments g)).

Definition demo_tokenizer : TokenizerAdapter :=
  mkTokenizerAdapter TOKEN_IDS (fun g _ m =>
    Ret (Some (mkTokenized m "b" None None (demo_ids (fun _ => true) g) (demo_ids ps_in_stable_prefix g)
                 (demo_ids (fun seg => negb (ps_in_stable_prefix seg)) g) [] 0 0 true None))).

(** A backend that keeps the context of every handle under the handle's id, finds it again
    by the id the manager passes, and answers with the whole context it was given. *)
Definition echo_backend : KVAdapter (list (string * list string)) :=
  mkKVAdapter (fun _ => CLONEABLE)
    (fun uuid now tokens model w =>
       let h := make_handle uuid now "b" model (Z.of_nat (length tokens)) [] (Some []) in
       (Ret h, dset (kh_id h) tokens w))
    (fun h tokens _ w =>
       (match opaque_get "handle_id" h with
        | Some (OStr (Some id)) =>
            match dget id w with Some context => Ret (context ++ tokens) | None => Raise (RuntimeError "no context") end
        | _ => Raise (RuntimeError "no handle")
        end, w))
    (fun uuid now h w => (Ret h, w))
    (fun h w => (h, w)).

Definition demo_config (v : pyval) : pyres ThreadWakeRequestConfig := Raise (ValueError "invalid").

Definition demo_uuid (i : nat) : string := "uuid" +:+ pretty (Z.of_nat i).

Definition demo_full {W} (w : W) : pyres (list string) * W := (Ret ["full"], w).

Definition demo_run {W} (kv : KVAdapter W) (r : TWRequest) (s : ManagerState W)
    : pyres EphemeralResult * ManagerState W :=
  execute_ephemeral demo_sha (fun _ => "") demo_env demo_config (fun _ => None) (fun _ => None)
    [("b", kv)] [("b", demo_tokenizer)] 0 demo_uuid demo_full [] r "b" None None None None s.

Definition demo_graph (r : TWRequest) : PromptGraph :=
  compile_graph demo_sha (fun _ => "") (fun _ => None) (fun _ => None) r (Some "b") None None "thread" false.

(** A continued session loses its middle.  The tip of a thread keeps the handle of the
    first turn, which covers only that turn's stable prefix, and a continuation feeds only
    the newest dynamic message: on the second turn the backend generates from the system
    message and the new question, without the first question and its answer, although
    the prompt has all four messages and the result reports the first two as reused.  Even
    flushing the whole cache leaves the tip, so the next turn continues from it again. *)
Theorem continued_session_loses_its_middle :
  let s1 := snd (demo_run echo_backend turn1 (init_manager demo_env [])) in
  let '(out, s2) := demo_run echo_backend turn2 s1 in
  let '(flushed, s3) := flush_cache demo_sha None None None s2 in
  let ids := map pretty (demo_ids (fun _ => true) (demo_graph turn2)) in
  match out with
  | Ret res =>
      er_cache_hit res = true /\ md_mode (er_metadata res) = Some "session"
      /\ length ids = 4
      /\ (exists system first answer next, ids = [system; first; answer; next]
            /\ er_output_tokens res = [system; next])
      /\ er_matched_tokens res = sumZ (map ps_token_count (take 2 (pg_segments (demo_graph turn2))))
  | Raise _ => False
  end
  /\ flushed = Ret (1, 0)%Z
  /\ match fst (demo_run echo_backend turn2 s3) with
     | Ret res => er_cache_hit res = true /\ md_mode (er_metadata res) = Some "session"
     | Raise _ => False
     end.
Proof.
  vm_compute. split; [|by split]. split; [done|]. split; [done|]. split; [done|]. split; [|done].
  by eexists _, _, _, _.
Qed.

Lemma demo_config_ok v c : demo_config v = Ret c -> config_ok c.
Proof. done. Qed.

Definition demo_fake0 : ManagerState FakeKVBackend := init_manager demo_env new_fake.
Definition demo_fake1 : ManagerState FakeKVBackend := snd (demo_run FakeKVAdapter turn1 demo_fake0).
Definition demo_fake2 : ManagerState FakeKVBackend := snd (demo_run FakeKVAdapter turn2 demo_fake1).

Lemma demo_fake_reachable :
  reachable demo_sha (fun _ => "") demo_env demo_config (fun _ => None) (fun _ => None)
    [("b", FakeKVAdapter)] [("b", demo_tokenizer)] demo_fake0 demo_fake2.
Proof.
  unfold reachable. apply rtc_l with demo_fake1; [|apply rtc_l with demo_fake2; [|apply rtc_refl]].
  - by apply (step_execute _ _ _ _ _ _ _ _ 0 demo_uuid (Ret ["full"]) [] turn1 "b" None None None None).
  - by apply (step_execute _ _ _ _ _ _ _ _ 0 demo_uuid (Ret ["full"]) [] turn2 "b" None None None None).
Qed.

Lemma manager_books_balance_witness :
  counter_of "threadwake_observations_total" (ms_metrics demo_fake2) = 2%Z
  /\ counter_of "threadwake_eligible_total" (ms_metrics demo_fake2)
     = (counter_of "threadwake_cache_hits_total" (ms_metrics demo_fake2)
        + counter_of "threadwake_cache_misses_total" (ms_metrics demo_fake2))%Z.
Proof.
  split; [vm_compute; reflexivity|].
  pose proof (manager_books_balance demo_sha (fun _ => "") demo_env demo_config (fun _ => None) (fun _ => None)
    [("b", FakeKVAdapter)] [("b", demo_tokenizer)] new_fake demo_fake2 demo_config_ok demo_fake_reachable) as H.
  cbv zeta in H. destruct H as (_ & H & _). exact H.
Defined.

(** The second turn is reported as a hit, and its only generation resumed from nothing. *)
Lemma fake_reuse_resumes_from_nothing_witness :
  match fst (demo_run FakeKVAdapter turn2 demo_fake1) with
  | Ret res => er_cache_hit res = true /\ (0 < er_matched_tokens res)%Z
  | Raise _ => False
  end
  /\ length (fk_generate_from_kv_calls (ms_world demo_fake2)) = 1
  /\ Forall (fun call => fst (fst call) = 0%Z) (fk_generate_from_kv_calls (ms_world demo_fake2)).
Proof.
  split; [vm_compute; by split|]. split; [vm_compute; reflexivity|].
  apply (fake_reuse_resumes_from_nothing demo_sha (fun _ => "") demo_env demo_config (fun _ => None) (fun _ => None)
           [("b", FakeKVAdapter)] [("b", demo_tokenizer)] demo_fake2 demo_config_ok); [|apply demo_fake_reachable].
  intros b. unfold get_kv, dget_or. simpl. case_decide; [by left | by right].
Defined.

Definition demo_echo0 : ManagerState (list (string * list string)) := init_manager demo_env [].

Lemma demo_echo0_wf : index_wf (ms_index demo_echo0).
Proof. apply new_index_wf. Qed.

Lemma demo_echo0_observer : observer_ok (ms_observer demo_echo0).
Proof. by left. Qed.

Lemma execution_is_full_or_resumed_witness :
  match fst (demo_run echo_backend turn1 demo_echo0) with
  | Ret res => er_cache_hit res = false
  | Raise _ => False
  end
  /\ index_wf (ms_index (snd (demo_run echo_backend turn1 demo_echo0))).
Proof.
  split; [vm_compute; reflexivity|]. unfold demo_run.
  pose proof (execution_is_full_or_resumed demo_sha (fun _ => "") demo_env demo_config (fun _ => None) (fun _ => None)
    [("b", echo_backend)] [("b", demo_tokenizer)] 0 demo_uuid [] demo_full turn1 "b"
    None None None None demo_echo0 demo_config_ok I demo_echo0_wf demo_echo0_observer) as H.
  cbv zeta in H. destruct H as [H _]. exact H.
Defined.

(** MLX with everything it needs. *)
Definition demo_mlx : @MLXRuntime (list (string * list string)) :=
  mkMLXRuntime true true true true (fun _ w => (Ret 0, w)) (fun _ _ _ w => (Ret ["text"], w)).

Definition demo_mlx1 : ManagerState (list (string * list string)) :=
  snd (demo_run (MLXKVBackendAdapter demo_mlx) turn1 demo_echo0).

Lemma demo_run_wf {W} (kv : KVAdapter W) r s :
  raw_ok (rq_threadwake r) -> index_wf (ms_index s) -> observer_ok (ms_observer s) ->
  index_wf (ms_index (snd (demo_run kv r s))).
Proof. intros. by apply execute_outcome; [apply demo_config_ok|..]. Qed.

Lemma demo_mlx1_wf : index_wf (ms_index demo_mlx1).
Proof. apply demo_run_wf; [done | apply demo_echo0_wf | by left]. Qed.

Lemma demo_mlx1_observer : observer_ok (ms_observer demo_mlx1).
Proof. left. vm_compute. reflexivity. Qed.

Lemma mlx_reuse_never_serves_witness :
  (length (tx_entries (ms_index demo_mlx1)) = 1 /\ length (tx_tips (ms_index demo_mlx1)) = 1)
  /\ forall resp, fst (execute_ephemeral_chat_completion demo_sha (fun _ => "") demo_env demo_config (fun _ => None)
       (fun _ => None) [("b", MLXKVBackendAdapter demo_mlx)] [("b", demo_tokenizer)] 0 demo_uuid turn2 "b"
       None None None None [] demo_mlx1) <> Ret (Some resp).
Proof.
  split; [split; vm_compute; reflexivity|].
  exact (proj2 (mlx_reuse_never_serves demo_sha (fun _ => "") demo_env demo_config (fun _ => None)
    (fun _ => None) [("b", MLXKVBackendAdapter demo_mlx)] [("b", demo_tokenizer)] 0 demo_uuid [] demo_mlx
    demo_full turn2 "b" None None None None demo_mlx1 demo_config_ok I demo_mlx1_wf demo_mlx1_observer eq_refl)).
Defined.
