(* ===== verification/Forward.v ===== *)
(** * Forwarding to the sidecar servers ([http_forwarding.py], handlers of [app.py])

    The llama.cpp, MLX-LM and MLX-VLM adapters forward a chat request to an HTTP
    server.  This file builds the forwarded body, classifies every upstream answer and
    every transport failure into a typed error, reads the event stream, and renders an
    error for the client as [app.py] does.

    The HTTP client ([httpx]) and the validation of a response or chunk by pydantic are
    parameters; an exception is given by its class name and its text. *)

From S2P Require Import Prelude PyDict PyStr PyRe Contracts Correlation ControlPlane CapacityController RequestPolicy LogSafety.
From Stdlib Require Import Ascii.

Open Scope string_scope.

(** [type(exc).__name__] and [str(exc)] *)
Definition exn_info : Type := string * string.

(** [s[n:]] *)
Definition str_drop (n : nat) (s : string) : string :=
  String.substring n (String.length s - n) s.

(** ** Headers *)

Definition _SAFE_REQUEST_HEADERS : list string :=
  ["authorization"; "content-type"; "accept"; "accept-encoding"].

Definition _HOP_BY_HOP_HEADERS : list string :=
  ["connection"; "keep-alive"; "proxy-authenticate"; "proxy-authorization"; "te"; "trailers";
   "transfer-encoding"; "upgrade"].

Definition safe_header (k : string) : bool :=
  mem (lower k) _SAFE_REQUEST_HEADERS && negb (mem (lower k) _HOP_BY_HOP_HEADERS).

Definition filter_safe_headers (headers : option (list (string * string))) : list (string * string) :=
  match headers with
  | None => []
  | Some h => List.filter (fun kv => safe_header kv.1) h
  end.

(** ** The forwarded body *)

(** An attribute of a request or of a message. *)
Definition attr (name : string) (d : list (string * pyval)) : pyval := default PNone (dget name d).

(** A message is the dictionary of its attributes. *)
Definition message_attr (name : string) (m : pyval) : pyval :=
  match m with PDict d => attr name d | _ => PNone end.

Definition maybe_set (key : string) (value : pyval) (allowed : list string)
    (d : list (string * pyval)) : list (string * pyval) :=
  if negb (is_none value) && mem key allowed then dset key value d else d.

(** [d[key] = value] for a [value] that is not [None]. *)
Definition set_unless_none (key : string) (value : pyval) (d : list (string * pyval)) : list (string * pyval) :=
  if is_none value then d else dset key value d.

Definition serialize_message (m : pyval) : pyval :=
  let d := [("role", message_attr "role" m); ("content", message_attr "content" m)] in
  let d := if truthy (message_attr "name" m) then dset "name" (message_attr "name" m) d else d in
  let d := set_unless_none "tool_calls" (message_attr "tool_calls" m) d in
  PDict (set_unless_none "tool_call_id" (message_attr "tool_call_id" m) d).

(** The optional fields, in the order the builder visits them. *)
Definition OPTIONAL_FIELDS : list string :=
  ["temperature"; "top_p"; "max_tokens"; "max_completion_tokens"; "stop"; "user"; "tools";
   "tool_choice"; "parallel_tool_calls"; "response_format"; "seed"; "presence_penalty";
   "frequency_penalty"; "logit_bias"; "logprobs"; "top_logprobs"; "reasoning_effort"].

Definition list_of (v : pyval) : list pyval := match v with PList l => l | _ => [] end.

Definition body_of (request : BackendChatRequest) (model_override : option string) : list (string * pyval) :=
  let field name := attr name (br_values request) in
  let body :=
    [("model", match model_override with
               | Some m => if String.eqb m "" then field "model" else PStr m
               | None => field "model"
               end);
     ("messages", PList (map serialize_message (list_of (field "messages"))));
     ("stream", field "stream")] in
  let body := foldl (fun b key => maybe_set key (field key) (br_forwarded request) b) body OPTIONAL_FIELDS in
  foldl (fun b '(key, value) => set_unless_none key value b) body (br_extra_fields request).

Definition build_forward_body (request : IngressRequest + BackendChatRequest)
    (model_override adapter_kind : option string) : BackendRequestPolicyError + list (string * pyval) :=
  match ensure_backend_chat_request request adapter_kind with
  | inl e => inl e
  | inr b => inr (body_of b model_override)
  end.

(** ** Errors *)

Inductive UpstreamClass :=
| UpstreamConnectionError | UpstreamTimeoutError | UpstreamBadRequest | RuntimeModelNotFound
| RuntimeWarming | RuntimeUnavailable | RuntimeTimeout | RuntimeBadRequest | RuntimeUpstreamError
| StreamInterrupted | UpstreamHTTPError | RuntimeOverloaded.

#[export] Instance UpstreamClass_eq_dec : EqDecision UpstreamClass.
Proof. solve_decision. Defined.

Definition UpstreamClass_name (c : UpstreamClass) : string :=
  match c with
  | UpstreamConnectionError => "UpstreamConnectionError"
  | UpstreamTimeoutError => "UpstreamTimeoutError"
  | UpstreamBadRequest => "UpstreamBadRequest"
  | RuntimeModelNotFound => "RuntimeModelNotFound"
  | RuntimeWarming => "RuntimeWarming"
  | RuntimeUnavailable => "RuntimeUnavailable"
  | RuntimeTimeout => "RuntimeTimeout"
  | RuntimeBadRequest => "RuntimeBadRequest"
  | RuntimeUpstreamError => "RuntimeUpstreamError"
  | StreamInterrupted => "StreamInterrupted"
  | UpstreamHTTPError => "UpstreamHTTPError"
  | RuntimeOverloaded => "RuntimeOverloaded"
  end.

(** The [error_code] of the class. *)
Definition class_code (c : UpstreamClass) : ErrorCode :=
  match c with
  | UpstreamConnectionError => UPSTREAM_UNAVAILABLE
  | UpstreamTimeoutError => UPSTREAM_TIMEOUT
  | UpstreamBadRequest | RuntimeBadRequest => UNSUPPORTED_FIELD
  | RuntimeModelNotFound => MODEL_NOT_FOUND
  | RuntimeWarming => MODEL_WARMING
  | RuntimeUnavailable => RUNTIME_UNAVAILABLE
  | RuntimeTimeout => TIMEOUT
  | StreamInterrupted => STREAM_INTERRUPTED
  | RuntimeOverloaded => RUNNER_OVERLOADED
  | RuntimeUpstreamError | UpstreamHTTPError => UPSTREAM_PROTOCOL_ERROR
  end.

(** The [http_status] the class's constructor passes on, or its default. *)
Definition class_status (c : UpstreamClass) : Z :=
  match c with
  | UpstreamConnectionError | RuntimeUnavailable => 503
  | UpstreamTimeoutError | RuntimeTimeout => 504
  | UpstreamBadRequest | RuntimeBadRequest => 400
  | RuntimeModelNotFound => 404
  | RuntimeWarming => 425
  | RuntimeOverloaded => 429
  | RuntimeUpstreamError | StreamInterrupted | UpstreamHTTPError => 502
  end.

Record UpstreamError := mkUpstreamError {
  ue_class : UpstreamClass;
  ue_message : string;
  ue_http_status : Z;
  ue_detail : option (list (string * pyval));
  ue_error_code : ErrorCode;
}.

(** [Class(message, detail=detail)] *)
Definition upstream_error (c : UpstreamClass) (message : string) (detail : option (list (string * pyval)))
    : UpstreamError :=
  mkUpstreamError c message (class_status c) detail (class_code c).

(** [UpstreamHTTPError(message, status_code, detail, error_code)] *)
Definition upstream_http_error (message : string) (status_code : Z) (detail : option (list (string * pyval)))
    (code : ErrorCode) : UpstreamError :=
  mkUpstreamError UpstreamHTTPError message status_code detail code.

(** How a forwarding fails: [httpx] is missing, the request is refused by the backend
    policy, or an upstream error is raised. *)
Inductive forward_error :=
| MissingHttpx
| PolicyError (e : BackendRequestPolicyError)
| Upstream (e : UpstreamError).

Definition endpoint_kind (endpoint : string) : string :=
  let path := lower (rstrip_slash endpoint) in
  if endswith "/chat/completions" path then "chat_completions"
  else if endswith "/generate" path then "generate"
  else "other".

(** ** Upstream answers *)

(** [_byte_count]: the length of bytes or of an encoded [str]; anything else counts 0. *)
Inductive payload := PayloadBytes (n : nat) | PayloadText (s : string) | PayloadOther.

Definition byte_count (value : payload) : Z :=
  match value with
  | PayloadBytes n => Z.of_nat n
  | PayloadText s => Z.of_nat (String.length s)
  | PayloadOther => 0
  end.

Section forwarding.
Context {R C : Type}.
Context (urlsplit : string -> option split_url).
Context (httpx_installed : bool).

(** A complete response; [hr_parsed] is what [resp.json()] and the validation of
    [ChatCompletionResponse] give. *)
Record HttpResponse := mkHttpResponse {
  hr_status_code : Z;
  hr_content : payload;
  hr_text : payload;
  hr_content_type : option string;
  hr_parsed : exn_info + R;
}.

Definition content_type_label (content_type : option string) : pyval :=
  match content_type with
  | Some t => if String.eqb t "" then PNone
              else PStr (str_take 80 (default "" (head (split_on ";" t))))
  | None => PNone
  end.

Definition upstream_metadata (status_code body_bytes : Z) (content_type : option string)
    : list (string * pyval) :=
  [("upstream_status", PInt status_code); ("http_status", PInt status_code);
   ("body_bytes", PInt body_bytes); ("body_present", PBool (negb (body_bytes =? 0)%Z));
   ("content_type", content_type_label content_type)].

Definition safe_upstream_body (resp : HttpResponse) : list (string * pyval) :=
  let n := byte_count (hr_content resp) in
  let n := if (n =? 0)%Z then byte_count (hr_text resp) else n in
  upstream_metadata (hr_status_code resp) n (hr_content_type resp).

Definition classify_request_exception (exc : exn_info) (server_url : string) (timeout : Q) : UpstreamError :=
  let exc_name := lower exc.1 in
  let exc_msg := lower exc.2 in
  let metadata := [("failure_class", PStr (failure_class (Some exc)));
                   ("endpoint", PStr (safe_url urlsplit server_url));
                   ("timeout_seconds", PFloat timeout)] in
  if contains "connect" exc_name || contains "connection" exc_msg then
    upstream_error UpstreamConnectionError "Upstream server is not reachable." (Some metadata)
  else if contains "readtimeout" exc_name || contains "timeout" exc_name || contains "timeout" exc_msg then
    upstream_error UpstreamTimeoutError "Upstream server timed out." (Some metadata)
  else
    upstream_http_error "Unexpected upstream transport failure" 502 (Some metadata) UPSTREAM_PROTOCOL_ERROR.

(** ** Non-streaming requests *)

Definition unparsable_response (resp : HttpResponse) (exc : exn_info) : UpstreamError :=
  upstream_http_error "Upstream returned an unparsable successful response" 502
    (Some [("failure_class", PStr (failure_class (Some exc))); ("http_status", PInt 200);
           ("body_bytes", PInt (byte_count (hr_content resp)));
           ("body_present", PBool (negb (byte_count (hr_content resp) =? 0)%Z));
           ("content_type", PStr (str_take 80 (default "" (hr_content_type resp))))])
    MALFORMED_UPSTREAM_RESPONSE.

Definition classify_response (resp : HttpResponse) : UpstreamError + R :=
  let status := hr_status_code resp in
  if (status =? 200)%Z then
    match hr_parsed resp with
    | inr data => inr data
    | inl exc => inl (unparsable_response resp exc)
    end
  else if (status =? 400)%Z then
    inl (upstream_error UpstreamBadRequest ("Upstream rejected request: " +:+ pretty status)
           (Some (safe_upstream_body resp)))
  else if (status =? 404)%Z then
    inl (upstream_error RuntimeModelNotFound "Model not found on upstream server" None)
  else if (status =? 408)%Z || (status =? 504)%Z then
    inl (upstream_error UpstreamTimeoutError ("Upstream server reported timeout: " +:+ pretty status)
           (Some (safe_upstream_body resp)))
  else if (status =? 429)%Z then
    inl (upstream_error RuntimeWarming "Upstream is not ready; model may be loading."
           (Some (safe_upstream_body resp)))
  else
    inl (upstream_http_error ("Upstream returned " +:+ pretty status) 502
           (Some (safe_upstream_body resp)) UPSTREAM_PROTOCOL_ERROR).

Definition forward_url (server_url endpoint : string) : string := rstrip_slash server_url +:+ endpoint.

(** [client.post(url, json=body, headers=...)]: a transport failure or a response. *)
Definition forward_non_streaming
    (post : string -> list (string * pyval) -> list (string * string) -> exn_info + HttpResponse)
    (server_url : string) (request : IngressRequest + BackendChatRequest) (endpoint : string) (timeout : Q)
    (headers : option (list (string * string))) (model_override adapter_kind : option string)
    : forward_error + R :=
  if negb httpx_installed then inl MissingHttpx
  else
    match build_forward_body request model_override adapter_kind with
    | inl e => inl (PolicyError e)
    | inr body =>
        let safe_req_headers := dset "Content-Type" "application/json" (filter_safe_headers headers) in
        match post (forward_url server_url endpoint) body safe_req_headers with
        | inl exc => inl (Upstream (classify_request_exception exc server_url timeout))
        | inr resp =>
            match classify_response resp with
            | inl e => inl (Upstream e)
            | inr data => inr data
            end
        end
    end.

(** ** Streaming requests *)

(** An open stream: its status and headers, the size of an error body (or that it
    cannot be read), the lines in order of arrival, each with what the cancellation
    token says when the line is looked at, and how the line iterator ends. *)
Record StreamResponse := mkStreamResponse {
  st_status_code : Z;
  st_content_type : option string;
  st_error_body : option nat;
  st_lines : list (string * bool);
  st_end : option exn_info;
}.

Definition stream_status_error (r : StreamResponse) : UpstreamError :=
  let status := st_status_code r in
  let safe_body := Some (upstream_metadata status (Z.of_nat (default 0 (st_error_body r))) (st_content_type r)) in
  if (status =? 400)%Z then
    upstream_error UpstreamBadRequest "Upstream rejected the streaming request" safe_body
  else if (status =? 404)%Z then
    upstream_error RuntimeModelNotFound "Model was not found on the upstream server" None
  else if (status =? 408)%Z || (status =? 504)%Z then
    upstream_error UpstreamTimeoutError "Upstream streaming request timed out" safe_body
  else if (status =? 429)%Z then
    upstream_error RuntimeWarming "Upstream model is warming" safe_body
  else
    upstream_http_error "Upstream returned an error for the streaming request" 502 safe_body
      UPSTREAM_PROTOCOL_ERROR.

(** How the generator ends: its lines are exhausted, the token was cancelled, the
    consumer closed it at a [yield], or an error is raised. *)
Inductive stream_end := Exhausted | Cancelled | ClientClosed | Failed (e : forward_error).

(** [json.loads] and the validation of a chunk; a frame they reject is skipped. *)
Context (parse_chunk : string -> option C).

(** The chunk of a line, if it is a data line that holds one. *)
Definition decode_line (line : string) : option C :=
  if negb (startswith "data: " line) then None
  else
    let data_str := str_drop 6 line in
    if String.eqb (strip data_str) "[DONE]" then None else parse_chunk data_str.

(** The loop over the lines.  With [close_at = Some n] the consumer takes [n] chunks
    and closes the generator when it is given the next one. *)
Fixpoint forward_lines (has_token : bool) (finished : stream_end) (lines : list (string * bool))
    (close_at : option nat) : list C * stream_end :=
  match lines with
  | [] => ([], finished)
  | (line, cancelled) :: rest =>
      if has_token && cancelled then ([], Cancelled)
      else
        match decode_line line with
        | None => forward_lines has_token finished rest close_at
        | Some chunk =>
            match close_at with
            | Some 0 => ([chunk], ClientClosed)
            | _ =>
                let '(chunks, how) := forward_lines has_token finished rest (option_map pred close_at) in
                (chunk :: chunks, how)
            end
        end
  end.

Definition forward_streaming
    (stream : string -> list (string * pyval) -> list (string * string) -> exn_info + StreamResponse)
    (server_url : string) (request : IngressRequest + BackendChatRequest) (endpoint : string) (timeout : Q)
    (headers : option (list (string * string))) (model_override adapter_kind : option string)
    (has_token : bool) (close_at : option nat) : list C * stream_end :=
  if negb httpx_installed then ([], Failed MissingHttpx)
  else
    match build_forward_body request model_override adapter_kind with
    | inl e => ([], Failed (PolicyError e))
    | inr body =>
        let body := dset "stream" (PBool true) body in
        let safe_req_headers := dset "Accept" "text/event-stream"
                                  (dset "Content-Type" "application/json" (filter_safe_headers headers)) in
        let failed exc := Failed (Upstream (classify_request_exception exc server_url timeout)) in
        match stream (forward_url server_url endpoint) body safe_req_headers with
        | inl exc => ([], failed exc)
        | inr r =>
            if negb (st_status_code r =? 200)%Z then ([], Failed (Upstream (stream_status_error r)))
            else
              forward_lines has_token (match st_end r with Some exc => failed exc | None => Exhausted end)
                (st_lines r) close_at
        end
    end.
End forwarding.

(** ** The client's view ([app.py]) *)

(** The keys [_safe_upstream_error_detail] keeps; the order of the set is immaterial to
    the dictionary but for its layout. *)
Definition ALLOWED_DETAIL : list string :=
  ["upstream_status"; "http_status"; "body_bytes"; "body_present"; "content_type"; "endpoint";
   "timeout_seconds"].

Definition error_exn (e : UpstreamError) : exn_info := (UpstreamClass_name (ue_class e), ue_message e).

Definition safe_upstream_error_detail (e : UpstreamError) : list (string * pyval) :=
  let detail := [("kind", PStr (UpstreamClass_name (ue_class e)));
                 ("failure_class", PStr (failure_class (Some (error_exn e))))] in
  match ue_detail e with
  | None => detail
  | Some raw =>
      foldl (fun d key => match dget key raw with Some v => dset key v d | None => d end) detail ALLOWED_DETAIL
  end.

(** [_upstream_runtime_error_handler]: the status and the envelope of the response. *)
Definition upstream_runtime_error_handler (e : UpstreamError) (request_id upstream_request_id : pyval)
    : Z * ErrorFields :=
  (ue_http_status e,
   error_fields (ue_error_code e) (safe_exception_message (Some (error_exn e)) "runtime failure")
     (Some (ue_http_status e)) None request_id upstream_request_id (Some (safe_upstream_error_detail e))).
