(* ===== verification/ForwardProps.v ===== *)
(** * Guarantees of the forwarding layer

    The event stream equals a declarative specification, the forwarded body is
    characterised field by field, every failure is a typed error with the status its
    code is registered with, and what the client sees of a failure does not depend on
    the upstream's text. *)

From S2P Require Import Prelude PyDict PyStr PyRe Contracts Correlation ControlPlane CapacityController RequestPolicy LogSafety Forward.
From Stdlib Require Import Ascii.

Open Scope string_scope.

(** ** The event stream *)

(** The elements before the first one that satisfies [p]. *)
Fixpoint until {A} (p : A -> bool) (l : list A) : list A :=
  match l with [] => [] | x :: l' => if p x then [] else x :: until p l' end.

Section stream.
Context {C : Type} (parse_chunk : string -> option C).

(** What the consumer is meant to receive: the chunks of the data lines that decode,
    among the lines looked at before the token is cancelled, up to the one at which it
    closes. *)
Definition stream_spec (has_token : bool) (finished : stream_end) (lines : list (string * bool))
    (close_at : option nat) : list C * stream_end :=
  let stop := fun l : string * bool => has_token && l.2 in
  let chunks := omap (fun l => decode_line parse_chunk l.1) (until stop lines) in
  let how := if existsb stop lines then Cancelled else finished in
  match close_at with
  | Some n => if (n <? length chunks)%nat then (take (S n) chunks, ClientClosed) else (chunks, how)
  | None => (chunks, how)
  end.

Lemma ltb_S n m : (S n <? S m)%nat = (n <? m)%nat.
Proof. done. Qed.

Lemma forward_lines_spec has_token finished lines close_at :
  forward_lines parse_chunk has_token finished lines close_at = stream_spec has_token finished lines close_at.
Proof.
  revert close_at. induction lines as [|[line cancelled] rest IH]; intros close_at; [by destruct close_at|].
  simpl. destruct (has_token && cancelled) eqn:Ec; [unfold stream_spec; simpl; rewrite Ec; by destruct close_at|].
  destruct (decode_line parse_chunk line) as [chunk|] eqn:Ed.
  - unfold stream_spec. simpl. rewrite Ec. csimpl. rewrite Ed.
    destruct close_at as [[|n]|]; [done|..]; rewrite IH; unfold stream_spec; [|done].
    cbn [length option_map Init.Nat.pred]. rewrite ltb_S. by destruct (n <? _)%nat.
  - rewrite IH. unfold stream_spec. simpl. rewrite Ec. csimpl. by rewrite Ed.
Qed.

(** C18: The consumer receives the decodable prefix.  A streamed request that the upstream
    answers with 200 yields exactly the chunks of the data lines that decode, in order,
    up to the first line at which the token is cancelled and to the chunk at which the
    consumer closes; it ends as cancelled, as closed, with the classified transport
    error, or quietly.  So an upstream frame that does not decode, such as an error
    object in the middle of the stream, leaves no trace: without it the result is the
    same. *)
Theorem stream_is_decodable_prefix urlsplit stream server_url request endpoint timeout headers override kind
    has_token close_at body r :
  build_forward_body request override kind = inr body ->
  stream (forward_url server_url endpoint) (dset "stream" (PBool true) body)
    (dset "Accept" "text/event-stream" (dset "Content-Type" "application/json" (filter_safe_headers headers)))
    = inr r ->
  st_status_code r = 200%Z ->
  let finished := match st_end r with
                  | Some exc => Failed (Upstream (classify_request_exception urlsplit exc server_url timeout))
                  | None => Exhausted
                  end in
  let out := forward_streaming urlsplit true parse_chunk stream server_url request endpoint timeout headers
               override kind has_token close_at in
  let decodes l := match decode_line parse_chunk (fst l) with Some _ => true | None => has_token && snd l end in
  out = stream_spec has_token finished (st_lines r) close_at
  /\ out = stream_spec has_token finished (List.filter decodes (st_lines r)) close_at.
Proof.
  intros Hbody Hopen Hst finished out decodes.
  assert (Hout : out = stream_spec has_token finished (st_lines r) close_at).
  { unfold out, forward_streaming. simpl. rewrite Hbody, Hopen, Hst. simpl. apply forward_lines_spec. }
  split; [exact Hout|]. rewrite Hout, <- !forward_lines_spec. clear. revert close_at.
  induction (st_lines r) as [|[line cancelled] rest IH]; intros close_at; [done|]. simpl.
  destruct (decode_line parse_chunk line) as [c|] eqn:E; simpl.
  - unfold decodes at 1. simpl. rewrite E. simpl. destruct (has_token && cancelled); [done|]. rewrite E.
    destruct close_at as [[|n]|]; [done|..]; by rewrite IH.
  - unfold decodes at 1. simpl. rewrite E. destruct (has_token && cancelled) eqn:Ec; simpl; rewrite ?Ec; [done|].
    apply IH.
Qed.
End stream.

(** ** The forwarded body *)

Lemma dkeys_maybe_set key value allowed d :
  NoDup (dkeys d) -> NoDup (dkeys (maybe_set key value allowed d)).
Proof. unfold maybe_set. destruct (_ && _); [apply dset_NoDup|done]. Qed.

Lemma NoDup_optional field allowed keys d :
  NoDup (dkeys d) -> NoDup (dkeys (foldl (fun b key => maybe_set key (field key) allowed b) d keys)).
Proof. revert d. induction keys as [|k keys IH]; intros d H; [done|]. simpl. by apply IH, dkeys_maybe_set. Qed.

Lemma dget_optional field allowed keys d k :
  NoDup keys ->
  dget k (foldl (fun b key => maybe_set key (field key) allowed b) d keys)
  = if mem k keys && negb (is_none (field k)) && mem k allowed then Some (field k) else dget k d.
Proof.
  revert d. induction keys as [|key keys IH]; intros d Hnd; [done|]. apply NoDup_cons in Hnd as [Hout Hnd].
  cbn [foldl]. change (mem k (key :: keys)) with (String.eqb k key || mem k keys). rewrite IH by done. unfold maybe_set.
  destruct (String.eqb_spec k key) as [<-|Hne].
  - assert (mem k keys = false) as -> by (apply not_true_is_false; by rewrite mem_elem). simpl.
    destruct (negb _ && _); [by rewrite dget_dset_eq | done].
  - simpl. destruct (mem k keys && _ && _); [done|].
    destruct (negb _ && _); [by rewrite dget_dset_ne | done].
Qed.

Lemma NoDup_extras l d :
  NoDup (dkeys d) ->
  NoDup (dkeys (foldl (fun b '(key, value) => set_unless_none key value b) d l)).
Proof.
  revert d. induction l as [|[k v] l IH]; intros d H; [done|]. simpl. apply IH.
  unfold set_unless_none. destruct (is_none v); [done | by apply dset_NoDup].
Qed.

Lemma dget_extras l d k :
  NoDup (dkeys l) ->
  dget k (foldl (fun b '(key, value) => set_unless_none key value b) d l)
  = match dget k l with Some v => if is_none v then dget k d else Some v | None => dget k d end.
Proof.
  revert d. induction l as [|[key v] l IH]; intros d Hnd; [done|].
  apply NoDup_cons in Hnd as [Hout Hnd]. simpl. rewrite IH by done. unfold set_unless_none.
  destruct (decide (k = key)) as [->|Hne].
  - assert (dget key l = None) as -> by by apply dget_None_keys.
    destruct (is_none v); [done | by rewrite dget_dset_eq].
  - destruct (is_none v); [done|]. by rewrite !dget_dset_ne.
Qed.

Lemma dget_map_names {A} (f : string -> A) names k :
  dget k (map (fun name => (name, f name)) names) = if mem k names then Some (f k) else None.
Proof.
  induction names as [|n names IH]; [done|]. simpl. rewrite IH.
  destruct (String.eqb_spec k n) as [->|Hne]; destruct (decide _); by try congruence.
Qed.

Lemma canonical_all kind : (adapter_policy kind).1 = CHAT_CANONICAL_FIELDS.
Proof.
  unfold adapter_policy. cbv zeta. cbn [fst].
  destruct (dget (kind_or_generic kind) ADAPTER_CANONICAL_FIELDS) as [c|] eqn:E; [|done].
  apply dget_Some_elem in E. unfold ADAPTER_CANONICAL_FIELDS in E.
  apply list_elem_of_fmap in E as ([? ?] & [= _ ->] & _). done.
Qed.

Lemma canonical_split k :
  mem k CHAT_CANONICAL_FIELDS = mem k ["model"; "messages"; "stream"] || mem k OPTIONAL_FIELDS.
Proof. change CHAT_CANONICAL_FIELDS with (["model"; "messages"; "stream"] ++ OPTIONAL_FIELDS)%list. apply existsb_app. Qed.

Lemma optional_NoDup : NoDup OPTIONAL_FIELDS.
Proof. by apply (bool_decide_unpack _). Qed.

Lemma disposed_NoDup ext d l : NoDup (dkeys l) -> NoDup (dkeys (disposed ext d l)).
Proof. intros H. eapply sublist_NoDup; [exact H|]. apply fmap_sublist, filter_List_sublist. Qed.

Lemma dget_disposed kind l k :
  NoDup (dkeys l) ->
  dget k (disposed (adapter_policy kind).2 Forwarded l)
  = if mem k (adapter_policy kind).2 then dget k l else None.
Proof.
  intros Hnd. apply option_eq. intros v.
  transitivity ((k, v) ∈ disposed (adapter_policy kind).2 Forwarded l).
  { split; [apply dget_Some_elem | apply elem_dget; by apply disposed_NoDup]. }
  rewrite disposed_forwarded, <- mem_elem. destruct (mem k _); [|naive_solver].
  split; [intros [? _]; by apply elem_dget | intros ?; split; [by apply dget_Some_elem | done]].
Qed.

(** What the forwarded body holds under a key. *)
Definition forwarded_value (r : IngressRequest) (kind override : option string) (k : string) : option pyval :=
  if String.eqb k "model" then
    Some (match override with
          | Some m => if String.eqb m "" then ir_field r "model" else PStr m
          | None => ir_field r "model"
          end)
  else if String.eqb k "messages" then Some (PList (map serialize_message (list_of (ir_field r "messages"))))
  else if String.eqb k "stream" then Some (ir_field r "stream")
  else if mem k OPTIONAL_FIELDS then if is_none (ir_field r k) then None else Some (ir_field r k)
  else if mem k (adapter_policy kind).2 then
    match dget k (ir_extra r) with Some v => if is_none v then None else Some v | None => None end
  else None.

Lemma attr_values r k :
  mem k CHAT_CANONICAL_FIELDS = true ->
  attr k (map (fun name => (name, ir_field r name)) CHAT_CANONICAL_FIELDS) = ir_field r k.
Proof. intros H. unfold attr. by rewrite dget_map_names, H. Qed.

Lemma forwarded_optional r kind k l :
  mem k OPTIONAL_FIELDS = true -> is_none (ir_field r k) = false ->
  mem k (field_names (initial_forwarded (adapter_policy kind).1 r ++ l)) = true.
Proof.
  intros Hk Hv. apply mem_elem, field_names_elem, elem_of_app. left. unfold initial_forwarded.
  assert (Hc : mem k CHAT_CANONICAL_FIELDS = true) by (rewrite canonical_split, Hk; apply orb_true_r).
  apply elem_of_filter_List. split; [by apply mem_elem|]. rewrite canonical_all, Hc, Hv. simpl.
  by rewrite orb_true_r.
Qed.

Lemma forward_body_spec r kind override body :
  NoDup (dkeys (ir_extra r)) ->
  build_forward_body (inl r) override kind = inr body ->
  NoDup (dkeys body) /\ forall k, dget k body = forwarded_value r kind override k.
Proof.
  intros Hnd. unfold build_forward_body, ensure_backend_chat_request. rewrite sanitize_unfold by done.
  destruct (field_names (dkeys (disposed _ Rejected _))); [|done]. intros <-%(inj inr).
  unfold body_of. cbn [br_values br_forwarded br_extra_fields].
  set (fields := map (fun name => (name, ir_field r name)) CHAT_CANONICAL_FIELDS).
  split.
  { apply NoDup_extras. apply (NoDup_optional (fun key => attr key fields)).
    by apply (bool_decide_unpack _). }
  intros k. rewrite dget_extras by by apply disposed_NoDup. rewrite dget_disposed by done.
  rewrite (dget_optional (fun key => attr key fields)) by apply optional_NoDup.
  assert (Hattr : forall name, mem name CHAT_CANONICAL_FIELDS = true -> attr name fields = ir_field r name)
    by (intros; by apply attr_values).
  rewrite !(Hattr "model"), (Hattr "messages"), (Hattr "stream") by done.
  assert (Hext : mem k (adapter_policy kind).2 = true -> mem k CHAT_CANONICAL_FIELDS = false).
  { rewrite mem_elem. intros [_ Hc]%extension_external. apply not_true_is_false. by rewrite mem_elem. }
  rewrite canonical_split in Hext. unfold forwarded_value.
  destruct (mem k OPTIONAL_FIELDS) eqn:Ho.
  - rewrite Hattr by (rewrite canonical_split, Ho; apply orb_true_r).
    destruct (mem k (adapter_policy kind).2); [rewrite orb_true_r in Hext; by specialize (Hext eq_refl)|].
    destruct (String.eqb_spec k "model") as [->|H1]; [done|].
    destruct (String.eqb_spec k "messages") as [->|H2]; [done|].
    destruct (String.eqb_spec k "stream") as [->|H3]; [done|].
    destruct (is_none (ir_field r k)) eqn:Ev; cbn [negb andb dget]; [by rewrite !decide_False|].
    rewrite forwarded_optional by done. done.
  - cbn [andb dget]. destruct (String.eqb_spec k "model") as [->|H1]; [|destruct (String.eqb_spec k "messages") as [->|H2];
      [|destruct (String.eqb_spec k "stream") as [->|H3]]];
      destruct (mem _ (adapter_policy kind).2) eqn:Em; try by specialize (Hext eq_refl).
    + done.
    + done.
    + done.
    + rewrite !decide_False by done. by destruct (dget k (ir_extra r)).
    + by rewrite !decide_False.
Qed.

(** C19: The forwarded body, field by field.  When the policy lets a request through, the body
    sent upstream has no duplicate keys and holds exactly: the model or its override, the
    serialised messages, the stream flag, every optional canonical field that is set,
    with the client's value, and every extension the adapter declares, with the client's
    value.  Nothing else the client sent, internal or unknown, is in it. *)
Theorem forwarded_body_exact r kind override body :
  NoDup (dkeys (ir_extra r)) ->
  build_forward_body (inl r) override kind = inr body ->
  NoDup (dkeys body) /\ forall k, dget k body = forwarded_value r kind override k.
Proof. apply forward_body_spec. Qed.

(** ** Errors *)

(** The errors the forwarding layer raises, and the status of each. *)
Definition RAISED : list UpstreamClass :=
  [UpstreamConnectionError; UpstreamTimeoutError; UpstreamBadRequest; RuntimeModelNotFound; RuntimeWarming;
   UpstreamHTTPError].

(** What the client is told for an upstream status that is not a success. *)
Definition relayed_status (status : Z) : Z :=
  if (status =? 400)%Z then 400
  else if (status =? 404)%Z then 404
  else if (status =? 408)%Z || (status =? 504)%Z then 504
  else if (status =? 429)%Z then 425
  else 502.

Definition typed_error (e : UpstreamError) : Prop :=
  ue_class e ∈ RAISED /\ ue_http_status e = spec_http_status (error_spec (ue_error_code e)).

Ltac typed := split; [simpl; by apply (bool_decide_unpack _) | done].

Lemma classify_request_typed urlsplit exc url timeout : typed_error (classify_request_exception urlsplit exc url timeout).
Proof. unfold classify_request_exception. repeat split_if; typed. Qed.

Lemma classify_response_typed {R} (resp : @HttpResponse R) :
  match classify_response resp with
  | inr data => hr_status_code resp = 200%Z /\ hr_parsed resp = inr data
  | inl e => typed_error e /\ ue_http_status e = relayed_status (hr_status_code resp)
  end.
Proof.
  unfold classify_response, relayed_status. destruct (_ =? 200)%Z eqn:E0.
  - apply Z.eqb_eq in E0. rewrite E0. destruct (hr_parsed resp); [split; [typed|done] | done].
  - repeat (split_if; [split; [typed|done]|]). split; [typed|done].
Qed.

Lemma stream_status_typed (r : StreamResponse) :
  typed_error (stream_status_error r) /\ ue_http_status (stream_status_error r) = relayed_status (st_status_code r).
Proof. unfold stream_status_error, relayed_status. repeat (split_if; [split; [typed|done]|]). split; [typed|done]. Qed.

Lemma forward_lines_end {C} (parse_chunk : string -> option C) has_token finished lines close_at how :
  (forward_lines parse_chunk has_token finished lines close_at).2 = how ->
  how = finished \/ how = Cancelled \/ how = ClientClosed.
Proof.
  rewrite forward_lines_spec. unfold stream_spec.
  intros <-. destruct close_at as [n|]; [destruct (n <? _)%nat; [by auto|]|];
    simpl; destruct (existsb (fun l => has_token && l.2) lines); auto.
Qed.

(** Forwarding fails in typed ways only.  A forwarded request returns data only from a
    parsed 200 answer.  Otherwise it fails because [httpx] is missing, because the
    backend policy refuses the request, or with one of six upstream errors, whose HTTP
    status is the one its error code is registered with; an answer other than 200 is
    relayed as 400, 404, 425, 502 or 504, never as itself or as a success.  The same
    holds of a stream, however its lines end: no other error is ever raised, so in
    particular an interrupted stream is never reported as [StreamInterrupted]. *)
Theorem forwarding_fails_typed {R C} urlsplit installed (post : _ -> _ -> _ -> exn_info + @HttpResponse R)
    (parse_chunk : string -> option C) stream server_url request endpoint timeout headers override kind
    has_token close_at :
  let fails err := match err with
                   | MissingHttpx => installed = false
                   | PolicyError e => ensure_backend_chat_request request kind = inl e
                   | Upstream e => typed_error e
                   end in
  match forward_non_streaming urlsplit installed post server_url request endpoint timeout headers override kind with
  | inr data => exists url body h resp, post url body h = inr resp /\ hr_status_code resp = 200%Z
                                        /\ hr_parsed resp = inr data
  | inl err => fails err
  end
  /\ (forall err, (forward_streaming urlsplit installed parse_chunk stream server_url request endpoint timeout
                     headers override kind has_token close_at).2 = Failed err -> fails err)
  /\ (forall (resp : @HttpResponse R) e, classify_response resp = inl e ->
        ue_http_status e = relayed_status (hr_status_code resp)).
Proof.
  intros fails. split; [|split].
  - unfold forward_non_streaming. destruct installed; [simpl|done].
    unfold build_forward_body. destruct (ensure_backend_chat_request request kind) as [e|b] eqn:Eb; [done|].
    destruct (post _ _ _) as [exc|resp] eqn:Ep; [apply classify_request_typed|].
    pose proof (classify_response_typed resp) as H. destruct (classify_response resp) as [e|data]; [apply H|].
    destruct H. by eexists _, _, _, resp.
  - intros err. unfold forward_streaming. destruct installed; [simpl|by intros [= <-]].
    unfold build_forward_body. destruct (ensure_backend_chat_request request kind) as [e|b] eqn:Eb; [by intros [= <-]|].
    destruct (stream _ _ _) as [exc|r]; [intros [= <-]; apply classify_request_typed|].
    destruct (negb _); [intros [= <-]; apply stream_status_typed|].
    intros [H|[H|H]]%forward_lines_end; [|done..].
    destruct (st_end r) as [exc|]; [|done]. injection H as ->. apply classify_request_typed.
  - intros resp e H. pose proof (classify_response_typed resp) as Ht. rewrite H in Ht. apply Ht.
Qed.

(** ** What the client learns *)

Lemma outward_ext e1 e2 rid urid :
  ue_class e1 = ue_class e2 -> ue_message e1 = ue_message e2 -> ue_http_status e1 = ue_http_status e2 ->
  ue_error_code e1 = ue_error_code e2 -> safe_upstream_error_detail e1 = safe_upstream_error_detail e2 ->
  upstream_runtime_error_handler e1 rid urid = upstream_runtime_error_handler e2 rid urid.
Proof. unfold upstream_runtime_error_handler, error_exn. by intros -> -> -> -> ->. Qed.


(** ** Witnesses *)

Definition demo_request : IngressRequest :=
  mkIngress (fun name => if String.eqb name "model" then PStr "m"
                         else if String.eqb name "stream" then PBool false
                         else if String.eqb name "messages" then
                           PList [PDict [("role", PStr "user"); ("content", PStr "hi"); ("name", PStr "")]]
                         else if String.eqb name "seed" then PInt 7 else PNone)
    PNone (PDict []) [("top_k", PInt 5); ("min_p", PNone); ("Queue_hint", PInt 1)].

Definition demo_body : list (string * pyval) :=
  [("model", PStr "gguf");
   ("messages", PList [PDict [("role", PStr "user"); ("content", PStr "hi")]]);
   ("stream", PBool false); ("seed", PInt 7); ("top_k", PInt 5)].

Lemma forwarded_body_exact_witness :
  build_forward_body (inl demo_request) (Some "gguf") (Some "llama_cpp") = inr demo_body
  /\ dget "Queue_hint" demo_body = None /\ dget "stream" demo_body = Some (PBool false).
Proof.
  assert (Hb : build_forward_body (inl demo_request) (Some "gguf") (Some "llama_cpp") = inr demo_body)
    by (vm_compute; reflexivity).
  split; [exact Hb|].
  pose proof (forwarded_body_exact demo_request (Some "llama_cpp") (Some "gguf") demo_body
                ltac:(by apply (bool_decide_unpack _)) Hb) as [_ H].
  split; rewrite H; vm_compute; reflexivity.
Defined.

Definition demo_parse (s : string) : option string := if startswith "{" s then Some s else None.

Definition demo_stream : StreamResponse :=
  mkStreamResponse 200 None None
    [("data: {1}", false); (": ping", false); ("data: error", false); ("data:{2}", false); ("data: {3}", false);
     ("data: [DONE]", false); ("data: {4}", true)] None.

Lemma stream_is_decodable_prefix_witness :
  forward_streaming (fun _ => None) true demo_parse (fun _ _ _ => inr demo_stream) "http://h/" (inl demo_request)
    "/v1/chat/completions" 300 None (Some "gguf") (Some "llama_cpp") false None
  = (["{1}"; "{3}"; "{4}"], Exhausted).
Proof.
  pose proof (stream_is_decodable_prefix demo_parse (fun _ => None) (fun _ _ _ => inr demo_stream) "http://h/"
                (inl demo_request) "/v1/chat/completions" 300 None (Some "gguf") (Some "llama_cpp") false None
                demo_body demo_stream ltac:(vm_compute; reflexivity) eq_refl eq_refl) as H.
  cbv zeta in H. destruct H as [H _]. rewrite H. vm_compute. reflexivity.
Defined.
