(* ===== verification/Sidecar.v ===== *)
(** * The sidecar servers ([adapters/llama_cpp.py], [adapters/mlx_lm_server.py], [adapters/mlx_vlm.py])

    Each of the three adapters stands for a model server in a process of its own,
    launched and supervised by the broker or run by somebody else.

    - [Managed*Server] is the wrapper of a child process.  The children the operating
      system knows are a dictionary from process ids to exit codes; a child may exit
      between any two steps.  How a child reacts to SIGTERM and SIGKILL within the
      timeouts is an argument of [stop].
    - The three wrappers run the same code on their own command line, so the wrapper is
      written once over the launch command; what differs is a parameter.
    - The health probes are HTTP requests: their answers are arguments. *)

From S2P Require Import Prelude PyDict PyStr PySeq PyRe Config Contracts Correlation ControlPlane.
From S2P Require Import CapacityController RequestPolicy LogSafety Registry ModelPath Routing Forward.
From Stdlib Require Import Ascii.

Open Scope string_scope.

(** ** Configurations *)

Record LlamaCppAdapterConfig := mkLlamaConfig {
  lc_server_url : option string;
  lc_binary_path : option string;
  lc_model_path : option string;
  lc_host : string;
  lc_port : Z;
  lc_context_window : option Z;
  lc_parallel_slots : option Z;
  lc_extra_args : list string;
  lc_startup_timeout_seconds : pyfloat;
  lc_health_timeout_seconds : pyfloat;
  lc_auto_start : bool;
}.

Record MlxLmServerConfig := mkMlxConfig {
  mc_enabled : bool;
  mc_host : string;
  mc_port : Z;
  mc_model : option string;
  mc_extra_args : list string;
  mc_startup_timeout_seconds : pyfloat;
  mc_health_timeout_seconds : pyfloat;
}.

(** The configuration of the vision adapter has the same fields. *)
Definition MlxVlmConfig : Type := MlxLmServerConfig.

(** [server_url] of the two MLX configurations *)
Definition mlx_server_url (c : MlxLmServerConfig) : string := "http://" +:+ mc_host c +:+ ":" +:+ pretty (mc_port c).

(** [Field(ge=1, le=65535)] and [Field(ge=0.1)]; [nan] is below every bound. *)
Definition port_ok (port : Z) : bool := (1 <=? port)%Z && (port <=? 65535)%Z.
Definition timeout_ok (t : pyfloat) : bool :=
  match t with Fin q => (1 # 10) <=?q q | Inf neg => negb neg | NaN => false end.

Definition validated {A} (port : Z) (startup health : pyfloat) (c : A) : pyres A :=
  if port_ok port && timeout_ok startup && timeout_ok health then Ret c
  else Raise (Exc "ValidationError" "configuration").

(** [get_...() or None] *)
Definition or_None (s : option string) : option string := if str_truthy s then s else None.

Definition llama_config_from_env (env : environ) : pyres LlamaCppAdapterConfig :=
  validated (get_llama_cpp_port env) (get_llama_cpp_startup_timeout_seconds env)
    (get_llama_cpp_health_timeout_seconds env)
    (mkLlamaConfig (or_None (get_llama_cpp_server_url env)) (or_None (get_llama_cpp_binary_path env))
       (or_None (get_llama_cpp_model_path env)) (get_llama_cpp_host env) (get_llama_cpp_port env) None None []
       (get_llama_cpp_startup_timeout_seconds env) (get_llama_cpp_health_timeout_seconds env)
       (get_llama_cpp_auto_start env)).

Definition mlx_lm_config_from_env (env : environ) : pyres MlxLmServerConfig :=
  validated (get_mlx_lm_server_port env) (get_mlx_lm_server_startup_timeout_seconds env)
    (get_mlx_lm_server_health_timeout_seconds env)
    (mkMlxConfig (get_mlx_lm_server_enabled env) (get_mlx_lm_server_host env) (get_mlx_lm_server_port env)
       (or_None (get_mlx_lm_server_model env)) (get_mlx_lm_server_extra_args env)
       (get_mlx_lm_server_startup_timeout_seconds env) (get_mlx_lm_server_health_timeout_seconds env)).

Definition mlx_vlm_config_from_env (env : environ) : pyres MlxVlmConfig :=
  validated (get_mlx_vlm_port env) (get_mlx_vlm_startup_timeout_seconds env)
    (get_mlx_vlm_health_timeout_seconds env)
    (mkMlxConfig (get_mlx_vlm_enabled env) (get_mlx_vlm_host env) (get_mlx_vlm_port env)
       (or_None (get_mlx_vlm_model env)) (get_mlx_vlm_extra_args env)
       (get_mlx_vlm_startup_timeout_seconds env) (get_mlx_vlm_health_timeout_seconds env)).

(** ** Command lines *)

(** [model_path_override or config.model_path] *)
Definition effective_model (c : LlamaCppAdapterConfig) (override : option string) : option string :=
  if str_truthy override then override else lc_model_path c.

Definition llama_error (msg : string) : pyexc := Exc "LlamaCppConfigError" msg.

(** [if v is not None and v <= 0: raise] *)
Definition require_positive (name : string) (v : option Z) : pyres unit :=
  match v with
  | Some n => if (n <=? 0)%Z then Raise (llama_error (name +:+ " must be positive, got " +:+ pretty n)) else Ret tt
  | None => Ret tt
  end.

Definition validate_managed_config (c : LlamaCppAdapterConfig) (override : option string) : pyres unit :=
  let model := effective_model c override in
  if negb (str_truthy (lc_binary_path c)) then
    Raise (llama_error "auto_start=true requires binary_path to be set")
  else if negb (str_truthy model) then
    Raise (llama_error "auto_start=true requires model_path to be set")
  else if negb (endswith ".gguf" (default "" model)) then
    Raise (llama_error "Model path must end in .gguf")
  else if (lc_port c <? 1)%Z || (65535 <? lc_port c)%Z then
    Raise (llama_error ("Port out of valid range (1-65535): " +:+ pretty (lc_port c)))
  else
    let! _ := require_positive "context_window" (lc_context_window c) in
    require_positive "parallel_slots" (lc_parallel_slots c).

(** [os.path.isfile] *)
Definition validate_files_exist (isfile : string -> bool) (c : LlamaCppAdapterConfig) (override : option string)
    : pyres unit :=
  let binary := default "" (lc_binary_path c) in
  if negb (isfile binary) then Raise (llama_error ("llama-server binary not found: " +:+ binary))
  else if negb (isfile (default "" (effective_model c override))) then
    Raise (llama_error (match override with
                        | Some _ => "External model path is unavailable at execution time."
                        | None => "Model file not found"
                        end))
  else Ret tt.

(** [["--flag", str(v)]] for a positive [v] *)
Definition positive_flag (flag : string) (v : option Z) : list string :=
  match v with Some n => if (0 <? n)%Z then [flag; pretty n] else [] | None => [] end.

Definition build_llama_server_argv (c : LlamaCppAdapterConfig) (override : option string) : pyres (list string) :=
  let! _ := validate_managed_config c override in
  Ret ([default "" (lc_binary_path c); "--model"; default "" (effective_model c override); "--host"; lc_host c;
        "--port"; pretty (lc_port c)]
       ++ positive_flag "--ctx-size" (lc_context_window c)
       ++ positive_flag "--parallel" (lc_parallel_slots c)
       ++ lc_extra_args c)%list.

Definition mlx_argv (module : string) (c : MlxLmServerConfig) : list string :=
  (["python"; "-m"; module; "server"; "--model"; default "" (mc_model c); "--host"; mc_host c;
    "--port"; pretty (mc_port c)] ++ mc_extra_args c)%list.

Definition build_mlx_lm_server_argv (c : MlxLmServerConfig) : pyres (list string) :=
  if negb (str_truthy (mc_model c)) then
    Raise (Exc "MlxLmServerConfigError" "A model path is required (set WHOOSHD_MLX_MODEL)")
  else Ret (mlx_argv "mlx_lm" c).

Definition build_mlx_vlm_server_argv (c : MlxVlmConfig) : pyres (list string) :=
  if negb (str_truthy (mc_model c)) then
    Raise (Exc "MlxVlmConfigError" "A model path is required (set WHOOSHD_MLX_VLM_MODEL)")
  else Ret (mlx_argv "mlx_vlm" c).

(** What a wrapper does before [Popen]: its validations and its command line. *)
Definition llama_launch (isfile : string -> bool) (c : LlamaCppAdapterConfig) : pyres (list string) :=
  let! _ := validate_managed_config c None in
  let! _ := validate_files_exist isfile c None in
  build_llama_server_argv c None.

(** ** The wrapper of a child process *)

(** [_process] is the id of the child, [_started_at] the monotonic time of its launch. *)
Record ManagedServer := mkManaged {
  mp_process : option Z;
  mp_started_at : option Q;
}.

Definition new_managed : ManagedServer := mkManaged None None.

(** The children of the broker: process id to exit code, [None] while it runs. *)
Definition children : Type := list (Z * option Z).

(** A running child exits. *)
Definition child_exits (pid rc : Z) (os : children) : children :=
  match dget pid os with Some None => dset pid (Some rc) os | _ => os end.

(** [Popen.poll()] *)
Definition poll (pid : Z) (os : children) : option Z := default None (dget pid os).

Definition is_running (m : ManagedServer) (os : children) : bool :=
  match mp_process m with
  | Some pid => match poll pid os with None => true | Some _ => false end
  | None => false
  end.

Definition returncode (m : ManagedServer) (os : children) : option Z :=
  match mp_process m with Some pid => poll pid os | None => None end.

Definition opt_text (o : option Z) : string := match o with Some z => pretty z | None => "None" end.

(** What distinguishes the wrappers: their exception and the texts of its four uses. *)
Record WrapperText := mkWrapperText {
  wt_error : string -> pyexc;
  wt_running : option Z -> string;
  wt_launch_failed : string -> string;
  wt_exited : option Z -> string;
  wt_not_ready : string -> string;
}.

Definition llama_text : WrapperText :=
  mkWrapperText (Exc "LlamaCppProcessError")
    (fun pid => "llama-server is already running (pid=" +:+ opt_text pid +:+ ")")
    (fun _ => "Failed to launch llama-server: OSError")
    (fun rc => "llama-server exited unexpectedly with code " +:+ opt_text rc +:+ " before becoming ready")
    (fun timeout => "llama-server did not become ready within " +:+ timeout +:+ "s").

Definition mlx_lm_text : WrapperText :=
  mkWrapperText (Exc "MlxLmServerProcessError")
    (fun pid => "mlx_lm.server is already running (pid=" +:+ opt_text pid +:+ ")")
    (fun exc => "Failed to launch mlx_lm.server: " +:+ exc)
    (fun rc => "mlx_lm.server exited unexpectedly with code " +:+ opt_text rc +:+ " before becoming ready")
    (fun timeout => "mlx_lm.server did not become ready within " +:+ timeout +:+ "s").

Definition mlx_vlm_text : WrapperText :=
  mkWrapperText (Exc "MlxVlmProcessError")
    (fun pid => "mlx-vlm already running (pid=" +:+ opt_text pid +:+ ")")
    (fun _ => "Failed to launch mlx-vlm")
    (fun rc => "mlx-vlm exited unexpectedly with code " +:+ opt_text rc)
    (fun timeout => "mlx-vlm did not become ready within " +:+ timeout +:+ "s").

(** How a float prints in a message. *)
Section wrapper.
Context (float_str : pyfloat -> string) (text : WrapperText).

(** [start()]: [launch] is the validated command line, [popen] the id of the new child
    or the text of an [OSError]. *)
Definition start (launch : pyres (list string)) (popen : string + Z) (now : Q) (m : ManagedServer) (os : children)
    : pyres Z * ManagedServer * children :=
  if is_running m os then
    (Raise (wt_error text (wt_running text (mp_process m))), m, os)
  else
    match launch with
    | Raise e => (Raise e, m, os)
    | Ret _ =>
        match popen with
        | inl exc => (Raise (wt_error text (wt_launch_failed text exc)), m, os)
        | inr pid => (Ret pid, mkManaged (Some pid) (Some now), dset pid None os)
        end
    end.

(** [stop()]: [on_term] and [on_kill] are the exit codes a child answers the signals with
    within the timeout, [None] when the wait expires. *)
Definition stop (on_term on_kill : option Z) (m : ManagedServer) (os : children) : ManagedServer * children :=
  match mp_process m with
  | None => (m, os)
  | Some pid =>
      match poll pid os with
      | Some _ => (new_managed, os)
      | None =>
          match on_term with
          | Some rc => (new_managed, child_exits pid rc os)
          | None => (new_managed, match on_kill with Some rc => child_exits pid rc os | None => os end)
          end
      end
  end.

Definition restart (on_term on_kill : option Z) (launch : pyres (list string)) (popen : string + Z) (now : Q)
    (m : ManagedServer) (os : children) : pyres Z * ManagedServer * children :=
  let '(m, os) := stop on_term on_kill m os in start launch popen now m os.

Definition check_exited (m : ManagedServer) (os : children) : bool * ManagedServer :=
  match mp_process m with
  | None => (false, m)
  | Some pid => match poll pid os with Some _ => (true, new_managed) | None => (false, m) end
  end.

(** [now < start + timeout] *)
Definition before_deadline (now start : Q) (timeout : pyfloat) : bool :=
  match timeout with Fin t => now <?q (start + t) | Inf neg => negb neg | NaN => false end.

(** One round of the readiness loop: the clock at its test, a possible exit of the child
    before the liveness check and one during the probe, and whether the probe that
    [health_fn] makes of a live server reaches it. *)
Record ready_round := mkRound {
  rr_now : Q;
  rr_exit : option Z;
  rr_exit_in_probe : option Z;
  rr_reachable : bool;
}.

Definition exits_now (rc : option Z) (m : ManagedServer) (os : children) : children :=
  match rc, mp_process m with Some rc, Some pid => child_exits pid rc os | _, _ => os end.

(** One round of [wait_until_ready]: what the loop ends with, or [None] to sleep and go
    on.  [health_fn] is the adapter's [check_health], which clears the handle of a child
    it finds exited and reports it unreachable. *)
Definition ready_iter (timeout : pyfloat) (started : Q) (on_term on_kill : option Z) (r : ready_round)
    (m : ManagedServer) (os : children) : option (pyres unit) * ManagedServer * children :=
  if before_deadline (rr_now r) started timeout then
    let os := exits_now (rr_exit r) m os in
    if negb (is_running m os) then (Some (Raise (wt_error text (wt_exited text (returncode m os)))), m, os)
    else
      let os := exits_now (rr_exit_in_probe r) m os in
      let '(exited, m) := check_exited m os in
      ((if negb exited && rr_reachable r then Some (Ret tt) else None), m, os)
  else
    let '(m, os) := stop on_term on_kill m os in
    (Some (Raise (wt_error text (wt_not_ready text (float_str timeout)))), m, os).

(** [wait_until_ready]; [None] while the rounds given do not end the loop. *)
Fixpoint wait_until_ready (timeout : pyfloat) (started : Q) (on_term on_kill : option Z) (rounds : list ready_round)
    (m : ManagedServer) (os : children) : option (pyres unit * ManagedServer * children) :=
  match rounds with
  | [] => None
  | r :: rounds =>
      match ready_iter timeout started on_term on_kill r m os with
      | (Some result, m, os) => Some (result, m, os)
      | (None, m, os) => wait_until_ready timeout started on_term on_kill rounds m os
      end
  end.
End wrapper.

(** ** Health probes *)

(** [_LlamaCppHealthStatus], [_MlxLmServerHealthStatus], [_MlxVlmHealthStatus]; the
    [models_data] of the second is never read. *)
Record HealthStatus := mkStatus {
  hs_reachable : bool;
  hs_runner_status : string;
  hs_model_lifecycle : string;
  hs_detail : string;
  hs_raw_status : option Z;
}.

(** The answer to a GET: a transport failure, or a status and what [json()] gives. *)
Definition probe : Type := exn_info + (Z * (exn_info + pyval)).

Section health.
Context (float_str : pyfloat -> string) (httpx_installed : bool).

Definition unreachable (lifecycle detail : string) : HealthStatus := mkStatus false "ready" lifecycle detail None.
Definition broken (detail : string) : HealthStatus := mkStatus false "degraded" "failed" detail None.
Definition reached (lifecycle detail : string) (raw : Z) : HealthStatus :=
  mkStatus true "ready" lifecycle detail (Some raw).

Definition llama_classify_health (exc : exn_info) (timeout : pyfloat) : HealthStatus :=
  let exc_name := lower exc.1 in
  let exc_msg := lower exc.2 in
  if contains "connecterror" exc_name || contains "connection" exc_msg then
    unreachable "unloaded" "Connection refused — llama.cpp server appears offline."
  else if contains "timeout" exc_name || contains "timeout" exc_msg then
    unreachable "unloaded" ("Health probe timed out after " +:+ float_str timeout +:+ "s.")
  else broken ("Unexpected health probe error: " +:+ exc.1).

Definition mlx_lm_classify_health (exc : exn_info) (timeout : pyfloat) : HealthStatus :=
  let exc_name := lower exc.1 in
  let exc_msg := lower exc.2 in
  if contains "connecterror" exc_name || contains "connection" exc_msg then
    unreachable "starting" "Connection refused — mlx_lm.server may be starting up."
  else if contains "timeout" exc_name || contains "timeout" exc_msg then
    unreachable "starting" ("Health probe timed out after " +:+ float_str timeout +:+ "s.")
  else broken ("Unexpected health probe error: " +:+ exc.2).

Definition mlx_vlm_classify_health (exc : exn_info) (timeout : pyfloat) : HealthStatus :=
  let exc_name := lower exc.1 in
  let exc_msg := lower exc.2 in
  if contains "connect" exc_name || contains "connection" exc_msg then
    unreachable "starting" "Connection refused — mlx-vlm may be starting up."
  else if contains "timeout" exc_name || contains "timeout" exc_msg then
    unreachable "starting" ("Health probe timed out after " +:+ float_str timeout +:+ "s.")
  else broken ("Unexpected health probe failure (" +:+ exception_metadata (Some exc) +:+ ")").

(** [_probe_server]: [get] answers a path below the server's URL. *)
Definition llama_probe_server (get : string -> probe) (timeout : pyfloat) : HealthStatus :=
  if negb httpx_installed then
    unreachable "unloaded" "httpx is not installed; cannot probe llama.cpp server."
  else
    let fallback :=
      match get "/v1/models" with
      | inl exc => llama_classify_health exc timeout
      | inr (status, _) =>
          if (status =? 200)%Z then reached "ready" "llama.cpp server /v1/models returned 200." status
          else reached "warmup" ("llama.cpp server reachable but /v1/models returned " +:+ pretty status +:+ ".") status
      end in
    match get "/health" with
    | inl exc => llama_classify_health exc timeout
    | inr (status, _) =>
        if (status =? 200)%Z then reached "ready" "llama.cpp server /health returned 200." status else fallback
    end.

Definition mlx_lm_probe_server (get : string -> probe) (timeout : pyfloat) : HealthStatus :=
  if negb httpx_installed then
    unreachable "unloaded" "httpx is not installed; cannot probe mlx_lm.server."
  else
    match get "/v1/models" with
    | inl exc => mlx_lm_classify_health exc timeout
    | inr (status, json) =>
        if (status =? 200)%Z then
          match json with
          | inl exc => mlx_lm_classify_health exc timeout
          | inr _ => reached "ready" "mlx_lm.server /v1/models returned 200." status
          end
        else reached "warming" ("mlx_lm.server reachable but /v1/models returned " +:+ pretty status +:+ ".") status
    end.

(** ** Adapter state *)

(** [_managed_process] and the children the operating system knows. *)
Record SidecarState := mkSidecar {
  sc_managed : option ManagedServer;
  sc_children : children;
}.

Definition new_sidecar : SidecarState := mkSidecar None [].

(** [proc.check_exited()] on the adapter's wrapper, and [proc.is_running]. *)
Definition sc_check (s : SidecarState) : bool * SidecarState :=
  match sc_managed s with
  | None => (false, s)
  | Some m => let '(exited, m) := check_exited m (sc_children s) in
              (exited, mkSidecar (Some m) (sc_children s))
  end.

Definition sc_running (s : SidecarState) : bool :=
  match sc_managed s with Some m => is_running m (sc_children s) | None => false end.

(** ** The llama.cpp adapter *)

Definition llama_owned_url (c : LlamaCppAdapterConfig) : string := "http://" +:+ lc_host c +:+ ":" +:+ pretty (lc_port c).

Definition llama_server_url (c : LlamaCppAdapterConfig) : option string :=
  if str_truthy (lc_server_url c) then Some (rstrip_slash (default "" (lc_server_url c)))
  else if lc_auto_start c then Some (llama_owned_url c)
  else None.

(** [urlparse(url).scheme] and [.netloc] *)
Definition validate_server_url (urlparse : string -> string * string) (c : LlamaCppAdapterConfig) : pyres unit :=
  match lc_server_url c with
  | None => Ret tt
  | Some url =>
      let url := rstrip_slash url in
      let '(scheme, netloc) := urlparse url in
      if String.eqb scheme "" || String.eqb netloc "" then
        Raise (ValueError ("Invalid llama.cpp server_url: '" +:+ url
                           +:+ "' — must include scheme and host (e.g. http://127.0.0.1:8080)"))
      else Ret tt
  end.

Definition llama_check_health (urlparse : string -> string * string) (c : LlamaCppAdapterConfig)
    (get : string -> probe) (s : SidecarState) : pyres HealthStatus * SidecarState :=
  let probed := llama_probe_server get (lc_health_timeout_seconds c) in
  if lc_auto_start c then
    match sc_managed s with
    | None => (Ret (unreachable "unloaded" "llama-server process not started"), s)
    | Some _ =>
        let '(_, s) := sc_check s in
        if negb (sc_running s) then (Ret (broken "llama-server process exited unexpectedly"), s)
        else
          match llama_server_url c with
          | None => (Ret (unreachable "unloaded" "llama-server process is running but no server URL configured"), s)
          | Some _ => (Ret probed, s)
          end
    end
  else
    match llama_server_url c with
    | None =>
        (Ret (unreachable "unloaded"
                "No server_url configured and auto_start disabled; llama.cpp server is not reachable."), s)
    | Some _ => (let! _ := validate_server_url urlparse c in Ret probed, s)
    end.

Definition llama_is_loaded (c : LlamaCppAdapterConfig) (s : SidecarState) : bool * SidecarState :=
  match sc_managed s with
  | Some _ => if lc_auto_start c then let '(_, s) := sc_check s in (sc_running s, s) else (false, s)
  | None => (false, s)
  end.

(** What the operating system does during a start: [Popen], the signals of a stop, and
    the rounds of the readiness loop. *)
Record StartScript := mkScript {
  ss_popen : string + Z;
  ss_now : Q;
  ss_on_term : option Z;
  ss_on_kill : option Z;
  ss_rounds : list ready_round;
}.

(** [proc.start()] and [await proc.wait_until_ready(...)] on the adapter's wrapper. *)
Definition start_and_wait (text : WrapperText) (launch : pyres (list string)) (timeout : pyfloat) (x : StartScript)
    (m : ManagedServer) (os : children) : option (pyres unit * SidecarState) :=
  match start text launch (ss_popen x) (ss_now x) m os with
  | (Raise e, m, os) => Some (Raise e, mkSidecar (Some m) os)
  | (Ret _, m, os) =>
      match wait_until_ready float_str text timeout (ss_now x) (ss_on_term x) (ss_on_kill x) (ss_rounds x) m os with
      | Some (r, m, os) => Some (r, mkSidecar (Some m) os)
      | None => None
      end
  end.

(** [warmup]; [None] while the readiness loop has not ended. *)
Definition llama_warmup (isfile : string -> bool) (c : LlamaCppAdapterConfig) (x : StartScript) (s : SidecarState)
    : option (pyres unit * SidecarState) :=
  if lc_auto_start c then
    let s := match sc_managed s with Some _ => s | None => mkSidecar (Some new_managed) (sc_children s) end in
    let '(_, s) := sc_check s in
    match sc_managed s with
    | Some m =>
        if negb (sc_running s) then
          start_and_wait llama_text (llama_launch isfile c) (lc_startup_timeout_seconds c) x m (sc_children s)
        else Some (Ret tt, s)
    | None => Some (Ret tt, s)
    end
  else Some (Ret tt, s).

(** [unload] of the llama.cpp and MLX-LM adapters *)
Definition sidecar_unload (on_term on_kill : option Z) (s : SidecarState) : SidecarState :=
  match sc_managed s with
  | None => s
  | Some m => let '(_, os) := stop on_term on_kill m (sc_children s) in mkSidecar None os
  end.

(** [state_map.get(lifecycle, OFFLINE)] of [health()] and [list_models()] *)
Definition map_state (state_map : list (string * RuntimeHealthState)) (h : HealthStatus) : RuntimeHealthState :=
  dget_or (hs_model_lifecycle h) HS_OFFLINE state_map.

Definition RuntimeHealthState_value (s : RuntimeHealthState) : string :=
  match s with
  | HS_OFFLINE => "offline" | HS_STARTING => "starting" | HS_RUNTIME_AVAILABLE => "runtime_available"
  | HS_MODEL_WARMING => "model_warming" | HS_READY => "ready" | HS_GENERATING => "generating"
  | HS_DEGRADED => "degraded" | HS_ERROR => "error"
  end.

Definition llama_states : list (string * RuntimeHealthState) :=
  [("ready", HS_READY); ("warmup", HS_MODEL_WARMING); ("unloaded", HS_OFFLINE); ("failed", HS_ERROR);
   ("degraded", HS_DEGRADED)].

(** [_effective_model_path]: the external binding of the request, or the configured model. *)
Definition bound_model (binding configured : option string) : option string :=
  match binding with Some p => Some p | None => configured end.

(** Lets a method that probes the health go on with the status. *)
Definition with_status {A} (r : pyres HealthStatus * SidecarState) (k : HealthStatus -> SidecarState -> A * SidecarState)
    : pyres A * SidecarState :=
  match r with
  | (Raise e, s) => (Raise e, s)
  | (Ret h, s) => let '(a, s) := k h s in (Ret a, s)
  end.

Definition llama_health (urlparse : string -> string * string) (c : LlamaCppAdapterConfig) (binding : option string)
    (get : string -> probe) (s : SidecarState) : pyres RuntimeHealth * SidecarState :=
  with_status (llama_check_health urlparse c get s) (fun h s =>
    let '(loaded, s) := llama_is_loaded c s in
    (mkHealth (RuntimeKind_value LLAMA_CPP) (str_truthy (lc_server_url c) || lc_auto_start c)
       (map_state llama_states h) (if loaded then bound_model binding (lc_model_path c) else None) None
       (Some (hs_detail h)), s)).

(** [os.path.basename], and [id.rsplit("/", 1)[-1] if "/" in id else id] *)
Definition basename (path : string) : string := default "" (last (split_on "/" path)).

Definition llama_list_models (urlparse : string -> string * string) (c : LlamaCppAdapterConfig)
    (binding : option string) (get : string -> probe) (s : SidecarState) : pyres (list RuntimeModel) * SidecarState :=
  let model := bound_model binding (lc_model_path c) in
  if negb (str_truthy model) then (Ret [], s)
  else
    let '(loaded, s) := llama_is_loaded c s in
    with_status (llama_check_health urlparse c get s) (fun h s =>
      let id := default "" model in
      ([mkRuntimeModel id (basename id) (RuntimeKind_value LLAMA_CPP) "gguf" (Some id) (lc_context_window c)
          (Some false) (Some false) (Some false) loaded (RuntimeHealthState_value (map_state llama_states h))], s)).

(** ** The MLX-LM adapter *)

Definition mlx_lm_check_health (c : MlxLmServerConfig) (binding : option string) (get : string -> probe)
    (s : SidecarState) : HealthStatus * SidecarState :=
  if negb (mc_enabled c) then
    (unreachable "unloaded" "MLX-LM Server runtime is not enabled (set WHOOSHD_MLX_ENABLED=true).", s)
  else if negb (str_truthy (bound_model binding (mc_model c))) then
    (unreachable "unloaded" "No model configured for MLX-LM Server (set WHOOSHD_MLX_MODEL).", s)
  else
    match sc_managed s with
    | Some _ =>
        let '(_, s) := sc_check s in
        if negb (sc_running s) then (broken "mlx_lm.server process exited unexpectedly.", s)
        else (mlx_lm_probe_server get (mc_health_timeout_seconds c), s)
    | None => (mlx_lm_probe_server get (mc_health_timeout_seconds c), s)
    end.

Definition mlx_lm_is_loaded (s : SidecarState) : bool * SidecarState :=
  match sc_managed s with
  | Some _ => let '(_, s) := sc_check s in (sc_running s, s)
  | None => (false, s)
  end.

Definition mlx_lm_warmup (c : MlxLmServerConfig) (binding : option string) (get : string -> probe)
    (x : StartScript) (s : SidecarState) : option (pyres unit * SidecarState) :=
  if negb (mc_enabled c) then
    Some (Raise (Exc "MlxLmServerConfigError"
                   "MLX-LM Server runtime is not enabled (set WHOOSHD_MLX_ENABLED=true)."), s)
  else if negb (str_truthy (bound_model binding (mc_model c))) then
    Some (Raise (Exc "MlxLmServerConfigError" "No model configured for MLX-LM Server (set WHOOSHD_MLX_MODEL)."), s)
  else
    match sc_managed s with
    | None =>
        let '(h, s) := mlx_lm_check_health c binding get s in
        Some (if hs_reachable h then Ret tt
              else Raise (Exc "MlxLmServerProcessError" ("mlx_lm.server is not reachable: " +:+ hs_detail h)), s)
    | Some _ =>
        let '(_, s) := sc_check s in
        match sc_managed s with
        | Some m =>
            if negb (sc_running s) then
              start_and_wait mlx_lm_text (build_mlx_lm_server_argv c) (mc_startup_timeout_seconds c) x m (sc_children s)
            else Some (Ret tt, snd (mlx_lm_check_health c binding get s))
        | None => Some (Ret tt, s)
        end
    end.

Definition mlx_lm_states : list (string * RuntimeHealthState) :=
  [("ready", HS_READY); ("warming", HS_MODEL_WARMING); ("unloaded", HS_OFFLINE); ("failed", HS_ERROR);
   ("degraded", HS_DEGRADED)].

Definition mlx_lm_health (c : MlxLmServerConfig) (binding : option string) (get : string -> probe)
    (s : SidecarState) : RuntimeHealth * SidecarState :=
  if negb (mc_enabled c) then
    (mkHealth (RuntimeKind_value MLX_LM_SERVER) false HS_OFFLINE None None
       (Some "MLX-LM Server runtime is disabled."), s)
  else
    let '(h, s) := mlx_lm_check_health c binding get s in
    let '(loaded, s) := mlx_lm_is_loaded s in
    (mkHealth (RuntimeKind_value MLX_LM_SERVER) true (map_state mlx_lm_states h)
       (if loaded then bound_model binding (mc_model c) else None) None (Some (hs_detail h)), s).

Definition mlx_lm_list_models (c : MlxLmServerConfig) (binding : option string) (get : string -> probe)
    (s : SidecarState) : list RuntimeModel * SidecarState :=
  let model := bound_model binding (mc_model c) in
  if negb (str_truthy model) then ([], s)
  else
    let '(loaded, s) := mlx_lm_is_loaded s in
    let '(h, s) := mlx_lm_check_health c binding get s in
    let id := default "" model in
    ([mkRuntimeModel id (basename id) (RuntimeKind_value MLX_LM_SERVER) "mlx" (Some id) None (Some false) (Some false)
        (Some false) loaded (RuntimeHealthState_value (map_state mlx_lm_states h))], s).

(** ** The MLX-VLM adapter *)

(** Besides the child, the vision adapter keeps the model the upstream last reported and
    its cache of attestations, which it drops when either changes. *)
Record VlmState {A : Type} := mkVlm {
  vs_sidecar : SidecarState;
  vs_observed : option string;
  vs_attestations : list (string * string * string * A);
}.

Definition invalidate {A} (v : @VlmState A) : @VlmState A := mkVlm A (vs_sidecar v) (vs_observed v) [].
Definition set_vs_sidecar {A} (s : SidecarState) (v : @VlmState A) : @VlmState A :=
  mkVlm A s (vs_observed v) (vs_attestations v).

(** [proc.check_exited()], invalidating when the child has exited *)
Definition vlm_check {A} (v : @VlmState A) : @VlmState A :=
  let '(exited, s) := sc_check (vs_sidecar v) in
  let v := set_vs_sidecar s v in
  if exited then invalidate v else v.

(** The id [_observe_upstream_model] reads from [/v1/models]. *)
Definition upstream_model_id (payload : pyval) : option string :=
  match payload with
  | PDict d =>
      match dget "data" d with
      | Some (PList (PDict first :: _)) =>
          match dget "id" first with
          | Some (PStr id) => if String.eqb id "" then None else Some id
          | _ => None
          end
      | _ => None
      end
  | _ => None
  end.

Definition observe_upstream_model {A} (payload : pyval) (v : @VlmState A) : @VlmState A :=
  let id := upstream_model_id payload in
  if bool_decide (id = vs_observed v) then v else invalidate (mkVlm A (vs_sidecar v) id (vs_attestations v)).

(** The exceptions [except ValueError] catches around [json()]. *)
Definition is_value_error (class : string) : bool := mem class ["ValueError"; "JSONDecodeError"; "UnicodeDecodeError"].

Definition mlx_vlm_probe_server {A} (get : string -> probe) (timeout : pyfloat) (v : @VlmState A)
    : HealthStatus * @VlmState A :=
  if negb httpx_installed then (unreachable "unloaded" "httpx not installed.", v)
  else
    match get "/v1/models" with
    | inl exc => (mlx_vlm_classify_health exc timeout, v)
    | inr (status, json) =>
        if (status =? 200)%Z then
          let ready := reached "ready" "mlx-vlm /v1/models returned 200." 200 in
          match json with
          | inl exc => if is_value_error exc.1 then (ready, v) else (mlx_vlm_classify_health exc timeout, v)
          | inr payload => (ready, observe_upstream_model payload v)
          end
        else (reached "warming" ("mlx-vlm reachable but /v1/models returned " +:+ pretty status +:+ ".") status, v)
    end.

Definition mlx_vlm_check_health {A} (c : MlxVlmConfig) (get : string -> probe) (v : @VlmState A)
    : HealthStatus * @VlmState A :=
  if negb (mc_enabled c) then (unreachable "unloaded" "MLX-VLM runtime is not enabled.", v)
  else if negb (str_truthy (mc_model c)) then (unreachable "unloaded" "No model configured for MLX-VLM.", v)
  else
    match sc_managed (vs_sidecar v) with
    | Some _ =>
        let v := vlm_check v in
        if negb (sc_running (vs_sidecar v)) then (broken "mlx-vlm process exited unexpectedly.", v)
        else mlx_vlm_probe_server get (mc_health_timeout_seconds c) v
    | None => mlx_vlm_probe_server get (mc_health_timeout_seconds c) v
    end.

Definition mlx_vlm_is_loaded {A} (v : @VlmState A) : bool * @VlmState A :=
  match sc_managed (vs_sidecar v) with
  | Some _ => let v := vlm_check v in (sc_running (vs_sidecar v), v)
  | None => (false, v)
  end.

(** [observed] is the model id the last successful probe of the readiness loop reported,
    if there was one. *)
Definition mlx_vlm_warmup {A} (c : MlxVlmConfig) (get : string -> probe) (x : StartScript)
    (observed : option (option string)) (v : @VlmState A) : option (pyres unit * @VlmState A) :=
  if negb (mc_enabled c) then Some (Raise (Exc "MlxVlmConfigError" "MLX-VLM is not enabled."), v)
  else if negb (str_truthy (mc_model c)) then
    Some (Raise (Exc "MlxVlmConfigError" "No model configured for MLX-VLM."), v)
  else
    match sc_managed (vs_sidecar v) with
    | None =>
        let '(h, v) := mlx_vlm_check_health c get v in
        Some (if hs_reachable h then Ret tt
              else Raise (Exc "MlxVlmProcessError" "mlx-vlm is not reachable"), v)
    | Some _ =>
        let '(_, s) := sc_check (vs_sidecar v) in
        let v := set_vs_sidecar s v in
        match sc_managed s with
        | Some m =>
            if negb (sc_running s) then
              let v := invalidate v in
              match start_and_wait mlx_vlm_text (build_mlx_vlm_server_argv c) (mc_startup_timeout_seconds c) x m
                      (sc_children s) with
              | Some (r, s) => Some (r, mkVlm A s (default (vs_observed v) observed) (vs_attestations v))
              | None => None
              end
            else Some (Ret tt, snd (mlx_vlm_check_health c get v))
        | None => Some (Ret tt, v)
        end
    end.

Definition mlx_vlm_unload {A} (on_term on_kill : option Z) (v : @VlmState A) : @VlmState A :=
  mkVlm A (sidecar_unload on_term on_kill (vs_sidecar v)) None [].

Definition mlx_vlm_states : list (string * RuntimeHealthState) :=
  [("ready", HS_READY); ("warming", HS_MODEL_WARMING); ("unloaded", HS_OFFLINE); ("failed", HS_ERROR);
   ("degraded", HS_DEGRADED); ("starting", HS_STARTING)].

Definition mlx_vlm_health {A} (c : MlxVlmConfig) (get : string -> probe) (v : @VlmState A)
    : RuntimeHealth * @VlmState A :=
  if negb (mc_enabled c) then
    (mkHealth (RuntimeKind_value MLX_VLM) false HS_OFFLINE None None (Some "MLX-VLM runtime is disabled."), v)
  else
    let '(h, v) := mlx_vlm_check_health c get v in
    let '(loaded, v) := mlx_vlm_is_loaded v in
    (mkHealth (RuntimeKind_value MLX_VLM) true (map_state mlx_vlm_states h) (if loaded then mc_model c else None) None
       (Some (hs_detail h)), v).

Definition mlx_vlm_list_models {A} (c : MlxVlmConfig) (get : string -> probe) (v : @VlmState A)
    : list RuntimeModel * @VlmState A :=
  if negb (str_truthy (mc_model c)) then ([], v)
  else
    let '(loaded, v) := mlx_vlm_is_loaded v in
    let '(h, v) := mlx_vlm_check_health c get v in
    let id := default "" (mc_model c) in
    (* this table lacks "starting" *)
    ([mkRuntimeModel id (basename id) (RuntimeKind_value MLX_VLM) "mlx" (Some id) None (Some false) (Some true)
        (Some false) loaded (RuntimeHealthState_value (map_state mlx_lm_states h))], v).
End health.
Arguments VlmState : clear implicits.
Arguments mkVlm {A}.

(** ** Inference *)

(** How a call of an adapter fails: in the forwarding layer, or with another exception
    (an invalid [server_url]). *)
Inductive lane_error :=
| LaneForward (e : forward_error)
| LaneExc (e : pyexc).

(** What [chat_completion] and [chat_completion_stream] of an adapter read: the reason the
    lane is not configured, its texts, the rejection of an external binding, the health
    check, the server, and the model sent upstream.  [S] is the adapter's state. *)
Record LaneView {S : Type} := mkLane {
  lv_unconfigured : option string;
  lv_at_capacity : string;
  lv_rejected : option string;
  lv_health : S -> pyres HealthStatus * S;
  lv_warming : string;
  lv_not_ready : HealthStatus -> string;
  lv_url : string;
  lv_model : option string;
  lv_kind : string;
}.
Arguments LaneView : clear implicits.
Arguments mkLane {S}.

Definition unavailable (message : string) : lane_error :=
  LaneForward (Upstream (upstream_error RuntimeUnavailable message None)).

Definition overloaded (message : string) : lane_error :=
  LaneForward (Upstream (upstream_error RuntimeOverloaded message None)).

Section inference.
Context {S R C : Type}.
Context (urlsplit : string -> option split_url) (httpx_installed : bool).

(** The checks made once a slot is held; [None] lets the request through. *)
Definition lane_gate (l : LaneView S) (s : S) : option lane_error * S :=
  match lv_rejected l with
  | Some message => (Some (unavailable message), s)
  | None =>
      match lv_health l s with
      | (Raise e, s) => (Some (LaneExc e), s)
      | (Ret h, s) =>
          if negb (hs_reachable h) then
            (Some (if String.eqb (hs_model_lifecycle h) "warming"
                   then LaneForward (Upstream (upstream_error RuntimeWarming (lv_warming l) None))
                   else unavailable (lv_not_ready l h)), s)
          else (None, s)
      end
  end.

(** [chat_completion]: [acquired] is the outcome of [_acquire_slot]; the last component
    is the external binding afterwards, which the [finally] clears. *)
Definition lane_chat_completion (l : LaneView S) (binding : option string)
    (post : string -> list (string * pyval) -> list (string * string) -> exn_info + @HttpResponse R)
    (request : IngressRequest + BackendChatRequest) (acquired : bool) (s : S)
    : (lane_error + R) * S * option string :=
  match lv_unconfigured l with
  | Some message => (inl (unavailable message), s, binding)
  | None =>
      if negb acquired then (inl (overloaded (lv_at_capacity l)), s, binding)
      else
        match lane_gate l s with
        | (Some e, s) => (inl e, s, None)
        | (None, s) =>
            (match forward_non_streaming urlsplit httpx_installed post (lv_url l) request "/v1/chat/completions" 300
                     None (lv_model l) (Some (lv_kind l)) with
             | inl e => inl (LaneForward e)
             | inr data => inr data
             end, s, None)
        end
  end.

(** [chat_completion_stream]: the chunks, and an error or the end of the stream. *)
Definition lane_chat_stream (l : LaneView S) (binding : option string) (parse_chunk : string -> option C)
    (stream : string -> list (string * pyval) -> list (string * string) -> exn_info + StreamResponse)
    (request : IngressRequest + BackendChatRequest) (has_token : bool) (close_at : option nat) (acquired : bool) (s : S)
    : list C * (lane_error + stream_end) * S * option string :=
  match lv_unconfigured l with
  | Some message => ([], inl (unavailable message), s, binding)
  | None =>
      if negb acquired then ([], inl (overloaded (lv_at_capacity l)), s, binding)
      else
        match lane_gate l s with
        | (Some e, s) => ([], inl e, s, None)
        | (None, s) =>
            let '(chunks, how) :=
              forward_streaming urlsplit httpx_installed parse_chunk stream (lv_url l) request "/v1/chat/completions"
                300 None (lv_model l) (Some (lv_kind l)) has_token close_at in
            (chunks, match how with Failed e => inl (LaneForward e) | _ => inr how end, s, None)
        end
  end.

(** ** Generate *)

(** The [ChatCompletionRequest] that [generate] builds: the attributes it passes, and the
    defaults of the model for the others. *)
Definition generate_chat_request (model : string) (request : BackendGenerateRequest) : IngressRequest :=
  mkIngress
    (fun name =>
       if String.eqb name "model" then PStr model
       else if String.eqb name "messages" then
         PList [PDict [("role", PStr "user"); ("content", PStr (bg_prompt request)); ("name", PNone);
                       ("tool_calls", PNone); ("tool_call_id", PNone)]]
       else if String.eqb name "temperature" then bg_temperature request
       else if String.eqb name "max_tokens" then PInt (bg_max_tokens request)
       else if String.eqb name "stream" then PBool false
       else if String.eqb name "top_p" then PFloat (95 # 100)
       else PNone)
    PNone PNone [].

(** What [generate] reads of the chat response. *)
Record ChatAnswer := mkAnswer {
  ca_model : string;
  ca_choices : list (pyval * option string);
  ca_usage : option (option Z * option Z * option Z);
}.

Record GenerateResponse := mkGenerateResponse {
  gr_request_id : string;
  gr_model_id : string;
  gr_text : pyval;
  gr_finish_reason : option string;
  gr_usage : option Z * option Z * option Z;
  gr_adapter : string;
}.

Definition generate_response (uuid name : string) (request : BackendGenerateRequest) (answer : ChatAnswer)
    : GenerateResponse :=
  mkGenerateResponse
    (if str_truthy (bg_request_id request) then default "" (bg_request_id request) else uuid)
    (ca_model answer)
    (match ca_choices answer with (content, _) :: _ => content | [] => PStr "" end)
    (match ca_choices answer with (_, finish) :: _ => finish | [] => Some "stop" end)
    (default (None, None, None) (ca_usage answer)) name.

(** [generate] once it is known to be let through: [model] is the chat request's model. *)
Definition lane_generate (l : LaneView S) (name model uuid : string)
    (post : string -> list (string * pyval) -> list (string * string) -> exn_info + @HttpResponse ChatAnswer)
    (request : BackendGenerateRequest) (s : S) : (lane_error + GenerateResponse) * S :=
  match lane_gate l s with
  | (Some e, s) => (inl e, s)
  | (None, s) =>
      (match forward_non_streaming urlsplit httpx_installed post (lv_url l)
               (inl (generate_chat_request model request)) "/v1/chat/completions" 300 None (lv_model l)
               (Some (lv_kind l)) with
       | inl e => inl (LaneForward e)
       | inr answer => inr (generate_response uuid name request answer)
       end, s)
  end.
End inference.

(** ** The three lanes *)

Section lanes.
Context (float_str : pyfloat -> string) (httpx_installed : bool) (max_concurrent : Z).

Definition llama_lane (urlparse : string -> string * string) (c : LlamaCppAdapterConfig) (binding : option string)
    (get : string -> probe) : LaneView SidecarState :=
  mkLane
    (match llama_server_url c with
     | None => Some "llama.cpp server is not configured or not reachable."
     | Some _ => None
     end)
    ("llama.cpp runtime at capacity (" +:+ pretty max_concurrent +:+ " concurrent requests). Try again later.")
    (if lc_auto_start c && bool_decide (is_Some binding) then
       Some "External models cannot use a managed llama.cpp runtime."
     else None)
    (llama_check_health float_str httpx_installed urlparse c get)
    "llama.cpp server is reachable but model is still warming."
    (fun h => "llama.cpp server is not ready: " +:+ hs_detail h)
    (default "" (llama_server_url c)) (bound_model binding (lc_model_path c)) (RuntimeKind_value LLAMA_CPP).

Definition mlx_lm_lane (c : MlxLmServerConfig) (binding : option string) (get : string -> probe)
    : LaneView SidecarState :=
  mkLane
    (if negb (mc_enabled c) || negb (str_truthy (bound_model binding (mc_model c))) then
       Some "MLX-LM Server runtime is not enabled or no model configured."
     else None)
    ("MLX-LM Server runtime at capacity (" +:+ pretty max_concurrent +:+ " concurrent requests). Try again later.")
    None
    (fun s => let '(h, s) := mlx_lm_check_health float_str httpx_installed c binding get s in (Ret h, s))
    "mlx_lm.server is reachable but model is still warming."
    (fun h => "mlx_lm.server is not ready: " +:+ hs_detail h)
    (mlx_server_url c) (bound_model binding (mc_model c)) (RuntimeKind_value MLX_LM_SERVER).

Definition mlx_vlm_lane {A} (c : MlxVlmConfig) (get : string -> probe) : LaneView (VlmState A) :=
  mkLane
    (if negb (mc_enabled c) || negb (str_truthy (mc_model c)) then
       Some "MLX-VLM runtime is not enabled or no model configured."
     else None)
    ("MLX-VLM runtime at capacity (" +:+ pretty max_concurrent +:+ " concurrent).")
    None
    (fun v => let '(h, v) := mlx_vlm_check_health float_str httpx_installed c get v in (Ret h, v))
    "mlx-vlm is warming." (fun _ => "mlx-vlm not ready")
    (mlx_server_url c) (mc_model c) (RuntimeKind_value MLX_VLM).

Section generate.
Context (urlsplit : string -> option split_url) (uuid : string).
Context (post : string -> list (string * pyval) -> list (string * string) -> exn_info + @HttpResponse ChatAnswer).

(** The first two take no slot. *)
Definition llama_generate (urlparse : string -> string * string) (c : LlamaCppAdapterConfig)
    (binding : option string) (get : string -> probe) (request : BackendGenerateRequest) (s : SidecarState)
    : (lane_error + GenerateResponse) * SidecarState * option string :=
  let l := llama_lane urlparse c binding get in
  match lv_rejected l, lv_unconfigured l with
  | Some message, _ | None, Some message => (inl (unavailable message), s, None)
  | None, None =>
      let model := bound_model binding (lc_model_path c) in
      let asked := if str_truthy (bg_model_id request) then default "" (bg_model_id request)
                   else if str_truthy model then default "" model else "gguf-model" in
      (lane_generate urlsplit httpx_installed l "llama-cpp" asked uuid post request s, None)
  end.

Definition mlx_lm_generate (c : MlxLmServerConfig) (binding : option string) (get : string -> probe)
    (request : BackendGenerateRequest) (s : SidecarState)
    : (lane_error + GenerateResponse) * SidecarState * option string :=
  let l := mlx_lm_lane c binding get in
  match lv_unconfigured l with
  | Some message => (inl (unavailable message), s, None)
  | None =>
      (lane_generate urlsplit httpx_installed l "mlx-lm-server" (default "" (bound_model binding (mc_model c))) uuid
         post request s, None)
  end.

Definition mlx_vlm_generate {A} (c : MlxVlmConfig) (get : string -> probe) (request : BackendGenerateRequest)
    (acquired : bool) (v : VlmState A) : (lane_error + GenerateResponse) * VlmState A :=
  let l := mlx_vlm_lane c get in
  match lv_unconfigured l with
  | Some message => (inl (unavailable message), v)
  | None =>
      if negb acquired then (inl (overloaded (lv_at_capacity l)), v)
      else lane_generate urlsplit httpx_installed l "mlx-vlm" (default "" (mc_model c)) uuid post request v
  end.
End generate.
End lanes.
