(* ===== verification/SidecarLane.v ===== *)
(** * The slots of a sidecar lane

    Each sidecar adapter guards its server with an [asyncio.Semaphore]: a chat request
    acquires a slot within a timeout, or is refused with 429, and gives it back in a
    [finally].  The semaphore is modelled as Python 3.12 implements it: a value and a
    FIFO deque of futures, where a released slot is handed to the first future that has
    none, and stays with it until its task runs.  Between two suspension points a task
    runs alone, so the steps below are atomic. *)

From S2P Require Import Prelude PyStr PySeq Config.

Open Scope Z_scope.

(** ** [asyncio.Semaphore] *)

(** A waiter is its task and whether its future is done. *)
Record Semaphore := mkSem {
  sem_value : Z;
  sem_waiters : list (Z * bool);
}.

(** [Semaphore(value)] *)
Definition new_semaphore (value : Z) : pyres Semaphore :=
  if value <? 0 then Raise (ValueError "Semaphore initial value must be >= 0") else Ret (mkSem value []).

Definition locked (s : Semaphore) : bool :=
  (sem_value s =? 0) || negb (bool_decide (sem_waiters s = [])).

(** [_wake_up_next]: the first future that is not done is given a slot. *)
Fixpoint mark_next (ws : list (Z * bool)) : option (list (Z * bool)) :=
  match ws with
  | [] => None
  | (id, true) :: ws => option_map (cons (id, true)) (mark_next ws)
  | (id, false) :: ws => Some ((id, true) :: ws)
  end.

Definition wake_up_next (s : Semaphore) : bool * Semaphore :=
  match mark_next (sem_waiters s) with
  | Some ws => (true, mkSem (sem_value s - 1) ws)
  | None => (false, s)
  end.

(** [while self._value > 0: if not self._wake_up_next(): break] *)
Fixpoint wake_while (fuel : nat) (s : Semaphore) : Semaphore :=
  match fuel with
  | O => s
  | S fuel =>
      if 0 <? sem_value s then
        let '(woken, s) := wake_up_next s in if woken then wake_while fuel s else s
      else s
  end.

(** Every round marks a waiter, so one more round than waiters is enough. *)
Definition wake_all (s : Semaphore) : Semaphore := wake_while (S (length (sem_waiters s))) s.

Definition without (id : Z) (ws : list (Z * bool)) : list (Z * bool) :=
  List.filter (fun w => negb (fst w =? id)) ws.

Definition is_granted (id : Z) (s : Semaphore) : bool :=
  existsb (fun w => (fst w =? id) && snd w) (sem_waiters s).

(** [acquire()] up to its suspension: whether the slot is taken at once. *)
Definition sem_acquire (id : Z) (s : Semaphore) : bool * Semaphore :=
  if negb (locked s) then (true, mkSem (sem_value s - 1) (sem_waiters s))
  else (false, mkSem (sem_value s) (sem_waiters s ++ [(id, false)])).

(** [acquire()] after its future is done. *)
Definition sem_resume (id : Z) (s : Semaphore) : Semaphore :=
  wake_all (mkSem (sem_value s) (without id (sem_waiters s))).

(** [acquire()] cancelled while it waits: a slot its future already holds is returned. *)
Definition sem_cancel (id : Z) (s : Semaphore) : Semaphore :=
  wake_all (mkSem (if is_granted id s then sem_value s + 1 else sem_value s) (without id (sem_waiters s))).

Definition sem_release (s : Semaphore) : Semaphore :=
  snd (wake_up_next (mkSem (sem_value s + 1) (sem_waiters s))).

(** ** A lane *)

(** The semaphore and the calls that hold a slot: those between [_acquire_slot] and the
    [finally] of [chat_completion], [chat_completion_stream] or the vision [generate]. *)
Record Lane := mkLaneSlots {
  ln_sem : Semaphore;
  ln_holding : list Z;
}.

Definition new_lane (max_concurrent : Z) : pyres Lane :=
  let! s := new_semaphore max_concurrent in Ret (mkLaneSlots s []).

(** How a call enters [_acquire_slot(semaphore, timeout)]. *)
Inductive entry_result := Refused | Holds | Waits.

(** [wait_for] with a timeout that is not positive cancels the task before it starts. *)
Definition expires_at_once (timeout : pyfloat) : bool :=
  match timeout with Fin q => q <=?q 0 | Inf neg => neg | NaN => false end.

Definition lane_enter (timeout : pyfloat) (id : Z) (l : Lane) : entry_result * Lane :=
  if expires_at_once timeout then (Refused, l)
  else
    let '(taken, s) := sem_acquire id (ln_sem l) in
    if taken then (Holds, mkLaneSlots s (ln_holding l ++ [id])) else (Waits, mkLaneSlots s (ln_holding l)).

(** The task of a granted waiter runs. *)
Definition lane_resume (id : Z) (l : Lane) : Lane :=
  mkLaneSlots (sem_resume id (ln_sem l)) (ln_holding l ++ [id]).

(** The wait times out, and the call is refused, or the request is cancelled. *)
Definition lane_give_up (id : Z) (l : Lane) : Lane := mkLaneSlots (sem_cancel id (ln_sem l)) (ln_holding l).

(** The [finally]: the call returns, raises, or is abandoned by its consumer. *)
Definition lane_leave (id : Z) (l : Lane) : Lane :=
  mkLaneSlots (sem_release (ln_sem l)) (remove_first id (ln_holding l)).

Definition waiting_ids (l : Lane) : list Z := map fst (sem_waiters (ln_sem l)).

(** The calls in flight on the lane. *)
Definition in_flight (l : Lane) : Z := Z.of_nat (length (ln_holding l) + length (waiting_ids l)).

Inductive lane_step : Lane -> Lane -> Prop :=
| lane_enters timeout id l : id ∉ waiting_ids l -> id ∉ ln_holding l -> lane_step l (snd (lane_enter timeout id l))
| lane_resumes id l : is_granted id (ln_sem l) = true -> lane_step l (lane_resume id l)
| lane_gives_up id l : id ∈ waiting_ids l -> lane_step l (lane_give_up id l)
| lane_leaves id l : id ∈ ln_holding l -> lane_step l (lane_leave id l).

(** ** Invariants *)

Definition granted_count (ws : list (Z * bool)) : Z := countb snd ws.

(** Grants are handed out in order of arrival: the done futures come first. *)
Fixpoint granted_first (ws : list (Z * bool)) : Prop :=
  match ws with
  | [] => True
  | (_, true) :: ws => granted_first ws
  | (_, false) :: ws => Forall (fun w => snd w = false) ws
  end.

Record sem_ok (max : Z) (held : Z) (s : Semaphore) : Prop := {
  so_balance : sem_value s + granted_count (sem_waiters s) + held = max;
  so_value : 0 <= sem_value s;
  so_NoDup : NoDup (map fst (sem_waiters s));
  so_order : granted_first (sem_waiters s);
}.

(** A free slot is not left idle: somebody who waits for it has been woken. *)
Definition not_idle (s : Semaphore) : Prop :=
  0 < sem_value s -> Exists (fun w => snd w = false) (sem_waiters s) -> Exists (fun w => snd w = true) (sem_waiters s).

Lemma mark_next_ok ws ws' :
  mark_next ws = Some ws' ->
  map fst ws' = map fst ws /\ granted_count ws' = granted_count ws + 1
  /\ Exists (fun w => snd w = true) ws' /\ (granted_first ws -> granted_first ws').
Proof.
  revert ws'. induction ws as [|[id g] ws IH]; intros ws'; [done|]. simpl. destruct g.
  - destruct (mark_next ws) as [ws1|]; [|done]. intros [= <-]. destruct (IH ws1 eq_refl) as (H1 & H2 & _ & H4).
    simpl. unfold granted_count in *. rewrite !countb_cons, H1, H2. simpl.
    split; [done|]. split; [lia|]. split; [by left | exact H4].
  - intros [= <-]. unfold granted_count. rewrite !countb_cons. simpl.
    split; [done|]. split; [lia|]. split; [by left|]. intros H.
    destruct ws as [|[i []] ws]; [done| |]; apply Forall_cons in H as [H1 H2]; [done|exact H2].
Qed.

Lemma mark_next_None ws : mark_next ws = None <-> Forall (fun w => snd w = true) ws.
Proof.
  induction ws as [|[id g] ws IH]; [done|]. simpl. rewrite Forall_cons. destruct g; simpl.
  - rewrite <- IH. destruct (mark_next ws); simpl; naive_solver.
  - naive_solver.
Qed.

Lemma wake_next_ok max held s :
  0 < sem_value s -> sem_ok max held s -> sem_ok max held (snd (wake_up_next s)).
Proof.
  intros Hv [Hb Hv0 Hn Ho]. unfold wake_up_next. destruct (mark_next (sem_waiters s)) as [ws|] eqn:E; [|done].
  apply mark_next_ok in E as (H1 & H2 & _ & H4). split; simpl; [lia|lia|by rewrite H1|by apply H4].
Qed.

Definition ungranted (ws : list (Z * bool)) : nat := length (List.filter (fun w => negb (snd w)) ws).

Lemma mark_next_ungranted ws ws' : mark_next ws = Some ws' -> S (ungranted ws') = ungranted ws.
Proof.
  unfold ungranted. revert ws'. induction ws as [|[id []] ws IH]; intros ws'; [done| |]; simpl.
  - destruct (mark_next ws) as [ws1|]; [|done]. intros [= <-]. simpl. by apply IH.
  - by intros [= <-].
Qed.

Lemma ungranted_length ws : (ungranted ws <= length ws)%nat.
Proof. unfold ungranted. induction ws as [|[? []] ws IH]; simpl; lia. Qed.

(** The slots are used up or everybody has one. *)
Definition settled (s : Semaphore) : Prop := sem_value s = 0 \/ Forall (fun w => snd w = true) (sem_waiters s).

Lemma wake_while_ok max held fuel s :
  (ungranted (sem_waiters s) < fuel)%nat -> sem_ok max held s ->
  sem_ok max held (wake_while fuel s) /\ settled (wake_while fuel s).
Proof.
  revert s. induction fuel as [|fuel IH]; intros s Hf Hok; [lia|]. simpl.
  destruct (0 <? sem_value s) eqn:Ev; reflect_tests.
  - pose proof (wake_next_ok max held s Ev Hok) as Hw. unfold wake_up_next in *.
    destruct (mark_next (sem_waiters s)) as [ws|] eqn:E.
    + apply IH; [|done]. apply mark_next_ungranted in E. simpl. lia.
    + split; [done|]. right. by apply mark_next_None.
  - split; [done|]. left. destruct Hok. lia.
Qed.

Lemma wake_all_ok max held s : sem_ok max held s -> sem_ok max held (wake_all s) /\ settled (wake_all s).
Proof. apply wake_while_ok. pose proof (ungranted_length (sem_waiters s)). lia. Qed.

Lemma settled_not_idle s : settled s -> not_idle s.
Proof.
  intros [Hv|Hall] Hpos Hex; [lia|]. exfalso. apply Exists_exists in Hex as (w & Hw & Hf).
  eapply Forall_forall in Hall; [|exact Hw]. congruence.
Qed.

Lemma without_ids id ws : map fst (without id ws) = List.filter (fun i => negb (i =? id)) (map fst ws).
Proof. unfold without. induction ws as [|[i g] ws IH]; [done|]. simpl. destruct (i =? id); simpl; by rewrite IH. Qed.

Lemma without_absent id ws : id ∉ map fst ws -> without id ws = ws.
Proof.
  induction ws as [|[i g] ws IH]; [done|]. simpl. intros H. apply not_elem_of_cons in H as [Hne H].
  unfold without in *. simpl. destruct (i =? id) eqn:E; reflect_tests; [congruence|]. simpl. by rewrite IH.
Qed.

Lemma without_count id ws :
  NoDup (map fst ws) ->
  granted_count (without id ws) = granted_count ws - b2z (existsb (fun w => (fst w =? id) && snd w) ws).
Proof.
  unfold granted_count. induction ws as [|[i g] ws IH]; [done|]. simpl. intros Hn.
  apply NoDup_cons in Hn as [Hi Hn]. unfold without in *. simpl. destruct (i =? id) eqn:E; reflect_tests; simpl.
  - subst i. change (List.filter _ ws) with (without id ws). rewrite without_absent by done. rewrite countb_cons.
    assert (existsb (fun w => (fst w =? id) && snd w) ws = false) as ->.
    { apply not_true_is_false. rewrite existsb_exists. intros ([j h] & Hin & Hj). simpl in Hj. reflect_tests.
      subst j. apply Hi. apply list_elem_of_fmap. exists (id, h). split; [done|]. by apply list_elem_of_In. }
    destruct g; simpl; lia.
  - rewrite !countb_cons, IH by done. simpl. lia.
Qed.

Lemma without_order id ws : granted_first ws -> granted_first (without id ws).
Proof.
  unfold without. induction ws as [|[i g] ws IH]; [done|]. simpl. intros H. destruct (i =? id); simpl.
  - destruct g; [by apply IH|]. apply IH. clear IH. destruct ws as [|[j []] ws]; [done| |];
      apply Forall_cons in H as [? ?]; done.
  - destruct g; [by apply IH|]. apply Forall_forall. intros w Hw. apply elem_of_filter_List in Hw as [Hw _].
    by eapply Forall_forall in H.
Qed.

Lemma remove_ok max held id s (g := is_granted id s) :
  sem_ok max held s ->
  sem_ok max held (mkSem (sem_value s + b2z g) (without id (sem_waiters s)))
  /\ (g = true -> sem_ok max (held + 1) (mkSem (sem_value s) (without id (sem_waiters s)))).
Proof.
  intros [Hb Hv Hn Ho]. subst g.
  pose proof (without_count id (sem_waiters s) Hn) as Hc. fold (is_granted id s) in Hc.
  assert (Hnd : NoDup (map fst (without id (sem_waiters s)))).
  { rewrite without_ids. eapply sublist_NoDup; [exact Hn|]. apply filter_List_sublist. }
  split.
  - split; simpl; [lia| |done|by apply without_order]. destruct (is_granted id s); simpl; lia.
  - intros Hg. rewrite Hg in Hc. simpl in Hc. split; simpl; [lia|lia|done|by apply without_order].
Qed.

(** ** The lane *)

(** The state of a lane of [max] slots. *)
Record lane_ok (max : Z) (l : Lane) : Prop := {
  lo_sem : sem_ok max (Z.of_nat (length (ln_holding l))) (ln_sem l);
  lo_idle : not_idle (ln_sem l);
}.

Lemma held_snoc {A} (l : list A) x : Z.of_nat (length (l ++ [x])) = Z.of_nat (length l) + 1.
Proof. rewrite length_app. simpl. lia. Qed.

Lemma held_remove (id : Z) l : id ∈ l -> Z.of_nat (length (remove_first id l)) = Z.of_nat (length l) - 1.
Proof.
  intros H. pose proof (Permutation_length (remove_first_perm id l H)) as Hp. simpl in Hp. lia.
Qed.

Lemma enter_ok max timeout id l :
  id ∉ waiting_ids l -> lane_ok max l -> lane_ok max (snd (lane_enter timeout id l)).
Proof.
  intros Hw [Hs Hi]. pose proof Hs as [Hb Hv Hn Ho]. unfold lane_enter. destruct (expires_at_once timeout); [done|].
  unfold sem_acquire. destruct (locked (ln_sem l)) eqn:El; simpl.
  - unfold locked in El. split.
    + split; simpl; [|done| |].
      * unfold granted_count. rewrite countb_app. unfold granted_count in Hb. simpl. unfold countb at 2. simpl. lia.
      * rewrite map_app. apply NoDup_app. split; [done|]. split; [|by apply NoDup_singleton].
        intros x Hx Hx'. apply list_elem_of_singleton in Hx'. subst. by apply Hw.
      * clear -Ho. induction (sem_waiters (ln_sem l)) as [|[i []] ws IH]; [by constructor|by apply IH|].
        simpl in *. apply Forall_app. split; [done|]. by apply Forall_singleton.
    + intros Hpos _. simpl in *. apply Exists_app. left.
      destruct (sem_value (ln_sem l) =? 0) eqn:E0; reflect_tests; [lia|]. simpl in El. reflect_tests.
      apply bool_decide_eq_false in El.
      destruct (decide (Exists (fun w => snd w = false) (sem_waiters (ln_sem l)))) as [He|He]; [by apply Hi|].
      destruct (sem_waiters (ln_sem l)) as [|[i g] ws]; [done|]. left. simpl. destruct g; [done|]. exfalso. apply He. by left.
  - unfold locked in El. apply orb_false_elim in El as [E0 El]. reflect_tests.
    apply bool_decide_eq_true in El.
    split; simpl; rewrite ?held_snoc.
    + split; simpl; [lia|lia|done|done].
    + intros _ He. rewrite El in He. by apply Exists_nil in He.
Qed.

Lemma step_ok max l l' : lane_step l l' -> lane_ok max l -> lane_ok max l'.
Proof.
  intros Hst Hl. destruct Hst as [timeout id l Hw Hh|id l Hg|id l Hw|id l Hh].
  - by apply enter_ok.
  - destruct Hl as [Hs Hi]. destruct (remove_ok _ _ id _ Hs) as [_ Hr]. specialize (Hr Hg).
    apply wake_all_ok in Hr as [Hr Hset]. unfold lane_resume. split; simpl; [by rewrite held_snoc|].
    by apply settled_not_idle.
  - destruct Hl as [Hs Hi]. destruct (remove_ok _ _ id _ Hs) as [Hr _].
    unfold lane_give_up, sem_cancel. split; simpl.
    + replace (if is_granted id (ln_sem l) then sem_value (ln_sem l) + 1 else sem_value (ln_sem l))
        with (sem_value (ln_sem l) + b2z (is_granted id (ln_sem l))) by (destruct (is_granted _ _); simpl; lia).
      by apply wake_all_ok in Hr as [Hr _].
    + replace (if is_granted id (ln_sem l) then sem_value (ln_sem l) + 1 else sem_value (ln_sem l))
        with (sem_value (ln_sem l) + b2z (is_granted id (ln_sem l))) by (destruct (is_granted _ _); simpl; lia).
      apply wake_all_ok in Hr as [_ Hr]. by apply settled_not_idle.
  - destruct Hl as [[Hb Hv Hn Ho] Hi]. unfold lane_leave, sem_release.
    assert (Hs : sem_ok max (Z.of_nat (length (remove_first id (ln_holding l))))
                   (mkSem (sem_value (ln_sem l) + 1) (sem_waiters (ln_sem l)))).
    { rewrite held_remove by done. split; simpl; [lia|lia|done|done]. }
    split; simpl.
    + apply wake_next_ok; [simpl; lia|done].
    + unfold wake_up_next. destruct (mark_next _) as [ws|] eqn:E; simpl.
      * apply mark_next_ok in E as (_ & _ & E & _). by intros _ _.
      * apply mark_next_None in E. apply settled_not_idle. by right.
Qed.

Lemma reachable_ok max l0 l : new_lane max = Ret l0 -> rtc lane_step l0 l -> lane_ok max l.
Proof.
  unfold new_lane, new_semaphore. destruct (max <? 0) eqn:E; [done|]. reflect_tests. intros [= <-].
  apply (rtc_ind_r (lane_ok max)).
  - split; [|by intros _ He%Exists_nil]. split; simpl; [|lia|by constructor|done].
    unfold granted_count. rewrite countb_nil. lia.
  - intros y z _ Hyz Hy. by eapply step_ok.
Qed.

(** ** Guarantees *)

(** C11: The slots of a lane are conserved.  Over any interleaving of arrivals, wake-ups,
    timeouts, cancellations and endings, at most as many calls hold a slot as the lane
    was configured with; when no call is in flight every slot is free again; and slots
    are granted in order of arrival. *)
Theorem lane_slots_conserved max l0 l :
  new_lane max = Ret l0 -> rtc lane_step l0 l ->
  Z.of_nat (length (ln_holding l)) <= max
  /\ (in_flight l = 0 -> sem_value (ln_sem l) = max /\ sem_waiters (ln_sem l) = [])
  /\ granted_first (sem_waiters (ln_sem l)).
Proof.
  intros Hnew Hreach. destruct (reachable_ok max l0 l Hnew Hreach) as [[Hb Hv Hn Ho] _].
  pose proof (countb_nonneg snd (sem_waiters (ln_sem l))) as Hg. fold (granted_count (sem_waiters (ln_sem l))) in Hg.
  split; [lia|]. split; [|done]. unfold in_flight, waiting_ids. rewrite length_map. intros Hz.
  destruct (sem_waiters (ln_sem l)) eqn:Ew; [|simpl in Hz; lia]. simpl in *. unfold granted_count in Hb.
  rewrite countb_nil in Hb. split; [lia|done].
Qed.

(** C12: No waiter is stranded.  While a slot is free and a call waits for one, some waiter has
    been granted a slot and its task is about to run; and when that task runs, or gives
    up, either the slots are used up or every waiter has one. *)
Theorem no_waiter_is_stranded max l0 l :
  new_lane max = Ret l0 -> rtc lane_step l0 l ->
  not_idle (ln_sem l)
  /\ forall id, (is_granted id (ln_sem l) = true -> settled (ln_sem (lane_resume id l)))
                /\ settled (ln_sem (lane_give_up id l)).
Proof.
  intros Hnew Hreach. destruct (reachable_ok max l0 l Hnew Hreach) as [Hs Hi]. split; [done|]. intros id.
  destruct (remove_ok _ _ id _ Hs) as [Hr1 Hr2]. split.
  - intros Hg. by apply (wake_all_ok _ _ _ (Hr2 Hg)).
  - unfold lane_give_up, sem_cancel. simpl.
    replace (if is_granted id (ln_sem l) then sem_value (ln_sem l) + 1 else sem_value (ln_sem l))
      with (sem_value (ln_sem l) + b2z (is_granted id (ln_sem l))) by (destruct (is_granted _ _); simpl; lia).
    by apply (wake_all_ok _ _ _ Hr1).
Qed.

(** A step after which the lane has at most [max] calls in flight, as when the broker
    admits within the lane's ceiling. *)
Definition bounded_step (max : Z) (l l' : Lane) : Prop := lane_step l l' /\ in_flight l' <= max.

Lemma enter_immediate max timeout id l :
  lane_ok max l -> sem_waiters (ln_sem l) = [] -> in_flight l < max -> expires_at_once timeout = false ->
  fst (lane_enter timeout id l) = Holds /\ sem_waiters (ln_sem (snd (lane_enter timeout id l))) = [].
Proof.
  intros [[Hb Hv Hn Ho] _] Hw Hlt Ht. unfold lane_enter, sem_acquire, locked. rewrite Ht, Hw. simpl.
  rewrite Hw in Hb. unfold granted_count in Hb. rewrite countb_nil in Hb.
  unfold in_flight, waiting_ids in Hlt. rewrite Hw in Hlt. simpl in Hlt.
  destruct (sem_value (ln_sem l) =? 0) eqn:E; reflect_tests; [lia|]. done.
Qed.

(** Within its ceiling a lane neither queues nor refuses.  If the broker never has more
    than [max] calls in flight on a lane, nobody ever waits for the semaphore, and every
    call that the ceiling has room for gets its slot at once, unless the configured
    timeout is not positive: then every call is refused, even on an idle lane. *)
Theorem ceiling_makes_waiting_unneeded max l0 l :
  new_lane max = Ret l0 -> rtc (bounded_step max) l0 l ->
  sem_waiters (ln_sem l) = []
  /\ forall timeout id, in_flight l < max ->
       fst (lane_enter timeout id l) = if expires_at_once timeout then Refused else Holds.
Proof.
  intros Hnew Hreach.
  assert (Hinv : lane_ok max l /\ sem_waiters (ln_sem l) = []).
  { pose proof (reachable_ok max l0 l0 Hnew (rtc_refl _ _)) as H0.
    assert (Hw0 : sem_waiters (ln_sem l0) = []).
    { unfold new_lane, new_semaphore in Hnew. destruct (max <? 0); [done|]. by injection Hnew as <-. }
    revert Hreach. apply (rtc_ind_r (fun l => lane_ok max l /\ sem_waiters (ln_sem l) = [])); [done|].
    intros y z _ [Hyz Hle] [Hy Hw]. split; [by eapply step_ok|].
    destruct Hyz as [timeout id y Hid Hh|id y Hg|id y Hid|id y Hid].
    - destruct (expires_at_once timeout) eqn:Et; [unfold lane_enter; by rewrite Et|].
      apply (enter_immediate max timeout id y); [done|done| |done].
      unfold lane_enter, sem_acquire in Hle. rewrite Et in Hle.
      unfold in_flight, waiting_ids in *. rewrite Hw in *.
      destruct (negb (locked (ln_sem y))); simpl in Hle; rewrite ?length_app in Hle; simpl in *; lia.
    - unfold is_granted in Hg. by rewrite Hw in Hg.
    - unfold waiting_ids in Hid. rewrite Hw in Hid. by apply elem_of_nil in Hid.
    - unfold lane_leave, sem_release, wake_up_next. simpl. by rewrite Hw. }
  destruct Hinv as [Hok Hw]. split; [done|]. intros timeout id Hlt.
  destruct (expires_at_once timeout) eqn:Et; [unfold lane_enter; by rewrite Et|].
  by apply (enter_immediate max timeout id l).
Qed.

(** ** Witnesses *)

(** A lane of one slot: a second call waits, the first leaves, the second is granted. *)
Definition demo_lane0 : Lane := mkLaneSlots (mkSem 1 []) [].
Definition demo_lane1 : Lane := snd (lane_enter (Fin 5) 7 demo_lane0).
Definition demo_lane2 : Lane := snd (lane_enter (Fin 5) 8 demo_lane1).
Definition demo_lane3 : Lane := lane_leave 7 demo_lane2.

Lemma demo_lane_run : rtc lane_step demo_lane0 demo_lane3.
Proof.
  apply rtc_l with demo_lane1; [apply lane_enters; by apply (bool_decide_unpack _)|].
  apply rtc_l with demo_lane2; [apply lane_enters; by apply (bool_decide_unpack _)|].
  apply rtc_once, lane_leaves. by apply (bool_decide_unpack _).
Qed.

Lemma lane_slots_conserved_witness :
  new_lane 1 = Ret demo_lane0 /\ sem_waiters (ln_sem demo_lane3) = [(8, true)]
  /\ Z.of_nat (length (ln_holding demo_lane3)) <= 1.
Proof.
  split; [reflexivity|]. split; [vm_compute; reflexivity|].
  exact (proj1 (lane_slots_conserved 1 demo_lane0 demo_lane3 eq_refl demo_lane_run)).
Defined.

Lemma no_waiter_is_stranded_witness :
  is_granted 8 (ln_sem demo_lane3) = true /\ settled (ln_sem (lane_resume 8 demo_lane3)).
Proof.
  assert (H : is_granted 8 (ln_sem demo_lane3) = true) by (vm_compute; reflexivity).
  split; [exact H|].
  exact (proj1 (proj2 (no_waiter_is_stranded 1 demo_lane0 demo_lane3 eq_refl demo_lane_run) 8) H).
Defined.

Lemma ceiling_makes_waiting_unneeded_witness :
  fst (lane_enter (Fin 5) 9 demo_lane0) = Holds /\ fst (lane_enter (Fin 0) 9 demo_lane0) = Refused
  /\ sem_waiters (ln_sem demo_lane1) = [].
Proof.
  destruct (ceiling_makes_waiting_unneeded 1 demo_lane0 demo_lane0 eq_refl (rtc_refl _ _)) as [_ H].
  assert (Hlt : in_flight demo_lane0 < 1) by (vm_compute; reflexivity).
  split; [exact (H (Fin 5) 9 Hlt)|]. split; [exact (H (Fin 0) 9 Hlt)|].
  apply (ceiling_makes_waiting_unneeded 1 demo_lane0 demo_lane1 eq_refl).
  apply rtc_once. split; [apply lane_enters; by apply (bool_decide_unpack _) | vm_compute; discriminate].
Defined.
