(* ===== verification/SidecarProps.v ===== *)
(** * Guarantees of the sidecar adapters

    Children are accounted for, the readiness loop ends, and what the lanes let through,
    report and forward. *)

From S2P Require Import Prelude PyDict PyStr PySeq PyRe Config Contracts Correlation ControlPlane.
From S2P Require Import CapacityController RequestPolicy LogSafety Registry ModelPath Routing Forward ForwardProps Sidecar.

Open Scope string_scope.

(** ** Children *)

(** The child with this id runs. *)
Definition alive (pid : Z) (os : children) : Prop := dget pid os = Some None.

(** The operations on a wrapper, and the children's own exits, as atomic steps. *)
Inductive proc_op :=
| OpExit (pid rc : Z)
| OpStart (launch : pyres (list string)) (popen : string + Z) (now : Q)
| OpStop (on_term on_kill : option Z)
| OpRestart (on_term on_kill : option Z) (launch : pyres (list string)) (popen : string + Z) (now : Q)
| OpCheckExited
| OpReadyRound (timeout : pyfloat) (started : Q) (on_term on_kill : option Z) (r : ready_round).

Section children.
Context (float_str : pyfloat -> string) (text : WrapperText).

Definition proc_apply (op : proc_op) (s : ManagedServer * children) : ManagedServer * children :=
  let '(m, os) := s in
  match op with
  | OpExit pid rc => (m, child_exits pid rc os)
  | OpStart launch popen now => let '(_, m, os) := start text launch popen now m os in (m, os)
  | OpStop t k => stop t k m os
  | OpRestart t k launch popen now => let '(_, m, os) := restart text t k launch popen now m os in (m, os)
  | OpCheckExited => let '(_, m) := check_exited m os in (m, os)
  | OpReadyRound timeout started t k r =>
      let '(_, m, os) := ready_iter float_str text timeout started t k r m os in (m, os)
  end.

(** The operating system gives a new child an id not in use, and no child survives
    SIGKILL past the timeout. *)
Definition new_pid (popen : string + Z) (os : children) : Prop :=
  match popen with inr pid => dget pid os = None | inl _ => True end.

Definition dies (on_term on_kill : option Z) : Prop := is_Some on_term \/ is_Some on_kill.

Definition op_fair (op : proc_op) (os : children) : Prop :=
  match op with
  | OpStart _ popen _ => new_pid popen os
  | OpStop t k => dies t k
  | OpRestart t k _ popen _ => new_pid popen os /\ dies t k
  | OpReadyRound _ _ t k _ => dies t k
  | OpExit _ _ | OpCheckExited => True
  end.

Inductive proc_step : ManagedServer * children -> ManagedServer * children -> Prop :=
| proc_step_intro op s : op_fair op s.2 -> proc_step s (proc_apply op s).

(** Every running child is the wrapper's. *)
Definition owned (s : ManagedServer * children) : Prop := forall pid, alive pid s.2 -> mp_process s.1 = Some pid.

Lemma alive_exits pid pid' rc os : alive pid (child_exits pid' rc os) -> alive pid os /\ pid <> pid'.
Proof.
  unfold alive, child_exits. destruct (dget pid' os) as [[?|]|] eqn:E; [| |];
    try (intros H; split; [done|]; intros ->; congruence).
  rewrite dget_dset. case_decide; [done|]. by intros.
Qed.

Lemma owned_stop t k m os : dies t k -> owned (m, os) -> owned (stop t k m os).
Proof.
  intros Hd Ho. unfold stop. destruct (mp_process m) as [pid|] eqn:Em; [|done].
  unfold poll. destruct (dget pid os) as [[rc|]|] eqn:Ep; simpl.
  - intros pid' H. pose proof (Ho pid' H) as H'. simpl in H'. rewrite Em in H'. injection H' as <-.
    unfold alive in H. simpl in H. congruence.
  - assert (Hgone : forall rc, owned (new_managed, child_exits pid rc os)).
    { intros rc pid' [Ha Hne]%alive_exits. specialize (Ho pid' Ha). simpl in Ho. congruence. }
    destruct t; [apply Hgone|]. destruct k; [apply Hgone|]. by destruct Hd as [[? ?]|[? ?]].
  - assert (Hnone : forall pid', ~ alive pid' os).
    { intros pid' Ha. pose proof (Ho pid' Ha) as H'. simpl in H'. rewrite Em in H'. injection H' as <-.
      unfold alive in Ha. congruence. }
    destruct t; [|destruct k]; intros pid' H; exfalso; simpl in H;
      try (apply alive_exits in H as [H _]); by apply (Hnone pid').
Qed.

Lemma owned_start launch popen now m os :
  new_pid popen os -> owned (m, os) ->
  let '(_, m, os) := start text launch popen now m os in owned (m, os).
Proof.
  intros Hn Ho. unfold start. destruct (is_running m os) eqn:Er; [done|].
  destruct launch as [argv|]; [|done]. destruct popen as [exc|pid]; [done|].
  intros pid' H. unfold alive in H. simpl in *. rewrite dget_dset in H. case_decide; [by subst|].
  exfalso. pose proof (Ho pid' H) as Hm. simpl in Hm. unfold is_running in Er. rewrite Hm in Er.
  unfold poll in Er. by rewrite H in Er.
Qed.

Lemma owned_check m os : owned (m, os) -> owned ((check_exited m os).2, os).
Proof.
  intros Ho. unfold check_exited. destruct (mp_process m) as [pid|] eqn:Em; [|done].
  destruct (poll pid os) as [rc|] eqn:Ep; [|done]. intros pid' H. pose proof (Ho pid' H) as Hm. simpl in Hm.
  rewrite Em in Hm. injection Hm as <-. unfold poll in Ep. unfold alive in H. simpl in H. by rewrite H in Ep.
Qed.

Lemma owned_exits rc m os : owned (m, os) -> owned (m, exits_now rc m os).
Proof.
  intros Ho pid H. apply Ho. unfold exits_now in H. simpl in *.
  destruct rc; [|done]. destruct (mp_process m); [|done]. by apply alive_exits in H as [? _].
Qed.

Lemma owned_step s s' : proc_step s s' -> owned s -> owned s'.
Proof.
  intros [op [m os] Hf] Ho. destruct op as [pid rc|launch popen now|t k|t k launch popen now| |timeout started t k r];
    simpl in *.
  - intros pid' [H _]%alive_exits. by apply Ho.
  - pose proof (owned_start launch popen now m os Hf Ho) as H. by destruct (start _ _ _ _ _ _) as [[? ?] ?].
  - by apply owned_stop.
  - destruct Hf as [Hn Hd]. unfold restart. pose proof (owned_stop t k m os Hd Ho) as H.
    assert (Hn' : new_pid popen (stop t k m os).2).
    { destruct popen as [|pid]; [done|]. simpl in *. unfold stop. destruct (mp_process m) as [p|]; [|done].
      assert (Hx : forall rc, dget pid (child_exits p rc os) = None).
      { intros rc. unfold child_exits. destruct (dget p os) as [[?|]|] eqn:E; [done| |done].
        rewrite dget_dset_ne; [done|]. intros ->. congruence. }
      destruct (poll p os); [done|]. destruct t; [apply Hx|]. destruct k; [apply Hx|done]. }
    destruct (stop t k m os) as [m' os']. pose proof (owned_start launch popen now m' os' Hn' H) as H'.
    by destruct (start _ _ _ _ _ _) as [[? ?] ?].
  - pose proof (owned_check m os Ho) as H. by destruct (check_exited m os).
  - unfold ready_iter. destruct (before_deadline _ _ _).
    + pose proof (owned_exits (rr_exit r) m os Ho) as H. destruct (negb _); [done|].
      pose proof (owned_exits (rr_exit_in_probe r) m _ H) as H'. apply owned_check in H'.
      by destruct (check_exited m _).
    + pose proof (owned_stop t k m os Hf Ho) as H. by destruct (stop t k m os).
Qed.

(** C13: No child is orphaned.  Over any interleaving of launches, stops, restarts, rounds of
    the readiness loop, liveness checks and exits, every running child is the one its
    wrapper holds: at most one server runs, and nothing the broker launched runs
    unsupervised, as long as no child survives SIGKILL past the timeout. *)
Theorem no_child_is_orphaned m os :
  rtc proc_step (new_managed, []) (m, os) ->
  (forall pid, alive pid os -> mp_process m = Some pid)
  /\ (forall pid pid', alive pid os -> alive pid' os -> pid = pid').
Proof.
  intros H.
  assert (Ho : owned (m, os)).
  { revert H. apply (rtc_ind_r owned); [by intros pid|]. intros y z _ Hyz Hy. by eapply owned_step. }
  split; [exact Ho|]. intros pid pid' H1%Ho H2%Ho. congruence.
Qed.

(** ** The readiness loop *)

(** What the loop ends with, given the children afterwards. *)
Definition ready_outcome (result : pyres unit) (m : ManagedServer) (os : children) : Prop :=
  match result with
  | Ret _ => is_running m os = true
  | Raise _ => is_running m os = false
  end.

Lemma check_exited_running m os :
  let '(exited, m') := check_exited m os in is_running m os = true -> exited = false /\ m' = m.
Proof.
  unfold check_exited, is_running. destruct (mp_process m) as [pid|]; [|done]. by destruct (poll pid os).
Qed.

Lemma stop_not_running t k m os : is_running (stop t k m os).1 (stop t k m os).2 = false.
Proof.
  unfold stop. destruct (mp_process m) as [pid|] eqn:Em; [|unfold is_running; simpl; by rewrite Em].
  destruct (poll pid os); [done|]. by destruct t.
Qed.

End children.

(** ** What the lanes let through *)

(** The call fails with [RuntimeWarming]. *)
Definition warming_error (e : lane_error) : Prop :=
  match e with LaneForward (Upstream u) => ue_class u = RuntimeWarming | _ => False end.

(** The lifecycles an unreachable status carries. *)
Definition unreachable_ok (h : HealthStatus) : Prop := hs_reachable h = false -> hs_model_lifecycle h <> "warming".

Section gates.
Context (float_str : pyfloat -> string) (httpx_installed : bool) (max_concurrent : Z).

Lemma gate_not_warming {S : Type} (l : LaneView S) s :
  (forall h s', lv_health l s = (Ret h, s') -> unreachable_ok h) ->
  forall e s', lane_gate l s = (Some e, s') -> ~ warming_error e.
Proof.
  intros Hh e s'. unfold lane_gate. destruct (lv_rejected l); [intros [= <- <-]; simpl; congruence|].
  destruct (lv_health l s) as [[h|exc] s1] eqn:E; [|intros [= <- <-]; simpl; tauto].
  destruct (hs_reachable h) eqn:Er; simpl; [done|]. intros [= <- <-].
  pose proof (Hh h s1 eq_refl Er) as Hne.
  destruct (String.eqb_spec (hs_model_lifecycle h) "warming"); [done|]. simpl. congruence.
Qed.

Ltac status_ok := unfold unreachable_ok; repeat (split_if || case_match); simpl; intros; discriminate.

Lemma llama_classify_ok exc timeout : unreachable_ok (llama_classify_health float_str exc timeout).
Proof. unfold llama_classify_health. status_ok. Qed.

Lemma mlx_lm_classify_ok exc timeout : unreachable_ok (mlx_lm_classify_health float_str exc timeout).
Proof. unfold mlx_lm_classify_health. status_ok. Qed.

Lemma mlx_vlm_classify_ok exc timeout : unreachable_ok (mlx_vlm_classify_health float_str exc timeout).
Proof. unfold mlx_vlm_classify_health. status_ok. Qed.

#[local] Hint Resolve llama_classify_ok mlx_lm_classify_ok mlx_vlm_classify_ok : core.

Ltac probe_ok := repeat (split_if || case_match); simplify_eq; first [by auto | status_ok].

Lemma llama_health_ok urlparse c get s h s' :
  llama_check_health float_str httpx_installed urlparse c get s = (Ret h, s') -> unreachable_ok h.
Proof.
  assert (Hp : unreachable_ok (llama_probe_server float_str httpx_installed get (lc_health_timeout_seconds c)))
    by (unfold llama_probe_server; probe_ok).
  unfold llama_check_health. intros H.
  repeat (case_match || split_if); simplify_eq; try status_ok; try by auto.
  destruct (validate_server_url urlparse c); simpl in H; by simplify_eq.
Qed.

Lemma mlx_lm_health_ok c binding get s :
  unreachable_ok (mlx_lm_check_health float_str httpx_installed c binding get s).1.
Proof.
  assert (Hp : unreachable_ok (mlx_lm_probe_server float_str httpx_installed get (mc_health_timeout_seconds c)))
    by (unfold mlx_lm_probe_server; probe_ok).
  unfold mlx_lm_check_health. repeat (case_match || split_if); simpl; first [by auto | status_ok].
Qed.

Lemma mlx_vlm_health_ok {A} c get (v : VlmState A) :
  unreachable_ok (mlx_vlm_check_health float_str httpx_installed c get v).1.
Proof.
  assert (Hp : forall w : VlmState A,
    unreachable_ok (mlx_vlm_probe_server float_str httpx_installed get (mc_health_timeout_seconds c) w).1)
    by (intros w; unfold mlx_vlm_probe_server; repeat (case_match || split_if); simpl; first [by auto | status_ok]).
  unfold mlx_vlm_check_health. repeat (case_match || split_if); simpl; first [by auto | status_ok].
Qed.

(** Warming servers get traffic.  No lane ever turns a request away as warming: its check
    looks for a lifecycle that only reachable servers have.  And a server that answers,
    whatever it answers, is let through: an MLX-LM server the health check itself calls
    warming gets the request. *)
Theorem warming_servers_get_traffic {A} urlparse lc c binding get s (v : VlmState A) :
  (forall e s', lane_gate (llama_lane float_str httpx_installed max_concurrent urlparse lc binding get) s
                = (Some e, s') -> ~ warming_error e)
  /\ (forall e s', lane_gate (mlx_lm_lane float_str httpx_installed max_concurrent c binding get) s
                   = (Some e, s') -> ~ warming_error e)
  /\ (forall e v', lane_gate (mlx_vlm_lane float_str httpx_installed max_concurrent c get) v
                   = (Some e, v') -> ~ warming_error e)
  /\ forall status json,
       httpx_installed = true -> mc_enabled c = true -> str_truthy (bound_model binding (mc_model c)) = true ->
       sc_managed s = None -> status <> 200%Z -> get "/v1/models" = inr (status, json) ->
       hs_model_lifecycle (mlx_lm_check_health float_str httpx_installed c binding get s).1 = "warming"
       /\ lane_gate (mlx_lm_lane float_str httpx_installed max_concurrent c binding get) s = (None, s).
Proof.
  split; [|split; [|split]].
  - apply gate_not_warming. intros h s'. apply llama_health_ok.
  - apply gate_not_warming. intros h s'. simpl. pose proof (mlx_lm_health_ok c binding get s) as H.
    destruct (mlx_lm_check_health _ _ _ _ _ _). by intros [= <- _].
  - apply gate_not_warming. intros h v'. simpl. pose proof (mlx_vlm_health_ok c get v) as H.
    destruct (mlx_vlm_check_health _ _ _ _ _). by intros [= <- _].
  - intros status json Hx He Hm Hs Hne Hget. apply Z.eqb_neq in Hne.
    unfold lane_gate. simpl. unfold mlx_lm_check_health, mlx_lm_probe_server.
    rewrite Hx, He, Hm, Hs, Hget, Hne. done.
Qed.

(** ** Supervision of the MLX lanes *)

(** What can happen to an MLX-LM adapter: its operations, and the exit of a child. *)
Inductive mlx_lm_step (c : MlxLmServerConfig) : SidecarState -> SidecarState -> Prop :=
| step_warmup binding get x s result s' :
    mlx_lm_warmup float_str httpx_installed c binding get x s = Some (result, s') -> mlx_lm_step c s s'
| step_unload on_term on_kill s : mlx_lm_step c s (sidecar_unload on_term on_kill s)
| step_health binding get s : mlx_lm_step c s (mlx_lm_health float_str httpx_installed c binding get s).2
| step_models binding get s : mlx_lm_step c s (mlx_lm_list_models float_str httpx_installed c binding get s).2
| step_gate binding get s :
    mlx_lm_step c s (lane_gate (mlx_lm_lane float_str httpx_installed max_concurrent c binding get) s).2
| step_exit pid rc s : mlx_lm_step c s (mkSidecar (sc_managed s) (child_exits pid rc (sc_children s))).

Lemma mlx_lm_check_external c binding get s :
  sc_managed s = None -> (mlx_lm_check_health float_str httpx_installed c binding get s).2 = s.
Proof. intros H. unfold mlx_lm_check_health. rewrite H. by repeat split_if. Qed.

(** The MLX-LM server is never supervised.  No operation of the adapter creates the
    wrapper that warmup would start: whatever is called, in whatever order, no child is
    ever launched, and warmup only probes a server somebody else must run. *)
Theorem mlx_lm_server_is_never_supervised c s :
  rtc (mlx_lm_step c) new_sidecar s -> s = new_sidecar.
Proof.
  apply (rtc_ind_r (fun s => s = new_sidecar)); [done|]. intros y z _ Hyz ->.
  assert (Hc : forall binding get, (mlx_lm_check_health float_str httpx_installed c binding get new_sidecar).2
                                   = new_sidecar) by (intros; by apply mlx_lm_check_external).
  inversion Hyz as [binding get x s0 result s' H|t k s0|binding get s0|binding get s0|binding get s0|pid rc s0]; subst.
  - unfold mlx_lm_warmup in H. destruct (negb (mc_enabled c)); [by simplify_eq|].
    destruct (negb (str_truthy _)); [by simplify_eq|]. simpl in H. specialize (Hc binding get).
    destruct (mlx_lm_check_health _ _ _ _ _ _) as [h s1]. simpl in Hc. by simplify_eq.
  - done.
  - unfold mlx_lm_health. split_if; [done|]. specialize (Hc binding get).
    destruct (mlx_lm_check_health _ _ _ _ _ _) as [h s1]. simpl in Hc. by subst.
  - unfold mlx_lm_list_models. split_if; [done|]. simpl. specialize (Hc binding get).
    destruct (mlx_lm_check_health _ _ _ _ _ _) as [h s1]. simpl in Hc. by subst.
  - unfold lane_gate. simpl. specialize (Hc binding get).
    destruct (mlx_lm_check_health _ _ _ _ _ _) as [h s1]. simpl in Hc. subst. by split_if.
  - done.
Qed.
End gates.

(** ** Generate requests *)

(** Another [top_p] and [stop]. *)
Definition with_sampling (top_p : pyval) (stop : option (list string)) (r : BackendGenerateRequest)
    : BackendGenerateRequest :=
  mkBackendGenerate (bg_prompt r) (bg_model_id r) (bg_max_tokens r) (bg_temperature r) top_p stop (bg_request_id r)
    (bg_adapter_kind r).

(** Generate drops the sampling settings.  On every sidecar lane the answer to a generate
    request is the same whatever its [top_p] and its stop sequences: the body sent
    upstream always has the default [top_p] of a chat request, and no stop sequences. *)
Theorem generate_drops_sampling {S} urlsplit installed (l : LaneView S) name model uuid post request top_p stop s :
  lane_generate urlsplit installed l name model uuid post (with_sampling top_p stop request) s
  = lane_generate urlsplit installed l name model uuid post request s
  /\ forall override kind body,
       build_forward_body (inl (generate_chat_request model request)) override kind = inr body ->
       dget "top_p" body = Some (PFloat (95 # 100)) /\ dget "stop" body = None
       /\ dget "temperature" body = (if is_none (bg_temperature request) then None else Some (bg_temperature request)).
Proof.
  split; [done|]. intros override kind body Hb.
  apply forward_body_spec in Hb as [_ Hv]; [|constructor]. by rewrite !Hv.
Qed.

(** ** Witnesses *)

Definition demo_float (t : pyfloat) : string := "t".

Definition demo_round (now : Q) (reachable : bool) : ready_round := mkRound now None None reachable.

(** A launch, a round of waiting, and a restart that needs SIGKILL. *)
Lemma no_child_is_orphaned_witness :
  let s1 := proc_apply demo_float mlx_lm_text (OpStart (Ret ["python"]) (inr 41%Z) 0) (new_managed, []) in
  let s2 := proc_apply demo_float mlx_lm_text
              (OpRestart None (Some (-9)%Z) (Ret ["python"]) (inr 42%Z) 1) s1 in
  s2 = (mkManaged (Some 42%Z) (Some 1%Q), [(41, Some (-9)); (42, None)]%Z)
  /\ forall pid, alive pid s2.2 -> mp_process s2.1 = Some pid.
Proof.
  intros s1 s2. split; [vm_compute; reflexivity|].
  apply (no_child_is_orphaned demo_float mlx_lm_text s2.1 s2.2).
  apply rtc_l with s1; [apply proc_step_intro; vm_compute; reflexivity|].
  apply rtc_once. change (s2.1, s2.2) with s2. apply proc_step_intro. split; [vm_compute; reflexivity|].
  right. by eexists.
Defined.


Definition demo_mlx_config : MlxLmServerConfig := mkMlxConfig true "127.0.0.1" 8081 (Some "org/m") [] (Fin 30) (Fin 2).

Lemma mlx_lm_server_is_never_supervised_witness :
  let s := (mlx_lm_health demo_float true demo_mlx_config None (fun _ => inr (200%Z, inr PNone))
              (sidecar_unload None None new_sidecar)).2 in
  s = new_sidecar.
Proof.
  intros s. apply (mlx_lm_server_is_never_supervised demo_float true 2 demo_mlx_config s).
  eapply rtc_l; [apply (step_unload _ _ _ _ None None)|]. apply rtc_once, step_health.
Defined.
