(* ===== verification/ModelStore.v ===== *)
(** * The persistent model store: contracts, bootstrap and candidates
      ([model_registry/contracts.py], [bootstrap.py], [candidates.py])

    A store is a directory with a durable manifest, [registry/models.json].  Artifacts
    are inspected as candidates, whose records are written under
    [registry/candidates]; registration ([ModelRegister]) promotes them.

    - [files] is what the process sees of the file system: a node per absolute path.  A
      text file is what [json.loads] and the decoder make of it, so reading back what
      [json.dumps] wrote gives the same value.  Links are not modelled apart from
      [resolve], which stands for [Path.resolve]; a path with a [..] in it is looked up
      as it is written.
    - [py_str] renders a value that is not a string ([str(x)]); [sha256_hex] is the
      digest; the iteration order of the set [_VLM_ARTIFACT_NAMES] is [artifact_order].
    - A write can fail: [write_fails] is what the atomic write raises. *)

From S2P Require Import Prelude PyDict PyStr PySeq PyRe ControlPlane ModelPath LogSafety.
From Stdlib Require Import Ascii.

(** ** Files *)
Inductive content := Json (v : pyval) | NotJson | NotUtf8 | Unreadable.
Inductive node := Dir | File (c : content).
Abbreviation files := (gmap path node).

Definition p_exists (p : path) (w : files) : bool := match w !! p with Some _ => true | None => false end.
Definition p_is_dir (p : path) (w : files) : bool := match w !! p with Some Dir => true | _ => false end.
Definition p_is_file (p : path) (w : files) : bool := match w !! p with Some (File _) => true | _ => false end.

(** The name under which [q] is listed in [p]. *)
Definition child_name (p q : path) : option string :=
  match last q with Some n => if decide (q = p ++ [n]) then Some n else None | None => None end.

(** [p.iterdir()], as names. *)
Definition iterdir (p : path) (w : files) : list string :=
  omap (fun '(q, _) => child_name p q) (map_to_list w).

Definition os_error (what : string) : pyexc := Exc "OSError" what.

(** [json.loads(p.read_text(encoding="utf-8"))] *)
Definition read_json (p : path) (w : files) : pyres pyval :=
  match w !! p with
  | Some (File (Json v)) => Ret v
  | Some (File NotJson) => Raise (Exc "JSONDecodeError" "")
  | Some (File NotUtf8) => Raise (Exc "UnicodeDecodeError" "")
  | Some (File Unreadable) | Some Dir | None => Raise (os_error "read")
  end.

(** [except (json.JSONDecodeError, OSError)] *)
Definition json_or_os (e : pyexc) : bool :=
  match e with
  | Exc class _ => String.eqb class "JSONDecodeError" || String.eqb class "OSError"
  | _ => false
  end.

(** [p.mkdir(parents=True, exist_ok=True)] *)
Fixpoint mkdir_each (ps : list path) (w : files) : pyres unit * files :=
  match ps with
  | [] => (Ret tt, w)
  | p :: rest =>
      match w !! p with
      | Some Dir => mkdir_each rest w
      | Some (File _) => (Raise (os_error "mkdir"), w)
      | None => mkdir_each rest (<[p := Dir]> w)
      end
  end.

(** The path and its ancestors, outermost first. *)
Definition ancestry (p : path) : list path := map (fun n => take (S n) p) (seq 0 (length p)).

Definition mkdirs (p : path) (w : files) : pyres unit * files :=
  if p_is_dir p w then (Ret tt, w) else mkdir_each (ancestry p) w.

(** ** JSON values as Python objects *)

(** [Path(p).name] (the root has none) and [Path(name).suffix] *)
Definition path_name (p : path) : string :=
  match last p with
  | Some n => if String.eqb n "/" || String.eqb n "//" then "" else n
  | None => ""
  end.

Definition path_suffix (name : string) : string :=
  String.substring (String.length (path_stem name)) (String.length name) name.

Section python.
Context (py_str : pyval -> string).

(** [str(x)] *)
Definition str_val (v : pyval) : string := match v with PStr s => s | _ => py_str v end.

Definition chars_of (s : string) : list pyval :=
  map (fun c => PStr (String c "")) (String.list_ascii_of_string s).

(** Iteration, as in [list(x)]. *)
Definition py_list (v : pyval) : pyres (list pyval) :=
  match v with
  | PList l => Ret l
  | PStr s => Ret (chars_of s)
  | PDict d => Ret (map PStr (dkeys d))
  | _ => Raise (Exc "TypeError" "object is not iterable")
  end.

(** [data.get] is an attribute of dictionaries only. *)
Definition py_get (data : pyval) : pyres (list (string * pyval)) :=
  match data with PDict d => Ret d | _ => Raise (Exc "AttributeError" "get") end.

Definition get_str (d : list (string * pyval)) (key dflt : string) : string :=
  str_val (default (PStr dflt) (dget key d)).

Definition get_list (d : list (string * pyval)) (key : string) : pyres (list pyval) :=
  py_list (default (PList []) (dget key d)).

Definition is_str (s : string) (v : pyval) : bool :=
  match v with PStr t => String.eqb t s | _ => false end.

(** [s in l] for a string [s]. *)
Definition has_str (s : string) (l : list pyval) : bool := existsb (is_str s) l.

(** [d.get(key) == s] *)
Definition get_is (d : list (string * pyval)) (key s : string) : bool :=
  match dget key d with Some v => is_str s v | None => false end.

(** ** The store's layout ([ModelStoreLayout]) *)
Section layout.
Context (store_root : path).
Definition incoming : path := store_root ++ ["incoming"].
Definition models_mlx : path := store_root ++ ["models"; "mlx"].
Definition models_gguf : path := store_root ++ ["models"; "gguf"].
Definition models_vlm : path := store_root ++ ["models"; "vlm"].
Definition registry_dir : path := store_root ++ ["registry"].
Definition quarantine : path := store_root ++ ["quarantine"].
Definition tmp : path := store_root ++ ["tmp"].
Definition manifest_path : path := store_root ++ ["registry"; "models.json"].

Definition all_directories : list path :=
  [incoming; models_mlx; models_gguf; models_vlm; registry_dir; quarantine; tmp].
End layout.

(** ** The contracts ([contracts.py]) *)
Record ModelRegistryManifest := mkManifest {
  mft_schema_version : Z;
  mft_store_root : string;
  mft_created_at : string;
  mft_updated_at : string;
  mft_models : list pyval;
}.

Definition manifest_create (store_root : path) (now : string) : ModelRegistryManifest :=
  mkManifest 1 (str_path store_root) now now [].

Definition manifest_touch (now : string) (m : ModelRegistryManifest) : ModelRegistryManifest :=
  mkManifest (mft_schema_version m) (mft_store_root m) (mft_created_at m) now (mft_models m).

Definition manifest_append (entry : pyval) (m : ModelRegistryManifest) : ModelRegistryManifest :=
  mkManifest (mft_schema_version m) (mft_store_root m) (mft_created_at m) (mft_updated_at m)
    (mft_models m ++ [entry]).

Definition manifest_to_dict (m : ModelRegistryManifest) : list (string * pyval) :=
  [("schema_version", PInt (mft_schema_version m)); ("store_root", PStr (mft_store_root m));
   ("created_at", PStr (mft_created_at m)); ("updated_at", PStr (mft_updated_at m));
   ("models", PList (mft_models m))].

Definition manifest_from_dict (data : pyval) : pyres ModelRegistryManifest :=
  let! d := py_get data in
  let! version := py_int_of (default (PInt 1) (dget "schema_version" d)) in
  let! models := get_list d "models" in
  Ret (mkManifest version (get_str d "store_root" "") (get_str d "created_at" "")
         (get_str d "updated_at" "") models).

Record ModelCandidate := mkCandidate {
  mcd_candidate_id : string;
  mcd_status : string;
  mcd_source_path : string;
  mcd_detected_format : string;
  mcd_detected_family : string;
  mcd_modalities : list pyval;
  mcd_evidence : list pyval;
  mcd_problems : list pyval;
  mcd_created_at : string;
}.

Definition candidate_to_dict (c : ModelCandidate) : list (string * pyval) :=
  [("candidate_id", PStr (mcd_candidate_id c)); ("status", PStr (mcd_status c));
   ("source_path", PStr (mcd_source_path c)); ("detected_format", PStr (mcd_detected_format c));
   ("detected_family", PStr (mcd_detected_family c)); ("modalities", PList (mcd_modalities c));
   ("evidence", PList (mcd_evidence c)); ("problems", PList (mcd_problems c));
   ("created_at", PStr (mcd_created_at c))].

Definition candidate_from_dict (data : pyval) : pyres ModelCandidate :=
  let! d := py_get data in
  let! modalities := get_list d "modalities" in
  let! evidence := get_list d "evidence" in
  let! problems := get_list d "problems" in
  Ret (mkCandidate (get_str d "candidate_id" "") (get_str d "status" "candidate")
         (get_str d "source_path" "") (get_str d "detected_format" "unknown")
         (get_str d "detected_family" "unknown") modalities evidence problems
         (get_str d "created_at" "")).

Record RegisteredModel := mkRegistered {
  rgm_model_id : string;
  rgm_display_name : string;
  rgm_status : string;
  rgm_storage_mode : string;
  rgm_managed_path : string;
  rgm_source_candidate_id : string;
  rgm_source_path : string;
  rgm_detected_format : string;
  rgm_detected_family : string;
  rgm_modalities : list pyval;
  rgm_evidence : list pyval;
  rgm_created_at : string;
  rgm_updated_at : string;
}.

(** [RegisteredModel(model_id=...)] *)
Definition bare_model (model_id : string) : RegisteredModel :=
  mkRegistered model_id "" "registered" "managed" "" "" "" "unknown" "unknown" [] [] "" "".

Definition registered_to_dict (r : RegisteredModel) : list (string * pyval) :=
  [("model_id", PStr (rgm_model_id r)); ("display_name", PStr (rgm_display_name r));
   ("status", PStr (rgm_status r)); ("storage_mode", PStr (rgm_storage_mode r));
   ("managed_path", PStr (rgm_managed_path r));
   ("source_candidate_id", PStr (rgm_source_candidate_id r));
   ("source_path", PStr (rgm_source_path r)); ("detected_format", PStr (rgm_detected_format r));
   ("detected_family", PStr (rgm_detected_family r)); ("modalities", PList (rgm_modalities r));
   ("evidence", PList (rgm_evidence r)); ("created_at", PStr (rgm_created_at r));
   ("updated_at", PStr (rgm_updated_at r))].

Definition registered_from_dict (data : pyval) : pyres RegisteredModel :=
  let! d := py_get data in
  let! modalities := get_list d "modalities" in
  let! evidence := get_list d "evidence" in
  Ret (mkRegistered (get_str d "model_id" "") (get_str d "display_name" "")
         (get_str d "status" "registered") (get_str d "storage_mode" "managed")
         (get_str d "managed_path" "") (get_str d "source_candidate_id" "")
         (get_str d "source_path" "") (get_str d "detected_format" "unknown")
         (get_str d "detected_family" "unknown") modalities evidence
         (get_str d "created_at" "") (get_str d "updated_at" "")).

(** ** Bootstrap ([bootstrap.py]) *)
Record ModelRegistryState := mkStoreState {
  mst_store_root : string;
  mst_manifest_path : string;
  mst_manifest_created : bool;
  mst_manifest_reused : bool;
  mst_directories_created : list string;
  mst_schema_version : Z;
  mst_error : option string;
}.

(** [_write_manifest_atomic]: the temporary file is gone again in every case. *)
Definition write_manifest_atomic (write_fails : option pyexc) (root : path) (m : ModelRegistryManifest)
    (w : files) : pyres unit * files :=
  match mkdirs (tmp root) w with
  | (Raise e, w) => (Raise e, w)
  | (Ret _, w) =>
      match write_fails with
      | Some e => (Raise e, w)
      | None =>
          if p_is_dir (manifest_path root) w then (Raise (os_error "replace"), w)
          else (Ret tt, <[manifest_path root := File (Json (PDict (manifest_to_dict m)))]> w)
      end
  end.

(** The loop over the layout's directories. *)
Fixpoint create_missing (dirs : list path) (w : files) : pyres (list string) * files :=
  match dirs with
  | [] => (Ret [], w)
  | d :: rest =>
      if p_exists d w then create_missing rest w
      else
        match mkdirs d w with
        | (Raise e, w) => (Raise e, w)
        | (Ret _, w) =>
            match create_missing rest w with
            | (Ret made, w) => (Ret (str_path d :: made), w)
            | (Raise e, w) => (Raise e, w)
            end
        end
  end.

(** [f"... ({exception_metadata(exc)})"] of an exception that was caught here. *)
Definition caught_metadata (e : pyexc) : string :=
  exception_metadata (match e with Exc class msg => Some (class, msg) | _ => None end).

Definition store_error (root : path) (made : list string) (error : string) : ModelRegistryState :=
  mkStoreState (str_path root) (str_path (manifest_path root)) false false made 1 (Some error).

Definition bootstrap_model_store (expand : string -> path) (write_fails : option pyexc)
    (store_root now : string) (w : files) : pyres ModelRegistryState * files :=
  let raw := strip store_root in
  if String.eqb raw "" then (Raise (ValueError "store_root must not be empty"), w)
  else
    let root := expand raw in
    if decide (root = ["/"]) then
      (Raise (ValueError "store_root must not resolve to the filesystem root (/)"), w)
    else
      match create_missing (all_directories root) w with
      | (Raise e, w) => (Raise e, w)
      | (Ret made, w) =>
          let done (created reused : bool) (m : ModelRegistryManifest) :=
            match write_manifest_atomic write_fails root m w with
            | (Raise e, w) => (Raise e, w)
            | (Ret _, w) =>
                (Ret (mkStoreState (str_path root) (str_path (manifest_path root)) created reused made
                        (mft_schema_version m) None), w)
            end in
          if p_exists (manifest_path root) w then
            match read_json (manifest_path root) w with
            | Raise e =>
                if json_or_os e then
                  (Ret (store_error root made ("Existing manifest is unreadable (" +:+ caught_metadata e +:+ ")")), w)
                else (Raise e, w)
            | Ret data =>
                match manifest_from_dict data with
                | Raise e => (Raise e, w)
                | Ret m =>
                    if negb (mft_schema_version m =? 1)%Z then
                      (Ret (store_error root made
                              ("Unsupported manifest schema_version=" +:+ pretty (mft_schema_version m)
                               +:+ ". Expected 1.")), w)
                    else done false true (manifest_touch now m)
                end
            end
          else done true false (manifest_create root now)
      end.

(** ** Candidate inspection ([candidates.py]) *)
Definition _VLM_MODEL_TYPES : list string := ["qwen2_vl"; "qwen2-vl"; "llava"; "paligemma"].
Definition _VLM_ARCHITECTURES : list string :=
  ["qwen2vlforconditionalgeneration"; "qwen2vl"; "llavaforconditionalgeneration";
   "paligemmaforconditionalgeneration"].
Definition _VLM_ARTIFACT_NAMES : list string := ["mm_projector"; "vision_tower"; "image_newline"].
Definition _EXPLICIT_VISION_EVIDENCE : list string :=
  ["found_vision_config"; "model_type_qwen2_vl"; "model_type_qwen2-vl"; "model_type_llava";
   "model_type_paligemma"; "architecture_qwen2vlforconditionalgeneration"; "architecture_qwen2vl";
   "architecture_llavaforconditionalgeneration"; "architecture_paligemmaforconditionalgeneration";
   "found_mm_projector"; "found_vision_tower"; "found_image_newline"].

(** The family a lower-case text names. *)
Definition family_in (s : string) : option string :=
  if contains "gemma" s then Some "gemma"
  else if contains "qwen" s then Some "qwen"
  else if contains "llama" s then Some "llama" else None.

Definition detect_family (p : path) : string :=
  let name := lower (path_name p) in
  let stem := lower (path_name (path_of (rstrip_chars (Ascii.eqb "/"%char) (str_path p)))) in
  if contains "gemma" name || contains "gemma" stem then "gemma"
  else if contains "qwen" name || contains "qwen" stem then "qwen"
  else if contains "llama" name || contains "llama" stem then "llama"
  else "unknown".

(** [config.get("architectures", [])], iterated. *)
Definition architectures_of (config : list (string * pyval)) : pyres (list string) :=
  let! archs := get_list config "architectures" in
  Ret (map (fun arch => lower (str_val arch)) archs).

Definition model_type_of (config : list (string * pyval)) : string := lower (get_str config "model_type" "").

Definition detect_family_from_config (config : list (string * pyval)) : pyres string :=
  match family_in (model_type_of config) with
  | Some family => Ret family
  | None =>
      let! archs := architectures_of config in
      Ret (default "unknown" (head (omap family_in archs)))
  end.

Definition has_explicit_vision_evidence (evidence : list string) : bool :=
  existsb (fun ev => mem ev _EXPLICIT_VISION_EVIDENCE) evidence.

Definition normalize_modalities (modalities evidence : list string) : list string :=
  let has_vision := mem "vision" modalities in
  let has_text := mem "text" modalities in
  if has_vision && negb (has_explicit_vision_evidence evidence) then if has_text then ["text"] else []
  else if has_vision then if has_text then ["text"; "vision"] else ["vision"]
  else if has_text then ["text"] else [].

(** [isinstance(x, dict) and x] *)
Definition nonempty_dict (v : option pyval) : bool :=
  match v with Some (PDict (_ :: _)) => true | _ => false end.

Definition underscored (s : string) : string :=
  map_string (fun c => if Ascii.eqb c "-" then "_"%char else c) s.

(** One architecture: the evidence it gives, or nothing. *)
Definition architecture_evidence (vision_config : bool) (arch_lower : string) : option (list string) :=
  if mem arch_lower _VLM_ARCHITECTURES then Some ["architecture_" +:+ arch_lower]
  else if contains "forconditionalgeneration" arch_lower && vision_config then
    Some ["found_vision_config"; "architecture_" +:+ arch_lower]
  else None.

(** [_detect_modalities]: the modalities and what is appended to the evidence. *)
Definition detect_modalities (artifact_order : list string) (config : list (string * pyval))
    (directory : path) (w : files) : pyres (list string * list string) :=
  let model_type := model_type_of config in
  let vision_config := nonempty_dict (dget "vision_config" config) in
  let text_config := nonempty_dict (dget "text_config" config) in
  let vision evidence := Ret (["text"; "vision"], evidence) in
  if mem model_type _VLM_MODEL_TYPES then vision ["model_type_" +:+ underscored model_type]
  else if vision_config then
    vision ("found_vision_config" :: if text_config then ["found_text_config"] else [])
  else
    let! archs := architectures_of config in
    match head (omap (architecture_evidence vision_config) archs) with
    | Some evidence => vision evidence
    | None =>
        if p_is_dir directory w then
          match List.find (fun artifact => p_exists (directory ++ [artifact]) w) artifact_order with
          | Some artifact => vision ["found_" +:+ artifact]
          | None => Ret (["text"], [])
          end
        else Ret (["text"], [])
    end.

Section inspect.
Context (sha256_hex : string -> string) (artifact_order : list string).

Definition make_candidate_id (source : string) (evidence : list string) : string :=
  str_take 16 (sha256_hex (source +:+ "||" +:+ join "|" (sorted_names evidence))).

Definition empty_candidate (source now : string) : ModelCandidate :=
  mkCandidate (make_candidate_id source []) "invalid" source "unknown" "unknown" [] [] [] now.

(** The files a directory is judged by: configuration, tokenizer and weights. *)
Definition config_file (d : path) (w : files) : bool := p_is_file (d ++ ["config.json"]) w.
Definition tokenizer_file (d : path) (w : files) : bool :=
  p_is_file (d ++ ["tokenizer.json"]) w || p_is_file (d ++ ["tokenizer_config.json"]) w.
Definition safetensors_file (d : path) (w : files) : bool :=
  existsb (fun f => p_is_file (d ++ [f]) w && String.eqb (path_suffix f) ".safetensors") (iterdir d w)
  || p_is_file (d ++ ["model.safetensors.index.json"]) w.

Definition found (flag : bool) (code : string) : list string := if flag then [code] else [].

(** Family, modalities, evidence and problems of a directory. *)
Definition directory_hints (directory : path) (w : files)
    : pyres (string * list string * list string * list string) :=
  if config_file directory w then
    let! (config, problems) :=
      match read_json (directory ++ ["config.json"]) w with
      | Ret config => Ret (config, [])
      | Raise e => if json_or_os e then Ret (PDict [], ["config_unreadable"]) else Raise e
      end in
    let! config := py_get config in
    let! family := detect_family_from_config config in
    let! (modalities, evidence) := detect_modalities artifact_order config directory w in
    Ret (family, modalities,
         found (negb (String.eqb family "unknown")) ("model_type_" +:+ family) ++ evidence, problems)
  else Ret (detect_family directory, ["text"], [], []).

Definition inspect_directory (directory : path) (now : string) (w : files) : pyres ModelCandidate :=
  match iterdir directory w with
  | [] =>
      Ret (mkCandidate (make_candidate_id (str_path directory) []) "unsupported" (str_path directory)
             "unknown" "unknown" [] [] [PStr "empty_directory"] now)
  | _ =>
      let has_config := config_file directory w in
      let has_tokenizer := tokenizer_file directory w in
      let has_safetensors := safetensors_file directory w in
      let! (family, modalities, hints, problems) := directory_hints directory w in
      let evidence := (found has_config "found_config_json" ++ found has_tokenizer "found_tokenizer"
                       ++ found has_safetensors "found_safetensors" ++ hints)%list in
      let has_enough_evidence := has_safetensors && (has_config || has_tokenizer) in
      let problems := (problems ++ found (has_safetensors && negb has_config && negb has_tokenizer)
                                     "ambiguous_candidate")%list in
      Ret (mkCandidate (make_candidate_id (str_path directory) evidence)
             (if has_enough_evidence then "candidate" else "unsupported") (str_path directory)
             (if has_enough_evidence then "mlx" else "unknown") family
             (map PStr (normalize_modalities modalities evidence)) (map PStr evidence)
             (map PStr problems) now)
  end.

Definition inspect_model_candidate (expand : string -> path) (source_path now : string) (w : files)
    : pyres (ModelCandidate * option string) :=
  let raw := strip source_path in
  if String.eqb raw "" then Ret (empty_candidate "" now, Some "source_path is empty")
  else
    let expanded := expand raw in
    let path := str_path expanded in
    let! candidate :=
      if negb (p_exists expanded w) then
        Ret (mkCandidate (make_candidate_id raw []) "invalid" path "unknown" "unknown" [] []
               [PStr "path_missing"] now)
      else if p_is_file expanded w && String.eqb (path_suffix (path_name expanded)) ".gguf" then
        Ret (mkCandidate (make_candidate_id path ["found_gguf_file"]) "candidate" path "gguf"
               (detect_family expanded) [PStr "text"] [PStr "found_gguf_file"] [] now)
      else if p_is_dir expanded w then inspect_directory expanded now w
      else
        Ret (mkCandidate (make_candidate_id path []) "unsupported" path "unknown" "unknown" [] []
               [PStr "unsupported_format"] now) in
    Ret (candidate, None).
End inspect.

(** ** Candidate records *)
Definition filename_char (c : ascii) : bool :=
  is_alnum c || Ascii.eqb c "_" || Ascii.eqb c "-" || Ascii.eqb c ".".

Fixpoint filter_string (p : ascii -> bool) (s : string) : string :=
  match s with
  | EmptyString => EmptyString
  | String c rest => if p c then String c (filter_string p rest) else filter_string p rest
  end.

(** [_safe_filename], the same in [candidates.py] and [registration.py] *)
Definition safe_filename (name : string) : string := str_take 64 (filter_string filename_char name).

Definition candidate_record_path (root : path) (candidate_id : string) : path :=
  registry_dir root ++ ["candidates"; safe_filename candidate_id +:+ ".json"].

(** Two JSON values with the same text. *)
Fixpoint same_json (a b : pyval) : bool :=
  match a, b with
  | PNone, PNone => true
  | PBool x, PBool y => Bool.eqb x y
  | PInt x, PInt y => (x =? y)%Z
  | PFloat x, PFloat y => Qeq_bool x y
  | PStr x, PStr y => String.eqb x y
  | PList l, PList l' =>
      (fix items (l l' : list pyval) : bool :=
         match l, l' with
         | [], [] => true
         | x :: l, y :: l' => same_json x y && items l l'
         | _, _ => false
         end) l l'
  | PDict d, PDict d' =>
      (fix fields (d d' : list (string * pyval)) : bool :=
         match d, d' with
         | [], [] => true
         | (k, x) :: d, (k', y) :: d' => String.eqb k k' && same_json x y && fields d d'
         | _, _ => false
         end) d d'
  | _, _ => false
  end.

Definition write_candidate_record (resolve : path -> path) (write_fails : option pyexc) (store_root : string)
    (candidate : ModelCandidate) (w : files) : pyres path * files :=
  let root := resolve (path_of store_root) in
  if negb (p_exists (registry_dir root) w) then
    (Raise (ValueError "Model-store not bootstrapped: registry directory is absent. Run bootstrap_model_store() first."), w)
  else
    match mkdirs (registry_dir root ++ ["candidates"]) w with
    | (Raise e, w) => (Raise e, w)
    | (Ret _, w) =>
        let target := resolve (candidate_record_path root (mcd_candidate_id candidate)) in
        let payload := PDict (candidate_to_dict candidate) in
        if negb (startswith (str_path (resolve root)) (str_path target)) then
          (Raise (ValueError "Candidate record path escapes the model-store root (path_present=True)"), w)
        else
          let write (w : files) : pyres path * files :=
            match mkdirs (tmp root) w with
            | (Raise e, w) => (Raise e, w)
            | (Ret _, w) =>
                match write_fails with
                | Some e => (Raise e, w)
                | None => (Ret target, <[target := File (Json payload)]> w)
                end
            end in
          match w !! target with
          | None | Some (File NotJson) => write w
          | Some (File (Json v)) => if same_json v payload then (Ret target, w) else write w
          | Some (File NotUtf8) => (Raise (Exc "UnicodeDecodeError" ""), w)
          | Some (File Unreadable) | Some Dir => (Raise (os_error "read"), w)
          end
    end.
End python.
