(* ===== verification/ModelRegister.v ===== *)
(** * Registration, compatibility and inventory of the model store
      ([model_registry/registration.py], [compatibility.py], [inventory.py])

    Registration copies a candidate's artifact into the store and appends an entry to
    the manifest; the compatibility check maps an entry to an adapter and looks for its
    files; the inventory collects the entries that may be advertised.

    - [copied] says what the operating system makes of each entry of a copy: done, left
      out, or cut short.  A copy that is not done everywhere raises.  A source that
      contains the destination is not modelled.
    - Paths and values are those of [ModelStore]. *)

From S2P Require Import Prelude PyDict PyStr PySeq PyRe ControlPlane ModelPath ModelStore.
From Stdlib Require Import Ascii.

Definition is_nil {A} (l : list A) : bool := match l with [] => true | _ => false end.

(** ** Model ids *)

(** [s.removesuffix(suffix)] *)
Definition removesuffix (suffix s : string) : string :=
  if endswith suffix s then str_take (String.length s - String.length suffix) s else s.

(** [_SAFE_MODEL_ID_RE.match(s)]: the [$] also matches before a final newline. *)
Definition safe_id_match (s : string) : bool :=
  match removesuffix newline s with
  | EmptyString => false
  | String c rest => is_alnum c && string_forallb filename_char rest && (String.length rest <=? 127)%nat
  end.

(** [_validate_model_id]: the problem, or [None]. *)
Definition validate_model_id (model_id : string) : option string :=
  if String.eqb model_id "" || String.eqb (strip model_id) "" then Some "unsafe_model_id"
  else if negb (safe_id_match model_id) then Some "unsafe_model_id"
  else if contains ".." model_id || startswith "/" model_id || startswith "." model_id then
    Some "unsafe_model_id"
  else None.

Definition strip_chars (p : ascii -> bool) (s : string) : string := rstrip_chars p (lstrip_chars p s).

Definition dash_or_dot (c : ascii) : bool := Ascii.eqb c "-" || Ascii.eqb c ".".

Definition derive_model_id (c : ModelCandidate) : string :=
  let base := removesuffix ".gguf" (path_name (path_of (mcd_source_path c))) in
  let safe := strip_chars dash_or_dot
                (str_take 64 (map_string (fun c => if filename_char c then c else "-"%char) base)) in
  if String.eqb safe "" then "model-" +:+ str_take 8 (mcd_candidate_id c) else safe.

(** ** Copying *)

(** What becomes of an entry that is not copied as it is: nothing, or a part of it. *)
Definition copy_outcome : Type := path -> option (option node).

(** The rest of [q] below [p]. *)
Fixpoint below (p q : path) : option path :=
  match p, q with
  | [], _ => Some q
  | x :: p, y :: q => if String.eqb x y then below p q else None
  | _ :: _, [] => None
  end.

Definition copy_entry (copied : copy_outcome) (q : path) (n : node) : option (option node) :=
  match n with File Unreadable => Some None | _ => copied q end.

(** The entries of a copy of the tree at [src] to [dst]. *)
Definition copy_of (copied : copy_outcome) (src dst : path) (w : files) : list (path * node) :=
  omap (fun '(q, n) =>
          match below src q with
          | None => None
          | Some rest =>
              match copy_entry copied q n with
              | None => Some (dst ++ rest, n)
              | Some (Some part) => Some (dst ++ rest, part)
              | Some None => None
              end
          end) (map_to_list w).

Definition copy_fails (copied : copy_outcome) (src : path) (w : files) : bool :=
  existsb (fun '(q, n) => match below src q with
                          | Some _ => match copy_entry copied q n with Some _ => true | None => false end
                          | None => false
                          end) (map_to_list w).

(** [shutil.copytree] of a directory, [shutil.copy2] of a file. *)
Definition copy_artifact (copied : copy_outcome) (src dst : path) (w : files) : pyres unit * files :=
  (if copy_fails copied src w then Raise (os_error "copy") else Ret tt,
   (list_to_map (copy_of copied src dst w) : gmap path node) ∪ w).

Section python.
Context (py_str : pyval -> string) (resolve : path -> path).

(** ** Registration *)
Record ModelRegistrationResult := mkRegistration {
  rgr_registered_model : RegisteredModel;
  rgr_managed_path : string;
  rgr_manifest_updated : bool;
  rgr_problem : option string;
}.

(** [_fail] *)
Definition registration_failed (model : RegisteredModel) (problem : string) : ModelRegistrationResult :=
  mkRegistration model "" false (Some problem).

(** [_managed_destination]: the directory to create and the relative path. *)
Definition managed_destination (root : path) (c : ModelCandidate) (model_id : string) : path * path :=
  let safe_id := safe_filename model_id in
  if String.eqb (mcd_detected_format c) "gguf" then
    (path_join (models_gguf root) safe_id,
     path_join (path_join ["models"; "gguf"] safe_id) (path_name (path_of (mcd_source_path c))))
  else if has_str "vision" (mcd_modalities c) then (models_vlm root, path_join ["models"; "vlm"] safe_id)
  else (models_mlx root, path_join ["models"; "mlx"] safe_id).

(** [_load_manifest] *)
Definition load_manifest (root : path) (w : files) : pyres (ModelRegistryManifest + ModelRegistrationResult) :=
  let fail problem := Ret (inr (registration_failed (bare_model "") problem)) in
  if negb (p_exists (manifest_path root) w) then fail "store_not_bootstrapped"
  else
    match read_json (manifest_path root) w with
    | Raise e => if json_or_os e then fail "manifest_unreadable" else Raise e
    | Ret data =>
        let! manifest := manifest_from_dict py_str data in
        if negb (mft_schema_version manifest =? 1)%Z then fail "manifest_schema_unsupported"
        else Ret (inl manifest)
    end.

(** [_find_existing] *)
Fixpoint find_existing (models : list pyval) (model_id : string) : pyres (option (list (string * pyval))) :=
  match models with
  | [] => Ret None
  | entry :: rest =>
      let! d := py_get entry in
      if get_is d "model_id" model_id then Ret (Some d) else find_existing rest model_id
  end.

(** [_models_match] *)
Definition models_match (existing : list (string * pyval)) (c : ModelCandidate) (model_id : string) : bool :=
  get_is existing "model_id" model_id
  && get_is existing "source_candidate_id" (mcd_candidate_id c)
  && get_is existing "detected_format" (mcd_detected_format c).

(** The id that is registered, or the problem with the requested one. *)
Definition resolved_model_id (model_id : option string) (c : ModelCandidate) : string :=
  match model_id with
  | Some m => if String.eqb (strip m) "" then derive_model_id c else strip m
  | None => derive_model_id c
  end.

(** The candidate of the record, or the problem with it. *)
Definition load_candidate (root : path) (candidate_id : string) (w : files) : pyres (ModelCandidate + string) :=
  let record := candidate_record_path root candidate_id in
  if negb (p_exists record w) then Ret (inr "candidate_missing")
  else
    match read_json record w with
    | Raise e => if json_or_os e then Ret (inr "candidate_missing") else Raise e
    | Ret data =>
        let! c := candidate_from_dict py_str data in
        if negb (String.eqb (mcd_status c) "candidate") then Ret (inr "candidate_not_registrable")
        else if String.eqb (mcd_detected_format c) "unknown" then Ret (inr "unsupported_format")
        else Ret (inl c)
    end.

Definition registered_of (c : ModelCandidate) (model_id display managed_rel now : string) : RegisteredModel :=
  mkRegistered model_id display "registered" "managed" managed_rel (mcd_candidate_id c) (mcd_source_path c)
    (mcd_detected_format c) (mcd_detected_family c) (mcd_modalities c) (mcd_evidence c) now now.

(** The copy and the new entry: the part after the checks. *)
Definition register_new (copied : copy_outcome) (write_fails : option pyexc) (root : path)
    (m : ModelRegistryManifest) (c : ModelCandidate) (model_id display now : string) (w : files)
    : pyres ModelRegistrationResult * files :=
  let fail problem := Ret (registration_failed (bare_model model_id) problem) in
  let (dest_dir, managed_rel) := managed_destination root c model_id in
  let dest_path := root ++ managed_rel in
  let source := path_of (mcd_source_path c) in
  if negb (p_exists source w) then (fail "candidate_missing", w)
  else if p_exists dest_path w then (fail "managed_destination_exists", w)
  else
    match mkdirs dest_dir w with
    | (Raise _, w) => (fail "copy_failed", w)
    | (Ret _, w) =>
        match copy_artifact copied source dest_path w with
        | (Raise _, w) => (fail "copy_failed", w)
        | (Ret _, w) =>
            let registered := registered_of c model_id display (str_path managed_rel) now in
            let m := manifest_touch now (manifest_append (PDict (registered_to_dict registered)) m) in
            match write_manifest_atomic write_fails root m w with
            | (Raise e, w) => (Raise e, w)
            | (Ret _, w) => (Ret (mkRegistration registered (str_path managed_rel) true None), w)
            end
        end
    end.

Definition register_model_candidate (copied : copy_outcome) (write_fails : option pyexc)
    (store_root candidate_id : string) (model_id display_name : option string) (now : string) (w : files)
    : pyres ModelRegistrationResult * files :=
  let root := resolve (path_of store_root) in
  let asked := bare_model (match model_id with
                           | Some m => if String.eqb m "" then candidate_id else m
                           | None => candidate_id
                           end) in
  if negb (p_exists (registry_dir root) w) then
    (Ret (registration_failed asked "store_not_bootstrapped"), w)
  else
    match load_manifest root w with
    | Raise e => (Raise e, w)
    | Ret (inr failed) => (Ret failed, w)
    | Ret (inl m) =>
        match load_candidate root candidate_id w with
        | Raise e => (Raise e, w)
        | Ret (inr problem) => (Ret (registration_failed asked problem), w)
        | Ret (inl c) =>
            if match model_id with Some s => String.eqb (strip s) "" | None => false end then
              (Ret (registration_failed (bare_model (default "" model_id)) "unsafe_model_id"), w)
            else
              let resolved_id := resolved_model_id model_id c in
              match validate_model_id resolved_id with
              | Some problem => (Ret (registration_failed (bare_model resolved_id) problem), w)
              | None =>
                  let display := if str_truthy display_name then default "" display_name
                                 else List.last (split_on "/" (mcd_source_path c)) "" in
                  match find_existing (mft_models m) resolved_id with
                  | Raise e => (Raise e, w)
                  | Ret (Some existing) =>
                      if models_match existing c resolved_id then
                        match registered_from_dict py_str (PDict existing) with
                        | Raise e => (Raise e, w)
                        | Ret r =>
                            (Ret (mkRegistration r (str_path (managed_destination root c resolved_id).2) false None), w)
                        end
                      else (Ret (registration_failed (bare_model resolved_id) "duplicate_model_id"), w)
                  | Ret None => register_new copied write_fails root m c resolved_id display now w
                  end
              end
        end
    end.

(** ** Compatibility *)
Record RegisteredModelCompatibilityResult := mkCompat {
  cpr_model_id : string;
  cpr_status : string;
  cpr_adapter_kind : string;
  cpr_advertisable : bool;
  cpr_registered : bool;
  cpr_managed_path : string;
  cpr_absolute_managed_path : string;
  cpr_detected_format : string;
  cpr_detected_family : string;
  cpr_modalities : list pyval;
  cpr_evidence : list pyval;
  cpr_problems : list string;
  cpr_checked_at : string;
}.

(** [p / s] for a string [s]. *)
Definition path_div (p : path) (s : string) : path :=
  match path_of s with
  | "/" :: _ | "//" :: _ => path_of s
  | q => p ++ q
  end.

(** [_check_managed_files]: whether it is advertisable, the evidence and the problems. *)
Definition check_managed_files (abs_path : path) (fmt : string) (w : files) : bool * list string * list string :=
  if String.eqb fmt "mlx" then
    if p_is_dir abs_path w then
      let has_config := config_file abs_path w in
      let has_tokenizer := tokenizer_file abs_path w in
      let has_safetensors := safetensors_file abs_path w in
      let evidence := (found has_config "found_config_json" ++ found has_tokenizer "found_tokenizer"
                       ++ found has_safetensors "found_safetensors")%list in
      if has_config && (has_tokenizer || has_safetensors) then (true, evidence, [])
      else (false, evidence, ["insufficient_adapter_evidence"])
    else (false, [], ["managed_path_missing"])
  else if String.eqb fmt "gguf" then
    if p_is_file abs_path w && String.eqb (path_suffix (path_name abs_path)) ".gguf" then
      (true, ["found_gguf_file"], [])
    else (false, [], ["insufficient_adapter_evidence"])
  else (false, [], ["unsupported_format"]).

(** The adapter of a format, with its evidence. *)
Definition adapter_mapping (fmt : string) (modalities : list pyval) : option (string * list string) :=
  if String.eqb fmt "mlx" then
    if has_str "vision" modalities then
      Some ("mlx_vlm", ["format_mlx"; "adapter_mlx_vlm"; "modalities_vision"; "modalities_text"])
    else Some ("mlx_lm_server", ["format_mlx"; "adapter_mlx_lm_server"; "modalities_text"])
  else if String.eqb fmt "gguf" then
    Some ("llama_cpp", (["format_gguf"; "adapter_llama_cpp"]
                        ++ found (has_str "text" modalities) "modalities_text")%list)
  else None.

(** [==] of JSON values. *)
Fixpoint py_eq (a b : pyval) : bool :=
  let number v := match v with
                  | PBool x => Some (inject_Z (b2z x)) | PInt z => Some (inject_Z z) | PFloat q => Some q
                  | _ => None
                  end in
  match a, b with
  | PNone, PNone => true
  | PStr x, PStr y => String.eqb x y
  | PList l, PList l' =>
      (fix items (l l' : list pyval) : bool :=
         match l, l' with
         | [], [] => true
         | x :: l, y :: l' => py_eq x y && items l l'
         | _, _ => false
         end) l l'
  | PDict d, PDict d' =>
      (length d =? length d')%nat
      && forallb (fun '(k, x) => match dget k d' with Some y => py_eq x y | None => false end) d
  | _, _ => match number a, number b with Some x, Some y => Qeq_bool x y | _, _ => false end
  end.

(** The loop that appends the evidence the registration kept. *)
Definition preserve_evidence (evidence kept : list pyval) : list pyval :=
  foldl (fun acc ev => if existsb (py_eq ev) acc then acc else (acc ++ [ev])%list) evidence kept.

(** What the check says of an entry of the manifest. *)
Definition check_registered (root : path) (model_id now : string) (rm : RegisteredModel) (w : files)
    : RegisteredModelCompatibilityResult :=
  let fmt := rgm_detected_format rm in
  let modalities := rgm_modalities rm in
  let managed_rel := rgm_managed_path rm in
  let abs_managed := resolve (path_div root managed_rel) in
  let known := [PStr "registered_model_found"] in
  let located := [PStr "registered_model_found"; PStr "managed_path_exists"; PStr "managed_path_under_store_root"] in
  if negb (String.eqb (rgm_status rm) "registered") then
    mkCompat model_id "incompatible" "unknown" false true "" "" fmt "unknown" [] known
      ["model_status_not_registered"] now
  else if negb (String.eqb (rgm_storage_mode rm) "managed") then
    mkCompat model_id "indeterminate" "unknown" false true "" "" fmt "unknown" [] known
      ["unsupported_storage_mode"] now
  else if String.eqb managed_rel "" then
    mkCompat model_id "indeterminate" "unknown" false true "" "" fmt "unknown" [] known
      ["managed_path_missing"] now
  else if negb (startswith (str_path (resolve root)) (str_path abs_managed)) then
    mkCompat model_id "indeterminate" "unknown" false true managed_rel "" fmt "unknown" [] known
      ["managed_path_escapes_store"] now
  else if negb (p_exists abs_managed w) then
    mkCompat model_id "indeterminate" "unknown" false true managed_rel (str_path abs_managed) fmt "unknown" []
      known ["managed_path_missing"] now
  else
    match adapter_mapping fmt modalities with
    | None =>
        mkCompat model_id "incompatible" "unknown" false true managed_rel (str_path abs_managed) fmt "unknown"
          modalities located ["unsupported_format"] now
    | Some (adapter_kind, mapped) =>
        let '(advertisable, files_found, problems) := check_managed_files abs_managed fmt w in
        let status := if advertisable && is_nil problems then "compatible"
                      else if negb (is_nil problems) then "incompatible" else "indeterminate" in
        mkCompat model_id status adapter_kind advertisable true managed_rel (str_path abs_managed) fmt
          (rgm_detected_family rm) modalities
          (preserve_evidence (located ++ map PStr mapped ++ map PStr files_found)%list (rgm_evidence rm))
          problems now
    end.

(** The result for a store or model that is not there. *)
Definition compat_problem (model_id now problem : string) : RegisteredModelCompatibilityResult :=
  mkCompat model_id "indeterminate" "unknown" false false "" "" "unknown" "unknown" [] [] [problem] now.

Definition validate_registered_model_compatibility (store_root model_id now : string) (w : files)
    : pyres RegisteredModelCompatibilityResult :=
  let root := resolve (path_of store_root) in
  if negb (p_exists (registry_dir root) w) then Ret (compat_problem model_id now "store_not_bootstrapped")
  else if negb (p_exists (manifest_path root) w) then Ret (compat_problem model_id now "manifest_missing")
  else
    match read_json (manifest_path root) w with
    | Raise e => if json_or_os e then Ret (compat_problem model_id now "manifest_unreadable") else Raise e
    | Ret data =>
        let! manifest := manifest_from_dict py_str data in
        if negb (mft_schema_version manifest =? 1)%Z then
          Ret (compat_problem model_id now "manifest_schema_unsupported")
        else
          let! entry := find_existing (mft_models manifest) model_id in
          match entry with
          | None => Ret (compat_problem model_id now "model_missing")
          | Some d =>
              let! rm := registered_from_dict py_str (PDict d) in
              Ret (check_registered root model_id now rm w)
          end
    end.

(** ** Inventory *)

(** The loop over the manifest's entries. *)
Fixpoint collect_entries (root : string) (now : string) (entries : list pyval) (seen_ids : list string) (w : files)
    : pyres (list RegisteredModel) :=
  match entries with
  | [] => Ret []
  | entry :: rest =>
      let! d := py_get entry in
      let model_id := get_str py_str d "model_id" "" in
      if String.eqb model_id "" || mem model_id seen_ids then collect_entries root now rest seen_ids w
      else
        let seen_ids := model_id :: seen_ids in
        let! rm := registered_from_dict py_str entry in
        if negb (String.eqb (rgm_status rm) "registered") || negb (String.eqb (rgm_storage_mode rm) "managed") then
          collect_entries root now rest seen_ids w
        else
          let! compat := validate_registered_model_compatibility root model_id now w in
          let! results := collect_entries root now rest seen_ids w in
          Ret (if cpr_advertisable compat then rm :: results else results)
  end.

Definition collect_advertisable_registered_models (store_root now : string) (w : files)
    : pyres (list RegisteredModel) :=
  let root := resolve (path_of store_root) in
  if negb (p_exists (registry_dir root) w) || negb (p_exists (manifest_path root) w) then Ret []
  else
    match read_json (manifest_path root) w with
    | Raise e => if json_or_os e then Ret [] else Raise e
    | Ret data =>
        let! manifest := manifest_from_dict py_str data in
        if negb (mft_schema_version manifest =? 1)%Z then Ret []
        else
          let! results := collect_entries (str_path root) now (mft_models manifest) [] w in
          Ret (stable_sort (fun a b => string_leb (rgm_model_id a) (rgm_model_id b)) results)
    end.
End python.
