(* ===== verification/ModelStoreProps.v ===== *)
(** * The model store: paths, round trips, and what the inspection detects

    Lemmas on paths and on the operations that only add directories, the round trips of
    the contracts, and the theorems about candidate inspection. *)

From S2P Require Import Prelude PyDict PyStr PySeq PyRe PyJson ControlPlane ModelPath ModelStore.
From Stdlib Require Import Ascii.
Open Scope string_scope.

(** ** Paths *)

(** A part that [pathlib] keeps as it is. *)
Definition plain_part (s : string) : Prop := s <> "" /\ s <> "." /\ lacks "/" s.

(** An absolute path without empty parts. *)
Definition rooted (p : path) : Prop := exists rest, p = "/" :: rest /\ Forall plain_part rest.

Lemma plain_lacks l : Forall plain_part l -> Forall (lacks "/") l.
Proof. intros H. eapply Forall_impl; [exact H|]. by intros s (_ & _ & ?). Qed.

Lemma plain_kept l :
  Forall plain_part l -> List.filter (fun w => negb (String.eqb w "" || String.eqb w ".")) l = l.
Proof.
  induction 1 as [|s l (H1 & H2 & _) _ IH]; simpl; [done|].
  apply String.eqb_neq in H1, H2. by rewrite H1, H2, IH.
Qed.

(** A path that does not begin with a slash. *)
Lemma startswith_join_plain l : Forall plain_part l -> startswith "/" (join "/" l) = false.
Proof.
  destruct l as [|s l]; [done|]. intros [(H & _ & Hs) _]%Forall_cons.
  destruct s as [|c s]; [done|]. unfold lacks in Hs. cbn in Hs. apply andb_prop in Hs as [Hc _].
  apply negb_true_iff in Hc. rewrite Ascii.eqb_sym in Hc. destruct l; cbn -[Ascii.eqb]; rewrite ?string_app_cons; cbn -[Ascii.eqb]; by rewrite Hc.
Qed.

Lemma startswith_longer a b s : startswith a s = false -> startswith (a +:+ b) s = false.
Proof.
  revert s. induction a as [|c a IH]; intros [|d s]; rewrite ?string_app_cons; cbn; [done|done|done|].
  destruct (Ascii.eqb c d); cbn; [apply IH | done].
Qed.

Lemma path_of_relative l : l <> [] -> Forall plain_part l -> path_of (join "/" l) = l.
Proof.
  intros Hne Hl. unfold path_of. pose proof (startswith_join_plain _ Hl) as H.
  assert (startswith "//" (join "/" l) = false) as -> by exact (startswith_longer "/" "/" _ H).
  assert (startswith "///" (join "/" l) = false) as -> by exact (startswith_longer "/" "//" _ H).
  rewrite H.
  rewrite split_on_join_words by (done || by apply plain_lacks). by rewrite plain_kept.
Qed.

Lemma str_path_relative l : l <> [] -> Forall plain_part l -> str_path l = join "/" l.
Proof.
  intros Hne Hl. destruct l as [|s l]; [done|]. unfold str_path.
  apply Forall_cons in Hl as [(_ & _ & Hs) _].
  destruct (String.eqb_spec s "/") as [-> |]; [done|]. by destruct (String.eqb_spec s "//") as [-> |].
Qed.

(** The text of a relative path is read back as the path. *)
Lemma path_of_str_relative l : l <> [] -> Forall plain_part l -> path_of (str_path l) = l.
Proof. intros. rewrite str_path_relative by done. by apply path_of_relative. Qed.

Lemma path_of_str_rooted p : rooted p -> path_of (str_path p) = p.
Proof.
  intros (rest & -> & Hl). change (str_path ("/" :: rest)) with (String "/" (join "/" rest)).
  destruct (decide (rest = [])) as [-> | Hne]; [done|].
  unfold path_of. pose proof (startswith_join_plain _ Hl) as H.
  change (startswith "///" (String "/" (join "/" rest))) with (startswith "//" (join "/" rest)).
  change (startswith "//" (String "/" (join "/" rest))) with (startswith "/" (join "/" rest)).
  assert (startswith "//" (join "/" rest) = false) as -> by exact (startswith_longer "/" "/" _ H).
  rewrite H.
  change (startswith "/" (String "/" (join "/" rest))) with true.
  change (split_on "/" (String "/" (join "/" rest))) with ("" :: split_on "/" (join "/" rest)).
  rewrite split_on_join_words by (done || by apply plain_lacks). cbn. by rewrite plain_kept.
Qed.

Lemma join_app sep l r : l <> [] -> r <> [] -> join sep (l ++ r)%list = join sep l +:+ sep +:+ join sep r.
Proof.
  intros Hl Hr. induction l as [|x l IH]; [done|]. destruct l as [|y l].
  - exact (join_more sep x r Hr).
  - rewrite <- app_comm_cons. rewrite join_more by done.
    rewrite IH by done. rewrite (join_more sep x (y :: l)) by done. by rewrite !string_app_assoc'.
Qed.

Lemma startswith_app p s : startswith p (p +:+ s) = true.
Proof. induction p as [|c p IH]; [done|]. rewrite string_app_cons. cbn. by rewrite Ascii.eqb_refl. Qed.

Lemma startswith_refl p : startswith p p = true.
Proof. induction p as [|c p IH]; [done|]. cbn. by rewrite Ascii.eqb_refl. Qed.

(** What lies below a path has its text as a prefix. *)
Lemma startswith_below p rel : rooted p -> startswith (str_path p) (str_path (p ++ rel)%list) = true.
Proof.
  intros (rest & -> & _). change (startswith (join "/" rest) (join "/" (rest ++ rel)%list) = true).
  destruct (decide (rest = [])) as [-> | Hp]; [reflexivity|].
  destruct (decide (rel = [])) as [-> | Hr]; [rewrite app_nil_r; apply startswith_refl|].
  rewrite join_app by done. apply startswith_app.
Qed.

(** ** Operations that only add directories *)
Definition adds_dirs (w w' : files) : Prop :=
  forall p, w' !! p = w !! p \/ (w !! p = None /\ w' !! p = Some Dir).

#[global] Instance adds_dirs_preorder : PreOrder adds_dirs.
Proof.
  split.
  - by left.
  - intros w1 w2 w3 H12 H23 p. destruct (H12 p) as [E | [E1 E2]], (H23 p) as [E' | [E1' E2']];
      [left | right | right | right]; split || idtac; congruence.
Qed.

Lemma adds_dirs_keeps w w' p n : adds_dirs w w' -> w !! p = Some n -> w' !! p = Some n.
Proof. intros H E. destruct (H p) as [-> | [E' _]]; congruence. Qed.

Lemma adds_dirs_grows w w' p : adds_dirs w w' -> is_Some (w !! p) -> is_Some (w' !! p).
Proof. intros H [n E]. exists n. by eapply adds_dirs_keeps. Qed.

Lemma adds_dirs_insert p w : w !! p = None -> adds_dirs w (<[p := Dir]> w).
Proof.
  intros E q. destruct (decide (p = q)) as [<- |].
  - right. by rewrite lookup_insert_eq.
  - left. by rewrite lookup_insert_ne.
Qed.

Lemma mkdir_each_adds ps w r w' : mkdir_each ps w = (r, w') -> adds_dirs w w'.
Proof.
  revert w. induction ps as [|p ps IH]; intros w; cbn; [by intros [= <- <-]|].
  destruct (w !! p) as [[|c]|] eqn:E; [apply IH | by intros [= <- <-] |].
  intros H%IH. etrans; [by apply adds_dirs_insert | exact H].
Qed.

Lemma mkdirs_adds p w r w' : mkdirs p w = (r, w') -> adds_dirs w w'.
Proof. unfold mkdirs. destruct (p_is_dir p w); [by intros [= <- <-]|]. apply mkdir_each_adds. Qed.

Lemma mkdir_each_all ps w w' p : mkdir_each ps w = (Ret tt, w') -> p ∈ ps -> w' !! p = Some Dir.
Proof.
  revert w. induction ps as [|q ps IH]; intros w; cbn; [set_solver|].
  destruct (w !! q) as [[|c]|] eqn:E; [| done |]; intros H [-> | Hp]%elem_of_cons; eauto.
  - eapply adds_dirs_keeps; [by eapply mkdir_each_adds | done].
  - eapply adds_dirs_keeps; [by eapply mkdir_each_adds | apply lookup_insert_eq].
Qed.

Lemma mkdirs_makes (p : path) (w w' : files) : p <> [] -> mkdirs p w = (Ret tt, w') -> w' !! p = Some Dir.
Proof.
  unfold mkdirs, p_is_dir. intros Hne.
  destruct (w !! p) as [[|c]|] eqn:E; [intros [= <-]; done | |];
    intros H; eapply (mkdir_each_all _ _ _ _ H); apply list_elem_of_fmap; exists (pred (length p));
    (split; [destruct p; [done|]; cbn; by rewrite firstn_all |
             apply elem_of_seq; destruct p; [done|]; cbn; lia]).
Qed.

Lemma create_missing_adds dirs w r w' : create_missing dirs w = (r, w') -> adds_dirs w w'.
Proof.
  revert w r w'. induction dirs as [|d dirs IH]; intros w r w'; cbn; [by intros [= <- <-]|].
  destruct (p_exists d w); [apply IH|].
  destruct (mkdirs d w) as [[[]|e] w1] eqn:E; apply mkdirs_adds in E; [|by intros [= <- <-]].
  destruct (create_missing dirs w1) as [[made|e] w2] eqn:E2; apply IH in E2; intros [= <- <-]; by etrans.
Qed.

(** Writing the manifest adds directories and, when it succeeds, changes the manifest alone. *)
Lemma write_manifest_spec write_fails root m w r w' :
  write_manifest_atomic write_fails root m w = (r, w') ->
  exists w1, adds_dirs w w1
    /\ match r with
       | Ret _ => w' = <[manifest_path root := File (Json (PDict (manifest_to_dict m)))]> w1
                  /\ p_is_dir (manifest_path root) w1 = false /\ write_fails = None
       | Raise _ => w' = w1
       end.
Proof.
  unfold write_manifest_atomic. destruct (mkdirs (tmp root) w) as [[[]|e] w1] eqn:E; apply mkdirs_adds in E.
  - destruct write_fails; [intros [= <- <-]; eauto|].
    destruct (p_is_dir _ w1) eqn:Ed; intros [= <- <-]; eauto.
  - intros [= <- <-]. eauto.
Qed.

(** ** Round trips of the contracts *)
Section python.
Context (py_str : pyval -> string).

Lemma candidate_roundtrip c : candidate_from_dict py_str (PDict (candidate_to_dict c)) = Ret c.
Proof. by destruct c. Qed.

Lemma registered_roundtrip r : registered_from_dict py_str (PDict (registered_to_dict r)) = Ret r.
Proof. by destruct r. Qed.

Lemma manifest_roundtrip m : manifest_from_dict py_str (PDict (manifest_to_dict m)) = Ret m.
Proof. by destruct m. Qed.
End python.

(** ** What the inspection detects *)
Section inspection.
Context (py_str : pyval -> string) (sha256_hex : string -> string) (artifact_order : list string).

Lemma one_sign (x : string) : mem x _EXPLICIT_VISION_EVIDENCE = true ->
  exists e, e ∈ [x] /\ mem e _EXPLICIT_VISION_EVIDENCE = true.
Proof. exists x. split; [left | done]. Qed.

(** What counts as a sign of vision, as the documentation lists it: the model type, a
    vision configuration, an architecture, or a projector beside the weights. *)
Definition shows_vision (config : list (string * pyval)) (directory : path) (w : files) : Prop :=
  mem (model_type_of py_str config) _VLM_MODEL_TYPES = true
  \/ nonempty_dict (dget "vision_config" config) = true
  \/ (exists archs a, architectures_of py_str config = Ret archs /\ a ∈ archs
        /\ mem a _VLM_ARCHITECTURES = true)
  \/ (exists artifact, artifact ∈ _VLM_ARTIFACT_NAMES /\ p_exists (directory ++ [artifact])%list w = true).

Lemma mem_cases x l : mem x l = true -> x ∈ l.
Proof.
  unfold mem. rewrite existsb_exists. intros (y & Hy & E). apply String.eqb_eq in E as ->. by apply list_elem_of_In.
Qed.

Lemma model_type_explicit t :
  mem t _VLM_MODEL_TYPES = true -> mem ("model_type_" +:+ underscored t) _EXPLICIT_VISION_EVIDENCE = true.
Proof. intros H%mem_cases. revert t H. apply Forall_forall. by repeat constructor. Qed.

Lemma architecture_explicit a :
  mem a _VLM_ARCHITECTURES = true -> mem ("architecture_" +:+ a) _EXPLICIT_VISION_EVIDENCE = true.
Proof. intros H%mem_cases. revert a H. apply Forall_forall. by repeat constructor. Qed.

Lemma artifact_explicit a :
  a ∈ _VLM_ARTIFACT_NAMES -> mem ("found_" +:+ a) _EXPLICIT_VISION_EVIDENCE = true.
Proof. revert a. apply Forall_forall. by repeat constructor. Qed.

(** The third branch of the architecture loop is never taken: a vision configuration was
    already decided on before the loop. *)
Lemma first_architecture archs ev :
  head (omap (architecture_evidence false) archs) = Some ev ->
  exists a, a ∈ archs /\ mem a _VLM_ARCHITECTURES = true /\ ev = ["architecture_" +:+ a].
Proof.
  induction archs as [|a archs IH]; csimpl; [done|]. unfold architecture_evidence at 1.
  destruct (mem a _VLM_ARCHITECTURES) eqn:E; csimpl.
  - intros [= <-]. exists a. set_solver.
  - rewrite andb_false_r. intros (b & Hb & H)%IH. exists b. set_solver.
Qed.

Lemma no_architecture archs a :
  head (omap (architecture_evidence false) archs) = None -> a ∈ archs -> mem a _VLM_ARCHITECTURES = false.
Proof.
  induction archs as [|b archs IH]; csimpl; [set_solver|]. unfold architecture_evidence at 1.
  destruct (mem b _VLM_ARCHITECTURES) eqn:E; csimpl; [done|]. rewrite andb_false_r.
  intros H [-> | Ha]%elem_of_cons; [done | by apply IH].
Qed.

(** The outcome of the detection: vision with an explicit sign for it, or text alone. *)
Lemma detect_modalities_exact config directory w mods ev :
  artifact_order ≡ₚ _VLM_ARTIFACT_NAMES -> p_is_dir directory w = true ->
  detect_modalities py_str artifact_order config directory w = Ret (mods, ev) ->
  (mods = ["text"; "vision"] /\ shows_vision config directory w
   /\ exists e, e ∈ ev /\ mem e _EXPLICIT_VISION_EVIDENCE = true)
  \/ (mods = ["text"] /\ ~ shows_vision config directory w).
Proof.
  intros Hord Hdir. unfold detect_modalities, shows_vision. rewrite Hdir.
  destruct (mem _ _VLM_MODEL_TYPES) eqn:Em.
  { intros [= <- <-]. left. split; [done|]. split; [by left|]. by apply one_sign, model_type_explicit. }
  destruct (nonempty_dict (dget "vision_config" config)) eqn:Ev.
  { intros [= <- <-]. left. split; [done|]. split; [by right; left|]. exists "found_vision_config". split; [left | done]. }
  destruct (architectures_of py_str config) as [archs|e] eqn:Ea; [|done]. cbn [rbind].
  destruct (head (omap _ archs)) as [evs|] eqn:Eh.
  { apply first_architecture in Eh as (a & Ha & Hm & ->). intros [= <- <-]. left. split; [done|].
    split; [right; right; left; eauto|]. by apply one_sign, architecture_explicit. }
  destruct (List.find _ artifact_order) as [a|] eqn:Ef.
  - apply find_some in Ef as [Ha Hx]. apply list_elem_of_In in Ha. rewrite Hord in Ha.
    intros [= <- <-]. left. split; [done|]. split; [do 3 right; eauto|].
    by apply one_sign, artifact_explicit.
  - intros [= <- <-]. right. split; [done|].
    intros [? | [? | [(archs' & a & E & Ha & Hm) | (a & Ha & Hx)]]]; [done | done | |].
    + simplify_eq. by rewrite (no_architecture _ _ Eh Ha) in Hm.
    + rewrite <- Hord in Ha. apply list_elem_of_In in Ha. by rewrite (find_none _ _ Ef _ Ha) in Hx.
Qed.

(** The configuration a directory is judged by; an unreadable one counts as empty. *)
Definition inspected_config (directory : path) (w : files) : option (list (string * pyval)) :=
  if p_is_dir directory w && config_file directory w then
    match read_json (directory ++ ["config.json"])%list w with Ret (PDict d) => Some d | _ => Some [] end
  else None.

Lemma has_explicit_elem e evidence :
  e ∈ evidence -> mem e _EXPLICIT_VISION_EVIDENCE = true -> has_explicit_vision_evidence evidence = true.
Proof. intros He Hm. apply existsb_exists. exists e. split; [by apply list_elem_of_In | done]. Qed.

Lemma directory_hints_exact directory w family mods hints problems :
  artifact_order ≡ₚ _VLM_ARTIFACT_NAMES -> p_is_dir directory w = true ->
  directory_hints py_str artifact_order directory w = Ret (family, mods, hints, problems) ->
  (mods = ["text"; "vision"]
   /\ (exists config, inspected_config directory w = Some config /\ shows_vision config directory w)
   /\ exists e, e ∈ hints /\ mem e _EXPLICIT_VISION_EVIDENCE = true)
  \/ (mods = ["text"]
      /\ ~ exists config, inspected_config directory w = Some config /\ shows_vision config directory w).
Proof.
  intros Hord Hdir. unfold directory_hints, inspected_config. rewrite Hdir. cbn [andb].
  destruct (config_file directory w).
  2: { intros [= <- <- <- <-]. right. split; [done|]. by intros (? & ? & _). }
  intros ([config problems'] & Hconfig & H)%rbind_Ret. apply rbind_Ret in H as (d & Hd & H).
  apply rbind_Ret in H as (fam & Hfam & H). apply rbind_Ret in H as ([mods' ev] & Hdet & [= <- <- <- <-]).
  assert (match read_json (directory ++ ["config.json"])%list w with Ret (PDict d) => Some d | _ => Some [] end
          = Some d) as ->.
  { destruct (read_json _ w) as [v|e]; [|destruct (json_or_os e)]; simplify_eq/=;
      [by destruct config; simplify_eq/= | done]. }
  destruct (detect_modalities_exact _ _ _ _ _ Hord Hdir Hdet) as [(-> & Hs & e & He & Hm) | [-> Hs]].
  - left. split; [done|]. split; [eauto|]. exists e. split; [apply elem_of_app; by right | done].
  - right. split; [done|]. by intros (? & [= <-] & ?).
Qed.

Lemma has_str_map s l : has_str s (map PStr l) = existsb (fun x => String.eqb x s) l.
Proof. unfold has_str. induction l as [|x l IH]; cbn; [done|]. by rewrite IH. Qed.

Lemma elem_iterdir p w n : n ∈ iterdir p w <-> is_Some (w !! (p ++ [n])%list).
Proof.
  unfold iterdir. rewrite list_elem_of_omap. split.
  - intros ([q x] & Hq & Hn). apply elem_of_map_to_list in Hq. unfold child_name in Hn.
    destruct (last q); [|done]. case_decide as E; [|done]. injection Hn as ->. rewrite <- E. eauto.
  - intros [x Hx]. exists ((p ++ [n])%list, x). split; [by apply elem_of_map_to_list|].
    unfold child_name. rewrite last_snoc. by rewrite decide_True.
Qed.

Lemma inspect_directory_vision directory now w c :
  artifact_order ≡ₚ _VLM_ARTIFACT_NAMES -> p_is_dir directory w = true ->
  inspect_directory py_str sha256_hex artifact_order directory now w = Ret c ->
  (has_str "vision" (mcd_modalities c) = true
   <-> exists config, inspected_config directory w = Some config /\ shows_vision config directory w)
  /\ (has_str "vision" (mcd_modalities c) = true ->
      exists e, PStr e ∈ mcd_evidence c /\ mem e _EXPLICIT_VISION_EVIDENCE = true).
Proof.
  intros Hord Hdir. unfold inspect_directory. destruct (iterdir directory w) as [|n names] eqn:Ei.
  { intros [= <-]. cbn. split; [|done]. split; [done|]. intros (config & Hc & _). exfalso.
    unfold inspected_config, config_file, p_is_file in Hc. rewrite Hdir in Hc. cbn in Hc.
    destruct (w !! _) as [[|]|] eqn:E; [done | | done].
    assert ("config.json" ∈ iterdir directory w) as Hin by (apply elem_iterdir; eauto).
    rewrite Ei in Hin. by apply not_elem_of_nil in Hin. }
  intros ([[[family mods] hints] problems] & Hh & [= <-])%rbind_Ret. cbn [mcd_modalities mcd_evidence].
  rewrite has_str_map.
  destruct (directory_hints_exact _ _ _ _ _ _ Hord Hdir Hh) as [(-> & Hs & e & He & Hm) | [-> Hs]].
  - unfold normalize_modalities. rewrite (has_explicit_elem e) by (try done; rewrite !elem_of_app; auto).
    cbn. split; [done|]. intros _. exists e. split; [|done]. apply list_elem_of_fmap. exists e.
    split; [done|]. rewrite !elem_of_app. auto.
  - cbn. split; [|done]. by split.
Qed.

Lemma inspect_directory_status directory now w c :
  inspect_directory py_str sha256_hex artifact_order directory now w = Ret c ->
  mcd_status c = "candidate" <-> mcd_detected_format c <> "unknown".
Proof.
  unfold inspect_directory. destruct (iterdir directory w); [by intros [= <-]|].
  intros ([[[family mods] hints] problems] & _ & [= <-])%rbind_Ret. cbn [mcd_status mcd_detected_format].
  by destruct (_ && _).
Qed.

(** Vision is claimed exactly on explicit evidence.  When the inspection of a path
    answers, the candidate has the vision modality exactly if the path is a directory with
    a configuration file and its configuration or its contents show vision in one of the
    documented ways, and its evidence then names an explicit sign; and it is a candidate
    for registration exactly if its format is known. *)
Theorem vision_is_explicit expand source now w c err :
  artifact_order ≡ₚ _VLM_ARTIFACT_NAMES ->
  inspect_model_candidate py_str sha256_hex artifact_order expand source now w = Ret (c, err) ->
  let d := expand (strip source) in
  (has_str "vision" (mcd_modalities c) = true
   <-> strip source <> "" /\ exists config, inspected_config d w = Some config /\ shows_vision config d w)
  /\ (has_str "vision" (mcd_modalities c) = true ->
      exists e, PStr e ∈ mcd_evidence c /\ mem e _EXPLICIT_VISION_EVIDENCE = true)
  /\ (mcd_status c = "candidate" <-> mcd_detected_format c <> "unknown").
Proof.
  intros Hord. unfold inspect_model_candidate. cbv zeta. set (d := expand (strip source)).
  assert (Hno : p_is_dir d w = false -> forall config, inspected_config d w = Some config -> False)
    by (unfold inspected_config; by intros -> ).
  destruct (String.eqb_spec (strip source) "") as [-> | Hne].
  { intros [= <- <-]. cbn. split; [split; [done | by intros [? _]]|]. split; [done|]. split; done. }
  intros (c' & Hc & [= <- <-])%rbind_Ret.
  destruct (p_is_dir d w) eqn:Hdir.
  - assert (p_exists d w = true) as E by (unfold p_exists, p_is_dir in *; by destruct (w !! d)).
    assert (p_is_file d w = false) as E' by (unfold p_is_file, p_is_dir in *; by destruct (w !! d) as [[]|]).
    rewrite E, E' in Hc. cbn [negb andb] in Hc.
    destruct (inspect_directory_vision _ _ _ _ Hord Hdir Hc) as [H1 H2].
    split; [rewrite H1; naive_solver|]. split; [done|]. by eapply inspect_directory_status.
  - assert (has_str "vision" (mcd_modalities c') = false
            /\ (mcd_status c' = "candidate" <-> mcd_detected_format c' <> "unknown")) as [-> Hs]
      by (destruct (negb _); [|destruct (_ && _)]; injection Hc as <-; done).
    split; [split; [done | intros [_ (config & Hconf & _)]; by destruct (Hno eq_refl config)]|]. by split.
Qed.
End inspection.

(** ** Examples and witnesses *)
Definition demo_py_str_store (v : pyval) : string := "".
Definition demo_hex (s : string) : string := s.

(** A vision-language model on disk. *)
Definition demo_disk : files :=
  list_to_map
    [(["/"; "m"], Dir);
     (["/"; "m"; "config.json"], File (Json (PDict [("model_type", PStr "Qwen2_VL")])));
     (["/"; "m"; "tokenizer.json"], File (Json (PDict [])));
     (["/"; "m"; "w.safetensors"], File NotUtf8)].

Lemma vision_is_explicit_witness :
  exists c, inspect_model_candidate demo_py_str_store demo_hex _VLM_ARTIFACT_NAMES path_of " /m " "t" demo_disk
            = Ret (c, None)
    /\ mcd_detected_format c = "mlx" /\ mcd_status c = "candidate" /\ has_str "vision" (mcd_modalities c) = true
    /\ exists e, PStr e ∈ mcd_evidence c /\ mem e _EXPLICIT_VISION_EVIDENCE = true.
Proof.
  eexists. split; [vm_compute; reflexivity|]. split; [reflexivity|].
  assert (H := vision_is_explicit demo_py_str_store demo_hex _VLM_ARTIFACT_NAMES path_of " /m " "t" demo_disk _ None
                 ltac:(reflexivity) ltac:(vm_compute; reflexivity)).
  cbv zeta in H. destruct H as (_ & H1 & H2). split; [by apply H2|]. split; [reflexivity|].
  by apply H1.
Defined.

(** Two projectors beside the weights. *)
Definition demo_two_projectors : files :=
  list_to_map
    [(["/"; "m"], Dir); (["/"; "m"; "config.json"], File (Json (PDict [])));
     (["/"; "m"; "mm_projector"], Dir); (["/"; "m"; "vision_tower"], Dir)].

(** The candidate id is not stable: it depends on the order in which Python iterates over
    the set of artifact names, which changes from process to process. *)
Lemma candidate_id_depends_on_set_order :
  exists order c1 c2,
    order ≡ₚ _VLM_ARTIFACT_NAMES
    /\ inspect_model_candidate demo_py_str_store demo_hex _VLM_ARTIFACT_NAMES path_of "/m" "t" demo_two_projectors
       = Ret (c1, None)
    /\ inspect_model_candidate demo_py_str_store demo_hex order path_of "/m" "t" demo_two_projectors = Ret (c2, None)
    /\ mcd_evidence c1 <> mcd_evidence c2.
Proof.
  exists ["vision_tower"; "mm_projector"; "image_newline"]. do 2 eexists. split; [apply perm_swap|].
  split; [vm_compute; reflexivity|]. split; [vm_compute; reflexivity|]. vm_compute. discriminate.
Qed.

(** A configuration that is valid JSON but not an object makes the inspection raise,
    instead of being reported as unreadable. *)
Lemma json_list_config_raises :
  inspect_model_candidate demo_py_str_store demo_hex _VLM_ARTIFACT_NAMES path_of "/m" "t"
    (<[["/"; "m"; "config.json"] := File (Json (PList []))]> demo_disk) = Raise (Exc "AttributeError" "get").
Proof. vm_compute. reflexivity. Qed.
