(* ===== verification/ModelRegisterProps.v ===== *)
(** * Registration: exactness, idempotence, the manifest's invariant and the inventory

    The lemmas describe what a copy and a write change and what they leave alone; the
    theorems lift this to [register_model_candidate], to every history of the store's
    operations, and to the inventory that is advertised. *)

From S2P Require Import Prelude PyDict PyStr PySeq PyRe PyJson ControlPlane LogSafety ModelPath ModelStore ModelRegister ModelStoreProps.
From Stdlib Require Import Ascii.
Open Scope string_scope.

(** ** Ids as file names *)
Lemma filter_string_all p s : string_forallb p (filter_string p s) = true.
Proof. induction s as [|c s IH]; cbn; [done|]. destruct (p c) eqn:E; cbn; [by rewrite E|done]. Qed.

Lemma str_take_cons n c s : str_take (S n) (String c s) = String c (str_take n s).
Proof. done. Qed.

Lemma str_take_forallb p n s : string_forallb p s = true -> string_forallb p (str_take n s) = true.
Proof.
  revert n. induction s as [|c s IH]; intros [|n]; cbn; try done. intros [-> H]%andb_prop. by apply IH.
Qed.

Lemma removesuffix_head suffix s c rest : removesuffix suffix s = String c rest -> exists s', s = String c s'.
Proof.
  unfold removesuffix. destruct (endswith _ _); [|eauto].
  destruct s as [|d s]; [by destruct (_ - _)|]. destruct (_ - _) as [|n]; [done|].
  rewrite str_take_cons. intros [= -> _]. eauto.
Qed.

Lemma filename_char_lacks_slash s : string_forallb filename_char s = true -> lacks "/" s.
Proof. apply string_forallb_impl. intros c H. by destruct (Ascii.eqb_spec c "/") as [-> |]. Qed.

(** A validated id gives a file name that stays where it is put. *)
Lemma safe_filename_plain id :
  validate_model_id id = None -> plain_part (safe_filename id) /\ safe_filename id <> "..".
Proof.
  unfold validate_model_id, safe_id_match. destruct (_ || _); [done|].
  destruct (removesuffix newline id) as [|c rest] eqn:E; [done|].
  apply removesuffix_head in E as [s ->]. destruct (is_alnum c) eqn:Ec; [|done]. intros _.
  unfold safe_filename. assert (filename_char c = true) as Hc by (unfold filename_char; by rewrite Ec).
  cbn [filter_string]. rewrite Hc, str_take_cons.
  assert (lacks "/" (String c (str_take 63 (filter_string filename_char s)))) as Hl.
  { apply filename_char_lacks_slash. cbn. rewrite Hc. apply str_take_forallb, filter_string_all. }
  repeat split; try done; intros [= -> _]; done.
Qed.

Lemma path_join_app p name : plain_part name -> path_join p name = (p ++ [name])%list.
Proof. intros (H1%String.eqb_neq & H2%String.eqb_neq & _). unfold path_join. by rewrite H1, H2. Qed.

(** The parts of a parsed path are plain. *)
Lemma split_on_lacks sep s : Forall (lacks sep) (split_on sep s).
Proof.
  induction s as [|c s IH]; cbn; [by constructor|]. destruct (Ascii.eqb c sep) eqn:E; [by constructor|].
  destruct (split_on sep s) as [|x l]; [by repeat constructor; unfold lacks; cbn; rewrite E|].
  apply Forall_cons in IH as [Hx Hl]. constructor; [|done]. unfold lacks in *. cbn. by rewrite E.
Qed.

Lemma path_of_parts s :
  exists front, path_of s = (front ++ List.filter (fun w => negb (String.eqb w "" || String.eqb w ".")) (split_on "/" s))%list
    /\ (front = [] \/ front = ["/"] \/ front = ["//"]).
Proof.
  unfold path_of. eexists. split; [reflexivity|].
  destruct (startswith "///" s), (startswith "//" s), (startswith "/" s); auto.
Qed.

Lemma last_plain_or_empty s : path_name (path_of s) = "" \/ plain_part (path_name (path_of s)).
Proof.
  destruct (path_of_parts s) as (front & -> & Hf).
  set (l := List.filter _ _).
  assert (Forall plain_part l) as Hl.
  { apply Forall_forall. intros x. unfold l. rewrite list_elem_of_In, filter_In, <- list_elem_of_In.
    intros [Hx H]. apply negb_true_iff, orb_false_elim in H as [H1%String.eqb_neq H2%String.eqb_neq].
    split; [done|]. split; [done|]. by apply (proj1 (Forall_forall _ _) (split_on_lacks "/" s)). }
  destruct l as [|x l _] using rev_ind.
  - rewrite app_nil_r. left. by destruct Hf as [-> | [-> | ->]].
  - right. apply Forall_app in Hl as [_ [Hx _]%Forall_cons]. unfold path_name.
    rewrite app_assoc, last_snoc. destruct (String.eqb_spec x "/") as [-> |]; [by destruct Hx as (_ & _ & ?)|].
    by destruct (String.eqb_spec x "//") as [-> |]; [destruct Hx as (_ & _ & ?)|].
Qed.

(** ** Where a candidate goes *)
Definition managed_rel (root : path) (c : ModelCandidate) (id : string) : path := (managed_destination root c id).2.

(** The name the artifact was resolved to is not a parent reference. *)
Definition resolved_source (c : ModelCandidate) : Prop := path_name (path_of (mcd_source_path c)) <> "..".

Lemma managed_rel_models root c id : exists rest, managed_rel root c id = "models" :: rest.
Proof.
  unfold managed_rel, managed_destination, path_join.
  repeat match goal with |- context [if ?b then _ else _] => destruct b end; eexists; reflexivity.
Qed.

Lemma managed_rel_plain root c id :
  validate_model_id id = None -> resolved_source c ->
  Forall (fun s => plain_part s /\ s <> "..") (managed_rel root c id).
Proof.
  intros [Hid Hdots]%safe_filename_plain Hsrc. unfold managed_rel, managed_destination.
  assert (Hlit : Forall (fun s => plain_part s /\ s <> "..") ["models"; "gguf"; "vlm"; "mlx"])
    by (by repeat constructor).
  assert (Hone : forall k, k ∈ ["gguf"; "vlm"; "mlx"] ->
            Forall (fun s => plain_part s /\ s <> "..") (["models"; k] ++ [safe_filename id])%list).
  { intros k Hk. rewrite Forall_forall in Hlit |- *. intros x Hx. rewrite elem_of_app in Hx.
    destruct Hx as [Hx | ->%list_elem_of_singleton]; [apply Hlit; set_solver | by split]. }
  destruct (String.eqb _ "gguf"); [|destruct (has_str _ _)]; cbn [snd]; rewrite !(path_join_app _ (safe_filename id)) by done.
  - destruct (last_plain_or_empty (mcd_source_path c)) as [-> | Hp].
    + apply (Hone "gguf"). set_solver.
    + rewrite path_join_app by done. apply Forall_app. split; [apply (Hone "gguf"); set_solver|]. apply Forall_singleton. by split.
  - apply (Hone "vlm"). set_solver.
  - apply (Hone "mlx"). set_solver.
Qed.

(** ** What a copy changes *)
Lemma below_app p rest : below p (p ++ rest)%list = Some rest.
Proof. induction p as [|x p IH]; cbn; [by destruct rest|]. by rewrite String.eqb_refl. Qed.

Lemma below_prefix r p q : below (r ++ p)%list (r ++ q)%list = below p q.
Proof. induction r as [|x r IH]; cbn; [done|]. by rewrite String.eqb_refl. Qed.

Lemma below_Some p q rest : below p q = Some rest -> q = (p ++ rest)%list.
Proof.
  revert q. induction p as [|x p IH]; intros [|y q]; cbn; try by intros [= <-].
  destruct (String.eqb_spec x y) as [<- |]; [|done]. by intros ->%IH.
Qed.

Section copy.
Context (copied : copy_outcome) (src dst : path) (w : files).

Lemma copy_of_elem k n :
  (k, n) ∈ copy_of copied src dst w ->
  exists rest n0, k = (dst ++ rest)%list /\ w !! (src ++ rest)%list = Some n0
    /\ match copy_entry copied (src ++ rest)%list n0 with
       | None => n = n0 | Some (Some part) => n = part | Some None => False
       end.
Proof.
  unfold copy_of. rewrite list_elem_of_omap. intros ([q n0] & Hq%elem_of_map_to_list & H).
  destruct (below src q) as [rest|] eqn:E; [|done]. apply below_Some in E as ->. exists rest, n0.
  destruct (copy_entry _ _ _) as [[part|]|]; simplify_eq/=; done.
Qed.

Lemma copy_artifact_elsewhere r w' p :
  copy_artifact copied src dst w = (r, w') -> below dst p = None -> w' !! p = w !! p.
Proof.
  intros [= _ <-] Hp. rewrite lookup_union_r; [done|]. apply not_elem_of_list_to_map_1.
  rewrite list_elem_of_fmap. intros ([k n] & -> & (rest & n0 & -> & _)%copy_of_elem). cbn in Hp. by rewrite below_app in Hp.
Qed.

Lemma copy_artifact_grows r w' p :
  copy_artifact copied src dst w = (r, w') -> is_Some (w !! p) -> is_Some (w' !! p).
Proof. intros [= _ <-] [n Hn]. rewrite lookup_union, Hn. destruct (list_to_map _ !! p); eauto. Qed.

Lemma copy_artifact_complete w' rest n :
  copy_artifact copied src dst w = (Ret tt, w') -> w !! (src ++ rest)%list = Some n ->
  w' !! (dst ++ rest)%list = Some n.
Proof.
  unfold copy_artifact. destruct (copy_fails copied src w) eqn:Hf; [done|]. intros [= <-] Hn.
  assert (Hok : forall rest n, w !! (src ++ rest)%list = Some n -> copy_entry copied (src ++ rest)%list n = None).
  { intros rest' n' H. destruct (copy_entry copied (src ++ rest')%list n') eqn:E; [|done]. exfalso.
    unfold copy_fails in Hf. apply not_true_iff_false in Hf. apply Hf, existsb_exists.
    exists ((src ++ rest')%list, n'). split; [by apply list_elem_of_In, elem_of_map_to_list|].
    by rewrite below_app, E. }
  apply lookup_union_Some_l, elem_of_list_to_map_1'.
  - intros n' (rest' & n0 & E & H0 & H)%copy_of_elem. apply app_inv_head in E as <-.
    rewrite (Hok _ _ H0) in H. congruence.
  - unfold copy_of. rewrite list_elem_of_omap. exists ((src ++ rest)%list, n).
    split; [by apply elem_of_map_to_list|]. by rewrite below_app, (Hok _ _ Hn).
Qed.
End copy.

(** ** Registration of a checked candidate *)
Lemma manifest_outside_models root rest : below (root ++ "models" :: rest)%list (manifest_path root) = None.
Proof. unfold manifest_path. by rewrite below_prefix. Qed.

Lemma manifest_outside_destination root c id : below (root ++ managed_rel root c id)%list (manifest_path root) = None.
Proof. destruct (managed_rel_models root c id) as [rest ->]. apply manifest_outside_models. Qed.

Lemma p_exists_spec p w : p_exists p w = true <-> is_Some (w !! p).
Proof. unfold p_exists. destruct (w !! p); split; [by eauto | done | done | by intros []]. Qed.

Lemma p_exists_false p w : p_exists p w = false <-> w !! p = None.
Proof. unfold p_exists. by destruct (w !! p). Qed.

(** The entry a registration makes, and the manifest with it. *)
Definition entry_for root c id display now : RegisteredModel :=
  registered_of c id display (str_path (managed_rel root c id)) now.

Definition with_entry (m : ModelRegistryManifest) (e : RegisteredModel) (now : string) : ModelRegistryManifest :=
  manifest_touch now (manifest_append (PDict (registered_to_dict e)) m).

Definition copy_problems : list string := ["candidate_missing"; "managed_destination_exists"; "copy_failed"].

(** What [w'] keeps of [w] beside a destination and the manifest: nothing disappears, and
    elsewhere at most directories are new. *)
Definition keeps_outside (root dest : path) (w w' : files) : Prop :=
  (forall p, is_Some (w !! p) -> is_Some (w' !! p))
  /\ (forall p, below dest p = None -> p <> manifest_path root ->
        w' !! p = w !! p \/ (w !! p = None /\ w' !! p = Some Dir)).

Lemma keeps_outside_lookup root dest w w' p n :
  keeps_outside root dest w w' -> below dest p = None -> p <> manifest_path root ->
  w !! p = Some n -> w' !! p = Some n.
Proof. intros [_ H] Hb Hm Hn. destruct (H p Hb Hm) as [-> | [E _]]; congruence. Qed.

Lemma keeps_outside_refl root dest w : keeps_outside root dest w w.
Proof. split; [done | by left]. Qed.

Lemma keeps_outside_trans root dest w1 w2 w3 :
  keeps_outside root dest w1 w2 -> keeps_outside root dest w2 w3 -> keeps_outside root dest w1 w3.
Proof.
  intros [H1 H2] [H3 H4]. split; [by eauto|]. intros p Hb Hm.
  destruct (H2 p Hb Hm) as [E | [E1 E2]], (H4 p Hb Hm) as [E' | [E1' E2']];
    [left | right | right | right]; split || idtac; congruence.
Qed.

Lemma keeps_outside_adds root dest w w' : adds_dirs w w' -> keeps_outside root dest w w'.
Proof. intros H. split; [by eauto using adds_dirs_grows | auto]. Qed.

Lemma keeps_outside_copy copied src root dest w r w' :
  copy_artifact copied src dest w = (r, w') -> keeps_outside root dest w w'.
Proof.
  intros H. split; [by eauto using copy_artifact_grows|]. intros p Hp _. left.
  by rewrite (copy_artifact_elsewhere _ _ _ _ _ _ _ H Hp).
Qed.

Lemma keeps_outside_manifest root dest x w : keeps_outside root dest w (<[manifest_path root := x]> w).
Proof.
  split.
  - intros p Hp. destruct (decide (p = manifest_path root)) as [-> |].
    + rewrite lookup_insert_eq. eauto.
    + by rewrite lookup_insert_ne by congruence.
  - intros p _ Hne. left. by rewrite lookup_insert_ne by congruence.
Qed.

Section registration.
Context (py_str : pyval -> string) (resolve : path -> path).

(** A copy that succeeds, followed by the write of the manifest. *)
Lemma copied_then_written copied write_fails root source dest m w1 w2 r w3 :
  below dest (manifest_path root) = None ->
  copy_artifact copied source dest w1 = (Ret tt, w2) ->
  write_manifest_atomic write_fails root m w2 = (r, w3) ->
  keeps_outside root dest w1 w3
  /\ match r with
     | Ret _ => w3 !! manifest_path root = Some (File (Json (PDict (manifest_to_dict m))))
                /\ forall rest n, w1 !! (source ++ rest)%list = Some n -> w3 !! (dest ++ rest)%list = Some n
     | Raise _ => forall n, w1 !! manifest_path root = Some n -> w3 !! manifest_path root = Some n
     end.
Proof.
  intros Hb E2 E3. pose proof (keeps_outside_copy _ _ root _ _ _ _ E2) as Hk.
  destruct (write_manifest_spec _ _ _ _ _ _ E3) as (w4 & Ha & Hw).
  pose proof (keeps_outside_adds root dest _ _ Ha) as Hk'. destruct r as [[]|x].
  - destruct Hw as (-> & _ & _). split; [|split; [apply lookup_insert_eq|]].
    + eapply keeps_outside_trans; [exact Hk|].
      eapply keeps_outside_trans; [exact Hk' | apply keeps_outside_manifest].
    + intros rest n Hrn. rewrite lookup_insert_ne by (intros E; by rewrite E, below_app in Hb).
      eapply adds_dirs_keeps; [exact Ha|]. by eapply copy_artifact_complete.
  - subst w4. split; [by eapply keeps_outside_trans|].
    intros n Hn. eapply adds_dirs_keeps; [exact Ha|]. by rewrite (copy_artifact_elsewhere _ _ _ _ _ _ _ E2 Hb).
Qed.

Lemma register_new_spec copied write_fails root m c id display now w r w' :
  register_new copied write_fails root m c id display now w = (r, w') ->
  let dest := (root ++ managed_rel root c id)%list in
  let source := path_of (mcd_source_path c) in
  let e := entry_for root c id display now in
  let unchanged := forall n, w !! manifest_path root = Some n -> w' !! manifest_path root = Some n in
  keeps_outside root dest w w'
  /\ match r with
     | Ret res =>
         (res = mkRegistration e (str_path (managed_rel root c id)) true None
          /\ w' !! manifest_path root = Some (File (Json (PDict (manifest_to_dict (with_entry m e now)))))
          /\ w !! dest = None /\ is_Some (w !! source)
          /\ forall rest n, w !! (source ++ rest)%list = Some n -> w' !! (dest ++ rest)%list = Some n)
         \/ (exists problem, res = registration_failed (bare_model id) problem /\ problem ∈ copy_problems
             /\ (problem <> "copy_failed" -> w' = w) /\ unchanged)
     | Raise _ => unchanged
     end.
Proof.
  intros H dest source e unchanged. unfold register_new in H.
  rewrite (surjective_pairing (managed_destination root c id)) in H. fold (managed_rel root c id) in H.
  fold dest source in H.
  assert (Hb : below dest (manifest_path root) = None) by apply manifest_outside_destination.
  destruct (p_exists source w) eqn:Es; cbn [negb] in H.
  2: { injection H as <- <-. split; [apply keeps_outside_refl|]. right. exists "candidate_missing".
       split; [done|]. split; [by apply mem_cases|]. by split; intros ?. }
  destruct (p_exists dest w) eqn:Ed.
  { injection H as <- <-. split; [apply keeps_outside_refl|]. right. exists "managed_destination_exists".
    split; [done|]. split; [by apply mem_cases|]. by split; intros ?. }
  apply p_exists_false in Ed. apply p_exists_spec in Es.
  destruct (mkdirs _ w) as [[[]|x] w1] eqn:E1; apply mkdirs_adds in E1; pose proof (keeps_outside_adds root dest _ _ E1) as Hk1.
  2: { injection H as <- <-. split; [done|]. right. exists "copy_failed".
       split; [done|]. split; [by apply mem_cases|]. split; [done|]. intros n. by apply adds_dirs_keeps. }
  destruct (copy_artifact copied source dest w1) as [[[]|x] w2] eqn:E2.
  2: { injection H as <- <-. split; [eapply keeps_outside_trans; [done | by eapply keeps_outside_copy]|].
       right. exists "copy_failed". split; [done|]. split; [by apply mem_cases|]. split; [done|]. intros n Hn.
       rewrite (copy_artifact_elsewhere _ _ _ _ _ _ _ E2 Hb). by eapply adds_dirs_keeps. }
  destruct (write_manifest_atomic _ _ _ w2) as [r3 w3] eqn:E3.
  destruct (copied_then_written _ _ _ _ _ _ _ _ _ _ Hb E2 E3) as [Hk3 Hw].
  destruct r3 as [[]|x]; injection H as <- <-; (split; [by eapply keeps_outside_trans|]).
  - left. destruct Hw as [Hm Hc]. split; [done|]. split; [done|]. split; [done|]. split; [done|].
    intros rest n Hn. apply Hc. by eapply adds_dirs_keeps.
  - intros n Hn. apply Hw. by eapply adds_dirs_keeps.
Qed.

(** ** Registration as a whole *)
Lemma load_manifest_ok root w m :
  load_manifest py_str root w = Ret (inl m) ->
  exists data, w !! manifest_path root = Some (File (Json data)) /\ manifest_from_dict py_str data = Ret m
    /\ mft_schema_version m = 1%Z.
Proof.
  unfold load_manifest, read_json, p_exists.
  destruct (w !! manifest_path root) as [[|[data| | |]]|]; cbn; try done.
  intros (m' & Hm & H)%rbind_Ret. destruct (mft_schema_version m' =? 1)%Z eqn:E; cbn in H; [|done].
  injection H as ->. apply Z.eqb_eq in E. eauto.
Qed.

Lemma load_manifest_of root w m :
  w !! manifest_path root = Some (File (Json (PDict (manifest_to_dict m)))) -> mft_schema_version m = 1%Z ->
  load_manifest py_str root w = Ret (inl m).
Proof.
  unfold load_manifest, read_json, p_exists. intros -> Hv. cbn [negb]. rewrite manifest_roundtrip. cbn [rbind].
  by rewrite Hv.
Qed.

Lemma load_manifest_lookup root w w' :
  w' !! manifest_path root = w !! manifest_path root -> load_manifest py_str root w' = load_manifest py_str root w.
Proof. unfold load_manifest, read_json, p_exists. by intros ->. Qed.

Lemma load_manifest_failed root w failed :
  load_manifest py_str root w = Ret (inr failed) ->
  rgr_manifest_updated failed = false /\ is_Some (rgr_problem failed).
Proof.
  unfold load_manifest. destruct (negb _); [intros [= <-]; eauto|]. destruct (read_json _ w) as [data|e].
  - intros (m & _ & H)%rbind_Ret. destruct (negb _); [injection H as <-; eauto | done].
  - destruct (json_or_os e); [intros [= <-]; eauto | done].
Qed.

(** What a call that writes nothing answers. *)
Definition read_only_answer root mid cid w (r : pyres ModelRegistrationResult) : Prop :=
  match r with
  | Ret res =>
      rgr_manifest_updated res = false
      /\ (rgr_problem res = None ->
          exists m c existing, load_manifest py_str root w = Ret (inl m)
            /\ load_candidate py_str root cid w = Ret (inl c)
            /\ find_existing (mft_models m) (resolved_model_id mid c) = Ret (Some existing)
            /\ models_match existing c (resolved_model_id mid c) = true
            /\ registered_from_dict py_str (PDict existing) = Ret (rgr_registered_model res))
  | Raise _ => True
  end.

(** The checks that precede a copy. *)
Definition checked root mid cid w m c : Prop :=
  p_exists (registry_dir root) w = true /\ load_manifest py_str root w = Ret (inl m)
  /\ load_candidate py_str root cid w = Ret (inl c)
  /\ match mid with Some s => String.eqb (strip s) "" | None => false end = false
  /\ validate_model_id (resolved_model_id mid c) = None
  /\ find_existing (mft_models m) (resolved_model_id mid c) = Ret None.

(** Either nothing is written, or the checks have passed and the copy is made. *)
Lemma register_cases copied write_fails store cid mid dn now w r w' :
  let root := resolve (path_of store) in
  register_model_candidate py_str resolve copied write_fails store cid mid dn now w = (r, w') ->
  (w' = w /\ read_only_answer root mid cid w r)
  \/ exists m c display, checked root mid cid w m c
       /\ register_new copied write_fails root m c (resolved_model_id mid c) display now w = (r, w').
Proof.
  intros root. unfold register_model_candidate, checked. fold root.
  destruct (p_exists (registry_dir root) w) eqn:Ed; cbn [negb]; [|intros [= <- <-]; by left].
  destruct (load_manifest py_str root w) as [[m|failed]|e] eqn:Em; [| |intros [= <- <-]; by left].
  2: { intros [= <- <-]. left. split; [done|]. destruct (load_manifest_failed _ _ _ Em) as [H1 [x H2]].
       split; [done|]. congruence. }
  destruct (load_candidate py_str root cid w) as [[c|problem]|e] eqn:Ec; [| |]; try (intros [= <- <-]; by left).
  destruct (match mid with Some _ => _ | None => _ end) eqn:Eb; [intros [= <- <-]; by left|].
  destruct (validate_model_id _) as [problem|] eqn:Ev; [intros [= <- <-]; by left|].
  destruct (find_existing (mft_models m) _) as [[existing|]|e] eqn:Ef; [| |intros [= <- <-]; by left].
  - destruct (models_match existing c _) eqn:Emm; [|intros [= <- <-]; by left].
    destruct (registered_from_dict py_str (PDict existing)) as [rm|e] eqn:Er; [|intros [= <- <-]; by left].
    intros [= <- <-]. left. split; [done|]. split; [done|]. intros _. by exists m, c, existing.
  - intros H. right. eauto 12.
Qed.

Lemma below_models root rest p : below (root ++ ["models"])%list p = None -> below (root ++ "models" :: rest)%list p = None.
Proof.
  intros H. destruct (below (root ++ "models" :: rest)%list p) as [x|] eqn:E; [|done]. apply below_Some in E.
  replace p with ((root ++ ["models"]) ++ rest ++ x)%list in H by (rewrite E, <- !app_assoc; done).
  by rewrite below_app in H.
Qed.

(** C29: Registration changes what it says it changes.  Whatever the call answers, nothing that
    exists is removed, and outside the store's model directories and its manifest nothing is
    altered.  When it reports an update, the manifest is the old one with exactly one entry
    more, for an id that was valid and free, the destination was free, and every file of
    the source is at the destination.  When it reports no update and no problem, the entry
    was already there for this very candidate.  When it reports a problem, or raises, the
    manifest is the old one, and unless the problem is a failed copy nothing changed. *)
Theorem registration_exact copied write_fails store cid mid dn now w :
  let root := resolve (path_of store) in
  let '(r, w') := register_model_candidate py_str resolve copied write_fails store cid mid dn now w in
  (forall p, is_Some (w !! p) -> is_Some (w' !! p))
  /\ (forall p n, below (root ++ ["models"])%list p = None -> p <> manifest_path root ->
        w !! p = Some n -> w' !! p = Some n)
  /\ match r with
     | Raise _ => load_manifest py_str root w' = load_manifest py_str root w
     | Ret res =>
         match rgr_problem res, rgr_manifest_updated res with
         | None, true =>
             exists m c, checked root mid cid w m c
               /\ let e := rgr_registered_model res in
                  let dest := (root ++ managed_rel root c (rgm_model_id e))%list in
                  rgm_model_id e = resolved_model_id mid c
                  /\ load_manifest py_str root w' = Ret (inl (with_entry m e now))
                  /\ w !! dest = None /\ is_Some (w !! path_of (mcd_source_path c))
                  /\ forall rest n, w !! (path_of (mcd_source_path c) ++ rest)%list = Some n ->
                       w' !! (dest ++ rest)%list = Some n
         | None, false => w' = w /\ read_only_answer root mid cid w r
         | Some problem, updated =>
             updated = false /\ (problem <> "copy_failed" -> w' = w)
             /\ load_manifest py_str root w' = load_manifest py_str root w
         end
     end.
Proof.
  cbv zeta. set (root := resolve (path_of store)).
  destruct (register_model_candidate _ _ _ _ _ _ _ _ _ _) as [r w'] eqn:E.
  apply register_cases in E. fold root in E. destruct E as [[-> Hr] | (m & c & display & Hc & Hn)].
  - split; [done|]. split; [done|]. destruct r as [res|]; [|done]. pose proof Hr as [Hu _].
    rewrite Hu. by destruct (rgr_problem res).
  - destruct (register_new_spec _ _ _ _ _ _ _ _ _ _ _ Hn) as [[Hg Hk] Hr].
    pose proof Hc as (_ & Hm & _). destruct (load_manifest_ok _ _ _ Hm) as (data & Hd & _ & Hv).
    assert (Hsame : (forall n, w !! manifest_path root = Some n -> w' !! manifest_path root = Some n) ->
              load_manifest py_str root w' = load_manifest py_str root w)
      by (intros H; apply load_manifest_lookup; rewrite Hd; by apply H).
    split; [done|]. split.
    { intros p n Hp. apply (keeps_outside_lookup _ _ _ _ _ _ (conj Hg Hk)).
      destruct (managed_rel_models root c (resolved_model_id mid c)) as [rest ->]. by apply below_models. }
    destruct r as [res|e]; [|by apply Hsame].
    destruct Hr as [(-> & Hw & Hdest & Hsrc & Hcopy) | (problem & -> & _ & Hp & Hu)]; cbn.
    + exists m, c. split; [done|]. split; [done|]. split; [by apply load_manifest_of|]. by eauto.
    + split; [done|]. split; [done|]. by apply Hsame.
Qed.

(** ** Registering again *)
Lemma find_existing_app l id e :
  find_existing l id = Ret None -> find_existing (l ++ [e])%list id = find_existing [e] id.
Proof.
  induction l as [|x l IH]; cbn [find_existing app]; [done|]. destruct (py_get x) as [d|]; [|done]. cbn [rbind].
  destruct (get_is d "model_id" id); [done|]. exact IH.
Qed.

Lemma load_candidate_lookup root cid w w' :
  w' !! candidate_record_path root cid = w !! candidate_record_path root cid ->
  load_candidate py_str root cid w' = load_candidate py_str root cid w.
Proof. unfold load_candidate, read_json, p_exists. by intros ->. Qed.

Lemma load_candidate_exists root cid w c :
  load_candidate py_str root cid w = Ret (inl c) -> is_Some (w !! candidate_record_path root cid).
Proof. unfold load_candidate, p_exists. destruct (w !! _); [eauto | done]. Qed.

Lemma record_outside root cid rest : below (root ++ "models" :: rest)%list (candidate_record_path root cid) = None.
Proof. unfold candidate_record_path, registry_dir. by rewrite <- app_assoc, below_prefix. Qed.

Lemma record_not_manifest root cid : candidate_record_path root cid <> manifest_path root.
Proof.
  unfold candidate_record_path, registry_dir, manifest_path. rewrite <- app_assoc. intros H%app_inv_head.
  discriminate.
Qed.

(** A registration that updated the manifest, in terms of its parts. *)
Lemma register_updated copied write_fails store cid mid dn now w res w' :
  let root := resolve (path_of store) in
  register_model_candidate py_str resolve copied write_fails store cid mid dn now w = (Ret res, w') ->
  rgr_manifest_updated res = true ->
  exists m c display, checked root mid cid w m c
    /\ let e := entry_for root c (resolved_model_id mid c) display now in
       res = mkRegistration e (str_path (managed_rel root c (resolved_model_id mid c))) true None
       /\ load_manifest py_str root w' = Ret (inl (with_entry m e now))
       /\ keeps_outside root (root ++ managed_rel root c (resolved_model_id mid c))%list w w'.
Proof.
  intros root E Hu. apply register_cases in E. fold root in E.
  destruct E as [[-> [Hf _]] | (m & c & display & Hc & Hn)]; [congruence|].
  exists m, c, display. split; [done|]. apply register_new_spec in Hn as [Hk Hr].
  destruct Hr as [(-> & Hm & _) | (problem & -> & _)]; [|done]. split; [done|]. split; [|done].
  apply load_manifest_of; [done|]. destruct Hc as (_ & Hm' & _).
  by destruct (load_manifest_ok _ _ _ Hm') as (_ & _ & _ & Hv).
Qed.

(** Registration is idempotent.  After a registration that updated the manifest, the same
    call, whatever the display name, the clock or the disk do then, answers with the same
    entry and destination, reports no update and changes nothing. *)
Theorem registering_again_changes_nothing copied write_fails store cid mid dn now w res w' copied2 write_fails2 dn2 now2 :
  register_model_candidate py_str resolve copied write_fails store cid mid dn now w = (Ret res, w') ->
  rgr_manifest_updated res = true ->
  register_model_candidate py_str resolve copied2 write_fails2 store cid mid dn2 now2 w'
  = (Ret (mkRegistration (rgr_registered_model res) (rgr_managed_path res) false None), w').
Proof.
  intros E Hu. destruct (register_updated _ _ _ _ _ _ _ _ _ _ E Hu) as (m & c & display & Hc & -> & Hm & Hk).
  unfold register_model_candidate. set (root := resolve (path_of store)) in *.
  destruct Hc as (Hd & _ & Hcand & Hb & Hv & Hf).
  apply p_exists_spec, (proj1 Hk), p_exists_spec in Hd. rewrite Hd, Hm. cbn [negb].
  assert (load_candidate py_str root cid w' = Ret (inl c)) as ->.
  { rewrite <- Hcand. apply load_candidate_lookup. destruct (load_candidate_exists _ _ _ _ Hcand) as [n Hn].
    rewrite Hn. eapply keeps_outside_lookup; [exact Hk| |apply record_not_manifest | done].
    destruct (managed_rel_models root c (resolved_model_id mid c)) as [rest ->]. apply record_outside. }
  rewrite Hb, Hv. unfold with_entry. cbn [manifest_touch manifest_append mft_models].
  rewrite find_existing_app by done. cbn [find_existing py_get rbind].
  set (e := entry_for root c (resolved_model_id mid c) display now).
  assert (get_is (registered_to_dict e) "model_id" (resolved_model_id mid c) = true) as Hid by apply String.eqb_refl.
  rewrite Hid. unfold models_match. rewrite Hid.
  assert (get_is (registered_to_dict e) "source_candidate_id" (mcd_candidate_id c) = true) as -> by apply String.eqb_refl.
  assert (get_is (registered_to_dict e) "detected_format" (mcd_detected_format c) = true) as -> by apply String.eqb_refl.
  cbn [andb]. by rewrite registered_roundtrip.
Qed.
End registration.
