(* ===== verification/ModelInventoryProps.v ===== *)
(** * Histories of the model store, and what it advertises

    The operations of the store as a transition system over the file system, the
    invariant of its manifest over every history, and the exactness of the inventory. *)

From S2P Require Import Prelude PyDict PyStr PySeq PyRe PyJson ControlPlane LogSafety ModelPath ModelStore ModelRegister ModelStoreProps ModelRegisterProps.
From Stdlib Require Import Ascii.
Open Scope string_scope.

Section store.
Context (py_str : pyval -> string) (resolve : path -> path) (expand : string -> path)
        (sha256_hex : string -> string) (artifact_order : list string) (root : path).

(** A name that is not a reference to a parent. *)
Definition real_part (s : string) : Prop := plain_part s /\ s <> "..".

(** What the store relies on of the file system: its root is an absolute path, there are no
    links inside it, and an expanded path is absolute and has no parent references. *)
Context (root_rooted : rooted root)
        (no_links : forall rel, Forall real_part rel -> resolve (root ++ rel)%list = (root ++ rel)%list)
        (expanded : forall s, rooted (expand s) /\ ".." ∉ expand s).

(** ** The operations *)
Inductive store_step : files -> files -> Prop :=
| step_bootstrap write_fails s now w :
    expand (strip s) = root -> store_step w (bootstrap_model_store py_str expand write_fails s now w).2
| step_candidate write_fails s source now w c err :
    resolve (path_of s) = root ->
    inspect_model_candidate py_str sha256_hex artifact_order expand source now w = Ret (c, err) ->
    store_step w (write_candidate_record resolve write_fails s c w).2
| step_register copied write_fails s cid mid dn now w :
    resolve (path_of s) = root ->
    store_step w (register_model_candidate py_str resolve copied write_fails s cid mid dn now w).2
| step_elsewhere w w' :
    (forall k rest, k ∈ ["models"; "registry"] ->
      w' !! (root ++ k :: rest)%list = w !! (root ++ k :: rest)%list) ->
    store_step w w'.

(** ** The invariant *)
Definition entry_of (r : RegisteredModel) : pyval := PDict (registered_to_dict r).

(** An entry of the manifest: registered and managed, under a valid id, with its artifact
    in the store. *)
Definition entry_ok (w : files) (r : RegisteredModel) : Prop :=
  rgm_status r = "registered" /\ rgm_storage_mode r = "managed" /\ validate_model_id (rgm_model_id r) = None
  /\ exists rest, Forall real_part rest /\ rgm_managed_path r = str_path ("models" :: rest)
       /\ is_Some (w !! (root ++ "models" :: rest)%list).

Definition entries_ok (w : files) (rms : list RegisteredModel) : Prop :=
  NoDup (map rgm_model_id rms) /\ NoDup (map rgm_managed_path rms) /\ Forall (entry_ok w) rms.

Definition holds (w : files) (m : ModelRegistryManifest) : Prop :=
  mft_schema_version m = 1%Z /\ is_Some (w !! registry_dir root)
  /\ exists rms, mft_models m = map entry_of rms /\ entries_ok w rms.

Definition record_path (name : string) : path := (registry_dir root ++ ["candidates"; name])%list.

(** Every manifest and record that is a file was written by the store. *)
Definition manifest_ok (w : files) : Prop :=
  forall n, w !! manifest_path root = Some n ->
    n = Dir \/ exists m, n = File (Json (PDict (manifest_to_dict m))) /\ holds w m.

Definition records_ok (w : files) : Prop :=
  forall name n, w !! record_path name = Some n ->
    n = Dir \/ exists c, n = File (Json (PDict (candidate_to_dict c))) /\ resolved_source c.

Definition sound (w : files) : Prop := manifest_ok w /\ records_ok w.

(** The nodes the invariant speaks of do not disappear. *)
Definition keeps_nodes (w w' : files) : Prop :=
  forall k rest, k ∈ ["models"; "registry"] ->
    is_Some (w !! (root ++ k :: rest)%list) -> is_Some (w' !! (root ++ k :: rest)%list).

Lemma entries_keep w w' rms : keeps_nodes w w' -> Forall (entry_ok w) rms -> Forall (entry_ok w') rms.
Proof.
  intros Hk He. eapply Forall_impl; [exact He|]. intros r (H1 & H2 & H3 & rest & H4 & H5 & H6).
  repeat (split; [done|]). exists rest. repeat (split; [done|]). apply Hk; [set_solver | done].
Qed.

Lemma registry_keeps w w' : keeps_nodes w w' -> is_Some (w !! registry_dir root) -> is_Some (w' !! registry_dir root).
Proof. intros Hk. apply (Hk "registry" []). set_solver. Qed.

Lemma holds_keeps w w' m : keeps_nodes w w' -> holds w m -> holds w' m.
Proof.
  intros Hk (Hv & Hr & rms & Hm & Hid & Hp & He). split; [done|]. split; [by eapply registry_keeps|].
  exists rms. split; [done|]. split; [done|]. split; [done|]. by eapply entries_keep.
Qed.

(** A change that leaves the files of the registry alone. *)
Lemma sound_keeps w w' :
  keeps_nodes w w' ->
  (forall rest, w' !! (root ++ "registry" :: rest)%list = w !! (root ++ "registry" :: rest)%list
             \/ w' !! (root ++ "registry" :: rest)%list = Some Dir) ->
  sound w -> sound w'.
Proof.
  intros Hk Hreg [Hm Hr]. split.
  - intros n Hn. unfold manifest_path in Hn.
    destruct (Hreg ["models.json"]) as [E | E]; rewrite E in Hn; [|left; congruence]. destruct (Hm n Hn) as [-> | (m & -> & Hh)]; [by left|].
    right. exists m. split; [done|]. by eapply holds_keeps.
  - intros name n Hn. unfold record_path, registry_dir in *. rewrite <- app_assoc in Hn.
    cbn [app] in Hn. destruct (Hreg ["candidates"; name]) as [E | E]; rewrite E in Hn; [|left; congruence]. apply (Hr name). unfold record_path, registry_dir. by rewrite <- app_assoc.
Qed.

Lemma adds_dirs_sound w w' : adds_dirs w w' -> sound w -> sound w'.
Proof.
  intros H. apply sound_keeps.
  - intros k rest _. by apply adds_dirs_grows.
  - intros rest. destruct (H (root ++ "registry" :: rest)%list) as [E | [_ E]]; auto.
Qed.

(** The write of a manifest that holds. *)
Lemma sound_written w m :
  holds w m -> sound w -> sound (<[manifest_path root := File (Json (PDict (manifest_to_dict m)))]> w).
Proof.
  intros Hh [_ Hr]. split.
  - intros n. rewrite lookup_insert_eq. intros [= <-]. right. exists m. split; [done|].
    eapply holds_keeps; [|done]. intros k rest _. apply (keeps_outside_manifest root []).
  - intros name n. rewrite lookup_insert_ne; [apply Hr|]. unfold record_path, registry_dir, manifest_path.
    rewrite <- app_assoc. intros H%app_inv_head. discriminate.
Qed.

Lemma write_manifest_sound write_fails m w :
  holds w m -> sound w -> sound (write_manifest_atomic write_fails root m w).2.
Proof.
  intros Hh Hs. destruct (write_manifest_atomic _ _ _ w) as [r w'] eqn:E.
  destruct (write_manifest_spec _ _ _ _ _ _ E) as (w1 & Ha & Hw). cbn [snd].
  assert (Hs1 : sound w1) by (by eapply adds_dirs_sound). destruct r as [[]|e]; [|by subst].
  destruct Hw as (-> & _). apply sound_written; [|done]. eapply holds_keeps; [|done].
  intros k rest _. by apply adds_dirs_grows.
Qed.

(** A manifest that is read holds. *)
Lemma manifest_ok_read w data m :
  manifest_ok w -> read_json (manifest_path root) w = Ret data -> manifest_from_dict py_str data = Ret m -> holds w m.
Proof.
  unfold read_json. intros Hm. destruct (w !! manifest_path root) as [n|] eqn:E; [|done].
  destruct (Hm _ E) as [-> | (m' & -> & Hh)]; [done|]. intros [= <-]. rewrite manifest_roundtrip. by intros [= <-].
Qed.

Lemma manifest_ok_load w m : manifest_ok w -> load_manifest py_str root w = Ret (inl m) -> holds w m.
Proof.
  intros Hm H. destruct (load_manifest_ok _ _ _ _ H) as (data & Hd & Hf & _).
  eapply manifest_ok_read; [done | | done]. unfold read_json. by rewrite Hd.
Qed.

(** ** Bootstrap *)
Lemma create_missing_makes dirs w made w' d :
  create_missing dirs w = (Ret made, w') -> d ∈ dirs -> d <> [] -> is_Some (w' !! d).
Proof.
  revert w made w'. induction dirs as [|x dirs IH]; intros w made w'; cbn; [set_solver|].
  intros H Hd Hne. destruct (p_exists x w) eqn:Ex.
  - apply elem_of_cons in Hd as [-> | Hd]; [|by eapply IH].
    apply p_exists_spec in Ex. eapply adds_dirs_grows; [by eapply create_missing_adds | done].
  - destruct (mkdirs x w) as [[[]|e] w1] eqn:E1; [|done].
    destruct (create_missing dirs w1) as [[made'|e] w2] eqn:E2; [|done]. injection H as _ <-.
    apply elem_of_cons in Hd as [-> | Hd]; [|by eapply IH].
    eapply adds_dirs_grows; [by eapply create_missing_adds|]. exists Dir. by eapply mkdirs_makes.
Qed.

Lemma root_not_nil : root <> [].
Proof. destruct root_rooted as (rest & -> & _). done. Qed.

Lemma registry_dir_not_nil : registry_dir root <> [].
Proof. unfold registry_dir. intros H%app_eq_nil. by destruct H. Qed.

Lemma holds_fresh w now : is_Some (w !! registry_dir root) -> holds w (manifest_create root now).
Proof.
  intros Hr. split; [done|]. split; [done|]. exists []. split; [done|]. split; [constructor|].
  by split; constructor.
Qed.

Lemma bootstrap_sound write_fails s now w :
  expand (strip s) = root -> sound w -> sound (bootstrap_model_store py_str expand write_fails s now w).2.
Proof.
  intros Hroot Hs. unfold bootstrap_model_store. rewrite Hroot. destruct (String.eqb _ ""); [done|].
  destruct (decide _); [done|].
  destruct (create_missing (all_directories root) w) as [[made|e] w1] eqn:E1;
    pose proof (create_missing_adds _ _ _ _ E1) as Ha; pose proof (adds_dirs_sound _ _ Ha Hs) as Hs1; [|done].
  assert (Hr : is_Some (w1 !! registry_dir root)).
  { eapply create_missing_makes; [exact E1 | unfold all_directories; set_solver | apply registry_dir_not_nil]. }
  assert (Hdone : forall created reused m, holds w1 m ->
            sound (match write_manifest_atomic write_fails root m w1 with
                   | (Ret _, w) =>
                       (Ret (mkStoreState (str_path root) (str_path (manifest_path root)) created reused made
                               (mft_schema_version m) None), w)
                   | (Raise e, w) => (Raise e, w)
                   end).2).
  { intros created reused m Hh. pose proof (write_manifest_sound write_fails m w1 Hh Hs1) as H.
    by destruct (write_manifest_atomic write_fails root m w1) as [[[]|e] w2]. }
  destruct (p_exists (manifest_path root) w1); [|by apply Hdone, holds_fresh].
  destruct (read_json (manifest_path root) w1) as [data|e] eqn:Ej; [|by destruct (json_or_os e)].
  destruct (manifest_from_dict py_str data) as [m|e] eqn:Em; [|done].
  pose proof (manifest_ok_read _ _ _ (proj1 Hs1) Ej Em) as Hh.
  destruct (negb (mft_schema_version m =? 1)%Z); [done|]. by apply Hdone.
Qed.

(** ** Candidate records *)
Lemma inspect_source source now w c err :
  inspect_model_candidate py_str sha256_hex artifact_order expand source now w = Ret (c, err) ->
  mcd_source_path c = "" \/ mcd_source_path c = str_path (expand (strip source)).
Proof.
  unfold inspect_model_candidate. destruct (String.eqb _ ""); [intros [= <- _]; by left|].
  intros (c' & Hc & [= <- _])%rbind_Ret. right.
  destruct (negb _); [by injection Hc as <-|]. destruct (_ && _); [by injection Hc as <-|].
  destruct (p_is_dir _ w); [|by injection Hc as <-]. unfold inspect_directory in Hc.
  destruct (iterdir _ w); [by injection Hc as <-|].
  by apply rbind_Ret in Hc as ([[[fam mods] hints] problems] & _ & [= <-]).
Qed.

Lemma path_name_elem p : path_name p = "" \/ path_name p ∈ p.
Proof.
  unfold path_name. destruct (last p) as [n|] eqn:E; [|by left]. destruct (_ || _); [by left|]. right.
  apply last_Some in E as [l ->]. set_solver.
Qed.

Lemma inspect_resolved source now w c err :
  inspect_model_candidate py_str sha256_hex artifact_order expand source now w = Ret (c, err) -> resolved_source c.
Proof.
  intros H. unfold resolved_source. destruct (inspect_source _ _ _ _ _ H) as [-> | ->]; [done|].
  destruct (expanded (strip source)) as [Hr Hd]. rewrite path_of_str_rooted by done.
  destruct (path_name_elem (expand (strip source))) as [-> | He]; [done|]. congruence.
Qed.

Lemma record_file_real id : real_part (safe_filename id +:+ ".json").
Proof.
  assert (Hs : forall s, string_forallb filename_char s = true -> real_part (s +:+ ".json")).
  { intros s Hs. assert (lacks "/" (s +:+ ".json")) as Hl.
    { apply filename_char_lacks_slash. rewrite string_forallb_app. by rewrite Hs. }
    repeat split; try done; intros E%(f_equal String.length); rewrite string_length_app in E; cbn in E; lia. }
  apply Hs. unfold safe_filename. apply str_take_forallb, filter_string_all.
Qed.

Lemma record_resolves id : resolve (candidate_record_path root id) = candidate_record_path root id.
Proof.
  unfold candidate_record_path, registry_dir. rewrite <- app_assoc. apply no_links.
  apply Forall_app. split; [by repeat constructor|]. apply Forall_cons. split; [by repeat constructor|].
  apply Forall_singleton, record_file_real.
Qed.

Lemma root_resolves : resolve root = root.
Proof. pose proof (no_links [] (Forall_nil_2 _)) as H. by rewrite app_nil_r in H. Qed.

Lemma sound_record w c :
  resolved_source c -> sound w ->
  sound (<[candidate_record_path root (mcd_candidate_id c) := File (Json (PDict (candidate_to_dict c)))]> w).
Proof.
  intros Hc [Hm Hr]. split.
  - intros n Hn. rewrite lookup_insert_ne in Hn by apply record_not_manifest.
    destruct (Hm n Hn) as [-> | (m & -> & Hh)]; [by left|]. right. exists m. split; [done|].
    eapply holds_keeps; [|done]. intros k rest _ Hx.
    destruct (decide (candidate_record_path root (mcd_candidate_id c) = (root ++ k :: rest)%list)) as [<- |].
    + rewrite lookup_insert_eq. eauto.
    + by rewrite lookup_insert_ne.
  - intros name n. destruct (decide (candidate_record_path root (mcd_candidate_id c) = record_path name)) as [<- |].
    + rewrite lookup_insert_eq. intros [= <-]. right. eauto.
    + rewrite lookup_insert_ne by done. apply Hr.
Qed.

Lemma write_record_sound write_fails s c w :
  resolve (path_of s) = root -> resolved_source c -> sound w -> sound (write_candidate_record resolve write_fails s c w).2.
Proof.
  intros Hroot Hc Hs. unfold write_candidate_record. rewrite Hroot, record_resolves.
  destruct (negb (p_exists (registry_dir root) w)); [done|].
  destruct (mkdirs _ w) as [[[]|e] w1] eqn:E1; apply mkdirs_adds in E1; apply adds_dirs_sound in E1 as Hs1; try done.
  destruct (negb (startswith _ _)); [done|].
  assert (Hwrite : sound (match mkdirs (tmp root) w1 with
                   | (Raise e, w) => (Raise e, w)
                   | (Ret _, w) =>
                       match write_fails with
                       | Some e => (Raise e, w)
                       | None => (Ret (candidate_record_path root (mcd_candidate_id c)),
                           <[candidate_record_path root (mcd_candidate_id c) := File (Json (PDict (candidate_to_dict c)))]> w)
                       end
                   end).2).
  { destruct (mkdirs (tmp root) w1) as [[[]|e] w2] eqn:E2; apply mkdirs_adds in E2;
      pose proof (adds_dirs_sound _ _ E2 Hs1) as Hs2; [|done].
    destruct write_fails; [done|]. by apply sound_record. }
  destruct (w1 !! _) as [[|[v| | |]]|]; try done. by destruct (same_json _ _).
Qed.

(** ** Registration *)
Lemma get_is_id r id : get_is (registered_to_dict r) "model_id" id = String.eqb (rgm_model_id r) id.
Proof. done. Qed.

Lemma find_existing_free rms id :
  find_existing (map entry_of rms) id = Ret None -> id ∉ map rgm_model_id rms.
Proof.
  induction rms as [|r rms IH]; cbn [map find_existing]; [by intros _ ?%not_elem_of_nil|].
  cbn [py_get entry_of rbind]. rewrite get_is_id. destruct (String.eqb_spec (rgm_model_id r) id) as [|Hne]; [done|].
  intros H%IH. rewrite not_elem_of_cons. split; [congruence | done].
Qed.

Lemma real_plain l : Forall real_part l -> Forall plain_part l.
Proof. intros H. eapply Forall_impl; [exact H|]. by intros s []. Qed.

Lemma str_path_inj l l' :
  Forall real_part l -> Forall real_part l' ->
  str_path ("models" :: l) = str_path ("models" :: l') -> l = l'.
Proof.
  intros Hl Hl' E. apply (f_equal path_of) in E.
  assert (Hm : plain_part "models") by done.
  rewrite !path_of_str_relative in E by (done || by constructor; [|apply real_plain]). congruence.
Qed.

Lemma candidate_ok w cid c :
  records_ok w -> load_candidate py_str root cid w = Ret (inl c) -> resolved_source c.
Proof.
  intros Hr. unfold load_candidate, read_json, p_exists.
  change (candidate_record_path root cid) with (record_path (safe_filename cid +:+ ".json")).
  destruct (w !! _) as [n|] eqn:E; [|done]. cbn [negb].
  destruct (Hr _ _ E) as [-> | (c' & -> & Hc)]; [done|]. rewrite candidate_roundtrip. cbn [rbind].
  destruct (negb _); [done|]. destruct (String.eqb _ _); [done|]. by intros [= <-].
Qed.

(** The new entry fits among the old ones. *)
Lemma holds_with_entry w w' m c id display now :
  holds w m -> keeps_nodes w w' -> validate_model_id id = None -> resolved_source c ->
  find_existing (mft_models m) id = Ret None ->
  w !! (root ++ managed_rel root c id)%list = None -> is_Some (w' !! (root ++ managed_rel root c id)%list) ->
  holds w' (with_entry m (entry_for root c id display now) now).
Proof.
  intros (Hv' & Hr & rms & Hm & Hid & Hp & He) Hk Hv Hc Hf Hfree Hnew.
  destruct (managed_rel_models root c id) as [rest Hrel]. pose proof (managed_rel_plain root c id Hv Hc) as Hplain.
  rewrite Hrel in Hplain. apply Forall_cons in Hplain as [_ Hplain].
  set (e := entry_for root c id display now).
  assert (Hpath : rgm_managed_path e = str_path ("models" :: rest)) by (cbn; by rewrite Hrel).
  split; [done|]. split; [by eapply registry_keeps|]. exists (rms ++ [e])%list. split.
  { change (mft_models m ++ [entry_of e] = map entry_of (rms ++ [e]))%list. by rewrite Hm, map_app. }
  split; [|split].
  - rewrite map_app. apply NoDup_app. split; [done|]. split; [|apply NoDup_singleton].
    intros x Hx ->%list_elem_of_singleton. rewrite Hm in Hf. by apply find_existing_free in Hf.
  - rewrite map_app. apply NoDup_app. split; [done|]. split; [|apply NoDup_singleton].
    intros x Hx ->%list_elem_of_singleton. apply list_elem_of_fmap in Hx as (r & Hx & Hin).
    apply (proj1 (Forall_forall _ _) He) in Hin as (_ & _ & _ & rest' & Hpl & Hmp & [n Hex]).
    rewrite Hpath, Hmp in Hx. apply str_path_inj in Hx; [|done|done]. subst rest'.
    rewrite <- Hrel in Hex. congruence.
  - apply Forall_app. split; [by eapply entries_keep|]. apply Forall_singleton. repeat (split; [done|]).
    exists rest. split; [done|]. split; [done|]. by rewrite <- Hrel.
Qed.

Lemma register_sound copied write_fails s cid mid dn now w :
  resolve (path_of s) = root -> sound w ->
  sound (register_model_candidate py_str resolve copied write_fails s cid mid dn now w).2.
Proof.
  intros Hroot Hs. destruct (register_model_candidate _ _ _ _ _ _ _ _ _ _) as [r w'] eqn:E.
  apply register_cases in E. rewrite Hroot in E. cbn [snd].
  destruct E as [[-> _] | (m & c & display & (Hd & Hm & Hc & _ & Hv & Hf) & Hn)]; [done|].
  set (id := resolved_model_id mid c) in *. pose proof Hs as [Hmo Hro].
  pose proof (manifest_ok_load _ _ Hmo Hm) as Hh. pose proof (candidate_ok _ _ _ Hro Hc) as Hres.
  apply register_new_spec in Hn as [[Hg Hk] Hr].
  assert (Hkn : keeps_nodes w w') by (intros k rest _; apply Hg).
  assert (Hrec : records_ok w').
  { intros name n Hn. destruct (managed_rel_models root c id) as [rest Hrel].
    destruct (Hk (record_path name)) as [Eq | [_ Eq]]; [| |apply (Hro name); congruence | left; congruence].
    - rewrite Hrel. unfold record_path, registry_dir. by rewrite <- app_assoc, below_prefix.
    - unfold record_path, registry_dir, manifest_path. rewrite <- app_assoc. intros H%app_inv_head. discriminate. }
  destruct (load_manifest_ok _ _ _ _ Hm) as (data & Hdata & _).
  assert (Hold : (forall n, w !! manifest_path root = Some n -> w' !! manifest_path root = Some n) -> sound w').
  { intros H. split; [|done]. intros n. rewrite (H _ Hdata). intros [= <-].
    destruct (Hmo _ Hdata) as [? | (m' & Em & Hh')]; [by left|]. right. exists m'. split; [done|]. by eapply holds_keeps. }
  destruct r as [res|e]; [|by apply Hold]. destruct Hr as [(-> & Hman & Hfree & [ns Hsrc] & Hcopy) | (p & _ & _ & _ & Hu)].
  - split; [|done]. intros n. rewrite Hman. intros [= <-]. right. eexists. split; [done|].
    eapply holds_with_entry; try done. specialize (Hcopy [] ns). rewrite !app_nil_r in Hcopy. eauto.
  - by apply Hold.
Qed.

(** ** Histories *)
Lemma store_step_sound w w' : store_step w w' -> sound w -> sound w'.
Proof.
  intros [write_fails s now w1 Hr | write_fails s source now w1 c err Hr Hi | copied write_fails s cid mid dn now w1 Hr | w1 w2 H] Hs.
  - by apply bootstrap_sound.
  - apply write_record_sound; [done | by eapply inspect_resolved | done].
  - by apply register_sound.
  - eapply sound_keeps; [| |exact Hs].
    + intros k rest Hk Hx. by rewrite H.
    + intros rest. left. apply H. set_solver.
Qed.

(** A file system without a store at [root]. *)
Definition unbootstrapped (w : files) : Prop :=
  forall k rest, k ∈ ["models"; "registry"] -> w !! (root ++ k :: rest)%list = None.

Lemma reachable_sound w0 w : unbootstrapped w0 -> rtc store_step w0 w -> sound w.
Proof.
  intros H0. assert (sound w0).
  { split; [intros n Hn | intros name n Hn]; exfalso.
    - unfold manifest_path in Hn. rewrite H0 in Hn; [done | set_solver].
    - unfold record_path, registry_dir in Hn. rewrite <- app_assoc in Hn. cbn [app] in Hn.
      rewrite H0 in Hn; [done | set_solver]. }
  clear H0. induction 1 as [|w1 w2 w3 Hstep _ IH]; [done|]. apply IH. by eapply store_step_sound.
Qed.

(** C28: The manifest is sound over every history.  Starting without a store, after any
    sequence of bootstraps, inspections whose records are written, registrations, with
    copies and writes failing at will, and changes outside the store's own directories: a
    manifest that can be read lists models with different ids and different managed paths,
    each registered and managed under a valid id, with its artifact at its managed path
    inside [models/]. *)
Theorem manifest_always_sound w0 w m :
  unbootstrapped w0 -> rtc store_step w0 w -> load_manifest py_str root w = Ret (inl m) ->
  exists rms, mft_models m = map entry_of rms /\ NoDup (map rgm_model_id rms)
    /\ NoDup (map rgm_managed_path rms) /\ forall r, r ∈ rms -> entry_ok w r.
Proof.
  intros H0 Hrtc Hm. destruct (reachable_sound _ _ H0 Hrtc) as [Hmo _].
  destruct (manifest_ok_load _ _ Hmo Hm) as (_ & _ & rms & Heq & Hid & Hp & He).
  exists rms. repeat (split; [done|]). intros r Hr. by apply (proj1 (Forall_forall _ _) He).
Qed.

(** ** The inventory *)

(** What makes a registered model advertisable: its files are there. *)
Definition servable (w : files) (r : RegisteredModel) : bool :=
  let p := (root ++ path_of (rgm_managed_path r))%list in
  (String.eqb (rgm_detected_format r) "mlx" && p_is_dir p w && config_file p w
   && (tokenizer_file p w || safetensors_file p w))
  || (String.eqb (rgm_detected_format r) "gguf" && p_is_file p w
      && String.eqb (path_suffix (path_name p)) ".gguf").

(** The check of an entry of a sound manifest. *)
Lemma check_registered_servable w r now :
  entry_ok w r ->
  let compat := check_registered resolve root (rgm_model_id r) now r w in
  cpr_advertisable compat = servable w r
  /\ (cpr_advertisable compat = true <-> cpr_status compat = "compatible").
Proof.
  intros (Hst & Hsm & _ & rest & Hreal & Hmp & [n Hex]).
  assert (Hplain : Forall plain_part ("models" :: rest)) by (constructor; [done | by apply real_plain]).
  assert (Hpath : path_of (str_path ("models" :: rest)) = "models" :: rest) by by apply path_of_str_relative.
  assert (Habs : resolve (path_div root (rgm_managed_path r)) = (root ++ "models" :: rest)%list).
  { unfold path_div. rewrite Hmp, Hpath. apply no_links. by constructor. }
  unfold check_registered, servable. rewrite Habs, Hst, Hsm, Hmp, Hpath, root_resolves.
  rewrite startswith_below by done. unfold p_exists. rewrite Hex.
  destruct (String.eqb_spec (str_path ("models" :: rest)) "") as [E|_].
  { by rewrite E in Hpath. }
  cbn [negb String.eqb Ascii.eqb Bool.eqb]. unfold adapter_mapping, check_managed_files.
  destruct (String.eqb_spec (rgm_detected_format r) "mlx") as [-> |].
  - rewrite orb_false_r. cbn [andb].
    destruct (has_str "vision" (rgm_modalities r)), (p_is_dir _ w), (config_file _ w), (tokenizer_file _ w),
      (safetensors_file _ w); done.
  - destruct (String.eqb_spec (rgm_detected_format r) "gguf") as [-> |]; cbn [andb orb]; [|done].
    by destruct (p_is_file _ w && _).
Qed.

Lemma find_existing_entries rms r :
  NoDup (map rgm_model_id rms) -> r ∈ rms ->
  find_existing (map entry_of rms) (rgm_model_id r) = Ret (Some (registered_to_dict r)).
Proof.
  induction rms as [|x rms IH]; [by intros _ ?%not_elem_of_nil|].
  cbn [map find_existing]. cbn [py_get entry_of rbind]. rewrite get_is_id.
  intros [Hx Hnd]%NoDup_cons [-> | Hr]%elem_of_cons; [by rewrite String.eqb_refl|].
  destruct (String.eqb_spec (rgm_model_id x) (rgm_model_id r)) as [E|_]; [|by apply IH].
  destruct Hx. rewrite E. apply list_elem_of_fmap. eauto.
Qed.

(** A readable manifest of a sound store, as the read-only operations see it. *)
Definition readable (w : files) (m : ModelRegistryManifest) (rms : list RegisteredModel) : Prop :=
  p_exists (registry_dir root) w = true /\ p_exists (manifest_path root) w = true
  /\ (exists data, read_json (manifest_path root) w = Ret data /\ manifest_from_dict py_str data = Ret m)
  /\ mft_schema_version m = 1%Z /\ mft_models m = map entry_of rms /\ entries_ok w rms.

Lemma validate_registered w m rms r now :
  readable w m rms -> r ∈ rms ->
  validate_registered_model_compatibility py_str resolve (str_path root) (rgm_model_id r) now w
  = Ret (check_registered resolve root (rgm_model_id r) now r w).
Proof.
  intros (Hd & Hp & (data & Hj & Hf) & Hv & Hm & Hid & _) Hr. unfold validate_registered_model_compatibility.
  rewrite path_of_str_rooted, root_resolves, Hd, Hp, Hj by done. cbn [negb]. rewrite Hf. cbn [rbind].
  rewrite Hv. cbn [negb Z.eqb Pos.eqb]. rewrite Hm, find_existing_entries by done. cbn [rbind].
  by rewrite registered_roundtrip.
Qed.

Lemma collect_entries_exact w m rms now :
  readable w m rms -> forall l seen,
  (forall r, r ∈ l -> r ∈ rms /\ rgm_model_id r ∉ seen) -> NoDup (map rgm_model_id l) ->
  collect_entries py_str resolve (str_path root) now (map entry_of l) seen w
  = Ret (List.filter (servable w) l).
Proof.
  intros Hrd l. induction l as [|r l IH]; intros seen Hl Hnd; [done|].
  cbn [map collect_entries]. cbn [py_get entry_of rbind].
  change (get_str py_str (registered_to_dict r) "model_id" "") with (rgm_model_id r).
  destruct (Hl r) as [Hr Hns]; [by left|]. apply NoDup_cons in Hnd as [Hnr Hnd].
  pose proof Hrd as (_ & _ & _ & _ & _ & _ & _ & He). apply (proj1 (Forall_forall _ _) He) in Hr as Hok.
  destruct Hok as (Hst & Hsm & Hv & Hrest).
  destruct (String.eqb_spec (rgm_model_id r) "") as [E|_]; [by rewrite E in Hv|].
  destruct (mem (rgm_model_id r) seen) eqn:Em; [by apply mem_cases in Em|]. cbn [orb].
  unfold entry_of at 1. rewrite registered_roundtrip. cbn [rbind]. rewrite Hst, Hsm. cbn [negb orb String.eqb Ascii.eqb Bool.eqb].
  rewrite (validate_registered _ _ _ _ now Hrd Hr). cbn [rbind].
  rewrite IH; [|intros x Hx | done].
  - cbn [rbind]. destruct (check_registered_servable w r now) as [Hc _]; [by repeat split|]. rewrite Hc.
    by destruct (servable w r) eqn:E; cbn [List.filter]; rewrite E.
  - destruct (Hl x) as [Hx1 Hx2]; [by right|]. split; [done|]. apply not_elem_of_cons. split; [|done].
    intros E. apply Hnr. rewrite <- E. apply list_elem_of_fmap. eauto.
Qed.

Definition id_order (a b : RegisteredModel) : bool := string_leb (rgm_model_id a) (rgm_model_id b).

(** C30: The inventory advertises exactly what can be served.  In every reachable state with a
    readable manifest, the collected models are the entries of the manifest whose files are
    in place, each once, ordered by id; and for each entry the compatibility check calls
    it compatible exactly if it is advertised. *)
Theorem inventory_is_the_servable_entries w0 w m s now :
  unbootstrapped w0 -> rtc store_step w0 w -> load_manifest py_str root w = Ret (inl m) ->
  resolve (path_of s) = root ->
  exists rms, mft_models m = map entry_of rms
    /\ collect_advertisable_registered_models py_str resolve s now w
       = Ret (stable_sort id_order (List.filter (servable w) rms))
    /\ forall r, r ∈ rms -> exists compat,
         validate_registered_model_compatibility py_str resolve (str_path root) (rgm_model_id r) now w = Ret compat
         /\ (cpr_status compat = "compatible" <-> servable w r = true).
Proof.
  intros H0 Hrtc Hm Hs. destruct (reachable_sound _ _ H0 Hrtc) as [Hmo _].
  destruct (manifest_ok_load _ _ Hmo Hm) as (Hv & Hreg & rms & Heq & Hok). pose proof Hok as (Hid & _ & He).
  destruct (load_manifest_ok _ _ _ _ Hm) as (data & Hd & Hf & _).
  assert (Hj : read_json (manifest_path root) w = Ret data) by (unfold read_json; by rewrite Hd).
  assert (Hrd : readable w m rms).
  { split; [by apply p_exists_spec|]. split; [unfold p_exists; by rewrite Hd|]. split; [by exists data|]. done. }
  exists rms. split; [done|]. split.
  - unfold collect_advertisable_registered_models. rewrite Hs.
    rewrite (proj1 Hrd), (proj1 (proj2 Hrd)). cbn [negb orb]. rewrite Hj, Hf. cbn [rbind].
    rewrite Hv. cbn [negb Z.eqb Pos.eqb]. rewrite Heq.
    rewrite (collect_entries_exact w m rms); [done | done | | done].
    intros r Hr. split; [done | apply not_elem_of_nil].
  - intros r Hr. eexists. split; [by eapply validate_registered|].
    apply (proj1 (Forall_forall _ _) He) in Hr. destruct (check_registered_servable w r now Hr) as [H1 H2].
    by rewrite <- H1, H2.
Qed.
End store.

(** ** A store *)
Definition demo_expand (s : string) : path :=
  "/" :: List.filter (fun w => negb (String.eqb w "" || String.eqb w "." || String.eqb w "..")) (split_on "/" s).

Definition demo_resolve (p : path) : path := p.

Definition demo_root : path := ["/"; "s"].

(** A text model on disk, no store. *)
Definition demo_source : files :=
  list_to_map
    [(["/"; "m"], Dir);
     (["/"; "m"; "config.json"], File (Json (PDict [("model_type", PStr "gemma")])));
     (["/"; "m"; "tokenizer.json"], File (Json (PDict [])));
     (["/"; "m"; "w.safetensors"], File NotUtf8)].

Definition demo_copied : copy_outcome := fun _ => None.

Definition demo_boot : files := (bootstrap_model_store demo_py_str_store demo_expand None "/s" "t0" demo_source).2.

Definition demo_inspected : pyres (ModelCandidate * option string) :=
  inspect_model_candidate demo_py_str_store demo_hex _VLM_ARTIFACT_NAMES demo_expand "/m" "t1" demo_boot.

Definition demo_candidate : ModelCandidate :=
  match demo_inspected with Ret (c, _) => c | Raise _ => empty_candidate demo_hex "" "" end.

Definition demo_recorded : files := (write_candidate_record demo_resolve None "/s" demo_candidate demo_boot).2.

Definition demo_register (copied : copy_outcome) (write_fails : option pyexc) (id : option string) (w : files)
    : pyres ModelRegistrationResult * files :=
  register_model_candidate demo_py_str_store demo_resolve copied write_fails "/s" (mcd_candidate_id demo_candidate)
    id None "t2" w.

Definition demo_store : files := (demo_register demo_copied None (Some "gemma") demo_recorded).2.

Lemma demo_expanded s : rooted (demo_expand s) /\ ".." ∉ demo_expand s.
Proof.
  assert (H : forall x, x ∈ List.filter (fun w => negb (String.eqb w "" || String.eqb w "." || String.eqb w ".."))
                         (split_on "/" s) -> plain_part x /\ x <> "..").
  { intros x. rewrite list_elem_of_In, filter_In, <- list_elem_of_In. intros [Hx E].
    apply negb_true_iff, orb_false_elim in E as [[H1%String.eqb_neq H2%String.eqb_neq]%orb_false_elim H3%String.eqb_neq].
    repeat split; try done. by apply (proj1 (Forall_forall _ _) (split_on_lacks "/" s)). }
  split.
  - eexists. split; [reflexivity|]. apply Forall_forall. intros x Hx. by apply H.
  - unfold demo_expand. intros [? | Hx]%elem_of_cons; [done|]. by destruct (H _ Hx).
Qed.

Lemma demo_no_links rel : Forall real_part rel -> demo_resolve (demo_root ++ rel)%list = (demo_root ++ rel)%list.
Proof. done. Qed.

Lemma demo_rooted : rooted demo_root.
Proof. exists ["s"]. split; [done|]. by repeat constructor. Qed.

Lemma demo_unbootstrapped : unbootstrapped demo_root demo_source.
Proof.
  intros k rest _. apply not_elem_of_list_to_map_1. unfold demo_root. cbn. rewrite !not_elem_of_cons.
  repeat split; try done. apply not_elem_of_nil.
Qed.

Lemma demo_history :
  rtc (store_step demo_py_str_store demo_resolve demo_expand demo_hex _VLM_ARTIFACT_NAMES demo_root)
    demo_source demo_store.
Proof.
  eapply rtc_l; [by apply (step_bootstrap _ _ _ _ _ _ None "/s" "t0")|].
  eapply rtc_l; [eapply (step_candidate _ _ _ _ _ _ None "/s" "/m" "t1" _ demo_candidate None);
                   [done | vm_compute; reflexivity]|].
  apply rtc_once. by apply step_register.
Qed.

(** The manifest the history ends with. *)
Definition demo_manifest : ModelRegistryManifest :=
  match load_manifest demo_py_str_store demo_root demo_store with
  | Ret (inl m) => m
  | _ => manifest_create [] ""
  end.

Lemma manifest_always_sound_witness :
  length (mft_models demo_manifest) = 1
  /\ exists rms, mft_models demo_manifest = map entry_of rms /\ NoDup (map rgm_model_id rms)
       /\ forall r, r ∈ rms -> entry_ok demo_root demo_store r.
Proof.
  split; [vm_compute; reflexivity|].
  destruct (manifest_always_sound demo_py_str_store demo_resolve demo_expand demo_hex _VLM_ARTIFACT_NAMES demo_root
              demo_rooted demo_no_links demo_expanded demo_source demo_store demo_manifest
              demo_unbootstrapped demo_history ltac:(vm_compute; reflexivity)) as (rms & H1 & H2 & _ & H3).
  exists rms. split; [exact H1|]. split; [exact H2 | exact H3].
Defined.

Lemma inventory_is_the_servable_entries_witness :
  exists r, collect_advertisable_registered_models demo_py_str_store demo_resolve "/s" "t3" demo_store = Ret [r]
    /\ rgm_model_id r = "gemma" /\ rgm_managed_path r = "models/mlx/gemma"
    /\ exists rms, mft_models demo_manifest = map entry_of rms
         /\ Ret [r] = Ret (stable_sort id_order (List.filter (servable demo_root demo_store) rms)).
Proof.
  eexists. split; [vm_compute; reflexivity|]. split; [reflexivity|]. split; [reflexivity|].
  destruct (inventory_is_the_servable_entries demo_py_str_store demo_resolve demo_expand demo_hex _VLM_ARTIFACT_NAMES
              demo_root demo_rooted demo_no_links demo_expanded demo_source demo_store demo_manifest "/s" "t3"
              demo_unbootstrapped demo_history ltac:(vm_compute; reflexivity) eq_refl) as (rms & H1 & H2 & _).
  exists rms. split; [exact H1|]. rewrite <- H2. vm_compute. reflexivity.
Defined.

Definition demo_result : ModelRegistrationResult :=
  match (demo_register demo_copied None (Some "gemma") demo_recorded).1 with
  | Ret res => res
  | Raise _ => mkRegistration (bare_model "") "" false None
  end.

Lemma demo_registered :
  demo_register demo_copied None (Some "gemma") demo_recorded = (Ret demo_result, demo_store).
Proof.
  assert (H : match (demo_register demo_copied None (Some "gemma") demo_recorded).1 with
              | Ret _ => true | Raise _ => false end = true) by (vm_compute; reflexivity).
  unfold demo_result, demo_store. by destruct (demo_register _ _ _ _) as [[res|e] w].
Qed.

Lemma registering_again_changes_nothing_witness :
  rgr_manifest_updated demo_result = true /\ rgr_managed_path demo_result = "models/mlx/gemma"
  /\ demo_register (fun _ => Some None) (Some (os_error "full")) (Some "gemma") demo_store
     = (Ret (mkRegistration (rgr_registered_model demo_result) (rgr_managed_path demo_result) false None), demo_store).
Proof.
  assert (H : rgr_manifest_updated demo_result = true) by (vm_compute; reflexivity).
  split; [exact H|]. split; [vm_compute; reflexivity|].
  exact (registering_again_changes_nothing demo_py_str_store demo_resolve demo_copied None "/s"
           (mcd_candidate_id demo_candidate) (Some "gemma") None "t2" demo_recorded demo_result demo_store
           (fun _ => Some None) (Some (os_error "full")) None "t2" demo_registered H).
Defined.

(** ** Behaviour that differs from what is documented *)

Definition problem_of (r : pyres ModelRegistrationResult * files) : option (option string) :=
  match r with (Ret res, _) => Some (rgr_problem res) | (Raise _, _) => None end.

(** A copy that failed half-way leaves its destination behind, and so does a manifest that
    could not be written after the copy: every retry is refused, also when the disk is fine. *)
Lemma failed_copy_blocks_the_retry :
  let broken := demo_register (fun p => if String.eqb (path_name p) "w.safetensors" then Some None else None) None
                  (Some "gemma") demo_recorded in
  let unwritten := demo_register demo_copied (Some (os_error "full")) (Some "gemma") demo_recorded in
  problem_of broken = Some (Some "copy_failed")
  /\ problem_of (demo_register demo_copied None (Some "gemma") broken.2) = Some (Some "managed_destination_exists")
  /\ problem_of unwritten = None
  /\ problem_of (demo_register demo_copied None (Some "gemma") unwritten.2) = Some (Some "managed_destination_exists").
Proof. vm_compute. repeat split. Qed.

Definition sixty_four : string := "aaaaaaaaaaaaaaaabbbbbbbbbbbbbbbbccccccccccccccccdddddddddddddddd".

(** Valid ids of up to 128 characters share a destination when their first 64 agree: the
    second one cannot be registered. *)
Lemma long_ids_share_a_destination :
  let w := (demo_register demo_copied None (Some (sixty_four +:+ "-one")) demo_recorded).2 in
  validate_model_id (sixty_four +:+ "-two") = None
  /\ problem_of (demo_register demo_copied None (Some (sixty_four +:+ "-two")) w)
     = Some (Some "managed_destination_exists").
Proof. vm_compute. split; reflexivity. Qed.

(** [Path.resolve] without links: references to the parent are folded. *)
Definition fold_parents (p : path) : path :=
  foldl (fun acc s => if String.eqb s ".." then removelast acc else (acc ++ [s])%list) [] p.

(** The containment check compares texts, so a directory beside the store whose name begins
    with the store's passes it: a manifest that points there is advertised. *)
Definition demo_evil : files :=
  list_to_map
    [(["/"; "s"], Dir); (["/"; "s"; "registry"], Dir);
     (["/"; "s"; "registry"; "models.json"],
        File (Json (PDict [("schema_version", PInt 1);
          ("models", PList [PDict [("model_id", PStr "m"); ("managed_path", PStr "../s-evil/m.gguf");
                                   ("detected_format", PStr "gguf")]])])));
     (["/"; "s-evil"; "m.gguf"], File NotUtf8)].

Lemma sibling_of_the_store_is_advertised :
  exists r, collect_advertisable_registered_models demo_py_str_store fold_parents "/s" "t" demo_evil = Ret [r]
    /\ rgm_managed_path r = "../s-evil/m.gguf".
Proof. eexists. split; [vm_compute; reflexivity | reflexivity]. Qed.

(** The inventory is documented to answer with an empty list on any error; a manifest that
    is not a JSON object, or not UTF-8, makes it raise. *)
Lemma inventory_raises_on_a_json_list :
  collect_advertisable_registered_models demo_py_str_store demo_resolve "/s" "t"
    (<[manifest_path demo_root := File (Json (PList []))]> demo_store) = Raise (Exc "AttributeError" "get")
  /\ collect_advertisable_registered_models demo_py_str_store demo_resolve "/s" "t"
       (<[manifest_path demo_root := File NotUtf8]> demo_store) = Raise (Exc "UnicodeDecodeError" "").
Proof. vm_compute. split; reflexivity. Qed.

(** A derived id need not be valid: an artifact whose name begins with an underscore can only
    be registered under an id of its own. *)
Lemma derived_id_can_be_refused :
  validate_model_id (derive_model_id (mkCandidate "0123456789abcdef" "candidate" "/m/_tiny" "mlx" "gemma" [] [] [] ""))
  = Some "unsafe_model_id".
Proof. vm_compute. reflexivity. Qed.
