(* ===== verification/Listing.v ===== *)
(** * The model lists ([runtime/__init__.py])

    What [GET /models], [/v1/models] and [/api/tags] list: the entries of the runtime
    registry, or what the adapters report, or one model from the settings; then, for the
    last two, the registered models of the model store ([ModelRegister]) and the models
    on external routes ([ModelPath]).

    - [is_loaded] is the adapter's method; [local] is what the operating system says of a
      model directory; [dump] and [dump_attestation] are pydantic's [model_dump].
    - The retained attestation and its reference are one value, as in [Routing]. *)

From S2P Require Import Prelude PyDict PyStr PySeq Config ControlPlane ModelPath Registry ModelStore ModelRegister Routing.

(** ** The entries *)
Record ModelInfo {R : Type} := mkModelInfo {
  mi_id : string;
  mi_loaded : bool;
  mi_capabilities : list string;
  mi_max_concurrent_jobs : Z;
  mi_context_window : Z;
  mi_quantization : option string;
  mi_memory_class : string;
  mi_runtime_provenance : RuntimeProvenance R;
  mi_qualification_attestation : option R;
}.
Arguments ModelInfo : clear implicits.
Arguments mkModelInfo {R}.

Record OpenAIModelEntry := mkOpenAIEntry {
  oe_id : string;
  oe_created : Z;
  oe_owned_by : string;
  oe_metadata : list (string * pyval);
}.

Record OllamaTagEntry := mkOllamaTag {
  ot_name : string;
  ot_model : string;
  ot_modified_at : string;
  ot_size : Z;
  ot_details : option (list (string * pyval));
}.

Definition _STUB_MODEL_CREATED : Z := 1700000000.
Definition _STUB_MODEL_SIZE : Z := 1500000000.
Definition _DEFAULT_MODEL_CAPABILITIES : list string := ["chat"; "streaming"; "json"].

Definition openai_entry (id : string) (metadata : list (string * pyval)) : OpenAIModelEntry :=
  mkOpenAIEntry id _STUB_MODEL_CREATED "whooshd" metadata.

Definition ollama_tag (id : string) (details : option (list (string * pyval))) : OllamaTagEntry :=
  mkOllamaTag id id "2024-01-01T00:00:00Z" _STUB_MODEL_SIZE details.

Definition ModelFormat_value (f : ModelFormat) : string :=
  match f with FMT_MLX => "mlx" | FMT_GGUF => "gguf" end.

Definition ModelModality_value (m : ModelModality) : string :=
  match m with MOD_TEXT => "text" | MOD_VISION => "vision" | MOD_EMBEDDING => "embedding" end.

Definition WarmPolicy_value (p : WarmPolicy) : string :=
  match p with
  | WP_COLD => "cold"
  | WP_WARM_ON_START => "warm_on_start"
  | WP_WARM_ON_FIRST_USE => "warm_on_first_use"
  | WP_KEEP_WARM => "keep_warm"
  end.

(** ** Model metadata *)

(** A model directory: its [config.json], if there is one, and the names it lists with their
    sizes, unless listing fails. *)
Record LocalModel := mkLocalModel {
  lm_is_dir : bool;
  lm_config : option content;
  lm_sizes : option (list (string * Z));
}.

Section listing.
Context {R : Type} (dump : RuntimeProvenance R -> pyval) (dump_attestation : R -> pyval)
        (py_str : pyval -> string) (resolve : path -> path) (is_loaded : Adapter R -> bool)
        (local : string -> LocalModel) (inp : Inputs) (rr : RuntimeRouter R) (store : files) (now : string).

(** [_try_read_model_config] *)
Definition try_read_model_config (model_path : string) : pyres (option pyval) :=
  let m := local model_path in
  if String.eqb model_path "" || negb (lm_is_dir m) then Ret None
  else
    match lm_config m with
    | None => Ret None
    | Some (Json v) => Ret (Some v)
    | Some NotJson | Some Unreadable => Ret None
    | Some NotUtf8 => Raise (Exc "UnicodeDecodeError" "")
    end.

(** [_guess_memory_class]: the size in GB is below 8, below 24, or more. *)
Definition guess_memory_class (model_path : string) : string :=
  let m := local model_path in
  match lm_is_dir m, lm_sizes m with
  | true, Some sizes =>
      let total := foldr (fun p acc => if endswith ".safetensors" (fst p) then snd p + acc else acc)%Z 0%Z sizes in
      if (total <? 8 * 1024 ^ 3)%Z then "small" else if (total <? 24 * 1024 ^ 3)%Z then "medium" else "large"
  | _, _ => "small"
  end.

(** [d.get(key)] *)
Definition get_value (d : list (string * pyval)) (key : string) : pyval := default PNone (dget key d).

(** [a or b] *)
Definition py_or (a b : pyval) : pyval := if truthy a then a else b.

Definition truthy_config (config : option pyval) : option pyval :=
  match config with Some v => if truthy v then Some v else None | None => None end.

Definition context_window_of (model_path : string) : pyres (option Z) :=
  if (0 <? get_mlx_context_window (in_env inp))%Z then Ret (Some (get_mlx_context_window (in_env inp)))
  else
    let! config := try_read_model_config model_path in
    match truthy_config config with
    | None => Ret None
    | Some v =>
        let! config := py_get v in
        let! tc := py_get (default (PDict []) (dget "text_config" config)) in
        let cw := py_or (get_value tc "max_position_embeddings") (get_value config "max_position_embeddings") in
        if truthy cw then let! z := py_int_of cw in Ret (Some z) else Ret None
    end.

Definition quantization_of (model_path : string) : pyres (option string) :=
  match get_mlx_quantization (in_env inp) with
  | Some q => Ret (Some q)
  | None =>
      let! config := try_read_model_config model_path in
      match truthy_config config with
      | None => Ret None
      | Some v =>
          let! config := py_get v in
          match default (PDict []) (dget "quantization" config) with
          | PDict qc =>
              let bits := get_value qc "bits" in
              let mode := get_value qc "mode" in
              if truthy bits then
                Ret (Some (str_val py_str bits +:+ "bit" +:+
                           (if truthy mode then "-" +:+ str_val py_str mode else "")))
              else Ret None
          | PStr s => Ret (Some s)
          | _ => Ret None
          end
      end
  end.

(** [_read_model_metadata]: context window, quantization, memory class and job limit. *)
Definition read_model_metadata (model_path : string) : pyres (option Z * option string * string * Z) :=
  let! context_window := context_window_of model_path in
  let! quantization := quantization_of model_path in
  Ret (context_window, quantization, guess_memory_class model_path, 2%Z).

(** Pydantic refuses a negative context window. *)
Definition model_info (info : ModelInfo R) : pyres (ModelInfo R) :=
  if (mi_context_window info <? 0)%Z then Raise (Exc "ValidationError" "context_window") else Ret info.

(** [x or dflt] for an optional integer. *)
Definition int_or (x : option Z) (dflt : Z) : Z :=
  match x with Some z => if (z =? 0)%Z then dflt else z | None => dflt end.

(** ** One model from the settings ([_build_model_info]) *)
Fixpoint loaded_somewhere (adapters : list (Adapter R)) (model_id : string) : pyres bool :=
  match adapters with
  | [] => Ret false
  | a :: rest =>
      let! loaded_model_id := ad_model_id a in
      if is_loaded a && bool_decide (loaded_model_id = Some model_id) then Ret true
      else loaded_somewhere rest model_id
  end.

Fixpoint adapter_of_model (adapters : list (Adapter R)) (model_id : string) : pyres (option (Adapter R)) :=
  match adapters with
  | [] => Ret None
  | a :: rest =>
      let! id := ad_model_id a in
      if bool_decide (id = Some model_id) then Ret (Some a) else adapter_of_model rest model_id
  end.

Definition build_model_info : pyres (ModelInfo R) :=
  let model_id := get_advertised_model_id (in_env inp) in
  let! loaded := loaded_somewhere (adapters_of rr) model_id in
  let! (context_window, quantization, memory_class, jobs) := read_model_metadata (get_mlx_model_path (in_env inp)) in
  let! adapter := adapter_of_model (adapters_of rr) model_id in
  let adapter := match adapter, adapters_of rr with None, [a] => Some a | _, _ => adapter end in
  model_info
    (mkModelInfo model_id loaded _DEFAULT_MODEL_CAPABILITIES jobs (int_or context_window 32768)
       (or_none quantization) memory_class
       (inventory_provenance (in_version inp) model_id (match adapter with Some a => ad_kind a | None => "stub" end)
          (match adapter with
           | Some _ => if loaded then "loaded_model_match" else "stub_only_compatibility"
           | None => "stub_only_compatibility"
           end) loaded (option_map ad_name adapter) None) None).

(** ** Models of the adapters ([_models_from_adapters]) *)
Definition supports (flag : option bool) : bool := match flag with Some b => b | None => false end.

Definition adapter_model (a : Adapter R) (m : RuntimeModel) : pyres (ModelInfo R) :=
  let loaded := is_loaded a in
  let attestation := if loaded then target_attestation_reference a (md_id m) (md_id m) else None in
  model_info
    (mkModelInfo (md_id m) loaded
       (_DEFAULT_MODEL_CAPABILITIES ++ (if supports (md_supports_vision m) then ["vision"] else [])
        ++ (if supports (md_supports_reasoning m) then ["reasoning"] else [])
        ++ (if supports (md_supports_tools m) then ["tools"] else []))%list
       2 (int_or (md_context_window m) 32768) None "small"
       (inventory_provenance (in_version inp) (md_id m) (ad_kind a)
          (if loaded then "loaded_model_match" else "single_runtime_compatibility") loaded (Some (ad_name a))
          attestation) attestation).

Fixpoint collect_infos (ms : list (Adapter R * RuntimeModel)) : pyres (list (ModelInfo R)) :=
  match ms with
  | [] => Ret []
  | (a, m) :: rest =>
      let! info := adapter_model a m in
      let! infos := collect_infos rest in
      Ret (info :: infos)
  end.

Definition reported_models (adapters : list (Adapter R)) : list (Adapter R * RuntimeModel) :=
  flat_map (fun a => map (pair a) (match ad_list_models a with Ret ms => ms | Raise _ => [] end)) adapters.

Definition models_from_adapters : pyres (list (ModelInfo R)) :=
  match non_stub rr with
  | [] => let! info := build_model_info in Ret [info]
  | adapters =>
      let! results := collect_infos (reported_models adapters) in
      match results with
      | [] => let! info := build_model_info in Ret [info]
      | _ => Ret results
      end
  end.

(** ** Models of the registry ([_models_from_registry]) *)
Fixpoint first_loaded (adapters : list (Adapter R)) : pyres (option string) :=
  match adapters with
  | [] => Ret None
  | a :: rest => if is_loaded a then ad_model_id a else first_loaded rest
  end.

Definition registry_memory_class (tags : list string) : string :=
  let tags_lower := map lower tags in
  if mem "large" tags_lower || mem "70b" tags_lower then "large"
  else if mem "medium" tags_lower || mem "30b" tags_lower then "medium" else "small".

Definition registry_capabilities (e : RegistryModelEntry) : list string :=
  ((if has_modality MOD_TEXT e then ["chat"; "streaming"; "json"] else [])
   ++ (if has_modality MOD_EMBEDDING e then ["embeddings"] else []))%list.

Definition models_from_registry (registry : ModelRegistryConfig) : pyres (list (ModelInfo R)) :=
  let! loaded_model_id := first_loaded (adapters_of rr) in
  Ret (map (fun '(model_id, e) =>
              let loaded := str_truthy loaded_model_id && bool_decide (loaded_model_id = Some model_id) in
              mkModelInfo model_id loaded (registry_capabilities e) 2 (rm_context_window e) None
                (registry_memory_class (rm_tags e))
                (inventory_provenance (in_version inp) model_id (engine_kind_map (rm_engine e))
                   "authoritative_registry" loaded None None) None)
         (enabled_models registry)).

(** ** [list_models], [list_models_async] and [get_model] *)
Section registry.
Context (reg : registry_cache).

(** The registry, when it is one with models. *)
Definition active_registry : option ModelRegistryConfig :=
  match reg with RegLoaded r => if registry_bool r then Some r else None | _ => None end.

Definition failed_registry : bool :=
  match reg with RegFalse => match get_model_registry_path (in_env inp) with Some _ => true | None => false end
               | _ => false end.

Definition list_models_sync : pyres (list (ModelInfo R)) :=
  if failed_registry then Ret []
  else
    match active_registry with
    | Some r => models_from_registry r
    | None => let! info := build_model_info in Ret [info]
    end.

Definition list_models_async : pyres (list (ModelInfo R)) :=
  if failed_registry then Ret []
  else match active_registry with Some r => models_from_registry r | None => models_from_adapters end.

Definition get_model (model_id : string) : pyres (option (ModelInfo R)) :=
  let! models := list_models_sync in
  Ret (List.find (fun m => String.eqb (mi_id m) model_id) models).

(** ** What is appended *)

(** The loop shared by the four [_append_*] functions: entries whose id is listed already
    are skipped. *)
Fixpoint append_fresh {E X : Type} (make : X -> E) (id_of : X -> string) (existing_ids : list string) (xs : list X)
    : list E :=
  match xs with
  | [] => []
  | x :: rest =>
      if mem (id_of x) existing_ids then append_fresh make id_of existing_ids rest
      else make x :: append_fresh make id_of (id_of x :: existing_ids) rest
  end.

Definition adapter_to_engine (rm : RegisteredModel) : string :=
  let fmt := rgm_detected_format rm in
  if String.eqb fmt "mlx" then if has_str "vision" (rgm_modalities rm) then "mlx_vlm" else "mlx_lm_server"
  else if String.eqb fmt "gguf" then "llama_cpp" else fmt.

(** The collected models; any exception leaves the list as it is. *)
Definition store_models : list RegisteredModel :=
  match get_model_store_root (in_env inp) with
  | None => []
  | Some root =>
      match collect_advertisable_registered_models py_str resolve root now store with
      | Ret registered => registered
      | Raise _ => []
      end
  end.

Definition dumped_provenance (model_id kind source : string) : pyval :=
  dump (inventory_provenance (in_version inp) model_id kind source false None None).

Definition registered_openai (rm : RegisteredModel) : OpenAIModelEntry :=
  openai_entry (rgm_model_id rm)
    ([("engine", PStr (adapter_to_engine rm)); ("format", PStr (rgm_detected_format rm));
      ("modalities", PList (rgm_modalities rm));
      ("display_name", PStr (if String.eqb (rgm_display_name rm) "" then rgm_model_id rm else rgm_display_name rm));
      ("priority", PStr "chat"); ("warm_policy", PStr "warm_on_first_use"); ("source", PStr "registered");
      ("storage_mode", PStr (rgm_storage_mode rm));
      ("runtime_provenance",
         dumped_provenance (rgm_model_id rm) (adapter_to_engine rm) "authoritative_registry")]
     ++ (if String.eqb (rgm_detected_family rm) "" || String.eqb (rgm_detected_family rm) "unknown" then []
         else [("family", PStr (rgm_detected_family rm))]))%list.

Definition append_registered_models_openai (entries : list OpenAIModelEntry) : list OpenAIModelEntry :=
  (entries ++ append_fresh registered_openai rgm_model_id (map oe_id entries) store_models)%list.

Definition registered_ollama (rm : RegisteredModel) : OllamaTagEntry :=
  ollama_tag (rgm_model_id rm)
    (Some [("format", PStr (rgm_detected_format rm)); ("family", PStr (adapter_to_engine rm));
           ("modalities", PList (rgm_modalities rm))]).

Definition append_registered_models_ollama (entries : list OllamaTagEntry) : list OllamaTagEntry :=
  (entries ++ append_fresh registered_ollama rgm_model_id (map ot_name entries) store_models)%list.

(** [_get_external_inventory] *)
Definition external_inventory : list ExternalModelInventoryEntry :=
  match load_external_weight_routes (in_fs inp) (in_json_loads inp)
          (dget_or "WHOOSHD_EXTERNAL_ROUTES" "" (in_env inp)) with
  | Raise _ => []
  | Ret routes => match routes with [] => [] | _ => list_external_model_inventory (in_fs inp) (in_known_quants inp) routes end
  end.

Definition external_kind (runtime : string) : string :=
  if String.eqb runtime "mlx_lm" then "mlx_lm_server"
  else if String.eqb runtime "" then "stub" else runtime.

Definition external_openai (x : ExternalModelInventoryEntry) : OpenAIModelEntry :=
  openai_entry (xe_id x)
    ([("source", PStr "external"); ("registry_managed", PBool false); ("route_id", PStr (xe_route_id x));
      ("format", PStr (xe_format x)); ("runtime", PStr (xe_runtime x)); ("path_available", PBool true);
      ("servable", PBool (xe_servable x));
      ("runtime_provenance", dumped_provenance (xe_id x) (external_kind (xe_runtime x)) "external_route")]
     ++ (let quant := get_value (xe_metadata x) "quant" in if truthy quant then [("quant", quant)] else []))%list.

Definition append_external_models_openai (entries : list OpenAIModelEntry) : list OpenAIModelEntry :=
  (entries ++ append_fresh external_openai xe_id (map oe_id entries) external_inventory)%list.

Definition external_ollama (x : ExternalModelInventoryEntry) : OllamaTagEntry :=
  ollama_tag (xe_id x)
    (Some [("source", PStr "external"); ("registry_managed", PBool false); ("route_id", PStr (xe_route_id x));
           ("format", PStr (xe_format x)); ("runtime", PStr (xe_runtime x)); ("servable", PBool (xe_servable x))]).

Definition append_external_models_ollama (entries : list OllamaTagEntry) : list OllamaTagEntry :=
  (entries ++ append_fresh external_ollama xe_id (map ot_name entries) external_inventory)%list.

(** ** The two lists *)
Definition registry_openai (e : string * RegistryModelEntry) : OpenAIModelEntry :=
  let '(model_id, entry) := e in
  openai_entry model_id
    [("engine", PStr (EngineType_value (rm_engine entry))); ("format", PStr (ModelFormat_value (rm_format entry)));
     ("modalities", PList (map (fun m => PStr (ModelModality_value m)) (rm_modalities entry)));
     ("context_window", PInt (rm_context_window entry)); ("display_name", PStr (rm_display_name entry));
     ("priority", PStr (rm_priority entry)); ("warm_policy", PStr (WarmPolicy_value (rm_warm_policy entry)));
     ("runtime_provenance", dumped_provenance model_id (engine_kind_map (rm_engine entry)) "authoritative_registry")].

Definition adapter_openai (m : ModelInfo R) : OpenAIModelEntry :=
  openai_entry (mi_id m)
    (("runtime_provenance", dump (mi_runtime_provenance m))
     :: match mi_qualification_attestation m with
        | Some a => [("qualification_attestation", dump_attestation a)]
        | None => []
        end).

Definition build_openai_model_list : pyres (list OpenAIModelEntry) :=
  let! entries := match active_registry with
                  | Some r => Ret (map registry_openai (enabled_models r))
                  | None => let! models := list_models_async in Ret (map adapter_openai models)
                  end in
  Ret (append_external_models_openai (append_registered_models_openai entries)).

Definition registry_ollama (e : string * RegistryModelEntry) : OllamaTagEntry :=
  let '(model_id, entry) := e in
  ollama_tag model_id
    (Some [("format", PStr (ModelFormat_value (rm_format entry))); ("family", PStr (EngineType_value (rm_engine entry)));
           ("context_window", PInt (rm_context_window entry));
           ("modalities", PList (map (fun m => PStr (ModelModality_value m)) (rm_modalities entry)))]).

Definition build_ollama_tags : pyres (list OllamaTagEntry) :=
  let! entries := match active_registry with
                  | Some r => Ret (map registry_ollama (enabled_models r))
                  | None => let! models := list_models_async in Ret (map (fun m => ollama_tag (mi_id m) None) models)
                  end in
  Ret (append_external_models_ollama (append_registered_models_ollama entries)).
End registry.

(** ** The endpoints: the registry is loaded and kept, then the list is built. *)
Definition loaded_registry (cached : registry_cache) : registry_cache :=
  load_registry (in_registry_files inp) (in_env inp) cached.

Definition openai_models (cached : registry_cache) : pyres (list OpenAIModelEntry) * registry_cache :=
  let reg := loaded_registry cached in (build_openai_model_list reg, reg).

Definition ollama_tags (cached : registry_cache) : pyres (list OllamaTagEntry) * registry_cache :=
  let reg := loaded_registry cached in (build_ollama_tags reg, reg).
End listing.
