(* ===== verification/ListingProps.v ===== *)
(** * What the model lists contain

    The two public lists agree and contain what they should; and what they contain beside
    a configured registry is refused by the routing. *)

From S2P Require Import Prelude PyDict PyStr PySeq Config ControlPlane ModelPath Registry ModelStore ModelRegister Routing Listing.
From S2P Require Import ModelStoreProps ModelRegisterProps ModelInventoryProps RoutingProps.
Open Scope string_scope.

(** ** Appending *)

(** The ids a list gains: the first occurrences that are not in it yet. *)
Fixpoint fresh_ids (existing ids : list string) : list string :=
  match ids with
  | [] => []
  | id :: rest => if mem id existing then fresh_ids existing rest else id :: fresh_ids (id :: existing) rest
  end.

Lemma append_fresh_ids {E X} (make : X -> E) (id_of : X -> string) (name : E -> string) existing xs :
  (forall x, name (make x) = id_of x) ->
  map name (append_fresh make id_of existing xs) = fresh_ids existing (map id_of xs).
Proof.
  intros Hn. revert existing. induction xs as [|x xs IH]; intros existing; cbn; [done|].
  destruct (mem (id_of x) existing); [apply IH|]. cbn. by rewrite Hn, IH.
Qed.

Lemma fresh_ids_elem existing ids id :
  id ∈ existing \/ id ∈ fresh_ids existing ids <-> id ∈ existing \/ id ∈ ids.
Proof.
  revert existing. induction ids as [|x ids IH]; intros existing; cbn; [set_solver|].
  destruct (mem x existing) eqn:E.
  - apply mem_cases in E. rewrite IH. set_solver.
  - specialize (IH (x :: existing)). set_solver.
Qed.

Lemma fresh_ids_NoDup existing ids :
  NoDup (fresh_ids existing ids) /\ forall id, id ∈ fresh_ids existing ids -> id ∉ existing.
Proof.
  revert existing. induction ids as [|x ids IH]; intros existing; cbn; [split; [constructor | set_solver]|].
  destruct (mem x existing) eqn:E; [apply IH|]. destruct (IH (x :: existing)) as [Hnd Hni].
  assert (Hx : x ∉ existing).
  { intros Hx. apply not_true_iff_false in E. apply E. unfold mem. apply existsb_exists. exists x.
    split; [by apply list_elem_of_In | apply String.eqb_refl]. }
  split; [|set_solver]. constructor; [|done]. intros H%Hni. set_solver.
Qed.

Section listing_props.
Context {R : Type} (dump : RuntimeProvenance R -> pyval) (dump_attestation : R -> pyval)
        (py_str : pyval -> string) (resolve : path -> path) (is_loaded : Adapter R -> bool)
        (local : string -> LocalModel) (inp : Inputs) (rr : RuntimeRouter R) (store : files) (now : string).

Abbreviation openai := (build_openai_model_list dump dump_attestation py_str resolve is_loaded local inp rr store now).
Abbreviation ollama := (build_ollama_tags py_str resolve is_loaded local inp rr store now).
Abbreviation infos := (list_models_async py_str is_loaded local inp rr).
Abbreviation in_store := (store_models py_str resolve inp store now).

(** The ids that are listed before anything is appended. *)
Definition base_ids (reg : registry_cache) : pyres (list string) :=
  match active_registry reg with
  | Some r => Ret (map fst (enabled_models r))
  | None => let! ms := infos reg in Ret (map mi_id ms)
  end.

(** The ids of a whole list. *)
Definition with_appended (base : list string) : list string :=
  let base := (base ++ fresh_ids base (map rgm_model_id in_store))%list in
  (base ++ fresh_ids base (map xe_id (external_inventory inp)))%list.

Lemma openai_appended_ids entries :
  map oe_id (append_external_models_openai dump inp
               (append_registered_models_openai dump py_str resolve inp store now entries))
  = with_appended (map oe_id entries).
Proof.
  unfold append_external_models_openai, append_registered_models_openai, with_appended.
  rewrite !map_app, (append_fresh_ids (external_openai dump inp) xe_id oe_id) by done.
  by rewrite (append_fresh_ids (registered_openai dump inp) rgm_model_id oe_id) by done.
Qed.

Lemma ollama_appended_ids entries :
  map ot_name (append_external_models_ollama inp (append_registered_models_ollama py_str resolve inp store now entries))
  = with_appended (map ot_name entries).
Proof.
  unfold append_external_models_ollama, append_registered_models_ollama, with_appended.
  rewrite !map_app, (append_fresh_ids external_ollama xe_id ot_name) by done.
  by rewrite (append_fresh_ids registered_ollama rgm_model_id ot_name) by done.
Qed.

Lemma registry_ids {E} (make : string * RegistryModelEntry -> E) (name : E -> string) l :
  (forall e, name (make e) = e.1) -> map name (map make l) = map fst l.
Proof. intros H. rewrite map_map. apply map_ext. done. Qed.

Lemma openai_ids reg : (let! es := openai reg in Ret (map oe_id es)) = (let! base := base_ids reg in Ret (with_appended base)).
Proof.
  unfold build_openai_model_list, base_ids. destruct (active_registry reg) as [r|]; cbn [rbind].
  - by rewrite openai_appended_ids, (registry_ids (registry_openai dump inp) oe_id) by by intros [].
  - destruct (infos reg) as [ms|e]; cbn [rbind]; [|done]. rewrite openai_appended_ids. by rewrite map_map.
Qed.

Lemma ollama_ids reg : (let! es := ollama reg in Ret (map ot_name es)) = (let! base := base_ids reg in Ret (with_appended base)).
Proof.
  unfold build_ollama_tags, base_ids. destruct (active_registry reg) as [r|]; cbn [rbind].
  - by rewrite ollama_appended_ids, (registry_ids registry_ollama ot_name) by by intros [].
  - destruct (infos reg) as [ms|e]; cbn [rbind]; [|done]. rewrite ollama_appended_ids. by rewrite map_map.
Qed.

(** The two public lists agree.  Whatever the registry, the adapters, the model store and the
    external routes are, [/v1/models] and [/api/tags] raise the same error or list the same
    ids in the same order, and keep the same registry. *)
Theorem public_lists_agree cached :
  let (es, reg) := openai_models dump dump_attestation py_str resolve is_loaded local inp rr store now cached in
  let (ts, reg') := ollama_tags py_str resolve is_loaded local inp rr store now cached in
  reg = reg' /\ (let! es := es in Ret (map oe_id es)) = (let! ts := ts in Ret (map ot_name ts)).
Proof. unfold openai_models, ollama_tags. split; [done|]. by rewrite openai_ids, ollama_ids. Qed.

Lemma with_appended_elem base id :
  id ∈ with_appended base
  <-> id ∈ base \/ id ∈ map rgm_model_id in_store \/ id ∈ map xe_id (external_inventory inp).
Proof.
  unfold with_appended. rewrite elem_of_app, fresh_ids_elem, elem_of_app, fresh_ids_elem. tauto.
Qed.

(** The list is the union of its sources.  When [/v1/models] answers, it lists the enabled
    models of an active registry, or nothing of its own when the configured registry
    failed, or what the adapters report; followed by every advertisable model of the store
    and then every external model not yet listed; each appended id once, so the ids are
    distinct whenever those of the first part are. *)
Theorem listing_is_the_union_of_its_sources reg entries :
  openai reg = Ret entries ->
  exists base, base_ids reg = Ret base
    /\ (failed_registry inp reg = true -> base = [])
    /\ map oe_id entries = with_appended base
    /\ (forall id, id ∈ map oe_id entries
         <-> id ∈ base \/ id ∈ map rgm_model_id in_store \/ id ∈ map xe_id (external_inventory inp))
    /\ (NoDup base -> NoDup (map oe_id entries)).
Proof.
  intros E. pose proof (openai_ids reg) as H. rewrite E in H. cbn [rbind] in H.
  destruct (base_ids reg) as [base|e] eqn:Eb; [|done]. injection H as Hids. exists base.
  split; [done|]. split; [|split; [done|split]].
  - unfold failed_registry, base_ids, active_registry, list_models_async in *. destruct reg; try done.
    unfold failed_registry in Eb. cbn in Eb. destruct (get_model_registry_path (in_env inp)); [|done]. by injection Eb.
  - intros id. by rewrite Hids, with_appended_elem.
  - intros Hnd. rewrite Hids. unfold with_appended.
    assert (Happ : forall l ids, NoDup l -> NoDup (l ++ fresh_ids l ids)%list).
    { intros l ids Hl. destruct (fresh_ids_NoDup l ids) as [H1 H2]. apply NoDup_app. split; [done|].
      split; [|done]. intros x Hx Hx'. by apply (H2 x). }
    by apply Happ, Happ.
Qed.

(** A model the registry lets through. *)
Definition registry_enables (reg : registry_cache) (id : string) : Prop :=
  exists registry entry, reg = RegLoaded registry /\ registry_get id registry = Some entry /\ rm_enabled entry = true.

Lemma unenabled_refused reg id :
  ~ registry_enables reg id ->
  exists detail, registry_step true reg rr id = Some (Raise (ModelResolutionError id detail)).
Proof.
  intros H. unfold registry_step. destruct reg as [| |registry]; [eauto | eauto |].
  destruct (registry_get id registry) as [entry|] eqn:E; [|eauto].
  destruct (rm_enabled entry) eqn:Ee; [|cbn; eauto]. destruct H. by exists registry, entry.
Qed.

Lemma enabled_listed registry id entry :
  registry_get id registry = Some entry -> rm_enabled entry = true -> id ∈ map fst (enabled_models registry).
Proof.
  intros H He. apply list_elem_of_fmap. exists (id, entry). split; [done|]. unfold enabled_models.
  rewrite list_elem_of_In, filter_In, <- list_elem_of_In. split; [by apply dget_Some_elem | done].
Qed.

(** C27: What is listed beside a configured registry is refused.  With a registry path set, every
    advertisable model of the store and every external model is listed all the same; and
    of all the listed ids only those the registry enables can be resolved, every other one
    is refused with a resolution error.  While a registry that failed to load makes the
    model list of the runtime empty, the public list still shows all of these. *)
Theorem listed_beside_the_registry_is_refused path w entries reg :
  get_model_registry_path (in_env inp) = Some path ->
  openai_models dump dump_attestation py_str resolve is_loaded local inp rr store now (wd_registry w) = (Ret entries, reg) ->
  (forall id, id ∈ map rgm_model_id in_store \/ id ∈ map xe_id (external_inventory inp) -> id ∈ map oe_id entries)
  /\ (forall id, registry_enables reg id -> id ∈ map oe_id entries)
  /\ (forall id, ~ registry_enables reg id ->
        exists detail, fst (resolve_model_runtime inp rr w id) = Raise (ModelResolutionError id detail))
  /\ (reg = RegFalse -> infos reg = Ret []).
Proof.
  intros Hp [= Hes <-]. set (reg := loaded_registry inp (wd_registry w)) in *.
  pose proof (openai_ids reg) as H. rewrite Hes in H. cbn [rbind] in H.
  destruct (base_ids reg) as [base|e] eqn:Eb; [|done]. injection H as ->.
  split; [|split; [|split]].
  - intros id Hid. apply with_appended_elem. auto.
  - intros id (registry & entry & Er & Hg & He). apply with_appended_elem. left.
    pose proof (enabled_listed _ _ _ Hg He) as Hin. unfold base_ids in Eb. rewrite Er in Eb. cbn in Eb.
    unfold registry_bool, registry_len in Eb. destruct registry as [|x registry]; [done|].
    cbn [length] in Eb. replace (0 <? Z.of_nat (S (length registry)))%Z with true in Eb
      by (symmetry; apply Z.ltb_lt; lia). by injection Eb as <-.
  - intros id Hid. destruct (unenabled_refused reg id Hid) as [detail Hd]. exists detail.
    unfold resolve_model_runtime. rewrite Hp. fold (loaded_registry inp (wd_registry w)). fold reg. by rewrite Hd.
  - intros Er. rewrite Er. unfold list_models_async, failed_registry. by rewrite Hp.
Qed.
End listing_props.

(** ** A store beside a registry *)
Definition both_env : environ := [("WHOOSHD_MODEL_REGISTRY_PATH", "/r.yaml"); ("WHOOSHD_MODEL_STORE_ROOT", "/s")].

Definition both_inputs : Inputs := demo_inputs both_env [("m", demo_entry ENG_LLAMA_CPP FMT_GGUF true)].

Definition demo_local (p : string) : LocalModel := mkLocalModel false None None.

Lemma listed_beside_the_registry_is_refused_witness :
  exists entries reg,
    openai_models (fun _ => PNone) (fun _ : unit => PNone) demo_py_str_store demo_resolve (fun _ => false) demo_local
      both_inputs (demo_router [llama]) demo_store "t" RegNone = (Ret entries, reg)
    /\ map oe_id entries = ["m"; "gemma"]
    /\ exists detail, fst (resolve_model_runtime both_inputs (demo_router [llama]) fresh_world "gemma")
                      = Raise (ModelResolutionError "gemma" detail).
Proof.
  do 2 eexists. split; [vm_compute; reflexivity|]. split; [reflexivity|].
  refine (proj1 (proj2 (proj2 (listed_beside_the_registry_is_refused (fun _ => PNone) (fun _ : unit => PNone)
            demo_py_str_store demo_resolve (fun _ => false) demo_local both_inputs (demo_router [llama]) demo_store "t"
            "/r.yaml" fresh_world _ _ eq_refl ltac:(vm_compute; reflexivity)))) "gemma" _).
  intros (registry & entry & E & Hg & _). vm_compute in E. injection E as <-. vm_compute in Hg. discriminate.
Defined.

Lemma listing_is_the_union_of_its_sources_witness :
  exists entries,
    build_openai_model_list (fun _ => PNone) (fun _ : unit => PNone) demo_py_str_store demo_resolve (fun _ => false)
      demo_local both_inputs (demo_router [llama]) demo_store "t" RegFalse = Ret entries
    /\ map oe_id entries = ["gemma"] /\ NoDup (map oe_id entries).
Proof.
  eexists. split; [vm_compute; reflexivity|]. split; [reflexivity|].
  destruct (listing_is_the_union_of_its_sources (fun _ => PNone) (fun _ : unit => PNone) demo_py_str_store demo_resolve
              (fun _ => false) demo_local both_inputs (demo_router [llama]) demo_store "t" RegFalse _
              ltac:(vm_compute; reflexivity)) as (base & _ & Hf & _ & _ & Hnd).
  apply Hnd. rewrite (Hf eq_refl). constructor.
Defined.

(** A model that the registry says can see is listed without the vision capability. *)
Lemma registry_vision_is_not_listed e : "vision" ∉ registry_capabilities e.
Proof. unfold registry_capabilities. destruct (has_modality MOD_TEXT e), (has_modality MOD_EMBEDDING e); set_solver. Qed.
