(* ===== verification/TWSnap.v ===== *)
(** * Snapshot metadata: manifests, artifacts, materials, creation and materialization
      ([runtime/threadwake/snapshot_manifest.py], [artifacts.py], [snapshot_material.py],
      [snapshot_creation.py], [materialization.py])

    An eligible candidate becomes a manifest, a manifest an artifact, an artifact a declared
    material, and a validator judges the material.  Nothing here holds KV state.

    - The clock is an argument [now] (an ISO text, read once per operation) and [sha256_hex]
      the digest.  Objects read with [getattr] are the records their callers pass.
    - [SnapshotArtifactRegistry] keeps the object it is given; its callers build an artifact
      for every registration and never change it afterwards, so the dictionary of values
      shows what the shared objects would. *)

From S2P Require Import Prelude PyDict PyStr PySeq TWTokens TWProof.
Open Scope string_scope.

(** [x or d] on a text. *)
Definition str_or (x d : string) : string := if String.eqb x "" then d else x.

(** ** Manifests ([snapshot_manifest.py]) *)

Inductive SnapshotManifestStatus := MANIFEST_PLANNED | MANIFEST_SUPERSEDED | MANIFEST_EXPIRED | MANIFEST_REJECTED.

Definition SnapshotManifestStatus_value (s : SnapshotManifestStatus) : string :=
  match s with
  | MANIFEST_PLANNED => "planned" | MANIFEST_SUPERSEDED => "superseded"
  | MANIFEST_EXPIRED => "expired" | MANIFEST_REJECTED => "rejected"
  end.

Inductive SnapshotManifestReason :=
| POLICY_ELIGIBLE | SUPERSEDED_BY_NEWER | EXPIRED_BY_POLICY | INVALIDATED_BY_MODEL_CHANGE
| INVALIDATED_BY_TOKENIZER_CHANGE | INVALIDATED_BY_TEMPLATE_CHANGE.

Definition SnapshotManifestReason_value (r : SnapshotManifestReason) : string :=
  match r with
  | POLICY_ELIGIBLE => "policy_eligible" | SUPERSEDED_BY_NEWER => "superseded_by_newer_manifest"
  | EXPIRED_BY_POLICY => "expired_by_policy"
  | INVALIDATED_BY_MODEL_CHANGE => "invalidated_by_model_change"
  | INVALIDATED_BY_TOKENIZER_CHANGE => "invalidated_by_tokenizer_change"
  | INVALIDATED_BY_TEMPLATE_CHANGE => "invalidated_by_template_change"
  end.

Record SnapshotManifest := mkManifest {
  sm_manifest_id : string;
  sm_prefix_hash : string;
  sm_backend : option string;
  sm_model_id : option string;
  sm_tokenizer_hash : option string;
  sm_chat_template_hash : option string;
  sm_candidate_score : Q;
  sm_candidate_confidence : option string;
  sm_seen_count : Z;
  sm_potential_saved_tokens_total : Z;
  sm_average_potential_saved_ratio : Q;
  sm_eligibility_reason : string;
  sm_policy_version : string;
  sm_created_at : string;
  sm_last_seen_at : option string;
  sm_status : string;
}.

Definition manifest_safe_dict (m : SnapshotManifest) : list (string * pyval) :=
  [("manifest_id", PStr (sm_manifest_id m)); ("prefix_hash", PStr (sm_prefix_hash m));
   ("backend", opt_str (sm_backend m)); ("model_id", opt_str (sm_model_id m));
   ("tokenizer_hash", opt_str (sm_tokenizer_hash m));
   ("chat_template_hash", opt_str (sm_chat_template_hash m));
   ("candidate_score", PFloat (sm_candidate_score m));
   ("candidate_confidence", opt_str (sm_candidate_confidence m));
   ("seen_count", PInt (sm_seen_count m));
   ("potential_saved_tokens_total", PInt (sm_potential_saved_tokens_total m));
   ("average_potential_saved_ratio", PFloat (py_round 4 (sm_average_potential_saved_ratio m)));
   ("eligibility_reason", PStr (sm_eligibility_reason m));
   ("policy_version", PStr (sm_policy_version m)); ("status", PStr (sm_status m));
   ("created_at", PStr (sm_created_at m)); ("last_seen_at", opt_str (sm_last_seen_at m))].

(** ** Artifacts ([artifacts.py]) *)

Inductive SnapshotArtifactStatus :=
| ARTIFACT_PLANNED | BUILD_PENDING | BUILD_FAILED | ARTIFACT_READY | ARTIFACT_SUPERSEDED | ARTIFACT_EXPIRED.

Definition SnapshotArtifactStatus_value (s : SnapshotArtifactStatus) : string :=
  match s with
  | ARTIFACT_PLANNED => "planned" | BUILD_PENDING => "build_pending" | BUILD_FAILED => "build_failed"
  | ARTIFACT_READY => "ready" | ARTIFACT_SUPERSEDED => "superseded" | ARTIFACT_EXPIRED => "expired"
  end.

Record SnapshotArtifact := mkArtifact {
  sa_artifact_id : string;
  sa_manifest_id : string;
  sa_prefix_hash : string;
  sa_backend : option string;
  sa_model_id : option string;
  sa_tokenizer_hash : option string;
  sa_chat_template_hash : option string;
  sa_status : string;
  sa_policy_version : string;
  sa_artifact_version : string;
  sa_build_attempts : Z;
  sa_notes : option string;
  sa_created_at : string;
  sa_updated_at : string;
  sa_last_seen_at : option string;
}.

Definition artifact_safe_dict (a : SnapshotArtifact) : list (string * pyval) :=
  [("artifact_id", PStr (sa_artifact_id a)); ("manifest_id", PStr (sa_manifest_id a));
   ("prefix_hash", PStr (sa_prefix_hash a)); ("backend", opt_str (sa_backend a));
   ("model_id", opt_str (sa_model_id a)); ("tokenizer_hash", opt_str (sa_tokenizer_hash a));
   ("chat_template_hash", opt_str (sa_chat_template_hash a)); ("status", PStr (sa_status a));
   ("policy_version", PStr (sa_policy_version a)); ("artifact_version", PStr (sa_artifact_version a));
   ("build_attempts", PInt (sa_build_attempts a)); ("notes", opt_str (sa_notes a));
   ("created_at", PStr (sa_created_at a)); ("updated_at", PStr (sa_updated_at a));
   ("last_seen_at", opt_str (sa_last_seen_at a))].

Record RegistryStats := mkRegistryStats {
  rs_total : Z;
  rs_planned : Z;
  rs_build_pending : Z;
  rs_build_failed : Z;
  rs_ready : Z;
  rs_superseded : Z;
  rs_expired : Z;
}.

Definition registry_stats_dict (s : RegistryStats) : list (string * pyval) :=
  [("total_artifacts", PInt (rs_total s)); ("planned", PInt (rs_planned s));
   ("build_pending", PInt (rs_build_pending s)); ("build_failed", PInt (rs_build_failed s));
   ("ready", PInt (rs_ready s)); ("superseded", PInt (rs_superseded s));
   ("expired", PInt (rs_expired s))].

(** [_artifacts]: artifact ids to artifacts. *)
Abbreviation SnapshotArtifactRegistry := (list (string * SnapshotArtifact)).

(** The update of the registered object. *)
Definition reregister (now : string) (artifact existing : SnapshotArtifact) : SnapshotArtifact :=
  mkArtifact (sa_artifact_id existing) (sa_manifest_id existing) (sa_prefix_hash existing)
    (sa_backend existing) (sa_model_id existing) (sa_tokenizer_hash existing)
    (sa_chat_template_hash existing) (sa_status artifact) (sa_policy_version existing)
    (sa_artifact_version existing) (sa_build_attempts existing + 1)
    (if str_truthy (sa_notes artifact) then sa_notes artifact else sa_notes existing)
    (sa_created_at existing) now (sa_last_seen_at existing).

Definition register_artifact (now : string) (artifact : SnapshotArtifact)
    (reg : SnapshotArtifactRegistry) : SnapshotArtifactRegistry :=
  match dget (sa_artifact_id artifact) reg with
  | Some existing => dset (sa_artifact_id artifact) (reregister now artifact existing) reg
  | None => dset (sa_artifact_id artifact) artifact reg
  end.

Definition get_artifact (artifact_id : string) (reg : SnapshotArtifactRegistry) : option SnapshotArtifact :=
  dget artifact_id reg.

Definition list_artifacts (limit : Z) (status backend : option string) (reg : SnapshotArtifactRegistry)
    : list (list (string * pyval)) :=
  let limit := Z.max 1 (Z.min limit 500) in
  let items := dvalues reg in
  let items :=
    if str_truthy status then List.filter (fun a => bool_decide (Some (sa_status a) = status)) items
    else items in
  let items :=
    if str_truthy backend then List.filter (fun a => bool_decide (sa_backend a = backend)) items
    else items in
  map artifact_safe_dict
    (slice_to limit (stable_sort (fun a b => string_leb (sa_created_at b) (sa_created_at a)) items)).

(** One turn of the counting loop. *)
Definition count_status (s : RegistryStats) (a : SnapshotArtifact) : RegistryStats :=
  let has x := String.eqb (sa_status a) x in
  match s with mkRegistryStats t p bp bf r su ex =>
  if has "planned" then mkRegistryStats t (p + 1) bp bf r su ex
  else if has "build_pending" then mkRegistryStats t p (bp + 1) bf r su ex
  else if has "build_failed" then mkRegistryStats t p bp (bf + 1) r su ex
  else if has "ready" then mkRegistryStats t p bp bf (r + 1) su ex
  else if has "superseded" then mkRegistryStats t p bp bf r (su + 1) ex
  else if has "expired" then mkRegistryStats t p bp bf r su (ex + 1)
  else s
  end.

Definition artifact_stats (reg : SnapshotArtifactRegistry) : RegistryStats :=
  let items := dvalues reg in
  fold_left count_status items (mkRegistryStats (Z.of_nat (length items)) 0 0 0 0 0 0).

(** ** Materials ([snapshot_material.py]) *)

Inductive SnapshotMaterialKind :=
| METADATA_ONLY | BACKEND_NATIVE | FILE_BACKED | MEMORY_BACKED | KIND_UNSUPPORTED.

Definition SnapshotMaterialKind_value (k : SnapshotMaterialKind) : string :=
  match k with
  | METADATA_ONLY => "metadata_only" | BACKEND_NATIVE => "backend_native" | FILE_BACKED => "file_backed"
  | MEMORY_BACKED => "memory_backed" | KIND_UNSUPPORTED => "unsupported"
  end.

Definition material_kinds : list string :=
  map SnapshotMaterialKind_value [METADATA_ONLY; BACKEND_NATIVE; FILE_BACKED; MEMORY_BACKED; KIND_UNSUPPORTED].

Inductive SnapshotMaterialStatus :=
| MATERIAL_DECLARED | MATERIALIZED | VALIDATED | MATERIAL_INVALID | MATERIAL_EXPIRED | MATERIAL_UNSUPPORTED.

Definition SnapshotMaterialStatus_value (s : SnapshotMaterialStatus) : string :=
  match s with
  | MATERIAL_DECLARED => "declared" | MATERIALIZED => "materialized" | VALIDATED => "validated"
  | MATERIAL_INVALID => "invalid" | MATERIAL_EXPIRED => "expired" | MATERIAL_UNSUPPORTED => "unsupported"
  end.

Definition material_statuses : list string :=
  map SnapshotMaterialStatus_value
    [MATERIAL_DECLARED; MATERIALIZED; VALIDATED; MATERIAL_INVALID; MATERIAL_EXPIRED; MATERIAL_UNSUPPORTED].

Record SnapshotMaterialContract := mkMaterial {
  mt_material_id : string;
  mt_artifact_id : string;
  mt_manifest_id : string;
  mt_prefix_hash : string;
  mt_backend : option string;
  mt_model_id : option string;
  mt_tokenizer_hash : option string;
  mt_chat_template_hash : option string;
  mt_material_kind : string;
  mt_material_status : string;
  mt_material_version : string;
  mt_policy_version : string;
  mt_checksum : option string;
  mt_byte_size : option Z;
  mt_token_count : option Z;
  mt_format_name : option string;
  mt_format_version : option string;
  mt_validation_errors : list string;
  mt_created_at : string;
  mt_updated_at : string;
}.

Definition material_safe_dict (m : SnapshotMaterialContract) : list (string * pyval) :=
  [("material_id", PStr (mt_material_id m)); ("artifact_id", PStr (mt_artifact_id m));
   ("manifest_id", PStr (mt_manifest_id m)); ("prefix_hash", PStr (mt_prefix_hash m));
   ("backend", opt_str (mt_backend m)); ("model_id", opt_str (mt_model_id m));
   ("tokenizer_hash", opt_str (mt_tokenizer_hash m));
   ("chat_template_hash", opt_str (mt_chat_template_hash m));
   ("material_kind", PStr (mt_material_kind m)); ("material_status", PStr (mt_material_status m));
   ("material_version", PStr (mt_material_version m)); ("policy_version", PStr (mt_policy_version m));
   ("checksum", opt_str (mt_checksum m)); ("byte_size", opt_int (mt_byte_size m));
   ("token_count", opt_int (mt_token_count m)); ("format_name", opt_str (mt_format_name m));
   ("format_version", opt_str (mt_format_version m));
   ("validation_errors", PList (map PStr (mt_validation_errors m)));
   ("created_at", PStr (mt_created_at m)); ("updated_at", PStr (mt_updated_at m))].

Inductive SnapshotMaterialValidationReason :=
| VALID_METADATA_ONLY | MISSING_MATERIAL_ID | MISSING_ARTIFACT_ID | MISSING_MANIFEST_ID
| MISSING_PREFIX_HASH | MISSING_BACKEND | MISSING_MODEL_ID | MISSING_TOKENIZER_HASH
| MISSING_CHAT_TEMPLATE_HASH | INVALID_MATERIAL_KIND | INVALID_MATERIAL_STATUS
| MATERIALIZED_WITHOUT_CHECKSUM | MATERIALIZED_WITHOUT_BYTE_SIZE | VALIDATED_WITHOUT_MATERIALIZATION
| MATERIAL_UNSUPPORTED_BACKEND | RAW_CONTENT_DETECTED | UNSAFE_REFERENCE_DETECTED.

Definition SnapshotMaterialValidationReason_value (r : SnapshotMaterialValidationReason) : string :=
  match r with
  | VALID_METADATA_ONLY => "valid_metadata_only" | MISSING_MATERIAL_ID => "missing_material_id"
  | MISSING_ARTIFACT_ID => "missing_artifact_id" | MISSING_MANIFEST_ID => "missing_manifest_id"
  | MISSING_PREFIX_HASH => "missing_prefix_hash" | MISSING_BACKEND => "missing_backend"
  | MISSING_MODEL_ID => "missing_model_id" | MISSING_TOKENIZER_HASH => "missing_tokenizer_hash"
  | MISSING_CHAT_TEMPLATE_HASH => "missing_chat_template_hash"
  | INVALID_MATERIAL_KIND => "invalid_material_kind" | INVALID_MATERIAL_STATUS => "invalid_material_status"
  | MATERIALIZED_WITHOUT_CHECKSUM => "materialized_without_checksum"
  | MATERIALIZED_WITHOUT_BYTE_SIZE => "materialized_without_byte_size"
  | VALIDATED_WITHOUT_MATERIALIZATION => "validated_without_materialization"
  | MATERIAL_UNSUPPORTED_BACKEND => "unsupported_backend"
  | RAW_CONTENT_DETECTED => "raw_content_detected"
  | UNSAFE_REFERENCE_DETECTED => "unsafe_reference_detected"
  end.

Record SnapshotMaterialValidationResult := mkValidation {
  vr_valid : bool;
  vr_reason : string;
  vr_material_id : option string;
  vr_material_kind : option string;
  vr_material_status : option string;
  vr_checked_at : string;
  vr_errors : list string;
}.

Definition validation_safe_dict (r : SnapshotMaterialValidationResult) : list (string * pyval) :=
  [("valid", PBool (vr_valid r)); ("reason", PStr (vr_reason r)); ("material_id", opt_str (vr_material_id r));
   ("material_kind", opt_str (vr_material_kind r)); ("material_status", opt_str (vr_material_status r));
   ("checked_at", PStr (vr_checked_at r)); ("errors", PList (map PStr (vr_errors r)))].

Record ValidatorStats := mkValidatorStats {
  vs_validations_total : Z;
  vs_valid_total : Z;
  vs_invalid_total : Z;
  vs_last_reason : option string;
}.

Definition new_validator : ValidatorStats := mkValidatorStats 0 0 0 None.

(** [REQUIRED], with the material's value of each. *)
Definition required_fields (m : SnapshotMaterialContract) : list (string * option string) :=
  [("material_id", Some (mt_material_id m)); ("artifact_id", Some (mt_artifact_id m));
   ("manifest_id", Some (mt_manifest_id m)); ("prefix_hash", Some (mt_prefix_hash m));
   ("backend", mt_backend m); ("model_id", mt_model_id m); ("tokenizer_hash", mt_tokenizer_hash m);
   ("chat_template_hash", mt_chat_template_hash m); ("material_version", Some (mt_material_version m));
   ("policy_version", Some (mt_policy_version m))].

Definition missing_fields (m : SnapshotMaterialContract) : list string :=
  map (fun f => "missing_" +:+ fst f) (List.filter (fun f => negb (str_truthy (snd f))) (required_fields m)).

Definition SUPPORTED_BACKENDS : list string := ["mlx"; "fake"].

(** [not byte_size or byte_size <= 0] *)
Definition no_byte_size (m : SnapshotMaterialContract) : bool :=
  match mt_byte_size m with None => true | Some n => (n <=? 0)%Z end.

(** The refusal [validate] returns through [_fail], if any: its reason and errors. *)
Definition validation_failure (material : option SnapshotMaterialContract)
    : option (string * list string) :=
  let refuse r := Some (SnapshotMaterialValidationReason_value r, []) in
  match material with
  | None => refuse MISSING_MATERIAL_ID
  | Some m =>
      match missing_fields m with
      | e :: errors => Some (e, e :: errors)
      | [] =>
          let status := mt_material_status m in
          if negb (bool_decide (mt_material_kind m ∈ material_kinds)) then refuse INVALID_MATERIAL_KIND
          else if negb (bool_decide (status ∈ material_statuses)) then refuse INVALID_MATERIAL_STATUS
          else if String.eqb status (SnapshotMaterialStatus_value MATERIALIZED)
                  && negb (str_truthy (mt_checksum m)) then refuse MATERIALIZED_WITHOUT_CHECKSUM
          else if String.eqb status (SnapshotMaterialStatus_value MATERIALIZED) && no_byte_size m then
            refuse MATERIALIZED_WITHOUT_BYTE_SIZE
          else if String.eqb status (SnapshotMaterialStatus_value VALIDATED) then
            refuse VALIDATED_WITHOUT_MATERIALIZATION
          else if str_truthy (mt_backend m)
                  && negb (bool_decide (default "" (mt_backend m) ∈ SUPPORTED_BACKENDS)) then
            refuse MATERIAL_UNSUPPORTED_BACKEND
          else None
      end
  end.

Definition validate (now : string) (material : option SnapshotMaterialContract) (st : ValidatorStats)
    : SnapshotMaterialValidationResult * ValidatorStats :=
  match validation_failure material with
  | Some (reason, errors) =>
      (mkValidation false reason None None None now errors,
       mkValidatorStats (vs_validations_total st + 1) (vs_valid_total st) (vs_invalid_total st + 1)
         (Some reason))
  | None =>
      let reason := SnapshotMaterialValidationReason_value VALID_METADATA_ONLY in
      (mkValidation true reason (mt_material_id <$> material) (mt_material_kind <$> material)
         (mt_material_status <$> material) now [],
       mkValidatorStats (vs_validations_total st + 1) (vs_valid_total st + 1) (vs_invalid_total st)
         (Some reason))
  end.

Fixpoint validate_many (now : string) (materials : list (option SnapshotMaterialContract))
    (st : ValidatorStats) : list SnapshotMaterialValidationResult * ValidatorStats :=
  match materials with
  | [] => ([], st)
  | m :: materials =>
      let (r, st) := validate now m st in
      let (rs, st) := validate_many now materials st in (r :: rs, st)
  end.

(** ** Snapshot creation ([snapshot_creation.py]) *)

Inductive SnapshotCreationStatus := CREATION_DISABLED | CREATION_SKIPPED | CREATION_CREATED | CREATION_FAILED.

Definition SnapshotCreationStatus_value (s : SnapshotCreationStatus) : string :=
  match s with
  | CREATION_DISABLED => "disabled" | CREATION_SKIPPED => "skipped" | CREATION_CREATED => "created"
  | CREATION_FAILED => "failed"
  end.

Inductive SnapshotCreationReason :=
| EXPERIMENTAL_SNAPSHOTS_DISABLED | ARTIFACT_NOT_ELIGIBLE | CREATION_UNSUPPORTED_BACKEND | MISSING_MANIFEST
| MISSING_ARTIFACT | BACKEND_SNAPSHOT_UNAVAILABLE | SNAPSHOT_CREATED | SNAPSHOT_CREATION_FAILED.

Definition SnapshotCreationReason_value (r : SnapshotCreationReason) : string :=
  match r with
  | EXPERIMENTAL_SNAPSHOTS_DISABLED => "experimental_snapshots_disabled"
  | ARTIFACT_NOT_ELIGIBLE => "artifact_not_eligible" | CREATION_UNSUPPORTED_BACKEND => "unsupported_backend"
  | MISSING_MANIFEST => "missing_manifest" | MISSING_ARTIFACT => "missing_artifact"
  | BACKEND_SNAPSHOT_UNAVAILABLE => "backend_snapshot_unavailable"
  | SNAPSHOT_CREATED => "snapshot_created" | SNAPSHOT_CREATION_FAILED => "snapshot_creation_failed"
  end.

Record SnapshotCreationResult := mkCreation {
  cn_created : bool;
  cn_status : string;
  cn_reason : string;
  cn_artifact_id : option string;
  cn_manifest_id : option string;
  cn_backend : option string;
  cn_model_id : option string;
  cn_snapshot_ref_hash : option string;
  cn_error : option string;
  cn_created_at : string;
}.

Definition creation_safe_dict (r : SnapshotCreationResult) : list (string * pyval) :=
  [("created", PBool (cn_created r)); ("status", PStr (cn_status r)); ("reason", PStr (cn_reason r));
   ("artifact_id", opt_str (cn_artifact_id r)); ("manifest_id", opt_str (cn_manifest_id r));
   ("backend", opt_str (cn_backend r)); ("model_id", opt_str (cn_model_id r));
   ("snapshot_ref_hash", opt_str (cn_snapshot_ref_hash r)); ("error", opt_str (cn_error r));
   ("created_at", PStr (cn_created_at r))].

Record SnapshotCreator := mkCreator {
  sc_enabled : bool;
  sc_attempts : Z;
  sc_created : Z;
  sc_skipped : Z;
  sc_failed : Z;
  sc_last_reason : option string;
}.

Definition new_creator (enabled : bool) : SnapshotCreator := mkCreator enabled 0 0 0 0 None.

Definition creator_stats (c : SnapshotCreator) : list (string * pyval) :=
  [("enabled", PBool (sc_enabled c)); ("creation_attempts", PInt (sc_attempts c));
   ("created", PInt (sc_created c)); ("skipped", PInt (sc_skipped c)); ("failed", PInt (sc_failed c));
   ("last_reason", opt_str (sc_last_reason c))].

(** [_skip], on a creator whose attempt has been counted. *)
Definition skip (now : string) (reason : SnapshotCreationReason) (artifact : option SnapshotArtifact)
    (manifest : option SnapshotManifest) (c : SnapshotCreator) : SnapshotCreationResult * SnapshotCreator :=
  let reason := SnapshotCreationReason_value reason in
  (mkCreation false
     (SnapshotCreationStatus_value (if sc_enabled c then CREATION_SKIPPED else CREATION_DISABLED)) reason
     (sa_artifact_id <$> artifact) (sm_manifest_id <$> manifest) (artifact ≫= sa_backend)
     (artifact ≫= sa_model_id) None None now,
   mkCreator (sc_enabled c) (sc_attempts c) (sc_created c) (sc_skipped c + 1) (sc_failed c) (Some reason)).

Definition attempt (c : SnapshotCreator) : SnapshotCreator :=
  mkCreator (sc_enabled c) (sc_attempts c + 1) (sc_created c) (sc_skipped c) (sc_failed c) (sc_last_reason c).

Definition create_from_artifact (now : string) (artifact : option SnapshotArtifact)
    (manifest : option SnapshotManifest) (c : SnapshotCreator) : SnapshotCreationResult * SnapshotCreator :=
  let c := attempt c in
  if negb (sc_enabled c) then skip now EXPERIMENTAL_SNAPSHOTS_DISABLED artifact manifest c
  else match artifact with
       | None => skip now MISSING_ARTIFACT artifact manifest c
       | Some a =>
           if negb (String.eqb (default "" (sa_backend a)) "mlx") then
             skip now CREATION_UNSUPPORTED_BACKEND artifact manifest c
           else skip now BACKEND_SNAPSHOT_UNAVAILABLE artifact manifest c
       end.

Definition can_create (artifact : option SnapshotArtifact) (c : SnapshotCreator) : bool :=
  if negb (sc_enabled c) then false
  else match artifact with None => false | Some _ => false end.

Definition fake_can_create (artifact : option SnapshotArtifact) (c : SnapshotCreator) : bool :=
  sc_enabled c && match artifact with Some _ => true | None => false end.

(** ** Materializers ([materialization.py]) *)

Inductive MaterializationCapability := CAP_UNSUPPORTED | CAP_DECLARED | CAP_EXPERIMENTAL | CAP_SUPPORTED.

Definition MaterializationCapability_value (c : MaterializationCapability) : string :=
  match c with
  | CAP_UNSUPPORTED => "unsupported" | CAP_DECLARED => "declared" | CAP_EXPERIMENTAL => "experimental"
  | CAP_SUPPORTED => "supported"
  end.

Inductive MaterializationReason :=
| BACKEND_NOT_REGISTERED | BACKEND_DOES_NOT_SUPPORT_MATERIALIZATION | BACKEND_INTERFACE_DECLARED
| BACKEND_EXPERIMENTAL | BACKEND_SUPPORTED | MATERIALIZATION_DISABLED | UNKNOWN_BACKEND.

Definition MaterializationReason_value (r : MaterializationReason) : string :=
  match r with
  | BACKEND_NOT_REGISTERED => "backend_not_registered"
  | BACKEND_DOES_NOT_SUPPORT_MATERIALIZATION => "backend_does_not_support_materialization"
  | BACKEND_INTERFACE_DECLARED => "backend_interface_declared"
  | BACKEND_EXPERIMENTAL => "backend_experimental" | BACKEND_SUPPORTED => "backend_supported"
  | MATERIALIZATION_DISABLED => "materialization_disabled" | UNKNOWN_BACKEND => "unknown_backend"
  end.

Record MaterializationCapabilityResult := mkCapability {
  mc_backend : string;
  mc_capability : string;
  mc_reason : string;
  mc_supports_materialization : bool;
  mc_supports_restore : bool;
  mc_supports_reuse : bool;
  mc_checked_at : string;
}.

Definition capability_safe_dict (c : MaterializationCapabilityResult) : list (string * pyval) :=
  [("backend", PStr (mc_backend c)); ("capability", PStr (mc_capability c)); ("reason", PStr (mc_reason c));
   ("supports_materialization", PBool (mc_supports_materialization c));
   ("supports_restore", PBool (mc_supports_restore c)); ("supports_reuse", PBool (mc_supports_reuse c));
   ("checked_at", PStr (mc_checked_at c))].

(** The protocol: the operations of a materializer. *)
Record SnapshotMaterializer := mkMaterializer {
  mz_backend_name : string;
  mz_capability : string -> MaterializationCapabilityResult;
  mz_can_materialize : bool;
  mz_materialize : SnapshotArtifact -> SnapshotManifest -> pyres pyval;
}.

Definition NoOpSnapshotMaterializer : SnapshotMaterializer :=
  mkMaterializer "noop"
    (mkCapability "noop" (MaterializationCapability_value CAP_UNSUPPORTED)
       (MaterializationReason_value BACKEND_DOES_NOT_SUPPORT_MATERIALIZATION) false false false)
    false
    (fun _ _ => Raise (Exc "NotImplementedError" "NoOpSnapshotMaterializer does not support materialization")).

Definition MLXSnapshotMaterializer : SnapshotMaterializer :=
  mkMaterializer "mlx"
    (mkCapability "mlx" (MaterializationCapability_value CAP_DECLARED)
       (MaterializationReason_value BACKEND_INTERFACE_DECLARED) false false false)
    false
    (fun _ _ => Raise (Exc "NotImplementedError"
                         "MLXSnapshotMaterializer: snapshot materialization not yet implemented")).

(** [_materializers] *)
Abbreviation MaterializerRegistry := (list (string * SnapshotMaterializer)).

Definition register_materializer (m : SnapshotMaterializer) (reg : MaterializerRegistry) : MaterializerRegistry :=
  dset (mz_backend_name m) m reg.

Definition unregister_materializer (backend : string) (reg : MaterializerRegistry) : MaterializerRegistry :=
  ddel backend reg.

Definition get_materializer (backend : string) (reg : MaterializerRegistry) : SnapshotMaterializer :=
  dget_or backend NoOpSnapshotMaterializer reg.

Definition list_materializers (reg : MaterializerRegistry) : list string := stable_sort string_leb (dkeys reg).

Definition capability_summary (now : string) (reg : MaterializerRegistry) : list (list (string * pyval)) :=
  map (fun m => capability_safe_dict (mz_capability m now)) (dvalues reg).

Definition materializer_stats (now : string) (reg : MaterializerRegistry) : list (string * pyval) :=
  let items := dvalues reg in
  let declared :=
    countb (fun m => String.eqb (mc_capability (mz_capability m now))
                       (MaterializationCapability_value CAP_DECLARED)) items in
  [("registered_backends", PInt (Z.of_nat (length items))); ("declared", PInt declared);
   ("experimental", PInt 0); ("supported", PInt 0)].

(** ** What depends on the digest *)
Section digest.
Context (sha256_hex : string -> string).

(** [manifest_id_for] *)
Definition manifest_payload (prefix_hash backend model_id tokenizer_hash chat_template_hash policy_version : string)
    : string :=
  join "|" [prefix_hash; backend; model_id; tokenizer_hash; chat_template_hash; policy_version].

Definition manifest_id_for (prefix_hash backend model_id tokenizer_hash chat_template_hash policy_version : string)
    : string :=
  "manifest-" +:+ String.substring 0 16
    (sha256_hex (manifest_payload prefix_hash backend model_id tokenizer_hash chat_template_hash policy_version)).

(** [build_from_replay_record] *)
Definition build_from_replay_record (now : string) (record : CandidateRow) (eligibility : SnapshotEligibility)
    : option SnapshotManifest :=
  if negb (el_eligible eligibility) then None
  else
    let prefix := cr_prefix_hash record in
    let policy_ver := str_or (el_policy_version eligibility) "1" in
    let manifest_id :=
      manifest_id_for prefix (default "" (cr_backend record)) (default "" (cr_model_id record))
        (default "" (cr_tokenizer_hash record)) (default "" (cr_chat_template_hash record)) policy_ver in
    Some (mkManifest manifest_id prefix (cr_backend record) (cr_model_id record) (cr_tokenizer_hash record)
            (cr_chat_template_hash record) (cr_score record) (cr_confidence record) (cr_seen_count record)
            (cr_saved_tokens record) (cr_saved_ratio record) (el_reason eligibility) policy_ver now
            (cr_last_seen_at record) (SnapshotManifestStatus_value MANIFEST_PLANNED)).

Definition artifact_id_for (manifest_id : string) : string :=
  "artifact-" +:+ String.substring 0 16 (sha256_hex (manifest_id +:+ "|1")).

Definition ARTIFACT_VERSION : string := "1".

Definition build_from_manifest (now : string) (manifest : SnapshotManifest) : SnapshotArtifact :=
  mkArtifact (artifact_id_for (sm_manifest_id manifest)) (sm_manifest_id manifest) (sm_prefix_hash manifest)
    (sm_backend manifest) (sm_model_id manifest) (sm_tokenizer_hash manifest)
    (sm_chat_template_hash manifest) (SnapshotArtifactStatus_value ARTIFACT_PLANNED)
    (str_or (sm_policy_version manifest) "1") ARTIFACT_VERSION 0 None now now None.

Definition material_id_for (artifact_id : string) : string :=
  "material-" +:+ String.substring 0 16 (sha256_hex (artifact_id +:+ "|1")).

Definition MATERIAL_VERSION : string := "1".

Definition declare_from_artifact (now : string) (artifact : SnapshotArtifact)
    (manifest : option SnapshotManifest) : SnapshotMaterialContract :=
  let aid := sa_artifact_id artifact in
  let mid := match manifest with Some m => sm_manifest_id m | None => sa_manifest_id artifact end in
  mkMaterial (material_id_for aid) aid mid
    (str_or (sa_prefix_hash artifact) (from_option sm_prefix_hash "" manifest))
    (sa_backend artifact) (sa_model_id artifact) (sa_tokenizer_hash artifact)
    (sa_chat_template_hash artifact) (SnapshotMaterialKind_value METADATA_ONLY)
    (SnapshotMaterialStatus_value MATERIAL_DECLARED) MATERIAL_VERSION
    (str_or (sa_policy_version artifact) "1") None None
    (sm_potential_saved_tokens_total <$> manifest) None None [] now now.

(** [FakeSnapshotCreator.create_from_artifact] *)
Definition fake_create_from_artifact (now : string) (artifact : option SnapshotArtifact)
    (manifest : option SnapshotManifest) (c : SnapshotCreator) : SnapshotCreationResult * SnapshotCreator :=
  let c := attempt c in
  if negb (sc_enabled c) then skip now EXPERIMENTAL_SNAPSHOTS_DISABLED artifact manifest c
  else match artifact with
       | None => skip now MISSING_ARTIFACT artifact manifest c
       | Some a =>
           let ref := String.substring 0 16 (sha256_hex ("fake-snapshot:" +:+ sa_artifact_id a)) in
           let reason := SnapshotCreationReason_value SNAPSHOT_CREATED in
           (mkCreation true (SnapshotCreationStatus_value CREATION_CREATED) reason (Some (sa_artifact_id a))
              (Some (sa_manifest_id a)) (sa_backend a) (sa_model_id a) (Some ref) None now,
            mkCreator (sc_enabled c) (sc_attempts c) (sc_created c + 1) (sc_skipped c) (sc_failed c)
              (Some reason))
       end.
End digest.
