(* ===== verification/TWSnapProps.v ===== *)
(** * What the snapshot metadata promises

    Ids identify what they are made of, a registered artifact is the history of its
    registrations, the validator accepts exactly the well-formed metadata, and nothing
    creates or materializes a snapshot. *)

From Stdlib Require Import Ascii.
From S2P Require Import Prelude PyDict PyStr PySeq TWTokens TWProof TWSnap.
Open Scope string_scope.

(** ** Rows that are merged by key

    [update new old] is the row after [new] was merged into [old]. *)
Section history.
Context {R : Type} (update : R -> R -> R).

Definition history (old : option R) (rows : list R) : option R :=
  fold_left (fun acc r => Some (match acc with Some old => update r old | None => r end)) rows old.

Lemma history_fold r rows :
  history None (r :: rows) = Some (fold_left (fun old x => update x old) rows r).
Proof.
  unfold history. simpl. generalize r. clear r.
  induction rows as [|x rows IH]; intros r; simpl; [done|]. by rewrite IH.
Qed.

Lemma history_spec (spec : R -> list R -> R) r rows :
  spec r [] = r -> (forall rows x, spec r (rows ++ [x]) = update x (spec r rows))%list ->
  history None (r :: rows) = Some (spec r rows).
Proof.
  intros H0 HS. rewrite history_fold. f_equal.
  induction rows as [|x rows IH] using rev_ind; [done|].
  by rewrite fold_left_app, IH, HS.
Qed.
End history.

(** ** Ids *)
Section ids.
Context (sha256_hex : string -> string).

(** Two texts that the sixteen digits kept of the digest do not tell apart. *)
Definition collision16 (x y : string) : Prop :=
  x <> y /\ String.substring 0 16 (sha256_hex x) = String.substring 0 16 (sha256_hex y).

Lemma same_or_collision16 x y :
  String.substring 0 16 (sha256_hex x) = String.substring 0 16 (sha256_hex y) ->
  x = y \/ collision16 x y.
Proof. destruct (decide (x = y)); [by left | by right]. Qed.

Lemma cons_tail (a : ascii) (s t : string) : String a s = String a t -> s = t.
Proof. by intros [= ->]. Qed.

(** A manifest id identifies the prefix, the model and the hashes it was made of, when none
    of them has the separator in it. *)
Theorem manifest_id_identifies p b m t c v p' b' m' t' c' v' :
  Forall (lacks "|") [p; b; m; t; c; v] -> Forall (lacks "|") [p'; b'; m'; t'; c'; v'] ->
  manifest_id_for sha256_hex p b m t c v = manifest_id_for sha256_hex p' b' m' t' c' v' ->
  [p; b; m; t; c; v] = [p'; b'; m'; t'; c'; v']
  \/ collision16 (manifest_payload p b m t c v) (manifest_payload p' b' m' t' c' v').
Proof.
  intros H H' Hid. unfold manifest_id_for in Hid. repeat apply cons_tail in Hid.
  apply same_or_collision16 in Hid as [Hid | Hc]; [left | by right].
  unfold manifest_payload in Hid.
  apply (f_equal (split_on "|")) in Hid.
  by rewrite !split_on_join_words in Hid.
Qed.

(** Without that proviso two different models share a manifest id, whatever the digest. *)
Theorem manifest_ids_can_meet :
  manifest_id_for sha256_hex "p" "mlx" "a|b" "" "" "1" = manifest_id_for sha256_hex "p" "mlx|a" "b" "" "" "1".
Proof. done. Qed.

Lemma artifact_id_identifies m m' :
  artifact_id_for sha256_hex m = artifact_id_for sha256_hex m' ->
  m = m' \/ collision16 (m +:+ "|1") (m' +:+ "|1").
Proof.
  unfold artifact_id_for. intros Hid. repeat apply cons_tail in Hid.
  apply same_or_collision16 in Hid as [Hid | Hc]; [left | by right].
  by apply string_app_inv_tail in Hid.
Qed.

Lemma material_id_identifies a a' :
  material_id_for sha256_hex a = material_id_for sha256_hex a' ->
  a = a' \/ collision16 (a +:+ "|1") (a' +:+ "|1").
Proof.
  unfold material_id_for. intros Hid. repeat apply cons_tail in Hid.
  apply same_or_collision16 in Hid as [Hid | Hc]; [left | by right].
  by apply string_app_inv_tail in Hid.
Qed.
End ids.

(** ** The artifact registry *)

(** Every artifact is filed under its id, once. *)
Definition registry_ok (reg : SnapshotArtifactRegistry) : Prop :=
  NoDup (dkeys reg) /\ forall k a, dget k reg = Some a -> sa_artifact_id a = k.

Lemma register_get now a k reg :
  dget k (register_artifact now a reg)
  = if decide (k = sa_artifact_id a)
    then Some (match dget k reg with Some e => reregister now a e | None => a end)
    else dget k reg.
Proof.
  unfold register_artifact. destruct (dget (sa_artifact_id a) reg) eqn:E; rewrite dget_dset;
    case_decide; subst; try done; by rewrite E.
Qed.

Lemma register_ok now a reg : registry_ok reg -> registry_ok (register_artifact now a reg).
Proof.
  intros [Hnd Hid]. split.
  - unfold register_artifact. destruct (dget _ reg); auto with whoosh.
  - intros k x. rewrite register_get. case_decide as Hk; [|apply Hid].
    destruct (dget k reg) eqn:E; intros [= <-]; simpl; [by apply Hid in E | done].
Qed.

(** The registrations of a history, each with its time. *)
Definition register_all (calls : list (string * SnapshotArtifact)) (reg : SnapshotArtifactRegistry)
    : SnapshotArtifactRegistry :=
  fold_left (fun reg c => register_artifact (fst c) (snd c) reg) calls reg.

(** The registrations of one id. *)
Definition calls_of (k : string) (calls : list (string * SnapshotArtifact)) : list (string * SnapshotArtifact) :=
  List.filter (fun c => bool_decide (sa_artifact_id (snd c) = k)) calls.

(** What [first] and the registrations [rest] after it leave. *)
Definition registered_artifact (first : SnapshotArtifact) (rest : list (string * SnapshotArtifact))
    : SnapshotArtifact :=
  fold_left (fun e c => reregister (fst c) (snd c) e) rest first.

Lemma register_all_get k calls reg :
  dget k (register_all calls reg)
  = match dget k reg with
    | Some e => Some (registered_artifact e (calls_of k calls))
    | None => match calls_of k calls with
              | [] => None
              | c :: rest => Some (registered_artifact (snd c) rest)
              end
    end.
Proof.
  revert reg. induction calls as [|c calls IH]; intros reg; [simpl; by destruct (dget k reg)|].
  change (register_all (c :: calls) reg) with (register_all calls (register_artifact (fst c) (snd c) reg)).
  rewrite IH, register_get. unfold calls_of at 3 4. cbn [List.filter]. fold (calls_of k calls).
  case_decide as Hk.
  - rewrite bool_decide_eq_true_2 by done. by destruct (dget k reg).
  - rewrite bool_decide_eq_false_2 by done. by destruct (dget k reg).
Qed.

Lemma registered_fields first rest :
  let a := registered_artifact first rest in
  sa_artifact_id a = sa_artifact_id first /\ sa_manifest_id a = sa_manifest_id first
  /\ sa_backend a = sa_backend first /\ sa_model_id a = sa_model_id first
  /\ sa_created_at a = sa_created_at first
  /\ sa_build_attempts a = (sa_build_attempts first + Z.of_nat (length rest))%Z
  /\ sa_status a = List.last (map (fun c => sa_status (snd c)) rest) (sa_status first).
Proof.
  induction rest as [|c rest IH] using rev_ind; [simpl; rewrite Z.add_0_r; auto 10|].
  unfold registered_artifact in *. rewrite fold_left_app, length_app, map_app. cbn [map]. rewrite last_last.
  simpl in *. destruct IH as (-> & -> & -> & -> & -> & -> & _). repeat split. lia.
Qed.

(** The registry holds one artifact per registered id: the identity and the creation time are
    those of the first registration, the status that of the last, and every registration
    after the first counts as a build attempt. *)
Theorem registry_is_its_history calls k :
  match calls_of k calls with
  | [] => get_artifact k (register_all calls []) = None
  | first :: rest =>
      exists a, get_artifact k (register_all calls []) = Some a
        /\ sa_artifact_id a = k
        /\ sa_manifest_id a = sa_manifest_id (snd first) /\ sa_created_at a = sa_created_at (snd first)
        /\ sa_status a = List.last (map (fun c => sa_status (snd c)) rest) (sa_status (snd first))
        /\ sa_build_attempts a = (sa_build_attempts (snd first) + Z.of_nat (length rest))%Z
  end.
Proof.
  unfold get_artifact. rewrite register_all_get. cbn [dget].
  destruct (calls_of k calls) as [|first rest] eqn:E; [done|].
  eexists. split; [done|].
  destruct (registered_fields (snd first) rest) as (-> & -> & _ & _ & -> & -> & ->).
  split; [|auto]. assert (Hin : first ∈ calls_of k calls) by (rewrite E; left).
  apply elem_of_filter_List in Hin as [_ Hk]. by apply bool_decide_eq_true in Hk.
Qed.

Lemma register_all_ok calls reg : registry_ok reg -> registry_ok (register_all calls reg).
Proof. revert reg. induction calls as [|c calls IH]; intros reg H; [done|]. apply IH, register_ok, H. Qed.

(** *** Its statistics *)

Definition status_count (s : string) (items : list SnapshotArtifact) : Z :=
  countb (fun a => String.eqb (sa_status a) s) items.

Lemma count_status_fold items t p bp bf r su ex :
  fold_left count_status items (mkRegistryStats t p bp bf r su ex)
  = mkRegistryStats t (p + status_count "planned" items) (bp + status_count "build_pending" items)
      (bf + status_count "build_failed" items) (r + status_count "ready" items)
      (su + status_count "superseded" items) (ex + status_count "expired" items).
Proof.
  revert p bp bf r su ex. induction items as [|a items IH]; intros p bp bf r su ex.
  - unfold status_count, countb. simpl. f_equal; lia.
  - cbn [fold_left]. unfold status_count in *. rewrite !countb_cons. unfold count_status at 2.
    do 6 (match goal with |- context [if String.eqb (sa_status a) ?x then _ else _] =>
            destruct (String.eqb_spec (sa_status a) x) as [E|] end;
          [rewrite ?E; simpl; rewrite IH; f_equal; lia|]).
    simpl. rewrite IH. f_equal; lia.
Qed.

Lemma artifact_stats_counts reg :
  artifact_stats reg
  = mkRegistryStats (Z.of_nat (length reg)) (status_count "planned" (dvalues reg))
      (status_count "build_pending" (dvalues reg)) (status_count "build_failed" (dvalues reg))
      (status_count "ready" (dvalues reg)) (status_count "superseded" (dvalues reg))
      (status_count "expired" (dvalues reg)).
Proof.
  unfold artifact_stats. rewrite count_status_fold. unfold dvalues. rewrite length_fmap. f_equal; lia.
Qed.

(** Every artifact the broker makes has one of the documented statuses. *)
Definition artifact_statuses : list string :=
  map SnapshotArtifactStatus_value
    [ARTIFACT_PLANNED; BUILD_PENDING; BUILD_FAILED; ARTIFACT_READY; ARTIFACT_SUPERSEDED; ARTIFACT_EXPIRED].

(** The categories add up to the total as long as the statuses are the documented ones. *)
Theorem artifact_categories_add_up reg :
  (forall k a, dget k reg = Some a -> sa_status a ∈ artifact_statuses) -> NoDup (dkeys reg) ->
  let s := artifact_stats reg in
  (rs_planned s + rs_build_pending s + rs_build_failed s + rs_ready s + rs_superseded s + rs_expired s
   = rs_total s)%Z.
Proof.
  intros Hs Hnd. rewrite artifact_stats_counts. cbn -[status_count].
  assert (Hall : Forall (fun a => sa_status a ∈ artifact_statuses) (dvalues reg)).
  { apply Forall_forall. intros a Ha. apply list_elem_of_fmap in Ha as ((k & a') & -> & Hin).
    apply (Hs k). by apply elem_dget. }
  clear Hs Hnd. unfold dvalues in *. rewrite <- (length_fmap snd reg).
  induction Hall as [|a items Ha _ IH]; [done|].
  unfold status_count in *. rewrite !countb_cons. cbn [length].
  unfold artifact_statuses in Ha. simpl in Ha.
  repeat (apply elem_of_cons in Ha as [-> | Ha]; [simpl; lia|]). by apply elem_of_nil in Ha.
Qed.

(** ** The validator *)

Definition nonempty (o : option string) : Prop := exists s, o = Some s /\ s <> "".

Lemma str_truthy_nonempty o : str_truthy o = true <-> nonempty o.
Proof.
  unfold nonempty. destruct o as [s|]; simpl; [|split; [done | by intros (? & ? & _)]].
  destruct (String.eqb_spec s ""); simpl; split; naive_solver.
Qed.

Lemma missing_fields_nil m :
  missing_fields m = [] <-> Forall (fun f => nonempty (snd f)) (required_fields m).
Proof.
  unfold missing_fields. induction (required_fields m) as [|f fs IH]; [done|]. simpl.
  rewrite Forall_cons, <- IH, <- str_truthy_nonempty. destruct (str_truthy (snd f)); simpl; naive_solver.
Qed.

(** The metadata the validator accepts: every identifying field is there, kind and status are
    documented, a materialized material has its checksum and size, no material claims to be
    validated already, and the backend is a supported one. *)
Record well_formed_material (m : SnapshotMaterialContract) : Prop := {
  wf_required : Forall (fun f => nonempty (snd f)) (required_fields m);
  wf_kind : mt_material_kind m ∈ material_kinds;
  wf_status : mt_material_status m ∈ material_statuses;
  wf_materialized : mt_material_status m = "materialized" ->
    nonempty (mt_checksum m) /\ exists n, mt_byte_size m = Some n /\ (0 < n)%Z;
  wf_not_validated : mt_material_status m <> "validated";
  wf_backend : exists b, mt_backend m = Some b /\ b ∈ SUPPORTED_BACKENDS;
}.

Lemma no_byte_size_false m : no_byte_size m = false <-> exists n, mt_byte_size m = Some n /\ (0 < n)%Z.
Proof.
  unfold no_byte_size. destruct (mt_byte_size m) as [n|]; [|split; [done | by intros (? & ? & _)]].
  rewrite Z.leb_gt. naive_solver.
Qed.

Lemma required_backend m : Forall (fun f => nonempty (snd f)) (required_fields m) -> nonempty (mt_backend m).
Proof. rewrite Forall_forall. intros H. apply (H ("backend", mt_backend m)). simpl. set_solver. Qed.

Lemma validation_failure_none m : validation_failure (Some m) = None <-> well_formed_material m.
Proof.
  unfold validation_failure. destruct (missing_fields m) as [|e errs] eqn:Em.
  - apply missing_fields_nil in Em. pose proof (required_backend m Em) as (b & Hb & Hne).
    rewrite Hb. cbn [str_truthy default]. rewrite (proj2 (String.eqb_neq b "") Hne). cbn [negb andb].
    pose proof (str_truthy_nonempty (mt_checksum m)) as Hc. pose proof (no_byte_size_false m) as Hn.
    split.
    + intros Hv. repeat (case_match; try done). reflect_tests.
      repeat match goal with H : bool_decide _ = true |- _ => apply bool_decide_eq_true in H end.
      split; try done; [| by apply String.eqb_neq | by exists b].
      intros Hst. rewrite Hst in *. simpl in *.
      split; [apply Hc; by apply negb_false_iff | by apply Hn].
    + intros [_ Hk Hs Hm Hv (b' & Hb' & Hin)]. rewrite Hb in Hb'. injection Hb' as <-.
      rewrite (bool_decide_eq_true_2 _ Hk), (bool_decide_eq_true_2 _ Hs), (bool_decide_eq_true_2 _ Hin).
      cbn [negb].
      destruct (String.eqb_spec (mt_material_status m) (SnapshotMaterialStatus_value MATERIALIZED)) as [E|];
        destruct (String.eqb_spec (mt_material_status m) (SnapshotMaterialStatus_value VALIDATED)); try done.
      destruct (Hm E) as [H1%Hc H2%Hn]. by rewrite H1, H2.
  - split; [done|]. intros [Hr _ _ _ _ _]. apply missing_fields_nil in Hr. congruence.
Qed.

(** The verdict is the declarative one, a failure names no material, and the counters of a
    validator add up over every sequence of validations. *)
Theorem validator_verdict now m st :
  let (r, st') := validate now (Some m) st in
  (vr_valid r = true <-> well_formed_material m)
  /\ (vr_valid r = true -> vr_material_id r = Some (mt_material_id m) /\ vr_reason r = "valid_metadata_only")
  /\ (vr_valid r = false -> vr_material_id r = None /\ vr_reason r <> "valid_metadata_only").
Proof.
  unfold validate. pose proof (validation_failure_none m) as Hv.
  destruct (validation_failure (Some m)) as [[reason errs]|] eqn:E; simpl.
  - split; [split; [done | intros H%Hv; done]|]. split; [done|]. intros _. split; [done|].
    intros ->. revert E. unfold validation_failure.
    destruct (missing_fields m) as [|e es] eqn:Em; [repeat (case_match; try done)|].
    intros [= ->]. unfold missing_fields in Em.
    destruct (List.filter _ (required_fields m)) as [|f fs]; [done|]. by injection Em as Hf _.
  - split; [split; [intros _; by apply Hv | done]|]. done.
Qed.

Lemma validate_counts now m st :
  let st' := snd (validate now m st) in
  vs_validations_total st' = (vs_validations_total st + 1)%Z
  /\ (vs_valid_total st' + vs_invalid_total st' = vs_valid_total st + vs_invalid_total st + 1)%Z.
Proof. unfold validate. destruct (validation_failure m) as [[]|]; simpl; lia. Qed.

Theorem validations_add_up now ms :
  let (rs, st) := validate_many now ms new_validator in
  (vs_valid_total st + vs_invalid_total st = vs_validations_total st
   /\ vs_validations_total st = Z.of_nat (length ms) /\ vs_valid_total st = countb vr_valid rs)%Z.
Proof.
  assert (H : forall st, let (rs, st') := validate_many now ms st in
    (vs_valid_total st' + vs_invalid_total st'
     = vs_valid_total st + vs_invalid_total st + Z.of_nat (length ms)
     /\ vs_validations_total st' = vs_validations_total st + Z.of_nat (length ms)
     /\ vs_valid_total st' = vs_valid_total st + countb vr_valid rs)%Z).
  { induction ms as [|m ms IH]; intros st; simpl; [unfold countb; simpl; lia|].
    unfold validate. destruct (validation_failure m) as [[reason errs]|]; simpl;
      match goal with |- context [validate_many now ms ?s] => specialize (IH s); destruct (validate_many now ms s) end;
      rewrite countb_cons; simpl in *; lia. }
  specialize (H new_validator). destruct (validate_many _ _ _). simpl in H. lia.
Qed.

(** What the broker itself declares: nothing but the four identifying fields and the backend
    of the candidate decides whether it is valid. *)
Theorem declared_material_verdict sha now now' record eligibility manifest :
  build_from_replay_record sha now record eligibility = Some manifest ->
  let material := declare_from_artifact sha now' (build_from_manifest sha now' manifest) (Some manifest) in
  well_formed_material material
  <-> cr_prefix_hash record <> "" /\ nonempty (cr_model_id record)
      /\ nonempty (cr_tokenizer_hash record) /\ nonempty (cr_chat_template_hash record)
      /\ exists b, cr_backend record = Some b /\ b ∈ SUPPORTED_BACKENDS.
Proof.
  unfold build_from_replay_record. destruct (el_eligible eligibility); [|done]. intros [= <-].
  cbn [negb]. set (mid := manifest_id_for _ _ _ _ _ _ _).
  set (material := declare_from_artifact _ _ _ _).
  assert (Hpre : str_or (cr_prefix_hash record) (cr_prefix_hash record) = cr_prefix_hash record)
    by (unfold str_or; by destruct (String.eqb _ "")).
  assert (Hver : forall x, str_or x "1" <> "") by (intros x; unfold str_or; by destruct (String.eqb_spec x "")).
  assert (Hnon : forall s, nonempty (Some s) <-> s <> "") by (intros s; unfold nonempty; naive_solver).
  split.
  - intros [Hr _ _ _ _ Hb]. unfold material, required_fields in Hr. simpl in Hr. rewrite Hpre in Hr.
    rewrite !Forall_cons in Hr. cbn [snd] in Hr. rewrite !Hnon in Hr. tauto.
  - intros (Hp & Hm & Ht & Hc & Hb). split; try done; try (apply list_elem_of_In; simpl; auto 10).
    unfold material, required_fields. simpl. rewrite Hpre, !Forall_cons. cbn [snd]. rewrite !Hnon.
    destruct Hb as (b & Hb & Hin). repeat split; try done. exists b. split; [done|].
    intros ->. apply list_elem_of_In in Hin. simpl in Hin. naive_solver.
Qed.

(** ** Creation *)

(** The creator's attempts are its skipped ones; the other counters stay. *)
Lemma creation_outcome now a m c :
  let (r, c') := create_from_artifact now a m c in
  cn_created r = false /\ cn_snapshot_ref_hash r = None
  /\ cn_status r = (if sc_enabled c then "skipped" else "disabled")
  /\ c' = mkCreator (sc_enabled c) (sc_attempts c + 1) (sc_created c) (sc_skipped c + 1) (sc_failed c)
            (Some (cn_reason r)).
Proof.
  unfold create_from_artifact. cbn [attempt sc_enabled]. destruct (sc_enabled c) eqn:E; cbn [negb].
  - destruct a as [a|]; [destruct (String.eqb _ _)|]; unfold skip; cbn; rewrite ?E; done.
  - unfold skip; cbn; rewrite ?E; done.
Qed.

(** Nothing creates a snapshot: whatever the artifacts, every attempt of a production creator
    is skipped, and [can_create] says so beforehand. *)
Theorem production_never_creates enabled now calls :
  let c := fold_left (fun c p => snd (create_from_artifact now (fst p) (snd p) c)) calls (new_creator enabled) in
  sc_attempts c = Z.of_nat (length calls) /\ sc_skipped c = sc_attempts c
  /\ sc_created c = 0%Z /\ sc_failed c = 0%Z
  /\ forall a m, can_create a c = cn_created (fst (create_from_artifact now a m c)).
Proof.
  assert (H : forall c0, let c := fold_left (fun c p => snd (create_from_artifact now (fst p) (snd p) c)) calls c0 in
    (sc_attempts c = sc_attempts c0 + Z.of_nat (length calls)
     /\ sc_skipped c = sc_skipped c0 + Z.of_nat (length calls)
     /\ sc_created c = sc_created c0 /\ sc_failed c = sc_failed c0)%Z).
  { induction calls as [|[a m] calls IH]; intros c0; cbn [fold_left length]; [lia|].
    specialize (IH (snd (create_from_artifact now a m c0))). cbn [fst snd] in *.
    pose proof (creation_outcome now a m c0) as Ho. destruct (create_from_artifact now a m c0) as [r c1].
    destruct Ho as (_ & _ & _ & ->). cbn in *. lia. }
  specialize (H (new_creator enabled)). cbn in *. split; [lia|]. split; [lia|]. split; [lia|]. split; [lia|].
  intros a m. set (c := fold_left _ _ _). pose proof (creation_outcome now a m c) as Ho.
  revert Ho. destruct (create_from_artifact now a m c) as [r c1]. cbn [fst]. intros (-> & _).
  unfold can_create. destruct (sc_enabled c); [by destruct a | done].
Qed.

(** The creator of the tests makes a record exactly when [fake_can_create] says it can, under
    the ids of its artifact. *)
Theorem fake_creates_when_it_can sha now a m c :
  let (r, c') := fake_create_from_artifact sha now a m c in
  cn_created r = fake_can_create a c
  /\ (cn_created r = true -> cn_artifact_id r = sa_artifact_id <$> a /\ cn_manifest_id r = sa_manifest_id <$> a)
  /\ (sc_created c' + sc_skipped c' = sc_created c + sc_skipped c + 1)%Z
  /\ sc_attempts c' = (sc_attempts c + 1)%Z.
Proof.
  unfold fake_create_from_artifact, fake_can_create. cbn [attempt sc_enabled].
  destruct (sc_enabled c); [destruct a|]; cbn; repeat split; try done; lia.
Qed.

(** ** Materializers *)

(** What the two shipped materializers say and do. *)
Definition shipped (m : SnapshotMaterializer) : Prop :=
  m = NoOpSnapshotMaterializer \/ m = MLXSnapshotMaterializer.

Definition materializer_step (reg reg' : MaterializerRegistry) : Prop :=
  (exists m, shipped m /\ reg' = register_materializer m reg)
  \/ exists b, reg' = unregister_materializer b reg.

Definition all_shipped (reg : MaterializerRegistry) : Prop :=
  NoDup (dkeys reg) /\ forall k m, dget k reg = Some m -> shipped m /\ mz_backend_name m = k.

Lemma shipped_registry reg : rtc materializer_step [] reg -> all_shipped reg.
Proof.
  apply (rtc_ind_r all_shipped []).
  - split; [constructor | done].
  - intros r1 r2 _ [(m & Hm & ->) | (b & ->)] [Hnd Hall].
    + split; [by apply dset_NoDup|]. intros k m'. unfold register_materializer. rewrite dget_dset.
      case_decide as Hk; [intros [= <-]; done | apply Hall].
    + split; [by apply ddel_NoDup|]. intros k m'. unfold unregister_materializer.
      rewrite dget_ddel by done. case_decide; [done | apply Hall].
Qed.

(** Whatever is registered and removed, no materializer claims to materialize, restore or
    reuse, and asking one to do so raises; a backend nobody registered gets the one that
    does nothing. *)
Theorem nothing_materializes reg backend now a m :
  rtc materializer_step [] reg ->
  let z := get_materializer backend reg in
  mz_can_materialize z = false
  /\ mc_supports_materialization (mz_capability z now) = false
  /\ mc_supports_restore (mz_capability z now) = false
  /\ mc_supports_reuse (mz_capability z now) = false
  /\ (exists msg, mz_materialize z a m = Raise (Exc "NotImplementedError" msg))
  /\ (backend ∉ list_materializers reg -> z = NoOpSnapshotMaterializer)
  /\ (backend ∈ list_materializers reg -> mz_backend_name z = backend).
Proof.
  intros H. apply shipped_registry in H as [Hnd Hall]. unfold get_materializer, dget_or, list_materializers.
  rewrite elem_of_stable_sort, dkeys_dget.
  destruct (dget backend reg) as [z|] eqn:E; cbn [default].
  - destruct (Hall _ _ E) as [Hz Hn]. destruct Hz as [-> | ->]; cbn; repeat split; eauto; intros []; eauto.
  - cbn. repeat split; eauto. intros []; done.
Qed.
