(* ===== verification/TWStore.v ===== *)
(** * The optional store of ThreadWake metadata ([runtime/threadwake/storage.py])

    The storage protocol is the class [ThreadWakeStorage]; its two implementations are
    instances: the one that stores nothing and the SQLite one.

    - A table is a dictionary from primary keys to rows; a row that has the columns of one of
      the records of [TWSnap] is that record.  Each SQL text is the function it denotes on
      the tables, with [NULL] as [None].
    - The connection is in the legacy transaction mode of [sqlite3]: a write opens a
      transaction, [commit] makes it durable, an unfinished transaction is visible to the
      connection and lost when the connection closes.  So the store holds what is on disk
      and, while it is connected, what its connection sees.
    - What a statement meets is an oracle, [env n] for the [n]-th statement: the time
      [datetime('now')] shows, and whether the statement or its commit fails, with or
      without the engine rolling the transaction back.  [tie] is the order in which the
      engine happens to visit the rows a query selects, before its [ORDER BY].
    - The lock makes every operation one atomic step. *)

From S2P Require Import Prelude PyDict PyStr PySeq TWIndex TWTokens TWProof TWSnap.
Open Scope string_scope.

(** ** The rows *)

(** The object [upsert_candidate] reads. *)
Record CandidateEntry := mkCandidateEntry {
  ce_prompt_prefix_hash : string;
  ce_backend : option string;
  ce_model_id : option string;
  ce_tokenizer_hash : option string;
  ce_chat_template_hash : option string;
  ce_candidate_score : option Q;
  ce_candidate_confidence : option string;
  ce_potential_saved_tokens : option Z;
  ce_potential_saved_ratio : option Q;
  ce_selection_reason : option string;
}.

(** [threadwake_candidates] *)
Record CandidateRecord := mkCandidateRecord {
  ct_prefix_hash : string;
  ct_backend : string;
  ct_model_id : string;
  ct_tokenizer_hash : option string;
  ct_chat_template_hash : option string;
  ct_candidate_score : option Q;
  ct_candidate_confidence : option string;
  ct_potential_saved_tokens : option Z;
  ct_potential_saved_ratio : option Q;
  ct_candidate_seen_count : Z;
  ct_first_seen_at : string;
  ct_last_seen_at : string;
  ct_selection_reason : option string;
}.

(** [threadwake_snapshot_materials]: the contract with its errors as one text. *)
Record MaterialRow := mkMaterialRow {
  mr_material_id : string;
  mr_artifact_id : string;
  mr_manifest_id : string;
  mr_prefix_hash : string;
  mr_backend : option string;
  mr_model_id : option string;
  mr_tokenizer_hash : option string;
  mr_chat_template_hash : option string;
  mr_material_kind : string;
  mr_material_status : string;
  mr_material_version : string;
  mr_policy_version : string;
  mr_checksum : option string;
  mr_byte_size : option Z;
  mr_token_count : option Z;
  mr_format_name : option string;
  mr_format_version : option string;
  mr_validation_errors : string;
  mr_created_at : string;
  mr_updated_at : string;
}.

(** [threadwake_snapshot_material_validation_events] *)
Record ValidationRow := mkValidationRow {
  vw_event_id : string;
  vw_material_id : option string;
  vw_valid : Z;
  vw_reason : string;
  vw_material_kind : option string;
  vw_material_status : option string;
  vw_errors : string;
  vw_checked_at : string;
}.

(** The tables the operations use. *)
Record Tables := mkTables {
  tb_candidates : list (string * CandidateRecord);
  tb_manifests : list (string * SnapshotManifest);
  tb_artifacts : list (string * SnapshotArtifact);
  tb_materials : list (string * MaterialRow);
  tb_validations : list (string * ValidationRow);
}.

Definition empty_tables : Tables := mkTables [] [] [] [] [].

(** ** The SQL statements *)

(** [INSERT ... ON CONFLICT(key) DO UPDATE SET ...]: [update excluded old] is the updated row. *)
Definition upsert {R} (key : string) (excluded : R) (update : R -> R -> R) (t : list (string * R))
    : list (string * R) :=
  match dget key t with
  | Some old => dset key (update excluded old) t
  | None => dset key excluded t
  end.

Definition candidate_row (now : string) (e : CandidateEntry) : CandidateRecord :=
  mkCandidateRecord (ce_prompt_prefix_hash e) (default "" (ce_backend e)) (default "" (ce_model_id e))
    (ce_tokenizer_hash e) (ce_chat_template_hash e) (ce_candidate_score e) (ce_candidate_confidence e)
    (ce_potential_saved_tokens e) (ce_potential_saved_ratio e) 1 now now (ce_selection_reason e).

Definition candidate_update (now : string) (excluded old : CandidateRecord) : CandidateRecord :=
  mkCandidateRecord (ct_prefix_hash old) (ct_backend old) (ct_model_id old) (ct_tokenizer_hash old)
    (ct_chat_template_hash old) (ct_candidate_score excluded) (ct_candidate_confidence excluded)
    (ct_potential_saved_tokens excluded) (ct_potential_saved_ratio excluded)
    (ct_candidate_seen_count old + 1) (ct_first_seen_at old) now (ct_selection_reason excluded).

Definition manifest_update (excluded old : SnapshotManifest) : SnapshotManifest :=
  mkManifest (sm_manifest_id old) (sm_prefix_hash old) (sm_backend old) (sm_model_id old)
    (sm_tokenizer_hash old) (sm_chat_template_hash old) (sm_candidate_score excluded)
    (sm_candidate_confidence excluded) (sm_seen_count excluded)
    (sm_potential_saved_tokens_total excluded) (sm_average_potential_saved_ratio excluded)
    (sm_eligibility_reason excluded) (sm_policy_version excluded) (sm_created_at old)
    (sm_last_seen_at excluded) (sm_status excluded).

(** [COALESCE(excluded.notes, notes)] *)
Definition coalesce {A} (x y : option A) : option A := match x with Some _ => x | None => y end.

Definition artifact_update (excluded old : SnapshotArtifact) : SnapshotArtifact :=
  mkArtifact (sa_artifact_id old) (sa_manifest_id old) (sa_prefix_hash old) (sa_backend old)
    (sa_model_id old) (sa_tokenizer_hash old) (sa_chat_template_hash old) (sa_status excluded)
    (sa_policy_version old) (sa_artifact_version old) (sa_build_attempts old + 1)
    (coalesce (sa_notes excluded) (sa_notes old)) (sa_created_at old) (sa_updated_at excluded)
    (sa_last_seen_at excluded).

Definition material_row (m : SnapshotMaterialContract) : MaterialRow :=
  mkMaterialRow (mt_material_id m) (mt_artifact_id m) (mt_manifest_id m) (mt_prefix_hash m) (mt_backend m)
    (mt_model_id m) (mt_tokenizer_hash m) (mt_chat_template_hash m) (mt_material_kind m)
    (mt_material_status m) (mt_material_version m) (mt_policy_version m) (mt_checksum m)
    (mt_byte_size m) (mt_token_count m) (mt_format_name m) (mt_format_version m)
    (join "," (mt_validation_errors m)) (mt_created_at m) (mt_updated_at m).

Definition material_update (excluded old : MaterialRow) : MaterialRow :=
  mkMaterialRow (mr_material_id old) (mr_artifact_id old) (mr_manifest_id old) (mr_prefix_hash old)
    (mr_backend old) (mr_model_id old) (mr_tokenizer_hash old) (mr_chat_template_hash old)
    (mr_material_kind excluded) (mr_material_status excluded) (mr_material_version old)
    (mr_policy_version old) (mr_checksum excluded) (mr_byte_size excluded) (mr_token_count excluded)
    (mr_format_name old) (mr_format_version old) (mr_validation_errors excluded) (mr_created_at old)
    (mr_updated_at excluded).

Definition validation_row (event_id : string) (r : SnapshotMaterialValidationResult) : ValidationRow :=
  mkValidationRow event_id (vr_material_id r) (if vr_valid r then 1 else 0) (vr_reason r)
    (vr_material_kind r) (vr_material_status r) (join "," (vr_errors r)) (vr_checked_at r).

(** What the writes insert; [event_id] is the generated id of a validation event. *)
Inductive store_write :=
| WCandidate (entry : CandidateEntry)
| WManifest (manifest : SnapshotManifest)
| WArtifact (artifact : SnapshotArtifact)
| WMaterial (material : SnapshotMaterialContract)
| WValidation (event_id : string) (result : SnapshotMaterialValidationResult).

(** The execution of a write's statement; [None] is a violated constraint. *)
Definition sql_write (now : string) (w : store_write) (t : Tables) : option Tables :=
  match t with mkTables cs ms ars mts vs =>
  match w with
  | WCandidate e =>
      Some (mkTables (upsert (ce_prompt_prefix_hash e) (candidate_row now e) (candidate_update now) cs)
              ms ars mts vs)
  | WManifest m => Some (mkTables cs (upsert (sm_manifest_id m) m manifest_update ms) ars mts vs)
  | WArtifact a => Some (mkTables cs ms (upsert (sa_artifact_id a) a artifact_update ars) mts vs)
  | WMaterial m =>
      Some (mkTables cs ms ars (upsert (mt_material_id m) (material_row m) material_update mts) vs)
  | WValidation k r =>
      match dget k vs with
      | Some _ => None
      | None => Some (mkTables cs ms ars mts (dset k (validation_row k r) vs))
      end
  end end.

(** [if not <id>: return] *)
Definition has_key (w : store_write) : bool :=
  match w with
  | WCandidate e => negb (String.eqb (ce_prompt_prefix_hash e) "")
  | WManifest m => negb (String.eqb (sm_manifest_id m) "")
  | WArtifact a => negb (String.eqb (sa_artifact_id a) "")
  | WMaterial m => negb (String.eqb (mt_material_id m) "")
  | WValidation _ _ => true
  end.

(** Only the candidate upsert counts in [_upserts_total]. *)
Definition counts_upsert (w : store_write) : bool :=
  match w with WCandidate _ => true | _ => false end.

(** *** Queries *)

(** Comparison of nullable columns: [NULL] sorts below every value. *)
Definition null_compare {A} (cmp : A -> A -> comparison) (x y : option A) : comparison :=
  match x, y with
  | None, None => Eq
  | None, Some _ => Lt
  | Some _, None => Gt
  | Some a, Some b => cmp a b
  end.

Definition then_by (c d : comparison) : comparison := match c with Eq => d | _ => c end.

(** [DESC]: [a] may stand before [b]. *)
Definition desc (c : comparison) : bool := match c with Lt => false | _ => true end.

(** [ORDER BY candidate_score DESC, candidate_seen_count DESC, last_seen_at DESC] *)
Definition candidate_before (a b : CandidateRecord) : bool :=
  desc (then_by (null_compare Qcompare (ct_candidate_score a) (ct_candidate_score b))
          (then_by (Z.compare (ct_candidate_seen_count a) (ct_candidate_seen_count b))
             (String.compare (ct_last_seen_at a) (ct_last_seen_at b)))).

(** [ORDER BY created_at DESC] *)
Definition created_before {R} (created_at : R -> string) (a b : R) : bool :=
  desc (String.compare (created_at a) (created_at b)).

(** [AND column = ?], added when the argument is truthy; a [NULL] column equals nothing. *)
Definition column_is (arg column : option string) : bool :=
  if str_truthy arg then match column with Some _ => bool_decide (column = arg) | None => false end
  else true.

Definition candidate_dict (r : CandidateRecord) : list (string * pyval) :=
  [("prefix_hash", PStr (ct_prefix_hash r)); ("backend", PStr (ct_backend r));
   ("model_id", PStr (ct_model_id r)); ("tokenizer_hash", opt_str (ct_tokenizer_hash r));
   ("chat_template_hash", opt_str (ct_chat_template_hash r));
   ("candidate_score", opt_float (ct_candidate_score r));
   ("candidate_confidence", opt_str (ct_candidate_confidence r));
   ("potential_saved_tokens", opt_int (ct_potential_saved_tokens r));
   ("potential_saved_ratio", opt_float (ct_potential_saved_ratio r));
   ("candidate_seen_count", PInt (ct_candidate_seen_count r));
   ("first_seen_at", PStr (ct_first_seen_at r)); ("last_seen_at", PStr (ct_last_seen_at r));
   ("selection_reason", opt_str (ct_selection_reason r))].

Definition manifest_dict (m : SnapshotManifest) : list (string * pyval) :=
  [("manifest_id", PStr (sm_manifest_id m)); ("prefix_hash", PStr (sm_prefix_hash m));
   ("backend", opt_str (sm_backend m)); ("model_id", opt_str (sm_model_id m));
   ("tokenizer_hash", opt_str (sm_tokenizer_hash m));
   ("chat_template_hash", opt_str (sm_chat_template_hash m));
   ("candidate_score", PFloat (sm_candidate_score m));
   ("candidate_confidence", opt_str (sm_candidate_confidence m));
   ("seen_count", PInt (sm_seen_count m));
   ("potential_saved_tokens_total", PInt (sm_potential_saved_tokens_total m));
   ("average_potential_saved_ratio", PFloat (sm_average_potential_saved_ratio m));
   ("eligibility_reason", PStr (sm_eligibility_reason m));
   ("policy_version", PStr (sm_policy_version m)); ("status", PStr (sm_status m));
   ("created_at", PStr (sm_created_at m)); ("last_seen_at", opt_str (sm_last_seen_at m))].

Definition material_dict (m : MaterialRow) : list (string * pyval) :=
  [("material_id", PStr (mr_material_id m)); ("artifact_id", PStr (mr_artifact_id m));
   ("manifest_id", PStr (mr_manifest_id m)); ("prefix_hash", PStr (mr_prefix_hash m));
   ("backend", opt_str (mr_backend m)); ("model_id", opt_str (mr_model_id m));
   ("tokenizer_hash", opt_str (mr_tokenizer_hash m));
   ("chat_template_hash", opt_str (mr_chat_template_hash m));
   ("material_kind", PStr (mr_material_kind m)); ("material_status", PStr (mr_material_status m));
   ("material_version", PStr (mr_material_version m)); ("policy_version", PStr (mr_policy_version m));
   ("checksum", opt_str (mr_checksum m)); ("byte_size", opt_int (mr_byte_size m));
   ("token_count", opt_int (mr_token_count m)); ("format_name", opt_str (mr_format_name m));
   ("format_version", opt_str (mr_format_version m));
   ("validation_errors", PStr (mr_validation_errors m));
   ("created_at", PStr (mr_created_at m)); ("updated_at", PStr (mr_updated_at m))].

(** [SUM(CASE WHEN p THEN 1 ELSE 0 END)]: over no row the sum is [NULL]. *)
Definition sum_case {R} (p : R -> bool) (rows : list R) : pyval :=
  match rows with [] => PNone | _ => PInt (countb p rows) end.

(** [COALESCE(AVG(candidate_score), 0.0)]: [AVG] passes over [NULL]. *)
Definition avg_score (rows : list CandidateRecord) : Q :=
  let scores := omap ct_candidate_score rows in
  match scores with
  | [] => 0
  | _ => (sumQ scores / inject_Z (Z.of_nat (length scores)))%Q
  end.

Definition candidate_stats_of (t : Tables) : list (string * pyval) :=
  let rows := dvalues (tb_candidates t) in
  let conf c := sum_case (fun r => bool_decide (ct_candidate_confidence r = Some c)) rows in
  [("total_candidates", PInt (Z.of_nat (length rows))); ("high_confidence", conf "high");
   ("medium_confidence", conf "medium"); ("low_confidence", conf "low");
   ("candidate_seen_total", PInt (sumZ (map ct_candidate_seen_count rows)));
   ("potential_saved_tokens_total", PInt (sumZ (omap ct_potential_saved_tokens rows)));
   ("average_candidate_score", PFloat (py_round 4 (avg_score rows)))].

Definition manifest_stats_of (t : Tables) : list (string * pyval) :=
  let rows := dvalues (tb_manifests t) in
  let with_status s := sum_case (fun m => String.eqb (sm_status m) s) rows in
  [("total_manifests", PInt (Z.of_nat (length rows))); ("planned", with_status "planned");
   ("superseded", with_status "superseded"); ("expired", with_status "expired");
   ("rejected", with_status "rejected")].

Definition artifact_stats_of (t : Tables) : list (string * pyval) :=
  let rows := dvalues (tb_artifacts t) in
  let with_status s := sum_case (fun a => String.eqb (sa_status a) s) rows in
  [("total_artifacts", PInt (Z.of_nat (length rows))); ("planned", with_status "planned");
   ("build_pending", with_status "build_pending"); ("build_failed", with_status "build_failed");
   ("ready", with_status "ready"); ("superseded", with_status "superseded");
   ("expired", with_status "expired")].

Definition material_stats_of (t : Tables) : list (string * pyval) :=
  let rows := dvalues (tb_materials t) in
  let with_status s := sum_case (fun m => String.eqb (mr_material_status m) s) rows in
  [("total_materials", PInt (Z.of_nat (length rows))); ("declared", with_status "declared");
   ("materialized", with_status "materialized"); ("validated", with_status "validated");
   ("invalid", with_status "invalid"); ("unsupported", with_status "unsupported");
   ("expired", with_status "expired")].

(** ** The protocol *)

(** [limit], the status or confidence to look for, and the backend. *)
Class ThreadWakeStorage (S : Type) := {
  st_upsert_candidate : CandidateEntry -> S -> S;
  st_list_candidates : Z -> option string -> option string -> S -> list (list (string * pyval)) * S;
  st_candidate_stats : S -> list (string * pyval) * S;
  st_upsert_snapshot_manifest : SnapshotManifest -> S -> S;
  st_list_snapshot_manifests : Z -> option string -> option string -> S -> list (list (string * pyval)) * S;
  st_snapshot_manifest_stats : S -> list (string * pyval) * S;
  st_upsert_snapshot_artifact : SnapshotArtifact -> S -> S;
  st_list_snapshot_artifacts : Z -> option string -> option string -> S -> list (list (string * pyval)) * S;
  st_snapshot_artifact_stats : S -> list (string * pyval) * S;
  st_record_snapshot_material_validation : string -> SnapshotMaterialValidationResult -> S -> S;
  st_upsert_snapshot_material : SnapshotMaterialContract -> S -> S;
  st_list_snapshot_materials : Z -> option string -> option string -> S -> list (list (string * pyval)) * S;
  st_snapshot_material_stats : S -> list (string * pyval) * S;
  st_close : S -> S;
}.

(** The methods by what they write, and by the table they read. *)
Inductive store_table := TCandidates | TManifests | TArtifacts | TMaterials.

Definition st_write {S} `{ThreadWakeStorage S} (w : store_write) : S -> S :=
  match w with
  | WCandidate e => st_upsert_candidate e
  | WManifest m => st_upsert_snapshot_manifest m
  | WArtifact a => st_upsert_snapshot_artifact a
  | WMaterial m => st_upsert_snapshot_material m
  | WValidation k r => st_record_snapshot_material_validation k r
  end.

Definition st_list {S} `{ThreadWakeStorage S} (t : store_table)
    : Z -> option string -> option string -> S -> list (list (string * pyval)) * S :=
  match t with
  | TCandidates => st_list_candidates
  | TManifests => st_list_snapshot_manifests
  | TArtifacts => st_list_snapshot_artifacts
  | TMaterials => st_list_snapshot_materials
  end.

Definition st_stats {S} `{ThreadWakeStorage S} (t : store_table) : S -> list (string * pyval) * S :=
  match t with
  | TCandidates => st_candidate_stats
  | TManifests => st_snapshot_manifest_stats
  | TArtifacts => st_snapshot_artifact_stats
  | TMaterials => st_snapshot_material_stats
  end.

(** *** The storage that stores nothing *)

Record NoOpThreadWakeStorage := mkNoOpStorage {}.

Definition zeros (keys : list string) : list (string * pyval) := map (fun k => (k, PInt 0)) keys.

Definition noop_candidate_stats : list (string * pyval) :=
  (zeros ["total_candidates"; "high_confidence"; "medium_confidence"; "low_confidence";
          "candidate_seen_total"; "potential_saved_tokens_total"]
   ++ [("average_candidate_score", PFloat 0)])%list.

Definition noop_manifest_stats : list (string * pyval) :=
  zeros ["total_manifests"; "planned"; "superseded"; "expired"; "rejected"].

Definition noop_artifact_stats : list (string * pyval) :=
  zeros ["total_artifacts"; "planned"; "build_pending"; "build_failed"; "ready"; "superseded"; "expired"].

Definition noop_material_stats : list (string * pyval) :=
  zeros ["total_materials"; "declared"; "materialized"; "validated"; "invalid"; "unsupported"; "expired"].

Definition noop_storage : ThreadWakeStorage NoOpThreadWakeStorage := {|
  st_upsert_candidate := fun _ s => s;
  st_list_candidates := fun _ _ _ s => ([], s);
  st_candidate_stats := fun s => (noop_candidate_stats, s);
  st_upsert_snapshot_manifest := fun _ s => s;
  st_list_snapshot_manifests := fun _ _ _ s => ([], s);
  st_snapshot_manifest_stats := fun s => (noop_manifest_stats, s);
  st_upsert_snapshot_artifact := fun _ s => s;
  st_list_snapshot_artifacts := fun _ _ _ s => ([], s);
  st_snapshot_artifact_stats := fun s => (noop_artifact_stats, s);
  st_record_snapshot_material_validation := fun _ _ s => s;
  st_upsert_snapshot_material := fun _ s => s;
  st_list_snapshot_materials := fun _ _ _ s => ([], s);
  st_snapshot_material_stats := fun s => (noop_material_stats, s);
  st_close := fun s => s |}.

#[export] Existing Instance noop_storage.

(** *** The SQLite storage *)

Inductive sql_outcome :=
| SqlOk
| SqlFails (rolled_back : bool)
| CommitFails (rolled_back : bool).

Record SqlEnv := mkSqlEnv { sq_now : string; sq_outcome_of : sql_outcome }.

(** [ss_disk] is what is durable, [ss_conn] what the connection sees while there is one. *)
Record SQLiteThreadWakeStorage := mkSQLite {
  ss_disk : Tables;
  ss_conn : option Tables;
  ss_persistence_errors : Z;
  ss_upserts_total : Z;
  ss_statements : nat;
}.

(** [__init__] on a database file; [ok] is whether [_init_db] succeeds. *)
Definition sql_open (ok : bool) (disk : Tables) : SQLiteThreadWakeStorage :=
  mkSQLite disk (if ok then Some disk else None) (if ok then 0 else 1) 0 0.

Definition sql_enabled (s : SQLiteThreadWakeStorage) : bool :=
  match ss_conn s with Some _ => true | None => false end.

Definition sql_close (s : SQLiteThreadWakeStorage) : SQLiteThreadWakeStorage :=
  mkSQLite (ss_disk s) None (ss_persistence_errors s) (ss_upserts_total s) (ss_statements s).

Section sqlite.
Context (env : nat -> SqlEnv) (tie : forall R : Type, list R -> list R).

(** The handler of a failed statement: the connection keeps [seen] unless the engine has
    rolled the transaction back, and the failure is counted. *)
Definition sql_failed (rolled_back : bool) (seen : Tables) (s : SQLiteThreadWakeStorage)
    : SQLiteThreadWakeStorage :=
  mkSQLite (ss_disk s) (Some (if rolled_back then ss_disk s else seen)) (ss_persistence_errors s + 1)
    (ss_upserts_total s) (ss_statements s + 1).

(** The five writes: [execute], [commit], and the handler. *)
Definition sqlite_write (w : store_write) (s : SQLiteThreadWakeStorage) : SQLiteThreadWakeStorage :=
  match ss_conn s with
  | None => s
  | Some seen =>
      if negb (has_key w) then s
      else
        let e := env (ss_statements s) in
        match sq_outcome_of e with
        | SqlFails rolled_back => sql_failed rolled_back seen s
        | outcome =>
            match sql_write (sq_now e) w seen with
            | None => sql_failed false seen s
            | Some seen' =>
                match outcome with
                | CommitFails rolled_back => sql_failed rolled_back seen' s
                | _ => mkSQLite seen' (Some seen') (ss_persistence_errors s)
                         (ss_upserts_total s + b2z (counts_upsert w)) (ss_statements s + 1)
                end
            end
        end
  end.

(** A query: its answer, or the default when there is no connection or it fails. *)
Definition sqlite_query {A} (query : Tables -> A) (dflt : A) (s : SQLiteThreadWakeStorage)
    : A * SQLiteThreadWakeStorage :=
  match ss_conn s with
  | None => (dflt, s)
  | Some seen =>
      match sq_outcome_of (env (ss_statements s)) with
      | SqlFails rolled_back => (dflt, sql_failed rolled_back seen s)
      | _ => (query seen, mkSQLite (ss_disk s) (ss_conn s) (ss_persistence_errors s)
                            (ss_upserts_total s) (ss_statements s + 1))
      end
  end.

(** [SELECT * ... WHERE ... ORDER BY ... LIMIT ?] *)
Definition select_rows {R} (keep : R -> bool) (before : R -> R -> bool) (limit : Z)
    (t : list (string * R)) : list R :=
  let limit := Z.max 1 (Z.min limit 500) in
  slice_to limit (stable_sort before (tie R (List.filter keep (dvalues t)))).

Abbreviation listing := (list (list (string * pyval))).

Definition sqlite_upsert_candidate (entry : CandidateEntry) := sqlite_write (WCandidate entry).

Definition sqlite_list_candidates (limit : Z) (min_confidence backend : option string)
    (s : SQLiteThreadWakeStorage) : listing * SQLiteThreadWakeStorage :=
  sqlite_query (fun t =>
    map candidate_dict
      (select_rows (fun r => column_is min_confidence (ct_candidate_confidence r)
                             && column_is backend (Some (ct_backend r)))
         candidate_before limit (tb_candidates t))) [] s.

Definition sqlite_candidate_stats := sqlite_query candidate_stats_of noop_candidate_stats.

Definition sqlite_upsert_snapshot_manifest (manifest : SnapshotManifest) := sqlite_write (WManifest manifest).

Definition sqlite_list_snapshot_manifests (limit : Z) (status backend : option string)
    (s : SQLiteThreadWakeStorage) : listing * SQLiteThreadWakeStorage :=
  sqlite_query (fun t =>
    map manifest_dict
      (select_rows (fun m => column_is status (Some (sm_status m)) && column_is backend (sm_backend m))
         (created_before sm_created_at) limit (tb_manifests t))) [] s.

Definition sqlite_snapshot_manifest_stats := sqlite_query manifest_stats_of noop_manifest_stats.

Definition sqlite_upsert_snapshot_artifact (artifact : SnapshotArtifact) := sqlite_write (WArtifact artifact).

Definition sqlite_list_snapshot_artifacts (limit : Z) (status backend : option string)
    (s : SQLiteThreadWakeStorage) : listing * SQLiteThreadWakeStorage :=
  sqlite_query (fun t =>
    map artifact_safe_dict
      (select_rows (fun a => column_is status (Some (sa_status a)) && column_is backend (sa_backend a))
         (created_before sa_created_at) limit (tb_artifacts t))) [] s.

Definition sqlite_snapshot_artifact_stats := sqlite_query artifact_stats_of noop_artifact_stats.

Definition sqlite_record_snapshot_material_validation (event_id : string)
    (result : SnapshotMaterialValidationResult) := sqlite_write (WValidation event_id result).

Definition sqlite_upsert_snapshot_material (material : SnapshotMaterialContract) :=
  sqlite_write (WMaterial material).

Definition sqlite_list_snapshot_materials (limit : Z) (status backend : option string)
    (s : SQLiteThreadWakeStorage) : listing * SQLiteThreadWakeStorage :=
  sqlite_query (fun t =>
    map material_dict
      (select_rows (fun m => column_is status (Some (mr_material_status m))
                             && column_is backend (mr_backend m))
         (created_before mr_created_at) limit (tb_materials t))) [] s.

Definition sqlite_snapshot_material_stats := sqlite_query material_stats_of noop_material_stats.

Definition sqlite_storage : ThreadWakeStorage SQLiteThreadWakeStorage := {|
  st_upsert_candidate := sqlite_upsert_candidate;
  st_list_candidates := sqlite_list_candidates;
  st_candidate_stats := sqlite_candidate_stats;
  st_upsert_snapshot_manifest := sqlite_upsert_snapshot_manifest;
  st_list_snapshot_manifests := sqlite_list_snapshot_manifests;
  st_snapshot_manifest_stats := sqlite_snapshot_manifest_stats;
  st_upsert_snapshot_artifact := sqlite_upsert_snapshot_artifact;
  st_list_snapshot_artifacts := sqlite_list_snapshot_artifacts;
  st_snapshot_artifact_stats := sqlite_snapshot_artifact_stats;
  st_record_snapshot_material_validation := sqlite_record_snapshot_material_validation;
  st_upsert_snapshot_material := sqlite_upsert_snapshot_material;
  st_list_snapshot_materials := sqlite_list_snapshot_materials;
  st_snapshot_material_stats := sqlite_snapshot_material_stats;
  st_close := sql_close |}.
End sqlite.

(** ** Histories: calls of the protocol *)
Inductive store_op :=
| OpWrite (w : store_write)
| OpList (t : store_table) (limit : Z) (filter backend : option string)
| OpStats (t : store_table)
| OpClose.

(** What a call answers, as a Python value. *)
Definition store_apply {S} `{ThreadWakeStorage S} (op : store_op) (s : S) : pyval * S :=
  match op with
  | OpWrite w => (PNone, st_write w s)
  | OpList t limit filter backend =>
      let (rows, s) := st_list t limit filter backend s in (PList (map PDict rows), s)
  | OpStats t => let (d, s) := st_stats t s in (PDict d, s)
  | OpClose => (PNone, st_close s)
  end.

Fixpoint store_run {S} `{ThreadWakeStorage S} (ops : list store_op) (s : S) : list pyval * S :=
  match ops with
  | [] => ([], s)
  | op :: ops =>
      let (v, s) := store_apply op s in
      let (vs, s) := store_run ops s in (v :: vs, s)
  end.
