(* ===== verification/TWStoreProps.v ===== *)
(** * What the ThreadWake store promises

    A disconnected store is the one that stores nothing; what is on disk is the replay of
    some of the requested writes, in order, and of every acknowledged one; a row is the
    history of its key; a listing is the top of the matching rows. *)

From Stdlib Require Import Sorting.Sorted.
From stdpp Require Import sorting.
From S2P Require Import Prelude PyDict PyStr PySeq TWIndex TWTokens TWProof TWSnap TWSnapProps TWStore.
Open Scope string_scope.

(** ** What the protocol promises its clients *)

Definition empty_stats_of (t : store_table) : list (string * pyval) :=
  match t with
  | TCandidates => noop_candidate_stats
  | TManifests => noop_manifest_stats
  | TArtifacts => noop_artifact_stats
  | TMaterials => noop_material_stats
  end.

Class StorageLaws (S : Type) `{ThreadWakeStorage S} := {
  list_bounded t limit f b s :
    (Z.of_nat (length (fst (st_list t limit f b s))) <= Z.max 1 (Z.min limit 500))%Z;
  list_of_backend t limit f b s d :
    str_truthy b = true -> d ∈ fst (st_list t limit f b s) -> dget "backend" d = Some (opt_str b);
  stats_keys t s : map fst (fst (st_stats t s)) = map fst (empty_stats_of t);
}.

#[export] Instance noop_laws : StorageLaws NoOpThreadWakeStorage.
Proof.
  split.
  - intros [] limit f b s; simpl; lia.
  - intros [] limit f b s d _ Hd; simpl in Hd; by apply elem_of_nil in Hd.
  - by intros [] s.
Qed.

(** ** Queries *)

Lemma column_is_backend b col : column_is b col = true -> str_truthy b = true -> col = b.
Proof. unfold column_is. intros H Hb. rewrite Hb in H. destruct col; [by apply bool_decide_eq_true in H | done]. Qed.

Section select.
Context (tie : forall R : Type, list R -> list R).
Context {R : Type} (keep : R -> bool) (before : R -> R -> bool).

Lemma select_rows_bounded limit (t : list (string * R)) :
  (Z.of_nat (length (select_rows tie keep before limit t)) <= Z.max 1 (Z.min limit 500))%Z.
Proof. unfold select_rows. rewrite slice_to_length by lia. lia. Qed.

Hypothesis tie_perm : forall l : list R, tie R l ≡ₚ l.

Definition ranked (t : list (string * R)) : list R :=
  stable_sort before (tie R (List.filter keep (dvalues t))).

Lemma ranked_perm t : ranked t ≡ₚ List.filter keep (dvalues t).
Proof. unfold ranked. by rewrite stable_sort_perm, tie_perm. Qed.

Lemma select_rows_ranked limit t :
  select_rows tie keep before limit t = take (Z.to_nat (Z.max 1 (Z.min limit 500))) (ranked t).
Proof. unfold select_rows, slice_to. destruct (_ <? 0)%Z eqn:E; [apply Z.ltb_lt in E; lia | done]. Qed.

Lemma select_rows_elem limit t r :
  r ∈ select_rows tie keep before limit t -> keep r = true /\ r ∈ dvalues t.
Proof.
  rewrite select_rows_ranked. intros Hr%elem_of_take. destruct Hr as (i & Hr & _).
  apply list_elem_of_lookup_2 in Hr. rewrite ranked_perm in Hr. apply elem_of_filter_List in Hr. tauto.
Qed.

Hypothesis before_total : forall x y, before x y = true \/ before y x = true.
Hypothesis before_trans : forall x y z, before x y = true -> before y z = true -> before x z = true.

(** The selected rows are sorted, and what is left out stands behind every selected row. *)
Lemma select_rows_top limit t :
  exists rest,
    select_rows tie keep before limit t ++ rest ≡ₚ List.filter keep (dvalues t)
    /\ StronglySorted (fun a b => before a b = true) (select_rows tie keep before limit t)
    /\ (forall a b, a ∈ select_rows tie keep before limit t -> b ∈ rest -> before a b = true).
Proof.
  rewrite select_rows_ranked. set (n := Z.to_nat _). exists (drop n (ranked t)).
  rewrite take_drop. split; [apply ranked_perm|].
  assert (Hs : StronglySorted (fun a b => before a b = true) (ranked t))
    by (apply stable_sort_sorted; auto).
  rewrite <- (take_drop n (ranked t)) in Hs. apply StronglySorted_app in Hs.
  destruct Hs as (Hab & H1 & _). auto.
Qed.
End select.

(** *** The comparisons *)

Lemma then_by_spec (c d : comparison) : desc (then_by c d) = match c with Eq => desc d | _ => desc c end.
Proof. by destruct c. Qed.

(** A comparison that orders: the sign flips with the arguments, and [desc] is transitive. *)
Record orders {A} (cmp : A -> A -> comparison) : Prop := {
  ord_flip x y : cmp y x = CompOpp (cmp x y);
  ord_eq x y z : cmp x y = Eq -> cmp x z = cmp y z;
  ord_gt x y z : cmp x y = Gt -> cmp y z = Gt -> cmp x z = Gt;
}.

Lemma ord_eq_r {A} (cmp : A -> A -> comparison) x y z :
  orders cmp -> cmp y z = Eq -> cmp x y = cmp x z.
Proof.
  intros Ho H. rewrite (ord_flip _ Ho y x), (ord_flip _ Ho z x). f_equal.
  by apply (ord_eq _ Ho).
Qed.

Lemma desc_total {A} (cmp : A -> A -> comparison) x y :
  orders cmp -> desc (cmp x y) = true \/ desc (cmp y x) = true.
Proof. intros Ho. rewrite (ord_flip _ Ho x y). destruct (cmp x y); simpl; auto. Qed.

Lemma desc_trans {A} (cmp : A -> A -> comparison) x y z :
  orders cmp -> desc (cmp x y) = true -> desc (cmp y z) = true -> desc (cmp x z) = true.
Proof.
  intros Ho. destruct (cmp x y) eqn:E1; [|done|].
  - by rewrite (ord_eq _ Ho _ _ z E1).
  - destruct (cmp y z) eqn:E2; [|done|].
    + by rewrite <- (ord_eq_r _ x _ _ Ho E2), E1.
    + by rewrite (ord_gt _ Ho _ _ _ E1 E2).
Qed.

Lemma null_orders {A} (cmp : A -> A -> comparison) : orders cmp -> orders (null_compare cmp).
Proof.
  intros Ho. split.
  - intros [x|] [y|]; simpl; auto. apply (ord_flip _ Ho).
  - intros [x|] [y|] [z|]; simpl; try done. apply (ord_eq _ Ho).
  - intros [x|] [y|] [z|]; simpl; try done. apply (ord_gt _ Ho).
Qed.

Lemma then_orders {A} (c d : A -> A -> comparison) :
  orders c -> orders d -> orders (fun x y => then_by (c x y) (d x y)).
Proof.
  intros Hc Hd. split.
  - intros x y. rewrite (ord_flip _ Hc x y), (ord_flip _ Hd x y). by destruct (c x y).
  - intros x y z. destruct (c x y) eqn:E; [|done|done]. simpl. intros Ed.
    by rewrite (ord_eq _ Hc _ _ z E), (ord_eq _ Hd _ _ z Ed).
  - intros x y z. destruct (c x y) eqn:E1; simpl; [|done|].
    + intros Ed. rewrite (ord_eq _ Hc _ _ z E1). destruct (c y z); simpl; [|done|done].
      apply (ord_gt _ Hd _ _ _ Ed).
    + intros _. destruct (c y z) eqn:E2; simpl; [|done|].
      * by rewrite <- (ord_eq_r _ x _ _ Hc E2), E1.
      * by rewrite (ord_gt _ Hc _ _ _ E1 E2).
Qed.

Lemma map_orders {A B} (f : A -> B) (cmp : B -> B -> comparison) :
  orders cmp -> orders (fun x y => cmp (f x) (f y)).
Proof. intros Ho. split; intros; [apply (ord_flip _ Ho) | by apply (ord_eq _ Ho) | by eapply (ord_gt _ Ho)]. Qed.

Lemma Z_orders : orders Z.compare.
Proof.
  split.
  - intros x y. apply Z.compare_antisym.
  - by intros x y z ->%Z.compare_eq.
  - intros x y z. rewrite !Z.compare_gt_iff. lia.
Qed.

Lemma Q_orders : orders Qcompare.
Proof.
  split.
  - intros x y. by rewrite Qcompare_antisym.
  - intros x y z H%Qeq_alt. destruct (Qcompare_spec y z) as [E|E|E].
    + apply Qeq_alt. by rewrite H.
    + apply Qlt_alt. by rewrite H.
    + apply Qgt_alt. by rewrite H.
  - intros x y z H1%Qgt_alt H2%Qgt_alt. apply Qgt_alt. by eapply Qlt_trans.
Qed.

Lemma string_compare_leb x y : desc (String.compare y x) = string_leb x y.
Proof. unfold string_leb. rewrite String.compare_antisym. by destruct (String.compare x y). Qed.

Lemma string_orders : orders String.compare.
Proof.
  split.
  - intros x y. apply String.compare_antisym.
  - by intros x y z ->%String.compare_eq_iff.
  - intros x y z Hxy Hyz. destruct (string_leb x z) eqn:E.
    + assert (Hyx : string_leb y x = true) by (rewrite <- string_compare_leb, Hxy; done).
      assert (Hzy : string_leb z y = true) by (rewrite <- string_compare_leb, Hyz; done).
      assert (x = z) as <- by (apply string_leb_antisym; [done | by eapply string_leb_trans]).
      rewrite (string_leb_antisym _ _ Hyx Hzy) in Hxy.
      pose proof (String.compare_antisym x x) as H. by rewrite Hxy in H.
    + unfold string_leb in E. by destruct (String.compare x z).
Qed.

Lemma candidate_orders :
  orders (fun a b => then_by (null_compare Qcompare (ct_candidate_score a) (ct_candidate_score b))
                       (then_by (Z.compare (ct_candidate_seen_count a) (ct_candidate_seen_count b))
                          (String.compare (ct_last_seen_at a) (ct_last_seen_at b)))).
Proof.
  apply (then_orders (fun a b => null_compare Qcompare (ct_candidate_score a) (ct_candidate_score b))).
  - apply map_orders, null_orders, Q_orders.
  - apply (then_orders (fun a b => Z.compare (ct_candidate_seen_count a) (ct_candidate_seen_count b))
             (fun a b => String.compare (ct_last_seen_at a) (ct_last_seen_at b)));
      apply map_orders; [apply Z_orders | apply string_orders].
Qed.

Lemma created_orders {R} (f : R -> string) : orders (fun a b => String.compare (f a) (f b)).
Proof. apply map_orders, string_orders. Qed.

(** ** The store *)
Section sqlite.
Context (env : nat -> SqlEnv) (tie : forall R : Type, list R -> list R).

#[local] Instance sqlite : ThreadWakeStorage SQLiteThreadWakeStorage := sqlite_storage env tie.

Lemma sqlite_st_write w s : st_write w s = sqlite_write env w s.
Proof. by destruct w. Qed.

(** *** Without a connection *)

Lemma closed_apply op s :
  ss_conn s = None -> store_apply op s = (fst (store_apply op mkNoOpStorage), s).
Proof.
  destruct s as [disk conn errs ups n]; simpl. intros ->.
  destruct op as [w|[] limit f b|[]|]; simpl; try done.
  rewrite sqlite_st_write. by destruct w.
Qed.

(** A store whose database could not be opened, or that was closed, is the store that stores
    nothing: every call answers the same, raises nothing, counts nothing and changes nothing. *)
Theorem closed_store_is_noop ops s :
  ss_conn s = None -> store_run ops s = (fst (store_run ops mkNoOpStorage), s).
Proof.
  intros Hs. induction ops as [|op ops IH]; [done|]. simpl.
  rewrite (closed_apply op s Hs). rewrite IH.
  destruct (store_apply op mkNoOpStorage) as [v []]; simpl.
  by destruct (store_run ops mkNoOpStorage).
Qed.

(** *** The journal *)

(** A journal entry: the database's time and what was written. *)
Definition entry : Type := string * store_write.

Definition replay_one (t : Tables) (e : entry) : Tables := default t (sql_write (fst e) (snd e) t).

Definition replay (journal : list entry) (t : Tables) : Tables := fold_left replay_one journal t.

Lemma replay_app j1 j2 t : replay (j1 ++ j2) t = replay j2 (replay j1 t).
Proof. apply fold_left_app. Qed.

(** The writes a history asks for. *)
Definition requested (ops : list store_op) : list store_write :=
  omap (fun op => match op with OpWrite w => Some w | _ => None end) ops.

(** The write of a call that ran a statement and counted no error. *)
Definition acknowledged_one (op : store_op) (s s' : SQLiteThreadWakeStorage) : list store_write :=
  match op with
  | OpWrite w =>
      if bool_decide (ss_statements s <> ss_statements s')
         && bool_decide (ss_persistence_errors s = ss_persistence_errors s')
      then [w] else []
  | _ => []
  end.

Fixpoint acknowledged (ops : list store_op) (s : SQLiteThreadWakeStorage) : list store_write :=
  match ops with
  | [] => []
  | op :: ops =>
      let s' := snd (store_apply op s) in acknowledged_one op s s' ++ acknowledged ops s'
  end.

(** [K] is on disk, [P] is in the open transaction. *)
Record journal_ok (d0 : Tables) (K P : list entry) (s : SQLiteThreadWakeStorage) : Prop := {
  jo_disk : ss_disk s = replay K d0;
  jo_seen : forall t, ss_conn s = Some t -> t = replay P (ss_disk s);
}.

(** One call: the journal on disk stays, or takes in the open transaction and the call's
    write; the open transaction is kept, extended by the call's write, or dropped; an
    acknowledged write reaches the disk. *)
Definition journal_step (op : store_op) (acked : list store_write) (K P K' P' : list entry) : Prop :=
  exists E : list entry,
    sublist (map snd E) (requested [op])
    /\ ((K' = K /\ (P' = P ++ E \/ P' = []) /\ acked = [])
        \/ (K' = K ++ P ++ E /\ P' = [] /\ acked = map snd E))%list.

Lemma replay_journal w t t' now : sql_write now w t = Some t' -> replay [(now, w)] t = t'.
Proof. intros H. unfold replay. simpl. unfold replay_one. simpl. by rewrite H. Qed.

(** A failed statement leaves the disk and counts an error. *)
Lemma failed_step d0 K P s rb seen E :
  journal_ok d0 K P s -> seen = replay E (ss_disk s) ->
  exists P', (P' = E \/ P' = []) /\ journal_ok d0 K P' (sql_failed rb seen s).
Proof.
  intros [Hd Hs] Hseen. destruct rb.
  - exists []. split; [by right|]. split; [done|]. simpl. intros t [= <-]. done.
  - exists E. split; [by left|]. split; [done|]. simpl. intros t [= <-]. done.
Qed.

Lemma query_step {A} (q : Tables -> A) dflt d0 K P s op :
  journal_ok d0 K P s -> 
  exists K' P', journal_ok d0 K' P' (snd (sqlite_query env q dflt s)) /\ journal_step op [] K P K' P'.
Proof.
  intros Hj. unfold sqlite_query. destruct (ss_conn s) as [seen|] eqn:Ec.
  - assert (Hseen : seen = replay P (ss_disk s)) by (by apply (jo_seen _ _ _ _ Hj)).
    destruct (sq_outcome_of _) as [|rb|rb].
    + exists K, P. split; [destruct Hj as [Hd Hs]; split; simpl; [done | by rewrite Ec in *]|].
      exists []. split; [apply sublist_nil_l | left; rewrite app_nil_r; auto].
    + destruct (failed_step d0 K P s rb seen P Hj Hseen) as (P' & HP' & Hok).
      exists K, P'. split; [done|]. exists []. split; [apply sublist_nil_l|].
      left. rewrite app_nil_r. auto.
    + exists K, P. split; [destruct Hj as [Hd Hs]; split; simpl; [done | by rewrite Ec in *]|].
      exists []. split; [apply sublist_nil_l | left; rewrite app_nil_r; auto].
  - exists K, P. split; [done|]. exists []. split; [apply sublist_nil_l|].
    left. rewrite app_nil_r. auto.
Qed.

Lemma acknowledged_failed w rb seen s : acknowledged_one (OpWrite w) s (sql_failed rb seen s) = [].
Proof.
  unfold acknowledged_one, sql_failed. simpl.
  by rewrite (bool_decide_eq_false_2 (ss_persistence_errors s = _)) by lia; rewrite andb_false_r.
Qed.

Lemma acknowledged_same w s : acknowledged_one (OpWrite w) s s = [].
Proof. unfold acknowledged_one. by rewrite bool_decide_eq_false_2 by auto. Qed.

Lemma write_step d0 K P s w :
  journal_ok d0 K P s ->
  exists K' P', journal_ok d0 K' P' (sqlite_write env w s)
    /\ journal_step (OpWrite w) (acknowledged_one (OpWrite w) s (sqlite_write env w s)) K P K' P'.
Proof.
  intros Hj. unfold sqlite_write.
  assert (Hkeep : journal_step (OpWrite w) [] K P K P).
  { exists []. split; [apply sublist_nil_l|]. left. rewrite app_nil_r. auto. }
  assert (Hfail : forall rb E, map snd E `sublist_of` [w] ->
    exists K' P', journal_ok d0 K' P' (sql_failed rb (replay (P ++ E) (ss_disk s)) s)
      /\ journal_step (OpWrite w)
           (acknowledged_one (OpWrite w) s (sql_failed rb (replay (P ++ E) (ss_disk s)) s)) K P K' P').
  { intros rb E HE. destruct (failed_step d0 K P s rb _ (P ++ E) Hj eq_refl) as (P' & HP' & Hok).
    exists K, P'. split; [done|]. rewrite acknowledged_failed. exists E. auto. }
  destruct (ss_conn s) as [seen|] eqn:Ec; lazy iota; [|exists K, P; by rewrite acknowledged_same].
  destruct (has_key w); lazy iota delta [negb]; [|exists K, P; by rewrite acknowledged_same].
  assert (Hseen : seen = replay P (ss_disk s)) by (by apply (jo_seen _ _ _ _ Hj)).
  pose proof (sublist_nil_l [w]) as Hnil.
  assert (Hsame : seen = replay (P ++ []) (ss_disk s)) by (by rewrite app_nil_r).
  destruct (sq_outcome_of _) as [|rb|rb]; [|rewrite Hsame; by apply (Hfail rb [])|];
    (destruct (sql_write _ w seen) as [seen'|] eqn:Ew; [|rewrite Hsame; by apply (Hfail false [])]);
    set (e := (sq_now (env (ss_statements s)), w));
    assert (Hseen' : seen' = replay (P ++ [e]) (ss_disk s))
      by (rewrite replay_app, <- Hseen; symmetry; by apply replay_journal).
  - exists (K ++ P ++ [e])%list, []. split.
    + split; simpl; [|by intros t [= <-]]. rewrite replay_app, <- (jo_disk _ _ _ _ Hj). done.
    + exists [e]. split; [done|]. right. unfold acknowledged_one. simpl.
      rewrite bool_decide_eq_true_2 by lia. by rewrite bool_decide_eq_true_2.
  - rewrite Hseen'. by apply (Hfail rb [e]).
Qed.

(** Every list and statistics method is a query. *)
Lemma read_is_query op s :
  match op with OpList _ _ _ _ | OpStats _ => True | _ => False end ->
  exists (A : Type) (q : Tables -> A) (dflt : A),
    snd (store_apply op s) = snd (sqlite_query env q dflt s).
Proof.
  destruct op as [w|t limit f b|t|]; try done; intros _; simpl;
    destruct t; simpl;
    match goal with |- context [let (_, _) := ?x in _] => destruct x as [rows s'] eqn:E end;
    do 3 eexists; (etrans; [|apply f_equal; exact (eq_sym E)]); done.
Qed.

Lemma apply_step d0 K P s op :
  journal_ok d0 K P s ->
  exists K' P', journal_ok d0 K' P' (snd (store_apply op s))
    /\ journal_step op (acknowledged_one op s (snd (store_apply op s))) K P K' P'.
Proof.
  intros Hj. destruct op as [w|t limit f b|t|].
  - simpl. rewrite sqlite_st_write. by apply write_step.
  - destruct (read_is_query (OpList t limit f b) s I) as (A & q & dflt & ->). by apply query_step.
  - destruct (read_is_query (OpStats t) s I) as (A & q & dflt & ->). by apply query_step.
  - exists K, []. split; [by split; [apply (jo_disk _ _ _ _ Hj) | simpl]|].
    exists []. split; [apply sublist_nil_l | left; auto].
Qed.

Lemma requested_cons op ops : requested (op :: ops) = (requested [op] ++ requested ops)%list.
Proof. by destruct op. Qed.

Lemma run_journal ops : forall d0 K P s,
  journal_ok d0 K P s ->
  exists P' M : list entry, journal_ok d0 (K ++ M)%list P' (snd (store_run ops s))
    /\ sublist (acknowledged ops s) (map snd M)
    /\ sublist (map snd M) (map snd P ++ requested ops)%list.
Proof.
  induction ops as [|op ops IH]; intros d0 K P s Hj.
  - exists P, []. rewrite app_nil_r. split; [done|]. split; [done | apply sublist_nil_l].
  - destruct (apply_step d0 K P s op Hj) as (K1 & P1 & Hj1 & E & HE & Hstep).
    destruct (IH d0 K1 P1 _ Hj1) as (P' & M & Hok & Hack & Hreq).
    rewrite requested_cons. cbn [store_run acknowledged].
    destruct (store_apply op s) as [v s1]. cbn [snd] in *.
    destruct (store_run ops s1) as [vs s2]. cbn [snd] in *.
    destruct Hstep as [(-> & HP & ->) | (-> & -> & ->)].
    + exists P', M. split; [done|]. split; [done|]. etrans; [exact Hreq|].
      destruct HP as [-> | ->]; simpl.
      * rewrite map_app, <- app_assoc. apply sublist_app; [done|]. by apply sublist_app.
      * by apply sublist_inserts_l, sublist_inserts_l.
    + exists P', (P ++ E ++ M)%list. rewrite !map_app, <- !app_assoc in *. split; [done|].
      split; [by apply sublist_inserts_l, sublist_app|].
      apply sublist_app; [done|]. by apply sublist_app.
Qed.

(** *** The counters *)

Lemma query_upserts {A} (q : Tables -> A) dflt s :
  ss_upserts_total (snd (sqlite_query env q dflt s)) = ss_upserts_total s.
Proof. unfold sqlite_query. destruct (ss_conn s); [|done]. by destruct (sq_outcome_of _). Qed.

Lemma write_upserts w s :
  ss_upserts_total (sqlite_write env w s)
  = (ss_upserts_total s
     + countb counts_upsert (acknowledged_one (OpWrite w) s (sqlite_write env w s)))%Z.
Proof.
  assert (Hnil : (ss_upserts_total s = ss_upserts_total s + countb counts_upsert [])%Z)
    by (unfold countb; simpl; lia).
  unfold sqlite_write.
  destruct (ss_conn s) as [seen|]; lazy iota; [|by rewrite acknowledged_same].
  destruct (has_key w); lazy iota delta [negb]; [|by rewrite acknowledged_same].
  destruct (sq_outcome_of _) as [|rb|rb]; [| by rewrite acknowledged_failed |];
    (destruct (sql_write _ w seen); [| by rewrite acknowledged_failed]).
  - unfold acknowledged_one. simpl. rewrite bool_decide_eq_true_2 by lia.
    rewrite bool_decide_eq_true_2 by done. simpl. by destruct w.
  - by rewrite acknowledged_failed.
Qed.

Lemma apply_upserts op s :
  ss_upserts_total (snd (store_apply op s))
  = (ss_upserts_total s + countb counts_upsert (acknowledged_one op s (snd (store_apply op s))))%Z.
Proof.
  destruct op as [w|t limit f b|t|].
  - simpl. rewrite sqlite_st_write. apply write_upserts.
  - destruct (read_is_query (OpList t limit f b) s I) as (A & q & dflt & ->).
    rewrite query_upserts. unfold countb. simpl. lia.
  - destruct (read_is_query (OpStats t) s I) as (A & q & dflt & ->).
    rewrite query_upserts. unfold countb. simpl. lia.
  - unfold countb. simpl. lia.
Qed.

Lemma run_upserts ops s :
  ss_upserts_total (snd (store_run ops s))
  = (ss_upserts_total s + countb counts_upsert (acknowledged ops s))%Z.
Proof.
  revert s. induction ops as [|op ops IH]; intros s; [unfold countb; simpl; lia|].
  cbn [store_run acknowledged]. rewrite countb_app, Z.add_assoc, <- apply_upserts, <- IH.
  destruct (store_apply op s) as [v s1]. cbn [snd]. by destruct (store_run ops s1).
Qed.

(** *** Rows as histories *)

(** The observations the candidates table has counted. *)
Definition seen_total (t : Tables) : Z := sumZ (map ct_candidate_seen_count (dvalues (tb_candidates t))).

Lemma dset_seen k r (d : list (string * CandidateRecord)) :
  sumZ (map ct_candidate_seen_count (dvalues (dset k r d)))
  = (sumZ (map ct_candidate_seen_count (dvalues d))
     - from_option ct_candidate_seen_count 0 (dget k d) + ct_candidate_seen_count r)%Z.
Proof.
  unfold dvalues. unfold sumZ. induction d as [|[k' r'] d IH]; simpl; [lia|].
  case_decide; csimpl; lia.
Qed.

Lemma replay_one_seen t e : seen_total (replay_one t e) = (seen_total t + b2z (counts_upsert (snd e)))%Z.
Proof.
  destruct t as [cs ms ars mts vs], e as [now [c|m|a|m|k r]];
    unfold seen_total, replay_one; simpl; try lia.
  - unfold upsert. destruct (dget _ cs) as [old|] eqn:E; rewrite dset_seen, E; simpl; lia.
  - destruct (dget k vs); simpl; lia.
Qed.

Lemma replay_seen J t : seen_total (replay J t) = (seen_total t + countb counts_upsert (map snd J))%Z.
Proof.
  revert t. induction J as [|e J IH]; intros t; [unfold countb; simpl; lia|].
  change (replay (e :: J) t) with (replay J (replay_one t e)).
  rewrite IH, replay_one_seen. simpl. rewrite countb_cons. lia.
Qed.

Lemma countb_sublist {A} (p : A -> bool) l1 l2 : sublist l1 l2 -> (countb p l1 <= countb p l2)%Z.
Proof. induction 1; rewrite ?countb_cons; [done | lia | destruct (p x); simpl; lia]. Qed.

(** C37: Durability of the acknowledged writes.  Whatever fails while a store is open, with or
    without the engine rolling back, what is on disk is the replay, in order, of a part of
    the writes that were asked for which contains every acknowledged one; so the counter of
    upserts never claims an observation that is not on disk. *)
Theorem acknowledged_writes_survive ops disk :
  let s := sql_open true disk in
  exists J : list entry,
    ss_disk (snd (store_run ops s)) = replay J disk
    /\ sublist (acknowledged ops s) (map snd J)
    /\ sublist (map snd J) (requested ops)
    /\ (ss_upserts_total (snd (store_run ops s)) <= seen_total (ss_disk (snd (store_run ops s))) - seen_total disk)%Z.
Proof.
  intros s. assert (Hj : journal_ok disk [] [] s) by (split; [done | by intros t [= <-]]).
  destruct (run_journal ops disk [] [] s Hj) as (P & J & Hok & Hack & Hreq).
  exists J. split; [apply (jo_disk _ _ _ _ Hok)|]. split; [done|]. split; [done|].
  rewrite (jo_disk _ _ _ _ Hok), run_upserts. simpl app. rewrite replay_seen.
  apply (countb_sublist counts_upsert) in Hack. simpl. lia.
Qed.

(** One table: [row_of] is the row an entry inserts into it, with its key. *)
Section history.
Context {R : Type} (tbl : Tables -> list (string * R)) (row_of : entry -> option (string * R))
  (update : R -> R -> R).

Hypothesis tbl_step : forall t e,
  tbl (replay_one t e) = match row_of e with Some (k, r) => upsert k r update (tbl t) | None => tbl t end.

(** The rows inserted under [k], in order. *)
Definition rows_under (k : string) (J : list entry) : list R :=
  omap (fun e => match row_of e with Some (k', r) => if decide (k = k') then Some r else None
                 | None => None end) J.

Lemma upsert_get k k' r (t : list (string * R)) :
  dget k (upsert k' r update t)
  = if decide (k = k') then Some (match dget k t with Some old => update r old | None => r end)
    else dget k t.
Proof.
  unfold upsert. destruct (dget k' t) eqn:E; rewrite dget_dset; case_decide; subst; try done;
    by rewrite E.
Qed.

Lemma replay_history k J t : dget k (tbl (replay J t)) = history update (dget k (tbl t)) (rows_under k J).
Proof.
  revert t. induction J as [|e J IH]; intros t; [done|].
  change (replay (e :: J) t) with (replay J (replay_one t e)). rewrite IH, tbl_step. simpl.
  destruct (row_of e) as [[k' r]|]; [|done]. rewrite upsert_get. by case_decide.
Qed.

End history.

(** *** Candidates *)

Definition candidate_row_of (e : entry) : option (string * CandidateRecord) :=
  match snd e with
  | WCandidate c => Some (ce_prompt_prefix_hash c, candidate_row (fst e) c)
  | _ => None
  end.

Definition candidate_merge (x old : CandidateRecord) : CandidateRecord :=
  candidate_update (ct_last_seen_at x) x old.

Lemma candidates_step t e :
  tb_candidates (replay_one t e)
  = match candidate_row_of e with
    | Some (k, r) => upsert k r candidate_merge (tb_candidates t)
    | None => tb_candidates t
    end.
Proof. destruct t as [cs ms ars mts vs], e as [now [c|m|a|m|k r]]; try done. unfold replay_one. simpl. by destruct (dget k vs). Qed.

(** What the observations of a prefix, [first] and then [rest], leave in its row. *)
Definition candidate_summary (first : CandidateRecord) (rest : list CandidateRecord) : CandidateRecord :=
  let l := List.last rest first in
  mkCandidateRecord (ct_prefix_hash first) (ct_backend first) (ct_model_id first) (ct_tokenizer_hash first)
    (ct_chat_template_hash first) (ct_candidate_score l) (ct_candidate_confidence l)
    (ct_potential_saved_tokens l) (ct_potential_saved_ratio l)
    (ct_candidate_seen_count first + Z.of_nat (length rest)) (ct_first_seen_at first) (ct_last_seen_at l)
    (ct_selection_reason l).

(** A candidate's row is the history of its prefix hash: who it was seen for and when first
    come from the first observation, whatever the later ones say; score, confidence, savings
    and the last sighting from the last one; and it counts them all. *)
Theorem candidate_row_is_its_history J k :
  dget k (tb_candidates (replay J empty_tables))
  = match rows_under candidate_row_of k J with
    | [] => None
    | first :: rest => Some (candidate_summary first rest)
    end.
Proof.
  rewrite (replay_history tb_candidates candidate_row_of candidate_merge candidates_step).
  destruct (rows_under _ k J) as [|first rest]; [done|].
  apply history_spec.
  - destruct first. unfold candidate_summary. simpl. f_equal. lia.
  - intros rows x. unfold candidate_summary. rewrite last_last, length_app.
    unfold candidate_merge, candidate_update. simpl. f_equal. lia.
Qed.

(** *** Artifacts *)

Definition artifact_row_of (e : entry) : option (string * SnapshotArtifact) :=
  match snd e with WArtifact a => Some (sa_artifact_id a, a) | _ => None end.

Lemma artifacts_step t e :
  tb_artifacts (replay_one t e)
  = match artifact_row_of e with
    | Some (k, r) => upsert k r artifact_update (tb_artifacts t)
    | None => tb_artifacts t
    end.
Proof. destruct t as [cs ms ars mts vs], e as [now [c|m|a|m|k r]]; try done. unfold replay_one. simpl. by destruct (dget k vs). Qed.

(** The last note that is not null. *)
Definition last_notes (first : SnapshotArtifact) (rest : list SnapshotArtifact) : option string :=
  fold_left (fun acc a => coalesce (sa_notes a) acc) rest (sa_notes first).

Definition artifact_summary (first : SnapshotArtifact) (rest : list SnapshotArtifact) : SnapshotArtifact :=
  let l := List.last rest first in
  mkArtifact (sa_artifact_id first) (sa_manifest_id first) (sa_prefix_hash first) (sa_backend first)
    (sa_model_id first) (sa_tokenizer_hash first) (sa_chat_template_hash first) (sa_status l)
    (sa_policy_version first) (sa_artifact_version first)
    (sa_build_attempts first + Z.of_nat (length rest)) (last_notes first rest) (sa_created_at first)
    (sa_updated_at l) (sa_last_seen_at l).

(** An artifact's row is the history of its id; every write after the first counts as a
    build attempt, whatever its status. *)
Theorem artifact_row_is_its_history J k :
  dget k (tb_artifacts (replay J empty_tables))
  = match rows_under artifact_row_of k J with
    | [] => None
    | first :: rest => Some (artifact_summary first rest)
    end.
Proof.
  rewrite (replay_history tb_artifacts artifact_row_of artifact_update artifacts_step).
  destruct (rows_under _ k J) as [|first rest]; [done|].
  apply history_spec.
  - destruct first. unfold artifact_summary, last_notes. simpl. f_equal. lia.
  - intros rows x. unfold artifact_summary, last_notes. rewrite last_last, length_app, fold_left_app.
    unfold artifact_update. simpl. f_equal. lia.
Qed.

(** *** Manifests and materials *)

Definition manifest_row_of (e : entry) : option (string * SnapshotManifest) :=
  match snd e with WManifest m => Some (sm_manifest_id m, m) | _ => None end.

Lemma manifests_step t e :
  tb_manifests (replay_one t e)
  = match manifest_row_of e with
    | Some (k, r) => upsert k r manifest_update (tb_manifests t)
    | None => tb_manifests t
    end.
Proof. destruct t as [cs ms ars mts vs], e as [now [c|m|a|m|k r]]; try done. unfold replay_one. simpl. by destruct (dget k vs). Qed.

(** A manifest's row keeps the identity and the creation time of the first manifest of its
    id and shows the rest of the last one. *)
Theorem manifest_row_is_its_history J k :
  dget k (tb_manifests (replay J empty_tables))
  = match rows_under manifest_row_of k J with
    | [] => None
    | first :: rest => Some (manifest_update (List.last rest first) first)
    end.
Proof.
  rewrite (replay_history tb_manifests manifest_row_of manifest_update manifests_step).
  destruct (rows_under _ k J) as [|first rest]; [done|].
  apply (history_spec manifest_update (fun first rest => manifest_update (List.last rest first) first)).
  - by destruct first.
  - intros rows x. by rewrite last_last.
Qed.

Definition material_row_of (e : entry) : option (string * MaterialRow) :=
  match snd e with WMaterial m => Some (mt_material_id m, material_row m) | _ => None end.

Lemma materials_step t e :
  tb_materials (replay_one t e)
  = match material_row_of e with
    | Some (k, r) => upsert k r material_update (tb_materials t)
    | None => tb_materials t
    end.
Proof. destruct t as [cs ms ars mts vs], e as [now [c|m|a|m|k r]]; try done. unfold replay_one. simpl. by destruct (dget k vs). Qed.

(** A material's row shows the verdict-related columns of the last contract of its id; its
    format stays that of the first one. *)
Theorem material_row_is_its_history J k :
  dget k (tb_materials (replay J empty_tables))
  = match rows_under material_row_of k J with
    | [] => None
    | first :: rest => Some (material_update (List.last rest first) first)
    end.
Proof.
  rewrite (replay_history tb_materials material_row_of material_update materials_step).
  destruct (rows_under _ k J) as [|first rest]; [done|].
  apply (history_spec material_update (fun first rest => material_update (List.last rest first) first)).
  - by destruct first.
  - intros rows x. by rewrite last_last.
Qed.

(** *** Listings *)

(** [out] is the top of [matching]: sorted, at most [limit] rows after clamping and as many
    as there are, and nothing left out belongs before what is listed. *)
Definition top_of {R} (before : R -> R -> bool) (limit : Z) (matching out : list R) : Prop :=
  (exists rest, (out ++ rest)%list ≡ₚ matching
    /\ (forall a b, a ∈ out -> b ∈ rest -> before a b = true))
  /\ StronglySorted (fun a b => before a b = true) out
  /\ Z.of_nat (length out) = Z.min (Z.max 1 (Z.min limit 500)) (Z.of_nat (length matching)).

Hypothesis tie_perm : forall (R : Type) (l : list R), tie R l ≡ₚ l.

Lemma select_rows_is_top {R} (keep : R -> bool) (cmp : R -> R -> comparison) limit (t : list (string * R)) :
  orders cmp ->
  top_of (fun a b => desc (cmp a b)) limit (List.filter keep (dvalues t))
    (select_rows tie keep (fun a b => desc (cmp a b)) limit t).
Proof.
  intros Ho. destruct (select_rows_top tie keep (fun a b => desc (cmp a b)) (tie_perm R)
                         (fun x y => desc_total cmp x y Ho) (fun x y z => desc_trans cmp x y z Ho) limit t)
    as (rest & Hp & Hs & Hlast).
  split; [by exists rest|]. split; [done|].
  rewrite select_rows_ranked, length_take, (ranked_perm tie keep _ (tie_perm R)). lia.
Qed.

Lemma query_ok {A} (q : Tables -> A) dflt s tb :
  ss_conn s = Some tb -> sq_outcome_of (env (ss_statements s)) = SqlOk -> fst (sqlite_query env q dflt s) = q tb.
Proof. unfold sqlite_query. by intros -> ->. Qed.

(** The rows a listing may show. *)
Definition matching_candidates (f b : option string) (tb : Tables) : list CandidateRecord :=
  List.filter (fun r => column_is f (ct_candidate_confidence r) && column_is b (Some (ct_backend r)))
    (dvalues (tb_candidates tb)).

Definition matching_artifacts (f b : option string) (tb : Tables) : list SnapshotArtifact :=
  List.filter (fun a => column_is f (Some (sa_status a)) && column_is b (sa_backend a))
    (dvalues (tb_artifacts tb)).

(** A listing whose query succeeds is the top of the matching rows, whatever the order in
    which the engine visits them. *)
Theorem listings_are_exact limit f b s tb :
  ss_conn s = Some tb -> sq_outcome_of (env (ss_statements s)) = SqlOk ->
  (exists rows, fst (sqlite_list_candidates env tie limit f b s) = map candidate_dict rows
     /\ top_of candidate_before limit (matching_candidates f b tb) rows)
  /\ (exists rows, fst (sqlite_list_snapshot_artifacts env tie limit f b s) = map artifact_safe_dict rows
     /\ top_of (created_before sa_created_at) limit (matching_artifacts f b tb) rows).
Proof.
  intros Hc He. split.
  - unfold sqlite_list_candidates. rewrite (query_ok _ _ s tb Hc He). eexists. split; [done|].
    apply (select_rows_is_top _ _ _ _ candidate_orders).
  - unfold sqlite_list_snapshot_artifacts. rewrite (query_ok _ _ s tb Hc He). eexists. split; [done|].
    apply (select_rows_is_top _ _ _ _ (created_orders sa_created_at)).
Qed.

(** *** The laws of the protocol *)

Lemma query_cases {A} (q : Tables -> A) dflt s :
  fst (sqlite_query env q dflt s) = dflt \/ exists t, fst (sqlite_query env q dflt s) = q t.
Proof. unfold sqlite_query. destruct (ss_conn s); [destruct (sq_outcome_of _)|]; simpl; eauto. Qed.

Lemma sqlite_laws : StorageLaws SQLiteThreadWakeStorage.
Proof.
  split.
  - intros t limit f b s. destruct t; simpl;
      unfold sqlite_list_candidates, sqlite_list_snapshot_manifests, sqlite_list_snapshot_artifacts,
        sqlite_list_snapshot_materials;
      match goal with |- context [sqlite_query env ?q ?d s] => destruct (query_cases q d s) as [-> | [tb ->]] end;
      simpl; try lia; rewrite List.length_map; apply select_rows_bounded.
  - intros t limit f b s d Hb. destruct t; simpl;
      unfold sqlite_list_candidates, sqlite_list_snapshot_manifests, sqlite_list_snapshot_artifacts,
        sqlite_list_snapshot_materials;
      match goal with |- context [sqlite_query env ?q ?d s] => destruct (query_cases q d s) as [-> | [tb ->]] end;
      try (by intros []%elem_of_nil); intros (r & -> & Hr)%list_elem_of_fmap;
      apply (select_rows_elem tie _ _ (tie_perm _)) in Hr as [[_ Hr]%andb_prop _];
      pose proof (column_is_backend _ _ Hr Hb) as Heq; by rewrite <- Heq.
  - intros t s. destruct t; simpl;
      unfold sqlite_candidate_stats, sqlite_snapshot_manifest_stats, sqlite_snapshot_artifact_stats,
        sqlite_snapshot_material_stats;
      match goal with |- context [sqlite_query env ?q ?d s] => destruct (query_cases q d s) as [-> | [tb ->]] end;
      done.
Qed.
End sqlite.

(** ** Concrete failures *)

Definition demo_candidate : CandidateEntry :=
  mkCandidateEntry "p" (Some "mlx") (Some "m") None None (Some (9 # 10)%Q) (Some "high") (Some 10%Z) None None.

(** The first commit fails and the engine keeps the transaction. *)
Definition late_commit : nat -> SqlEnv :=
  fun n => mkSqlEnv "now" (match n with 0 => CommitFails false | _ => SqlOk end).

(** A write whose commit fails is counted as an error and not as an upsert, and still reaches
    the disk with the next write that commits: the counter of upserts can lag behind. *)
Theorem failed_commit_can_arrive_later :
  let s := snd (store_run (H := sqlite_storage late_commit (fun _ l => l))
                  [OpWrite (WCandidate demo_candidate); OpWrite (WCandidate demo_candidate)]
                  (sql_open true empty_tables)) in
  ss_persistence_errors s = 1%Z /\ ss_upserts_total s = 1%Z /\ seen_total (ss_disk s) = 2%Z.
Proof. vm_compute. done. Qed.

(** The listing of one candidate. *)
Lemma listings_are_exact_witness :
  let env := fun _ => mkSqlEnv "now" SqlOk in
  let s := sql_open true (mkTables [("p", candidate_row "now" demo_candidate)] [] [] [] []) in
  (forall (R : Type) (l : list R), (fun (_ : Type) l => l) R l ≡ₚ l)
  /\ ss_conn s = Some (ss_disk s) /\ sq_outcome_of (env (ss_statements s)) = SqlOk
  /\ exists rows, fst (sqlite_list_candidates env (fun _ l => l) 5 None None s) = map candidate_dict rows
       /\ top_of candidate_before 5 (matching_candidates None None (ss_disk s)) rows.
Proof.
  split; [done|]. split; [done|]. split; [done|].
  exact (proj1 (listings_are_exact (fun _ => mkSqlEnv "now" SqlOk) (fun _ l => l) (fun _ _ => reflexivity _)
                  5 None None (sql_open true (mkTables [("p", candidate_row "now" demo_candidate)] [] [] [] []))
                  _ eq_refl eq_refl)).
Defined.
