(* ===== verification/TWAnalysis.v ===== *)
(** * Candidate analysis and the snapshot life cycle
      ([runtime/threadwake/analysis_loop.py], the analyzer of [replay_analysis.py],
      [fake_lifecycle_harness.py] and [/runtime/threadwake/analysis] of [app.py])

    The analyzer turns the candidate listings of the index or of a store into ranked replay
    records; the analysis loop judges them with the snapshot policy and makes manifests and
    artifacts; the harness of the tests walks one record through all five stages.

    - A store is any instance of [ThreadWakeStorage].  Its methods do not raise (the theorems
      of [TWStoreProps] show both implementations answer every call), so the handlers around
      them are not taken.
    - [now] is the clock of one run, [age_days] and [sha256_hex] are as in [TWProof] and
      [TWSnap], [isoformat] prints a time of the index. *)

From S2P Require Import Prelude PyDict PyStr PySeq TWIndex TWTokens TWProof TWBackend TWSnap TWStore.
Open Scope string_scope.

(** ** Replay records ([replay_analysis.py]) *)

Definition as_str (v : option pyval) : option string :=
  match v with Some (PStr s) => Some s | _ => None end.

(** [r.get(key, 0) or 0] on the integer columns. *)
Definition as_int (v : option pyval) : Z :=
  match v with Some (PInt z) => z | _ => 0 end.

Definition as_float (v : option pyval) : Q :=
  match v with Some (PFloat q) => q | Some (PInt z) => inject_Z z | _ => 0 end.

(** The [CandidateReplayRecord] of a listed candidate. *)
Definition replay_record (r : list (string * pyval)) : CandidateRow :=
  mkRow
    (default "" (as_str (match dget "prefix_hash" r with Some v => Some v | None => dget "prompt_prefix_hash" r end)))
    (as_str (dget "backend" r)) (as_str (dget "model_id" r)) (as_str (dget "tokenizer_hash" r))
    (as_str (dget "chat_template_hash" r)) (as_int (dget "candidate_seen_count" r))
    (as_int (dget "potential_saved_tokens" r)) (as_float (dget "candidate_score" r))
    (as_float (dget "potential_saved_ratio" r)) (as_str (dget "candidate_confidence" r))
    (as_str (dget "first_seen_at" r))
    (if str_truthy (as_str (dget "last_seen_at" r)) then as_str (dget "last_seen_at" r)
     else as_str (dget "candidate_last_seen_at" r)).

Definition record_safe_dict (r : CandidateRow) : list (string * pyval) :=
  [("prefix_hash", PStr (cr_prefix_hash r)); ("backend", opt_str (cr_backend r));
   ("model_id", opt_str (cr_model_id r)); ("tokenizer_hash", opt_str (cr_tokenizer_hash r));
   ("chat_template_hash", opt_str (cr_chat_template_hash r)); ("seen_count", PInt (cr_seen_count r));
   ("potential_saved_tokens_total", PInt (cr_saved_tokens r));
   ("average_candidate_score", PFloat (py_round 4 (cr_score r)));
   ("average_potential_saved_ratio", PFloat (py_round 4 (cr_saved_ratio r)));
   ("confidence", opt_str (cr_confidence r)); ("first_seen_at", opt_str (cr_first_seen_at r));
   ("last_seen_at", opt_str (cr_last_seen_at r))].

Definition analyze_index (isoformat : Q -> string) (index : ThreadWakeIndex) (limit : Z)
    : CandidateReplaySummary :=
  build_summary (map replay_record (list_candidates isoformat 500 None None index)) limit.

Definition analyze_storage {S} `{ThreadWakeStorage S} (storage : S) (limit : Z)
    : CandidateReplaySummary * S :=
  let (candidates, storage) := st_list_candidates 500 None None storage in
  (build_summary (map replay_record candidates) limit, storage).

(** ** The analysis loop ([analysis_loop.py]) *)

Record AnalysisLoopResult := mkAnalysis {
  an_candidates_scanned : Z;
  an_candidates_eligible : Z;
  an_manifests_created : Z;
  an_artifacts_registered : Z;
  an_skipped : Z;
  an_errors : Z;
  an_details : list string;
}.

Definition new_analysis : AnalysisLoopResult := mkAnalysis 0 0 0 0 0 0 [].

Definition analysis_safe_dict (r : AnalysisLoopResult) : list (string * pyval) :=
  [("candidates_scanned", PInt (an_candidates_scanned r));
   ("candidates_eligible", PInt (an_candidates_eligible r));
   ("manifests_created", PInt (an_manifests_created r));
   ("artifacts_registered", PInt (an_artifacts_registered r)); ("skipped", PInt (an_skipped r));
   ("errors", PInt (an_errors r))].

Record ThreadWakeAnalysisLoop (S : Type) := mkLoop {
  lp_storage : option S;
  lp_artifact_registry : option SnapshotArtifactRegistry;
  lp_run_count : Z;
  lp_last_result : option AnalysisLoopResult;
}.
Arguments mkLoop {S}.
Arguments lp_storage {S}.
Arguments lp_artifact_registry {S}.
Arguments lp_run_count {S}.
Arguments lp_last_result {S}.

(** [SnapshotPolicyEngine()]: a new engine's statistics. *)
Definition new_policy_stats : PolicyStats := mkPolicyStats 0 0 0 [].

Section analysis.
Context {S : Type} `{ThreadWakeStorage S}.
Context (sha256_hex : string -> string) (age_days : string -> option Z) (isoformat : Q -> string).

(** What the loop over the top candidates changes. *)
Record analysis_scan := mkScan {
  sn_result : AnalysisLoopResult;
  sn_policy : PolicyStats;
  sn_storage : option S;
  sn_registry : option SnapshotArtifactRegistry;
}.

(** The turn of the loop for one record. *)
Definition analyze_record (now : string) (c : analysis_scan) (record : CandidateRow) : analysis_scan :=
  match c with mkScan (mkAnalysis scanned eligible manifests artifacts skipped errors details) policy storage registry =>
  let (e, policy) := evaluate_candidate age_days default_policy policy record in
  if negb (el_eligible e) then
    mkScan (mkAnalysis scanned eligible manifests artifacts (skipped + 1) errors details) policy storage registry
  else
    let eligible := (eligible + 1)%Z in
    match build_from_replay_record sha256_hex now record e with
    | None =>
        mkScan (mkAnalysis scanned eligible manifests artifacts skipped (errors + 1)
                  (details ++ ["manifest_build_failed"])) policy storage registry
    | Some manifest =>
        let manifests := (manifests + 1)%Z in
        let storage := st_upsert_snapshot_manifest manifest <$> storage in
        match registry with
        | None =>
            mkScan (mkAnalysis scanned eligible manifests artifacts skipped errors details) policy storage None
        | Some reg =>
            let artifact := build_from_manifest sha256_hex now manifest in
            let reg := register_artifact now artifact reg in
            mkScan (mkAnalysis scanned eligible manifests (artifacts + 1) skipped errors details) policy
              (st_upsert_snapshot_artifact artifact <$> storage) (Some reg)
        end
    end
  end%list.

(** [run]; [index] is the index the loop was made with. *)
Definition run_analysis (now : string) (index : option ThreadWakeIndex) (limit : Z)
    (loop : ThreadWakeAnalysisLoop S) : AnalysisLoopResult * ThreadWakeAnalysisLoop S :=
  match index with
  | None =>
      let result := mkAnalysis 0 0 0 0 0 0 ["no_index_available"] in
      (result, mkLoop (lp_storage loop) (lp_artifact_registry loop) (lp_run_count loop + 1) (Some result))
  | Some index =>
      let summary := analyze_index isoformat index limit in
      let start := mkAnalysis (su_total_candidates summary) 0 0 0 0 0 [] in
      let c := fold_left (analyze_record now) (su_top summary)
                 (mkScan start new_policy_stats (lp_storage loop) (lp_artifact_registry loop)) in
      (sn_result c, mkLoop (sn_storage c) (sn_registry c) (lp_run_count loop + 1) (Some (sn_result c)))
  end.

Definition last_result (loop : ThreadWakeAnalysisLoop S) : option (list (string * pyval)) :=
  analysis_safe_dict <$> lp_last_result loop.

(** [/runtime/threadwake/analysis]; [enabled] and [mode] are what the manager's health says. *)
Definition runtime_threadwake_analysis (enabled : bool) (mode : string) (now : string)
    (index : ThreadWakeIndex) (loop : ThreadWakeAnalysisLoop S)
    : list (string * pyval) * ThreadWakeAnalysisLoop S :=
  let loop := snd (run_analysis now (Some index) 50 loop) in
  let last := default [] (last_result loop) in
  let field k := (k, dget_or k (PInt 0) last) in
  ([("analysis",
      PDict (map field ["candidates_scanned"; "candidates_eligible"; "manifests_created";
                        "artifacts_registered"; "skipped"; "errors"]
             ++ [("run_count", PInt (lp_run_count loop))])%list);
    ("threadwake_status", PDict [("enabled", PBool enabled); ("mode", PStr mode)])], loop).
End analysis.

(** ** The life-cycle harness ([fake_lifecycle_harness.py]) *)

(** [_safe_stats] *)
Definition safe_stats (stats : list (string * pyval)) : list (string * pyval) :=
  map (fun p => (fst p, match snd p with PNone => PInt 0 | v => v end)) stats.

(** [_candidate_storage_entry] *)
Definition candidate_storage_entry (record : CandidateRow) (eligibility : SnapshotEligibility) : CandidateEntry :=
  mkCandidateEntry (cr_prefix_hash record)
    (Some (if str_truthy (cr_backend record) then default "" (cr_backend record) else "fake"))
    (Some (default "" (cr_model_id record))) (cr_tokenizer_hash record) (cr_chat_template_hash record)
    (Some (cr_score record)) (cr_confidence record) (Some (cr_saved_tokens record))
    (Some (cr_saved_ratio record)) (Some (el_reason eligibility)).

Record FakeThreadWakeLifecycleResult := mkLifecycle {
  fl_backend_capability : string;
  fl_candidate : option CandidateRow;
  fl_eligibility : option SnapshotEligibility;
  fl_manifest : option SnapshotManifest;
  fl_artifact : option SnapshotArtifact;
  fl_material : option SnapshotMaterialContract;
  fl_validation : option SnapshotMaterialValidationResult;
  fl_stage_order : list string;
  fl_storage_stats : list (string * list (string * pyval));
  fl_validation_recorded : bool;
  fl_completed : bool;
  fl_valid : bool;
  fl_terminal_reason : option string;
  fl_notes : list string;
}.

(** [SnapshotEligibility.safe_dict]; [evaluated_at] is when the decision was made. *)
Definition eligibility_safe_dict (evaluated_at : string) (e : SnapshotEligibility) : list (string * pyval) :=
  [("eligible", PBool (el_eligible e)); ("reason", PStr (el_reason e));
   ("candidate_score", PFloat (el_candidate_score e)); ("policy_version", PStr (el_policy_version e));
   ("evaluated_at", PStr evaluated_at)].

Definition lifecycle_safe_dict (evaluated_at : string) (r : FakeThreadWakeLifecycleResult)
    : list (string * pyval) :=
  let part {A} (f : A -> list (string * pyval)) (o : option A) := from_option (fun x => PDict (f x)) PNone o in
  [("backend_capability", PStr (fl_backend_capability r)); ("candidate", part record_safe_dict (fl_candidate r));
   ("eligibility", part (eligibility_safe_dict evaluated_at) (fl_eligibility r));
   ("manifest", part manifest_safe_dict (fl_manifest r)); ("artifact", part artifact_safe_dict (fl_artifact r));
   ("material", part material_safe_dict (fl_material r));
   ("validation", part validation_safe_dict (fl_validation r));
   ("stage_order", PList (map PStr (fl_stage_order r)));
   ("storage_stats", PDict (map (fun p => (fst p, PDict (snd p))) (fl_storage_stats r)));
   ("validation_recorded", PBool (fl_validation_recorded r)); ("completed", PBool (fl_completed r));
   ("valid", PBool (fl_valid r)); ("terminal_reason", opt_str (fl_terminal_reason r));
   ("notes", PList (map PStr (fl_notes r)))].

Record FakeThreadWakeLifecycleHarness (S : Type) := mkHarness {
  hn_backend_capability : string;
  hn_storage : S;
  hn_artifact_registry : SnapshotArtifactRegistry;
  hn_policy_config : SnapshotPolicyConfig;
  hn_policy : PolicyStats;
  hn_validator : ValidatorStats;
}.
Arguments mkHarness {S}.
Arguments hn_backend_capability {S}.
Arguments hn_storage {S}.
Arguments hn_artifact_registry {S}.
Arguments hn_policy_config {S}.
Arguments hn_policy {S}.
Arguments hn_validator {S}.

(** The policy engine a harness makes for itself. *)
Definition fake_policy : SnapshotPolicyConfig := mkPolicyConfig true 5 (4 # 5) (1 # 2) 30 ["fake"].

(** [__init__] around a given store, with the default parts. *)
Definition new_harness {S} (storage : S) : FakeThreadWakeLifecycleHarness S :=
  mkHarness (KVCapability_value RESUMABLE) storage [] fake_policy new_policy_stats new_validator.

(** [replace(record, backend="fake")] *)
Definition on_fake_backend (r : CandidateRow) : CandidateRow :=
  mkRow (cr_prefix_hash r) (Some "fake") (cr_model_id r) (cr_tokenizer_hash r) (cr_chat_template_hash r)
    (cr_seen_count r) (cr_saved_tokens r) (cr_score r) (cr_saved_ratio r) (cr_confidence r)
    (cr_first_seen_at r) (cr_last_seen_at r).

Section harness.
Context {S : Type} `{ThreadWakeStorage S}.
Context (sha256_hex : string -> string) (age_days : string -> option Z).

(** [_snapshot_storage_stats] *)
Definition snapshot_storage_stats (s : S) : list (string * list (string * pyval)) * S :=
  let (candidates, s) := st_candidate_stats s in
  let (manifests, s) := st_snapshot_manifest_stats s in
  let (artifacts, s) := st_snapshot_artifact_stats s in
  let (materials, s) := st_snapshot_material_stats s in
  ([("candidates", safe_stats candidates); ("manifests", safe_stats manifests);
    ("artifacts", safe_stats artifacts); ("materials", safe_stats materials)], s).

(** [run]; [event_id] is the id the store generates for the validation event. *)
Definition run_lifecycle (now event_id : string) (record : CandidateRow)
    (h : FakeThreadWakeLifecycleHarness S)
    : FakeThreadWakeLifecycleResult * FakeThreadWakeLifecycleHarness S :=
  match h with mkHarness capability storage registry config policy validator =>
  let candidate := if bool_decide (cr_backend record = Some "fake") then record else on_fake_backend record in
  if str_truthy (cr_backend record) && negb (bool_decide (cr_backend record = Some "fake")) then
    let (stats, storage) := snapshot_storage_stats storage in
    (mkLifecycle capability (Some record) None None None None None [] stats false false false
       (Some "backend_not_fake") ["fake_backend_required"],
     mkHarness capability storage registry config policy validator)
  else
    let (eligibility, policy) := evaluate_candidate age_days config policy candidate in
    let storage := st_upsert_candidate (candidate_storage_entry candidate eligibility) storage in
    if negb (el_eligible eligibility) then
      let reason := str_or (el_reason eligibility) "candidate_ineligible" in
      let (stats, storage) := snapshot_storage_stats storage in
      (mkLifecycle capability (Some candidate) (Some eligibility) None None None None ["candidate"] stats
         false false false (Some reason) ["candidate_rejected:" +:+ reason],
       mkHarness capability storage registry config policy validator)
    else
      match build_from_replay_record sha256_hex now candidate eligibility with
      | None =>
          let (stats, storage) := snapshot_storage_stats storage in
          (mkLifecycle capability (Some candidate) (Some eligibility) None None None None
             ["candidate"; "manifest"] stats false false false (Some "manifest_build_failed")
             ["manifest_build_failed"],
           mkHarness capability storage registry config policy validator)
      | Some manifest =>
          let storage := st_upsert_snapshot_manifest manifest storage in
          let artifact := build_from_manifest sha256_hex now manifest in
          let registry := register_artifact now artifact registry in
          let storage := st_upsert_snapshot_artifact artifact storage in
          let material := declare_from_artifact sha256_hex now artifact (Some manifest) in
          let storage := st_upsert_snapshot_material material storage in
          let (validation, validator) := validate now (Some material) validator in
          let storage := st_record_snapshot_material_validation event_id validation storage in
          let (stats, storage) := snapshot_storage_stats storage in
          (mkLifecycle capability (Some candidate) (Some eligibility) (Some manifest) (Some artifact)
             (Some material) (Some validation)
             ["candidate"; "manifest"; "artifact"; "material"; "validation"] stats true true
             (vr_valid validation) None
             [if vr_valid validation then "validation_passed"
              else "validation_failed:" +:+ vr_reason validation],
           mkHarness capability storage registry config policy validator)
      end
  end.

End harness.
