(* ===== verification/TWAnalysisProps.v ===== *)
(** * What candidate analysis and the snapshot life cycle promise

    A run of the analysis counts every ranked candidate once, registers exactly the accepted
    ones and does not depend on the store; what it registers never validates.  The life
    cycle performs one write per stage it completes. *)

From S2P Require Import Prelude PyDict PyStr PySeq TWIndex TWTokens TWProof TWProofProps TWBackend TWSnap TWSnapProps TWStore TWStoreProps TWAnalysis.
Open Scope string_scope.

(** ** The analysis loop *)

Lemma top_length raw limit :
  Z.of_nat (length (su_top (build_summary raw limit)))
  = Z.min (Z.max 1 (Z.min limit 100)) (su_total_candidates (build_summary raw limit)).
Proof.
  unfold build_summary. destruct raw as [|r raw]; [simpl; lia|]. cbn [su_top su_total_candidates].
  unfold rank_candidates. rewrite slice_to_length by lia. rewrite stable_sort_length. lia.
Qed.

Section analysis.
Context (sha256_hex : string -> string) (age_days : string -> option Z) (isoformat : Q -> string).

(** The manifest of a record the policy accepts. *)
Definition planned_manifest (now : string) (r : CandidateRow) : option SnapshotManifest :=
  match policy_decision age_days default_policy r with
  | inl _ => None
  | inr reason =>
      build_from_replay_record sha256_hex now r
        (mkEligibility true (SnapshotEligibilityReason_value reason) (cr_score r) POLICY_VERSION)
  end.

Definition planned (now : string) (top : list CandidateRow) : list SnapshotManifest :=
  omap (planned_manifest now) top.

(** The writes of one accepted record. *)
Definition plan_writes (now : string) (with_registry : bool) (m : SnapshotManifest) : list store_write :=
  WManifest m :: (if with_registry then [WArtifact (build_from_manifest sha256_hex now m)] else []).

Definition write_all {S} `{ThreadWakeStorage S} (ws : list store_write) (s : S) : S :=
  fold_left (fun s w => st_write w s) ws s.

Definition keeps_artifacts {S} (c : analysis_scan (S := S)) : bool :=
  match sn_registry c with Some _ => true | None => false end.

(** The counters after [n] more accepted and [k] more refused records. *)
Definition counted (r : AnalysisLoopResult) (with_registry : bool) (n k : Z) : AnalysisLoopResult :=
  mkAnalysis (an_candidates_scanned r) (an_candidates_eligible r + n) (an_manifests_created r + n)
    (an_artifacts_registered r + if with_registry then n else 0) (an_skipped r + k) (an_errors r) (an_details r).

Section store.
Context {S : Type} `{ThreadWakeStorage S}.

Lemma analyze_record_cases now (c : analysis_scan (S := S)) r :
  let c' := analyze_record sha256_hex age_days now c r in
  match planned_manifest now r with
  | None => sn_result c' = counted (sn_result c) (keeps_artifacts c) 0 1
            /\ sn_storage c' = sn_storage c /\ sn_registry c' = sn_registry c
  | Some m =>
      sn_result c' = counted (sn_result c) (keeps_artifacts c) 1 0
      /\ sn_storage c' = write_all (plan_writes now (keeps_artifacts c) m) <$> sn_storage c
      /\ sn_registry c' = register_artifact now (build_from_manifest sha256_hex now m) <$> sn_registry c
  end.
Proof.
  destruct c as [[sc el mf ar sk er de] pol sto [reg|]];
    unfold analyze_record, planned_manifest, evaluate_candidate, counted, keeps_artifacts; simpl;
    destruct (policy_decision age_days default_policy r) as [[reason score]|reason]; simpl;
    repeat split; try (f_equal; lia); by destruct sto.
Qed.

Lemma analyze_fold now top (c : analysis_scan (S := S)) :
  let c' := fold_left (analyze_record sha256_hex age_days now) top c in
  let ms := planned now top in
  let n := Z.of_nat (length ms) in
  sn_result c' = counted (sn_result c) (keeps_artifacts c) n (Z.of_nat (length top) - n)
  /\ sn_storage c' = write_all (concat (map (plan_writes now (keeps_artifacts c)) ms)) <$> sn_storage c
  /\ sn_registry c'
     = register_all (map (fun m => (now, build_from_manifest sha256_hex now m)) ms) <$> sn_registry c.
Proof.
  revert c. induction top as [|r top IH]; intros c.
  - simpl. destruct c as [[sc el mf ar sk er de] pol sto reg]; unfold counted; simpl.
    repeat split; [f_equal; try lia; destruct (keeps_artifacts _); lia | by destruct sto | by destruct reg].
  - cbn [fold_left]. specialize (IH (analyze_record sha256_hex age_days now c r)).
    pose proof (analyze_record_cases now c r) as Hc. cbn zeta in *.
    set (c1 := analyze_record sha256_hex age_days now c r) in *. clearbody c1.
    assert (Hreg : keeps_artifacts c1 = keeps_artifacts c).
    { unfold keeps_artifacts. destruct (planned_manifest now r); destruct Hc as (_ & _ & ->); by destruct (sn_registry c). }
    rewrite Hreg in IH. destruct IH as (-> & -> & ->). unfold planned in *. cbn [omap list_omap length].
    destruct (planned_manifest now r) as [m|]; destruct Hc as (-> & -> & ->).
    + unfold counted. cbn -[Z.of_nat]. repeat split.
      * f_equal; try lia; destruct (keeps_artifacts c); lia.
      * destruct (sn_storage c) as [s|]; [|done]. cbn. f_equal. unfold write_all. by rewrite fold_left_app.
      * by destruct (sn_registry c).
    + unfold counted. cbn -[Z.of_nat]. repeat split. f_equal; try lia; destruct (keeps_artifacts c); lia.
Qed.

(** A run with an index counts every ranked candidate once, as eligible or as skipped, and
    never an error; it makes one manifest per eligible candidate and, with a registry, registers
    one artifact; what it ranks is what it scanned, up to the limit. *)
Theorem analysis_run_exact now index limit (loop : ThreadWakeAnalysisLoop S) :
  let summary := analyze_index isoformat index limit in
  let ms := planned now (su_top summary) in
  let n := Z.of_nat (length ms) in
  let with_registry := match lp_artifact_registry loop with Some _ => true | None => false end in
  let (r, loop') := run_analysis sha256_hex age_days isoformat now (Some index) limit loop in
  r = mkAnalysis (su_total_candidates summary) n n (if with_registry then n else 0)
        (Z.min (Z.max 1 (Z.min limit 100)) (su_total_candidates summary) - n) 0 []
  /\ lp_run_count loop' = (lp_run_count loop + 1)%Z /\ lp_last_result loop' = Some r
  /\ lp_storage loop' = write_all (concat (map (plan_writes now with_registry) ms)) <$> lp_storage loop
  /\ lp_artifact_registry loop'
     = register_all (map (fun m => (now, build_from_manifest sha256_hex now m)) ms) <$> lp_artifact_registry loop.
Proof.
  unfold run_analysis. cbn zeta iota beta. set (summary := analyze_index isoformat index limit).
  match goal with |- context [fold_left _ _ ?c0] => destruct (analyze_fold now (su_top summary) c0) as (Hr & Hs & Hg) end.
  cbn -[Z.of_nat summary] in *. rewrite Hr, Hs, Hg. unfold keeps_artifacts, counted. cbn -[Z.of_nat summary].
  split; [|auto]. f_equal.
  pose proof (top_length (map replay_record (list_candidates isoformat 500 None None index)) limit) as Hl.
  fold (analyze_index isoformat index limit) in Hl. fold summary in Hl. lia.
Qed.
End store.

(** The store has no say: two loops over the same index and registry, with any stores or none,
    report the same and register the same. *)
Theorem analysis_ignores_the_store {S1 S2} `{ThreadWakeStorage S1} `{ThreadWakeStorage S2} now index limit
    (l1 : ThreadWakeAnalysisLoop S1) (l2 : ThreadWakeAnalysisLoop S2) :
  lp_artifact_registry l1 = lp_artifact_registry l2 ->
  let (r1, l1') := run_analysis sha256_hex age_days isoformat now (Some index) limit l1 in
  let (r2, l2') := run_analysis sha256_hex age_days isoformat now (Some index) limit l2 in
  r1 = r2 /\ lp_artifact_registry l1' = lp_artifact_registry l2'.
Proof.
  intros Hreg.
  pose proof (analyze_fold (S := S1) now (su_top (analyze_index isoformat index limit))) as H1.
  pose proof (analyze_fold (S := S2) now (su_top (analyze_index isoformat index limit))) as H2.
  unfold run_analysis. cbn zeta iota beta.
  match goal with |- context [fold_left _ _ ?c0] => destruct (H1 c0) as (Hr1 & _ & Hg1) end.
  rewrite Hr1. 
  match goal with |- context [fold_left (analyze_record (S := S2) _ _ _) _ ?c0] => destruct (H2 c0) as (Hr2 & _ & Hg2) end.
  rewrite Hr2. cbn [lp_artifact_registry]. rewrite Hg1, Hg2. unfold keeps_artifacts. cbn. by rewrite Hreg.
Qed.
End analysis.

(** *** What the index shows of a candidate *)

Lemma top_from_raw raw limit r : r ∈ su_top (build_summary raw limit) -> r ∈ raw.
Proof.
  unfold build_summary. destruct raw as [|x raw]; [by intros []%elem_of_nil|]. cbn [su_top].
  unfold rank_candidates, slice_to. intros Hr.
  assert (Hin : r ∈ stable_sort row_le (x :: raw)).
  { destruct (_ <? 0)%Z; apply elem_of_take in Hr as (i & Hi & _); by eapply list_elem_of_lookup_2. }
  by apply elem_of_stable_sort in Hin.
Qed.

(** A candidate ranked from the index has lost its tokenizer and template hashes. *)
Lemma index_record_hashes isoformat index limit r :
  r ∈ su_top (analyze_index isoformat index limit) ->
  cr_tokenizer_hash r = None /\ cr_chat_template_hash r = None /\ cr_first_seen_at r = None.
Proof.
  intros Hr%top_from_raw. apply list_elem_of_fmap in Hr as (d & -> & Hd).
  unfold list_candidates in Hd. cbn [str_truthy] in Hd.
  apply list_elem_of_fmap in Hd as (e & -> & _). done.
Qed.

Lemma planned_record sha age now top m :
  m ∈ planned sha age now top ->
  exists r e, r ∈ top /\ el_eligible e = true /\ build_from_replay_record sha now r e = Some m.
Proof.
  unfold planned. intros (r & Hr & Hm)%list_elem_of_omap. unfold planned_manifest in Hm.
  destruct (policy_decision age default_policy r) as [?|reason]; [done|].
  exists r. eexists. split; [done|]. split; [|exact Hm]. done.
Qed.

(** The validator's answer to a material without its tokenizer hash. *)
Lemma hashless_material_fails now m st :
  mt_tokenizer_hash m = None -> mt_chat_template_hash m = None ->
  let r := fst (validate now (Some m) st) in
  vr_valid r = false /\ "missing_tokenizer_hash" ∈ vr_errors r /\ "missing_chat_template_hash" ∈ vr_errors r.
Proof.
  intros Ht Hc. unfold validate, validation_failure.
  assert (Hin : forall f, (f, None) ∈ required_fields m -> ("missing_" +:+ f) ∈ missing_fields m).
  { intros f Hf. unfold missing_fields. apply list_elem_of_fmap. exists (f, None).
    split; [done|]. by apply elem_of_filter_List. }
  assert (H1 : "missing_tokenizer_hash" ∈ missing_fields m)
    by (apply (Hin "tokenizer_hash"); unfold required_fields; rewrite Ht; set_solver).
  assert (H2 : "missing_chat_template_hash" ∈ missing_fields m)
    by (apply (Hin "chat_template_hash"); unfold required_fields; rewrite Hc; set_solver).
  destruct (missing_fields m); [by apply elem_of_nil in H1|]. by simpl.
Qed.

(** An analysis of the index plans nothing the validator would accept: the listing of the index
    shows neither the tokenizer hash nor the template hash of a candidate, so every manifest
    and every artifact of every run is without them, and the material declared for any of
    them is invalid. *)
Theorem analysis_plans_never_validate {S} `{ThreadWakeStorage S} sha age_days isoformat now now' index limit
    (loop : ThreadWakeAnalysisLoop S) st :
  lp_artifact_registry loop = Some [] ->
  let (r, loop') := run_analysis sha age_days isoformat now (Some index) limit loop in
  exists ms reg,
    lp_artifact_registry loop' = Some reg /\ an_manifests_created r = Z.of_nat (length ms)
    /\ reg = register_all (map (fun m => (now, build_from_manifest sha now m)) ms) []
    /\ Forall (fun m =>
         let material := declare_from_artifact sha now' (build_from_manifest sha now m) (Some m) in
         let v := fst (validate now' (Some material) st) in
         vr_valid v = false /\ "missing_tokenizer_hash" ∈ vr_errors v) ms.
Proof.
  intros Hreg. unfold run_analysis. cbn zeta iota beta.
  match goal with |- context [fold_left _ ?top ?c0] =>
    destruct (analyze_fold sha age_days now top c0) as (Hr & _ & Hg); exists (planned sha age_days now top) end.
  rewrite Hr. unfold keeps_artifacts, counted in *. cbn -[Z.of_nat analyze_index] in *.
  rewrite Hg, Hreg. eexists. split; [done|]. split; [done|]. split; [done|].
  apply Forall_forall. intros m (r & e & Hin & He & Hm)%planned_record.
  apply index_record_hashes in Hin as (Ht & Hc & _).
  unfold build_from_replay_record in Hm. rewrite He in Hm. injection Hm as <-.
  match goal with |- context [validate now' (Some ?mat) st] =>
    destruct (hashless_material_fails now' mat st Ht Hc) as (H1 & H2 & _) end.
  done.
Qed.

(** ** The life cycle *)

(** The writes that belong to the stages a result shows, in the order of the stages. *)
Definition stage_writes (event_id : string) (r : FakeThreadWakeLifecycleResult) : list store_write :=
  (match fl_candidate r, fl_eligibility r with
   | Some c, Some e => [WCandidate (candidate_storage_entry c e)]
   | _, _ => []
   end
   ++ option_list (WManifest <$> fl_manifest r) ++ option_list (WArtifact <$> fl_artifact r)
   ++ option_list (WMaterial <$> fl_material r)
   ++ option_list (WValidation event_id <$> fl_validation r))%list.

(** The record names a backend that is not the fake one. *)
Definition other_backend (r : CandidateRow) : bool :=
  str_truthy (cr_backend r) && negb (bool_decide (cr_backend r = Some "fake")).

(** The candidate the harness works on. *)
Definition fake_candidate (r : CandidateRow) : CandidateRow :=
  if bool_decide (cr_backend r = Some "fake") then r else on_fake_backend r.

Lemma fake_candidate_fields r :
  cr_backend (fake_candidate r) = Some "fake" /\ cr_prefix_hash (fake_candidate r) = cr_prefix_hash r
  /\ cr_model_id (fake_candidate r) = cr_model_id r
  /\ cr_tokenizer_hash (fake_candidate r) = cr_tokenizer_hash r
  /\ cr_chat_template_hash (fake_candidate r) = cr_chat_template_hash r.
Proof. unfold fake_candidate. case_bool_decide; done. Qed.

(** The statistics in the goal are those of [E], up to computation. *)
Ltac reads_are E :=
  match type of E with _ = ?v =>
    match goal with |- context [snapshot_storage_stats ?x] =>
      replace (snapshot_storage_stats x) with v by (symmetry; exact E); done
    end
  end.

Section lifecycle.
Context {S : Type} `{ThreadWakeStorage S}.
Context (sha256_hex : string -> string) (age_days : string -> option Z).

(** A run writes once per stage it reaches, in order, and then reads the statistics; nothing
    else touches the store. *)
Theorem lifecycle_writes_once_per_stage now event_id record (h : FakeThreadWakeLifecycleHarness S) :
  let (r, h') := run_lifecycle sha256_hex age_days now event_id record h in
  let reads := snapshot_storage_stats (write_all (stage_writes event_id r) (hn_storage h)) in
  hn_storage h' = snd reads /\ fl_storage_stats r = fst reads
  /\ length (stage_writes event_id r) = length (fl_stage_order r).
Proof.
  destruct h as [cap sto reg config pol val]. unfold run_lifecycle. cbn [hn_storage].
  fold (other_backend record). fold (fake_candidate record).
  destruct (other_backend record).
  { destruct (snapshot_storage_stats sto) as [l s] eqn:E. cbn zeta. reads_are E. }
  destruct (evaluate_candidate age_days config pol (fake_candidate record)) as [e pol'].
  destruct (el_eligible e) eqn:Ee; cbn [negb].
  - unfold build_from_replay_record. rewrite Ee. cbn [negb].
    destruct (validate _ _ _) as [v val']. destruct (snapshot_storage_stats _) as [l s] eqn:E.
    cbn zeta. reads_are E.
  - destruct (snapshot_storage_stats _) as [l s] eqn:E. cbn zeta. reads_are E.
Qed.

(** A life cycle completes exactly when the record is not another backend's and the policy
    accepts it on the fake backend, and ends valid exactly when, in addition, the record
    has its prefix hash, model and both hashes; it then has all five stages, whose parts
    name each other.  Otherwise it says why and registers nothing. *)
Theorem lifecycle_outcome now event_id record (h : FakeThreadWakeLifecycleHarness S) :
  let (r, h') := run_lifecycle sha256_hex age_days now event_id record h in
  (fl_completed r = true <->
     other_backend record = false /\ acceptable age_days (hn_policy_config h) (fake_candidate record))
  /\ (fl_valid r = true <->
       fl_completed r = true /\ cr_prefix_hash record <> "" /\ nonempty (cr_model_id record)
       /\ nonempty (cr_tokenizer_hash record) /\ nonempty (cr_chat_template_hash record))
  /\ (fl_completed r = true ->
       fl_stage_order r = ["candidate"; "manifest"; "artifact"; "material"; "validation"]
       /\ exists m a mt, fl_manifest r = Some m /\ fl_artifact r = Some a /\ fl_material r = Some mt
            /\ sa_manifest_id a = sm_manifest_id m /\ mt_artifact_id mt = sa_artifact_id a
            /\ mt_manifest_id mt = sm_manifest_id m
            /\ hn_artifact_registry h' = register_artifact now a (hn_artifact_registry h))
  /\ (fl_completed r = false ->
       (exists why, fl_terminal_reason r = Some why)
       /\ hn_artifact_registry h' = hn_artifact_registry h /\ hn_validator h' = hn_validator h).
Proof.
  destruct h as [cap sto reg config pol val]. unfold run_lifecycle.
  fold (other_backend record). fold (fake_candidate record). cbn [hn_policy_config hn_artifact_registry hn_validator].
  destruct (other_backend record) eqn:Eo.
  { destruct (snapshot_storage_stats sto). simpl. repeat split; try done; try naive_solver. }
  pose proof (policy_decision_exact age_days config (fake_candidate record)) as Hdec.
  unfold evaluate_candidate.
  destruct (policy_decision age_days config (fake_candidate record)) as [[reason score]|reason]; cbn [el_eligible negb].
  { destruct (snapshot_storage_stats _). simpl.
    assert (~ acceptable age_days config (fake_candidate record)) by (rewrite <- Hdec; by intros [? ?]).
    repeat split; try done; try naive_solver. }
  assert (acceptable age_days config (fake_candidate record)) by (apply Hdec; eauto).
  match goal with |- context [build_from_replay_record ?f now ?c ?e] =>
    destruct (build_from_replay_record f now c e) as [m|] eqn:Em; [|done];
    pose proof (declared_material_verdict f now now c e m Em) as Hv end.
  cbn zeta in Hv.
  match goal with |- context [validate now (Some ?mat) val] =>
    pose proof (validation_failure_none mat) as Hf; unfold validate;
    destruct (validation_failure (Some mat)) as [[why errs]|] end; cbn iota beta;
    destruct (snapshot_storage_stats _); simpl;
    (split; [done|]); (split; [|split; [|done]]).
  - split; [done|]. intros (_ & Hall). exfalso.
    destruct (fake_candidate_fields record) as (Hb & Hp & Hm & Ht & Hc).
    assert (Some (why, errs) = None); [|done]. apply Hf, Hv. rewrite Hb, Hp, Hm, Ht, Hc.
    destruct Hall as (? & ? & ? & ?). repeat split; try done. exists "fake". split; [done|].
    apply list_elem_of_In. simpl. auto.
  - intros _. split; [done|]. eauto 10.
  - split; [|done]. intros _. split; [done|].
    destruct (fake_candidate_fields record) as (Hb & Hp & Hm & Ht & Hc).
    rewrite Hb, Hp, Hm, Ht, Hc in Hv. destruct (proj1 Hv (proj1 Hf eq_refl)) as (? & ? & ? & ? & _). done.
  - intros _. split; [done|]. eauto 10.
Qed.
End lifecycle.

(** ** The store under the analysis *)

(** Over no rows the SQL sums are null where the storage that stores nothing answers zero;
    only what passes [_safe_stats] looks the same. *)
Theorem empty_store_statistics :
  dget "planned" (manifest_stats_of empty_tables) = Some PNone
  /\ dget "planned" noop_manifest_stats = Some (PInt 0)
  /\ safe_stats (manifest_stats_of empty_tables) = noop_manifest_stats
  /\ safe_stats (artifact_stats_of empty_tables) = noop_artifact_stats
  /\ safe_stats (material_stats_of empty_tables) = noop_material_stats
  /\ take 6 (safe_stats (candidate_stats_of empty_tables)) = take 6 noop_candidate_stats.
Proof. done. Qed.

Lemma summary_totals raw limit :
  su_total_candidates (build_summary raw limit) = Z.of_nat (length raw)
  /\ su_total_seen_count (build_summary raw limit) = sumZ (map cr_seen_count raw)
  /\ su_total_potential_saved_tokens (build_summary raw limit) = sumZ (map cr_saved_tokens raw).
Proof. by destruct raw. Qed.

Section sqlite_analysis.
Context (env : nat -> SqlEnv) (tie : forall R : Type, list R -> list R).
Hypothesis tie_perm : forall (R : Type) (l : list R), tie R l ≡ₚ l.

#[local] Instance sqlite' : ThreadWakeStorage SQLiteThreadWakeStorage := sqlite_storage env tie.

(** While the table has at most 500 prefixes, the analysis of the store counts every
    observation it holds, whatever the limit of the ranking. *)
Theorem analysis_counts_every_observation s tb limit :
  ss_conn s = Some tb -> sq_outcome_of (env (ss_statements s)) = SqlOk ->
  length (tb_candidates tb) <= 500 ->
  let summary := fst (analyze_storage s limit) in
  su_total_candidates summary = Z.of_nat (length (tb_candidates tb))
  /\ su_total_seen_count summary = seen_total tb.
Proof.
  intros Hc He Hlen. unfold analyze_storage. cbn [st_list_candidates sqlite' sqlite_storage].
  unfold sqlite_list_candidates, sqlite_query. rewrite Hc, He. cbn [fst].
  destruct (summary_totals (map replay_record (map candidate_dict (select_rows tie
      (fun r => column_is None (ct_candidate_confidence r) && column_is None (Some (ct_backend r)))
      candidate_before 500 (tb_candidates tb)))) limit) as (H1 & H2 & _).
  rewrite H1, H2. rewrite !List.length_map, !map_map.
  rewrite select_rows_ranked.
  set (keep := fun r : CandidateRecord => _).
  pose proof (ranked_perm tie keep candidate_before (tie_perm _) (tb_candidates tb)) as Hp.
  rewrite (filter_all keep) in Hp by done.
  assert (Hl : length (ranked tie keep candidate_before (tb_candidates tb)) = length (tb_candidates tb))
    by (rewrite Hp; unfold dvalues; apply length_fmap).
  rewrite take_ge by (rewrite Hl; lia). split; [by rewrite Hl|].
  unfold seen_total. apply sumZ_perm. change (fun x => cr_seen_count (replay_record (candidate_dict x)))
    with ct_candidate_seen_count. by rewrite Hp.
Qed.
End sqlite_analysis.

(** *** The registry and the artifact table *)

(** An artifact but for the time of its last change. *)
Definition unstamped (a : SnapshotArtifact) : SnapshotArtifact :=
  mkArtifact (sa_artifact_id a) (sa_manifest_id a) (sa_prefix_hash a) (sa_backend a) (sa_model_id a)
    (sa_tokenizer_hash a) (sa_chat_template_hash a) (sa_status a) (sa_policy_version a)
    (sa_artifact_version a) (sa_build_attempts a) (sa_notes a) (sa_created_at a) "" (sa_last_seen_at a).

(** The two dictionaries hold the same artifacts in the same order, as the broker makes them. *)
Definition agree (reg t : list (string * SnapshotArtifact)) : Prop :=
  map (prod_map id unstamped) reg = map (prod_map id unstamped) t
  /\ Forall (fun p => sa_last_seen_at (snd p) = None) reg.

Lemma dget_map {V W} (f : V -> W) k (d : list (string * V)) :
  dget k (map (prod_map id f) d) = f <$> dget k d.
Proof. induction d as [|[k' v] d IH]; simpl; [done|]. by case_decide. Qed.

Lemma dset_map {V W} (f : V -> W) k v (d : list (string * V)) :
  map (prod_map id f) (dset k v d) = dset k (f v) (map (prod_map id f) d).
Proof. induction d as [|[k' v'] d IH]; simpl; [done|]. case_decide; simpl; [done|]. by rewrite IH. Qed.

Lemma Forall_dset {V} (P : string * V -> Prop) k v (d : list (string * V)) :
  P (k, v) -> (forall k', P (k', v)) -> Forall P d -> Forall P (dset k v d).
Proof. intros Hk Hall. induction 1; simpl; [by repeat constructor|]. destruct x. case_decide; constructor; auto. Qed.

Lemma unstamped_step a e e' now :
  unstamped e = unstamped e' -> sa_last_seen_at e = None -> sa_notes a = None -> sa_last_seen_at a = None ->
  unstamped (reregister now a e) = unstamped (artifact_update a e').
Proof.
  intros He Hl Hn Ha. unfold unstamped in *. injection He. intros.
  unfold reregister, artifact_update. simpl. rewrite Hn, Ha, Hl. simpl.
  f_equal; first [assumption | by f_equal].
Qed.

Lemma agree_step sha now m reg t :
  agree reg t ->
  agree (register_artifact now (build_from_manifest sha now m) reg)
    (upsert (artifact_id_for sha (sm_manifest_id m)) (build_from_manifest sha now m) artifact_update t).
Proof.
  intros [Hm Hl]. set (a := build_from_manifest sha now m).
  change (artifact_id_for sha (sm_manifest_id m)) with (sa_artifact_id a). unfold register_artifact, upsert.
  assert (Hg : unstamped <$> dget (sa_artifact_id a) reg = unstamped <$> dget (sa_artifact_id a) t)
    by (by rewrite <- !dget_map, Hm).
  destruct (dget (sa_artifact_id a) reg) as [e|] eqn:E1, (dget (sa_artifact_id a) t) as [e'|] eqn:E2; try done.
  - assert (He : sa_last_seen_at e = None).
    { rewrite Forall_forall in Hl. apply (Hl (sa_artifact_id a, e)). by apply dget_Some_elem. }
    split; [|by apply Forall_dset; simpl; auto]. rewrite !dset_map, Hm. f_equal.
    apply (inj Some) in Hg. by apply unstamped_step.
  - split; [|by apply Forall_dset; simpl; auto]. by rewrite !dset_map, Hm.
Qed.

Section agreement.
Context (env : nat -> SqlEnv) (tie : forall R : Type, list R -> list R).
Context (sha : string -> string) (age_days : string -> option Z) (isoformat : Q -> string).

#[local] Instance sqlite'' : ThreadWakeStorage SQLiteThreadWakeStorage := sqlite_storage env tie.

(** No statement of the store fails. *)
Hypothesis no_failure : forall n, sq_outcome_of (env n) = SqlOk.

(** The artifacts a connected store has on disk and shows. *)
Definition stored (s : SQLiteThreadWakeStorage) (t : list (string * SnapshotArtifact)) : Prop :=
  exists tb, ss_conn s = Some tb /\ ss_disk s = tb /\ tb_artifacts tb = t.

Lemma write_stored w s t :
  (forall k r, w <> WValidation k r) -> stored s t ->
  stored (st_write w s)
    match w with
    | WArtifact a => if has_key w then upsert (sa_artifact_id a) a artifact_update t else t
    | _ => t
    end.
Proof.
  intros Hv (tb & Hc & Hd & <-). rewrite (sqlite_st_write env tie). unfold sqlite_write.
  rewrite Hc, no_failure. destruct (has_key w); cbn [negb]; [|by destruct w; exists tb].
  destruct tb as [cs ms ars mts vs]. destruct w; simpl; try (eexists; split; [done|]; split; done).
  by destruct (Hv event_id result).
Qed.

Lemma plan_agrees now ms reg s t :
  agree reg t -> stored s t ->
  exists t', stored (write_all (concat (map (plan_writes sha now true) ms)) s) t'
    /\ agree (register_all (map (fun m => (now, build_from_manifest sha now m)) ms) reg) t'.
Proof.
  revert reg s t. induction ms as [|m ms IH]; intros reg s t Ha Hs; [by exists t|].
  apply (write_stored (WManifest m)) in Hs; [|done].
  apply (write_stored (WArtifact (build_from_manifest sha now m))) in Hs; [|done].
  exact (IH _ _ _ (agree_step sha now m reg t Ha) Hs).
Qed.

(** While no statement fails, a loop's registry and the artifact table of its store hold the
    same artifacts in the same order through every run, but for the time of their last
    change, and all of them are on disk. *)
Theorem registry_and_store_agree now index limit loop s reg t :
  lp_storage loop = Some s -> lp_artifact_registry loop = Some reg ->
  stored s t -> agree reg t ->
  let loop' := snd (run_analysis sha age_days isoformat now index limit loop) in
  exists s' reg' t', lp_storage loop' = Some s' /\ lp_artifact_registry loop' = Some reg'
    /\ stored s' t' /\ agree reg' t'.
Proof.
  intros Hst Hrg Hs Ha. destruct index as [index|]; [|by exists s, reg, t].
  unfold run_analysis. cbn zeta iota beta.
  match goal with |- context [fold_left _ ?top ?c0] =>
    destruct (analyze_fold sha age_days now top c0) as (_ & -> & ->);
    destruct (plan_agrees now (planned sha age_days now top) reg s t Ha Hs) as (t' & Hs' & Ha') end.
  unfold keeps_artifacts. cbn [sn_storage sn_registry lp_storage lp_artifact_registry snd].
  rewrite Hst, Hrg. eexists _, _, t'. by split; [|split; [|split]].
Qed.
End agreement.

(** ** Concrete runs *)

(** One candidate, seen six times, with both its hashes. *)
Definition demo_entry : ThreadWakeIndexEntry :=
  mkEntry "k" "m" "mlx" "p" 4096 OBSERVED "thread" None None 0 0 0 0 (Some (9 # 10)%Q) (Some "high") None
    (Some "proof_compatible") (Some 3000%Z) (Some (3 # 4)%Q) 6 (Some 0%Q) (Some "tok") (Some "tmpl").

Definition demo_index : ThreadWakeIndex :=
  set_store [("k", demo_entry)] ["k"] 0 (new_index 10 1000 1 false).

Definition demo_loop : ThreadWakeAnalysisLoop NoOpThreadWakeStorage := mkLoop None (Some []) 0 None.

Lemma analysis_plans_never_validate_witness :
  let run := run_analysis (fun s => s) (fun _ => Some 0%Z) (fun _ => "t") "now" (Some demo_index) 50 demo_loop in
  lp_artifact_registry demo_loop = Some []
  /\ an_manifests_created (fst run) = 1%Z /\ an_errors (fst run) = 0%Z
  /\ exists ms reg,
    lp_artifact_registry (snd run) = Some reg /\ an_manifests_created (fst run) = Z.of_nat (length ms)
    /\ reg = register_all (map (fun m => ("now", build_from_manifest (fun s => s) "now" m)) ms) []
    /\ Forall (fun m =>
         let material := declare_from_artifact (fun s => s) "later" (build_from_manifest (fun s => s) "now" m) (Some m) in
         let v := fst (validate "later" (Some material) new_validator) in
         vr_valid v = false /\ "missing_tokenizer_hash" ∈ vr_errors v) ms.
Proof.
  split; [done|]. split; [vm_compute; reflexivity|]. split; [vm_compute; reflexivity|].
  exact (analysis_plans_never_validate (fun s => s) (fun _ => Some 0%Z) (fun _ => "t") "now" "later"
           demo_index 50 demo_loop new_validator eq_refl).
Defined.

(** A candidate of the fake backend that goes through all five stages and is valid. *)
Definition demo_record : CandidateRow :=
  mkRow "p" None (Some "m") (Some "tok") (Some "tmpl") 6 3000 (9 # 10)%Q (3 # 4)%Q (Some "high") None None.

Example lifecycle_can_end_valid :
  let r := fst (run_lifecycle (fun s => s) (fun _ => Some 0%Z) "now" "event" demo_record (new_harness mkNoOpStorage)) in
  fl_valid r = true /\ fl_notes r = ["validation_passed"].
Proof. vm_compute. done. Qed.

(** The store with whose commits nothing goes wrong, on an empty database. *)
Definition calm : nat -> SqlEnv := fun _ => mkSqlEnv "now" SqlOk.

Definition demo_store_loop : ThreadWakeAnalysisLoop SQLiteThreadWakeStorage :=
  mkLoop (Some (sql_open true empty_tables)) (Some []) 0 None.

Lemma registry_and_store_agree_witness :
  let run := run_analysis (H := sqlite_storage calm (fun _ l => l)) (fun s => s) (fun _ => Some 0%Z) (fun _ => "t")
               "now" (Some demo_index) 50 demo_store_loop in
  stored (sql_open true empty_tables) [] /\ agree [] []
  /\ an_artifacts_registered (fst run) = 1%Z
  /\ exists s' reg' t', lp_storage (snd run) = Some s' /\ lp_artifact_registry (snd run) = Some reg'
       /\ stored s' t' /\ agree reg' t'.
Proof.
  assert (Hs : stored (sql_open true empty_tables) []) by (by exists empty_tables).
  assert (Ha : agree [] []) by done.
  split; [exact Hs|]. split; [exact Ha|]. split; [vm_compute; reflexivity|].
  exact (registry_and_store_agree calm (fun _ l => l) (fun s => s) (fun _ => Some 0%Z) (fun _ => "t")
           (fun _ => eq_refl) "now" (Some demo_index) 50 demo_store_loop _ [] [] eq_refl eq_refl Hs Ha).
Defined.
