(* ===== verification/Continuous.v ===== *)
(** * The continuous-batching contract and its fake token-level scheduler
      ([continuous_batching.py], [continuous_scheduler.py])

    The contract is a data model (requests, slots, output chunks) with three validators.  The
    scheduler moves requests through it: a request waits for an empty slot, is prefilled,
    decodes one chunk per step, drains and completes; it can be cancelled, timed out or failed
    at any time.

    - [_requests] is a dictionary in insertion order; its request objects occur nowhere else,
      so a loop that mutates them is a map over the dictionary.
    - [_slots] is a list of objects that the code mutates in place; a slot is addressed by
      its index.
    - [_update_slot_state] has an empty body, so its calls leave no trace in the model: a slot
      never reaches [PREFILL], [DECODING] or [DRAINING].

    [step] is one call of a public method, [run] a history of calls with what the calls of
    [drain_outputs] returned. *)

From S2P Require Import Prelude PyDict PyStr PySeq.
Open Scope string_scope.

(** ** The contract ([continuous_batching.py]) *)

Inductive ContinuousBatchingStatus := CB_UNSUPPORTED | CB_CONTRACT_ONLY | CB_EXPERIMENTAL.

Inductive ContinuousRequestState :=
| CR_ADMITTED | CR_PREFILL_PENDING | CR_PREFILL_RUNNING | CR_DECODE_ACTIVE | CR_STREAM_DRAINING
| CR_COMPLETED | CR_FAILED | CR_CANCELLED | CR_TIMED_OUT.

#[export] Instance ContinuousRequestState_eq_dec : EqDecision ContinuousRequestState.
Proof. solve_decision. Defined.

Record ContinuousRequestHandle := mkHandle {
  ch_request_id : string;
  ch_model : string;
  ch_backend : string;
  ch_stream : bool;
  ch_admitted_at : Q;
  ch_max_tokens : option Z;
  ch_sampling_class : option string;
}.

Inductive ContinuousSlotState :=
| CS_EMPTY | CS_RESERVED | CS_PREFILL | CS_DECODING | CS_DRAINING | CS_RELEASED | CS_FAILED.

#[export] Instance ContinuousSlotState_eq_dec : EqDecision ContinuousSlotState.
Proof. solve_decision. Defined.

Record ContinuousSlot := mkSlot {
  sl_slot_id : string;
  sl_state : ContinuousSlotState;
  sl_request_id : option string;
  sl_decode_step_index : Z;
}.

Inductive ContinuousFinishReason := CF_STOP | CF_LENGTH | CF_CANCELLED | CF_TIMEOUT | CF_ERROR.

#[export] Instance ContinuousFinishReason_eq_dec : EqDecision ContinuousFinishReason.
Proof. solve_decision. Defined.

Record ContinuousOutputChunk := mkChunk {
  oc_request_id : string;
  oc_slot_id : string;
  oc_sequence_index : Z;
  oc_text : option string;
  oc_finish_reason : option ContinuousFinishReason;
}.

Inductive ContinuousBatchInvariantViolation :=
| DUPLICATE_SLOT_ASSIGNMENT | UNKNOWN_REQUEST_ID | TERMINAL_STATE_REENTERED
| OUTPUT_DEMUX_MISMATCH | ACTIVE_ACCOUNTING_MISMATCH | PROMPT_LEAK | TOKEN_LEAK.

#[export] Instance ContinuousBatchInvariantViolation_eq_dec :
  EqDecision ContinuousBatchInvariantViolation.
Proof. solve_decision. Defined.

(** Membership in the set [terminal], written out at each use in the code. *)
Definition cr_terminal (s : ContinuousRequestState) : bool :=
  match s with CR_COMPLETED | CR_FAILED | CR_CANCELLED | CR_TIMED_OUT => true | _ => false end.

(** [seen] is the set built so far. *)
Fixpoint slot_violations (seen : list string) (slots : list ContinuousSlot)
    : list ContinuousBatchInvariantViolation :=
  match slots with
  | [] => []
  | slot :: slots =>
      match sl_request_id slot with
      | None => slot_violations seen slots
      | Some rid =>
          (if bool_decide (sl_state slot = CS_RELEASED) then [DUPLICATE_SLOT_ASSIGNMENT] else [])
          ++ (if bool_decide (rid ∈ seen) then [DUPLICATE_SLOT_ASSIGNMENT] else [])
          ++ slot_violations (rid :: seen) slots
      end
  end%list.

Definition validate_slot_assignments (slots : list ContinuousSlot)
    : list ContinuousBatchInvariantViolation := slot_violations [] slots.

Definition validate_terminal_state_not_reentered (handles : list ContinuousRequestHandle)
    (terminal_reasons : list (string * ContinuousRequestState))
    : list ContinuousBatchInvariantViolation :=
  flat_map (fun h =>
    match dget (ch_request_id h) terminal_reasons with
    | Some reason => if cr_terminal reason then [TERMINAL_STATE_REENTERED] else []
    | None => []
    end) handles.

(** [per_request_seq] is the dictionary of the last sequence index per request. *)
Fixpoint demux_violations (active_request_ids active_slot_ids : list string)
    (per_request_seq : list (string * Z)) (chunks : list ContinuousOutputChunk)
    : list ContinuousBatchInvariantViolation :=
  match chunks with
  | [] => []
  | chunk :: chunks =>
      (if bool_decide (oc_request_id chunk ∈ active_request_ids) then [] else [OUTPUT_DEMUX_MISMATCH])
      ++ (if bool_decide (oc_slot_id chunk ∈ active_slot_ids) then [] else [OUTPUT_DEMUX_MISMATCH])
      ++ (let prev := dget_or (oc_request_id chunk) (-1)%Z per_request_seq in
          if (oc_sequence_index chunk <=? prev)%Z then [OUTPUT_DEMUX_MISMATCH] else [])
      ++ demux_violations active_request_ids active_slot_ids
           (dset (oc_request_id chunk) (oc_sequence_index chunk) per_request_seq) chunks
  end%list.

Definition validate_output_demux (chunks : list ContinuousOutputChunk)
    (active_request_ids active_slot_ids : list string)
    : list ContinuousBatchInvariantViolation :=
  demux_violations active_request_ids active_slot_ids [] chunks.

(** ** The scheduler's state ([continuous_scheduler.py]) *)

Record FakeContinuousSchedulerConfig := mkSchedConfig {
  max_slots : Z;
  max_prefill_per_tick : Z;
  max_decode_per_tick : Z;
  max_decode_steps_per_request : Z;
}.

Definition default_sched_config : FakeContinuousSchedulerConfig := mkSchedConfig 2 2 2 3.

Record FakeContinuousRequest := mkFakeRequest {
  fr_handle : ContinuousRequestHandle;
  fr_state : ContinuousRequestState;
  fr_slot_id : option string;
  fr_prefill_ticks_remaining : Z;
  fr_decode_steps_completed : Z;
  fr_output_chunks : list ContinuousOutputChunk;
  fr_finish_reason : option ContinuousFinishReason;
}.

Definition new_fake_request (handle : ContinuousRequestHandle) : FakeContinuousRequest :=
  mkFakeRequest handle CR_ADMITTED None 1 0 [] None.

Definition set_fr_state st (r : FakeContinuousRequest) : FakeContinuousRequest :=
  mkFakeRequest (fr_handle r) st (fr_slot_id r) (fr_prefill_ticks_remaining r)
    (fr_decode_steps_completed r) (fr_output_chunks r) (fr_finish_reason r).

Record FakeTokenLevelScheduler := mkSched {
  fs_config : FakeContinuousSchedulerConfig;
  fs_requests : list (string * FakeContinuousRequest);
  fs_slots : list ContinuousSlot;
  fs_tick_index : Z;
  fs_pending_admission : list string;
}.

(** [f"slot-{i}"] *)
Definition slot_name (i : nat) : string := "slot-" +:+ pretty i.

Definition init_slots (config : FakeContinuousSchedulerConfig) : list ContinuousSlot :=
  map (fun i => mkSlot (slot_name i) CS_EMPTY None 0) (seq 0 (Z.to_nat (max_slots config))).

Definition new_token_scheduler (config : FakeContinuousSchedulerConfig) : FakeTokenLevelScheduler :=
  mkSched config [] (init_slots config) 0 [].

(** ** Admission and the end of a request *)

Definition sched_admit (handle : ContinuousRequestHandle) (s : FakeTokenLevelScheduler)
    : FakeTokenLevelScheduler :=
  mkSched (fs_config s) (dset (ch_request_id handle) (new_fake_request handle) (fs_requests s))
    (fs_slots s) (fs_tick_index s) (fs_pending_admission s ++ [ch_request_id handle])%list.

Definition release_slot (slot : ContinuousSlot) : ContinuousSlot :=
  mkSlot (sl_slot_id slot) CS_RELEASED None (sl_decode_step_index slot).

(** The first slot owned by the request is released, the others stay. *)
Fixpoint release_slot_for (request_id : string) (slots : list ContinuousSlot)
    : list ContinuousSlot :=
  match slots with
  | [] => []
  | slot :: slots =>
      if bool_decide (sl_request_id slot = Some request_id) then release_slot slot :: slots
      else slot :: release_slot_for request_id slots
  end.

(** The common body of [cancel], [timeout] and [fail_request]. *)
Definition end_request (st : ContinuousRequestState) (reason : ContinuousFinishReason)
    (request_id : string) (s : FakeTokenLevelScheduler) : FakeTokenLevelScheduler :=
  match dget request_id (fs_requests s) with
  | None => s
  | Some req =>
      if cr_terminal (fr_state req) then s
      else
        let req := mkFakeRequest (fr_handle req) st (fr_slot_id req)
          (fr_prefill_ticks_remaining req) (fr_decode_steps_completed req)
          (fr_output_chunks req) (Some reason) in
        mkSched (fs_config s) (dset request_id req (fs_requests s))
          (release_slot_for request_id (fs_slots s)) (fs_tick_index s) (fs_pending_admission s)
  end.

Definition sched_cancel : string -> FakeTokenLevelScheduler -> FakeTokenLevelScheduler :=
  end_request CR_CANCELLED CF_CANCELLED.

Definition sched_timeout : string -> FakeTokenLevelScheduler -> FakeTokenLevelScheduler :=
  end_request CR_TIMED_OUT CF_TIMEOUT.

Definition sched_fail_request : string -> FakeTokenLevelScheduler -> FakeTokenLevelScheduler :=
  end_request CR_FAILED CF_ERROR.

(** ** A tick *)

(** The index of the first empty slot. *)
Definition find_empty_slot (slots : list ContinuousSlot) : option (nat * ContinuousSlot) :=
  list_find (fun slot => sl_state slot = CS_EMPTY) slots.

Definition reserve_slot (rid : string) (slot : ContinuousSlot) : ContinuousSlot :=
  mkSlot (sl_slot_id slot) CS_RESERVED (Some rid) (sl_decode_step_index slot).

Definition assign_slot (rid : string) (req : FakeContinuousRequest) (i : nat)
    (slot : ContinuousSlot) (s : FakeTokenLevelScheduler) : FakeTokenLevelScheduler :=
  mkSched (fs_config s)
    (dset rid (mkFakeRequest (fr_handle req) CR_PREFILL_PENDING (Some (sl_slot_id slot))
       (fr_prefill_ticks_remaining req) (fr_decode_steps_completed req) (fr_output_chunks req)
       (fr_finish_reason req)) (fs_requests s))
    (<[i := reserve_slot rid slot]> (fs_slots s)) (fs_tick_index s)
    (remove_first rid (fs_pending_admission s)).

Definition drop_pending (rid : string) (s : FakeTokenLevelScheduler) : FakeTokenLevelScheduler :=
  mkSched (fs_config s) (fs_requests s) (fs_slots s) (fs_tick_index s)
    (remove_first rid (fs_pending_admission s)).

(** The loop over a copy of [_pending_admission]; it returns at the first request for which
    no slot is empty. *)
Fixpoint admission_loop (rids : list string) (s : FakeTokenLevelScheduler)
    : FakeTokenLevelScheduler :=
  match rids with
  | [] => s
  | rid :: rids =>
      match dget rid (fs_requests s) with
      | None => admission_loop rids (drop_pending rid s)
      | Some req =>
          if negb (bool_decide (fr_state req = CR_ADMITTED)) then
            admission_loop rids (drop_pending rid s)
          else
            match find_empty_slot (fs_slots s) with
            | None => s
            | Some (i, slot) => admission_loop rids (assign_slot rid req i slot s)
            end
      end
  end.

Definition process_admission (s : FakeTokenLevelScheduler) : FakeTokenLevelScheduler :=
  admission_loop (fs_pending_admission s) s.

(** The body of the prefill loop for a request that is being prefilled. *)
Definition prefill_tick (req : FakeContinuousRequest) : FakeContinuousRequest :=
  let left := (fr_prefill_ticks_remaining req - 1)%Z in
  mkFakeRequest (fr_handle req)
    (if (left <=? 0)%Z then CR_DECODE_ACTIVE else CR_PREFILL_RUNNING) (fr_slot_id req) left
    (fr_decode_steps_completed req) (fr_output_chunks req) (fr_finish_reason req).

Fixpoint prefill_loop (limit count : Z) (reqs : list (string * FakeContinuousRequest))
    : list (string * FakeContinuousRequest) :=
  match reqs with
  | [] => []
  | (rid, req) :: rest =>
      if (limit <=? count)%Z then reqs
      else
        match fr_state req with
        | CR_PREFILL_PENDING =>
            (rid, set_fr_state CR_PREFILL_RUNNING req) :: prefill_loop limit (count + 1) rest
        | CR_PREFILL_RUNNING => (rid, prefill_tick req) :: prefill_loop limit count rest
        | _ => (rid, req) :: prefill_loop limit count rest
        end
  end.

Definition with_requests (reqs : list (string * FakeContinuousRequest))
    (s : FakeTokenLevelScheduler) : FakeTokenLevelScheduler :=
  mkSched (fs_config s) reqs (fs_slots s) (fs_tick_index s) (fs_pending_admission s).

Definition process_prefill (s : FakeTokenLevelScheduler) : FakeTokenLevelScheduler :=
  with_requests (prefill_loop (max_prefill_per_tick (fs_config s)) 0 (fs_requests s)) s.

Definition decode_chunk (req : FakeContinuousRequest) : ContinuousOutputChunk :=
  mkChunk (ch_request_id (fr_handle req)) (default "" (fr_slot_id req))
    (fr_decode_steps_completed req)
    (Some (ch_request_id (fr_handle req) +:+ "_s" +:+ pretty (fr_decode_steps_completed req)))
    None.

Definition decode_step (req : FakeContinuousRequest) : FakeContinuousRequest :=
  mkFakeRequest (fr_handle req) (fr_state req) (fr_slot_id req) (fr_prefill_ticks_remaining req)
    (fr_decode_steps_completed req + 1) (fr_output_chunks req ++ [decode_chunk req])%list
    (fr_finish_reason req).

Definition start_draining (req : FakeContinuousRequest) : FakeContinuousRequest :=
  mkFakeRequest (fr_handle req) CR_STREAM_DRAINING (fr_slot_id req)
    (fr_prefill_ticks_remaining req) (fr_decode_steps_completed req) (fr_output_chunks req)
    (Some CF_STOP).

(** The loop over the requests that decode; the others are skipped. *)
Fixpoint decode_loop (limit max_steps count : Z) (reqs : list (string * FakeContinuousRequest))
    : list (string * FakeContinuousRequest) :=
  match reqs with
  | [] => []
  | (rid, req) :: rest =>
      if bool_decide (fr_state req = CR_DECODE_ACTIVE) then
        if (limit <=? count)%Z then reqs
        else if (max_steps <=? fr_decode_steps_completed req)%Z then
          (rid, start_draining req) :: decode_loop limit max_steps count rest
        else (rid, decode_step req) :: decode_loop limit max_steps (count + 1) rest
      else (rid, req) :: decode_loop limit max_steps count rest
  end.

Definition process_decode (s : FakeTokenLevelScheduler) : FakeTokenLevelScheduler :=
  with_requests (decode_loop (max_decode_per_tick (fs_config s))
    (max_decode_steps_per_request (fs_config s)) 0 (fs_requests s)) s.

(** The first slot with the given id loses its owner; its state stays. *)
Fixpoint clear_owner (slot_id : option string) (slots : list ContinuousSlot)
    : list ContinuousSlot :=
  match slots with
  | [] => []
  | slot :: slots =>
      if bool_decide (Some (sl_slot_id slot) = slot_id)
      then mkSlot (sl_slot_id slot) (sl_state slot) None (sl_decode_step_index slot) :: slots
      else slot :: clear_owner slot_id slots
  end.

Fixpoint drain_loop (reqs : list (string * FakeContinuousRequest)) (slots : list ContinuousSlot)
    : list (string * FakeContinuousRequest) * list ContinuousSlot :=
  match reqs with
  | [] => ([], slots)
  | (rid, req) :: rest =>
      if bool_decide (fr_state req = CR_STREAM_DRAINING) then
        let (rest, slots) := drain_loop rest (clear_owner (fr_slot_id req) slots) in
        ((rid, set_fr_state CR_COMPLETED req) :: rest, slots)
      else
        let (rest, slots) := drain_loop rest slots in ((rid, req) :: rest, slots)
  end.

Definition process_drain (s : FakeTokenLevelScheduler) : FakeTokenLevelScheduler :=
  let (reqs, slots) := drain_loop (fs_requests s) (fs_slots s) in
  mkSched (fs_config s) reqs slots (fs_tick_index s) (fs_pending_admission s).

Definition sched_tick (s : FakeTokenLevelScheduler) : FakeTokenLevelScheduler :=
  let s := mkSched (fs_config s) (fs_requests s) (fs_slots s) (fs_tick_index s + 1)
             (fs_pending_admission s) in
  process_drain (process_decode (process_prefill (process_admission s))).

(** ** Output, snapshot, validation *)

Definition sched_drain_outputs (request_id : string) (s : FakeTokenLevelScheduler)
    : list ContinuousOutputChunk * FakeTokenLevelScheduler :=
  match dget request_id (fs_requests s) with
  | None => ([], s)
  | Some req =>
      (fr_output_chunks req,
       with_requests (dset request_id
         (mkFakeRequest (fr_handle req) (fr_state req) (fr_slot_id req)
            (fr_prefill_ticks_remaining req) (fr_decode_steps_completed req) []
            (fr_finish_reason req)) (fs_requests s)) s)
  end.

Record FakeContinuousSchedulerSnapshot := mkSchedSnapshot {
  ss_status : ContinuousBatchingStatus;
  ss_admitted_count : Z;
  ss_prefill_pending_count : Z;
  ss_prefill_running_count : Z;
  ss_decode_active_count : Z;
  ss_stream_draining_count : Z;
  ss_completed_count : Z;
  ss_failed_count : Z;
  ss_cancelled_count : Z;
  ss_timed_out_count : Z;
  ss_active_slot_count : Z;
  ss_free_slot_count : Z;
  ss_tick_index : Z;
}.

(** [state_counts.get(state, 0)] *)
Definition in_state (st : ContinuousRequestState) (reqs : list (string * FakeContinuousRequest)) : Z :=
  countv (fun r => bool_decide (fr_state r = st)) reqs.

Definition slot_is_active (slot : ContinuousSlot) : bool :=
  match sl_state slot with CS_EMPTY | CS_RELEASED | CS_FAILED => false | _ => true end.

Definition sched_snapshot (s : FakeTokenLevelScheduler) : FakeContinuousSchedulerSnapshot :=
  let rs := fs_requests s in
  mkSchedSnapshot CB_CONTRACT_ONLY (Z.of_nat (length rs)) (in_state CR_PREFILL_PENDING rs)
    (in_state CR_PREFILL_RUNNING rs) (in_state CR_DECODE_ACTIVE rs)
    (in_state CR_STREAM_DRAINING rs) (in_state CR_COMPLETED rs) (in_state CR_FAILED rs)
    (in_state CR_CANCELLED rs) (in_state CR_TIMED_OUT rs) (countb slot_is_active (fs_slots s))
    (countb (fun slot => bool_decide (sl_state slot = CS_EMPTY)) (fs_slots s)) (fs_tick_index s).

(** The three collections [validate] gathers over the requests. *)
Definition live_requests (s : FakeTokenLevelScheduler) : list FakeContinuousRequest :=
  List.filter (fun r => negb (cr_terminal (fr_state r))) (dvalues (fs_requests s)).

Definition sched_active_slot_ids (s : FakeTokenLevelScheduler) : list string :=
  flat_map (fun r => if str_truthy (fr_slot_id r) then option_list (fr_slot_id r) else [])
    (live_requests s).

Definition sched_terminal_reasons (s : FakeTokenLevelScheduler)
    : list (string * ContinuousRequestState) :=
  foldl (fun d r => dset (ch_request_id (fr_handle r)) (fr_state r) d) []
    (List.filter (fun r => cr_terminal (fr_state r)) (dvalues (fs_requests s))).

Definition sched_validate (s : FakeTokenLevelScheduler) : list ContinuousBatchInvariantViolation :=
  let handles := map fr_handle (live_requests s) in
  (validate_slot_assignments (fs_slots s)
   ++ validate_terminal_state_not_reentered handles (sched_terminal_reasons s)
   ++ validate_output_demux (flat_map fr_output_chunks (dvalues (fs_requests s)))
        (map ch_request_id handles) (sched_active_slot_ids s))%list.

(** ** Histories *)

Inductive sched_op :=
| OpAdmit (handle : ContinuousRequestHandle)
| OpCancel (request_id : string)
| OpTimeout (request_id : string)
| OpFail (request_id : string)
| OpTick
| OpDrain (request_id : string).

Definition token_sched_step (op : sched_op) (s : FakeTokenLevelScheduler) : FakeTokenLevelScheduler :=
  match op with
  | OpAdmit handle => sched_admit handle s
  | OpCancel rid => sched_cancel rid s
  | OpTimeout rid => sched_timeout rid s
  | OpFail rid => sched_fail_request rid s
  | OpTick => sched_tick s
  | OpDrain rid => snd (sched_drain_outputs rid s)
  end.

(** A history, with everything that was drained for each request, in order.  A request id is
    used once. *)
Inductive token_run (config : FakeContinuousSchedulerConfig)
    : list (string * list ContinuousOutputChunk) -> FakeTokenLevelScheduler -> Prop :=
| token_run_start : token_run config [] (new_token_scheduler config)
| token_run_step out s op :
    token_run config out s ->
    (match op with
     | OpAdmit handle => dget (ch_request_id handle) (fs_requests s) = None
     | _ => True
     end) ->
    token_run config
      (match op with
       | OpDrain rid => dset rid (dget_or rid [] out ++ fst (sched_drain_outputs rid s))%list out
       | _ => out
       end) (token_sched_step op s).
