(* ===== verification/ContinuousProps.v ===== *)
(** * What the fake token-level scheduler guarantees

    - The invariant [sched_inv] of every history: a slot has an owner exactly while a live
      request holds it, no slot is given out twice, and what a request has produced is its
      chunks in order.
    - From it: slots are exclusive, a slot serves one request in the life of the scheduler,
      the output of a request is exactly its chunks, ended requests stay ended, and a
      scheduler whose limits are positive finishes everything that ever got a slot.

    Every operation is a sequence of three kinds of small steps (a local change of the
    requests, the reservation of an empty slot, the release of an owned one), and the
    invariant is proved once per kind. *)

From S2P Require Import Prelude PyDict PyStr PySeq Continuous.
Open Scope string_scope.

(** ** Vocabulary *)

Definition holding (st : ContinuousRequestState) : bool :=
  match st with
  | CR_PREFILL_PENDING | CR_PREFILL_RUNNING | CR_DECODE_ACTIVE | CR_STREAM_DRAINING => true
  | _ => false
  end.

(** The [k]-th chunk of a request. *)
Definition chunk_at (rid sid : string) (k : nat) : ContinuousOutputChunk :=
  mkChunk rid sid (Z.of_nat k) (Some (rid +:+ "_s" +:+ pretty (Z.of_nat k))) None.

(** Chunks [a] to [a + n - 1]. *)
Definition chunks_from (rid : string) (sid : option string) (a n : nat) : list ContinuousOutputChunk :=
  map (chunk_at rid (default "" sid)) (seq a n).

Record sched_inv (s : FakeTokenLevelScheduler) : Prop := {
  si_keys : NoDup (dkeys (fs_requests s));
  si_ids : forall rid r, dget rid (fs_requests s) = Some r -> ch_request_id (fr_handle r) = rid;
  si_slots : map sl_slot_id (fs_slots s) = map sl_slot_id (init_slots (fs_config s));
  si_owner : forall slot rid, slot ∈ fs_slots s ->
    (sl_request_id slot = Some rid <->
     exists r, dget rid (fs_requests s) = Some r /\ holding (fr_state r) = true
       /\ fr_slot_id r = Some (sl_slot_id slot));
  si_used : forall rid r sid, dget rid (fs_requests s) = Some r -> fr_slot_id r = Some sid ->
    exists slot, slot ∈ fs_slots s /\ sl_slot_id slot = sid /\ sl_state slot <> CS_EMPTY;
  si_once : forall rid rid' r r' sid,
    dget rid (fs_requests s) = Some r -> dget rid' (fs_requests s) = Some r' ->
    fr_slot_id r = Some sid -> fr_slot_id r' = Some sid -> rid = rid';
  si_holding : forall rid r, dget rid (fs_requests s) = Some r -> holding (fr_state r) = true ->
    is_Some (fr_slot_id r);
  si_waiting : forall rid r, dget rid (fs_requests s) = Some r -> fr_state r = CR_ADMITTED ->
    fr_slot_id r = None /\ rid ∈ fs_pending_admission s;
  si_released : forall slot, slot ∈ fs_slots s -> sl_state slot = CS_RELEASED ->
    sl_request_id slot = None;
  si_pending : NoDup (fs_pending_admission s);
  si_known : forall rid, rid ∈ fs_pending_admission s -> is_Some (dget rid (fs_requests s));
}.

Lemma slot_name_inj i j : slot_name i = slot_name j -> i = j.
Proof. unfold slot_name. simpl. intros [= H]. by apply (inj pretty i j) in H. Qed.

Lemma init_slot_ids config :
  map sl_slot_id (init_slots config) = map slot_name (seq 0 (Z.to_nat (max_slots config))).
Proof. unfold init_slots. rewrite map_map. done. Qed.

Lemma init_slot_ids_NoDup config : NoDup (map sl_slot_id (init_slots config)).
Proof.
  rewrite init_slot_ids. apply (NoDup_fmap_2_strong slot_name).
  - intros i j _ _. apply slot_name_inj.
  - apply NoDup_seq.
Qed.

Lemma si_slots_NoDup s : sched_inv s -> NoDup (map sl_slot_id (fs_slots s)).
Proof. intros Hi. rewrite (si_slots _ Hi). apply init_slot_ids_NoDup. Qed.

Lemma same_slot s slot slot' :
  sched_inv s -> slot ∈ fs_slots s -> slot' ∈ fs_slots s -> sl_slot_id slot = sl_slot_id slot' ->
  slot = slot'.
Proof. intros Hi. apply NoDup_map_inj, si_slots_NoDup, Hi. Qed.

Lemma sched_inv_start config : sched_inv (new_token_scheduler config).
Proof.
  split; simpl; try done; try (by intros; simplify_eq).
  - apply NoDup_nil_2.
  - intros slot rid Hin. unfold init_slots in Hin. apply list_elem_of_fmap in Hin as (i & -> & _).
    simpl. split; [done | by intros (? & ? & _)].
  - intros slot Hin. unfold init_slots in Hin. by apply list_elem_of_fmap in Hin as (i & -> & _).
  - apply NoDup_nil_2.
  - intros rid Hin. by apply elem_of_nil in Hin.
Qed.

(** ** Local changes *)

(** What a local change of a request may do. *)
Record local_change (r r' : FakeContinuousRequest) : Prop := {
  lc_handle : fr_handle r' = fr_handle r;
  lc_slot : fr_slot_id r' = fr_slot_id r;
  lc_holding : holding (fr_state r') = holding (fr_state r);
  lc_waiting : fr_state r' = CR_ADMITTED -> fr_state r = CR_ADMITTED;
}.

Lemma local_refl r : local_change r r.
Proof. by split. Qed.

Lemma local_trans r1 r2 r3 : local_change r1 r2 -> local_change r2 r3 -> local_change r1 r3.
Proof. intros [] []. split; congruence || auto. Qed.

(** A relation on requests, lifted to dictionaries. *)
Definition dict_rel (R : FakeContinuousRequest -> FakeContinuousRequest -> Prop)
    (d d' : list (string * FakeContinuousRequest)) : Prop :=
  Forall2 (fun p p' => p.1 = p'.1 /\ R p.2 p'.2) d d'.

Lemma dict_rel_keys R d d' : dict_rel R d d' -> dkeys d' = dkeys d.
Proof.
  induction 1 as [|[k v] [k' v'] d d' [Hk _] _ IH]; [done|].
  unfold dkeys in *. simpl in *. subst. f_equal. exact IH.
Qed.

Lemma dict_rel_get R d d' k :
  dict_rel R d d' ->
  match dget k d, dget k d' with
  | Some r, Some r' => R r r'
  | None, None => True
  | _, _ => False
  end.
Proof.
  induction 1 as [|[k1 v] [k2 v'] d d' [Hk HR] _ IH]; simpl in *; [done|].
  subst. by case_decide.
Qed.

Lemma dict_rel_back R d d' k r' :
  dict_rel R d d' -> dget k d' = Some r' -> exists r, dget k d = Some r /\ R r r'.
Proof.
  intros HR Hr'. pose proof (dict_rel_get R d d' k HR) as H. rewrite Hr' in H.
  destruct (dget k d) as [r|]; [eauto | done].
Qed.

Lemma dict_rel_forth R d d' k r :
  dict_rel R d d' -> dget k d = Some r -> exists r', dget k d' = Some r' /\ R r r'.
Proof.
  intros HR Hr. pose proof (dict_rel_get R d d' k HR) as H. rewrite Hr in H.
  destruct (dget k d') as [r'|]; [eauto | done].
Qed.

Lemma dict_rel_refl R d : (forall r, R r r) -> dict_rel R d d.
Proof. intros HR. unfold dict_rel. induction d as [|[k r] d IH]; by constructor. Qed.

Lemma dict_rel_dset R d k r r' :
  (forall r, R r r) -> dget k d = Some r -> R r r' -> dict_rel R d (dset k r' d).
Proof.
  intros Hrefl Hr HR. induction d as [|[k1 v] d IH]; simpl in *; [done|].
  case_decide; simplify_eq.
  - constructor; [done|]. by apply dict_rel_refl.
  - constructor; [done|]. by apply IH.
Qed.

(** A change of the requests that is local keeps the invariant; the tick counter plays no
    role in it. *)
Lemma sched_inv_local s reqs n :
  sched_inv s -> dict_rel local_change (fs_requests s) reqs ->
  sched_inv (mkSched (fs_config s) reqs (fs_slots s) n (fs_pending_admission s)).
Proof.
  intros Hi HR. split; simpl.
  - rewrite (dict_rel_keys _ _ _ HR). apply Hi.
  - intros rid r Hr. destruct (dict_rel_back _ _ _ _ _ HR Hr) as (r0 & Hr0 & HL).
    rewrite (lc_handle _ _ HL). by apply (si_ids _ Hi).
  - apply Hi.
  - intros slot rid Hin. rewrite (si_owner _ Hi) by done. split; intros (r & Hr & Hh & Hs).
    + destruct (dict_rel_forth _ _ _ _ _ HR Hr) as (r' & Hr' & HL). exists r'.
      by rewrite (lc_holding _ _ HL), (lc_slot _ _ HL).
    + destruct (dict_rel_back _ _ _ _ _ HR Hr) as (r0 & Hr0 & HL). exists r0.
      by rewrite <- (lc_holding _ _ HL), <- (lc_slot _ _ HL).
  - intros rid r sid Hr Hs. destruct (dict_rel_back _ _ _ _ _ HR Hr) as (r0 & Hr0 & HL).
    rewrite (lc_slot _ _ HL) in Hs. by apply (si_used _ Hi rid r0).
  - intros rid rid' r r' sid Hr Hr' Hs Hs'.
    destruct (dict_rel_back _ _ _ _ _ HR Hr) as (r0 & Hr0 & HL).
    destruct (dict_rel_back _ _ _ _ _ HR Hr') as (r1 & Hr1 & HL').
    rewrite (lc_slot _ _ HL) in Hs. rewrite (lc_slot _ _ HL') in Hs'.
    by apply (si_once _ Hi rid rid' r0 r1 sid).
  - intros rid r Hr Hh. destruct (dict_rel_back _ _ _ _ _ HR Hr) as (r0 & Hr0 & HL).
    rewrite (lc_slot _ _ HL). apply (si_holding _ Hi rid r0 Hr0). by rewrite <- (lc_holding _ _ HL).
  - intros rid r Hr Hw. destruct (dict_rel_back _ _ _ _ _ HR Hr) as (r0 & Hr0 & HL).
    rewrite (lc_slot _ _ HL). apply (si_waiting _ Hi rid r0 Hr0). by apply (lc_waiting _ _ HL).
  - apply Hi.
  - apply Hi.
  - intros rid Hin. destruct (si_known _ Hi rid Hin) as [r Hr].
    destruct (dict_rel_forth _ _ _ _ _ HR Hr) as (r' & Hr' & _). eauto.
Qed.

(** ** A slot changes hands *)

(** Replacing the slot at an index; its name stays. *)
Lemma slots_insert_ids (slots : list ContinuousSlot) i slot slot' :
  slots !! i = Some slot -> sl_slot_id slot' = sl_slot_id slot ->
  map sl_slot_id (<[i := slot']> slots) = map sl_slot_id slots.
Proof.
  intros Hi Hid. apply list_eq. intros j. change (map sl_slot_id) with (fmap (M := list) sl_slot_id).
  rewrite !list_lookup_fmap, list_lookup_insert.
  case_decide as Hj; [|done]. destruct Hj as [-> _]. rewrite Hi. simpl. by rewrite Hid.
Qed.

Lemma elem_of_slots_insert (slots : list ContinuousSlot) i slot slot' x :
  slots !! i = Some slot -> x ∈ <[i := slot']> slots ->
  x = slot' \/ exists j, j <> i /\ slots !! j = Some x.
Proof.
  intros Hi (j & Hj)%list_elem_of_lookup. rewrite list_lookup_insert in Hj.
  case_decide as E; [left; by simplify_eq|]. right. exists j. split; [|done].
  intros ->. apply E. split; [done|]. by eapply lookup_lt_Some.
Qed.

Lemma elem_of_slots_kept (slots : list ContinuousSlot) i slot slot' x :
  slots !! i = Some slot -> x ∈ slots -> x = slot \/ x ∈ <[i := slot']> slots.
Proof.
  intros Hi (j & Hj)%list_elem_of_lookup. destruct (decide (j = i)) as [->|Hne].
  - left. congruence.
  - right. apply list_elem_of_lookup. exists j. by rewrite list_lookup_insert_ne.
Qed.

Lemma slots_insert_here (slots : list ContinuousSlot) i slot slot' :
  slots !! i = Some slot -> slot' ∈ <[i := slot']> slots.
Proof.
  intros Hi. apply list_elem_of_lookup. exists i. rewrite list_lookup_insert_eq; [done|].
  by eapply lookup_lt_Some.
Qed.

Lemma other_slot_id s i j slot x :
  sched_inv s -> fs_slots s !! i = Some slot -> fs_slots s !! j = Some x -> j <> i ->
  sl_slot_id x <> sl_slot_id slot.
Proof.
  intros Hi Hs Hx Hne Heq. pose proof (si_slots_NoDup _ Hi) as Hnd. apply Hne.
  eapply (NoDup_lookup _ j i (sl_slot_id slot) Hnd);
    change (map sl_slot_id) with (fmap (M := list) sl_slot_id); rewrite list_lookup_fmap.
  - rewrite Hx. simpl. by rewrite Heq.
  - by rewrite Hs.
Qed.

Lemma empty_slot_unowned s slot : sched_inv s -> slot ∈ fs_slots s -> sl_state slot = CS_EMPTY ->
  (forall rid r, dget rid (fs_requests s) = Some r -> fr_slot_id r <> Some (sl_slot_id slot))
  /\ sl_request_id slot = None.
Proof.
  intros Hi Hin He.
  assert (Hno : forall rid r, dget rid (fs_requests s) = Some r -> fr_slot_id r <> Some (sl_slot_id slot)).
  { intros rid r Hr Hs. destruct (si_used _ Hi rid r _ Hr Hs) as (slot' & Hin' & Hid & Hne).
    rewrite (same_slot s slot' slot Hi Hin' Hin Hid) in Hne. done. }
  split; [done|]. destruct (sl_request_id slot) as [rid|] eqn:E; [|done].
  apply (si_owner _ Hi) in E as (r & Hr & _ & Hs); [|done]. by destruct (Hno rid r Hr).
Qed.

(** An empty slot is reserved for a request that waits. *)
Lemma sched_inv_assign s rid req i slot :
  sched_inv s -> dget rid (fs_requests s) = Some req -> fr_state req = CR_ADMITTED ->
  fs_slots s !! i = Some slot -> sl_state slot = CS_EMPTY ->
  sched_inv (assign_slot rid req i slot s).
Proof.
  intros Hi Hreq Hst Hs He. assert (Hin : slot ∈ fs_slots s) by (by eapply list_elem_of_lookup_2).
  destruct (empty_slot_unowned s slot Hi Hin He) as [Hno Hnone].
  assert (Hreq0 : fr_slot_id req = None) by (by apply (si_waiting _ Hi rid)).
  split; simpl.
  - apply dset_NoDup, Hi.
  - intros rid' r. rewrite dget_dset. case_decide; [|apply (si_ids _ Hi)].
    intros [= <-]. subst. exact (si_ids _ Hi _ _ Hreq).
  - rewrite (slots_insert_ids _ _ slot) by done. apply Hi.
  - intros x rid' Hx.
    destruct (elem_of_slots_insert _ _ _ _ _ Hs Hx) as [-> | (j & Hne & Hj)]; simpl.
    + split.
      * intros [= <-]. eexists. rewrite dget_dset_eq. eauto.
      * intros (r & Hr & Hh & Hsid). rewrite dget_dset in Hr. case_decide; [by subst|].
        by destruct (Hno rid' r Hr).
    + assert (Hxin : x ∈ fs_slots s) by (by eapply list_elem_of_lookup_2).
      pose proof (other_slot_id s i j slot x Hi Hs Hj Hne) as Hid.
      rewrite (si_owner _ Hi x rid' Hxin). split; intros (r & Hr & Hh & Hsid).
      * rewrite dget_dset_ne; [eauto|]. intros ->. congruence.
      * rewrite dget_dset in Hr. case_decide; [simplify_eq/=; congruence | eauto].
  - intros rid' r sid Hr Hsid. rewrite dget_dset in Hr. case_decide; simplify_eq/=.
    + exists (reserve_slot rid slot). split; [by eapply slots_insert_here | done].
    + destruct (si_used _ Hi rid' r sid Hr Hsid) as (x & Hx & Hid & Hne).
      destruct (elem_of_slots_kept _ _ _ (reserve_slot rid slot) _ Hs Hx) as [-> | Hk]; [done|].
      by exists x.
  - intros rid1 rid2 r1 r2 sid. rewrite !dget_dset.
    do 2 case_decide; intros; simplify_eq/=; try done.
    + by destruct (Hno rid2 r2).
    + by destruct (Hno rid1 r1).
    + by eapply (si_once _ Hi).
  - intros rid' r. rewrite dget_dset. case_decide; [|apply (si_holding _ Hi)].
    intros [= <-] _. by eexists.
  - intros rid' r. rewrite dget_dset. case_decide; [intros; simplify_eq|].
    intros Hr Hw. destruct (si_waiting _ Hi rid' r Hr Hw) as [Hsl Hp]. split; [done|].
    apply remove_first_elem; [apply Hi | done].
  - intros x Hx Hrel. destruct (elem_of_slots_insert _ _ _ _ _ Hs Hx) as [-> | (j & Hne & Hj)]; [done|].
    apply (si_released _ Hi x); [by eapply list_elem_of_lookup_2 | done].
  - apply remove_first_NoDup, Hi.
  - intros rid' Hp. apply remove_first_elem in Hp as [Hp Hne]; [|apply Hi].
    rewrite dget_dset_ne by done. by apply (si_known _ Hi).
Qed.

(** The owner of a slot ends: the slot loses its owner and is not empty. *)
Lemma sched_inv_release s rid req req' i slot slot' :
  sched_inv s -> dget rid (fs_requests s) = Some req ->
  fr_handle req' = fr_handle req -> fr_slot_id req' = fr_slot_id req ->
  cr_terminal (fr_state req') = true ->
  fs_slots s !! i = Some slot -> sl_request_id slot = Some rid ->
  sl_slot_id slot' = sl_slot_id slot -> sl_request_id slot' = None -> sl_state slot' <> CS_EMPTY ->
  sched_inv (mkSched (fs_config s) (dset rid req' (fs_requests s)) (<[i := slot']> (fs_slots s))
    (fs_tick_index s) (fs_pending_admission s)).
Proof.
  intros Hi Hreq Hh Hsl Ht Hs Hown Hid Hnone Hne.
  assert (Hin : slot ∈ fs_slots s) by (by eapply list_elem_of_lookup_2).
  assert (Hnh : holding (fr_state req') = false) by (by destruct (fr_state req')).
  destruct (proj1 (si_owner _ Hi slot rid Hin) Hown) as (req1 & Hreq1 & Hhold & Hsid).
  assert (req1 = req) as -> by congruence.
  split; simpl.
  - apply dset_NoDup, Hi.
  - intros rid' r. rewrite dget_dset. case_decide; [|apply (si_ids _ Hi)].
    intros [= <-]. subst. rewrite Hh. exact (si_ids _ Hi _ _ Hreq).
  - rewrite (slots_insert_ids _ _ slot) by done. apply Hi.
  - intros x rid' Hx.
    destruct (elem_of_slots_insert _ _ _ _ _ Hs Hx) as [-> | (j & Hnej & Hj)].
    + rewrite Hnone, Hid. split; [done|]. intros (r & Hr & Hr2 & Hr3). rewrite dget_dset in Hr.
      case_decide; [simplify_eq; congruence|].
      assert (rid' = rid) by (by eapply (si_once _ Hi)). done.
    + assert (Hxin : x ∈ fs_slots s) by (by eapply list_elem_of_lookup_2).
      pose proof (other_slot_id s i j slot x Hi Hs Hj Hnej) as Hid'.
      rewrite (si_owner _ Hi x rid' Hxin). split; intros (r & Hr & Hr2 & Hr3).
      * rewrite dget_dset_ne; [eauto|]. intros ->. congruence.
      * rewrite dget_dset in Hr. case_decide; [simplify_eq; congruence | eauto].
  - intros rid' r sid Hr Hrs. rewrite dget_dset in Hr.
    assert (exists r0, dget rid' (fs_requests s) = Some r0 /\ fr_slot_id r0 = Some sid)
      as (r0 & Hr0 & Hrs0) by (case_decide; simplify_eq; [exists req; by rewrite <- Hsl | eauto]).
    destruct (si_used _ Hi rid' r0 sid Hr0 Hrs0) as (x & Hx & Hxid & Hxne).
    destruct (elem_of_slots_kept _ _ _ slot' _ Hs Hx) as [-> | Hk]; [|by exists x].
    exists slot'. rewrite Hid. split; [by eapply slots_insert_here | done].
  - intros rid1 rid2 r1 r2 sid. rewrite !dget_dset.
    do 2 case_decide; intros; simplify_eq; try done;
      eapply (si_once _ Hi); eauto; congruence.
  - intros rid' r. rewrite dget_dset. case_decide; [intros; simplify_eq; congruence|].
    apply (si_holding _ Hi).
  - intros rid' r. rewrite dget_dset. case_decide; [|apply (si_waiting _ Hi)].
    intros; simplify_eq. by destruct (fr_state r).
  - intros x Hx Hrel. destruct (elem_of_slots_insert _ _ _ _ _ Hs Hx) as [-> | (j & Hnej & Hj)]; [done|].
    apply (si_released _ Hi x); [by eapply list_elem_of_lookup_2 | done].
  - apply Hi.
  - intros rid' Hp. rewrite dget_dset. case_decide; [by eexists | by apply (si_known _ Hi)].
Qed.

(** ** The operations *)

Lemma release_slot_for_spec rid slots :
  (release_slot_for rid slots = slots /\ (forall slot, slot ∈ slots -> sl_request_id slot <> Some rid))
  \/ exists i slot, slots !! i = Some slot /\ sl_request_id slot = Some rid
       /\ release_slot_for rid slots = <[i := release_slot slot]> slots.
Proof.
  induction slots as [|slot slots IH]; simpl.
  - left. split; [done|]. intros x Hx. by apply elem_of_nil in Hx.
  - case_bool_decide as E.
    + right. by exists 0, slot.
    + destruct IH as [[-> Hno] | (i & x & Hx & Ho & ->)].
      * left. split; [done|]. intros x [-> | Hx]%elem_of_cons; [done | by apply Hno].
      * right. by exists (S i), x.
Qed.

Lemma clear_owner_spec sid slots :
  (forall slot, slot ∈ slots -> Some (sl_slot_id slot) <> sid)
  \/ exists i slot, slots !! i = Some slot /\ Some (sl_slot_id slot) = sid
       /\ clear_owner sid slots =
          <[i := mkSlot (sl_slot_id slot) (sl_state slot) None (sl_decode_step_index slot)]> slots.
Proof.
  induction slots as [|slot slots IH]; simpl.
  - left. intros x Hx. by apply elem_of_nil in Hx.
  - case_bool_decide as E.
    + right. by exists 0, slot.
    + destruct IH as [Hno | (i & x & Hx & Ho & ->)].
      * left. intros x [-> | Hx]%elem_of_cons; [done | by apply Hno].
      * right. by exists (S i), x.
Qed.

Lemma sched_inv_end st reason rid s :
  cr_terminal st = true -> sched_inv s -> sched_inv (end_request st reason rid s).
Proof.
  intros Ht Hi. unfold end_request. destruct (dget rid (fs_requests s)) as [req|] eqn:Hreq; [|done].
  destruct (cr_terminal (fr_state req)) eqn:Hterm; [done|]. simpl.
  destruct (release_slot_for_spec rid (fs_slots s)) as [[-> Hno] | (i & slot & Hs & Ho & ->)].
  - apply sched_inv_local; [done|]. apply (dict_rel_dset _ _ _ req); [apply local_refl | done|].
    assert (holding (fr_state req) = false) as Hh.
    { destruct (holding (fr_state req)) eqn:Hh; [|done]. exfalso.
      destruct (si_holding _ Hi rid req Hreq Hh) as [sid Hsid].
      destruct (si_used _ Hi rid req sid Hreq Hsid) as (slot & Hin & <- & _).
      apply (Hno slot Hin). apply (si_owner _ Hi); eauto. }
    split; simpl; try done; [rewrite Hh|]; by destruct st.
  - by eapply (sched_inv_release s rid req _ i slot).
Qed.

Lemma sched_inv_enter handle s :
  dget (ch_request_id handle) (fs_requests s) = None ->
  sched_inv s -> sched_inv (sched_admit handle s).
Proof.
  intros Hnew Hi. set (rid := ch_request_id handle) in *.
  assert (Hget : forall k r, dget k (dset rid (new_fake_request handle) (fs_requests s)) = Some r ->
    (k = rid /\ r = new_fake_request handle) \/ dget k (fs_requests s) = Some r).
  { intros k r. rewrite dget_dset. case_decide; [|by right]. intros [= <-]. by left. }
  split; simpl; fold rid.
  - apply dset_NoDup, Hi.
  - intros k r [[-> ->] | Hr]%Hget; [done | by apply (si_ids _ Hi)].
  - apply Hi.
  - intros slot k Hin. rewrite (si_owner _ Hi) by done. split; intros (r & Hr & Hh & Hs).
    + exists r. rewrite dget_dset_ne by congruence. done.
    + apply Hget in Hr as [[-> ->] | Hr]; [done | eauto].
  - intros k r sid [[-> ->] | Hr]%Hget Hs; [done | by apply (si_used _ Hi k r)].
  - intros k1 k2 r1 r2 sid [[-> ->] | Hr1]%Hget [[-> ->] | Hr2]%Hget Hs1 Hs2; try done.
    by apply (si_once _ Hi k1 k2 r1 r2 sid).
  - intros k r [[-> ->] | Hr]%Hget Hh; [done | by apply (si_holding _ Hi k)].
  - intros k r [[-> ->] | Hr]%Hget Hw; [split; [done | set_solver]|].
    destruct (si_waiting _ Hi k r Hr Hw) as [Hs Hp]. split; [done | set_solver].
  - apply Hi.
  - apply NoDup_app. split; [apply Hi|]. split; [|apply NoDup_singleton].
    intros x Hx ->%list_elem_of_singleton. destruct (si_known _ Hi rid Hx) as [r Hr]. congruence.
  - intros k [Hk | ->%list_elem_of_singleton]%elem_of_app; rewrite dget_dset;
      case_decide; [by eexists | by apply (si_known _ Hi) | by eexists | done].
Qed.

Lemma sched_inv_drop rid s :
  (forall r, dget rid (fs_requests s) = Some r -> fr_state r <> CR_ADMITTED) ->
  sched_inv s -> sched_inv (drop_pending rid s).
Proof.
  intros Hno Hi. destruct Hi. split; simpl; try done.
  - intros k r Hr Hw. destruct (si_waiting0 k r Hr Hw) as [Hs Hp]. split; [done|].
    apply remove_first_elem; [done|]. split; [done|]. intros ->. by destruct (Hno r Hr).
  - by apply remove_first_NoDup.
  - intros k Hk. apply remove_first_elem in Hk as [Hk _]; auto.
Qed.

Lemma sched_inv_admission_loop rids s : sched_inv s -> sched_inv (admission_loop rids s).
Proof.
  revert s. induction rids as [|rid rids IH]; intros s Hi; simpl; [done|].
  destruct (dget rid (fs_requests s)) as [req|] eqn:Hreq.
  - case_bool_decide as Hst; simpl.
    + unfold find_empty_slot.
      destruct (list_find _ (fs_slots s)) as [[i slot]|] eqn:Hf; [|done].
      apply list_find_Some in Hf as (Hs & He & _). apply IH. by apply sched_inv_assign.
    + apply IH, sched_inv_drop; [|done]. intros r Hr. congruence.
  - apply IH, sched_inv_drop; [|done]. intros r Hr. congruence.
Qed.

Lemma prefill_loop_local limit count reqs : dict_rel local_change reqs (prefill_loop limit count reqs).
Proof.
  revert count. induction reqs as [|[rid req] reqs IH]; intros count; simpl; [constructor|].
  split_if; [apply dict_rel_refl, local_refl|].
  destruct (fr_state req) eqn:E; constructor; try apply IH; (split; [done|]); try apply local_refl;
    simpl; split; simpl; try done; rewrite E; simpl; try done; by split_if.
Qed.

Lemma decode_loop_local limit max_steps count reqs :
  dict_rel local_change reqs (decode_loop limit max_steps count reqs).
Proof.
  revert count. induction reqs as [|[rid req] reqs IH]; intros count; simpl; [constructor|].
  case_bool_decide as E; [|constructor; [|apply IH]; split; [done | apply local_refl]].
  split_if; [apply dict_rel_refl, local_refl|].
  split_if; constructor; try apply IH; (split; [done|]); split; simpl; try done; by rewrite E.
Qed.

(** Draining the request after the prefix [pre] is one release. *)
Lemma sched_inv_drain_loop pre reqs s :
  sched_inv s -> fs_requests s = (pre ++ reqs)%list ->
  sched_inv (mkSched (fs_config s) (pre ++ (drain_loop reqs (fs_slots s)).1)%list
    (drain_loop reqs (fs_slots s)).2 (fs_tick_index s) (fs_pending_admission s)).
Proof.
  revert pre s. induction reqs as [|[rid req] reqs IH]; intros pre s Hi Heq; simpl.
  { rewrite <- Heq. by destruct s. }
  case_bool_decide as Hst.
  - assert (Hpre : dget rid pre = None).
    { pose proof (si_keys _ Hi) as Hnd. rewrite Heq in Hnd. unfold dkeys in Hnd.
      rewrite fmap_app in Hnd. apply NoDup_app in Hnd as (_ & Hd & _).
      apply dget_None_keys. intros Hin. apply (Hd rid Hin). simpl. left. }
    assert (Hreq : dget rid (fs_requests s) = Some req).
    { apply elem_dget; [apply Hi|]. rewrite Heq. set_solver. }
    destruct (si_holding _ Hi rid req Hreq ltac:(by rewrite Hst)) as [sid Hsid].
    destruct (clear_owner_spec (fr_slot_id req) (fs_slots s)) as [Hno | (i & slot & Hs & Hid & Hc)].
    { destruct (si_used _ Hi rid req sid Hreq Hsid) as (slot & Hin & <- & _). by destruct (Hno slot Hin). }
    assert (Hin : slot ∈ fs_slots s) by (by eapply list_elem_of_lookup_2).
    assert (Hown : sl_request_id slot = Some rid).
    { apply (si_owner _ Hi); [done|]. exists req. rewrite Hst. done. }
    assert (Hne : sl_state slot <> CS_EMPTY).
    { destruct (si_used _ Hi rid req _ Hreq (eq_sym Hid)) as (x & Hx & Hxid & Hxne).
      by rewrite <- (same_slot s x slot). }
    pose proof (sched_inv_release s rid req (set_fr_state CR_COMPLETED req) i slot
      (mkSlot (sl_slot_id slot) (sl_state slot) None (sl_decode_step_index slot)) Hi Hreq
      eq_refl eq_refl eq_refl Hs Hown eq_refl eq_refl Hne) as Hi'.
    rewrite <- Hc in Hi'. specialize (IH (pre ++ [(rid, set_fr_state CR_COMPLETED req)])%list _ Hi').
    simpl in IH. rewrite Heq in IH.
    assert (Hset : dset rid (set_fr_state CR_COMPLETED req) (pre ++ (rid, req) :: reqs)%list
      = ((pre ++ [(rid, set_fr_state CR_COMPLETED req)]) ++ reqs)%list).
    { clear -Hpre. induction pre as [|[k v] pre IHp]; simpl in *; [by case_decide|].
      case_decide; [done|]. by rewrite IHp. }
    specialize (IH Hset). destruct (drain_loop reqs _) as [rest slots]. simpl in *.
    by rewrite <- app_assoc in IH.
  - specialize (IH (pre ++ [(rid, req)])%list s Hi). rewrite <- app_assoc in IH. specialize (IH Heq).
    destruct (drain_loop reqs _) as [rest slots]. simpl in *. by rewrite <- app_assoc in IH.
Qed.

Lemma sched_inv_tick s : sched_inv s -> sched_inv (sched_tick s).
Proof.
  intros Hi. unfold sched_tick.
  assert (Hi0 : sched_inv (mkSched (fs_config s) (fs_requests s) (fs_slots s) (fs_tick_index s + 1)
    (fs_pending_admission s))) by (apply sched_inv_local, dict_rel_refl, local_refl; done).
  apply (sched_inv_admission_loop (fs_pending_admission s)) in Hi0.
  set (s1 := admission_loop _ _) in Hi0. change (process_admission _) with s1.
  pose proof (sched_inv_local s1 _ (fs_tick_index s1) Hi0
    (prefill_loop_local (max_prefill_per_tick (fs_config s1)) 0 (fs_requests s1))) as Hi1.
  pose proof (sched_inv_local _ _ (fs_tick_index s1) Hi1
    (decode_loop_local (max_decode_per_tick (fs_config s1))
       (max_decode_steps_per_request (fs_config s1)) 0 _)) as Hi2.
  pose proof (sched_inv_drain_loop [] _ _ Hi2 eq_refl) as Hi3.
  unfold process_drain, process_decode, process_prefill, with_requests. simpl in *.
  by destruct (drain_loop _ _).
Qed.

Lemma sched_inv_step op s :
  (match op with
   | OpAdmit handle => dget (ch_request_id handle) (fs_requests s) = None
   | _ => True
   end) -> sched_inv s -> sched_inv (token_sched_step op s).
Proof.
  intros Hop Hi. destruct op; simpl in *.
  - by apply sched_inv_enter.
  - by apply sched_inv_end.
  - by apply sched_inv_end.
  - by apply sched_inv_end.
  - by apply sched_inv_tick.
  - unfold sched_drain_outputs. destruct (dget request_id (fs_requests s)) eqn:E; [|done]. simpl.
    apply sched_inv_local; [done|]. by apply (dict_rel_dset _ _ _ f); [apply local_refl | |].
Qed.

Lemma token_run_inv config out s : token_run config out s -> sched_inv s.
Proof.
  induction 1; [apply sched_inv_start | by apply sched_inv_step].
Qed.

(** ** The life of one request *)

(** What a tick may do to a request whose decoding is limited to [D] steps. *)
Inductive req_tick (D : Z) (r : FakeContinuousRequest) : FakeContinuousRequest -> Prop :=
| rt_assign sid : fr_state r = CR_ADMITTED ->
    req_tick D r (mkFakeRequest (fr_handle r) CR_PREFILL_PENDING (Some sid)
      (fr_prefill_ticks_remaining r) (fr_decode_steps_completed r) (fr_output_chunks r)
      (fr_finish_reason r))
| rt_prefill : fr_state r = CR_PREFILL_PENDING -> req_tick D r (set_fr_state CR_PREFILL_RUNNING r)
| rt_prefilled : fr_state r = CR_PREFILL_RUNNING -> req_tick D r (prefill_tick r)
| rt_decode : fr_state r = CR_DECODE_ACTIVE -> (fr_decode_steps_completed r < D)%Z ->
    req_tick D r (decode_step r)
| rt_drain : fr_state r = CR_DECODE_ACTIVE -> (D <= fr_decode_steps_completed r)%Z ->
    req_tick D r (start_draining r)
| rt_complete : fr_state r = CR_STREAM_DRAINING -> req_tick D r (set_fr_state CR_COMPLETED r).

(** What any operation may do to it, draining its output apart. *)
Inductive req_step (D : Z) (r : FakeContinuousRequest) : FakeContinuousRequest -> Prop :=
| rs_tick r' : req_tick D r r' -> req_step D r r'
| rs_end st reason :
    cr_terminal (fr_state r) = false -> cr_terminal st = true -> st <> CR_COMPLETED ->
    req_step D r (mkFakeRequest (fr_handle r) st (fr_slot_id r) (fr_prefill_ticks_remaining r)
      (fr_decode_steps_completed r) (fr_output_chunks r) (Some reason)).

Lemma dict_rel_mono (R R' : FakeContinuousRequest -> FakeContinuousRequest -> Prop) d d' :
  (forall r r', R r r' -> R' r r') -> dict_rel R d d' -> dict_rel R' d d'.
Proof. intros H HR. eapply Forall2_impl; [exact HR|]. intros p p' [Hk Hp]. auto. Qed.

Lemma dict_rel_trans (R : FakeContinuousRequest -> FakeContinuousRequest -> Prop) d1 d2 d3 :
  (forall r1 r2 r3, R r1 r2 -> R r2 r3 -> R r1 r3) ->
  dict_rel R d1 d2 -> dict_rel R d2 d3 -> dict_rel R d1 d3.
Proof.
  intros HT H. revert d3. induction H as [|[k1 v1] [k2 v2] d1 d2 [Hk HR] _ IH]; intros d3 H'.
  - apply Forall2_nil_inv_l in H' as ->. constructor.
  - apply Forall2_cons_inv_l in H' as ([k3 v3] & d3' & [Hk' HR'] & H' & ->). simpl in *.
    constructor; [split; simpl; [congruence | eauto] | by apply IH].
Qed.

Abbreviation ticks D := (rtc (req_tick D)).

Lemma ticks_trans D d1 d2 d3 :
  dict_rel (ticks D) d1 d2 -> dict_rel (ticks D) d2 d3 -> dict_rel (ticks D) d1 d3.
Proof. apply dict_rel_trans. intros. by etrans. Qed.

Lemma ticks_refl D d : dict_rel (ticks D) d d.
Proof. apply dict_rel_refl. done. Qed.

Lemma admission_loop_ticks D rids s :
  dict_rel (ticks D) (fs_requests s) (fs_requests (admission_loop rids s)).
Proof.
  revert s. induction rids as [|rid rids IH]; intros s; simpl; [apply ticks_refl|].
  destruct (dget rid (fs_requests s)) as [req|] eqn:Hreq; [|apply (IH (drop_pending rid s))].
  case_bool_decide as Hst; simpl; [|apply (IH (drop_pending rid s))].
  destruct (find_empty_slot (fs_slots s)) as [[i slot]|]; [|apply ticks_refl].
  eapply ticks_trans; [|apply IH]. simpl.
  apply (dict_rel_dset _ _ _ req); [done | done |]. by apply rtc_once, rt_assign.
Qed.

Lemma prefill_loop_ticks D limit count reqs :
  dict_rel (ticks D) reqs (prefill_loop limit count reqs).
Proof.
  revert count. induction reqs as [|[rid req] reqs IH]; intros count; simpl; [constructor|].
  split_if; [apply ticks_refl|].
  destruct (fr_state req) eqn:E; (constructor; [|apply IH]); split; try done; apply rtc_once;
    by constructor.
Qed.

Lemma decode_loop_ticks D limit count reqs :
  dict_rel (ticks D) reqs (decode_loop limit D count reqs).
Proof.
  revert count. induction reqs as [|[rid req] reqs IH]; intros count; simpl; [constructor|].
  case_bool_decide as E; [|by constructor; [|apply IH]].
  split_if; [apply ticks_refl|].
  split_if; (constructor; [|apply IH]); split; try done; apply rtc_once; reflect_tests;
    by constructor.
Qed.

Lemma drain_loop_ticks D reqs slots : dict_rel (ticks D) reqs (drain_loop reqs slots).1.
Proof.
  revert slots. induction reqs as [|[rid req] reqs IH]; intros slots; simpl; [constructor|].
  case_bool_decide as E.
  - specialize (IH (clear_owner (fr_slot_id req) slots)). destruct (drain_loop _ _). simpl in *.
    constructor; [|done]. split; [done|]. by apply rtc_once, rt_complete.
  - specialize (IH slots). destruct (drain_loop _ _). simpl in *. by constructor.
Qed.

Lemma admission_loop_config rids s : fs_config (admission_loop rids s) = fs_config s.
Proof.
  revert s. induction rids as [|rid rids IH]; intros s; simpl; [done|].
  destruct (dget rid (fs_requests s)) as [req|]; [|by rewrite IH].
  split_if; [by rewrite IH|]. destruct (find_empty_slot _) as [[i slot]|]; [by rewrite IH | done].
Qed.

(** The four phases of a tick, with their requests named. *)
Lemma sched_tick_phases s :
  let s1 := process_admission (mkSched (fs_config s) (fs_requests s) (fs_slots s)
              (fs_tick_index s + 1) (fs_pending_admission s)) in
  let d2 := prefill_loop (max_prefill_per_tick (fs_config s)) 0 (fs_requests s1) in
  let d3 := decode_loop (max_decode_per_tick (fs_config s))
              (max_decode_steps_per_request (fs_config s)) 0 d2 in
  fs_requests (sched_tick s) = (drain_loop d3 (fs_slots s1)).1
  /\ fs_slots (sched_tick s) = (drain_loop d3 (fs_slots s1)).2
  /\ fs_config (sched_tick s) = fs_config s
  /\ fs_pending_admission (sched_tick s) = fs_pending_admission s1.
Proof.
  intros s1 d2 d3. unfold sched_tick. fold s1.
  assert (Hc : fs_config s1 = fs_config s) by (unfold s1, process_admission; by rewrite admission_loop_config).
  unfold process_prefill, process_decode, process_drain, with_requests. simpl. rewrite Hc.
  fold d2. fold d3. by destruct (drain_loop d3 (fs_slots s1)).
Qed.

Lemma sched_tick_ticks s :
  dict_rel (ticks (max_decode_steps_per_request (fs_config s))) (fs_requests s)
    (fs_requests (sched_tick s)).
Proof.
  destruct (sched_tick_phases s) as (-> & _).
  eapply ticks_trans; [|apply drain_loop_ticks].
  eapply ticks_trans; [|apply decode_loop_ticks].
  eapply ticks_trans; [|apply prefill_loop_ticks].
  apply (admission_loop_ticks _ _ (mkSched _ _ _ _ _)).
Qed.

Lemma token_sched_step_config op s : fs_config (token_sched_step op s) = fs_config s.
Proof.
  destruct op; simpl; try done.
  - unfold sched_cancel, end_request. destruct (dget _ _); [by split_if | done].
  - unfold sched_timeout, end_request. destruct (dget _ _); [by split_if | done].
  - unfold sched_fail_request, end_request. destruct (dget _ _); [by split_if | done].
  - by destruct (sched_tick_phases s) as (_ & _ & -> & _).
  - unfold sched_drain_outputs. by destruct (dget _ _).
Qed.

Lemma token_run_config config out s : token_run config out s -> fs_config s = config.
Proof. induction 1; [done | by rewrite token_sched_step_config]. Qed.

(** ** What a request has produced *)

Record req_ok (D : Z) (rid : string) (drained : list ContinuousOutputChunk)
    (r : FakeContinuousRequest) : Prop := {
  ro_handle : ch_request_id (fr_handle r) = rid;
  ro_steps : (0 <= fr_decode_steps_completed r <= Z.max 0 D)%Z;
  ro_chunks : (drained ++ fr_output_chunks r)%list =
    chunks_from rid (fr_slot_id r) 0 (Z.to_nat (fr_decode_steps_completed r));
  ro_slotless : fr_slot_id r = None ->
    fr_decode_steps_completed r = 0%Z /\ fr_state r <> CR_COMPLETED /\ holding (fr_state r) = false;
  ro_waiting : match fr_state r with
    | CR_ADMITTED => fr_slot_id r = None /\ fr_prefill_ticks_remaining r = 1%Z
    | CR_PREFILL_PENDING | CR_PREFILL_RUNNING => fr_prefill_ticks_remaining r = 1%Z
    | CR_STREAM_DRAINING | CR_COMPLETED =>
        fr_decode_steps_completed r = Z.max 0 D /\ fr_finish_reason r = Some CF_STOP
    | _ => True
    end;
}.

Lemma req_ok_new D handle : req_ok D (ch_request_id handle) [] (new_fake_request handle).
Proof. split; simpl; try done; lia. Qed.

Lemma chunks_from_snoc rid sid a n :
  chunks_from rid sid a (S n) = (chunks_from rid sid a n ++ [chunk_at rid (default "" sid) (a + n)])%list.
Proof. unfold chunks_from. by rewrite seq_S, map_app. Qed.

Lemma decode_chunk_at r :
  (0 <= fr_decode_steps_completed r)%Z ->
  decode_chunk r = chunk_at (ch_request_id (fr_handle r)) (default "" (fr_slot_id r))
    (Z.to_nat (fr_decode_steps_completed r)).
Proof. intros H. unfold decode_chunk, chunk_at. by rewrite Z2Nat.id. Qed.

Lemma req_ok_tick D rid out r r' : req_tick D r r' -> req_ok D rid out r -> req_ok D rid out r'.
Proof.
  intros [sid Hst | Hst | Hst | Hst Hlt | Hst Hle | Hst] [Hh Hs Hc Hno Hw]; rewrite Hst in Hno, Hw.
  - destruct Hw as [Hnone Hticks]. destruct (Hno Hnone) as [H0 _]. split; simpl; try done.
    rewrite Hc, H0. done.
  - split; simpl; try done. naive_solver.
  - split; simpl; try done; rewrite Hw; naive_solver.
  - split; simpl; rewrite ?Hst; try done; [lia | | naive_solver].
    rewrite app_assoc, Hc, (decode_chunk_at r), Hh by lia.
    rewrite Z2Nat.inj_add, Nat.add_1_r, chunks_from_snoc by lia. done.
  - split; simpl; try done; [naive_solver|]. split; [lia | done].
  - split; simpl; try done; naive_solver.
Qed.

Lemma req_ok_ticks D rid out r r' : ticks D r r' -> req_ok D rid out r -> req_ok D rid out r'.
Proof. induction 1; [done|]. intros. eauto using req_ok_tick. Qed.

Lemma req_ok_end D rid out r st reason :
  cr_terminal (fr_state r) = false -> cr_terminal st = true -> st <> CR_COMPLETED ->
  req_ok D rid out r ->
  req_ok D rid out (mkFakeRequest (fr_handle r) st (fr_slot_id r) (fr_prefill_ticks_remaining r)
    (fr_decode_steps_completed r) (fr_output_chunks r) (Some reason)).
Proof.
  intros Ht Ht' Hne [Hh Hs Hc Hno Hw]. split; simpl; try done; [|by destruct st].
  intros Hn. destruct (Hno Hn) as (? & _ & _). by destruct st.
Qed.

Lemma end_request_get st reason rid s k r :
  dget k (fs_requests (end_request st reason rid s)) = Some r ->
  exists r0, dget k (fs_requests s) = Some r0
  /\ (r = r0 \/ cr_terminal (fr_state r0) = false
        /\ r = mkFakeRequest (fr_handle r0) st (fr_slot_id r0) (fr_prefill_ticks_remaining r0)
                 (fr_decode_steps_completed r0) (fr_output_chunks r0) (Some reason)).
Proof.
  unfold end_request. destruct (dget rid (fs_requests s)) as [req|] eqn:Hreq; [|eauto].
  destruct (cr_terminal (fr_state req)) eqn:Ht; [eauto|]. simpl. rewrite dget_dset.
  case_decide; [|eauto]. intros [= <-]. subst. eauto.
Qed.

Lemma token_run_ok config out s rid r :
  token_run config out s -> dget rid (fs_requests s) = Some r ->
  req_ok (max_decode_steps_per_request config) rid (dget_or rid [] out) r.
Proof.
  intros Hrun. revert rid r.
  assert (Hboth : (forall rid r, dget rid (fs_requests s) = Some r ->
      req_ok (max_decode_steps_per_request config) rid (dget_or rid [] out) r)
    /\ (forall rid, dget rid (fs_requests s) = None -> dget_or rid [] out = [])); [|apply Hboth].
  induction Hrun as [|out s op Hrun [IH IHnew] Hop]; [by split|].
  assert (Hend : forall st reason k, cr_terminal st = true -> st <> CR_COMPLETED ->
    (forall rid r, dget rid (fs_requests (end_request st reason k s)) = Some r ->
      req_ok (max_decode_steps_per_request config) rid (dget_or rid [] out) r)
    /\ (forall rid, dget rid (fs_requests (end_request st reason k s)) = None -> dget_or rid [] out = [])).
  { intros st reason k Ht Hne. split.
    - intros rid r Hr. apply end_request_get in Hr as (r0 & Hr0 & [-> | [Hnt ->]]);
        [by apply IH|]. apply req_ok_end; auto.
    - intros rid Hr. apply IHnew. unfold end_request in Hr.
      destruct (dget k (fs_requests s)) as [req|] eqn:Hk; [|done].
      destruct (cr_terminal (fr_state req)); [done|]. simpl in Hr. rewrite dget_dset in Hr.
      by case_decide. }
  destruct op as [handle | k | k | k | | k]; simpl in *; try (by apply Hend).
  - split; intros rid; [intros r|]; rewrite dget_dset; case_decide; try done; auto.
    intros [= <-]. subst. rewrite IHnew by done. apply req_ok_new.
  - pose proof (sched_tick_ticks s) as HR. rewrite (token_run_config _ _ _ Hrun) in HR. split.
    + intros rid r Hr. destruct (dict_rel_back _ _ _ _ _ HR Hr) as (r0 & Hr0 & Ht).
      eapply req_ok_ticks; [exact Ht | by apply IH].
    + intros rid Hr. apply IHnew. pose proof (dict_rel_get _ _ _ rid HR) as H.
      rewrite Hr in H. by destruct (dget rid (fs_requests s)).
  - assert (Hout : forall rid chunks, dget_or rid [] (dset k chunks out)
      = if decide (rid = k) then chunks else dget_or rid [] out).
    { intros rid chunks. unfold dget_or. rewrite dget_dset. by case_decide. }
    unfold sched_drain_outputs. destruct (dget k (fs_requests s)) as [req|] eqn:Hk; simpl.
    + split; intros rid; [intros r|]; rewrite Hout, dget_dset; case_decide; subst; try done; auto.
      intros [= <-]. destruct (IH _ _ Hk) as [Hh Hs Hc Hno Hw]. split; simpl; try done.
      by rewrite app_nil_r.
    + split; intros rid; [intros r|]; rewrite Hout; case_decide; subst; auto; [congruence|].
      intros _. by rewrite IHnew.
Qed.

(** ** Work left *)

(** Steps of [req_tick] a request can still make. *)
Definition request_work (D : Z) (r : FakeContinuousRequest) : Z :=
  match fr_state r with
  | CR_ADMITTED => Z.max 0 D + 5
  | CR_PREFILL_PENDING => Z.max 0 D + 4
  | CR_PREFILL_RUNNING => Z.max 0 D + 3
  | CR_DECODE_ACTIVE => Z.max 0 D - fr_decode_steps_completed r + 2
  | CR_STREAM_DRAINING => 1
  | _ => 0
  end.

Definition sched_work (s : FakeTokenLevelScheduler) : Z :=
  sumZ (map (request_work (max_decode_steps_per_request (fs_config s))) (dvalues (fs_requests s))).

(** Along a tick, for a request that is well formed. *)
Definition ok_ticks (D : Z) (r r' : FakeContinuousRequest) : Prop :=
  (exists rid out, req_ok D rid out r) /\ ticks D r r'.

Lemma request_work_nonneg D rid out r : req_ok D rid out r -> (0 <= request_work D r)%Z.
Proof. intros [_ Hs _ _ _]. unfold request_work. destruct (fr_state r); lia. Qed.

Lemma req_tick_work D rid out r r' :
  req_ok D rid out r -> req_tick D r r' -> (request_work D r' < request_work D r)%Z.
Proof.
  intros [_ Hs _ _ Hw] HT. unfold request_work.
  destruct HT as [sid Hst | Hst | Hst | Hst Hlt | Hst Hle | Hst]; rewrite Hst in *; simpl; try lia.
  - rewrite Hw. simpl. lia.
  - rewrite Hst. lia.
Qed.

Lemma ticks_work D rid out r r' :
  req_ok D rid out r -> ticks D r r' ->
  (request_work D r' <= request_work D r)%Z
  /\ (r <> r' -> (request_work D r' < request_work D r)%Z).
Proof.
  intros Hok HT. induction HT as [r | r1 r2 r3 H12 H23 IH]; [by split|].
  pose proof (req_tick_work D rid out _ _ Hok H12).
  destruct (IH (req_ok_tick _ _ _ _ _ H12 Hok)) as [Hle _]. split; intros; lia.
Qed.

Lemma work_le D d d' :
  dict_rel (ok_ticks D) d d' ->
  (sumZ (map (request_work D) (dvalues d')) <= sumZ (map (request_work D) (dvalues d)))%Z
  /\ (d <> d' ->
      (sumZ (map (request_work D) (dvalues d')) < sumZ (map (request_work D) (dvalues d)))%Z).
Proof.
  induction 1 as [|[k v] [k' v'] d d' [Hk [(rid & out & Hok) HT]] _ [IH1 IH2]]; [by split|].
  simpl in *. subst. destruct (ticks_work D rid out _ _ Hok HT) as [H1 H2].
  split; [lia|]. intros Hne. destruct (decide (request_work D v' = request_work D v)) as [He|He]; [|lia].
  assert (d <> d') as Hd; [|specialize (IH2 Hd); lia]. intros ->.
  assert (v <> v') as Hv by (by intros ->). specialize (H2 Hv). lia.
Qed.

(** ** Progress of a tick *)

Definition all_ok (D : Z) (d : list (string * FakeContinuousRequest)) : Prop :=
  Forall (fun p => exists rid out, req_ok D rid out p.2) d.

Lemma all_ok_phase D d d' :
  all_ok D d -> dict_rel (ticks D) d d' -> dict_rel (ok_ticks D) d d' /\ all_ok D d'.
Proof.
  intros Hok HR. induction HR as [|[k v] [k' v'] d d' [Hk HT] _ IH]; [by split; constructor|].
  apply Forall_cons in Hok as [(rid & out & Hv) Hok]. destruct (IH Hok) as [H1 H2]. simpl in *.
  split; constructor; simpl; try done.
  - split; [done|]. split; eauto.
  - exists rid, out. by eapply req_ok_ticks.
Qed.

Lemma token_run_all_ok config out s :
  token_run config out s -> all_ok (max_decode_steps_per_request config) (fs_requests s).
Proof.
  intros Hrun. apply Forall_forall. intros [rid r] Hin. exists rid, (dget_or rid [] out).
  apply (token_run_ok _ _ s); [done|].
  apply elem_dget; [apply (si_keys _ (token_run_inv _ _ _ Hrun)) | done].
Qed.

Lemma prefill_loop_progress limit count reqs rid r :
  (rid, r) ∈ reqs -> fr_state r = CR_PREFILL_PENDING \/ fr_state r = CR_PREFILL_RUNNING ->
  (count < limit)%Z -> reqs <> prefill_loop limit count reqs.
Proof.
  intros Hin Hst. revert count. induction reqs as [|[k v] reqs IH]; intros count Hlt; simpl.
  { by apply elem_of_nil in Hin. }
  destruct (limit <=? count)%Z eqn:E; [reflect_tests; lia|].
  apply elem_of_cons in Hin as [[= -> ->] | Hin].
  - destruct Hst as [Hst | Hst]; rewrite Hst; intros [= Heq _].
    + apply (f_equal fr_state) in Heq. simpl in Heq. congruence.
    + apply (f_equal fr_prefill_ticks_remaining) in Heq. simpl in Heq. lia.
  - destruct (fr_state v) eqn:Ev; intros [= Heq]; try (by apply (IH Hin count)).
    apply (f_equal fr_state) in Heq. simpl in Heq. congruence.
Qed.

Lemma decode_loop_progress limit max_steps count reqs rid r :
  (rid, r) ∈ reqs -> fr_state r = CR_DECODE_ACTIVE -> (count < limit)%Z ->
  reqs <> decode_loop limit max_steps count reqs.
Proof.
  intros Hin Hst. revert count. induction reqs as [|[k v] reqs IH]; intros count Hlt; simpl.
  { by apply elem_of_nil in Hin. }
  case_bool_decide as Ev.
  - destruct (limit <=? count)%Z eqn:E; [reflect_tests; lia|]. split_if; intros [= Heq _].
    + apply (f_equal fr_state) in Heq. simpl in Heq. congruence.
    + apply (f_equal fr_decode_steps_completed) in Heq. simpl in Heq. lia.
  - apply elem_of_cons in Hin as [[= -> ->] | Hin]; [done|]. intros [= Heq]. by apply (IH Hin count).
Qed.

Lemma drain_loop_progress reqs slots rid r :
  (rid, r) ∈ reqs -> fr_state r = CR_STREAM_DRAINING -> reqs <> (drain_loop reqs slots).1.
Proof.
  intros Hin Hst. revert slots. induction reqs as [|[k v] reqs IH]; intros slots; simpl.
  { by apply elem_of_nil in Hin. }
  case_bool_decide as Ev.
  - destruct (drain_loop _ _). intros [= Heq _].
    apply (f_equal fr_state) in Heq. simpl in Heq. congruence.
  - specialize (fun H => IH H slots). destruct (drain_loop reqs slots).
    apply elem_of_cons in Hin as [[= -> ->] | Hin]; [done|]. intros [= Heq]. by apply IH.
Qed.

Lemma admission_loop_keeps rids s rid r :
  dget rid (fs_requests s) = Some r -> fr_state r <> CR_ADMITTED ->
  dget rid (fs_requests (admission_loop rids s)) = Some r.
Proof.
  revert s. induction rids as [|k rids IH]; intros s Hr Hst; simpl; [done|].
  destruct (dget k (fs_requests s)) as [req|] eqn:Hk; [|by apply IH].
  case_bool_decide as Hw; simpl; [|by apply IH].
  destruct (find_empty_slot _) as [[i slot]|]; [|done]. apply IH; [|done]. simpl.
  rewrite dget_dset_ne; [done|]. intros ->. congruence.
Qed.

Lemma prefill_loop_keeps limit count reqs rid r :
  (rid, r) ∈ reqs -> fr_state r = CR_DECODE_ACTIVE \/ fr_state r = CR_STREAM_DRAINING ->
  (rid, r) ∈ prefill_loop limit count reqs.
Proof.
  intros Hin Hst. revert count. induction reqs as [|[k v] reqs IH]; intros count; simpl; [done|].
  split_if; [done|]. apply elem_of_cons in Hin as [[= -> ->] | Hin].
  - destruct Hst as [-> | ->]; left.
  - specialize (IH Hin). destruct (fr_state v); right; apply IH.
Qed.

Lemma decode_loop_keeps limit max_steps count reqs rid r :
  (rid, r) ∈ reqs -> fr_state r = CR_STREAM_DRAINING ->
  (rid, r) ∈ decode_loop limit max_steps count reqs.
Proof.
  intros Hin Hst. revert count. induction reqs as [|[k v] reqs IH]; intros count; simpl; [done|].
  apply elem_of_cons in Hin as [[= -> ->] | Hin].
  - rewrite bool_decide_eq_false_2 by congruence. left.
  - specialize (IH Hin). case_bool_decide; [split_if; [by right|]; split_if|]; right; apply IH.
Qed.

Lemma admission_loop_progress D rids s rid r slot :
  all_ok D (fs_requests s) -> rid ∈ rids -> dget rid (fs_requests s) = Some r -> fr_state r = CR_ADMITTED ->
  slot ∈ fs_slots s -> sl_state slot = CS_EMPTY ->
  (sumZ (map (request_work D) (dvalues (fs_requests (admission_loop rids s))))
   < sumZ (map (request_work D) (dvalues (fs_requests s))))%Z.
Proof.
  revert s. induction rids as [|k rids IH]; intros s Hok Hin Hr Hst Hsl He.
  { by apply elem_of_nil in Hin. }
  assert (Hrest : forall k', k' <> rid -> k' = k -> rid ∈ rids) by (intros; set_solver).
  simpl. destruct (dget k (fs_requests s)) as [req|] eqn:Hk.
  - case_bool_decide as Hw; simpl.
    + unfold find_empty_slot. destruct (list_find _ (fs_slots s)) as [[i x]|] eqn:Hf.
      * assert (HR1 : dict_rel (ticks D) (fs_requests s) (fs_requests (assign_slot k req i x s))).
        { apply (dict_rel_dset _ _ _ req); [done | done |]. by apply rtc_once, rt_assign. }
        destruct (all_ok_phase D _ _ Hok HR1) as [HO1 Hok1].
        pose proof (all_ok_phase D _ _ Hok1 (admission_loop_ticks D rids _)) as [HO2 _].
        destruct (work_le D _ _ HO1) as [_ Hlt]. destruct (work_le D _ _ HO2) as [Hle _].
        eapply Z.le_lt_trans; [exact Hle | apply Hlt]. intros Heq.
        apply (f_equal (dget k)) in Heq. simpl in Heq. rewrite dget_dset_eq, Hk in Heq.
        apply (f_equal (option_map fr_state)) in Heq. simpl in Heq. congruence.
      * by eapply list_find_None, Forall_forall in Hf.
    + apply (IH (drop_pending k s)); try done. apply (Hrest k); [congruence | done].
  - apply (IH (drop_pending k s)); try done. apply (Hrest k); [congruence | done].
Qed.

(** Nothing a tick could move: no request holds a slot, and none waits or no slot is empty. *)
Definition quiescent (s : FakeTokenLevelScheduler) : Prop :=
  (forall r, r ∈ dvalues (fs_requests s) -> holding (fr_state r) = false)
  /\ ((forall r, r ∈ dvalues (fs_requests s) -> fr_state r <> CR_ADMITTED)
      \/ (forall slot, slot ∈ fs_slots s -> sl_state slot <> CS_EMPTY)).

Lemma not_quiescent s : NoDup (dkeys (fs_requests s)) ->
  quiescent s
  \/ (exists rid r, dget rid (fs_requests s) = Some r /\ holding (fr_state r) = true)
  \/ (exists rid r slot, dget rid (fs_requests s) = Some r /\ fr_state r = CR_ADMITTED
       /\ slot ∈ fs_slots s /\ sl_state slot = CS_EMPTY).
Proof.
  intros Hnd.
  assert (Hget : forall r, r ∈ dvalues (fs_requests s) -> exists rid, dget rid (fs_requests s) = Some r).
  { intros r ([rid r'] & -> & Hin)%list_elem_of_fmap. exists rid. by apply elem_dget. }
  destruct (decide (Exists (fun r => holding (fr_state r) = true) (dvalues (fs_requests s)))) as [Hh|Hh].
  { apply Exists_exists in Hh as (r & Hin & Hh). destruct (Hget r Hin) as [rid Hr]. right. left. eauto. }
  assert (Hno : forall r, r ∈ dvalues (fs_requests s) -> holding (fr_state r) = false).
  { intros r Hr. destruct (holding (fr_state r)) eqn:E; [|done]. destruct Hh.
    apply Exists_exists. eauto. }
  destruct (decide (Exists (fun r => fr_state r = CR_ADMITTED) (dvalues (fs_requests s)))) as [Hw|Hw];
    [destruct (decide (Exists (fun x => sl_state x = CS_EMPTY) (fs_slots s))) as [He|He]|].
  - apply Exists_exists in Hw as (r & Hin & Hw). apply Exists_exists in He as (x & Hx & He).
    destruct (Hget r Hin) as [rid Hr]. right. right. exists rid, r, x. done.
  - left. split; [done|]. right. intros x Hx Hst. apply He, Exists_exists. eauto.
  - left. split; [done|]. left. intros r Hr Hst. apply Hw, Exists_exists. eauto.
Qed.

Lemma tick_progress s :
  sched_inv s -> all_ok (max_decode_steps_per_request (fs_config s)) (fs_requests s) ->
  (1 <= max_prefill_per_tick (fs_config s))%Z -> (1 <= max_decode_per_tick (fs_config s))%Z ->
  quiescent s \/ (sched_work (sched_tick s) < sched_work s)%Z.
Proof.
  intros Hi Hok Hp Hd. set (D := max_decode_steps_per_request (fs_config s)) in *.
  destruct (not_quiescent s (si_keys _ Hi)) as [Hq | Hwork]; [by left | right].
  destruct (sched_tick_phases s) as (Hr4 & _ & Hc4 & _). cbn zeta in *. unfold sched_work.
  rewrite Hc4, Hr4. clear Hr4 Hc4. fold D.
  set (s0 := mkSched _ _ _ (fs_tick_index s + 1) _) in *. set (s1 := process_admission s0) in *.
  set (P := max_prefill_per_tick (fs_config s)) in *. set (L := max_decode_per_tick (fs_config s)) in *.
  set (d2 := prefill_loop P 0 _). set (d3 := decode_loop L D 0 d2).
  destruct (all_ok_phase D (fs_requests s0) (fs_requests s1) Hok (admission_loop_ticks D _ s0)) as [HO1 Hok1].
  destruct (all_ok_phase D _ d2 Hok1 (prefill_loop_ticks D _ 0 _)) as [HO2 Hok2].
  destruct (all_ok_phase D _ d3 Hok2 (decode_loop_ticks D _ 0 _)) as [HO3 Hok3].
  destruct (all_ok_phase D _ _ Hok3 (drain_loop_ticks D d3 (fs_slots s1))) as [HO4 _].
  apply work_le in HO1 as [L1 _]. apply work_le in HO2 as [L2 S2].
  apply work_le in HO3 as [L3 S3]. apply work_le in HO4 as [L4 S4]. cbn [fs_requests s0] in L1.
  destruct Hwork as [(rid & r & Hr & Hh) | (rid & r & slot & Hr & Hst & Hsl & He)].
  - assert (Hin1 : (rid, r) ∈ fs_requests s1).
    { apply dget_Some_elem, admission_loop_keeps; [done|]. by intros E; rewrite E in Hh. }
    destruct (fr_state r) eqn:Hst; try done.
    + pose proof (S2 (prefill_loop_progress P 0 _ _ _ Hin1 (or_introl Hst) ltac:(lia))). lia.
    + pose proof (S2 (prefill_loop_progress P 0 _ _ _ Hin1 (or_intror Hst) ltac:(lia))). lia.
    + pose proof (prefill_loop_keeps P 0 _ _ _ Hin1 (or_introl Hst)) as Hin2.
      pose proof (S3 (decode_loop_progress L D 0 _ _ _ Hin2 Hst ltac:(lia))). lia.
    + pose proof (prefill_loop_keeps P 0 _ _ _ Hin1 (or_intror Hst)) as Hin2.
      pose proof (decode_loop_keeps L D 0 _ _ _ Hin2 Hst) as Hin3.
      pose proof (S4 (drain_loop_progress _ (fs_slots s1) _ _ Hin3 Hst)). lia.
  - destruct (si_waiting _ Hi rid r Hr Hst) as [_ Hpend].
    pose proof (admission_loop_progress D (fs_pending_admission s0) s0 rid r slot Hok Hpend Hr Hst Hsl He).
    change (fs_requests s0) with (fs_requests s) in *.
    change (admission_loop (fs_pending_admission s0) s0) with s1 in *. lia.
Qed.

Lemma admission_loop_quiescent rids s : quiescent s ->
  fs_requests (admission_loop rids s) = fs_requests s /\ fs_slots (admission_loop rids s) = fs_slots s.
Proof.
  revert s. induction rids as [|k rids IH]; intros s Hq; simpl; [done|].
  destruct (dget k (fs_requests s)) as [req|] eqn:Hk; [|by apply (IH (drop_pending k s))].
  case_bool_decide as Hw; simpl; [|by apply (IH (drop_pending k s))].
  destruct (find_empty_slot (fs_slots s)) as [[i slot]|] eqn:Hf; [|done].
  apply list_find_Some in Hf as (Hx & He & _). destruct Hq as [_ [Hq | Hq]].
  - by destruct (Hq req); [eapply dget_Some_value|].
  - by destruct (Hq slot); [eapply list_elem_of_lookup_2|].
Qed.

Lemma phases_idle (P L D : Z) reqs slots :
  (forall r, r ∈ dvalues reqs -> holding (fr_state r) = false) ->
  prefill_loop P 0 reqs = reqs /\ decode_loop L D 0 reqs = reqs /\ drain_loop reqs slots = (reqs, slots).
Proof.
  generalize 0%Z at 1 as c1. generalize 0%Z as c2. induction reqs as [|[k r] reqs IH];
    intros c2 c1 Hno; [done|].
  assert (Hr : holding (fr_state r) = false) by (apply Hno; left).
  destruct (IH c2 c1) as (H1 & H2 & H3); [intros x Hx; apply Hno; by right|].
  simpl. rewrite H3. destruct (fr_state r); simpl; try done; rewrite ?H1, ?H2; by repeat split_if.
Qed.

Lemma tick_quiescent s : quiescent s ->
  fs_requests (sched_tick s) = fs_requests s /\ quiescent (sched_tick s).
Proof.
  intros Hq. destruct (sched_tick_phases s) as (Hr & Hs & _). cbn zeta in *.
  set (s0 := mkSched _ _ _ (fs_tick_index s + 1) _) in *.
  destruct (admission_loop_quiescent (fs_pending_admission s0) s0 Hq) as [Ha Hb].
  change (admission_loop _ s0) with (process_admission s0) in Ha, Hb. rewrite Ha, Hb in *.
  change (fs_requests s0) with (fs_requests s) in *. change (fs_slots s0) with (fs_slots s) in *.
  destruct (phases_idle (max_prefill_per_tick (fs_config s)) (max_decode_per_tick (fs_config s))
    (max_decode_steps_per_request (fs_config s)) (fs_requests s) (fs_slots s) (proj1 Hq)) as (H1 & H2 & H3).
  rewrite H1, H2, H3 in Hr, Hs. simpl in *. split; [done|]. unfold quiescent. by rewrite Hr, Hs.
Qed.

Lemma token_run_ticks config out s n :
  token_run config out s -> token_run config out (Nat.iter n sched_tick s).
Proof. intros H. induction n; [done|]. by apply (token_run_step config out _ OpTick). Qed.

Lemma sched_work_nonneg config out s : token_run config out s -> (0 <= sched_work s)%Z.
Proof.
  intros Hrun. pose proof (token_run_all_ok _ _ _ Hrun) as Hok. unfold sched_work.
  rewrite (token_run_config _ _ _ Hrun). apply sumZ_nonneg, Forall_forall.
  intros z (r & -> & ([k r'] & -> & Hin)%list_elem_of_fmap)%list_elem_of_fmap.
  unfold all_ok in Hok. rewrite Forall_forall in Hok.
  destruct (Hok (k, r') Hin) as (rid & out' & Hr). by eapply request_work_nonneg.
Qed.

Lemma quiescent_after config out s n :
  token_run config out s ->
  (1 <= max_prefill_per_tick config)%Z -> (1 <= max_decode_per_tick config)%Z ->
  (sched_work s <= Z.of_nat n)%Z -> quiescent (Nat.iter n sched_tick s).
Proof.
  intros Hrun Hp Hd Hn.
  assert (Hmain : quiescent (Nat.iter n sched_tick s)
    \/ (sched_work (Nat.iter n sched_tick s) <= sched_work s - Z.of_nat n)%Z).
  { clear Hn. induction n as [|n [IH | IH]]; [right; simpl; lia | left; by apply tick_quiescent |].
    pose proof (token_run_ticks _ _ _ n Hrun) as Hrun'. simpl Nat.iter.
    pose proof (token_run_config _ _ _ Hrun') as Hc.
    destruct (tick_progress (Nat.iter n sched_tick s)) as [Hq | Hlt]; rewrite ?Hc; try done.
    - by eapply token_run_inv.
    - by eapply token_run_all_ok.
    - left. by apply tick_quiescent.
    - right. lia. }
  destruct Hmain as [Hq | Hle]; [done|].
  pose proof (token_run_ticks _ _ _ n Hrun) as Hrun'. pose proof (token_run_config _ _ _ Hrun') as Hc.
  destruct (tick_progress (Nat.iter n sched_tick s)) as [Hq | Hlt]; rewrite ?Hc; try done.
  - by eapply token_run_inv.
  - by eapply token_run_all_ok.
  - exfalso. pose proof (token_run_ticks _ _ _ (S n) Hrun) as Hrun2.
    pose proof (sched_work_nonneg _ _ _ Hrun2). simpl in *. lia.
Qed.

Lemma ticks_from_holding D r r' : ticks D r r' ->
  holding (fr_state r) = true \/ fr_state r = CR_COMPLETED ->
  holding (fr_state r') = true \/ fr_state r' = CR_COMPLETED.
Proof.
  induction 1 as [|r1 r2 r3 H12 _ IH]; [done|]. intros H. apply IH.
  destruct H12 as [sid Hst | Hst | Hst | Hst _ | Hst _ | Hst]; rewrite Hst in H; simpl; rewrite ?Hst; auto.
  split_if; auto.
Qed.

Lemma iter_ticks config out s n : token_run config out s ->
  dict_rel (ticks (max_decode_steps_per_request config)) (fs_requests s)
    (fs_requests (Nat.iter n sched_tick s)).
Proof.
  intros Hrun. induction n as [|n IH]; [apply ticks_refl|].
  eapply ticks_trans; [exact IH|]. simpl.
  rewrite <- (token_run_config _ _ _ (token_run_ticks _ _ _ n Hrun)). apply sched_tick_ticks.
Qed.

(** ** The guarantees *)

Lemma slot_violations_nil slots seen :
  (forall slot, slot ∈ slots -> sl_state slot = CS_RELEASED -> sl_request_id slot = None) ->
  NoDup (omap sl_request_id slots) -> (forall rid, rid ∈ omap sl_request_id slots -> rid ∉ seen) ->
  slot_violations seen slots = [].
Proof.
  revert seen. induction slots as [|slot slots IH]; intros seen Hrel Hnd Hdis; simpl in *; [done|].
  destruct (sl_request_id slot) as [rid|] eqn:E.
  - apply NoDup_cons in Hnd as [Hn Hnd].
    rewrite bool_decide_eq_false_2; [|intros Hst; by rewrite (Hrel slot) in E by (done || left)].
    rewrite bool_decide_eq_false_2 by (apply Hdis; left). simpl. apply IH; [set_solver | done|].
    intros rid' Hin [-> | Hs]%elem_of_cons; [done|]. apply (Hdis rid'); [by right | done].
  - apply IH; [set_solver | done | done].
Qed.

Lemma owners_distinct s : sched_inv s -> NoDup (omap sl_request_id (fs_slots s)).
Proof.
  intros Hi. assert (Hown : forall slot rid, slot ∈ fs_slots s -> sl_request_id slot = Some rid ->
    exists r, dget rid (fs_requests s) = Some r /\ fr_slot_id r = Some (sl_slot_id slot)).
  { intros slot rid Hin H. apply (si_owner _ Hi) in H as (r & ? & _ & ?); eauto. }
  pose proof (si_slots_NoDup _ Hi) as Hnd. revert Hown Hnd. generalize (fs_slots s) as slots.
  induction slots as [|slot slots IH]; intros Hown Hnd; simpl in *; [constructor|].
  apply NoDup_cons in Hnd as [Hn Hnd].
  assert (IH' : NoDup (omap sl_request_id slots)) by (apply IH; [intros; apply Hown; [by right | done] | done]).
  destruct (sl_request_id slot) as [rid|] eqn:E; [|done]. apply NoDup_cons. split; [|done].
  intros (x & Hx & Hxr)%list_elem_of_omap.
  destruct (Hown slot rid ltac:(left) E) as (r & Hr & Hsl).
  destruct (Hown x rid ltac:(by right) Hxr) as (r' & Hr' & Hsl').
  apply Hn, list_elem_of_fmap. exists x. split; [congruence | done].
Qed.

Definition got_a_slot (r : FakeContinuousRequest) : bool := bool_decide (is_Some (fr_slot_id r)).

Lemma slots_handed_out s : sched_inv s ->
  (countv got_a_slot (fs_requests s) <= Z.of_nat (length (fs_slots s)))%Z.
Proof.
  intros Hi. unfold countv, countb. rewrite <- (length_fmap sl_slot_id (fs_slots s)).
  set (l := List.filter got_a_slot (dvalues (fs_requests s))).
  rewrite <- (length_fmap (fun r => default "" (fr_slot_id r)) l).
  apply inj_le, submseteq_length, NoDup_submseteq.
  - apply NoDup_fmap_2_strong.
    + intros r r' Hr Hr' Heq. unfold l in Hr, Hr'.
      apply elem_of_filter_List in Hr as [Hin Hs]. apply elem_of_filter_List in Hr' as [Hin' Hs'].
      unfold got_a_slot in Hs, Hs'. apply bool_decide_eq_true in Hs as [sid Hs].
      apply bool_decide_eq_true in Hs' as [sid' Hs']. rewrite Hs, Hs' in Heq. simpl in Heq. subst.
      apply list_elem_of_fmap in Hin as ([k r1] & -> & Hin). apply list_elem_of_fmap in Hin' as ([k' r2] & -> & Hin').
      apply elem_dget in Hin; [|apply Hi]. apply elem_dget in Hin'; [|apply Hi].
      pose proof (si_once _ Hi k k' _ _ _ Hin Hin' Hs Hs'). subst. congruence.
    + eapply sublist_NoDup; [|apply filter_List_sublist]. apply NoDup_fmap_2_strong.
      * intros [k r] [k' r'] Hin Hin' Heq. simpl in Heq. subst.
        apply elem_dget in Hin; [|apply Hi]. apply elem_dget in Hin'; [|apply Hi].
        pose proof (si_ids _ Hi _ _ Hin). pose proof (si_ids _ Hi _ _ Hin'). congruence.
      * eapply NoDup_fmap_1, Hi.
  - intros sid (r & -> & [Hin Hs]%elem_of_filter_List)%list_elem_of_fmap.
    unfold got_a_slot in Hs. apply bool_decide_eq_true in Hs as [sid Hs]. rewrite Hs. simpl.
    apply list_elem_of_fmap in Hin as ([k r'] & -> & Hin). apply elem_dget in Hin; [|apply Hi].
    destruct (si_used _ Hi k r' sid Hin Hs) as (x & Hx & <- & _). apply list_elem_of_fmap. eauto.
Qed.

(** C17: In every history in which a request id is used once, [validate_slot_assignments] finds
    nothing, a slot has an owner exactly while that request is live in it, every such request
    has its slot, and over the whole life of the scheduler no more than [max_slots] requests
    ever get one: a released or finished slot is never handed out again. *)
Theorem slots_are_exclusive config out s (H : token_run config out s) :
  validate_slot_assignments (fs_slots s) = []
  /\ (forall slot rid, slot ∈ fs_slots s ->
        (sl_request_id slot = Some rid <->
         exists r, dget rid (fs_requests s) = Some r /\ holding (fr_state r) = true
           /\ fr_slot_id r = Some (sl_slot_id slot)))
  /\ (forall rid r, dget rid (fs_requests s) = Some r -> holding (fr_state r) = true ->
        exists slot, slot ∈ fs_slots s /\ sl_request_id slot = Some rid)
  /\ (countv got_a_slot (fs_requests s) <= Z.max 0 (max_slots config))%Z.
Proof.
  pose proof (token_run_inv _ _ _ H) as Hi. split; [|split; [|split]].
  - apply slot_violations_nil; [apply Hi | by apply owners_distinct | set_solver].
  - apply (si_owner _ Hi).
  - intros rid r Hr Hh. destruct (si_holding _ Hi rid r Hr Hh) as [sid Hs].
    destruct (si_used _ Hi rid r sid Hr Hs) as (x & Hx & Hid & _). exists x. split; [done|].
    apply (si_owner _ Hi); [done|]. exists r. by rewrite Hs, Hid.
  - pose proof (slots_handed_out s Hi) as Hle. rewrite <- (length_fmap sl_slot_id) in Hle.
    change (fmap sl_slot_id (fs_slots s)) with (map sl_slot_id (fs_slots s)) in Hle.
    rewrite (si_slots _ Hi), init_slot_ids, (token_run_config _ _ _ H), length_map, length_seq in Hle. lia.
Qed.

(** What was drained for a request followed by what waits is exactly its chunks
    [0 .. k - 1], each with its own request id and slot, where [k] is the number of its decode
    steps and stays within the configured limit; a completed request has produced all of them,
    and a request that never got a slot none. *)
Theorem outputs_are_own_and_in_order config out s rid r
    (H : token_run config out s) (Hr : dget rid (fs_requests s) = Some r) :
  let D := Z.max 0 (max_decode_steps_per_request config) in
  (dget_or rid [] out ++ fr_output_chunks r)%list =
    chunks_from rid (fr_slot_id r) 0 (Z.to_nat (fr_decode_steps_completed r))
  /\ (0 <= fr_decode_steps_completed r <= D)%Z
  /\ (fr_state r = CR_COMPLETED ->
        fr_decode_steps_completed r = D /\ fr_finish_reason r = Some CF_STOP)
  /\ (fr_slot_id r = None -> dget_or rid [] out = [] /\ fr_output_chunks r = []).
Proof.
  destruct (token_run_ok _ _ _ _ _ H Hr) as [_ Hs Hc Hno Hw]. split; [done|]. split; [done|]. split.
  - intros E. by rewrite E in Hw.
  - intros E. destruct (Hno E) as (H0 & _). rewrite H0 in Hc. by apply app_eq_nil in Hc.
Qed.

(** With positive limits per tick, ticks alone finish everything that holds a slot:
    after as many ticks as there is work left, every request has ended or still waits, and
    every request that held a slot is completed.  A request still waits only if no slot is
    empty, and then it waits for ever: further ticks change no request. *)
Theorem ticks_finish_what_started config out s n
    (H : token_run config out s)
    (Hp : (1 <= max_prefill_per_tick config)%Z) (Hd : (1 <= max_decode_per_tick config)%Z)
    (Hn : (sched_work s <= Z.of_nat n)%Z) :
  (forall rid r, dget rid (fs_requests (Nat.iter n sched_tick s)) = Some r ->
     cr_terminal (fr_state r) = true
     \/ fr_state r = CR_ADMITTED
        /\ (forall slot, slot ∈ fs_slots (Nat.iter n sched_tick s) -> sl_state slot <> CS_EMPTY))
  /\ (forall rid r, dget rid (fs_requests s) = Some r -> holding (fr_state r) = true ->
      exists r', dget rid (fs_requests (Nat.iter n sched_tick s)) = Some r'
        /\ fr_state r' = CR_COMPLETED)
  /\ fs_requests (sched_tick (Nat.iter n sched_tick s)) = fs_requests (Nat.iter n sched_tick s).
Proof.
  pose proof (quiescent_after config out s n H Hp Hd Hn) as Hq.
  pose proof (iter_ticks config out s n H) as HR. split; [|split].
  - intros rid r Hr. apply dget_Some_value in Hr. destruct Hq as [Hno Hq].
    specialize (Hno r Hr). destruct (fr_state r) eqn:E; simpl in *; try done; try (by left).
    right. split; [done|]. destruct Hq as [Hq | Hq]; [by destruct (Hq r Hr) | done].
  - intros rid r Hr Hh. destruct (dict_rel_forth _ _ _ _ _ HR Hr) as (r' & Hr' & HT).
    exists r'. split; [done|]. destruct (ticks_from_holding _ _ _ HT (or_introl Hh)) as [Hh'|]; [|done].
    apply dget_Some_value in Hr'. destruct Hq as [Hno _]. by rewrite (Hno r' Hr') in Hh'.
  - by apply tick_quiescent.
Qed.

(** An ended request keeps its state, its slot, its count of steps and its reason, whatever
    is done to the scheduler, until its id is used again. *)
Theorem ended_requests_stay_ended s op rid r :
  dget rid (fs_requests s) = Some r -> cr_terminal (fr_state r) = true ->
  (match op with OpAdmit handle => ch_request_id handle <> rid | _ => True end) ->
  exists r', dget rid (fs_requests (token_sched_step op s)) = Some r' /\ fr_state r' = fr_state r
    /\ fr_handle r' = fr_handle r /\ fr_slot_id r' = fr_slot_id r
    /\ fr_decode_steps_completed r' = fr_decode_steps_completed r
    /\ fr_finish_reason r' = fr_finish_reason r.
Proof.
  intros Hr Ht Hop.
  assert (Hend : forall st reason k, dget rid (fs_requests (end_request st reason k s)) = Some r).
  { intros st reason k. unfold end_request. destruct (dget k (fs_requests s)) as [req|] eqn:Hk; [|done].
    destruct (cr_terminal (fr_state req)) eqn:Hkt; [done|]. simpl.
    rewrite dget_dset_ne; [done|]. intros ->. congruence. }
  destruct op as [handle | k | k | k | | k]; simpl in *.
  - exists r. by rewrite dget_dset_ne.
  - exists r. split; [apply Hend | done].
  - exists r. split; [apply Hend | done].
  - exists r. split; [apply Hend | done].
  - destruct (dict_rel_forth _ _ _ _ _ (sched_tick_ticks s) Hr) as (r' & Hr' & HT).
    assert (r' = r) as ->; [|by exists r]. clear -HT Ht.
    destruct HT as [|r1 r2 r3 H12 _]; [done|]. exfalso.
    destruct H12 as [sid Hst | Hst | Hst | Hst _ | Hst _ | Hst]; by rewrite Hst in Ht.
  - unfold sched_drain_outputs. destruct (dget k (fs_requests s)) as [req|] eqn:Hk; [|by exists r].
    simpl. rewrite dget_dset. case_decide; subst; [|by exists r].
    rewrite Hk in Hr. simplify_eq. by eexists.
Qed.

(** ** What [validate] cannot see, and what it reports on healthy runs *)

Lemma terminal_reasons_get (l : list FakeContinuousRequest) d k st :
  dget k (foldl (fun d r => dset (ch_request_id (fr_handle r)) (fr_state r) d) d l) = Some st ->
  dget k d = Some st \/ exists r, r ∈ l /\ ch_request_id (fr_handle r) = k /\ fr_state r = st.
Proof.
  revert d. induction l as [|r l IH]; intros d H; simpl in *; [by left|].
  destruct (IH _ H) as [H' | (r' & Hin & Hk & Hst)].
  - rewrite dget_dset in H'. case_decide; [|by left]. simplify_eq. right. exists r.
    split; [left | done].
  - right. exists r'. split; [by right | done].
Qed.

(** The check for re-entered terminal states never reports anything: [validate] compares the
    live requests with the ended ones of the same table, and these are different requests. *)
Theorem terminal_check_never_fires config out s : token_run config out s ->
  validate_terminal_state_not_reentered (map fr_handle (live_requests s))
    (sched_terminal_reasons s) = [].
Proof.
  intros Hrun. pose proof (token_run_inv _ _ _ Hrun) as Hi.
  unfold validate_terminal_state_not_reentered.
  assert (Hall : forall h, h ∈ map fr_handle (live_requests s) ->
    dget (ch_request_id h) (sched_terminal_reasons s) = None).
  { intros h (r & -> & [Hin Hl]%elem_of_filter_List)%list_elem_of_fmap.
    destruct (dget _ (sched_terminal_reasons s)) as [st|] eqn:E; [|done]. exfalso.
    apply terminal_reasons_get in E as [E | (r' & [Hin' Hl']%elem_of_filter_List & Hk & _)]; [done|].
    apply list_elem_of_fmap in Hin as ([k r1] & -> & Hin). apply list_elem_of_fmap in Hin' as ([k' r2] & -> & Hin').
    apply elem_dget in Hin; [|apply Hi]. apply elem_dget in Hin'; [|apply Hi]. simpl in *.
    pose proof (si_ids _ Hi _ _ Hin). pose proof (si_ids _ Hi _ _ Hin').
    assert (k = k') as -> by congruence. rewrite Hin in Hin'. simplify_eq.
    by rewrite Hl' in Hl. }
  revert Hall. generalize (map fr_handle (live_requests s)) as hs.
  induction hs as [|h hs IH]; intros Hall; [done|]. simpl.
  rewrite (Hall h) by left. apply IH. intros h' Hin. apply Hall. by right.
Qed.

Definition demo_handle (rid : string) : ContinuousRequestHandle :=
  mkHandle rid "m" "fake" false 0 None None.

Definition demo_sched (ops : list sched_op) : FakeTokenLevelScheduler :=
  foldl (fun s op => token_sched_step op s) (new_token_scheduler default_sched_config) ops.

(** Using an id again, which nothing prevents, restarts an ended request in a second slot while
    it still owns the first: the exclusiveness above needs its hypothesis. *)
Example reused_id_owns_two_slots :
  let s := demo_sched [OpAdmit (demo_handle "a"); OpTick; OpAdmit (demo_handle "a"); OpTick] in
  map sl_request_id (fs_slots s) = [Some "a"; Some "a"]
  /\ validate_slot_assignments (fs_slots s) = [DUPLICATE_SLOT_ASSIGNMENT].
Proof. by vm_compute. Qed.

(** A request that completes normally and whose chunks nobody has fetched yet makes [validate]
    report two violations per chunk, and its slot still counts as active. *)
Example completed_output_is_reported :
  let s := demo_sched (OpAdmit (demo_handle "a") :: repeat OpTick 7) in
  map (fun r => fr_state r) (dvalues (fs_requests s)) = [CR_COMPLETED]
  /\ sched_validate s = repeat OUTPUT_DEMUX_MISMATCH 6
  /\ ss_active_slot_count (sched_snapshot s) = 1%Z.
Proof. by vm_compute. Qed.

Lemma demo_run :
  token_run default_sched_config [("a", [chunk_at "a" "slot-0" 0])]
    (demo_sched [OpAdmit (demo_handle "a"); OpAdmit (demo_handle "b"); OpAdmit (demo_handle "c");
       OpTick; OpCancel "b"; OpTick; OpDrain "a"]).
Proof.
  pose proof (token_run_start default_sched_config) as H.
  apply (token_run_step _ _ _ (OpAdmit (demo_handle "a"))) in H; [|done].
  apply (token_run_step _ _ _ (OpAdmit (demo_handle "b"))) in H; [|done].
  apply (token_run_step _ _ _ (OpAdmit (demo_handle "c"))) in H; [|done].
  apply (token_run_step _ _ _ OpTick) in H; [|done].
  apply (token_run_step _ _ _ (OpCancel "b")) in H; [|done].
  apply (token_run_step _ _ _ OpTick) in H; [|done].
  apply (token_run_step _ _ _ (OpDrain "a")) in H; [|done].
  exact H.
Qed.

Definition demo_ops : list sched_op :=
  [OpAdmit (demo_handle "a"); OpAdmit (demo_handle "b"); OpAdmit (demo_handle "c");
   OpTick; OpCancel "b"; OpTick; OpDrain "a"].

Lemma slots_are_exclusive_witness :
  (countv got_a_slot (fs_requests (demo_sched demo_ops)) <= 2)%Z
  /\ map sl_request_id (fs_slots (demo_sched demo_ops)) = [Some "a"; None].
Proof.
  split; [exact (proj2 (proj2 (proj2 (slots_are_exclusive _ _ _ demo_run)))) | by vm_compute].
Defined.

Lemma outputs_are_own_and_in_order_witness :
  exists r, dget "a" (fs_requests (demo_sched demo_ops)) = Some r
  /\ ([chunk_at "a" "slot-0" 0] ++ fr_output_chunks r)%list
     = chunks_from "a" (fr_slot_id r) 0 (Z.to_nat (fr_decode_steps_completed r)).
Proof.
  eexists. split; [reflexivity|].
  exact (proj1 (outputs_are_own_and_in_order _ _ _ "a" _ demo_run eq_refl)).
Defined.

Lemma ticks_finish_what_started_witness :
  map (fun r => fr_state r) (dvalues (fs_requests (Nat.iter 12 sched_tick (demo_sched demo_ops))))
    = [CR_COMPLETED; CR_CANCELLED; CR_ADMITTED]
  /\ fs_requests (sched_tick (Nat.iter 12 sched_tick (demo_sched demo_ops)))
     = fs_requests (Nat.iter 12 sched_tick (demo_sched demo_ops)).
Proof.
  split; [by vm_compute|].
  refine (proj2 (proj2 (ticks_finish_what_started _ _ _ 12 demo_run _ _ _))); by vm_compute.
Defined.
