(* ===== verification/Demux.v ===== *)
(** * The streaming demultiplexer ([continuous_streaming.py]) and the normalisation of MLX
      chunks ([mlx_token_loop.py])

    Chunks of many requests arrive interleaved; each is appended to the stream of its request,
    which ends with one terminal event.  The streams are a dictionary of objects that occur
    nowhere else.  [demux_step] is one call of a public method; the methods that return
    violations return them beside the new state. *)

From S2P Require Import Prelude PyDict PyStr PySeq Continuous ContinuousProps.
Open Scope string_scope.

Inductive FakeStreamEventKind := FE_CHUNK | FE_COMPLETED | FE_CANCELLED | FE_TIMED_OUT | FE_FAILED.

Inductive FakeStreamState := FS_OPEN | FS_COMPLETED | FS_CANCELLED | FS_TIMED_OUT | FS_FAILED.

#[export] Instance FakeStreamEventKind_eq_dec : EqDecision FakeStreamEventKind.
Proof. solve_decision. Defined.

#[export] Instance FakeStreamState_eq_dec : EqDecision FakeStreamState.
Proof. solve_decision. Defined.

Record FakeStreamEvent := mkEvent {
  se_request_id : string;
  se_sequence_index : Z;
  se_kind : FakeStreamEventKind;
  se_text : option string;
  se_finish_reason : option ContinuousFinishReason;
}.

Record FakeRequestStream := mkStream {
  rs_request_id : string;
  rs_state : FakeStreamState;
  rs_next_sequence_index : Z;
  rs_events : list FakeStreamEvent;
  rs_terminal_emitted : bool;
}.

Definition new_stream (request_id : string) : FakeRequestStream :=
  mkStream request_id FS_OPEN 0 [] false.

(** [FakeStreamingDemux._streams] *)
Abbreviation FakeStreamingDemux := (list (string * FakeRequestStream)).

Definition open_stream (request_id : string) (d : FakeStreamingDemux) : FakeStreamingDemux :=
  if dmem request_id d then d else dset request_id (new_stream request_id) d.

(** The stream accepts the chunk: a new event and the next index. *)
Definition append_chunk (chunk : ContinuousOutputChunk) (stream : FakeRequestStream)
    : FakeRequestStream :=
  mkStream (rs_request_id stream) (rs_state stream) (rs_next_sequence_index stream + 1)
    (rs_events stream
     ++ [mkEvent (oc_request_id chunk) (oc_sequence_index chunk) FE_CHUNK (oc_text chunk) None])%list
    (rs_terminal_emitted stream).

Definition route_chunk (chunk : ContinuousOutputChunk)
    (active_request_ids active_slot_ids : list string) (d : FakeStreamingDemux)
    : list ContinuousBatchInvariantViolation * FakeStreamingDemux :=
  let violations :=
    ((if bool_decide (oc_request_id chunk ∈ active_request_ids) then [] else [OUTPUT_DEMUX_MISMATCH])
     ++ (if bool_decide (oc_slot_id chunk ∈ active_slot_ids) then [] else [OUTPUT_DEMUX_MISMATCH]))%list in
  match dget (oc_request_id chunk) d with
  | None => (violations ++ [OUTPUT_DEMUX_MISMATCH], d)%list
  | Some stream =>
      if negb (bool_decide (rs_state stream = FS_OPEN)) then
        (violations ++ [TERMINAL_STATE_REENTERED], d)%list
      else if negb (oc_sequence_index chunk =? rs_next_sequence_index stream)%Z then
        (violations ++ [OUTPUT_DEMUX_MISMATCH], d)%list
      else (violations, dset (oc_request_id chunk) (append_chunk chunk stream) d)
  end.

(** [state_map.get(kind, FakeStreamState.COMPLETED)] *)
Definition terminal_state (kind : FakeStreamEventKind) : FakeStreamState :=
  match kind with
  | FE_COMPLETED => FS_COMPLETED | FE_CANCELLED => FS_CANCELLED | FE_TIMED_OUT => FS_TIMED_OUT
  | FE_FAILED => FS_FAILED | FE_CHUNK => FS_COMPLETED
  end.

Definition end_stream (kind : FakeStreamEventKind) (reason : ContinuousFinishReason)
    (request_id : string) (stream : FakeRequestStream) : FakeRequestStream :=
  mkStream (rs_request_id stream) (terminal_state kind) (rs_next_sequence_index stream + 1)
    (rs_events stream ++ [mkEvent request_id (rs_next_sequence_index stream) kind None (Some reason)])%list
    true.

Definition emit_terminal (kind : FakeStreamEventKind) (reason : ContinuousFinishReason)
    (request_id : string) (d : FakeStreamingDemux)
    : list ContinuousBatchInvariantViolation * FakeStreamingDemux :=
  match dget request_id d with
  | None => ([], d)
  | Some stream =>
      if negb (bool_decide (rs_state stream = FS_OPEN)) then ([TERMINAL_STATE_REENTERED], d)
      else ([], dset request_id (end_stream kind reason request_id stream) d)
  end.

Definition demux_complete := emit_terminal FE_COMPLETED CF_STOP.
Definition demux_cancel := emit_terminal FE_CANCELLED CF_CANCELLED.
Definition demux_timeout := emit_terminal FE_TIMED_OUT CF_TIMEOUT.
Definition demux_fail := emit_terminal FE_FAILED CF_ERROR.

Definition clear_events (stream : FakeRequestStream) : FakeRequestStream :=
  mkStream (rs_request_id stream) (rs_state stream) (rs_next_sequence_index stream) []
    (rs_terminal_emitted stream).

Definition drain_events (request_id : string) (d : FakeStreamingDemux)
    : list FakeStreamEvent * FakeStreamingDemux :=
  match dget request_id d with
  | None => ([], d)
  | Some stream => (rs_events stream, dset request_id (clear_events stream) d)
  end.

Record FakeStreamDemuxSnapshot := mkDemuxSnapshot {
  ds_open_stream_count : Z;
  ds_completed_stream_count : Z;
  ds_cancelled_stream_count : Z;
  ds_timed_out_stream_count : Z;
  ds_failed_stream_count : Z;
  ds_total_events : Z;
  ds_total_chunk_events : Z;
  ds_total_terminal_events : Z;
}.

Definition streams_in (st : FakeStreamState) (d : FakeStreamingDemux) : Z :=
  countv (fun s => bool_decide (rs_state s = st)) d.

Definition is_chunk_event (e : FakeStreamEvent) : bool := bool_decide (se_kind e = FE_CHUNK).

Definition demux_snapshot (d : FakeStreamingDemux) : FakeStreamDemuxSnapshot :=
  let events := flat_map rs_events (dvalues d) in
  mkDemuxSnapshot (streams_in FS_OPEN d) (streams_in FS_COMPLETED d) (streams_in FS_CANCELLED d)
    (streams_in FS_TIMED_OUT d) (streams_in FS_FAILED d) (Z.of_nat (length events))
    (countb is_chunk_event events) (countb (fun e => negb (is_chunk_event e)) events).

Definition demux_validate (d : FakeStreamingDemux) : list ContinuousBatchInvariantViolation := [].

(** ** Histories *)

Inductive demux_op :=
| DOpen (request_id : string)
| DRoute (chunk : ContinuousOutputChunk) (active_request_ids active_slot_ids : list string)
| DComplete (request_id : string)
| DCancel (request_id : string)
| DTimeout (request_id : string)
| DFail (request_id : string)
| DDrain (request_id : string).

(** The request whose stream a call names. *)
Definition demux_target (op : demux_op) : string :=
  match op with
  | DOpen rid | DComplete rid | DCancel rid | DTimeout rid | DFail rid | DDrain rid => rid
  | DRoute chunk _ _ => oc_request_id chunk
  end.

Definition demux_step (op : demux_op) (d : FakeStreamingDemux) : FakeStreamingDemux :=
  match op with
  | DOpen rid => open_stream rid d
  | DRoute chunk rids sids => snd (route_chunk chunk rids sids d)
  | DComplete rid => snd (demux_complete rid d)
  | DCancel rid => snd (demux_cancel rid d)
  | DTimeout rid => snd (demux_timeout rid d)
  | DFail rid => snd (demux_fail rid d)
  | DDrain rid => snd (drain_events rid d)
  end.

Definition demux_run (ops : list demux_op) (d : FakeStreamingDemux) : FakeStreamingDemux :=
  foldl (fun d op => demux_step op d) d ops.

(** ** [mlx_token_loop.py] *)

Inductive MLXTokenLoopPrototypeStatus := TL_DISABLED | TL_PROBE_ONLY | TL_PLAUSIBLE | TL_INCONCLUSIVE | TL_FAILED.

Record MLXTokenLoopChunk := mkTokenLoopChunk {
  tl_request_id : string;
  tl_slot_id : string;
  tl_sequence_index : Z;
  tl_text : option string;
  tl_finish_reason : option ContinuousFinishReason;
}.

Definition MISSING_PRIMITIVES : list string :=
  ["slot_ownership"; "cancellation_hook"; "timeout_hook"; "sampling_state"; "failure_isolation";
   "cleanup_hook"].

Record MLXTokenLoopPrototypeReport := mkTokenLoopReport {
  tr_backend : string;
  tr_status : MLXTokenLoopPrototypeStatus;
  tr_chunks_observed : Z;
  tr_demux_routed_chunks : Z;
  tr_response_order_verified : bool;
  tr_terminal_event_observed : bool;
  tr_live_path_enabled : bool;
  tr_adapter_behavior_changed : bool;
  tr_production_ready : bool;
  tr_generated_text_included : bool;
  tr_token_ids_included : bool;
  tr_prompt_text_included : bool;
  tr_missing_primitives : list string;
}.

Definition normalize_mlx_stream_chunk (request_id slot_id : string) (sequence_index : Z)
    (text : option string) (finish_reason : option ContinuousFinishReason) (include_text : bool)
    : ContinuousOutputChunk :=
  mkChunk request_id slot_id sequence_index (if include_text then text else None) finish_reason.

Definition build_mlx_token_loop_report (chunks_observed demux_routed_chunks : Z)
    (response_order_verified terminal_event_observed generated_text_included : bool)
    (status : MLXTokenLoopPrototypeStatus) : MLXTokenLoopPrototypeReport :=
  mkTokenLoopReport "mlx" status chunks_observed demux_routed_chunks response_order_verified
    terminal_event_observed false false false generated_text_included false false MISSING_PRIMITIVES.

(** ** Isolation *)

(** A chunk is accepted by an open stream that expects its index; the membership of its
    request and slot in the active sets is reported and has no other effect. *)
Definition accepts (stream : FakeRequestStream) (chunk : ContinuousOutputChunk) : bool :=
  bool_decide (rs_state stream = FS_OPEN)
  && (oc_sequence_index chunk =? rs_next_sequence_index stream)%Z.

Lemma route_chunk_state c rids sids d :
  (route_chunk c rids sids d).2 =
  match dget (oc_request_id c) d with
  | Some stream => if accepts stream c then dset (oc_request_id c) (append_chunk c stream) d else d
  | None => d
  end.
Proof.
  unfold route_chunk, accepts. destruct (dget (oc_request_id c) d) as [st|]; [|done].
  destruct (bool_decide (rs_state st = FS_OPEN)); simpl; [|done]. by destruct (_ =? _)%Z.
Qed.

(** A call touches the stream it names only. *)
Lemma demux_step_other op rid d : demux_target op <> rid -> dget rid (demux_step op d) = dget rid d.
Proof.
  intros Hne. assert (Hend : forall k r rid', rid' <> rid -> dget rid (emit_terminal k r rid' d).2 = dget rid d).
  { intros k r rid' Hn. unfold emit_terminal. destruct (dget rid' d); [|done].
    split_if; simpl; [done | by rewrite dget_dset_ne]. }
  destruct op as [k | c rids sids | k | k | k | k | k]; simpl in *; try (by apply Hend).
  - unfold open_stream. split_if; [done | by rewrite dget_dset_ne].
  - rewrite route_chunk_state. destruct (dget (oc_request_id c) d); [|done].
    split_if; [by rewrite dget_dset_ne | done].
  - unfold drain_events. destruct (dget k d); simpl; [by rewrite dget_dset_ne | done].
Qed.

(** What a call does to its own stream depends on that stream alone. *)
Lemma demux_step_same op d d' :
  dget (demux_target op) d = dget (demux_target op) d' ->
  dget (demux_target op) (demux_step op d) = dget (demux_target op) (demux_step op d').
Proof.
  intros H. assert (Hend : forall k r rid, dget rid d = dget rid d' ->
    dget rid (emit_terminal k r rid d).2 = dget rid (emit_terminal k r rid d').2).
  { intros k r rid E. unfold emit_terminal. rewrite <- E. destruct (dget rid d) eqn:E1; simpl; [|congruence].
    split_if; simpl; [congruence | by rewrite !dget_dset_eq]. }
  destruct op as [k | c rids sids | k | k | k | k | k]; simpl in *; try (by apply Hend).
  - unfold open_stream, dmem. rewrite <- H. destruct (dget k d) eqn:E; [congruence|]. by rewrite !dget_dset_eq.
  - rewrite !route_chunk_state, <- H. destruct (dget (oc_request_id c) d) eqn:E; [|congruence].
    split_if; [by rewrite !dget_dset_eq | congruence].
  - unfold drain_events. rewrite <- H. destruct (dget k d) eqn:E; simpl; [by rewrite !dget_dset_eq | congruence].
Qed.

Lemma demux_run_own rid ops d d' : dget rid d = dget rid d' ->
  dget rid (demux_run ops d)
  = dget rid (demux_run (List.filter (fun op => bool_decide (demux_target op = rid)) ops) d').
Proof.
  unfold demux_run. revert d d'. induction ops as [|op ops IH]; intros d d' H; simpl; [done|].
  case_bool_decide as E; simpl; apply IH.
  - subst. by apply demux_step_same.
  - by rewrite demux_step_other.
Qed.

(** Peer isolation: whatever is done to other requests in between, a request's stream is what
    its own calls alone make of it. *)
Theorem streams_are_independent rid ops d :
  dget rid (demux_run ops d)
  = dget rid (demux_run (List.filter (fun op => bool_decide (demux_target op = rid)) ops) d).
Proof. by apply demux_run_own. Qed.

(** ** The shape of a stream *)

(** A history from the empty demultiplexer, with everything drained per request. *)
Definition demux_log (op : demux_op) (d : FakeStreamingDemux)
    (log : list (string * list FakeStreamEvent)) : list (string * list FakeStreamEvent) :=
  match op with
  | DDrain rid => dset rid (dget_or rid [] log ++ (drain_events rid d).1)%list log
  | _ => log
  end.

Definition demux_history (ops : list demux_op)
    : list (string * list FakeStreamEvent) * FakeStreamingDemux :=
  foldl (fun '(log, d) op => (demux_log op d log, demux_step op d)) ([], []) ops.

(** All events of a stream: consecutive indices, its own request, chunks and then, once the
    stream is not open any more, exactly one terminal event that says how it ended. *)
Record stream_ok (rid : string) (evs : list FakeStreamEvent) (st : FakeRequestStream) : Prop := {
  so_id : rs_request_id st = rid;
  so_next : rs_next_sequence_index st = Z.of_nat (length evs);
  so_index : map se_sequence_index evs = map Z.of_nat (seq 0 (length evs));
  so_own : Forall (fun e => se_request_id e = rid) evs;
  so_open : rs_state st = FS_OPEN ->
    Forall (fun e => se_kind e = FE_CHUNK) evs /\ rs_terminal_emitted st = false;
  so_ended : rs_state st <> FS_OPEN ->
    exists chunks e, evs = (chunks ++ [e])%list /\ Forall (fun e => se_kind e = FE_CHUNK) chunks
      /\ se_kind e <> FE_CHUNK /\ terminal_state (se_kind e) = rs_state st
      /\ rs_terminal_emitted st = true;
}.

Lemma stream_ok_new rid : stream_ok rid [] (new_stream rid).
Proof. by split. Qed.

Lemma index_snoc (evs : list FakeStreamEvent) e :
  map se_sequence_index evs = map Z.of_nat (seq 0 (length evs)) ->
  se_sequence_index e = Z.of_nat (length evs) ->
  map se_sequence_index (evs ++ [e])%list = map Z.of_nat (seq 0 (length (evs ++ [e])%list)).
Proof.
  intros H He. rewrite length_app, Nat.add_1_r, seq_S, !map_app, H. simpl. by rewrite He.
Qed.

Lemma stream_ok_append rid evs st c :
  oc_request_id c = rid -> accepts st c = true -> stream_ok rid evs st ->
  stream_ok rid (evs ++ [mkEvent (oc_request_id c) (oc_sequence_index c) FE_CHUNK (oc_text c) None])%list
    (append_chunk c st).
Proof.
  intros Hid [Hopen Hidx]%andb_prop [H1 H2 H3 H4 H5 H6].
  apply bool_decide_eq_true in Hopen. apply Z.eqb_eq in Hidx. destruct (H5 Hopen) as [Hc Ht].
  split; simpl; try done.
  - rewrite length_app, H2. simpl. lia.
  - apply index_snoc; [done|]. simpl. congruence.
  - apply Forall_app. split; [done|]. by constructor.
  - intros _. split; [|done]. apply Forall_app. split; [done|]. by constructor.
Qed.

Lemma stream_ok_end rid evs st kind reason :
  kind <> FE_CHUNK -> rs_state st = FS_OPEN -> stream_ok rid evs st ->
  stream_ok rid (evs ++ [mkEvent rid (rs_next_sequence_index st) kind None (Some reason)])%list
    (end_stream kind reason rid st).
Proof.
  intros Hk Hopen [H1 H2 H3 H4 H5 H6]. destruct (H5 Hopen) as [Hc Ht]. split; simpl; try done.
  - rewrite length_app, H2. simpl. lia.
  - by apply index_snoc.
  - apply Forall_app. split; [done|]. by constructor.
  - by destruct kind.
  - intros _. eexists evs, _. split; [done|]. split; [done|]. done.
Qed.

Definition demux_ok (log : list (string * list FakeStreamEvent)) (d : FakeStreamingDemux) : Prop :=
  (forall rid st, dget rid d = Some st -> stream_ok rid (dget_or rid [] log ++ rs_events st)%list st)
  /\ (forall rid, dget rid d = None -> dget_or rid [] log = []).

Lemma demux_ok_set log d k st st' :
  demux_ok log d -> dget k d = Some st ->
  (stream_ok k (dget_or k [] log ++ rs_events st)%list st ->
   stream_ok k (dget_or k [] log ++ rs_events st')%list st') ->
  demux_ok log (dset k st' d).
Proof.
  intros [H1 H2] Hk Hst. split.
  - intros rid x. rewrite dget_dset. case_decide; [|apply H1]. intros [= <-]. subst. auto.
  - intros rid. rewrite dget_dset. case_decide; [done | apply H2].
Qed.

Lemma demux_ok_end log d k kind reason :
  kind <> FE_CHUNK -> demux_ok log d -> demux_ok log (emit_terminal kind reason k d).2.
Proof.
  intros Hk Hok. unfold emit_terminal. destruct (dget k d) as [st|] eqn:E; [|done].
  case_bool_decide as Ho; simpl; [|done]. apply (demux_ok_set _ _ _ st); [done | done |].
  intros Hst. simpl. rewrite app_assoc. by apply stream_ok_end.
Qed.

Lemma demux_ok_step op log d : demux_ok log d -> demux_ok (demux_log op d log) (demux_step op d).
Proof.
  intros Hok. destruct op as [k | c rids sids | k | k | k | k | k]; simpl;
    try (by apply demux_ok_end).
  - unfold open_stream, dmem. destruct (dget k d) as [st|] eqn:E; [done|]. destruct Hok as [H1 H2]. split.
    + intros rid x. rewrite dget_dset. case_decide; [|apply H1]. intros [= <-]. subst.
      rewrite H2 by done. apply stream_ok_new.
    + intros rid. rewrite dget_dset. case_decide; [done | apply H2].
  - rewrite route_chunk_state. destruct (dget (oc_request_id c) d) as [st|] eqn:E; [|done].
    split_if; [|done]. apply (demux_ok_set _ _ _ st); [done | done |].
    intros Hst. simpl. rewrite app_assoc. by apply stream_ok_append.
  - assert (Hlog : forall rid evs, dget_or rid [] (dset k evs log)
      = if decide (rid = k) then evs else dget_or rid [] log).
    { intros rid evs. unfold dget_or. rewrite dget_dset. by case_decide. }
    destruct Hok as [H1 H2]. unfold drain_events. destruct (dget k d) as [st|] eqn:E; simpl.
    + split; intros rid; [intros x|]; rewrite Hlog, dget_dset; case_decide; subst; try done; auto.
      intros [= <-]. rewrite app_nil_r. destruct (H1 _ _ E). by split.
    + split; intros rid; [intros x|]; rewrite Hlog; case_decide; subst; auto; [congruence|].
      intros _. by rewrite H2.
Qed.

(** In every history a stream is a run of chunks with consecutive indices, all of its own
    request, ended by at most one terminal event, after which nothing follows. *)
Theorem stream_is_chunks_then_one_end ops rid st :
  dget rid (demux_history ops).2 = Some st ->
  stream_ok rid (dget_or rid [] (demux_history ops).1 ++ rs_events st)%list st.
Proof.
  assert (H : demux_ok (demux_history ops).1 (demux_history ops).2); [|apply H].
  unfold demux_history. induction ops as [|op ops IH] using rev_ind; [by split|].
  rewrite foldl_app. simpl. destruct (foldl _ _ ops) as [log d]. by apply demux_ok_step.
Qed.

(** The counters of a snapshot add up. *)
Theorem demux_snapshot_adds_up d :
  let s := demux_snapshot d in
  ds_total_events s = (ds_total_chunk_events s + ds_total_terminal_events s)%Z
  /\ Z.of_nat (length d) = (ds_open_stream_count s + ds_completed_stream_count s
       + ds_cancelled_stream_count s + ds_timed_out_stream_count s + ds_failed_stream_count s)%Z.
Proof.
  simpl. split.
  - induction (flat_map rs_events (dvalues d)) as [|e l IH]; [done|].
    rewrite !countb_cons. simpl. destruct (is_chunk_event e); simpl; lia.
  - unfold streams_in. induction d as [|[k st] d IH]; [done|].
    rewrite !countv_cons. simpl length. destruct (rs_state st); simpl; lia.
Qed.

(** ** From the scheduler to the streams *)

Definition chunk_event (c : ContinuousOutputChunk) : FakeStreamEvent :=
  mkEvent (oc_request_id c) (oc_sequence_index c) FE_CHUNK (oc_text c) None.

Lemma route_all rid sid rids sids a n d st :
  dget rid d = Some st -> rs_state st = FS_OPEN -> rs_next_sequence_index st = Z.of_nat a ->
  exists st',
    dget rid (demux_run (map (fun c => DRoute c rids sids) (chunks_from rid sid a n)) d) = Some st'
    /\ rs_state st' = FS_OPEN /\ rs_next_sequence_index st' = Z.of_nat (a + n)
    /\ rs_events st' = (rs_events st ++ map chunk_event (chunks_from rid sid a n))%list.
Proof.
  revert a d st. induction n as [|n IH]; intros a d st Hd Ho Hi.
  { exists st. simpl. by rewrite app_nil_r, Nat.add_0_r. }
  unfold chunks_from. simpl. set (c := chunk_at rid (default "" sid) a).
  assert (Hc : oc_request_id c = rid) by done.
  destruct (IH (S a) (demux_step (DRoute c rids sids) d) (append_chunk c st)) as (st' & H1 & H2 & H3 & H4).
  - simpl. rewrite route_chunk_state, Hc, Hd.
    assert (accepts st c = true) as ->; [|apply dget_dset_eq].
    unfold accepts. rewrite bool_decide_eq_true_2 by done. simpl. apply Z.eqb_eq. done.
  - done.
  - simpl. lia.
  - exists st'. split; [exact H1|]. split; [done|]. split; [rewrite H3; f_equal; lia|].
    rewrite H4. simpl. by rewrite <- app_assoc.
Qed.

(** The two prototypes together: take any history of the scheduler in which a request is
    completed.  If its own calls on the demultiplexer are: open, route every chunk the
    scheduler produced for it, complete, then whatever else happens on other streams in
    between, its stream holds one event per decode step, in order and with the scheduler's
    texts, and then the completion. *)
Theorem completed_request_is_streamed config out s rid r rids sids ops
    (Hrun : token_run config out s) (Hr : dget rid (fs_requests s) = Some r)
    (Hst : fr_state r = CR_COMPLETED)
    (Hops : List.filter (fun op => bool_decide (demux_target op = rid)) ops
      = (DOpen rid :: map (fun c => DRoute c rids sids) (dget_or rid [] out ++ fr_output_chunks r)
         ++ [DComplete rid])%list) :
  let k := Z.max 0 (max_decode_steps_per_request config) in
  exists st, dget rid (demux_run ops []) = Some st /\ rs_state st = FS_COMPLETED
    /\ rs_events st =
       (map chunk_event (chunks_from rid (fr_slot_id r) 0 (Z.to_nat k))
        ++ [mkEvent rid k FE_COMPLETED None (Some CF_STOP)])%list.
Proof.
  simpl. pose proof (token_run_ok _ _ _ _ _ Hrun Hr) as [_ Hs Hc _ Hw]. rewrite Hst in Hw.
  destruct Hw as [Hk _]. rewrite (demux_run_own rid ops [] [] eq_refl), Hops, Hc, Hk.
  unfold demux_run. simpl. rewrite foldl_app.
  destruct (route_all rid (fr_slot_id r) rids sids 0 (Z.to_nat (Z.max 0 (max_decode_steps_per_request config)))
    [(rid, new_stream rid)] (new_stream rid)) as (st & H1 & H2 & H3 & H4);
    [simpl; by rewrite decide_True | done | done |].
  unfold demux_run in H1. simpl. set (d := foldl _ _ _) in *. unfold demux_complete, emit_terminal.
  rewrite H1, bool_decide_eq_true_2 by done. simpl. rewrite dget_dset_eq. eexists. split; [done|].
  split; [done|]. simpl. rewrite H4, H3. simpl. by rewrite Z2Nat.id by lia.
Qed.

(** A chunk whose request or slot is not active is reported, and still becomes an event of the
    stream. *)
Theorem inactive_chunk_is_routed_anyway c rids sids d st :
  dget (oc_request_id c) d = Some st -> accepts st c = true ->
  oc_request_id c ∉ rids -> oc_slot_id c ∉ sids ->
  route_chunk c rids sids d
  = ([OUTPUT_DEMUX_MISMATCH; OUTPUT_DEMUX_MISMATCH],
     dset (oc_request_id c) (append_chunk c st) d).
Proof.
  intros Hd [Ho Hi]%andb_prop Hr Hs. unfold route_chunk.
  rewrite Hd, Ho, Hi, !bool_decide_eq_false_2 by done. done.
Qed.

Lemma completed_run :
  token_run default_sched_config [("a", [chunk_at "a" "slot-0" 0])]
    (demo_sched ([OpAdmit (demo_handle "a"); OpTick; OpTick; OpDrain "a"] ++ repeat OpTick 5)).
Proof.
  pose proof (token_run_start default_sched_config) as H.
  apply (token_run_step _ _ _ (OpAdmit (demo_handle "a"))) in H; [|done].
  do 2 (apply (token_run_step _ _ _ OpTick) in H; [|done]).
  apply (token_run_step _ _ _ (OpDrain "a")) in H; [|done].
  do 5 (apply (token_run_step _ _ _ OpTick) in H; [|done]).
  exact H.
Qed.

Definition demo_streamed : list demux_op :=
  [DOpen "a"; DOpen "b"; DRoute (chunk_at "a" "slot-0" 0) ["a"] ["slot-0"]; DCancel "b";
   DRoute (chunk_at "a" "slot-0" 1) ["a"] ["slot-0"]; DRoute (chunk_at "b" "slot-1" 0) ["a"] ["slot-0"];
   DRoute (chunk_at "a" "slot-0" 2) ["a"] ["slot-0"]; DComplete "a"].

Lemma completed_request_is_streamed_witness :
  exists st, dget "a" (demux_run demo_streamed []) = Some st /\ rs_state st = FS_COMPLETED
    /\ length (rs_events st) = 4.
Proof.
  destruct (completed_request_is_streamed _ _ _ "a" _ ["a"] ["slot-0"] demo_streamed completed_run
    eq_refl eq_refl eq_refl) as (st & H1 & H2 & H3).
  exists st. rewrite H3. done.
Defined.
