(* ===== verification/TokenStep.v ===== *)
(** * The fake token-step backend and its scheduler
      ([fake_token_step_backend.py], [token_step_scheduler.py])

    The backend keeps five dictionaries keyed by sequence id.  A handle is a frozen dataclass
    with the id as its only field, so it is modelled by the id.  The scheduler prefills every
    request, then decodes all active sequences step by step; plans say at which step a request
    is cancelled, timed out or failed, or the whole step fails.

    The scheduler's [while True] runs on fuel; [schedule_fuel] is enough
    ([TokenStepProps.schedule_isolates]).  The only exceptions are the [ValueError] of an empty
    request list and the [KeyError] of the accumulators. *)

From S2P Require Import Prelude PyDict PyStr PySeq.
Open Scope string_scope.

(** ** The backend *)

Inductive TokenStepSequenceState :=
| TS_ADMITTED | TS_PREFILL_QUEUED | TS_PREFILLING | TS_READY_TO_DECODE | TS_DECODING
| TS_FINISHED | TS_CANCELLED | TS_FAILED | TS_TIMED_OUT | TS_CLEANED_UP.

#[export] Instance TokenStepSequenceState_eq_dec : EqDecision TokenStepSequenceState.
Proof. solve_decision. Defined.

Record TokenStepRequest := mkTokenReq {
  tq_request_id : string;
  tq_prompt_label : string;
  tq_max_tokens : Z;
  tq_sampler_label : string;
}.

Record TokenStepResult := mkTokenResult {
  to_request_id : string;
  to_content : string;
  to_finish_reason : string;
}.

Record TokenStepSchedulerReport := mkTokenReport {
  tk_request_count : Z;
  tk_sequence_count : Z;
  tk_decode_steps : Z;
  tk_sequences_finished : Z;
  tk_sequences_cancelled : Z;
  tk_sequences_timed_out : Z;
  tk_sequences_failed : Z;
  tk_sequences_cleaned_up : Z;
  tk_terminal_states_observed : Z;
  tk_demux_routes_created : Z;
  tk_sampler_states_observed : Z;
  tk_cancellation_events_observed : Z;
  tk_timeout_events_observed : Z;
  tk_failure_events_observed : Z;
  tk_shared_step_failures_observed : Z;
  tk_demux_bleed_detected : bool;
  tk_cleanup_exactly_once : bool;
}.

(** [FakeCancellationPlan] and [FakeTimeoutPlan] *)
Record StepPlan := mkPlan { pl_request_id : string; pl_at_decode_step : Z }.

Record FakeFailurePlan := mkFailurePlan {
  fp_request_id : string;
  fp_at_decode_step : Z;
  fp_failure_type : string;
}.

Record FakeTokenStepBackend := mkBackend {
  bk_states : list (string * TokenStepSequenceState);
  bk_max_tokens : list (string * Z);
  bk_step_counts : list (string * Z);
  bk_samplers : list (string * string);
  bk_rids : list (string * string);
  bk_next_id : nat;
}.

Definition new_backend : FakeTokenStepBackend := mkBackend [] [] [] [] [] 0.

(** [f"seq-{i}"] *)
Definition seq_name (i : nat) : string := "seq-" +:+ pretty i.

Definition set_state (sid : string) (st : TokenStepSequenceState) (b : FakeTokenStepBackend)
    : FakeTokenStepBackend :=
  mkBackend (dset sid st (bk_states b)) (bk_max_tokens b) (bk_step_counts b) (bk_samplers b)
    (bk_rids b) (bk_next_id b).

Definition set_step_count (sid : string) (n : Z) (b : FakeTokenStepBackend)
    : FakeTokenStepBackend :=
  mkBackend (bk_states b) (bk_max_tokens b) (dset sid n (bk_step_counts b)) (bk_samplers b)
    (bk_rids b) (bk_next_id b).

Definition backend_prefill (request : TokenStepRequest) (b : FakeTokenStepBackend)
    : string * FakeTokenStepBackend :=
  let sid := seq_name (bk_next_id b) in
  (sid, mkBackend (dset sid TS_READY_TO_DECODE (bk_states b))
          (dset sid (tq_max_tokens request) (bk_max_tokens b)) (dset sid 0%Z (bk_step_counts b))
          (dset sid (tq_sampler_label request) (bk_samplers b))
          (dset sid (tq_request_id request) (bk_rids b)) (S (bk_next_id b))).

(** [f"{rid}_{sampler}_{step}"] *)
Definition token_text (rid sampler : string) (step : Z) : string :=
  rid +:+ "_" +:+ sampler +:+ "_" +:+ pretty step.

(** The body of the loop of [decode_step] for one handle. *)
Definition decode_one (b : FakeTokenStepBackend) (outputs : list (string * string)) (sid : string)
    : FakeTokenStepBackend * list (string * string) :=
  match dget sid (bk_states b) with
  | Some TS_CANCELLED | Some TS_FAILED | Some TS_TIMED_OUT => (b, outputs)
  | state =>
      let b := if bool_decide (state = Some TS_READY_TO_DECODE) then set_state sid TS_DECODING b else b in
      let step := dget_or sid 0%Z (bk_step_counts b) in
      if (step <? dget_or sid 0%Z (bk_max_tokens b))%Z then
        (set_step_count sid (step + 1) b,
         dset sid (token_text (dget_or sid "?" (bk_rids b)) (dget_or sid "default" (bk_samplers b)) step) outputs)
      else (set_state sid TS_FINISHED b, outputs)
  end.

Definition backend_decode_step (handles : list string) (b : FakeTokenStepBackend)
    : FakeTokenStepBackend * list (string * string) :=
  foldl (fun '(b, outputs) sid => decode_one b outputs sid) (b, []) handles.

(** The common guard and assignment of [cancel_sequence], [timeout_sequence] and
    [fail_sequence]. *)
Definition end_sequence (st : TokenStepSequenceState) (sid : string) (b : FakeTokenStepBackend)
    : FakeTokenStepBackend :=
  match dget sid (bk_states b) with
  | Some (TS_FINISHED | TS_CLEANED_UP | TS_CANCELLED | TS_FAILED | TS_TIMED_OUT) => b
  | _ => set_state sid st b
  end.

Definition cancel_sequence := end_sequence TS_CANCELLED.
Definition timeout_sequence := end_sequence TS_TIMED_OUT.
Definition fail_sequence := end_sequence TS_FAILED.

Definition seq_is_finished (b : FakeTokenStepBackend) (sid : string) : bool :=
  match dget sid (bk_states b) with
  | Some (TS_FINISHED | TS_CANCELLED | TS_FAILED | TS_TIMED_OUT) => true
  | _ => false
  end.

Definition release_sequence (sid : string) (b : FakeTokenStepBackend) : FakeTokenStepBackend :=
  set_state sid TS_CLEANED_UP b.

(** ** The scheduler *)

Definition seq_finish_reason (b : FakeTokenStepBackend) (sid : string) : string :=
  match dget sid (bk_states b) with
  | Some TS_CANCELLED => "cancelled"
  | Some TS_TIMED_OUT => "timeout"
  | Some TS_FAILED => "error"
  | _ => "stop"
  end.

(** The prefill loop: backend, handles and routes. *)
Definition prefill_all (requests : list TokenStepRequest) (b : FakeTokenStepBackend)
    : FakeTokenStepBackend * list string * list (string * string) :=
  foldl (fun '(b, handles, routes) req =>
    let (sid, b) := backend_prefill req b in
    (b, (handles ++ [sid])%list, dset (tq_request_id req) sid routes)) (b, [], []) requests.

(** The dictionary comprehension [reverse_routes]; every id of [requests] is in [routes]. *)
Definition reverse_of (requests : list TokenStepRequest) (routes : list (string * string))
    : list (string * string) :=
  foldl (fun d r => dset (dget_or (tq_request_id r) "" routes) (tq_request_id r) d) [] requests.

(** [plan_at.setdefault(step, []).append(rid)] over the plans. *)
Definition index_plans (plans : list (string * Z)) : list (Z * list string) :=
  foldl (fun d '(rid, step) => dset step (dget_or step [] d ++ [rid])%list d) [] plans.

(** What the run reads and never writes. *)
Record schedule_env := mkEnv {
  en_handles : list string;
  en_routes : list (string * string);
  en_reverse : list (string * string);
  en_cancel_at : list (Z * list string);
  en_timeout_at : list (Z * list string);
  en_fail_at : list (Z * list string);
  en_shared_fail_at : list Z;
}.

Record schedule_state := mkRun {
  sc_backend : FakeTokenStepBackend;
  sc_accumulators : list (string * list string);
  sc_step_count : Z;
  sc_cancelled : Z;
  sc_timed_out : Z;
  sc_failed : Z;
  sc_shared_failures : Z;
}.

Definition active_handles (env : schedule_env) (s : schedule_state) : list string :=
  List.filter (fun h => negb (seq_is_finished (sc_backend s) h)) (en_handles env).

Inductive plan_kind := PK_cancel | PK_timeout | PK_fail.

Definition plan_state (k : plan_kind) : TokenStepSequenceState :=
  match k with PK_cancel => TS_CANCELLED | PK_timeout => TS_TIMED_OUT | PK_fail => TS_FAILED end.

(** One request id of a plan: [fn(h)] and the counter [fn] stands for. *)
Definition apply_one (env : schedule_env) (k : plan_kind) (s : schedule_state) (rid : string)
    : schedule_state :=
  match dget rid (en_routes env) with
  | Some h =>
      if negb (seq_is_finished (sc_backend s) h) then
        mkRun (end_sequence (plan_state k) h (sc_backend s)) (sc_accumulators s) (sc_step_count s)
          (sc_cancelled s + match k with PK_cancel => 1 | _ => 0 end)
          (sc_timed_out s + match k with PK_timeout => 1 | _ => 0 end)
          (sc_failed s + match k with PK_fail => 1 | _ => 0 end) (sc_shared_failures s)
      else s
  | None => s
  end.

Definition apply_plan (env : schedule_env) (k : plan_kind) (plan_at : list (Z * list string))
    (s : schedule_state) : schedule_state :=
  foldl (apply_one env k) s (dget_or (sc_step_count s) [] plan_at).

(** [accumulators[rid].append(token)] over the outputs of a step. *)
Fixpoint append_outputs (reverse : list (string * string)) (outputs : list (string * string))
    (acc : list (string * list string)) : pyres (list (string * list string)) :=
  match outputs with
  | [] => Ret acc
  | (sid, token) :: outputs =>
      let rid := dget_or sid "unknown" reverse in
      match dget rid acc with
      | None => Raise (KeyError rid)
      | Some tokens => append_outputs reverse outputs (dset rid (tokens ++ [token])%list acc)
      end
  end.

Definition shared_failure (active : list string) (s : schedule_state) : schedule_state :=
  mkRun (foldl (fun b h => fail_sequence h b) (sc_backend s) active) (sc_accumulators s)
    (sc_step_count s + 1) (sc_cancelled s) (sc_timed_out s)
    (sc_failed s + Z.of_nat (length active)) (sc_shared_failures s + 1).

Definition apply_plans (env : schedule_env) (s : schedule_state) : schedule_state :=
  apply_plan env PK_fail (en_fail_at env)
    (apply_plan env PK_timeout (en_timeout_at env) (apply_plan env PK_cancel (en_cancel_at env) s)).

(** One round of the loop; [true] asks for another one. *)
Definition schedule_round (env : schedule_env) (s : schedule_state) : pyres (bool * schedule_state) :=
  match active_handles env s with
  | [] => Ret (false, s)
  | active =>
      if bool_decide (sc_step_count s ∈ en_shared_fail_at env) then
        Ret (false, shared_failure active s)
      else
        let s := apply_plans env s in
        match active_handles env s with
        | [] => Ret (false, s)
        | active =>
            let (b, outputs) := backend_decode_step active (sc_backend s) in
            let! acc := append_outputs (en_reverse env) outputs (sc_accumulators s) in
            Ret (true, mkRun b acc (sc_step_count s + 1) (sc_cancelled s) (sc_timed_out s)
                   (sc_failed s) (sc_shared_failures s))
        end
  end.

(** [None]: out of fuel. *)
Fixpoint schedule_loop (fuel : nat) (env : schedule_env) (s : schedule_state)
    : option (pyres schedule_state) :=
  match fuel with
  | O => None
  | S fuel =>
      match schedule_round env s with
      | Raise e => Some (Raise e)
      | Ret (false, s) => Some (Ret s)
      | Ret (true, s) => schedule_loop fuel env s
      end
  end.

(** The nested loops that look for foreign sampler labels. *)
Definition demux_bleed (requests : list TokenStepRequest) (acc : list (string * list string)) : bool :=
  existsb (fun req => existsb (fun other =>
    negb (String.eqb (tq_request_id req) (tq_request_id other))
    && (negb (String.eqb (tq_sampler_label other) (tq_sampler_label req))
        && contains (tq_sampler_label req)
             (join " " (dget_or (tq_request_id other) [] acc)))) requests) requests.

Definition step_results (requests : list TokenStepRequest) (routes : list (string * string))
    (s : schedule_state) : list TokenStepResult :=
  map (fun req => mkTokenResult (tq_request_id req)
    (join " " (dget_or (tq_request_id req) [] (sc_accumulators s)))
    (seq_finish_reason (sc_backend s) (dget_or (tq_request_id req) "" routes))) requests.

Record schedule_plans := mkPlans {
  cancellation_plan : list StepPlan;
  timeout_plan : list StepPlan;
  failure_plan : list FakeFailurePlan;
  shared_step_failure_plan : list Z;
}.

Definition plan_pairs (plans : list StepPlan) : list (string * Z) :=
  map (fun p => (pl_request_id p, pl_at_decode_step p)) plans.

Definition failure_pairs (plans : list FakeFailurePlan) : list (string * Z) :=
  map (fun p => (fp_request_id p, fp_at_decode_step p)) plans.

Definition run_fake_token_step_schedule (fuel : nat) (requests : list TokenStepRequest)
    (b : FakeTokenStepBackend) (plans : schedule_plans)
    : option (pyres (list TokenStepResult * TokenStepSchedulerReport * FakeTokenStepBackend)) :=
  match requests with
  | [] => Some (Raise (ValueError "must have at least one request"))
  | _ =>
      let '(b, handles, routes) := prefill_all requests b in
      let env := mkEnv handles routes (reverse_of requests routes)
        (index_plans (plan_pairs (cancellation_plan plans)))
        (index_plans (plan_pairs (timeout_plan plans)))
        (index_plans (failure_pairs (failure_plan plans))) (shared_step_failure_plan plans) in
      let acc := foldl (fun d r => dset (tq_request_id r) [] d) [] requests in
      match schedule_loop fuel env (mkRun b acc 0 0 0 0 0) with
      | None => None
      | Some (Raise e) => Some (Raise e)
      | Some (Ret s) =>
          let n := Z.of_nat (length requests) in
          let cleaned := Z.of_nat (length handles) in
          Some (Ret (step_results requests routes s,
            mkTokenReport n (Z.of_nat (length handles)) (sc_step_count s)
              (n - sc_cancelled s - sc_timed_out s - sc_failed s) (sc_cancelled s)
              (sc_timed_out s) (sc_failed s) cleaned n (Z.of_nat (length routes)) n
              (Z.of_nat (length (cancellation_plan plans))) (Z.of_nat (length (timeout_plan plans)))
              (Z.of_nat (length (failure_plan plans))) (sc_shared_failures s)
              (demux_bleed requests (sc_accumulators s)) (cleaned =? Z.of_nat (length handles))%Z,
            foldl (fun b h => release_sequence h b) (sc_backend s) handles))
      end
  end.

(** Rounds that suffice: one per token, one to notice the end, one to leave. *)
Definition schedule_fuel (requests : list TokenStepRequest) : nat :=
  S (S (foldr (fun r n => Nat.max (Z.to_nat (tq_max_tokens r)) n) 0 requests)).
