(* ===== verification/TokenStepProps.v ===== *)
(** * What the token-step scheduler guarantees

    The outcome of a request in a group is a function of that request and the plans alone:
    [expected_result] computes it without the other requests, the backend or the scheduler's
    tables.  The main theorem says that a run with enough fuel ends, returns exactly these
    outcomes, counts them correctly and leaves every sequence of the run released and every
    older one untouched.

    The proof looks at the backend one sequence at a time: [view] is what the five
    dictionaries hold for a sequence id, every backend operation acts on views, and [view_at]
    is the view a request has after a number of rounds. *)

From S2P Require Import Prelude PyDict PyStr PySeq TokenStep.
Open Scope string_scope.

(** ** The outcome of one request *)

Inductive end_reason := ER_stop | ER_cancel | ER_timeout | ER_fail.

#[export] Instance end_reason_eq_dec : EqDecision end_reason.
Proof. solve_decision. Defined.

Definition reason_text (r : end_reason) : string :=
  match r with ER_stop => "stop" | ER_cancel => "cancelled" | ER_timeout => "timeout" | ER_fail => "error" end.

Definition reason_state (r : end_reason) : TokenStepSequenceState :=
  match r with
  | ER_stop => TS_FINISHED | ER_cancel => TS_CANCELLED | ER_timeout => TS_TIMED_OUT
  | ER_fail => TS_FAILED
  end.

(** What the plans do to a live request before step [t]. *)
Definition event_at (plans : schedule_plans) (rid : string) (t : Z) : option end_reason :=
  if bool_decide (t ∈ shared_step_failure_plan plans) then Some ER_fail
  else if bool_decide ((rid, t) ∈ plan_pairs (cancellation_plan plans)) then Some ER_cancel
  else if bool_decide ((rid, t) ∈ plan_pairs (timeout_plan plans)) then Some ER_timeout
  else if bool_decide ((rid, t) ∈ failure_pairs (failure_plan plans)) then Some ER_fail
  else None.

(** The tokens a request has produced after [t] rounds, and how it has ended. *)
Fixpoint life (plans : schedule_plans) (req : TokenStepRequest) (t : nat) : nat * option end_reason :=
  match t with
  | O => (0, None)
  | S t =>
      match life plans req t with
      | (n, Some r) => (n, Some r)
      | (n, None) =>
          match event_at plans (tq_request_id req) (Z.of_nat t) with
          | Some r => (n, Some r)
          | None => if (Z.of_nat n <? tq_max_tokens req)%Z then (S n, None) else (n, Some ER_stop)
          end
      end
  end.

Definition outcome (plans : schedule_plans) (req : TokenStepRequest) : nat * option end_reason :=
  life plans req (S (Z.to_nat (tq_max_tokens req))).

Definition tokens (req : TokenStepRequest) (n : nat) : list string :=
  map (fun k => token_text (tq_request_id req) (tq_sampler_label req) (Z.of_nat k)) (seq 0 n).

Definition expected_result (plans : schedule_plans) (req : TokenStepRequest) : TokenStepResult :=
  mkTokenResult (tq_request_id req) (join " " (tokens req (fst (outcome plans req))))
    (reason_text (default ER_stop (snd (outcome plans req)))).

Section life.
Context (plans : schedule_plans) (req : TokenStepRequest).

Lemma life_live t : (life plans req t).2 = None -> (life plans req t).1 = t.
Proof.
  induction t as [|t IH]; simpl; [done|]. destruct (life plans req t) as [n [r|]]; [done|].
  destruct (event_at _ _ _); [done|]. split_if; simpl; [|done]. intros _. by rewrite <- IH.
Qed.

Lemma life_stays t t' r : t <= t' -> (life plans req t).2 = Some r -> life plans req t' = life plans req t.
Proof.
  intros Hle Hr. induction Hle as [|t' _ IH]; [done|]. simpl. rewrite IH.
  destruct (life plans req t) as [n o]. simpl in Hr. by subst.
Qed.

(** Every request ends within one round more than it has tokens. *)
Lemma life_ends : is_Some (outcome plans req).2.
Proof.
  unfold outcome. simpl. pose proof (life_live (Z.to_nat (tq_max_tokens req))) as Hl.
  destruct (life plans req (Z.to_nat (tq_max_tokens req))) as [n [r|]]; [by eexists|].
  destruct (event_at _ _ _); [by eexists|]. specialize (Hl eq_refl). simpl in Hl.
  destruct (_ <? _)%Z eqn:E; [|by eexists]. reflect_tests. lia.
Qed.

Lemma life_outcome t r : (life plans req t).2 = Some r -> life plans req t = outcome plans req.
Proof.
  intros Hr. destruct life_ends as [r' Hr']. unfold outcome in *.
  destruct (Nat.le_ge_cases t (S (Z.to_nat (tq_max_tokens req)))) as [Hle|Hle].
  - symmetry. by eapply life_stays.
  - by eapply life_stays.
Qed.
End life.

(** ** Views *)

Record seq_view := mkView {
  v_state : option TokenStepSequenceState;
  v_max : option Z;
  v_count : option Z;
  v_sampler : option string;
  v_rid : option string;
}.

Definition view (sid : string) (b : FakeTokenStepBackend) : seq_view :=
  mkView (dget sid (bk_states b)) (dget sid (bk_max_tokens b)) (dget sid (bk_step_counts b))
    (dget sid (bk_samplers b)) (dget sid (bk_rids b)).

Definition v_set_state (st : TokenStepSequenceState) (v : seq_view) : seq_view :=
  mkView (Some st) (v_max v) (v_count v) (v_sampler v) (v_rid v).

Definition v_set_count (n : Z) (v : seq_view) : seq_view :=
  mkView (v_state v) (v_max v) (Some n) (v_sampler v) (v_rid v).

Definition v_finished (v : seq_view) : bool :=
  match v_state v with
  | Some (TS_FINISHED | TS_CANCELLED | TS_FAILED | TS_TIMED_OUT) => true
  | _ => false
  end.

Definition v_end (st : TokenStepSequenceState) (v : seq_view) : seq_view :=
  match v_state v with
  | Some (TS_FINISHED | TS_CLEANED_UP | TS_CANCELLED | TS_FAILED | TS_TIMED_OUT) => v
  | _ => v_set_state st v
  end.

Definition v_decode (v : seq_view) : seq_view * option string :=
  match v_state v with
  | Some TS_CANCELLED | Some TS_FAILED | Some TS_TIMED_OUT => (v, None)
  | st =>
      let v := if bool_decide (st = Some TS_READY_TO_DECODE) then v_set_state TS_DECODING v else v in
      let step := default 0%Z (v_count v) in
      if (step <? default 0%Z (v_max v))%Z then
        (v_set_count (step + 1) v,
         Some (token_text (default "?" (v_rid v)) (default "default" (v_sampler v)) step))
      else (v_set_state TS_FINISHED v, None)
  end.

Lemma view_set_state sid sid' st b :
  view sid (set_state sid' st b) = if decide (sid = sid') then v_set_state st (view sid b) else view sid b.
Proof. unfold view, set_state. simpl. rewrite dget_dset. by case_decide. Qed.

Lemma view_set_count sid sid' n b :
  view sid (set_step_count sid' n b) = if decide (sid = sid') then v_set_count n (view sid b) else view sid b.
Proof. unfold view, set_step_count. simpl. rewrite dget_dset. by case_decide. Qed.

Lemma view_end_sequence sid sid' st b :
  view sid (end_sequence st sid' b) = if decide (sid = sid') then v_end st (view sid b) else view sid b.
Proof.
  unfold end_sequence. case_decide as E.
  - subst. unfold v_end. change (v_state (view sid' b)) with (dget sid' (bk_states b)).
    destruct (dget sid' (bk_states b)) as [[]|]; try done; by rewrite view_set_state, decide_True.
  - destruct (dget sid' (bk_states b)) as [[]|]; try done; by rewrite view_set_state, decide_False.
Qed.

Lemma decode_one_view sid sid' b out :
  view sid (decode_one b out sid').1
  = if decide (sid = sid') then (v_decode (view sid b)).1 else view sid b.
Proof.
  unfold decode_one, v_decode. case_decide as E.
  - subst. change (v_state (view sid' b)) with (dget sid' (bk_states b)).
    destruct (dget sid' (bk_states b)) as [[]|] eqn:Es; try done; unfold dget_or; simpl;
      split_if; simpl; rewrite ?view_set_count, ?view_set_state; by rewrite ?decide_True by done.
  - destruct (dget sid' (bk_states b)) as [[]|] eqn:Es; try done; simpl;
      split_if; simpl; rewrite ?view_set_count, ?view_set_state; by rewrite ?decide_False by done.
Qed.

Lemma decode_one_output sid b out :
  (decode_one b out sid).2
  = match (v_decode (view sid b)).2 with Some token => dset sid token out | None => out end.
Proof.
  unfold decode_one, v_decode. change (v_state (view sid b)) with (dget sid (bk_states b)).
  destruct (dget sid (bk_states b)) as [[]|] eqn:Es; try done; unfold dget_or; simpl; by split_if.
Qed.

(** One decode step over distinct handles: each advances by itself. *)
Lemma decode_step_view handles b out :
  NoDup handles -> (forall sid, sid ∈ handles -> dget sid out = None) ->
  let res := foldl (fun '(b, outputs) sid => decode_one b outputs sid) (b, out) handles in
  (forall sid, view sid res.1 = if decide (sid ∈ handles) then (v_decode (view sid b)).1 else view sid b)
  /\ (forall sid, dget sid res.2
        = if decide (sid ∈ handles) then (v_decode (view sid b)).2 else dget sid out)
  /\ (NoDup (dkeys out) -> NoDup (dkeys res.2)).
Proof.
  revert b out. induction handles as [|h handles IH]; intros b out Hnd Hout; simpl.
  { split; [|split]; intros; by rewrite ?decide_False by apply not_elem_of_nil. }
  apply NoDup_cons in Hnd as [Hh Hnd].
  assert (Hget : forall sid, dget sid (decode_one b out h).2
    = if decide (sid = h) then (v_decode (view h b)).2 else dget sid out).
  { intros sid. rewrite decode_one_output. destruct (v_decode (view h b)).2 as [tok|].
    - by rewrite dget_dset.
    - case_decide; [subst; apply Hout; left | done]. }
  destruct (decode_one b out h) as [b1 out1] eqn:E.
  assert (Hv : forall sid, view sid b1 = if decide (sid = h) then (v_decode (view sid b)).1 else view sid b).
  { intros sid. rewrite <- (decode_one_view sid h b out). by rewrite E. }
  simpl in Hget. destruct (IH b1 out1 Hnd) as (H1 & H2 & H3).
  { intros sid Hin. rewrite Hget, decide_False by (intros ->; done). apply Hout. by right. }
  split; [|split].
  - intros sid. rewrite H1, Hv. destruct (decide (sid = h)) as [->|Hne].
    + rewrite decide_False by done. by rewrite decide_True by left.
    + destruct (decide (sid ∈ handles)); [rewrite decide_True by (by right) | rewrite decide_False by set_solver]; done.
  - intros sid. rewrite H2, Hv, Hget. destruct (decide (sid = h)) as [->|Hne].
    + rewrite decide_False by done. by rewrite decide_True by left.
    + destruct (decide (sid ∈ handles)); [rewrite decide_True by (by right) | rewrite decide_False by set_solver]; done.
  - intros Hk. apply H3. pose proof (decode_one_output h b out) as Ho. rewrite E in Ho. simpl in Ho.
    subst. destruct (v_decode (view h b)).2; [by apply dset_NoDup | done].
Qed.

(** ** Plans and tables *)

Lemma index_plans_go (pairs : list (string * Z)) d rid t :
  rid ∈ dget_or t [] (foldl (fun d '(rid, step) => dset step (dget_or step [] d ++ [rid])%list d) d pairs)
  <-> rid ∈ dget_or t [] d \/ (rid, t) ∈ pairs.
Proof.
  revert d. induction pairs as [|[r s] pairs IH]; intros d; simpl; [set_solver|].
  rewrite IH. unfold dget_or at 1. rewrite dget_dset. case_decide as E; simpl.
  - subst. set_solver.
  - fold (dget_or t [] d). set_solver.
Qed.

Lemma index_plans_elem pairs rid t : rid ∈ dget_or t [] (index_plans pairs) <-> (rid, t) ∈ pairs.
Proof. unfold index_plans. rewrite index_plans_go. unfold dget_or. simpl. set_solver. Qed.

Lemma seq_name_inj i j : seq_name i = seq_name j -> i = j.
Proof. unfold seq_name. simpl. intros [= H]. by apply (inj pretty i j) in H. Qed.

(** The handles given to [n] requests from the counter [base] on. *)
Definition handles_from (base n : nat) : list string := map seq_name (seq base n).

Lemma handles_from_NoDup base n : NoDup (handles_from base n).
Proof. apply NoDup_fmap_2_strong; [intros i j _ _; apply seq_name_inj | apply NoDup_seq]. Qed.

Lemma length_handles_from base n : length (handles_from base n) = n.
Proof. unfold handles_from. by rewrite length_map, length_seq. Qed.

Definition fresh_view (req : TokenStepRequest) : seq_view :=
  mkView (Some TS_READY_TO_DECODE) (Some (tq_max_tokens req)) (Some 0%Z)
    (Some (tq_sampler_label req)) (Some (tq_request_id req)).

Lemma view_prefill sid req b :
  view sid (backend_prefill req b).2
  = if decide (sid = seq_name (bk_next_id b)) then fresh_view req else view sid b.
Proof. unfold view, backend_prefill. simpl. rewrite !dget_dset. by case_decide. Qed.

Definition prefill_fold (requests : list TokenStepRequest)
    (acc : FakeTokenStepBackend * list string * list (string * string)) :=
  foldl (fun '(b, handles, routes) req =>
    let (sid, b) := backend_prefill req b in
    (b, (handles ++ [sid])%list, dset (tq_request_id req) sid routes)) acc requests.

Lemma prefill_fold_spec requests b handles routes :
  NoDup (map tq_request_id requests) ->
  (forall req, req ∈ requests -> dget (tq_request_id req) routes = None) ->
  let hs := handles_from (bk_next_id b) (length requests) in
  exists b', prefill_fold requests (b, handles, routes)
    = (b', (handles ++ hs)%list, (routes ++ zip (map tq_request_id requests) hs)%list)
  /\ (forall req sid, (req, sid) ∈ zip requests hs -> view sid b' = fresh_view req)
  /\ (forall sid, sid ∉ hs -> view sid b' = view sid b).
Proof.
  revert b handles routes. induction requests as [|req requests IH]; intros b handles routes Hnd Hno; simpl.
  { exists b. rewrite !app_nil_r. split; [done|]. split; [set_solver | done]. }
  apply NoDup_cons in Hnd as [Hreq Hnd].
  set (b1 := (backend_prefill req b).2). set (sid0 := seq_name (bk_next_id b)).
  assert (Hroutes : dset (tq_request_id req) sid0 routes = (routes ++ [(tq_request_id req, sid0)])%list).
  { apply dkeys_dset_out, Hno. left. }
  destruct (IH b1 (handles ++ [sid0])%list (routes ++ [(tq_request_id req, sid0)])%list Hnd) as (b' & H1 & H2 & H3).
  { intros r Hr. rewrite <- Hroutes, dget_dset_ne; [apply Hno; by right|].
    intros E. apply Hreq. rewrite <- E. by apply list_elem_of_fmap_2. }
  change (bk_next_id b1) with (S (bk_next_id b)) in *.
  change (handles_from (bk_next_id b) (S (length requests)))
    with (sid0 :: handles_from (S (bk_next_id b)) (length requests)).
  assert (Hsid0 : sid0 ∉ handles_from (S (bk_next_id b)) (length requests)).
  { pose proof (handles_from_NoDup (bk_next_id b) (S (length requests))) as Hn.
    by apply NoDup_cons in Hn as [? _]. }
  assert (Hb1 : forall sid, view sid b1 = if decide (sid = sid0) then fresh_view req else view sid b)
    by (intros; apply view_prefill).
  exists b'. split; [|split].
  - fold sid0. rewrite Hroutes. unfold prefill_fold in H1. rewrite <- !app_assoc in H1. exact H1.
  - intros r sid [[= -> ->] | Hin]%elem_of_cons; [|by apply H2].
    rewrite H3, Hb1, decide_True by done. done.
  - intros sid [Hne Hn]%not_elem_of_cons. rewrite H3, Hb1, decide_False by done. done.
Qed.

(** What the tables of a run say about its requests paired with their handles. *)
Record env_ok (plans : schedule_plans) (P : list (TokenStepRequest * string)) (env : schedule_env) : Prop := {
  eo_handles : en_handles env = map snd P;
  eo_sids : NoDup (map snd P);
  eo_ids : NoDup (map (fun p => tq_request_id (fst p)) P);
  eo_routes : forall rid h, dget rid (en_routes env) = Some h <->
    exists req, (req, h) ∈ P /\ tq_request_id req = rid;
  eo_reverse : forall sid rid, dget sid (en_reverse env) = Some rid <->
    exists req, (req, sid) ∈ P /\ tq_request_id req = rid;
  eo_cancel : forall rid t, rid ∈ dget_or t [] (en_cancel_at env) <->
    (rid, t) ∈ plan_pairs (cancellation_plan plans);
  eo_timeout : forall rid t, rid ∈ dget_or t [] (en_timeout_at env) <->
    (rid, t) ∈ plan_pairs (timeout_plan plans);
  eo_fail : forall rid t, rid ∈ dget_or t [] (en_fail_at env) <->
    (rid, t) ∈ failure_pairs (failure_plan plans);
  eo_shared : en_shared_fail_at env = shared_step_failure_plan plans;
}.

Lemma same_request plans P env req req' sid sid' :
  env_ok plans P env -> (req, sid) ∈ P -> (req', sid') ∈ P -> tq_request_id req = tq_request_id req' ->
  (req, sid) = (req', sid').
Proof. intros Ho H H' E. by apply (NoDup_map_inj _ _ _ _ (eo_ids _ _ _ Ho) H H'). Qed.

Lemma same_handle plans P env req req' sid :
  env_ok plans P env -> (req, sid) ∈ P -> (req', sid) ∈ P -> req = req'.
Proof.
  intros Ho H H'. assert ((req, sid) = (req', sid)) as [=]; [|done].
  by apply (NoDup_map_inj _ _ _ _ (eo_sids _ _ _ Ho) H H').
Qed.

Lemma zip_keys (requests : list TokenStepRequest) (hs : list string) :
  length hs = length requests ->
  map snd (zip requests hs) = hs
  /\ map (fun p => tq_request_id (fst p)) (zip requests hs) = map tq_request_id requests
  /\ zip (map tq_request_id requests) hs = map (fun p => (tq_request_id (fst p), snd p)) (zip requests hs).
Proof.
  revert hs. induction requests as [|r requests IH]; intros [|h hs] Hl; simpl in *; try done.
  destruct (IH hs) as (H1 & H2 & H3); [lia|]. by rewrite H1, H2, H3.
Qed.

(** A dictionary with distinct keys, as a set of pairs. *)
Lemma dget_pairs {A} (f : A -> string * string) (l : list A) k v :
  NoDup (map (fun x => fst (f x)) l) ->
  dget k (map f l) = Some v <-> exists x, x ∈ l /\ f x = (k, v).
Proof.
  intros Hnd. assert (Hk : NoDup (dkeys (map f l))).
  { unfold dkeys. change (map f l) with (f <$> l). rewrite <- list_fmap_compose. exact Hnd. }
  split.
  - intros H%dget_Some_elem. apply list_elem_of_fmap in H as (x & E & Hx). eauto.
  - intros (x & Hx & E). apply elem_dget; [done|]. apply list_elem_of_fmap. eauto.
Qed.

Lemma reverse_fold (routes d : list (string * string)) (P : list (TokenStepRequest * string)) :
  (forall req sid, (req, sid) ∈ P -> dget (tq_request_id req) routes = Some sid) ->
  NoDup (map snd P) -> (forall sid, sid ∈ map snd P -> dget sid d = None) ->
  foldl (fun d r => dset (dget_or (tq_request_id r) "" routes) (tq_request_id r) d) d (map fst P)
  = (d ++ map (fun p => (snd p, tq_request_id (fst p))) P)%list.
Proof.
  intros Hr. revert d. induction P as [|[req sid] P IH]; intros d Hnd Hd; simpl; [by rewrite app_nil_r|].
  apply NoDup_cons in Hnd as [Hs Hnd]. unfold dget_or at 2. rewrite (Hr req sid) by left. simpl.
  rewrite dkeys_dset_out by (apply Hd; left). rewrite IH; [by rewrite <- app_assoc | | done |].
  - intros r s H. apply Hr. by right.
  - intros s Hin. rewrite <- dkeys_dset_out by (apply Hd; left).
    rewrite dget_dset_ne by (intros ->; done). apply Hd. by right.
Qed.

Lemma reverse_of_spec requests routes (hs : list string) :
  length hs = length requests -> NoDup hs ->
  (forall req sid, (req, sid) ∈ zip requests hs -> dget (tq_request_id req) routes = Some sid) ->
  reverse_of requests routes = map (fun p => (snd p, tq_request_id (fst p))) (zip requests hs).
Proof.
  intros Hl Hnd Hr. unfold reverse_of.
  assert (map fst (zip requests hs) = requests) as Hf by (apply fst_zip; lia).
  rewrite <- Hf at 1. rewrite (reverse_fold routes [] (zip requests hs)); [done | done | |].
  - by destruct (zip_keys requests hs Hl) as (-> & _).
  - done.
Qed.

(** The tables a run builds. *)
Definition run_env (requests : list TokenStepRequest) (routes : list (string * string))
    (handles : list string) (plans : schedule_plans) : schedule_env :=
  mkEnv handles routes (reverse_of requests routes)
    (index_plans (plan_pairs (cancellation_plan plans)))
    (index_plans (plan_pairs (timeout_plan plans)))
    (index_plans (failure_pairs (failure_plan plans))) (shared_step_failure_plan plans).

Lemma run_env_ok requests plans (hs : list string) :
  NoDup (map tq_request_id requests) -> NoDup hs -> length hs = length requests ->
  env_ok plans (zip requests hs) (run_env requests (zip (map tq_request_id requests) hs) hs plans).
Proof.
  intros Hnd Hhs Hl. destruct (zip_keys requests hs Hl) as (H1 & H2 & H3).
  assert (Hr : forall rid h, dget rid (zip (map tq_request_id requests) hs) = Some h <->
    exists req, (req, h) ∈ zip requests hs /\ tq_request_id req = rid).
  { intros rid h. rewrite H3, dget_pairs by (simpl; by rewrite H2). split.
    - intros ([req sid] & Hin & [= <- <-]). eauto.
    - intros (req & Hin & <-). by exists (req, h). }
  split; simpl; try done; try (intros; apply index_plans_elem).
  - by rewrite H1.
  - by rewrite H2.
  - intros sid rid. rewrite (reverse_of_spec requests _ hs Hl Hhs) by (intros; apply Hr; eauto).
    rewrite (dget_pairs (fun p => (snd p, tq_request_id (fst p)))) by (change (NoDup (map snd (zip requests hs))); by rewrite H1). split.
    + intros ([req s] & Hin & [= <- <-]). eauto.
    + intros (req & Hin & <-). by exists (req, sid).
Qed.

(** ** The state of a run after [t] rounds *)

Definition live_state (t : nat) : TokenStepSequenceState :=
  match t with O => TS_READY_TO_DECODE | S _ => TS_DECODING end.

Definition view_of (req : TokenStepRequest) (t : nat) (o : nat * option end_reason) : seq_view :=
  mkView (Some (match snd o with Some r => reason_state r | None => live_state t end))
    (Some (tq_max_tokens req)) (Some (Z.of_nat (fst o))) (Some (tq_sampler_label req))
    (Some (tq_request_id req)).

Lemma view_of_finished req t o : v_finished (view_of req t o) = bool_decide (is_Some (snd o)).
Proof. destruct o as [n [[]|]]; simpl; try done. by destruct t. Qed.

Lemma view_of_ended req t t' n r : view_of req t (n, Some r) = view_of req t' (n, Some r).
Proof. done. Qed.

(** How many of the handles are in a state. *)
Definition in_seq_state (st : TokenStepSequenceState) (hs : list string) (b : FakeTokenStepBackend) : Z :=
  countb (fun h => bool_decide (dget h (bk_states b) = Some st)) hs.

Definition counts_ok (hs : list string) (s : schedule_state) : Prop :=
  sc_cancelled s = in_seq_state TS_CANCELLED hs (sc_backend s)
  /\ sc_timed_out s = in_seq_state TS_TIMED_OUT hs (sc_backend s)
  /\ sc_failed s = in_seq_state TS_FAILED hs (sc_backend s).

Lemma in_seq_state_set st st' h hs b :
  NoDup hs -> h ∈ hs ->
  in_seq_state st hs (set_state h st' b)
  = (in_seq_state st hs b - b2z (bool_decide (dget h (bk_states b) = Some st))
     + b2z (bool_decide (st' = st)))%Z.
Proof.
  unfold in_seq_state. simpl. induction hs as [|k hs IH]; intros Hnd Hin; [by apply elem_of_nil in Hin|].
  apply NoDup_cons in Hnd as [Hk Hnd]. rewrite !countb_cons, dget_dset.
  apply elem_of_cons in Hin as [-> | Hin].
  - rewrite decide_True by done.
    rewrite (countb_ext _ (fun h => bool_decide (dget h (bk_states b) = Some st)) hs).
    + assert (bool_decide (Some st' = Some st) = bool_decide (st' = st)) as ->
        by (apply bool_decide_ext; naive_solver). lia.
    + intros x Hx. by rewrite dget_dset_ne by (intros ->; done).
  - rewrite decide_False by (intros ->; done). rewrite IH by done. lia.
Qed.

Lemma counts_ok_states hs s s' :
  sc_cancelled s' = sc_cancelled s -> sc_timed_out s' = sc_timed_out s -> sc_failed s' = sc_failed s ->
  (forall h st, h ∈ hs -> st = TS_CANCELLED \/ st = TS_TIMED_OUT \/ st = TS_FAILED ->
     dget h (bk_states (sc_backend s')) = Some st <-> dget h (bk_states (sc_backend s)) = Some st) ->
  counts_ok hs s -> counts_ok hs s'.
Proof.
  intros E1 E2 E3 H (H1 & H2 & H3). unfold counts_ok, in_seq_state in *.
  rewrite E1, E2, E3, H1, H2, H3.
  split; [|split]; apply countb_ext; intros h Hh; apply bool_decide_ext; symmetry; apply H; auto.
Qed.

Lemma live_in_no_state h b st :
  v_finished (view h b) = false -> st = TS_CANCELLED \/ st = TS_TIMED_OUT \/ st = TS_FAILED ->
  bool_decide (dget h (bk_states b) = Some st) = false.
Proof.
  unfold v_finished. simpl. intros Hf Hst. apply bool_decide_eq_false_2. intros E. rewrite E in Hf.
  by destruct Hst as [-> | [-> | ->]].
Qed.

Definition not_cleaned (hs : list string) (b : FakeTokenStepBackend) : Prop :=
  forall h, h ∈ hs -> dget h (bk_states b) <> Some TS_CLEANED_UP.

Lemma end_sequence_live st h b :
  seq_is_finished b h = false -> dget h (bk_states b) <> Some TS_CLEANED_UP ->
  end_sequence st h b = set_state h st b.
Proof. unfold seq_is_finished, end_sequence. by destruct (dget h (bk_states b)) as [[]|]. Qed.

Lemma seq_is_finished_view b h : seq_is_finished b h = v_finished (view h b).
Proof. done. Qed.

(** *** Plans *)

Section plans.
Context (plans : schedule_plans) (P : list (TokenStepRequest * string)) (env : schedule_env).
Hypothesis Henv : env_ok plans P env.

Lemma handle_in req sid : (req, sid) ∈ P -> sid ∈ en_handles env.
Proof. intros H. rewrite (eo_handles _ _ _ Henv). apply list_elem_of_fmap. by exists (req, sid). Qed.

Lemma apply_one_view k s rid req sid :
  not_cleaned (en_handles env) (sc_backend s) -> (req, sid) ∈ P ->
  view sid (sc_backend (apply_one env k s rid))
  = if bool_decide (tq_request_id req = rid) && negb (v_finished (view sid (sc_backend s)))
    then v_set_state (plan_state k) (view sid (sc_backend s)) else view sid (sc_backend s).
Proof.
  intros Hc Hin. unfold apply_one. destruct (dget rid (en_routes env)) as [h|] eqn:Hr.
  - apply (eo_routes _ _ _ Henv) in Hr as (req' & Hin' & <-). rewrite seq_is_finished_view.
    destruct (decide (sid = h)) as [->|Hne].
    + pose proof (same_handle _ _ _ _ _ _ Henv Hin Hin') as ->. rewrite bool_decide_eq_true_2 by done.
      destruct (v_finished (view h (sc_backend s))) eqn:Ef; simpl; [done|].
      rewrite end_sequence_live; [by rewrite view_set_state, decide_True | done|].
      apply Hc. by eapply handle_in.
    + rewrite bool_decide_eq_false_2; simpl.
      * destruct (negb _); simpl; [|done]. by rewrite view_end_sequence, decide_False.
      * intros E. pose proof (same_request _ _ _ _ _ _ _ Henv Hin Hin' E). congruence.
  - rewrite bool_decide_eq_false_2; [done|]. intros E.
    assert (dget rid (en_routes env) = Some sid) by (apply (eo_routes _ _ _ Henv); eauto). congruence.
Qed.

Lemma apply_one_frame k s rid :
  sc_accumulators (apply_one env k s rid) = sc_accumulators s
  /\ sc_step_count (apply_one env k s rid) = sc_step_count s
  /\ (forall sid, sid ∉ en_handles env ->
        view sid (sc_backend (apply_one env k s rid)) = view sid (sc_backend s)).
Proof.
  unfold apply_one. destruct (dget rid (en_routes env)) as [h|] eqn:Hr; [|done].
  destruct (negb _); [|done]. split; [done|]. split; [done|]. intros sid Hn. simpl.
  rewrite view_end_sequence, decide_False; [done|]. intros ->. apply Hn.
  apply (eo_routes _ _ _ Henv) in Hr as (req' & Hin' & <-). by eapply handle_in.
Qed.

Lemma apply_one_counts k s rid :
  not_cleaned (en_handles env) (sc_backend s) -> counts_ok (en_handles env) s ->
  counts_ok (en_handles env) (apply_one env k s rid).
Proof.
  intros Hc (H1 & H2 & H3). unfold apply_one.
  destruct (dget rid (en_routes env)) as [h|] eqn:Hr; [|by split].
  apply (eo_routes _ _ _ Henv) in Hr as (req & Hin & <-). pose proof (handle_in _ _ Hin) as Hh.
  destruct (seq_is_finished (sc_backend s) h) eqn:Ef; simpl; [by split|].
  assert (Hnd : NoDup (en_handles env)) by (rewrite (eo_handles _ _ _ Henv); apply Henv).
  rewrite end_sequence_live by auto. unfold counts_ok. simpl.
  rewrite H1, H2, H3, !in_seq_state_set by done.
  rewrite seq_is_finished_view in Ef.
  rewrite (live_in_no_state _ _ TS_CANCELLED Ef), (live_in_no_state _ _ TS_TIMED_OUT Ef),
    (live_in_no_state _ _ TS_FAILED Ef) by auto.
  destruct k; simpl; lia.
Qed.

Lemma apply_one_not_cleaned k s rid :
  not_cleaned (en_handles env) (sc_backend s) -> not_cleaned (en_handles env) (sc_backend (apply_one env k s rid)).
Proof.
  intros Hc h Hh. rewrite (eo_handles _ _ _ Henv) in Hh. apply list_elem_of_fmap in Hh as ([req sid] & -> & Hin).
  pose proof (apply_one_view k s rid req sid Hc Hin) as Hv. apply (f_equal v_state) in Hv. simpl in *.
  rewrite Hv. split_if; [by destruct k|]. apply Hc. by eapply handle_in.
Qed.

(** A list of ids of one plan. *)
Lemma apply_list k rids s :
  not_cleaned (en_handles env) (sc_backend s) -> counts_ok (en_handles env) s ->
  let s' := foldl (apply_one env k) s rids in
  not_cleaned (en_handles env) (sc_backend s') /\ counts_ok (en_handles env) s'
  /\ sc_accumulators s' = sc_accumulators s /\ sc_step_count s' = sc_step_count s
  /\ (forall sid, sid ∉ en_handles env -> view sid (sc_backend s') = view sid (sc_backend s))
  /\ (forall req sid, (req, sid) ∈ P ->
      view sid (sc_backend s')
      = if bool_decide (tq_request_id req ∈ rids) && negb (v_finished (view sid (sc_backend s)))
        then v_set_state (plan_state k) (view sid (sc_backend s)) else view sid (sc_backend s)).
Proof.
  revert s. induction rids as [|rid rids IH]; intros s Hc Hn; simpl.
  { split; [done|]. split; [done|]. split; [done|]. split; [done|]. split; [done|]. done. }
  destruct (IH _ (apply_one_not_cleaned k s rid Hc) (apply_one_counts k s rid Hc Hn))
    as (H1 & H2 & H3 & H4 & H5 & H6).
  destruct (apply_one_frame k s rid) as (F1 & F2 & F3).
  split; [done|]. split; [done|]. split; [by rewrite H3|]. split; [by rewrite H4|].
  split; [intros sid Hs; by rewrite H5, F3|]. intros req sid Hin.
  rewrite (H6 req sid Hin), (apply_one_view k s rid req sid Hc Hin).
  assert (bool_decide (tq_request_id req ∈ rid :: rids)
    = bool_decide (tq_request_id req = rid) || bool_decide (tq_request_id req ∈ rids)) as ->.
  { rewrite <- bool_decide_or. apply bool_decide_ext. by rewrite elem_of_cons. }
  destruct (bool_decide (tq_request_id req = rid)); simpl; [|done].
  destruct (v_finished (view sid (sc_backend s))) eqn:Ef; simpl; rewrite ?Ef; simpl.
  - by rewrite andb_false_r.
  - assert (v_finished (v_set_state (plan_state k) (view sid (sc_backend s))) = true) as ->
      by (by destruct k). by rewrite andb_false_r.
Qed.
End plans.

(** *** One round *)

Record run_inv (plans : schedule_plans) (P : list (TokenStepRequest * string)) (hs : list string)
    (b0 : FakeTokenStepBackend) (t : nat) (s : schedule_state) : Prop := {
  ri_views : forall req sid, (req, sid) ∈ P ->
    view sid (sc_backend s) = view_of req t (life plans req t);
  ri_acc : forall req sid, (req, sid) ∈ P ->
    dget (tq_request_id req) (sc_accumulators s) = Some (tokens req (fst (life plans req t)));
  ri_counts : counts_ok hs s;
  ri_others : forall sid, sid ∉ hs -> view sid (sc_backend s) = view sid b0;
}.

(** The outcome so far, once the plans of step [t] have been applied. *)
Definition after_plans (plans : schedule_plans) (req : TokenStepRequest) (t : nat) : nat * option end_reason :=
  match life plans req t with
  | (n, Some r) => (n, Some r)
  | (n, None) => (n, event_at plans (tq_request_id req) (Z.of_nat t))
  end.

Lemma after_plans_ended plans req t r :
  snd (after_plans plans req t) = Some r -> life plans req (S t) = after_plans plans req t.
Proof. unfold after_plans. simpl. destruct (life plans req t) as [n [r'|]]; [done|]. simpl. by intros ->. Qed.

Lemma tokens_snoc req n :
  tokens req (S n) = (tokens req n ++ [token_text (tq_request_id req) (tq_sampler_label req) (Z.of_nat n)])%list.
Proof. unfold tokens. by rewrite seq_S, map_app. Qed.

Section round.
Context (plans : schedule_plans) (P : list (TokenStepRequest * string)) (env : schedule_env).
Hypothesis Henv : env_ok plans P env.
Context (b0 : FakeTokenStepBackend).
Abbreviation hs := (en_handles env).
Abbreviation inv := (run_inv plans P hs b0).

Lemma handles_of h : h ∈ hs -> exists req, (req, h) ∈ P.
Proof.
  rewrite (eo_handles _ _ _ Henv). intros ([req sid] & -> & Hin)%list_elem_of_fmap. eauto.
Qed.

Lemma run_inv_not_cleaned t s : inv t s -> not_cleaned hs (sc_backend s).
Proof.
  intros Hi h Hh. destruct (handles_of h Hh) as [req Hin].
  pose proof (f_equal v_state (ri_views _ _ _ _ _ _ Hi req h Hin)) as Hv. simpl in Hv. rewrite Hv.
  destruct (snd (life plans req t)) as [[]|]; try done. by destruct t.
Qed.

Lemma active_iff t s req sid : inv t s -> (req, sid) ∈ P ->
  sid ∈ active_handles env s <-> snd (life plans req t) = None.
Proof.
  intros Hi Hin. unfold active_handles. rewrite elem_of_filter_List, seq_is_finished_view.
  rewrite (ri_views _ _ _ _ _ _ Hi req sid Hin), view_of_finished, negb_true_iff, bool_decide_eq_false.
  rewrite <- eq_None_not_Some. pose proof (handle_in _ _ _ Henv req sid Hin). tauto.
Qed.

(** The plans of a step at which nothing is shared. *)
Lemma apply_plans_spec t s :
  inv t s -> sc_step_count s = Z.of_nat t -> Z.of_nat t ∉ shared_step_failure_plan plans ->
  let s' := apply_plans env s in
  not_cleaned hs (sc_backend s') /\ counts_ok hs s' /\ sc_accumulators s' = sc_accumulators s
  /\ sc_step_count s' = Z.of_nat t
  /\ (forall sid, sid ∉ hs -> view sid (sc_backend s') = view sid b0)
  /\ (forall req sid, (req, sid) ∈ P -> view sid (sc_backend s') = view_of req t (after_plans plans req t)).
Proof.
  intros Hi Ht Hsh. unfold apply_plans, apply_plan.
  destruct (apply_list plans P env Henv PK_cancel (dget_or (sc_step_count s) [] (en_cancel_at env)) s
    (run_inv_not_cleaned t s Hi) (ri_counts _ _ _ _ _ _ Hi)) as (C1 & C2 & C3 & C4 & C5 & C6).
  set (s1 := foldl _ s _) in *.
  destruct (apply_list plans P env Henv PK_timeout (dget_or (sc_step_count s1) [] (en_timeout_at env)) s1 C1 C2)
    as (T1 & T2 & T3 & T4 & T5 & T6).
  set (s2 := foldl _ s1 _) in *.
  destruct (apply_list plans P env Henv PK_fail (dget_or (sc_step_count s2) [] (en_fail_at env)) s2 T1 T2)
    as (F1 & F2 & F3 & F4 & F5 & F6).
  set (s3 := foldl _ s2 _) in *. simpl.
  split; [done|]. split; [done|]. split; [by rewrite F3, T3, C3|]. split; [by rewrite F4, T4, C4|].
  split; [intros sid Hs; rewrite F5, T5, C5 by done; by apply (ri_others _ _ _ _ _ _ Hi)|].
  intros req sid Hin. rewrite (F6 req sid Hin), (T6 req sid Hin), (C6 req sid Hin).
  rewrite T4, C4, Ht, (ri_views _ _ _ _ _ _ Hi req sid Hin).
  rewrite (bool_decide_ext _ _ (eo_cancel _ _ _ Henv (tq_request_id req) (Z.of_nat t))).
  rewrite (bool_decide_ext _ _ (eo_timeout _ _ _ Henv (tq_request_id req) (Z.of_nat t))).
  rewrite (bool_decide_ext _ _ (eo_fail _ _ _ Henv (tq_request_id req) (Z.of_nat t))).
  unfold after_plans, event_at. rewrite (bool_decide_eq_false_2 (Z.of_nat t ∈ _) Hsh).
  destruct (life plans req t) as [n [r|]].
  - repeat (rewrite ?view_of_finished, ?andb_false_r; simpl). done.
  - destruct (bool_decide (_ ∈ plan_pairs (cancellation_plan plans))),
      (bool_decide (_ ∈ plan_pairs (timeout_plan plans))), (bool_decide (_ ∈ failure_pairs _));
      by (rewrite ?view_of_finished; simpl; destruct t).
Qed.

(** A shared failure ends whatever is live. *)
Lemma shared_failure_states active b :
  NoDup active -> (forall h, h ∈ active -> h ∈ hs) -> not_cleaned hs b ->
  (forall h, h ∈ active -> v_finished (view h b) = false) ->
  let b' := foldl (fun b h => fail_sequence h b) b active in
  (forall sid, view sid b' = if decide (sid ∈ active) then v_set_state TS_FAILED (view sid b) else view sid b)
  /\ in_seq_state TS_FAILED hs b' = (in_seq_state TS_FAILED hs b + Z.of_nat (length active))%Z
  /\ in_seq_state TS_CANCELLED hs b' = in_seq_state TS_CANCELLED hs b
  /\ in_seq_state TS_TIMED_OUT hs b' = in_seq_state TS_TIMED_OUT hs b.
Proof.
  revert b. induction active as [|h active IH]; intros b Hnd Hsub Hc Hf; simpl.
  { split; [done|]. split; [lia | done]. }
  apply NoDup_cons in Hnd as [Hh Hnd].
  assert (Hin : h ∈ hs) by (apply Hsub; left). assert (Hfh : v_finished (view h b) = false) by (apply Hf; left).
  assert (Hset : fail_sequence h b = set_state h TS_FAILED b) by (apply end_sequence_live; [done | by apply Hc]).
  assert (Hhs : NoDup hs) by (rewrite (eo_handles _ _ _ Henv); apply Henv).
  rewrite Hset. destruct (IH (set_state h TS_FAILED b) Hnd) as (H1 & H2 & H3 & H4).
  - intros x Hx. apply Hsub. by right.
  - intros x Hx. simpl. rewrite dget_dset. case_decide; [done | by apply Hc].
  - intros x Hx. rewrite view_set_state, decide_False by (intros ->; done). apply Hf. by right.
  - split; [|split; [|split]].
    + intros sid. rewrite H1, view_set_state. destruct (decide (sid = h)) as [->|Hne].
      * rewrite decide_False by done. by rewrite decide_True by left.
      * destruct (decide (sid ∈ active)); [by rewrite decide_True by (by right)|].
        by rewrite decide_False by set_solver.
    + rewrite H2, in_seq_state_set, (live_in_no_state _ _ TS_FAILED Hfh) by auto. simpl. lia.
    + rewrite H3, in_seq_state_set, (live_in_no_state _ _ TS_CANCELLED Hfh) by auto. simpl. lia.
    + rewrite H4, in_seq_state_set, (live_in_no_state _ _ TS_TIMED_OUT Hfh) by auto. simpl. lia.
Qed.

Lemma active_NoDup s : NoDup (active_handles env s).
Proof.
  eapply sublist_NoDup; [|apply filter_List_sublist]. rewrite (eo_handles _ _ _ Henv). apply Henv.
Qed.

Lemma shared_failure_inv t s :
  inv t s -> Z.of_nat t ∈ shared_step_failure_plan plans ->
  inv (S t) (shared_failure (active_handles env s) s)
  /\ (forall req sid, (req, sid) ∈ P -> is_Some (snd (life plans req (S t)))).
Proof.
  intros Hi Hsh.
  assert (Hlife : forall req, life plans req (S t)
    = match life plans req t with (n, Some r) => (n, Some r) | (n, None) => (n, Some ER_fail) end).
  { intros req. simpl. destruct (life plans req t) as [n [r|]]; [done|].
    unfold event_at. by rewrite (bool_decide_eq_true_2 _ Hsh). }
  destruct (shared_failure_states (active_handles env s) (sc_backend s) (active_NoDup s)) as (H1 & H2 & H3 & H4).
  - intros h Hh. by apply elem_of_filter_List in Hh as [Hh _].
  - by eapply run_inv_not_cleaned.
  - intros h Hh. apply elem_of_filter_List in Hh as [_ Hh]. by apply negb_true_iff in Hh.
  - split.
    + destruct (ri_counts _ _ _ _ _ _ Hi) as (N1 & N2 & N3). split; simpl.
      * intros req sid Hin. rewrite H1, (ri_views _ _ _ _ _ _ Hi req sid Hin).
        change (match life plans req t with (n, Some r) => _ | (n, None) => _ end) with (life plans req (S t)).
        rewrite Hlife. pose proof (active_iff t s req sid Hi Hin) as Ha.
        destruct (life plans req t) as [n [r|]]; simpl in Ha.
        -- rewrite decide_False by naive_solver. done.
        -- rewrite decide_True by naive_solver. done.
      * intros req sid Hin. rewrite (ri_acc _ _ _ _ _ _ Hi req sid Hin).
        change (match life plans req t with (n, Some r) => _ | (n, None) => _ end) with (life plans req (S t)).
        rewrite Hlife. by destruct (life plans req t) as [n [r|]].
      * unfold counts_ok. simpl. rewrite H2, H3, H4. split; [done|]. split; [done|]. lia.
      * intros sid Hs. rewrite H1, decide_False; [by apply (ri_others _ _ _ _ _ _ Hi)|].
        intros Hh. by apply elem_of_filter_List in Hh as [Hh _].
    + intros req sid Hin. rewrite Hlife. by destruct (life plans req t) as [n [r|]].
Qed.

Lemma append_outputs_spec outputs acc :
  NoDup (dkeys outputs) ->
  (forall sid, sid ∈ dkeys outputs -> exists req, (req, sid) ∈ P /\ is_Some (dget (tq_request_id req) acc)) ->
  exists acc', append_outputs (en_reverse env) outputs acc = Ret acc'
  /\ (forall req sid, (req, sid) ∈ P -> dget (tq_request_id req) acc'
      = match dget sid outputs with
        | Some token => (fun l => l ++ [token])%list <$> dget (tq_request_id req) acc
        | None => dget (tq_request_id req) acc
        end).
Proof.
  revert acc. induction outputs as [|[h token] outputs IH]; intros acc Hnd Hin; simpl; [by eexists|].
  apply NoDup_cons in Hnd as [Hh Hnd]. simpl in Hh.
  destruct (Hin h) as (req & Hp & [l Hl]); [left|].
  assert (Hrev : dget_or h "unknown" (en_reverse env) = tq_request_id req).
  { unfold dget_or. assert (dget h (en_reverse env) = Some (tq_request_id req)) as ->; [|done].
    apply (eo_reverse _ _ _ Henv). eauto. }
  rewrite Hrev, Hl.
  destruct (IH (dset (tq_request_id req) (l ++ [token])%list acc) Hnd) as (acc' & H1 & H2).
  { intros sid Hs. destruct (Hin sid) as (r & Hr & Ha); [by right|]. exists r. split; [done|].
    rewrite dget_dset. case_decide; [by eexists | done]. }
  exists acc'. split; [done|]. intros r sid Hr. rewrite (H2 r sid Hr), dget_dset.
  destruct (decide (sid = h)) as [->|Hne].
  - pose proof (same_handle _ _ _ _ _ _ Henv Hr Hp) as ->. rewrite decide_True by done.
    assert (dget h outputs = None) as -> by (by apply dget_None_keys). by rewrite Hl.
  - rewrite decide_False; [done|]. intros E.
    pose proof (same_request _ _ _ _ _ _ _ Henv Hr Hp E). congruence.
Qed.

(** Decoding a request that the plans have left alone is one step of its [life]. *)
Lemma decode_view_of req t :
  let n := fst (life plans req t) in
  snd (after_plans plans req t) = None ->
  fst (v_decode (view_of req t (after_plans plans req t))) = view_of req (S t) (life plans req (S t))
  /\ snd (v_decode (view_of req t (after_plans plans req t)))
     = (if (Z.of_nat n <? tq_max_tokens req)%Z
        then Some (token_text (tq_request_id req) (tq_sampler_label req) (Z.of_nat n)) else None)
  /\ fst (life plans req (S t)) = (if (Z.of_nat n <? tq_max_tokens req)%Z then S n else n).
Proof.
  simpl. unfold after_plans. destruct (life plans req t) as [n [r|]]; [done|]. simpl. intros ->.
  unfold v_decode, view_of, v_set_state, v_set_count. simpl.
  destruct t; simpl; destruct (Z.of_nat n <? tq_max_tokens req)%Z; simpl;
    repeat split; do 2 f_equal; lia.
Qed.

Lemma decode_round_inv t s :
  inv t s -> sc_step_count s = Z.of_nat t -> Z.of_nat t ∉ shared_step_failure_plan plans ->
  let s1 := apply_plans env s in
  let res := backend_decode_step (active_handles env s1) (sc_backend s1) in
  exists acc, append_outputs (en_reverse env) res.2 (sc_accumulators s1) = Ret acc
  /\ inv (S t) (mkRun res.1 acc (sc_step_count s1 + 1) (sc_cancelled s1) (sc_timed_out s1)
                  (sc_failed s1) (sc_shared_failures s1)).
Proof.
  intros Hi Ht Hsh s1 res.
  destruct (apply_plans_spec t s Hi Ht Hsh) as (Hc & Hn & Ha & Hst & Ho & Hv). fold s1 in Hc, Hn, Ha, Hst, Ho, Hv.
  assert (Hact : forall req sid, (req, sid) ∈ P ->
    sid ∈ active_handles env s1 <-> snd (after_plans plans req t) = None).
  { intros req sid Hin. unfold active_handles. rewrite elem_of_filter_List, seq_is_finished_view.
    rewrite (Hv req sid Hin), view_of_finished, negb_true_iff, bool_decide_eq_false, <- eq_None_not_Some.
    pose proof (handle_in _ _ _ Henv req sid Hin). tauto. }
  destruct (decode_step_view (active_handles env s1) (sc_backend s1) [] (active_NoDup s1)) as (D1 & D2 & D3);
    [done|]. change (foldl _ _ _) with res in D1, D2, D3.
  assert (Hact_in : forall h, h ∈ active_handles env s1 -> h ∈ hs)
    by (intros h Hh; by apply elem_of_filter_List in Hh as [Hh _]).
  assert (Hkeys : forall sid, sid ∈ dkeys res.2 -> sid ∈ active_handles env s1).
  { intros sid Hs. apply dkeys_dget in Hs as [tok Htok]. rewrite D2 in Htok. by case_decide. }
  destruct (append_outputs_spec res.2 (sc_accumulators s1)) as (acc & A1 & A2); [apply D3, NoDup_nil_2| |].
  { intros sid Hs. destruct (handles_of sid (Hact_in _ (Hkeys _ Hs))) as [req Hin]. exists req.
    split; [done|]. rewrite Ha, (ri_acc _ _ _ _ _ _ Hi req sid Hin). by eexists. }
  exists acc. split; [done|]. split.
  - intros req sid Hin. cbn [sc_backend]. rewrite D1, (Hv req sid Hin).
    pose proof (Hact req sid Hin) as Hiff. pose proof (decode_view_of req t) as Hd. cbn zeta in Hd.
    destruct (snd (after_plans plans req t)) as [r|] eqn:E.
    + rewrite decide_False by naive_solver. rewrite (after_plans_ended _ _ _ _ E).
      destruct (after_plans plans req t) as [n o]. simpl in E. by subst.
    + rewrite decide_True by naive_solver. apply Hd. done.
  - intros req sid Hin. cbn [sc_accumulators]. rewrite (A2 req sid Hin), D2, (Hv req sid Hin), Ha.
    rewrite (ri_acc _ _ _ _ _ _ Hi req sid Hin).
    pose proof (Hact req sid Hin) as Hiff. pose proof (decode_view_of req t) as Hd. cbn zeta in Hd.
    destruct (snd (after_plans plans req t)) as [r|] eqn:E.
    + rewrite decide_False by naive_solver. simpl dget. rewrite (after_plans_ended _ _ _ _ E).
      unfold after_plans. by destruct (life plans req t) as [n [r'|]].
    + rewrite decide_True by naive_solver. destruct (Hd eq_refl) as (_ & -> & ->).
      split_if; simpl; [by rewrite tokens_snoc | done].
  - apply (counts_ok_states _ s1); try done. intros h st Hh Hst'. simpl.
    destruct (handles_of h Hh) as [req Hin]. pose proof (f_equal v_state (D1 h)) as Hs. simpl in Hs.
    pose proof (f_equal v_state (Hv req h Hin)) as Hs1. simpl in Hs1. rewrite Hs.
    case_decide as Hh'; [|done]. apply (Hact req h Hin) in Hh'. pose proof (decode_view_of req t Hh') as (Hd & _).
    rewrite (Hv req h Hin), Hd. rewrite Hs1, Hh'. simpl.
    unfold after_plans in Hh'. destruct (life plans req t) as [n [r|]]; [done|]. simpl in Hh'. rewrite Hh'.
    split_if; simpl; destruct t; simpl; naive_solver.
  - intros sid Hs. cbn [sc_backend]. rewrite D1, decide_False by auto. by apply Ho.
Qed.

(** What a round does: it goes on and every request is one step further, or it ends the run
    and every request has ended. *)
Lemma schedule_round_spec t s :
  inv t s -> sc_step_count s = Z.of_nat t ->
  exists c s', schedule_round env s = Ret (c, s') /\
  (if c then inv (S t) s' /\ sc_step_count s' = Z.of_nat (S t)
             /\ exists req sid, (req, sid) ∈ P /\ snd (life plans req t) = None
   else exists t', inv t' s' /\ forall req sid, (req, sid) ∈ P -> is_Some (snd (life plans req t'))).
Proof.
  intros Hi Ht. unfold schedule_round. pose proof (active_iff t s) as Ha.
  destruct (active_handles env s) as [|h active] eqn:Eact.
  { exists false, s. split; [done|]. exists t. split; [done|]. intros req sid Hin.
    destruct (snd (life plans req t)) eqn:E; [by eexists|]. apply (Ha _ _ Hi Hin) in E. by apply elem_of_nil in E. }
  assert (Hlive : exists req sid, (req, sid) ∈ P /\ snd (life plans req t) = None).
  { assert (Hh : h ∈ active_handles env s) by (rewrite Eact; left).
    destruct (handles_of h) as [req Hin]; [by apply elem_of_filter_List in Hh as [? _]|].
    exists req, h. split; [done|]. apply (Ha _ _ Hi Hin). left. }
  rewrite <- Eact, (eo_shared _ _ _ Henv), Ht. case_bool_decide as Hsh.
  { eexists false, _. split; [done|]. exists (S t). by apply shared_failure_inv. }
  destruct (apply_plans_spec t s Hi Ht Hsh) as (Hc & Hn & Hacc & Hst & Ho & Hv).
  destruct (decode_round_inv t s Hi Ht Hsh) as (acc & HA & Hinv).
  destruct (active_handles env (apply_plans env s)) as [|h' active'] eqn:Eact'.
  - eexists false, _. split; [done|]. exists (S t).
    assert (Hall : forall req sid, (req, sid) ∈ P -> is_Some (snd (after_plans plans req t))).
    { intros req sid Hin. destruct (snd (after_plans plans req t)) eqn:E; [by eexists|]. exfalso.
      assert (sid ∈ active_handles env (apply_plans env s)) as Hs; [|rewrite Eact' in Hs; by apply elem_of_nil in Hs].
      apply elem_of_filter_List. split; [by eapply handle_in|].
      by rewrite seq_is_finished_view, (Hv req sid Hin), view_of_finished, E. }
    split.
    + simpl in Hinv. destruct Hinv as [I1 I2 I3 I4]. simpl in *. injection HA as <-. by split.
    + intros req sid Hin. destruct (Hall req sid Hin) as [r Hr]. by rewrite (after_plans_ended _ _ _ _ Hr), Hr; eexists.
  - destruct (backend_decode_step _ _) as [b outputs] eqn:Ed. simpl in HA, Hinv. rewrite HA. simpl.
    eexists true, _. split; [done|]. split; [exact Hinv|]. split; [simpl; lia | done].
Qed.
End round.

(** ** The loop *)

Lemma schedule_loop_ends plans P env b0 M fuel t s :
  env_ok plans P env ->
  (forall req sid, (req, sid) ∈ P -> Z.to_nat (tq_max_tokens req) <= M) ->
  run_inv plans P (en_handles env) b0 t s -> sc_step_count s = Z.of_nat t ->
  M + 2 <= t + fuel -> t <= M + 1 ->
  exists t' s', schedule_loop fuel env s = Some (Ret s')
  /\ run_inv plans P (en_handles env) b0 t' s'
  /\ forall req sid, (req, sid) ∈ P -> is_Some (snd (life plans req t')).
Proof.
  intros Henv HM. revert t s. induction fuel as [|fuel IH]; intros t s Hi Ht Hf Hle; [lia|].
  destruct (schedule_round_spec plans P env Henv b0 t s Hi Ht) as (c & s' & Hr & Hc).
  simpl. rewrite Hr. destruct c.
  - destruct Hc as (Hi' & Ht' & req & sid & Hin & Hlive). apply (IH (S t)); [done | done | lia |].
    assert (t <= Z.to_nat (tq_max_tokens req)) as Htm; [|specialize (HM req sid Hin); lia].
    destruct (Nat.le_gt_cases t (Z.to_nat (tq_max_tokens req))) as [|Hgt]; [done|]. exfalso.
    destruct (life_ends plans req) as [r Hend]. unfold outcome in Hend.
    rewrite <- (life_stays plans req _ t r Hgt Hend) in Hend. congruence.
  - destruct Hc as (t' & Hi' & Hall). by exists t', s'.
Qed.

Lemma fuel_bound requests req : req ∈ requests ->
  Z.to_nat (tq_max_tokens req) + 2 <= schedule_fuel requests.
Proof.
  unfold schedule_fuel. induction requests as [|r requests IH]; intros Hin; [by apply elem_of_nil in Hin|].
  simpl in *. apply elem_of_cons in Hin as [-> | Hin]; [lia|]. specialize (IH Hin). lia.
Qed.

(** Requests that end in a given way. *)
Definition ended_by (plans : schedule_plans) (r : end_reason) (requests : list TokenStepRequest) : Z :=
  countb (fun req => bool_decide (snd (outcome plans req) = Some r)) requests.

Lemma countb_map {A B} (f : A -> B) (p : B -> bool) l : countb p (map f l) = countb (fun x => p (f x)) l.
Proof. induction l as [|x l IH]; [done|]. simpl. by rewrite !countb_cons, IH. Qed.

Lemma ended_partition plans requests :
  (ended_by plans ER_stop requests + ended_by plans ER_cancel requests
   + ended_by plans ER_timeout requests + ended_by plans ER_fail requests)%Z
  = Z.of_nat (length requests).
Proof.
  unfold ended_by. induction requests as [|r requests IH]; [done|]. rewrite !countb_cons.
  destruct (life_ends plans r) as [x ->]. simpl length. destruct x; simpl; lia.
Qed.

Lemma final_count plans P hs b0 t s st r :
  run_inv plans P hs b0 t s -> hs = map snd P ->
  (forall req sid, (req, sid) ∈ P -> is_Some (snd (life plans req t))) ->
  st = reason_state r -> in_seq_state st hs (sc_backend s) = ended_by plans r (map fst P).
Proof.
  intros Hi -> Hall ->. unfold in_seq_state, ended_by. rewrite !countb_map. apply countb_ext.
  intros [req sid] Hin. simpl. pose proof (f_equal v_state (ri_views _ _ _ _ _ _ Hi req sid Hin)) as Hv.
  simpl in Hv. rewrite Hv. destruct (Hall req sid Hin) as [x Hx]. rewrite Hx.
  rewrite <- (life_outcome plans req t x Hx), Hx. apply bool_decide_ext.
  destruct x, r; simpl; naive_solver.
Qed.

Lemma final_reason plans P hs b0 t s req sid :
  run_inv plans P hs b0 t s -> (req, sid) ∈ P -> is_Some (snd (life plans req t)) ->
  mkTokenResult (tq_request_id req) (join " " (dget_or (tq_request_id req) [] (sc_accumulators s)))
    (seq_finish_reason (sc_backend s) sid) = expected_result plans req.
Proof.
  intros Hi Hin [x Hx]. unfold expected_result, dget_or. rewrite (ri_acc _ _ _ _ _ _ Hi req sid Hin).
  rewrite <- (life_outcome plans req t x Hx), Hx. simpl. f_equal.
  pose proof (f_equal v_state (ri_views _ _ _ _ _ _ Hi req sid Hin)) as Hv. simpl in Hv.
  unfold seq_finish_reason. rewrite Hv, Hx. by destruct x.
Qed.

Lemma release_all_view hs b sid :
  view sid (foldl (fun b h => release_sequence h b) b hs)
  = if decide (sid ∈ hs) then v_set_state TS_CLEANED_UP (view sid b) else view sid b.
Proof.
  revert b. induction hs as [|h hs IH]; intros b; simpl; [done|].
  rewrite IH. unfold release_sequence. rewrite view_set_state.
  destruct (decide (sid = h)) as [->|Hne].
  - destruct (decide (h ∈ h :: hs)) as [_|Hn]; [by case_decide | destruct Hn; left].
  - destruct (decide (sid ∈ hs)); [rewrite decide_True by (by right) | rewrite decide_False by set_solver]; done.
Qed.

Lemma new_accumulators requests d :
  NoDup (map tq_request_id requests) ->
  forall rid, dget rid (foldl (fun d r => dset (tq_request_id r) ([] : list string) d) d requests)
  = if decide (rid ∈ map tq_request_id requests) then Some [] else dget rid d.
Proof.
  revert d. induction requests as [|r requests IH]; intros d Hnd rid; simpl; [done|].
  apply NoDup_cons in Hnd as [Hr Hnd]. rewrite IH, dget_dset by done.
  destruct (decide (rid = tq_request_id r)) as [->|Hne].
  - rewrite decide_False by done. by rewrite decide_True by left.
  - destruct (decide (rid ∈ map tq_request_id requests));
      [rewrite decide_True by (by right) | rewrite decide_False by set_solver]; done.
Qed.

(** The state in which the loop starts. *)
Lemma start_inv plans requests b hs b1 :
  NoDup (map tq_request_id requests) -> length hs = length requests ->
  (forall req sid, (req, sid) ∈ zip requests hs -> view sid b1 = fresh_view req) ->
  (forall sid, sid ∉ hs -> view sid b1 = view sid b) ->
  run_inv plans (zip requests hs) hs b 0
    (mkRun b1 (foldl (fun d r => dset (tq_request_id r) [] d) [] requests) 0 0 0 0 0).
Proof.
  intros Hnd Hl Hv Ho. split; simpl; [exact Hv | | | exact Ho].
  - intros req sid Hin. rewrite new_accumulators, decide_True; [done | | done].
    apply elem_of_zip_l in Hin. by apply list_elem_of_fmap_2.
  - assert (Hst : forall h, h ∈ hs -> dget h (bk_states b1) = Some TS_READY_TO_DECODE).
    { intros h Hh. destruct (zip_keys requests hs Hl) as (Hz & _). rewrite <- Hz in Hh.
      apply list_elem_of_fmap in Hh as ([req sid] & -> & Hin).
      exact (f_equal v_state (Hv req sid Hin)). }
    unfold counts_ok, in_seq_state. simpl.
    split; [|split]; symmetry; apply countb_zero; intros h Hh; by rewrite (Hst h Hh).
Qed.

(** Prefill and loop together. *)
Lemma run_ends requests b plans fuel :
  NoDup (map tq_request_id requests) -> schedule_fuel requests <= fuel ->
  let hs := handles_from (bk_next_id b) (length requests) in
  let routes := zip (map tq_request_id requests) hs in
  exists b1 t s,
    prefill_all requests b = (b1, hs, routes)
  /\ schedule_loop fuel (run_env requests routes hs plans)
       (mkRun b1 (foldl (fun d r => dset (tq_request_id r) [] d) [] requests) 0 0 0 0 0) = Some (Ret s)
  /\ run_inv plans (zip requests hs) hs b t s
  /\ (forall req sid, (req, sid) ∈ zip requests hs -> is_Some (snd (life plans req t)))
  /\ env_ok plans (zip requests hs) (run_env requests routes hs plans).
Proof.
  intros Hnd Hf hs routes.
  assert (Hl : length hs = length requests) by apply length_handles_from.
  destruct (prefill_fold_spec requests b [] [] Hnd) as (b1 & Hp & Hv & Ho); [done|]. fold hs in Hp, Hv, Ho.
  pose proof (run_env_ok requests plans hs Hnd (handles_from_NoDup _ _) Hl) as Henv. fold routes in Henv.
  pose proof (start_inv plans requests b hs b1 Hnd Hl Hv Ho) as Hstart.
  destruct (schedule_loop_ends plans (zip requests hs) (run_env requests routes hs plans) b
    (schedule_fuel requests - 2) fuel 0
    (mkRun b1 (foldl (fun d r => dset (tq_request_id r) [] d) [] requests) 0 0 0 0 0) Henv)
    as (t & s & Hloop & Hi & Hall); [|done|done|unfold schedule_fuel in *; lia | lia |].
  - intros req sid Hin%elem_of_zip_l. pose proof (fuel_bound _ _ Hin). lia.
  - exists b1, t, s. done.
Qed.

(** C16: A schedule of requests with distinct ids, on any backend and under any plans, ends
    within [schedule_fuel] rounds.  The result of each request is what [expected_result]
    computes from that request and the plans alone, so no request influences another; the
    report counts the four ways to end correctly; every sequence of the run is released, and
    the sequences of earlier runs are as they were. *)
Theorem schedule_isolates requests b plans fuel
    (Hne : requests <> []) (Hnd : NoDup (map tq_request_id requests))
    (Hf : schedule_fuel requests <= fuel) :
  exists report b',
    run_fake_token_step_schedule fuel requests b plans
    = Some (Ret (map (expected_result plans) requests, report, b'))
  /\ tk_sequences_finished report = ended_by plans ER_stop requests
  /\ tk_sequences_cancelled report = ended_by plans ER_cancel requests
  /\ tk_sequences_timed_out report = ended_by plans ER_timeout requests
  /\ tk_sequences_failed report = ended_by plans ER_fail requests
  /\ (forall sid, sid ∈ handles_from (bk_next_id b) (length requests) ->
        dget sid (bk_states b') = Some TS_CLEANED_UP)
  /\ (forall sid, sid ∉ handles_from (bk_next_id b) (length requests) -> view sid b' = view sid b).
Proof.
  destruct (run_ends requests b plans fuel Hnd Hf) as (b1 & t & s & Hp & Hloop & Hi & Hall & Henv).
  set (hs := handles_from (bk_next_id b) (length requests)) in *.
  assert (Hl : length hs = length requests) by apply length_handles_from.
  destruct (zip_keys requests hs Hl) as (Hz & _).
  assert (Hfst : map fst (zip requests hs) = requests) by (apply fst_zip; lia).
  destruct (ri_counts _ _ _ _ _ _ Hi) as (C1 & C2 & C3).
  rewrite (final_count _ _ _ _ _ _ TS_CANCELLED ER_cancel Hi (eq_sym Hz) Hall eq_refl), Hfst in C1.
  rewrite (final_count _ _ _ _ _ _ TS_TIMED_OUT ER_timeout Hi (eq_sym Hz) Hall eq_refl), Hfst in C2.
  rewrite (final_count _ _ _ _ _ _ TS_FAILED ER_fail Hi (eq_sym Hz) Hall eq_refl), Hfst in C3.
  unfold run_fake_token_step_schedule. rewrite Hp. unfold run_env in Hloop. rewrite Hloop.
  destruct requests as [|r0 requests']; [done|]. set (requests := r0 :: requests') in *.
  assert (Hres : step_results requests (zip (map tq_request_id requests) hs) s
    = map (expected_result plans) requests).
  { unfold step_results. apply map_ext_in. intros req Hreq%list_elem_of_In.
    rewrite <- Hfst in Hreq. apply list_elem_of_fmap in Hreq as ([r sid] & -> & Hin).
    cbn [fst]. rewrite <- (final_reason _ _ _ _ _ _ _ _ Hi Hin (Hall _ _ Hin)). do 2 f_equal. unfold dget_or at 1.
    assert (dget (tq_request_id r) (zip (map tq_request_id requests) hs) = Some sid) as ->; [|done].
    apply (eo_routes _ _ _ Henv). eauto. }
  rewrite Hres. eexists _, _. split; [reflexivity|].
  cbn [tk_sequences_finished tk_sequences_cancelled tk_sequences_timed_out tk_sequences_failed].
  pose proof (ended_partition plans requests). split; [lia|]. split; [done|]. split; [done|]. split; [done|].
  split; intros sid Hs.
  - pose proof (release_all_view hs (sc_backend s) sid) as Hr. rewrite decide_True in Hr by done.
    exact (f_equal v_state Hr).
  - rewrite release_all_view, decide_False by done. by apply (ri_others _ _ _ _ _ _ Hi).
Qed.

Definition demo_requests : list TokenStepRequest :=
  [mkTokenReq "a" "p" 2 "default"; mkTokenReq "b" "p" 5 "default"; mkTokenReq "c" "p" 3 "default"].

Definition demo_plans : schedule_plans := mkPlans [mkPlan "b" 1] [] [] [].

Lemma schedule_isolates_witness :
  exists report b',
    run_fake_token_step_schedule (schedule_fuel demo_requests) demo_requests new_backend demo_plans
    = Some (Ret ([mkTokenResult "a" "a_default_0 a_default_1" "stop"; mkTokenResult "b" "b_default_0" "cancelled";
                  mkTokenResult "c" "c_default_0 c_default_1 c_default_2" "stop"], report, b'))
  /\ tk_sequences_finished report = 2%Z /\ tk_sequences_cancelled report = 1%Z.
Proof.
  destruct (schedule_isolates demo_requests new_backend demo_plans (schedule_fuel demo_requests))
    as (report & b' & H & H1 & H2 & _); [done | | done |].
  - apply (bool_decide_unpack _). by vm_compute.
  - exists report, b'. split; [exact H|]. rewrite H1, H2. split; reflexivity.
Defined.

(** Nothing rejects a repeated request id: the first of the two sequences has no route, and its
    first token raises [KeyError], which leaves both sequences unreleased. *)
Example repeated_id_raises :
  run_fake_token_step_schedule 10 [mkTokenReq "a" "p" 1 "default"; mkTokenReq "a" "p" 1 "default"]
    new_backend (mkPlans [] [] [] []) = Some (Raise (KeyError "unknown")).
Proof. by vm_compute. Qed.

(** A sequence is found finished one step after its last token; a cancellation at that step
    turns a complete answer into a cancelled one. *)
Example complete_answer_reported_cancelled :
  expected_result (mkPlans [mkPlan "a" 1] [] [] []) (mkTokenReq "a" "p" 1 "default")
  = mkTokenResult "a" "a_default_0" "cancelled".
Proof. by vm_compute. Qed.

(** The bleed check looks for the sampler's label anywhere in the other outputs, so a label
    that occurs in another request's id is reported although nothing has leaked. *)
Example bleed_reported_without_bleed :
  demux_bleed [mkTokenReq "r1" "p" 1 "hot"; mkTokenReq "shot" "p" 1 "cold"]
    [("r1", ["r1_hot_0"]); ("shot", ["shot_cold_0"])] = true.
Proof. by vm_compute. Qed.
