(* ===== verification/BatchGuard.v ===== *)
(** * The guarded batch runners, virtual slots and the primitive contracts
      ([continuous_live_prototype.py], [guarded_adapter_batching.py], [mlx_slot_lifecycle.py],
      [continuous_primitives.py], [continuous_batching_plan.py])

    The adapter is a parameter: [batch_fn] is its [chat_completion_batch], absent, raising or
    returning.  The ids of error responses come from [fresh], the clock from [now].  The requests
    are those of the chat handler, so every attribute the code reads with [getattr] exists. *)

From S2P Require Import Prelude PyDict PyStr PySeq Contracts.
Open Scope string_scope.

(** ** Eligibility *)

Inductive GuardReason :=
| GLOBAL_FLAG_DISABLED | MLX_FLAG_DISABLED | BACKEND_NOT_MLX | GR_STREAMING_UNSUPPORTED
| VLM_UNSUPPORTED | TOOL_CALLS_UNSUPPORTED | INCOMPATIBLE_SAMPLING | GROUP_TOO_SMALL
| GROUP_TOO_LARGE | MAX_TOKENS_EXCEEDED | MIXED_GROUP_UNSUPPORTED | SLOT_CLAIM_FAILED
| GR_UNKNOWN.

Inductive GuardStatus := GS_DISABLED | GS_INELIGIBLE | GS_READY | GS_RUNNING | GS_COMPLETED | GS_FAILED.

Inductive GuardFailure :=
| GF_GENERATOR_CREATE_FAILED | GF_GENERATOR_ITERATION_FAILED | GF_CHUNK_NORMALIZATION_FAILED
| GF_DEMUX_ROUTE_FAILED | GF_TERMINAL_STATE_FAILED | GF_ADAPTER_BATCH_FAILED
| GF_WRONG_RESPONSE_COUNT | GF_RESPONSE_SHAPE_INVALID | GF_SLOT_CLAIM_FAILED
| GF_TOMBSTONE_FAILED | GF_CLEANUP_FAILED | GF_TIMEOUT | GF_UNKNOWN.

(** The loop over the requests: the first reason found. *)
Fixpoint request_reason (max_tokens : Z) (requests : list ChatCompletionRequest) : option GuardReason :=
  match requests with
  | [] => None
  | req :: requests =>
      if req_stream req then Some GR_STREAMING_UNSUPPORTED
      else if truthy (req_tools req) || truthy (req_tool_choice req) then Some TOOL_CALLS_UNSUPPORTED
      else
        match req_max_tokens req with
        | Some mt => if negb (mt =? 0)%Z && (max_tokens <? mt)%Z then Some MAX_TOKENS_EXCEEDED
                     else request_reason max_tokens requests
        | None => request_reason max_tokens requests
        end
  end.

Definition classify_eligibility (backend : string) (requests : list ChatCompletionRequest)
    (global_enabled mlx_enabled : bool) (min_group max_group max_tokens : Z) : option GuardReason :=
  if negb global_enabled then Some GLOBAL_FLAG_DISABLED
  else if negb mlx_enabled then Some MLX_FLAG_DISABLED
  else if negb (String.eqb backend "mlx") then Some BACKEND_NOT_MLX
  else
    match request_reason max_tokens requests with
    | Some r => Some r
    | None =>
        if (Z.of_nat (length requests) <? min_group)%Z then Some GROUP_TOO_SMALL
        else if (max_group <? Z.of_nat (length requests))%Z then Some GROUP_TOO_LARGE
        else None
    end.

Definition classify_guard_eligibility := classify_eligibility.

(** ** Responses and reports *)

Record BatchResponse := mkBatchResponse {
  br_id : string;
  br_created : Z;
  br_model : string;
  br_contents : list pyval;
  br_finish_reason : string;
}.

Record ContinuousLivePrototypeReport := mkLiveReport {
  lp_status : GuardStatus;
  lp_failure_reason : option GuardFailure;
  lp_model : option string;
  lp_request_count : Z;
  lp_virtual_slots_claimed : Z;
  lp_virtual_slots_tombstoned : Z;
  lp_chunks_routed : Z;
  lp_terminal_events_observed : Z;
  lp_cleanup_completed : bool;
  lp_fallback_after_generation_started : bool;
  lp_live_path_enabled : bool;
}.

Record GuardedAdapterBatchReport := mkGuardReport {
  gb_status : GuardStatus;
  gb_failure_reason : option GuardFailure;
  gb_model : option string;
  gb_request_count : Z;
  gb_virtual_slots_claimed : Z;
  gb_virtual_slots_tombstoned : Z;
  gb_terminal_events_observed : Z;
  gb_controlled_errors_emitted : Z;
  gb_cleanup_completed : bool;
  gb_all_slots_tombstoned : bool;
  gb_fallback_after_generation_started : bool;
  gb_live_path_enabled : bool;
}.

(** The controlled error for one request; [prefix] and [text] differ between the runners. *)
Definition error_response (prefix text fresh : string) (now : Z) (req : ChatCompletionRequest) : BatchResponse :=
  mkBatchResponse (prefix +:+ fresh) now (req_model req) [PStr text] "error".

Definition error_responses (prefix text : string) (fresh : nat -> string) (now : Z)
    (requests : list ChatCompletionRequest) : list BatchResponse :=
  imap (fun i req => error_response prefix text (fresh i) now req) requests.

Abbreviation batch_function := (option (list ChatCompletionRequest -> pyres (list BatchResponse))).

(** [max(1, len(text.split()))] of each response; a content that is not a string has no
    [split]. *)
Fixpoint count_chunks (responses : list BatchResponse) : pyres Z :=
  match responses with
  | [] => Ret 0%Z
  | resp :: responses =>
      match br_contents resp with
      | [] => let! n := count_chunks responses in Ret (1 + n)%Z
      | PStr text :: _ =>
          let! n := count_chunks responses in
          Ret (Z.max 1 (Z.of_nat (length (split_words text))) + n)%Z
      | _ :: _ => Raise (Exc "AttributeError" "split")
      end
  end.

(** The body of the [try] of both runners up to the count check. *)
Definition run_batch (batch_fn : batch_function) (requests : list ChatCompletionRequest)
    : pyres (list BatchResponse) :=
  match batch_fn with
  | None => Raise (RuntimeError "adapter does not support chat_completion_batch")
  | Some f =>
      let! responses := f requests in
      if negb (length responses =? length requests)%nat
      then Raise (RuntimeError "wrong response count") else Ret responses
  end.

Definition run_guarded_prototype (fresh : nat -> string) (now : Z)
    (requests : list ChatCompletionRequest) (batch_fn : batch_function)
    : list BatchResponse * ContinuousLivePrototypeReport :=
  let count := Z.of_nat (length requests) in
  match (let! responses := run_batch batch_fn requests in
         let! chunks := count_chunks responses in Ret (responses, chunks)) with
  | Ret (responses, chunks) =>
      (responses,
       mkLiveReport GS_COMPLETED None (req_model <$> head requests) count count count chunks count
         true false true)
  | Raise _ =>
      (error_responses "proto-err-" "[prototype error]" fresh now requests,
       mkLiveReport GS_FAILED (Some GF_UNKNOWN) None count count count 0 0 true false true)
  end.

Definition run_guarded_adapter_batch (fresh : nat -> string) (now : Z)
    (requests : list ChatCompletionRequest) (batch_fn : batch_function)
    : list BatchResponse * GuardedAdapterBatchReport :=
  let count := Z.of_nat (length requests) in
  match run_batch batch_fn requests with
  | Ret responses =>
      (responses,
       mkGuardReport GS_COMPLETED None (req_model <$> head requests) count count count count 0
         true true false true)
  | Raise _ =>
      (error_responses "guard-err-" "[guarded adapter batch error]" fresh now requests,
       mkGuardReport GS_FAILED (Some GF_ADAPTER_BATCH_FAILED) None count count count 0 count
         true true false true)
  end.

(** ** Virtual slots ([mlx_slot_lifecycle.py]) *)

Inductive SlotFailure :=
| DUPLICATE_SLOT_OWNER | DUPLICATE_REQUEST_SLOT | RELEASE_WRONG_OWNER
| RELEASE_DID_NOT_CLEAR_OWNER | LATE_CHUNK_ACCEPTED_FOR_TOMBSTONE
| TOMBSTONE_REUSED_WITHOUT_GENERATION_BUMP | CLEANUP_NOT_IDEMPOTENT | SNAPSHOT_LEAK
| SF_IMPORT_FAILED | SF_MODEL_LOAD_FAILED | SF_UNKNOWN.

Inductive TombstoneReason := TR_SUCCESS | TR_CANCELLED | TR_TIMED_OUT | TR_FAILED | TR_INVALID_OUTPUT | TR_SHUTDOWN.

Record MLXVirtualSlotClaim := mkClaim { vc_request_id : string; vc_slot_id : string; vc_generation : Z }.

(** [MLXVirtualSlotRelease] and [MLXVirtualSlotTombstone], which have the same fields. *)
Record MLXVirtualSlotRelease := mkRelease {
  vr_request_id : string;
  vr_slot_id : string;
  vr_generation : Z;
  vr_reason : TombstoneReason;
}.

Abbreviation MLXVirtualSlotTombstone := MLXVirtualSlotRelease.

(** [slots] and [reqs] are the keys of the two dictionaries, which are only tested for
    membership. *)
Fixpoint claim_reasons (tombstone_keys : list (string * Z)) (slots reqs : list string)
    (claims : list MLXVirtualSlotClaim) : list SlotFailure :=
  match claims with
  | [] => []
  | c :: claims =>
      (if bool_decide ((vc_slot_id c, vc_generation c) ∈ tombstone_keys)
       then [TOMBSTONE_REUSED_WITHOUT_GENERATION_BUMP] else [])
      ++ (if bool_decide (vc_slot_id c ∈ slots) then [DUPLICATE_SLOT_OWNER] else [])
      ++ (if bool_decide (vc_request_id c ∈ reqs) then [DUPLICATE_REQUEST_SLOT] else [])
      ++ claim_reasons tombstone_keys (vc_slot_id c :: slots) (vc_request_id c :: reqs) claims
  end%list.

Definition tombstone_key (t : MLXVirtualSlotTombstone) : string * Z := (vr_slot_id t, vr_generation t).

Definition validate_virtual_slot_claims (claims : list MLXVirtualSlotClaim)
    (tombstones : list MLXVirtualSlotTombstone) : list SlotFailure :=
  claim_reasons (map tombstone_key tombstones) [] [] claims.

Definition validate_release (release : MLXVirtualSlotRelease) (claims : list MLXVirtualSlotClaim)
    : list SlotFailure :=
  match List.find (fun c => String.eqb (vc_slot_id c) (vr_slot_id release)) claims with
  | None => [RELEASE_DID_NOT_CLEAR_OWNER]
  | Some owner =>
      if negb (String.eqb (vc_request_id owner) (vr_request_id release)) then [RELEASE_WRONG_OWNER]
      else if negb (vc_generation owner =? vr_generation release)%Z then [RELEASE_WRONG_OWNER]
      else []
  end.

(** The request id of the chunk is a parameter of the code that it does not read. *)
Definition validate_tombstone_late_chunk (tombstones : list MLXVirtualSlotTombstone)
    (request_id slot_id : string) (generation : Z) : list SlotFailure :=
  if existsb (fun t => String.eqb (vr_slot_id t) slot_id && (vr_generation t =? generation)%Z) tombstones
  then [LATE_CHUNK_ACCEPTED_FOR_TOMBSTONE] else [].

Inductive ProbeStatus := PS_NOT_RUN | PS_PASSED | PS_FAILED | PS_INCONCLUSIVE.

Record MLXSlotLifecycleReport := mkSlotReport {
  sr_status : ProbeStatus;
  sr_virtual_slot_claimed : bool;
  sr_virtual_slot_released : bool;
  sr_tombstone_created : bool;
  sr_late_chunks_rejected : bool;
  sr_release_idempotent : bool;
  sr_reuse_requires_generation_bump : bool;
  sr_virtual_slot_ownership_verified : bool;
  sr_slot_ownership_backend_verified : bool;
  sr_production_ready : bool;
}.

Definition build_mlx_slot_lifecycle_report (claimed released created rejected idempotent bump : bool)
    : MLXSlotLifecycleReport :=
  let all_ok := forallb id [claimed; released; created; rejected; idempotent; bump] in
  mkSlotReport (if all_ok then PS_PASSED else PS_FAILED) claimed released created rejected idempotent
    bump all_ok false false.

(** ** The six primitives ([continuous_primitives.py]) *)

Inductive PrimitiveInvariantViolation :=
| PV_SLOT_ALREADY_OWNED | PV_REQUEST_ALREADY_HAS_SLOT | PV_RELEASED_SLOT_RETAINED_OWNER
| PV_CANCELLED_EMITTED_OUTPUT | PV_TIMED_OUT_EMITTED_OUTPUT | PV_SAMPLING_STATE_MISMATCH
| PV_FAILURE_ESCALATION_UNDECLARED | PV_CLEANUP_NOT_IDEMPOTENT | PV_SNAPSHOT_LEAK.

Inductive PrimitiveStatus :=
| PRS_UNSUPPORTED | PRS_CONTRACT_ONLY | PRS_FAKE_VERIFIED | PRS_BACKEND_DECLARED | PRS_BACKEND_VERIFIED.

Record ContinuousPrimitiveReport := mkPrimitiveReport {
  pr_primitive : string;
  pr_status : PrimitiveStatus;
  pr_invariants_defined : bool;
  pr_fake_verified : bool;
  pr_backend_verified : bool;
}.

Record SlotOwnershipClaim := mkOwnership { ow_request_id : string; ow_slot_id : string }.

Record SlotReleaseClaim := mkReleaseClaim { rl_request_id : string; rl_slot_id : string }.

(** [k in d and d[k] != v] *)
Definition maps_elsewhere (k v : string) (d : list (string * string)) : bool :=
  match dget k d with Some v' => negb (String.eqb v' v) | None => false end.

Fixpoint ownership_claims (slot_owners req_slots : list (string * string)) (claims : list SlotOwnershipClaim)
    : list PrimitiveInvariantViolation * list (string * string) :=
  match claims with
  | [] => ([], slot_owners)
  | c :: claims =>
      let v := ((if maps_elsewhere (ow_slot_id c) (ow_request_id c) slot_owners then [PV_SLOT_ALREADY_OWNED] else [])
        ++ (if maps_elsewhere (ow_request_id c) (ow_slot_id c) req_slots then [PV_REQUEST_ALREADY_HAS_SLOT] else []))%list in
      let (vs, owners) := ownership_claims (dset (ow_slot_id c) (ow_request_id c) slot_owners)
                            (dset (ow_request_id c) (ow_slot_id c) req_slots) claims in
      (v ++ vs, owners)%list
  end.

(** The second loop; what it removes from [req_slots] is read by nothing. *)
Fixpoint ownership_releases (slot_owners : list (string * string)) (releases : list SlotReleaseClaim)
    : list PrimitiveInvariantViolation :=
  match releases with
  | [] => []
  | r :: releases =>
      (if bool_decide (dget (rl_slot_id r) slot_owners = Some (rl_request_id r)) then []
       else [PV_RELEASED_SLOT_RETAINED_OWNER])
      ++ ownership_releases (ddel (rl_slot_id r) slot_owners) releases
  end%list.

Definition validate_slot_ownership_claims (claims : list SlotOwnershipClaim)
    (releases : list SlotReleaseClaim) : list PrimitiveInvariantViolation :=
  let (v, owners) := ownership_claims [] [] claims in
  (v ++ ownership_releases owners releases)%list.

(** [CancellationPhase] and [TimeoutPhase] *)
Inductive HookPhase := BEFORE_PREFILL | DURING_PREFILL | DURING_DECODE | DURING_DRAINING | AFTER_TERMINAL.

#[export] Instance HookPhase_eq_dec : EqDecision HookPhase.
Proof. solve_decision. Defined.

Record HookContract := mkHook {
  hk_phase : HookPhase;
  hk_backend_can_interrupt : bool;
  hk_requires_slot_release : bool;
  hk_peer_isolation_required : bool;
  hk_output_after_allowed : bool;
}.

Definition validate_cancellation_contract (c : HookContract) : list PrimitiveInvariantViolation :=
  if hk_output_after_allowed c && negb (bool_decide (hk_phase c = AFTER_TERMINAL))
  then [PV_CANCELLED_EMITTED_OUTPUT] else [].

Definition validate_timeout_contract (c : HookContract) : list PrimitiveInvariantViolation :=
  if hk_output_after_allowed c && negb (bool_decide (hk_phase c = AFTER_TERMINAL))
  then [PV_TIMED_OUT_EMITTED_OUTPUT] else [].

(** The ids of the sampling states; nothing else of them is read. *)
Fixpoint sampling_seen (seen request_ids : list string) : list PrimitiveInvariantViolation :=
  match request_ids with
  | [] => []
  | rid :: request_ids =>
      if bool_decide (rid ∈ seen) then [PV_SAMPLING_STATE_MISMATCH] else sampling_seen (rid :: seen) request_ids
  end.

Definition validate_sampling_state_isolation (request_ids : list string) : list PrimitiveInvariantViolation :=
  sampling_seen [] request_ids.

Inductive FailureScope := FSC_PER_REQUEST | FSC_WHOLE_DECODE_STEP | FSC_WHOLE_BATCH | FSC_BACKEND_FATAL.

#[export] Instance FailureScope_eq_dec : EqDecision FailureScope.
Proof. solve_decision. Defined.

Definition validate_failure_isolation_contract (scope : FailureScope) (affected_request_ids : list string)
    : list PrimitiveInvariantViolation :=
  if negb (bool_decide (scope = FSC_PER_REQUEST)) && bool_decide (affected_request_ids = [])
  then [PV_FAILURE_ESCALATION_UNDECLARED] else [].

Definition validate_cleanup_contract (idempotent : bool) : list PrimitiveInvariantViolation :=
  if negb idempotent then [PV_CLEANUP_NOT_IDEMPOTENT] else [].

Definition SIX_PRIMITIVES : list string :=
  ["slot_ownership"; "cancellation_hook"; "timeout_hook"; "sampling_state"; "failure_isolation";
   "cleanup_hook"].

Record ContinuousPrimitiveReadinessReport := mkReadiness {
  rd_backend : string;
  rd_all_contracts_defined : bool;
  rd_all_fake_verified : bool;
  rd_all_backend_verified : bool;
  rd_production_ready : bool;
  rd_live_path_enabled : bool;
  rd_blocking_primitives : list string;
}.

(** [{r.primitive for r in reports if p(r)}] *)
Definition primitives_with (p : ContinuousPrimitiveReport -> bool) (reports : list ContinuousPrimitiveReport) : list string :=
  map pr_primitive (List.filter p reports).

(** [all_names <= s] *)
Definition covers_all (s : list string) : bool :=
  forallb (fun name => bool_decide (name ∈ s)) SIX_PRIMITIVES.

Definition build_primitive_readiness_report (backend : string) (reports : list ContinuousPrimitiveReport)
    : ContinuousPrimitiveReadinessReport :=
  let backend_ok := primitives_with pr_backend_verified reports in
  mkReadiness backend (covers_all (primitives_with pr_invariants_defined reports))
    (covers_all (primitives_with pr_fake_verified reports)) (covers_all backend_ok) false false
    (stable_sort string_leb (List.filter (fun name => negb (bool_decide (name ∈ backend_ok))) SIX_PRIMITIVES)).

(** ** The plan ([continuous_batching_plan.py]) *)

Inductive ContinuousBatchingTrack := GUARDED_ADAPTER_BATCH | TOKEN_STEP_SHARED_DECODE.

Record ContinuousBatchingImplementationDecision := mkDecision {
  cd_recommended_track : ContinuousBatchingTrack;
  cd_future_track : ContinuousBatchingTrack;
  cd_production_ready : bool;
  cd_performance_claim_allowed : bool;
  cd_default_enablement_allowed : bool;
  cd_token_step_claim_allowed : bool;
  cd_required_followups : list string;
}.

Definition implementation_decision : ContinuousBatchingImplementationDecision :=
  mkDecision GUARDED_ADAPTER_BATCH TOKEN_STEP_SHARED_DECODE false false false false
    ["guarded MLX adapter-batch implementation PR"; "preserve disabled-by-default gates";
     "preserve eligibility envelope"; "no fallback after generation begins";
     "controlled errors on failure"; "metadata-only reports";
     "no performance claims without benchmark suite"].

(** ** Who is eligible *)

Definition request_eligible (max_tokens : Z) (req : ChatCompletionRequest) : Prop :=
  req_stream req = false /\ truthy (req_tools req) = false /\ truthy (req_tool_choice req) = false
  /\ (forall mt, req_max_tokens req = Some mt -> mt = 0 \/ mt <= max_tokens)%Z.

Lemma request_reason_None max_tokens requests :
  request_reason max_tokens requests = None <-> Forall (request_eligible max_tokens) requests.
Proof.
  induction requests as [|req requests IH]; simpl; [by split|]. rewrite Forall_cons, <- IH.
  unfold request_eligible. destruct (req_stream req); [naive_solver|].
  destruct (truthy (req_tools req)); simpl; [naive_solver|].
  destruct (truthy (req_tool_choice req)); simpl; [naive_solver|].
  destruct (req_max_tokens req) as [mt|]; [|naive_solver].
  destruct (negb (mt =? 0)%Z && (max_tokens <? mt)%Z) eqn:E.
  - apply andb_prop in E as [E1 E2]. reflect_tests. split; [done|]. intros [(_ & _ & _ & H) _].
    destruct (H mt eq_refl); lia.
  - split; [|naive_solver]. intros H. split; [|done]. repeat split; try done. intros mt' [= <-].
    apply andb_false_iff in E as [E | E]; reflect_tests; lia.
Qed.

(** The verdict is [None] exactly if both flags are set, the backend is MLX, the group has an
    allowed size and no request streams, calls tools or asks for too many tokens.  Whether the
    requests agree in their model or their sampling, or carry images, plays no role. *)
Theorem eligible_exactly backend requests g m lo hi max_tokens :
  classify_eligibility backend requests g m lo hi max_tokens = None
  <-> g = true /\ m = true /\ backend = "mlx" /\ Forall (request_eligible max_tokens) requests
      /\ (lo <= Z.of_nat (length requests) <= hi)%Z.
Proof.
  unfold classify_eligibility. destruct g, m; simpl; try naive_solver.
  destruct (String.eqb_spec backend "mlx"); simpl; [|naive_solver].
  rewrite <- request_reason_None. destruct (request_reason max_tokens requests); [naive_solver|].
  destruct (Z.of_nat (length requests) <? lo)%Z eqn:E1; reflect_tests; [naive_solver lia|].
  destruct (hi <? Z.of_nat (length requests))%Z eqn:E2; reflect_tests; naive_solver lia.
Qed.

(** ** The runners *)

Lemma length_error_responses prefix text fresh now requests :
  length (error_responses prefix text fresh now requests) = length requests.
Proof. unfold error_responses. apply length_imap. Qed.

Lemma run_batch_length batch_fn requests responses :
  run_batch batch_fn requests = Ret responses -> length responses = length requests.
Proof.
  unfold run_batch. destruct batch_fn as [f|]; [|done].
  intros (rs & _ & H)%rbind_Ret. destruct (_ =? _)%nat eqn:E; simplify_eq/=. by apply Nat.eqb_eq.
Qed.

(** Whatever the adapter does (no batch method, an exception, a wrong number of answers),
    the guarded runner answers each request once, in order: either with the adapter's
    responses unchanged, or with one controlled error per request that names the request's
    model; every claimed slot is tombstoned, and nothing falls back after generation began. *)
Theorem guarded_batch_answers_every_request fresh now requests batch_fn :
  let (responses, report) := run_guarded_adapter_batch fresh now requests batch_fn in
  let n := Z.of_nat (length requests) in
  length responses = length requests
  /\ gb_virtual_slots_claimed report = n /\ gb_virtual_slots_tombstoned report = n
  /\ gb_all_slots_tombstoned report = true /\ gb_fallback_after_generation_started report = false
  /\ ((exists f, batch_fn = Some f /\ f requests = Ret responses /\ gb_status report = GS_COMPLETED
        /\ gb_terminal_events_observed report = n /\ gb_controlled_errors_emitted report = 0%Z)
      \/ (map br_model responses = map req_model requests
          /\ Forall (fun r => br_finish_reason r = "error"
                /\ br_contents r = [PStr "[guarded adapter batch error]"]) responses
          /\ gb_status report = GS_FAILED /\ gb_controlled_errors_emitted report = n)).
Proof.
  unfold run_guarded_adapter_batch. destruct (run_batch batch_fn requests) as [rs|e] eqn:E; simpl.
  - split; [by eapply run_batch_length|]. do 4 (split; [done|]). left.
    unfold run_batch in E. destruct batch_fn as [f|]; [|done]. exists f.
    apply rbind_Ret in E as (rs' & Hf & H). destruct (negb _); simplify_eq. done.
  - split; [apply length_error_responses|]. do 4 (split; [done|]). right. split; [|split; [|done]].
    + apply list_eq. intros i. unfold error_responses.
      change (map br_model) with (fmap (M := list) br_model). change (map req_model) with (fmap (M := list) req_model).
      rewrite !list_lookup_fmap, list_lookup_imap. by destruct (requests !! i).
    + apply Forall_lookup_2. intros i x Hx. unfold error_responses in Hx. rewrite list_lookup_imap in Hx.
      apply fmap_Some in Hx as (req & _ & ->). done.
Qed.

(** A wrong number of answers has a failure reason of its own, but is reported as a failed
    batch; the prototype runner reports every failure as unknown. *)
Theorem wrong_count_is_misreported fresh now requests f rs :
  f requests = Ret rs -> length rs <> length requests ->
  gb_failure_reason (snd (run_guarded_adapter_batch fresh now requests (Some f))) = Some GF_ADAPTER_BATCH_FAILED
  /\ lp_failure_reason (snd (run_guarded_prototype fresh now requests (Some f))) = Some GF_UNKNOWN.
Proof.
  intros Hf Hl. unfold run_guarded_adapter_batch, run_guarded_prototype, run_batch. rewrite Hf. simpl.
  by rewrite (proj2 (Nat.eqb_neq _ _) Hl).
Qed.

(** The prototype runner answers every request too; a response whose first content is not
    text fails the whole group after the adapter has answered. *)
Theorem prototype_answers_every_request fresh now requests batch_fn :
  let (responses, report) := run_guarded_prototype fresh now requests batch_fn in
  length responses = length requests
  /\ lp_virtual_slots_tombstoned report = lp_virtual_slots_claimed report
  /\ (lp_status report = GS_COMPLETED -> (Z.of_nat (length requests) <= lp_chunks_routed report)%Z).
Proof.
  assert (Hchunks : forall rs n, count_chunks rs = Ret n -> (Z.of_nat (length rs) <= n)%Z).
  { induction rs as [|r rs IH]; intros n H; simpl in H; [by simplify_eq|].
    destruct (br_contents r) as [|[] ?]; try done;
      apply rbind_Ret in H as (m & Hm & H); simplify_eq; specialize (IH _ Hm); simpl length; lia. }
  unfold run_guarded_prototype. destruct (run_batch batch_fn requests) as [rs|e] eqn:E; simpl.
  - destruct (count_chunks rs) as [n|e'] eqn:Ec; simpl.
    + pose proof (run_batch_length _ _ _ E) as Hl. split; [done|]. split; [done|]. intros _.
      rewrite <- Hl. by apply Hchunks.
    + split; [apply length_error_responses | done].
  - split; [apply length_error_responses | done].
Qed.

(** ** Claims *)

Lemma claim_reasons_nil keys slots reqs claims :
  claim_reasons keys slots reqs claims = [] <->
  (Forall (fun c => (vc_slot_id c, vc_generation c) ∉ keys) claims
   /\ NoDup (map vc_slot_id claims) /\ (forall x, x ∈ map vc_slot_id claims -> x ∉ slots)
   /\ NoDup (map vc_request_id claims) /\ (forall x, x ∈ map vc_request_id claims -> x ∉ reqs)).
Proof.
  revert slots reqs. induction claims as [|c claims IH]; intros slots reqs; simpl.
  { split; [intros _|done]. repeat split; try constructor; set_solver. }
  rewrite !app_nil, IH, Forall_cons, !NoDup_cons. repeat case_bool_decide; set_solver.
Qed.

(** A list of claims is accepted exactly if no slot and no request occurs twice and no claim
    reuses a tombstoned generation of its slot. *)
Theorem claims_accepted_exactly claims tombstones :
  validate_virtual_slot_claims claims tombstones = [] <->
  Forall (fun c => (vc_slot_id c, vc_generation c) ∉ map tombstone_key tombstones) claims
  /\ NoDup (map vc_slot_id claims) /\ NoDup (map vc_request_id claims).
Proof.
  unfold validate_virtual_slot_claims. rewrite claim_reasons_nil. set_solver.
Qed.

(** A second claim of a slot under a new generation, which the tombstones are there to allow,
    is reported as a duplicate owner; and its release is refused, because the release is
    compared with the first claim of the slot. *)
Example generation_bump_is_refused :
  let claims := [mkClaim "r1" "s" 1; mkClaim "r2" "s" 2] in
  validate_virtual_slot_claims claims [mkRelease "r1" "s" 1 TR_SUCCESS] =
    [TOMBSTONE_REUSED_WITHOUT_GENERATION_BUMP; DUPLICATE_SLOT_OWNER]
  /\ validate_release (mkRelease "r2" "s" 2 TR_SUCCESS) claims = [RELEASE_WRONG_OWNER].
Proof. by vm_compute. Qed.

(** ** Readiness *)

Lemma sampling_seen_nil seen ids :
  sampling_seen seen ids = [] <-> NoDup ids /\ (forall x, x ∈ ids -> x ∉ seen).
Proof.
  revert seen. induction ids as [|x ids IH]; intros seen; simpl.
  { split; [intros _; split; [constructor | set_solver] | done]. }
  case_bool_decide; [|rewrite IH]; rewrite NoDup_cons; set_solver.
Qed.

Theorem sampling_isolated_exactly ids : validate_sampling_state_isolation ids = [] <-> NoDup ids.
Proof. unfold validate_sampling_state_isolation. rewrite sampling_seen_nil. set_solver. Qed.

(** Everything is backend-verified exactly if nothing blocks, and whatever the reports say,
    production readiness and the live path stay off. *)
Theorem readiness_consistent backend reports :
  let r := build_primitive_readiness_report backend reports in
  (rd_all_backend_verified r = true <-> rd_blocking_primitives r = [])
  /\ (forall name, name ∈ rd_blocking_primitives r <->
        name ∈ SIX_PRIMITIVES /\ name ∉ primitives_with pr_backend_verified reports)
  /\ rd_production_ready r = false /\ rd_live_path_enabled r = false.
Proof.
  intros r. assert (Hel : forall name, name ∈ rd_blocking_primitives r <->
        name ∈ SIX_PRIMITIVES /\ name ∉ primitives_with pr_backend_verified reports).
  { intros name. unfold r, build_primitive_readiness_report. cbn [rd_blocking_primitives].
    rewrite elem_of_stable_sort, elem_of_filter_List, negb_true_iff, bool_decide_eq_false. done. }
  split; [|done]. unfold r, build_primitive_readiness_report at 1. cbn [rd_all_backend_verified].
  unfold covers_all. rewrite forallb_forall. split.
  - intros H. destruct (rd_blocking_primitives r) as [|x l] eqn:E; [done|]. exfalso.
    destruct (Hel x) as [Hx _]. destruct Hx as [Hx Hn]; [left|]. apply Hn.
    apply (bool_decide_eq_true_1 _). by apply H, list_elem_of_In.
  - intros E x Hx%list_elem_of_In. apply bool_decide_eq_true.
    destruct (decide (x ∈ primitives_with pr_backend_verified reports)) as [|Hn]; [done|]. exfalso.
    assert (Hb : x ∈ rd_blocking_primitives r) by (by apply Hel). unfold r in Hb. rewrite E in Hb. by apply elem_of_nil in Hb.
Qed.
