(* ===== verification/MLXProbe.v ===== *)
(** * The MLX probes ([mlx_failure_isolation.py], [mlx_generator_lifecycle.py],
      [mlx_sampling_isolation.py], [mlx_primitive_verification.py],
      [mlx_decode_step_ownership.py], [token_loop_feasibility.py],
      [runtime/threadwake/mlx_kv_feasibility.py], [adapters/mlx_batch.py])

    What a probe concludes from what it observes.  The library itself is a parameter: an import
    is [None] when it succeeds and the name of the exception's class when it does not; a
    generator is a state with [next] and possibly [close]; [sha256_hex] and [repr_float] are as
    elsewhere.  All reports are metadata: the text flags the callers never set are left out. *)

From S2P Require Import Prelude PyDict PyStr PySeq PyRe Config BatchGuard.
Open Scope string_scope.

(** ** Failure isolation *)

Inductive FailureIsolationReason :=
| FAILED_REQUEST_DID_NOT_TERMINATE | PEER_REQUEST_TERMINATED_UNEXPECTEDLY
| LATE_CHUNK_ACCEPTED_AFTER_FAILURE.

Record MLXFailureEvent := mkFailureEvent {
  fe_request_id : string;
  fe_slot_id : option string;
  fe_scope : FailureScope;
  fe_sanitized_error_kind : string;
  fe_affected_request_ids : list string;
}.

Record MLXFailureIsolationReport := mkIsolationReport {
  fi_status : ProbeStatus;
  fi_failure_reason : option FailureIsolationReason;
  fi_failed_request_id : string;
  fi_peer_request_ids : list string;
  fi_failure_scope : FailureScope;
  fi_failed_request_terminal : bool;
  fi_peers_continued : bool;
  fi_late_chunks_rejected : bool;
  fi_failure_isolation_backend_verified : bool;
}.

Definition classify_mlx_failure_scope (failed_request_id : string)
    (active_request_ids affected_request_ids : list string) (backend_fatal : bool) : FailureScope :=
  let affected : gset string := list_to_set affected_request_ids in
  let active : gset string := list_to_set active_request_ids in
  if backend_fatal then FSC_BACKEND_FATAL
  else if bool_decide (affected = active) then FSC_WHOLE_BATCH
  else if bool_decide (affected = {[ failed_request_id ]}) then FSC_PER_REQUEST
  else if bool_decide (failed_request_id ∈ affected) && (1 <? size affected)%nat then FSC_WHOLE_DECODE_STEP
  else FSC_PER_REQUEST.

(** [error] is the class name of the exception, when there is one. *)
Definition build_mlx_failure_event (request_id : string) (slot_id error : option string)
    (scope : FailureScope) (affected_request_ids : list string) : MLXFailureEvent :=
  mkFailureEvent request_id slot_id scope (default "unknown" error) affected_request_ids.

Definition build_mlx_failure_isolation_report (failure_event : MLXFailureEvent)
    (peer_request_ids : list string)
    (failed_request_terminal peers_continued late_chunks_rejected : bool) : MLXFailureIsolationReport :=
  mkIsolationReport
    (if failed_request_terminal && peers_continued && late_chunks_rejected then PS_PASSED else PS_FAILED)
    (if negb failed_request_terminal then Some FAILED_REQUEST_DID_NOT_TERMINATE
     else if negb peers_continued then Some PEER_REQUEST_TERMINATED_UNEXPECTEDLY
     else if negb late_chunks_rejected then Some LATE_CHUNK_ACCEPTED_AFTER_FAILURE else None)
    (fe_request_id failure_event) peer_request_ids (fe_scope failure_event)
    failed_request_terminal peers_continued late_chunks_rejected false.

(** ** Generator lifecycle *)

Inductive next_result := Yielded | StopIteration | NextRaised.

Inductive GeneratorFailure :=
| GENERATOR_CLOSE_FAILED | CHUNK_AFTER_CLOSE | DOUBLE_CLOSE_FAILED | ITERATION_ERROR.

Record MLXGeneratorLifecycleReport := mkGenReport {
  gl_status : ProbeStatus;
  gl_failure_reason : option GeneratorFailure;
  gl_chunks_observed_before_close : Z;
  gl_close_called : bool;
  gl_close_succeeded : bool;
  gl_close_idempotent : bool;
  gl_no_chunks_after_close : bool;
  gl_exception_sanitized : bool;
}.

(** An iterator: [next], and [close] when it is callable, which says whether it raised. *)
Record generator (G : Type) := mkGenerator {
  gen_next : G -> next_result * G;
  gen_close : option (G -> bool * G);
}.
Arguments mkGenerator {G}.
Arguments gen_next {G}.
Arguments gen_close {G}.

Section generator.
Context {G : Type} (gen : generator G).

(** The loop that pulls chunks; [false] in the middle: an exception left it. *)
Fixpoint pull_chunks (n : nat) (chunks : Z) (g : G) : Z * bool * G :=
  match n with
  | O => (chunks, true, g)
  | S n =>
      match gen_next gen g with
      | (Yielded, g) => pull_chunks n (chunks + 1) g
      | (StopIteration, g) => (chunks, true, g)
      | (NextRaised, g) => (chunks, false, g)
      end
  end.

(** [close_fn()], when callable: succeeded, raised, or absent. *)
Definition try_close (g : G) : option bool * G :=
  match gen_close gen with
  | Some close => let (raised, g) := close g in (Some (negb raised), g)
  | None => (None, g)
  end.

Definition or_failure (failure : option GeneratorFailure) (f : GeneratorFailure) : option GeneratorFailure :=
  match failure with Some _ => failure | None => Some f end.

Definition gen_report (failure : option GeneratorFailure) (chunks : Z)
    (close_ok close_idem no_after exc_safe : bool) : MLXGeneratorLifecycleReport :=
  mkGenReport (match failure with None => PS_PASSED | Some _ => PS_FAILED end) failure chunks true
    close_ok close_idem no_after exc_safe.

Definition probe_generator_close_behavior (g : G) (max_chunks_before_close : Z) : MLXGeneratorLifecycleReport :=
  match pull_chunks (Z.to_nat max_chunks_before_close) 0 g with
  | (chunks, false, _) => gen_report (Some ITERATION_ERROR) chunks false false false false
  | (chunks, true, g) =>
      let (closed, g) := try_close g in
      let close_ok := bool_decide (closed = Some true) in
      let exc_safe := negb (bool_decide (closed = Some false)) in
      let failure := if exc_safe then None else Some GENERATOR_CLOSE_FAILED in
      let (after, g) := gen_next gen g in
      let failure := match after with Yielded => or_failure failure CHUNK_AFTER_CLOSE | _ => failure end in
      let no_after := match after with StopIteration => true | _ => false end in
      let (closed2, _) := try_close g in
      let failure := if bool_decide (closed2 = Some false) then or_failure failure DOUBLE_CLOSE_FAILED else failure in
      gen_report failure chunks close_ok (bool_decide (closed2 = Some true)) no_after exc_safe
  end.
End generator.

(** A Python generator that yields [n] more chunks: closing exhausts it, any number of
    times. *)
Definition python_generator : generator nat :=
  mkGenerator (fun n => match n with O => (StopIteration, 0) | S n => (Yielded, n) end)
    (Some (fun _ => (false, 0))).

(** An iterator without [close]. *)
Definition plain_iterator : generator nat :=
  mkGenerator (fun n => match n with O => (StopIteration, 0) | S n => (Yielded, n) end) None.

(** ** Sampling isolation *)

Record MLXSamplingState := mkSampling {
  ms_request_id : string;
  ms_temperature : option Q;
  ms_top_p : option Q;
  ms_top_k : option Z;
  ms_max_tokens : option Z;
  ms_seed : option Z;
  ms_stop_signature : option string;
}.

Inductive SamplingFailure := DUPLICATE_REQUEST_STATE.

Record MLXSamplingIsolationReport := mkSamplingReport {
  si_status : ProbeStatus;
  si_failure_reason : option SamplingFailure;
  si_request_count : Z;
  si_unique_sampling_signatures : Z;
  si_state_objects_distinct : bool;
  si_signature_stability_verified : bool;
  si_signature_difference_verified : bool;
  si_fake_boundary_routing_verified : bool;
  si_sampling_backend_verified : bool;
}.

Section sampling.
Context (sha256_hex : string -> string) (repr_float : Q -> string).

(** [f"{x}"] of an optional number *)
Definition show_float (x : option Q) : string := from_option repr_float "None" x.
Definition show_int (x : option Z) : string := from_option pretty "None" x.

Definition sampling_text (state : MLXSamplingState) : string :=
  join "|" ["t=" +:+ show_float (ms_temperature state); "p=" +:+ show_float (ms_top_p state);
            "k=" +:+ show_int (ms_top_k state); "mt=" +:+ show_int (ms_max_tokens state);
            "seed=" +:+ show_int (ms_seed state);
            "stop=" +:+ (if str_truthy (ms_stop_signature state)
                         then default "" (ms_stop_signature state) else "none")].

Definition build_sampling_state_signature (state : MLXSamplingState) : string :=
  str_take 16 (sha256_hex (sampling_text state)).

(** [sorted(set(...))] *)
Definition sorted_set (l : list string) : list string := stable_sort string_leb (remove_dups l).

Definition build_stop_signature (stop_sequences : option (list string)) : option string :=
  match stop_sequences with
  | None | Some [] => None
  | Some l => Some (str_take 16 (sha256_hex (join "|" (sorted_set l))))
  end.

Definition normalize_mlx_sampling_kwargs (request_id : string) (temperature top_p : option Q)
    (top_k max_tokens seed : option Z) (stop : option (list string)) : MLXSamplingState :=
  mkSampling request_id temperature top_p top_k max_tokens seed (build_stop_signature stop).

Definition sampling_report (status : ProbeStatus) : MLXSamplingIsolationReport :=
  mkSamplingReport status None 0 0 false false false false false.

(** [states] pairs every state with the identity of its object. *)
Definition validate_sampling_states_are_isolated (states : list (nat * MLXSamplingState))
    : MLXSamplingIsolationReport :=
  match states with
  | [] => sampling_report PS_NOT_RUN
  | (_, s0) :: _ =>
      let n := Z.of_nat (length states) in
      if negb (bool_decide (NoDup (map (fun s => ms_request_id s.2) states))) then
        mkSamplingReport PS_FAILED (Some DUPLICATE_REQUEST_STATE) n 0 false false false false false
      else
        let sigs := map (fun s => build_sampling_state_signature s.2) states in
        let unique := Z.of_nat (length (remove_dups sigs)) in
        mkSamplingReport PS_PASSED None n unique
          (length (remove_dups (map fst states)) =? length states)%nat
          (forallb (String.eqb (build_sampling_state_signature s0)) sigs) (unique =? n)%Z true false
  end.
End sampling.

(** ** Primitive verification *)

Inductive MLXPrimitiveVerificationStatus :=
| MV_UNSUPPORTED | MV_UNKNOWN | MV_FAKE_BOUNDARY_VERIFIED | MV_SURFACE_AVAILABLE | MV_PARTIAL | MV_VERIFIED.

Record MLXPrimitiveVerification := mkVerification {
  mv_primitive : string;
  mv_status : MLXPrimitiveVerificationStatus;
  mv_backend_verified : bool;
  mv_blocks_live_continuous_batching : bool;
  mv_notes : list string;
}.

Definition verification (primitive : string) (status : MLXPrimitiveVerificationStatus) (notes : list string)
    : MLXPrimitiveVerification := mkVerification primitive status false true notes.

Definition verify_mlx_slot_ownership_surface : MLXPrimitiveVerification :=
  verification "slot_ownership" MV_UNSUPPORTED
    ["MLX generation surfaces do not expose a slot ownership protocol"].

Definition verify_mlx_cancellation_surface (import_error : option string) : MLXPrimitiveVerification :=
  verification "cancellation_hook" (match import_error with None => MV_PARTIAL | Some _ => MV_UNKNOWN end)
    [match import_error with
     | None => "stream_generate can be stopped at the caller boundary"
     | Some exc => "mlx_lm.stream_generate unavailable (" +:+ exc +:+ ")"
     end; "backend cancellation during active decode step is not proven"].

Definition verify_mlx_timeout_surface : MLXPrimitiveVerification :=
  verification "timeout_hook" MV_PARTIAL
    ["Whoosh'd can enforce timeout around generator iteration";
     "backend timeout with slot cleanup is not proven"].

Definition verify_mlx_sampling_state_surface (import_error : option string) : MLXPrimitiveVerification :=
  verification "sampling_state" (match import_error with None => MV_SURFACE_AVAILABLE | Some _ => MV_UNKNOWN end)
    [match import_error with
     | None => "generate() accepts sampling parameters (temperature, top_p, max_tokens)"
     | Some exc => "mlx_lm.generate unavailable (" +:+ exc +:+ ")"
     end; "per-request isolation in continuous decode loop not proven"].

Definition verify_mlx_failure_isolation_surface : MLXPrimitiveVerification :=
  verification "failure_isolation" MV_UNKNOWN
    ["one generator failure can be caught";
     "per-request failure isolation in shared decode group not proven"].

Definition verify_mlx_cleanup_surface : MLXPrimitiveVerification :=
  verification "cleanup_hook" MV_PARTIAL
    ["Python generator close() is available";
     "no explicit backend cleanup hook for slot/cache lifecycle under continuous batching"].

Record MLXPrimitiveVerificationReport := mkVerificationReport {
  vr_production_ready : bool;
  vr_all_backend_verified : bool;
  vr_blocking_primitives : list string;
  vr_verifications : list MLXPrimitiveVerification;
}.

Definition build_mlx_primitive_verification_report (stream_error generate_error : option string)
    : MLXPrimitiveVerificationReport :=
  let verifications := [verify_mlx_slot_ownership_surface; verify_mlx_cancellation_surface stream_error;
    verify_mlx_timeout_surface; verify_mlx_sampling_state_surface generate_error;
    verify_mlx_failure_isolation_surface; verify_mlx_cleanup_surface] in
  let blocking := map mv_primitive (List.filter
    (fun v => mv_blocks_live_continuous_batching v && negb (mv_backend_verified v)) verifications) in
  mkVerificationReport false (length blocking =? 0)%nat blocking verifications.

(** ** Decode-step ownership *)

Inductive DecodeStatus := DSP_SUPPORTED | DSP_PARTIAL | DSP_BLOCKED | DSP_UNKNOWN | DSP_NOT_APPLICABLE.

#[export] Instance DecodeStatus_eq_dec : EqDecision DecodeStatus.
Proof. solve_decision. Defined.

Inductive MLXDecodeStepPrimitive :=
| PREFILL_DECODE_SPLIT | PER_SEQUENCE_HANDLE | SELECTIVE_DECODE_STEP | PER_REQUEST_SAMPLER_STATE
| CANCELLATION_HOOK | TIMEOUT_HOOK | CLEANUP_HOOK | TERMINAL_STATE_OBSERVATION | STREAM_DEMUX
| METADATA_SAFE_OBSERVABILITY.

#[export] Instance MLXDecodeStepPrimitive_eq_dec : EqDecision MLXDecodeStepPrimitive.
Proof. solve_decision. Defined.

Definition all_primitives : list MLXDecodeStepPrimitive :=
  [PREFILL_DECODE_SPLIT; PER_SEQUENCE_HANDLE; SELECTIVE_DECODE_STEP; PER_REQUEST_SAMPLER_STATE;
   CANCELLATION_HOOK; TIMEOUT_HOOK; CLEANUP_HOOK; TERMINAL_STATE_OBSERVATION; STREAM_DEMUX;
   METADATA_SAFE_OBSERVABILITY].

(** The status each of the ten probe functions returns; their evidence texts are left out. *)
Definition probe_status (p : MLXDecodeStepPrimitive) : DecodeStatus :=
  match p with
  | PREFILL_DECODE_SPLIT | PER_SEQUENCE_HANDLE | SELECTIVE_DECODE_STEP | STREAM_DEMUX => DSP_BLOCKED
  | PER_REQUEST_SAMPLER_STATE | CANCELLATION_HOOK | TIMEOUT_HOOK | CLEANUP_HOOK => DSP_PARTIAL
  | TERMINAL_STATE_OBSERVATION | METADATA_SAFE_OBSERVABILITY => DSP_SUPPORTED
  end.

Definition core_primitives : list MLXDecodeStepPrimitive :=
  [PREFILL_DECODE_SPLIT; PER_SEQUENCE_HANDLE; SELECTIVE_DECODE_STEP; PER_REQUEST_SAMPLER_STATE;
   CLEANUP_HOOK; TERMINAL_STATE_OBSERVATION; METADATA_SAFE_OBSERVABILITY].

Record MLXDecodeStepOwnershipReport := mkOwnershipReport {
  or_primitives : list (MLXDecodeStepPrimitive * DecodeStatus);
  or_whooshd_owned_decode_loop_possible : bool;
  or_implementation_allowed : bool;
  or_recommended_next_step : string;
}.

(** The conclusion drawn from the statuses of the core. *)
Definition ownership_conclusion (statuses : list (MLXDecodeStepPrimitive * DecodeStatus)) : bool * string :=
  let status p := dget p statuses in
  let can_own := forallb (fun p => bool_decide (status p = Some DSP_SUPPORTED)) core_primitives in
  let has st := existsb (fun p => bool_decide (status p = Some st)) core_primitives in
  (can_own,
   if has DSP_BLOCKED then "keep_research_only"
   else if has DSP_PARTIAL then "mlx_decode_step_adapter_seam_spike"
   else if can_own then "mlx_token_step_internal_prototype" else "keep_research_only").

Definition probe_mlx_decode_step_ownership (mlx_available : bool) : MLXDecodeStepOwnershipReport :=
  if negb mlx_available then
    mkOwnershipReport (map (fun p => (p, DSP_UNKNOWN)) all_primitives) false false "keep_research_only"
  else
    let results := map (fun p => (p, probe_status p)) all_primitives in
    let (can_own, rec) := ownership_conclusion results in
    mkOwnershipReport results can_own false rec.

(** ** Token-loop feasibility *)

Inductive TokenLoopFeasibilityStatus :=
| TLF_UNKNOWN | TLF_UNSUPPORTED | TLF_OBSERVABLE | TLF_PLAUSIBLE | TLF_PROBE_ONLY
| TLF_REQUIRES_BACKEND_PROTOTYPE | TLF_INCONCLUSIVE.

Record BackendTokenLoopFeasibilityReport := mkLoopFeasibility {
  bf_backend : string;
  bf_ownership : string;
  bf_status : TokenLoopFeasibilityStatus;
  bf_token_step_surface_available : bool;
  bf_stream_chunk_surface_available : bool;
  bf_missing_primitives : list string;
  bf_notes : list string;
}.

Definition probe_mlx_token_loop_feasibility (import_error : option string) : BackendTokenLoopFeasibilityReport :=
  let token_step := match import_error with None => true | Some _ => false end in
  mkLoopFeasibility "mlx" "whooshd_owned"
    (if token_step then TLF_PLAUSIBLE else TLF_REQUIRES_BACKEND_PROTOTYPE) token_step token_step
    ((if token_step then [] else ["token_step_api"])
     ++ ["slot_ownership"; "cancellation_hook"; "timeout_hook"; "sampling_state"; "failure_isolation";
         "cleanup_hook"])%list
    (match import_error with
     | None => ["generate_step exposes per-token generation"; "stream_generate exposes per-chunk GenerationResponse"]
     | Some exc => ["mlx_lm.generate.generate_step unavailable"; "probe_failure=" +:+ exc]
     end).

Definition probe_llama_cpp_token_loop_feasibility : BackendTokenLoopFeasibilityReport :=
  mkLoopFeasibility "llama_cpp" "backend_server_owned" TLF_OBSERVABLE false false []
    ["llama.cpp server exposes /slots and /metrics"; "server-side continuous batching is backend-owned";
     "no Whoosh'd-owned token loop control surface";
     "observable via metrics, not directly controllable per decode step"].

(** ** The prompt-cache interface *)

(** What the imports of the probe find: the version, which of the four cache functions are
    callable, and whether the source of [mlx_lm.generate] mentions [prompt_cache]. *)
Record mlx_world := mkMlxWorld {
  mw_mlx_lm : string + option string;
  mw_cache : string + (bool * bool * bool * bool);
  mw_generate : option bool;
}.

Record prompt_cache_probe := mkCacheProbe {
  pc_available : bool;
  pc_mlx_lm_version : option string;
  pc_make_prompt_cache : bool;
  pc_save_prompt_cache : bool;
  pc_load_prompt_cache : bool;
  pc_trim_prompt_cache : bool;
  pc_generate_accepts_prompt_cache : bool;
  pc_stream_generate_accepts_prompt_cache : bool;
  pc_blockers : list string;
}.

Definition probe_mlx_prompt_cache_api (w : mlx_world) : prompt_cache_probe :=
  match mw_mlx_lm w with
  | inl exc => mkCacheProbe false None false false false false false false ["mlx_lm unavailable (" +:+ exc +:+ ")"]
  | inr version =>
      let '(mk, sv, ld, tr) := match mw_cache w with inr c => c | inl _ => (false, false, false, false) end in
      let has_pc := default false (mw_generate w) in
      let blockers :=
        (match mw_cache w with inl exc => ["mlx_lm.models.cache unavailable (" +:+ exc +:+ ")"] | inr _ => [] end
         ++ match mw_generate w with None => ["could not inspect mlx_lm.generate source"] | Some _ => [] end)%list in
      mkCacheProbe (bool_decide (blockers = []) && mk && has_pc) (Some (default "unknown" version))
        mk sv ld tr has_pc has_pc blockers
  end.

Definition is_mlx_kv_feasible (w : mlx_world) : bool := pc_available (probe_mlx_prompt_cache_api w).

Definition get_mlx_kv_experimental_enabled (env : environ) : bool :=
  env_bool "WHOOSHD_THREADWAKE_MLX_KV_EXPERIMENTAL" false env.

Definition get_mlx_kv_feasibility_report (w : mlx_world) : string :=
  let probe := probe_mlx_prompt_cache_api w in
  if pc_available probe then
    "MLX-LM " +:+ default "None" (pc_mlx_lm_version probe) +:+ ": prompt-cache API available. "
    +:+ "Experimental KV reuse is gated behind WHOOSHD_THREADWAKE_MLX_KV_EXPERIMENTAL=true."
  else
    "MLX-LM prompt-cache API not available: " +:+ join ", " (pc_blockers probe)
    +:+ ". MLX KV reuse remains unsupported.".

(** ** The batch-generate probe ([adapters/mlx_batch.py]) *)

Inductive RealBatchFeasibilityStatus := RB_UNKNOWN | RB_UNSUPPORTED | RB_PROBE_ONLY | RB_FEASIBLE | RB_INCONCLUSIVE.

Record RealBatchFeasibilityReport := mkRealBatch {
  rb_status : RealBatchFeasibilityStatus;
  rb_explicit_batch_contract : bool;
  rb_prompt_cache_supported : bool;
  rb_notes : list string;
}.

(** The signature is the list of parameter names, or the metadata text of the exception its
    inspection raised; [source] is the function's source, when it can be read. *)
Definition check_batch_prompt_cache (source : option string) : bool :=
  match source with
  | Some src => contains "prompt_cache" src || contains "prompt_caches" src
  | None => false
  end.

(** [f"{list(params.keys())}"] for parameter names, which contain no quotes. *)
Definition show_names (l : list string) : string :=
  "[" +:+ join ", " (map (fun s => "'" +:+ s +:+ "'") l) +:+ "]".

Definition probe_mlx_batch_generate_capability (import_error : option string)
    (signature : string + list string) (source : option string) : RealBatchFeasibilityReport :=
  match import_error with
  | Some exc =>
      mkRealBatch RB_UNSUPPORTED false false ["mlx_lm.batch_generate unavailable"; "probe_failure=" +:+ exc]
  | None =>
      match signature with
      | inl meta => mkRealBatch RB_INCONCLUSIVE false false ["signature inspection failed (" +:+ meta +:+ ")"]
      | inr params =>
          let note := "batch_generate parameters: " +:+ show_names params in
          if bool_decide ("model" ∈ params) && bool_decide ("tokenizer" ∈ params) && bool_decide ("prompts" ∈ params)
          then mkRealBatch RB_FEASIBLE true (check_batch_prompt_cache source)
                 [note; "batch_generate accepts model, tokenizer, prompts"]
          else mkRealBatch RB_INCONCLUSIVE false false [note]
      end
  end.

(** ** What the probes can conclude *)

(** The scope, in words; a failure that hits only other requests than the one that failed is
    called a failure of that request. *)
Theorem failure_scope_exact rid active affected :
  let a : gset string := list_to_set affected in
  let act : gset string := list_to_set active in
  classify_mlx_failure_scope rid active affected false =
    if bool_decide (a = act) then FSC_WHOLE_BATCH
    else if bool_decide (rid ∈ a /\ a <> {[ rid ]}) then FSC_WHOLE_DECODE_STEP
    else FSC_PER_REQUEST.
Proof.
  intros a act. unfold classify_mlx_failure_scope. fold a act.
  clearbody a act. case_bool_decide as E1; [done|].
  destruct (decide (a = {[ rid ]})) as [E2|E2].
  - rewrite (bool_decide_eq_true_2 (a = {[ rid ]})) by done. by rewrite bool_decide_eq_false_2 by naive_solver.
  - rewrite (bool_decide_eq_false_2 (a = {[ rid ]})) by done.
    destruct (decide (rid ∈ a)) as [Hin|Hin].
    + rewrite (bool_decide_eq_true_2 (rid ∈ a)), (bool_decide_eq_true_2 (_ /\ _)) by done. simpl.
      assert (1 < size a) as Hlt; [|by rewrite (proj2 (Nat.ltb_lt _ _) Hlt)].
      assert (0 < size (a ∖ {[ rid ]})) as Hd.
      { apply Nat.neq_0_lt_0. intros H%size_empty_inv. apply E2, set_eq. intros x.
        specialize (H x). rewrite elem_of_difference, elem_of_singleton in H.
        rewrite elem_of_singleton. destruct (decide (x = rid)); set_solver. }
      assert (size a = size ({[ rid ]} : gset string) + size (a ∖ {[ rid ]})) as ->; [|rewrite size_singleton; lia].
      rewrite <- size_union by set_solver. f_equal. apply set_eq. intros x.
      rewrite elem_of_union, elem_of_difference, elem_of_singleton. destruct (decide (x = rid)); naive_solver.
    + rewrite (bool_decide_eq_false_2 (rid ∈ a)), (bool_decide_eq_false_2 (_ /\ _)) by naive_solver. done.
Qed.

Lemma pull_python (n m : nat) c :
  pull_chunks python_generator n c m = ((c + Z.of_nat (Nat.min n m))%Z, true, m - n).
Proof.
  revert m c. induction n as [|n IH]; intros m c; simpl; [by rewrite Z.add_0_r, Nat.sub_0_r|].
  destruct m as [|m]; simpl; [by rewrite Z.add_0_r|]. rewrite IH. do 2 f_equal. lia.
Qed.

(** A generator that behaves as Python documents it passes the probe, with as many chunks as
    were asked for and are there. *)
Theorem python_generator_passes n k :
  let r := probe_generator_close_behavior python_generator n k in
  gl_status r = PS_PASSED /\ gl_close_succeeded r = true /\ gl_close_idempotent r = true
  /\ gl_no_chunks_after_close r = true
  /\ gl_chunks_observed_before_close r = Z.of_nat (Nat.min (Z.to_nat k) n).
Proof. unfold probe_generator_close_behavior. rewrite pull_python. done. Qed.

(** An iterator that cannot be closed passes as well once it is exhausted, and the report says
    that close was called. *)
Theorem unclosable_iterator_passes n k : n <= Z.to_nat k ->
  let r := probe_generator_close_behavior plain_iterator n k in
  gl_status r = PS_PASSED /\ gl_close_called r = true /\ gl_close_succeeded r = false.
Proof.
  assert (H : forall j m c, pull_chunks plain_iterator j c m = ((c + Z.of_nat (Nat.min j m))%Z, true, m - j)).
  { induction j as [|j IH]; intros m c; simpl; [by rewrite Z.add_0_r, Nat.sub_0_r|].
    destruct m as [|m]; simpl; [by rewrite Z.add_0_r|]. rewrite IH. do 2 f_equal. lia. }
  intros Hn. unfold probe_generator_close_behavior. rewrite H.
  replace (n - Z.to_nat k) with 0 by lia. done.
Qed.

Section sampling_facts.
Context (sha256_hex : string -> string) (repr_float : Q -> string).

(** With two or more requests, [signature_stability_verified] and
    [signature_difference_verified] exclude each other: the first asks for equal signatures,
    the second for different ones. *)
Theorem sampling_checks_exclude_each_other states :
  2 <= length states ->
  let r := validate_sampling_states_are_isolated sha256_hex repr_float states in
  si_signature_stability_verified r && si_signature_difference_verified r = false.
Proof.
  intros Hlen. destruct states as [|[o0 s0] [|[o1 s1] rest]]; simpl in Hlen; try lia.
  unfold validate_sampling_states_are_isolated. split_if; [done|].
  set (sigs := map _ ((o0, s0) :: (o1, s1) :: rest)). cbn [si_signature_stability_verified si_signature_difference_verified].
  destruct (forallb _ sigs) eqn:Ef; [|done]. simpl.
  apply Z.eqb_neq. intros Heq. rewrite forallb_forall in Ef.
  assert (Hall : forall x, x ∈ sigs -> x = build_sampling_state_signature sha256_hex repr_float s0).
  { intros x Hx%list_elem_of_In. by apply Ef, String.eqb_eq in Hx. }
  assert (Hsub : remove_dups sigs ⊆+ [build_sampling_state_signature sha256_hex repr_float s0]).
  { apply NoDup_submseteq; [apply NoDup_remove_dups|]. intros x Hx.
    rewrite (Hall x (proj1 (elem_of_remove_dups _ _) Hx)). left. }
  apply submseteq_length in Hsub. simpl in Hsub. simpl length in Heq. lia.
Qed.

(** Two different lists of stop sequences share a signature whatever the digest: the texts are
    joined with a separator they may contain. *)
Theorem stop_signature_ambiguous :
  build_stop_signature sha256_hex (Some ["a|b"]) = build_stop_signature sha256_hex (Some ["a"; "b"]).
Proof. reflexivity. Qed.

(** The order of the stop sequences and repetitions do not matter. *)
Theorem stop_signature_of_set l l' : l <> [] -> l' <> [] ->
  sorted_set l = sorted_set l' ->
  build_stop_signature sha256_hex (Some l) = build_stop_signature sha256_hex (Some l').
Proof. intros Hl Hl' H. destruct l, l'; try done. unfold build_stop_signature. by rewrite H. Qed.
End sampling_facts.

(** Whatever imports succeed, every primitive blocks and nothing is verified. *)
Theorem every_primitive_blocks e1 e2 :
  let r := build_mlx_primitive_verification_report e1 e2 in
  vr_blocking_primitives r = SIX_PRIMITIVES /\ vr_all_backend_verified r = false
  /\ vr_production_ready r = false.
Proof. done. Qed.

(** The probe never allows a decode loop of its own; a conclusion other than research needs the
    four blocked primitives to change. *)
Theorem ownership_stays_research b :
  let r := probe_mlx_decode_step_ownership b in
  or_whooshd_owned_decode_loop_possible r = false /\ or_recommended_next_step r = "keep_research_only".
Proof. by destruct b. Qed.

(** [available] means that every inspection succeeded and found what reuse needs, and is
    what turns the experimental adapter on. *)
Theorem kv_feasible_exactly w :
  is_mlx_kv_feasible w = true <->
  exists v sv ld tr, mw_mlx_lm w = inr v /\ mw_cache w = inr (true, sv, ld, tr) /\ mw_generate w = Some true.
Proof.
  unfold is_mlx_kv_feasible, probe_mlx_prompt_cache_api.
  destruct (mw_mlx_lm w) as [e|v], (mw_cache w) as [e'|[[[mk sv] ld] tr]], (mw_generate w) as [[]|]; simpl;
    try (split; [done | intros (? & ? & ? & ? & ? & ? & ?); congruence]).
  - destruct mk; simpl; split; try done; [by eauto 8|].
    intros (? & ? & ? & ? & ? & ? & ?); congruence.
  - rewrite andb_false_r. split; [done|]. intros (? & ? & ? & ? & ? & ? & ?); congruence.
Qed.
