(* ===== verification/Attestation.v ===== *)
(** * Qualification attestations ([qualification_attestation.py]) and the cache of the vision adapter

    An attestation is the identity of a target: model, artifact, packages, tokenizer.  A
    complete identity document has canonical bytes and a digest of them; anything less has no
    digest.  The adapter of the MLX-VLM lane collects the material of its target and keeps
    the attestations it built ([adapters/mlx_vlm.py]).

    - Unicode normalization, [sha256], the text of a [float] and [json.loads] are arguments,
      as are the files of the model directory and the answer of the probe of the child's
      packages.  [casefold] acts on ASCII, and [max_length] counts UTF-8 code points.
    - The keys of a document are strings, so the refusal of other keys has no counterpart. *)

From S2P Require Import Prelude PyDict PyStr PySeq PyRe PyJson CapacityContext ModelPath ModelStore Sidecar.
From Stdlib Require Import Ascii.

Open Scope string_scope.

Definition ATTESTATION_SCHEMA_VERSION : string := "whooshd.qualification-attestation.v1".
Definition CANONICALIZATION_PROFILE : string := "whooshd.qualification-attestation.canonical-json.v1".
Definition DIGEST_ALGORITHM : string := "sha256".
Definition QUALIFICATION_PROTOCOL_VERSION : string := "model-turn.strict-json-schema.v1".
Definition whooshd_version : string := "0.1.1".

Definition PLACEHOLDERS : list string := ["unknown"; "unavailable"; "n/a"].
Definition SAFE_FILE_MAX_BYTES : Z := 2 * 1024 * 1024.

Definition not_slash (c : ascii) : bool := negb (Ascii.eqb c "/").

(** [^models--(?P<owner>[^/]+)--(?P<repo>[^/]+)$], with the mark at the end of [owner]. *)
Definition MODEL_CACHE_NAME : re :=
  RSeq (RLit "models--") (RSeq (RPlus (RSet not_slash)) (RSeq RMark
    (RSeq (RLit "--") (RSeq (RPlus (RSet not_slash)) REnd)))).

Definition public_id_first (c : ascii) : bool := in_range "A" "Z" c || in_range "a" "z" c || in_range "0" "9" c.
Definition public_id_char (c : ascii) : bool :=
  public_id_first c || Ascii.eqb c "." || Ascii.eqb c "_" || Ascii.eqb c "-".
Definition public_id_part : re := RSeq (RSet public_id_first) (RStar (RSet public_id_char)).

Definition PUBLIC_MODEL_ID : re := RSeq public_id_part (RSeq (ROpt (RSeq (RLit "/") public_id_part)) REnd).

Definition AttestationIdentityError (msg : string) : pyexc := Exc "AttestationIdentityError" msg.

(** ** The identity document *)

(** A specification: [str], or a dictionary of specifications. *)
#[warnings="-register-all"]
Inductive spec : Type :=
| SStr
| SDict (fields : list (string * spec)).

Definition pair_spec (a b : string) : spec := SDict [(a, SStr); (b, SStr)].

Definition V1_DOCUMENT_SPEC : spec := SDict
  [("attestation_schema_version", SStr);
   ("canonicalization_profile", SStr);
   ("invocation_model_id", SStr);
   ("resolved_model_id", SStr);
   ("artifact_identity", pair_spec "kind" "value");
   ("quantization", SStr);
   ("runtime_kind", SStr);
   ("adapter", pair_spec "name" "semantic_build");
   ("whooshd_build_identity", SStr);
   ("serving_runtime", pair_spec "package" "version");
   ("structured_decoder", pair_spec "package" "version");
   ("tokenizer", pair_spec "implementation" "identity_fingerprint");
   ("chat_template_fingerprint", SStr);
   ("tool_template_parser", pair_spec "relationship" "identity_fingerprint");
   ("structured_transport", pair_spec "mode" "protocol_version");
   ("qualification_protocol_version", SStr)].

(** A non-empty string that is not a placeholder. *)
Definition valid_text (s : string) : bool :=
  negb (String.eqb s "") && negb (bool_decide (lower s ∈ PLACEHOLDERS)).

Definition valid_evidence (value : pyval) : bool :=
  match value with PStr s => valid_text s | _ => false end.

Section attestation.
Context (nfc : string -> string) (sha256_hex : string -> string) (repr_float : Q -> string).

Definition same_keys (a b : list string) : bool :=
  bool_decide ((list_to_set a : gset string) = list_to_set b).

(** [_normalize_object]; the path only names the place in the error. *)
Fixpoint normalize_object (value : pyval) (sp : spec) (path : string) : pyres pyval :=
  match sp with
  | SStr =>
      match value with
      | PStr s =>
          if valid_text s then Ret (PStr (nfc s))
          else Raise (AttestationIdentityError ("invalid required evidence at " +:+ path))
      | _ => Raise (AttestationIdentityError ("invalid required evidence at " +:+ path))
      end
  | SDict fields =>
      match value with
      | PDict items =>
          let! normalized :=
            (fix normalize_items (items normalized : list (string * pyval))
                : pyres (list (string * pyval)) :=
               match items with
               | [] => Ret normalized
               | (raw_key, raw_value) :: items =>
                   let key := nfc raw_key in
                   if bool_decide (key ∈ dkeys normalized) then
                     Raise (AttestationIdentityError ("duplicate normalized identity key at " +:+ path))
                   else
                     match dget key fields with
                     | None =>
                         Raise (AttestationIdentityError ("unknown identity field at " +:+ path +:+ "." +:+ key))
                     | Some field_spec =>
                         let! v := normalize_object raw_value field_spec (path +:+ "." +:+ key) in
                         normalize_items items (normalized ++ [(key, v)])%list
                     end
               end) items [] in
          if same_keys (dkeys normalized) (dkeys fields) then Ret (PDict normalized)
          else Raise (AttestationIdentityError ("incomplete identity object at " +:+ path))
      | _ => Raise (AttestationIdentityError ("invalid identity object at " +:+ path))
      end
  end.

Definition field_is (d : list (string * pyval)) (key text : string) : bool :=
  match dget key d with Some (PStr s) => String.eqb s text | _ => false end.

Definition canonicalize_identity_document (identity : pyval) : pyres string :=
  let! normalized := normalize_object identity V1_DOCUMENT_SPEC "identity" in
  match normalized with
  | PDict d =>
      if negb (field_is d "attestation_schema_version" ATTESTATION_SCHEMA_VERSION) then
        Raise (AttestationIdentityError "unexpected attestation schema version")
      else if negb (field_is d "canonicalization_profile" CANONICALIZATION_PROFILE) then
        Raise (AttestationIdentityError "unexpected canonicalization profile")
      else Ret (canonical_json repr_float normalized)
  | _ => Raise (Exc "AssertionError" "")
  end.

Definition fingerprint_text (value : string) : string := DIGEST_ALGORITHM +:+ ":" +:+ sha256_hex value.

Definition digest_identity_document (identity : pyval) : pyres string :=
  let! text := canonicalize_identity_document identity in
  Ret (DIGEST_ALGORITHM +:+ ":" +:+ sha256_hex text).

(** ** The models *)

(** An identity of two optional texts: [ArtifactIdentity] and its five neighbours differ in
    the names and bounds of their fields. *)
Record PairIdentity := mkPair { pi_first : option string; pi_second : option string }.

Record RuntimeQualificationAttestation := mkAttestation {
  qa_attestation_schema_version : string;
  qa_canonicalization_profile : string;
  qa_invocation_model_id : option string;
  qa_resolved_model_id : option string;
  qa_artifact_identity : PairIdentity;
  qa_quantization : option string;
  qa_runtime_kind : option string;
  qa_adapter : PairIdentity;
  qa_whooshd_build_identity : option string;
  qa_serving_runtime : PairIdentity;
  qa_structured_decoder : PairIdentity;
  qa_tokenizer : PairIdentity;
  qa_chat_template_fingerprint : option string;
  qa_tool_template_parser : PairIdentity;
  qa_structured_transport : PairIdentity;
  qa_qualification_protocol_version : option string;
  qa_digest_algorithm : option string;
  qa_attestation_digest : option string;
}.

Record RuntimeQualificationAttestationReference := mkReference {
  qr_attestation_schema_version : string;
  qr_canonicalization_profile : string;
  qr_digest_algorithm : option string;
  qr_attestation_digest : option string;
  qr_invocation_model_id : option string;
  qr_resolved_model_id : option string;
  qr_runtime_kind : option string;
  qr_adapter_name : option string;
}.

(** [model_dump] of such an identity. *)
Definition dump_pair (a b : string) (p : PairIdentity) : pyval :=
  PDict [(a, opt_str (pi_first p)); (b, opt_str (pi_second p))].

(** The candidate of [material_identity]. *)
Definition identity_candidate (a : RuntimeQualificationAttestation) : pyval := PDict
  [("attestation_schema_version", PStr (qa_attestation_schema_version a));
   ("canonicalization_profile", PStr (qa_canonicalization_profile a));
   ("invocation_model_id", opt_str (qa_invocation_model_id a));
   ("resolved_model_id", opt_str (qa_resolved_model_id a));
   ("artifact_identity", dump_pair "kind" "value" (qa_artifact_identity a));
   ("quantization", opt_str (qa_quantization a));
   ("runtime_kind", opt_str (qa_runtime_kind a));
   ("adapter", dump_pair "name" "semantic_build" (qa_adapter a));
   ("whooshd_build_identity", opt_str (qa_whooshd_build_identity a));
   ("serving_runtime", dump_pair "package" "version" (qa_serving_runtime a));
   ("structured_decoder", dump_pair "package" "version" (qa_structured_decoder a));
   ("tokenizer", dump_pair "implementation" "identity_fingerprint" (qa_tokenizer a));
   ("chat_template_fingerprint", opt_str (qa_chat_template_fingerprint a));
   ("tool_template_parser", dump_pair "relationship" "identity_fingerprint" (qa_tool_template_parser a));
   ("structured_transport", dump_pair "mode" "protocol_version" (qa_structured_transport a));
   ("qualification_protocol_version", opt_str (qa_qualification_protocol_version a))].

Definition material_identity (a : RuntimeQualificationAttestation) : option pyval :=
  match canonicalize_identity_document (identity_candidate a) with
  | Ret _ => Some (identity_candidate a)
  | Raise _ => None
  end.

Definition att_complete (a : RuntimeQualificationAttestation) : bool :=
  match qa_attestation_digest a with Some _ => true | None => false end.

Definition attestation_reference (a : RuntimeQualificationAttestation)
    : RuntimeQualificationAttestationReference :=
  mkReference (qa_attestation_schema_version a) (qa_canonicalization_profile a)
    (qa_digest_algorithm a) (qa_attestation_digest a) (qa_invocation_model_id a)
    (qa_resolved_model_id a) (qa_runtime_kind a) (pi_first (qa_adapter a)).

(** ** Validation *)

Definition ValidationError (field : string) : pyexc := Exc "ValidationError" field.

(** The number of code points of a text in UTF-8. *)
Fixpoint code_points (s : string) : Z :=
  match s with
  | EmptyString => 0
  | String c s => (if in_range (ascii_of_N 128) (ascii_of_N 191) c then 0 else 1) + code_points s
  end%Z.

Definition bounded_text (field : string) (max_length : Z) (s : string) : pyres string :=
  if (code_points s <=? max_length)%Z then Ret s else Raise (ValidationError field).

(** A [str | None] field with [max_length], absent or given. *)
Definition text_field (d : list (string * pyval)) (field : string) (max_length : Z)
    : pyres (option string) :=
  match dget field d with
  | None | Some PNone => Ret None
  | Some (PStr s) => let! s := bounded_text field max_length s in Ret (Some s)
  | Some _ => Raise (ValidationError field)
  end.

(** A [str] field with a default. *)
Definition str_field (d : list (string * pyval)) (field dflt : string) (max_length : Z) : pyres string :=
  match dget field d with
  | None => Ret dflt
  | Some (PStr s) => bounded_text field max_length s
  | Some _ => Raise (ValidationError field)
  end.

(** [extra="forbid"] *)
Definition only_fields (d : list (string * pyval)) (fields : list string) : pyres unit :=
  if forallb (fun k => bool_decide (k ∈ fields)) (dkeys d) then Ret tt
  else Raise (ValidationError "extra_forbidden").

(** A nested model of two fields; absent, it is the empty one. *)
Definition pair_field (d : list (string * pyval)) (field a : string) (max_a : Z) (b : string) (max_b : Z)
    : pyres PairIdentity :=
  match dget field d with
  | None => Ret (mkPair None None)
  | Some (PDict p) =>
      let! _ := only_fields p [a; b] in
      let! x := text_field p a max_a in
      let! y := text_field p b max_b in
      Ret (mkPair x y)
  | Some _ => Raise (ValidationError field)
  end.

Definition attestation_fields : list string :=
  ["attestation_schema_version"; "canonicalization_profile"; "invocation_model_id"; "resolved_model_id";
   "artifact_identity"; "quantization"; "runtime_kind"; "adapter"; "whooshd_build_identity";
   "serving_runtime"; "structured_decoder"; "tokenizer"; "chat_template_fingerprint";
   "tool_template_parser"; "structured_transport"; "qualification_protocol_version";
   "digest_algorithm"; "attestation_digest"].

(** The constructor on keyword arguments. *)
Definition new_attestation (d : list (string * pyval)) : pyres RuntimeQualificationAttestation :=
  let! _ := only_fields d attestation_fields in
  let! schema := str_field d "attestation_schema_version" ATTESTATION_SCHEMA_VERSION 128 in
  let! profile := str_field d "canonicalization_profile" CANONICALIZATION_PROFILE 128 in
  let! invocation := text_field d "invocation_model_id" 256 in
  let! resolved := text_field d "resolved_model_id" 256 in
  let! artifact := pair_field d "artifact_identity" "kind" 64 "value" 256 in
  let! quantization := text_field d "quantization" 128 in
  let! kind := text_field d "runtime_kind" 64 in
  let! adapter := pair_field d "adapter" "name" 64 "semantic_build" 128 in
  let! build := text_field d "whooshd_build_identity" 128 in
  let! serving := pair_field d "serving_runtime" "package" 64 "version" 128 in
  let! decoder := pair_field d "structured_decoder" "package" 64 "version" 128 in
  let! tokenizer := pair_field d "tokenizer" "implementation" 128 "identity_fingerprint" 128 in
  let! template := text_field d "chat_template_fingerprint" 128 in
  let! parser := pair_field d "tool_template_parser" "relationship" 64 "identity_fingerprint" 128 in
  let! transport := pair_field d "structured_transport" "mode" 128 "protocol_version" 128 in
  let! protocol := text_field d "qualification_protocol_version" 128 in
  let! algorithm := text_field d "digest_algorithm" 32 in
  let! digest := text_field d "attestation_digest" 80 in
  Ret (mkAttestation schema profile invocation resolved artifact quantization kind adapter build
         serving decoder tokenizer template parser transport protocol algorithm digest).

(** [data.setdefault(key, value)] *)
Definition setdefault (key : string) (value : pyval) (d : list (string * pyval)) : list (string * pyval) :=
  match dget key d with Some _ => d | None => dset key value d end.

(** [model_copy(update=...)] *)
Definition with_digest (digest : string) (a : RuntimeQualificationAttestation)
    : RuntimeQualificationAttestation :=
  mkAttestation (qa_attestation_schema_version a) (qa_canonicalization_profile a)
    (qa_invocation_model_id a) (qa_resolved_model_id a) (qa_artifact_identity a) (qa_quantization a)
    (qa_runtime_kind a) (qa_adapter a) (qa_whooshd_build_identity a) (qa_serving_runtime a)
    (qa_structured_decoder a) (qa_tokenizer a) (qa_chat_template_fingerprint a)
    (qa_tool_template_parser a) (qa_structured_transport a) (qa_qualification_protocol_version a)
    (Some DIGEST_ALGORITHM) (Some digest).

Definition build_attestation (material : list (string * pyval)) : pyres RuntimeQualificationAttestation :=
  let data := setdefault "canonicalization_profile" (PStr CANONICALIZATION_PROFILE)
                (setdefault "attestation_schema_version" (PStr ATTESTATION_SCHEMA_VERSION) material) in
  let! attestation := new_attestation data in
  match material_identity attestation with
  | None => Ret attestation
  | Some identity =>
      let! digest := digest_identity_document identity in
      Ret (with_digest digest attestation)
  end.

(** ** Collecting the material *)

(** What the collector sees of the disk: which paths are directories, and for a regular
    file its size and its text, [None] where it cannot be read as UTF-8. *)
Record TargetFiles := mkFiles {
  tf_is_dir : path -> bool;
  tf_file : path -> option (Z * option string);
  tf_json : string -> option pyval;
}.

Definition read_small_text (files : TargetFiles) (p : path) : option string :=
  match tf_file files p with
  | None => None
  | Some (size, text) => if (SAFE_FILE_MAX_BYTES <? size)%Z then None else text
  end.

Definition read_small_json (files : TargetFiles) (p : path) : option (list (string * pyval)) :=
  match tf_file files p with
  | None => None
  | Some (size, text) =>
      if (SAFE_FILE_MAX_BYTES <? size)%Z then None
      else match text with
           | None => None
           | Some text => match tf_json files text with Some (PDict d) => Some d | _ => None end
           end
  end.

Definition manifest_files : list string :=
  ["config.json"; "tokenizer_config.json"; "generation_config.json"; "model.safetensors.index.json";
   "chat_template.jinja"].

Definition manifest_part (filename contents : string) : string :=
  filename +:+ String (ascii_of_N 0) (fingerprint_text contents).

Definition manifest_fingerprint (files : TargetFiles) (root : path) : option string :=
  let parts := flat_map (fun filename =>
                 match read_small_text files (path_join root filename) with
                 | Some contents => [manifest_part filename contents]
                 | None => []
                 end) manifest_files in
  match parts with
  | [] => None
  | _ => Some (fingerprint_text (join newline parts))
  end.

(** [f"{owner}/{repo}"] of the name of a directory of the model cache. *)
Definition cache_model_id (name : string) : option string :=
  match match_here MODEL_CACHE_NAME None name with
  | Some (rest, Some after_owner) =>
      let tail n s := String.substring n (String.length s - n) s in
      Some (before (tail 8 name) after_owner +:+ "/" +:+ before (tail 2 after_owner) rest)
  | _ => None
  end.

Definition public_model_id (model_path : option path) (resolved_model_id : option string) : option string :=
  if str_truthy resolved_model_id && fullmatch PUBLIC_MODEL_ID (default "" resolved_model_id)
  then resolved_model_id
  else match model_path with
       | None => None
       | Some p => cache_model_id (path_name p)
       end.

Definition public_invocation_model_id (value : string) : option string :=
  if fullmatch PUBLIC_MODEL_ID value then Some value else None.

(** A positive [int] that is not a [bool]. *)
Definition positive_int (v : option pyval) : option Z :=
  match v with Some (PInt n) => if (0 <? n)%Z then Some n else None | _ => None end.

(** [quantization.get("mode") or quantization.get("quantization_type")], when it is a
    non-empty string. *)
Definition quantization_mode (d : list (string * pyval)) : option string :=
  let mode := match dget "mode" d with
              | Some v => if truthy v then Some v else dget "quantization_type" d
              | None => dget "quantization_type" d
              end in
  match mode with Some (PStr s) => if String.eqb s "" then None else Some s | _ => None end.

Definition quantization_from_config (config : list (string * pyval)) : option string :=
  match dget "quantization" config with
  | Some (PDict d) =>
      match positive_int (dget "bits" d) with
      | None => None
      | Some bits =>
          Some (join "-"
            (["bits-" +:+ pretty bits]
             ++ match positive_int (dget "group_size" d) with
                | Some n => ["group-" +:+ pretty n] | None => [] end
             ++ match quantization_mode d with Some m => [nfc m] | None => [] end)%list)
      end
  | _ => None
  end.

Definition text_of (v : option pyval) : option string :=
  match v with Some (PStr s) => Some s | _ => None end.

(** [fingerprint_text(t) if t else None] *)
Definition fingerprint_if (t : option string) : option string :=
  if str_truthy t then Some (fingerprint_text (default "" t)) else None.

Definition collect_mlx_vlm_target_material (files : TargetFiles) (invocation_model_id : string)
    (resolved_model_id model_source : option string)
    (serving_runtime structured_decoder structured_transport : option (list (string * pyval)))
    : list (string * pyval) :=
  let model_path := match model_source with
                    | Some s => if str_truthy model_source && tf_is_dir files (path_of s)
                                then Some (path_of s) else None
                    | None => None
                    end in
  let config_of name :=
    default [] (model_path ≫= fun p => read_small_json files (path_join p name)) in
  let model_config := config_of "config.json" in
  let tokenizer_config := config_of "tokenizer_config.json" in
  let template_text :=
    match model_path ≫= fun p => read_small_text files (path_join p "chat_template.jinja") with
    | Some t => Some t
    | None => text_of (dget "chat_template" tokenizer_config)
    end in
  let tokenizer_identity :=
    match tokenizer_config with
    | [] => None
    | _ => Some (fingerprint_text (canonical_json repr_float (PDict tokenizer_config)))
    end in
  let manifest := model_path ≫= manifest_fingerprint files in
  [("invocation_model_id", opt_str (public_invocation_model_id invocation_model_id));
   ("resolved_model_id", opt_str (public_model_id model_path resolved_model_id));
   ("artifact_identity",
     PDict [("kind", if str_truthy manifest then PStr "manifest_fingerprint" else PNone);
            ("value", opt_str manifest)]);
   ("quantization", opt_str (quantization_from_config model_config));
   ("runtime_kind", PStr "mlx_vlm");
   ("adapter", PDict [("name", PStr "mlx-vlm");
                      ("semantic_build", PStr ("MlxVlmAdapter-" +:+ whooshd_version))]);
   ("whooshd_build_identity", PStr ("whooshd-" +:+ whooshd_version));
   ("serving_runtime", PDict (default [] serving_runtime));
   ("structured_decoder", PDict (default [] structured_decoder));
   ("tokenizer", PDict [("implementation", opt_str (text_of (dget "tokenizer_class" tokenizer_config)));
                        ("identity_fingerprint", opt_str tokenizer_identity)]);
   ("chat_template_fingerprint", opt_str (fingerprint_if template_text));
   ("tool_template_parser", PDict []);
   ("structured_transport", PDict (default [] structured_transport));
   ("qualification_protocol_version",
     match default [] structured_transport with
     | [] => PNone
     | _ => PStr QUALIFICATION_PROTOCOL_VERSION
     end)].

(** ** The cache of the vision adapter *)

(** One package of the probe's answer. *)
Definition measured_package (package : string) (version : option pyval)
    : option (list (string * pyval)) :=
  match version with
  | Some (PStr v) =>
      if String.eqb v "" then None else Some [("package", PStr package); ("version", PStr v)]
  | _ => None
  end.

(** [_managed_package_measurement]: [executable] is the wrapper's, [probe] the parsed output
    of the script, [None] when running or parsing it failed. *)
Definition managed_package_measurement {A} (executable : option string) (probe : option pyval)
    (v : VlmState A) : option (list (string * pyval)) * option (list (string * pyval)) :=
  if negb (sc_running (vs_sidecar v)) then (None, None)
  else
    match executable with
    | None => (None, None)
    | Some _ =>
        match probe with
        | Some (PDict versions) =>
            (measured_package "mlx-vlm" (dget "mlx-vlm" versions),
             measured_package "llguidance" (dget "llguidance" versions))
        | _ => (None, None)
        end
    end.

(** What the adapter finds around it when it collects. *)
Record Surroundings := mkAround {
  ar_files : TargetFiles;
  ar_executable : option string;
  ar_probe : option pyval;
}.

(** [a or b] for optional texts. *)
Definition or_text (a : option string) (b : string) : string := if str_truthy a then default "" a else b.

Definition cache_key (model : option string) (invocation_model_id resolved_model_id : string)
    (observed : option string) : string * string * string :=
  (invocation_model_id, or_text model resolved_model_id, or_text observed "").

Definition qualification_attestation_for_target (model : option string) (ar : Surroundings)
    (invocation_model_id resolved_model_id : string)
    (v : VlmState RuntimeQualificationAttestation)
    : pyres RuntimeQualificationAttestation * VlmState RuntimeQualificationAttestation :=
  let key := cache_key model invocation_model_id resolved_model_id (vs_observed v) in
  match dget key (vs_attestations v) with
  | Some cached => (Ret cached, v)
  | None =>
      let (serving, decoder) := managed_package_measurement (ar_executable ar) (ar_probe ar) v in
      match build_attestation
              (collect_mlx_vlm_target_material (ar_files ar) invocation_model_id
                 (Some (or_text (vs_observed v) resolved_model_id)) model serving decoder None) with
      | Ret a => (Ret a, mkVlm (vs_sidecar v) (vs_observed v) (dset key a (vs_attestations v)))
      | Raise e => (Raise e, v)
      end
  end.
End attestation.
