(* ===== verification/AttestationProps.v ===== *)
(** * What attestations promise

    Which documents have a digest, what equal digests mean, that material collected from a
    model directory is never complete, and what the adapter's cache returns. *)

From S2P Require Import Prelude PyDict PyStr PySeq PyRe PyJson CapacityContext ModelPath ModelStore Sidecar Attestation.
From Stdlib Require Import Ascii.

Open Scope string_scope.

Lemma dkeys_map {A B} (f : string -> string) (g : A -> B) (d : list (string * A)) :
  dkeys (map (fun kv => (f (fst kv), g (snd kv))) d) = map (fun kv => f (fst kv)) d.
Proof. induction d as [|[k x] d IH]; [done|]. unfold dkeys in *. simpl. by f_equal. Qed.

Lemma dkeys_map_values {A B} (g : A -> B) (d : list (string * A)) :
  dkeys (map (fun kv => (fst kv, g (snd kv))) d) = dkeys d.
Proof. induction d as [|[k x] d IH]; [done|]. unfold dkeys in *. simpl. by f_equal. Qed.

Lemma NoDup_map_values {A B} (g : A -> B) (d : list (string * A)) :
  NoDup (dkeys d) -> NoDup (map (fun kv => (fst kv, g (snd kv))) d).
Proof.
  rewrite <- (dkeys_map_values g). intros H. by apply (NoDup_fmap_1 fst).
Qed.

Lemma same_keys_spec a b : same_keys a b = true <-> forall k, k ∈ a <-> k ∈ b.
Proof.
  unfold same_keys. rewrite bool_decide_eq_true, set_eq.
  split; intros H k; specialize (H k); rewrite !elem_of_list_to_set in *; done.
Qed.

(** ** Normalization *)
Section normal_forms.
Context (nfc : string -> string).

(** Every key and every text, normalized. *)
Fixpoint nfc_all (v : pyval) : pyval :=
  match v with
  | PStr s => PStr (nfc s)
  | PDict d => PDict (map (fun kv => (nfc (fst kv), nfc_all (snd kv))) d)
  | _ => v
  end.

(** The documents that satisfy a specification: valid texts at the leaves, and in every
    dictionary exactly the specified keys, each once after normalization. *)
#[warnings="-register-all"]
Inductive accepts : pyval -> spec -> Prop :=
| accepts_str s : valid_text s = true -> accepts (PStr s) SStr
| accepts_dict d fields :
    NoDup (map (fun kv => nfc (fst kv)) d) ->
    (forall k, k ∈ map (fun kv => nfc (fst kv)) d <-> k ∈ dkeys fields) ->
    (forall k x, (k, x) ∈ d -> exists f, dget (nfc k) fields = Some f /\ accepts x f) ->
    accepts (PDict d) (SDict fields).

(** The loop of [normalize_object] over the items of a dictionary. *)
Definition normalize_items (fields : list (string * spec)) (path : string) :=
  fix normalize_items (items normalized : list (string * pyval)) : pyres (list (string * pyval)) :=
    match items with
    | [] => Ret normalized
    | (raw_key, raw_value) :: items =>
        let key := nfc raw_key in
        if bool_decide (key ∈ dkeys normalized) then
          Raise (AttestationIdentityError ("duplicate normalized identity key at " +:+ path))
        else
          match dget key fields with
          | None =>
              Raise (AttestationIdentityError ("unknown identity field at " +:+ path +:+ "." +:+ key))
          | Some field_spec =>
              let! v := normalize_object nfc raw_value field_spec (path +:+ "." +:+ key) in
              normalize_items items (normalized ++ [(key, v)])%list
          end
    end.

Lemma normalize_dict items fields path :
  normalize_object nfc (PDict items) (SDict fields) path =
  let! normalized := normalize_items fields path items [] in
  if same_keys (dkeys normalized) (dkeys fields) then Ret (PDict normalized)
  else Raise (AttestationIdentityError ("incomplete identity object at " +:+ path)).
Proof. reflexivity. Qed.

Definition exact_for (v : pyval) : Prop := forall sp path n,
  normalize_object nfc v sp path = Ret n <-> accepts v sp /\ n = nfc_all v.

Definition item_accepted (fields : list (string * spec)) (kv : string * pyval) : Prop :=
  exists f, dget (nfc (fst kv)) fields = Some f /\ accepts (snd kv) f.

Lemma normalize_items_exact fields path items :
  Forall (fun kv => exact_for (snd kv)) items ->
  forall acc out, normalize_items fields path items acc = Ret out <->
    NoDup (map (fun kv => nfc (fst kv)) items)
    /\ (forall k, k ∈ map (fun kv => nfc (fst kv)) items -> k ∉ dkeys acc)
    /\ Forall (item_accepted fields) items
    /\ out = (acc ++ map (fun kv => (nfc (fst kv), nfc_all (snd kv))) items)%list.
Proof.
  induction 1 as [|[k x] items Hx _ IH]; intros acc out; simpl.
  - rewrite app_nil_r. split; [intros [= ->]; repeat split; [constructor | set_solver | constructor] |].
    by intros (_ & _ & _ & ->).
  - unfold item_accepted at 1. rewrite Forall_cons. simpl in *. case_bool_decide as Hk.
    { split; [done|]. intros (_ & Hno & _). destruct (Hno (nfc k)); [left | done]. }
    destruct (dget (nfc k) fields) as [f|] eqn:Hf.
    2: { split; [done|]. intros (_ & _ & [(f & H & _) _] & _). simpl in H. congruence. }
    rewrite rbind_Ret. setoid_rewrite (Hx f). setoid_rewrite IH. unfold dkeys. setoid_rewrite fmap_app. simpl.
    rewrite NoDup_cons. split.
    + intros (n & [Ha ->] & Hnd & Hno & Hall & ->). rewrite <- app_assoc. split; [split; [|done]|].
      * intros Hin. apply (Hno _ Hin), elem_of_app. right. left.
      * split; [|split; [split; [eauto|done]|done]].
        intros j [-> | Hj]%elem_of_cons; [done|]. intros Hj'. apply (Hno j Hj), elem_of_app. by left.
    + intros ([Hni Hnd] & Hno & [(f' & Hf' & Ha) Hall] & ->). simpl in Hf', Ha. simplify_eq.
      exists (nfc_all x). rewrite <- app_assoc. split; [done|]. split; [done|]. split; [|done].
      intros j Hj [Hj' | ->%list_elem_of_singleton]%elem_of_app; [|done].
      apply (Hno j); [by right | done].
Qed.

(** [normalize_object] returns exactly on the accepted documents, and what it returns is the
    document with its keys and texts normalized. *)
Lemma normalize_exact v : exact_for v.
Proof.
  induction v as [|b|z|q|s|l IH|d IH] using pyval_nested_ind; intros sp path n;
    (destruct sp as [|fields]; [|try (split; [done | intros [H _]; by inversion H])]);
    try (simpl; split; [done | intros [H _]; by inversion H]).
  - simpl. destruct (valid_text s) eqn:E.
    + split; [intros [= <-]; split; [by constructor | done] | by intros [_ ->]].
    + split; [done|]. intros [H _]. inversion H; congruence.
  - rewrite normalize_dict, rbind_Ret. setoid_rewrite (normalize_items_exact fields path d IH).
    pose proof (dkeys_map nfc nfc_all d) as Hk.
    split.
    + intros (out & (Hnd & _ & Hall & ->) & H). simpl in H. destruct (same_keys _ _) eqn:Hs; [|done].
      injection H as <-. split; [|done]. rewrite Hk, same_keys_spec in Hs. constructor; [done..|].
      intros k x Hin. rewrite Forall_forall in Hall. apply (Hall (k, x) Hin).
    + intros [Ha ->]. inversion Ha as [|d' f' Hnd Hkeys Hitems]; subst.
      exists (map (fun kv => (nfc (fst kv), nfc_all (snd kv))) d). split; [|].
      * split; [done|]. split; [intros ? _; apply not_elem_of_nil|]. split; [|done].
        apply Forall_forall. intros [k x] Hin. apply (Hitems k x Hin).
      * by rewrite Hk, (proj2 (same_keys_spec _ _) Hkeys).
Qed.

(** ** Leaves *)

(** The text at a path of keys. *)
Fixpoint leaf (p : list string) (v : pyval) : option string :=
  match p, v with
  | [], PStr s => Some s
  | k :: p, PDict d => dget k d ≫= leaf p
  | _, _ => None
  end.

(** The normalized evidence of a document at a path. *)
Definition evidence (p : list string) (v : pyval) : option string := leaf p (nfc_all v).

(** The shape of a normalized document. *)
#[warnings="-register-all"]
Inductive normal : pyval -> spec -> Prop :=
| normal_str s : normal (PStr s) SStr
| normal_dict d fields :
    NoDup (dkeys d) -> (forall k, k ∈ dkeys d <-> k ∈ dkeys fields) ->
    (forall k x, (k, x) ∈ d -> exists f, dget k fields = Some f /\ normal x f) ->
    normal (PDict d) (SDict fields).

Lemma accepts_normal v sp : accepts v sp -> normal (nfc_all v) sp.
Proof.
  revert sp. induction v as [|b|z|q|s|l IH|d IH] using pyval_nested_ind; intros sp H;
    inversion H as [|? ? Hnd Hkeys Hi]; subst; [constructor|]. simpl.
  pose proof (dkeys_map nfc nfc_all d) as Hk.
  constructor; rewrite ?Hk; [done..|]. intros k x ([k' x'] & [= -> ->] & Hin)%list_elem_of_fmap.
  destruct (Hi _ _ Hin) as (f & Hf & Ha). exists f. split; [done|].
  rewrite Forall_forall in IH. apply (IH (k', x') Hin). done.
Qed.

Lemma normal_float_free v sp : normal v sp -> float_free v = true.
Proof.
  revert sp. induction v as [|b|z|q|s|l IH|d IH] using pyval_nested_ind; intros sp H;
    inversion H as [|? ? Hnd Hk Hi]; subst; [done|].
  simpl. apply forallb_Forall, Forall_forall. intros [k x] Hin. destruct (Hi _ _ Hin) as (f & _ & Hx).
  rewrite Forall_forall in IH. by eapply (IH (k, x) Hin).
Qed.
End normal_forms.

Definition sorted_items (d : list (string * pyval)) : list (string * pyval) :=
  stable_sort key_leb (map (fun kv => (fst kv, sort_keys (snd kv))) d).

Lemma dkeys_sorted d : dkeys (sorted_items d) ≡ₚ dkeys d.
Proof.
  unfold sorted_items. transitivity (dkeys (map (fun kv => (fst kv, sort_keys (snd kv))) d)).
  - unfold dkeys. by rewrite stable_sort_perm.
  - by rewrite dkeys_map_values.
Qed.

Lemma dget_sorted k d : NoDup (dkeys d) -> dget k (sorted_items d) = sort_keys <$> dget k d.
Proof.
  intros Hnd. destruct (dget k d) as [x|] eqn:E; simpl.
  - apply elem_dget; [by rewrite dkeys_sorted|]. apply elem_of_stable_sort, list_elem_of_fmap.
    exists (k, x). split; [done|]. by apply dget_Some_elem.
  - apply dget_None_keys. rewrite dkeys_sorted. by apply dget_None_keys.
Qed.

(** Sorting keeps the leaves, *)
Lemma leaf_sorted v sp p : normal v sp -> leaf p (sort_keys v) = leaf p v.
Proof.
  intros H. revert p. revert sp H.
  induction v as [|b|z|q|s|l IH|d IH] using pyval_nested_ind; intros sp H p;
    inversion H as [|? ? Hnd Hk Hi]; subst; [done|].
  destruct p as [|k p]; [done|]. change (sort_keys (PDict d)) with (PDict (sorted_items d)). simpl.
  rewrite dget_sorted by done. destruct (dget k d) as [x|] eqn:E; [|done]. simpl.
  apply dget_Some_elem in E. destruct (Hi _ _ E) as (f & _ & Hx). rewrite Forall_forall in IH.
  exact (IH (k, x) E f Hx p).
Qed.

(** and two documents of one shape with the same leaves are the same once sorted. *)
Lemma sorted_determined v w sp : normal v sp -> normal w sp ->
  (forall p, leaf p v = leaf p w) -> sort_keys v = sort_keys w.
Proof.
  revert w sp. induction v as [|b|z|q|s|l IH|d IH] using pyval_nested_ind; intros w sp Hv Hw Hp;
    inversion Hv as [|? ? Hnd Hk Hx]; subst; inversion Hw as [|d' ? Hnd' Hk' Hx']; subst.
  - specialize (Hp []). simpl in Hp. by simplify_eq.
  - simpl. f_equal. apply sorted_items_unique.
    { by rewrite dkeys_map_values. }
    rewrite Forall_forall in IH.
    assert (Hval : forall k x y, (k, x) ∈ d -> (k, y) ∈ d' -> sort_keys x = sort_keys y).
    { intros k x y H1 H2. destruct (Hx _ _ H1) as (f & Hf & Hnx). destruct (Hx' _ _ H2) as (f' & Hf' & Hny).
      simplify_eq. apply (IH (k, x) H1 y _ Hnx Hny). intros p. specialize (Hp (k :: p)). simpl in Hp.
      by rewrite (elem_dget k x d Hnd H1), (elem_dget k y d' Hnd' H2) in Hp. }
    assert (Hmem : forall k x, (k, x) ∈ d -> exists y, (k, y) ∈ d').
    { intros k x H1. assert (Hin : k ∈ dkeys d') by (apply Hk', Hk, list_elem_of_fmap; exists (k, x); done).
      apply list_elem_of_fmap in Hin as ([k' y] & -> & H2). eauto. }
    assert (Hmem' : forall k y, (k, y) ∈ d' -> exists x, (k, x) ∈ d).
    { intros k y H1. assert (Hin : k ∈ dkeys d) by (apply Hk, Hk', list_elem_of_fmap; exists (k, y); done).
      apply list_elem_of_fmap in Hin as ([k' x] & -> & H2). eauto. }
    apply NoDup_Permutation.
    + by apply NoDup_map_values.
    + by apply NoDup_map_values.
    + intros [k z]. rewrite !list_elem_of_fmap. split; intros ([k' x] & [= -> ->] & Hin).
      * destruct (Hmem _ _ Hin) as [y Hy]. exists (k', y). simpl. by rewrite (Hval _ _ _ Hin Hy).
      * destruct (Hmem' _ _ Hin) as [y Hy]. exists (k', y). simpl. by rewrite (Hval _ _ _ Hy Hin).
Qed.

(** ** Documents and digests *)
Section digests.
Context (nfc sha256_hex : string -> string) (repr_float : Q -> string).

Local Abbreviation canonicalize := (canonicalize_identity_document nfc repr_float).
Local Abbreviation digest := (digest_identity_document nfc sha256_hex repr_float).

(** What makes a document a complete v1 identity. *)
Definition complete_identity (d : pyval) : Prop :=
  accepts nfc d V1_DOCUMENT_SPEC
  /\ evidence nfc ["attestation_schema_version"] d = Some ATTESTATION_SCHEMA_VERSION
  /\ evidence nfc ["canonicalization_profile"] d = Some CANONICALIZATION_PROFILE.

Lemma accepts_dictionary f v fields : accepts f v (SDict fields) -> exists d, v = PDict d.
Proof. intros H. inversion H. eauto. Qed.

(** A document with an item that satisfies no specification satisfies none. *)
Lemma bad_item f k x d sp : (k, x) ∈ d -> (forall g, ~ accepts f x g) -> ~ accepts f (PDict d) sp.
Proof. intros Hin Hx H. inversion H as [|? ? _ _ Hi]; subst. destruct (Hi _ _ Hin) as (g & _ & Hg). by apply (Hx g). Qed.

Lemma field_is_leaf d key text : field_is d key text = true <-> leaf [key] (PDict d) = Some text.
Proof.
  unfold field_is. simpl. destruct (dget key d) as [[]|]; simpl; try done.
  rewrite String.eqb_eq. split; [by intros -> | by intros [= ->]].
Qed.

Lemma canonicalize_exact d t :
  canonicalize d = Ret t <-> complete_identity d /\ t = canonical_json repr_float (nfc_all nfc d).
Proof.
  unfold canonicalize_identity_document. rewrite rbind_Ret.
  setoid_rewrite (normalize_exact nfc d V1_DOCUMENT_SPEC "identity").
  unfold complete_identity, evidence. split.
  - intros (n & [Ha ->] & H). destruct (accepts_dictionary _ _ _ Ha) as [d' ->].
    simpl nfc_all in *. cbn match in H.
    destruct (field_is _ "attestation_schema_version" _) eqn:E1; [|done].
    destruct (field_is _ "canonicalization_profile" _) eqn:E2; [|done]. simpl in H. simplify_eq.
    apply field_is_leaf in E1, E2. done.
  - intros ((Ha & H1 & H2) & ->). exists (nfc_all nfc d). split; [done|].
    destruct (accepts_dictionary _ _ _ Ha) as [d' ->]. simpl nfc_all in *.
    apply field_is_leaf in H1, H2. cbn match. by rewrite H1, H2.
Qed.

(** Equal texts, equal evidence. *)
Lemma canonical_text_exact d e :
  accepts nfc d V1_DOCUMENT_SPEC -> accepts nfc e V1_DOCUMENT_SPEC ->
  canonical_json repr_float (nfc_all nfc d) = canonical_json repr_float (nfc_all nfc e)
  <-> forall p, evidence nfc p d = evidence nfc p e.
Proof.
  intros Hd%accepts_normal He%accepts_normal. split.
  - intros H p. apply canonical_json_inj in H; [|by eapply normal_float_free..].
    unfold evidence. by rewrite <- (leaf_sorted _ _ p Hd), <- (leaf_sorted _ _ p He), H.
  - intros H. unfold canonical_json. by rewrite (sorted_determined _ _ _ Hd He H).
Qed.

(** C31: A document has a digest exactly if it is a complete v1 identity: every specified field
    holds evidence, nothing else is there, and the schema version and the profile are the
    ones of this version.  Two documents that have digests have the same one exactly if they
    agree in their normalized evidence at every path, whatever the order of their keys, or
    else two explicit texts collide under [sha256]. *)
Theorem digest_identifies_evidence d e x y
    (Hd : digest d = Ret x) (He : digest e = Ret y) :
  complete_identity d /\ complete_identity e
  /\ ((forall p, evidence nfc p d = evidence nfc p e) -> x = y)
  /\ (x = y ->
      (forall p, evidence nfc p d = evidence nfc p e)
      \/ exists t u, t <> u /\ sha256_hex t = sha256_hex u
           /\ canonicalize d = Ret t /\ canonicalize e = Ret u).
Proof.
  apply rbind_Ret in Hd as (t & Hd & [= <-]). apply rbind_Ret in He as (u & He & [= <-]).
  pose proof (proj1 (canonicalize_exact _ _) Hd) as [Cd Et].
  pose proof (proj1 (canonicalize_exact _ _) He) as [Ce Eu].
  pose proof (canonical_text_exact d e (proj1 Cd) (proj1 Ce)) as Hiff. rewrite <- Et, <- Eu in Hiff.
  split; [done|]. split; [done|]. split.
  - intros H. apply Hiff in H. by rewrite H.
  - intros H. injection H as H. destruct (decide (t = u)) as [E | Hne]; [left; by apply Hiff|].
    right. exists t, u. done.
Qed.

(** Exactly the complete identities have a digest. *)
Theorem digest_exists_exactly d : (exists x, digest d = Ret x) <-> complete_identity d.
Proof.
  unfold digest_identity_document. split.
  - intros (x & (t & [H _]%canonicalize_exact & _)%rbind_Ret). done.
  - intros H. eexists. apply rbind_Ret. eexists. split; [by apply canonicalize_exact|]. done.
Qed.

(** ** Attestations *)

Local Abbreviation build := (build_attestation nfc sha256_hex repr_float).

(** The fields of a validated attestation, as far as the theorems below need them. *)
Lemma new_attestation_fields m a : new_attestation m = Ret a ->
  text_field m "invocation_model_id" 256 = Ret (qa_invocation_model_id a)
  /\ text_field m "resolved_model_id" 256 = Ret (qa_resolved_model_id a)
  /\ pair_field m "tool_template_parser" "relationship" 64 "identity_fingerprint" 128
     = Ret (qa_tool_template_parser a)
  /\ text_field m "attestation_digest" 80 = Ret (qa_attestation_digest a).
Proof.
  unfold new_attestation. intros H.
  repeat (apply rbind_Ret in H as (? & ? & H)). injection H as <-. done.
Qed.

Lemma dget_setdefault key k v m : key <> k -> dget key (setdefault k v m) = dget key m.
Proof. intros H. unfold setdefault. destruct (dget k m); [done|]. by rewrite dget_dset_ne. Qed.

Lemma material_identity_None a :
  material_identity nfc repr_float a = None <-> ~ complete_identity (identity_candidate a).
Proof.
  unfold material_identity. destruct (canonicalize (identity_candidate a)) as [t|e] eqn:E.
  - apply canonicalize_exact in E as [Hc _]. split; [done | by intros []].
  - split; [|done]. intros _ Hc. assert (canonicalize (identity_candidate a)
      = Ret (canonical_json repr_float (nfc_all nfc (identity_candidate a)))) as Hr
      by (by apply canonicalize_exact). congruence.
Qed.

(** Building an attestation keeps the fields; the digest is that of the identity, where
    there is one, and else what the material claimed. *)
Lemma build_exact m a : build m = Ret a ->
  exists a0, new_attestation (setdefault "canonicalization_profile" (PStr CANONICALIZATION_PROFILE)
      (setdefault "attestation_schema_version" (PStr ATTESTATION_SCHEMA_VERSION) m)) = Ret a0
  /\ identity_candidate a = identity_candidate a0
  /\ (digest (identity_candidate a) = Ret (default "" (qa_attestation_digest a)) /\ att_complete a = true
      \/ ~ complete_identity (identity_candidate a) /\ a = a0).
Proof.
  unfold build_attestation. intros (a0 & Ha & H)%rbind_Ret. exists a0. split; [done|].
  destruct (material_identity _ _ a0) as [d|] eqn:E.
  - assert (d = identity_candidate a0) as ->.
    { unfold material_identity in E. destruct (canonicalize _); by simplify_eq. }
    apply rbind_Ret in H as (x & Hx & [= <-]). split; [done|]. left. split; [exact Hx | done].
  - injection H as <-. split; [done|]. right. split; [|done]. by apply material_identity_None.
Qed.

(** An attestation built from material that does not claim a digest is complete exactly if
    its identity is, and its digest is then the one of that identity. *)
Theorem built_digest_exact m a : build m = Ret a -> dget "attestation_digest" m = None ->
  (att_complete a = true <-> complete_identity (identity_candidate a))
  /\ (forall x, qa_attestation_digest a = Some x -> digest (identity_candidate a) = Ret x).
Proof.
  intros H Hno. destruct (build_exact m a H) as (a0 & Ha0 & Hid & [[Hx Hc] | [Hn ->]]).
  - split; [|intros x E; by rewrite Hx, E]. split; [|done]. intros _.
    apply digest_exists_exactly. eauto.
  - destruct (new_attestation_fields _ _ Ha0) as (_ & _ & _ & Hd).
    unfold text_field in Hd. rewrite !dget_setdefault, Hno in Hd by done. injection Hd as Hd.
    unfold att_complete. by rewrite <- Hd.
Qed.

(** Material that claims a digest is called complete without any evidence. *)
Theorem claimed_digest_is_kept : exists a,
  build [("attestation_digest", PStr "sha256:0")] = Ret a /\ att_complete a = true
  /\ ~ complete_identity (identity_candidate a).
Proof.
  set (none := mkPair None None).
  set (a := mkAttestation ATTESTATION_SCHEMA_VERSION CANONICALIZATION_PROFILE None None none None None none
              None none none none None none none None None (Some "sha256:0")).
  assert (Hn : ~ complete_identity (identity_candidate a)).
  { intros [H _]. revert H. apply (bad_item nfc "invocation_model_id" PNone).
    - right. right. left.
    - intros f H. inversion H. }
  exists a. split; [|done]. unfold build_attestation.
  change (new_attestation _) with (Ret a). cbn [rbind]. by rewrite (proj2 (material_identity_None a)).
Qed.
End digests.

(** ** What is collected *)
Section collected.
Context (nfc sha256_hex : string -> string) (repr_float : Q -> string).

Local Abbreviation collect := (collect_mlx_vlm_target_material nfc sha256_hex repr_float).
Local Abbreviation build := (build_attestation nfc sha256_hex repr_float).

Lemma text_field_opt d k n s r : dget k d = Some (opt_str s) -> text_field d k n = Ret r -> r = s.
Proof.
  unfold text_field. intros ->. destruct s as [s|]; simpl; [|by intros [= <-]].
  unfold bounded_text. by intros ([= <-] & [= <-])%(@rbind_Ret _ _ _ _ _) || (split_if; simpl; by intros [= <-]).
Qed.

(** An attestation of collected material names the public forms of the two ids it was asked
    for, and it never has a digest: the collector measures no tool template parser. *)
Lemma collected_attestation files inv res src serving decoder transport a :
  build (collect files inv res src serving decoder transport) = Ret a ->
  qa_invocation_model_id a = public_invocation_model_id inv
  /\ (exists p, qa_resolved_model_id a = public_model_id p res)
  /\ qa_attestation_digest a = None.
Proof.
  set (m := collect _ _ _ _ _ _ _). intros H.
  destruct (build_exact _ _ _ _ _ H) as (a0 & Ha0 & Hid & Hcase).
  pose proof (new_attestation_fields _ _ Ha0) as (H1 & H2 & H3 & H4).
  assert (Hp : qa_tool_template_parser a0 = mkPair None None).
  { unfold pair_field in H3. rewrite !dget_setdefault in H3 by done. by injection H3 as <-. }
  destruct Hcase as [[Hx _] | [_ ->]].
  - exfalso. assert (Hc : complete_identity nfc (identity_candidate a)).
    { apply (digest_exists_exactly nfc sha256_hex repr_float). eauto. }
    rewrite Hid in Hc. destruct Hc as [Hacc _]. revert Hacc. unfold identity_candidate.
    apply (bad_item nfc "tool_template_parser" (PDict [("relationship", PNone); ("identity_fingerprint", PNone)])).
    + rewrite Hp. do 13 right. left.
    + intros g. apply (bad_item nfc "relationship" PNone); [left|]. intros g' Hg. inversion Hg.
  - split; [|split].
    + eapply text_field_opt; [|exact H1]. by rewrite !dget_setdefault.
    + eexists. eapply text_field_opt; [|exact H2]. by rewrite !dget_setdefault.
    + unfold text_field in H4. rewrite !dget_setdefault in H4 by done. by injection H4 as <-.
Qed.

(** ** The cache *)
Section cache.
Context (float_str : pyfloat -> string) (httpx_installed : bool) (c : MlxVlmConfig).

Local Abbreviation check_health := (mlx_vlm_check_health float_str httpx_installed c).
Local Abbreviation warmup := (mlx_vlm_warmup float_str httpx_installed c).

Local Abbreviation attest := (qualification_attestation_for_target nfc sha256_hex repr_float (mc_model c)).
Local Abbreviation State := (VlmState RuntimeQualificationAttestation).

(** The operations of the adapter that touch its child, the observed model or the cache, in
    any order and with any answers; [step_world] is anything that happens to the child
    without the adapter. *)
Inductive vlm_step : State -> State -> Prop :=
| step_attest ar inv res v : vlm_step v (snd (attest ar inv res v))
| step_health get v : vlm_step v (snd (check_health get v))
| step_loaded v : vlm_step v (snd (mlx_vlm_is_loaded v))
| step_warmup get x observed v r v' :
    warmup get x observed v = Some (r, v') -> vlm_step v v'
| step_unload on_term on_kill v : vlm_step v (mlx_vlm_unload on_term on_kill v)
| step_world s v : vlm_step v (set_vs_sidecar s v).

Definition new_vlm (s : SidecarState) : State := mkVlm s None [].

(** The cache is dropped, or kept together with the observed model. *)
Definition cache_dropped_or_kept (v v' : State) : Prop :=
  vs_attestations v' = [] \/ vs_attestations v' = vs_attestations v /\ vs_observed v' = vs_observed v.

Lemma dropped_or_kept_trans u v w :
  cache_dropped_or_kept u v -> cache_dropped_or_kept v w -> cache_dropped_or_kept u w.
Proof.
  intros [H|[H H']] [K|[K K']]; unfold cache_dropped_or_kept; rewrite ?K, ?H; [by left..|].
  right. by rewrite K', H'.
Qed.

Lemma check_cache (v : State) : cache_dropped_or_kept v (vlm_check v).
Proof. unfold vlm_check. destruct (sc_check _) as [[] s]; [by left | by right]. Qed.

Lemma observe_cache payload (v : State) : cache_dropped_or_kept v (observe_upstream_model payload v).
Proof. unfold observe_upstream_model. case_bool_decide; [by right | by left]. Qed.

Lemma probe_cache get timeout (v : State) :
  cache_dropped_or_kept v (snd (mlx_vlm_probe_server float_str httpx_installed get timeout v)).
Proof.
  unfold mlx_vlm_probe_server. destruct (negb _); [by right|].
  destruct (get _) as [e|[st js]]; [by right|]. destruct (_ =? _)%Z; [|by right].
  destruct js as [e|payload]; [destruct (is_value_error _); by right | apply observe_cache].
Qed.

Lemma health_cache get (v : State) : cache_dropped_or_kept v (snd (check_health get v)).
Proof.
  unfold mlx_vlm_check_health. destruct (negb _); [by right|]. destruct (negb _); [by right|].
  destruct (sc_managed _); [|apply probe_cache]. simpl. destruct (negb _); [apply check_cache|].
  eapply dropped_or_kept_trans; [apply check_cache | apply probe_cache].
Qed.

Lemma warmup_cache get x observed (v v' : State) r :
  warmup get x observed v = Some (r, v') -> cache_dropped_or_kept v v'.
Proof.
  unfold mlx_vlm_warmup. destruct (negb _); [intros [= _ <-]; by right|].
  destruct (negb _); [intros [= _ <-]; by right|]. destruct (sc_managed (vs_sidecar v)).
  - destruct (sc_check _) as [e s]. destruct (sc_managed s); [|intros [= _ <-]; by right].
    destruct (negb _).
    + destruct (start_and_wait _ _ _ _ _ _) as [[r' s']|]; [|done]. intros [= _ <-]. by left.
    + intros [= _ <-]. eapply dropped_or_kept_trans; [|apply health_cache]. by right.
  - destruct (check_health get v) as [h w] eqn:E. intros [= _ <-].
    pose proof (health_cache get v) as H. by rewrite E in H.
Qed.

(** What a cached attestation says agrees with its key and with the observed model. *)
Definition entry_ok (observed : option string) (key : string * string * string)
    (a : RuntimeQualificationAttestation) : Prop :=
  let '(inv, _, obs) := key in
  obs = or_text observed ""
  /\ qa_invocation_model_id a = public_invocation_model_id inv
  /\ (str_truthy observed = true -> exists p, qa_resolved_model_id a = public_model_id p observed)
  /\ qa_attestation_digest a = None.

Definition cache_ok (v : State) : Prop :=
  forall key a, (key, a) ∈ vs_attestations v -> entry_ok (vs_observed v) key a.

Lemma kept_cache_ok v v' : cache_dropped_or_kept v v' -> cache_ok v -> cache_ok v'.
Proof.
  intros [E | [E E']] H key a; rewrite E; [by intros ?%not_elem_of_nil|]. rewrite E'. apply H.
Qed.

Lemma dset_elem {K V} `{EqDecision K} (k : K) (x : V) d kv : kv ∈ dset k x d -> kv = (k, x) \/ kv ∈ d.
Proof.
  induction d as [|[k' y] d IH]; simpl; [rewrite list_elem_of_singleton; by left|].
  case_decide; subst; intros [-> | Hin]%elem_of_cons; [by left | right; by right | right; left |].
  destruct (IH Hin) as [-> | ?]; [by left | right; by right].
Qed.

Lemma attest_cases ar inv res v :
  (exists a, dget (cache_key (mc_model c) inv res (vs_observed v)) (vs_attestations v) = Some a
     /\ attest ar inv res v = (Ret a, v))
  \/ (exists a, entry_ok (vs_observed v) (cache_key (mc_model c) inv res (vs_observed v)) a
     /\ attest ar inv res v = (Ret a, mkVlm (vs_sidecar v) (vs_observed v)
          (dset (cache_key (mc_model c) inv res (vs_observed v)) a (vs_attestations v))))
  \/ (exists e, attest ar inv res v = (Raise e, v)).
Proof.
  unfold qualification_attestation_for_target.
  destruct (dget _ (vs_attestations v)) as [a|]; [left; eauto|]. right.
  destruct (managed_package_measurement _ _ _) as [serving decoder].
  destruct (build _) as [a|e] eqn:E; [left | right; eauto]. exists a. split; [|done].
  apply collected_attestation in E as (H1 & [p H2] & H3). split; [done|]. split; [done|]. split; [|done].
  intros Ht. exists p. rewrite H2. unfold or_text. rewrite Ht. by destruct (vs_observed v).
Qed.

Lemma step_cache_ok v v' : vlm_step v v' -> cache_ok v -> cache_ok v'.
Proof.
  intros [ar inv res w | get w | w | get x obs w r w' H | t k w | s w] Hok.
  - destruct (attest_cases ar inv res w) as [(a & _ & ->) | [(a & Ha & ->) | (e & ->)]]; [done| |done].
    intros key b [E | Hin]%dset_elem; [by simplify_eq | by apply Hok].
  - by eapply kept_cache_ok; [apply health_cache|].
  - eapply kept_cache_ok; [|done]. unfold mlx_vlm_is_loaded. destruct (sc_managed _); [apply check_cache | by right].
  - by eapply kept_cache_ok; [eapply warmup_cache|].
  - by eapply kept_cache_ok; [left|].
  - by eapply kept_cache_ok; [right|].
Qed.

Lemma reachable_cache_ok s v : rtc vlm_step (new_vlm s) v -> cache_ok v.
Proof.
  intros H. assert (H0 : cache_ok (new_vlm s)) by (intros key a H'; by apply not_elem_of_nil in H').
  induction H as [|u w x Hs _ IH]; [done|]. apply IH. by eapply step_cache_ok.
Qed.

(** Over any history of the adapter, an attestation it returns, cached or new, names the
    public form of the invocation id it was asked for and, where an upstream model has been
    observed, that model; it never has a digest. *)
Theorem served_attestation_is_current s v ar inv res a
    (Hr : rtc vlm_step (new_vlm s) v) (Ha : fst (attest ar inv res v) = Ret a) :
  qa_invocation_model_id a = public_invocation_model_id inv
  /\ (str_truthy (vs_observed v) = true ->
      exists p, qa_resolved_model_id a = public_model_id p (vs_observed v))
  /\ att_complete a = false.
Proof.
  assert (Hok : entry_ok (vs_observed v) (cache_key (mc_model c) inv res (vs_observed v)) a).
  { destruct (attest_cases ar inv res v) as [(b & Hb & E) | [(b & Hb & E) | (e & E)]];
      rewrite E in Ha; simpl in Ha; simplify_eq; [|done].
    apply (reachable_cache_ok s v Hr). by apply dget_Some_elem. }
  destruct Hok as (_ & H1 & H2 & H3). split; [done|]. split; [done|]. unfold att_complete. by rewrite H3.
Qed.

(** An attestation is reused whatever happens to the child and to the files, until the cache
    is dropped; with a configured model, also for another resolved id. *)
Theorem attestation_is_reused ar inv res v a v' (H : attest ar inv res v = (Ret a, v')) ar' res' sidecar
    (Hm : str_truthy (mc_model c) = true \/ res' = res) :
  attest ar' inv res' (set_vs_sidecar sidecar v') = (Ret a, set_vs_sidecar sidecar v').
Proof.
  assert (Hk : or_text (mc_model c) res' = or_text (mc_model c) res).
  { unfold or_text. by destruct Hm as [-> | ->]. }
  clear Hm. destruct (attest_cases ar inv res v) as [(b & Hb & E) | [(b & _ & E) | (e & E)]];
    rewrite E in H; simplify_eq; unfold qualification_attestation_for_target, cache_key in *;
    cbn [set_vs_sidecar vs_observed vs_attestations]; rewrite Hk.
  - by rewrite Hb.
  - by rewrite dget_dset_eq.
Qed.

(** Unloading, an observed change of the upstream model, and an exit the adapter notices drop
    the cache. *)
Theorem cache_is_invalidated (v : State) :
  (forall on_term on_kill, vs_attestations (mlx_vlm_unload on_term on_kill v) = [])
  /\ (forall payload, upstream_model_id payload <> vs_observed v ->
        vs_attestations (observe_upstream_model payload v) = [])
  /\ (fst (sc_check (vs_sidecar v)) = true -> vs_attestations (vlm_check v) = []).
Proof.
  split; [done|]. split.
  - intros payload H. unfold observe_upstream_model. by rewrite bool_decide_false.
  - unfold vlm_check. by destruct (sc_check _) as [[] s].
Qed.
End cache.
End collected.

(** ** Public ids *)

(** What an attestation calls an invocation id has only letters, digits, [.], [_], [-] and
    [/] in it, so it is no path with other characters and no text. *)
Theorem public_invocation_is_safe value m : public_invocation_model_id value = Some m ->
  m = value /\ string_all (fun c => public_id_char c = true \/ c = "/"%char) m.
Proof.
  unfold public_invocation_model_id. destruct (fullmatch _ _) eqn:E; [|done]. intros [= <-].
  split; [done|]. apply (fullmatch_sound _ PUBLIC_MODEL_ID); [|done].
  assert (H1 : forall c, public_id_first c = true -> public_id_char c = true \/ c = "/"%char).
  { intros c H. left. unfold public_id_char. by rewrite H. }
  assert (H2 : forall c, public_id_char c = true -> public_id_char c = true \/ c = "/"%char) by (intros; by left).
  assert (H3 : forall c, Ascii.eqb "/" c = true -> public_id_char c = true \/ c = "/"%char).
  { intros c H%Ascii.eqb_eq. by right. }
  repeat split; done.
Qed.

(** The name of a directory of the model cache is split at its last double dash. *)
Example cache_name : cache_model_id "models--mlx-community--gemma-4" = Some "mlx-community/gemma-4".
Proof. reflexivity. Qed.

Example cache_name_ambiguous : cache_model_id "models--a--b--c" = Some "a--b/c".
Proof. reflexivity. Qed.

(** ** A concrete identity *)

Definition demo_pair (a x b y : string) : pyval := PDict [(a, PStr x); (b, PStr y)].

Definition demo_identity : list (string * pyval) :=
  [("tool_template_parser", demo_pair "relationship" "distinct" "identity_fingerprint" "sha256:c");
   ("tokenizer", demo_pair "identity_fingerprint" "sha256:b" "implementation" "GemmaTokenizer");
   ("structured_transport", demo_pair "protocol_version" "v1" "mode" "strict_json_schema");
   ("structured_decoder", demo_pair "version" "1.7.6" "package" "llguidance");
   ("serving_runtime", demo_pair "version" "0.6.2" "package" "mlx-vlm");
   ("runtime_kind", PStr "mlx_vlm");
   ("resolved_model_id", PStr "example.org/Gemma");
   ("quantization", PStr "qat-4bit");
   ("qualification_protocol_version", PStr QUALIFICATION_PROTOCOL_VERSION);
   ("whooshd_build_identity", PStr "whooshd-0.1.1");
   ("invocation_model_id", PStr "Gemma");
   ("chat_template_fingerprint", PStr "sha256:a");
   ("canonicalization_profile", PStr CANONICALIZATION_PROFILE);
   ("attestation_schema_version", PStr ATTESTATION_SCHEMA_VERSION);
   ("artifact_identity", demo_pair "value" "sha256:d" "kind" "manifest_fingerprint");
   ("adapter", demo_pair "semantic_build" "MlxVlmAdapter-v1" "name" "mlx-vlm")].

Definition demo_digest (d : list (string * pyval)) : pyres string :=
  digest_identity_document id id (fun _ => "0") (PDict d).

(** The identity and the same one in another order have one digest, and agree everywhere. *)
Lemma digest_identifies_evidence_witness : exists x,
  demo_digest demo_identity = Ret x /\ demo_digest (rev demo_identity) = Ret x
  /\ ((forall p, evidence id p (PDict demo_identity) = evidence id p (PDict (rev demo_identity)))
      \/ exists t u : string, t <> u /\ id t = id u
           /\ canonicalize_identity_document id (fun _ => "0") (PDict demo_identity) = Ret t
           /\ canonicalize_identity_document id (fun _ => "0") (PDict (rev demo_identity)) = Ret u).
Proof.
  set (x := match demo_digest demo_identity with Ret x => x | Raise _ => "" end). vm_compute in x.
  exists x. assert (H1 : demo_digest demo_identity = Ret x) by (vm_compute; reflexivity).
  assert (H2 : demo_digest (rev demo_identity) = Ret x) by (vm_compute; reflexivity).
  split; [exact H1|]. split; [exact H2|].
  exact (proj2 (proj2 (proj2 (digest_identifies_evidence id id (fun _ => "0") _ _ _ _ H1 H2))) eq_refl).
Defined.
