(* ===== verification/Surface.v ===== *)
(** * The HTTP surface ([app.py])

    What surrounds the admission and queueing of Broker.v: the set-up of the router, the
    probes, the error envelopes and exception handlers, the middleware that negotiates the
    contract version and attaches headers, and the execution of a dispatched request, whose
    streaming half writes server-sent events.

    - A handler returns its status and the JSON object of its body; the framework turns it
      into bytes.  Response headers are a dictionary of exact names.
    - An adapter's stream is a script: the chunks it yields and how it ends.  What the
      client reads of the response is an argument; leaving closes the generator where it is
      suspended.
    - The provenance and the chunks are rendered by pydantic, so their JSON is an argument,
      as are [json.loads] and the text of a [float]. *)

From S2P Require Import Prelude PyDict PyStr PySeq Config Contracts Correlation ControlPlane Runtime CapacityContext.
From S2P Require Import Broker LogSafety Registry ModelPath Routing Forward.
From Stdlib Require Import Ascii.

Open Scope string_scope.

Definition CONTROL_PLANE_VERSION_HEADER : string := "X-Whooshd-Contract-Version".
Definition TARGET_CONTRACT_VERSION_HEADER : string := "X-Whoosh-Contract-Version".
Definition LEGACY_CONTROL_PLANE_VERSION_HEADER : string := CONTROL_PLANE_VERSION_HEADER.
Definition WHOOSHD_RUNTIME_PROVENANCE_HEADER : string := "X-Whooshd-Runtime-Provenance".

(** [request.state]: the two identities, as the middleware and the handlers set them. *)
Record RequestState := mkRequestState {
  rq_upstream_request_id : pyval;
  rq_whoosh_request_id : pyval;
}.

Definition upstream_request_id (rq : RequestState) : option string :=
  normalize_identifier (rq_upstream_request_id rq).
Definition whoosh_request_id (rq : RequestState) : option string :=
  normalize_identifier (rq_whoosh_request_id rq).

Definition correlation_of (rq : RequestState) : list (string * string) :=
  correlation_response_headers (opt_str (upstream_request_id rq)) (opt_str (whoosh_request_id rq)).

(** [headers.update(new)] *)
Definition update_headers (new headers : list (string * string)) : list (string * string) :=
  foldl (fun h kv => dset kv.1 kv.2 h) headers new.

(** ** Error envelopes *)

Definition ErrorCategory_value (c : ErrorCategory) : string :=
  match c with
  | REQUEST_CONTRACT => "request_contract"
  | MODEL_RUNTIME => "model_runtime"
  | CAPACITY_EXECUTION => "capacity_execution"
  | UPSTREAM_PROTOCOL => "upstream_protocol"
  | INTERNAL => "internal"
  end.

Definition opt_item {A} (key : string) (f : A -> pyval) (o : option A) : list (string * pyval) :=
  match o with Some x => [(key, f x)] | None => [] end.

(** [ErrorResponse.model_dump(mode="json", exclude_none=True)] *)
Definition dump_error (f : ErrorFields) : list (string * pyval) :=
  [("code", PStr (ErrorCode_value (ef_code f)));
   ("message", PStr (ef_message f));
   ("contract_version", PStr (ef_contract_version f));
   ("http_status", PInt (ef_http_status f));
   ("retryable", PBool (ef_retryable f))]
  ++ opt_item "retry_after_seconds" PFloat (ef_retry_after_seconds f)
  ++ opt_item "request_id" PStr (ef_request_id f)
  ++ opt_item "upstream_request_id" PStr (ef_upstream_request_id f)
  ++ [("category", PStr (ErrorCategory_value (ef_category f)))]
  ++ opt_item "details" PDict (ef_details f).

(** [ErrorResponse(...)]: the status is validated to lie in 400..599. *)
Definition new_error_response (f : ErrorFields) : pyres (list (string * pyval)) :=
  if (400 <=? ef_http_status f)%Z && (ef_http_status f <=? 599)%Z then Ret (dump_error f)
  else Raise (Exc "ValidationError" "http_status").

Definition error_body (code : ErrorCode) (message : string) (http_status : option Z)
    (retry_after_seconds : option Q) (request_id upstream_request_id : option string)
    (details : option (list (string * pyval))) : pyres (list (string * pyval)) :=
  new_error_response (error_fields code message http_status retry_after_seconds (opt_str request_id)
                    (opt_str upstream_request_id) details).

Definition error_body_for_request (rq : RequestState) (code : ErrorCode) (message : string)
    (http_status : option Z) (retry_after_seconds : option Q) (request_id : option string)
    (details : option (list (string * pyval))) : pyres (list (string * pyval)) :=
  error_body code message http_status retry_after_seconds
    (match request_id with Some id => Some id | None => whoosh_request_id rq end)
    (upstream_request_id rq) details.

(** ** Exception handlers: status and body *)
Definition handled : Type := pyres (Z * list (string * pyval)).

Definition answer (status : Z) (body : pyres (list (string * pyval))) : handled :=
  let! b := body in Ret (status, b).

(** [error_count] is [len(exc.errors())]. *)
Definition validation_exception_handler (rq : RequestState) (error_count : Z) : handled :=
  answer 422 (error_body_for_request rq INVALID_REQUEST "Request validation failed" (Some 422%Z) None None
    (Some [("failure_class", PStr "validation"); ("error_count", PInt error_count)])).

Definition is_envelope (detail : pyval) : bool :=
  match detail with
  | PDict d => match dget "contract_version" d with
               | Some (PStr v) => String.eqb v CONTROL_PLANE_CONTRACT_VERSION
               | _ => false
               end
  | _ => false
  end.

Definition set_id (key : string) (id : option string) (body : list (string * pyval))
    : list (string * pyval) :=
  match id with Some s => dset key (PStr s) body | None => body end.

Definition http_exception_handler (rq : RequestState) (status : Z) (detail : pyval) : handled :=
  match detail with
  | PDict d =>
      if is_envelope detail then
        Ret (status, set_id "upstream_request_id" (upstream_request_id rq)
                       (set_id "request_id" (whoosh_request_id rq) (dset "http_status" (PInt status) d)))
      else
        answer status (error_body_for_request rq (code_for_http_status status)
          (if (status <? 500)%Z then "Request failed" else "Internal error") (Some status) None None
          (Some [("http_status", PInt status)]))
  | _ =>
      answer status (error_body_for_request rq (code_for_http_status status)
        (if (status <? 500)%Z then "Request failed" else "Internal error") (Some status) None None
        (Some [("http_status", PInt status)]))
  end.

Definition model_resolution_error_handler (rq : RequestState) (model_id : string) : handled :=
  answer 404 (error_body_for_request rq MODEL_NOT_FOUND "Requested model is not available" (Some 404%Z) None
    None (Some [("model_alias", PStr (safe_model_alias model_id))])).

Definition backend_request_policy_error_handler (rq : RequestState) (rejected_fields : list string)
    : handled :=
  answer 400 (error_body_for_request rq UNSUPPORTED_FIELD "Unsupported request field" (Some 400%Z) None None
    (Some [("failure_class", PStr "validation"); ("policy_version", PStr "cwc-006-v1");
           ("rejected_field_count", PInt (Z.of_nat (length rejected_fields)))])).

Definition streaming_not_supported_handler (rq : RequestState) : handled :=
  answer 422 (error_body_for_request rq UNSUPPORTED_CAPABILITY
    "Streaming is not supported by the selected runtime." (Some 422%Z) None None
    (Some [("failure_class", PStr "unsupported_capability")])).

(** The body [_upstream_runtime_error_handler] and the streaming path answer with. *)
Definition upstream_error_body (e : UpstreamError) (request_id upstream_request_id : option string)
    (extra : list (string * pyval)) : pyres (list (string * pyval)) :=
  error_body (ue_error_code e) (safe_exception_message (Some (error_exn e)) "runtime failure")
    (Some (ue_http_status e)) None request_id upstream_request_id
    (Some (foldl (fun d kv => dset kv.1 kv.2 d) (safe_upstream_error_detail e) extra)).

(** ** The middleware *)

Record Reply := mkReply {
  rp_status : Z;
  rp_headers : list (string * string);
  rp_body : option string;
}.

Section middleware.
Context (repr_float : Q -> string) (json_loads : string -> option pyval).

(** [JSONResponse(status_code=..., content=...)] *)
Definition json_reply (status : Z) (content : list (string * pyval)) : Reply :=
  mkReply status [] (Some (json_dumps repr_float (PDict content))).

Definition add_headers (rq : RequestState) (r : Reply) : Reply :=
  mkReply (rp_status r)
    (update_headers (correlation_of rq)
       (dset CONTROL_PLANE_VERSION_HEADER CONTROL_PLANE_CONTRACT_VERSION (rp_headers r)))
    (rp_body r).

(** [str(x).rstrip("0").rstrip(".")] *)
Definition trim_number (text : string) : string :=
  rstrip_chars (Ascii.eqb ".") (rstrip_chars (Ascii.eqb "0") text).

(** The value of the [Retry-After] header for a response with this body. *)
Definition retry_after_of (body : option string) : option string :=
  match body with
  | None => None
  | Some raw =>
      if String.eqb raw "" then None
      else match json_loads raw with
           | Some (PDict payload) =>
               let envelope := match dget "error" payload with Some (PDict e) => e | _ => payload end in
               match dget "retry_after_seconds" envelope with
               | Some (PInt n) => Some (trim_number (pretty n))
               | Some (PFloat q) => Some (trim_number (repr_float q))
               | _ => None
               end
           | _ => None
           end
  end.

(** [add_control_plane_version_header]; [call_next] is the rest of the application, which
    may set the Whoosh'd identity.  The result says whether it was called. *)
Definition add_control_plane_version_header (header : string -> option string)
    (call_next : RequestState -> Reply * RequestState) : pyres (Reply * bool) :=
  let rq := mkRequestState (opt_str (normalize_identifier (opt_str (header UPSTREAM_REQUEST_ID_HEADER)))) PNone in
  let negotiation := negotiate_contract_version (header TARGET_CONTRACT_VERSION_HEADER)
                       (header LEGACY_CONTROL_PLANE_VERSION_HEADER) in
  if negb (compatible negotiation) then
    let! body := error_body CONTRACT_VERSION_UNSUPPORTED "Unsupported control-plane contract version"
                   (Some 400%Z) None None (upstream_request_id rq)
                   (Some [("received_version", opt_str (incompatibility negotiation))]) in
    Ret (add_headers rq (json_reply 400 body), false)
  else
    let (response, rq) := call_next rq in
    let response := add_headers rq response in
    Ret (match retry_after_of (rp_body response) with
         | Some v => mkReply (rp_status response) (dset "Retry-After" v (rp_headers response)) (rp_body response)
         | None => response
         end, true).
End middleware.

(** ** Start-up and probes *)
Section probes.
Context {R : Type}.

(** [_init_router]: the adapters are constructed from the settings. *)
Definition init_router (env : environ) (stub mlx_lm mlx mlx_vlm llama : Adapter R)
    (rr : RuntimeRouter R) : RuntimeRouter R :=
  let rr := register stub rr in
  let rr := if get_mlx_lm_server_enabled env then register mlx_lm rr else rr in
  let rr := if String.eqb (get_adapter_backend env) "mlx" then register mlx rr else rr in
  let rr := if get_mlx_vlm_enabled env then register mlx_vlm rr else rr in
  register llama rr.

(** [_init_lifecycle] *)
Definition init_lifecycle (is_loaded : Adapter R -> bool) (now : Q) (rr : RuntimeRouter R)
    (rt : RuntimeState) : RuntimeState :=
  if existsb is_loaded (dvalues (rr_adapters rr)) then complete_warmup now rt else rt.

(** [create_adapter] of [adapters/factory.py] *)
Definition create_adapter (env : environ) (stub mlx llama : Adapter R) : Adapter R :=
  if String.eqb (get_adapter_backend env) "mlx" then mlx
  else if String.eqb (get_adapter_backend env) "llama_cpp" then llama
  else stub.

Record ReadinessResponse := mkReadiness {
  rd_ready : bool;
  rd_status : RunnerStatus;
  rd_model_lifecycle : ModelLifecycleState;
  rd_adapter : string;
  rd_configured_model : option string;
  rd_loaded_model : option string;
  rd_reason : option string;
}.

(** The per-runtime part: some runtime other than the stub reports ready. *)
Definition some_runtime_ready (runtimes : list (string * RuntimeHealth)) : bool :=
  existsb (fun kh => negb (String.eqb (fst kh) "stub")
                     && bool_decide (rh_state (snd kh) = HS_READY)) runtimes.

Definition readiness_reason (is_ready : bool) (lifecycle : ModelLifecycleState) : option string :=
  if is_ready then None
  else match lifecycle with
       | WARMING => Some "model_warming"
       | UNLOADED => Some "model_unloaded"
       | MODEL_FAILED => Some "model_load_failed"
       | DEGRADED => Some "model_degraded"
       | _ => None
       end.

(** [ready]: [router_health] is the answer of [router.health()], or its exception. *)
Definition ready (rt : RuntimeState) (router_health : pyres (list (string * RuntimeHealth)))
    (configured : option string) : Z * ReadinessResponse :=
  let lc := model_lifecycle (rt_lifecycle rt) in
  let is_ready := bool_decide (lc = READY)
    || match router_health with Ret runtimes => some_runtime_ready runtimes | Raise _ => false end in
  (if is_ready then 200%Z else 503%Z,
   mkReadiness is_ready (rt_status rt) lc "multi-runtime" configured None (readiness_reason is_ready lc)).

(** The adapter [runtime_model] names. *)
Definition model_adapter_name (is_loaded : Adapter R -> bool) (rr : RuntimeRouter R) : string :=
  match List.find (fun ka => negb (String.eqb (fst ka) "stub") && is_loaded (snd ka)) (rr_adapters rr) with
  | Some (_, a) => ad_name a
  | None => "multi-runtime"
  end.

(** The overlay of [runtime_capacity]: the first loaded adapter's kind, then its model, unless
    reading the model raises; the stub is passed over when another runtime is configured. *)
Definition capacity_overlay (is_loaded : Adapter R -> bool) (configured : option string)
    (rr : RuntimeRouter R) (snapshot : list (string * pyval)) : list (string * pyval) :=
  let passed_over a := str_truthy configured && negb (bool_decide (configured = Some "stub"))
                       && String.eqb (ad_kind a) "stub" in
  match List.find (fun a => negb (passed_over a) && is_loaded a) (dvalues (rr_adapters rr)) with
  | None => snapshot
  | Some a =>
      let snapshot := dset "runtime" (PStr (ad_kind a)) snapshot in
      match ad_model_id a with
      | Ret m => dset "model" (opt_str m) snapshot
      | Raise _ => snapshot
      end
  end.
End probes.

(** ** Executing a dispatched request *)

(** How an adapter's stream ends: exhausted, with an upstream error, or with another
    exception. *)
Inductive stream_fate :=
| EndOfStream
| UpstreamFails (e : UpstreamError)
| OtherRaises (e : pyexc).

(** How the server consumes the response: to its end; up to the event of that number, at
    which the generator is closed; or not at all, when sending the response head fails. *)
Inductive reading := ReadsAll | LeavesAfter (n : nat) | NeverStarts.

(** [json.dumps] with its default separators. *)
Section dumps_default.
Context (repr_float : Q -> string).

Fixpoint dumps_default (v : pyval) : string :=
  match v with
  | PNone => "null"
  | PBool true => "true"
  | PBool false => "false"
  | PInt z => pretty z
  | PFloat q => repr_float q
  | PStr s => json_string s
  | PList l => "[" +:+ join ", " (map dumps_default l) +:+ "]"
  | PDict d => "{" +:+ join ", " (map (fun kv => json_string (fst kv) +:+ ": " +:+ dumps_default (snd kv)) d) +:+ "}"
  end.
End dumps_default.

Definition sse_frame (payload : string) : string := "data: " +:+ payload +:+ newline +:+ newline.
Definition done_event : string := sse_frame "[DONE]".

Inductive stream_reply :=
| StreamRaises (e : pyexc)
| StreamJson (status : Z) (body : pyres (list (string * pyval))) (headers : list (string * string))
| StreamEvents (headers : list (string * string)) (events : list string).

Section execution.
Context {R : Type} (repr_float : Q -> string) (chunk_json : Response R -> string)
  (provenance_json : RuntimeProvenance R -> string) (version : string).

(** [ChatCompletionChunk.to_sse] *)
Definition to_sse (chunk : Response R) : string := sse_frame (chunk_json chunk).

Definition add_provenance (p : option (RuntimeProvenance R)) (r : Response R) : Response R :=
  mkResponse (rs_request_id r) (rs_model r) p (rs_rest r).

(** [_execute_non_streaming]: the response with its provenance. *)
Definition run_non_streaming (wall : Q) (resolution : option (RuntimeResolution R)) (queued batched : bool)
    (id : string) (upstream : pyval) (result : pyres (Response R)) (rt : RuntimeState)
    : pyres (Response R) * RuntimeState :=
  match result with
  | Raise e => (Raise e, fail_request wall id None rt)
  | Ret r =>
      (Ret match resolution with
           | None => r
           | Some res =>
               add_provenance (Some (provenance version res (PStr id)
                 (opt_str (normalize_identifier upstream)) (rs_model r) false queued batched (Some "ready"))) r
           end,
       complete_request wall id rt)
  end.

(** [_execute_non_streaming_with_threadwake]: [bridged] is what the manager's bridge returned,
    [Ret None] for the normal path. *)
Definition run_non_streaming_with_threadwake (wall : Q) (resolution : option (RuntimeResolution R))
    (queued : bool) (id : string) (upstream : pyval) (bridged : pyres (option (Response R)))
    (result : pyres (Response R)) (rt : RuntimeState) : pyres (Response R) * RuntimeState :=
  match bridged with
  | Raise e => (Raise e, rt)
  | Ret (Some r) => run_non_streaming wall resolution queued false id upstream (Ret r) rt
  | Ret None => run_non_streaming wall resolution queued false id upstream result rt
  end.

(** The events [_sse_stream] yields when it is run to its end. *)
Definition error_event (e : UpstreamError) (id : string) (upstream : option string) : list string :=
  match upstream_error_body e (Some id) upstream [("output_started", PBool true)] with
  | Ret body => [sse_frame (dumps_default repr_float (PDict [("error", PDict body)]))]
  | Raise _ => []
  end.

Definition sse_events (id : string) (upstream : option string) (first : Response R)
    (rest : list (Response R)) (fate : stream_fate) : list string :=
  map to_sse (first :: rest)
  ++ match fate with
     | EndOfStream => [done_event]
     | UpstreamFails e => error_event e id upstream
     | OtherRaises _ => []
     end.

(** [_sse_stream] as it is consumed: the events sent and the state it leaves.  A generator
    that was never started has no [finally] to run. *)
Definition sse_stream (wall : Q) (reads : reading) (id : string) (upstream : option string)
    (first : Response R) (rest : list (Response R)) (fate : stream_fate) (rt : RuntimeState)
    : list string * RuntimeState :=
  let events := sse_events id upstream first rest fate in
  let finished := match fate with EndOfStream => true | _ => false end in
  match reads with
  | ReadsAll => (events, sse_stream_end wall id finished rt)
  | LeavesAfter n =>
      if (n <? length events)%nat then (take (S n) events, sse_stream_end wall id false rt)
      else (events, sse_stream_end wall id finished rt)
  | NeverStarts => ([], rt)
  end.

Definition sse_headers : list (string * string) :=
  [("Cache-Control", "no-cache"); ("Connection", "keep-alive"); ("X-Accel-Buffering", "no")].

(** The response headers of a stream whose backend reported [reported]. *)
Definition stream_headers (resolution : option (RuntimeResolution R)) (queued : bool) (id : string)
    (upstream : option string) (reported : option string) : list (string * string) :=
  let headers := update_headers (correlation_response_headers (opt_str upstream) (PStr id)) sse_headers in
  match resolution with
  | None => headers
  | Some res =>
      dset WHOOSHD_RUNTIME_PROVENANCE_HEADER
        (provenance_json (provenance version res (PStr id) (opt_str upstream) reported true queued false (Some "ready")))
        headers
  end.

(** [_execute_streaming]: the first chunk is fetched before anything is sent. *)
Definition run_streaming (wall : Q) (resolution : option (RuntimeResolution R)) (queued : bool)
    (id : string) (ctx_upstream : pyval) (chunks : list (Response R)) (fate : stream_fate) (reads : reading)
    (rt : RuntimeState) : stream_reply * RuntimeState :=
  let upstream := normalize_identifier ctx_upstream in
  match chunks, fate with
  | [], EndOfStream =>
      (StreamEvents (stream_headers resolution queued id upstream None)
         (match reads with NeverStarts => [] | _ => [done_event] end),
       complete_request wall id rt)
  | [], UpstreamFails e =>
      (StreamJson (ue_http_status e) (upstream_error_body e (Some id) upstream [])
         (correlation_response_headers (opt_str upstream) (PStr id)),
       fail_request wall id None rt)
  | [], OtherRaises e => (StreamRaises e, fail_request wall id None rt)
  | first :: rest, _ =>
      let shown := match resolution with Some _ => add_provenance None first | None => first end in
      let (events, rt) := sse_stream wall reads id upstream shown rest fate rt in
      (StreamEvents (stream_headers resolution queued id upstream (rs_model first)) events, rt)
  end.
End execution.
