(* ===== verification/SurfaceProps.v ===== *)
(** * What the HTTP surface promises

    The event stream and its effect on the request, headers and version negotiation, error
    envelopes, and the probes. *)

From S2P Require Import Prelude PyDict PyStr PySeq PyJson Config Contracts Correlation ControlPlane Runtime CapacityContext.
From S2P Require Import Broker LogSafety Registry ModelPath Routing Forward Surface.
From Stdlib Require Import Ascii.

Open Scope string_scope.

(** ** Server-sent events *)

Definition line_feed : ascii := ascii_of_N 10.

(** A reader of the stream: the payloads of the [data] lines. *)
Definition parse_sse (text : string) : list string :=
  flat_map (fun line => match drop_prefix "data: " line with Some p => [p] | None => [] end)
    (split_on line_feed text).

Lemma lacks_app sep a b : lacks sep (a +:+ b) <-> lacks sep a /\ lacks sep b.
Proof. unfold lacks. rewrite string_forallb_app. apply andb_true_iff. Qed.

Lemma parse_frame p text : lacks line_feed p -> parse_sse (sse_frame p +:+ text) = p :: parse_sse text.
Proof.
  intros H. unfold parse_sse, sse_frame.
  assert (E : ("data: " +:+ p +:+ newline +:+ newline) +:+ text
    = ("data: " +:+ p) +:+ String line_feed ("" +:+ String line_feed text)).
  { rewrite !string_app_assoc'. done. }
  rewrite E, split_on_app; [|by apply lacks_app]. rewrite split_on_app by done. done.
Qed.

(** What a client parses from the frames is what was framed. *)
Lemma parse_frames ps : Forall (lacks line_feed) ps -> parse_sse (String.concat "" (map sse_frame ps)) = ps.
Proof.
  assert (E : forall x l, String.concat "" (x :: l) = x +:+ String.concat "" l).
  { intros x [|y l]; [|reflexivity]. change (x = x +:+ ""). induction x as [|c x IH]; [done|].
    change (String c x = String c (x +:+ "")). by rewrite <- IH. }
  induction 1 as [|p ps Hp _ IH]; [done|]. simpl map. rewrite E, parse_frame by done. by rewrite IH.
Qed.

Lemma lacks_join sep s l : lacks sep s -> Forall (lacks sep) l -> lacks sep (join s l).
Proof.
  intros Hs. induction 1 as [|x l Hx Hl IH]; [done|]. destruct l as [|y l]; [done|].
  rewrite join_more by done. rewrite !lacks_app. done.
Qed.

Lemma json_string_lacks s : lacks line_feed (json_string s).
Proof.
  assert (Hc : forall c, lacks line_feed (json_char c)) by (by intros [[] [] [] [] [] [] [] []]).
  assert (He : lacks line_feed (json_escape s)).
  { induction s as [|c s IH]; [done|]. simpl. apply lacks_app. done. }
  unfold json_string. change (lacks line_feed (String dquote "" +:+ (json_escape s +:+ String dquote ""))).
  rewrite !lacks_app. done.
Qed.

Section dumps.
Context (repr_float : Q -> string) (Hfloat : forall q, lacks line_feed (repr_float q)).

(** JSON text has no line feed. *)
Lemma dumps_default_lacks v : lacks line_feed (dumps_default repr_float v).
Proof.
  induction v as [|b|z|q|s|l IH|d IH] using pyval_nested_ind; simpl.
  - done.
  - by destruct b.
  - eapply string_forallb_impl; [|apply pretty_Z_chars]. by intros [[] [] [] [] [] [] [] []].
  - apply Hfloat.
  - apply json_string_lacks.
  - change (lacks line_feed ("[" +:+ (join ", " (map (dumps_default repr_float) l) +:+ "]"))).
    rewrite !lacks_app. split; [done|]. split; [|done]. apply lacks_join; [done|].
    by apply Forall_fmap.
  - change (lacks line_feed ("{" +:+ (join ", " (map (fun kv => json_string (fst kv) +:+ ": "
      +:+ dumps_default repr_float (snd kv)) d) +:+ "}"))).
    rewrite !lacks_app. split; [done|]. split; [|done]. apply lacks_join; [done|].
    apply Forall_fmap. eapply Forall_impl; [exact IH|]. intros [k x] Hx. simpl.
    rewrite !lacks_app. split; [apply json_string_lacks|]. done.
Qed.
End dumps.

(** ** The stream of a request *)
Section streaming.
Context {R : Type} (repr_float : Q -> string) (chunk_json : Response R -> string)
  (provenance_json : RuntimeProvenance R -> string) (version : string).
Context (wall : Q) (resolution : option (RuntimeResolution R)) (queued : bool) (id : string) (ctx_upstream : pyval).

Local Abbreviation run := (run_streaming repr_float chunk_json provenance_json version wall resolution queued id
  ctx_upstream).

(** The chunks as they are sent: the provenance of the first one is in a header. *)
Definition shown_chunks (chunks : list (Response R)) : list (Response R) :=
  match chunks with
  | [] => []
  | first :: rest =>
      (match resolution with Some _ => add_provenance None first | None => first end) :: rest
  end.

(** The payload after the chunks. *)
Definition last_payload (fate : stream_fate) : list string :=
  match fate with
  | EndOfStream => ["[DONE]"]
  | UpstreamFails e =>
      match upstream_error_body e (Some id) (normalize_identifier ctx_upstream) [("output_started", PBool true)] with
      | Ret body => [dumps_default repr_float (PDict [("error", PDict body)])]
      | Raise _ => []
      end
  | OtherRaises _ => []
  end.

Definition all_payloads (chunks : list (Response R)) (fate : stream_fate) : list string :=
  map chunk_json (shown_chunks chunks) ++ last_payload fate.

(** How many payloads are sent. *)
Definition sent (reads : reading) (n : nat) : nat :=
  match reads with ReadsAll => n | LeavesAfter k => Nat.min (S k) n | NeverStarts => 0 end.

(** Whether the generator runs to its end. *)
Definition to_the_end (reads : reading) (n : nat) : bool :=
  match reads with ReadsAll => true | LeavesAfter k => (n <=? k)%nat | NeverStarts => false end.

(** The outcome of the execution in the terms of the broker; [None] when the generator is
    never started. *)
Definition stream_outcome (chunks : list (Response R)) (fate : stream_fate) (reads : reading) : option outcome :=
  match chunks, fate with
  | [], EndOfStream => Some StreamEmpty
  | [], _ => Some AdapterError
  | _, EndOfStream =>
      match reads with
      | NeverStarts => None
      | _ => Some (if to_the_end reads (length (all_payloads chunks fate)) then StreamDone else StreamAborted)
      end
  | _, _ => match reads with NeverStarts => None | _ => Some StreamAborted end
  end.

Lemma sse_events_frames first rest fate :
  sse_events repr_float chunk_json id (normalize_identifier ctx_upstream)
    (match resolution with Some _ => add_provenance None first | None => first end) rest fate
  = map sse_frame (all_payloads (first :: rest) fate).
Proof.
  unfold sse_events, all_payloads. rewrite map_app. f_equal; [simpl; by rewrite map_map|].
  destruct fate as [|e|e]; [done| |done]. unfold error_event, last_payload. by destruct (upstream_error_body _ _ _ _).
Qed.

(** The state an execution leaves is the one the broker's step for its outcome leaves, so the
    guarantees over the broker's interleavings speak about these streams; a stream that is
    never started leaves the request as it is. *)
Theorem streaming_refines_outcome chunks fate reads (b : Broker) :
  match stream_outcome chunks fate reads with
  | Some o => outcome_of true o = true
      /\ snd (run chunks fate reads (b_rt b)) = b_rt (finish wall id true o b)
  | None => snd (run chunks fate reads (b_rt b)) = b_rt b
  end.
Proof.
  unfold stream_outcome, run_streaming. destruct chunks as [|first rest]; [by destruct fate|].
  assert (Hlen : length (sse_events repr_float chunk_json id (normalize_identifier ctx_upstream)
    (match resolution with Some _ => add_provenance None first | None => first end) rest fate)
    = length (all_payloads (first :: rest) fate)) by (by rewrite sse_events_frames, length_map).
  unfold sse_stream. rewrite Hlen.
  destruct fate as [|e|e], reads as [|n|]; cbn [to_the_end]; try done.
  - destruct (n <? _)%nat eqn:E.
    + apply Nat.ltb_lt in E. by rewrite (proj2 (Nat.leb_gt _ _) E).
    + apply Nat.ltb_ge in E. by rewrite (proj2 (Nat.leb_le _ _) E).
  - by destruct (n <? _)%nat.
  - by destruct (n <? _)%nat.
Qed.

(** C8: What a client receives of a stream that yielded a chunk: the frames of the chunks in
    order, then [[DONE]] if the adapter finished, one error envelope if its upstream failed,
    and nothing after another exception, cut off only where the client left; a reader of the
    text recovers exactly these payloads.  The request is completed only if the adapter
    finished and the client took everything, and else is cancelled; before the first chunk
    nothing is sent as an event, and a failure is one JSON answer. *)
Theorem stream_delivers_in_order chunks fate reads rt
    (Hjson : forall r, lacks line_feed (chunk_json r)) (Hfloat : forall q, lacks line_feed (repr_float q)) :
  let payloads := take (sent reads (length (all_payloads chunks fate))) (all_payloads chunks fate) in
  match chunks with
  | [] => match fate with
          | EndOfStream => exists h, run chunks fate reads rt
              = (StreamEvents h (match reads with NeverStarts => [] | _ => [done_event] end),
                 complete_request wall id rt)
          | UpstreamFails e => exists body h, run chunks fate reads rt
              = (StreamJson (ue_http_status e) body h, fail_request wall id None rt)
          | OtherRaises e => run chunks fate reads rt = (StreamRaises e, fail_request wall id None rt)
          end
  | _ :: _ =>
      (exists h, fst (run chunks fate reads rt) = StreamEvents h (map sse_frame payloads))
      /\ parse_sse (String.concat "" (map sse_frame payloads)) = payloads
      /\ snd (run chunks fate reads rt)
         = match reads with
           | NeverStarts => rt
           | _ => if (match fate with EndOfStream => true | _ => false end)
                     && to_the_end reads (length (all_payloads chunks fate))
                  then complete_request wall id rt
                  else cancel_request wall id (record_stream_disconnect id rt)
           end
  end.
Proof.
  destruct chunks as [|first rest].
  { destruct fate; simpl; eauto. }
  intros payloads. split; [|split].
  - unfold run_streaming, sse_stream. rewrite sse_events_frames, length_map.
    eexists. unfold payloads, sent.
    destruct reads as [|n|]; cbn [fst].
    + rewrite firstn_all. by destruct fate.
    + destruct (n <? _)%nat eqn:E.
      * apply Nat.ltb_lt in E. rewrite Nat.min_l, firstn_map by lia. by destruct fate.
      * apply Nat.ltb_ge in E. rewrite Nat.min_r, firstn_all by lia. by destruct fate.
    + by destruct fate.
  - apply parse_frames, Forall_take. unfold all_payloads. apply Forall_app. split.
    + apply Forall_fmap, Forall_forall. intros r _. apply Hjson.
    + unfold last_payload. destruct fate as [|e|e]; [by repeat constructor| |constructor].
      destruct (upstream_error_body _ _ _ _); [|constructor]. constructor; [|constructor].
      by apply dumps_default_lacks.
  - unfold run_streaming, sse_stream. rewrite sse_events_frames, length_map.
    destruct fate as [|e|e], reads as [|n|]; cbn [to_the_end]; try done;
      destruct (n <? _)%nat eqn:E; try done.
    + apply Nat.ltb_lt in E. by rewrite (proj2 (Nat.leb_gt _ _) E).
    + apply Nat.ltb_ge in E. by rewrite (proj2 (Nat.leb_le _ _) E).
Qed.
End streaming.

(** ** Non-streaming execution *)
Section non_streaming.
Context {R : Type} (version : string) (wall : Q) (resolution : option (RuntimeResolution R)) (queued : bool)
  (id : string) (upstream : pyval).

(** With whatever the ThreadWake bridge returned, the execution is one of the broker's two
    outcomes, and a response differs from the adapter's or the cache's only in its
    provenance; only an exception of the bridge itself would leave the request running. *)
Theorem non_streaming_refines_outcome bridged result (b : Broker) :
  let out := run_non_streaming_with_threadwake version wall resolution queued id upstream bridged result (b_rt b) in
  match bridged with
  | Raise e => out = (Raise e, b_rt b)
  | Ret cached =>
      let answered := match cached with Some r => Ret r | None => result end in
      snd out = b_rt (finish wall id false (match answered with Ret _ => Served | Raise _ => AdapterError end) b)
      /\ match answered with
         | Ret r => exists p, fst out = Ret (add_provenance p r) \/ fst out = Ret r
         | Raise e => fst out = Raise e
         end
  end.
Proof.
  simpl. destruct bridged as [[r|]|e]; [| |done]; simpl.
  - split; [done|]. destruct resolution; [eexists; by left | exists None; by right].
  - destruct result as [r|e]; simpl; [|done]. split; [done|].
    destruct resolution; [eexists; by left | exists None; by right].
Qed.
End non_streaming.

(** ** Error envelopes *)

Lemma error_status code message status retry rid urid details :
  ef_http_status (error_fields code message (Some status) retry rid urid details) = status.
Proof. done. Qed.

Lemma error_body_in_range code message status retry rid urid details :
  (400 <= status <= 599)%Z ->
  exists body, error_body code message (Some status) retry rid urid details = Ret body
    /\ dget "http_status" body = Some (PInt status)
    /\ dget "code" body = Some (PStr (ErrorCode_value code)).
Proof.
  intros [H1 H2]. unfold error_body, new_error_response. rewrite error_status.
  rewrite (proj2 (Z.leb_le _ _) H1), (proj2 (Z.leb_le _ _) H2). simpl. eauto.
Qed.

(** The handlers of the application's own errors always answer, with the status and the code
    they stand for, and the response to a refused request says how many fields were refused
    but does not depend on their names or values. *)
Theorem handlers_answer rq n m rejected rejected' :
  (exists body, validation_exception_handler rq n = Ret (422%Z, body)
     /\ dget "code" body = Some (PStr "invalid_request"))
  /\ (exists body, model_resolution_error_handler rq m = Ret (404%Z, body)
        /\ dget "code" body = Some (PStr "model_not_found"))
  /\ (exists body, backend_request_policy_error_handler rq rejected = Ret (400%Z, body)
        /\ dget "code" body = Some (PStr "unsupported_field"))
  /\ (exists body, streaming_not_supported_handler rq = Ret (422%Z, body)
        /\ dget "code" body = Some (PStr "unsupported_capability"))
  /\ (length rejected = length rejected' ->
      backend_request_policy_error_handler rq rejected = backend_request_policy_error_handler rq rejected').
Proof.
  repeat split.
  - unfold validation_exception_handler, error_body_for_request.
    edestruct error_body_in_range as (body & -> & _ & Hc); [|exists body; split; [done|exact Hc]]. lia.
  - unfold model_resolution_error_handler, error_body_for_request.
    edestruct error_body_in_range as (body & -> & _ & Hc); [|exists body; split; [done|exact Hc]]. lia.
  - unfold backend_request_policy_error_handler, error_body_for_request.
    edestruct error_body_in_range as (body & -> & _ & Hc); [|exists body; split; [done|exact Hc]]. lia.
  - unfold streaming_not_supported_handler, error_body_for_request.
    edestruct error_body_in_range as (body & -> & _ & Hc); [|exists body; split; [done|exact Hc]]. lia.
  - intros H. unfold backend_request_policy_error_handler. by rewrite H.
Qed.

(** A raised [HTTPException] is answered with its own status: an envelope of this contract is
    passed on under it, any other detail is dropped unread.  With a status outside of the
    errors and without an envelope the handler itself raises. *)
Theorem http_exception_exact rq status detail detail' :
  (is_envelope detail = true -> exists body, http_exception_handler rq status detail = Ret (status, body)
     /\ (normalize_identifier (rq_whoosh_request_id rq) = None -> normalize_identifier (rq_upstream_request_id rq) = None ->
         dget "http_status" body = Some (PInt status)))
  /\ (is_envelope detail = false ->
      ((400 <= status <= 599)%Z -> exists body, http_exception_handler rq status detail = Ret (status, body))
      /\ (~ (400 <= status <= 599)%Z -> exists e, http_exception_handler rq status detail = Raise e)
      /\ (is_envelope detail' = false ->
          http_exception_handler rq status detail = http_exception_handler rq status detail')).
Proof.
  assert (Hplain : forall d, is_envelope d = false -> http_exception_handler rq status d =
    answer status (error_body_for_request rq (code_for_http_status status)
      (if (status <? 500)%Z then "Request failed" else "Internal error") (Some status) None None
      (Some [("http_status", PInt status)]))).
  { intros [] H; unfold http_exception_handler; rewrite ?H; done. }
  split.
  - intros H. destruct detail as [| | | | | |d]; try done. unfold http_exception_handler. rewrite H.
    eexists. split; [done|]. unfold whoosh_request_id, upstream_request_id. intros -> ->. apply dget_dset_eq.
  - intros H. rewrite (Hplain _ H). split; [|split].
    + intros Hr. unfold error_body_for_request.
      edestruct error_body_in_range as (body & -> & _); [exact Hr | exists body; done].
    + intros Hr. unfold answer, error_body_for_request, error_body, new_error_response.
      rewrite error_status. eexists.
      destruct (400 <=? status)%Z eqn:E1, (status <=? 599)%Z eqn:E2; simpl; try done.
      exfalso. apply Hr. lia.
    + intros H'. by rewrite (Hplain _ H').
Qed.

(** ** The middleware *)
Section middleware_facts.
Context (repr_float : Q -> string) (json_loads : string -> option pyval).

Local Abbreviation middleware := (add_control_plane_version_header repr_float json_loads).

Lemma update_headers_get new headers k : NoDup (dkeys new) ->
  dget k (update_headers new headers) = match dget k new with Some v => Some v | None => dget k headers end.
Proof.
  unfold update_headers. revert headers. induction new as [|[k' v'] new IH]; intros headers Hnd; [done|].
  apply NoDup_cons in Hnd as [Hni Hnd]. simpl. rewrite IH by done. case_decide as E.
  - subst. cbn [fst] in Hni. apply dget_None_keys in Hni. cbn [fst snd]. by rewrite Hni, dget_dset_eq.
  - destruct (dget k new); [done|]. cbn [fst snd]. by rewrite dget_dset_ne.
Qed.

Lemma correlation_keys up wh :
  NoDup (dkeys (correlation_response_headers up wh))
  /\ dget UPSTREAM_REQUEST_ID_HEADER (correlation_response_headers up wh) = normalize_identifier up
  /\ dget WHOOSH_REQUEST_ID_HEADER (correlation_response_headers up wh) = normalize_identifier wh
  /\ (forall k, k <> UPSTREAM_REQUEST_ID_HEADER -> k <> WHOOSH_REQUEST_ID_HEADER ->
        dget k (correlation_response_headers up wh) = None).
Proof.
  unfold correlation_response_headers.
  destruct (normalize_identifier up), (normalize_identifier wh); (split; [repeat constructor; set_solver|]);
    (split; [done|]); (split; [done|]); intros k H1 H2; simpl; repeat case_decide; congruence.
Qed.

Lemma normalize_opt v : normalize_identifier (opt_str (normalize_identifier v)) = normalize_identifier v.
Proof.
  destruct (normalize_identifier v) as [s|] eqn:E; [|done]. simpl.
  apply normalize_identifier_Some in E as [_ E]. by rewrite E.
Qed.

Lemma add_headers_get rq r k :
  dget k (rp_headers (add_headers rq r)) =
    if decide (k = UPSTREAM_REQUEST_ID_HEADER) then
      match upstream_request_id rq with Some v => Some v | None => dget k (rp_headers r) end
    else if decide (k = WHOOSH_REQUEST_ID_HEADER) then
      match whoosh_request_id rq with Some v => Some v | None => dget k (rp_headers r) end
    else if decide (k = CONTROL_PLANE_VERSION_HEADER) then Some CONTROL_PLANE_CONTRACT_VERSION
    else dget k (rp_headers r).
Proof.
  unfold add_headers, correlation_of, upstream_request_id, whoosh_request_id. cbn [rp_headers].
  destruct (correlation_keys (opt_str (normalize_identifier (rq_upstream_request_id rq)))
    (opt_str (normalize_identifier (rq_whoosh_request_id rq)))) as (Hnd & Hu & Hw & Ho).
  rewrite update_headers_get by done.
  destruct (decide (k = UPSTREAM_REQUEST_ID_HEADER)) as [->|H1].
  { rewrite Hu, normalize_opt. destruct (normalize_identifier _); [done|]. by rewrite dget_dset_ne. }
  destruct (decide (k = WHOOSH_REQUEST_ID_HEADER)) as [->|H2].
  { rewrite Hw, normalize_opt. destruct (normalize_identifier (rq_whoosh_request_id rq)); [done|]. by rewrite dget_dset_ne. }
  rewrite Ho by done. apply dget_dset.
Qed.

(** The middleware always answers.  A request whose version headers are not compatible never
    reaches the application and gets a 400; any other gets the application's status and
    body.  Every response carries the contract version and the validated identities; apart
    from these and from [Retry-After] the application's headers are untouched. *)
Theorem middleware_exact (header : string -> option string) (call_next : RequestState -> Reply * RequestState) :
  let n := negotiate_contract_version (header TARGET_CONTRACT_VERSION_HEADER)
             (header LEGACY_CONTROL_PLANE_VERSION_HEADER) in
  let upstream := normalize_identifier (opt_str (header UPSTREAM_REQUEST_ID_HEADER)) in
  let (inner, rq) := call_next (mkRequestState (opt_str upstream) PNone) in
  exists r, middleware header call_next = Ret (r, compatible n)
  /\ dget CONTROL_PLANE_VERSION_HEADER (rp_headers r) = Some CONTROL_PLANE_CONTRACT_VERSION
  /\ (compatible n = false -> rp_status r = 400%Z
        /\ dget UPSTREAM_REQUEST_ID_HEADER (rp_headers r) = upstream)
  /\ (compatible n = true -> rp_status r = rp_status inner /\ rp_body r = rp_body inner
        /\ (forall w, whoosh_request_id rq = Some w -> dget WHOOSH_REQUEST_ID_HEADER (rp_headers r) = Some w)
        /\ (forall k, k ∉ [UPSTREAM_REQUEST_ID_HEADER; WHOOSH_REQUEST_ID_HEADER; CONTROL_PLANE_VERSION_HEADER;
                           "Retry-After"] -> dget k (rp_headers r) = dget k (rp_headers inner))).
Proof.
  cbv zeta. destruct (call_next _) as [inner rq] eqn:E. unfold add_control_plane_version_header.
  destruct (compatible _) eqn:Hc; cbn [negb].
  - rewrite E. destruct (retry_after_of _ _ _) as [v|]; (eexists; split; [done|]); cbn [rp_headers rp_status rp_body];
      (split; [rewrite ?dget_dset_ne by done; by rewrite add_headers_get|]); (split; [done|]); intros _;
      (split; [done|]); (split; [done|]); (split; [intros w Hw; rewrite ?dget_dset_ne by done; by rewrite add_headers_get, Hw|]);
      intros k Hk; rewrite ?dget_dset_ne by set_solver; rewrite add_headers_get;
      repeat rewrite decide_False by set_solver; done.
  - destruct (error_body_in_range CONTRACT_VERSION_UNSUPPORTED "Unsupported control-plane contract version" 400 None None
      (upstream_request_id (mkRequestState (opt_str (normalize_identifier (opt_str (header UPSTREAM_REQUEST_ID_HEADER)))) PNone))
      (Some [("received_version", opt_str (incompatibility (negotiate_contract_version
         (header TARGET_CONTRACT_VERSION_HEADER) (header LEGACY_CONTROL_PLANE_VERSION_HEADER))))])) as (body & -> & _); [lia|].
    eexists. split; [done|]. split; [by rewrite add_headers_get|]. split; [|done]. intros _. split; [done|].
    rewrite add_headers_get. simpl. unfold upstream_request_id. cbn [rq_upstream_request_id].
    rewrite normalize_opt. by destruct (normalize_identifier _).
Qed.

(** Trimming the zeros of a whole number changes it: ten seconds become one. *)
Theorem retry_after_of_whole_number :
  json_loads "{}" = Some (PDict [("retry_after_seconds", PInt 10)]) ->
  retry_after_of repr_float json_loads (Some "{}") = Some "1".
Proof. intros H. unfold retry_after_of. simpl. rewrite H. reflexivity. Qed.
End middleware_facts.

(** ** Readiness *)
Section probe_facts.
Context {R : Type}.

(** The probe answers 200 exactly if the broker's lifecycle is ready or a runtime other than
    the stub is, and a reason is only given with a 503. *)
Theorem ready_exact rt router_health configured :
  let (status, body) := ready rt router_health configured in
  (status = 200%Z <-> model_lifecycle (rt_lifecycle rt) = READY
     \/ exists runtimes kind h, router_health = Ret runtimes /\ (kind, h) ∈ runtimes
          /\ kind <> "stub" /\ rh_state h = HS_READY)
  /\ (status = 200%Z \/ status = 503%Z) /\ rd_ready body = (status =? 200)%Z
  /\ (rd_reason body <> None -> status = 503%Z).
Proof.
  unfold ready. set (b := (_ || _)). assert (Hb : b = true <-> model_lifecycle (rt_lifecycle rt) = READY
     \/ exists runtimes kind h, router_health = Ret runtimes /\ (kind, h) ∈ runtimes
          /\ kind <> "stub" /\ rh_state h = HS_READY).
  { unfold b. rewrite orb_true_iff, bool_decide_eq_true. apply or_iff_compat_l.
    destruct router_health as [runtimes|e]; [|split; [done | by intros (? & ? & ? & ? & _)]].
    unfold some_runtime_ready. rewrite existsb_exists. split.
    - intros ([k h] & Hin & [Hk Hh]%andb_prop). apply list_elem_of_In in Hin. apply bool_decide_eq_true in Hh.
      apply negb_true_iff, String.eqb_neq in Hk. by exists runtimes, k, h.
    - intros (rs & k & h & [= <-] & Hin & Hk & Hh). exists (k, h). split; [by apply list_elem_of_In|].
      simpl. rewrite Hh. apply String.eqb_neq in Hk. by rewrite Hk. }
  rewrite <- Hb. destruct b; simpl; (split; [by split|]); (split; [auto|]); split; done.
Qed.

(** Every start-up with a loaded stub marks the broker ready, whatever the other adapters
    are: [ready] then answers 200 although no runtime but the stub can serve. *)
Theorem loaded_stub_masks_readiness env stub mlx_lm mlx mlx_vlm llama is_loaded now rt health configured :
  is_loaded stub = true -> ad_kind stub = "stub" ->
  Forall (fun a => ad_kind a <> "stub") [mlx_lm; mlx; mlx_vlm; llama] ->
  fst (ready (init_lifecycle is_loaded now
         (init_router env stub mlx_lm mlx mlx_vlm llama (empty_router (R := R) [])) rt) health configured) = 200%Z.
Proof.
  intros Hl Hk Hne. repeat (apply Forall_cons in Hne as [? Hne]).
  assert (Hstay : forall a rr, ad_kind a <> "stub" -> dget "stub" (rr_adapters rr) = Some stub ->
    dget "stub" (rr_adapters (register a rr)) = Some stub).
  { intros a rr Ha Hs. unfold register. cbn [rr_adapters]. by rewrite dget_dset_ne. }
  assert (Hin : dget "stub" (rr_adapters (init_router env stub mlx_lm mlx mlx_vlm llama (empty_router (R := R) [])))
    = Some stub).
  { unfold init_router. apply Hstay; [done|]. repeat (split_if; [apply Hstay; [done|]|]);
      unfold register; cbn [rr_adapters]; rewrite Hk; apply dget_dset_eq. }
  unfold init_lifecycle. rewrite (proj2 (existsb_exists _ _)); [done|]. exists stub. split; [|done].
  apply list_elem_of_In. by eapply dget_Some_value.
Qed.

(** When the first loaded adapter cannot name its model, the snapshot shows that adapter
    beside the model of another. *)
Theorem capacity_overlay_can_mix is_loaded a rr snapshot e :
  List.find (fun a => is_loaded a) (dvalues (rr_adapters rr)) = Some a -> ad_model_id a = Raise e ->
  capacity_overlay (R := R) is_loaded None rr snapshot = dset "runtime" (PStr (ad_kind a)) snapshot.
Proof. intros H He. unfold capacity_overlay. simpl. by rewrite H, He. Qed.
End probe_facts.

(** ** A concrete stream *)

Definition demo_chunk (text : string) : Response unit := mkResponse "chatcmpl-1" (Some "m") None (PStr text).
Definition demo_json (r : Response unit) : string := match rs_rest r with PStr s => json_string s | _ => "{}" end.
Definition demo_stream (fate : stream_fate) (reads : reading) : stream_reply * RuntimeState :=
  run_streaming (fun _ => "0") demo_json (fun _ => "{}") "0.1.1" 0 None false "whoosh-1" PNone
    [demo_chunk "a"; demo_chunk "b"] fate reads init_runtime.

Definition events_of (r : stream_reply) : list string := match r with StreamEvents _ events => events | _ => [] end.

(** Read to the end, the stream is both chunks and [[DONE]]; left at the first event, one. *)
Lemma stream_delivers_in_order_witness :
  parse_sse (String.concat "" (events_of (fst (demo_stream EndOfStream ReadsAll))))
    = [json_string "a"; json_string "b"; "[DONE]"]
  /\ parse_sse (String.concat "" (map sse_frame [json_string "a"])) = [json_string "a"]
  /\ snd (demo_stream EndOfStream (LeavesAfter 0))
     = cancel_request 0 "whoosh-1" (record_stream_disconnect "whoosh-1" init_runtime).
Proof.
  split; [vm_compute; reflexivity|].
  apply (stream_delivers_in_order (fun _ => "0") demo_json (fun _ => "{}") "0.1.1" 0 None false "whoosh-1" PNone
    [demo_chunk "a"; demo_chunk "b"] EndOfStream (LeavesAfter 0) init_runtime).
  - intros r. unfold demo_json. destruct (rs_rest r); try done. apply json_string_lacks.
  - done.
Defined.
