(* ===== verification/InProcess.v ===== *)
(** * The in-process adapters ([adapters/stub.py], [adapters/mlx.py])

    Two adapters run inside the broker: the deterministic stub of the tests, and the adapter
    over [mlx_lm], which loads its model on first use and pushes its state into the runtime.

    - [mlx_lm] is third-party code: loading, generating and streaming are arguments, as are the
      tokenizer, [str] of a message content, the ids and the clock.
    - A stream is what it does in order: yields, status updates, closing the generator below,
      and an exception at the end.  [cancelled i] is the answer of the [i]-th look at the
      cancellation token, [leave] the yield at which the consumer closes the generator.
    - Loading has no suspension point inside its lock, so it is one step and the lock is
      never seen held. *)

From S2P Require Import Prelude PyDict PyStr PySeq PyRe Config Contracts RequestPolicy CapacityContext TWTokens.
From S2P Require Import LogSafety Registry ModelPath Routing Forward Sidecar.
From Stdlib Require Import Ascii.

Open Scope string_scope.

(** ** Chunks and responses *)

(** The delta of a chunk: the assistant role, a text, or nothing with [finish_reason="stop"]. *)
Inductive delta := RoleDelta | TextDelta (text : string) | StopDelta.

Record ChatCompletionChunk := mkChunk {
  ck_id : string;
  ck_created : Z;
  ck_model : string;
  ck_delta : delta;
}.

(** The single choice of a response ends with [finish_reason="stop"]. *)
Record ChatCompletionResponse := mkChatResponse {
  cr_id : string;
  cr_created : Z;
  cr_model : string;
  cr_text : string;
  cr_prompt_tokens : Z;
  cr_completion_tokens : Z;
  cr_total_tokens : Z;
}.

(** [len(text.split())] *)
Definition word_count (text : string) : Z := Z.of_nat (length (split_words text)).

Definition backend_attr (name : string) (r : BackendChatRequest) : pyval := attr name (br_values r).
Definition backend_model (r : BackendChatRequest) : string :=
  match backend_attr "model" r with PStr m => m | _ => "" end.
Definition request_messages (r : BackendChatRequest) : list pyval := list_of (backend_attr "messages" r).

(** ** The stub ([adapters/stub.py]) *)

Definition STUB_CHAT_TEXT : string := "Whoosh'd stub response: chat completion contract is online.".
Definition STUB_STREAM_TOKENS : list string := ["Whoosh'd "; "streaming "; "stub "; "online."].

Record StubState := mkStub { st_call_count : Z; st_chat_call_count : Z }.
Definition new_stub : StubState := mkStub 0 0.

Definition TypeError (msg : string) : pyexc := Exc "TypeError" msg.

(** [" ".join(m.content for m in messages)]: a content that is a list of parts raises. *)
Fixpoint join_contents (messages : list pyval) : pyres (list string) :=
  match messages with
  | [] => Ret []
  | m :: messages =>
      match message_attr "content" m with
      | PStr s => let! rest := join_contents messages in Ret (s :: rest)
      | _ => Raise (TypeError "sequence item: expected str instance")
      end
  end.

Definition stub_chat_completion (uuid_hex : string) (now : Z) (r : BackendChatRequest) (s : StubState)
    : pyres ChatCompletionResponse * StubState :=
  let s := mkStub (st_call_count s) (st_chat_call_count s + 1) in
  (let! contents := join_contents (request_messages r) in
   let prompt_tokens := Z.max 1 (word_count (join " " contents)) in
   let completion_tokens := word_count STUB_CHAT_TEXT in
   Ret (mkChatResponse ("chatcmpl-stub-" +:+ str_take 12 uuid_hex) now (backend_model r) STUB_CHAT_TEXT
          prompt_tokens completion_tokens (prompt_tokens + completion_tokens)), s).

(** [chat_completion_batch]: one call after the other. *)
Fixpoint stub_chat_completion_batch (uuids : nat -> string) (now : Z) (i : nat) (requests : list BackendChatRequest)
    (s : StubState) : pyres (list ChatCompletionResponse) * StubState :=
  match requests with
  | [] => (Ret [], s)
  | r :: requests =>
      match stub_chat_completion (uuids i) now r s with
      | (Raise e, s) => (Raise e, s)
      | (Ret x, s) =>
          let (rest, s) := stub_chat_completion_batch uuids now (S i) requests s in
          (let! rest := rest in Ret (x :: rest), s)
      end
  end.

(** The chunks after the role, and the look at the token before the last one. *)
Fixpoint stub_tokens (chunk : delta -> ChatCompletionChunk) (cancelled : nat -> bool) (i : nat) (tokens : list string)
    : list ChatCompletionChunk :=
  if cancelled i then []
  else match tokens with
       | [] => [chunk StopDelta]
       | t :: tokens => chunk (TextDelta t) :: stub_tokens chunk cancelled (S i) tokens
       end.

Definition stub_chat_completion_stream (uuid_hex : string) (now : Z) (cancelled : nat -> bool)
    (r : BackendChatRequest) (s : StubState) : list ChatCompletionChunk * StubState :=
  let chunk := mkChunk ("chatcmpl-stub-" +:+ str_take 12 uuid_hex) now (backend_model r) in
  (if cancelled 0%nat then [] else chunk RoleDelta :: stub_tokens chunk cancelled 1 STUB_STREAM_TOKENS,
   mkStub (st_call_count s) (st_chat_call_count s + 1)).

(** [GenerateResponse] of an adapter that served the request itself. *)
Definition generate_answer (uuid model_id text adapter : string) (r : BackendGenerateRequest) : GenerateResponse :=
  mkGenerateResponse (if str_truthy (bg_request_id r) then default "" (bg_request_id r) else uuid)
    model_id (PStr text) (Some "stop")
    (Some (word_count (bg_prompt r)), Some (word_count text), Some (word_count (bg_prompt r) + word_count text)%Z)
    adapter.

Definition stub_generate (uuid : string) (r : BackendGenerateRequest) (s : StubState) : GenerateResponse * StubState :=
  let n := (st_call_count s + 1)%Z in
  (generate_answer uuid (if str_truthy (bg_model_id r) then default "" (bg_model_id r) else "stub-model")
     ("[stub response #" +:+ pretty n +:+ "] echo: " +:+ str_take 120 (bg_prompt r)) "stub" r,
   mkStub n (st_chat_call_count s)).

Definition stub_supports_chat_batching (env : environ) : string :=
  if get_batch_execution_enabled env then "experimental" else "unsupported".

Definition stub_health : RuntimeHealth :=
  mkHealth (RuntimeKind_value STUB) true HS_READY (Some "stub-model") None (Some "Stub adapter is always ready.").

Definition stub_list_models : list RuntimeModel :=
  [mkRuntimeModel "stub-model" "Stub Model" (RuntimeKind_value STUB) "unknown" None (Some 32768%Z) (Some false)
     (Some false) (Some false) true (RuntimeHealthState_value HS_READY)].

Definition stub_is_loaded : bool := true.
Definition stub_model_id : option string := Some "stub-model".

(** ** The MLX adapter ([adapters/mlx.py]) *)
Section mlx.
Context {M : Type} (py_str : pyval -> string) (tokenizer_of : M -> MLXTokenizer).

(** The adapter, the two registries it fills (by key, [None] when it has none) and the two
    attributes of the runtime it writes.  [M] is a loaded model with its tokenizer. *)
Record MlxState := mkMlx {
  mx_model : option M;
  mx_model_path : option string;
  mx_loaded : bool;
  mx_tokenizers : option (list (string * M));
  mx_kv_backends : option (list (string * M));
  mx_status : RunnerStatus;
  mx_lifecycle : ModelLifecycleState;
}.

Definition update_runner_status (st : RunnerStatus) (s : MlxState) : MlxState :=
  mkMlx (mx_model s) (mx_model_path s) (mx_loaded s) (mx_tokenizers s) (mx_kv_backends s) st (mx_lifecycle s).

Definition update_model_lifecycle (l : ModelLifecycleState) (s : MlxState) : MlxState :=
  mkMlx (mx_model s) (mx_model_path s) (mx_loaded s) (mx_tokenizers s) (mx_kv_backends s) (mx_status s) l.

(** [_register_tokenizer_adapter], [_register_kv_adapter] *)
Definition register_tokenizer_adapter (env : environ) (m : M) (registry : option (list (string * M)))
    : option (list (string * M)) :=
  if get_threadwake_mlx_tokenizer_enabled env then dset "mlx" m <$> registry else registry.

Definition register_kv_adapter (m : M) (registry : option (list (string * M))) : option (list (string * M)) :=
  dset "mlx" m <$> registry.

(** [_ensure_loaded]; [load] is [mlx_lm.load] with the import before it. *)
Definition ensure_loaded (env : environ) (load : string -> pyres M) (model_path : string) (s : MlxState)
    : pyres unit * MlxState :=
  if mx_loaded s && bool_decide (mx_model_path s = Some model_path) then (Ret tt, s)
  else
    let s := update_model_lifecycle WARMING (update_runner_status RS_WARMING s) in
    match load model_path with
    | Raise e => (Raise e, update_model_lifecycle MODEL_FAILED (update_runner_status RS_DEGRADED s))
    | Ret m =>
        (Ret tt, mkMlx (Some m) (Some model_path) true (register_tokenizer_adapter env m (mx_tokenizers s))
                   (register_kv_adapter m (mx_kv_backends s)) RS_READY READY)
    end.

Definition mlx_warmup (env : environ) (load : string -> pyres M) (s : MlxState) : pyres unit * MlxState :=
  ensure_loaded env load (get_mlx_model_path env) s.

Definition mlx_unload (s : MlxState) : MlxState :=
  mkMlx None None false (ddel "mlx" <$> mx_tokenizers s) (ddel "mlx" <$> mx_kv_backends s)
    (mx_status s) (mx_lifecycle s).

(** The prompt of a chat: [extract_chat_messages] of a backend request, rendered. *)
Definition backend_messages (r : BackendChatRequest) : list (string * string) :=
  map (fun m => (py_str (message_attr "role" m), py_str (message_attr "content" m))) (request_messages r).

Definition format_chat_prompt (m : M) (r : BackendChatRequest) : pyres string :=
  render_mlx_chat_prompt (tokenizer_of m) (backend_messages r).

(** [request.max_tokens or default] *)
Definition max_tokens_or (v : pyval) (dflt : Z) : Z :=
  match v with PInt n => if (n =? 0)%Z then dflt else n | _ => dflt end.

(** [temperature != 0.7] *)
Definition not_default_temperature (v : pyval) : bool :=
  match v with PFloat q => negb (Qeq_bool q (7 # 10)) | _ => true end.

Definition gen_kwargs (prompt : string) (max_tokens : Z) (temperature : pyval) : list (string * pyval) :=
  [("prompt", PStr prompt); ("max_tokens", PInt max_tokens)]
  ++ (if not_default_temperature temperature then [("temp", temperature)] else []).

(** [text[len(prompt):] if text.startswith(prompt) else text] *)
Definition strip_prompt (prompt text : string) : string := default text (ControlPlane.drop_prefix prompt text).

(** [chat_completion]; [generate] is [mlx_lm.generate] on the loaded model. *)
Definition mlx_chat_completion (env : environ) (load : string -> pyres M)
    (generate : M -> list (string * pyval) -> pyres string) (uuid_hex : string) (now : Z)
    (r : BackendChatRequest) (s : MlxState) : pyres ChatCompletionResponse * MlxState :=
  let model_path := get_mlx_model_path env in
  match ensure_loaded env load model_path s with
  | (Raise e, s) => (Raise e, s)
  | (Ret _, s) =>
      match mx_model s with
      | None => (Raise (Exc "AttributeError" ""), s)
      | Some m =>
          match format_chat_prompt m r with
          | Raise e => (Raise e, s)
          | Ret prompt =>
              let max_tokens := max_tokens_or (backend_attr "max_tokens" r) (get_mlx_max_tokens_default env) in
              (* generating, and then ready, whatever happens *)
              let s := update_runner_status RS_READY (update_runner_status RS_GENERATING s) in
              (let! raw := generate m (gen_kwargs prompt max_tokens (backend_attr "temperature" r)) in
               let text := strip_prompt prompt raw in
               Ret (mkChatResponse ("chatcmpl-mlx-" +:+ str_take 12 uuid_hex) now model_path text
                      (word_count prompt) (word_count text) (word_count prompt + word_count text)), s)
          end
      end
  end.

(** [generate] *)
Definition mlx_run_generate (env : environ) (load : string -> pyres M)
    (generate : M -> list (string * pyval) -> pyres string) (uuid : string)
    (r : BackendGenerateRequest) (s : MlxState) : pyres GenerateResponse * MlxState :=
  let model_path := get_mlx_model_path env in
  match ensure_loaded env load model_path s with
  | (Raise e, s) => (Raise e, s)
  | (Ret _, s) =>
      match mx_model s with
      | None => (Raise (Exc "AttributeError" ""), s)
      | Some m =>
          let s := update_runner_status RS_READY (update_runner_status RS_GENERATING s) in
          (let! raw := generate m (gen_kwargs (bg_prompt r) (bg_max_tokens r) (bg_temperature r)) in
           Ret (generate_answer uuid model_path (strip_prompt (bg_prompt r) raw) "mlx-lm" r), s)
      end
  end.

(** *** Streaming *)

Inductive effect :=
| Yields (c : ChatCompletionChunk)
| Status (st : RunnerStatus)
| Closes
| Raises (e : pyexc).

(** What [mlx_lm.stream_generate] does: it cannot be created, or it gives texts and then ends
    or raises. *)
Definition generation : Type := pyres (list string * option pyexc).

(** How the loop over the stream ends: exhausted or broken out of, after so many looks at the
    token; with an exception; or closed by the consumer. *)
Inductive pull_end := PullDone (looks : nat) | PullRaised (e : pyexc) | PullLeft.

(** The loop; [leave] counts the text chunks down to the one at which the consumer leaves. *)
Fixpoint pull (chunk : delta -> ChatCompletionChunk) (cancelled : nat -> bool) (i : nat) (leave : option nat)
    (texts : list string) (exn : option pyexc) : list effect * pull_end :=
  match texts with
  | [] => ([], match exn with Some e => PullRaised e | None => PullDone i end)
  | text :: texts =>
      if cancelled i then ([], PullDone (S i))
      else if String.eqb text "" then pull chunk cancelled (S i) leave texts exn
      else match leave with
           | Some O => ([Yields (chunk (TextDelta text))], PullLeft)
           | _ =>
               let (effects, fate) := pull chunk cancelled (S i) (option_map Nat.pred leave) texts exn in
               (Yields (chunk (TextDelta text)) :: effects, fate)
           end
  end.

(** From the first chunk on: the consumer leaves at the role chunk, or the stream is run. *)
Definition mlx_stream (chunk : delta -> ChatCompletionChunk) (cancelled : nat -> bool) (leave : option nat)
    (g : generation) : list effect :=
  if cancelled 0%nat then []
  else match leave with
       | Some O => [Yields (chunk RoleDelta)]
       | _ =>
           Yields (chunk RoleDelta) :: Status RS_GENERATING ::
           match g with
           | Raise e => [Status RS_DEGRADED; Raises e]
           | Ret (texts, exn) =>
               let (effects, fate) := pull chunk cancelled 1 (option_map Nat.pred leave) texts exn in
               effects ++ match fate with
                          | PullRaised e => [Status RS_DEGRADED; Closes; Raises e]
                          | PullLeft => [Closes; Status RS_READY]
                          | PullDone i =>
                              [Closes; Status RS_READY]
                              ++ (if cancelled i then [] else [Yields (chunk StopDelta)])
                          end
           end
       end.

Definition apply_effect (s : MlxState) (e : effect) : MlxState :=
  match e with Status st => update_runner_status st s | _ => s end.

(** [chat_completion_stream] *)
Definition mlx_chat_completion_stream (env : environ) (load : string -> pyres M)
    (stream_generate : M -> list (string * pyval) -> generation) (uuid_hex : string) (now : Z)
    (cancelled : nat -> bool) (leave : option nat) (r : BackendChatRequest) (s : MlxState)
    : list effect * MlxState :=
  let model_path := get_mlx_model_path env in
  match ensure_loaded env load model_path s with
  | (Raise e, s) => ([Raises e], s)
  | (Ret _, s) =>
      match mx_model s with
      | None => ([Raises (Exc "AttributeError" "")], s)
      | Some m =>
          match format_chat_prompt m r with
          | Raise e => ([Raises e], s)
          | Ret prompt =>
              let max_tokens := max_tokens_or (backend_attr "max_tokens" r) (get_mlx_max_tokens_default env) in
              let effects :=
                mlx_stream (mkChunk ("chatcmpl-mlx-" +:+ str_take 12 uuid_hex) now model_path) cancelled leave
                  (stream_generate m (gen_kwargs prompt max_tokens (backend_attr "temperature" r))) in
              (effects, foldl apply_effect s effects)
          end
      end
  end.

(** *** Batches *)

(** [mlx_lm] can be imported with [batch_generate]. *)
Definition mlx_supports_chat_batching (env : environ) (importable : bool) : string :=
  if negb (get_batch_execution_enabled env) then "unsupported"
  else if negb (get_mlx_batch_execution_enabled env) then "unsupported"
  else if importable then "experimental" else "unsupported".

Fixpoint render_all (m : M) (requests : list BackendChatRequest) : pyres (list string * list (list Z)) :=
  match requests with
  | [] => Ret ([], [])
  | r :: requests =>
      let! prompt := format_chat_prompt m r in
      match mt_encode (tokenizer_of m) prompt with
      | None => Raise (Exc "Exception" "encode")
      | Some ids => let! (prompts, tokenized) := render_all m requests in Ret (prompt :: prompts, ids :: tokenized)
      end
  end.

(** The single budget of a batch: the largest of its requests' ([max] of a non-empty list). *)
Definition batch_max_tokens (requests : list BackendChatRequest) : Z :=
  match map (fun r => max_tokens_or (backend_attr "max_tokens" r) 256) requests with
  | [] => 0
  | n :: rest => foldl Z.max n rest
  end.

Definition mlx_chat_completion_batch (batch_generate : M -> list (list Z) -> Z -> pyres (list string))
    (uuids : nat -> string) (now : Z) (requests : list BackendChatRequest) (s : MlxState)
    : pyres (list ChatCompletionResponse) :=
  match requests with
  | [] => Raise (ValueError "Batch must contain at least one request")
  | _ =>
      match mx_loaded s, mx_model s with
      | true, Some m =>
          let! (prompts, tokenized) := render_all m requests in
          let! texts := batch_generate m tokenized (batch_max_tokens requests) in
          if negb (length texts =? length requests)%nat then
            Raise (RuntimeError ("MLX returned " +:+ pretty (Z.of_nat (length texts)) +:+ " outputs for "
                                 +:+ pretty (Z.of_nat (length requests)) +:+ " requests"))
          else
            Ret (imap (fun i rt => match rt with
                   | (r, text, prompt) =>
                       mkChatResponse ("chatcmpl-mlx-batch-" +:+ str_take 8 (uuids i)) now (backend_model r) text
                         (word_count prompt) (word_count text) (word_count prompt + word_count text)
                   end) (zip (zip requests texts) prompts))
      | _, _ => Raise (RuntimeError "MLX model not loaded")
      end
  end.

(** *** Introspection *)

Definition mlx_health (s : MlxState) : RuntimeHealth :=
  if negb (mx_loaded s) then
    mkHealth (RuntimeKind_value MLX_LM) true HS_OFFLINE None None (Some "Model not loaded.")
  else mkHealth (RuntimeKind_value MLX_LM) true HS_READY (mx_model_path s) None (Some "Model loaded and ready.").

Definition mlx_list_models (env : environ) (s : MlxState) : list RuntimeModel :=
  let model_path := if str_truthy (mx_model_path s) then default "" (mx_model_path s) else get_mlx_model_path env in
  [mkRuntimeModel model_path (basename model_path) (RuntimeKind_value MLX_LM) "mlx" (Some model_path) None (Some false)
     (Some false) (Some false) (mx_loaded s)
     (RuntimeHealthState_value (if mx_loaded s then HS_READY else HS_OFFLINE))].
End mlx.
Arguments MlxState : clear implicits.
Arguments mkMlx {M}.
