(* ===== verification/InProcessProps.v ===== *)
(** * What the in-process adapters promise

    Both streams have the shape clients rely on; the MLX adapter's state stays consistent over
    every history, its streams settle the status they set and close what they opened, and a
    batch answers each request. *)

From S2P Require Import Prelude PyDict PyStr PySeq PyRe Config Contracts RequestPolicy CapacityContext TWTokens.
From S2P Require Import LogSafety Registry ModelPath Routing Forward Sidecar InProcess.

Open Scope string_scope.
Open Scope list_scope.

(** ** The shape of a stream *)

(** Texts between the role and, if the stream was not cut short, the stop. *)
Definition shape (chunk : delta -> ChatCompletionChunk) (texts : list string) (stopped : bool)
    : list ChatCompletionChunk :=
  chunk RoleDelta :: map (fun t => chunk (TextDelta t)) texts ++ (if stopped then [chunk StopDelta] else []).

(** What a client may assume of a streaming adapter: [source] are the texts its model has
    for it, [run] the chunks it yields. *)
Class StreamContract {I : Type} (chunk : I -> delta -> ChatCompletionChunk) (source : I -> list string)
    (run : I -> list ChatCompletionChunk) : Prop := {
  stream_shape i : run i = [] \/ exists texts stopped,
    run i = shape (chunk i) texts stopped /\ texts `prefix_of` source i /\ (stopped = true -> texts = source i);
}.

Section contract.
Context {I : Type} (chunk : I -> delta -> ChatCompletionChunk) (source : I -> list string)
  (run : I -> list ChatCompletionChunk) `{Hc : StreamContract I chunk source run}.

(** A client that sees the stop has all texts, one that sees anything has the role first, and
    every chunk carries the id, the time and the model of the stream. *)
Theorem stop_means_complete i :
  (chunk i StopDelta ∈ run i -> (forall d d', chunk i d = chunk i d' -> d = d') ->
   run i = shape (chunk i) (source i) true)
  /\ (forall c, c ∈ run i -> exists d, c = chunk i d)
  /\ (forall c rest, run i = c :: rest -> c = chunk i RoleDelta).
Proof.
  destruct (stream_shape i) as [E | (texts & stopped & E & Hp & Hs)]; rewrite E.
  { split; [by intros ?%not_elem_of_nil|]. split; [by intros c ?%not_elem_of_nil | done]. }
  unfold shape. split; [|split].
  - intros Hin Hinj. destruct stopped; [by rewrite (Hs eq_refl)|]. exfalso. rewrite app_nil_r in Hin.
    apply elem_of_cons in Hin as [Ec | Hin]; [by apply Hinj in Ec|].
    apply list_elem_of_fmap in Hin as (t & Ec & _). by apply Hinj in Ec.
  - intros c [-> | [Hin | Hin]%elem_of_app]%elem_of_cons; [eauto| |].
    + apply list_elem_of_fmap in Hin as (t & -> & _). eauto.
    + destruct stopped; [apply list_elem_of_singleton in Hin as ->; eauto | by apply not_elem_of_nil in Hin].
  - by intros c rest [= <- _].
Qed.
End contract.

(** ** The stub *)

Lemma stub_tokens_shape chunk cancelled tokens : forall i, exists texts stopped,
  stub_tokens chunk cancelled i tokens
    = map (fun t => chunk (TextDelta t)) texts ++ (if stopped : bool then [chunk StopDelta] else [])
  /\ texts `prefix_of` tokens /\ (stopped = true -> texts = tokens).
Proof.
  induction tokens as [|t tokens IH]; intros i; simpl; destruct (cancelled i).
  - exists [], false. split; [done|]. split; [apply prefix_nil | done].
  - exists [], true. split; [done|]. split; [apply prefix_nil | done].
  - exists [], false. split; [done|]. split; [apply prefix_nil | done].
  - destruct (IH (S i)) as (texts & stopped & -> & Hp & Hs). exists (t :: texts), stopped.
    split; [done|]. split; [by apply prefix_cons|]. intros H. by rewrite (Hs H).
Qed.

Definition stub_input : Type := string * Z * (nat -> bool) * BackendChatRequest * StubState.

#[export] Instance stub_contract : StreamContract
  (fun '(uuid, now, _, r, _) => mkChunk ("chatcmpl-stub-" +:+ str_take 12 uuid) now (backend_model r))
  (fun _ => STUB_STREAM_TOKENS)
  (fun '(uuid, now, cancelled, r, s) => fst (stub_chat_completion_stream uuid now cancelled r s)).
Proof.
  split. intros [[[[uuid now] cancelled] r] s]. unfold stub_chat_completion_stream. cbn [fst].
  destruct (cancelled 0%nat); [by left|]. right. unfold shape.
  match goal with |- context [stub_tokens ?c _ _ _] =>
    destruct (stub_tokens_shape c cancelled STUB_STREAM_TOKENS 1) as (texts & stopped & -> & H) end.
  by exists texts, stopped.
Qed.

(** A message whose content is a list of parts, which the contract admits, makes the stub
    raise. *)
Theorem stub_refuses_parts uuid now r parts s : request_messages r = [PDict [("content", PList parts)]] ->
  exists e, fst (stub_chat_completion uuid now r s) = Raise e.
Proof. unfold stub_chat_completion. intros ->. simpl. eauto. Qed.

(** A batch is the single calls, in order. *)
Theorem stub_batch_exact uuids now requests s : forall i xs,
  fst (stub_chat_completion_batch uuids now i requests s) = Ret xs ->
  Forall2 (fun r x => cr_model x = backend_model r /\ cr_text x = STUB_CHAT_TEXT) requests xs.
Proof.
  revert s. induction requests as [|r requests IH]; intros s i xs H; cbn [stub_chat_completion_batch] in H.
  - injection H as <-. constructor.
  - destruct (stub_chat_completion (uuids i) now r s) as [[x|e] s'] eqn:E; [|done].
    destruct (stub_chat_completion_batch uuids now (S i) requests s') as [rest s''] eqn:Er.
    cbn [fst] in H. apply rbind_Ret in H as (xs' & -> & [= <-]). constructor.
    + unfold stub_chat_completion in E. injection E as E _.
      apply rbind_Ret in E as (contents & _ & [= <-]). done.
    + apply (IH s' (S i)). by rewrite Er.
Qed.

(** ** The MLX stream *)

(** The chunks among the effects. *)
Fixpoint yields (l : list effect) : list ChatCompletionChunk :=
  match l with [] => [] | Yields c :: l => c :: yields l | _ :: l => yields l end.

Fixpoint statuses (l : list effect) : list RunnerStatus :=
  match l with [] => [] | Status st :: l => st :: statuses l | _ :: l => statuses l end.

Fixpoint closes (l : list effect) : nat :=
  match l with [] => 0 | Closes :: l => S (closes l) | _ :: l => closes l end.

Definition raises (l : list effect) : bool :=
  existsb (fun e => match e with Raises _ => true | _ => false end) l.

Lemma yields_app l l' : yields (l ++ l') = (yields l ++ yields l')%list.
Proof. induction l as [|[] l IH]; simpl; by rewrite ?IH. Qed.
Lemma statuses_app l l' : statuses (l ++ l') = (statuses l ++ statuses l')%list.
Proof. induction l as [|[] l IH]; simpl; by rewrite ?IH. Qed.
Lemma closes_app l l' : closes (l ++ l') = (closes l + closes l')%nat.
Proof. induction l as [|[] l IH]; simpl; by rewrite ?IH. Qed.
Lemma raises_app l l' : raises (l ++ l') = raises l || raises l'.
Proof. apply existsb_app. Qed.

Definition nonempty (texts : list string) : list string := List.filter (fun t => negb (String.eqb t "")) texts.

(** The loop only yields texts, a prefix of the non-empty ones; the consumer's leaving is the
    only end that can cut it besides the token. *)
Lemma pull_texts chunk cancelled texts exn : forall i leave,
  exists shown, fst (pull chunk cancelled i leave texts exn) = map (fun t => Yields (chunk (TextDelta t))) shown
  /\ shown `prefix_of` nonempty texts
  /\ (forall j, snd (pull chunk cancelled i leave texts exn) = PullDone j ->
        (shown = nonempty texts \/ exists k, i <= k < j /\ cancelled k = true)
        /\ i <= j <= i + length texts)
  /\ (forall e, snd (pull chunk cancelled i leave texts exn) = PullRaised e -> exn = Some e).
Proof.
  induction texts as [|t texts IH]; intros i leave; simpl.
  - exists []. split; [done|]. split; [apply prefix_nil|]. split.
    + intros j H. destruct exn; simplify_eq. split; [by left | lia].
    + intros e H. by destruct exn; simplify_eq.
  - destruct (cancelled i) eqn:Ec.
    { exists []. split; [done|]. split; [apply prefix_nil|]. split; [|done].
      intros j [= <-]. split; [|lia]. right. exists i. split; [lia | done]. }
    destruct (String.eqb t "") eqn:Et; simpl.
    { destruct (IH (S i) leave) as (shown & -> & Hp & Hd & Hr). exists shown. split; [done|]. split; [done|].
      split; [|done]. intros j H. destruct (Hd j H) as [[-> | (k & Hk & Hck)] Hj]; (split; [|lia]); [by left|].
      right. exists k. split; [lia | done]. }
    destruct leave as [[|n]|].
    { exists [t]. split; [done|]. split; [by apply prefix_cons, prefix_nil|]. split; done. }
    all: match goal with |- context [pull ?c ?k ?i' ?l ?ts ?e'] =>
           destruct (IH i' l) as (shown & H1 & Hp & Hd & Hr);
           destruct (pull c k i' l ts e') as [effects fate] end; simpl in *; subst effects;
      exists (t :: shown); (split; [done|]); (split; [by apply prefix_cons|]); (split; [|done]);
      intros j H; destruct (Hd j H) as [[-> | (k & Hk & Hck)] Hj]; (split; [|lia]); [by left|];
      right; exists k; (split; [lia | done]).
Qed.

Lemma yields_texts chunk shown : yields (map (fun t => Yields (chunk (TextDelta t))) shown)
  = map (fun t => chunk (TextDelta t)) shown.
Proof. induction shown; simpl; by f_equal. Qed.
Lemma statuses_texts (chunk : delta -> ChatCompletionChunk) shown :
  statuses (map (fun t => Yields (chunk (TextDelta t))) shown) = [].
Proof. by induction shown. Qed.
Lemma closes_texts (chunk : delta -> ChatCompletionChunk) shown :
  closes (map (fun t => Yields (chunk (TextDelta t))) shown) = 0%nat.
Proof. by induction shown. Qed.
Lemma raises_texts (chunk : delta -> ChatCompletionChunk) shown :
  raises (map (fun t => Yields (chunk (TextDelta t))) shown) = false.
Proof. by induction shown. Qed.

(** The texts a generation has. *)
Definition generation_texts (g : generation) : list string :=
  match g with Ret (texts, _) => nonempty texts | Raise _ => [] end.

(** A cancellation token stays cancelled. *)
Definition stays (cancelled : nat -> bool) : Prop :=
  forall i j, i <= j -> cancelled i = true -> cancelled j = true.

(** The stream's shape, and how it settles: it sets no status, or sets generating and then,
    last, ready or, exactly when it raises, degraded; the generator below is closed at most
    once, and is closed whenever it was created and the consumer went on past the role. *)
Lemma mlx_stream_cases chunk cancelled leave g : stays cancelled ->
  let l := mlx_stream chunk cancelled leave g in
  (yields l = [] \/ exists texts stopped, yields l = shape chunk texts stopped
     /\ texts `prefix_of` generation_texts g /\ (stopped = true -> texts = generation_texts g))
  /\ (statuses l = [] /\ raises l = false /\ closes l = 0%nat
      \/ statuses l = [RS_GENERATING; if raises l then RS_DEGRADED else RS_READY]
         /\ closes l = match g with Ret _ => 1%nat | Raise _ => 0%nat end).
Proof.
  intros Hst. cbv zeta. unfold mlx_stream. destruct (cancelled 0%nat) eqn:E0; [split; by left|].
  assert (Hrole : forall texts, [chunk RoleDelta] = shape chunk [] false /\ ([] : list string) `prefix_of` texts
    /\ (false = true -> [] = texts)) by (intros; split; [done | split; [apply prefix_nil | done]]).
  destruct leave as [[|n]|].
  { split; [right; exists [], false; apply Hrole | by left]. }
  all: destruct g as [[texts exn]|e]; [|split; [right; exists [], false; apply Hrole | by right]].
  all: match goal with |- context [pull ?c ?k ?i' ?lv ?ts ?e'] =>
         destruct (pull_texts c k ts e' i' lv) as (shown & H1 & Hp & Hd & Hr);
         destruct (pull c k i' lv ts e') as [effects fate] end; simpl in H1, Hd, Hr; subst effects.
  all: cbn [yields statuses closes raises existsb orb].
  all: fold (raises (map (fun t => Yields (chunk (TextDelta t))) shown
         ++ match fate with
            | PullDone i => [Closes; Status RS_READY] ++ (if cancelled i then [] else [Yields (chunk StopDelta)])
            | PullRaised e => [Status RS_DEGRADED; Closes; Raises e]
            | PullLeft => [Closes; Status RS_READY] end)).
  all: rewrite yields_app, statuses_app, closes_app, raises_app, yields_texts, statuses_texts, closes_texts,
         raises_texts; split; [right | right].
  all: destruct fate as [j|e|].
  all: try (exists shown, false; split; [done|]; split; [done|]; by intros).
  all: try (by split).
  all: destruct (cancelled j) eqn:Ej; try (exists shown, false; split; [done|]; split; [done|]; by intros); try (by split).
  all: exists shown, true; split; [done|]; split; [done|]; intros _.
  all: destruct (Hd j eq_refl) as [[-> | (k & Hk & Hck)] Hj]; [done|].
  all: rewrite (Hst k j) in Ej; [done | lia | done].
Qed.

(** The inputs of an MLX stream whose token stays cancelled. *)
Record MlxStreamInput := mkStreamInput {
  si_chunk : delta -> ChatCompletionChunk;
  si_cancelled : nat -> bool;
  si_stays : stays si_cancelled;
  si_leave : option nat;
  si_generation : generation;
}.

#[export] Instance mlx_contract : StreamContract si_chunk (fun i => generation_texts (si_generation i))
  (fun i => yields (mlx_stream (si_chunk i) (si_cancelled i) (si_leave i) (si_generation i))).
Proof. split. intros i. apply (mlx_stream_cases _ _ _ _ (si_stays i)). Qed.

(** ** The state of the MLX adapter *)
Section mlx_state.
Context {M : Type} (py_str : pyval -> string) (tokenizer_of : M -> MLXTokenizer) (env : environ).

Local Abbreviation State := (MlxState M).
Local Abbreviation chat := (mlx_chat_completion py_str tokenizer_of env).
Local Abbreviation stream := (mlx_chat_completion_stream py_str tokenizer_of env).

(** The operations of the adapter, with any behaviour of [mlx_lm] and any client. *)
Inductive mlx_op : State -> State -> Prop :=
| op_chat load generate uuid now r s : mlx_op s (snd (chat load generate uuid now r s))
| op_stream load generate uuid now cancelled leave r s : stays cancelled ->
    mlx_op s (snd (stream load generate uuid now cancelled leave r s))
| op_generate load generate uuid r s : mlx_op s (snd (mlx_run_generate env load generate uuid r s))
| op_warmup load s : mlx_op s (snd (mlx_warmup env load s))
| op_unload s : mlx_op s (mlx_unload s).

Definition new_mlx (tokenizers kv_backends : bool) : State :=
  mkMlx None None false (if tokenizers then Some [] else None) (if kv_backends then Some [] else None)
    RS_READY UNLOADED.

(** A registry's entry for MLX is the model that is loaded now. *)
Definition registry_ok (model : option M) (registry : option (list (string * M))) : Prop :=
  forall reg, registry = Some reg -> NoDup (dkeys reg) /\ forall m, dget "mlx" reg = Some m -> model = Some m.

Record mlx_ok (s : State) : Prop := {
  mo_loaded : mx_loaded s = true <-> exists m, mx_model s = Some m;
  mo_path : mx_loaded s = true -> mx_model_path s = Some (get_mlx_model_path env);
  mo_tokenizers : registry_ok (mx_model s) (mx_tokenizers s);
  mo_kv : registry_ok (mx_model s) (mx_kv_backends s);
  mo_kv_present : forall m reg, mx_model s = Some m -> mx_kv_backends s = Some reg -> dget "mlx" reg = Some m;
  mo_status : mx_status s <> RS_GENERATING /\ mx_status s <> RS_WARMING;
}.

Lemma registry_ok_new (b : bool) : registry_ok None (if b then Some [] else None).
Proof. intros reg H. destruct b; simplify_eq. split; [constructor | done]. Qed.

Lemma new_mlx_ok a b : mlx_ok (new_mlx a b).
Proof.
  split; simpl; try done; try apply registry_ok_new. split; [done | by intros [? ?]].
Qed.

Lemma status_ok st s : st <> RS_GENERATING -> st <> RS_WARMING -> mlx_ok s -> mlx_ok (update_runner_status st s).
Proof. intros H1 H2 []. by split. Qed.

Lemma settled_ok s : mlx_ok s -> mlx_ok (update_runner_status RS_READY (update_runner_status RS_GENERATING s)).
Proof. intros []. by split. Qed.

Lemma dset_registry m model registry : registry_ok model registry ->
  registry_ok (Some m) (dset "mlx" m <$> registry).
Proof.
  intros H reg (reg' & Hr & ->)%fmap_Some. destruct (H reg' Hr) as [Hn _].
  split; [by apply dset_NoDup|]. intros m'. by rewrite dget_dset_eq.
Qed.

(** Loading reaches the path of the settings, so it happens once until an unload. *)
Lemma loaded_path s : mlx_ok s -> mx_loaded s = true ->
  forall load, ensure_loaded env load (get_mlx_model_path env) s = (Ret tt, s).
Proof.
  intros H Hl load. unfold ensure_loaded. rewrite Hl, (mo_path _ H Hl). simpl. by rewrite bool_decide_true.
Qed.

(** The settings that decide about registration, as they are at every load. *)
Lemma ensure_loaded_ok load s r s' : mlx_ok s ->
  ensure_loaded env load (get_mlx_model_path env) s = (r, s') ->
  mlx_ok s' /\ (r = Ret tt -> exists m, mx_model s' = Some m).
Proof.
  intros H E. destruct (mx_loaded s) eqn:Hl.
  { rewrite (loaded_path s H Hl load) in E. simplify_eq. split; [done|]. intros _. by apply (mo_loaded _ H). }
  unfold ensure_loaded in E. rewrite Hl in E. simpl in E.
  assert (Hnone : mx_model s = None).
  { destruct (mx_model s) as [m|] eqn:Em; [|done]. assert (mx_loaded s = true) by (apply (mo_loaded _ H); eauto).
    congruence. }
  destruct (load _) as [m|e]; injection E as <- <-.
  - split; [|simpl; eauto]. destruct H as [_ _ Ht Hk _ _]. split; simpl; try done.
    + split; eauto.
    + unfold register_tokenizer_adapter. destruct (get_threadwake_mlx_tokenizer_enabled env); [by eapply dset_registry|].
      intros reg Hr. destruct (Ht reg Hr) as [Hn Hm]. split; [done|]. intros m' Hm'. rewrite (Hm m' Hm') in Hnone. done.
    + by eapply dset_registry.
    + intros m' reg [= <-] (reg' & Hr & ->)%fmap_Some. apply dget_dset_eq.
  - split; [|done]. destruct H as [H1 H2 Ht Hk Hp _]. by split.
Qed.

Lemma statuses_fold (l : list effect) (s : State) :
  foldl apply_effect s l = match last (statuses l) with Some st => update_runner_status st s | None => s end.
Proof.
  revert s. induction l as [|[c|st| |e] l IH]; intros s; simpl; rewrite ?IH; try done.
  destruct (statuses l) as [|st' l']; [done|]. rewrite !last_cons. by destruct (last l').
Qed.

Lemma op_ok s s' : mlx_op s s' -> mlx_ok s -> mlx_ok s'.
Proof.
  intros [load generate uuid now r w|load generate uuid now cancelled leave r w Hst|load generate uuid r w|load w|w] H.
  - unfold mlx_chat_completion. destruct (ensure_loaded _ _ _ _) as [[[]|e] w'] eqn:E; destruct (ensure_loaded_ok _ _ _ _ H E) as [H' _];
      try done. destruct (mx_model w'); [|done]. destruct (format_chat_prompt _ _ _ _); [|done].
    by apply settled_ok.
  - unfold mlx_chat_completion_stream. destruct (ensure_loaded _ _ _ _) as [[[]|e] w'] eqn:E; destruct (ensure_loaded_ok _ _ _ _ H E) as [H' _];
      try done. destruct (mx_model w'); [|done]. destruct (format_chat_prompt _ _ _ _); [|done]. cbn [snd].
    rewrite statuses_fold. match goal with |- context [mlx_stream ?c ?k ?l ?g] =>
      destruct (mlx_stream_cases c k l g Hst) as [_ [[-> _] | [-> _]]] end; [done|]. simpl.
    destruct (raises _); by apply status_ok.
  - unfold mlx_run_generate. destruct (ensure_loaded _ _ _ _) as [[[]|e] w'] eqn:E; destruct (ensure_loaded_ok _ _ _ _ H E) as [H' _];
      try done. destruct (mx_model w'); [|done]. by apply settled_ok.
  - unfold mlx_warmup. destruct (ensure_loaded _ _ _ _) as [r w'] eqn:E. by destruct (ensure_loaded_ok _ _ _ _ H E).
  - destruct H as [H1 H2 Ht Hk Hp Hs].
    assert (Hdel : forall registry, registry_ok (mx_model w) registry -> registry_ok None (ddel "mlx" <$> registry)).
    { intros registry Hr reg (reg' & E & ->)%fmap_Some. destruct (Hr reg' E) as [Hn _].
      split; [by apply ddel_NoDup|]. intros m. by rewrite dget_ddel_eq. }
    split; simpl; try done; try by apply Hdel. split; [done | by intros [? ?]].
Qed.


(** A load that fails marks the runtime degraded and the lifecycle failed, and touches
    nothing else: a model that was loaded under another path stays in use. *)
Theorem failed_load_keeps_the_model load path (s : State) e : load path = Raise e ->
  mx_loaded s && bool_decide (mx_model_path s = Some path) = false ->
  ensure_loaded env load path s
    = (Raise e, mkMlx (mx_model s) (mx_model_path s) (mx_loaded s) (mx_tokenizers s) (mx_kv_backends s)
                  RS_DEGRADED MODEL_FAILED).
Proof. intros H Hl. unfold ensure_loaded. by rewrite Hl, H. Qed.

(** A completion depends on nothing of the request but its messages, its budget and its
    temperature: [top_p], [stop], [seed] and the rest are not used. *)
Theorem sampling_fields_are_ignored load generate uuid now r r' (s : State) :
  request_messages r = request_messages r' -> backend_attr "max_tokens" r = backend_attr "max_tokens" r' ->
  backend_attr "temperature" r = backend_attr "temperature" r' ->
  chat load generate uuid now r s = chat load generate uuid now r' s.
Proof.
  intros Hm Ht Hp. unfold mlx_chat_completion, format_chat_prompt, backend_messages. by rewrite Hm, Ht, Hp.
Qed.

(** The response names the configured model path, not the model the client asked for. *)
Theorem response_names_the_path load generate uuid now r (s : State) x s' :
  chat load generate uuid now r s = (Ret x, s') -> cr_model x = get_mlx_model_path env.
Proof.
  unfold mlx_chat_completion. destruct (ensure_loaded _ _ _ _) as [[[]|e] w]; [|done].
  destruct (mx_model w); [|done]. destruct (format_chat_prompt _ _ _ _); [|done].
  intros [= Hx _]. by apply rbind_Ret in Hx as (raw & _ & [= <-]).
Qed.

(** A batch answers each request once and in order, with its own model name, or raises;
    one budget serves all, so a request may get more than it asked for. *)
Theorem batch_answers_each batch_generate uuids now requests (s : State) xs :
  mlx_chat_completion_batch py_str tokenizer_of batch_generate uuids now requests s = Ret xs ->
  map cr_model xs = map backend_model requests
  /\ Forall (fun r => (max_tokens_or (backend_attr "max_tokens" r) 256 <= batch_max_tokens requests)%Z) requests.
Proof.
  assert (Hmax : forall l n, (n <= foldl Z.max n l)%Z /\ Forall (fun x => (x <= foldl Z.max n l)%Z) l).
  { induction l as [|y l IH]; intros n; simpl; [split; [lia | constructor]|].
    destruct (IH (Z.max n y)) as [H1 H2]. split; [lia|]. constructor; [lia | done]. }
  unfold mlx_chat_completion_batch. destruct requests as [|r requests]; [done|].
  set (all := r :: requests). destruct (mx_loaded s), (mx_model s) as [m|]; try done.
  intros ((prompts & tokenized) & Hr & (texts & Hb & H)%rbind_Ret)%rbind_Ret.
  destruct (length texts =? length all)%nat eqn:El; [|done]. cbn [negb] in H.
  assert (Hinj : forall a b : list ChatCompletionResponse, Ret a = Ret b -> b = a) by (by intros ? ? [= ->]).
  apply Hinj in H as ->. apply Nat.eqb_eq in El.
  assert (Hlen : forall rs ps ts, render_all py_str tokenizer_of m rs = Ret (ps, ts) -> length ps = length rs).
  { induction rs as [|q rs IH]; intros ps ts H; simpl in H; [by simplify_eq|].
    apply rbind_Ret in H as (p & _ & H). destruct (mt_encode _ _); [|done].
    apply rbind_Ret in H as ([ps' ts'] & H & [= <- _]). simpl. by rewrite (IH _ _ H). }
  apply Hlen in Hr. split.
  - apply list_eq. intros i. rewrite !list_lookup_fmap, list_lookup_imap.
    destruct (all !! i) as [q|] eqn:Eq.
    + assert (Hi : i < length all) by (by apply lookup_lt_Some in Eq).
      destruct (lookup_lt_is_Some_2 texts i) as [t Et]; [lia|].
      destruct (lookup_lt_is_Some_2 prompts i) as [p Ep]; [lia|].
      assert (Hz : zip (zip all texts) prompts !! i = Some (q, t, p))
        by (apply lookup_zip_Some; split; [by apply lookup_zip_Some | done]).
      by rewrite Hz.
    + assert (Hz : zip (zip all texts) prompts !! i = None)
        by (apply lookup_ge_None; apply lookup_ge_None in Eq; rewrite length_zip, length_zip; lia).
      by rewrite Hz.
  - unfold batch_max_tokens. subst all. simpl map.
    destruct (Hmax (map (fun r => max_tokens_or (backend_attr "max_tokens" r) 256) requests)
      (max_tokens_or (backend_attr "max_tokens" r) 256)) as [H1 H2].
    constructor; [done|]. exact (proj1 (Forall_fmap _ _ _) H2).
Qed.
End mlx_state.

(** A temperature of 0.7 that a client asks for is not passed on. *)
Theorem default_temperature_is_dropped prompt n :
  gen_kwargs prompt n (PFloat (7 # 10)) = [("prompt", PStr prompt); ("max_tokens", PInt n)].
Proof. reflexivity. Qed.

(** After the token is cancelled the loop yields no further text. *)
Theorem no_text_after_cancellation chunk cancelled leave texts exn n :
  stays cancelled -> cancelled (S n) = true ->
  length (yields (fst (pull chunk cancelled 1 leave texts exn))) <= n.
Proof.
  intros Hst Hn.
  assert (H : forall texts i leave, length (yields (fst (pull chunk cancelled i leave texts exn))) <= S n - i).
  { clear leave texts. induction texts as [|t texts IH]; intros i leave; simpl; [lia|].
    destruct (cancelled i) eqn:Ei; [simpl; lia|].
    assert (i <= n) by (destruct (decide (i <= n)); [done | rewrite (Hst (S n) i) in Ei; [done | lia | done]]).
    destruct (String.eqb t ""); [specialize (IH (S i) leave); lia|].
    destruct leave as [[|k]|]; [simpl; lia| |];
      match goal with |- context [pull _ _ _ ?l texts exn] => specialize (IH (S i) l) end;
      destruct (pull _ _ _ _ _ _) as [effects fate]; simpl in *; lia. }
  specialize (H texts 1 leave). lia.
Qed.

(** ** A concrete history *)

Definition demo_model : MLXTokenizer := mkMLXTokenizer "demo" 1 None None (fun _ => Some [1%Z]).
Definition demo_load (path : string) : pyres MLXTokenizer := Ret demo_model.

